(* ===== verification/_CoqProject ===== *)
-Q . S2P
Prelude.v
My402List.v
Warmup1.v
Warmup2.v
Warmup2Input.v
KEnv.v
Vmmap.v
VmAccess.v
MmObj.v
MmInv.v
MmPut.v
MmCow.v
Pageout.v
ForkVm.v
MmBridge.v
MmFrames.v
Sched.v
Proc.v
ProcInv.v
ProcThm.v
ProcEx.v
Boot.v
BootThm.v
Fork.v
ForkEx.v
Vnode.v
Namev.v
VfsSyscall.v
TinyFs.v
Syscall.v
SyscallThm.v
SyscallIo.v
SyscallEx.v
