(* ===== verification/Prelude.v ===== *)
(** * Verification of the CSCI402 code base

    The repository holds three programs in C: two user programs, the
    transaction sorter Warmup1 on a doubly linked list and the token-bucket
    emulator Warmup2 with its five POSIX threads, and the student-written
    parts of the Weenix kernel (scheduler, processes and threads, virtual
    file system, virtual memory).  This library is a shallow embedding of
    their code with the theorems that make it correct.

    ** How the code is modelled

    A C function is a function of the monad [M S A] of this file: it takes the
    state [S] of its component and returns a value and the new state, or a
    [fault]: [FExit n] for exit(n), [FAssert] for a failed KASSERT or panic,
    [FUndef] for what C leaves undefined (null or dangling pointers, access
    out of bounds, signed overflow) and [FFuel].  A theorem that says a
    function returns therefore says that it terminates, that no assertion
    fails and that nothing undefined happens.  Pointers are integers, 0 is
    NULL, and a heap is a finite map from addresses to records with the
    fields of the C structure.  Integers are [Z] with [u32] and [s32] where
    the C type wraps.  [wp m s Q] is total correctness of a run.

    Code that is not part of the repository is a parameter, a type class
    whose fields are the operations and whose laws are what their
    documentation promises:
    - [KList] (util/list.h) with [StaleList] (a list whose elements were
      linked elsewhere), [Slab] (the slab allocator), [KGeometry] (page size
      and user address range), [KErrno], [Malloc] (malloc of the user
      programs), [PageAlloc] (page allocation);
    - [Mmobjs], [MmPages], [Files], [Mmu], [PtOps], [PtUnmap] and [MapFlags]:
      memory objects, pages, descriptors and page tables as the address-space
      code sees them; [ShadowFields] and [ForkObjs] are what fork needs of
      memory objects besides;
    - [MmHeader], [VnodeObjs] and [VnMmap]: the macros of mm/mmobj.h and the
      memory objects of vnodes;
    - [KLink] and [KIntr]: queue links and interrupt levels; [ProcConsts],
      [Contexts] and [RegsLayout]: the constants of proc/proc.h, machine
      contexts and the layout of the saved registers; [ProcRes] (and [OtherRes]):
      the files, vnodes, address spaces, page directories and stacks a
      process holds; [Stacks]: where stacks are;
    - [FsOps], [VnOps] and [FileOps]: a file system and the descriptor
      helpers as the system calls see them;
    - [KMem], [UserAccess], [ArgLayouts] and [SysConsts]: kmalloc and page
      allocation, reading user memory without a copy, the layout of the argument
      structures and the numbers of the calls; [ProcCalls]: the calls about
      processes as api/syscall.c makes them (most are modelled in Proc and Fork,
      on their own state).
    Each class has an instance, in its own file or in TinyFs, ProcEx, ForkEx
    or SyscallEx, on which the witnesses run.  [Mmobjs], [ShadowFields] and
    [ForkObjs] are discharged from the code of vm/anon.c and vm/shadow.c in
    MmBridge, and the part of [ProcRes] about address spaces from the code of
    vm/vmmap.c in Fork; [Files] is discharged from the descriptors of
    VfsSyscall in Syscall.

    ** The files

    - Prelude: outcomes, the monad, loops, machine integers, [wp] and the
      tactics.
    - My402List: Warmup1/my402list.c.  Elements in a heap with [prev] and
      [next]; every function of the file; refinement of a list of values
      ([my402list_refines]).
    - Warmup1: Warmup1/warmup1.c.  The line parser with its checks
      (checkLine, checkType, checkTime, checkAmount, checkDesc),
      [BubbleSortForwardList], the formatted table and [main].
      The program sorts, rejects duplicate time stamps and prints balances;
      formatting and reading an amount are inverse.
    - Warmup2: Warmup2/warmup2.c, the threads.  Each thread is a list of
      atomic actions between lock, wait, signal and unlock; the step relation
      interleaves the packet, token, two server and signal threads.  Packets
      are conserved and leave in order, the bucket never overflows, the
      emulation cannot deadlock, and where the mutex is not held the token
      thread and the servers race.
    - Warmup2Input: Warmup2/warmup2.c, options and trace file, time stamps.
    - KEnv: the environment of the kernel files and its instances.
    - Vmmap: vm/vmmap.c.  Areas in a heap, a sorted list per address space;
      an abstract address space (a partial function from page numbers to
      object pages) is the specification of lookup, find_range, insert, map,
      remove, is_range_empty, clone and destroy.
    - VmAccess: vmmap_read and vmmap_write, api/access.c, vm/mmap.c,
      vm/brk.c and vm/pagefault.c on top of Vmmap.
    - MmObj: mm/pframe.c, vm/anon.c and vm/shadow.c.  Page frames in a hash
      table and on the lists of their objects, memory objects with their
      reference counts and shadow chains; the model.
    - MmInv, MmPut, MmCow: the invariant (every reference to an object is
      held by an area, a shadow object or a resident page), the operations
      that give references back, and looking pages up: an object shows
      a page of bytes, the nearest copy along its chain, and copy on write
      after fork changes only the writer's view ([fork_isolation]).
    - Pageout: cleaning pages and the pageout daemon.
    - ForkVm: the part of proc/fork.c that copies the address space: pages
      are shared or shadowed in both processes ([fork_space_correct]).
    - MmBridge: the memory objects of MmObj satisfy what Vmmap and ForkVm
      assume of memory objects.
    - Sched: proc/sched.c, proc/sched_helper.c and proc/kmutex.c.  Run queue,
      wait queues, cancellation; a transition system of kernel threads whose
      reachable states keep each thread on at most one queue and each mutex
      with at most one holder.
    - Proc: proc/proc.c and proc/kthread.c on the state of Sched; the model.
    - ProcInv, ProcThm, ProcEx: the invariant of processes (a tree with
      [proc_list], children lists and threads that agree, every resource
      accounted for), the theorems (every operation keeps it; creation,
      numbers, exit, wait, and that an exiting child wakes its parent), and
      a family of processes on which the witnesses run.
    - Boot, BootThm: main/kmain.c up to the first wait of the idle process, and
      pageoutd_init of mm/pframe.c, over Proc: the kernel starts, and the
      invariant of processes holds from then on ([kernel_boots]).
    - Fork, ForkEx: all of [do_fork], over Proc and the address spaces of
      ForkVm, and its example.
    - Vnode: fs/vnode.c.  The vnode table, vget, vref, vput and the special
      files.
    - Namev: fs/namev.c.  lookup, dir_namev, open_namev on paths.
    - VfsSyscall: fs/vfs_syscall.c and fs/open.c.  All system calls of the
      file system; each returns every reference it takes, on every path.
    - TinyFs: an instance of the file-system interfaces (a file system with
      a few inodes), on which the witnesses of the three files above run.
    - Syscall: api/syscall.c, and user_strdup and user_vecdup of api/access.c, on
      the address space of VmAccess, the files of VfsSyscall and the memory a
      call has allocated.
    - SyscallThm: every call gives back the memory it takes
      ([syscall_balanced]).
    - SyscallIo: reading, writing and paths, byte for byte from user memory to
      the file system and back; bad arguments; the handler; lengths that the
      kernel does not check.
    - SyscallEx: a process on which their witnesses run.

    The components interact as in the code: Warmup1 calls My402List; VmAccess
    calls Vmmap, which calls memory objects (MmBridge connects it to MmObj);
    Proc runs on Sched, and Fork calls Proc and Vmmap; VfsSyscall calls Namev,
    which calls Vnode; Syscall calls VmAccess and VfsSyscall; kernel objects
    reach each other through the interfaces.

    ** Bounds and fuel

    - Loops over a list take the list as their fuel; [mloop] and the loops
      with a counter take a number of iterations that the theorems show to be
      enough: the length of the list in Warmup1, the number of bytes left in
      [vmmap_read] and [vmmap_write] (each iteration moves on by at least
      one), one more than the length of the path in [resolve_loop] (each
      iteration consumes a character).
    - [vput_] has depth 2: the call inside [pframe_free] finds the vnode with
      fewer pages than references and goes no further ([vput_correct]).
    - [mmo_put_] has one level more than there are objects: each recursive
      call goes down a shadow chain, which has no repeated object
      ([mmo_put_correct]).  The loops along a shadow chain take the number of
      objects.  [lookuppage_] has depth 2: a shadow object asks the bottom
      object, which is not a shadow object.
    - [pageout_loop] takes one iteration per allocated page; [getid_loop] at
      most PROC_MAX_COUNT numbers ([proc_getid_correct]).
    - [getdents_loop] takes one iteration per byte of the count (a directory
      entry has at least one), the loops over an argument vector one per byte of
      its block (an entry has at least one).  The number of commands of a
      kernel shell is the parameter [fuel] of [syscall_dispatch]: a shell
      runs until its user leaves it, and the theorems hold for every fuel.
    - Where kernel code would sleep in the middle of a file-system call, the
      model stops with [FFuel]; the theorems state the condition under which
      it does not sleep.  A sleep in proc.c or sched.c is the value [Blocked]
      of the call, and [resume] is what the thread does when it runs again.

    ** Not modelled, and why

    - The double-precision arithmetic of Warmup2 (rates, statistics) and its
      output: no theorem depends on their digits; the time stamps are
      integers and are modelled.  Warmup1/listtest.c is a test driver.
    - main/kmain.c: kmain itself, which sets up the hardware, the shutdown when
      the init process has exited, and initproc_run, which starts /sbin/init.
    - proc/proc.c: proc_init and the debugging printers proc_info and
      proc_list_info; mm/pframe.c: pframe_init, pframe_shutdown and
      pageoutd_exit; proc/kthread.c and vm: the functions that create slab
      allocators.
    - fs/vnode.c: vnode_flush_all and the four pass-through functions of
      special files (mmap, fillpage, dirtypage, cleanpage).
    - vm/vmmap.c: vmmap_mapping_info, a debugging printer.
    - Code under configuration switches that are off (MTP, MOUNTING, SHADOWD,
      GETCWD, PIPES).

    The interfaces that stay: [OtherRes] (the files, page directories and
    stacks of a process) and [ProcCalls] are promises of one component to
    another that are not discharged here, because Vnode and VfsSyscall keep the
    descriptors of one process and Proc those of all. *)
From stdpp Require Import base gmap list strings sorting.
From Stdlib Require Import ZArith Lia.
Open Scope Z_scope.

(** ** Outcomes of C code

    A fragment of C code either returns or stops: [exit(n)], a failed
    [KASSERT] (a kernel panic), an operation the C standard leaves undefined
    (null dereference, use after free, out-of-bounds access, signed overflow),
    or the fuel of a modelled loop running out. *)
Inductive fault :=
| FExit (code : Z)
| FAssert
| FUndef
| FFuel.

#[export] Instance fault_eq_dec : EqDecision fault.
Proof. solve_decision. Defined.

Inductive outcome (A : Type) :=
| Ok (a : A)
| Err (f : fault).
Arguments Ok {A} a.
Arguments Err {A} f.

(** ** The state-and-fault monad of the models *)
Definition M (S A : Type) : Type := S -> outcome (A * S).

Definition mret_ {S A} (a : A) : M S A := fun s => Ok (a, s).
Definition mbind_ {S A B} (m : M S A) (k : A -> M S B) : M S B :=
  fun s => match m s with
           | Ok (a, s') => k a s'
           | Err f => Err f
           end.
Definition mfail {S A} (f : fault) : M S A := fun _ => Err f.
Definition mget {S A} (f : S -> A) : M S A := fun s => Ok (f s, s).
Definition mput {S} (f : S -> S) : M S unit := fun s => Ok (tt, f s).
(** A value that must be present: a pointer to be dereferenced. *)
Definition mthe {S A} (o : option A) : M S A :=
  match o with Some a => mret_ a | None => mfail FUndef end.
Definition mguard {S} (b : bool) (f : fault) : M S unit :=
  if b then mret_ tt else mfail f.
Definition KASSERT {S} (b : bool) : M S unit := mguard b FAssert.

Declare Scope c_scope.
Delimit Scope c_scope with c.
Notation "'let!' x ':=' e 'in' k" := (mbind_ e (fun x => k))
  (at level 10, x pattern, e at level 100, k at level 200) : c_scope.
Notation "e ';;;' k" := (mbind_ e (fun _ => k))
  (at level 199, right associativity) : c_scope.
Open Scope c_scope.

(** A C loop: the body either continues with a new loop state or leaves the
    loop with a result; [fuel] bounds the number of iterations. *)
Fixpoint mloop {S X R} (fuel : nat) (body : X -> M S (X + R)) (x : X) : M S R :=
  match fuel with
  | O => mfail FFuel
  | S n => let! r := body x in
           match r with
           | inl x' => mloop n body x'
           | inr v => mret_ v
           end
  end.

(** ** Machine integers *)
Definition INT_MAX : Z := 2147483647.
Definition INT_MIN : Z := -2147483648.
(** Reduction of an unsigned 32-bit expression. *)
Definition u32 (z : Z) : Z := z mod 2 ^ 32.
(** The value of a 32-bit pattern read as a signed [int]. *)
Definition s32 (z : Z) : Z :=
  let u := u32 z in if u <? 2 ^ 31 then u else u - 2 ^ 32.

Lemma u32_small z : 0 <= z < 2 ^ 32 -> u32 z = z.
Proof. intros. by apply Z.mod_small. Qed.

Lemma u32_bounds z : 0 <= u32 z < 2 ^ 32.
Proof. apply Z.mod_pos_bound. lia. Qed.

Lemma s32_small z : INT_MIN <= z <= INT_MAX -> s32 z = z.
Proof.
  unfold s32, u32, INT_MIN, INT_MAX. intros H.
  destruct (Z.ltb_spec (z mod 2 ^ 32) (2 ^ 31)) as [Hl|Hl].
  - destruct (decide (0 <= z)).
    + apply Z.mod_small. lia.
    + rewrite <- (Z.mod_add z 1), Z.mod_small in Hl by lia. lia.
  - destruct (decide (0 <= z)).
    + rewrite Z.mod_small in Hl by lia. lia.
    + rewrite <- (Z.mod_add z 1), Z.mod_small by lia. lia.
Qed.

(** ** Tactics for monadic code *)
Create HintDb cmonad.
#[export] Hint Unfold mret_ mbind_ mfail mget mput mthe mguard KASSERT : cmonad.

(** Run the next pure steps of a monadic program. *)
Ltac munfold := unfold mret_, mbind_, mfail, mget, mput, mthe, mguard, KASSERT in *.
Ltac msimpl := munfold; cbn beta iota zeta in *; simpl in *.

(** Resolve the [decide]s of the goal whose answer the context gives. *)
Ltac simpl_decide :=
  repeat first [ rewrite decide_True by (done || congruence)
               | rewrite decide_False
                   by first [done | congruence | intros ->; set_solver | intros <-; set_solver] ].

(** Split an equation [mbind_ m k s = Ok r] into the two runs. *)
Lemma mbind_Ok {S A B} (m : M S A) (k : A -> M S B) s r :
  mbind_ m k s = Ok r <-> exists a s', m s = Ok (a, s') /\ k a s' = Ok r.
Proof.
  unfold mbind_. split.
  - destruct (m s) as [[a s']|f] eqn:E; naive_solver.
  - intros (a & s' & -> & ?). done.
Qed.

Lemma mbind_run {S A B} (m : M S A) (k : A -> M S B) s a s' :
  m s = Ok (a, s') -> mbind_ m k s = k a s'.
Proof. unfold mbind_. by intros ->. Qed.

Lemma mbind_err {S A B} (m : M S A) (k : A -> M S B) s f :
  m s = Err f -> mbind_ m k s = Err f.
Proof. unfold mbind_. by intros ->. Qed.

(** ** Total correctness

    [wp m s Q]: run from [s], [m] returns, and [Q] holds of its result and
    final state. *)
Definition wp {S A} (m : M S A) (s : S) (Q : A -> S -> Prop) : Prop :=
  match m s with Ok (a, s') => Q a s' | Err _ => False end.

Section Wp.
Context {S : Type}.
Implicit Types s : S.

Lemma wp_ok {A} (m : M S A) s Q : wp m s Q <-> exists a s', m s = Ok (a, s') /\ Q a s'.
Proof. unfold wp. destruct (m s) as [[a s']|]; naive_solver. Qed.
Lemma wp_pair {A B} (m : M S (A * B)) s (Q : A -> B -> S -> Prop) :
  wp m s (fun '(a, b) s' => Q a b s') -> exists a b s', m s = Ok ((a, b), s') /\ Q a b s'.
Proof. intros ([a b] & s' & H & HQ)%wp_ok. by exists a, b, s'. Qed.
Lemma wp_mono {A} (m : M S A) s (Q R : A -> S -> Prop) :
  wp m s Q -> (forall a s', Q a s' -> R a s') -> wp m s R.
Proof. unfold wp. destruct (m s) as [[a s']|]; auto. Qed.
Lemma wp_bind {A B} (m : M S A) (k : A -> M S B) s Q :
  wp m s (fun a s' => wp (k a) s' Q) -> wp (mbind_ m k) s Q.
Proof. unfold wp, mbind_. destruct (m s) as [[a s']|]; auto. Qed.
Lemma wp_ret {A} (a : A) s Q : Q a s -> wp (mret_ a) s Q.
Proof. done. Qed.
Lemma wp_get {A} (f : S -> A) s Q : Q (f s) s -> wp (mget f) s Q.
Proof. done. Qed.
Lemma wp_put f s Q : Q tt (f s) -> wp (mput f) s Q.
Proof. done. Qed.
Lemma wp_the {A} (o : option A) a s Q : o = Some a -> Q a s -> wp (mthe o) s Q.
Proof. by intros ->. Qed.
Lemma wp_guard b f s Q : b = true -> Q tt s -> wp (mguard b f) s Q.
Proof. by intros ->. Qed.
End Wp.

(** Step through the monadic code of a [wp] goal. *)
Ltac wp_step :=
  match goal with
  | |- wp (mbind_ _ _) _ _ => apply wp_bind
  | |- wp (mret_ _) _ _ => apply wp_ret
  | |- wp (mget _) _ _ => apply wp_get
  | |- wp (mput _) _ _ => apply wp_put
  | |- wp (KASSERT _) _ _ => apply wp_guard; [|]
  | |- wp (mguard _ _) _ _ => apply wp_guard; [|]
  end.
(** Booleans of assertions about integers. *)
Ltac zbool :=
  rewrite ?andb_true_iff, ?orb_true_iff, ?negb_true_iff, ?Z.eqb_eq, ?Z.eqb_neq, ?Z.ltb_lt, ?Z.leb_le,
    ?Z.ltb_ge, ?Z.leb_gt; try (done || lia).

(** ** Lists *)
Lemma NoDup_app_cons_notin {A} (xs ys : list A) x :
  NoDup (xs ++ x :: ys) -> x ∉ xs /\ x ∉ ys.
Proof.
  rewrite NoDup_app. setoid_rewrite NoDup_cons. intros (_ & Hd & Hn & _).
  split; [|done]. intros Hx. apply (Hd x Hx). by left.
Qed.
Lemma filter_id {A} (P : A -> Prop) `{!forall x, Decision (P x)} (l : list A) :
  (forall x, x ∈ l -> P x) -> base.filter P l = l.
Proof.
  induction l as [|x l IH]; intros Hall; [done|]. rewrite filter_cons_True by (apply Hall; by left).
  f_equal. apply IH. intros y Hy. apply Hall. by right.
Qed.
Lemma NoDup_app_cons_del {A} (xs ys : list A) x : NoDup (xs ++ x :: ys) -> NoDup (xs ++ ys).
Proof. rewrite <- Permutation_middle. rewrite NoDup_cons. by intros [_ ?]. Qed.
