(* ===== verification/My402List.v ===== *)
(** * The doubly linked circular list of my402list.c

    The list is modelled at the level of the C code: a heap of
    [My402ListElem] cells (the anchor of a list included) reached through
    addresses, with one definition per function of my402list.c.  The
    representation predicate [list_rep] relates such a heap to a plain list of
    (address, object) pairs, and the theorems show that every function
    implements its list operation on that view and leaves every other cell of
    the heap alone. *)
From stdpp Require Import base gmap list fin_maps.
From Stdlib Require Import ZArith Lia.
From S2P Require Import Prelude.
Open Scope Z_scope.
Open Scope c_scope.

(** ** Memory *)

(** Addresses are integers and [NULL] is 0. *)
Abbreviation addr := Z.
Definition NULL : addr := 0.

Record My402ListElem := mkElem { obj : Z; next : addr; prev : addr }.

(** [elems] holds every allocated cell; the anchor cell of the list [L] is
    stored at the address [L] itself, and [nums] holds [L->num_members]. *)
Record mem := mkMem { elems : gmap Z My402ListElem; nums : gmap Z Z }.

Definition set_obj (o : Z) (e : My402ListElem) := mkElem o (next e) (prev e).
Definition set_next (n : addr) (e : My402ListElem) := mkElem (obj e) n (prev e).
Definition set_prev (p : addr) (e : My402ListElem) := mkElem (obj e) (next e) p.

Definition load (p : addr) : M mem My402ListElem :=
  fun m => mthe (elems m !! p) m.
Definition store (p : addr) (f : My402ListElem -> My402ListElem) : M mem unit :=
  let! e := load p in mput (fun m => mkMem (<[p := f e]> (elems m)) (nums m)).
Definition load_num (L : addr) : M mem Z := fun m => mthe (nums m !! L) m.
Definition store_num (L : addr) (n : Z) : M mem unit :=
  let! _ := load_num L in mput (fun m => mkMem (elems m) (<[L := n]> (nums m))).
Definition free (p : addr) : M mem unit :=
  let! _ := load p in mput (fun m => mkMem (delete p (elems m)) (nums m)).

(** [num_members++]: overflow of [int] is undefined. *)
Definition incr_num (L : addr) : M mem unit :=
  let! n := load_num L in
  mguard (n <? INT_MAX) FUndef ;;; store_num L (n + 1).
Definition decr_num (L : addr) : M mem unit :=
  let! n := load_num L in
  mguard (INT_MIN <? n) FUndef ;;; store_num L (n - 1).

Definition TRUE : Z := 1.
Definition FALSE : Z := 0.

(** What the code relies on from [malloc]: it may fail, and a block it
    returns is not [NULL] and not in use. *)
Class Malloc := {
  malloc_pick : mem -> option addr;
  malloc_fresh : forall m p, malloc_pick m = Some p ->
    p <> NULL /\ elems m !! p = None;
}.

(** ** The functions of my402list.c *)
Section Ops.
Context `{MA : Malloc}.

(** [malloc(sizeof(My402ListElem))]: the fields of the block are
    indeterminate, represented by zeros that no function reads before
    writing. *)
Definition malloc : M mem addr :=
  fun m => match malloc_pick m with
           | Some p => Ok (p, mkMem (<[p := mkElem 0 0 0]> (elems m)) (nums m))
           | None => Ok (NULL, m)
           end.

Definition My402ListLength (L : addr) : M mem Z := load_num L.

Definition My402ListEmpty (L : addr) : M mem bool :=
  let! n := load_num L in mret_ (n =? 0).

Definition My402ListFirst (L : addr) : M mem addr :=
  let! e := My402ListEmpty L in
  if e then mret_ NULL
  else let! a := load L in mret_ (next a).

Definition My402ListLast (L : addr) : M mem addr :=
  let! e := My402ListEmpty L in
  if e then mret_ NULL
  else let! a := load L in mret_ (prev a).

Definition My402ListNext (L cur : addr) : M mem addr :=
  let! last := My402ListLast L in
  if last =? cur then mret_ NULL
  else let! c := load cur in mret_ (next c).

Definition My402ListPrev (L cur : addr) : M mem addr :=
  let! first := My402ListFirst L in
  if first =? cur then mret_ NULL
  else let! c := load cur in mret_ (prev c).

Definition My402ListAppend (L : addr) (o : Z) : M mem Z :=
  let! newElem := malloc in
  if newElem =? NULL then mret_ FALSE
  else
    store newElem (set_obj o) ;;;
    let! e := My402ListEmpty L in
    if e then
      incr_num L ;;;
      store L (set_next newElem) ;;;
      store L (set_prev newElem) ;;;
      store newElem (set_prev L) ;;;
      store newElem (set_next L) ;;;
      mret_ TRUE
    else
      incr_num L ;;;
      let! last := My402ListLast L in
      store newElem (set_prev last) ;;;
      store newElem (set_next L) ;;;
      store last (set_next newElem) ;;;
      store L (set_prev newElem) ;;;
      mret_ TRUE.

Definition My402ListPrepend (L : addr) (o : Z) : M mem Z :=
  let! newElem := malloc in
  if newElem =? NULL then mret_ FALSE
  else
    store newElem (set_obj o) ;;;
    let! e := My402ListEmpty L in
    if e then
      incr_num L ;;;
      store L (set_next newElem) ;;;
      store L (set_prev newElem) ;;;
      store newElem (set_prev L) ;;;
      store newElem (set_next L) ;;;
      mret_ TRUE
    else
      incr_num L ;;;
      let! first := My402ListFirst L in
      store newElem (set_prev L) ;;;
      store newElem (set_next first) ;;;
      store L (set_next newElem) ;;;
      store first (set_prev newElem) ;;;
      mret_ TRUE.

Definition My402ListUnlink (L elem : addr) : M mem unit :=
  let! e := load elem in
  let p := prev e in
  let n := next e in
  store p (set_next n) ;;;
  store n (set_prev p) ;;;
  store elem (set_prev NULL) ;;;
  store elem (set_next NULL) ;;;
  free elem ;;;
  decr_num L.

Definition My402ListInit (L : addr) : M mem Z :=
  (* memset(my402List, 0, sizeof(My402List)) and the three stores *)
  store L (fun _ => mkElem 0 NULL NULL) ;;;
  store_num L 0 ;;;
  store L (set_prev NULL) ;;;
  store L (set_next NULL) ;;;
  mret_ TRUE.

Definition My402ListInsertAfter (L : addr) (o : Z) (elem : addr) : M mem Z :=
  if elem =? NULL then My402ListAppend L o
  else
    incr_num L ;;;
    let! newElem := malloc in
    store newElem (set_obj o) ;;;
    let! e := load elem in
    let n := next e in
    store newElem (set_prev elem) ;;;
    store newElem (set_next n) ;;;
    store elem (set_next newElem) ;;;
    store n (set_prev newElem) ;;;
    mret_ TRUE.

Definition My402ListInsertBefore (L : addr) (o : Z) (elem : addr) : M mem Z :=
  if elem =? NULL then My402ListPrepend L o
  else
    incr_num L ;;;
    let! newElem := malloc in
    store newElem (set_obj o) ;;;
    let! e := load elem in
    let p := prev e in
    store newElem (set_prev p) ;;;
    store newElem (set_next elem) ;;;
    store p (set_next newElem) ;;;
    store elem (set_prev newElem) ;;;
    mret_ TRUE.

(** The loops visit each cell of the heap at most once, so the number of
    cells plus two bounds their iterations. *)
Definition loop_bound (m : mem) : nat := S (S (size (elems m))).

Definition My402ListUnlinkAll (L : addr) : M mem Z :=
  let! cur := My402ListFirst L in
  let! curNext := My402ListNext L cur in
  let! fuel := mget loop_bound in
  mloop fuel (fun '(cur, curNext) =>
    if cur =? NULL then mret_ (inr tt)
    else
      My402ListUnlink L cur ;;;
      let! n := My402ListNext L curNext in
      mret_ (inl (curNext, n))) (cur, curNext) ;;;
  My402ListInit L.

Definition My402ListFind (L : addr) (o : Z) : M mem addr :=
  let! first := My402ListFirst L in
  let! fuel := mget loop_bound in
  mloop fuel (fun cur =>
    if cur =? NULL then mret_ (inr NULL)
    else
      let! c := load cur in
      if obj c =? o then mret_ (inr cur)
      else let! n := My402ListNext L cur in mret_ (inl n)) first.

End Ops.

(** ** The list view of the heap *)
Section View.
Implicit Types (h : gmap Z My402ListElem) (m : mem) (a b p L : addr).
Implicit Types (xs ys : list (Z * Z)).

Definition nxt h p : option addr := next <$> h !! p.
Definition prv h p : option addr := prev <$> h !! p.
Definition ob h p : option Z := obj <$> h !! p.

(** [dseg h a xs b]: following [next] from [a] visits the cells of [xs] and
    arrives at [b], and following [prev] from [b] visits them backwards. *)
Fixpoint dseg h a xs b : Prop :=
  match xs with
  | [] => nxt h a = Some b /\ prv h b = Some a
  | (p, o) :: ys =>
      nxt h a = Some p /\ prv h p = Some a /\ ob h p = Some o /\ dseg h p ys b
  end.

Definition ptrs xs : list addr := xs.*1.
Definition last_ptr a xs : addr := default a (last (ptrs xs)).
Definition head_ptr b ys : addr := default b (head (ptrs ys)).

(** The list [L] holds the cells and objects [xs], in order.  The links of
    the anchor of an empty list are not constrained: [My402ListInit] clears
    them and [My402ListUnlink] leaves them pointing at the anchor. *)
Record list_rep m L xs : Prop := {
  rep_num : nums m !! L = Some (Z.of_nat (length xs));
  rep_nodup : NoDup (L :: ptrs xs);
  rep_null : NULL ∉ L :: ptrs xs;
  rep_anchor : is_Some (elems m !! L);
  rep_seg : xs <> [] -> dseg (elems m) L xs L;
}.

(** [m'] differs from [m] only at the addresses [S]. *)
Definition frame m m' (S : list addr) : Prop :=
  forall x, x ∉ S -> elems m' !! x = elems m !! x /\ nums m' !! x = nums m !! x.

(** The two heap updates of the list operations: linking a fresh cell
    between [c] and [d], and unlinking the cell between them. *)
Definition link h c d p (o : Z) :=
  alter (set_prev p) d (alter (set_next p) c (<[p := mkElem o d c]> h)).
Definition unlink h c d p :=
  delete p (alter (set_prev c) d (alter (set_next d) c h)).

Arguments nxt : simpl never.
Arguments prv : simpl never.
Arguments ob : simpl never.
Arguments link : simpl never.
Arguments unlink : simpl never.
Arguments ptrs : simpl never.

Lemma ptrs_cons p o xs : ptrs ((p, o) :: xs) = p :: ptrs xs.
Proof. done. Qed.
Lemma ptrs_app xs ys : ptrs (xs ++ ys) = ptrs xs ++ ptrs ys.
Proof. apply fmap_app. Qed.

Lemma nxt_alter_next h c v x :
  nxt (alter (set_next v) c h) x =
  if decide (c = x) then (fun _ => v) <$> nxt h x else nxt h x.
Proof. unfold nxt. rewrite lookup_alter. case_decide; subst; by destruct (h !! _). Qed.
Lemma nxt_alter_prev h c v x : nxt (alter (set_prev v) c h) x = nxt h x.
Proof. unfold nxt. rewrite lookup_alter. case_decide; subst; by destruct (h !! _). Qed.
Lemma prv_alter_prev h c v x :
  prv (alter (set_prev v) c h) x =
  if decide (c = x) then (fun _ => v) <$> prv h x else prv h x.
Proof. unfold prv. rewrite lookup_alter. case_decide; subst; by destruct (h !! _). Qed.
Lemma prv_alter_next h c v x : prv (alter (set_next v) c h) x = prv h x.
Proof. unfold prv. rewrite lookup_alter. case_decide; subst; by destruct (h !! _). Qed.
Lemma ob_alter_next h c v x : ob (alter (set_next v) c h) x = ob h x.
Proof. unfold ob. rewrite lookup_alter. case_decide; subst; by destruct (h !! _). Qed.
Lemma ob_alter_prev h c v x : ob (alter (set_prev v) c h) x = ob h x.
Proof. unfold ob. rewrite lookup_alter. case_decide; subst; by destruct (h !! _). Qed.

Lemma fields_insert h p e x :
  nxt (<[p := e]> h) x = (if decide (p = x) then Some (next e) else nxt h x) /\
  prv (<[p := e]> h) x = (if decide (p = x) then Some (prev e) else prv h x) /\
  ob (<[p := e]> h) x = (if decide (p = x) then Some (obj e) else ob h x).
Proof. unfold nxt, prv, ob. rewrite lookup_insert. by case_decide. Qed.
Lemma fields_delete_ne h p x :
  p <> x ->
  nxt (delete p h) x = nxt h x /\ prv (delete p h) x = prv h x /\ ob (delete p h) x = ob h x.
Proof. intros. unfold nxt, prv, ob. by rewrite lookup_delete_ne. Qed.

(** The fields of a heap after [link] and after [unlink]. *)
Lemma nxt_link h c d p o x :
  nxt (link h c d p o) x =
  if decide (c = x) then (fun _ => p) <$> nxt (<[p := mkElem o d c]> h) x
  else if decide (p = x) then Some d else nxt h x.
Proof.
  unfold link. rewrite nxt_alter_prev, nxt_alter_next.
  destruct (fields_insert h p (mkElem o d c) x) as (-> & _). done.
Qed.
Lemma prv_link h c d p o x :
  prv (link h c d p o) x =
  if decide (d = x) then (fun _ => p) <$> prv (<[p := mkElem o d c]> h) x
  else if decide (p = x) then Some c else prv h x.
Proof.
  unfold link. rewrite prv_alter_prev, prv_alter_next.
  destruct (fields_insert h p (mkElem o d c) x) as (_ & -> & _). done.
Qed.
Lemma ob_link h c d p o x :
  ob (link h c d p o) x = if decide (p = x) then Some o else ob h x.
Proof.
  unfold link. rewrite ob_alter_prev, ob_alter_next.
  by destruct (fields_insert h p (mkElem o d c) x) as (_ & _ & ->).
Qed.

Lemma dseg_frame h h' a xs b :
  (forall x, x ∈ a :: ptrs xs -> nxt h' x = nxt h x) ->
  (forall x, x ∈ ptrs xs ++ [b] -> prv h' x = prv h x) ->
  (forall x, x ∈ ptrs xs -> ob h' x = ob h x) ->
  dseg h a xs b -> dseg h' a xs b.
Proof.
  revert a. induction xs as [|[p o] xs IH]; simpl; intros a; rewrite ?ptrs_cons; intros Hn Hp Ho.
  - intros [??]. split; [rewrite Hn | rewrite Hp]; set_solver.
  - intros (?&?&?&?). repeat split.
    + rewrite Hn; [done | set_solver].
    + rewrite Hp; [done | set_solver].
    + rewrite Ho; [done | set_solver].
    + apply IH; [.. | done]; intros; [apply Hn | apply Hp | apply Ho]; set_solver.
Qed.

Lemma last_ptr_cons a p o xs : last_ptr a ((p, o) :: xs) = last_ptr p xs.
Proof. unfold last_ptr, ptrs. cbn. destruct (xs.*1) as [|y l]; [done|]. by rewrite (last_cons_cons p y l); destruct (last (y :: l)) eqn:E; [|apply last_None in E]. Qed.
Lemma last_ptr_in a xs : last_ptr a xs ∈ a :: ptrs xs.
Proof.
  unfold last_ptr. destruct (last (ptrs xs)) eqn:E; simpl; [|set_solver].
  apply last_Some_elem_of in E. set_solver.
Qed.
Lemma head_ptr_in b ys : head_ptr b ys ∈ ptrs ys ++ [b].
Proof. destruct ys as [|[]]; unfold head_ptr, ptrs; simpl; set_solver. Qed.

Lemma head_ptr_cons b p o ys : head_ptr b ((p, o) :: ys) = p.
Proof. done. Qed.
Lemma last_ptr_snoc a xs p o : last_ptr a (xs ++ [(p, o)]) = p.
Proof. unfold last_ptr, ptrs. rewrite fmap_app. cbn. by rewrite last_snoc. Qed.

(** The cells around an insertion point are linked to each other. *)
Lemma dseg_around h a xs ys b :
  dseg h a (xs ++ ys) b ->
  nxt h (last_ptr a xs) = Some (head_ptr b ys) /\
  prv h (head_ptr b ys) = Some (last_ptr a xs).
Proof.
  revert a. induction xs as [|[p o] xs IH]; intros a.
  - destruct ys as [|[q o] ys]; cbn; [done | naive_solver].
  - cbn [app dseg]. rewrite last_ptr_cons. intros (_&_&_&?). by apply IH.
Qed.

(** A cell of the segment holds its object and its two neighbours. *)
Lemma dseg_cell h a xs p o ys b :
  dseg h a (xs ++ (p, o) :: ys) b ->
  h !! p = Some (mkElem o (head_ptr b ys) (last_ptr a xs)).
Proof.
  intros H. assert (ob h p = Some o) as Ho.
  { revert a H. induction xs as [|[q o'] xs IH]; intros a; cbn; [naive_solver|].
    intros (_&_&_&?). by eapply IH. }
  pose proof (dseg_around h a xs ((p, o) :: ys) b H) as [_ Hp].
  replace (xs ++ (p, o) :: ys) with ((xs ++ [(p, o)]) ++ ys) in H by by rewrite <- app_assoc.
  pose proof (dseg_around h a _ ys b H) as [Hn _].
  rewrite last_ptr_snoc in Hn. rewrite head_ptr_cons in Hp.
  unfold ob, nxt, prv in *. destruct (h !! p) as [[]|]; simplify_eq/=. congruence.
Qed.

Lemma dseg_link_head h a ys b p o :
  p ∉ a :: ptrs ys -> p <> b -> a ∉ ptrs ys -> NoDup (ptrs ys ++ [b]) ->
  is_Some (nxt h a) -> is_Some (prv h b) ->
  (ys <> [] -> dseg h a ys b) ->
  dseg (link h a (head_ptr b ys) p o) a ((p, o) :: ys) b.
Proof.
  intros Hp Hpb Ha Hnd [va Hva] [vb Hvb] Hseg.
  assert (p <> a) by set_solver.
  assert (head_ptr b ys <> p) as Hd.
  { intros E. pose proof (head_ptr_in b ys). rewrite E in *. set_solver. }
  cbn. rewrite nxt_link, prv_link, ob_link. simpl_decide.
  split; [|split; [done | split; [done|]]].
  { destruct (fields_insert h p (mkElem o (head_ptr b ys) a) a) as (-> & _).
    simpl_decide. by rewrite Hva. }
  destruct ys as [|[q o'] ys]; rewrite ?head_ptr_cons, ?ptrs_cons in *; cbn in *.
  - change (head_ptr b []) with b. rewrite nxt_link, prv_link. simpl_decide. split; [done|].
    destruct (fields_insert h p (mkElem o b a) b) as (_ & -> & _).
    simpl_decide. by rewrite Hvb.
  - destruct Hseg as (?&?&?&Hseg); [done|].
    rewrite nxt_link, prv_link, ob_link. simpl_decide.
    split; [done|]. split.
    { destruct (fields_insert h p (mkElem o q a) q) as (_ & -> & _).
      simpl_decide. by rewrite H1. }
    split; [done|]. apply NoDup_cons in Hnd as [Hq _].
    eapply dseg_frame; [| | | exact Hseg]; intros x Hx.
    + rewrite nxt_link. by simpl_decide.
    + rewrite prv_link. by simpl_decide.
    + rewrite ob_link. by simpl_decide.
Qed.

Lemma dseg_link h a xs ys b p o :
  p ∉ a :: ptrs (xs ++ ys) -> p <> b ->
  NoDup (a :: ptrs (xs ++ ys)) -> NoDup (ptrs (xs ++ ys) ++ [b]) ->
  dseg h a (xs ++ ys) b ->
  dseg (link h (last_ptr a xs) (head_ptr b ys) p o) a (xs ++ (p, o) :: ys) b.
Proof.
  revert a. induction xs as [|[q o'] xs IH]; intros a Hp Hpb Hnd Hnd' Hseg.
  - pose proof (dseg_around h a [] ys b Hseg) as [? _].
    apply dseg_link_head; try done.
    + by apply NoDup_cons in Hnd as [? _].
    + pose proof (dseg_around h a ys [] b) as Hd.
      rewrite app_nil_r in Hd. apply Hd in Hseg as [_ E].
      change (head_ptr b []) with b in E. by rewrite E.
  - rewrite last_ptr_cons. rewrite <- app_comm_cons in *. rewrite ptrs_cons in *.
    cbn [dseg] in Hseg |- *. destruct Hseg as (Hn & Hpv & Ho & Hseg).
    apply NoDup_cons in Hnd as [Ha Hnd].
    rewrite <- app_comm_cons in Hnd'. apply NoDup_cons in Hnd' as [Hq Hnd'].
    specialize (IH q). rewrite ptrs_app in *.
    pose proof (last_ptr_in q xs) as Hl. pose proof (head_ptr_in b ys) as Hh.
    assert (last_ptr q xs <> a) by (intros E; rewrite E in Hl; clear -Hl Ha; set_solver).
    assert (head_ptr b ys <> q) by (intros E; rewrite E in Hh; clear -Hh Hq; set_solver).
    assert (p <> a /\ p <> q /\ p ∉ q :: ptrs xs ++ ptrs ys) as (? & ? & ?)
      by (clear -Hp; set_solver).
    rewrite nxt_link, prv_link, ob_link. simpl_decide.
    do 3 (split; [done|]). by apply IH.
Qed.

Lemma list_rep_link m L xs ys p o :
  list_rep m L (xs ++ ys) -> elems m !! p = None -> p <> NULL ->
  list_rep (mkMem (link (elems m) (last_ptr L xs) (head_ptr L ys) p o)
                  (<[L := Z.of_nat (length (xs ++ ys)) + 1]> (nums m)))
           L (xs ++ (p, o) :: ys).
Proof.
  intros [Hn Hnd Hnull Ha Hs] Hp Hp0.
  assert (p ∉ L :: ptrs (xs ++ ys)) as Hfresh.
  { intros [->|Hin]%elem_of_cons; [destruct Ha; congruence|].
    apply list_elem_of_fmap in Hin as ([q o'] & -> & Hin). cbn in Hp.
    apply list_elem_of_split in Hin as (l1 & l2 & E).
    rewrite E in Hs. destruct l1; by erewrite dseg_cell in Hp by by apply Hs. }
  assert (Permutation (ptrs (xs ++ (p, o) :: ys)) (p :: ptrs (xs ++ ys))) as Eperm.
  { unfold ptrs. rewrite !fmap_app. cbn. by rewrite <- Permutation_middle. }
  split; cbn [elems nums].
  - rewrite lookup_insert_eq, !length_app. cbn. f_equal. lia.
  - rewrite Eperm. apply NoDup_cons in Hnd as [? ?].
    apply NoDup_cons; split; [|apply NoDup_cons]; set_solver.
  - rewrite Eperm. set_solver.
  - unfold link. rewrite !lookup_alter_is_Some, lookup_insert_is_Some'. by right.
  - intros _. apply NoDup_cons in Hnd as Hnd'. destruct Hnd' as [HL Hnd'].
    destruct (decide (xs ++ ys = [])) as [E|E].
    + apply app_nil in E as [-> ->]. cbn in *.
      assert (p <> L) by set_solver. destruct Ha as [e He].
      unfold head_ptr, last_ptr. cbn.
      rewrite !nxt_link, !prv_link, !ob_link. simpl_decide.
      unfold nxt, prv. rewrite !lookup_insert_ne by done. by rewrite He.
    + apply dseg_link; try done; [set_solver| |by apply Hs].
      apply NoDup_app; repeat split; [done| |apply NoDup_singleton]. set_solver.
Qed.

Lemma fields_unlink h c d p x :
  p <> x ->
  nxt (unlink h c d p) x = (if decide (c = x) then (fun _ => d) <$> nxt h x else nxt h x) /\
  prv (unlink h c d p) x = (if decide (d = x) then (fun _ => c) <$> prv h x else prv h x) /\
  ob (unlink h c d p) x = ob h x.
Proof.
  intros Hx. unfold unlink.
  destruct (fields_delete_ne (alter (set_prev c) d (alter (set_next d) c h)) p x Hx)
    as (-> & -> & ->).
  rewrite nxt_alter_prev, nxt_alter_next, prv_alter_prev, prv_alter_next.
  by rewrite ob_alter_prev, ob_alter_next.
Qed.

Lemma dseg_unlink_head h a p o ys b :
  NoDup (a :: p :: ptrs ys) -> NoDup (p :: ptrs ys ++ [b]) ->
  dseg h a ((p, o) :: ys) b ->
  dseg (unlink h a (head_ptr b ys) p) a ys b.
Proof.
  intros [Ha [Hp Hnd]%NoDup_cons]%NoDup_cons [Hpb Hnd']%NoDup_cons.
  assert (p <> a) by set_solver. assert (p <> b) by set_solver.
  intros (Hna & Hpp & Ho & Hs). destruct ys as [|[q o'] ys]; cbn [dseg] in *.
  - change (head_ptr b []) with b. destruct Hs as [_ Hb].
    destruct (fields_unlink h a b p a) as (-> & _); [done|].
    destruct (fields_unlink h a b p b) as (_ & -> & _); [done|].
    simpl_decide. by rewrite Hna, Hb.
  - rewrite head_ptr_cons. rewrite ptrs_cons in *. destruct Hs as (Hnp & Hpq & Hoq & Hs).
    assert (p <> q) by set_solver. rewrite <- app_comm_cons in Hnd'.
    apply NoDup_cons in Hnd' as [Hq Hnd'].
    destruct (fields_unlink h a q p a) as (-> & _); [done|].
    destruct (fields_unlink h a q p q) as (_ & -> & ->); [done|].
    simpl_decide. rewrite Hna, Hpq. do 3 (split; [done|]).
    eapply dseg_frame; [| | | exact Hs]; intros x Hx;
      (assert (p <> x) as Hpx by (intros <-; set_solver));
      destruct (fields_unlink h a q p x Hpx) as (E1 & E2 & E3);
      rewrite ?E1, ?E2, ?E3; by simpl_decide.
Qed.

Lemma dseg_unlink h a xs p o ys b :
  NoDup (a :: ptrs (xs ++ (p, o) :: ys)) -> NoDup (ptrs (xs ++ (p, o) :: ys) ++ [b]) ->
  dseg h a (xs ++ (p, o) :: ys) b ->
  dseg (unlink h (last_ptr a xs) (head_ptr b ys) p) a (xs ++ ys) b.
Proof.
  revert a. induction xs as [|[q o'] xs IH]; intros a Hnd Hnd' Hseg.
  - by eapply dseg_unlink_head.
  - rewrite last_ptr_cons. rewrite <- app_comm_cons in *. rewrite ptrs_cons in *.
    cbn [dseg app] in Hseg |- *. destruct Hseg as (Hn & Hpv & Ho & Hseg).
    apply NoDup_cons in Hnd as [Ha Hnd].
    rewrite <- app_comm_cons in Hnd'. apply NoDup_cons in Hnd' as [Hq Hnd'].
    specialize (IH q Hnd Hnd' Hseg). rewrite ptrs_app, ptrs_cons in *.
    pose proof (last_ptr_in q xs) as Hl. pose proof (head_ptr_in b ys) as Hh.
    assert (last_ptr q xs <> a) by (intros E; rewrite E in Hl; clear -Hl Ha; set_solver).
    assert (head_ptr b ys <> q) by (intros E; rewrite E in Hh; clear -Hh Hq; set_solver).
    assert (p <> a /\ p <> q) as [??] by (clear -Ha Hq; set_solver).
    destruct (fields_unlink h (last_ptr q xs) (head_ptr b ys) p a) as (-> & _); [done|].
    destruct (fields_unlink h (last_ptr q xs) (head_ptr b ys) p q) as (_ & -> & ->); [done|].
    simpl_decide. by do 3 (split; [done|]).
Qed.

Lemma rep_nodup' m L xs : list_rep m L xs -> NoDup (ptrs xs ++ [L]).
Proof.
  intros [_ Hnd _ _ _]. apply NoDup_cons in Hnd as [HL Hnd].
  apply NoDup_app; repeat split; [done| |apply NoDup_singleton]. set_solver.
Qed.

Lemma list_rep_unlink m L xs p o ys :
  list_rep m L (xs ++ (p, o) :: ys) ->
  list_rep (mkMem (unlink (elems m) (last_ptr L xs) (head_ptr L ys) p)
                  (<[L := Z.of_nat (length (xs ++ (p, o) :: ys)) - 1]> (nums m)))
           L (xs ++ ys).
Proof.
  intros Hrep. pose proof (rep_nodup' _ _ _ Hrep) as Hnd'.
  destruct Hrep as [Hn Hnd Hnull Ha Hs].
  assert (Permutation (ptrs (xs ++ (p, o) :: ys)) (p :: ptrs (xs ++ ys))) as Eperm.
  { unfold ptrs. rewrite !fmap_app. cbn. by rewrite <- Permutation_middle. }
  assert (p <> L) by (apply NoDup_cons in Hnd as [HL _]; rewrite Eperm in HL; set_solver).
  split; cbn [elems nums].
  - rewrite lookup_insert_eq, !length_app. cbn. f_equal. lia.
  - rewrite Eperm in Hnd. apply NoDup_cons in Hnd as [? Hnd].
    apply NoDup_cons in Hnd as [? Hnd]. apply NoDup_cons. set_solver.
  - rewrite Eperm in Hnull. set_solver.
  - unfold unlink. rewrite lookup_delete_ne by done. by rewrite !lookup_alter_is_Some.
  - intros _. eapply dseg_unlink; [done..|]. apply Hs. by destruct xs.
Qed.

(** What [list_rep] gives to the functions: the cells they dereference. *)
Lemma rep_cell m L xs p o ys :
  list_rep m L (xs ++ (p, o) :: ys) ->
  elems m !! p = Some (mkElem o (head_ptr L ys) (last_ptr L xs)).
Proof. intros H. eapply dseg_cell, rep_seg; [done|]. by destruct xs. Qed.

Lemma rep_anchor_cell m L xs :
  list_rep m L xs -> xs <> [] ->
  exists e, elems m !! L = Some e /\ next e = head_ptr L xs /\ prev e = last_ptr L xs.
Proof.
  intros H Hx. destruct (rep_anchor _ _ _ H) as [e He]. exists e. split; [done|].
  pose proof (rep_seg _ _ _ H Hx) as Hs.
  pose proof (dseg_around _ _ [] xs _ Hs) as [Hn _].
  pose proof (dseg_around (elems m) L xs [] L) as Hp. rewrite app_nil_r in Hp.
  apply Hp in Hs as [_ Hs]. change (head_ptr L []) with L in Hs.
  change (last_ptr L []) with L in Hn. unfold nxt, prv in *. rewrite He in *. by simplify_eq/=.
Qed.

Lemma rep_allocated m L xs x :
  list_rep m L xs -> x ∈ L :: ptrs xs -> is_Some (elems m !! x).
Proof.
  intros H [->|Hin]%elem_of_cons; [by eapply rep_anchor|].
  apply list_elem_of_fmap in Hin as ([q o'] & -> & Hin).
  apply list_elem_of_split in Hin as (l1 & l2 & ->). cbn. by rewrite (rep_cell m L l1 q o' l2).
Qed.

Lemma rep_fresh m L xs p :
  list_rep m L xs -> elems m !! p = None -> p ∉ L :: ptrs xs.
Proof. intros H Hp Hin. destruct (rep_allocated _ _ _ _ H Hin). congruence. Qed.

Lemma last_ptr_rep_in m L xs : list_rep m L xs -> is_Some (elems m !! last_ptr L xs).
Proof. intros H. eapply rep_allocated; [done|]. apply last_ptr_in. Qed.
Lemma head_ptr_rep_in m L xs : list_rep m L xs -> is_Some (elems m !! head_ptr L xs).
Proof.
  intros H. eapply rep_allocated; [done|]. pose proof (head_ptr_in L xs). set_solver.
Qed.

(** A list whose cells are outside the frame is unaffected. *)
Lemma list_rep_frame m m' S L xs :
  frame m m' S -> (forall x, x ∈ L :: ptrs xs -> x ∉ S) ->
  list_rep m L xs -> list_rep m' L xs.
Proof.
  intros Hf Hd [Hn Hnd Hnull Ha Hs].
  assert (forall x, x ∈ L :: ptrs xs -> elems m' !! x = elems m !! x) as He.
  { intros x Hx. by apply Hf, Hd. }
  split; try done.
  - destruct (Hf L) as [_ ->]; [apply Hd; set_solver | done].
  - rewrite He by set_solver. done.
  - intros Hx. eapply dseg_frame; [..|by apply Hs]; intros x Hin;
      unfold nxt, prv, ob; rewrite He; set_solver.
Qed.
End View.

(** ** Running the primitive accesses *)
Section Runs.
Implicit Types (m : mem) (p L : addr).

Lemma load_run m p e : elems m !! p = Some e -> load p m = Ok (e, m).
Proof. intros H. unfold load. by rewrite H. Qed.
Lemma load_num_run m L n : nums m !! L = Some n -> load_num L m = Ok (n, m).
Proof. intros H. unfold load_num. by rewrite H. Qed.
Lemma store_run m p f :
  is_Some (elems m !! p) ->
  store p f m = Ok (tt, mkMem (alter f p (elems m)) (nums m)).
Proof.
  intros [e He]. unfold store, mbind_. rewrite (load_run _ _ _ He). unfold mput.
  do 3 f_equal. apply map_eq. intros i. rewrite lookup_insert, lookup_alter.
  case_decide; [by subst; rewrite He | done].
Qed.
Lemma store_num_run m L n :
  is_Some (nums m !! L) -> store_num L n m = Ok (tt, mkMem (elems m) (<[L := n]> (nums m))).
Proof. intros [k Hk]. unfold store_num, mbind_. by rewrite (load_num_run _ _ _ Hk). Qed.
Lemma free_run m p :
  is_Some (elems m !! p) -> free p m = Ok (tt, mkMem (delete p (elems m)) (nums m)).
Proof. intros [e He]. unfold free, mbind_. by rewrite (load_run _ _ _ He). Qed.
Lemma incr_num_run m L n :
  nums m !! L = Some n -> n < INT_MAX ->
  incr_num L m = Ok (tt, mkMem (elems m) (<[L := n + 1]> (nums m))).
Proof.
  intros Hn Hlt. unfold incr_num. rewrite (mbind_run _ _ _ _ _ (load_num_run _ _ _ Hn)).
  apply Z.ltb_lt in Hlt. rewrite Hlt. cbn. by apply store_num_run.
Qed.
Lemma decr_num_run m L n :
  nums m !! L = Some n -> INT_MIN < n ->
  decr_num L m = Ok (tt, mkMem (elems m) (<[L := n - 1]> (nums m))).
Proof.
  intros Hn Hlt. unfold decr_num. rewrite (mbind_run _ _ _ _ _ (load_num_run _ _ _ Hn)).
  apply Z.ltb_lt in Hlt. rewrite Hlt. cbn. by apply store_num_run.
Qed.

Lemma empty_run m L xs :
  list_rep m L xs -> My402ListEmpty L m = Ok (bool_decide (xs = []), m).
Proof.
  intros H. unfold My402ListEmpty.
  rewrite (mbind_run _ _ _ _ _ (load_num_run _ _ _ (rep_num _ _ _ H))).
  unfold mret_. do 2 f_equal. case_bool_decide; [by subst|]. destruct xs; [done|].
  apply Z.eqb_neq. cbn. lia.
Qed.
(** [First] and [Last] of a list whose counter is not zero. *)
Lemma first_raw m L n e :
  nums m !! L = Some n -> n <> 0 -> elems m !! L = Some e ->
  My402ListFirst L m = Ok (next e, m).
Proof.
  intros Hn Hn0 He. unfold My402ListFirst, My402ListEmpty, mbind_.
  rewrite (load_num_run _ _ _ Hn). unfold mret_. apply Z.eqb_neq in Hn0 as ->.
  by rewrite (load_run _ _ _ He).
Qed.
Lemma last_raw m L n e :
  nums m !! L = Some n -> n <> 0 -> elems m !! L = Some e ->
  My402ListLast L m = Ok (prev e, m).
Proof.
  intros Hn Hn0 He. unfold My402ListLast, My402ListEmpty, mbind_.
  rewrite (load_num_run _ _ _ Hn). unfold mret_. apply Z.eqb_neq in Hn0 as ->.
  by rewrite (load_run _ _ _ He).
Qed.
Lemma first_run m L xs :
  list_rep m L xs -> My402ListFirst L m = Ok (head_ptr NULL xs, m).
Proof.
  intros H. unfold My402ListFirst. rewrite (mbind_run _ _ _ _ _ (empty_run _ _ _ H)).
  case_bool_decide as E; [by subst|].
  destruct (rep_anchor_cell _ _ _ H E) as (e & He & Hn & _).
  rewrite (mbind_run _ _ _ _ _ (load_run _ _ _ He)). unfold mret_. rewrite Hn.
  by destruct xs.
Qed.
Lemma last_run m L xs :
  list_rep m L xs -> My402ListLast L m = Ok (last_ptr NULL xs, m).
Proof.
  intros H. unfold My402ListLast. rewrite (mbind_run _ _ _ _ _ (empty_run _ _ _ H)).
  case_bool_decide as E; [by subst|].
  destruct (rep_anchor_cell _ _ _ H E) as (e & He & _ & Hp).
  rewrite (mbind_run _ _ _ _ _ (load_run _ _ _ He)). unfold mret_. rewrite Hp.
  destruct xs as [|[]]; [done|]. by rewrite !last_ptr_cons.
Qed.
End Runs.

(** Step over a store, discharging that the cell is allocated. *)
Ltac allocated :=
  cbn [elems nums]; rewrite ?lookup_alter_is_Some, ?lookup_insert_is_Some'; eauto 3.
Ltac mstore := erewrite mbind_run by (apply store_run; allocated); cbn [elems nums].

Section Specs.
Context `{MA : Malloc}.
Implicit Types (m : mem) (p L : addr) (xs ys : list (Z * Z)).

Lemma malloc_run m p :
  malloc_pick m = Some p ->
  malloc m = Ok (p, mkMem (<[p := mkElem 0 0 0]> (elems m)) (nums m)).
Proof. intros E. unfold malloc. by rewrite E. Qed.

Lemma list_rep_other_cell m L xs p e :
  list_rep m L xs -> elems m !! p = None ->
  list_rep (mkMem (<[p := e]> (elems m)) (nums m)) L xs.
Proof.
  intros H Hp. eapply (list_rep_frame m _ [p]); [|..|done].
  - intros x Hx. cbn. rewrite lookup_insert_ne; [done | set_solver].
  - intros x Hx. pose proof (rep_fresh _ _ _ _ H Hp). set_solver.
Qed.

Lemma link_frame m L xs ys p o n :
  frame m (mkMem (link (elems m) (last_ptr L xs) (head_ptr L ys) p o)
                 (<[L := n]> (nums m))) (L :: p :: ptrs (xs ++ ys)).
Proof.
  intros x Hx. rewrite ptrs_app in Hx. cbn.
  pose proof (last_ptr_in L xs). pose proof (head_ptr_in L ys).
  unfold link. rewrite !lookup_alter_ne, !lookup_insert_ne;
    first [done | intros ->; set_solver | intros E; rewrite E in *; set_solver].
Qed.

Lemma unlink_frame m L xs ys p o n :
  frame m (mkMem (unlink (elems m) (last_ptr L xs) (head_ptr L ys) p)
                 (<[L := n]> (nums m))) (L :: ptrs (xs ++ (p, o) :: ys)).
Proof.
  intros x Hx. rewrite ptrs_app, ptrs_cons in Hx. cbn.
  pose proof (last_ptr_in L xs). pose proof (head_ptr_in L ys).
  unfold unlink. rewrite lookup_delete_ne, !lookup_alter_ne, lookup_insert_ne;
    first [done | intros ->; set_solver | intros E; rewrite E in *; set_solver].
Qed.

(** [My402ListAppend] and [My402ListPrepend] when [malloc] succeeds. *)
Lemma append_run m L xs o p :
  list_rep m L xs -> Z.of_nat (length xs) < INT_MAX -> malloc_pick m = Some p ->
  My402ListAppend L o m =
  Ok (TRUE, mkMem (link (elems m) (last_ptr L xs) L p o)
                  (<[L := Z.of_nat (length xs) + 1]> (nums m))).
Proof.
  intros H Hlt Hm. destruct (malloc_fresh m p Hm) as [Hp0 Hp].
  assert (p <> L) as HpL by (pose proof (rep_fresh _ _ _ _ H Hp); set_solver).
  destruct (last_ptr_rep_in _ _ _ H) as [el Hel].
  unfold My402ListAppend. rewrite (mbind_run _ _ _ _ _ (malloc_run _ _ Hm)).
  rewrite (proj2 (Z.eqb_neq p NULL)) by done. mstore. rewrite alter_insert_eq.
  rewrite (mbind_run _ _ _ _ _ (empty_run _ _ _ (list_rep_other_cell _ _ _ p _ H Hp))).
  pose proof (rep_num _ _ _ H) as Hn. destruct (rep_anchor _ _ _ H) as [eL HeL].
  case_bool_decide as E.
  - erewrite mbind_run by (by apply incr_num_run). subst xs. do 4 mstore.
    unfold mret_, link, last_ptr. cbn. do 3 f_equal.
    apply map_eq. intros i. rewrite !lookup_alter, !lookup_insert.
    repeat (case_decide; subst; try congruence); cbn; by rewrite ?HeL.
  - erewrite mbind_run by (by apply incr_num_run).
    destruct (rep_anchor_cell _ _ _ H E) as (e & He & _ & Hpv).
    erewrite mbind_run; [|eapply last_raw; cbn; [apply lookup_insert_eq|lia|]].
    2: by rewrite lookup_insert_ne.
    rewrite Hpv. do 4 mstore. by rewrite !alter_insert_eq.
Qed.

Lemma prepend_run m L xs o p :
  list_rep m L xs -> Z.of_nat (length xs) < INT_MAX -> malloc_pick m = Some p ->
  My402ListPrepend L o m =
  Ok (TRUE, mkMem (link (elems m) L (head_ptr L xs) p o)
                  (<[L := Z.of_nat (length xs) + 1]> (nums m))).
Proof.
  intros H Hlt Hm. destruct (malloc_fresh m p Hm) as [Hp0 Hp].
  assert (p <> L) as HpL by (pose proof (rep_fresh _ _ _ _ H Hp); set_solver).
  destruct (head_ptr_rep_in _ _ _ H) as [el Hel].
  unfold My402ListPrepend. rewrite (mbind_run _ _ _ _ _ (malloc_run _ _ Hm)).
  rewrite (proj2 (Z.eqb_neq p NULL)) by done. mstore. rewrite alter_insert_eq.
  rewrite (mbind_run _ _ _ _ _ (empty_run _ _ _ (list_rep_other_cell _ _ _ p _ H Hp))).
  pose proof (rep_num _ _ _ H) as Hn. destruct (rep_anchor _ _ _ H) as [eL HeL].
  case_bool_decide as E.
  - erewrite mbind_run by (by apply incr_num_run). subst xs. do 4 mstore.
    unfold mret_, link, head_ptr. cbn. do 3 f_equal.
    apply map_eq. intros i. rewrite !lookup_alter, !lookup_insert.
    repeat (case_decide; subst; try congruence); cbn; by rewrite ?HeL.
  - erewrite mbind_run by (by apply incr_num_run).
    destruct (rep_anchor_cell _ _ _ H E) as (e & He & Hnx & _).
    erewrite mbind_run; [|eapply first_raw; cbn; [apply lookup_insert_eq|lia|]].
    2: by rewrite lookup_insert_ne.
    rewrite Hnx. do 4 mstore. by rewrite !alter_insert_eq.
Qed.

Lemma insert_after_run m L xs q o' ys o p :
  list_rep m L (xs ++ (q, o') :: ys) ->
  Z.of_nat (length (xs ++ (q, o') :: ys)) < INT_MAX ->
  malloc_pick (mkMem (elems m) (<[L := Z.of_nat (length (xs ++ (q, o') :: ys)) + 1]> (nums m)))
    = Some p ->
  My402ListInsertAfter L o q m =
  Ok (TRUE, mkMem (link (elems m) q (head_ptr L ys) p o)
                  (<[L := Z.of_nat (length (xs ++ (q, o') :: ys)) + 1]> (nums m))).
Proof.
  intros H Hlt Hm. destruct (malloc_fresh _ p Hm) as [Hp0 Hp]. cbn in Hp.
  pose proof (rep_cell _ _ _ _ _ _ H) as Hq.
  assert (q ∈ L :: ptrs (xs ++ (q, o') :: ys)) as Hin by (rewrite ptrs_app, ptrs_cons; set_solver).
  assert (q <> NULL) as Hq0 by (intros ->; by apply (rep_null _ _ _ H)).
  assert (is_Some (elems m !! head_ptr L ys)).
  { eapply rep_allocated; [done|]. pose proof (head_ptr_in L ys).
    rewrite ptrs_app, ptrs_cons. set_solver. }
  assert (p <> q) by congruence.
  unfold My402ListInsertAfter. rewrite (proj2 (Z.eqb_neq q NULL)) by done.
  erewrite mbind_run by (apply incr_num_run; [apply (rep_num _ _ _ H)|done]).
  rewrite (mbind_run _ _ _ _ _ (malloc_run _ _ Hm)). cbn [elems nums].
  mstore. rewrite alter_insert_eq.
  erewrite mbind_run by (apply load_run; cbn [elems]; by rewrite lookup_insert_ne).
  cbn [next]. do 4 mstore. by rewrite !alter_insert_eq.
Qed.

Lemma insert_before_run m L xs q o' ys o p :
  list_rep m L (xs ++ (q, o') :: ys) ->
  Z.of_nat (length (xs ++ (q, o') :: ys)) < INT_MAX ->
  malloc_pick (mkMem (elems m) (<[L := Z.of_nat (length (xs ++ (q, o') :: ys)) + 1]> (nums m)))
    = Some p ->
  My402ListInsertBefore L o q m =
  Ok (TRUE, mkMem (link (elems m) (last_ptr L xs) q p o)
                  (<[L := Z.of_nat (length (xs ++ (q, o') :: ys)) + 1]> (nums m))).
Proof.
  intros H Hlt Hm. destruct (malloc_fresh _ p Hm) as [Hp0 Hp]. cbn in Hp.
  pose proof (rep_cell _ _ _ _ _ _ H) as Hq.
  assert (q ∈ L :: ptrs (xs ++ (q, o') :: ys)) as Hin by (rewrite ptrs_app, ptrs_cons; set_solver).
  assert (q <> NULL) as Hq0 by (intros ->; by apply (rep_null _ _ _ H)).
  assert (is_Some (elems m !! last_ptr L xs)).
  { eapply rep_allocated; [done|]. pose proof (last_ptr_in L xs).
    rewrite ptrs_app, ptrs_cons. set_solver. }
  assert (p <> q) by congruence.
  unfold My402ListInsertBefore. rewrite (proj2 (Z.eqb_neq q NULL)) by done.
  erewrite mbind_run by (apply incr_num_run; [apply (rep_num _ _ _ H)|done]).
  rewrite (mbind_run _ _ _ _ _ (malloc_run _ _ Hm)). cbn [elems nums].
  mstore. rewrite alter_insert_eq.
  erewrite mbind_run by (apply load_run; cbn [elems]; by rewrite lookup_insert_ne).
  cbn [prev]. do 4 mstore. by rewrite !alter_insert_eq.
Qed.

Lemma unlink_run m L xs p o ys :
  list_rep m L (xs ++ (p, o) :: ys) ->
  My402ListUnlink L p m =
  Ok (tt, mkMem (unlink (elems m) (last_ptr L xs) (head_ptr L ys) p)
                (<[L := Z.of_nat (length (xs ++ (p, o) :: ys)) - 1]> (nums m))).
Proof.
  intros H. pose proof (rep_cell _ _ _ _ _ _ H) as Hp.
  assert (is_Some (elems m !! head_ptr L ys) /\ is_Some (elems m !! last_ptr L xs)) as [??].
  { split; (eapply rep_allocated; [done|]);
      pose proof (head_ptr_in L ys); pose proof (last_ptr_in L xs);
      rewrite ptrs_app, ptrs_cons; set_solver. }
  unfold My402ListUnlink. rewrite (mbind_run _ _ _ _ _ (load_run _ _ _ Hp)).
  cbn [next prev]. do 4 mstore.
  erewrite mbind_run by (apply free_run; allocated). cbn [elems nums].
  erewrite decr_num_run; [|apply (rep_num _ _ _ H)|unfold INT_MIN; lia].
  unfold unlink. cbn [elems nums]. by rewrite !delete_alter_eq.
Qed.

(** Each insertion and removal, on the list view, with its footprint. *)
Definition inserted m m' L xs ys p (o : Z) : Prop :=
  list_rep m' L (xs ++ (p, o) :: ys) /\ p <> NULL /\ p ∉ L :: ptrs (xs ++ ys) /\
  elems m !! p = None /\ frame m m' (L :: p :: ptrs (xs ++ ys)).

Lemma inserted_link m L xs ys p o :
  list_rep m L (xs ++ ys) -> elems m !! p = None -> p <> NULL ->
  inserted m (mkMem (link (elems m) (last_ptr L xs) (head_ptr L ys) p o)
                    (<[L := Z.of_nat (length (xs ++ ys)) + 1]> (nums m))) L xs ys p o.
Proof.
  intros H Hp Hp0. split; [by apply list_rep_link|]. split; [done|].
  split; [by eapply rep_fresh|]. split; [done|]. apply link_frame.
Qed.

Lemma append_ok m L xs o p :
  list_rep m L xs -> Z.of_nat (length xs) < INT_MAX -> malloc_pick m = Some p ->
  exists m', My402ListAppend L o m = Ok (TRUE, m') /\ inserted m m' L xs [] p o.
Proof.
  intros H Hlt Hm. eexists. split; [by eapply append_run|].
  pose proof (inserted_link m L xs [] p o) as Hl. rewrite app_nil_r in Hl.
  apply Hl; [done|by apply (malloc_fresh m p Hm)..].
Qed.
Lemma prepend_ok m L xs o p :
  list_rep m L xs -> Z.of_nat (length xs) < INT_MAX -> malloc_pick m = Some p ->
  exists m', My402ListPrepend L o m = Ok (TRUE, m') /\ inserted m m' L [] xs p o.
Proof.
  intros H Hlt Hm. eexists. split; [by eapply prepend_run|].
  apply (inserted_link m L [] xs p o); [done|by apply (malloc_fresh m p Hm)..].
Qed.
Lemma insert_after_ok m L xs q o' ys o p :
  list_rep m L (xs ++ (q, o') :: ys) ->
  Z.of_nat (length (xs ++ (q, o') :: ys)) < INT_MAX ->
  malloc_pick (mkMem (elems m) (<[L := Z.of_nat (length (xs ++ (q, o') :: ys)) + 1]> (nums m)))
    = Some p ->
  exists m', My402ListInsertAfter L o q m = Ok (TRUE, m') /\
    inserted m m' L (xs ++ [(q, o')]) ys p o.
Proof.
  intros H Hlt Hm. eexists. split; [by eapply insert_after_run|].
  destruct (malloc_fresh _ p Hm).
  pose proof (inserted_link m L (xs ++ [(q, o')]) ys p o) as Hl.
  rewrite <- app_assoc, last_ptr_snoc in Hl. by apply Hl.
Qed.
Lemma insert_before_ok m L xs q o' ys o p :
  list_rep m L (xs ++ (q, o') :: ys) ->
  Z.of_nat (length (xs ++ (q, o') :: ys)) < INT_MAX ->
  malloc_pick (mkMem (elems m) (<[L := Z.of_nat (length (xs ++ (q, o') :: ys)) + 1]> (nums m)))
    = Some p ->
  exists m', My402ListInsertBefore L o q m = Ok (TRUE, m') /\
    inserted m m' L xs ((q, o') :: ys) p o.
Proof.
  intros H Hlt Hm. eexists. split; [by eapply insert_before_run|].
  destruct (malloc_fresh _ p Hm).
  by apply (inserted_link m L xs ((q, o') :: ys) p o).
Qed.
Lemma unlink_ok m L xs p o ys :
  list_rep m L (xs ++ (p, o) :: ys) ->
  exists m', My402ListUnlink L p m = Ok (tt, m') /\ list_rep m' L (xs ++ ys) /\
    elems m' !! p = None /\ frame m m' (L :: ptrs (xs ++ (p, o) :: ys)).
Proof.
  intros H. eexists. split; [by eapply unlink_run|]. split; [by apply list_rep_unlink|].
  split; [apply lookup_delete_eq | apply unlink_frame].
Qed.

Lemma next_run m L xs p o ys :
  list_rep m L (xs ++ (p, o) :: ys) -> My402ListNext L p m = Ok (head_ptr NULL ys, m).
Proof.
  intros H. unfold My402ListNext. rewrite (mbind_run _ _ _ _ _ (last_run _ _ _ H)).
  destruct ys as [|[q o'] ys] using rev_ind.
  { rewrite last_ptr_snoc, Z.eqb_refl. done. }
  rewrite app_comm_cons, app_assoc, last_ptr_snoc.
  rewrite (proj2 (Z.eqb_neq q p)).
  - rewrite (mbind_run _ _ _ _ _ (load_run _ _ _ (rep_cell _ _ _ _ _ _ H))).
    unfold mret_. cbn [next]. by destruct ys as [|[]].
  - intros ->. pose proof (rep_nodup _ _ _ H) as [_ Hnd]%NoDup_cons.
    rewrite ptrs_app, ptrs_cons, ptrs_app in Hnd. apply NoDup_app_cons_notin in Hnd as [_ Hn].
    apply Hn. set_solver.
Qed.

Lemma prev_run m L xs p o ys :
  list_rep m L (xs ++ (p, o) :: ys) -> My402ListPrev L p m = Ok (last_ptr NULL xs, m).
Proof.
  intros H. unfold My402ListPrev. rewrite (mbind_run _ _ _ _ _ (first_run _ _ _ H)).
  destruct xs as [|[q o'] xs].
  { cbn [app]. rewrite head_ptr_cons, Z.eqb_refl. done. }
  rewrite <- app_comm_cons in *. rewrite head_ptr_cons.
  rewrite (proj2 (Z.eqb_neq q p)).
  - rewrite app_comm_cons in H.
    rewrite (mbind_run _ _ _ _ _ (load_run _ _ _ (rep_cell _ _ _ _ _ _ H))).
    unfold mret_. cbn [prev]. by rewrite !last_ptr_cons.
  - intros ->. pose proof (rep_nodup _ _ _ H) as [_ Hnd]%NoDup_cons.
    rewrite ptrs_cons, ptrs_app, ptrs_cons in Hnd. apply NoDup_cons in Hnd as [Hn _].
    apply Hn. set_solver.
Qed.

Lemma rep_size m L xs : list_rep m L xs -> (length xs < size (elems m))%nat.
Proof.
  intros H. pose proof (rep_nodup _ _ _ H) as Hnd.
  assert (list_to_set (L :: ptrs xs) ⊆ dom (elems m)) as Hsub.
  { intros x Hx. apply elem_of_list_to_set in Hx. apply elem_of_dom.
    by eapply rep_allocated. }
  apply subseteq_size in Hsub. rewrite size_list_to_set, size_dom in Hsub by done.
  cbn in Hsub. unfold ptrs in Hsub. rewrite length_fmap in Hsub. lia.
Qed.

(** ** Search *)
Fixpoint find_first (o : Z) (xs : list (Z * Z)) : addr :=
  match xs with
  | [] => NULL
  | (p, o') :: ys => if o' =? o then p else find_first o ys
  end.

Lemma find_loop m L o xs ys fuel :
  list_rep m L (xs ++ ys) -> (length ys < fuel)%nat ->
  mloop fuel (fun cur =>
    if cur =? NULL then mret_ (inr NULL)
    else
      let! c := load cur in
      if obj c =? o then mret_ (inr cur)
      else let! n := My402ListNext L cur in mret_ (inl n)) (head_ptr NULL ys) m
  = Ok (find_first o ys, m).
Proof.
  revert xs fuel. induction ys as [|[p o'] ys IH]; intros xs fuel H Hf;
    (destruct fuel as [|fuel]; [cbn in Hf; lia|]); [done|].
  rewrite head_ptr_cons. cbn [mloop find_first].
  assert (p <> NULL) as Hp0.
  { intros ->. apply (rep_null _ _ _ H). rewrite ptrs_app, ptrs_cons. set_solver. }
  rewrite (proj2 (Z.eqb_neq p NULL)) by done.
  unfold mbind_ at 1 2. rewrite (load_run _ _ _ (rep_cell _ _ _ _ _ _ H)). cbn [obj].
  destruct (o' =? o) eqn:E; [done|].
  unfold mbind_. rewrite (next_run _ _ _ _ _ _ H). cbn [mret_].
  apply (IH (xs ++ [(p, o')])).
  - by rewrite <- app_assoc.
  - cbn in Hf. lia.
Qed.

Lemma find_run m L xs o :
  list_rep m L xs -> My402ListFind L o m = Ok (find_first o xs, m).
Proof.
  intros H. unfold My402ListFind. rewrite (mbind_run _ _ _ _ _ (first_run _ _ _ H)).
  unfold mbind_, mget. apply (find_loop m L o []); [done|].
  pose proof (rep_size _ _ _ H). unfold loop_bound. lia.
Qed.

(** ** Removing everything *)
Definition unlink_all_body L : addr * addr -> M mem ((addr * addr) + unit) :=
  fun '(cur, curNext) =>
    if cur =? NULL then mret_ (inr tt)
    else
      My402ListUnlink L cur ;;;
      let! n := My402ListNext L curNext in
      mret_ (inl (curNext, n)).

Lemma next_null m L xs :
  list_rep m L xs -> (xs = [] -> My402ListNext L NULL m = Ok (NULL, m)).
Proof.
  intros H ->. unfold My402ListNext. by rewrite (mbind_run _ _ _ _ _ (last_run _ _ _ H)).
Qed.

Lemma next_head m L xs :
  list_rep m L xs ->
  My402ListNext L (head_ptr NULL xs) m = Ok (head_ptr NULL (tail xs), m).
Proof.
  intros H. destruct xs as [|[p o] xs]; [by apply (next_null _ _ _ H)|].
  by apply (next_run m L [] p o xs).
Qed.

Lemma unlink_all_loop L xs fuel m :
  list_rep m L xs -> (length xs < fuel)%nat ->
  exists m', mloop fuel (unlink_all_body L) (head_ptr NULL xs, head_ptr NULL (tail xs)) m
             = Ok (tt, m') /\ list_rep m' L [] /\
             (forall x, x ∈ ptrs xs -> elems m' !! x = None) /\
             frame m m' (L :: ptrs xs).
Proof.
  revert m fuel. induction xs as [|[p o] xs IH]; intros m fuel H Hf;
    (destruct fuel as [|fuel]; [cbn in Hf; lia|]).
  { exists m. do 2 (split; [done|]). split; [|by intros x]. intros x Hx. by apply elem_of_nil in Hx. }
  cbn [mloop unlink_all_body tail]. rewrite head_ptr_cons.
  assert (p <> NULL) as Hp0.
  { intros ->. apply (rep_null _ _ _ H). rewrite ptrs_cons. set_solver. }
  rewrite (proj2 (Z.eqb_neq p NULL)) by done.
  pose proof (unlink_run m L [] p o xs H) as Hu.
  pose proof (list_rep_unlink m L [] p o xs H) as H1. cbn [app] in H1.
  pose proof (unlink_frame m L [] xs p o (Z.of_nat (length ((p, o) :: xs)) - 1)) as Hfr.
  set (m1 := mkMem _ _) in *.
  unfold mbind_ at 1 2. cbn [app] in Hu. rewrite Hu. unfold mbind_.
  rewrite (next_head _ _ _ H1). cbn [mret_].
  destruct (IH m1 fuel H1) as (m' & -> & H' & Hnone & Hfr'); [cbn in Hf; lia|].
  exists m'. split; [done|]. split; [done|].
  assert (p ∉ L :: ptrs xs) as Hp.
  { pose proof (rep_nodup _ _ _ H) as Hnd. rewrite ptrs_cons in Hnd.
    apply NoDup_cons in Hnd as [HL [Hp _]%NoDup_cons]. set_solver. }
  split.
  - intros x. rewrite ptrs_cons. intros [->|Hx]%elem_of_cons; [|by apply Hnone].
    destruct (Hfr' p) as [-> _]; [done|]. apply lookup_delete_eq.
  - intros x Hx. rewrite ptrs_cons in Hx.
    destruct (Hfr' x) as [-> ->]; [set_solver|]. apply Hfr. cbn [app].
    rewrite ptrs_cons. set_solver.
Qed.

Lemma init_run m L :
  is_Some (elems m !! L) -> is_Some (nums m !! L) -> L <> NULL ->
  exists m', My402ListInit L m = Ok (TRUE, m') /\ list_rep m' L [] /\ frame m m' [L] .
Proof.
  intros He Hn HL. unfold My402ListInit. eexists. split; [|split].
  - erewrite mbind_run by (apply store_run; allocated).
    erewrite mbind_run by (apply store_num_run; allocated).
    do 2 mstore. reflexivity.
  - split; cbn; [by rewrite lookup_insert_eq | apply NoDup_singleton | set_solver | | done].
    by rewrite !lookup_alter_is_Some.
  - intros x Hx. cbn. rewrite !lookup_alter_ne, lookup_insert_ne; set_solver.
Qed.

Lemma unlink_all_run m L xs :
  list_rep m L xs ->
  exists m', My402ListUnlinkAll L m = Ok (TRUE, m') /\ list_rep m' L [] /\
    (forall x, x ∈ ptrs xs -> elems m' !! x = None) /\ frame m m' (L :: ptrs xs).
Proof.
  intros H. unfold My402ListUnlinkAll.
  rewrite (mbind_run _ _ _ _ _ (first_run _ _ _ H)).
  rewrite (mbind_run _ _ _ _ _ (next_head _ _ _ H)). unfold mbind_ at 1, mget.
  destruct (unlink_all_loop L xs (loop_bound m) m H) as (m1 & Hl & H1 & Hnone & Hfr).
  { pose proof (rep_size _ _ _ H). unfold loop_bound. lia. }
  rewrite (mbind_run _ _ _ _ _ Hl).
  destruct (init_run m1 L) as (m2 & -> & H2 & Hfr2).
  { by eapply rep_anchor. } { by rewrite (rep_num _ _ _ H1). }
  { pose proof (rep_null _ _ _ H). set_solver. }
  exists m2. split; [done|]. split; [done|]. split.
  - intros x Hx. destruct (Hfr2 x) as [-> _]; [|by apply Hnone].
    pose proof (rep_nodup _ _ _ H) as [HL _]%NoDup_cons. set_solver.
  - intros x Hx. destruct (Hfr2 x) as [-> ->]; [set_solver|]. by apply Hfr.
Qed.
End Specs.

(** ** Sequences of operations

    A client of the list, as in warmup1.c and warmup2.c: it walks to an
    element with [First]/[Next] and inserts or unlinks there. *)
Inductive list_op :=
| OpAppend (o : Z)
| OpPrepend (o : Z)
| OpInsertAfter (k : nat) (o : Z)
| OpInsertBefore (k : nat) (o : Z)
| OpUnlink (k : nat)
| OpUnlinkAll.

Section Client.
Context `{MA : Malloc}.

Fixpoint walk (L : addr) (k : nat) (cur : addr) : M mem addr :=
  match k with
  | O => mret_ cur
  | S k => let! n := My402ListNext L cur in walk L k n
  end.
Definition nth_elem (L : addr) (k : nat) : M mem addr :=
  let! first := My402ListFirst L in walk L k first.

Definition exec_op (L : addr) (op : list_op) : M mem unit :=
  match op with
  | OpAppend o => let! _ := My402ListAppend L o in mret_ tt
  | OpPrepend o => let! _ := My402ListPrepend L o in mret_ tt
  | OpInsertAfter k o =>
      let! e := nth_elem L k in let! _ := My402ListInsertAfter L o e in mret_ tt
  | OpInsertBefore k o =>
      let! e := nth_elem L k in let! _ := My402ListInsertBefore L o e in mret_ tt
  | OpUnlink k => let! e := nth_elem L k in My402ListUnlink L e
  | OpUnlinkAll => let! _ := My402ListUnlinkAll L in mret_ tt
  end.
Fixpoint exec_ops (L : addr) (ops : list list_op) : M mem unit :=
  match ops with
  | [] => mret_ tt
  | op :: ops => exec_op L op ;;; exec_ops L ops
  end.

(** The same operations on a sequence of objects; [None] where the client
    would dereference an element that is not there. *)
Definition spec_op (os : list Z) (op : list_op) : option (list Z) :=
  match op with
  | OpAppend o => Some (os ++ [o])
  | OpPrepend o => Some (o :: os)
  | OpInsertAfter k o =>
      if decide (k < length os)%nat then Some (take (S k) os ++ o :: drop (S k) os)
      else if decide (k = length os) then Some (os ++ [o]) else None
  | OpInsertBefore k o =>
      if decide (k < length os)%nat then Some (take k os ++ o :: drop k os)
      else if decide (k = length os) then Some (o :: os) else None
  | OpUnlink k => if decide (k < length os)%nat then Some (take k os ++ drop (S k) os) else None
  | OpUnlinkAll => Some []
  end.
Fixpoint spec_ops (os : list Z) (ops : list list_op) : option (list Z) :=
  match ops with
  | [] => Some os
  | op :: ops => os' ← spec_op os op; spec_ops os' ops
  end.

Lemma walk_run m L xs ys k :
  list_rep m L (xs ++ ys) -> (k <= length ys)%nat ->
  walk L k (head_ptr NULL ys) m = Ok (head_ptr NULL (drop k ys), m).
Proof.
  revert xs ys. induction k as [|k IH]; intros xs ys H Hk; [by rewrite drop_0|].
  destruct ys as [|[p o] ys]; [cbn in Hk; lia|]. rewrite head_ptr_cons.
  cbn [walk drop]. rewrite (mbind_run _ _ _ _ _ (next_run _ _ _ _ _ _ H)).
  apply (IH (xs ++ [(p, o)])); [by rewrite <- app_assoc | cbn in Hk; lia].
Qed.
Lemma nth_elem_run m L xs k :
  list_rep m L xs -> (k <= length xs)%nat ->
  nth_elem L k m = Ok (head_ptr NULL (drop k xs), m).
Proof.
  intros H Hk. unfold nth_elem. rewrite (mbind_run _ _ _ _ _ (first_run _ _ _ H)).
  by apply (walk_run m L []).
Qed.

Lemma split_at {A} (xs : list A) k :
  (k < length xs)%nat -> exists l x r, xs = l ++ x :: r /\ take k xs = l /\ drop k xs = x :: r
    /\ drop (S k) xs = r /\ take (S k) xs = l ++ [x].
Proof.
  intros Hk. destruct (lookup_lt_is_Some_2 xs k Hk) as [x Hx].
  exists (take k xs), x, (drop (S k) xs).
  rewrite (take_S_r _ _ _ Hx), <- (drop_S _ _ _ Hx), take_drop. done.
Qed.

Hypothesis malloc_total : forall m, is_Some (malloc_pick m).

(** The result of one operation: the heap represents the new sequence. *)
Definition sim (L : addr) (n : nat) (r : outcome (unit * mem)) (os : list Z) : Prop :=
  exists m' xs', r = Ok (tt, m') /\ list_rep m' L xs' /\ xs'.*2 = os /\ (length xs' <= S n)%nat.

Lemma sim_inserted m m' L xs ys p o n :
  inserted m m' L xs ys p o -> (length (xs ++ ys) <= n)%nat ->
  sim L n (Ok (tt, m')) (xs.*2 ++ o :: ys.*2).
Proof.
  intros [H _] Hn. exists m', (xs ++ (p, o) :: ys). rewrite fmap_app.
  rewrite !length_app in *. cbn. split_and!; [done.. | lia].
Qed.

Lemma exec_insert_after m L xs k o os' :
  list_rep m L xs -> Z.of_nat (length xs) < INT_MAX ->
  spec_op xs.*2 (OpInsertAfter k o) = Some os' ->
  sim L (length xs) (exec_op L (OpInsertAfter k o) m) os'.
Proof.
  intros H Hlt Hspec. cbn in *. rewrite length_fmap in Hspec.
  repeat case_decide; simplify_eq.
  - destruct (split_at xs k) as (l & [q o'] & r & E & El & Ed & Er & Et); [lia|].
    rewrite (mbind_run _ _ _ _ _ (nth_elem_run _ _ _ k H ltac:(lia))), Ed, head_ptr_cons.
    rewrite <- fmap_take, <- fmap_drop, Et, Er. subst xs.
    edestruct (malloc_total (mkMem (elems m)
      (<[L := Z.of_nat (length (l ++ (q, o') :: r)) + 1]> (nums m)))) as [p Hp].
    destruct (insert_after_ok _ _ _ _ _ _ o p H Hlt Hp) as (m' & Hr & Hi).
    rewrite (mbind_run _ _ _ _ _ Hr). eapply sim_inserted; [done|].
    rewrite !length_app. cbn. lia.
  - rewrite (mbind_run _ _ _ _ _ (nth_elem_run _ _ _ (length xs) H ltac:(lia))), drop_all.
    destruct (malloc_total m) as [p Hp].
    destruct (append_ok m L xs o p H Hlt Hp) as (m' & Hr & Hi).
    change (My402ListInsertAfter L o (head_ptr NULL [])) with (My402ListAppend L o).
    rewrite (mbind_run _ _ _ _ _ Hr). eapply (sim_inserted _ _ _ xs []); [done|].
    by rewrite app_nil_r.
Qed.

Lemma exec_insert_before m L xs k o os' :
  list_rep m L xs -> Z.of_nat (length xs) < INT_MAX ->
  spec_op xs.*2 (OpInsertBefore k o) = Some os' ->
  sim L (length xs) (exec_op L (OpInsertBefore k o) m) os'.
Proof.
  intros H Hlt Hspec. cbn in *. rewrite length_fmap in Hspec.
  repeat case_decide; simplify_eq.
  - destruct (split_at xs k) as (l & [q o'] & r & E & El & Ed & Er & Et); [lia|].
    rewrite (mbind_run _ _ _ _ _ (nth_elem_run _ _ _ k H ltac:(lia))), Ed, head_ptr_cons.
    rewrite <- fmap_take, <- fmap_drop, El, Ed. subst xs.
    edestruct (malloc_total (mkMem (elems m)
      (<[L := Z.of_nat (length (l ++ (q, o') :: r)) + 1]> (nums m)))) as [p Hp].
    destruct (insert_before_ok _ _ _ _ _ _ o p H Hlt Hp) as (m' & Hr & Hi).
    rewrite (mbind_run _ _ _ _ _ Hr). by eapply sim_inserted.
  - rewrite (mbind_run _ _ _ _ _ (nth_elem_run _ _ _ (length xs) H ltac:(lia))), drop_all.
    destruct (malloc_total m) as [p Hp].
    destruct (prepend_ok m L xs o p H Hlt Hp) as (m' & Hr & Hi).
    change (My402ListInsertBefore L o (head_ptr NULL [])) with (My402ListPrepend L o).
    rewrite (mbind_run _ _ _ _ _ Hr). by eapply (sim_inserted _ _ _ [] xs).
Qed.

Lemma exec_op_sim m L xs op os' :
  list_rep m L xs -> Z.of_nat (length xs) < INT_MAX ->
  spec_op xs.*2 op = Some os' -> sim L (length xs) (exec_op L op m) os'.
Proof.
  intros H Hlt Hspec. destruct op as [o|o|k o|k o|k|].
  - destruct (malloc_total m) as [p Hp].
    destruct (append_ok m L xs o p H Hlt Hp) as (m' & Hr & Hi). cbn in *.
    rewrite (mbind_run _ _ _ _ _ Hr). simplify_eq.
    eapply (sim_inserted _ _ _ xs []); [done|]. by rewrite app_nil_r.
  - destruct (malloc_total m) as [p Hp].
    destruct (prepend_ok m L xs o p H Hlt Hp) as (m' & Hr & Hi). cbn in *.
    rewrite (mbind_run _ _ _ _ _ Hr). simplify_eq. by eapply (sim_inserted _ _ _ [] xs).
  - by apply exec_insert_after.
  - by apply exec_insert_before.
  - cbn in *. rewrite length_fmap in Hspec. case_decide; simplify_eq.
    destruct (split_at xs k) as (l & [q o'] & r & E & El & Ed & Er & Et); [lia|].
    rewrite (mbind_run _ _ _ _ _ (nth_elem_run _ _ _ k H ltac:(lia))), Ed, head_ptr_cons.
    rewrite <- fmap_take, <- fmap_drop, El, Er. subst xs.
    destruct (unlink_ok _ _ _ _ _ _ H) as (m' & -> & H' & _).
    exists m', (l ++ r). rewrite fmap_app, !length_app in *. cbn. split_and!; [done..|lia].
  - destruct (unlink_all_run m L xs H) as (m' & Hr & Hrep & _). cbn in *. simplify_eq.
    exists m', []. rewrite (mbind_run _ _ _ _ _ Hr). split_and!; [done..|cbn; lia].
Qed.

(** C1: any sequence of appends, prepends, insertions, removals and
    [UnlinkAll]s performed on the C list yields exactly the sequence of
    objects that the same operations yield on a mathematical list, and never
    touches memory it does not own. *)
Theorem my402list_refines m L xs ops os' :
  list_rep m L xs ->
  Z.of_nat (length xs + length ops) <= INT_MAX ->
  spec_ops xs.*2 ops = Some os' ->
  exists m' xs', exec_ops L ops m = Ok (tt, m') /\ list_rep m' L xs' /\ xs'.*2 = os'.
Proof.
  revert m xs. induction ops as [|op ops IH]; intros m xs H Hlt Hspec; cbn in *.
  { simplify_eq. by exists m, xs. }
  apply bind_Some in Hspec as (os1 & Hop & Hspec).
  destruct (exec_op_sim m L xs op os1 H ltac:(lia) Hop) as (m1 & xs1 & Hr & H1 & <- & Hlen).
  rewrite (mbind_run _ _ _ _ _ Hr). apply (IH m1 xs1); [done | lia | done].
Qed.
End Client.

Section Claims.
Context `{MA : Malloc}.

(** [My402ListFind] terminates on every list, leaves the heap as it is,
    and returns the first cell that holds the object, or [NULL] when no cell
    holds it. *)
Theorem find_spec m L xs o :
  list_rep m L xs ->
  exists p, My402ListFind L o m = Ok (p, m) /\
    ((p = NULL /\ o ∉ xs.*2) \/
     (exists l r, xs = l ++ (p, o) :: r /\ o ∉ l.*2)).
Proof.
  intros H. exists (find_first o xs). split; [by apply find_run|].
  clear H. induction xs as [|[q o'] xs IH]; cbn [find_first].
  { left. split; [done | apply not_elem_of_nil]. }
  destruct (Z.eqb_spec o' o) as [->|Hne].
  - right. exists [], xs. split; [done | apply not_elem_of_nil].
  - revert IH. generalize (find_first o xs). intros p [[-> Hn]|(l & r & -> & Hl)].
    + left. split; [done|]. apply not_elem_of_cons. cbn. split; [congruence | done].
    + right. exists ((q, o') :: l), r. split; [done|]. apply not_elem_of_cons. cbn. split; [congruence | done].
Qed.

(** [My402ListUnlinkAll] terminates, frees every cell of the list,
    leaves the list empty and ready for reuse, and does not disturb another
    list with cells of its own. *)
Theorem unlink_all_spec m L xs L' ys :
  list_rep m L xs -> list_rep m L' ys ->
  (forall x, x ∈ L' :: ptrs ys -> x ∉ L :: ptrs xs) ->
  exists m', My402ListUnlinkAll L m = Ok (TRUE, m') /\ list_rep m' L [] /\
    list_rep m' L' ys /\ forall x, x ∈ ptrs xs -> elems m' !! x = None.
Proof.
  intros H H' Hd. destruct (unlink_all_run m L xs H) as (m' & Hr & H1 & Hnone & Hfr).
  exists m'. split_and!; try done. by eapply list_rep_frame.
Qed.

(** When [malloc] fails, [Append] and [Prepend] return [FALSE] and leave
    the list as it was, but [InsertAfter] and [InsertBefore] at an element,
    which do not test the result of [malloc], store through the null pointer
    (after having incremented the counter of the list). *)
Theorem malloc_failure m L xs q o' ys o :
  (forall m0, malloc_pick m0 = None) ->
  list_rep m L (xs ++ (q, o') :: ys) -> Z.of_nat (length (xs ++ (q, o') :: ys)) < INT_MAX ->
  elems m !! NULL = None ->
  My402ListAppend L o m = Ok (FALSE, m) /\ My402ListPrepend L o m = Ok (FALSE, m) /\
  My402ListInsertAfter L o q m = Err FUndef /\ My402ListInsertBefore L o q m = Err FUndef.
Proof.
  intros Hm H Hlt Hnull.
  assert (forall m0, malloc m0 = Ok (NULL, m0)) as Hmal by (intros; unfold malloc; by rewrite Hm).
  assert (q <> NULL) as Hq.
  { intros ->. apply (rep_null _ _ _ H). rewrite ptrs_app, ptrs_cons. set_solver. }
  unfold My402ListAppend, My402ListPrepend, My402ListInsertAfter, My402ListInsertBefore.
  rewrite (proj2 (Z.eqb_neq q NULL)) by done.
  split_and!; [by rewrite (mbind_run _ _ _ _ _ (Hmal m)).. | |];
    (erewrite mbind_run by (apply incr_num_run; [apply (rep_num _ _ _ H)|done]));
    rewrite (mbind_run _ _ _ _ _ (Hmal _)); apply mbind_err;
    unfold store, load; apply mbind_err; cbn [elems]; by rewrite Hnull.
Qed.
End Claims.

(** ** A concrete allocator, for evaluation *)
Definition max_key (h : gmap Z My402ListElem) : Z :=
  map_fold (fun k _ acc => Z.max k acc) 0 h.
Lemma max_key_spec h k e : h !! k = Some e -> k <= max_key h.
Proof.
  unfold max_key. revert k e. apply (map_fold_weak_ind (fun r h => forall k e, h !! k = Some e -> k <= r)).
  - intros k e H. by rewrite lookup_empty in H.
  - intros i x h' r _ IH k e. rewrite lookup_insert. case_decide; [subst; lia|].
    intros Hk. specialize (IH k e Hk). lia.
Qed.
Lemma max_key_nonneg h : 0 <= max_key h.
Proof.
  unfold max_key. apply (map_fold_weak_ind (fun r _ => 0 <= r)); [lia|]. intros. lia.
Qed.
Program Definition bump_malloc : Malloc :=
  {| malloc_pick m := Some (max_key (elems m) + 1) |}.
Next Obligation.
  intros m p [= <-]. split.
  - unfold NULL. pose proof (max_key_nonneg (elems m)). lia.
  - destruct (elems m !! _) eqn:E; [|done]. apply max_key_spec in E. lia.
Qed.
(** A heap with no memory left. *)
Program Definition no_malloc : Malloc := {| malloc_pick m := None |}.
Next Obligation. done. Qed.

(** Two lists, at addresses 1 and 2, the first of them built by appends. *)
Definition heap0 : mem := mkMem {[1 := mkElem 0 0 0; 2 := mkElem 0 0 0]} {[1 := 0; 2 := 0]}.
Lemma heap0_rep1 : list_rep heap0 1 [].
Proof.
  split; [done | apply NoDup_singleton | | by eexists | done].
  unfold NULL, ptrs. cbn. set_solver.
Qed.
Lemma heap0_rep2 : list_rep heap0 2 [].
Proof.
  split; [done | apply NoDup_singleton | | by eexists | done].
  unfold NULL, ptrs. cbn. set_solver.
Qed.

(** A one-element list, [heap1]: list 1 holds object 7 in cell 3. *)
Definition heap1 : mem := mkMem {[1 := mkElem 0 3 3; 2 := mkElem 0 0 0; 3 := mkElem 7 1 1]} {[1 := 1; 2 := 0]}.
Lemma heap1_rep1 : list_rep heap1 1 [(3, 7)].
Proof.
  split; [done | | | by eexists | done].
  - unfold ptrs. cbn. apply NoDup_cons; split; [set_solver | apply NoDup_singleton].
  - unfold NULL, ptrs. cbn. set_solver.
Qed.
Lemma heap1_rep2 : list_rep heap1 2 [].
Proof.
  split; [done | apply NoDup_singleton | | by eexists | done].
  unfold NULL, ptrs. cbn. set_solver.
Qed.

Lemma my402list_refines_witness :
  exists m' xs', exec_ops (MA := bump_malloc) 1
      [OpAppend 5; OpPrepend 6; OpInsertAfter 0 7; OpInsertBefore 2 8; OpUnlink 1] heap0
    = Ok (tt, m') /\ list_rep m' 1 xs' /\ xs'.*2 = [6; 8; 5].
Proof.
  apply (my402list_refines (MA := bump_malloc) ltac:(intros; by eexists) heap0 1 []).
  - apply heap0_rep1.
  - cbn. unfold INT_MAX. lia.
  - vm_compute. reflexivity.
Defined.

Lemma find_spec_witness :
  exists p, My402ListFind 1 7 heap1 = Ok (p, heap1) /\
    ((p = NULL /\ 7 ∉ [(3, 7)].*2) \/
     (exists l r, [(3, 7)] = l ++ (p, 7) :: r /\ 7 ∉ l.*2)).
Proof. apply (find_spec heap1 1 [(3, 7)] 7). apply heap1_rep1. Defined.

Lemma unlink_all_spec_witness :
  exists m', My402ListUnlinkAll 1 heap1 = Ok (TRUE, m') /\ list_rep m' 1 [] /\
    list_rep m' 2 [] /\ forall x, x ∈ ptrs [(3, 7)] -> elems m' !! x = None.
Proof.
  apply (unlink_all_spec heap1 1 [(3, 7)] 2 []); [apply heap1_rep1 | apply heap1_rep2|].
  intros x. unfold ptrs. cbn. set_solver.
Defined.

Lemma malloc_failure_witness :
  My402ListAppend (MA := no_malloc) 1 4 heap1 = Ok (FALSE, heap1) /\
  My402ListPrepend (MA := no_malloc) 1 4 heap1 = Ok (FALSE, heap1) /\
  My402ListInsertAfter (MA := no_malloc) 1 4 3 heap1 = Err FUndef /\
  My402ListInsertBefore (MA := no_malloc) 1 4 3 heap1 = Err FUndef.
Proof.
  apply (malloc_failure (MA := no_malloc) heap1 1 [] 3 7 [] 4); [done | apply heap1_rep1 | | done].
  cbn. unfold INT_MAX. lia.
Defined.
