(* ===== verification/Warmup1.v ===== *)
(** * warmup1.c: reading, sorting and printing a transaction file

    The validators of the input fields, the bubble sort on the linked list of
    [My402List], the money formatter and the table printer, and the program
    that puts them together.  Text is a list of characters without the
    terminating NUL, except for the fixed-size buffers of [transferFormat]
    and [checkDesc], which are modelled with theirs. *)
From stdpp Require Import base gmap list fin_maps sorting strings.
From Stdlib Require Import ZArith Lia Ascii.
From S2P Require Import Prelude My402List.
Open Scope Z_scope.
Open Scope c_scope.

(** ** Characters and the library functions on strings *)
Definition code (c : ascii) : Z := Z.of_nat (nat_of_ascii c).
Definition chr (z : Z) : ascii := ascii_of_nat (Z.to_nat z).
Definition NUL : ascii := Ascii.zero.
Definition TAB : ascii := chr 9.
Definition NL : ascii := chr 10.
Abbreviation text := (list ascii).
Definition str (s : string) : text := String.list_ascii_of_string s.

Definition is_digit (c : ascii) : bool := (48 <=? code c) && (code c <=? 57).
(** [isspace] in the C locale. *)
Definition is_space (c : ascii) : bool :=
  (code c =? 32) || ((9 <=? code c) && (code c <=? 13)).
Definition char_eqb (a b : ascii) : bool := Ascii.eqb a b.

Fixpoint skip_space (s : text) : text :=
  match s with
  | c :: r => if is_space c then skip_space r else s
  | [] => []
  end.
(** The longest prefix whose characters satisfy [f], and the rest. *)
Fixpoint span (f : ascii -> bool) (s : text) : text * text :=
  match s with
  | c :: r => if f c then let (a, b) := span f r in (c :: a, b) else ([], s)
  | [] => ([], [])
  end.
(** [atoll]/[atol]: leading white space, an optional sign, digits. *)
Definition digits_val (s : text) : Z :=
  fold_left (fun acc c => acc * 10 + (code c - 48)) s 0.
Definition atoll (s : text) : Z :=
  match skip_space s with
  | c :: r =>
      if char_eqb c "-" then - digits_val (fst (span is_digit r))
      else if char_eqb c "+" then digits_val (fst (span is_digit r))
      else digits_val (fst (span is_digit (c :: r)))
  | [] => 0
  end.

(** [exit(1)] after a message on [stderr]. *)
Definition die {A} : outcome A := Err (FExit 1).
Definition check (b : bool) (k : outcome unit) : outcome unit := if b then die else k.

(** ** The validators *)
Definition checkLine (line : text) : outcome unit :=
  if 1024 <? Z.of_nat (length line) then die
  else
    let tabCount := Z.of_nat (length (base.filter (fun c => c = TAB) line)) in
    if negb (tabCount =? 3) then die else Ok tt.

Definition checkType (type : text) : outcome unit :=
  if negb (Z.of_nat (length type) =? 1) then die
  else match type with
       | c :: _ => if negb (char_eqb c "+") && negb (char_eqb c "-") then die else Ok tt
       | [] => Ok tt
       end.

(** [now] is the value of [time(NULL)]. *)
Definition checkTime (now : Z) (myTime : text) : outcome Z :=
  let len := Z.of_nat (length myTime) in
  if (len <? 1) || (11 <=? len) then die
  else if negb (forallb is_digit myTime) then die
  else if match myTime with c :: _ => char_eqb c "0" | [] => false end then die
  else
    let inputTime := atoll myTime in
    if (inputTime <? 0) || (now <? inputTime) then die
    else Ok (atoll myTime).

(** The loop of [checkAmount] over the characters: the index of the last dot
    (0 when there is none) and the number of dots. *)
Fixpoint dot_scan (a : Z) (amount : text) (dotIndex dotCount : Z) : Z * Z :=
  match amount with
  | [] => (dotIndex, dotCount)
  | c :: r => if char_eqb c "." then dot_scan (a + 1) r a (dotCount + 1)
              else dot_scan (a + 1) r dotIndex dotCount
  end.

Definition checkAmount (amount : text) : outcome Z :=
  let amountLen := Z.of_nat (length amount) in
  if amountLen <? 1 then die
  else
    let '(dotIndex, dotCount) := dot_scan 0 amount 0 0 in
    if negb (dotCount =? 1) then die
    else
      let before := take (Z.to_nat dotIndex) amount in
      let after := drop (Z.to_nat (dotIndex + 1)) amount in
      if negb (forallb is_digit before) then die
      else if negb (forallb is_digit after) then die
      else if 7 <? dotIndex then die
      else if negb (amountLen - 1 - dotIndex =? 2) then die
      else
        (* numPrevDot and numNextDot: 16-byte buffers, filled with zeros *)
        let numPrev := atoll before in
        let numNext := atoll (take 16 after) in
        if (0 <? numPrev) || (0 <? numNext) then
          if negb (dotIndex - 1 =? 0) &&
             match amount with c :: _ => char_eqb c "0" | [] => false end
          then die
          else Ok (numPrev * 100 + numNext)
        else die.

(** The index of the first character that is not a blank, 0 if there is none. *)
Fixpoint first_nonblank (a : nat) (desc : text) : nat :=
  match desc with
  | [] => 0
  | c :: r => if char_eqb c " " then first_nonblank (S a) r else a
  end.

(** [temp] is an array of 25 characters; copying it back with [strcpy] needs a
    NUL inside the array, otherwise the copy reads past its end. *)
Definition checkDesc (desc : text) : outcome text :=
  if Z.of_nat (length desc) <? 1 then die
  else
    let nonZeroIndex := first_nonblank 0 desc in
    if (length desc <=? nonZeroIndex)%nat then die
    else
      let copied := take 25 (drop nonZeroIndex desc) in
      let temp := copied ++ replicate (25 - length copied) NUL in
      if existsb (char_eqb NUL) temp
      then Ok (fst (span (fun c => negb (char_eqb c NUL)) temp))
      else Err FUndef.

(** ** [sscanf(inputLine, "%s %s %s %[^\n]", ...)]

    A conversion that finds no character to convert stops the scan and leaves
    the remaining (zeroed) buffers empty. *)
Definition scan_word (s : text) : option (text * text) :=
  match span (fun c => negb (is_space c)) (skip_space s) with
  | ([], _) => None
  | (w, r) => Some (w, r)
  end.
Definition scan_rest (s : text) : option (text * text) :=
  match span (fun c => negb (char_eqb c NL)) (skip_space s) with
  | ([], _) => None
  | (w, r) => Some (w, r)
  end.
Definition scan_fields (line : text) : text * text * text * text :=
  match scan_word line with
  | None => ([], [], [], [])
  | Some (type, r1) =>
      match scan_word r1 with
      | None => (type, [], [], [])
      | Some (time, r2) =>
          match scan_word r2 with
          | None => (type, time, [], [])
          | Some (amount, r3) =>
              match scan_rest r3 with
              | None => (type, time, amount, [])
              | Some (desc, _) => (type, time, amount, desc)
              end
          end
      end
  end.

Record My402ListElemObj := mkObj {
  type : text; time : text; amount : text; desc : text; timeStr : text;
  timestamp : Z; amountNum : Z; lineNum : Z
}.

Section Program.
(** [localtime] and [strftime] with the format "%a %b %d %Y". *)
Variable format_date : Z -> text.
Variable now : Z.

(** One iteration of the reading loop of [main], up to the append. *)
Definition readLine (inputLine : text) (lineNum : Z) : outcome My402ListElemObj :=
  let '(type, time, amount, desc) := scan_fields inputLine in
  match checkLine inputLine with
  | Err f => Err f
  | Ok _ =>
  match checkType type with
  | Err f => Err f
  | Ok _ =>
  match checkTime now time with
  | Err f => Err f
  | Ok inputTime =>
  match checkAmount amount with
  | Err f => Err f
  | Ok myAmount =>
  match checkDesc desc with
  | Err f => Err f
  | Ok desc =>
      let ds := format_date inputTime in
      let timeStr :=
        match ds !! 8%nat with
        | Some c => if char_eqb c "0" then <[8%nat := " "%char]> ds else ds
        | None => ds
        end in
      let amountNum :=
        match type with
        | c :: _ => if char_eqb c "-" then myAmount * -1 else myAmount
        | [] => myAmount
        end in
      Ok (mkObj type time amount desc timeStr inputTime amountNum lineNum)
  end end end end end.
End Program.

(** ** The bubble sort *)
Section Sort.
Context `{MA : Malloc}.

(** [BubbleForward(pList, &elem1, &elem2)]: the new values of the two
    element pointers are returned. *)
Definition BubbleForward (pList elem1 elem2 : Z) : M mem (Z * Z) :=
  let! c1 := load elem1 in
  let! c2 := load elem2 in
  let obj1 := obj c1 in
  let obj2 := obj c2 in
  let! elem1prev := My402ListPrev pList elem1 in
  let! elem2next := My402ListNext pList elem2 in
  My402ListUnlink pList elem1 ;;;
  My402ListUnlink pList elem2 ;;;
  let! e1 :=
    (if elem1prev =? NULL then
       let! _ := My402ListPrepend pList obj2 in My402ListFirst pList
     else
       let! _ := My402ListInsertAfter pList obj2 elem1prev in
       My402ListNext pList elem1prev) in
  let! e2 :=
    (if elem2next =? NULL then
       let! _ := My402ListAppend pList obj1 in My402ListLast pList
     else
       let! _ := My402ListInsertBefore pList obj1 elem2next in
       My402ListPrev pList elem2next) in
  mret_ (e1, e2).

(** The objects the list elements point to; the sort only reads them. *)
Variable objs : gmap Z My402ListElemObj.

Definition load_obj (p : Z) : M mem My402ListElemObj := mthe (objs !! p).

(** The inner loop, with [cnt] comparisons left; the result is
    [something_swapped]. *)
Fixpoint bubble_pass (pList : Z) (cnt : nat) (elem : Z) (swapped : bool) : M mem bool :=
  match cnt with
  | O => mret_ swapped
  | S cnt =>
      let! c := load elem in
      let! curObj := load_obj (obj c) in
      let cur_val := timestamp curObj in
      let! next_elem := My402ListNext pList elem in
      let! n := load next_elem in
      let! nextObj := load_obj (obj n) in
      let next_val := timestamp nextObj in
      if cur_val =? next_val then mfail (FExit 1)
      else if next_val <? cur_val then
        let! (_, next_elem) := BubbleForward pList elem next_elem in
        bubble_pass pList cnt next_elem true
      else bubble_pass pList cnt next_elem swapped
  end.

(** The outer loop: [k] is [num_items - i]. *)
Fixpoint bubble_loop (pList : Z) (k : nat) : M mem unit :=
  match k with
  | O => mret_ tt
  | S k' =>
      let! elem := My402ListFirst pList in
      let! something_swapped := bubble_pass pList k' elem false in
      if something_swapped then bubble_loop pList k' else mret_ tt
  end.

Definition BubbleSortForwardList (pList num_items : Z) : M mem unit :=
  let! len := My402ListLength pList in
  mguard (len =? num_items) (FExit 1) ;;;
  bubble_loop pList (Z.to_nat num_items).
End Sort.

(** ** The money column *)
Definition tf_set (i : Z) (c : ascii) (temp : text) : text := <[Z.to_nat i := c]> temp.

(** [while(money > 0 && index >= 1)]: at most twelve iterations, since
    [index] starts at 12 and decreases. *)
Fixpoint tf_digits (fuel : nat) (money index : Z) (temp : text) : Z * text :=
  match fuel with
  | O => (index, temp)
  | S fuel =>
      if (0 <? money) && (1 <=? index) then
        let remainder := money mod 10 in
        let temp := tf_set index (chr (48 + remainder)) temp in
        let money := money / 10 in
        let '(index, temp) :=
          if (index =? 11) && (0 <? money) then (index - 1, tf_set (index - 1) "." temp)
          else if (index =? 7) && (0 <? money) then (index - 1, tf_set (index - 1) "," temp)
          else if (index =? 3) && (0 <? money) then (index - 1, tf_set (index - 1) "," temp)
          else (index, temp) in
        tf_digits fuel money (index - 1) temp
      else (index, temp)
  end.
(** [while(index >= 9) temp[index--] = '0';] *)
Fixpoint tf_zeros (fuel : nat) (index : Z) (temp : text) : Z * text :=
  match fuel with
  | O => (index, temp)
  | S fuel => if 9 <=? index then tf_zeros fuel (index - 1) (tf_set index "0" temp)
              else (index, temp)
  end.
(** [for(int a = index; a >= 1; a--) temp[a] = ' ';] *)
Fixpoint tf_blanks (fuel : nat) (a : Z) (temp : text) : text :=
  match fuel with
  | O => temp
  | S fuel => if 1 <=? a then tf_blanks fuel (a - 1) (tf_set a " " temp) else temp
  end.
Definition moneyLimit : Z := 1000000000.

Definition transferFormat (money : Z) : text :=
  let temp := replicate 16 NUL in
  let temp := tf_set 0 " " temp in
  let temp := tf_set 13 " " temp in
  let temp := if money <? 0 then tf_set 13 ")" (tf_set 0 "(" temp) else temp in
  if (money <=? - moneyLimit) || (moneyLimit <=? money) then
    let temp := foldl (fun t a => tf_set a "?" t) temp (seqZ 1 12) in
    tf_set 6 "," (tf_set 2 "," (tf_set 10 "." temp))
  else
    (* abs takes an int *)
    let money := Z.abs (s32 money) in
    let '(index, temp) := tf_digits 12 money 12 temp in
    let '(index, temp) := tf_zeros 12 index temp in
    let temp := tf_set 10 "." temp in
    tf_blanks 12 index temp.

(** What [printf("%s")] shows of a buffer. *)
Definition shown (buf : text) : text := fst (span (fun c => negb (char_eqb c NUL)) buf).

(** ** The table *)
Definition indexArray : list nat := [0; 18; 45; 62; 79]%nat.
Definition bars (c : ascii) (line : text) : text := foldl (fun l i => <[i := c]> l) line indexArray.
Definition dashLine : text := bars "+" (replicate 80 "-"%char).

(** [for(a = from, b = 0; a < limit && b < strlen(s); a++, b++) line[a] = s[b]] *)
Fixpoint put_text (from limit : nat) (s : text) (line : text) : text :=
  match s with
  | [] => line
  | c :: r => if (from <? limit)%nat then put_text (S from) limit r (<[from := c]> line) else line
  end.
Definition secondLine : text :=
  put_text 71 78 (str "Balance")
    (put_text 55 61 (str "Amount")
      (put_text 20 31 (str "Description")
        (put_text 8 12 (str "Date") (bars "|" (replicate 80 " "%char))))).

Definition tableRow (o : My402ListElemObj) (balance : Z) : text :=
  let line := bars "|" (replicate 80 " "%char) in
  let line := put_text 2 17 (timeStr o) line in
  let line := put_text 20 44 (desc o) line in
  let line := put_text 47 61 (shown (transferFormat (amountNum o))) line in
  put_text 64 78 (shown (transferFormat balance)) line.

Section Print.
Context `{MA : Malloc}.
Variable objs : gmap Z My402ListElemObj.

(** The printing loop over the list, collecting the lines; the running
    [balance] is carried along. *)
Fixpoint print_rows (fuel : nat) (L elem balance : Z) : M mem (list text) :=
  match fuel with
  | O => mfail FFuel
  | S fuel =>
      if elem =? NULL then mret_ []
      else
        let! c := load elem in
        let! curObj := load_obj objs (obj c) in
        let balance := balance + amountNum curObj in
        let row := tableRow curObj balance in
        let! nxt := My402ListNext L elem in
        let! rows := print_rows fuel L nxt balance in
        mret_ (row :: rows)
  end.
Definition printTable (L : Z) : M mem (list text) :=
  let! first := My402ListFirst L in
  let! fuel := mget loop_bound in
  let! rows := print_rows fuel L first 0 in
  mret_ ([dashLine; secondLine; dashLine] ++ rows ++ [dashLine]).
End Print.

(** ** Correctness of the sort *)

(** The sort on the sequence of time stamps: a pass, and the whole sort;
    [None] is the exit on two equal stamps. *)
Section PureSort.
Context {A : Type} (key : A -> Z).

Fixpoint bpass (k : nat) (xs : list A) : option (list A * bool) :=
  match k, xs with
  | S k, x :: y :: r =>
      if key x =? key y then None
      else if key y <? key x then
        '(r', _) ← bpass k (x :: r); Some (y :: r', true)
      else
        '(r', b) ← bpass k (y :: r); Some (x :: r', b)
  | _, _ => Some (xs, false)
  end.
Fixpoint bsort (k : nat) (xs : list A) : option (list A) :=
  match k with
  | O => Some xs
  | S k' => '(ys, b) ← bpass k' xs; if b : bool then bsort k' ys else Some ys
  end.

Definition klt (x y : A) : Prop := key x < key y.

Lemma bpass_spec k x a b :
  length a = k ->
  match bpass k (x :: a ++ b) with
  | Some (r, s) =>
      exists a' mx, r = a' ++ mx :: b /\ Permutation (x :: a) (a' ++ [mx]) /\
        Forall (fun y => klt y mx) a' /\
        (s = false -> a' ++ [mx] = x :: a /\ StronglySorted klt (x :: a))
  | None => ~ NoDup (map key (x :: a))
  end.
Proof.
  revert x a. induction k as [|k IH]; intros x a Hk.
  { destruct a; [|done]. exists [], x. cbn. repeat split; repeat constructor. }
  destruct a as [|y a]; [done|]. cbn [bpass app].
  destruct (Z.eqb_spec (key x) (key y)) as [E|E].
  { cbn. rewrite E. intros [Hn _]%NoDup_cons. set_solver. }
  destruct (Z.ltb_spec (key y) (key x)) as [Hlt|Hlt].
  - specialize (IH x a ltac:(naive_solver)).
    destruct (bpass k (x :: a ++ b)) as [[r s]|]; cbn.
    + destruct IH as (a' & mx & -> & Hp & Hf & _). exists (y :: a'), mx. split; [done|].
      split; [|split; [|done]].
      * by rewrite Permutation_swap, Hp.
      * constructor; [|done]. unfold klt in *.
        assert (x ∈ a' ++ [mx]) as Hx by (rewrite <- Hp; set_solver).
        apply elem_of_app in Hx as [Hx|Hx]; [|set_solver by lia].
        rewrite Forall_forall in Hf. specialize (Hf x Hx). cbn in Hf. lia.
    + intros Hnd. apply IH. cbn in *. rewrite !NoDup_cons in *. set_solver.
  - specialize (IH y a ltac:(naive_solver)).
    destruct (bpass k (y :: a ++ b)) as [[r s]|]; cbn.
    + destruct IH as (a' & mx & -> & Hp & Hf & Hs). exists (x :: a'), mx. split; [done|].
      assert (klt x mx) as Hx.
      { unfold klt in *. assert (y ∈ a' ++ [mx]) as Hy by (rewrite <- Hp; set_solver).
        apply elem_of_app in Hy as [Hy|Hy]; [|set_solver by lia].
        rewrite Forall_forall in Hf. specialize (Hf y Hy). cbn in Hf. lia. }
      split; [|split].
      * by rewrite Hp.
      * by constructor.
      * intros Hb. destruct (Hs Hb) as [E1 E2]. split; [by rewrite <- E1|].
        constructor; [done|]. inversion E2 as [|?? Hss Hfa]; subst.
        constructor; [unfold klt; lia|].
        eapply Forall_impl; [exact Hfa|]. unfold klt. cbn. lia.
    + intros Hnd. apply IH. by apply NoDup_cons in Hnd as [_ ?].
Qed.

Lemma bsort_spec k a b :
  length a = k -> StronglySorted klt b -> (forall x y, x ∈ a -> y ∈ b -> klt x y) ->
  match bsort k (a ++ b) with
  | Some r => Permutation (a ++ b) r /\ StronglySorted klt r
  | None => ~ NoDup (map key (a ++ b))
  end.
Proof.
  revert a b. induction k as [|k IH]; intros a b Hk Hb Hab.
  { destruct a; [|done]. done. }
  destruct a as [|x a]; [done|]. cbn [bsort]. rewrite <- app_comm_cons.
  pose proof (bpass_spec k x a b ltac:(naive_solver)) as Hp.
  destruct (bpass k (x :: a ++ b)) as [[r s]|]; cbn [mbind option_bind].
  2:{ rewrite app_comm_cons, map_app. intros [? _]%NoDup_app. done. }
  destruct Hp as (a' & mx & -> & Hp & Hf & Hs).
  assert (Permutation (x :: a ++ b) (a' ++ mx :: b)) as Hperm.
  { rewrite app_comm_cons, Hp, <- app_assoc. done. }
  assert (forall x0 y, x0 ∈ a' ++ [mx] -> y ∈ b -> klt x0 y) as Hab'.
  { intros x0 y Hx0. apply Hab. by rewrite Hp. }
  assert (StronglySorted klt (mx :: b)) as Hmb.
  { constructor; [done|]. apply Forall_forall. intros y Hy. apply Hab'; set_solver. }
  destruct s.
  - specialize (IH a' (mx :: b)).
    assert (length a' = k) as Hl.
    { apply Permutation_length in Hp. rewrite length_app in Hp. cbn in *. lia. }
    assert (forall x y, x ∈ a' -> y ∈ mx :: b -> klt x y) as Hmx.
    { intros x0 y Hx0 [->|Hy]%elem_of_cons.
      - rewrite Forall_forall in Hf. by apply Hf.
      - apply Hab'; set_solver. }
    specialize (IH Hl Hmb Hmx).
    destruct (bsort k (a' ++ mx :: b)) as [r|].
    + destruct IH as [IH1 IH2]. split; [by rewrite Hperm|done].
    + intros Hnd. apply IH. by rewrite <- Hperm.
  - destruct (Hs eq_refl) as [E Hss]. split; [by rewrite Hperm|].
    replace (a' ++ mx :: b) with ((x :: a) ++ b) by by rewrite <- E, <- app_assoc.
    apply StronglySorted_app. split_and!; try done.
Qed.
End PureSort.

Section SortRefines.
Context `{MA : Malloc}.
Hypothesis malloc_total : forall m, is_Some (malloc_pick m).
Implicit Types (m : mem) (L : Z) (xs ys : list (Z * Z)).

(** The two halves of [BubbleForward] that put an object back. *)
Lemma put_back_first m L xs ys o :
  list_rep m L (xs ++ ys) -> Z.of_nat (length (xs ++ ys)) < INT_MAX ->
  exists m' q,
    (if last_ptr NULL xs =? NULL then
       let! _ := My402ListPrepend L o in My402ListFirst L
     else
       let! _ := My402ListInsertAfter L o (last_ptr NULL xs) in
       My402ListNext L (last_ptr NULL xs)) m = Ok (q, m') /\
    list_rep m' L (xs ++ (q, o) :: ys).
Proof.
  intros H Hlt. destruct xs as [|[q oq] xs _] using rev_ind.
  - destruct (malloc_total m) as [p Hp].
    destruct (prepend_ok m L ys o p H Hlt Hp) as (m' & Hr & Hi & _).
    change (last_ptr NULL [] =? NULL) with true. cbv iota.
    rewrite (mbind_run _ _ _ _ _ Hr), (first_run _ _ _ Hi). by exists m', p.
  - rewrite last_ptr_snoc. rewrite <- app_assoc in *. cbn [app] in *.
    rewrite (proj2 (Z.eqb_neq q NULL)).
    2:{ intros ->. apply (rep_null _ _ _ H). rewrite ptrs_app, ptrs_cons. set_solver. }
    destruct (malloc_total (mkMem (elems m)
      (<[L := Z.of_nat (length (xs ++ (q, oq) :: ys)) + 1]> (nums m)))) as [p Hp].
    destruct (insert_after_ok m L xs q oq ys o p H Hlt Hp) as (m' & Hr & Hi & _).
    rewrite (mbind_run _ _ _ _ _ Hr). rewrite <- app_assoc in Hi.
    rewrite (next_run _ _ _ _ _ _ Hi), head_ptr_cons.
    exists m', p. split; [done|]. by rewrite <- app_assoc.
Qed.

Lemma put_back_second m L xs ys o :
  list_rep m L (xs ++ ys) -> Z.of_nat (length (xs ++ ys)) < INT_MAX ->
  exists m' q,
    (if head_ptr NULL ys =? NULL then
       let! _ := My402ListAppend L o in My402ListLast L
     else
       let! _ := My402ListInsertBefore L o (head_ptr NULL ys) in
       My402ListPrev L (head_ptr NULL ys)) m = Ok (q, m') /\
    list_rep m' L (xs ++ (q, o) :: ys).
Proof.
  intros H Hlt. destruct ys as [|[q oq] ys].
  - destruct (malloc_total m) as [p Hp]. rewrite app_nil_r in *.
    destruct (append_ok m L xs o p H Hlt Hp) as (m' & Hr & Hi & _).
    change (head_ptr NULL [] =? NULL) with true. cbv iota.
    rewrite (mbind_run _ _ _ _ _ Hr), (last_run _ _ _ Hi), last_ptr_snoc. by exists m', p.
  - rewrite head_ptr_cons. rewrite (proj2 (Z.eqb_neq q NULL)).
    2:{ intros ->. apply (rep_null _ _ _ H). rewrite ptrs_app, ptrs_cons. set_solver. }
    destruct (malloc_total (mkMem (elems m)
      (<[L := Z.of_nat (length (xs ++ (q, oq) :: ys)) + 1]> (nums m)))) as [p Hp].
    destruct (insert_before_ok m L xs q oq ys o p H Hlt Hp) as (m' & Hr & Hi & _).
    rewrite (mbind_run _ _ _ _ _ Hr). exists m', p. split; [|done].
    replace (xs ++ (p, o) :: (q, oq) :: ys) with ((xs ++ [(p, o)]) ++ (q, oq) :: ys) in Hi
      by by rewrite <- app_assoc.
    by rewrite (prev_run _ _ _ _ _ _ Hi), last_ptr_snoc.
Qed.

(** [BubbleForward] exchanges the objects of two adjacent elements (in two
    fresh cells) and returns the new elements. *)
Lemma bubble_forward_ok m L xs p1 o1 p2 o2 ys :
  list_rep m L (xs ++ (p1, o1) :: (p2, o2) :: ys) ->
  Z.of_nat (length (xs ++ (p1, o1) :: (p2, o2) :: ys)) <= INT_MAX ->
  exists m' q1 q2, BubbleForward L p1 p2 m = Ok ((q1, q2), m') /\
    list_rep m' L (xs ++ (q1, o2) :: (q2, o1) :: ys).
Proof.
  intros H Hlt. rewrite length_app in Hlt. cbn in Hlt.
  assert (list_rep m L ((xs ++ [(p1, o1)]) ++ (p2, o2) :: ys)) as H' by by rewrite <- app_assoc.
  unfold BubbleForward. rewrite (mbind_run _ _ _ _ _ (load_run _ _ _ (rep_cell _ _ _ _ _ _ H))).
  rewrite (mbind_run _ _ _ _ _ (load_run _ _ _ (rep_cell _ _ _ _ _ _ H'))). cbn [obj].
  rewrite (mbind_run _ _ _ _ _ (prev_run _ _ _ _ _ _ H)).
  rewrite (mbind_run _ _ _ _ _ (next_run _ _ _ _ _ _ H')).
  destruct (unlink_ok _ _ _ _ _ _ H) as (m1 & Hu1 & H1 & _).
  rewrite (mbind_run _ _ _ _ _ Hu1).
  destruct (unlink_ok _ _ _ _ _ _ H1) as (m2 & Hu2 & H2 & _).
  rewrite (mbind_run _ _ _ _ _ Hu2).
  destruct (put_back_first m2 L xs ys o2 H2) as (m3 & q1 & Hq1 & H3).
  { rewrite length_app. lia. }
  rewrite (mbind_run _ _ _ _ _ Hq1).
  replace (xs ++ (q1, o2) :: ys) with ((xs ++ [(q1, o2)]) ++ ys) in H3 by by rewrite <- app_assoc.
  destruct (put_back_second m3 L (xs ++ [(q1, o2)]) ys o1 H3) as (m4 & q2 & Hq2 & H4).
  { rewrite !length_app. cbn. lia. }
  rewrite (mbind_run _ _ _ _ _ Hq2). exists m4, q1, q2. split; [done|].
  by rewrite <- app_assoc in H4.
Qed.

Variable objs : gmap Z My402ListElemObj.
(** The time stamp of an object pointer. *)
Definition stamp (p : Z) : Z := from_option timestamp 0 (objs !! p).

Lemma load_obj_run m p : is_Some (objs !! p) ->
  exists o, load_obj objs p m = Ok (o, m) /\ timestamp o = stamp p.
Proof. intros [o Ho]. exists o. unfold load_obj, stamp. by rewrite Ho. Qed.

Lemma bubble_pass_refines L k m xs p o zs s :
  list_rep m L (xs ++ (p, o) :: zs) ->
  Z.of_nat (length (xs ++ (p, o) :: zs)) <= INT_MAX ->
  (k <= length zs)%nat -> Forall (fun x => is_Some (objs !! x)) (o :: zs.*2) ->
  match bpass stamp k (o :: zs.*2) with
  | Some (r, s') => exists m' rs, bubble_pass objs L k p s m = Ok (s || s', m') /\
      list_rep m' L (xs ++ rs) /\ rs.*2 = r
  | None => bubble_pass objs L k p s m = Err (FExit 1)
  end.
Proof.
  revert m xs p o zs s. induction k as [|k IH]; intros m xs p o zs s H Hlt Hk Hobj; cbn [bpass].
  { exists m, ((p, o) :: zs). by rewrite orb_false_r. }
  destruct zs as [|[q o'] zs]; [cbn in Hk; lia|]. cbn [bubble_pass bpass fmap list_fmap snd].
  apply Forall_cons in Hobj as [Ho Hobj]. apply Forall_cons in Hobj as [Ho' Hobj].
  destruct (load_obj_run m o Ho) as (c & Hc & Ec). destruct (load_obj_run m o' Ho') as (n & Hn & En).
  assert (list_rep m L ((xs ++ [(p, o)]) ++ (q, o') :: zs)) as H' by by rewrite <- app_assoc.
  rewrite (mbind_run _ _ _ _ _ (load_run _ _ _ (rep_cell _ _ _ _ _ _ H))). cbn [obj].
  rewrite (mbind_run _ _ _ _ _ Hc), (mbind_run _ _ _ _ _ (next_run _ _ _ _ _ _ H)), head_ptr_cons.
  rewrite (mbind_run _ _ _ _ _ (load_run _ _ _ (rep_cell _ _ _ _ _ _ H'))). cbn [obj].
  rewrite (mbind_run _ _ _ _ _ Hn), Ec, En.
  destruct (stamp o =? stamp o') eqn:E; [done|].
  destruct (stamp o' <? stamp o) eqn:E'.
  - destruct (bubble_forward_ok _ _ _ _ _ _ _ _ H Hlt) as (m1 & q1 & q2 & Hb & H1).
    rewrite (mbind_run _ _ _ _ _ Hb).
    replace (xs ++ (q1, o') :: (q2, o) :: zs) with ((xs ++ [(q1, o')]) ++ (q2, o) :: zs) in H1
      by by rewrite <- app_assoc.
    specialize (IH m1 _ q2 o zs true H1). rewrite !length_app in *. cbn in *.
    specialize (IH ltac:(lia) ltac:(lia) ltac:(by constructor)).
    destruct (bpass stamp k (o :: zs.*2)) as [[r s']|]; cbn; [|done].
    destruct IH as (m' & rs & -> & Hrs & <-). exists m', ((q1, o') :: rs).
    rewrite orb_true_r. by rewrite <- app_assoc in Hrs.
  - specialize (IH m _ q o' zs s H'). rewrite !length_app in *. cbn in *.
    specialize (IH ltac:(lia) ltac:(lia) ltac:(by constructor)).
    destruct (bpass stamp k (o' :: zs.*2)) as [[r s']|]; cbn; [|done].
    destruct IH as (m' & rs & -> & Hrs & <-). exists m', ((p, o) :: rs).
    by rewrite <- app_assoc in Hrs.
Qed.

Lemma bubble_loop_refines L k m xs :
  list_rep m L xs -> Z.of_nat (length xs) <= INT_MAX ->
  (k <= length xs)%nat -> Forall (fun x => is_Some (objs !! x)) xs.*2 ->
  match bsort stamp k xs.*2 with
  | Some r => exists m' ys, bubble_loop objs L k m = Ok (tt, m') /\
      list_rep m' L ys /\ ys.*2 = r
  | None => bubble_loop objs L k m = Err (FExit 1)
  end.
Proof.
  revert m xs. induction k as [|k IH]; intros m xs H Hlt Hk Hobj; cbn [bsort bubble_loop].
  { by exists m, xs. }
  destruct xs as [|[p o] xs]; [cbn in Hk; lia|].
  rewrite (mbind_run _ _ _ _ _ (first_run _ _ _ H)), head_ptr_cons.
  pose proof (bubble_pass_refines L k m [] p o xs false H Hlt ltac:(cbn in Hk; lia) Hobj) as Hp.
  pose proof (bpass_spec stamp k o (take k xs.*2) (drop k xs.*2)) as Hs.
  rewrite take_drop in Hs. cbn in Hk.
  rewrite length_take, length_fmap in Hs. specialize (Hs ltac:(lia)).
  cbn [fmap list_fmap snd] in *.
  destruct (bpass stamp k (o :: xs.*2)) as [[r s]|]; cbn [mbind option_bind].
  2: by apply mbind_err.
  destruct Hp as (m' & rs & Hr & Hrs & <-). cbn [app orb] in *.
  rewrite (mbind_run _ _ _ _ _ Hr).
  destruct Hs as (a' & mx & E & Hperm & _).
  assert (Permutation (o :: xs.*2) rs.*2) as Hpm.
  { rewrite E. transitivity ((o :: take k xs.*2) ++ drop k xs.*2).
    - by rewrite <- app_comm_cons, take_drop.
    - by rewrite Hperm, <- app_assoc. }
  assert (length rs = S (length xs)) as Hlen.
  { apply Permutation_length in Hpm. cbn in Hpm. rewrite !length_fmap in Hpm. done. }
  destruct s; [|by exists m', rs].
  apply IH; [done | rewrite Hlen; cbn in Hlt; lia | lia | by rewrite <- Hpm].
Qed.

Lemma StronglySorted_NoDup (l : list Z) :
  StronglySorted (klt stamp) l -> NoDup (map stamp l).
Proof.
  induction 1 as [|x l _ IH Hf]; cbn; [constructor|]. apply NoDup_cons. split; [|done].
  intros (y & Hy & Hin)%list_elem_of_fmap. rewrite Forall_forall in Hf.
  specialize (Hf y Hin). unfold klt in Hf. lia.
Qed.

Lemma bubble_sort_run L m xs :
  list_rep m L xs -> Z.of_nat (length xs) <= INT_MAX ->
  Forall (fun x => is_Some (objs !! x)) xs.*2 ->
  if decide (NoDup (map stamp xs.*2)) then
    exists m' ys, BubbleSortForwardList objs L (Z.of_nat (length xs)) m = Ok (tt, m') /\
      list_rep m' L ys /\ Permutation xs.*2 ys.*2 /\
      StronglySorted (fun a b => stamp a < stamp b) ys.*2
  else BubbleSortForwardList objs L (Z.of_nat (length xs)) m = Err (FExit 1).
Proof.
  intros H Hlt Hobj. unfold BubbleSortForwardList, My402ListLength.
  rewrite (mbind_run _ _ _ _ _ (load_num_run _ _ _ (rep_num _ _ _ H))), Z.eqb_refl.
  unfold mguard, mbind_, mret_. rewrite Nat2Z.id.
  pose proof (bubble_loop_refines L (length xs) m xs H Hlt ltac:(lia) Hobj) as Hl.
  pose proof (bsort_spec stamp (length xs) xs.*2 []) as Hs.
  rewrite app_nil_r, length_fmap in Hs.
  specialize (Hs eq_refl ltac:(constructor) ltac:(set_solver)).
  destruct (bsort stamp (length xs) xs.*2) as [r|].
  - destruct Hs as [Hp Hss]. destruct Hl as (m' & ys & -> & Hrep & <-).
    rewrite decide_True; [by exists m', ys|].
    rewrite Hp. by apply StronglySorted_NoDup.
  - by rewrite decide_False.
Qed.

(** On a list whose objects exist, [BubbleSortForwardList] terminates;
    when all time stamps differ it leaves the list holding the same objects
    in strictly increasing order of time stamp, and when two stamps coincide
    it exits with status 1. *)
Theorem bubble_sort_correct L m xs :
  list_rep m L xs -> Z.of_nat (length xs) <= INT_MAX ->
  Forall (fun x => is_Some (objs !! x)) xs.*2 ->
  if decide (NoDup (map stamp xs.*2)) then
    exists m' ys, BubbleSortForwardList objs L (Z.of_nat (length xs)) m = Ok (tt, m') /\
      list_rep m' L ys /\ Permutation xs.*2 ys.*2 /\
      StronglySorted (fun a b => stamp a < stamp b) ys.*2
  else BubbleSortForwardList objs L (Z.of_nat (length xs)) m = Err (FExit 1).
Proof. apply bubble_sort_run. Qed.
End SortRefines.

(** ** The money column *)

(** The reference layout of the amount column: nine digits, blank where they
    would be leading zeros left of the units, a dot, and the commas that are
    needed. *)
Definition digit (m k : Z) : ascii := chr (48 + (m / 10 ^ k) mod 10).
Definition digit_or_blank (m k : Z) : ascii := if m <? 10 ^ k then " "%char else digit m k.
Definition comma (m k : Z) : ascii := if m <? 10 ^ k then " "%char else ","%char.
Definition money_ref (money : Z) : text :=
  let m := Z.abs money in
  let d := digit_or_blank m in
  [if money <? 0 then "("%char else " "%char;
   d 8; comma m 8; d 7; d 6; d 5; comma m 5; d 4; d 3; digit m 2; "."%char; digit m 1; digit m 0;
   if money <? 0 then ")"%char else " "%char].

Lemma tf_digits_stop fuel index temp : tf_digits fuel 0 index temp = (index, temp).
Proof. by destruct fuel. Qed.

Lemma tf_digits_step fuel m k index temp :
  0 <= k -> 0 < m / 10 ^ k -> 1 <= index ->
  tf_digits (S fuel) (m / 10 ^ k) index temp =
  let temp := tf_set index (digit m k) temp in
  let more := 0 <? m / 10 ^ (k + 1) in
  let '(index, temp) :=
    if (index =? 11) && more then (index - 1, tf_set (index - 1) "." temp)
    else if (index =? 7) && more then (index - 1, tf_set (index - 1) "," temp)
    else if (index =? 3) && more then (index - 1, tf_set (index - 1) "," temp)
    else (index, temp) in
  tf_digits fuel (m / 10 ^ (k + 1)) (index - 1) temp.
Proof.
  intros Hk Hm Hi. cbn [tf_digits].
  rewrite (proj2 (Z.ltb_lt _ _) Hm), (proj2 (Z.leb_le _ _) Hi).
  rewrite Z.div_div by lia.
  replace (10 ^ k * 10) with (10 ^ (k + 1)) by (rewrite Z.pow_add_r by lia; lia). done.
Qed.

Lemma div_pow_zero m k : 0 <= k -> 0 <= m -> ~ 0 < m / 10 ^ k -> m / 10 ^ k = 0 /\ m < 10 ^ k.
Proof.
  intros Hk Hm Hn. assert (0 < 10 ^ k) by lia.
  assert (m / 10 ^ k = 0) as E by (pose proof (Z.div_pos m (10 ^ k)); lia).
  split; [done|]. by apply Z.div_small_iff in E; lia.
Qed.
Lemma div_pow_pos m k : 0 <= k -> 0 < m / 10 ^ k -> 10 ^ k <= m.
Proof.
  intros Hk Hm. destruct (Z.le_gt_cases (10 ^ k) m) as [?|Hlt]; [done|].
  destruct (Z.le_gt_cases 0 m); [rewrite Z.div_small in Hm; lia|].
  assert (m / 10 ^ k < 0) by (apply Z.div_lt_upper_bound; lia). lia.
Qed.

Definition tf_start (l r : ascii) : text :=
  [l] ++ replicate 12 NUL ++ [r; NUL; NUL].
Definition tf_ref (m : Z) (l r : ascii) : text :=
  let d := digit_or_blank m in
  [l; d 8; comma m 8; d 7; d 6; d 5; comma m 5; d 4; d 3; digit m 2; "."%char; digit m 1;
   digit m 0; r; NUL; NUL].
Definition tf_tail (it : Z * text) : text :=
  let '(index, temp) := tf_zeros 12 (fst it) (snd it) in tf_blanks 12 index (tf_set 10 "." temp).

Lemma digit_zero m k : m / 10 ^ k = 0 -> digit m k = "0"%char.
Proof. intros E. unfold digit. by rewrite E. Qed.

(** The number has no digit [k]: everything from there on is filler. *)
Ltac tf_done m k :=
  let E := fresh "E" in let Hlt := fresh "Hlt" in
  destruct (div_pow_zero m k) as [E Hlt]; [lia | lia | lia |];
  try rewrite E; rewrite tf_digits_stop;
  cbv -[digit digit_or_blank comma NUL Z.pow Z.mul Z.add Z.div]; unfold digit_or_blank, comma;
  repeat match goal with
  | H : 0 < _ / 10 ^ ?j |- _ => apply div_pow_pos in H; [|lia]
  end;
  repeat match goal with
  | |- context [Z.ltb m ?t] =>
      first [ rewrite (proj2 (Z.ltb_lt m t)) by lia | rewrite (proj2 (Z.ltb_ge m t)) by lia ]
  end;
  rewrite ?(digit_zero m 2), ?(digit_zero m 1) by (apply Z.div_small; lia);
  reflexivity.

(** Show digit [k] and look at the next one. *)
Ltac tf_next m k :=
  let H := fresh "H" in
  rewrite tf_digits_step by lia;
  let k' := eval cbv in (k + 1) in change (k + 1) with k';
  destruct (Z.ltb_spec 0 (m / 10 ^ k')) as [H|H];
  cbv beta iota zeta delta [Z.eqb Pos.eqb andb];
  [ match goal with |- context [tf_digits _ _ ?i _] => let j := eval cbv in i in change i with j end
  | tf_done m k' ].

Lemma tf_magnitude m l r :
  0 <= m < moneyLimit -> tf_tail (tf_digits 12 m 12 (tf_start l r)) = tf_ref m l r.
Proof.
  intros Hm. unfold moneyLimit in Hm. unfold tf_ref.
  replace m with (m / 10 ^ 0) at 1 by apply Z.div_1_r.
  destruct (Z.ltb_spec 0 (m / 10 ^ 0)) as [H0|H0].
  2:{ assert (m = 0) as -> by (destruct (div_pow_zero m 0); lia). reflexivity. }
  tf_next m 0.
  tf_next m 1. tf_next m 2. tf_next m 3. tf_next m 4. tf_next m 5. tf_next m 6. tf_next m 7.
  tf_next m 8. exfalso.
  match goal with H : 0 < m / 10 ^ 9 |- _ => apply div_pow_pos in H; lia end.
Qed.

Lemma transfer_format_run money :
  - moneyLimit < money < moneyLimit -> transferFormat money = money_ref money ++ [NUL; NUL].
Proof.
  intros Hm. unfold moneyLimit in Hm. unfold transferFormat, moneyLimit.
  rewrite (proj2 (Z.leb_gt money _)), (proj2 (Z.leb_gt _ money)) by lia. cbn [orb].
  rewrite s32_small by (unfold INT_MIN, INT_MAX; lia).
  unfold money_ref.
  destruct (Z.ltb_spec money 0).
  - pose proof (tf_magnitude (Z.abs money) "(" ")" ltac:(unfold moneyLimit; lia)) as E.
    change (tf_set 13 ")" _) with (tf_start "(" ")").
    by destruct (tf_digits 12 (Z.abs money) 12 (tf_start "(" ")")).
  - pose proof (tf_magnitude (Z.abs money) " " " " ltac:(unfold moneyLimit; lia)) as E.
    change (tf_set 13 " " _) with (tf_start " " " ").
    by destruct (tf_digits 12 (Z.abs money) 12 (tf_start " " " ")).
Qed.

Lemma code_chr z : 0 <= z < 256 -> code (chr z) = z.
Proof. intros. unfold code, chr. rewrite nat_ascii_embedding by lia. lia. Qed.
Lemma code_digit m k : code (digit m k) = 48 + (m / 10 ^ k) mod 10.
Proof. apply code_chr. pose proof (Z.mod_pos_bound (m / 10 ^ k) 10). lia. Qed.
Lemma char_eqb_code a b : char_eqb a b = (code a =? code b).
Proof.
  unfold char_eqb. destruct (Ascii.eqb_spec a b) as [->|Hne]; [by rewrite Z.eqb_refl|].
  symmetry. apply Z.eqb_neq. intros E. apply Hne. unfold code in E.
  apply Nat2Z.inj in E. by rewrite <- (ascii_nat_embedding a), E, ascii_nat_embedding.
Qed.

(** ** What a reader of the table gets back *)
Definition visible (c : ascii) : Prop := 32 <= code c.
Lemma span_visible s r :
  Forall visible s -> span (fun c => negb (char_eqb c NUL)) (s ++ NUL :: r) = (s, NUL :: r).
Proof.
  induction 1 as [|c s Hc _ IH]; cbn; [done|]. rewrite char_eqb_code, IH.
  unfold visible in Hc. rewrite (proj2 (Z.eqb_neq _ _)); [done|].
  change (code NUL) with 0. lia.
Qed.
Lemma visible_digit m k : visible (digit m k).
Proof. unfold visible. rewrite code_digit. pose proof (Z.mod_pos_bound (m / 10 ^ k) 10). lia. Qed.
Lemma visible_or_blank m k : visible (digit_or_blank m k).
Proof. unfold digit_or_blank. case_match; [by vm_compute | apply visible_digit]. Qed.
Lemma visible_comma m k : visible (comma m k).
Proof. unfold comma. case_match; by vm_compute. Qed.
#[local] Hint Resolve visible_digit visible_or_blank visible_comma : core.

Lemma money_ref_visible money : Forall visible (money_ref money).
Proof.
  unfold money_ref.
  repeat first [apply List.Forall_nil | apply List.Forall_cons; [ | ]]; try done;
    try (case_match; by vm_compute); by vm_compute.
Qed.

Lemma shown_money money :
  - moneyLimit < money < moneyLimit -> shown (transferFormat money) = money_ref money.
Proof.
  intros Hm. unfold shown. rewrite transfer_format_run by done.
  by rewrite (span_visible _ [NUL]) by apply money_ref_visible.
Qed.

(** The number a reader makes of the column: its digits, negative between
    parentheses. *)
Definition read_digit (acc : Z) (c : ascii) : Z :=
  if is_digit c then acc * 10 + (code c - 48) else acc.
Definition read_money (s : text) : Z :=
  let v := fold_left read_digit s 0 in
  match s with
  | c :: _ => if char_eqb c "(" then - v else v
  | [] => v
  end.


Lemma read_digit_digit m k acc :
  0 <= k -> acc = m / 10 ^ (k + 1) -> read_digit acc (digit m k) = m / 10 ^ k.
Proof.
  intros Hk ->. unfold read_digit, is_digit. rewrite code_digit.
  pose proof (Z.mod_pos_bound (m / 10 ^ k) 10 ltac:(lia)) as Hb.
  rewrite (proj2 (Z.leb_le _ _)), (proj2 (Z.leb_le _ 57)) by lia. cbn [andb].
  rewrite Z.pow_add_r, <- Z.div_div by lia. change (10 ^ 1) with 10.
  pose proof (Z.div_mod (m / 10 ^ k) 10 ltac:(lia)). lia.
Qed.
Lemma read_digit_or_blank m k acc :
  0 <= m -> 0 <= k -> acc = m / 10 ^ (k + 1) -> read_digit acc (digit_or_blank m k) = m / 10 ^ k.
Proof.
  intros Hm Hk Hacc. unfold digit_or_blank. destruct (Z.ltb_spec m (10 ^ k)) as [Hlt|]; [|by apply read_digit_digit].
  change (read_digit acc " ") with acc. subst acc. rewrite !Z.div_small; [done|lia|].
  rewrite Z.pow_add_r by lia. lia.
Qed.
Lemma read_digit_comma m k acc : read_digit acc (comma m k) = acc.
Proof. unfold comma. by case_match. Qed.

(** C40: the amount column is faithful: for every amount that fits the column
    (absolute value under ten million dollars, in cents), the text printed
    by [transferFormat] is 14 characters wide and reads back as the amount. *)
Theorem transfer_format_roundtrip money :
  - moneyLimit < money < moneyLimit ->
  length (shown (transferFormat money)) = 14%nat /\
  read_money (shown (transferFormat money)) = money.
Proof.
  intros Hm. rewrite shown_money by done. split; [done|]. unfold moneyLimit in Hm.
  unfold read_money, money_ref. cbn [fold_left].
  set (m := Z.abs money).
  assert (0 <= m) as Hm0 by (unfold m; lia).
  assert (0 = m / 10 ^ (8 + 1)) as E by (symmetry; apply Z.div_small; lia).
  assert (forall b : bool, read_digit 0 (if b then "("%char else " "%char) = 0) as -> by by intros [].
  assert (forall acc (b : bool), read_digit acc (if b then ")"%char else " "%char) = acc) as ->
    by by intros ? [].
  rewrite (read_digit_or_blank m 8 0) by first [done | lia]. rewrite !read_digit_comma.
  rewrite (read_digit_or_blank m 7), (read_digit_or_blank m 6), (read_digit_or_blank m 5) by first [done | lia].
  rewrite (read_digit_or_blank m 4), (read_digit_or_blank m 3) by first [done | lia].
  rewrite (read_digit_digit m 2) by first [done | lia]. change (read_digit (m / 10 ^ 2) ".") with (m / 10 ^ 2).
  rewrite (read_digit_digit m 1), (read_digit_digit m 0) by first [done | lia].
  rewrite Z.div_1_r. destruct (Z.ltb_spec money 0); cbn; lia.
Qed.

Lemma shown_overflow money :
  ~ (- moneyLimit < money < moneyLimit) ->
  shown (transferFormat money) =
  if decide (money < 0) then str "(?,???,???.??)" else str " ?,???,???.?? ".
Proof.
  intros Hd. unfold transferFormat. destruct (Z.ltb_spec money 0);
    [rewrite decide_True by lia | rewrite decide_False by lia];
    (rewrite (proj2 (orb_true_iff _ _));
      [vm_compute; reflexivity | rewrite !Z.leb_le; unfold moneyLimit in *; lia]).
Qed.
Lemma shown_length money : length (shown (transferFormat money)) = 14%nat.
Proof.
  destruct (decide (- moneyLimit < money < moneyLimit)) as [Hd|Hd].
  - by rewrite shown_money.
  - rewrite shown_overflow by done. by case_decide.
Qed.

(** [transferFormat] produces the reference layout (right-aligned digits,
    thousands separators, parentheses for debits) when the amount fits, and
    the question-mark pattern when it does not. *)
Theorem transfer_format_layout money :
  shown (transferFormat money) =
  if decide (- moneyLimit < money < moneyLimit) then money_ref money
  else if decide (money < 0) then str "(?,???,???.??)" else str " ?,???,???.?? ".
Proof.
  case_decide; [by apply shown_money | by apply shown_overflow].
Qed.

(** ** The columns of a table row *)
Lemma put_text_length from limit s line : length (put_text from limit s line) = length line.
Proof.
  revert from line. induction s as [|c s IH]; intros from line; cbn; [done|].
  case_match; [|done]. by rewrite IH, length_insert.
Qed.
Lemma put_text_outside from limit s line i :
  (i < from \/ limit <= i)%nat -> put_text from limit s line !! i = line !! i.
Proof.
  revert from line. induction s as [|c s IH]; intros from line Hi; cbn [put_text]; [done|].
  destruct (Nat.ltb_spec from limit); [|done].
  rewrite IH by lia. apply list_lookup_insert_ne. lia.
Qed.
Lemma put_text_inside from limit s line i c :
  s !! i = Some c -> (from + i < limit)%nat -> (limit <= length line)%nat ->
  put_text from limit s line !! (from + i)%nat = Some c.
Proof.
  revert from line i. induction s as [|d s IH]; intros from line i Hi Hlt Hlen; [done|].
  cbn [put_text]. rewrite (proj2 (Nat.ltb_lt _ _)) by lia. destruct i as [|i]; simplify_eq/=.
  - rewrite Nat.add_0_r, put_text_outside by lia. apply list_lookup_insert_eq. lia.
  - replace (from + S i)%nat with (S from + i)%nat by lia.
    apply IH; [done | lia | rewrite length_insert; lia].
Qed.

(** Every row of the table is exactly 80 characters wide, keeps the
    vertical bars of the frame, and shows the transaction's amount and the
    running balance in full in their columns. *)
Theorem table_row_layout o balance :
  length (tableRow o balance) = 80%nat /\
  (forall i, i ∈ indexArray -> tableRow o balance !! i = Some "|"%char) /\
  (forall i, (i < 14)%nat ->
     tableRow o balance !! (47 + i)%nat = shown (transferFormat (amountNum o)) !! i /\
     tableRow o balance !! (64 + i)%nat = shown (transferFormat balance) !! i).
Proof.
  unfold tableRow. split; [by rewrite !put_text_length|].
  pose proof shown_length as Hl.
  split.
  - intros i Hi. unfold indexArray in Hi.
    assert (i = 0 \/ i = 18 \/ i = 45 \/ i = 62 \/ i = 79)%nat as Hc by set_solver.
    rewrite !put_text_outside by lia. by destruct Hc as [->|[->|[->|[->| ->]]]].
  - intros i Hi. split.
    + destruct (lookup_lt_is_Some_2 (shown (transferFormat (amountNum o))) i) as [c Hc]; [rewrite Hl; lia|].
      rewrite put_text_outside by lia. rewrite Hc.
      apply put_text_inside; [done | lia | rewrite !put_text_length; cbn; lia].
    + destruct (lookup_lt_is_Some_2 (shown (transferFormat balance)) i) as [c Hc]; [rewrite Hl; lia|].
      rewrite Hc. apply put_text_inside; [done | lia | rewrite !put_text_length; cbn; lia].
Qed.

(** ** The validators *)
Definition all_digits (s : text) : Prop := forallb is_digit s = true.

Lemma is_digit_code c : is_digit c = true -> 48 <= code c <= 57.
Proof. unfold is_digit. rewrite andb_true_iff, !Z.leb_le. done. Qed.

Lemma span_all f (s : text) : forallb f s = true -> span f s = (s, []).
Proof.
  induction s as [|c s IH]; cbn; [done|]. intros [-> H]%andb_true_iff. by rewrite (IH H).
Qed.
Lemma skip_space_digits s : all_digits s -> skip_space s = s.
Proof.
  destruct s as [|c s]; [done|]. unfold all_digits. cbn. intros [H _]%andb_true_iff.
  apply is_digit_code in H. unfold is_space.
  rewrite (proj2 (Z.eqb_neq _ _)), (proj2 (Z.leb_gt (code c) 13)) by lia.
  by rewrite andb_false_r.
Qed.
Lemma atoll_digits s : all_digits s -> atoll s = digits_val s.
Proof.
  intros H. unfold atoll. rewrite skip_space_digits by done. destruct s as [|c s]; [done|].
  assert (48 <= code c <= 57) as Hc.
  { apply is_digit_code. unfold all_digits in H. cbn in H. by apply andb_true_iff in H as [? _]. }
  rewrite !char_eqb_code. change (code "-") with 45. change (code "+") with 43.
  rewrite !(proj2 (Z.eqb_neq _ _)) by lia. by rewrite (span_all _ _ H).
Qed.

Lemma digits_val_snoc s c : digits_val (s ++ [c]) = digits_val s * 10 + (code c - 48).
Proof. unfold digits_val. by rewrite fold_left_app. Qed.
Lemma digits_val_bound s :
  all_digits s -> 0 <= digits_val s < 10 ^ Z.of_nat (length s).
Proof.
  unfold all_digits. induction s as [|c s IH] using rev_ind; [cbn; lia|].
  rewrite forallb_app, andb_true_iff. intros [Hs Hc]. specialize (IH Hs).
  cbn in Hc. rewrite andb_true_r in Hc. apply is_digit_code in Hc.
  rewrite digits_val_snoc, length_app. cbn [length].
  rewrite Nat2Z.inj_add, Z.pow_add_r by lia. change (10 ^ Z.of_nat 1) with 10. lia.
Qed.

Lemma digits_no_dot s : all_digits s -> "."%char ∉ s.
Proof.
  unfold all_digits. rewrite forallb_forall. intros H Hin.
  apply list_elem_of_In, H, is_digit_code in Hin. change (code ".") with 46 in Hin. lia.
Qed.
Lemma dot_scan_skip a b r i c :
  "."%char ∉ b -> dot_scan a (b ++ r) i c = dot_scan (a + Z.of_nat (length b)) r i c.
Proof.
  revert a. induction b as [|d b IH]; intros a Hb; cbn [app length dot_scan].
  { f_equal. lia. }
  unfold char_eqb. destruct (Ascii.eqb_spec d ".") as [->|]; [set_solver|].
  rewrite IH by set_solver. f_equal. lia.
Qed.
Lemma dot_scan_count a s i c : c <= snd (dot_scan a s i c).
Proof.
  revert a i c. induction s as [|d s IH]; intros a i c; cbn; [lia|].
  case_match; [|apply IH]. specialize (IH (a + 1) a (c + 1)). lia.
Qed.
Lemma dot_scan_one a s i c j :
  dot_scan a s i c = (j, c + 1) ->
  exists b r, s = b ++ "."%char :: r /\ "."%char ∉ b /\ j = a + Z.of_nat (length b).
Proof.
  revert a i c. induction s as [|d s IH]; intros a i c; cbn [dot_scan].
  { intros [= ?]. lia. }
  unfold char_eqb. destruct (Ascii.eqb_spec d ".") as [->|Hd]; intros H.
  - exists [], s. split; [done|]. split; [set_solver|]. cbn. rewrite Z.add_0_r.
    destruct (decide ("."%char ∈ s)) as [Hin|Hn].
    + exfalso. apply list_elem_of_split_l in Hin as (l1' & l2' & -> & Hl1).
      rewrite dot_scan_skip in H by done. cbn in H.
      pose proof (dot_scan_count (a + 1 + Z.of_nat (length l1') + 1) l2'
        (a + 1 + Z.of_nat (length l1')) (c + 1 + 1)) as Hc. rewrite H in Hc. cbn in Hc. lia.
    + rewrite <- (app_nil_r s), dot_scan_skip in H by done. cbn in H. congruence.
  - apply IH in H as (b & r & -> & Hb & ->). exists (d :: b), r. split; [done|].
    split; [set_solver|]. cbn. lia.
Qed.

(** The amounts the input format allows: at most seven digits, a dot, two
    digits, not zero, and a leading zero only as the single digit before the
    dot; [v] is the value in cents. *)
Definition amount_ok (amount : text) (v : Z) : Prop :=
  exists b a, amount = b ++ "."%char :: a /\ all_digits b /\ all_digits a /\
    (length b <= 7)%nat /\ length a = 2%nat /\
    (length b = 1%nat \/ head b <> Some "0"%char) /\
    v = digits_val b * 100 + digits_val a /\ 0 < v.

Lemma dot_scan_split b a :
  all_digits b -> all_digits a ->
  dot_scan 0 (b ++ "."%char :: a) 0 0 = (Z.of_nat (length b), 1).
Proof.
  intros Hb Ha. rewrite dot_scan_skip by by apply digits_no_dot. cbn [dot_scan char_eqb].
  rewrite <- (app_nil_r a), dot_scan_skip by by apply digits_no_dot. done.
Qed.

(** [checkAmount] on an amount that is split at its only dot. *)
Lemma checkAmount_split b a :
  "."%char ∉ b -> dot_scan 0 (b ++ "."%char :: a) 0 0 = (Z.of_nat (length b), 1) ->
  checkAmount (b ++ "."%char :: a) =
  if negb (forallb is_digit b) then die
  else if negb (forallb is_digit a) then die
  else if (7 <? Z.of_nat (length b)) then die
  else if negb (Z.of_nat (length a) =? 2) then die
  else if (0 <? atoll b) || (0 <? atoll (take 16 a)) then
    if negb (Z.of_nat (length b) - 1 =? 0) &&
       match b ++ "."%char :: a with c :: _ => char_eqb c "0" | [] => false end
    then die else Ok (atoll b * 100 + atoll (take 16 a))
  else die.
Proof.
  intros Hb Hs. unfold checkAmount. rewrite Hs, length_app. cbn [length].
  rewrite (proj2 (Z.ltb_ge _ 1)) by lia. cbn [negb Z.eqb Pos.eqb].
  rewrite Nat2Z.id, take_app_length.
  replace (Z.to_nat (Z.of_nat (length b) + 1)) with (length (b ++ ["."%char])) by (rewrite length_app; cbn; lia).
  replace (b ++ "."%char :: a) with ((b ++ ["."%char]) ++ a) by by rewrite <- app_assoc.
  rewrite drop_app_length, <- app_assoc. cbn [app].
  replace (Z.of_nat (length b + S (length a)) - 1 - Z.of_nat (length b)) with (Z.of_nat (length a)) by lia.
  done.
Qed.

Lemma leading_zero b (a : text) :
  match b ++ "."%char :: a with c :: _ => char_eqb c "0" | [] => false end = true <->
  head b = Some "0"%char.
Proof.
  destruct b as [|c b]; cbn; [by split|]. unfold char_eqb. rewrite Ascii.eqb_eq. naive_solver.
Qed.

Lemma amount_value b a :
  all_digits b -> all_digits a -> length a = 2%nat ->
  (0 <? atoll b) || (0 <? atoll (take 16 a)) = (0 <? digits_val b * 100 + digits_val a) /\
  atoll b = digits_val b /\ atoll (take 16 a) = digits_val a.
Proof.
  intros Hb Ha Hl. rewrite take_ge by lia. rewrite !atoll_digits by done.
  pose proof (digits_val_bound b Hb). pose proof (digits_val_bound a Ha). split; [|done].
  apply eq_true_iff_eq. rewrite orb_true_iff, !Z.ltb_lt. lia.
Qed.

(** [checkAmount] accepts exactly the amounts of the input format and
    returns their value in cents; every other field ends the program with
    status 1. *)
Theorem checkAmount_correct amount :
  (forall v, checkAmount amount = Ok v <-> amount_ok amount v) /\
  ((forall v, checkAmount amount <> Ok v) -> checkAmount amount = Err (FExit 1)).
Proof.
  split.
  2:{ unfold checkAmount, die. destruct (dot_scan 0 amount 0 0). intros H.
      repeat (case_match; try done). all: exfalso; by eapply H. }
  intros v. split.
  - intros H. destruct (dot_scan 0 amount 0 0) as [j n] eqn:E.
    assert (n = 1) as ->.
    { unfold checkAmount, die in H. rewrite E in H. repeat (case_match; try done). lia. }
    apply (dot_scan_one 0 amount 0 0) in E as Hs.
    destruct Hs as (b & a & -> & Hnd & ->). rewrite Z.add_0_l in E.
    rewrite checkAmount_split in H by done. unfold die in H.
    destruct (forallb is_digit b) eqn:Db; [|done].
    destruct (forallb is_digit a) eqn:Da; [|done]. cbn [negb] in H.
    destruct (Z.ltb_spec 7 (Z.of_nat (length b))); [done|].
    destruct (Z.eqb_spec (Z.of_nat (length a)) 2); [|done]. cbn [negb] in H.
    destruct (amount_value b a Db Da ltac:(lia)) as (Ev & E1 & E2). rewrite Ev, E1, E2 in H.
    destruct (Z.ltb_spec 0 (digits_val b * 100 + digits_val a)); [|done].
    destruct (negb _ && _) eqn:Ez in H; [done|]. injection H as <-.
    exists b, a. repeat split; try done; try lia.
    apply andb_false_iff in Ez as [Ez|Ez].
    + left. apply negb_false_iff, Z.eqb_eq in Ez. lia.
    + right. rewrite <- leading_zero with (a := a). by rewrite Ez.
  - intros (b & a & -> & Db & Da & Hb & Ha & Hz & -> & Hv).
    rewrite checkAmount_split by (by apply digits_no_dot || by apply dot_scan_split).
    destruct (amount_value b a Db Da Ha) as (Ev & E1 & E2). rewrite Ev, E1, E2.
    unfold all_digits in *. rewrite Db, Da, (proj2 (Z.ltb_ge 7 _)), Ha, (proj2 (Z.ltb_lt 0 _)) by lia.
    cbn [negb Z.eqb Z.of_nat]. destruct (negb _ && _) eqn:Ez; [|done].
    apply andb_true_iff in Ez as [E3 E4%leading_zero]. apply negb_true_iff, Z.eqb_neq in E3.
    destruct Hz; [lia | done].
Qed.

(** The values [checkTime] accepts. *)
Definition time_ok (now : Z) (t : text) (v : Z) : Prop :=
  (1 <= length t <= 10)%nat /\ all_digits t /\ head t <> Some "0"%char /\
  v = digits_val t /\ v <= now.

(** [checkTime] accepts exactly the decimal numbers of one to ten digits
    without a leading zero that do not lie in the future, and returns their
    value, which fits a 64-bit [long]; any other field ends the program with
    status 1. *)
Theorem checkTime_correct now t :
  (forall v, checkTime now t = Ok v <-> time_ok now t v) /\
  (forall v, checkTime now t = Ok v -> 0 <= v < 2 ^ 63) /\
  ((forall v, checkTime now t <> Ok v) -> checkTime now t = Err (FExit 1)).
Proof.
  assert (forall v, checkTime now t = Ok v <-> time_ok now t v) as Hiff.
  { intros v. unfold checkTime, time_ok, all_digits, die.
    assert (match t with c :: _ => char_eqb c "0" | [] => false end = true <->
      head t = Some "0"%char) as Hz.
    { destruct t as [|c t]; cbn; [done|]. unfold char_eqb. rewrite Ascii.eqb_eq. naive_solver. }
    destruct (forallb is_digit t) eqn:Ed; [|repeat case_match; naive_solver].
    pose proof (digits_val_bound t Ed). rewrite (atoll_digits t Ed).
    destruct (Z.ltb_spec (Z.of_nat (length t)) 1), (Z.leb_spec 11 (Z.of_nat (length t)));
      cbn [orb negb]; [split; [done | lia]..|].
    destruct (match t with c :: _ => _ | [] => _ end); [naive_solver|].
    rewrite (proj2 (Z.ltb_ge _ 0)) by lia. cbn [orb].
    destruct (Z.ltb_spec now (digits_val t)); [split; [done | lia]|].
    split; [intros [= <-]; repeat split; [lia..| naive_solver | lia] | naive_solver]. }
  split; [done|]. split.
  - intros v (Hl & Hd & _ & -> & _)%Hiff. pose proof (digits_val_bound t Hd).
    assert (10 ^ Z.of_nat (length t) <= 10 ^ 10) by (apply Z.pow_le_mono_r; lia). lia.
  - unfold checkTime, die. intros H. repeat (case_match; try done). exfalso. by eapply H.
Qed.

Lemma first_nonblank_index desc a :
  first_nonblank a desc = 0%nat \/
  exists k, first_nonblank a desc = (a + k)%nat /\ (k < length desc)%nat.
Proof.
  revert a. induction desc as [|c r IH]; intros a; cbn; [by left|].
  destruct (char_eqb c " "); [|right; exists 0%nat; lia].
  destruct (IH (S a)) as [?|(k & -> & ?)]; [by left|]. right. exists (S k). lia.
Qed.

Lemma span_no_nul s r :
  NUL ∉ s -> span (fun c => negb (char_eqb c NUL)) (s ++ NUL :: r) = (s, NUL :: r).
Proof.
  induction s as [|c s IH]; cbn; intros Hn; [done|]. rewrite IH by set_solver.
  unfold char_eqb. destruct (Ascii.eqb_spec c NUL) as [->|]; [set_solver | done].
Qed.

(** On a description without NULs, [checkDesc] strips the leading blanks
    and keeps the text when at most 24 characters remain.  With 25 or more
    the array [temp] is filled to its end, so that [strcpy] reads past it:
    the truncation the code aims at is undefined behaviour. *)
Theorem checkDesc_cases desc :
  desc <> [] -> NUL ∉ desc ->
  let kept := drop (first_nonblank 0 desc) desc in
  checkDesc desc = if (length kept <=? 24)%nat then Ok kept else Err FUndef.
Proof.
  intros Hne Hnul kept. unfold checkDesc.
  rewrite (proj2 (Z.ltb_ge _ 1)) by (destruct desc; [done | cbn; lia]).
  rewrite (proj2 (Nat.leb_gt (length desc) _)).
  2:{ destruct (first_nonblank_index desc 0) as [->|(k & -> & ?)]; [destruct desc; cbn; [done|lia] | lia]. }
  fold kept. assert (NUL ∉ kept) as Hk.
  { intros Hin. by apply Hnul, (subseteq_drop _ _ _ Hin). }
  assert (existsb (char_eqb NUL) (take 25 kept) = false) as Hx.
  { apply not_true_iff_false. rewrite existsb_exists. intros (c & Hc & He).
    unfold char_eqb in He. apply Ascii.eqb_eq in He as <-. apply Hk.
    apply list_elem_of_In in Hc. by apply (subseteq_take _ _ _ Hc). }
  rewrite existsb_app, Hx, length_take. cbn [orb].
  destruct (Nat.leb_spec (length kept) 24).
  - rewrite Nat.min_r by lia. replace (25 - length kept)%nat with (S (24 - length kept)) by lia.
    cbn [replicate existsb char_eqb NUL]. rewrite take_ge by lia.
    rewrite span_no_nul by done. done.
  - rewrite Nat.min_l by lia. done.
Qed.

(** ** The program *)

(** [fgets] with room for [k] characters: up to and including a newline. *)
Fixpoint fgets_line (k : nat) (s : text) : text * text :=
  match k, s with
  | S k, c :: r =>
      if char_eqb c NL then ([c], r)
      else let (a, b) := fgets_line k r in (c :: a, b)
  | _, _ => ([], s)
  end.
Definition bufferSize : nat := 1050.
(** [None] is the NULL that [fgets] returns at the end of the file. *)
Definition fgets (s : text) : option (text * text) :=
  match s with [] => None | _ => Some (fgets_line (bufferSize - 1) s) end.

Section Main.
Context `{MA : Malloc}.
Variable format_date : Z -> text.
Variable now : Z.
(** [malloc(sizeof(My402ListElemObj))]. *)
Variable new_obj : gmap Z My402ListElemObj -> option Z.
(** [fopen(path, "r")]: the contents of the file. *)
Variable fopen : text -> option text.
Variable stdin : text.

(** The choice of the input: [argv] holds the arguments after the program's
    name. *)
Definition open_input (argv : list text) : outcome text :=
  match argv with
  | [cmd] => if decide (cmd = str "sort") then Ok stdin else die
  | [cmd; path] =>
      if decide (cmd = str "sort") then
        match fopen path with Some input => Ok input | None => die end
      else die
  | _ => die
  end.

(** The reading loop; a line is what precedes the first NUL of the buffer. *)
Fixpoint read_all (fuel : nat) (L : Z) (input : text) (lineNum : Z)
    (objs : gmap Z My402ListElemObj) : M mem (Z * gmap Z My402ListElemObj) :=
  match fuel with
  | O => mfail FFuel
  | S fuel =>
      match fgets input with
      | None => mret_ (lineNum, objs)
      | Some (inputLine, rest) =>
          let lineNum := lineNum + 1 in
          match readLine format_date now (shown inputLine) lineNum with
          | Err f => mfail f
          | Ok o =>
              let! p := mthe (new_obj objs) in
              let! _ := My402ListAppend L p in
              read_all fuel L rest lineNum (<[p := o]> objs)
          end
      end
  end.

(** [main]: the lines written to [stdout]; [myList] is the address of the
    local list structure. *)
Definition main (myList : Z) (argv : list text) : M mem (list text) :=
  match open_input argv with
  | Err f => mfail f
  | Ok input =>
      let! _ := My402ListInit myList in
      let! (lineNum, objs) := read_all (S (length input)) myList input 0 ∅ in
      if lineNum =? 0 then mfail (FExit 1)
      else
        let! num := My402ListLength myList in
        BubbleSortForwardList objs myList num ;;;
        let! out := printTable objs myList in
        let! _ := My402ListUnlinkAll myList in
        mret_ out
  end.

(** What the program should compute: the transactions of the file, or the
    first error; the rows of the table with the running balance. *)
Fixpoint parse_input (fuel : nat) (input : text) (n : Z) : outcome (list My402ListElemObj) :=
  match fuel, fgets input with
  | S fuel, Some (line, rest) =>
      match readLine format_date now (shown line) (n + 1) with
      | Err f => Err f
      | Ok o => match parse_input fuel rest (n + 1) with
                | Ok os => Ok (o :: os)
                | Err f => Err f
                end
      end
  | _, _ => Ok []
  end.
Fixpoint balance_rows (balance : Z) (os : list My402ListElemObj) : list text :=
  match os with
  | [] => []
  | o :: os => let b := balance + amountNum o in tableRow o b :: balance_rows b os
  end.
Definition ledger (os : list My402ListElemObj) : list text :=
  [dashLine; secondLine; dashLine] ++ balance_rows 0 os ++ [dashLine].
End Main.

Lemma fgets_line_split k s : let '(l, r) := fgets_line k s in s = l ++ r.
Proof.
  revert s. induction k as [|k IH]; intros [|c s]; cbn; try done.
  destruct (char_eqb c NL); [done|]. specialize (IH s). destruct (fgets_line k s) as [a b]. by subst s.
Qed.
Lemma fgets_line_shrinks k c s line rest :
  fgets_line (S k) (c :: s) = (line, rest) -> (length rest <= length s)%nat.
Proof.
  cbn. destruct (char_eqb c NL); [by intros [= _ <-]|].
  pose proof (fgets_line_split k s) as Hs. destruct (fgets_line k s) as [a b].
  intros [= _ <-]. subst s. rewrite length_app. lia.
Qed.
Lemma fgets_shrinks s line rest : fgets s = Some (line, rest) -> (length rest < length s)%nat.
Proof.
  unfold fgets. destruct s as [|c s]; [done|]. intros E%(inj Some).
  apply (fgets_line_shrinks 1048) in E. cbn. lia.
Qed.

(** ** Lines that are not accepted *)
(** The lines as [fgets] reads them. *)
Fixpoint input_lines (fuel : nat) (input : text) : list text :=
  match fuel, fgets input with
  | S fuel, Some (line, rest) => shown line :: input_lines fuel rest
  | _, _ => []
  end.
(** The description does not fit in the array [temp] of [checkDesc]. *)
Definition too_long (line : text) : Prop :=
  let '(_, _, _, d) := scan_fields line in (25 <= length (drop (first_nonblank 0 d) d))%nat.

Ltac only_die := repeat case_match; intros; by simplify_eq.
Lemma checkLine_err l f : checkLine l = Err f -> f = FExit 1.
Proof. unfold checkLine, die. only_die. Qed.
Lemma checkType_err l f : checkType l = Err f -> f = FExit 1.
Proof. unfold checkType, die. only_die. Qed.
Lemma checkTime_err now l f : checkTime now l = Err f -> f = FExit 1.
Proof. unfold checkTime, die. only_die. Qed.
Lemma checkAmount_err l f : checkAmount l = Err f -> f = FExit 1.
Proof. unfold checkAmount, die. only_die. Qed.
Lemma checkDesc_err d f : checkDesc d = Err f -> f = FExit 1 \/ f = FUndef /\ (25 <= length (drop (first_nonblank 0 d) d))%nat.
Proof.
  unfold checkDesc, die. case_match; [naive_solver|]. case_match; [naive_solver|]. case_match eqn:E; [done|].
  intros [= <-]. right. split; [done|]. apply Nat.nlt_ge. intros Hlt. apply not_true_iff_false in E. destruct E.
  rewrite existsb_app, length_take, Nat.min_r by lia.
  destruct (25 - length _)%nat eqn:E'; [lia|]. by rewrite orb_true_r.
Qed.
Lemma readLine_err format_date now l n f : readLine format_date now l n = Err f -> f = FExit 1 \/ f = FUndef /\ too_long l.
Proof.
  unfold readLine, too_long. destruct (scan_fields l) as [[[type time] amount] d].
  destruct (checkLine l) eqn:E1; [|intros [= <-]; left; by eapply checkLine_err].
  destruct (checkType type) eqn:E2; [|intros [= <-]; left; by eapply checkType_err].
  destruct (checkTime now time) eqn:E3; [|intros [= <-]; left; by eapply checkTime_err].
  destruct (checkAmount amount) eqn:E4; [|intros [= <-]; left; by eapply checkAmount_err].
  destruct (checkDesc d) eqn:E5; [done|]. intros [= <-]. by apply checkDesc_err.
Qed.
Lemma parse_input_err format_date now fuel : forall input n, (length input < fuel)%nat ->
  forall f, parse_input format_date now fuel input n = Err f -> f = FExit 1 \/ f = FUndef /\ Exists too_long (input_lines fuel input).
Proof.
  induction fuel as [|fuel IH]; intros input n Hf f; [lia|]. cbn [parse_input input_lines].
  destruct (fgets input) as [[line rest]|] eqn:E; [|done]. pose proof (fgets_shrinks _ _ _ E).
  destruct (readLine _ _ _ _) eqn:El.
  - destruct (parse_input _ _ fuel rest _) eqn:Er; [done|]. intros [= <-]. destruct (IH rest _ ltac:(lia) _ Er) as [?|[? ?]]; [by left|right].
    split; [done|]. by right.
  - intros [= <-]. destruct (readLine_err _ _ _ _ _ El) as [?|[? ?]]; [by left|right]. split; [done|]. by left.
Qed.
Lemma open_input_err fopen stdin argv f : open_input fopen stdin argv = Err f -> f = FExit 1.
Proof. unfold open_input, die. only_die. Qed.

Section MainSpec.
Context `{MA : Malloc}.
Context (malloc_total : forall m, is_Some (malloc_pick m)).
Context (format_date : Z -> text) (now : Z).
Context (new_obj : gmap Z My402ListElemObj -> option Z).
Context (new_obj_fresh : forall objs p, new_obj objs = Some p -> objs !! p = None).
Context (new_obj_total : forall objs, is_Some (new_obj objs)).
Context (fopen : text -> option text) (stdin : text).

Abbreviation reads := (parse_input format_date now).

(** The objects of the list, in order, are the parsed transactions. *)
Definition holds (objs : gmap Z My402ListElemObj) (xs : list (Z * Z)) (os : list My402ListElemObj) :=
  Forall2 (fun x o => objs !! x = Some o) xs.*2 os.

Lemma holds_snoc objs xs os p q o :
  objs !! p = None -> holds objs xs os -> holds (<[p := o]> objs) (xs ++ [(q, p)]) (os ++ [o]).
Proof.
  intros Hp H. unfold holds. rewrite fmap_app. apply Forall2_app.
  - eapply Forall2_impl; [exact H|]. intros x y Hx. cbn in Hx. rewrite lookup_insert_ne; congruence.
  - cbn. constructor; [|constructor]. by rewrite lookup_insert_eq.
Qed.

Lemma read_all_refines L fuel input n objs xs os m :
  (length input < fuel)%nat -> list_rep m L xs -> holds objs xs os ->
  Z.of_nat (length xs + length input) < INT_MAX ->
  match reads fuel input n with
  | Err f => read_all format_date now new_obj fuel L input n objs m = Err f
  | Ok os' => exists m' objs' xs',
      read_all format_date now new_obj fuel L input n objs m =
        Ok ((n + Z.of_nat (length os'), objs'), m') /\
      list_rep m' L xs' /\ holds objs' xs' (os ++ os') /\
      (length xs' <= length xs + length input)%nat
  end.
Proof.
  revert input n objs xs os m.
  induction fuel as [|fuel IH]; intros input n objs xs os m Hf Hr Hh Hlt; [lia|].
  cbn [parse_input read_all]. destruct (fgets input) as [[line rest]|] eqn:E.
  2:{ exists m, objs, xs. rewrite app_nil_r, Z.add_0_r. split_and!; [done..|lia]. }
  apply fgets_shrinks in E. destruct (readLine _ _ _ _) as [o|f]; [|done].
  destruct (new_obj_total objs) as [p Hp]. rewrite Hp. unfold mthe.
  rewrite (mbind_run _ _ _ p m eq_refl).
  destruct (malloc_total m) as [q Hq].
  destruct (append_ok m L xs p q Hr ltac:(lia) Hq) as (m1 & Ha & Hi & _).
  rewrite (mbind_run _ _ _ _ _ Ha).
  specialize (IH rest (n + 1) (<[p := o]> objs) (xs ++ [(q, p)]) (os ++ [o]) m1 ltac:(lia) Hi
    (holds_snoc _ _ _ _ _ _ (new_obj_fresh _ _ Hp) Hh)).
  rewrite length_app in IH. cbn [length] in IH. specialize (IH ltac:(lia)).
  destruct (reads fuel rest (n + 1)) as [os'|f]; [|done].
  destruct IH as (m' & objs' & xs' & -> & Hr' & Hh' & Hl').
  exists m', objs', xs'. rewrite <- app_assoc in Hh'. split_and!; [|done..|lia].
  cbn [length]. replace (n + Z.of_nat (S (length os'))) with (n + 1 + Z.of_nat (length os')) by lia. done.
Qed.

Lemma print_rows_run m L xs ys objs os fuel b :
  list_rep m L (xs ++ ys) -> holds objs ys os -> (length ys < fuel)%nat ->
  print_rows objs fuel L (head_ptr NULL ys) b m = Ok (balance_rows b os, m).
Proof.
  revert xs os fuel b. induction ys as [|[p o] ys IH]; intros xs os fuel b Hr Hh Hf;
    (destruct fuel as [|fuel]; [cbn in Hf; lia|]); cbn [print_rows].
  - by apply Forall2_nil_inv_l in Hh as ->.
  - apply Forall2_cons_inv_l in Hh as (c & os' & Hc & Hh & ->). rewrite head_ptr_cons.
    rewrite (proj2 (Z.eqb_neq p NULL)).
    2:{ intros ->. apply (rep_null _ _ _ Hr). rewrite ptrs_app, ptrs_cons. set_solver. }
    rewrite (mbind_run _ _ _ _ _ (load_run _ _ _ (rep_cell _ _ _ _ _ _ Hr))). cbn [obj].
    unfold load_obj at 1. cbn in Hc. rewrite Hc. unfold mthe. rewrite (mbind_run _ _ _ c m eq_refl).
    rewrite (mbind_run _ _ _ _ _ (next_run _ _ _ _ _ _ Hr)).
    rewrite (mbind_run _ _ _ (balance_rows (b + amountNum c) os') m); [done|].
    apply IH with (xs := xs ++ [(p, o)]); [by rewrite <- app_assoc | done | cbn in Hf; lia].
Qed.

Lemma printTable_run m L xs objs os :
  list_rep m L xs -> holds objs xs os -> printTable objs L m = Ok (ledger os, m).
Proof.
  intros Hr Hh. unfold printTable. rewrite (mbind_run _ _ _ _ _ (first_run _ _ _ Hr)).
  unfold mget at 1. unfold mbind_ at 1.
  rewrite (mbind_run _ _ _ (balance_rows 0 os) m); [done|].
  apply (print_rows_run m L []); [done..|].
  pose proof (rep_size _ _ _ Hr). unfold loop_bound. lia.
Qed.

(** The transactions of the list, as stamps. *)
Lemma holds_stamps objs xs os : holds objs xs os -> map (stamp objs) xs.*2 = map timestamp os.
Proof. induction 1 as [|x o xs' os' H _ IH]; cbn; [done|]. unfold stamp at 1. rewrite H. cbn. by f_equal. Qed.

Lemma holds_perm objs xs os ys :
  holds objs xs os -> Permutation xs.*2 ys.*2 ->
  StronglySorted (fun a b => stamp objs a < stamp objs b) ys.*2 ->
  exists os', holds objs ys os' /\ Permutation os os' /\
    StronglySorted (fun a b => timestamp a < timestamp b) os'.
Proof.
  intros Hh Hp Hs. unfold holds in *. revert Hs.
  destruct (Permutation_Forall2 Hp Hh) as (os' & Hpo & Hh').
  intros Hs. exists os'. split_and!; [done..|]. clear Hp Hpo Hh. revert Hs.
  induction Hh' as [|x o l os' Hx Hl IH]; intros Hs; [constructor|].
  apply StronglySorted_inv in Hs as [Hs Hf]. constructor; [by apply IH|].
  clear IH Hs. induction Hl as [|y o' l os' Hy Hl IH]; [constructor|].
  apply Forall_cons in Hf as [Hxy Hf]. constructor; [|by apply IH].
  unfold stamp in Hxy. by rewrite Hx, Hy in Hxy.
Qed.

Lemma holds_defined objs xs os : holds objs xs os -> Forall (fun x => is_Some (objs !! x)) xs.*2.
Proof. induction 1; constructor; eauto. Qed.

Lemma holds_length objs xs os : holds objs xs os -> length xs = length os.
Proof. intros H%Forall2_length. by rewrite length_fmap in H. Qed.

(** The part of [main] after the reading loop. *)
Lemma main_report m L xs objs os :
  list_rep m L xs -> holds objs xs os -> Z.of_nat (length xs) <= INT_MAX ->
  let tail := (let! num := My402ListLength L in
    BubbleSortForwardList objs L num ;;;
    let! out := printTable objs L in
    let! _ := My402ListUnlinkAll L in mret_ out) m in
  if decide (NoDup (map timestamp os)) then
    exists m' os', tail = Ok (ledger os', m') /\ list_rep m' L [] /\ Permutation os os' /\
      StronglySorted (fun a b => timestamp a < timestamp b) os'
  else tail = Err (FExit 1).
Proof.
  intros Hr Hh Hlt tail. unfold tail, My402ListLength.
  rewrite (mbind_run _ _ _ _ _ (load_num_run _ _ _ (rep_num _ _ _ Hr))).
  pose proof (bubble_sort_run malloc_total objs L m xs Hr Hlt (holds_defined _ _ _ Hh)) as Hs.
  rewrite (holds_stamps _ _ _ Hh) in Hs. case_decide; [|by apply mbind_err].
  destruct Hs as (m1 & ys & Hrun & Hr1 & Hp & Hsort). rewrite (mbind_run _ _ _ _ _ Hrun).
  destruct (holds_perm _ _ _ _ Hh Hp Hsort) as (os' & Hh' & Hpo & Hso).
  rewrite (mbind_run _ _ _ _ _ (printTable_run _ _ _ _ _ Hr1 Hh')).
  destruct (unlink_all_run m1 L ys Hr1) as (m2 & Hu & Hr2 & _).
  rewrite (mbind_run _ _ _ _ _ Hu). by exists m2, os'.
Qed.

End MainSpec.

(** ** Instances *)
Definition fresh_obj (objs : gmap Z My402ListElemObj) : option Z := Some (fresh (dom objs)).
Lemma fresh_obj_fresh objs p : fresh_obj objs = Some p -> objs !! p = None.
Proof. intros [= <-]. apply not_elem_of_dom, is_fresh. Qed.

Definition obj_at (t : Z) : My402ListElemObj := mkObj [] [] [] [] [] t 100 1.
Definition objs2 : gmap Z My402ListElemObj := {[7 := obj_at 50; 8 := obj_at 20]}.
Definition heap2 : mem :=
  mkMem {[1 := mkElem 0 3 4; 3 := mkElem 7 4 1; 4 := mkElem 8 1 3]} {[1 := 2]}.
Lemma heap2_rep : list_rep heap2 1 [(3, 7); (4, 8)].
Proof.
  split; [done | | | by eexists | done].
  - unfold ptrs. cbn. apply (bool_decide_unpack _). by vm_compute.
  - unfold NULL, ptrs. cbn. set_solver.
Qed.

Lemma bubble_sort_correct_witness :
  exists m' ys, BubbleSortForwardList (MA := bump_malloc) objs2 1 2 heap2 = Ok (tt, m') /\
    list_rep m' 1 ys /\ Permutation [7; 8] ys.*2 /\
    StronglySorted (fun a b => stamp objs2 a < stamp objs2 b) ys.*2.
Proof.
  apply (bubble_sort_correct (MA := bump_malloc) ltac:(intros; by eexists) objs2 1 heap2
    [(3, 7); (4, 8)] heap2_rep).
  - cbn. unfold INT_MAX. lia.
  - repeat constructor; by eexists.
Defined.

Lemma transfer_format_roundtrip_witness :
  length (shown (transferFormat (-1234567))) = 14%nat /\
  read_money (shown (transferFormat (-1234567))) = -1234567.
Proof. apply transfer_format_roundtrip. unfold moneyLimit. lia. Defined.

Lemma checkDesc_cases_witness :
  checkDesc (str "  rent") = Ok (str "rent") /\
  checkDesc (str "abcdefghijklmnopqrstuvwxyz") = Err FUndef.
Proof.
  split.
  - apply (checkDesc_cases (str "  rent")); [done|]. apply (bool_decide_unpack _). by vm_compute.
  - apply (checkDesc_cases (str "abcdefghijklmnopqrstuvwxyz")); [done|].
    apply (bool_decide_unpack _). by vm_compute.
Defined.

Definition sample_line (ty t a d : string) : text :=
  str ty ++ [TAB] ++ str t ++ [TAB] ++ str a ++ [TAB] ++ str d ++ [NL].
Definition sample_input : text :=
  sample_line "+" "200" "12.34" "second" ++ sample_line "-" "100" "5.00" "first".

