(* ===== verification/Warmup2.v ===== *)
(** * Warmup2/warmup2.c: the token bucket emulator

    Five threads share the queues Q1 and Q2, the token bucket and the list of
    finished packets.  The model is a transition system: each thread has a
    program point, and a step runs one thread from a program point to the
    next.  The bodies of the threads run under [myLock], but the tests of
    their outer loops do not take it: each variable such a test reads is read
    in a step of its own, and a critical section is cut into several steps
    wherever it changes one of them ([inputQSize] and whether Q1 and Q2 are
    empty).

    A packet is known by its id, which stands for its address; the queues are
    sequences of packets (the list operations are those of my402list.c, see
    My402List.v).  Times are microseconds since [emulationStartTime]; the
    values that [gettimeofday] returns are chosen by the environment and do
    not decrease.  The lines printed are kept as events, without their time
    stamps. *)
From stdpp Require Import base gmap list fin_maps sorting.
From Stdlib Require Import ZArith Lia Ascii.
From S2P Require Import Prelude.
Open Scope Z_scope.

(** ** Data *)
Record MyPacket := mkPacket {
  serviceType : Z;
  packetType : Z;
  packetId : Z;
  tokenNeed : Z;
  interPacketTime : Z;
  packetServiceTime : Z;
  arriveTime : Z;
  enterQ1Time : Z;
  leaveQ1Time : Z;
  enterQ2Time : Z;
  leaveQ2Time : Z;
  beginServiceTime : Z;
  endServiceTime : Z;
  realInterPacketArriveTime : Z
}.
Record PacketData := mkPacketData { pd_tokenNeed : Z; pd_interPcketTime : Z; pd_packetServiceTime : Z }.

Inductive event :=
| EArrive (id need : Z) (dropped : bool)
| EEnterQ1 (id : Z)
| ELeaveQ1 (id tokens : Z)
| EEnterQ2 (id : Z)
| ELeaveQ2 (id : Z)
| EBegin (id server : Z)
| EDepart (id server : Z)
| EToken (id tokens : Z)
| ETokenDrop (id : Z)
| ESignal
| ERemoved (id : Z).

(** Program points.  [packetFunc]: the loop test; after the sleep, before the
    lock; with the lock: a packet is due, it is in Q1, the head of Q1 has left
    it but is not in Q2 yet. *)
Inductive ppc := PTest | PWait (d : PacketData) | PDue (d : PacketData) | PQueued | PMoved (p : Z) | PEnd.
(** [tokenFunc]: the two reads of the loop test, [inputQSize] and then Q1;
    before the lock; with the lock, the head of Q1 has left it but is not in Q2
    yet. *)
Inductive tpc := TTest | TTestQ1 | TWait | TMoved (p : Z) | TEnd.
(** [serverFunc]: the three reads of the loop test, [inputQSize], Q1 and Q2;
    before the lock (or woken up); in [pthread_cond_wait]; serving a packet. *)
Inductive spc := STest | STestQ1 | STestQ2 | SLock | SBlocked | SServe (p : Z) | SEnd.
(** [signalFunc]: before SIGINT; with the lock, [inputQSize] is 0; Q1 is empty
    too; done. *)
Inductive gpc := GWait | GMarked | GCleared | GEnd.
#[export] Instance PacketData_eq_dec : EqDecision PacketData.
Proof. solve_decision. Defined.
#[export] Instance ppc_eq_dec : EqDecision ppc.
Proof. solve_decision. Defined.
#[export] Instance tpc_eq_dec : EqDecision tpc.
Proof. solve_decision. Defined.
#[export] Instance spc_eq_dec : EqDecision spc.
Proof. solve_decision. Defined.
#[export] Instance gpc_eq_dec : EqDecision gpc.
Proof. solve_decision. Defined.

Inductive thread := Packet | Token | S1 | S2 | Sig.
#[export] Instance thread_eq_dec : EqDecision thread.
Proof. solve_decision. Defined.

Record st := mkSt {
  inputQSize : Z;
  nextId : Z;
  tokenId : Z;
  curTokenSize : Z;
  tokenDropSize : Z;
  pkts : gmap Z MyPacket;
  Q1 : list Z;
  Q2 : list Z;
  outputQ : list Z;
  clock : Z;
  prePacketArriveTime : Z;
  reads : nat;
  log : list event;
  lock : option thread;
  pcP : ppc;
  pcT : tpc;
  pc1 : spc;
  pc2 : spc;
  pcG : gpc
}.

Definition set_lock (l : option thread) (s : st) : st :=
  mkSt (inputQSize s) (nextId s) (tokenId s) (curTokenSize s) (tokenDropSize s) (pkts s) (Q1 s) (Q2 s) (outputQ s) (clock s)
    (prePacketArriveTime s) (reads s) (log s) l (pcP s) (pcT s) (pc1 s) (pc2 s) (pcG s).
Definition set_input (n : Z) (s : st) : st :=
  mkSt n (nextId s) (tokenId s) (curTokenSize s) (tokenDropSize s) (pkts s) (Q1 s) (Q2 s) (outputQ s) (clock s)
    (prePacketArriveTime s) (reads s) (log s) (lock s) (pcP s) (pcT s) (pc1 s) (pc2 s) (pcG s).
Definition set_pcP (c : ppc) (s : st) : st :=
  mkSt (inputQSize s) (nextId s) (tokenId s) (curTokenSize s) (tokenDropSize s) (pkts s) (Q1 s) (Q2 s) (outputQ s) (clock s)
    (prePacketArriveTime s) (reads s) (log s) (lock s) c (pcT s) (pc1 s) (pc2 s) (pcG s).
Definition set_pcT (c : tpc) (s : st) : st :=
  mkSt (inputQSize s) (nextId s) (tokenId s) (curTokenSize s) (tokenDropSize s) (pkts s) (Q1 s) (Q2 s) (outputQ s) (clock s)
    (prePacketArriveTime s) (reads s) (log s) (lock s) (pcP s) c (pc1 s) (pc2 s) (pcG s).
Definition set_pcS (i : Z) (c : spc) (s : st) : st :=
  mkSt (inputQSize s) (nextId s) (tokenId s) (curTokenSize s) (tokenDropSize s) (pkts s) (Q1 s) (Q2 s) (outputQ s) (clock s)
    (prePacketArriveTime s) (reads s) (log s) (lock s) (pcP s) (pcT s) (if i =? 1 then c else pc1 s) (if i =? 1 then pc2 s else c) (pcG s).
Definition set_pcG (c : gpc) (s : st) : st :=
  mkSt (inputQSize s) (nextId s) (tokenId s) (curTokenSize s) (tokenDropSize s) (pkts s) (Q1 s) (Q2 s) (outputQ s) (clock s)
    (prePacketArriveTime s) (reads s) (log s) (lock s) (pcP s) (pcT s) (pc1 s) (pc2 s) c.
Definition set_reads (n : nat) (s : st) : st :=
  mkSt (inputQSize s) (nextId s) (tokenId s) (curTokenSize s) (tokenDropSize s) (pkts s) (Q1 s) (Q2 s) (outputQ s) (clock s)
    (prePacketArriveTime s) n (log s) (lock s) (pcP s) (pcT s) (pc1 s) (pc2 s) (pcG s).
Definition set_tokens (id cur drop : Z) (s : st) : st :=
  mkSt (inputQSize s) (nextId s) id cur drop (pkts s) (Q1 s) (Q2 s) (outputQ s) (clock s)
    (prePacketArriveTime s) (reads s) (log s) (lock s) (pcP s) (pcT s) (pc1 s) (pc2 s) (pcG s).
Definition set_queues (q1 q2 out : list Z) (s : st) : st :=
  mkSt (inputQSize s) (nextId s) (tokenId s) (curTokenSize s) (tokenDropSize s) (pkts s) q1 q2 out (clock s)
    (prePacketArriveTime s) (reads s) (log s) (lock s) (pcP s) (pcT s) (pc1 s) (pc2 s) (pcG s).
Definition set_time (t : Z) (s : st) : st :=
  mkSt (inputQSize s) (nextId s) (tokenId s) (curTokenSize s) (tokenDropSize s) (pkts s) (Q1 s) (Q2 s) (outputQ s) t
    (prePacketArriveTime s) (reads s) (log s) (lock s) (pcP s) (pcT s) (pc1 s) (pc2 s) (pcG s).
Definition upd_pkts (f : gmap Z MyPacket -> gmap Z MyPacket) (s : st) : st :=
  mkSt (inputQSize s) (nextId s) (tokenId s) (curTokenSize s) (tokenDropSize s) (f (pkts s)) (Q1 s) (Q2 s) (outputQ s) (clock s)
    (prePacketArriveTime s) (reads s) (log s) (lock s) (pcP s) (pcT s) (pc1 s) (pc2 s) (pcG s).
Definition say (l : list event) (s : st) : st :=
  mkSt (inputQSize s) (nextId s) (tokenId s) (curTokenSize s) (tokenDropSize s) (pkts s) (Q1 s) (Q2 s) (outputQ s) (clock s)
    (prePacketArriveTime s) (reads s) (log s ++ l) (lock s) (pcP s) (pcT s) (pc1 s) (pc2 s) (pcG s).
(** A new packet: [packetId++], and the time of its arrival is kept. *)
Definition new_packet (x : MyPacket) (t : Z) (s : st) : st :=
  mkSt (inputQSize s) (nextId s + 1) (tokenId s) (curTokenSize s) (tokenDropSize s) (<[nextId s + 1 := x]> (pkts s)) (Q1 s) (Q2 s) (outputQ s) (clock s)
    t (reads s) (log s) (lock s) (pcP s) (pcT s) (pc1 s) (pc2 s) (pcG s).

(** ** Packets *)
Definition createPacket : MyPacket := mkPacket 0 0 0 0 0 0 0 0 0 0 0 0 0 0.
Definition initPacket (id : Z) (d : PacketData) (x : MyPacket) : MyPacket :=
  mkPacket (serviceType x) (packetType x) id (pd_tokenNeed d) (pd_interPcketTime d) (pd_packetServiceTime d)
    (arriveTime x) (enterQ1Time x) (leaveQ1Time x) (enterQ2Time x) (leaveQ2Time x) (beginServiceTime x) (endServiceTime x) (realInterPacketArriveTime x).
Definition with_arrival (t diff : Z) (x : MyPacket) : MyPacket :=
  mkPacket (serviceType x) (packetType x) (packetId x) (tokenNeed x) (interPacketTime x) (packetServiceTime x)
    t (enterQ1Time x) (leaveQ1Time x) (enterQ2Time x) (leaveQ2Time x) (beginServiceTime x) (endServiceTime x) diff.
Definition with_type (ty : Z) (x : MyPacket) : MyPacket :=
  mkPacket (serviceType x) ty (packetId x) (tokenNeed x) (interPacketTime x) (packetServiceTime x)
    (arriveTime x) (enterQ1Time x) (leaveQ1Time x) (enterQ2Time x) (leaveQ2Time x) (beginServiceTime x) (endServiceTime x) (realInterPacketArriveTime x).
Definition with_enterQ1 (t : Z) (x : MyPacket) : MyPacket :=
  mkPacket (serviceType x) (packetType x) (packetId x) (tokenNeed x) (interPacketTime x) (packetServiceTime x)
    (arriveTime x) t (leaveQ1Time x) (enterQ2Time x) (leaveQ2Time x) (beginServiceTime x) (endServiceTime x) (realInterPacketArriveTime x).
Definition with_leaveQ1 (t : Z) (x : MyPacket) : MyPacket :=
  mkPacket (serviceType x) (packetType x) (packetId x) (tokenNeed x) (interPacketTime x) (packetServiceTime x)
    (arriveTime x) (enterQ1Time x) t (enterQ2Time x) (leaveQ2Time x) (beginServiceTime x) (endServiceTime x) (realInterPacketArriveTime x).
Definition with_enterQ2 (t : Z) (x : MyPacket) : MyPacket :=
  mkPacket (serviceType x) (packetType x) (packetId x) (tokenNeed x) (interPacketTime x) (packetServiceTime x)
    (arriveTime x) (enterQ1Time x) (leaveQ1Time x) t (leaveQ2Time x) (beginServiceTime x) (endServiceTime x) (realInterPacketArriveTime x).
Definition with_service (server t1 t2 : Z) (x : MyPacket) : MyPacket :=
  mkPacket server 1 (packetId x) (tokenNeed x) (interPacketTime x) (packetServiceTime x)
    (arriveTime x) (enterQ1Time x) (leaveQ1Time x) (enterQ2Time x) t1 t2 (endServiceTime x) (realInterPacketArriveTime x).
Definition with_end (t : Z) (x : MyPacket) : MyPacket :=
  mkPacket (serviceType x) (packetType x) (packetId x) (tokenNeed x) (interPacketTime x) (packetServiceTime x)
    (arriveTime x) (enterQ1Time x) (leaveQ1Time x) (enterQ2Time x) (leaveQ2Time x) (beginServiceTime x) t (realInterPacketArriveTime x).

(** ** The threads *)
(** The parameters: the depth of the bucket, the number of packets, and the
    data of the packets in the order [packetFunc] reads them
    ([createPacketData], then a line of the trace file if there is one). *)
Record config := mkConfig { cB : Z; cnum : Z; cdata : nat -> PacketData }.

Section Threads.
Context (c : config).

(** [pthread_cond_broadcast]: the waiting servers have to take the lock again. *)
Definition wake (x : spc) : spc := match x with SBlocked => SLock | _ => x end.
Definition broadcast (s : st) : st := set_pcS 2 (wake (pc2 s)) (set_pcS 1 (wake (pc1 s)) s).

(** The first part of moving the head of Q1: it leaves Q1 if there are enough
    tokens for it. *)
Definition leave_q1 (t : Z) (s : st) : option (Z * st) :=
  match Q1 s with
  | [] => None
  | p :: r =>
      match pkts s !! p with
      | None => None
      | Some x =>
          if tokenNeed x <=? curTokenSize s then
            Some (p, say [ELeaveQ1 p (curTokenSize s - tokenNeed x)]
              (upd_pkts (<[p := with_leaveQ1 t x]>)
                (set_tokens (tokenId s) (curTokenSize s - tokenNeed x) (tokenDropSize s)
                  (set_queues r (Q2 s) (outputQ s) s))))
          else None
      end
  end.
(** The second part: it enters Q2 and the servers are woken up. *)
Definition enter_q2 (p t : Z) (s : st) : option st :=
  match pkts s !! p with
  | None => None
  | Some x => Some (broadcast (say [EEnterQ2 p] (upd_pkts (<[p := with_enterQ2 t x]>) (set_queues (Q1 s) (Q2 s ++ [p]) (outputQ s) s))))
  end.

(** [packetFunc].  [t1] and [t2] are what [gettimeofday] returns. *)
Definition packetFunc (t1 t2 : Z) (s : st) : option st :=
  match pcP s with
  | PTest =>
      if 0 <? inputQSize s then Some (set_pcP (PWait (cdata c (reads s))) (set_reads (S (reads s)) s))
      else Some (set_pcP PEnd s)
  | PWait d =>
      match lock s with
      | Some _ => None
      | None =>
          if inputQSize s <=? 0 then Some (set_pcP PTest s)
          else Some (set_pcP (PDue d) (set_lock (Some Packet) (set_input (inputQSize s - 1) s)))
      end
  | PDue d =>
      let id := nextId s + 1 in
      let x := with_arrival t1 (t1 - prePacketArriveTime s) (initPacket id d createPacket) in
      if cB c <? tokenNeed x then
        Some (set_pcP PTest (set_lock None (say [EArrive id (tokenNeed x) true]
          (set_queues (Q1 s) (Q2 s) (outputQ s ++ [id]) (new_packet (with_type 2 x) t1 s)))))
      else
        Some (set_pcP PQueued (say [EArrive id (tokenNeed x) false; EEnterQ1 id]
          (set_queues (Q1 s ++ [id]) (Q2 s) (outputQ s) (new_packet (with_enterQ1 t2 x) t1 s))))
  | PQueued =>
      match leave_q1 t1 s with
      | Some (p, s') => Some (set_pcP (PMoved p) s')
      | None => Some (set_pcP PTest (set_lock None s))
      end
  | PMoved p =>
      match enter_q2 p t1 s with
      | Some s' => Some (set_pcP PTest (set_lock None s'))
      | None => None
      end
  | PEnd => None
  end.

(** [tokenFunc]. *)
Definition new_token (s : st) : st :=
  let id := tokenId s + 1 in
  if cB c <=? curTokenSize s then say [ETokenDrop id] (set_tokens id (curTokenSize s) (tokenDropSize s + 1) s)
  else say [EToken id (curTokenSize s + 1)] (set_tokens id (curTokenSize s + 1) (tokenDropSize s) s).
Definition tokenFunc (t1 t2 : Z) (s : st) : option st :=
  match pcT s with
  | TTest =>
      if 0 <? inputQSize s then Some (set_pcT TWait s) else Some (set_pcT TTestQ1 s)
  | TTestQ1 =>
      if bool_decide (Q1 s = []) then Some (set_pcT TEnd s) else Some (set_pcT TWait s)
  | TWait =>
      match lock s with
      | Some _ => None
      | None =>
          if (inputQSize s <=? 0) && bool_decide (Q1 s = []) then Some (set_pcT TTest s)
          else
            let s1 := new_token s in
            match leave_q1 t2 s1 with
            | Some (p, s2) => Some (set_pcT (TMoved p) (set_lock (Some Token) s2))
            | None => Some (set_pcT TTest s1)
            end
      end
  | TMoved p =>
      match enter_q2 p t1 s with
      | Some s' => Some (set_pcT TTest (set_lock None s'))
      | None => None
      end
  | TEnd => None
  end.

(** [serverFunc]; [i] is 1 for S1 and 2 for S2. *)
Definition pcS (i : Z) (s : st) : spc := if i =? 1 then pc1 s else pc2 s.
Definition serverFunc (i t1 t2 : Z) (s : st) : option st :=
  match pcS i s with
  | STest =>
      if 0 <? inputQSize s then Some (set_pcS i SLock s) else Some (set_pcS i STestQ1 s)
  | STestQ1 =>
      if bool_decide (Q1 s = []) then Some (set_pcS i STestQ2 s) else Some (set_pcS i SLock s)
  | STestQ2 =>
      if bool_decide (Q2 s = []) then Some (set_pcS i SEnd s) else Some (set_pcS i SLock s)
  | SLock =>
      match lock s with
      | Some _ => None
      | None =>
          if bool_decide (Q2 s = []) && (0 <? inputQSize s) && negb (bool_decide (Q1 s = [])) then Some (set_pcS i SBlocked s)
          else
            match Q2 s with
            | [] => Some (set_pcS i STest s)
            | p :: r =>
                match pkts s !! p with
                | None => None
                | Some x =>
                    Some (set_pcS i (SServe p) (broadcast (say [ELeaveQ2 p; EBegin p i]
                      (upd_pkts (<[p := with_service i t1 t2 x]>) (set_queues (Q1 s) r (outputQ s ++ [p]) s)))))
                end
            end
      end
  | SBlocked => None
  | SServe p =>
      match pkts s !! p with
      | None => None
      | Some x => Some (set_pcS i STest (say [EDepart p i] (upd_pkts (<[p := with_end t1 x]>) s)))
      end
  | SEnd => None
  end.

(** [signalFunc], once SIGINT has arrived. *)
Definition mark_removed (l : list Z) (m : gmap Z MyPacket) : gmap Z MyPacket :=
  foldr (fun p m => alter (with_type 3) p m) m l.
Definition signalFunc (s : st) : option st :=
  match pcG s with
  | GWait =>
      match lock s with
      | Some _ => None
      | None => Some (set_pcG GMarked (set_lock (Some Sig) (set_input 0 (say (ESignal :: (ERemoved <$> Q1 s ++ Q2 s))
          (upd_pkts (mark_removed (Q1 s ++ Q2 s)) (set_queues (Q1 s) (Q2 s) (outputQ s ++ Q1 s ++ Q2 s) s))))))
      end
  | GMarked => Some (set_pcG GCleared (set_queues [] (Q2 s) (outputQ s) s))
  | GCleared => Some (set_pcG GEnd (set_lock None (broadcast (set_queues (Q1 s) [] (outputQ s) s))))
  | GEnd => None
  end.

(** A step of one thread; [pthread_cond_wait] may also return for no reason. *)
Inductive label := LPacket | LToken | LServer (i : Z) | LSignal | LSpurious (i : Z).
Definition exec (l : label) (t1 t2 : Z) (s : st) : option st :=
  match l with
  | LPacket => packetFunc t1 t2 s
  | LToken => tokenFunc t1 t2 s
  | LServer i => serverFunc i t1 t2 s
  | LSignal => signalFunc s
  | LSpurious i => match pcS i s with SBlocked => Some (set_pcS i SLock s) | _ => None end
  end.
Inductive step : label -> st -> st -> Prop :=
| step_intro l t1 t2 s s' : (forall i, l = LServer i \/ l = LSpurious i -> i = 1 \/ i = 2) ->
    clock s <= t1 -> t1 <= t2 -> exec l t1 t2 s = Some s' -> step l s (set_time t2 s').

(** The state when [main] has created the threads. *)
Definition start_st : st :=
  mkSt (cnum c) 0 0 0 0 ∅ [] [] [] 0 0 0 [] None PTest TTest STest STest GWait.
Inductive reachable : st -> Prop :=
| reach_start : reachable start_st
| reach_step l s s' : reachable s -> step l s s' -> reachable s'.
End Threads.

(** The transitions, one by one. *)
Section Transitions.
Context (c : config) (t1 t2 : Z) (s : st).
Inductive tr : st -> Prop :=
| tr_p_go : pcP s = PTest -> 0 < inputQSize s -> tr (set_pcP (PWait (cdata c (reads s))) (set_reads (S (reads s)) s))
| tr_p_end : pcP s = PTest -> inputQSize s <= 0 -> tr (set_pcP PEnd s)
| tr_p_none d : pcP s = PWait d -> lock s = None -> inputQSize s <= 0 -> tr (set_pcP PTest s)
| tr_p_due d : pcP s = PWait d -> lock s = None -> 0 < inputQSize s ->
    tr (set_pcP (PDue d) (set_lock (Some Packet) (set_input (inputQSize s - 1) s)))
| tr_p_drop d x : pcP s = PDue d -> x = with_arrival t1 (t1 - prePacketArriveTime s) (initPacket (nextId s + 1) d createPacket) ->
    cB c < tokenNeed x ->
    tr (set_pcP PTest (set_lock None (say [EArrive (nextId s + 1) (tokenNeed x) true]
          (set_queues (Q1 s) (Q2 s) (outputQ s ++ [nextId s + 1]) (new_packet (with_type 2 x) t1 s)))))
| tr_p_queue d x : pcP s = PDue d -> x = with_arrival t1 (t1 - prePacketArriveTime s) (initPacket (nextId s + 1) d createPacket) ->
    tokenNeed x <= cB c ->
    tr (set_pcP PQueued (say [EArrive (nextId s + 1) (tokenNeed x) false; EEnterQ1 (nextId s + 1)]
          (set_queues (Q1 s ++ [nextId s + 1]) (Q2 s) (outputQ s) (new_packet (with_enterQ1 t2 x) t1 s))))
| tr_p_leave p s' : pcP s = PQueued -> leave_q1 t1 s = Some (p, s') -> tr (set_pcP (PMoved p) s')
| tr_p_stay : pcP s = PQueued -> leave_q1 t1 s = None -> tr (set_pcP PTest (set_lock None s))
| tr_p_q2 p s' : pcP s = PMoved p -> enter_q2 p t1 s = Some s' -> tr (set_pcP PTest (set_lock None s'))
| tr_t_go : pcT s = TTest -> tr (set_pcT TWait s)
| tr_t_go_q1 : pcT s = TTestQ1 -> tr (set_pcT TWait s)
| tr_t_q1 : pcT s = TTest -> inputQSize s <= 0 -> tr (set_pcT TTestQ1 s)
| tr_t_end : pcT s = TTestQ1 -> Q1 s = [] -> tr (set_pcT TEnd s)
| tr_t_none : pcT s = TWait -> lock s = None -> inputQSize s <= 0 -> Q1 s = [] -> tr (set_pcT TTest s)
| tr_t_leave p s' : pcT s = TWait -> lock s = None -> leave_q1 t2 (new_token c s) = Some (p, s') ->
    tr (set_pcT (TMoved p) (set_lock (Some Token) s'))
| tr_t_stay : pcT s = TWait -> lock s = None -> leave_q1 t2 (new_token c s) = None -> tr (set_pcT TTest (new_token c s))
| tr_t_q2 p s' : pcT s = TMoved p -> enter_q2 p t1 s = Some s' -> tr (set_pcT TTest (set_lock None s'))
| tr_s_go i : pcS i s = STest \/ pcS i s = STestQ1 \/ pcS i s = STestQ2 -> tr (set_pcS i SLock s)
| tr_s_q1 i : pcS i s = STest -> inputQSize s <= 0 -> tr (set_pcS i STestQ1 s)
| tr_s_q2 i : pcS i s = STestQ1 -> Q1 s = [] -> tr (set_pcS i STestQ2 s)
| tr_s_end i : pcS i s = STestQ2 -> Q2 s = [] -> tr (set_pcS i SEnd s)
| tr_s_block i : pcS i s = SLock -> lock s = None -> Q2 s = [] -> 0 < inputQSize s -> Q1 s <> [] -> tr (set_pcS i SBlocked s)
| tr_s_retry i : pcS i s = SLock -> lock s = None -> Q2 s = [] -> tr (set_pcS i STest s)
| tr_s_serve i p r x : pcS i s = SLock -> lock s = None -> Q2 s = p :: r -> pkts s !! p = Some x ->
    tr (set_pcS i (SServe p) (broadcast (say [ELeaveQ2 p; EBegin p i]
          (upd_pkts (<[p := with_service i t1 t2 x]>) (set_queues (Q1 s) r (outputQ s ++ [p]) s)))))
| tr_s_done i p x : pcS i s = SServe p -> pkts s !! p = Some x ->
    tr (set_pcS i STest (say [EDepart p i] (upd_pkts (<[p := with_end t1 x]>) s)))
| tr_s_woken i : pcS i s = SBlocked -> tr (set_pcS i SLock s)
| tr_g_mark : pcG s = GWait -> lock s = None ->
    tr (set_pcG GMarked (set_lock (Some Sig) (set_input 0 (say (ESignal :: (ERemoved <$> Q1 s ++ Q2 s))
          (upd_pkts (mark_removed (Q1 s ++ Q2 s)) (set_queues (Q1 s) (Q2 s) (outputQ s ++ Q1 s ++ Q2 s) s))))))
| tr_g_q1 : pcG s = GMarked -> tr (set_pcG GCleared (set_queues [] (Q2 s) (outputQ s) s))
| tr_g_q2 : pcG s = GCleared -> tr (set_pcG GEnd (set_lock None (broadcast (set_queues (Q1 s) [] (outputQ s) s)))).

Lemma exec_tr l s' : exec c l t1 t2 s = Some s' -> tr s'.
Proof.
  destruct l as [| |i| |i]; cbn [exec].
  - unfold packetFunc. destruct (pcP s) as [|d|d| |p|] eqn:Hp.
    + destruct (Z.ltb_spec 0 (inputQSize s)); intros [= <-]; eauto using tr.
    + destruct (lock s) eqn:Hl; [done|]. destruct (Z.leb_spec (inputQSize s) 0); intros [= <-]; eauto using tr.
    + cbv zeta. destruct (Z.ltb_spec (cB c) (tokenNeed (with_arrival t1 (t1 - prePacketArriveTime s) (initPacket (nextId s + 1) d createPacket)))); intros [= <-]; eauto using tr.
    + destruct (leave_q1 t1 s) as [[p s1]|] eqn:E; intros [= <-]; eauto using tr.
    + destruct (enter_q2 p t1 s) eqn:E; [|done]. intros [= <-]. eauto using tr.
    + done.
  - unfold tokenFunc. destruct (pcT s) as [| | |p|] eqn:Hp.
    + destruct (Z.ltb_spec 0 (inputQSize s)); intros [= <-]; eauto using tr.
    + case_bool_decide; intros [= <-]; eauto using tr.
    + destruct (lock s) eqn:Hl; [done|]. destruct (Z.leb_spec (inputQSize s) 0), (bool_decide_reflect (Q1 s = [])); cbn [andb]; [intros [= <-]; eauto using tr|..];
        cbv zeta; destruct (leave_q1 t2 (new_token c s)) as [[p s1]|] eqn:E; intros [= <-]; eauto using tr.
    + destruct (enter_q2 p t1 s) eqn:E; [|done]. intros [= <-]. eauto using tr.
    + done.
  - unfold serverFunc. destruct (pcS i s) as [| | | | |p|] eqn:Hp.
    + destruct (Z.ltb_spec 0 (inputQSize s)); intros [= <-]; eauto using tr.
    + case_bool_decide; intros [= <-]; eauto using tr.
    + case_bool_decide; intros [= <-]; eauto 6 using tr.
    + destruct (lock s) eqn:Hl; [done|]. destruct (Q2 s) as [|p r] eqn:Hq.
      * rewrite bool_decide_eq_true_2 by done. cbn [andb]. destruct (Z.ltb_spec 0 (inputQSize s)), (bool_decide_reflect (Q1 s = [])); cbn [andb negb]; intros [= <-]; eauto using tr.
      * rewrite bool_decide_eq_false_2 by done. cbn [andb]. destruct (pkts s !! p) eqn:Hx; [|done]. intros [= <-]. rewrite <- ?Hq. eauto using tr.
    + done.
    + destruct (pkts s !! p) eqn:Hx; [|done]. intros [= <-]. eauto using tr.
    + done.
  - unfold signalFunc. destruct (pcG s) eqn:Hp; [destruct (lock s) eqn:Hl; [done|]|..]; intros [= <-]; eauto using tr.
  - destruct (pcS i s) eqn:Hp; try done. intros [= <-]. eauto using tr.
Qed.
End Transitions.

(** ** What holds in every reachable state *)
Section Invariant.
Context (c : config).

(** The packets that have left Q1 for tokens and those whose service has
    begun, in the order of the output. *)
Definition left_ids (l : list event) : list Z := omap (fun e => match e with ELeaveQ1 p _ => Some p | _ => None end) l.
Definition begun_ids (l : list event) : list Z := omap (fun e => match e with EBegin p _ => Some p | _ => None end) l.
Definition need_of (s : st) (p : Z) : Z := from_option tokenNeed 0 (pkts s !! p).
Definition zsum (l : list Z) : Z := foldr Z.add 0 l.
(** The tokens taken from the bucket. *)
Definition spent (s : st) : Z := zsum (need_of s <$> left_ids (log s)).

(** The packet that has left Q1 and is not in Q2 yet. *)
Definition inhand (s : st) : list Z :=
  match pcP s with PMoved p => [p] | _ => match pcT s with TMoved p => [p] | _ => [] end end.
(** The queues, without what SIGINT has already moved to [outputQ]. *)
Definition live1 (s : st) : list Z := match pcG s with GMarked => [] | _ => Q1 s end.
Definition live2 (s : st) : list Z := match pcG s with GMarked | GCleared => [] | _ => Q2 s end.
Definition due (s : st) : Z := match pcP s with PDue _ => 1 | _ => 0 end.
Definition blocked (s : st) : Prop := pc1 s = SBlocked \/ pc2 s = SBlocked.

Definition holds_packet (s : st) : bool := match pcP s with PDue _ | PQueued | PMoved _ => true | _ => false end.
Definition holds_token (s : st) : bool := match pcT s with TMoved _ => true | _ => false end.
Definition holds_sig (s : st) : bool := match pcG s with GMarked | GCleared => true | _ => false end.

(** The lock is held by the thread that is inside its critical section. *)
Record lock_ok (s : st) : Prop := {
  lk_p : holds_packet s = bool_decide (lock s = Some Packet);
  lk_t : holds_token s = bool_decide (lock s = Some Token);
  lk_g : holds_sig s = bool_decide (lock s = Some Sig);
  lk_s : bool_decide (lock s = Some S1) || bool_decide (lock s = Some S2) = false;
}.
(** Every packet created is in exactly one place, and the queues are in the
    order of arrival. *)
Record packets_ok (s : st) : Prop := {
  pk_id : 0 <= nextId s;
  pk_perm : outputQ s ++ live2 s ++ inhand s ++ live1 s ≡ₚ seqZ 1 (nextId s);
  pk_dom : forall p, 1 <= p <= nextId s <-> is_Some (pkts s !! p);
  pk_need : forall p x, p ∈ Q1 s -> pkts s !! p = Some x -> tokenNeed x <= cB c;
  pk_pos : forall p x, pkts s !! p = Some x -> 0 < tokenNeed x;
  pk_fifo : StronglySorted Z.lt (left_ids (log s) ++ live1 s);
  pk_left : Forall (fun p => 1 <= p <= nextId s) (left_ids (log s));
  pk_exact : pcG s = GWait -> left_ids (log s) = begun_ids (log s) ++ Q2 s ++ inhand s;
  pk_begun : begun_ids (log s) `prefix_of` left_ids (log s);
  pk_q1 : pcG s = GCleared \/ pcG s = GEnd -> Q1 s = [];
  pk_q2 : pcG s = GEnd -> Q2 s = [] /\ inhand s = [];
  pk_data : match pcP s with PWait d | PDue d => 0 < pd_tokenNeed d | _ => True end;
}.
(** Tokens are only created, dropped, kept or spent. *)
Record tokens_ok (s : st) : Prop := {
  tk_range : 0 <= curTokenSize s <= cB c;
  tk_drop : 0 <= tokenDropSize s;
  tk_sum : tokenId s = tokenDropSize s + curTokenSize s + spent s;
}.
Record counts_ok (s : st) : Prop := {
  ct_pos : 0 <= inputQSize s;
  ct_all : pcG s = GWait -> inputQSize s + due s + nextId s = cnum c;
  ct_sig : pcG s <> GWait -> inputQSize s = 0 /\ due s = 0;
  ct_end : pcP s = PEnd -> inputQSize s = 0;
}.
(** No wake-up is lost. *)
Record waits_ok (s : st) : Prop := {
  wt_q1 : blocked s -> Q1 s <> [] \/ inhand s <> [] \/ pcG s = GCleared;
  wt_end : pcT s = TTestQ1 \/ pcT s = TEnd -> inputQSize s = 0;
  wt_blk : pcT s = TEnd -> blocked s -> inhand s <> [] \/ pcG s = GCleared;
}.
Record Inv (s : st) : Prop := {
  inv_lock : lock_ok s; inv_packets : packets_ok s; inv_tokens : tokens_ok s; inv_counts : counts_ok s; inv_waits : waits_ok s;
}.

(** The parameters that [checkInput] and [checkField] let pass. *)
Record config_ok : Prop := {
  cf_B : 0 < cB c;
  cf_num : 0 <= cnum c;
  cf_need : forall k, 0 < pd_tokenNeed (cdata c k);
}.

Lemma start_inv : config_ok -> Inv (start_st c).
Proof.
  intros [HB HN Hn]. split; split; cbn; try done; try lia.
  - intros p. rewrite lookup_empty. split; [lia|by intros [? ?]].
  - constructor.
  - by intros [[=]|[=]].
  - by intros [[=]|[=]].
Qed.

Lemma leave_q1_some t s p s' : leave_q1 t s = Some (p, s') ->
  exists r x, Q1 s = p :: r /\ pkts s !! p = Some x /\ tokenNeed x <= curTokenSize s /\
    s' = say [ELeaveQ1 p (curTokenSize s - tokenNeed x)] (upd_pkts (<[p := with_leaveQ1 t x]>)
           (set_tokens (tokenId s) (curTokenSize s - tokenNeed x) (tokenDropSize s) (set_queues r (Q2 s) (outputQ s) s))).
Proof.
  unfold leave_q1. destruct (Q1 s) as [|q r]; [done|]. destruct (pkts s !! q) as [x|] eqn:Hx; [|done].
  destruct (Z.leb_spec (tokenNeed x) (curTokenSize s)); [|done]. intros [= -> <-]. eauto 7.
Qed.
Lemma enter_q2_some p t s s' : enter_q2 p t s = Some s' ->
  exists x, pkts s !! p = Some x /\
    s' = broadcast (say [EEnterQ2 p] (upd_pkts (<[p := with_enterQ2 t x]>) (set_queues (Q1 s) (Q2 s ++ [p]) (outputQ s) s))).
Proof. unfold enter_q2. destruct (pkts s !! p) as [x|] eqn:Hx; [|done]. intros [= <-]. eauto. Qed.
Lemma new_token_cases s : exists id cur drop e, new_token c s = say [e] (set_tokens id cur drop s) /\ id = tokenId s + 1 /\
  (forall p n, e <> ELeaveQ1 p n) /\ (forall p i, e <> EBegin p i) /\
  (cB c <= curTokenSize s /\ cur = curTokenSize s /\ drop = tokenDropSize s + 1 \/
   curTokenSize s < cB c /\ cur = curTokenSize s + 1 /\ drop = tokenDropSize s).
Proof. unfold new_token. destruct (Z.leb_spec (cB c) (curTokenSize s)); do 4 eexists; (split; [done|]); (split; [done|]); (split; [done|]); (split; [done|]); auto. Qed.

(** The cases of a step, with the new state spelled out. *)
Ltac tr_cases H :=
  destruct H;
  repeat match goal with
  | E : leave_q1 _ _ = Some _ |- _ => apply leave_q1_some in E as (? & ? & ? & ? & ? & ->)
  | E : enter_q2 _ _ _ = Some _ |- _ => apply enter_q2_some in E as (? & ? & ->)
  end.

Ltac use_pcs s :=
  repeat match goal with
  | H : pcP s = _ |- _ => rewrite H in * | H : pcT s = _ |- _ => rewrite H in *
  | H : pcG s = _ |- _ => rewrite H in * | H : lock s = _ |- _ => rewrite H in *
  end.

Lemma lock_step t1 t2 s s' : lock_ok s -> tr c t1 t2 s s' -> lock_ok (set_time t2 s').
Proof.
  intros [Lp Lt Lg Ls] E. destruct (new_token_cases s) as (id & cur & drop & e & En & _).
  unfold holds_packet, holds_token, holds_sig in *. tr_cases E; try rewrite En in *.
  all: split; unfold holds_packet, holds_token, holds_sig; cbn in *; use_pcs s; try done.
  all: destruct (lock s) as [[]|] eqn:El; cbn in Lp, Lt, Lg, Ls; try done.
Qed.

Lemma counts_step t1 t2 s s' : lock_ok s -> counts_ok s -> tr c t1 t2 s s' -> counts_ok (set_time t2 s').
Proof.
  intros [Lp Lt Lg Ls] [C1 C2 C3 C4] E. destruct (new_token_cases s) as (id & cur & drop & e & En & _).
  unfold due, holds_packet, holds_token, holds_sig in *. tr_cases E; try rewrite En in *.
  all: split; unfold due; cbn in *; use_pcs s; try done; try lia; try (intros Hg; specialize (C2 Hg); lia); try (intros Hg; specialize (C3 Hg); lia).
  - intros _. split; [done|]. by destruct (pcP s).
  - intros _. by apply C3.
  - intros _. by apply C3.
Qed.

Lemma wake_not x : wake x <> SBlocked.
Proof. by destruct x. Qed.
Lemma waits_step t1 t2 s s' : lock_ok s -> counts_ok s -> waits_ok s -> tr c t1 t2 s s' -> waits_ok (set_time t2 s').
Proof.
  intros [Lp Lt Lg Ls] [C1 C2 C3 C4] [W1 W2 W3] E. destruct (new_token_cases s) as (id & cur & drop & e & En & _).
  unfold inhand, blocked, holds_packet, holds_token, holds_sig in *. tr_cases E; try rewrite En in *.
  all: split; unfold inhand, blocked; cbn in *; use_pcs s; try done; try lia; intros; destruct_or?;
    repeat match goal with H : context [if ?b then _ else _] |- _ => destruct b end; try done; try (by edestruct wake_not); try lia;
    try (by specialize (W2 ltac:(by auto)); lia);
    try (destruct W1 as [?|[?|?]]; [by (left + right)|by auto..]); try (destruct W3 as [?|?]; [done|by (left + right)|by auto..]);
    try (by auto).
  - left. by destruct (Q1 s).
  - left. by destruct (Q1 s).
  - right; left. by destruct (pcP s).
  - right; left. by destruct (pcP s).
Qed.

(** ** Tokens *)
Lemma left_ids_app l1 l2 : left_ids (l1 ++ l2) = left_ids l1 ++ left_ids l2.
Proof. apply omap_app. Qed.
Lemma begun_ids_app l1 l2 : begun_ids (l1 ++ l2) = begun_ids l1 ++ begun_ids l2.
Proof. apply omap_app. Qed.
Lemma zsum_app l1 l2 : zsum (l1 ++ l2) = zsum l1 + zsum l2.
Proof. induction l1 as [|x l IH]; cbn; [done|]. unfold zsum in *. lia. Qed.
Lemma removed_quiet l : left_ids (ERemoved <$> l) = [] /\ begun_ids (ERemoved <$> l) = [].
Proof. induction l as [|x l [IH1 IH2]]; [done|]. split; [exact IH1|exact IH2]. Qed.

(** A step keeps the packets there are and what they need. *)
Definition keeps (m m' : gmap Z MyPacket) : Prop :=
  forall p x, m !! p = Some x -> exists x', m' !! p = Some x' /\ tokenNeed x' = tokenNeed x.
Lemma keeps_refl m : keeps m m.
Proof. intros p x Hx. eauto. Qed.
Lemma keeps_update m p x y : m !! p = Some x -> tokenNeed y = tokenNeed x -> keeps m (<[p := y]> m).
Proof.
  intros Hx E q z Hz. destruct (decide (p = q)) as [->|]; [rewrite lookup_insert_eq|rewrite lookup_insert_ne by done; eauto].
  simplify_eq. eauto.
Qed.
Lemma keeps_new m p y : m !! p = None -> keeps m (<[p := y]> m).
Proof. intros Hp q z Hz. rewrite lookup_insert_ne by congruence. eauto. Qed.
Lemma mark_removed_lookup l : forall m q, mark_removed l m !! q = (if decide (q ∈ l) then with_type 3 else id) <$> m !! q.
Proof.
  induction l as [|p l IH]; intros m q; cbn [mark_removed foldr].
  - rewrite decide_False by apply not_elem_of_nil. by destruct (m !! q).
  - change (foldr (fun p m => alter (with_type 3) p m) m l) with (mark_removed l m). destruct (decide (p = q)) as [->|Hne].
    + rewrite lookup_alter_eq, IH. rewrite (decide_True (P := q ∈ q :: l)) by (by left). destruct (m !! q) as [x|]; [|done]. cbn. f_equal.
      by destruct (decide (q ∈ l)).
    + rewrite lookup_alter_ne, IH by done. f_equal. destruct (decide (q ∈ l)); [rewrite decide_True by (by right)|rewrite decide_False by set_solver]; done.
Qed.
Lemma keeps_removed l m : keeps m (mark_removed l m).
Proof. intros p x Hx. rewrite mark_removed_lookup, Hx. cbn. destruct (decide (p ∈ l)); eauto. Qed.

Lemma packets_keep t1 t2 s s' : packets_ok s -> tr c t1 t2 s s' -> keeps (pkts s) (pkts s').
Proof.
  intros K E. destruct (new_token_cases s) as (id & cur & drop & e & En & _).
  assert (pkts s !! (nextId s + 1) = None) as Hn.
  { destruct (pkts s !! (nextId s + 1)) eqn:Hx; [|done]. assert (is_Some (pkts s !! (nextId s + 1))) as Hs by eauto. apply (pk_dom _ K) in Hs. lia. }
  tr_cases E; try rewrite En in *; cbn in *; auto using keeps_refl, keeps_new, keeps_removed; by eapply keeps_update.
Qed.
(** What the packets that have left Q1 needed does not change. *)
Lemma spent_keep s m : packets_ok s -> keeps (pkts s) m ->
  zsum ((fun p => from_option tokenNeed 0 (m !! p)) <$> left_ids (log s)) = spent s.
Proof.
  intros K Hk. unfold spent. f_equal. apply list_fmap_ext. intros i p Hi. unfold need_of.
  assert (is_Some (pkts s !! p)) as [x Hx].
  { apply (pk_dom _ K). pose proof (pk_left _ K) as HF. rewrite Forall_forall in HF. apply HF. by eapply list_elem_of_lookup_2. }
  rewrite Hx. destruct (Hk p x Hx) as (x' & -> & E). done.
Qed.

(** What a step adds to the output: at most one packet leaves Q1, at most one
    begins service. *)
Definition adds (s s' : st) (lf bg : list Z) : Prop :=
  left_ids (log s') = left_ids (log s) ++ lf /\ begun_ids (log s') = begun_ids (log s) ++ bg.
Lemma adds_none s s' : log s' = log s -> adds s s' [] [].
Proof. intros E. unfold adds. by rewrite E, !app_nil_r. Qed.
Lemma adds_some s s' l lf bg : log s' = log s ++ l -> left_ids l = lf -> begun_ids l = bg -> adds s s' lf bg.
Proof. intros E <- <-. unfold adds. by rewrite E, left_ids_app, begun_ids_app. Qed.

(** The bucket: as it was, or with one more token (or a dropped one). *)
Inductive bucket (s : st) : Z -> Z -> Z -> Prop :=
| bk_same : bucket s (tokenId s) (curTokenSize s) (tokenDropSize s)
| bk_drop : cB c <= curTokenSize s -> bucket s (tokenId s + 1) (curTokenSize s) (tokenDropSize s + 1)
| bk_add : curTokenSize s < cB c -> bucket s (tokenId s + 1) (curTokenSize s + 1) (tokenDropSize s).
Inductive moves (s s' : st) : Prop :=
| mv_none : Q1 s' = Q1 s \/ Q1 s' = [] \/ Q1 s' = Q1 s ++ [nextId s + 1] -> adds s s' [] [] ->
    bucket s (tokenId s') (curTokenSize s') (tokenDropSize s') -> moves s s'
| mv_leave p r x n : Q1 s = p :: r -> Q1 s' = r -> pkts s !! p = Some x -> adds s s' [p] [] ->
    bucket s (tokenId s') n (tokenDropSize s') -> tokenNeed x <= n -> curTokenSize s' = n - tokenNeed x -> moves s s'
| mv_begin p r : Q1 s' = Q1 s -> Q2 s = p :: r -> Q2 s' = r -> adds s s' [] [p] ->
    bucket s (tokenId s') (curTokenSize s') (tokenDropSize s') -> moves s s'.
Lemma new_token_quiet s : exists id cur drp e, new_token c s = say [e] (set_tokens id cur drp s) /\ bucket s id cur drp /\
  left_ids [e] = [] /\ begun_ids [e] = [].
Proof.
  unfold new_token. destruct (Z.leb_spec (cB c) (curTokenSize s)); do 4 eexists; (split; [reflexivity|]); (split; [by constructor|done]).
Qed.
Lemma tr_moves t1 t2 s s' : tr c t1 t2 s s' -> moves s s'.
Proof.
  intros E. destruct (new_token_quiet s) as (id & cur & drp & e & En & Hbk & Hle & Hbe).
  destruct E; try (apply mv_none; [auto|by apply adds_none|exact (bk_same s)]).
  - apply mv_none; [auto|by eapply adds_some|exact (bk_same s)].
  - apply mv_none; [auto|by eapply adds_some|exact (bk_same s)].
  - apply leave_q1_some in H0 as (r & x & H1 & H2 & H3 & ->). eapply mv_leave; [done..|by eapply adds_some|exact (bk_same s)|done|done].
  - apply enter_q2_some in H0 as (x & _ & ->). apply mv_none; [auto|by eapply adds_some|exact (bk_same s)].
  - rewrite En in H1. apply leave_q1_some in H1 as (r & x & H1 & H2 & H3 & ->). eapply mv_leave; [exact H1|done|exact H2| |exact Hbk|exact H3|done].
    eapply (adds_some _ _ ([e] ++ [_])); [by rewrite app_assoc|rewrite left_ids_app, Hle; done|rewrite begun_ids_app, Hbe; done].
  - rewrite En. apply mv_none; [auto| |exact Hbk]. by apply (adds_some _ _ [e]).
  - apply enter_q2_some in H0 as (x & _ & ->). apply mv_none; [auto|by eapply adds_some|exact (bk_same s)].
  - eapply mv_begin; [done..|by eapply adds_some|exact (bk_same s)].
  - apply mv_none; [auto|by eapply adds_some|exact (bk_same s)].
  - apply mv_none; [auto| |exact (bk_same s)]. eapply (adds_some _ _ (ESignal :: (ERemoved <$> Q1 s ++ Q2 s))); [done|apply (proj1 (removed_quiet _))|apply (proj2 (removed_quiet _))].
Qed.

Lemma spent_moves t1 t2 s s' : packets_ok s -> tr c t1 t2 s s' ->
  spent s' = spent s + zsum (need_of s <$> drop (length (left_ids (log s))) (left_ids (log s'))).
Proof.
  intros K E. pose proof (packets_keep _ _ _ _ K E) as Hp. pose proof (spent_keep s _ K Hp) as Hk.
  assert (forall lf, left_ids (log s') = left_ids (log s) ++ lf -> (forall p, p ∈ lf -> is_Some (pkts s !! p)) ->
    spent s' = spent s + zsum (need_of s <$> lf)) as HS.
  { intros lf El Hlf. unfold spent at 1. rewrite El, fmap_app, zsum_app. unfold need_of at 1. rewrite Hk. f_equal. f_equal.
    apply list_fmap_ext. intros i p Hi. destruct (Hlf p) as [x Hx]; [by eapply list_elem_of_lookup_2|].
    unfold need_of. destruct (Hp p x Hx) as (x' & -> & Ex). by rewrite Hx. }
  destruct (tr_moves _ _ _ _ E) as [_ [El _] _|p r x n _ _ Hx [El _] _ _ _|p r _ _ _ [El _] _]; rewrite (HS _ El), El, drop_app_length; try done.
  - intros q Hq. by apply not_elem_of_nil in Hq.
  - intros q ->%list_elem_of_singleton. eauto.
  - intros q Hq. by apply not_elem_of_nil in Hq.
Qed.

Lemma tokens_step t1 t2 s s' : packets_ok s -> tokens_ok s -> tr c t1 t2 s s' -> tokens_ok (set_time t2 s').
Proof.
  intros K [T1 T2 T3] E. assert (forall lf, left_ids (log s') = left_ids (log s) ++ lf -> spent s' = spent s + zsum (need_of s <$> lf)) as HS.
  { intros lf El. by rewrite (spent_moves _ _ _ _ K E), El, drop_app_length. }
  assert (tokens_ok s' -> tokens_ok (set_time t2 s')) as HT by (by intros []; split). apply HT.
  destruct (tr_moves _ _ _ _ E) as [_ [El _] Hb|p r x n _ _ Hx [El _] Hb Hn Hc|p r _ _ _ [El _] Hb]; apply HS in El; cbn in El.
  - split; [|inversion Hb; lia|rewrite El; inversion Hb; lia]. inversion Hb; lia.
  - unfold need_of in El. rewrite Hx in El. cbn in El. pose proof (pk_pos _ K p x Hx). split; [|inversion Hb; lia|rewrite El; inversion Hb; lia]. inversion Hb; lia.
  - split; [|inversion Hb; lia|rewrite El; inversion Hb; lia]. inversion Hb; lia.
Qed.

(** ** Packets *)
Lemma lock_excl s : lock_ok s ->
  (holds_packet s = true -> holds_token s = false /\ holds_sig s = false) /\
  (holds_token s = true -> holds_packet s = false /\ holds_sig s = false) /\
  (holds_sig s = true -> holds_packet s = false /\ holds_token s = false) /\
  (lock s = None -> holds_packet s = false /\ holds_token s = false /\ holds_sig s = false).
Proof. intros [-> -> -> _]. destruct (lock s) as [[]|]; cbn; naive_solver. Qed.
Lemma quiet_sig s : holds_sig s = false -> live1 s = Q1 s /\ live2 s = Q2 s.
Proof. unfold holds_sig, live1, live2. by destruct (pcG s). Qed.
Lemma quiet_hand s : holds_packet s = false -> holds_token s = false -> inhand s = [].
Proof. unfold holds_packet, holds_token, inhand. by destruct (pcP s), (pcT s). Qed.

(** The same packets in memory. *)
Definition same_pkts (m m' : gmap Z MyPacket) : Prop := keeps m m' /\ keeps m' m.
Lemma same_pkts_refl m : same_pkts m m.
Proof. split; apply keeps_refl. Qed.
Lemma same_pkts_update m p x y : m !! p = Some x -> tokenNeed y = tokenNeed x -> same_pkts m (<[p := y]> m).
Proof.
  intros Hx E. split; [by eapply keeps_update|]. intros q z. destruct (decide (p = q)) as [->|]; [rewrite lookup_insert_eq|rewrite lookup_insert_ne by done; eauto].
  intros [= <-]. eauto.
Qed.
Lemma same_pkts_removed l m : same_pkts m (mark_removed l m).
Proof.
  split; [apply keeps_removed|]. intros p x. rewrite mark_removed_lookup. destruct (m !! p) as [y|]; [|done]. cbn. intros [= <-]. exists y.
  split; [done|]. by destruct (decide (p ∈ l)).
Qed.
Lemma same_dom m m' p : same_pkts m m' -> is_Some (m !! p) <-> is_Some (m' !! p).
Proof. intros [H1 H2]. split; intros [x Hx]; [destruct (H1 _ _ Hx)|destruct (H2 _ _ Hx)]; naive_solver. Qed.

Lemma sorted_sublist l1 l2 : l1 `sublist_of` l2 -> StronglySorted Z.lt l2 -> StronglySorted Z.lt l1.
Proof.
  induction 1 as [|x l1 l2 Hs IH|x l1 l2 Hs IH]; [done|..]; rewrite ?StronglySorted_cons; intros [Hf Hl]; [|by apply IH].
  split; [|by apply IH]. rewrite Forall_forall in *. intros y Hy. apply Hf. by eapply elem_of_sublist.
Qed.

(** A step in which no packet is created: what remains to be shown. *)
Lemma packets_move s s' lf bg : packets_ok s -> nextId s' = nextId s -> same_pkts (pkts s) (pkts s') -> adds s s' lf bg ->
  outputQ s' ++ live2 s' ++ inhand s' ++ live1 s' ≡ₚ outputQ s ++ live2 s ++ inhand s ++ live1 s ->
  (forall p, p ∈ Q1 s' -> p ∈ Q1 s) ->
  (lf ++ live1 s') `sublist_of` live1 s ->
  Forall (fun p => is_Some (pkts s !! p)) lf ->
  (pcG s' = GWait -> left_ids (log s') = begun_ids (log s') ++ Q2 s' ++ inhand s') ->
  begun_ids (log s') `prefix_of` left_ids (log s') ->
  (pcG s' = GCleared \/ pcG s' = GEnd -> Q1 s' = []) -> (pcG s' = GEnd -> Q2 s' = [] /\ inhand s' = []) ->
  match pcP s' with PWait d | PDue d => 0 < pd_tokenNeed d | _ => True end -> packets_ok s'.
Proof.
  intros [K1 K2 K3 K4 K5 K6 K7 K8 K9 K10 K11 K12] En Hp [El Eb] Hperm Hq1 Hsub Hlf Hx Hb Hg1 Hg2 Hd.
  split; [by rewrite En|by rewrite Hperm, En| | | | | |done..].
  - intros p. rewrite En, K3. by apply same_dom.
  - intros p x' Hin Hx'. destruct (proj2 Hp p x' Hx') as (x & Hx0 & <-). eapply K4; [by apply Hq1|done].
  - intros p x' Hx'. destruct (proj2 Hp p x' Hx') as (x & Hx0 & <-). by eapply K5.
  - rewrite El, <- app_assoc. eapply sorted_sublist; [|exact K6]. by apply sublist_app.
  - rewrite El, En, Forall_app. split; [done|]. eapply Forall_impl; [exact Hlf|]. intros p. apply K3.
Qed.

(** Steps that leave queues and packets alone. *)
Lemma packets_same s s' : packets_ok s -> nextId s' = nextId s -> same_pkts (pkts s) (pkts s') -> adds s s' [] [] ->
  outputQ s' = outputQ s -> Q1 s' = Q1 s -> Q2 s' = Q2 s -> inhand s' = inhand s -> pcG s' = pcG s ->
  match pcP s' with PWait d | PDue d => 0 < pd_tokenNeed d | _ => True end -> packets_ok s'.
Proof.
  intros K En Hp Ha Eo E1 E2 Eh Eg Hd. assert (live1 s' = live1 s) as L1 by (unfold live1; by rewrite Eg, E1).
  assert (live2 s' = live2 s) as L2 by (unfold live2; by rewrite Eg, E2). pose proof Ha as [El Eb]. rewrite app_nil_r in El, Eb.
  eapply (packets_move s s' [] []); [done..| | | |done| | | | |done].
  - by rewrite Eo, L1, L2, Eh.
  - by rewrite E1.
  - by rewrite L1.
  - rewrite Eg, El, Eb, E2, Eh. apply K.
  - rewrite El, Eb. apply K.
  - rewrite Eg, E1. apply K.
  - rewrite Eg, E2, Eh. apply K.
Qed.

(** A packet leaves Q1. *)
Lemma packets_leave s s' p r x : packets_ok s -> holds_sig s = false -> inhand s = [] -> Q1 s = p :: r -> pkts s !! p = Some x ->
  nextId s' = nextId s -> same_pkts (pkts s) (pkts s') -> adds s s' [p] [] ->
  outputQ s' = outputQ s -> Q1 s' = r -> Q2 s' = Q2 s -> inhand s' = [p] -> pcG s' = pcG s ->
  match pcP s' with PWait d | PDue d => 0 < pd_tokenNeed d | _ => True end -> packets_ok s'.
Proof.
  intros K Hg Hh Hq Hx En Hp Ha Eo E1 E2 Eh Eg Hd. destruct (quiet_sig s Hg) as [L1 L2].
  destruct (quiet_sig s') as [L1' L2']; [unfold holds_sig in *; by rewrite Eg|]. pose proof Ha as [El Eb]. rewrite app_nil_r in Eb.
  assert (pcG s = GWait) as Hw.
  { destruct (pcG s) eqn:Eg0; [done|..]; unfold holds_sig in Hg; rewrite Eg0 in Hg; try done. rewrite (pk_q1 _ K) in Hq by auto. done. }
  pose proof (pk_exact _ K Hw) as Hx2. rewrite Hh, app_nil_r in Hx2.
  eapply (packets_move s s' [p] []); [done..| | | | | | | | |done].
  - rewrite Eo, L1', L2', L1, L2, E1, E2, Eh, Hh, Hq. done.
  - rewrite E1, Hq. intros q. by right.
  - by rewrite L1', L1, E1, Hq.
  - by constructor.
  - intros _. by rewrite El, Eb, E2, Eh, Hx2, app_assoc.
  - rewrite El, Eb, Hx2, <- app_assoc. by apply prefix_app_r.
  - rewrite Eg, Hw. naive_solver.
  - by rewrite Eg, Hw.
Qed.

(** The packet that has left Q1 enters Q2. *)
Lemma packets_enter s s' p : packets_ok s -> holds_sig s = false -> inhand s = [p] ->
  nextId s' = nextId s -> same_pkts (pkts s) (pkts s') -> adds s s' [] [] ->
  outputQ s' = outputQ s -> Q1 s' = Q1 s -> Q2 s' = Q2 s ++ [p] -> inhand s' = [] -> pcG s' = pcG s ->
  match pcP s' with PWait d | PDue d => 0 < pd_tokenNeed d | _ => True end -> packets_ok s'.
Proof.
  intros K Hg Hh En Hp Ha Eo E1 E2 Eh Eg Hd. destruct (quiet_sig s Hg) as [L1 L2].
  destruct (quiet_sig s') as [L1' L2']; [unfold holds_sig in *; by rewrite Eg|]. pose proof Ha as [El Eb]. rewrite app_nil_r in El, Eb.
  assert (pcG s = GWait) as Hw.
  { destruct (pcG s) eqn:Eg0; [done|..]; unfold holds_sig in Hg; rewrite Eg0 in Hg; try done. destruct (pk_q2 _ K Eg0) as [_ H]. congruence. }
  eapply (packets_move s s' [] []); [done..| | | |done| | | | |done].
  - rewrite Eo, L1', L2', L1, L2, E1, E2, Eh, Hh, <- app_assoc. done.
  - by rewrite E1.
  - by rewrite L1', L1, E1.
  - intros _. rewrite El, Eb, E2, Eh, app_nil_r, (pk_exact _ K Hw), Hh. done.
  - rewrite El, Eb. apply K.
  - rewrite Eg, Hw. naive_solver.
  - by rewrite Eg, Hw.
Qed.

(** A new packet: dropped, or at the end of Q1. *)
Lemma packets_new s s' x : packets_ok s -> counts_ok s -> holds_sig s = false -> due s = 1 -> pkts s' = <[nextId s + 1 := x]> (pkts s) -> 0 < tokenNeed x ->
  nextId s' = nextId s + 1 -> adds s s' [] [] -> Q2 s' = Q2 s -> inhand s' = inhand s -> pcG s' = pcG s ->
  (outputQ s' = outputQ s ++ [nextId s + 1] /\ Q1 s' = Q1 s \/ outputQ s' = outputQ s /\ Q1 s' = Q1 s ++ [nextId s + 1] /\ tokenNeed x <= cB c) ->
  match pcP s' with PWait d | PDue d => 0 < pd_tokenNeed d | _ => True end -> packets_ok s'.
Proof.
  intros K C Hg Hdue Hp Hpos En [El Eb] E2 Eh Eg Hq Hd. rewrite app_nil_r in El, Eb. destruct (quiet_sig s Hg) as [L1 L2].
  destruct (quiet_sig s') as [L1' L2']; [unfold holds_sig in *; by rewrite Eg|].
  assert (pcG s = GWait) as Hw by (destruct (decide (pcG s = GWait)) as [|Hn]; [done|]; destruct (ct_sig _ C Hn); lia).
  pose proof K as [K1 K2 K3 K4 K5 K6 K7 K8 K9 K10 K11 K12]. rewrite L1, L2 in K2. rewrite L1 in K6. split.
  - lia.
  - rewrite L1', L2', En, E2, Eh. assert (seqZ 1 (nextId s + 1) = seqZ 1 (nextId s) ++ [nextId s + 1]) as ->.
    { rewrite Z.add_1_r, <- (Z.add_1_r (nextId s)). rewrite seqZ_app by lia. f_equal. rewrite (Z.add_comm 1). done. }
    rewrite <- K2. destruct Hq as [(-> & ->)|(-> & -> & _)]; rewrite <- ?app_assoc; [|done]. apply Permutation_app_head. by rewrite (Permutation_app_comm [_]), <- !app_assoc.
  - intros p. rewrite Hp, En. destruct (decide (p = nextId s + 1)) as [->|Hne].
    + rewrite lookup_insert_eq. split; [eauto|lia].
    + rewrite lookup_insert_ne, <- K3 by done. lia.
  - intros p y Hin. rewrite Hp. intros [[<- <-]|[Hne Hy]]%lookup_insert_Some.
    + destruct Hq as [(_ & E1)|(_ & _ & ?)]; [|done]. exfalso. rewrite E1 in Hin.
      assert (nextId s + 1 ∈ seqZ 1 (nextId s)) as [? ?]%elem_of_seqZ by (rewrite <- K2; set_solver). lia.
    + eapply K4; [|done]. destruct Hq as [(_ & E1)|(_ & E1 & _)]; rewrite E1 in Hin; [done|]. apply elem_of_app in Hin as [|?%list_elem_of_singleton]; [done|congruence].
  - intros p y. rewrite Hp. intros [[<- <-]|[_ Hy]]%lookup_insert_Some; [done|by eapply K5].
  - rewrite El, L1'. destruct Hq as [(_ & ->)|(_ & -> & _)]; [done|]. rewrite app_assoc, StronglySorted_app. split_and!; [|done|repeat constructor].
    intros a b [Ha|Ha]%elem_of_app ->%list_elem_of_singleton.
    + rewrite Forall_forall in K7. specialize (K7 a Ha). lia.
    + assert (a ∈ seqZ 1 (nextId s)) as [? ?]%elem_of_seqZ by (rewrite <- K2; set_solver). lia.
  - rewrite El, En. eapply Forall_impl; [exact K7|]. intros; cbn in *; lia.
  - intros _. rewrite El, Eb, E2, Eh. auto.
  - by rewrite El, Eb.
  - rewrite Eg, Hw. naive_solver.
  - by rewrite Eg, Hw.
  - done.
Qed.

(** A server takes the head of Q2. *)
Lemma packets_serve s s' p r : packets_ok s -> holds_sig s = false -> Q2 s = p :: r ->
  nextId s' = nextId s -> same_pkts (pkts s) (pkts s') -> adds s s' [] [p] ->
  outputQ s' = outputQ s ++ [p] -> Q1 s' = Q1 s -> Q2 s' = r -> inhand s' = inhand s -> pcG s' = pcG s -> pcP s' = pcP s -> packets_ok s'.
Proof.
  intros K Hg Hq En Hp Ha Eo E1 E2 Eh Eg Ep. destruct (quiet_sig s Hg) as [L1 L2].
  destruct (quiet_sig s') as [L1' L2']; [unfold holds_sig in *; by rewrite Eg|]. pose proof Ha as [El Eb]. rewrite app_nil_r in El.
  assert (pcG s = GWait) as Hw.
  { destruct (pcG s) eqn:Eg0; [done|..]; unfold holds_sig in Hg; rewrite Eg0 in Hg; try done. destruct (pk_q2 _ K Eg0) as [H _]. congruence. }
  assert (left_ids (log s') = begun_ids (log s') ++ r ++ inhand s) as Hx by (rewrite El, Eb, (pk_exact _ K Hw), Hq, <- app_assoc; done).
  eapply (packets_move s s' [] [p]); [done..| | | |done| | | | |rewrite Ep; apply K].
  - rewrite Eo, L1', L2', L1, L2, E1, E2, Eh, Hq, <- app_assoc. done.
  - by rewrite E1.
  - by rewrite L1', L1, E1.
  - intros _. by rewrite Hx, E2, Eh.
  - rewrite Hx. by apply prefix_app_r.
  - rewrite Eg, Hw. naive_solver.
  - by rewrite Eg, Hw.
Qed.

(** SIGINT: the queues are emptied into [outputQ]. *)
Lemma packets_signal s s' : packets_ok s -> inhand s = [] -> nextId s' = nextId s -> same_pkts (pkts s) (pkts s') -> adds s s' [] [] ->
  inhand s' = [] -> pcP s' = pcP s ->
  (pcG s = GWait /\ pcG s' = GMarked /\ outputQ s' = outputQ s ++ Q1 s ++ Q2 s /\ Q1 s' = Q1 s \/
   pcG s = GMarked /\ pcG s' = GCleared /\ outputQ s' = outputQ s /\ Q1 s' = [] \/
   pcG s = GCleared /\ pcG s' = GEnd /\ outputQ s' = outputQ s /\ Q1 s' = Q1 s /\ Q2 s' = []) -> packets_ok s'.
Proof.
  intros K Hh En Hp Ha Eh Ep Hc. pose proof Ha as [El Eb]. rewrite app_nil_r in El, Eb.
  eapply (packets_move s s' [] []); [done..| | | |done| | | | |rewrite Ep; apply K]; unfold live1, live2; rewrite ?Hh, ?Eh;
    destruct Hc as [(G1 & G2 & Eo & E1)|[(G1 & G2 & Eo & E1)|(G1 & G2 & Eo & E1 & E2)]]; rewrite ?G1, ?G2, ?Eo, ?E1, ?E2; try done; try set_solver.
  - rewrite !app_nil_r. apply Permutation_app_head. cbn. apply Permutation_app_comm.
  - apply sublist_nil_l.
  - rewrite El, Eb. apply K.
  - rewrite El, Eb. apply K.
  - rewrite El, Eb. apply K.
  - intros _. apply K. auto.
Qed.

Lemma packets_step t1 t2 s s' : config_ok -> lock_ok s -> counts_ok s -> packets_ok s -> tr c t1 t2 s s' -> packets_ok s'.
Proof.
  intros CF L C K E. destruct (lock_excl s L) as (XP & XT & XG & XN). pose proof (pk_data _ K) as Hdata.
  destruct (new_token_quiet s) as (id & cur & drp & e & En & _ & Hle & Hbe).
  assert (forall p, pcP s = PMoved p -> inhand s = [p]) as HP by (intros p Hp; unfold inhand; by rewrite Hp).
  assert (forall p, pcT s = TMoved p -> holds_packet s = false -> inhand s = [p]) as HT.
  { intros p Hp Hn. unfold inhand, holds_packet in *. rewrite Hp. by destruct (pcP s). }
  assert (forall d, pcP s = PDue d -> holds_packet s = true /\ due s = 1) as HD by (intros d Hp; unfold holds_packet, due; by rewrite Hp).
  assert (lock s = None -> inhand s = []) as HN by (intros (? & ? & _)%XN; by apply quiet_hand).
  destruct E; try (apply (packets_same s); [done|done|apply same_pkts_refl|by apply adds_none|done..| |done|]; [unfold inhand; cbn; by use_pcs s|cbn; use_pcs s; try done; by apply CF]).
  - destruct (HD d H) as [Hh Hd]. rewrite H in Hdata. eapply (packets_new s _ (with_type 2 x)); [done|done|by apply XP|done|done|by subst x|done|by eapply adds_some|done| |done|by left|done].
    unfold inhand. cbn. by use_pcs s.
  - destruct (HD d H) as [Hh Hd]. rewrite H in Hdata. eapply (packets_new s _ (with_enterQ1 t2 x)); [done|done|by apply XP|done|done|by subst x|done|by eapply adds_some|done| |done|by right|done].
    unfold inhand. cbn. by use_pcs s.
  - apply leave_q1_some in H0 as (r & x & H1 & H2 & _ & ->). assert (holds_packet s = true) as Hh by (unfold holds_packet; by rewrite H).
    eapply (packets_leave s _ p r x); [done|by apply XP| |done|done|done|by eapply same_pkts_update|by eapply adds_some|done..].
    destruct (XP Hh) as [Ht _]. unfold inhand, holds_token in *. rewrite H. by destruct (pcT s).
  - apply enter_q2_some in H0 as (x & H2 & ->). assert (holds_packet s = true) as Hh by (unfold holds_packet; by rewrite H). destruct (XP Hh) as [Ht Hg].
    eapply (packets_enter s _ p); [done|done|by apply HP|done|by eapply same_pkts_update|by eapply adds_some|done..| |done|done].
    unfold inhand, holds_token in *. cbn. by destruct (pcT s).
  - rewrite En in H1. apply leave_q1_some in H1 as (r & x & H1 & H2 & _ & ->). cbn in H1, H2. destruct (XN H0) as (Hp & Ht & Hg).
    eapply (packets_leave s _ p r x); [done|done|by apply HN|done|done|done|by eapply same_pkts_update| |done..| |done|exact Hdata].
    + eapply (adds_some _ _ ([e] ++ [_])); [by rewrite app_assoc|rewrite left_ids_app, Hle; done|rewrite begun_ids_app, Hbe; done].
    + unfold inhand, holds_packet in *. cbn. by destruct (pcP s).
  - rewrite En in *. apply (packets_same s); [done|done|apply same_pkts_refl|by apply (adds_some _ _ [e])|done..| |done|exact Hdata].
    unfold inhand. cbn. by use_pcs s.
  - apply enter_q2_some in H0 as (x & H2 & ->). assert (holds_token s = true) as Hh by (unfold holds_token; by rewrite H). destruct (XT Hh) as [Hp Hg].
    eapply (packets_enter s _ p); [done|done|by apply HT|done|by eapply same_pkts_update|by eapply adds_some|done..| |done|exact Hdata].
    unfold inhand, holds_packet in *. cbn. by destruct (pcP s).
  - destruct (XN H0) as (Hp & Ht & Hg). eapply (packets_serve s _ p r); [done|done|done|done|by eapply same_pkts_update|by eapply adds_some|done..].
  - apply (packets_same s); [done|done|by eapply same_pkts_update|by eapply adds_some|done..|exact Hdata].
  - apply (packets_signal s); [done|by apply HN|done|apply same_pkts_removed| |by apply HN|done|by left].
    eapply (adds_some _ _ (ESignal :: (ERemoved <$> Q1 s ++ Q2 s))); [done|apply (proj1 (removed_quiet _))|apply (proj2 (removed_quiet _))].
  - destruct XG as [Hp Ht]; [unfold holds_sig; by rewrite H|].
    apply (packets_signal s); [done|by apply quiet_hand|done|apply same_pkts_refl|by apply adds_none|by apply quiet_hand|done|by right; left].
  - destruct XG as [Hp Ht]; [unfold holds_sig; by rewrite H|].
    apply (packets_signal s); [done|by apply quiet_hand|done|apply same_pkts_refl|by apply adds_none|by apply quiet_hand|done|by right; right].
Qed.

(** ** Reachable states *)
Lemma inv_step l s s' : config_ok -> Inv s -> step c l s s' -> Inv s'.
Proof.
  intros CF [I1 I2 I3 I4 I5] E. destruct E as [l t1 t2 s s' _ _ _ E]. apply exec_tr in E. split.
  - by eapply lock_step.
  - assert (packets_ok s' -> packets_ok (set_time t2 s')) as HT by (by intros []; split). by eapply HT, packets_step.
  - by eapply tokens_step.
  - by eapply counts_step.
  - by eapply waits_step.
Qed.
Lemma reachable_inv s : config_ok -> reachable c s -> Inv s.
Proof. intros CF. induction 1 as [|l s s' _ IH E]; [by apply start_inv|by eapply inv_step]. Qed.

(** A packet being served exists. *)
Definition serve_ok (s : st) : Prop := forall p, pc1 s = SServe p \/ pc2 s = SServe p -> is_Some (pkts s !! p).
Lemma wake_serve x p : wake x = SServe p -> x = SServe p.
Proof. by destruct x. Qed.
Lemma serve_step t1 t2 s s' : packets_ok s -> serve_ok s -> tr c t1 t2 s s' -> serve_ok s'.
Proof.
  intros K Hs E. pose proof (packets_keep _ _ _ _ K E) as Hk.
  assert (forall p, pc1 s = SServe p \/ pc2 s = SServe p -> is_Some (pkts s' !! p)) as Hold.
  { intros p Hp. destruct (Hs p Hp) as [x Hx]. destruct (Hk p x Hx) as (x' & Hx' & _). eauto. }
  intros q. destruct (new_token_quiet s) as (id & cur & drp & e & En & _).
  tr_cases E; try rewrite En in *; cbn in Hold |- *; intros Hq; try (by apply Hold);
    repeat match type of Hq with context [if ?b then _ else _] => destruct b end;
    destruct Hq as [Hq|Hq]; try apply wake_serve in Hq; try done; try (by apply Hold; auto).
  all: injection Hq as ->; rewrite lookup_insert_eq; eauto.
Qed.
Lemma reachable_serve s : config_ok -> reachable c s -> serve_ok s.
Proof.
  intros CF. induction 1 as [|l s s' R IH E]; [by intros p [[=]|[=]]|]. destruct E as [l t1 t2 s s' _ _ _ E]. apply exec_tr in E.
  change (serve_ok s'). by eapply serve_step; [apply (reachable_inv s CF R)|..].
Qed.

(** ** Progress *)
Definition finished (s : st) : Prop := pcP s = PEnd /\ pcT s = TEnd /\ pc1 s = SEnd /\ pc2 s = SEnd.
Lemma all_known s p : packets_ok s -> p ∈ outputQ s ++ live2 s ++ inhand s ++ live1 s -> exists x, pkts s !! p = Some x.
Proof. intros K Hp. rewrite (pk_perm _ K) in Hp. apply elem_of_seqZ in Hp. apply (pk_dom _ K). lia. Qed.
(** A thread that holds the lock can go on. *)
Lemma holder_steps s t : Inv s -> lock s <> None -> exists l s', exec c l t t s = Some s' /\ (l = LPacket \/ l = LToken \/ l = LSignal /\ pcG s <> GWait).
Proof.
  intros [L K _ _ _] Hl. pose proof L as [Lp Lt Lg Ls]. destruct (lock s) as [[]|] eqn:El; try done; cbn in Lp, Lt, Lg, Ls; try done.
  - exists LPacket. cbn [exec]. unfold packetFunc, holds_packet in *. destruct (pcP s) as [|d|d| |p|] eqn:Hp; try done.
    + cbv zeta. destruct (cB c <? _); eauto.
    + destruct (leave_q1 t s) as [[p s']|]; eauto.
    + destruct (all_known s p K) as [x Hx]; [unfold inhand; rewrite Hp; set_solver|]. unfold enter_q2. rewrite Hx. eauto.
  - exists LToken. cbn [exec]. unfold tokenFunc, holds_token, holds_packet in *. destruct (pcT s) as [| | |p|] eqn:Hp; try done.
    destruct (all_known s p K) as [x Hx]; [unfold inhand; rewrite Hp; destruct (pcP s); try done; set_solver|]. unfold enter_q2. rewrite Hx. eauto.
  - exists LSignal. cbn [exec]. unfold signalFunc, holds_sig in *. destruct (pcG s) eqn:Hg; try done; eexists; (split; [done|]); auto.
Qed.
Lemma server_steps s i t : Inv s -> serve_ok s -> lock s = None -> i = 1 \/ i = 2 -> pcS i s <> SEnd -> pcS i s <> SBlocked ->
  exists s', exec c (LServer i) t t s = Some s'.
Proof.
  intros [L K _ _ _] Hs Hl Hi H1 H2. cbn [exec]. unfold serverFunc. destruct (pcS i s) as [| | | | |p|] eqn:Hp; try done.
  - destruct (0 <? _); eauto.
  - destruct (bool_decide _); eauto.
  - destruct (bool_decide _); eauto.
  - rewrite Hl. destruct (_ && _); [eauto|]. destruct (Q2 s) as [|p r] eqn:Hq; [eauto|].
    destruct (all_known s p K) as [x Hx]; [|rewrite Hx; eauto].
    destruct (lock_excl s L) as (_ & _ & _ & HN). destruct (quiet_sig s) as [_ ->]; [by apply HN|]. rewrite Hq. set_solver.
  - destruct (Hs p) as [x Hx]; [unfold pcS in Hp; destruct (i =? 1); auto|]. rewrite Hx. eauto.
Qed.

Lemma progress s : Inv s -> serve_ok s -> ~ finished s ->
  exists l s', step c l s s' /\ (l = LSignal -> pcG s <> GWait) /\ forall i, l <> LSpurious i.
Proof.
  intros I Hs Hf. assert (forall l s', exec c l (clock s) (clock s) s = Some s' -> (forall i, l = LServer i -> i = 1 \/ i = 2) ->
    (l = LSignal -> pcG s <> GWait) -> (forall i, l <> LSpurious i) ->
    exists l s', step c l s s' /\ (l = LSignal -> pcG s <> GWait) /\ forall i, l <> LSpurious i) as HS.
  { intros l s' E Hi H1 H2. exists l, (set_time (clock s) s'). split; [|done]. apply (step_intro c l (clock s) (clock s)); [|lia|lia|done].
    intros i [->| ->]; [by apply Hi|]. by destruct (H2 i). }
  destruct (decide (lock s = None)) as [Hl|Hl].
  2:{ destruct (holder_steps s (clock s) I Hl) as (l & s' & E & Hc). eapply HS; [exact E|..]; destruct Hc as [->|[->|[-> ?]]]; done. }
  destruct (lock_excl s (inv_lock _ I)) as (_ & _ & _ & HN). destruct (HN Hl) as (Np & Nt & Ng).
  destruct (decide (pcP s = PEnd)) as [HP|HP].
  2:{ assert (exists s', exec c LPacket (clock s) (clock s) s = Some s') as [s' E].
      { cbn [exec]. unfold packetFunc, holds_packet in *. rewrite Hl. destruct (pcP s); try done; [destruct (0 <? _)|destruct (inputQSize s <=? 0)]; eauto. }
      by eapply HS. }
  destruct (decide (pcT s = TEnd)) as [HT|HT].
  2:{ assert (exists s', exec c LToken (clock s) (clock s) s = Some s') as [s' E].
      { cbn [exec]. unfold tokenFunc, holds_token in *. rewrite Hl. destruct (pcT s); try done; [destruct (0 <? _); eauto|destruct (bool_decide _); eauto|]. destruct (_ && _); [eauto|]. cbv zeta.
        destruct (leave_q1 _ _) as [[p s']|]; eauto. }
      by eapply HS. }
  assert (~ blocked s) as Hb.
  { intros Hb. destruct (wt_blk _ (inv_waits _ I) HT Hb) as [Hh|Hg]; [by rewrite quiet_hand in Hh|]. unfold holds_sig in Ng. by rewrite Hg in Ng. }
  assert (exists i, (i = 1 \/ i = 2) /\ pcS i s <> SEnd /\ pcS i s <> SBlocked) as (i & Hi & H1 & H2).
  { destruct (decide (pc1 s = SEnd)) as [E1|E1]; [exists 2|exists 1]; (split; [auto|]); unfold pcS; cbn; unfold blocked, finished in *; split; naive_solver. }
  destruct (server_steps s i (clock s) I Hs Hl Hi H1 H2) as [s' E]. eapply HS; [exact E|..]; [|done|done]. intros j [= <-]. done.
Qed.
End Invariant.

(** ** The theorems about the threads *)
(** C7: Whatever the order in which the threads run, the bucket never holds
    fewer than 0 or more than B tokens, and every token that arrived was
    dropped, is in the bucket, or was taken by a packet that left Q1. *)
Theorem token_bucket_bounds c s : config_ok c -> reachable c s ->
  0 <= curTokenSize s <= cB c /\ 0 <= tokenDropSize s /\ tokenId s = tokenDropSize s + curTokenSize s + spent s.
Proof. intros CF R. destruct (inv_tokens _ _ (reachable_inv c s CF R)). done. Qed.

(** C5: No packet is lost or duplicated while the threads run: the packets
    created so far are exactly those in [outputQ], Q2, between the queues and
    in Q1 (while SIGINT empties the queues their packets count as in
    [outputQ]), and until SIGINT the packets created and those still to come
    add up to [num]. *)
Theorem packets_conserved c s : config_ok c -> reachable c s ->
  outputQ s ++ live2 s ++ inhand s ++ live1 s ≡ₚ seqZ 1 (nextId s) /\
  (pcG s = GWait -> inputQSize s + due s + nextId s = cnum c).
Proof. intros CF R. pose proof (reachable_inv c s CF R) as [_ K _ C _]. split; [apply K|apply C]. Qed.

(** Both queues are served in the order of arrival: the packets leave Q1
    in increasing order of their ids and before those still in it, and service
    begins in the order in which they left Q1. *)
Theorem fifo_order c s : config_ok c -> reachable c s ->
  StronglySorted Z.lt (left_ids (log s) ++ live1 s) /\ begun_ids (log s) `prefix_of` left_ids (log s) /\
  StronglySorted Z.lt (begun_ids (log s)).
Proof.
  intros CF R. pose proof (reachable_inv c s CF R) as [_ K _ _ _]. split; [apply K|]. split; [apply K|].
  destruct (pk_begun _ _ K) as [k Hk]. pose proof (pk_fifo _ _ K) as Hs. rewrite Hk in Hs.
  by apply StronglySorted_app_1_l, StronglySorted_app_1_l in Hs.
Qed.

(** C6: The threads never deadlock: unless packet, token and server threads
    have all returned, one of them (or a signal handler that has already
    started) can take a step, without a new signal or a spurious wake-up.  In
    particular a server that waits on [cv] is never left waiting with nobody
    to wake it up. *)
Theorem no_deadlock c s : config_ok c -> reachable c s -> ~ finished s ->
  exists l s', step c l s s' /\ (l = LSignal -> pcG s <> GWait) /\ forall i, l <> LSpurious i.
Proof. intros CF R Hf. apply progress; [by apply reachable_inv|by eapply reachable_serve|done]. Qed.

(** When the emulation is over with both queues empty, every packet has
    been dropped, served or removed, and without SIGINT that is all [num]
    packets. *)
Theorem all_accounted c s : config_ok c -> reachable c s -> finished s -> Q1 s = [] -> Q2 s = [] ->
  outputQ s ≡ₚ seqZ 1 (nextId s) /\ (pcG s = GWait -> nextId s = cnum c).
Proof.
  intros CF R (FP & FT & _ & _) H1 H2. pose proof (reachable_inv c s CF R) as [_ K _ C _]. split.
  - rewrite <- (pk_perm _ _ K). unfold live1, live2, inhand. rewrite H1, H2, FP, FT. destruct (pcG s); by rewrite !app_nil_r.
  - intros Hg. pose proof (ct_all _ _ C Hg) as E. pose proof (ct_end _ _ C FP) as Hi. unfold due in E. rewrite FP in E. lia.
Qed.

(** ** Runs *)
Fixpoint run (c : config) (ls : list label) (s : st) : option st :=
  match ls with
  | [] => Some s
  | l :: r => match exec c l (clock s) (clock s) s with Some s' => run c r (set_time (clock s) s') | None => None end
  end.
Definition proper_label (l : label) : bool :=
  match l with LServer i | LSpurious i => (i =? 1) || (i =? 2) | _ => true end.
Lemma run_reachable c ls : forall s s', forallb proper_label ls = true -> reachable c s -> run c ls s = Some s' -> reachable c s'.
Proof.
  induction ls as [|l ls IH]; intros s s' Hl R; cbn [run].
  - by intros [= <-].
  - cbn in Hl. apply andb_true_iff in Hl as [Hl Hls]. destruct (exec c l (clock s) (clock s) s) as [s1|] eqn:E; [|done]. apply IH; [done|].
    eapply reach_step; [done|]. apply (step_intro c l (clock s) (clock s)); [|lia|lia|done].
    intros i [->| ->]; cbn in Hl; apply orb_true_iff in Hl; rewrite !Z.eqb_eq in Hl; done.
Qed.

(** One packet that needs 3 tokens. *)
Definition one_packet (need : Z) : config := mkConfig 10 1 (fun _ => mkPacketData need 1000 1000).
Lemma one_packet_ok need : 0 < need -> config_ok (one_packet need).
Proof. by split. Qed.

(** The token thread has gone and a packet waits in Q1. *)
Record starved (s : st) : Prop := {
  sv_p : pcP s = PEnd; sv_t : pcT s = TEnd; sv_g : pcG s = GWait; sv_in : inputQSize s = 0;
  sv_q1 : Q1 s = [1]; sv_q2 : Q2 s = []; sv_out : outputQ s = [];
  sv_1 : pc1 s ∈ [STest; STestQ1; SLock]; sv_2 : pc2 s ∈ [STest; STestQ1; SLock];
}.
Lemma starved_step c l s s' : l <> LSignal -> starved s -> step c l s s' -> starved s'.
Proof.
  intros Hl [E1 E2 E3 E4 E5 E6 E7 E8 E9] E. destruct E as [l t1 t2 s s' Hi _ _ E]. destruct l as [| |i| |i]; cbn [exec] in E.
  - unfold packetFunc in E. by rewrite E1 in E.
  - unfold tokenFunc in E. by rewrite E2 in E.
  - assert (exists x, x ∈ [STest; STestQ1; SLock] /\ s' = set_pcS i x s) as (x & Hx & ->).
    { assert (pcS i s ∈ [STest; STestQ1; SLock]) as Hp by (unfold pcS; by destruct (i =? 1)).
      unfold serverFunc in E. rewrite E4, E5, E6 in E. rewrite !elem_of_cons, elem_of_nil in Hp.
      destruct Hp as [Hp|[Hp|[Hp|[]]]]; rewrite Hp in E; [..|destruct (lock s); [done|]]; injection E as <-; eexists; (split; [|done]); set_solver. }
    split; cbn; auto; by destruct (i =? 1).
  - done.
  - exfalso. assert (pcS i s ∈ [STest; STestQ1; SLock]) as Hp by (unfold pcS; by destruct (i =? 1)).
    destruct (pcS i s); try done. set_solver.
Qed.

(** What a run shows of its last state. *)
Definition view (s : st) := (pcP s, pcT s, pcG s, inputQSize s, (Q1 s, Q2 s, outputQ s), (pc1 s, pc2 s)).
Lemma run_view c ls v : forallb proper_label ls = true -> view <$> run c ls (start_st c) = Some v -> exists s, reachable c s /\ view s = v.
Proof.
  intros Hl. destruct (run c ls (start_st c)) as [s|] eqn:E; cbn; [|done]. intros [= <-]. exists s. split; [|done].
  by eapply run_reachable; [exact Hl|apply reach_start|].
Qed.
Lemma starved_forever c s s' : rtc (fun a b => exists l, l <> LSignal /\ step c l a b) s s' -> starved s -> starved s'.
Proof. induction 1 as [|s s1 s2 (l & Hl & Hst) _ IH]; [done|]. intros Hs. apply IH. by eapply starved_step. Qed.

(** The outer tests of the loops are made without the lock, and a packet
    being created is counted neither in [inputQSize] nor in Q1: if the token
    thread makes its test at that moment it ends, and the last packet then
    stays in Q1 for good.  Short of SIGINT the emulation never ends. *)
Theorem token_thread_race : exists s, reachable (one_packet 3) s /\
  forall s', rtc (fun a b => exists l, l <> LSignal /\ step (one_packet 3) l a b) s s' -> Q1 s' = [1] /\ outputQ s' = [] /\ ~ finished s'.
Proof.
  destruct (run_view (one_packet 3) [LPacket; LPacket; LToken; LToken; LPacket; LPacket; LPacket]
    (PEnd, TEnd, GWait, 0, ([1], [], []), (STest, STest))) as (s & R & V); [done|by vm_compute|]. unfold view in V.
  exists s. split; [done|]. intros s' Hr. apply starved_forever in Hr as [E1 E2 _ _ E5 _ E7 E8 _].
  2:{ injection V as V1 V2 V3 V4 V5 V6 V7 V8 V9. split; try done; rewrite ?V8, ?V9; set_solver. }
  split; [done|]. split; [done|]. intros (_ & _ & F & _). rewrite F in E8. set_solver.
Qed.

(** In the same way a packet that has left Q1 and is not in Q2 yet is seen
    by nobody: both servers may end at that moment, and the emulation ends
    with the packet in Q2, never served. *)
Theorem server_race : exists s, reachable (one_packet 1) s /\ finished s /\ Q2 s = [1] /\ outputQ s = [].
Proof.
  destruct (run_view (one_packet 1) [LPacket; LPacket; LPacket; LPacket; LPacket; LToken; LToken; LToken; LServer 1; LServer 1; LServer 1; LServer 2; LServer 2; LServer 2; LToken; LToken; LToken]
    (PEnd, TEnd, GWait, 0, ([], [1], []), (SEnd, SEnd))) as (s & R & V); [done|by vm_compute|]. unfold view in V.
  exists s. split; [done|]. unfold finished. naive_solver.
Qed.

(** ** An emulation of one packet that needs one token *)
Module Examples.
Definition labels : list label := [LPacket; LPacket; LPacket; LPacket; LPacket; LToken; LToken; LToken; LToken;
  LServer 1; LServer 1; LServer 1; LServer 1; LServer 1].
Definition last_st : st := default (start_st (one_packet 1)) (run (one_packet 1) labels (start_st (one_packet 1))).
Lemma last_reachable : reachable (one_packet 1) last_st.
Proof.
  unfold last_st. destruct (run _ _ _) as [s|] eqn:E; [|apply reach_start]. by eapply run_reachable; [|apply reach_start|exact E].
Qed.
Lemma last_view : view last_st = (PEnd, TTest, GWait, 0, ([], [], [1]), (STest, STest)).
Proof. by vm_compute. Qed.
Lemma token_bucket_bounds_witness :
  0 <= curTokenSize last_st <= 10 /\ 0 <= tokenDropSize last_st /\ tokenId last_st = tokenDropSize last_st + curTokenSize last_st + spent last_st.
Proof. apply (token_bucket_bounds (one_packet 1) last_st); [apply one_packet_ok; lia|apply last_reachable]. Defined.
Lemma packets_conserved_witness :
  outputQ last_st ++ live2 last_st ++ inhand last_st ++ live1 last_st ≡ₚ seqZ 1 (nextId last_st) /\
  (pcG last_st = GWait -> inputQSize last_st + due last_st + nextId last_st = 1).
Proof. apply (packets_conserved (one_packet 1) last_st); [apply one_packet_ok; lia|apply last_reachable]. Defined.
Lemma fifo_order_witness :
  StronglySorted Z.lt (left_ids (log last_st) ++ live1 last_st) /\ begun_ids (log last_st) `prefix_of` left_ids (log last_st) /\
  StronglySorted Z.lt (begun_ids (log last_st)).
Proof. apply (fifo_order (one_packet 1) last_st); [apply one_packet_ok; lia|apply last_reachable]. Defined.
Lemma no_deadlock_witness :
  exists l s', step (one_packet 1) l last_st s' /\ (l = LSignal -> pcG last_st <> GWait) /\ forall i, l <> LSpurious i.
Proof.
  apply (no_deadlock (one_packet 1) last_st); [apply one_packet_ok; lia|apply last_reachable|].
  pose proof last_view as V. unfold view in V. intros (_ & E & _). congruence.
Defined.
(** The end of the emulation. *)
Definition end_st : st := default (start_st (one_packet 1)) (run (one_packet 1) (labels ++ [LToken; LToken; LServer 1; LServer 1; LServer 1; LServer 2; LServer 2; LServer 2]) (start_st (one_packet 1))).
Lemma end_reachable : reachable (one_packet 1) end_st.
Proof.
  unfold end_st. destruct (run _ _ _) as [s|] eqn:E; [|apply reach_start]. by eapply run_reachable; [|apply reach_start|exact E].
Qed.
Lemma end_view : view end_st = (PEnd, TEnd, GWait, 0, ([], [], [1]), (SEnd, SEnd)).
Proof. by vm_compute. Qed.
Lemma all_accounted_witness : outputQ end_st ≡ₚ seqZ 1 (nextId end_st) /\ (pcG end_st = GWait -> nextId end_st = 1).
Proof.
  pose proof end_view as V. unfold view in V.
  apply (all_accounted (one_packet 1) end_st); [apply one_packet_ok; lia|apply end_reachable|unfold finished; split_and!; congruence|congruence|congruence].
Defined.
End Examples.
