(* ===== verification/Warmup2Input.v ===== *)
(** * Warmup2/warmup2.c: options, trace file and time stamps

    The command line and the lines of a trace file are checked before the
    emulation starts; what they let pass are the parameters that the theorems
    of Warmup2.v ask for.  [fopen] is a parameter; the library functions on
    strings are those of Warmup1.v.  The rates [lambda], [mu] and [r] and the
    statistics are double-precision arithmetic and not modelled; where a
    double only holds whole numbers it is a rounded integer ([dbl]). *)
From stdpp Require Import base gmap list fin_maps sorting strings.
From Stdlib Require Import ZArith Lia Ascii.
From S2P Require Import Prelude My402List Warmup1 Warmup2.
Open Scope Z_scope.

Definition obind {A B} (m : outcome A) (k : A -> outcome B) : outcome B :=
  match m with Ok a => k a | Err f => Err f end.
Declare Scope outcome_scope.
Notation "'do' x <- m ; k" := (obind m (fun x => k)) (at level 200, x pattern, m at level 100, k at level 200) : outcome_scope.
Open Scope outcome_scope.

(** ** Numbers *)
Definition LLONG_MAX : Z := 9223372036854775807.
(** [atoll] of a number that does not fit is undefined. *)
Definition atoll_checked (s : text) : outcome Z :=
  let v := atoll s in if (- LLONG_MAX - 1 <=? v) && (v <=? LLONG_MAX) then Ok v else Err FUndef.
(** A whole number as a double: 53 significant bits, ties to even. *)
Definition dbl (z : Z) : Z :=
  let a := Z.abs z in
  if a <? 2 ^ 53 then z
  else
    let e := Z.log2 a - 52 in
    let q := a / 2 ^ e in
    let r := a mod 2 ^ e in
    let h := 2 ^ (e - 1) in
    Z.sgn z * ((if r <? h then q else if h <? r then q + 1 else q + q mod 2) * 2 ^ e).
(** Conversion of a double to [long long]. *)
Definition to_ll (z : Z) : outcome Z := if (- LLONG_MAX - 1 <=? z) && (z <=? LLONG_MAX) then Ok z else Err FUndef.

(** ** Options *)
Definition isValidOption (option : text) : bool :=
  bool_decide (option = str "-lambda") || bool_decide (option = str "-mu") || bool_decide (option = str "-r") ||
  bool_decide (option = str "-B") || bool_decide (option = str "-P") || bool_decide (option = str "-n") ||
  bool_decide (option = str "-t").
Definition isInteger (optionValue : text) : bool := forallb is_digit optionValue.
(** The loop of [isNumber]: the number of dots, or [None] at a character that
    is neither a dot nor a digit. *)
Fixpoint count_dots (s : text) (dotCount : Z) : option Z :=
  match s with
  | [] => Some dotCount
  | c :: r =>
      if char_eqb c "." then count_dots r (dotCount + 1)
      else if negb (is_digit c) then None else count_dots r dotCount
  end.
(** For an empty string the test of the last character reads before it. *)
Definition isNumber (optionValue : text) : outcome bool :=
  match count_dots optionValue 0 with
  | None => Ok false
  | Some dotCount =>
      if 1 <? dotCount then Ok false
      else match last optionValue with
           | None => Err FUndef
           | Some c => Ok (negb (char_eqb c "."))
           end
  end.

(** The indices of the options in [argv], -1 for those not given, and the
    contents of the trace file. *)
Record options := mkOptions {
  numIndex : Z; lambdaIndex : Z; muIndex : Z; rIndex : Z; BIndex : Z; PIndex : Z; tsfileIndex : Z;
  fileInput : option text
}.
Definition no_options : options := mkOptions (-1) (-1) (-1) (-1) (-1) (-1) (-1) None.

Section Input.
Variable fopen : text -> option text.

Definition check_integer (a : Z) (opt v : text) (o : options) : outcome options :=
  if negb (isInteger v) then die
  else
    do val <- atoll_checked v;
    if (val <=? 0) || (INT_MAX <? val) then die
    else
      Ok (mkOptions (if decide (opt = str "-n") then a else numIndex o) (lambdaIndex o) (muIndex o) (rIndex o)
            (if decide (opt = str "-B") then a else BIndex o) (if decide (opt = str "-P") then a else PIndex o) (tsfileIndex o) (fileInput o)).
Definition check_number (a : Z) (opt v : text) (o : options) : outcome options :=
  do b <- isNumber v;
  if negb b then die
  else
    Ok (mkOptions (numIndex o) (if decide (opt = str "-lambda") then a else lambdaIndex o) (if decide (opt = str "-mu") then a else muIndex o)
          (if decide (opt = str "-r") then a else rIndex o) (BIndex o) (PIndex o) (tsfileIndex o) (fileInput o)).
Definition check_tsfile (a : Z) (v : text) (o : options) : outcome options :=
  match fopen v with
  | None => die
  | Some content => Ok (mkOptions (numIndex o) (lambdaIndex o) (muIndex o) (rIndex o) (BIndex o) (PIndex o) a (Some content))
  end.
(** One turn of the loop, for the option at index [a] and its value. *)
Definition check_option (a : Z) (opt v : text) (o : options) : outcome options :=
  do o <- (if bool_decide (opt = str "-B") || bool_decide (opt = str "-P") || bool_decide (opt = str "-n") then check_integer a opt v o else Ok o);
  do o <- (if bool_decide (opt = str "-lambda") || bool_decide (opt = str "-mu") || bool_decide (opt = str "-r") then check_number a opt v o else Ok o);
  if bool_decide (opt = str "-t") then check_tsfile a v o else Ok o.
(** [args] are the arguments from index [a] on. *)
Fixpoint check_args (a : Z) (args : list text) (o : options) : outcome options :=
  match args with
  | [] => Ok o
  | opt :: r =>
      if negb (isValidOption opt) then die
      else
        match r with
        | [] => die
        | v :: r =>
            if isValidOption v then die
            else do o <- check_option a opt v o; check_args (a + 2) r o
        end
  end.
Definition checkInput (argv : list text) : outcome options := check_args 1 (drop 1 argv) no_options.

(** ** The trace file *)
Definition blank (c : ascii) : bool := char_eqb c " " || char_eqb c TAB.
(** [fileLine[strSize - 2]] lies before the line when it has one character. *)
Definition checkFileLine (fileLine : text) : outcome unit :=
  if 1024 <? Z.of_nat (length fileLine) then die
  else if from_option blank false (head fileLine) then die
  else
    match fileLine !! (length fileLine - 2)%nat with
    | Some c => if (length fileLine <? 2)%nat then Err FUndef else if blank c then die else Ok tt
    | None => Err FUndef
    end.
Definition checkField (fieldStr : text) : outcome unit :=
  if negb (isInteger fieldStr) then die
  else do fieldNum <- atoll_checked fieldStr; if fieldNum <=? 0 then die else Ok tt.

Definition word (s : text) : text * text := match scan_word s with Some (w, r) => (w, r) | None => ([], []) end.
(** The number of packets, and the rest of the file. *)
Definition readTsFileConfig (input : text) : outcome (Z * text) :=
  match fgets input with
  | None => die
  | Some (fileLine, rest) =>
      do _ <- checkFileLine fileLine;
      let packetSizeStr := fst (word fileLine) in
      do _ <- checkField packetSizeStr;
      do num <- atoll_checked packetSizeStr;
      Ok (num, rest)
  end.
(** [atoll(s) * msToUs] stored in a [long long]. *)
Definition ms_field (s : text) : outcome Z := do v <- atoll_checked s; to_ll (dbl (dbl v * 1000)).
(** At the end of the file the packet keeps the values it was created with. *)
Definition readTsFileData (d : PacketData) (input : text) : outcome (PacketData * text) :=
  match fgets input with
  | None => Ok (d, input)
  | Some (fileLine, rest) =>
      do _ <- checkFileLine fileLine;
      let '(interPacketTimeStr, r1) := word fileLine in
      let '(tokenNeedStr, r2) := word r1 in
      let '(packetServiceTimeStr, _) := word r2 in
      do _ <- checkField interPacketTimeStr;
      do _ <- checkField tokenNeedStr;
      do _ <- checkField packetServiceTimeStr;
      do inter <- ms_field interPacketTimeStr;
      do need <- atoll_checked tokenNeedStr;
      do serv <- ms_field packetServiceTimeStr;
      Ok (mkPacketData need inter serv, rest)
  end.

(** [readInput] for the integer options: the value behind the option, or the
    default of [setDefault]. *)
Definition argv_value (argv : list text) (i default : Z) : outcome Z :=
  if 0 <=? i then match argv !! Z.to_nat (i + 1) with Some v => atoll_checked v | None => Err FUndef end else Ok default.
Record parameters := mkParameters { par_B : Z; par_P : Z; par_num : Z; par_rest : option text }.
Definition readInput (argv : list text) (o : options) : outcome parameters :=
  do B <- argv_value argv (BIndex o) 10;
  do P <- argv_value argv (PIndex o) 3;
  do num <- argv_value argv (numIndex o) 20;
  if 0 <=? tsfileIndex o then
    match fileInput o with
    | None => Err FUndef
    | Some input => do (num, rest) <- readTsFileConfig input; Ok (mkParameters B P num (Some rest))
    end
  else Ok (mkParameters B P num None).

(** The data of the [k]-th packet: [createPacketData], then a line of the
    trace file if there is one.  [inter] and [serv] are [allInterPacketTime]
    and [allPacketServiceTime]. *)
Definition createPacketData (p : parameters) (inter serv : Z) : PacketData := mkPacketData (par_P p) inter serv.
Fixpoint packet_data (p : parameters) (inter serv : Z) (input : text) (k : nat) : outcome (PacketData * text) :=
  let d := createPacketData p inter serv in
  match k with
  | O => match par_rest p with Some _ => readTsFileData d input | None => Ok (d, input) end
  | S k =>
      do (_, input) <- packet_data p inter serv input k;
      match par_rest p with Some _ => readTsFileData d input | None => Ok (d, input) end
  end.
End Input.

(** ** Time stamps *)
Record timeval := mkTimeval { tv_sec : Z; tv_usec : Z }.
Definition calTimeDiff (start stop : timeval) : outcome Z :=
  to_ll (dbl (dbl (dbl (tv_sec stop - tv_sec start) * 1000000) + dbl (tv_usec stop - tv_usec start))).

(** [sprintf("%012.3f")] of a whole number of thousandths: sign, digits padded
    with zeros, a dot, three digits.  The buffer has 13 bytes. *)
Definition getTimeStampStr (timestamp : Z) : outcome text :=
  if 100000000000 <=? timestamp then Ok (str "????????.???")
  else if timestamp <=? -10000000000 then Err FUndef
  else
    let m := Z.abs timestamp in
    Ok ((if timestamp <? 0 then "-"%char else digit m 10) ::
      (digit m <$> [9; 8; 7; 6; 5; 4; 3]) ++ "."%char :: (digit m <$> [2; 1; 0])).

(** ** What the checks guarantee *)
Lemma obind_ok {A B} (m : outcome A) (k : A -> outcome B) b : obind m k = Ok b -> exists a, m = Ok a /\ k a = Ok b.
Proof. destruct m; cbn; [eauto|done]. Qed.
(** The value of an integer option. *)
Definition int_value (argv : list text) (i : Z) : Prop :=
  0 <= i -> exists v val, argv !! Z.to_nat (i + 1) = Some v /\ atoll_checked v = Ok val /\ 0 < val <= INT_MAX.
Definition int_options (argv : list text) (o : options) : Prop :=
  int_value argv (BIndex o) /\ int_value argv (PIndex o) /\ int_value argv (numIndex o).

Lemma check_integer_ok argv a opt v o o' : check_integer a opt v o = Ok o' -> argv !! Z.to_nat (a + 1) = Some v ->
  int_options argv o -> int_options argv o'.
Proof.
  unfold check_integer. destruct (isInteger v); cbn [negb]; [|done]. intros (val & Ev & E)%obind_ok Hv (HB & HP & Hn).
  destruct ((val <=? 0) || (INT_MAX <? val)) eqn:Eb; [done|]. apply orb_false_iff in Eb as [H1%Z.leb_gt H2%Z.ltb_ge].
  assert (int_value argv a) as Ha by (intros _; exists v, val; split_and!; done).
  injection E as <-. split_and!; cbn; by case_decide.
Qed.
Lemma check_number_ok argv a opt v o o' : check_number a opt v o = Ok o' -> int_options argv o -> int_options argv o'.
Proof. unfold check_number. intros (b & _ & E)%obind_ok. destruct b; [|done]. by injection E as <-. Qed.
Lemma check_option_ok fopen argv a opt v o o' : check_option fopen a opt v o = Ok o' -> argv !! Z.to_nat (a + 1) = Some v ->
  int_options argv o -> int_options argv o'.
Proof.
  unfold check_option. intros (o1 & E1 & (o2 & E2 & E3)%obind_ok)%obind_ok Hv Hi.
  assert (int_options argv o1) as H1 by (destruct (_ || _ || _); [by eapply check_integer_ok|by injection E1 as <-]). clear E1.
  assert (int_options argv o2) as H2 by (destruct (_ || _ || _); [by eapply check_number_ok|by injection E2 as <-]). clear E2.
  destruct (bool_decide _); [|by injection E3 as <-]. unfold check_tsfile in E3. destruct (fopen v); [|done]. by injection E3 as <-.
Qed.
Lemma check_args_ok fopen argv n : forall a args o o', (length args <= n)%nat -> 0 <= a -> args = drop (Z.to_nat a) argv ->
  check_args fopen a args o = Ok o' -> int_options argv o -> int_options argv o'.
Proof.
  induction n as [|n IH]; intros a args o o' Hlen Ha Hd E Hi.
  { destruct args; [|cbn in Hlen; lia]. cbn in E. by injection E as <-. }
  destruct args as [|opt args]; [cbn in E; by injection E as <-|]. cbn [check_args] in E. destruct (isValidOption opt); [|done]. cbn [negb] in E.
  destruct args as [|v args]; [done|]. destruct (isValidOption v); [done|]. apply obind_ok in E as (o1 & E1 & E).
  assert (argv !! Z.to_nat (a + 1) = Some v) as Hv.
  { replace (Z.to_nat (a + 1)) with (Z.to_nat a + 1)%nat by lia. rewrite <- lookup_drop, <- Hd. done. }
  eapply (IH (a + 2) args o1 o'); [cbn in Hlen; lia|lia| |done|by eapply check_option_ok].
  replace (Z.to_nat (a + 2)) with (Z.to_nat a + 2)%nat by lia. rewrite <- drop_drop, <- Hd. done.
Qed.
Lemma argv_value_ok argv i def val : int_value argv i -> 0 < def -> argv_value argv i def = Ok val -> 0 < val.
Proof.
  unfold argv_value. intros Hi Hd. destruct (Z.leb_spec 0 i); [|by intros [= <-]].
  destruct (Hi ltac:(lia)) as (v & w & -> & -> & Hw & _). by intros [= <-].
Qed.
Lemma checkField_ok s val : checkField s = Ok tt -> atoll_checked s = Ok val -> 0 < val.
Proof.
  unfold checkField. destruct (isInteger s); cbn [negb]; [|done]. intros (w & -> & E)%obind_ok [= <-]. destruct (Z.leb_spec w 0); [done|lia].
Qed.
Lemma readTsFileConfig_ok input num rest : readTsFileConfig input = Ok (num, rest) -> 0 < num.
Proof.
  unfold readTsFileConfig. destruct (fgets input) as [[line r]|]; [|done].
  intros ([] & _ & ([] & Hf & (w & Hw & [= <- _])%obind_ok)%obind_ok)%obind_ok. by eapply checkField_ok.
Qed.
Lemma readTsFileData_ok d input d' rest : 0 < pd_tokenNeed d -> readTsFileData d input = Ok (d', rest) -> 0 < pd_tokenNeed d'.
Proof.
  intros Hd. unfold readTsFileData. destruct (fgets input) as [[line r]|]; [|by intros [= <- _]].
  destruct (word line) as [w1 r1]. destruct (word r1) as [w2 r2]. destruct (word r2) as [w3 r3].
  intros ([] & _ & ([] & _ & ([] & Hf & ([] & _ & (i & _ & (need & Hn & (sv & _ & [= <- _])%obind_ok)%obind_ok)%obind_ok)%obind_ok)%obind_ok)%obind_ok)%obind_ok.
  by eapply checkField_ok.
Qed.
Lemma packet_data_ok p inter serv input k d rest : 0 < par_P p -> packet_data p inter serv input k = Ok (d, rest) -> 0 < pd_tokenNeed d.
Proof.
  intros HP. destruct k as [|k]; cbn [packet_data].
  - destruct (par_rest p); [by apply readTsFileData_ok|by intros [= <- _]].
  - intros ([d0 i0] & _ & E)%obind_ok. destruct (par_rest p); [by eapply readTsFileData_ok; [|exact E]|by injection E as <- _].
Qed.

(** The parameters with which the threads start are sound: if [checkInput]
    and [readInput] accept the command line and the first line of the trace
    file, and [readTsFileData] the lines read for the packets, then B, the
    number of packets and what every packet needs are positive, which is what
    the theorems about the threads ask for. *)
Theorem input_config_ok fopen argv o p inter serv c :
  checkInput fopen argv = Ok o -> readInput argv o = Ok p ->
  cB c = par_B p -> cnum c = par_num p ->
  (forall k, exists rest, packet_data p inter serv (default [] (par_rest p)) k = Ok (cdata c k, rest)) -> config_ok c.
Proof.
  intros Ho Hp EB En Hd.
  assert (int_options argv o) as (HB & HP & HN).
  { eapply (check_args_ok fopen argv (length (drop 1 argv)) 1); [done|lia|done|exact Ho|]. split_and!; intros H; cbn in H; lia. }
  unfold readInput in Hp. apply obind_ok in Hp as (B & EB' & (P & EP' & (num & EN' & Hp)%obind_ok)%obind_ok).
  apply argv_value_ok in EB'; [|done|lia]. apply argv_value_ok in EP'; [|done|lia]. apply argv_value_ok in EN'; [|done|lia].
  assert (par_B p = B /\ par_P p = P /\ 0 < par_num p) as (H1 & H2 & H3).
  { destruct (0 <=? tsfileIndex o); [|by injection Hp as <-]. destruct (fileInput o) as [input|]; [|done].
    apply obind_ok in Hp as ([n rest] & Hn & [= <-]). apply readTsFileConfig_ok in Hn. done. }
  split; [lia|lia|]. intros k. destruct (Hd k) as [rest Hk]. eapply packet_data_ok; [|exact Hk]. lia.
Qed.
Definition no_file : text -> option text := fun _ => None.
Lemma no_file_data k : packet_data (mkParameters 7 3 20 None) 1000 2000 [] k = Ok (mkPacketData 3 1000 2000, []).
Proof. induction k as [|k IH]; [done|]. change (obind (packet_data (mkParameters 7 3 20 None) 1000 2000 [] k) (fun '(_, i) => Ok (mkPacketData 3 1000 2000, i)) = Ok (mkPacketData 3 1000 2000, [])). by rewrite IH. Qed.
Lemma input_config_ok_witness : config_ok (mkConfig 7 20 (fun _ => mkPacketData 3 1000 2000)).
Proof.
  apply (input_config_ok no_file [str "warmup2"; str "-B"; str "7"] (mkOptions (-1) (-1) (-1) (-1) 1 (-1) (-1) None)
    (mkParameters 7 3 20 None) 1000 2000); [vm_compute; reflexivity|vm_compute; reflexivity|reflexivity|reflexivity|].
  intros k. exists []. apply no_file_data.
Defined.

(** A time stamp within the range of the output (below 100,000 seconds) is
    printed with twelve characters from which it can be read back exactly. *)
Theorem timestamp_roundtrip t : 0 <= t < 100000000000 ->
  exists s, getTimeStampStr t = Ok s /\ length s = 12%nat /\ fold_left read_digit s 0 = t /\ s !! 8%nat = Some "."%char.
Proof.
  intros Ht. unfold getTimeStampStr. rewrite (proj2 (Z.leb_gt _ _)), (proj2 (Z.leb_gt t _)), (proj2 (Z.ltb_ge t 0)) by lia. cbv zeta.
  eexists. split; [done|]. split; [done|]. split; [|done]. rewrite Z.abs_eq by lia. cbn [fold_left fmap list_fmap app].
  assert (0 = t / 10 ^ (10 + 1)) as E by (symmetry; apply Z.div_small; lia).
  rewrite (read_digit_digit t 10), (read_digit_digit t 9), (read_digit_digit t 8), (read_digit_digit t 7) by first [done | lia].
  rewrite (read_digit_digit t 6), (read_digit_digit t 5), (read_digit_digit t 4), (read_digit_digit t 3) by first [done | lia].
  change (read_digit (t / 10 ^ 3) ".") with (t / 10 ^ 3).
  rewrite (read_digit_digit t 2), (read_digit_digit t 1), (read_digit_digit t 0) by first [done | lia]. apply Z.div_1_r.
Qed.
Lemma timestamp_roundtrip_witness :
  exists s, getTimeStampStr 1234567 = Ok s /\ length s = 12%nat /\ fold_left read_digit s 0 = 1234567 /\ s !! 8%nat = Some "."%char.
Proof. apply (timestamp_roundtrip 1234567). lia. Defined.

(** An empty option value and an empty line of the trace file make the checks
    read before the string. *)
Theorem empty_strings : isNumber [] = Err FUndef /\ checkFileLine [NL] = Err FUndef.
Proof. done. Qed.

(** The difference of two times within 2^31 seconds is exact. *)
Lemma dbl_small z : Z.abs z < 2 ^ 53 -> dbl z = z.
Proof. intros H. unfold dbl. by rewrite (proj2 (Z.ltb_lt _ _)). Qed.
(** [calTimeDiff] computes the difference in microseconds exactly, although
    in double precision, for times up to 2^31 seconds apart. *)
Theorem calTimeDiff_exact a b : Z.abs (tv_sec b - tv_sec a) <= 2 ^ 31 -> Z.abs (tv_usec b - tv_usec a) <= 1000000 ->
  calTimeDiff a b = Ok ((tv_sec b - tv_sec a) * 1000000 + (tv_usec b - tv_usec a)).
Proof.
  intros H1 H2. unfold calTimeDiff. assert (2 ^ 31 = 2147483648) as E1 by done. assert (2 ^ 53 = 9007199254740992) as E2 by done.
  rewrite (dbl_small (tv_sec b - tv_sec a)), (dbl_small (tv_usec b - tv_usec a)) by lia.
  rewrite (dbl_small ((tv_sec b - tv_sec a) * 1000000)) by lia. rewrite dbl_small by lia. unfold to_ll, LLONG_MAX.
  rewrite (proj2 (Z.leb_le _ _)), (proj2 (Z.leb_le _ 9223372036854775807)) by lia. done.
Qed.
Lemma calTimeDiff_exact_witness : calTimeDiff (mkTimeval 10 900000) (mkTimeval 12 100000) = Ok 1200000.
Proof. apply (calTimeDiff_exact (mkTimeval 10 900000) (mkTimeval 12 100000)); cbn; lia. Defined.
