(* ===== verification/KEnv.v ===== *)
(** * The environment of the Weenix kernel files

    The kernel files of the repository call code and use constants that come
    with Weenix and are not part of the repository: the intrusive lists of
    util/list.h, the slab allocator, the page geometry and the user address
    range of mm/page.h and mm/mm.h, and the error numbers.  They are the
    parameters of the kernel models: type classes whose fields are the
    operations and whose laws are what the kernel files rely on.  Each class
    has an instance at the end of the file. *)
From stdpp Require Import base gmap list fin_maps fin_sets.
From Stdlib Require Import ZArith Lia.
From S2P Require Import Prelude.
Open Scope Z_scope.

(** ** util/list.h

    A [klist] is a list head; its members are the structures (by address)
    that are linked on it, and [list_items] gives the order in which
    [list_iterate_begin] visits them.  The iteration reads the successor
    before it runs the loop's body, so removing the current member inside
    the loop is allowed. *)
Class KList := {
  klist : Type;
  list_empty_head : klist;
  list_items : klist -> list Z;
  list_insert_head : Z -> klist -> klist;
  list_insert_tail : Z -> klist -> klist;
  list_insert_before : Z -> Z -> klist -> klist;
  list_remove : Z -> klist -> klist;
  items_empty : list_items list_empty_head = [];
  items_insert_head x l : x ∉ list_items l ->
    list_items (list_insert_head x l) = x :: list_items l;
  items_insert_tail x l : x ∉ list_items l ->
    list_items (list_insert_tail x l) = list_items l ++ [x];
  items_insert_before x y l a b : x ∉ list_items l -> list_items l = a ++ y :: b ->
    y ∉ a -> list_items (list_insert_before y x l) = a ++ x :: y :: b;
  items_remove x l a b : list_items l = a ++ x :: b -> x ∉ a ++ b ->
    list_items (list_remove x l) = a ++ b;
}.

(** ** The slab allocator

    [slab_pick h] is the address [slab_obj_alloc] returns when the live
    objects are those of [h], or [None] for NULL. *)
Class Slab := {
  slab_pick : forall {A}, gmap Z A -> option Z;
  slab_fresh {A} (h : gmap Z A) p : slab_pick h = Some p -> p <> 0 /\ h !! p = None;
}.

(** ** Pages and the user part of the address space *)
Class KGeometry := {
  PAGE_SHIFT : Z;
  USER_MEM_LOW : Z;
  USER_MEM_HIGH : Z;
  page_shift_pos : 0 < PAGE_SHIFT < 32;
  user_mem_low_aligned : USER_MEM_LOW mod 2 ^ PAGE_SHIFT = 0;
  user_mem_high_aligned : USER_MEM_HIGH mod 2 ^ PAGE_SHIFT = 0;
  user_mem_range : 2 ^ PAGE_SHIFT <= USER_MEM_LOW /\ USER_MEM_LOW < USER_MEM_HIGH /\
    USER_MEM_HIGH + 2 ^ PAGE_SHIFT <= 2 ^ 32;
}.

Section Geometry.
Context `{KG : KGeometry}.

Definition PAGE_SIZE : Z := 2 ^ PAGE_SHIFT.
Definition ADDR_TO_PN (a : Z) : Z := Z.shiftr a PAGE_SHIFT.
Definition PN_TO_ADDR (pn : Z) : Z := u32 (Z.shiftl pn PAGE_SHIFT).
Definition PAGE_OFFSET (a : Z) : Z := a mod PAGE_SIZE.
Definition PAGE_ALIGNED (a : Z) : bool := a mod PAGE_SIZE =? 0.
Definition PAGE_ALIGN_DOWN (a : Z) : Z := a - a mod PAGE_SIZE.
Definition PAGE_ALIGN_UP (a : Z) : Z := u32 (PAGE_ALIGN_DOWN (a - 1) + PAGE_SIZE).
Definition LOW_PN : Z := ADDR_TO_PN USER_MEM_LOW.
Definition HIGH_PN : Z := ADDR_TO_PN USER_MEM_HIGH.

Lemma page_size_pos : 1 < PAGE_SIZE.
Proof. unfold PAGE_SIZE. pose proof page_shift_pos. apply Z.pow_gt_1; lia. Qed.
Lemma page_size_divides : (PAGE_SIZE | 2 ^ 32).
Proof.
  unfold PAGE_SIZE. pose proof page_shift_pos. exists (2 ^ (32 - PAGE_SHIFT)).
  rewrite <- Z.pow_add_r by lia. f_equal. lia.
Qed.

Lemma addr_to_pn a : ADDR_TO_PN a = a / PAGE_SIZE.
Proof. unfold ADDR_TO_PN, PAGE_SIZE. apply Z.shiftr_div_pow2. pose proof page_shift_pos. lia. Qed.

Lemma addr_pn_offset a : a = ADDR_TO_PN a * PAGE_SIZE + PAGE_OFFSET a.
Proof.
  rewrite addr_to_pn. unfold PAGE_OFFSET. pose proof page_size_pos.
  pose proof (Z.div_mod a PAGE_SIZE). lia.
Qed.
Lemma page_offset_bound a : 0 <= PAGE_OFFSET a < PAGE_SIZE.
Proof. apply Z.mod_pos_bound. pose proof page_size_pos. lia. Qed.

Lemma pn_mono a b : a <= b -> ADDR_TO_PN a <= ADDR_TO_PN b.
Proof. intros. rewrite !addr_to_pn. apply Z.div_le_mono; [pose proof page_size_pos; lia | done]. Qed.

Lemma low_high_pn : 1 <= LOW_PN /\ LOW_PN < HIGH_PN /\ HIGH_PN * PAGE_SIZE < 2 ^ 32.
Proof.
  pose proof page_size_pos. destruct user_mem_range as (H1 & H2 & H3).
  fold PAGE_SIZE in *. pose proof user_mem_low_aligned as Hl. pose proof user_mem_high_aligned as Hh.
  fold PAGE_SIZE in Hl, Hh. pose proof (addr_pn_offset USER_MEM_LOW) as E1.
  pose proof (addr_pn_offset USER_MEM_HIGH) as E2. unfold PAGE_OFFSET in *. rewrite Hl in E1. rewrite Hh in E2.
  unfold LOW_PN, HIGH_PN. nia.
Qed.
Lemma user_low_pn : USER_MEM_LOW = LOW_PN * PAGE_SIZE.
Proof.
  rewrite (addr_pn_offset USER_MEM_LOW) at 1. unfold PAGE_OFFSET, LOW_PN.
  pose proof user_mem_low_aligned as E. fold PAGE_SIZE in E. rewrite E. lia.
Qed.
Lemma user_high_pn : USER_MEM_HIGH = HIGH_PN * PAGE_SIZE.
Proof.
  rewrite (addr_pn_offset USER_MEM_HIGH) at 1. unfold PAGE_OFFSET, HIGH_PN.
  pose proof user_mem_high_aligned as E. fold PAGE_SIZE in E. rewrite E. lia.
Qed.
Lemma high_pn_small : HIGH_PN < 2 ^ 31.
Proof.
  pose proof low_high_pn. pose proof page_size_pos.
  assert (2 <= PAGE_SIZE) by lia. nia.
Qed.
Lemma pn_to_addr pn : 0 <= pn <= HIGH_PN -> PN_TO_ADDR pn = pn * PAGE_SIZE.
Proof.
  intros H. unfold PN_TO_ADDR. rewrite Z.shiftl_mul_pow2 by (pose proof page_shift_pos; lia).
  fold PAGE_SIZE. apply u32_small. pose proof low_high_pn. pose proof page_size_pos. nia.
Qed.
Lemma pn_of_addr pn : 0 <= pn <= HIGH_PN -> ADDR_TO_PN (PN_TO_ADDR pn) = pn.
Proof.
  intros H. rewrite pn_to_addr, addr_to_pn by done. apply Z.div_mul. pose proof page_size_pos. lia.
Qed.
End Geometry.

(** ** Error numbers: distinct positive codes *)
Class KErrno := {
  EPERM : Z; ENOENT : Z; ESRCH : Z; EINTR : Z; EBADF : Z; ECHILD : Z; ENOMEM : Z; EACCES : Z;
  EFAULT : Z; EEXIST : Z; ENODEV : Z; ENOTDIR : Z; EISDIR : Z; EINVAL : Z; EMFILE : Z;
  ENXIO : Z; ENAMETOOLONG : Z; ENOTEMPTY : Z; EAGAIN : Z; EBUSY : Z;
  errno_pos : Forall (fun e => 0 < e)
    [EPERM; ENOENT; ESRCH; EINTR; EBADF; ECHILD; ENOMEM; EACCES; EFAULT; EEXIST; ENODEV; ENOTDIR;
     EISDIR; EINVAL; EMFILE; ENXIO; ENAMETOOLONG; ENOTEMPTY; EAGAIN; EBUSY];
}.

(** ** Instances *)
Definition insert_at (y x : Z) (l : list Z) : list Z :=
  (fix go (l : list Z) : list Z :=
     match l with
     | [] => [x]
     | z :: r => if decide (z = y) then x :: z :: r else z :: go r
     end) l.

Lemma insert_at_spec y x a b : y ∉ a -> insert_at y x (a ++ y :: b) = a ++ x :: y :: b.
Proof.
  induction a as [|z a IH]; intros Hy; cbn.
  - by rewrite decide_True.
  - rewrite decide_False by set_solver. f_equal. apply IH. set_solver.
Qed.

#[refine] Definition seq_klist : KList := {|
  klist := list Z;
  list_empty_head := [];
  list_items l := l;
  list_insert_head x l := x :: l;
  list_insert_tail x l := l ++ [x];
  list_insert_before y x l := insert_at y x l;
  list_remove x l := base.filter (fun y => y <> x) l;
|}.
Proof.
  - done.
  - done.
  - done.
  - intros x y l a b _ -> Hy. by apply insert_at_spec.
  - intros x l a b -> Hx. rewrite filter_app, filter_cons_False by (by intros []).
    rewrite !filter_id by (intros; set_solver). done.
Defined.

#[refine] Definition first_slab : Slab := {|
  slab_pick A h := Some (fresh (dom h ∪ {[0]} : gset Z));
|}.
Proof.
  intros A h p [= <-]. pose proof (is_fresh (dom h ∪ {[0]} : gset Z)) as H. split; [set_solver|].
  apply not_elem_of_dom. set_solver.
Defined.
#[refine] Definition full_slab : Slab := {| slab_pick A h := None |}.
Proof. done. Defined.

(** The i386 values of Weenix. *)
#[refine] Definition i386_geometry : KGeometry := {|
  PAGE_SHIFT := 12; USER_MEM_LOW := 4194304; USER_MEM_HIGH := 3221225472;
|}.
Proof. all: (done || vm_compute; done || lia). Defined.

#[refine] Definition weenix_errno : KErrno := {|
  EPERM := 1; ENOENT := 2; ESRCH := 3; EINTR := 4; EBADF := 9; ECHILD := 10; ENOMEM := 12;
  EACCES := 13; EFAULT := 14; EEXIST := 17; ENODEV := 19; ENOTDIR := 20; EISDIR := 21;
  EINVAL := 22; EMFILE := 24; ENXIO := 6; ENAMETOOLONG := 36; ENOTEMPTY := 39; EAGAIN := 11;
  EBUSY := 16;
|}.
Proof. repeat constructor. Defined.
