(* ===== verification/Vmmap.v ===== *)
(** * vm/vmmap.c: address spaces

    An address space is a list of areas ([vmarea_t]), each a range of pages
    backed by a memory object.  The file models every operation of vmmap.c on
    a heap of areas and maps, states the invariant of an address space
    (areas non-empty, ordered, disjoint, in user memory) and the abstract
    view of it: a partial function from page numbers to a page of a memory
    object with its protection and flags.

    Memory objects, and the paging hardware, are used through the interfaces
    [Mmobjs] and [Mmu]. *)
From stdpp Require Import base gmap list fin_maps.
From Stdlib Require Import ZArith Lia.
From S2P Require Import Prelude KEnv.
Open Scope Z_scope.
Open Scope c_scope.

(** ** Memory objects as the address space uses them

    [owns s R]: in the state [s] of the memory objects, the caller holds the
    references listed in [R], with multiplicity.  Creating an object gives
    one, [ref] adds one, [put] consumes one, and storing a reference in a
    shadow object hands it over. *)
Class Mmobjs := {
  ost : Type;
  (** [o->mmo_ops->ref(o)] and [o->mmo_ops->put(o)] *)
  mmo_ref : Z -> M ost unit;
  mmo_put : Z -> M ost unit;
  anon_create : M ost Z;
  shadow_create : M ost Z;
  mmobj_bottom_obj : Z -> M ost Z;
  (** stores to [mmo_shadowed] and [mmo_un.mmo_bottom_obj] *)
  set_shadowed : Z -> Z -> M ost unit;
  set_bottom : Z -> Z -> M ost unit;
  (** [file->vn_ops->mmap(file, vma, &o)]: the result and [o] *)
  vn_mmap : Z -> Z -> M ost (Z * Z);
  owns : ost -> list Z -> Prop;
  owns_perm s R R' : Permutation R R' -> owns s R -> owns s R';
  owns_nonnull s o R : owns s (o :: R) -> o <> 0;
  mmo_ref_ok s R o : owns s R -> o ∈ R ->
    exists s', mmo_ref o s = Ok (tt, s') /\ owns s' (o :: R);
  mmo_put_ok s R o : owns s (o :: R) -> exists s', mmo_put o s = Ok (tt, s') /\ owns s' R;
  anon_create_ok s R : owns s R -> exists o s', anon_create s = Ok (o, s') /\
    owns s' (if o =? 0 then R else o :: R);
  vn_mmap_ok s R f v : owns s R -> exists e o s', vn_mmap f v s = Ok ((e, o), s') /\
    owns s' (if e <? 0 then R else o :: R);
  (** handing the reference to [o] over to a new shadow object *)
  new_shadow_ok s R o : owns s (o :: R) -> exists sh s1, shadow_create s = Ok (sh, s1) /\
    if sh =? 0 then owns s1 (o :: R) else exists s',
      (set_shadowed sh o ;;;
       let! b := mmobj_bottom_obj o in
       set_bottom sh b ;;;
       mmo_ref b) s1 = Ok (tt, s') /\ owns s' (sh :: R);
}.

(** ** The page table and the TLB of the running process

    [pt_entry] and [tlb_entry] are the translations they hold for a page. *)
Class Mmu `{KGeometry} := {
  hw : Type;
  pt_entry : hw -> Z -> Z -> option Z;
  tlb_entry : hw -> Z -> option Z;
  tlb_flush_all : hw -> hw;
  pt_unmap_range : Z -> Z -> Z -> hw -> hw;
  tlb_flush_all_tlb h pn : tlb_entry (tlb_flush_all h) pn = None;
  tlb_flush_all_pt h pd pn : pt_entry (tlb_flush_all h) pd pn = pt_entry h pd pn;
  pt_unmap_range_pt pd lo hi h pn : 0 <= lo <= hi -> hi <= HIGH_PN ->
    pt_entry (pt_unmap_range pd (lo * PAGE_SIZE) (hi * PAGE_SIZE) h) pd pn =
    if decide (lo <= pn < hi) then None else pt_entry h pd pn;
  pt_unmap_range_tlb pd lo hi h pn :
    tlb_entry (pt_unmap_range pd lo hi h) pn = tlb_entry h pn;
}.

(** ** State *)
Record vmarea := mkArea {
  vma_start : Z; vma_end : Z; vma_off : Z;
  vma_prot : Z; vma_flags : Z;
  vma_vmmap : Z; vma_obj : Z;
  (** the object on whose [mmo_vmas] list [vma_olink] is *)
  vma_olink : option Z
}.
Record vmmap `{KList} := mkVmmap { vmm_list : klist; vmm_proc : Z }.

Record vproc := mkVproc { p_pagedir : Z; p_vmmap : Z; p_brk : Z; p_start_brk : Z }.

Record vms `{KList, Mmobjs, Mmu} := mkVms {
  areas : gmap Z vmarea;
  vmaps : gmap Z vmmap;
  (** [mmo_un.mmo_vmas] of each object *)
  ovmas : gmap Z klist;
  objs : ost;
  mmu : hw;
  curproc : vproc;
  kt_errno : Z
}.

(** The flags of mm/mman.h; the search directions of vm/vmmap.h. *)
Class MapFlags := {
  MAP_SHARED : Z; MAP_PRIVATE : Z; MAP_FIXED : Z; MAP_ANON : Z;
  VMMAP_DIR_LOHI : Z; VMMAP_DIR_HILO : Z;
  map_dirs_differ : VMMAP_DIR_LOHI <> VMMAP_DIR_HILO;
}.
Definition flag (flags bit : Z) : bool := negb (Z.land flags bit =? 0).

Section Vmmap.
Context `{KL : KList} `{SL : Slab} `{KG : KGeometry} `{MO : Mmobjs} `{MU : !Mmu} `{MF : MapFlags}.

Definition upd_areas (f : gmap Z vmarea -> gmap Z vmarea) (s : vms) : vms :=
  mkVms _ _ _ _ (f (areas s)) (vmaps s) (ovmas s) (objs s) (mmu s) (curproc s) (kt_errno s).
Definition upd_vmaps (f : gmap Z vmmap -> gmap Z vmmap) (s : vms) : vms :=
  mkVms _ _ _ _ (areas s) (f (vmaps s)) (ovmas s) (objs s) (mmu s) (curproc s) (kt_errno s).
Definition upd_ovmas (f : gmap Z klist -> gmap Z klist) (s : vms) : vms :=
  mkVms _ _ _ _ (areas s) (vmaps s) (f (ovmas s)) (objs s) (mmu s) (curproc s) (kt_errno s).
Definition upd_objs (o : ost) (s : vms) : vms :=
  mkVms _ _ _ _ (areas s) (vmaps s) (ovmas s) o (mmu s) (curproc s) (kt_errno s).
Definition upd_mmu (f : hw -> hw) (s : vms) : vms :=
  mkVms _ _ _ _ (areas s) (vmaps s) (ovmas s) (objs s) (f (mmu s)) (curproc s) (kt_errno s).
Definition upd_curproc (f : vproc -> vproc) (s : vms) : vms :=
  mkVms _ _ _ _ (areas s) (vmaps s) (ovmas s) (objs s) (mmu s) (f (curproc s)) (kt_errno s).
Definition upd_errno (e : Z) (s : vms) : vms :=
  mkVms _ _ _ _ (areas s) (vmaps s) (ovmas s) (objs s) (mmu s) (curproc s) e.

(** *** Memory accesses *)
Definition load_area (v : Z) : M vms vmarea := fun s => mthe (areas s !! v) s.
Definition store_area (v : Z) (f : vmarea -> vmarea) : M vms unit :=
  let! a := load_area v in mput (upd_areas (<[v := f a]>)).
Definition load_map (m : Z) : M vms vmmap := fun s => mthe (vmaps s !! m) s.
Definition store_list (m : Z) (f : klist -> klist) : M vms unit :=
  let! mp := load_map m in
  mput (upd_vmaps (<[m := mkVmmap _ (f (vmm_list mp)) (vmm_proc mp)]>)).
Definition obj_op {A} (c : M ost A) : M vms A := fun s =>
  match c (objs s) with
  | Ok (a, o) => Ok (a, upd_objs o s)
  | Err f => Err f
  end.
(** A call through [o->mmo_ops]: [o] must not be NULL. *)
Definition mmo_call (o : Z) (c : Z -> M ost unit) : M vms unit :=
  mguard (negb (o =? 0)) FUndef ;;; obj_op (c o).

Definition with_start (z : Z) (a : vmarea) : vmarea :=
  mkArea z (vma_end a) (vma_off a) (vma_prot a) (vma_flags a) (vma_vmmap a) (vma_obj a) (vma_olink a).
Definition with_end (z : Z) (a : vmarea) : vmarea :=
  mkArea (vma_start a) z (vma_off a) (vma_prot a) (vma_flags a) (vma_vmmap a) (vma_obj a) (vma_olink a).
Definition with_off (z : Z) (a : vmarea) : vmarea :=
  mkArea (vma_start a) (vma_end a) z (vma_prot a) (vma_flags a) (vma_vmmap a) (vma_obj a) (vma_olink a).
Definition with_vmmap (z : Z) (a : vmarea) : vmarea :=
  mkArea (vma_start a) (vma_end a) (vma_off a) (vma_prot a) (vma_flags a) z (vma_obj a) (vma_olink a).
Definition with_obj (z : Z) (a : vmarea) : vmarea :=
  mkArea (vma_start a) (vma_end a) (vma_off a) (vma_prot a) (vma_flags a) (vma_vmmap a) z (vma_olink a).
Definition with_olink (z : option Z) (a : vmarea) : vmarea :=
  mkArea (vma_start a) (vma_end a) (vma_off a) (vma_prot a) (vma_flags a) (vma_vmmap a) (vma_obj a) z.

(** [list_insert_tail(&o->mmo_un.mmo_vmas, &vma->vma_olink)] *)
Definition olink_insert (o v : Z) : M vms unit :=
  mguard (negb (o =? 0)) FUndef ;;;
  mput (upd_ovmas (fun l => <[o := list_insert_tail v (default list_empty_head (l !! o))]> l)) ;;;
  store_area v (with_olink (Some o)).
(** [list_remove(&vma->vma_olink)]; a link that is only initialised is on no
    list, and removing it changes nothing. *)
Definition olink_remove (v : Z) : M vms unit :=
  let! a := load_area v in
  match vma_olink a with
  | Some o =>
      mput (upd_ovmas (fun l => <[o := list_remove v (default list_empty_head (l !! o))]> l)) ;;;
      store_area v (with_olink None)
  | None => mret_ tt
  end.

(** *** Allocation *)
Definition vmarea_alloc : M vms Z := fun s =>
  match slab_pick (areas s) with
  | Some p => Ok (p, upd_areas (<[p := mkArea 0 0 0 0 0 0 0 None]>) s)
  | None => Ok (0, s)
  end.
Definition vmarea_free (v : Z) : M vms unit :=
  KASSERT (negb (v =? 0)) ;;;
  let! _ := load_area v in mput (upd_areas (delete v)).
Definition vmmap_create : M vms Z := fun s =>
  match slab_pick (vmaps s) with
  | Some p => Ok (p, upd_vmaps (<[p := mkVmmap _ list_empty_head 0]>) s)
  | None => Err FUndef
  end.

(** Dropping a member: remove both links, put the object, free the area. *)
Definition drop_area (map v : Z) : M vms unit :=
  store_list map (list_remove v) ;;;
  olink_remove v ;;;
  let! a := load_area v in
  mmo_call (vma_obj a) mmo_put ;;;
  vmarea_free v.
(** The loop of [vmmap_destroy] over the members of the list. *)
Fixpoint destroy_areas (map : Z) (vs : list Z) : M vms unit :=
  match vs with
  | [] => mret_ tt
  | v :: r => drop_area map v ;;; destroy_areas map r
  end.
Definition vmmap_destroy (map : Z) : M vms unit :=
  KASSERT (negb (map =? 0)) ;;;
  let! mp := load_map map in
  destroy_areas map (list_items (vmm_list mp)) ;;;
  let! _ := load_map map in
  mput (upd_vmaps (delete map)).

(** *** Insertion *)
(** The loop of [vmmap_insert]: the first area that starts at or after the
    end of the new one. *)
Fixpoint insert_point (vs : list Z) (newend : Z) : M vms (option Z) :=
  match vs with
  | [] => mret_ None
  | v :: r =>
      let! a := load_area v in
      if newend <=? vma_start a then mret_ (Some v) else insert_point r newend
  end.
Definition vmmap_insert (map newvma : Z) : M vms unit :=
  KASSERT (negb (map =? 0) && negb (newvma =? 0)) ;;;
  let! a := load_area newvma in
  KASSERT (vma_vmmap a =? 0) ;;;
  KASSERT (vma_start a <? vma_end a) ;;;
  KASSERT ((LOW_PN <=? vma_start a) && (vma_end a <=? HIGH_PN)) ;;;
  store_area newvma (with_vmmap map) ;;;
  let! mp := load_map map in
  let! at_ := insert_point (list_items (vmm_list mp)) (vma_end a) in
  match at_ with
  | Some v => store_list map (list_insert_before v newvma)
  | None => store_list map (list_insert_tail newvma)
  end.

(** *** Searching *)
Fixpoint hilo_loop (vs : list Z) (npages pre_start : Z) : M vms (option Z) :=
  match vs with
  | [] => mret_ None
  | v :: r =>
      let! a := load_area v in
      if npages <=? u32 (pre_start - vma_end a) then mret_ (Some (u32 (pre_start - npages)))
      else hilo_loop r npages (vma_start a)
  end.
Fixpoint lohi_loop (vs : list Z) (npages pre_end : Z) : M vms (option Z) :=
  match vs with
  | [] => mret_ None
  | v :: r =>
      let! a := load_area v in
      if (0 <? pre_end) && (npages <=? u32 (vma_start a - pre_end)) then mret_ (Some pre_end)
      else lohi_loop r npages (vma_end a)
  end.
(** [list_head] and [list_tail] of an empty list give the list head itself,
    which is not an area. *)
Definition vmmap_find_range (map npages dir : Z) : M vms Z :=
  let! mp := load_map map in
  let vs := list_items (vmm_list mp) in
  if dir =? VMMAP_DIR_HILO then
    let! r := hilo_loop (rev vs) npages HIGH_PN in
    match r with
    | Some s => mret_ (s32 s)
    | None =>
        let! h := mthe (head vs) in
        let! a := load_area h in
        if npages <=? u32 (vma_start a - LOW_PN) then mret_ (s32 (vma_start a - npages))
        else mret_ (-1)
    end
  else
    let! r := lohi_loop vs npages LOW_PN in
    match r with
    | Some s => mret_ (s32 s)
    | None =>
        let! t := mthe (last vs) in
        let! a := load_area t in
        if npages <=? u32 (HIGH_PN - vma_end a) then mret_ (s32 (vma_end a))
        else mret_ (-1)
    end.

Fixpoint lookup_loop (vs : list Z) (vfn : Z) : M vms Z :=
  match vs with
  | [] => mret_ 0
  | v :: r =>
      let! a := load_area v in
      if (vfn <? vma_end a) && (vma_start a <=? vfn) then mret_ v else lookup_loop r vfn
  end.
Definition vmmap_lookup (map vfn : Z) : M vms Z :=
  KASSERT (negb (map =? 0)) ;;;
  let! mp := load_map map in
  lookup_loop (list_items (vmm_list mp)) vfn.

Fixpoint range_loop (vs : list Z) (startvfn endvfn : Z) : M vms Z :=
  match vs with
  | [] => mret_ 1
  | v :: r =>
      let! a := load_area v in
      if endvfn <=? vma_start a then mret_ 1
      else if (vma_start a <? endvfn) && (startvfn <? vma_end a) then mret_ 0
      else range_loop r startvfn endvfn
  end.
Definition vmmap_is_range_empty (map startvfn npages : Z) : M vms Z :=
  let endvfn := u32 (startvfn + npages) in
  KASSERT ((startvfn <? endvfn) && (LOW_PN <=? startvfn) && (endvfn <=? HIGH_PN)) ;;;
  let! mp := load_map map in
  range_loop (list_items (vmm_list mp)) startvfn endvfn.

(** *** Copying *)
Fixpoint clone_areas (newmap : Z) (vs : list Z) : M vms unit :=
  match vs with
  | [] => mret_ tt
  | v :: r =>
      let! newvma := vmarea_alloc in
      let! a := load_area v in
      store_area newvma (fun _ =>
        mkArea (vma_start a) (vma_end a) (vma_off a) (vma_prot a) (vma_flags a) newmap 0 None) ;;;
      store_list newmap (list_insert_tail newvma) ;;;
      clone_areas newmap r
  end.
Definition vmmap_clone (map : Z) : M vms Z :=
  let! newmap := vmmap_create in
  let! mp := load_map map in
  mput (upd_vmaps (<[newmap := mkVmmap _ list_empty_head (vmm_proc mp)]>)) ;;;
  clone_areas newmap (list_items (vmm_list mp)) ;;;
  mret_ newmap.

(** *** Unmapping *)
(** The body of the loop of [vmmap_remove]: the four cases. *)
Definition remove_area (map lopage endvfn v : Z) : M vms unit :=
  let! vma := load_area v in
  if (endvfn <? vma_end vma) && (vma_start vma <? lopage) then
    let! newvma := vmarea_alloc in
    store_area newvma (fun n =>
      mkArea endvfn (vma_end vma) (u32 (vma_off vma + endvfn - vma_start vma))
             (vma_prot vma) (vma_flags vma) (vma_vmmap n) (vma_obj vma) None) ;;;
    vmmap_insert map newvma ;;;
    mmo_call (vma_obj vma) mmo_ref ;;;
    store_area v (with_end lopage)
  else if (vma_end vma <=? endvfn) && (vma_start vma <? lopage) && (lopage <? vma_end vma) then
    store_area v (with_end lopage)
  else if (endvfn <? vma_end vma) && (lopage <=? vma_start vma) && (vma_start vma <? endvfn) then
    store_area v (fun a => with_start endvfn (with_off (u32 (vma_off a + (endvfn - vma_start a))) a))
  else if (vma_end vma <=? endvfn) && (lopage <=? vma_start vma) then
    drop_area map v
  else mret_ tt.
Fixpoint remove_loop (map lopage endvfn : Z) (vs : list Z) : M vms unit :=
  match vs with
  | [] => mret_ tt
  | v :: r => remove_area map lopage endvfn v ;;; remove_loop map lopage endvfn r
  end.
Definition vmmap_remove (map lopage npages : Z) : M vms Z :=
  let endvfn := u32 (lopage + npages) in
  let! mp := load_map map in
  remove_loop map lopage endvfn (list_items (vmm_list mp)) ;;;
  mput (upd_mmu tlb_flush_all) ;;;
  let! p := mget curproc in
  mput (upd_mmu (pt_unmap_range (p_pagedir p) (PN_TO_ADDR lopage)
                   (PN_TO_ADDR (u32 (lopage + npages))))) ;;;
  mret_ 0.

(** *** Mapping *)
(** Giving the area its object: the links, and the shadow object of a private
    mapping. *)
Definition install_obj (vma o flags : Z) : M vms unit :=
  olink_insert o vma ;;;
  store_area vma (with_obj o) ;;;
  if flag flags MAP_PRIVATE then
    let! shadow_obj := obj_op shadow_create in
    mguard (negb (shadow_obj =? 0)) FUndef ;;;
    obj_op (set_shadowed shadow_obj o ;;;
            let! bottom_obj := mmobj_bottom_obj o in
            set_bottom shadow_obj bottom_obj ;;;
            mmo_ref bottom_obj) ;;;
    store_area vma (with_obj shadow_obj)
  else mret_ tt.
(** The end of [vmmap_map], with the new area on the list. *)
Definition back_area (file flags vma : Z) : M vms (Z * Z) :=
  let! (err, o) := (if file =? 0 then let! o := obj_op anon_create in mret_ (0, o)
                    else obj_op (vn_mmap file vma)) in
  if err <? 0 then vmarea_free vma ;;; mret_ (err, 0)
  else install_obj vma o flags ;;; mret_ (0, vma).
(** The second half of [vmmap_map], once the range is known and free. *)
Definition map_area (map file lopage npages prot flags off : Z) : M vms (Z * Z) :=
  let! vma := vmarea_alloc in
  store_area vma (fun n =>
    mkArea lopage (u32 (lopage + npages)) (ADDR_TO_PN (u32 off)) prot flags (vma_vmmap n) (vma_obj n) None) ;;;
  vmmap_insert map vma ;;;
  back_area file flags vma.
(** The result is the return value and, on success, the new area. *)
Definition vmmap_map (map file lopage npages prot flags off dir : Z) : M vms (Z * Z) :=
  KASSERT (negb (map =? 0)) ;;;
  KASSERT (0 <? npages) ;;;
  KASSERT (flag flags MAP_SHARED || flag flags MAP_PRIVATE) ;;;
  KASSERT ((lopage =? 0) || (LOW_PN <=? lopage)) ;;;
  KASSERT ((lopage =? 0) || (u32 (lopage + npages) <=? HIGH_PN)) ;;;
  KASSERT (PAGE_ALIGNED off) ;;;
  if lopage =? 0 then
    let! range := vmmap_find_range map npages dir in
    if range <? 0 then mret_ (-1, 0)
    else map_area map file (u32 range) npages prot flags off
  else
    let! empty := vmmap_is_range_empty map lopage npages in
    (if empty =? 0 then let! _ := vmmap_remove map lopage npages in mret_ tt else mret_ tt) ;;;
    map_area map file lopage npages prot flags off.

End Vmmap.

(** ** The abstract address space *)

(** A mapped page: the page [pg_num] of the object [pg_obj]. *)
Record page := mkPage { pg_obj : Z; pg_num : Z; pg_prot : Z; pg_flags : Z }.

Definition page_of (a : vmarea) (vfn : Z) : page :=
  mkPage (vma_obj a) (u32 (vma_off a + vfn - vma_start a)) (vma_prot a) (vma_flags a).
Definition covers (a : vmarea) (vfn : Z) : Prop := vma_start a <= vfn < vma_end a.
#[export] Instance covers_dec a vfn : Decision (covers a vfn).
Proof. unfold covers. apply _. Defined.
#[global] Typeclasses Opaque covers.

Fixpoint amap (vs : list vmarea) (vfn : Z) : option page :=
  match vs with
  | [] => None
  | a :: r => if decide (covers a vfn) then Some (page_of a vfn) else amap r vfn
  end.

(** The areas are non-empty, in increasing order, disjoint, and lie between
    [lo] and [hi]. *)
Fixpoint areas_ok (lo : Z) (vs : list vmarea) (hi : Z) : Prop :=
  match vs with
  | [] => lo <= hi
  | a :: r => lo <= vma_start a /\ vma_start a < vma_end a /\ areas_ok (vma_end a) r hi
  end.

Lemma areas_ok_le lo vs hi : areas_ok lo vs hi -> lo <= hi.
Proof. revert lo. induction vs as [|a vs IH]; cbn; intros lo; [done|]. intros (? & ? & ?%IH). lia. Qed.

Lemma areas_ok_weaken lo lo' vs hi : lo' <= lo -> areas_ok lo vs hi -> areas_ok lo' vs hi.
Proof. destruct vs; cbn; intros; [lia|]. intuition lia. Qed.

Lemma areas_ok_app lo xs ys hi :
  areas_ok lo (xs ++ ys) hi <-> exists mid, areas_ok lo xs mid /\ areas_ok mid ys hi.
Proof.
  revert lo. induction xs as [|a xs IH]; intros lo; cbn.
  - split; [intros H; exists lo; split; [lia|done] | intros (mid & ? & ?); by eapply areas_ok_weaken].
  - rewrite IH. naive_solver.
Qed.

Lemma areas_ok_bounds lo vs hi a :
  areas_ok lo vs hi -> a ∈ vs -> lo <= vma_start a /\ vma_start a < vma_end a /\ vma_end a <= hi.
Proof.
  revert lo. induction vs as [|b vs IH]; intros lo H Hin; [set_solver|].
  cbn in H. destruct H as (H1 & H2 & H3). pose proof (areas_ok_le _ _ _ H3).
  apply elem_of_cons in Hin as [->|Hin]; [lia|]. destruct (IH _ H3 Hin). lia.
Qed.

(** Areas between two bounds cover nothing outside them. *)
Lemma amap_outside lo vs hi vfn :
  areas_ok lo vs hi -> vfn < lo \/ hi <= vfn -> amap vs vfn = None.
Proof.
  revert lo. induction vs as [|a vs IH]; intros lo H Hv; [done|]. cbn in *.
  destruct H as (H1 & H2 & H3). pose proof (areas_ok_le _ _ _ H3).
  unfold covers. rewrite decide_False by lia. apply (IH (vma_end a)); [done | lia].
Qed.

Lemma amap_app xs ys vfn :
  amap (xs ++ ys) vfn = match amap xs vfn with Some p => Some p | None => amap ys vfn end.
Proof. induction xs as [|a xs IH]; cbn; [done|]. by case_decide. Qed.

Lemma amap_Some vs vfn p :
  amap vs vfn = Some p -> exists a, a ∈ vs /\ covers a vfn /\ p = page_of a vfn.
Proof.
  induction vs as [|a vs IH]; cbn; [done|]. case_decide; [intros [= <-]; exists a; set_solver|].
  intros (b & ? & ? & ?)%IH. exists b. set_solver.
Qed.
Lemma amap_None vs vfn : amap vs vfn = None <-> forall a, a ∈ vs -> ~ covers a vfn.
Proof.
  induction vs as [|a vs IH]; cbn; [set_solver|]. case_decide; [set_solver|].
  rewrite IH. set_solver.
Qed.

(** Two areas of an ordered list that share a page are the same. *)
Lemma areas_ok_unique lo xs a ys hi b vfn :
  areas_ok lo (xs ++ a :: ys) hi -> covers a vfn -> b ∈ xs ++ ys -> ~ covers b vfn.
Proof.
  intros (mid & H1 & H2 & H3 & H4)%areas_ok_app [Ha1 Ha2] [Hb|Hb]%elem_of_app.
  - destruct (areas_ok_bounds _ _ _ _ H1 Hb) as (? & ? & ?). unfold covers. lia.
  - destruct (areas_ok_bounds _ _ _ _ H4 Hb) as (? & ? & ?). unfold covers. lia.
Qed.

(** Where a new area goes: after all the areas that start before its end. *)
Lemma areas_ok_place lo vs hi a :
  areas_ok lo vs hi -> lo <= vma_start a -> vma_start a < vma_end a -> vma_end a <= hi ->
  (forall vfn, covers a vfn -> amap vs vfn = None) ->
  exists xs ys, vs = xs ++ ys /\ areas_ok lo (xs ++ a :: ys) hi /\
    Forall (fun b => vma_start b < vma_end a) xs /\
    (forall b, head ys = Some b -> vma_end a <= vma_start b).
Proof.
  revert lo. induction vs as [|b vs IH]; intros lo H Hlo Hne Hhi Hfree.
  { exists [], []. cbn. split_and!; [done | lia..| constructor | done]. }
  cbn in H. destruct H as (H1 & H2 & H3).
  destruct (decide (vma_end a <= vma_start b)) as [Hb|Hb].
  { exists [], (b :: vs). cbn. split_and!; [done | lia.. | done | constructor |].
    intros b' [= <-]. done. }
  assert (vma_end b <= vma_start a) as Hba.
  { destruct (decide (vma_end b <= vma_start a)) as [|Hn]; [done|]. exfalso.
    assert (covers a (Z.max (vma_start a) (vma_start b))) as Hc by (unfold covers; lia).
    specialize (Hfree _ Hc). rewrite amap_None in Hfree.
    apply (Hfree b); [by left | unfold covers; lia]. }
  destruct (IH (vma_end b)) as (xs & ys & -> & Hok & Hxs & Hys); [done..| |].
  { intros vfn Hc. specialize (Hfree vfn Hc). rewrite amap_None in *. set_solver. }
  exists (b :: xs), ys. cbn. split_and!; [done.. | | done]. constructor; [lia | done].
Qed.

(** *** Unmapping, on the abstract areas *)

(** What is left of an area when the pages [lo <= vfn < e] are unmapped. *)
Definition cut (lo e : Z) (a : vmarea) : list vmarea :=
  if decide (e < vma_end a /\ vma_start a < lo) then
    [with_end lo a;
     with_olink None (with_start e (with_off (u32 (vma_off a + e - vma_start a)) a))]
  else if decide (vma_end a <= e /\ vma_start a < lo /\ lo < vma_end a) then [with_end lo a]
  else if decide (e < vma_end a /\ lo <= vma_start a /\ vma_start a < e) then
    [with_start e (with_off (u32 (vma_off a + (e - vma_start a))) a)]
  else if decide (vma_end a <= e /\ lo <= vma_start a) then []
  else [a].

Lemma u32_add_l a b : u32 (u32 a + b) = u32 (a + b).
Proof. unfold u32. by rewrite Zplus_mod_idemp_l. Qed.

Lemma page_of_shift a e vfn :
  u32 (u32 (vma_off a + e - vma_start a) + vfn - e) = u32 (vma_off a + vfn - vma_start a).
Proof.
  replace (u32 (vma_off a + e - vma_start a) + vfn - e)
    with (u32 (vma_off a + e - vma_start a) + (vfn - e)) by lia.
  rewrite u32_add_l. f_equal. lia.
Qed.

Ltac cut_cases :=
  unfold cut; repeat case_decide; cbn [amap areas_ok]; unfold covers, page_of; cbn.

Lemma cut_amap lo e a vfn :
  vma_start a < vma_end a -> lo <= e ->
  amap (cut lo e a) vfn =
  if decide (lo <= vfn < e) then None
  else if decide (covers a vfn) then Some (page_of a vfn) else None.
Proof.
  intros Hne Hle. cut_cases; try done; try lia;
    replace (vma_off a + (e - vma_start a)) with (vma_off a + e - vma_start a) by lia;
    rewrite ?page_of_shift; repeat case_decide; try done; unfold covers in *; lia.
Qed.

Lemma cut_ok lo e a l h :
  lo <= e -> areas_ok l [a] h -> areas_ok l (cut lo e a) h.
Proof. cbn. intros Hle H. cut_cases; lia. Qed.

Lemma flat_map_cut_ok lo e vs l h :
  lo <= e -> areas_ok l vs h -> areas_ok l (flat_map (cut lo e) vs) h.
Proof.
  intros Hle. revert l. induction vs as [|a vs IH]; intros l H; [done|].
  cbn [flat_map]. destruct H as (H1 & H2 & H3). apply areas_ok_app. exists (vma_end a).
  split; [|by apply IH]. apply cut_ok; [done|]. cbn. lia.
Qed.

(** Unmapping removes exactly the pages of the range. *)
Lemma flat_map_cut_amap lo e vs l h vfn :
  lo <= e -> areas_ok l vs h ->
  amap (flat_map (cut lo e) vs) vfn = if decide (lo <= vfn < e) then None else amap vs vfn.
Proof.
  intros Hle. revert l. induction vs as [|a vs IH]; intros l H; [by case_decide|].
  cbn [flat_map]. destruct H as (H1 & H2 & H3). rewrite amap_app, cut_amap, (IH (vma_end a)) by done.
  cbn [amap]. repeat case_decide; done.
Qed.

(** An area outside the range is left alone. *)
Lemma cut_outside lo e a :
  lo <= e -> vma_start a < vma_end a -> e <= vma_start a \/ vma_end a <= lo -> lo < e -> cut lo e a = [a].
Proof. intros. unfold cut. repeat case_decide; try done; unfold covers in *; lia. Qed.

(** *** Free ranges *)
Definition range_free (vs : list vmarea) (lo n : Z) : Prop :=
  forall vfn, lo <= vfn < lo + n -> amap vs vfn = None.

Lemma range_free_app xs ys lo n :
  range_free (xs ++ ys) lo n <-> range_free xs lo n /\ range_free ys lo n.
Proof.
  unfold range_free. setoid_rewrite amap_None. setoid_rewrite elem_of_app. naive_solver.
Qed.
Lemma range_free_one a lo n :
  0 < n -> vma_start a < vma_end a ->
  (range_free [a] lo n <-> vma_end a <= lo \/ lo + n <= vma_start a).
Proof.
  intros Hn Ha. unfold range_free. setoid_rewrite amap_None. unfold covers. split.
  - intros H. destruct (decide (vma_end a <= lo)); [by left|]. right.
    destruct (decide (lo + n <= vma_start a)); [done|]. exfalso.
    apply (H (Z.max lo (vma_start a)) ltac:(lia) a); [set_solver | lia].
  - intros H vfn Hv b ->%list_elem_of_singleton. lia.
Qed.

(** The two searches on the abstract areas: going down from [top], and going
    up from [bot]. *)
Fixpoint hilo (rvs : list vmarea) (n low top : Z) : option Z :=
  match rvs with
  | [] => if decide (n <= top - low) then Some (top - n) else None
  | a :: r => if decide (n <= top - vma_end a) then Some (top - n) else hilo r n low (vma_start a)
  end.
Fixpoint lohi (vs : list vmarea) (n bot high : Z) : option Z :=
  match vs with
  | [] => if decide (n <= high - bot) then Some bot else None
  | a :: r => if decide (n <= vma_start a - bot) then Some bot else lohi r n (vma_end a) high
  end.

(** The first candidate from the top is free and no free range lies higher;
    without a candidate nothing is free. *)
Lemma hilo_spec vs n low top :
  0 < n -> areas_ok low vs top ->
  match hilo (rev vs) n low top with
  | Some r => low <= r /\ r + n <= top /\ range_free vs r n /\
      forall r', r' + n <= top -> range_free vs r' n -> low <= r' -> r' <= r
  | None => forall r', low <= r' -> r' + n <= top -> ~ range_free vs r' n
  end.
Proof.
  intros Hn. revert top. induction vs as [|a vs IH] using rev_ind; intros top Hok; cbn [rev hilo].
  { cbn. case_decide; [split_and!; [lia|lia|done|lia] | lia]. }
  rewrite rev_app_distr. cbn [rev app hilo].
  apply areas_ok_app in Hok as (mid & H1 & H2 & H3 & H4). cbn in H4.
  assert (forall r, range_free (vs ++ [a]) r n <->
    range_free vs r n /\ (vma_end a <= r \/ r + n <= vma_start a)) as Hrf.
  { intros r. by rewrite range_free_app, range_free_one. }
  pose proof (areas_ok_le _ _ _ H1). case_decide.
  - setoid_rewrite Hrf. split_and!; [lia|lia| |lia|lia].
    intros vfn Hv. apply (amap_outside low _ mid); [done | lia].
  - specialize (IH (vma_start a)).
    assert (areas_ok low vs (vma_start a)) as Hok'.
    { clear -H1 H2. revert low H1. induction vs as [|b vs IH]; cbn; intros; [lia|]. intuition. }
    specialize (IH Hok'). destruct (hilo (rev vs) n low (vma_start a)) as [r|]; setoid_rewrite Hrf.
    + destruct IH as (I1 & I2 & I3 & I4). split_and!; [lia|lia|done|lia|].
      intros r' Hr [Hf [?|?]] Hl; [lia | by apply I4].
    + intros r' Hl Hr [Hf [?|?]]; [lia|]. by apply (IH r').
Qed.

Lemma lohi_spec vs n bot high :
  0 < n -> areas_ok bot vs high ->
  match lohi vs n bot high with
  | Some r => bot <= r /\ r + n <= high /\ range_free vs r n /\
      forall r', r' + n <= high -> range_free vs r' n -> bot <= r' -> r <= r'
  | None => forall r', bot <= r' -> r' + n <= high -> ~ range_free vs r' n
  end.
Proof.
  intros Hn. revert bot. induction vs as [|a vs IH]; intros bot Hok; cbn [lohi].
  { cbn in Hok. case_decide; [split_and!; [lia|lia|done|lia] | lia]. }
  cbn in Hok. destruct Hok as (H1 & H2 & H3). pose proof (areas_ok_le _ _ _ H3).
  assert (forall r, range_free (a :: vs) r n <->
    (vma_end a <= r \/ r + n <= vma_start a) /\ range_free vs r n) as Hrf.
  { intros r. change (a :: vs) with ([a] ++ vs). by rewrite range_free_app, range_free_one. }
  case_decide.
  - setoid_rewrite Hrf. split_and!; [lia|lia|lia| |lia].
    intros vfn Hv. apply (amap_outside (vma_end a) _ high); [done | lia].
  - specialize (IH (vma_end a) H3). destruct (lohi vs n (vma_end a) high) as [r|]; setoid_rewrite Hrf.
    + destruct IH as (I1 & I2 & I3 & I4). split_and!; [lia|lia|lia|done|].
      intros r' Hr [[?|?] Hf] Hl; [by apply I4 | lia].
    + intros r' Hl Hr [[?|?] Hf]; [|lia]. by apply (IH r').
Qed.

(** ** The invariant of an address space *)
Section Spec.
Context `{KL : KList} `{SL : Slab} `{KG : KGeometry} `{MO : Mmobjs} `{MU : !Mmu} `{MF : MapFlags}.
Implicit Types (s : vms) (vs xs ys : list (Z * vmarea)).

(** The members of the list of map [m] and the areas stored there. *)
Definition map_rep s (m : Z) vs : Prop :=
  m <> 0 /\ NoDup vs.*1 /\ Forall (fun x => areas s !! x.1 = Some x.2) vs /\
  exists mp, vmaps s !! m = Some mp /\ list_items (vmm_list mp) = vs.*1.

(** The invariant: the list represents ordered disjoint areas in user memory
    that belong to [m], and the address space holds one reference per area;
    [R] are the references held elsewhere. *)
Definition vm_inv s (m : Z) vs (R : list Z) : Prop :=
  map_rep s m vs /\ areas s !! 0 = None /\ areas_ok LOW_PN vs.*2 HIGH_PN /\
  Forall (fun a => vma_vmmap a = m) vs.*2 /\ owns (objs s) (map vma_obj vs.*2 ++ R).

(** [s'] differs from [s] at most in the areas [A], in areas [s] does not
    have, and in the list of map [m]. *)
Definition vframe s s' (m : Z) (A : list Z) : Prop :=
  (forall x, x ∉ A -> is_Some (areas s !! x) -> areas s' !! x = areas s !! x) /\
  (forall m', m' <> m -> vmaps s' !! m' = vmaps s !! m').

Lemma map_rep_frame s s' m A m' ws :
  vframe s s' m A -> m' <> m -> (forall x, x ∈ ws.*1 -> x ∉ A) ->
  map_rep s m' ws -> map_rep s' m' ws.
Proof.
  intros [Ha Hm] Hne Hd (H0 & Hnd & Hf & mp & Hmp & Hi). split_and!; [done..| |].
  - rewrite Forall_forall in *. intros x Hx. rewrite Ha; [by apply Hf | | eauto].
    apply Hd, list_elem_of_fmap. eauto.
  - exists mp. by rewrite Hm.
Qed.

Lemma vframe_refl s m A : vframe s s m A.
Proof. done. Qed.
Lemma vframe_trans s s' s'' m A :
  vframe s s' m A -> vframe s' s'' m A -> vframe s s'' m A.
Proof.
  intros [H1 H2] [H3 H4]. split.
  - intros x Hx Hs. rewrite H3, H1; try done. by rewrite H1.
  - intros m' Hm. by rewrite H4, H2.
Qed.

(** *** Runs of the primitive accesses *)
Lemma load_area_run s v a : areas s !! v = Some a -> load_area v s = Ok (a, s).
Proof. unfold load_area. by intros ->. Qed.
Lemma store_area_run s v f a :
  areas s !! v = Some a -> store_area v f s = Ok (tt, upd_areas (<[v := f a]>) s).
Proof. intros H. unfold store_area. by rewrite (mbind_run _ _ _ _ _ (load_area_run _ _ _ H)). Qed.
Lemma load_map_run s m mp : vmaps s !! m = Some mp -> load_map m s = Ok (mp, s).
Proof. unfold load_map. by intros ->. Qed.
Lemma store_list_run s m f mp :
  vmaps s !! m = Some mp ->
  store_list m f s = Ok (tt, upd_vmaps (<[m := mkVmmap _ (f (vmm_list mp)) (vmm_proc mp)]>) s).
Proof. intros H. unfold store_list. by rewrite (mbind_run _ _ _ _ _ (load_map_run _ _ _ H)). Qed.
Lemma obj_op_run {A} (c : M ost A) s r o :
  c (objs s) = Ok (r, o) -> obj_op c s = Ok (r, upd_objs o s).
Proof. unfold obj_op. by intros ->. Qed.
Lemma mmo_call_run (c : Z -> M ost unit) s o st :
  o <> 0 -> c o (objs s) = Ok (tt, st) -> mmo_call o c s = Ok (tt, upd_objs st s).
Proof.
  intros Ho Hc. unfold mmo_call, mguard. rewrite (proj2 (Z.eqb_neq o 0)) by done. cbn [negb].
  rewrite (mbind_run _ _ _ tt s eq_refl). by apply obj_op_run.
Qed.
Lemma KASSERT_true {S} (b : bool) (s : S) : b = true -> KASSERT b s = Ok (tt, s).
Proof. by intros ->. Qed.

Lemma map_rep_load s m vs x : map_rep s m vs -> x ∈ vs -> load_area x.1 s = Ok (x.2, s).
Proof.
  intros (_ & _ & Hf & _) Hx. rewrite Forall_forall in Hf. by apply load_area_run, Hf.
Qed.

(** Loops that only read the areas compute a function of the list. *)
Fixpoint find_area vs vfn : option (Z * vmarea) :=
  match vs with
  | [] => None
  | x :: r => if decide (covers x.2 vfn) then Some x else find_area r vfn
  end.

Abbreviation stored s := (Forall (fun x : Z * vmarea => areas s !! x.1 = Some x.2)).

Lemma lookup_loop_run s vs vfn :
  stored s vs -> lookup_loop vs.*1 vfn s = Ok (from_option fst 0 (find_area vs vfn), s).
Proof.
  induction 1 as [|[v a] vs Ha _ IH]; [done|]. cbn [lookup_loop find_area fmap list_fmap].
  rewrite (mbind_run _ _ _ _ _ (load_area_run _ _ _ Ha)). cbn [snd fst].
  assert ((vfn <? vma_end a) && (vma_start a <=? vfn) = bool_decide (covers a vfn)) as ->.
  { apply eq_true_iff_eq. rewrite andb_true_iff, bool_decide_eq_true, Z.ltb_lt, Z.leb_le.
    unfold covers. lia. }
  case_decide; [by rewrite bool_decide_eq_true_2 | by rewrite bool_decide_eq_false_2].
Qed.

Lemma find_area_amap vs vfn :
  amap vs.*2 vfn = (fun x => page_of x.2 vfn) <$> find_area vs vfn.
Proof. induction vs as [|x vs IH]; cbn; [done|]. by case_decide. Qed.
Lemma find_area_Some vs vfn x : find_area vs vfn = Some x -> x ∈ vs /\ covers x.2 vfn.
Proof.
  induction vs as [|y vs IH]; cbn; [done|]. case_decide.
  - intros [= ->]. split; [by left | done].
  - intros [? ?]%IH. split; [by right | done].
Qed.

Lemma vmmap_lookup_run s m vs vfn :
  map_rep s m vs -> vmmap_lookup m vfn s = Ok (from_option fst 0 (find_area vs vfn), s).
Proof.
  intros (H0 & _ & Hf & mp & Hmp & Hi). unfold vmmap_lookup.
  rewrite (mbind_run _ _ _ tt s) by (apply KASSERT_true; by rewrite (proj2 (Z.eqb_neq m 0))).
  rewrite (mbind_run _ _ _ _ _ (load_map_run _ _ _ Hmp)), Hi. by apply lookup_loop_run.
Qed.

(** The area [a] has no page in [lo, e). *)
Definition apart (lo e : Z) (a : vmarea) : Prop := vma_end a <= lo \/ e <= vma_start a.
#[export] Instance apart_dec lo e a : Decision (apart lo e a).
Proof. unfold apart. apply _. Defined.

Lemma range_loop_run s vs lo e l h :
  stored s vs -> areas_ok l vs.*2 h -> lo < e ->
  range_loop vs.*1 lo e s = Ok (if bool_decide (Forall (apart lo e) vs.*2) then 1 else 0, s).
Proof.
  intros Hf Hok Hlt. revert l Hok. induction Hf as [|[v a] vs Ha Hf IH]; intros l Hok; [done|].
  cbn [range_loop fmap list_fmap snd fst]. destruct Hok as (H1 & H2 & H3). cbn in H1, H2, H3.
  rewrite (mbind_run _ _ _ _ _ (load_area_run _ _ _ Ha)). cbn [snd fst].
  destruct (Z.leb_spec e (vma_start a)) as [Hle|Hle].
  - rewrite bool_decide_eq_true_2; [done|]. constructor; [by right|]. unfold apart.
    rewrite Forall_forall. intros b Hb. right.
    destruct (areas_ok_bounds _ _ _ _ H3 Hb). cbn in *. lia.
  - rewrite (proj2 (Z.ltb_lt (vma_start a) e)) by lia. cbn [andb].
    destruct (Z.ltb_spec lo (vma_end a)).
    + rewrite bool_decide_eq_false_2; [done|]. rewrite Forall_cons. unfold apart. cbn. lia.
    + rewrite (IH _ H3). rewrite (bool_decide_ext (Forall _ (a :: _)) (Forall (apart lo e) vs.*2)); [done|].
      rewrite Forall_cons. unfold apart at 1. cbn. intuition lia.
Qed.

Lemma range_free_Forall (us : list vmarea) l h lo e :
  areas_ok l us h -> lo < e ->
  range_free us lo (e - lo) <-> Forall (apart lo e) us.
Proof.
  intros Hok Hlt. revert l Hok. induction us as [|a us IH]; intros l Hok; cbn.
  { split; [constructor | done]. }
  destruct Hok as (H1 & H2 & H3). rewrite Forall_cons, <- (IH _ H3).
  change (a :: us) with ([a] ++ us). rewrite range_free_app, range_free_one by lia. unfold apart. intuition lia.
Qed.

Lemma areas_ok_shrink lo us hi hi' :
  areas_ok lo us hi -> Forall (fun a => vma_end a <= hi') us -> lo <= hi' -> areas_ok lo us hi'.
Proof.
  revert lo. induction us as [|a us IH]; intros lo; cbn; [done|].
  intros (? & ? & ?) [? ?]%Forall_cons ?. split_and!; [done..|]. by apply IH.
Qed.

Lemma hilo_loop_run s rvs n top low :
  stored s rvs -> 0 < n -> areas_ok low (rev rvs.*2) top -> 0 <= low -> top < 2 ^ 32 ->
  let bottom := from_option vma_start top (last rvs.*2) in
  exists r, hilo_loop rvs.*1 n top s = Ok (r, s) /\
  hilo rvs.*2 n low top =
    match r with
    | Some x => Some x
    | None => if decide (n <= bottom - low) then Some (bottom - n) else None
    end.
Proof.
  intros Hf Hn. revert top. induction Hf as [|[v a] rvs Ha Hf IH]; intros top Hok Hlow Htop.
  { by exists None. }
  cbn [hilo_loop fmap list_fmap snd fst hilo rev] in *.
  apply areas_ok_app in Hok as (mid & H1 & H2 & H3 & H4). cbn in H4.
  pose proof (areas_ok_le _ _ _ H1).
  rewrite (mbind_run _ _ _ _ _ (load_area_run _ _ _ Ha)). cbn [snd fst].
  rewrite u32_small by lia. destruct (Z.leb_spec n (top - vma_end a)).
  - exists (Some (top - n)). rewrite decide_True, u32_small by lia. done.
  - rewrite decide_False by lia.
    destruct (IH (vma_start a)) as (r & Hr & Eh); [|done|lia|].
    { apply areas_ok_shrink with mid; [done| |lia]. apply Forall_forall. intros b Hb.
      destruct (areas_ok_bounds _ _ _ _ H1 Hb). lia. }
    exists r. split; [done|]. rewrite Eh.
    destruct r; [done|]. rewrite last_cons. by destruct (last rvs.*2).
Qed.

Lemma lohi_loop_run s vs n bot high :
  stored s vs -> 0 < n -> areas_ok bot vs.*2 high -> 0 < bot -> high < 2 ^ 32 ->
  let top := from_option vma_end bot (last vs.*2) in
  exists r, lohi_loop vs.*1 n bot s = Ok (r, s) /\
  lohi vs.*2 n bot high =
    match r with
    | Some x => Some x
    | None => if decide (n <= high - top) then Some top else None
    end.
Proof.
  intros Hf Hn. revert bot. induction Hf as [|[v a] vs Ha Hf IH]; intros bot Hok Hbot Hhigh.
  { by exists None. }
  cbn [lohi_loop fmap list_fmap snd fst lohi] in *.
  destruct Hok as (H1 & H2 & H3). pose proof (areas_ok_le _ _ _ H3).
  rewrite (mbind_run _ _ _ _ _ (load_area_run _ _ _ Ha)). cbn [snd fst].
  rewrite (proj2 (Z.ltb_lt 0 bot)), u32_small by lia. cbn [andb].
  destruct (Z.leb_spec n (vma_start a - bot)).
  - exists (Some bot). by rewrite decide_True by lia.
  - rewrite decide_False by lia.
    destruct (IH (vma_end a)) as (r & Hr & Eh); [done|lia|lia|].
    exists r. split; [done|]. rewrite Eh.
    destruct r; [done|]. rewrite last_cons. by destruct (last vs.*2).
Qed.

Lemma rev_last_head {A} (l : list A) : last (rev l) = head l.
Proof. destruct l as [|x l]; [done|]. cbn. apply last_snoc. Qed.
Lemma fmap_rev {A B} (f : A -> B) (l : list A) : f <$> rev l = rev (f <$> l).
Proof. apply map_rev. Qed.
Lemma s32_page x : 0 <= x <= HIGH_PN -> s32 x = x.
Proof. intros. pose proof high_pn_small. apply s32_small. unfold INT_MIN, INT_MAX. lia. Qed.
Lemma high_pn_u32 : 0 < LOW_PN /\ LOW_PN < HIGH_PN /\ HIGH_PN < 2 ^ 32.
Proof. pose proof low_high_pn. pose proof high_pn_small. lia. Qed.

(** [vmmap_find_range] on a non-empty map computes the two searches. *)
Lemma find_range_hilo s m v vs n :
  map_rep s m (v :: vs) -> areas_ok LOW_PN (v :: vs).*2 HIGH_PN -> 0 < n < 2 ^ 32 ->
  vmmap_find_range m n VMMAP_DIR_HILO s =
  Ok (default (-1) (hilo (rev (v :: vs).*2) n LOW_PN HIGH_PN), s).
Proof.
  intros (H0 & _ & Hf & mp & Hmp & Hi) Hok Hn. unfold vmmap_find_range.
  rewrite (mbind_run _ _ _ _ _ (load_map_run _ _ _ Hmp)), Hi, Z.eqb_refl. destruct high_pn_u32 as (? & ? & ?).
  destruct (hilo_loop_run s (rev (v :: vs)) n HIGH_PN LOW_PN) as (r & Hr & Eh);
    [by apply Forall_rev|lia| |lia|lia|].
  { by rewrite fmap_rev, rev_involutive. }
  rewrite !fmap_rev in Hr. rewrite !fmap_rev in Eh. rewrite (mbind_run _ _ _ _ _ Hr). rewrite rev_last_head in Eh.
  pose proof (hilo_spec (v :: vs).*2 n LOW_PN HIGH_PN ltac:(lia) Hok) as Hs.
  rewrite Eh in *. destruct r as [x|].
  - destruct Hs as (? & ? & _). by rewrite s32_page by lia.
  - apply Forall_cons in Hf as [Ha _]. destruct Hok as (Ho1 & Ho2 & Ho3). cbn in Ho1, Ho2, Ho3.
    pose proof (areas_ok_le _ _ _ Ho3). rewrite (mbind_run _ _ _ v.1 s eq_refl).
    cbn [fmap list_fmap head from_option].
    rewrite (mbind_run _ _ _ _ _ (load_area_run _ _ _ Ha)), u32_small by lia.
    destruct (Z.leb_spec n (vma_start v.2 - LOW_PN));
      [rewrite decide_True, s32_page by lia | rewrite decide_False by lia]; done.
Qed.

Lemma find_range_lohi s m v vs n dir :
  map_rep s m (vs ++ [v]) -> areas_ok LOW_PN (vs ++ [v]).*2 HIGH_PN -> 0 < n < 2 ^ 32 ->
  dir <> VMMAP_DIR_HILO ->
  vmmap_find_range m n dir s = Ok (default (-1) (lohi (vs ++ [v]).*2 n LOW_PN HIGH_PN), s).
Proof.
  intros (H0 & _ & Hf & mp & Hmp & Hi) Hok Hn Hd. unfold vmmap_find_range.
  rewrite (mbind_run _ _ _ _ _ (load_map_run _ _ _ Hmp)), Hi, (proj2 (Z.eqb_neq _ _) Hd).
  destruct high_pn_u32 as (? & ? & ?).
  destruct (lohi_loop_run s (vs ++ [v]) n LOW_PN HIGH_PN) as (r & Hr & Eh); [done|lia|done|lia|lia|].
  rewrite (mbind_run _ _ _ _ _ Hr).
  pose proof (lohi_spec (vs ++ [v]).*2 n LOW_PN HIGH_PN ltac:(lia) Hok) as Hs.
  rewrite Eh in *. destruct r as [x|].
  - destruct Hs as (? & ? & _). by rewrite s32_page by lia.
  - rewrite !fmap_app in *. cbn [fmap list_fmap] in *. rewrite !last_snoc in *. cbn [from_option] in *.
    apply Forall_app in Hf as [_ [Ha _]%Forall_cons].
    apply areas_ok_app in Hok as (mid & Ho & Ho1 & Ho2 & Ho3). cbn in Ho3.
    pose proof (areas_ok_le _ _ _ Ho). unfold mthe. rewrite (mbind_run _ _ _ v.1 s eq_refl).
    rewrite (mbind_run _ _ _ _ _ (load_area_run _ _ _ Ha)), u32_small by lia.
    destruct (Z.leb_spec n (HIGH_PN - vma_end v.2));
      [rewrite decide_True, s32_page by lia | rewrite decide_False by lia]; done.
Qed.

(** [vmmap_lookup] implements the abstract address space: it returns the
    one area that contains the page when the page is mapped (so that the page
    of the object is the one the area computes) and NULL when it is not, and
    changes nothing. *)
Theorem vmmap_lookup_correct s m vs R vfn :
  vm_inv s m vs R ->
  exists v, vmmap_lookup m vfn s = Ok (v, s) /\
    match amap vs.*2 vfn with
    | None => v = 0
    | Some pg => exists a, (v, a) ∈ vs /\ v <> 0 /\ covers a vfn /\ pg = page_of a vfn /\
        forall w b, (w, b) ∈ vs -> covers b vfn -> w = v /\ b = a
    end.
Proof.
  intros (Hm & Hz & Hok & _). eexists. split; [by apply vmmap_lookup_run|].
  rewrite find_area_amap. destruct (find_area vs vfn) as [[v a]|] eqn:E; [|done]. cbn.
  apply find_area_Some in E as [Hin Hc]. exists a. split_and!; try done.
  - intros ->. destruct Hm as (_ & _ & Hf & _). rewrite Forall_forall in Hf.
    specialize (Hf _ Hin). cbn in Hf. congruence.
  - intros w b Hw Hb. apply list_elem_of_split in Hin as (xs & ys & ->).
    rewrite fmap_app in Hok. apply elem_of_app in Hw as [Hw|[Hw|Hw]%elem_of_cons]; [|by simplify_eq|].
    all: exfalso; apply (areas_ok_unique _ _ _ _ _ b vfn Hok Hc); [|done].
    all: apply elem_of_app; (left + right); apply list_elem_of_fmap; by exists (w, b).
Qed.

Lemma is_range_empty_run s m vs R lo n :
  vm_inv s m vs R -> LOW_PN <= lo -> 0 < n -> lo + n <= HIGH_PN ->
  exists r, vmmap_is_range_empty m lo n s = Ok (r, s) /\
    (r = 1 /\ range_free vs.*2 lo n \/ r = 0 /\ ~ range_free vs.*2 lo n).
Proof.
  intros ((H0 & _ & Hf & mp & Hmp & Hi) & _ & Hok & _) Hlo Hn Hhi. unfold vmmap_is_range_empty.
  destruct high_pn_u32 as (? & ? & ?). rewrite u32_small by lia. rewrite (mbind_run _ _ _ tt s).
  2:{ apply KASSERT_true. rewrite !andb_true_iff, Z.ltb_lt, !Z.leb_le. lia. }
  rewrite (mbind_run _ _ _ _ _ (load_map_run _ _ _ Hmp)), Hi.
  eexists. split; [by eapply range_loop_run; [done|done|lia]|].
  pose proof (range_free_Forall vs.*2 _ _ lo (lo + n) Hok ltac:(lia)) as Hiff.
  replace (lo + n - lo) with n in Hiff by lia. rewrite Hiff. case_bool_decide; naive_solver.
Qed.

(** [vmmap_is_range_empty] decides whether a page range in user memory
    is free, and panics on a range that is not in user memory. *)
Theorem vmmap_is_range_empty_correct s m vs R lo n :
  vm_inv s m vs R -> 0 <= lo < 2 ^ 32 -> 0 <= n < 2 ^ 32 ->
  if decide (LOW_PN <= lo /\ 0 < n /\ lo + n <= HIGH_PN) then
    exists r, vmmap_is_range_empty m lo n s = Ok (r, s) /\
      (r = 1 /\ range_free vs.*2 lo n \/ r = 0 /\ ~ range_free vs.*2 lo n)
  else lo + n < 2 ^ 32 -> vmmap_is_range_empty m lo n s = Err FAssert.
Proof.
  intros Hinv Hlo Hn. case_decide as Hr; [by apply (is_range_empty_run s m vs R); [|lia..]|].
  intros Hlt. unfold vmmap_is_range_empty. rewrite u32_small by lia. apply mbind_err. unfold KASSERT, mguard.
  destruct (_ && _) eqn:E; [|done]. rewrite !andb_true_iff, Z.ltb_lt, !Z.leb_le in E. lia.
Qed.

Lemma find_range_run s m vs R n dir :
  vm_inv s m vs R -> 0 < n < 2 ^ 32 -> vs <> [] ->
  exists r, vmmap_find_range m n dir s = Ok (r, s) /\
    if decide (r = -1) then forall lo, LOW_PN <= lo -> lo + n <= HIGH_PN -> ~ range_free vs.*2 lo n
    else LOW_PN <= r /\ r + n <= HIGH_PN /\ range_free vs.*2 r n /\
      forall lo, LOW_PN <= lo -> lo + n <= HIGH_PN -> range_free vs.*2 lo n ->
        if decide (dir = VMMAP_DIR_HILO) then lo <= r else r <= lo.
Proof.
  intros (Hm & _ & Hok & _) Hn Hne. destruct high_pn_u32 as (? & ? & ?).
  destruct (decide (dir = VMMAP_DIR_HILO)) as [->|Hd].
  - destruct vs as [|v vs]; [done|]. eexists. split; [by apply find_range_hilo|].
    pose proof (hilo_spec (v :: vs).*2 n LOW_PN HIGH_PN ltac:(lia) Hok) as Hs.
    destruct (hilo _ _ _ _) as [r|]; cbn [default]; [|done].
    rewrite decide_False by (cbn; lia). naive_solver.
  - destruct (exists_last Hne) as (ws & w & ->). eexists. split; [by apply find_range_lohi|].
    pose proof (lohi_spec (ws ++ [w]).*2 n LOW_PN HIGH_PN ltac:(lia) Hok) as Hs.
    destruct (lohi _ _ _ _) as [r|]; cbn [default]; [|done].
    rewrite decide_False by (cbn; lia). naive_solver.
Qed.

Lemma find_range_empty s m R n dir : vm_inv s m [] R -> vmmap_find_range m n dir s = Err FUndef.
Proof.
  intros ((_ & _ & _ & mp & Hmp & Hi) & _). unfold vmmap_find_range.
  rewrite (mbind_run _ _ _ _ _ (load_map_run _ _ _ Hmp)), Hi. by case_match.
Qed.

(** [vmmap_find_range] is a correct first fit: on a map that has an
    area it returns the start of a free range of [n] pages in user memory,
    the highest one for the direction HILO and the lowest one otherwise, and
    -1 only when there is none.  On an empty map it reads an area that does
    not exist. *)
Theorem vmmap_find_range_correct s m vs R n dir :
  vm_inv s m vs R -> 0 < n < 2 ^ 32 ->
  match vs with
  | [] => vmmap_find_range m n dir s = Err FUndef
  | _ => exists r, vmmap_find_range m n dir s = Ok (r, s) /\
      if decide (r = -1) then forall lo, LOW_PN <= lo -> lo + n <= HIGH_PN -> ~ range_free vs.*2 lo n
      else LOW_PN <= r /\ r + n <= HIGH_PN /\ range_free vs.*2 r n /\
        forall lo, LOW_PN <= lo -> lo + n <= HIGH_PN -> range_free vs.*2 lo n ->
          if decide (dir = VMMAP_DIR_HILO) then lo <= r else r <= lo
  end.
Proof.
  intros Hinv Hn. destruct vs as [|v vs]; [|by apply (find_range_run s m (v :: vs) R)].
  by apply (find_range_empty s m R).
Qed.

(** *** Insertion *)
Lemma amap_place (us ws : list vmarea) a vfn :
  (covers a vfn -> amap (us ++ ws) vfn = None) ->
  amap (us ++ a :: ws) vfn = if decide (covers a vfn) then Some (page_of a vfn) else amap (us ++ ws) vfn.
Proof.
  rewrite !amap_app. cbn [amap]. intros H. case_decide; [|done].
  specialize (H ltac:(done)). by destruct (amap us vfn).
Qed.


Lemma insert_point_run s xs ys e :
  stored s (xs ++ ys) -> Forall (fun b => vma_start b < e) xs.*2 ->
  (forall b, head ys.*2 = Some b -> e <= vma_start b) ->
  insert_point (xs ++ ys).*1 e s = Ok (fst <$> head ys, s).
Proof.
  intros Hf Hx Hy. induction xs as [|[v a] xs IH].
  - destruct ys as [|[w b] ys]; [done|]. cbn [app fmap list_fmap insert_point fst].
    apply Forall_cons in Hf as [Hb _]. rewrite (mbind_run _ _ _ _ _ (load_area_run _ _ _ Hb)).
    rewrite (proj2 (Z.leb_le _ _)); [done|]. by apply Hy.
  - cbn [app fmap list_fmap insert_point fst] in *. apply Forall_cons in Hf as [Ha Hf].
    apply Forall_cons in Hx as [Hx' Hx]. rewrite (mbind_run _ _ _ _ _ (load_area_run _ _ _ Ha)).
    cbn in *. rewrite (proj2 (Z.leb_gt _ _)) by done. by apply IH.
Qed.

Lemma stored_insert (h : gmap Z vmarea) p a xs :
  p ∉ xs.*1 -> Forall (fun x => h !! x.1 = Some x.2) xs ->
  Forall (fun x => <[p := a]> h !! x.1 = Some x.2) xs.
Proof.
  rewrite !Forall_forall. intros Hp Hf x Hx. rewrite lookup_insert_ne; [by apply Hf|].
  intros ->. apply Hp, list_elem_of_fmap. eauto.
Qed.
Lemma stored_delete (h : gmap Z vmarea) p xs :
  p ∉ xs.*1 -> Forall (fun x => h !! x.1 = Some x.2) xs ->
  Forall (fun x => delete p h !! x.1 = Some x.2) xs.
Proof.
  rewrite !Forall_forall. intros Hp Hf x Hx. rewrite lookup_delete_ne; [by apply Hf|].
  intros ->. apply Hp, list_elem_of_fmap. eauto.
Qed.

(** The state after [vmmap_insert] put [p] on the list. *)
Definition inserted_at s (m p : Z) (a : vmarea) (mp : vmmap) : vms :=
  upd_vmaps (<[m := mp]>) (upd_areas (<[p := with_vmmap m a]>) s).

Lemma vmmap_insert_run s m xs ys p a :
  map_rep s m (xs ++ ys) -> areas s !! p = Some a -> p ∉ (xs ++ ys).*1 -> p <> 0 ->
  vma_vmmap a = 0 -> LOW_PN <= vma_start a -> vma_start a < vma_end a -> vma_end a <= HIGH_PN ->
  Forall (fun b => vma_start b < vma_end a) xs.*2 ->
  (forall b, head ys.*2 = Some b -> vma_end a <= vma_start b) ->
  exists mp, vmmap_insert m p s = Ok (tt, inserted_at s m p a mp) /\
    list_items (vmm_list mp) = xs.*1 ++ p :: ys.*1.
Proof.
  intros (H0 & Hnd & Hf & mp & Hmp & Hi) Ha Hp Hp0 Hv Hlo Hne Hhi Hx Hy. unfold vmmap_insert.
  rewrite (mbind_run _ _ _ tt s).
  2:{ apply KASSERT_true. by rewrite !(proj2 (Z.eqb_neq _ 0)). }
  rewrite (mbind_run _ _ _ _ _ (load_area_run _ _ _ Ha)).
  do 3 (rewrite (mbind_run _ _ _ tt s);
    [|apply KASSERT_true; rewrite ?andb_true_iff, ?Z.eqb_eq, ?Z.ltb_lt, ?Z.leb_le; done || lia]).
  rewrite (mbind_run _ _ _ _ _ (store_area_run _ _ _ _ Ha)).
  set (s1 := upd_areas _ s). rewrite (mbind_run _ _ _ mp s1) by by apply load_map_run.
  assert (stored s1 (xs ++ ys)) as Hf1 by by apply stored_insert.
  rewrite Hi, (mbind_run _ _ _ _ _ (insert_point_run s1 xs ys _ Hf1 Hx Hy)).
  destruct ys as [|[w b] ys]; cbn [head fmap option_fmap option_map fst].
  - eexists. split; [by apply store_list_run|]. cbn.
    by rewrite items_insert_tail, Hi, app_nil_r by by rewrite Hi.
  - eexists. split; [by apply store_list_run|]. cbn.
    rewrite fmap_app in *. cbn in *.
    apply items_insert_before; [by rewrite Hi | done |]. by apply NoDup_app_cons_notin in Hnd as [? _].
Qed.

Lemma inserted_rep s m xs ys p a mp :
  map_rep s m (xs ++ ys) -> p ∉ (xs ++ ys).*1 -> list_items (vmm_list mp) = xs.*1 ++ p :: ys.*1 ->
  map_rep (inserted_at s m p a mp) m (xs ++ (p, with_vmmap m a) :: ys).
Proof.
  intros (H0 & Hnd & Hf & mp0 & Hmp & Hi) Hp Hl. unfold inserted_at. split_and!; [done| | |].
  - rewrite <- Permutation_middle. cbn. by apply NoDup_cons.
  - cbn. apply (stored_insert _ p (with_vmmap m a)) in Hf; [|done].
    rewrite Forall_app in *. destruct Hf. split; [done|]. constructor; [|done].
    cbn. by rewrite lookup_insert_eq.
  - exists mp. cbn. rewrite lookup_insert_eq, Hl. split; [done|]. by rewrite fmap_app.
Qed.

(** [vmmap_insert] adds a new area whose pages are free: the invariant
    is preserved (the area's reference now belongs to the address space), the
    abstract address space gains exactly the pages of the area, and other address spaces are untouched.  An area that is empty,
    outside user memory, or already part of a map makes the kernel panic. *)
Theorem vmmap_insert_correct s m vs R p a :
  vm_inv s m vs (vma_obj a :: R) -> areas s !! p = Some a -> p ∉ vs.*1 -> p <> 0 ->
  if decide (vma_vmmap a = 0 /\ LOW_PN <= vma_start a /\ vma_start a < vma_end a /\ vma_end a <= HIGH_PN) then
    range_free vs.*2 (vma_start a) (vma_end a - vma_start a) ->
    exists s' vs', vmmap_insert m p s = Ok (tt, s') /\ vm_inv s' m vs' R /\
      (forall vfn, amap vs'.*2 vfn = if decide (covers a vfn) then Some (page_of a vfn) else amap vs.*2 vfn) /\
      vframe s s' m [p]
  else vmmap_insert m p s = Err FAssert.
Proof.
  intros (Hm & Hz & Hok & Hvm & Ho) Ha Hp Hp0. case_decide as Hc.
  - destruct Hc as (Hv & Hlo & Hne & Hhi). intros Hfree.
    destruct (areas_ok_place LOW_PN vs.*2 HIGH_PN (with_vmmap m a)) as (us & ws & E & Hok' & Hus & Hws); try done.
    { intros vfn Hvf. apply Hfree. unfold covers in Hvf. cbn in Hvf. lia. }
    apply fmap_app_inv in E as (xs & ys & -> & -> & ->).
    destruct (vmmap_insert_run s m xs ys p a) as (mp & Hr & Hl); try done.
    pose proof (inserted_rep s m xs ys p a mp Hm Hp Hl) as Hm'.
    exists (inserted_at s m p a mp), (xs ++ (p, with_vmmap m a) :: ys). split; [done|].
    rewrite fmap_app in *. cbn [fmap list_fmap snd] in *. split_and!; [|..].
    + split_and!; [done | cbn; by rewrite lookup_insert_ne | by rewrite fmap_app | |].
      * rewrite fmap_app. cbn. rewrite Forall_app in *. destruct Hvm. by repeat constructor.
      * rewrite fmap_app. cbn. eapply owns_perm; [|exact Ho]. rewrite !map_app. cbn.
        by rewrite <- !app_assoc, <- Permutation_middle.
    + intros vfn. rewrite fmap_app. cbn [fmap list_fmap snd]. rewrite amap_place; [done|].
      intros Hcv. apply Hfree. unfold covers in Hcv. cbn in Hcv. lia.
    + split; [|intros m' Hne'; cbn; by rewrite lookup_insert_ne].
      intros x Hx _. cbn. rewrite lookup_insert_ne; set_solver.
  - unfold vmmap_insert. rewrite (mbind_run _ _ _ tt s).
    2:{ apply KASSERT_true. destruct Hm as [H0 _]. by rewrite !(proj2 (Z.eqb_neq _ 0)). }
    rewrite (mbind_run _ _ _ _ _ (load_area_run _ _ _ Ha)). unfold KASSERT, mguard, mbind_.
    destruct (Z.eqb_spec (vma_vmmap a) 0); [|done]. cbn.
    destruct (Z.ltb_spec (vma_start a) (vma_end a)); [|done]. cbn.
    destruct (Z.leb_spec LOW_PN (vma_start a)); [|done]. destruct (Z.leb_spec (vma_end a) HIGH_PN); [|done].
    exfalso. apply Hc. lia.
Qed.

(** *** Unmapping *)
(** The parts of the state that the list operations never change. *)
Definition same_env s s' : Prop :=
  mmu s' = mmu s /\ curproc s' = curproc s /\ kt_errno s' = kt_errno s.

Lemma olink_remove_run s v a :
  areas s !! v = Some a ->
  exists f, olink_remove v s = Ok (tt, upd_ovmas f (upd_areas (<[v := with_olink None a]>) s)).
Proof.
  intros Ha. unfold olink_remove. rewrite (mbind_run _ _ _ _ _ (load_area_run _ _ _ Ha)).
  destruct (vma_olink a) as [o|] eqn:E.
  - eexists. unfold mput at 1. unfold mbind_ at 1. by rewrite (store_area_run _ _ _ a).
  - exists id. destruct s, a. cbn in *. subst. unfold upd_ovmas, upd_areas, with_olink. cbn.
    by rewrite insert_id.
Qed.

Lemma map_rep_update s m xs v a a' ys :
  map_rep s m (xs ++ (v, a) :: ys) ->
  map_rep (upd_areas (<[v := a']>) s) m (xs ++ (v, a') :: ys).
Proof.
  intros (H0 & Hnd & Hf & mp & Hmp & Hi). rewrite fmap_app in *. cbn in *.
  destruct (NoDup_app_cons_notin _ _ _ Hnd) as [Hx Hy].
  apply Forall_app in Hf as [Hf1 Hf2]. apply Forall_cons in Hf2 as [_ Hf2].
  split_and!; [done | by rewrite fmap_app | | by exists mp; rewrite fmap_app].
  apply Forall_app. split; [by apply stored_insert|].
  constructor; [cbn; by rewrite lookup_insert_eq | by apply stored_insert].
Qed.

(** Removing a member and freeing its area. *)
Lemma unlink_area_run s m xs v a ys :
  map_rep s m (xs ++ (v, a) :: ys) -> areas s !! 0 = None ->
  forall R, owns (objs s) (vma_obj a :: R) ->
  exists s', drop_area m v s = Ok (tt, s') /\
    map_rep s' m (xs ++ ys) /\ areas s' = delete v (areas s) /\ owns (objs s') R /\
    same_env s s' /\ (forall m', m' <> m -> vmaps s' !! m' = vmaps s !! m').
Proof.
  intros (H0 & Hnd & Hf & mp & Hmp & Hi) Hz R Ho. rewrite fmap_app in *. cbn in Hi, Hnd.
  destruct (NoDup_app_cons_notin _ _ _ Hnd) as [Hx Hy].
  apply Forall_app in Hf as [Hf1 Hf2]. apply Forall_cons in Hf2 as [Ha Hf2]. cbn in Ha.
  unfold drop_area. rewrite (mbind_run _ _ _ _ _ (store_list_run _ _ _ _ Hmp)).
  set (s1 := upd_vmaps _ s). destruct (olink_remove_run s1 v a Ha) as [f Hol].
  rewrite (mbind_run _ _ _ _ _ Hol). set (s2 := upd_ovmas f _).
  rewrite (mbind_run _ _ _ (with_olink None a) s2).
  2:{ apply load_area_run. cbn. by rewrite lookup_insert_eq. }
  change (vma_obj (with_olink None a)) with (vma_obj a).
  destruct (mmo_put_ok (objs s2) R (vma_obj a) Ho) as (st & Hput & Ho').
  rewrite (mbind_run _ _ _ _ _ (mmo_call_run _ _ _ _ (owns_nonnull _ _ _ Ho) Hput)).
  unfold vmarea_free. rewrite (mbind_run _ _ _ tt (upd_objs st s2)).
  2:{ apply KASSERT_true. rewrite (proj2 (Z.eqb_neq v 0)); [done|]. by intros ->; congruence. }
  rewrite (mbind_run _ _ _ (with_olink None a) (upd_objs st s2)).
  2:{ apply load_area_run. cbn. by rewrite lookup_insert_eq. }
  eexists. split; [reflexivity|]. cbn.
  split_and!; [|by rewrite delete_insert_eq | done | done |].
  - split_and!; [done| | |].
    + rewrite fmap_app. by apply NoDup_app_cons_del in Hnd.
    + cbn. rewrite delete_insert_eq. apply stored_delete; [rewrite fmap_app; set_solver|].
      apply Forall_app. done.
    + eexists. cbn. rewrite lookup_insert_eq. split; [done|]. cbn. rewrite fmap_app.
      by apply items_remove; [|set_solver].
  - intros m' Hm'. by rewrite lookup_insert_ne.
Qed.

Lemma vmarea_alloc_run s p :
  slab_pick (areas s) = Some p ->
  vmarea_alloc s = Ok (p, upd_areas (<[p := mkArea 0 0 0 0 0 0 0 None]>) s).
Proof. unfold vmarea_alloc. by intros ->. Qed.

(** The split: a new area for the part after the hole. *)
Lemma split_area_run s m xs v a ys lo e :
  (forall h : gmap Z vmarea, is_Some (slab_pick h)) ->
  map_rep s m (xs ++ (v, a) :: ys) -> areas s !! 0 = None -> vma_vmmap a = m ->
  areas_ok LOW_PN (xs ++ (v, a) :: ys).*2 HIGH_PN -> lo <= e -> e < vma_end a -> vma_start a < lo ->
  forall R, owns (objs s) (vma_obj a :: R) ->
  let a2 := with_olink None (with_start e (with_off (u32 (vma_off a + e - vma_start a)) a)) in
  exists p s', remove_area m lo e v s = Ok (tt, s') /\
    map_rep s' m (xs ++ (v, with_end lo a) :: (p, a2) :: ys) /\ areas s' !! 0 = None /\
    owns (objs s') (vma_obj a :: vma_obj a :: R) /\ same_env s s' /\ vframe s s' m [v].
Proof.
  intros Htot Hm Hz Hv Hok Hle He Hs R Ho a2. pose proof Hm as (H0 & Hnd & Hf & _).
  assert (areas s !! v = Some a) as Ha.
  { rewrite Forall_forall in Hf. apply (Hf (v, a)). set_solver. }
  destruct (Htot (areas s)) as [p Hp]. destruct (slab_fresh _ _ Hp) as [Hp0 Hpn].
  unfold remove_area. rewrite (mbind_run _ _ _ _ _ (load_area_run _ _ _ Ha)).
  rewrite (proj2 (Z.ltb_lt _ _) He), (proj2 (Z.ltb_lt _ _) Hs). cbn [andb].
  rewrite (mbind_run _ _ _ _ _ (vmarea_alloc_run _ _ Hp)).
  rewrite (mbind_run _ _ _ _ _ (store_area_run _ p _ _ (lookup_insert_eq _ _ _))).
  set (b := mkArea e _ _ _ _ _ _ _). set (s1 := upd_areas _ (upd_areas _ s)).
  assert (p ∉ (xs ++ (v, a) :: ys).*1) as Hpv.
  { rewrite Forall_forall in Hf. intros ([w c] & Ew & Hin)%list_elem_of_fmap. cbn in Ew. subst w.
    specialize (Hf _ Hin). cbn in Hf. congruence. }
  assert (map_rep s1 m ((xs ++ [(v, a)]) ++ ys)) as Hm1.
  { rewrite <- app_assoc. destruct Hm as (_ & _ & _ & mp & Hmp). split_and!; [done..| |by exists mp].
    do 2 (apply stored_insert; [done|]). done. }
  rewrite fmap_app in Hok. apply areas_ok_app in Hok as (mid & Hx & Hm1' & Hm2 & Hy).
  cbn in Hm1', Hm2. assert (LOW_PN <= mid) by by eapply areas_ok_le. pose proof (areas_ok_le _ _ _ Hy).
  destruct (vmmap_insert_run s1 m (xs ++ [(v, a)]) ys p b) as (mp & Hins & Hl); try done; cbn; try lia.
  { by rewrite lookup_insert_eq. } { by rewrite <- app_assoc. }
  { rewrite fmap_app. apply Forall_app. split; [|repeat constructor; cbn; lia].
    apply Forall_forall. intros c Hc. destruct (areas_ok_bounds _ _ _ _ Hx Hc). lia. }
  { destruct ys as [|[w c] ys]; [done|]. cbn in Hy |- *. intros ? [= <-]. lia. }
  rewrite (mbind_run _ _ _ _ _ Hins).
  destruct (mmo_ref_ok (objs s) _ (vma_obj a) Ho ltac:(by left)) as (st & Href & Ho').
  rewrite (mbind_run _ _ _ _ _ (mmo_call_run _ (inserted_at s1 m p b mp) _ _ (owns_nonnull _ _ _ Ho) Href)).
  assert (p <> v) as Hpv' by (intros ->; congruence).
  rewrite (store_area_run _ v _ a) by (cbn; by rewrite !lookup_insert_ne).
  exists p. eexists. split; [done|].
  pose proof (inserted_rep s1 m (xs ++ [(v, a)]) ys p b mp Hm1 ltac:(by rewrite <- app_assoc) Hl) as Hrep.
  rewrite <- app_assoc in Hrep. apply (map_rep_update _ _ _ _ _ (with_end lo a)) in Hrep.
  split_and!; try done.
  - replace a2 with (with_vmmap m b); [exact Hrep|]. unfold a2, b. destruct a. cbn in *. by subst.
  - cbn. rewrite !lookup_insert_ne; congruence.
  - split; [|intros m' Hne; cbn; by rewrite lookup_insert_ne].
    intros x Hx' [c Hc]. cbn. rewrite !lookup_insert_ne; [done|..]; intros ->; set_solver.
Qed.

Lemma vframe_update s m v a' : vframe s (upd_areas (<[v := a']>) s) m [v].
Proof.
  split; [|done]. intros x Hx _. cbn. rewrite lookup_insert_ne; set_solver.
Qed.
Lemma vframe_mono s s' m A B : A ⊆ B -> vframe s s' m A -> vframe s s' m B.
Proof. intros HAB [H1 H2]. split; [|done]. intros x Hx. apply H1. set_solver. Qed.

(** The step from [s] to [s'] replaced one area, [v], by [zs]. *)
Definition area_step s s' (m v : Z) xs zs ys (R : list Z) : Prop :=
  map_rep s' m (xs ++ zs ++ ys) /\ areas s' !! 0 = None /\
  owns (objs s') (map vma_obj zs.*2 ++ R) /\ same_env s s' /\ vframe s s' m [v].

Lemma area_step_update s m xs v a a' ys R :
  map_rep s m (xs ++ (v, a) :: ys) -> areas s !! 0 = None -> v <> 0 ->
  vma_obj a' = vma_obj a -> owns (objs s) (vma_obj a :: R) ->
  area_step s (upd_areas (<[v := a']>) s) m v xs [(v, a')] ys R.
Proof.
  intros Hm Hz Hv E Ho. split_and!; try done.
  - by eapply map_rep_update.
  - cbn. by rewrite lookup_insert_ne.
  - cbn. by rewrite E.
  - apply vframe_update.
Qed.

(** The tests of the loop body as propositions, for an area that is not
    split. *)
Lemma remove_area_cases s m lo e v a :
  areas s !! v = Some a -> ~ (e < vma_end a /\ vma_start a < lo) ->
  remove_area m lo e v s =
  (if decide (vma_end a <= e /\ vma_start a < lo /\ lo < vma_end a) then store_area v (with_end lo)
   else if decide (e < vma_end a /\ lo <= vma_start a /\ vma_start a < e) then
     store_area v (fun a => with_start e (with_off (u32 (vma_off a + (e - vma_start a))) a))
   else if decide (vma_end a <= e /\ lo <= vma_start a) then
     drop_area m v
   else mret_ tt) s.
Proof.
  intros Ha Hn. unfold remove_area. rewrite (mbind_run _ _ _ _ _ (load_area_run _ _ _ Ha)).
  repeat match goal with
  | |- context [Z.ltb ?x ?y] => destruct (Z.ltb_spec x y); try lia
  | |- context [Z.leb ?x ?y] => destruct (Z.leb_spec x y); try lia
  end; cbn [andb]; repeat case_decide; done || lia.
Qed.

(** One iteration of the loop of [vmmap_remove] replaces an area by what
    [cut] leaves of it, and moves the references accordingly. *)
Lemma remove_area_run s m xs v a ys lo e :
  (forall h : gmap Z vmarea, is_Some (slab_pick h)) ->
  map_rep s m (xs ++ (v, a) :: ys) -> areas s !! 0 = None -> vma_vmmap a = m ->
  areas_ok LOW_PN (xs ++ (v, a) :: ys).*2 HIGH_PN -> lo <= e ->
  forall R, owns (objs s) (vma_obj a :: R) ->
  exists zs s', remove_area m lo e v s = Ok (tt, s') /\ zs.*2 = cut lo e a /\
    area_step s s' m v xs zs ys R.
Proof.
  intros Htot Hm Hz Hv Hok Hle R Ho. pose proof Hm as (_ & _ & Hf & _).
  assert (areas s !! v = Some a) as Ha.
  { rewrite Forall_forall in Hf. apply (Hf (v, a)). set_solver. }
  assert (v <> 0) as Hv0 by congruence. unfold cut.
  destruct (decide (e < vma_end a /\ vma_start a < lo)) as [[He Hs]|H1].
  { destruct (split_area_run s m xs v a ys lo e Htot Hm Hz Hv Hok Hle He Hs R Ho) as (p & s' & Hr & Hm' & Hrest).
    eexists [(_, _); (_, _)], s'. split; [exact Hr|]. split; [|split; [exact Hm' | exact Hrest]]. done. }
  rewrite (remove_area_cases s m lo e v a Ha H1). repeat case_decide.
  - exists [(v, with_end lo a)]. eexists. split; [by apply store_area_run|]. split; [done|].
    by eapply area_step_update.
  - eexists [(v, _)], _. split; [by apply store_area_run|]. split; [done|].
    by eapply area_step_update.
  - destruct (unlink_area_run s m xs v a ys Hm Hz R Ho) as (s' & Hr & Hm' & Ea & Ho' & Henv & Hmaps).
    exists [], s'. split; [done|]. split; [done|]. split_and!; try done.
    + rewrite Ea. by rewrite lookup_delete_ne.
    + split; [|done]. intros x Hx _. rewrite Ea, lookup_delete_ne; set_solver.
  - exists [(v, a)], s. split; [done|]. split; [done|]. by split_and!.
Qed.

Lemma same_env_trans s s' s'' : same_env s s' -> same_env s' s'' -> same_env s s''.
Proof. intros (? & ? & ?) (? & ? & ?). split_and!; congruence. Qed.

(** The loop: the areas already visited are [xs], those still to visit [ys]. *)
Lemma remove_loop_run s m xs ys lo e R :
  (forall h : gmap Z vmarea, is_Some (slab_pick h)) -> lo <= e ->
  vm_inv s m (xs ++ ys) R ->
  exists s' ws, remove_loop m lo e ys.*1 s = Ok (tt, s') /\ vm_inv s' m (xs ++ ws) R /\
    ws.*2 = flat_map (cut lo e) ys.*2 /\ same_env s s' /\ vframe s s' m ys.*1.
Proof.
  intros Htot Hle. revert s xs. induction ys as [|[v a] ys IH]; intros s xs Hinv.
  { exists s, []. by split_and!. }
  destruct Hinv as (Hm & Hz & Hok & Hvm & Ho). cbn [remove_loop fmap list_fmap fst snd flat_map].
  assert (vma_vmmap a = m) as Hva.
  { rewrite Forall_forall in Hvm. apply Hvm. rewrite fmap_app. set_solver. }
  set (R' := map vma_obj (xs ++ ys).*2 ++ R).
  destruct (remove_area_run s m xs v a ys lo e Htot Hm Hz Hva Hok Hle R') as (zs & s1 & Hr & Ezs & Hm1 & Hz1 & Ho1 & He1 & Hf1).
  { eapply owns_perm; [|exact Ho]. unfold R'. rewrite !fmap_app, ?map_app. cbn.
    by rewrite <- Permutation_middle. }
  rewrite (mbind_run _ _ _ _ _ Hr).
  assert (forall b, b ∈ cut lo e a -> vma_vmmap b = m) as Hcut.
  { unfold cut. repeat case_decide; set_solver. }
  destruct (IH s1 (xs ++ zs)) as (s' & ws & Hl & Hinv & Ews & He2 & Hf2).
  { rewrite <- app_assoc. split_and!; try done.
    - rewrite !fmap_app in *. cbn in Hok. rewrite Ezs. apply areas_ok_app in Hok as (mid & Hx & H1 & H2 & H3).
      apply areas_ok_app. exists mid. split; [done|]. apply areas_ok_app. exists (vma_end a).
      split; [|done]. apply cut_ok; [done|]. cbn in *. lia.
    - rewrite !fmap_app, !Forall_app, Ezs in *. destruct Hvm as [? Hvm]. apply Forall_cons in Hvm as [_ ?].
      split_and!; [done| |done]. by apply Forall_forall.
    - eapply owns_perm; [|exact Ho1]. unfold R'. rewrite !fmap_app, ?map_app.
      rewrite <- !app_assoc. by rewrite !(Permutation_app_swap_app (map vma_obj zs.*2)). }
  exists s', (zs ++ ws). rewrite fmap_app, Ezs, Ews. rewrite <- app_assoc in Hinv.
  split_and!; [done..| |].
  - by eapply same_env_trans.
  - eapply vframe_trans; [eapply vframe_mono; [|exact Hf1] | eapply vframe_mono; [|exact Hf2]]; set_solver.
Qed.

(** What unmapping the pages [lo <= vfn < lo + n] of map [m] achieves. *)
Definition unmapped s s' (m : Z) vs vs' lo n : Prop :=
  (forall vfn, amap vs'.*2 vfn = if decide (lo <= vfn < lo + n) then None else amap vs.*2 vfn) /\
  (forall vfn, tlb_entry (mmu s') vfn = None) /\
  (forall vfn, pt_entry (mmu s') (p_pagedir (curproc s)) vfn =
     if decide (lo <= vfn < lo + n) then None else pt_entry (mmu s) (p_pagedir (curproc s)) vfn) /\
  curproc s' = curproc s /\ kt_errno s' = kt_errno s /\ vframe s s' m vs.*1.

Lemma vmmap_remove_run s m vs R lo n :
  (forall h : gmap Z vmarea, is_Some (slab_pick h)) ->
  vm_inv s m vs R -> 0 <= lo -> 0 <= n -> lo + n <= HIGH_PN ->
  exists s' vs', vmmap_remove m lo n s = Ok (0, s') /\ vm_inv s' m vs' R /\
    vs'.*2 = flat_map (cut lo (lo + n)) vs.*2 /\ unmapped s s' m vs vs' lo n.
Proof.
  intros Htot Hinv Hlo Hn Hhi. destruct high_pn_u32 as (? & ? & ?). unfold vmmap_remove.
  rewrite u32_small by lia.
  pose proof Hinv as ((_ & _ & _ & mp & Hmp & Hi) & _ & Hok & _).
  rewrite (mbind_run _ _ _ _ _ (load_map_run _ _ _ Hmp)), Hi.
  destruct (remove_loop_run s m [] vs lo (lo + n) R Htot ltac:(lia) Hinv)
    as (s1 & ws & Hr & Hinv1 & Ews & (E1 & E2 & E3) & Hf).
  rewrite (mbind_run _ _ _ _ _ Hr). unfold mput, mget, mret_, mbind_.
  eexists. exists ws. split; [reflexivity|]. split; [exact Hinv1|]. split; [done|].
  rewrite !pn_to_addr by lia. split_and!; try done; cbn.
  - intros vfn. rewrite Ews. by eapply flat_map_cut_amap; [lia|].
  - intros vfn. by rewrite pt_unmap_range_tlb, tlb_flush_all_tlb.
  - intros vfn. rewrite E2, pt_unmap_range_pt, tlb_flush_all_pt, E1 by lia. done.
Qed.

(** C2: [vmmap_remove] implements unmapping: it always succeeds, afterwards
    exactly the pages of the range are unmapped and every other page is
    mapped as before (whichever of the four cases each area falls into), the
    invariant holds and one reference is held per area, no stale translation
    of the range is left in the page table or the TLB, and other address
    spaces are untouched. *)
Theorem vmmap_remove_correct s m vs R lo n m' ws :
  (forall h : gmap Z vmarea, is_Some (slab_pick h)) ->
  vm_inv s m vs R -> 0 <= lo -> 0 <= n -> lo + n <= HIGH_PN ->
  m' <> m -> map_rep s m' ws -> (forall x, x ∈ ws.*1 -> x ∉ vs.*1) ->
  exists s' vs', vmmap_remove m lo n s = Ok (0, s') /\ vm_inv s' m vs' R /\
    (forall vfn, amap vs'.*2 vfn = if decide (lo <= vfn < lo + n) then None else amap vs.*2 vfn) /\
    (forall vfn, lo <= vfn < lo + n -> tlb_entry (mmu s') vfn = None /\
       pt_entry (mmu s') (p_pagedir (curproc s)) vfn = None) /\
    map_rep s' m' ws.
Proof.
  intros Htot Hinv Hlo Hn Hhi Hne Hws Hd.
  destruct (vmmap_remove_run s m vs R lo n Htot Hinv Hlo Hn Hhi)
    as (s' & vs' & Hr & Hinv' & _ & Hmap & Htlb & Hpt & _ & _ & Hf).
  exists s', vs'. split_and!; [done..| |].
  - intros vfn Hv. split; [apply Htlb|]. by rewrite Hpt, decide_True.
  - by eapply map_rep_frame.
Qed.

(** *** Cloning *)
Definition cloned (m : Z) (a : vmarea) : vmarea :=
  mkArea (vma_start a) (vma_end a) (vma_off a) (vma_prot a) (vma_flags a) m 0 None.

Lemma clone_areas_run s m vs xs :
  (forall h : gmap Z vmarea, is_Some (slab_pick h)) ->
  map_rep s m xs -> stored s vs -> areas s !! 0 = None ->
  exists s' ws, clone_areas m vs.*1 s = Ok (tt, s') /\ map_rep s' m (xs ++ ws) /\
    ws.*2 = map (cloned m) vs.*2 /\ areas s' !! 0 = None /\ objs s' = objs s /\
    same_env s s' /\ vframe s s' m [].
Proof.
  intros Htot. revert s xs. induction vs as [|[v a] vs IH]; intros s xs Hm Hf Hz.
  { exists s, []. rewrite app_nil_r. by split_and!. }
  cbn [clone_areas fmap list_fmap fst snd]. apply Forall_cons in Hf as [Ha Hf]. cbn in Ha.
  destruct (Htot (areas s)) as [p Hp]. destruct (slab_fresh _ _ Hp) as [Hp0 Hpn].
  rewrite (mbind_run _ _ _ _ _ (vmarea_alloc_run _ _ Hp)).
  erewrite mbind_run; [|apply load_area_run; cbn; rewrite lookup_insert_ne by congruence; exact Ha].
  rewrite (mbind_run _ _ _ _ _ (store_area_run _ p _ _ (lookup_insert_eq _ _ _))).
  set (s1 := upd_areas _ (upd_areas _ s)). destruct Hm as (H0 & Hnd & Hfx & mp & Hmp & Hi).
  rewrite (mbind_run _ _ _ _ _ (store_list_run s1 m _ mp Hmp)). set (s2 := upd_vmaps _ s1).
  assert (forall ls, stored s ls -> p ∉ ls.*1) as Hfresh.
  { intros ls Hls ([w c] & Ew & Hin)%list_elem_of_fmap. cbn in Ew. subst w.
    rewrite Forall_forall in Hls. specialize (Hls _ Hin). cbn in Hls. congruence. }
  assert (forall ls, stored s ls -> stored s2 ls) as Hst.
  { intros ls Hls. cbn. do 2 (apply stored_insert; [by apply Hfresh|]). done. }
  destruct (IH s2 (xs ++ [(p, cloned m a)])) as (s' & ws & Hr & Hm' & Ew & Hz' & Hob & He & Hfr).
  { split_and!; [done| | |].
    - rewrite fmap_app. apply NoDup_app. cbn. split_and!; [done| |apply NoDup_singleton].
      intros x Hx ->%list_elem_of_singleton. by apply (Hfresh xs).
    - apply Forall_app. split; [by apply Hst|]. constructor; [|done]. cbn. by rewrite lookup_insert_eq.
    - eexists. cbn. rewrite lookup_insert_eq. split; [done|]. cbn.
      rewrite items_insert_tail, Hi by (rewrite Hi; by apply Hfresh). by rewrite fmap_app. }
  { by apply Hst. }
  { cbn. by rewrite !lookup_insert_ne. }
  exists s', ((p, cloned m a) :: ws). rewrite <- app_assoc in Hm'. cbn [fmap list_fmap snd map].
  split_and!; [done|done|by rewrite Ew|done|done|done|].
  destruct Hfr as [Hfa Hfm]. split.
  - intros x Hx [c Hc]. assert (x <> p) by congruence.
    rewrite Hfa; [cbn; by rewrite !lookup_insert_ne|done|]. cbn. rewrite !lookup_insert_ne by done. eauto.
  - intros m'' Hne. rewrite Hfm by done. cbn. by rewrite lookup_insert_ne.
Qed.

Lemma vmmap_clone_run s m vs :
  (forall h : gmap Z vmarea, is_Some (slab_pick h)) ->
  (forall h : gmap Z vmmap, is_Some (slab_pick h)) ->
  map_rep s m vs -> areas s !! 0 = None ->
  exists m' s' ws, vmmap_clone m s = Ok (m', s') /\ m' <> m /\ vmaps s !! m' = None /\
    map_rep s' m' ws /\ ws.*2 = map (cloned m') vs.*2 /\ areas s' !! 0 = None /\ objs s' = objs s /\
    same_env s s' /\ vframe s s' m' [].
Proof.
  intros Htot Htotm (H0 & Hnd & Hf & mp & Hmp & Hi) Hz.
  destruct (Htotm (vmaps s)) as [q Hq]. destruct (slab_fresh _ _ Hq) as [Hq0 Hqn].
  assert (q <> m) as Hqm by congruence. unfold vmmap_clone.
  unfold vmmap_create at 1. unfold mbind_ at 1. rewrite Hq.
  set (s1 := upd_vmaps _ s). rewrite (mbind_run _ _ _ mp s1).
  2:{ apply load_map_run. cbn. by rewrite lookup_insert_ne. }
  unfold mput at 1. unfold mbind_ at 1. rewrite Hi. set (s2 := upd_vmaps _ s1).
  destruct (clone_areas_run s2 q vs [] Htot) as (s' & ws & Hr & Hm' & Ew & Hz' & Hob & He & [Hfa Hfm]); [|done|done|].
  { split_and!; [done|apply NoDup_nil_2|constructor|]. eexists. cbn. rewrite lookup_insert_eq.
    split; [done|]. apply items_empty. }
  rewrite (mbind_run _ _ _ _ _ Hr). exists q, s', ws. split_and!; try done. split; [done|].
  intros m' Hne. rewrite Hfm by done. cbn. by rewrite !lookup_insert_ne.
Qed.

(** [vmmap_clone] gives a new map with a fresh area for each area of the
    original: the same page ranges, offsets, protections and flags, no object
    yet, linked to the new map; the original address space is unchanged. *)
Theorem vmmap_clone_correct s m vs R :
  (forall h : gmap Z vmarea, is_Some (slab_pick h)) ->
  (forall h : gmap Z vmmap, is_Some (slab_pick h)) ->
  vm_inv s m vs R ->
  exists m' s' ws, vmmap_clone m s = Ok (m', s') /\ m' <> m /\ vmaps s !! m' = None /\
    map_rep s' m' ws /\ ws.*2 = map (cloned m') vs.*2 /\ areas_ok LOW_PN ws.*2 HIGH_PN /\
    vm_inv s' m vs R.
Proof.
  intros Htot Htotm (Hm & Hz & Hok & Hvm & Ho).
  destruct (vmmap_clone_run s m vs Htot Htotm Hm Hz) as (q & s' & ws & Hr & Hq & Hqn & Hm' & Ew & Hz' & Hob & He & Hfr).
  exists q, s', ws. do 5 (split; [done|]). split.
  - rewrite Ew. clear -Hok. revert Hok. generalize LOW_PN as lo. induction vs.*2 as [|a us IH]; cbn; [done|].
    intros lo (? & ? & ?). split_and!; [done..|]. by apply IH.
  - split; [|by rewrite Hob]. eapply map_rep_frame; [exact Hfr | done | set_solver | done].
Qed.

(** *** Destruction *)
Lemma destroy_areas_run s m vs R :
  map_rep s m vs -> areas s !! 0 = None -> owns (objs s) (map vma_obj vs.*2 ++ R) ->
  exists s', destroy_areas m vs.*1 s = Ok (tt, s') /\ map_rep s' m [] /\ owns (objs s') R /\
    (forall x, areas s' !! x = if decide (x ∈ vs.*1) then None else areas s !! x) /\
    same_env s s' /\ (forall m', m' <> m -> vmaps s' !! m' = vmaps s !! m').
Proof.
  revert s. induction vs as [|[v a] vs IH]; intros s Hm Hz Ho.
  { exists s. split; [done|]. split; [done|]. split; [done|]. split; [|done].
    intros x. by rewrite decide_False by set_solver. }
  cbn [destroy_areas fmap list_fmap fst].
  destruct (unlink_area_run s m [] v a vs Hm Hz _ Ho) as (s1 & Hr & Hm1 & Ea & Ho1 & He1 & Hmaps1).
  rewrite (mbind_run _ _ _ _ _ Hr).
  destruct (IH s1 Hm1) as (s' & Hr' & Hm' & Ho' & Ha' & He' & Hmaps').
  { rewrite Ea. destruct (decide (v = 0)) as [->|]; [apply lookup_delete_eq | by rewrite lookup_delete_ne]. }
  { done. }
  exists s'. split; [done|]. split; [done|]. split; [done|]. split; [|split].
  - intros x. rewrite Ha', Ea. destruct (decide (x = v)) as [->|Hne].
    + rewrite (decide_True (P := v ∈ v :: _)) by by left. rewrite lookup_delete_eq. by case_decide.
    + rewrite lookup_delete_ne by done. repeat case_decide; set_solver.
  - by eapply same_env_trans.
  - intros m' Hne. by rewrite Hmaps', Hmaps1.
Qed.

Lemma vmmap_destroy_run s m vs R :
  vm_inv s m vs R ->
  exists s', vmmap_destroy m s = Ok (tt, s') /\ owns (objs s') R /\ vmaps s' !! m = None /\
    (forall x, areas s' !! x = if decide (x ∈ vs.*1) then None else areas s !! x) /\
    (forall m', m' <> m -> vmaps s' !! m' = vmaps s !! m').
Proof.
  intros (Hm & Hz & _ & _ & Ho). pose proof Hm as (H0 & _ & _ & mp & Hmp & Hi). unfold vmmap_destroy.
  rewrite (mbind_run _ _ _ tt s) by (apply KASSERT_true; by rewrite (proj2 (Z.eqb_neq m 0))).
  rewrite (mbind_run _ _ _ _ _ (load_map_run _ _ _ Hmp)), Hi.
  destruct (destroy_areas_run s m vs R Hm Hz Ho) as (s1 & Hr & (_ & _ & _ & mp' & Hmp' & _) & Ho' & Ha & _ & Hmaps).
  rewrite (mbind_run _ _ _ _ _ Hr), (mbind_run _ _ _ _ _ (load_map_run _ _ _ Hmp')).
  eexists. split; [done|]. cbn. split_and!; [done | by rewrite lookup_delete_eq | done |].
  intros m' Hne. by rewrite lookup_delete_ne, Hmaps.
Qed.

(** [vmmap_destroy] frees the map and all its areas, gives back exactly
    the references the address space held (no leak, no double put), and
    leaves all other maps and areas alone. *)
Theorem vmmap_destroy_correct s m vs R :
  vm_inv s m vs R ->
  exists s', vmmap_destroy m s = Ok (tt, s') /\ owns (objs s') R /\ vmaps s' !! m = None /\
    (forall x, areas s' !! x = if decide (x ∈ vs.*1) then None else areas s !! x) /\
    (forall m', m' <> m -> vmaps s' !! m' = vmaps s !! m').
Proof. apply vmmap_destroy_run. Qed.

(** *** Mapping *)
Lemma mguard_true {S} f (b : bool) (s : S) : b = true -> mguard b f s = Ok (tt, s).
Proof. by intros ->. Qed.

Lemma map_rep_ext s s' m vs :
  areas s' = areas s -> vmaps s' = vmaps s -> map_rep s m vs -> map_rep s' m vs.
Proof. unfold map_rep. by intros -> ->. Qed.
Lemma map_rep_lookup s m xs v a ys : map_rep s m (xs ++ (v, a) :: ys) -> areas s !! v = Some a.
Proof. intros (_ & _ & Hf & _). rewrite Forall_forall in Hf. apply (Hf (v, a)). set_solver. Qed.

Lemma vframe_ext s s' m A : areas s' = areas s -> vmaps s' = vmaps s -> vframe s s' m A.
Proof. intros E1 E2. split; intros; by rewrite ?E1, ?E2. Qed.

Lemma olink_insert_run s o p c :
  o <> 0 -> areas s !! p = Some c ->
  exists f, olink_insert o p s = Ok (tt, upd_areas (<[p := with_olink (Some o) c]>) (upd_ovmas f s)).
Proof.
  intros Ho Hp. unfold olink_insert. rewrite (proj2 (Z.eqb_neq o 0)) by done. cbn [negb].
  rewrite (mbind_run _ _ _ tt s eq_refl). eexists. unfold mput at 1. unfold mbind_ at 1.
  by apply store_area_run.
Qed.

(** The object behind a new mapping.  [o] is the object of the file, in area [v],
    or a new anonymous one; [st'] is the state after. *)
Definition back_object (file v : Z) (st : ost) (o : Z) (st' : ost) : Prop :=
  if decide (file = 0) then anon_create st = Ok (o, st') else exists e, 0 <= e /\ vn_mmap file v st = Ok ((e, o), st').
(** A private mapping gets a new shadow object [o'] over [o]. *)
Definition over_object (flags : Z) (st : ost) (o : Z) (st' : ost) (o' : Z) : Prop :=
  if flag flags MAP_PRIVATE then exists st1, shadow_create st = Ok (o', st1) /\
    (set_shadowed o' o ;;;
     let! b := mmobj_bottom_obj o in
     set_bottom o' b ;;;
     mmo_ref b) st1 = Ok (tt, st')
  else o' = o /\ st' = st.
Definition mapping_object (file v flags : Z) (st st' : ost) (o : Z) : Prop :=
  exists b st1, b <> 0 /\ o <> 0 /\ back_object file v st b st1 /\ over_object flags st1 b st' o.
(** An allocation that gives NULL. *)
Definition no_object (file flags : Z) : Prop := exists st Q st', owns st Q /\
  (file = 0 /\ anon_create st = Ok (0, st') \/ flag flags MAP_PRIVATE = true /\ shadow_create st = Ok (0, st')).

Lemma install_obj_run s m xs p c ys o flags R :
  map_rep s m (xs ++ (p, c) :: ys) -> areas s !! 0 = None -> owns (objs s) (o :: R) ->
  (exists s' o', install_obj p o flags s = Ok (tt, s') /\
    map_rep s' m (xs ++ (p, with_obj o' (with_olink (Some o) c)) :: ys) /\ areas s' !! 0 = None /\
    owns (objs s') (o' :: R) /\ over_object flags (objs s) o (objs s') o' /\ same_env s s' /\ vframe s s' m [p]) \/
  (install_obj p o flags s = Err FUndef /\ flag flags MAP_PRIVATE = true /\ exists st', shadow_create (objs s) = Ok (0, st')).
Proof.
  intros Hm Hz Ho. pose proof (map_rep_lookup _ _ _ _ _ _ Hm) as Hp. assert (p <> 0) by congruence.
  unfold install_obj. destruct (olink_insert_run s o p c (owns_nonnull _ _ _ Ho) Hp) as [f Hol].
  rewrite (mbind_run _ _ _ _ _ Hol). set (s1 := upd_areas _ _).
  assert (map_rep s1 m (xs ++ (p, with_olink (Some o) c) :: ys)) as Hm1 by by eapply map_rep_update.
  rewrite (mbind_run _ _ _ _ _ (store_area_run s1 p _ _ (map_rep_lookup _ _ _ _ _ _ Hm1))).
  set (s2 := upd_areas _ s1).
  assert (map_rep s2 m (xs ++ (p, with_obj o (with_olink (Some o) c)) :: ys)) as Hm2
    by by eapply map_rep_update.
  assert (areas s2 !! 0 = None) as Hz2 by (cbn; by rewrite !lookup_insert_ne).
  assert (vframe s s2 m [p]) as Hf2.
  { split; [|done]. intros x Hx _. cbn. rewrite !lookup_insert_ne; set_solver. }
  unfold over_object. destruct (flag flags MAP_PRIVATE); [|left; by exists s2, o].
  destruct (new_shadow_ok (objs s2) R o Ho) as (sh & st & Hsh & Hosh).
  rewrite (mbind_run _ _ _ _ _ (obj_op_run _ _ _ _ Hsh)).
  destruct (decide (sh = 0)) as [->|Hsh0]; [right; split; [done|]; split; [done|by exists st]|]. left.
  rewrite (proj2 (Z.eqb_neq sh 0)) in * by done. cbn [negb]. rewrite (mbind_run _ _ _ tt (upd_objs st s2) eq_refl).
  destruct Hosh as (st' & Hat & Ho').
  rewrite (mbind_run _ _ _ _ _ (obj_op_run _ (upd_objs st s2) _ _ Hat)).
  assert (map_rep (upd_objs st' (upd_objs st s2)) m (xs ++ (p, with_obj o (with_olink (Some o) c)) :: ys)) as Hm3
    by by eapply map_rep_ext; [..|exact Hm2].
  rewrite (store_area_run _ p _ _ (map_rep_lookup _ _ _ _ _ _ Hm3)).
  eexists _, sh. split; [done|]. split; [by apply (map_rep_update _ _ _ _ _ (with_obj sh (with_olink (Some o) c))) in Hm3|].
  split; [cbn; by rewrite !lookup_insert_ne|]. split; [done|]. split; [by exists st|]. split; [done|].
  split; [|done]. intros x Hx _. cbn. rewrite !lookup_insert_ne; set_solver.
Qed.

(** The new area is on the list, without an object. *)
Lemma new_area_run {A} s m vs R lo n prot flags off (k : Z -> M vms A) :
  (forall h : gmap Z vmarea, is_Some (slab_pick h)) -> vm_inv s m vs R ->
  LOW_PN <= lo -> 0 < n -> lo + n <= HIGH_PN -> range_free vs.*2 lo n ->
  let c := mkArea lo (lo + n) (ADDR_TO_PN (u32 off)) prot flags m 0 None in
  exists p s' xs ys, vs = xs ++ ys /\
    (let! vma := vmarea_alloc in
     store_area vma (fun a => mkArea lo (u32 (lo + n)) (ADDR_TO_PN (u32 off)) prot flags
                               (vma_vmmap a) (vma_obj a) None) ;;;
     vmmap_insert m vma ;;; k vma) s = k p s' /\
    map_rep s' m (xs ++ (p, c) :: ys) /\ areas_ok LOW_PN (xs ++ (p, c) :: ys).*2 HIGH_PN /\
    areas s' !! 0 = None /\ areas s !! p = None /\ p <> 0 /\ objs s' = objs s /\
    same_env s s' /\ vframe s s' m [].
Proof.
  intros Htot (Hm & Hz & Hok & Hvm & Ho) Hlo Hn Hhi Hfree c. destruct high_pn_u32 as (? & ? & ?).
  destruct (Htot (areas s)) as [p Hp]. destruct (slab_fresh _ _ Hp) as [Hp0 Hpn].
  assert (p ∉ vs.*1) as Hpv.
  { intros ([w d] & -> & Hin)%list_elem_of_fmap. destruct Hm as (_ & _ & Hf & _).
    rewrite Forall_forall in Hf. specialize (Hf _ Hin). cbn in *. congruence. }
  destruct (areas_ok_place LOW_PN vs.*2 HIGH_PN c) as (us & ws & E & Hok' & Hus & Hws); [done|done|unfold c; cbn; lia|done|done|].
  apply fmap_app_inv in E as (xs & ys & -> & -> & ->).
  set (b := mkArea lo (lo + n) (ADDR_TO_PN (u32 off)) prot flags 0 0 None).
  set (s1 := upd_areas (<[p := b]>) (upd_areas (<[p := mkArea 0 0 0 0 0 0 0 None]>) s)).
  assert (map_rep s1 m (xs ++ ys)) as Hm1.
  { destruct Hm as (? & Hnd & Hf & mp & Hmp). split_and!; [done..| |by exists mp].
    do 2 (apply stored_insert; [done|]). done. }
  destruct (vmmap_insert_run s1 m xs ys p b) as (mp & Hr & Hl); try done.
  { cbn. by rewrite lookup_insert_eq. } { cbn. lia. }
  exists p, (inserted_at s1 m p b mp), xs, ys. split; [done|]. split.
  { rewrite (mbind_run _ _ _ _ _ (vmarea_alloc_run _ _ Hp)).
    rewrite (mbind_run _ _ _ _ _ (store_area_run _ p _ _ (lookup_insert_eq _ _ _))).
    rewrite u32_small by lia. by rewrite (mbind_run _ _ _ _ _ Hr). }
  split; [by apply inserted_rep|]. split; [by rewrite fmap_app|].
  split; [cbn; by rewrite !lookup_insert_ne|].
  do 4 (split; [done|]). split.
  - intros x _ [d Hd]. cbn. rewrite !lookup_insert_ne; congruence.
  - intros m' Hne. cbn. by rewrite lookup_insert_ne.
Qed.

(** The object of the mapping: an anonymous one, or the one the file gives. *)
Lemma obj_of_file_run s file v R :
  owns (objs s) R ->
  exists e o st, (if file =? 0 then let! o := obj_op anon_create in mret_ (0, o)
                  else obj_op (vn_mmap file v)) s = Ok ((e, o), upd_objs st s) /\
    (e < 0 /\ file <> 0 /\ vn_mmap file v (objs s) = Ok ((e, o), st) \/
     0 <= e /\ o = 0 /\ file = 0 /\ anon_create (objs s) = Ok (0, st) \/
     0 <= e /\ owns st (o :: R) /\ back_object file v (objs s) o st).
Proof.
  intros Ho. unfold back_object. destruct (Z.eqb_spec file 0) as [->|Hf].
  - destruct (anon_create_ok _ _ Ho) as (o & st & Ha & Ho'). exists 0, o, st.
    rewrite (mbind_run _ _ _ _ _ (obj_op_run _ _ _ _ Ha)). split; [done|]. right.
    destruct (decide (o = 0)) as [->|H0]; [by left|right]. rewrite (proj2 (Z.eqb_neq o 0)) in Ho' by done. by rewrite decide_True.
  - destruct (vn_mmap_ok _ _ file v Ho) as (e & o & st & Hv & Ho'). exists e, o, st. split; [by apply obj_op_run|].
    destruct (Z.ltb_spec e 0); [by left|right; right]. rewrite decide_False by done. split; [done|]. split; [done|]. by exists e.
Qed.

(** The address space [vs'] maps the new range to the object [o]. *)
Definition mapped_over vs vs' lo n (o num prot flags : Z) : Prop :=
  forall vfn, amap vs'.*2 vfn =
    if decide (lo <= vfn < lo + n) then Some (mkPage o (u32 (num + vfn - lo)) prot flags)
    else amap vs.*2 vfn.

Inductive map_area_result s m vs R lo n prot flags off file (r : outcome (Z * Z * vms)) : Prop :=
  | area_done v s' vs' a o :
      r = Ok ((0, v), s') -> vm_inv s' m vs' R -> curproc s' = curproc s -> (v, a) ∈ vs' -> vma_start a = lo ->
      mapped_over vs vs' lo n o (ADDR_TO_PN (u32 off)) prot flags -> mapping_object file v flags (objs s) (objs s') o ->
      map_area_result s m vs R lo n prot flags off file r
  | area_file_fails e v o st s' :
      file <> 0 -> e < 0 -> vn_mmap file v (objs s) = Ok ((e, o), st) -> r = Ok ((e, 0), s') ->
      (forall vfn, lo <= vfn -> vmmap_lookup m vfn s' = Err FUndef) -> map_area_result s m vs R lo n prot flags off file r
  | area_no_object :
      r = Err FUndef -> no_object file flags -> map_area_result s m vs R lo n prot flags off file r.

Lemma lookup_loop_dangling s xs p r vfn :
  stored s xs -> (forall x, x ∈ xs -> ~ covers x.2 vfn) -> areas s !! p = None ->
  lookup_loop (xs.*1 ++ p :: r) vfn s = Err FUndef.
Proof.
  intros Hf Hn Hp. induction Hf as [|[v a] xs Ha _ IH]; cbn [fmap list_fmap app lookup_loop fst].
  - apply mbind_err. unfold load_area. by rewrite Hp.
  - rewrite (mbind_run _ _ _ _ _ (load_area_run _ _ _ Ha)). cbn [snd].
    assert (~ covers a vfn) as Hc by (apply (Hn (v, a)); by left). unfold covers in Hc.
    assert ((vfn <? vma_end a) && (vma_start a <=? vfn) = false) as ->.
    { apply andb_false_iff. rewrite Z.ltb_ge, Z.leb_gt. lia. }
    apply IH. intros x Hx. apply Hn. by right.
Qed.
Lemma vmarea_free_run s v a :
  v <> 0 -> areas s !! v = Some a -> vmarea_free v s = Ok (tt, upd_areas (delete v) s).
Proof.
  intros Hv Ha. unfold vmarea_free. rewrite (proj2 (Z.eqb_neq v 0)) by done.
  rewrite (mbind_run _ _ _ tt s eq_refl). by rewrite (mbind_run _ _ _ _ _ (load_area_run _ _ _ Ha)).
Qed.
(** The new area freed while it is on the list of the map. *)
Lemma lookup_freed s m xs p c ys vfn st :
  m <> 0 -> map_rep s m (xs ++ (p, c) :: ys) -> areas_ok LOW_PN (xs ++ (p, c) :: ys).*2 HIGH_PN -> vma_start c <= vfn ->
  vmmap_lookup m vfn (upd_areas (delete p) (upd_objs st s)) = Err FUndef.
Proof.
  intros Hm0 (_ & Hnd & Hf & mp & Hmp & Hi) Hok Hvfn. apply Forall_app in Hf as [Hfx _]. unfold vmmap_lookup.
  rewrite (mbind_run _ _ _ tt _) by (apply KASSERT_true; by rewrite (proj2 (Z.eqb_neq m 0))).
  erewrite mbind_run by (apply load_map_run; exact Hmp). rewrite Hi, fmap_app.
  rewrite fmap_app in Hnd. destruct (NoDup_app_cons_notin _ _ _ Hnd) as [Hpx _].
  apply lookup_loop_dangling; [by apply stored_delete| |cbn; by rewrite lookup_delete_eq].
  intros [w a] Hin Hcov. rewrite fmap_app in Hok. apply areas_ok_app in Hok as (mid & Hx & Hmid & _).
  destruct (areas_ok_bounds _ _ _ a Hx) as (_ & _ & Hend); [apply list_elem_of_fmap; by exists (w, a)|].
  unfold covers in Hcov. cbn in *. lia.
Qed.

Lemma map_area_run s m vs R lo n prot flags off file :
  (forall h : gmap Z vmarea, is_Some (slab_pick h)) -> vm_inv s m vs R ->
  LOW_PN <= lo -> 0 < n -> lo + n <= HIGH_PN -> range_free vs.*2 lo n ->
  map_area_result s m vs R lo n prot flags off file (map_area m file lo n prot flags off s).
Proof.
  intros Htot Hinv Hlo Hn Hhi Hfree. unfold map_area. assert (m <> 0) as Hm0 by apply Hinv.
  destruct (new_area_run s m vs R lo n prot flags off (back_area file flags) Htot Hinv Hlo Hn Hhi Hfree)
    as (p & s1 & xs & ys & -> & Hr & Hm & Hok & Hz & Hpn & Hp0 & Eo & (_ & Hcp & _) & Hf).
  set (c := mkArea _ _ _ _ _ _ _ _) in *. rewrite Hr. unfold back_area. clear Hr.
  destruct Hinv as (_ & _ & _ & Hvm & Ho).
  destruct (obj_of_file_run s1 file p (map vma_obj (xs ++ ys).*2 ++ R)) as (e & o & st & Hob & Hcase); [by rewrite Eo|].
  rewrite (mbind_run _ _ _ _ _ Hob).
  assert (map_rep (upd_objs st s1) m (xs ++ (p, c) :: ys)) as Hm1 by by eapply map_rep_ext; [..|exact Hm].
  pose proof (map_rep_lookup _ _ _ _ _ _ Hm1) as Hpc. destruct Hcase as [(He & Hfile & Hv)|[(He & -> & -> & Ha)|(He & Ho1 & Hb)]].
  { rewrite (proj2 (Z.ltb_lt e 0)), (mbind_run _ _ _ _ _ (vmarea_free_run (upd_objs st s1) p _ Hp0 Hpc)) by done.
    eapply area_file_fails; [done|exact He|rewrite <- Eo; exact Hv|reflexivity|]. intros vfn Hvfn.
    by apply (lookup_freed s1 m xs p c ys vfn st). }
  { rewrite (proj2 (Z.ltb_ge e 0)) by done. eapply area_no_object.
    - apply mbind_err. unfold install_obj. by apply mbind_err.
    - exists (objs s1), (map vma_obj (xs ++ ys).*2 ++ R), st. split; [by rewrite Eo|by left]. }
  rewrite (proj2 (Z.ltb_ge e 0)) by done.
  destruct (install_obj_run (upd_objs st s1) m xs p c ys o flags _ Hm1 Hz Ho1)
    as [(s' & o' & Hin & Hm' & Hz' & Ho' & Hov & (_ & Hcp' & _) & _)|(Hin & Hfl & st' & Hsh)].
  2:{ eapply area_no_object; [by apply mbind_err|]. exists st, (o :: map vma_obj (xs ++ ys).*2 ++ R), st'. split; [done|by right]. }
  rewrite (mbind_run _ _ _ _ _ Hin). set (d := with_obj o' _) in *.
  eapply (area_done _ _ _ _ _ _ _ _ _ _ _ p s' (xs ++ (p, d) :: ys) d o'); [done|split; [done|]; split; [done|]| |set_solver|done| |].
  - rewrite !fmap_app in *. split; [|split].
    + cbn [fmap list_fmap snd] in *. apply areas_ok_app in Hok as (mid & Hx & Hc). apply areas_ok_app. by exists mid.
    + rewrite Forall_app in *. destruct Hvm. by repeat constructor.
    + eapply owns_perm; [|exact Ho']. rewrite ?fmap_app, ?map_app. cbn. by rewrite <- Permutation_middle.
  - cbn in Hcp'. congruence.
  - intros vfn. rewrite !fmap_app. cbn [fmap list_fmap snd]. rewrite amap_place.
    + unfold covers. by repeat case_decide.
    + intros Hc. specialize (Hfree vfn). rewrite fmap_app in Hfree. apply Hfree. unfold covers in Hc. cbn in Hc. lia.
  - exists o, st. rewrite <- Eo. split; [exact (owns_nonnull _ _ _ Ho1)|]. split; [exact (owns_nonnull _ _ _ Ho')|done].
Qed.

Lemma vmmap_map_asserts {A} s m lopage n flags off (k : M vms A) :
  m <> 0 -> 0 < n -> flag flags MAP_SHARED || flag flags MAP_PRIVATE = true ->
  lopage = 0 \/ LOW_PN <= lopage /\ lopage + n <= HIGH_PN -> PAGE_ALIGNED off = true ->
  (KASSERT (negb (m =? 0)) ;;;
   KASSERT (0 <? n) ;;;
   KASSERT (flag flags MAP_SHARED || flag flags MAP_PRIVATE) ;;;
   KASSERT ((lopage =? 0) || (LOW_PN <=? lopage)) ;;;
   KASSERT ((lopage =? 0) || (u32 (lopage + n) <=? HIGH_PN)) ;;;
   KASSERT (PAGE_ALIGNED off) ;;; k) s = k s.
Proof.
  intros Hm Hn Hfl Hlo Hoff. destruct high_pn_u32 as (? & ? & ?).
  rewrite (proj2 (Z.eqb_neq m 0)), (proj2 (Z.ltb_lt 0 n)), Hfl, Hoff by done.
  destruct (Z.eqb_spec lopage 0); [done|].
  rewrite u32_small by lia. rewrite !(proj2 (Z.leb_le _ _)) by lia. done.
Qed.

(** Making room for a fixed mapping. *)
Definition cleared s m vs lo n s1 : Prop :=
  range_free vs.*2 lo n /\ s1 = s \/ ~ range_free vs.*2 lo n /\ exists r, vmmap_remove m lo n s = Ok (r, s1).
Lemma clear_range_run s m vs R lo n r :
  (forall h : gmap Z vmarea, is_Some (slab_pick h)) -> vm_inv s m vs R ->
  0 <= lo -> 0 < n -> lo + n <= HIGH_PN ->
  r = 1 /\ range_free vs.*2 lo n \/ r = 0 /\ ~ range_free vs.*2 lo n ->
  exists s' vs',
    (if r =? 0 then let! _ := vmmap_remove m lo n in mret_ tt else mret_ tt) s = Ok (tt, s') /\
    vm_inv s' m vs' R /\ range_free vs'.*2 lo n /\ curproc s' = curproc s /\ cleared s m vs lo n s' /\
    forall vfn, ~ (lo <= vfn < lo + n) -> amap vs'.*2 vfn = amap vs.*2 vfn.
Proof.
  intros Htot Hinv Hlo Hn Hhi [[-> Hf]|[-> Hf]]; [exists s, vs; by split_and!; [..|left|]|].
  destruct (vmmap_remove_run s m vs R lo n Htot Hinv) as (s1 & vs1 & Hr1 & Hinv1 & _ & Hmap & _ & _ & Hcp & _); [lia..|].
  exists s1, vs1. cbn [Z.eqb]. rewrite (mbind_run _ _ _ _ _ Hr1). split; [done|]. split; [done|].
  split; [|split; [done|split; [right; eauto|]]]; intros vfn Hv; rewrite Hmap; by case_decide.
Qed.

(** The results of [vmmap_map]. *)
Inductive map_result s m vs R file lopage n prot flags off (r : outcome (Z * Z * vms)) : Prop :=
  | map_done v s' vs' a o s1 vs1 :
      r = Ok ((0, v), s') -> vm_inv s' m vs' R -> curproc s' = curproc s -> (v, a) ∈ vs' ->
      mapped_over vs vs' (vma_start a) n o (ADDR_TO_PN (u32 off)) prot flags ->
      LOW_PN <= vma_start a -> vma_start a + n <= HIGH_PN ->
      (if decide (lopage = 0) then range_free vs.*2 (vma_start a) n /\ s1 = s
       else vma_start a = lopage /\ cleared s m vs lopage n s1) ->
      vm_inv s1 m vs1 R -> (forall vfn, ~ (vma_start a <= vfn < vma_start a + n) -> amap vs1.*2 vfn = amap vs.*2 vfn) ->
      mapping_object file v flags (objs s1) (objs s') o -> map_result s m vs R file lopage n prot flags off r
  | map_no_range :
      lopage = 0 -> (forall lo, LOW_PN <= lo -> lo + n <= HIGH_PN -> ~ range_free vs.*2 lo n) ->
      r = Ok ((-1, 0), s) -> map_result s m vs R file lopage n prot flags off r
  | map_empty_map : lopage = 0 -> vs = [] -> r = Err FUndef -> map_result s m vs R file lopage n prot flags off r
  | map_file_fails e v st o st' lo s' :
      file <> 0 -> e < 0 -> vn_mmap file v st = Ok ((e, o), st') -> (lopage <> 0 -> lo = lopage) -> LOW_PN <= lo -> lo + n <= HIGH_PN ->
      r = Ok ((e, 0), s') -> (forall vfn, lo <= vfn -> vmmap_lookup m vfn s' = Err FUndef) ->
      map_result s m vs R file lopage n prot flags off r
  | map_no_object : r = Err FUndef -> no_object file flags -> map_result s m vs R file lopage n prot flags off r.

Lemma vmmap_map_run s m vs R file lopage n prot flags off dir :
  (forall h : gmap Z vmarea, is_Some (slab_pick h)) -> vm_inv s m vs R ->
  0 < n < 2 ^ 32 -> flag flags MAP_SHARED || flag flags MAP_PRIVATE = true ->
  PAGE_ALIGNED off = true -> lopage = 0 \/ LOW_PN <= lopage /\ lopage + n <= HIGH_PN ->
  map_result s m vs R file lopage n prot flags off (vmmap_map m file lopage n prot flags off dir s).
Proof.
  intros Htot Hinv Hn Hfl Hoff Hlo. destruct high_pn_u32 as (? & ? & ?).
  unfold vmmap_map. rewrite vmmap_map_asserts; [|by apply Hinv|lia|done|naive_solver|done].
  destruct (Z.eqb_spec lopage 0) as [->|Hne].
  - destruct (decide (vs = [])) as [->|Hvs].
    { apply map_empty_map; [done..|]. apply mbind_err. by apply (find_range_empty s m R). }
    destruct (find_range_run s m vs R n dir Hinv Hn Hvs) as (r & Hr & Hspec).
    rewrite (mbind_run _ _ _ _ _ Hr). case_decide as Hr1.
    { subst r. by apply map_no_range. }
    destruct Hspec as (Hr2 & Hr3 & Hfree & _). pose proof low_high_pn as (Hlow & _).
    rewrite (proj2 (Z.ltb_ge r 0)), u32_small by lia.
    destruct (map_area_run s m vs R r n prot flags off file) as [v s' vs' a o -> ? ? Hin <- Hmo Hob|e v o st s' ? ? ? -> ? | -> ? ]; try done; try lia.
    + by apply (map_done _ _ _ _ _ _ _ _ _ _ _ v s' vs' a o s vs).
    + by apply (map_file_fails _ _ _ _ _ _ _ _ _ _ _ e v (objs s) o st r s').
    + by apply map_no_object.
  - destruct Hlo as [?|[Hl Hh]]; [done|]. pose proof low_high_pn as (Hlow & _).
    destruct (is_range_empty_run s m vs R lopage n Hinv Hl ltac:(lia) Hh) as (r & Hr & Hspec).
    rewrite (mbind_run _ _ _ _ _ Hr).
    destruct (clear_range_run s m vs R lopage n r Htot Hinv) as (s1 & vs1 & Hr1 & Hinv1 & Hfree & Hcp1 & Hcl & Hsame);
      [lia | lia | lia | done |].
    rewrite (mbind_run _ _ _ _ _ Hr1).
    destruct (map_area_run s1 m vs1 R lopage n prot flags off file) as [v s' vs' a o -> ? ? Hin <- Hmo Hob|e v o st s' ? ? ? -> ? | -> ? ]; try done; try lia.
    + apply (map_done _ _ _ _ _ _ _ _ _ _ _ v s' vs' a o s1 vs1); try done; [congruence| |by rewrite decide_False].
      intros vfn. rewrite Hmo. case_decide; [done|]. by apply Hsame.
    + by apply (map_file_fails _ _ _ _ _ _ _ _ _ _ _ e v (objs s1) o st lopage s').
    + by apply map_no_object.
Qed.

End Spec.

(** ** Instances

    Counting memory objects: the state is the list of references held by the
    caller, the bottom object a shadow object has been given but not yet taken
    its reference on, a lower bound for the next object address, and the
    bytes of the pages that have been written. *)
Record cobjs := mkCobjs {
  held : list Z; pending : option Z; next_obj : Z;
  pages : Z -> Z -> list Z }.

Fixpoint remove_one (x : Z) (l : list Z) : option (list Z) :=
  match l with
  | [] => None
  | y :: r => if decide (x = y) then Some r else cons y <$> remove_one x r
  end.
Lemma remove_one_perm x l r : Permutation l (x :: r) -> exists l', remove_one x l = Some l' /\ Permutation l' r.
Proof.
  revert r. induction l as [|y l IH]; intros r H; [by apply Permutation_nil_cons in H|].
  cbn. destruct (decide (x = y)) as [->|Hne].
  - exists l. split; [done|]. by apply Permutation_cons_inv in H.
  - assert (y ∈ x :: r) as Hy by (rewrite <- H; by left).
    apply elem_of_cons in Hy as [->|Hy]; [done|].
    apply elem_of_Permutation in Hy as [r' Hr'].
    destruct (IH r') as (l' & -> & Hl').
    { apply (Permutation_cons_inv (a := y)). rewrite H, Hr'. apply Permutation_swap. }
    exists (y :: l'). split; [done|]. by rewrite Hl', Hr'.
Qed.

Definition c_take (o : Z) : M cobjs unit := fun s =>
  match remove_one o (held s) with
  | Some l => Ok (tt, mkCobjs l (pending s) (next_obj s) (pages s))
  | None => Err FUndef
  end.
Definition c_ref (o : Z) : M cobjs unit := fun s =>
  if decide (pending s = Some o) then Ok (tt, mkCobjs (held s) None (next_obj s) (pages s))
  else Ok (tt, mkCobjs (o :: held s) (pending s) (next_obj s) (pages s)).
Definition max_obj (s : cobjs) : Z := foldr Z.max (next_obj s) (held s).
Definition c_new : M cobjs Z := fun s =>
  let o := max_obj s + 1 in
  Ok (o, mkCobjs (o :: held s) (pending s) o (fun p n => if p =? o then [] else pages s p n)).
(** A shadow object shows the pages of [o]. *)
Definition c_shadow (sh o : Z) : M cobjs unit := fun s =>
  match c_take o s with
  | Ok (_, s) => Ok (tt, mkCobjs (held s) (pending s) (next_obj s) (fun p n => if p =? sh then pages s o n else pages s p n))
  | Err e => Err e
  end.
Definition c_owns (s : cobjs) (R : list Z) : Prop :=
  Permutation (held s) R /\ pending s = None /\ 0 < next_obj s /\ Forall (fun o => o <> 0) R.
(** Files other than 1 cannot be mapped. *)
Definition c_mmap (f v : Z) : M cobjs (Z * Z) :=
  if f =? 1 then let! o := c_new in mret_ (0, o) else mret_ (-19, 0).

Lemma max_obj_bound s : 0 < next_obj s -> 0 < max_obj s /\ forall o, o ∈ held s -> o <= max_obj s.
Proof.
  unfold max_obj. intros Hp. induction (held s) as [|x l [IH1 IH2]]; cbn; [split; [done|by intros o []%elem_of_nil]|].
  split; [lia|]. intros o [->|Ho]%elem_of_cons; [lia|]. specialize (IH2 o Ho). lia.
Qed.
Lemma c_new_ok s R : c_owns s R -> exists o s', c_new s = Ok (o, s') /\ o <> 0 /\ c_owns s' (o :: R).
Proof.
  intros (Hp & Hn & Hpos & Hf). destruct (max_obj_bound s Hpos) as [Hb _]. eexists _, _. split; [reflexivity|]. split; [lia|].
  split_and!; cbn; [by rewrite Hp | done | lia |]. constructor; [lia | done].
Qed.
Lemma c_take_ok s R o : c_owns s (o :: R) -> exists s', c_take o s = Ok (tt, s') /\ c_owns s' R.
Proof.
  intros (Hp & Hn & Hpos & Hf). unfold c_take. destruct (remove_one_perm _ _ _ Hp) as (l & -> & Hl).
  eexists. split; [reflexivity|]. apply Forall_cons in Hf as [_ Hf]. by split_and!.
Qed.

#[refine] Definition count_mmobjs : Mmobjs := {|
  ost := cobjs; mmo_ref := c_ref; mmo_put := c_take; anon_create := c_new; shadow_create := c_new;
  mmobj_bottom_obj o := mret_ o;
  set_shadowed := c_shadow;
  set_bottom sh b := mput (fun s => mkCobjs (held s) (Some b) (next_obj s) (pages s));
  vn_mmap := c_mmap; owns := c_owns;
|}.
Proof.
  - intros s R R' HR (? & ? & ? & ?). split_and!; [by rewrite <- HR|done..|by rewrite <- HR].
  - intros s o R (_ & _ & _ & [? _]%Forall_cons). done.
  - intros s R o (Hp & Hn & Hpos & Hf) Ho. unfold c_ref. rewrite decide_False by by rewrite Hn.
    eexists. split; [reflexivity|]. split_and!; cbn; [by rewrite Hp|done..|]. constructor; [|done].
    rewrite Forall_forall in Hf. by apply Hf.
  - intros s R o. apply c_take_ok.
  - intros s R (o & s' & Hr & Ho & Hown)%c_new_ok. exists o, s'. split; [done|]. by rewrite (proj2 (Z.eqb_neq o 0)).
  - intros s R f v H. unfold c_mmap. destruct (f =? 1); [|by exists (-19), 0, s].
    apply c_new_ok in H as (o & s' & Hr & _ & Hown). exists 0, o, s'. by rewrite (mbind_run _ _ _ _ _ Hr).
  - intros s R o H. destruct (c_new_ok s _ H) as (sh & s1 & Hn & Hsh & Hs1). exists sh, s1. split; [done|].
    rewrite (proj2 (Z.eqb_neq sh 0)) by done. destruct (c_take_ok s1 (sh :: R) o) as (s' & Hr & Hown).
    { destruct Hs1 as (H1 & H2 & H3 & H4). split_and!; [|done..|].
      - rewrite H1. apply Permutation_swap.
      - apply Forall_cons in H4 as [? [? ?]%Forall_cons]. by repeat constructor. }
    unfold c_shadow, mbind_. rewrite Hr. destruct Hown as (O1 & O2 & O3). eexists. split.
    { unfold c_ref, mput, mret_. cbn. rewrite decide_True by done. reflexivity. }
    split; [exact O1|split; [done|exact O3]].
Defined.

(** A page table and a TLB as functions. *)
Record fhw := mkFhw { f_pt : Z -> Z -> option Z; f_tlb : Z -> option Z; f_flags : Z -> Z -> Z }.
#[refine] Definition fun_mmu : @Mmu i386_geometry := {|
  hw := fhw; pt_entry h := f_pt h; tlb_entry h := f_tlb h;
  tlb_flush_all h := mkFhw (f_pt h) (fun _ => None) (f_flags h);
  pt_unmap_range pd a b h := mkFhw (fun pd' pn =>
    if decide (pd' = pd /\ a <= pn * 4096 < b) then None else f_pt h pd' pn) (f_tlb h) (f_flags h);
|}.
Proof.
  - done.
  - done.
  - intros pd lo hi h pn _ _. cbn. change PAGE_SIZE with 4096. repeat case_decide; done || lia.
  - done.
Defined.

#[refine] Definition weenix_map_flags : MapFlags := {|
  MAP_SHARED := 1; MAP_PRIVATE := 2; MAP_FIXED := 4; MAP_ANON := 8;
  VMMAP_DIR_LOHI := 1; VMMAP_DIR_HILO := 2;
|}.
Proof. done. Defined.

(** ** A concrete address space: two areas backed by object 5. *)
Section Example.
#[local] Existing Instance seq_klist.
#[local] Existing Instance first_slab.
#[local] Existing Instance i386_geometry.
#[local] Existing Instance count_mmobjs.
#[local] Existing Instance fun_mmu.
#[local] Existing Instance weenix_map_flags.

Definition area1 : vmarea := mkArea 1100 1110 0 3 2 1 5 None.
Definition area2 : vmarea := mkArea 1200 1210 20 1 1 1 5 None.
Definition vs0 : list (Z * vmarea) := [(10, area1); (11, area2)].
Definition new_area : vmarea := mkArea 1110 1112 0 3 1 0 6 None.
Definition st0 : vms :=
  mkVms _ _ _ _ {[10 := area1; 11 := area2; 12 := new_area]}
    {[1 := mkVmmap seq_klist [10; 11] 7; 2 := mkVmmap seq_klist [] 8]}
    ∅ (mkCobjs [5; 5; 6] None 100 (fun _ _ => []))
    (mkFhw (fun _ _ => Some 1) (fun _ => Some 2) (fun _ _ => 0)) (mkVproc 50 1 4096 4096) 0.

Lemma st0_inv : vm_inv st0 1 vs0 [6].
Proof.
  split; [|split; [done|split; [|split]]].
  - split; [done|]. split; [|split].
    + apply (bool_decide_unpack _). by vm_compute.
    + repeat constructor.
    + eexists. by split.
  - change (areas_ok 1024 [area1; area2] 786432). cbn. lia.
  - repeat constructor.
  - split_and!; [done..|]. by repeat constructor.
Qed.
Lemma st0_rep2 : map_rep st0 2 [].
Proof. split; [done|]. split; [constructor|]. split; [constructor|]. eexists. by split. Qed.
Lemma slab_total (h : gmap Z vmarea) : is_Some (slab_pick h).
Proof. by eexists. Qed.
Lemma c_new_some (st : cobjs) R o st' : c_owns st R -> c_new st = Ok (o, st') -> o <> 0.
Proof. intros (_ & _ & Hp & _) [= <- _]. destruct (max_obj_bound st Hp). lia. Qed.
Lemma pages_i386 : LOW_PN = 1024 /\ HIGH_PN = 786432.
Proof. by vm_compute. Qed.

Lemma vmmap_lookup_correct_witness :
  vm_inv st0 1 vs0 [6] /\
  exists v, vmmap_lookup 1 1205 st0 = Ok (v, st0) /\ exists a, (v, a) ∈ vs0 /\ v <> 0 /\
    covers a 1205 /\ mkPage 5 25 1 1 = page_of a 1205 /\
    forall w b, (w, b) ∈ vs0 -> covers b 1205 -> w = v /\ b = a.
Proof. split; [apply st0_inv|]. apply (vmmap_lookup_correct st0 1 vs0 [6] 1205 st0_inv). Defined.

Lemma vmmap_is_range_empty_correct_witness :
  exists r, vmmap_is_range_empty 1 1110 90 st0 = Ok (r, st0) /\
    (r = 1 /\ range_free vs0.*2 1110 90 \/ r = 0 /\ ~ range_free vs0.*2 1110 90).
Proof. apply (vmmap_is_range_empty_correct st0 1 vs0 [6] 1110 90 st0_inv); lia. Defined.

Lemma vmmap_find_range_correct_witness :
  exists r, vmmap_find_range 1 100 VMMAP_DIR_HILO st0 = Ok (r, st0) /\
    if decide (r = -1) then forall lo, LOW_PN <= lo -> lo + 100 <= HIGH_PN -> ~ range_free vs0.*2 lo 100
    else LOW_PN <= r /\ r + 100 <= HIGH_PN /\ range_free vs0.*2 r 100 /\
      forall lo, LOW_PN <= lo -> lo + 100 <= HIGH_PN -> range_free vs0.*2 lo 100 ->
        if decide (VMMAP_DIR_HILO = VMMAP_DIR_HILO) then lo <= r else r <= lo.
Proof. apply (vmmap_find_range_correct st0 1 vs0 [6] 100 VMMAP_DIR_HILO st0_inv). lia. Defined.

Lemma vmmap_insert_correct_witness :
  exists s' vs', vmmap_insert 1 12 st0 = Ok (tt, s') /\ vm_inv s' 1 vs' [] /\
    (forall vfn, amap vs'.*2 vfn =
       if decide (covers new_area vfn) then Some (page_of new_area vfn) else amap vs0.*2 vfn) /\
    vframe st0 s' 1 [12].
Proof.
  apply (vmmap_insert_correct st0 1 vs0 [] 12 new_area st0_inv); [done | | done |].
  - apply (bool_decide_unpack _). by vm_compute.
  - intros vfn Hv. cbn in Hv. apply amap_None. intros a [->| ->%list_elem_of_singleton]%elem_of_cons;
      unfold covers; cbn; lia.
Defined.

Lemma vmmap_remove_correct_witness :
  exists s' vs', vmmap_remove 1 1103 102 st0 = Ok (0, s') /\ vm_inv s' 1 vs' [6] /\
    (forall vfn, amap vs'.*2 vfn = if decide (1103 <= vfn < 1103 + 102) then None else amap vs0.*2 vfn) /\
    (forall vfn, 1103 <= vfn < 1103 + 102 -> tlb_entry (mmu s') vfn = None /\
       pt_entry (mmu s') (p_pagedir (curproc st0)) vfn = None) /\
    map_rep s' 2 [].
Proof.
  apply (vmmap_remove_correct st0 1 vs0 [6] 1103 102 2 []);
    [apply slab_total | apply st0_inv | lia | lia | destruct pages_i386; lia | done | apply st0_rep2 | set_solver].
Defined.

Lemma vmmap_clone_correct_witness :
  exists m' s' ws, vmmap_clone 1 st0 = Ok (m', s') /\ m' <> 1 /\ vmaps st0 !! m' = None /\
    map_rep s' m' ws /\ ws.*2 = map (cloned m') vs0.*2 /\ areas_ok LOW_PN ws.*2 HIGH_PN /\
    vm_inv s' 1 vs0 [6].
Proof.
  apply (vmmap_clone_correct st0 1 vs0 [6]); [apply slab_total | intros h; by eexists | apply st0_inv].
Defined.

Lemma vmmap_destroy_correct_witness :
  exists s', vmmap_destroy 1 st0 = Ok (tt, s') /\ owns (objs s') [6] /\ vmaps s' !! 1 = None /\
    (forall x, areas s' !! x = if decide (x ∈ vs0.*1) then None else areas st0 !! x) /\
    (forall m', m' <> 1 -> vmaps s' !! m' = vmaps st0 !! m').
Proof. apply (vmmap_destroy_correct st0 1 vs0 [6] st0_inv). Defined.

End Example.
