(* ===== verification/VmAccess.v ===== *)
(** * Using an address space: vmmap_read/vmmap_write, api/access.c, vm/mmap.c,
      vm/brk.c and vm/pagefault.c

    The bytes of an address space are the bytes of the object pages the
    abstract address space of [Vmmap] maps.  Pages are reached through the
    interface [MmPages] and open files through [Files]. *)
From stdpp Require Import base gmap list fin_maps.
From Stdlib Require Import ZArith Lia.
From S2P Require Import Prelude KEnv Vmmap.
Open Scope Z_scope.
Open Scope c_scope.

(** ** Pages of memory objects

    [contents s o n] are the bytes that page [n] of object [o] shows.
    [lookuppage] gives a frame with these bytes, or fails with a negative
    code, after which nothing is promised; a frame looked up for writing may
    be written, which changes the page, and no page that does not [depends] on
    it.  [MmBridge] implements the class with the objects of [MmObj]. *)
Class MmPages `{KG : KGeometry, MO : Mmobjs} := {
  lookuppage : Z -> Z -> bool -> M ost (Z * Z);
  pf_data : ost -> Z -> list Z;
  pf_store : Z -> Z -> list Z -> M ost unit;
  pframe_dirty : Z -> M ost Z;
  contents : ost -> Z -> Z -> list Z;
  depends : ost -> Z * Z -> Z * Z -> Prop;
  writable : ost -> Z -> Z -> Z -> Prop;
  contents_length s o n : length (contents s o n) = Z.to_nat PAGE_SIZE;
  lookuppage_ok s R o n w : owns s R -> o ∈ R ->
    exists e pf s', lookuppage o n w s = Ok ((e, pf), s') /\
      (e < 0 \/ e = 0 /\ owns s' R /\
        (forall o' n', contents s' o' n' = contents s o' n') /\
        (forall p q, depends s' p q <-> depends s p q) /\
        pf_data s' pf = contents s o n /\ (w = true -> writable s' o n pf));
  pf_store_ok s R o n pf off bs : owns s R -> writable s o n pf ->
    0 <= off -> off + Z.of_nat (length bs) <= PAGE_SIZE ->
    exists s' e s'', pf_store pf off bs s = Ok (tt, s') /\ pframe_dirty pf s' = Ok (e, s'') /\ owns s'' R /\
      contents s'' o n = list_inserts (Z.to_nat off) bs (contents s o n) /\
      (forall o' n', ~ depends s (o', n') (o, n) -> contents s'' o' n' = contents s o' n') /\
      (forall p q, depends s'' p q <-> depends s p q);
}.

(** New objects: an anonymous one has pages of zeros, a shadow object shows what
    the object under it shows, and neither is one that is in use. *)
Class FreshPages `{MP : MmPages} := {
  anon_zero s Q o s' : owns s Q -> anon_create s = Ok (o, s') -> o <> 0 ->
    o ∉ Q /\ forall n, contents s' o n = replicate (Z.to_nat PAGE_SIZE) 0;
  shadow_shows s Q o sh s1 s' : owns s (o :: Q) -> shadow_create s = Ok (sh, s1) -> sh <> 0 ->
    (set_shadowed sh o ;;; let! b := mmobj_bottom_obj o in set_bottom sh b ;;; mmo_ref b) s1 = Ok (tt, s') ->
    sh ∉ o :: Q /\ forall n, contents s' sh n = contents s o n;
}.

(** ** Open files: fs/file.h

    [fget] returns the file of a descriptor with a reference added, or NULL;
    [fput] gives a reference back. *)
Class Files := {
  fstate : Type;
  fget : Z -> M fstate Z;
  fput : Z -> M fstate unit;
  f_vnode : fstate -> Z -> Z;
  f_mode : fstate -> Z -> Z;
  fowns : fstate -> list Z -> Prop;
  fget_ok s F fd : fowns s F -> exists f s', fget fd s = Ok (f, s') /\
    fowns s' (if f =? 0 then F else f :: F);
  fput_ok s F f : fowns s (f :: F) -> exists s', fput f s = Ok (tt, s') /\ fowns s' F;
}.

(** Protection bits and fault causes. *)
Class ProtFlags := {
  PROT_READ : Z; PROT_WRITE : Z; PROT_EXEC : Z;
  FMODE_WRITE : Z;
  FAULT_WRITE : Z; FAULT_EXEC : Z;
}.

(** ** Page frames and page tables as the page-fault handler uses them

    Page frames are part of the memory objects ([MmBridge] implements
    [FrameOps] too); the page table is the hardware's. *)
Class FrameOps `{KG : KGeometry, MO : Mmobjs, MP : !MmPages} := {
  pf_addr : ost -> Z -> Z;
  pframe_pin : Z -> M ost unit;
  pframe_unpin : Z -> M ost unit;
  lookup_frame s R o n w pf s' : owns s R -> o ∈ R -> lookuppage o n w s = Ok ((0, pf), s') -> pf <> 0 /\ pf_addr s' pf <> 0;
  pin_dirty_unpin_ok s R o n pf : owns s R -> writable s o n pf -> exists s',
    (pframe_pin pf ;;; let! _ := pframe_dirty pf in pframe_unpin pf) s = Ok (tt, s') /\ owns s' R /\
    (forall o' n', contents s' o' n' = contents s o' n') /\ pf_addr s' pf = pf_addr s pf /\
    pf_data s' pf = pf_data s pf;
}.
Class PtMap `{KG : KGeometry, MU : !Mmu} := {
  pt_virt_to_phys : Z -> Z;
  PT_PRESENT : Z; PT_USER : Z; PT_WRITE : Z;
  PD_PRESENT : Z; PD_USER : Z; PD_WRITE : Z;
  (** [pt_map(pd, vaddr, paddr, pdflags, ptflags)] *)
  pt_map : Z -> Z -> Z -> Z -> Z -> hw -> Z * hw;
  tlb_flush : Z -> hw -> hw;
  pt_flags : hw -> Z -> Z -> Z;
  pt_map_entry pd pn paddr pdf ptf h : 0 <= fst (pt_map pd (pn * PAGE_SIZE) paddr pdf ptf h) ->
    let h' := tlb_flush (pn * PAGE_SIZE) (snd (pt_map pd (pn * PAGE_SIZE) paddr pdf ptf h)) in
    pt_entry h' pd pn = Some paddr /\ pt_flags h' pd pn = ptf /\ tlb_entry h' pn = None;
}.

Section Access.
Context `{KL : KList} `{SL : Slab} `{KG : KGeometry} `{MO : Mmobjs} `{MU : !Mmu} `{MF : MapFlags}.
Context `{MP : !MmPages} `{FI : Files} `{PF : ProtFlags} `{ER : KErrno}.

(** *** vmmap_read and vmmap_write *)
Definition slice (off n : Z) (l : list Z) : list Z := take (Z.to_nat n) (drop (Z.to_nat off) l).

(** The loop of [vmmap_read]; the result is the return value and the bytes
    copied to [buf].  A page is found for every iteration, which moves on by
    at least one byte, so [count] iterations are enough. *)
Fixpoint read_loop (fuel : nat) (map curraddr endaddr count : Z) (buf : list Z) : M vms (Z * list Z) :=
  match fuel with
  | O => mfail FFuel
  | S fuel =>
      if curraddr <? endaddr then
        let! v := vmmap_lookup map (ADDR_TO_PN curraddr) in
        if v =? 0 then mput (upd_errno 1) ;;; mret_ (-1, buf)
        else
          let! vma := load_area v in
          let pagenum := u32 (vma_off vma + ADDR_TO_PN curraddr - vma_start vma) in
          mguard (negb (vma_obj vma =? 0)) FUndef ;;;
          let! (err, pf) := obj_op (lookuppage (vma_obj vma) pagenum false) in
          mguard (0 <=? err) FUndef ;;;
          let bytes := Z.min (u32 (count - Z.of_nat (length buf))) (PAGE_SIZE - PAGE_OFFSET curraddr) in
          let! data := mget (fun s => pf_data (objs s) pf) in
          read_loop fuel map (u32 (curraddr + bytes)) endaddr count
            (buf ++ slice (PAGE_OFFSET curraddr) bytes data)
      else mret_ (0, buf)
  end.
Definition vmmap_read (map vaddr count : Z) : M vms (Z * list Z) :=
  read_loop (S (Z.to_nat count)) map vaddr (u32 (vaddr + count)) count [].

Fixpoint write_loop (fuel : nat) (map curraddr endaddr writeBytes : Z) (buf : list Z) : M vms Z :=
  match fuel with
  | O => mfail FFuel
  | S fuel =>
      if curraddr <? endaddr then
        let! v := vmmap_lookup map (ADDR_TO_PN curraddr) in
        if v =? 0 then mput (upd_errno 1) ;;; mret_ (-1)
        else
          let! vma := load_area v in
          let pagenum := u32 (vma_off vma + ADDR_TO_PN curraddr - vma_start vma) in
          mguard (negb (vma_obj vma =? 0)) FUndef ;;;
          let! (err, pf) := obj_op (lookuppage (vma_obj vma) pagenum true) in
          mguard (0 <=? err) FUndef ;;;
          let bytes := Z.min (u32 (Z.of_nat (length buf) - writeBytes)) (PAGE_SIZE - PAGE_OFFSET curraddr) in
          obj_op (pf_store pf (PAGE_OFFSET curraddr) (slice writeBytes bytes buf)) ;;;
          let! _ := obj_op (pframe_dirty pf) in
          write_loop fuel map (u32 (curraddr + bytes)) endaddr (u32 (writeBytes + bytes)) buf
      else mret_ 0
  end.
(** [count] is the length of [buf]. *)
Definition vmmap_write (map vaddr : Z) (buf : list Z) : M vms Z :=
  write_loop (S (length buf)) map vaddr (u32 (vaddr + Z.of_nat (length buf))) 0 buf.

(** *** api/access.c *)
Definition addr_perm (vaddr perm : Z) : M vms bool :=
  let! p := mget curproc in
  let! v := vmmap_lookup (p_vmmap p) (ADDR_TO_PN vaddr) in
  mret_ (negb (v =? 0)).

(** [offset] is a uint32_t; with [len] a multiple of the page size below
    2^32 it takes at most [len / PAGE_SIZE + 1] iterations. *)
Fixpoint range_perm_loop (fuel : nat) (avaddr offset len perm : Z) : M vms bool :=
  match fuel with
  | O => mfail FFuel
  | S fuel =>
      if offset <? len then
        let! ok := addr_perm (u32 (avaddr + offset)) perm in
        if negb ok then mret_ false
        else range_perm_loop fuel avaddr (u32 (offset + PAGE_SIZE)) len perm
      else mret_ true
  end.
Definition range_perm (avaddr len perm : Z) : M vms bool :=
  range_perm_loop (S (Z.to_nat len)) avaddr 0 len perm.

Definition copy_from_user (uaddr nbytes : Z) : M vms (Z * list Z) :=
  let! ok := range_perm uaddr nbytes PROT_READ in
  if negb ok then mret_ (- EFAULT, [])
  else let! p := mget curproc in vmmap_read (p_vmmap p) uaddr nbytes.
Definition copy_to_user (uaddr : Z) (kbuf : list Z) : M vms Z :=
  let! ok := range_perm uaddr (Z.of_nat (length kbuf)) PROT_WRITE in
  if negb ok then mret_ (- EFAULT)
  else let! p := mget curproc in vmmap_write (p_vmmap p) uaddr kbuf.

(** *** vm/brk.c *)
Definition set_brk (b : Z) (p : vproc) : vproc := mkVproc (p_pagedir p) (p_vmmap p) b (p_start_brk p).
(** The result is the return value and [*ret]. *)
Definition do_brk (addr : Z) : M vms (Z * Z) :=
  let! p := mget curproc in
  if addr =? 0 then mret_ (0, p_brk p)
  else if (addr <? p_start_brk p) || (USER_MEM_HIGH <? addr) then mret_ (- ENOMEM, 0)
  else
    let! v := vmmap_lookup (p_vmmap p) (ADDR_TO_PN (p_start_brk p)) in
    let! vma := load_area v in
    let prev_endvfn := vma_end vma in
    let new_endvfn := ADDR_TO_PN (PAGE_ALIGN_UP addr) in
    let npages := u32 (new_endvfn - prev_endvfn) in
    if new_endvfn <? prev_endvfn then
      let! _ := vmmap_remove (p_vmmap p) new_endvfn (u32 (- npages)) in
      mput (upd_curproc (set_brk addr)) ;;; mret_ (0, addr)
    else if prev_endvfn <? new_endvfn then
      let! empty := vmmap_is_range_empty (p_vmmap p) prev_endvfn npages in
      if empty =? 0 then mret_ (- ENOMEM, 0)
      else
        store_area v (with_end new_endvfn) ;;;
        mput (upd_curproc (set_brk addr)) ;;; mret_ (0, addr)
    else mput (upd_curproc (set_brk addr)) ;;; mret_ (0, addr).

(** *** vm/mmap.c *)
Definition pages_of (len : Z) : Z := len / PAGE_SIZE + (if len mod PAGE_SIZE =? 0 then 0 else 1).

Definition do_munmap (addr len : Z) : M vms Z :=
  if negb (PAGE_ALIGNED addr) then mret_ (- EINVAL)
  else if (USER_MEM_HIGH <? u32 (addr + len)) || (u32 (addr + len) <? USER_MEM_LOW) ||
          (len =? 0) || (USER_MEM_HIGH <? len) then mret_ (- EINVAL)
  else
    let! p := mget curproc in
    let! _ := vmmap_remove (p_vmmap p) (ADDR_TO_PN addr) (pages_of len) in
    mput (upd_mmu tlb_flush_all) ;;;
    mret_ 0.

(** [do_mmap] also uses the file table. *)
Definition vm_op {A} (c : M vms A) : M (vms * fstate) A := fun '(s, f) =>
  match c s with Ok (a, s') => Ok (a, (s', f)) | Err e => Err e end.
Definition file_op {A} (c : M fstate A) : M (vms * fstate) A := fun '(s, f) =>
  match c f with Ok (a, f') => Ok (a, (s, f')) | Err e => Err e end.

(** The call of [vmmap_map] and what follows it; [file] is NULL for an
    anonymous mapping. *)
Definition mmap_finish (file vn lopage len prot flags off : Z) : M (vms * fstate) (Z * Z) :=
  let! p := vm_op (mget curproc) in
  let! (err, new) := vm_op (vmmap_map (p_vmmap p) vn lopage (pages_of len) prot flags off VMMAP_DIR_HILO) in
  if err <? 0 then
    (if negb (file =? 0) then file_op (fput file) else mret_ tt) ;;;
    mret_ (err, 0)
  else
    let! a := vm_op (load_area new) in
    let ret := PN_TO_ADDR (vma_start a) in
    vm_op (mput (upd_mmu tlb_flush_all)) ;;;
    (if negb (file =? 0) then file_op (fput file) else mret_ tt) ;;;
    KASSERT (negb (p_pagedir p =? 0)) ;;;
    mret_ (0, ret).

(** The result is the return value and [*ret]. *)
Definition do_mmap (addr len prot flags fd off : Z) : M (vms * fstate) (Z * Z) :=
  if negb (PAGE_ALIGNED off) || (negb (addr =? 0) && negb (PAGE_ALIGNED addr)) then mret_ (- EINVAL, 0)
  else if (USER_MEM_HIGH <? u32 (addr + len)) || (len =? 0) then mret_ (- EINVAL, 0)
  else if negb (flag flags MAP_PRIVATE) && negb (flag flags MAP_SHARED) then mret_ (- EINVAL, 0)
  else if flag flags MAP_FIXED && (addr =? 0) then mret_ (- EINVAL, 0)
  else
    let lopage := if addr =? 0 then 0 else ADDR_TO_PN addr in
    if flag flags MAP_ANON then mmap_finish 0 0 lopage len prot flags off
    else if fd =? -1 then mret_ (- EBADF, 0)
    else
      let! file := file_op (fget fd) in
      if file =? 0 then mret_ (- EBADF, 0)
      else
        let! vn := file_op (mget (fun f => f_vnode f file)) in
        let! mode := file_op (mget (fun f => f_mode f file)) in
        if negb (flag mode FMODE_WRITE) && flag prot PROT_WRITE && negb (flag flags MAP_PRIVATE) then
          file_op (fput file) ;;; mret_ (- EACCES, 0)
        else mmap_finish file vn lopage len prot flags off.

(** *** vm/pagefault.c

    [do_exit] does not return: it ends the process with the status. *)
Definition do_exit_status {A} (status : Z) : M vms A := mfail (FExit status).

Section Pagefault.
Context `{FO : !FrameOps} `{PT : !PtMap}.

Definition pframe_lookup (o pagenum : Z) (forwrite : bool) : M vms (Z * Z) :=
  KASSERT (negb (o =? 0)) ;;; obj_op (lookuppage o pagenum forwrite).

Definition handle_pagefault (vaddr cause : Z) : M vms unit :=
  let! p := mget curproc in
  let! v := vmmap_lookup (p_vmmap p) (ADDR_TO_PN vaddr) in
  (if v =? 0 then do_exit_status EFAULT else mret_ tt) ;;;
  let! vma := load_area v in
  let needRead := negb (flag cause FAULT_WRITE || flag cause FAULT_EXEC) in
  let needWrite := flag cause FAULT_WRITE in
  let needExec := flag cause FAULT_EXEC in
  (if needRead && negb (flag (vma_prot vma) PROT_READ) then do_exit_status EFAULT else mret_ tt) ;;;
  (if needWrite && negb (flag (vma_prot vma) PROT_WRITE) then do_exit_status EFAULT else mret_ tt) ;;;
  (if needExec && negb (flag (vma_prot vma) PROT_EXEC) then do_exit_status EFAULT else mret_ tt) ;;;
  let ptFlag := Z.lor PT_PRESENT PT_USER in
  let pdFlag := Z.lor PD_PRESENT PD_USER in
  let ptFlag := if needWrite then Z.lor ptFlag PT_WRITE else ptFlag in
  let pdFlag := if needWrite then Z.lor pdFlag PD_WRITE else pdFlag in
  let! (code, pf) := pframe_lookup (vma_obj vma)
    (u32 (ADDR_TO_PN vaddr - vma_start vma + vma_off vma)) needWrite in
  (if code <? 0 then do_exit_status EFAULT else mret_ tt) ;;;
  KASSERT (negb (pf =? 0)) ;;;
  let! a := mget (fun s => pf_addr (objs s) pf) in
  KASSERT (negb (a =? 0)) ;;;
  (if needWrite then
     obj_op (pframe_pin pf ;;; let! _ := pframe_dirty pf in pframe_unpin pf)
   else mret_ tt) ;;;
  let! a := mget (fun s => pf_addr (objs s) pf) in
  mput (upd_mmu (fun h => snd (pt_map (p_pagedir p) (PAGE_ALIGN_DOWN vaddr) (pt_virt_to_phys a) pdFlag ptFlag h))) ;;;
  mput (upd_mmu (tlb_flush (PAGE_ALIGN_DOWN vaddr))).
End Pagefault.
End Access.

(** ** The bytes of an address space *)
Section Bytes.
Context `{KL : KList} `{SL : Slab} `{KG : KGeometry} `{MO : Mmobjs} `{MU : !Mmu} `{MF : MapFlags}.
Context `{MP : !MmPages} `{PF : ProtFlags} `{ER : KErrno}.
Implicit Types (s : vms) (vs : list (Z * vmarea)).

Definition aspace_byte (st : ost) (us : list vmarea) (va : Z) : option Z :=
  pg ← amap us (ADDR_TO_PN va);
  contents st (pg_obj pg) (pg_num pg) !! Z.to_nat (PAGE_OFFSET va).

(** All the pages of [va, va + n) are mapped. *)
Definition range_mapped (us : list vmarea) (va n : Z) : Prop :=
  forall x, va <= x < va + n -> is_Some (amap us (ADDR_TO_PN x)).

Lemma same_page a i :
  0 <= i -> PAGE_OFFSET a + i < PAGE_SIZE ->
  ADDR_TO_PN (a + i) = ADDR_TO_PN a /\ PAGE_OFFSET (a + i) = PAGE_OFFSET a + i.
Proof.
  intros Hi Hlt. pose proof page_size_pos. pose proof (page_offset_bound a).
  rewrite !addr_to_pn. unfold PAGE_OFFSET in *.
  assert (PAGE_SIZE <> 0) as Hnz by lia. pose proof (Z.div_mod a PAGE_SIZE Hnz). split; symmetry.
  - apply Z.div_unique with (a mod PAGE_SIZE + i); lia.
  - apply Z.mod_unique with (a / PAGE_SIZE); lia.
Qed.

Lemma lookup_slice off n (l : list Z) i :
  0 <= off -> 0 <= i < n -> slice off n l !! Z.to_nat i = l !! Z.to_nat (off + i).
Proof.
  intros Ho Hi. unfold slice. rewrite lookup_take_lt by lia. rewrite lookup_drop. f_equal. lia.
Qed.
Lemma slice_length off n (l : list Z) :
  0 <= off -> 0 <= n -> off + n <= Z.of_nat (length l) -> Z.of_nat (length (slice off n l)) = n.
Proof. intros. unfold slice. rewrite length_take, length_drop. lia. Qed.

(** The lookup part of an iteration, when the page is mapped. *)
Lemma lookup_mapped s m vs R vfn pg :
  vm_inv s m vs R -> amap vs.*2 vfn = Some pg ->
  exists v a, vmmap_lookup m vfn s = Ok (v, s) /\ v <> 0 /\ load_area v s = Ok (a, s) /\
    vma_obj a = pg_obj pg /\ u32 (vma_off a + vfn - vma_start a) = pg_num pg /\
    vma_obj a ∈ map vma_obj vs.*2 ++ R /\ vma_obj a <> 0 /\ vma_prot a = pg_prot pg.
Proof.
  intros (Hm & Hz & Hok & _ & Ho). rewrite find_area_amap.
  destruct (find_area vs vfn) as [[v a]|] eqn:E; [|done]. cbn. intros [= <-].
  pose proof (find_area_Some _ _ _ E) as [Hin _]. pose proof (map_rep_load _ _ _ _ Hm Hin) as Hl. cbn in Hl.
  exists v, a. rewrite (vmmap_lookup_run _ _ _ _ Hm), E. split; [done|].
  assert (vma_obj a ∈ map vma_obj vs.*2 ++ R) as Hmem.
  { apply elem_of_app. left. apply list_elem_of_fmap. exists a. split; [done|]. apply list_elem_of_fmap. by exists (v, a). }
  split_and!; try done.
  - intros ->. unfold load_area in Hl. by rewrite Hz in Hl.
  - apply elem_of_Permutation in Hmem as [k Hk]. by eapply (owns_nonnull _ _ k), owns_perm; [|exact Ho].
Qed.

Lemma vm_inv_objs s m vs R st : vm_inv s m vs R -> owns st (map vma_obj vs.*2 ++ R) -> vm_inv (upd_objs st s) m vs R.
Proof. intros (Hm & Hz & Hok & Hv & _) Ho. by split. Qed.

(** ** Lookups that fail

    The pages are accessed by lookups and, when [w], by lookups for writing
    and stores. *)
Inductive page_step (w : bool) : ost -> ost -> Prop :=
  | step_lookup o n b pf st st' : (b = true -> w = true) -> lookuppage o n b st = Ok ((0, pf), st') -> page_step w st st'
  | step_store pf off bs e st st1 st' : w = true -> pf_store pf off bs st = Ok (tt, st1) ->
      pframe_dirty pf st1 = Ok (e, st') -> page_step w st st'.
(** After some accesses, the lookup of a mapped page at an address of [D] fails. *)
Definition lookup_fails (w : bool) (st0 : ost) (us : list vmarea) (Q : list Z) (D : Z -> Prop) : Prop :=
  exists x pg b st e pf st', D x /\ amap us (ADDR_TO_PN x) = Some pg /\ rtc (page_step w) st0 st /\ owns st Q /\
    (b = true -> w = true) /\ lookuppage (pg_obj pg) (pg_num pg) b st = Ok ((e, pf), st') /\ e < 0.
Definition in_range (va n x : Z) : Prop := va <= x < va + n.

Lemma page_step_mono (w w' : bool) st st' : (w = true -> w' = true) -> rtc (page_step w) st st' -> rtc (page_step w') st st'.
Proof.
  intros Hw. induction 1 as [|t t1 t' Ht _ IH]; [done|]. eapply rtc_l; [|exact IH].
  destruct Ht as [o n b pf u u' Hb H|pf off bs e u u1 u' Hb H1 H2]; [apply (step_lookup _ o n b pf)|apply (step_store _ pf off bs e _ u1)]; auto.
Qed.
Lemma lookup_fails_mono (w w' : bool) st0 st1 us Q (D D' : Z -> Prop) :
  (w = true -> w' = true) -> rtc (page_step w') st0 st1 -> (forall x, D x -> D' x) ->
  lookup_fails w st1 us Q D -> lookup_fails w' st0 us Q D'.
Proof.
  intros Hw H0 HD (x & pg & b & st & e & pf & st' & Hx & Hp & Hs & Ho & Hb & Hl & He).
  exists x, pg, b, st, e, pf, st'. split_and!; auto. etransitivity; [exact H0|]. by apply (page_step_mono w).
Qed.

(** One step of the reading loop at a mapped page. *)
Lemma read_step fuel s m vs R cur e count buf pg :
  vm_inv s m vs R -> amap vs.*2 (ADDR_TO_PN cur) = Some pg -> cur < e ->
  (exists st, owns st (map vma_obj vs.*2 ++ R) /\
    (forall o n, contents st o n = contents (objs s) o n) /\
    (forall p q, depends st p q <-> depends (objs s) p q) /\ page_step false (objs s) st /\
    read_loop (S fuel) m cur e count buf s =
    let bytes := Z.min (u32 (count - Z.of_nat (length buf))) (PAGE_SIZE - PAGE_OFFSET cur) in
    read_loop fuel m (u32 (cur + bytes)) e count
      (buf ++ slice (PAGE_OFFSET cur) bytes (contents (objs s) (pg_obj pg) (pg_num pg))) (upd_objs st s)) \/
  (read_loop (S fuel) m cur e count buf s = Err FUndef /\
   lookup_fails false (objs s) vs.*2 (map vma_obj vs.*2 ++ R) (eq cur)).
Proof.
  intros Hinv Hpg Hlt. cbn [read_loop]. rewrite (proj2 (Z.ltb_lt _ _) Hlt).
  destruct (lookup_mapped _ _ _ _ _ _ Hinv Hpg) as (v & a & Hl & Hv & Ha & Eo & En & Hmem & Hnz & _).
  rewrite (mbind_run _ _ _ _ _ Hl), (proj2 (Z.eqb_neq v 0) Hv), (mbind_run _ _ _ _ _ Ha).
  rewrite (proj2 (Z.eqb_neq _ 0) Hnz), (mbind_run _ _ _ tt s eq_refl), En.
  destruct (lookuppage_ok (objs s) _ (vma_obj a) (pg_num pg) false ltac:(apply Hinv) Hmem)
    as (er & pf & st & Hr & Hcase).
  rewrite (mbind_run _ _ _ _ _ (obj_op_run _ _ _ _ Hr)). destruct Hcase as [He|(-> & Ho & Hc & Hd & Hdata & _)].
  { right. rewrite (proj2 (Z.leb_gt _ _)) by done. split; [done|].
    exists cur, pg, false, (objs s), er, pf, st. rewrite <- Eo. split_and!; try done. apply Hinv. }
  rewrite (mbind_run _ _ _ tt (upd_objs st s) eq_refl). left.
  exists st. split_and!; [done..|by eapply step_lookup|]. unfold mget at 1. unfold mbind_ at 1. cbn [objs upd_objs].
  by rewrite Hdata, Eo.
Qed.

Lemma aspace_byte_slice st us cur pg bytes i :
  amap us (ADDR_TO_PN cur) = Some pg -> 0 <= i < bytes -> bytes <= PAGE_SIZE - PAGE_OFFSET cur ->
  aspace_byte st us (cur + i) =
  slice (PAGE_OFFSET cur) bytes (contents st (pg_obj pg) (pg_num pg)) !! Z.to_nat i.
Proof.
  intros Hpg Hi Hb. pose proof (page_offset_bound cur).
  destruct (same_page cur i) as [E1 E2]; [lia..|]. unfold aspace_byte.
  rewrite E1, E2, Hpg, lookup_slice by lia. done.
Qed.

Lemma aspace_byte_ext st st' us va :
  (forall o n, contents st' o n = contents st o n) -> aspace_byte st' us va = aspace_byte st us va.
Proof. intros H. unfold aspace_byte. destruct (amap us _); cbn; [by rewrite H | done]. Qed.

(** The first [k] bytes of [buf] are those at [va]. *)
Definition reads_as st us va (k : Z) (buf : list Z) : Prop :=
  Z.of_nat (length buf) = k /\ forall i, 0 <= i < k -> buf !! Z.to_nat i = aspace_byte st us (va + i).

Lemma reads_as_app st us va k b1 b2 k2 :
  reads_as st us va k b1 -> reads_as st us (va + k) k2 b2 -> reads_as st us va (k + k2) (b1 ++ b2).
Proof.
  intros [L1 H1] [L2 H2]. split; [rewrite length_app; lia|]. intros i Hi.
  destruct (decide (i < k)).
  - rewrite lookup_app_l by lia. apply H1. lia.
  - rewrite lookup_app_r by lia. replace (Z.to_nat i - length b1)%nat with (Z.to_nat (i - k)) by lia.
    rewrite H2 by lia. f_equal. lia.
Qed.

Lemma read_loop_run fuel s m vs R va count k buf :
  vm_inv s m vs R -> 0 <= va -> va + count < 2 ^ 32 -> 0 <= k <= count ->
  range_mapped vs.*2 va count -> reads_as (objs s) vs.*2 va k buf -> (Z.to_nat (count - k) < fuel)%nat ->
  (exists s' bs, read_loop fuel m (va + k) (va + count) count buf s = Ok ((0, bs), s') /\
    vm_inv s' m vs R /\ reads_as (objs s) vs.*2 va count bs /\ same_env s s' /\
    (forall o n, contents (objs s') o n = contents (objs s) o n) /\ (forall p q, depends (objs s') p q <-> depends (objs s) p q) /\
    rtc (page_step false) (objs s) (objs s')) \/
  (read_loop fuel m (va + k) (va + count) count buf s = Err FUndef /\
   lookup_fails false (objs s) vs.*2 (map vma_obj vs.*2 ++ R) (in_range va count)).
Proof.
  revert s k buf. induction fuel as [|fuel IH]; intros s k buf Hinv Hva Hend Hk Hmap Hbuf Hf; [lia|].
  destruct (decide (k = count)) as [->|Hne].
  { cbn [read_loop]. rewrite (proj2 (Z.ltb_ge _ _)) by lia. left. by exists s, buf. }
  destruct (Hmap (va + k)) as [pg Hpg]; [lia|].
  destruct (read_step fuel s m vs R (va + k) (va + count) count buf pg Hinv Hpg) as [(st & Ho & Hc & Hd & Hst & ->)|[-> Hfl]]; [lia| |].
  2:{ right. split; [done|]. eapply lookup_fails_mono; [done|reflexivity| |exact Hfl]. unfold in_range. intros ? <-. lia. }
  destruct Hbuf as [HL Hbuf]. pose proof page_size_pos. pose proof (page_offset_bound (va + k)).
  rewrite HL, (u32_small (count - k)) by lia. set (bytes := Z.min _ _).
  assert (0 < bytes <= count - k /\ bytes <= PAGE_SIZE - PAGE_OFFSET (va + k)) as Hb by lia.
  cbv zeta. rewrite u32_small by lia. replace (va + k + bytes) with (va + (k + bytes)) by lia.
  destruct (IH (upd_objs st s) (k + bytes) (buf ++ slice (PAGE_OFFSET (va + k)) bytes
    (contents (objs s) (pg_obj pg) (pg_num pg)))) as [(s' & bs & Hr & Hinv' & Hbs & He & Hc' & Hd' & Hrt)|[Hr Hfl]]; try done; try lia.
  { by apply vm_inv_objs. }
  { apply reads_as_app.
    - split; [done|]. intros i Hi. rewrite Hbuf by lia. symmetry. by apply aspace_byte_ext.
    - split; [apply slice_length; rewrite ?contents_length; lia|]. intros i Hi.
      rewrite (aspace_byte_ext (objs s)) by done. symmetry. apply aspace_byte_slice; [done|lia..]. }
  2:{ right. split; [done|]. eapply lookup_fails_mono; [done|by apply rtc_once|done|exact Hfl]. }
  left. exists s', bs. split; [done|]. split; [done|]. destruct Hbs as [HLb Hbs]. split; [split; [done|]|split; [done|split; [|split]]].
  - intros i Hi. rewrite Hbs by lia. by apply aspace_byte_ext.
  - intros o n. by rewrite Hc', <- Hc.
  - intros p q. by rewrite Hd', <- Hd.
  - by eapply rtc_l.
Qed.

(** C33: [vmmap_read] copies exactly the bytes of the address space at
    [vaddr], page by page, when every page of the range is mapped, and leaves
    the address space and the contents of all objects as they were.  The one
    exception is a page of the range whose lookup fails: the code ignores the
    result of [lookuppage] and goes on with a frame that was never set, which
    is undefined; the comment of the function promises -errno. *)
Theorem vmmap_read_correct s m vs R va count :
  vm_inv s m vs R -> 0 <= va -> 0 <= count -> va + count < 2 ^ 32 -> range_mapped vs.*2 va count ->
  (exists s' bs, vmmap_read m va count s = Ok ((0, bs), s') /\ vm_inv s' m vs R /\
    Z.of_nat (length bs) = count /\
    (forall i, 0 <= i < count -> bs !! Z.to_nat i = aspace_byte (objs s) vs.*2 (va + i)) /\
    (forall o n, contents (objs s') o n = contents (objs s) o n)) \/
  (vmmap_read m va count s = Err FUndef /\
   lookup_fails false (objs s) vs.*2 (map vma_obj vs.*2 ++ R) (in_range va count)).
Proof.
  intros Hinv Hva Hc Hend Hmap. unfold vmmap_read. rewrite u32_small by lia.
  pose proof (read_loop_run (S (Z.to_nat count)) s m vs R va count 0 [] Hinv Hva Hend ltac:(lia) Hmap
    ltac:(split; [done|lia]) ltac:(lia)) as H. rewrite Z.add_0_r in H.
  destruct H as [(s' & bs & Hr & Hinv' & [HL Hbs] & _ & Hcc & _)|?]; [left|by right]. by exists s', bs.
Qed.

(** One step of the writing loop at a mapped page. *)
Lemma write_step fuel s m vs R cur e k buf pg :
  vm_inv s m vs R -> amap vs.*2 (ADDR_TO_PN cur) = Some pg -> cur < e ->
  let count := Z.of_nat (length buf) in 0 <= k < count -> count < 2 ^ 32 ->
  let bytes := Z.min (count - k) (PAGE_SIZE - PAGE_OFFSET cur) in
  (exists st, owns st (map vma_obj vs.*2 ++ R) /\ rtc (page_step true) (objs s) st /\
    contents st (pg_obj pg) (pg_num pg) = list_inserts (Z.to_nat (PAGE_OFFSET cur)) (slice k bytes buf)
      (contents (objs s) (pg_obj pg) (pg_num pg)) /\
    (forall o n, ~ depends (objs s) (o, n) (pg_obj pg, pg_num pg) ->
       contents st o n = contents (objs s) o n) /\
    (forall p q, depends st p q <-> depends (objs s) p q) /\
    write_loop (S fuel) m cur e k buf s =
    write_loop fuel m (u32 (cur + bytes)) e (u32 (k + bytes)) buf (upd_objs st s)) \/
  (write_loop (S fuel) m cur e k buf s = Err FUndef /\
   lookup_fails true (objs s) vs.*2 (map vma_obj vs.*2 ++ R) (eq cur)).
Proof.
  intros Hinv Hpg Hlt count Hk Hcnt bytes. cbn [write_loop]. rewrite (proj2 (Z.ltb_lt _ _) Hlt).
  pose proof (page_offset_bound cur).
  destruct (lookup_mapped _ _ _ _ _ _ Hinv Hpg) as (v & a & Hl & Hv & Ha & Eo & En & Hmem & Hnz & _).
  rewrite (mbind_run _ _ _ _ _ Hl), (proj2 (Z.eqb_neq v 0) Hv), (mbind_run _ _ _ _ _ Ha).
  rewrite (proj2 (Z.eqb_neq _ 0) Hnz), (mbind_run _ _ _ tt s eq_refl), En.
  destruct (lookuppage_ok (objs s) _ (vma_obj a) (pg_num pg) true ltac:(apply Hinv) Hmem)
    as (er & pf & st & Hr & Hcase). rewrite (mbind_run _ _ _ _ _ (obj_op_run _ _ _ _ Hr)). rewrite Eo in *.
  destruct Hcase as [He|(-> & Ho & Hc & Hd & Hdata & Hw)].
  { right. rewrite (proj2 (Z.leb_gt _ _)) by done. split; [done|].
    exists cur, pg, true, (objs s), er, pf, st. split_and!; try done. apply Hinv. }
  specialize (Hw eq_refl). left. rewrite (mbind_run _ _ _ tt (upd_objs st s) eq_refl).
  fold count. rewrite (u32_small (count - k)) by lia. fold bytes.
  destruct (pf_store_ok st _ (pg_obj pg) (pg_num pg) pf (PAGE_OFFSET cur) (slice k bytes buf) Ho Hw)
    as (st1 & er & st2 & Hs & Hdirty & Ho2 & Hc2 & Hc3 & Hd2); [lia| |].
  { rewrite slice_length; lia. }
  rewrite (mbind_run _ _ _ _ _ (obj_op_run _ (upd_objs st s) _ _ Hs)).
  rewrite (mbind_run _ _ _ _ _ (obj_op_run _ (upd_objs st1 (upd_objs st s)) _ _ Hdirty)).
  exists st2. split_and!; [done| |by rewrite Hc2, Hc| | |done].
  - eapply rtc_l; [by eapply step_lookup|]. apply rtc_once. by eapply step_store.
  - intros o n Hdep. rewrite Hc3, Hc; [done|]. by rewrite Hd.
  - intros p q. by rewrite Hd2, Hd.
Qed.

(** The pages written do not show through the page of [x]. *)
Definition isolated st us va count x : Prop :=
  forall y p q, va <= y < va + count -> ADDR_TO_PN y <> ADDR_TO_PN x ->
    amap us (ADDR_TO_PN x) = Some p -> amap us (ADDR_TO_PN y) = Some q ->
    ~ depends st (pg_obj p, pg_num p) (pg_obj q, pg_num q).

(** The effect of one chunk on the byte at [x]. *)
Lemma write_chunk st st' us cur pg bytes k buf x :
  amap us (ADDR_TO_PN cur) = Some pg -> 0 <= k -> 0 < bytes <= PAGE_SIZE - PAGE_OFFSET cur ->
  k + bytes <= Z.of_nat (length buf) ->
  contents st' (pg_obj pg) (pg_num pg) = list_inserts (Z.to_nat (PAGE_OFFSET cur)) (slice k bytes buf)
    (contents st (pg_obj pg) (pg_num pg)) ->
  (forall o n, ~ depends st (o, n) (pg_obj pg, pg_num pg) -> contents st' o n = contents st o n) ->
  isolated st us cur bytes x -> is_Some (amap us (ADDR_TO_PN x)) ->
  aspace_byte st' us x =
  if decide (cur <= x < cur + bytes) then buf !! Z.to_nat (k + (x - cur)) else aspace_byte st us x.
Proof.
  intros Hpg Hk Hb Hlen Hc Hf Hiso [p Hp]. pose proof (page_offset_bound cur). pose proof (page_offset_bound x).
  destruct (decide (ADDR_TO_PN cur = ADDR_TO_PN x)) as [E|E].
  - unfold aspace_byte. rewrite <- E, Hpg. cbn. rewrite Hc.
    pose proof (addr_pn_offset cur) as E1. pose proof (addr_pn_offset x) as E2. rewrite E in E1.
    assert (Z.of_nat (length (slice k bytes buf)) = bytes) as HL by (apply slice_length; lia).
    case_decide.
    + rewrite list_lookup_inserts by (rewrite ?contents_length; lia).
      replace (Z.to_nat (PAGE_OFFSET x) - Z.to_nat (PAGE_OFFSET cur))%nat with (Z.to_nat (x - cur)) by lia.
      apply lookup_slice; lia.
    + destruct (decide (x < cur)); [rewrite list_lookup_inserts_lt by lia | rewrite list_lookup_inserts_ge by lia]; done.
  - rewrite decide_False.
    2:{ intros Hr. destruct (same_page cur (x - cur)) as [E' _]; [lia..|]. apply E. rewrite <- E'. f_equal. lia. }
    unfold aspace_byte. rewrite Hp. cbn. rewrite Hf; [done|].
    by apply (Hiso cur); [lia|..].
Qed.

Lemma write_loop_run fuel s m vs R va k buf :
  let count := Z.of_nat (length buf) in
  vm_inv s m vs R -> 0 <= va -> va + count < 2 ^ 32 -> 0 <= k <= count ->
  range_mapped vs.*2 va count -> (Z.to_nat (count - k) < fuel)%nat ->
  (exists s', write_loop fuel m (va + k) (va + count) k buf s = Ok (0, s') /\ vm_inv s' m vs R /\
    same_env s s' /\ (forall p q, depends (objs s') p q <-> depends (objs s) p q) /\
    forall x, isolated (objs s) vs.*2 va count x -> is_Some (amap vs.*2 (ADDR_TO_PN x)) ->
      aspace_byte (objs s') vs.*2 x =
      if decide (va + k <= x < va + count) then buf !! Z.to_nat (x - va) else aspace_byte (objs s) vs.*2 x) \/
  (write_loop fuel m (va + k) (va + count) k buf s = Err FUndef /\
   lookup_fails true (objs s) vs.*2 (map vma_obj vs.*2 ++ R) (in_range va count)).
Proof.
  intros count. revert s k. induction fuel as [|fuel IH]; intros s k Hinv Hva Hend Hk Hmap Hf; [lia|].
  destruct (decide (k = count)) as [->|Hne].
  { cbn [write_loop]. rewrite (proj2 (Z.ltb_ge _ _)) by lia. left. exists s. split; [done|]. split; [done|].
    split; [done|]. split; [done|]. intros x _ _. by rewrite decide_False by lia. }
  destruct (Hmap (va + k)) as [pg Hpg]; [lia|].
  destruct (write_step fuel s m vs R (va + k) (va + count) k buf pg Hinv Hpg)
    as [(st & Ho & Hst & Hc & Hfr & Hd & ->)|[-> Hfl]]; [lia..| |].
  2:{ right. split; [done|]. eapply lookup_fails_mono; [done|reflexivity| |exact Hfl]. unfold in_range. intros ? <-. lia. }
  fold count in Hc |- *.
  pose proof page_size_pos. pose proof (page_offset_bound (va + k)). set (bytes := Z.min (count - k) _) in *.
  assert (0 < bytes <= count - k /\ bytes <= PAGE_SIZE - PAGE_OFFSET (va + k)) as Hb by lia.
  rewrite !u32_small by lia. replace (va + k + bytes) with (va + (k + bytes)) by lia.
  destruct (IH (upd_objs st s) (k + bytes)) as [(s' & Hr & Hinv' & He & Hd' & Hx)|[Hr Hfl]]; try done; try lia.
  { by apply vm_inv_objs. }
  2:{ right. split; [done|]. by eapply lookup_fails_mono; [| | |exact Hfl]. }
  left. exists s'. split; [done|]. split; [done|]. split; [done|]. split; [intros p q; by rewrite Hd', Hd|].
  intros x Hiso Hxm. rewrite Hx; [|intros y p q; rewrite Hd; apply Hiso|done].
  rewrite (write_chunk (objs s) st vs.*2 (va + k) pg bytes k buf x); try done; try lia.
  2:{ intros y p q Hy. apply Hiso. lia. }
  repeat case_decide; try lia; try done. f_equal. lia.
Qed.

(** C32: [vmmap_write] writes the buffer at [vaddr], page by page, when every
    page of the range is mapped: a later read of the range finds the buffer,
    and every mapped byte outside of the range whose page does not show a
    written page keeps its value.  The one exception is a page of the range
    whose lookup for writing fails: the code ignores the result of
    [lookuppage] and writes through a frame that was never set, which is
    undefined; the comment of the function promises -errno. *)
Theorem vmmap_write_correct s m vs R va buf :
  let count := Z.of_nat (length buf) in
  vm_inv s m vs R -> 0 <= va -> va + count < 2 ^ 32 -> range_mapped vs.*2 va count ->
  (exists s', vmmap_write m va buf s = Ok (0, s') /\ vm_inv s' m vs R /\
    forall x, isolated (objs s) vs.*2 va count x -> is_Some (amap vs.*2 (ADDR_TO_PN x)) ->
      aspace_byte (objs s') vs.*2 x =
      if decide (va <= x < va + count) then buf !! Z.to_nat (x - va) else aspace_byte (objs s) vs.*2 x) \/
  (vmmap_write m va buf s = Err FUndef /\
   lookup_fails true (objs s) vs.*2 (map vma_obj vs.*2 ++ R) (in_range va count)).
Proof.
  intros count Hinv Hva Hend Hmap. unfold vmmap_write. fold count. rewrite u32_small by lia.
  pose proof (write_loop_run (S (length buf)) s m vs R va 0 buf Hinv Hva Hend ltac:(lia) Hmap ltac:(lia)) as H.
  rewrite Z.add_0_r in H. destruct H as [(s' & Hr & Hinv' & _ & _ & Hx)|?]; [left|by right]. by exists s'.
Qed.

(** *** api/access.c *)
Definition cur_inv s vs R : Prop := vm_inv s (p_vmmap (curproc s)) vs R.

Lemma addr_perm_run s vs R va perm :
  cur_inv s vs R -> addr_perm va perm s = Ok (bool_decide (is_Some (amap vs.*2 (ADDR_TO_PN va))), s).
Proof.
  intros (Hm & Hz & _). unfold addr_perm, mget. unfold mbind_ at 1.
  rewrite (mbind_run _ _ _ _ _ (vmmap_lookup_run _ _ _ _ Hm)), find_area_amap. unfold mret_.
  destruct (find_area vs _) as [[v a]|] eqn:E; cbn [fmap option_fmap option_map from_option fst]; [|by rewrite bool_decide_eq_false_2 by by intros []].
  rewrite bool_decide_eq_true_2 by by eexists. rewrite (proj2 (Z.eqb_neq v 0)); [done|].
  intros ->. apply find_area_Some in E as [Hin _]. destruct Hm as (_ & _ & Hf & _).
  rewrite Forall_forall in Hf. specialize (Hf _ Hin). cbn in Hf. congruence.
Qed.

(** The addresses the loop of [range_perm] looks at. *)
Definition probed (va off len : Z) (x : Z) : Prop :=
  exists i, 0 <= i /\ x = va + off + i * PAGE_SIZE /\ off + i * PAGE_SIZE < len.

Lemma range_perm_loop_run fuel s vs R va off len perm :
  cur_inv s vs R -> 0 <= va -> 0 <= off -> va + len < 2 ^ 32 -> len + PAGE_SIZE < 2 ^ 32 ->
  (Z.to_nat (len - off) < fuel)%nat ->
  exists b, range_perm_loop fuel va off len perm s = Ok (b, s) /\
    (b = true <-> forall x, probed va off len x -> is_Some (amap vs.*2 (ADDR_TO_PN x))).
Proof.
  revert off. induction fuel as [|fuel IH]; intros off Hinv Hva Hoff Hend Hlen Hf; [lia|].
  pose proof page_size_pos. cbn [range_perm_loop]. destruct (Z.ltb_spec off len) as [Hlt|Hge].
  - rewrite (mbind_run _ _ _ _ _ (addr_perm_run s vs R _ perm Hinv)), (u32_small (va + off)) by lia.
    case_bool_decide as Hm; cbn [negb].
    + rewrite u32_small by lia. destruct (IH (off + PAGE_SIZE)) as (b & Hr & Hb); [done|lia..|].
      exists b. split; [done|]. rewrite Hb. split; intros Hx x (i & Hi & -> & Hl).
      * destruct (decide (i = 0)) as [->|]; [by rewrite Z.mul_0_l, Z.add_0_r|].
        apply Hx. exists (i - 1). split; [lia|]. split; [lia|]. lia.
      * apply Hx. exists (i + 1). split; [lia|]. split; [lia|]. lia.
    + exists false. split; [done|]. split; [done|]. intros Hx. exfalso. apply Hm, Hx. exists 0. lia.
  - exists true. split; [done|]. split; [|done]. intros _ x (i & Hi & -> & Hl). nia.
Qed.

(** [addr_perm] answers whether the page is mapped; the permissions that
    are asked for play no role (the comment above the function asks to verify
    them, the code that would is commented out). *)
Theorem addr_perm_ignores_perm s vs R va perm :
  cur_inv s vs R ->
  exists b, addr_perm va perm s = Ok (b, s) /\ (b = true <-> is_Some (amap vs.*2 (ADDR_TO_PN va))).
Proof.
  intros Hinv. eexists. split; [by eapply addr_perm_run|]. apply bool_decide_eq_true.
Qed.

(** With an aligned start the loop visits every page of the range. *)
Lemma probed_pages us va len :
  PAGE_ALIGNED va = true -> 0 <= len ->
  (forall x, probed va 0 len x -> is_Some (amap us (ADDR_TO_PN x))) <-> range_mapped us va len.
Proof.
  intros Hal Hlen. unfold PAGE_ALIGNED in Hal. apply Z.eqb_eq in Hal. pose proof page_size_pos.
  split; intros Hx x Hr.
  - pose proof (page_offset_bound (x - va)). pose proof (addr_pn_offset (x - va)) as E.
    set (i := ADDR_TO_PN (x - va)) in *. set (o := PAGE_OFFSET (x - va)) in *.
    assert (0 <= i) by (unfold i; rewrite addr_to_pn; apply Z.div_pos; lia).
    destruct (Hx (va + 0 + i * PAGE_SIZE)) as [pg Hpg]; [exists i; lia|].
    destruct (same_page (va + 0 + i * PAGE_SIZE) o) as [E' _]; [lia| |].
    { unfold PAGE_OFFSET. rewrite Z.add_0_r, Z.mod_add, Hal by lia. lia. }
    replace (va + 0 + i * PAGE_SIZE + o) with x in E' by lia. rewrite E'. by eexists.
  - destruct Hr as (i & Hi & -> & Hl). apply Hx. nia.
Qed.

Lemma range_perm_run s vs R va len perm :
  cur_inv s vs R -> 0 <= va -> 0 <= len -> va + len < 2 ^ 32 -> len + PAGE_SIZE < 2 ^ 32 ->
  exists b, range_perm va len perm s = Ok (b, s) /\
    (b = true <-> forall x, probed va 0 len x -> is_Some (amap vs.*2 (ADDR_TO_PN x))).
Proof. intros. unfold range_perm. apply (range_perm_loop_run _ s vs R); lia || done. Qed.

(** [copy_from_user] from a page-aligned user address: it reads the bytes
    of the address space when the whole range is mapped (unless a lookup
    fails, see [vmmap_read]), and returns -EFAULT without reading anything
    otherwise. *)
Theorem copy_from_user_correct s vs R va len :
  cur_inv s vs R -> PAGE_ALIGNED va = true -> 0 <= va -> 0 <= len -> va + len < 2 ^ 32 ->
  len + PAGE_SIZE < 2 ^ 32 ->
  (range_mapped vs.*2 va len ->
   (exists s' bs, copy_from_user va len s = Ok ((0, bs), s') /\ cur_inv s' vs R /\
     reads_as (objs s) vs.*2 va len bs) \/
   (copy_from_user va len s = Err FUndef /\
    lookup_fails false (objs s) vs.*2 (map vma_obj vs.*2 ++ R) (in_range va len))) /\
  (~ range_mapped vs.*2 va len -> copy_from_user va len s = Ok ((- EFAULT, []), s)).
Proof.
  intros Hinv Hal Hva Hlen Hend Hps. unfold copy_from_user.
  destruct (range_perm_run s vs R va len PROT_READ Hinv Hva Hlen Hend Hps) as (b & Hr & Hb).
  rewrite probed_pages in Hb by done. rewrite (mbind_run _ _ _ _ _ Hr). split; intros Hm.
  - rewrite (proj2 Hb Hm). cbn [negb]. unfold mget. unfold mbind_ at 1. unfold vmmap_read.
    pose proof (read_loop_run (S (Z.to_nat len)) s _ vs R va len 0 [] Hinv Hva Hend ltac:(lia) Hm
      ltac:(split; [done|lia]) ltac:(lia)) as H. rewrite Z.add_0_r in H. rewrite u32_small by lia.
    destruct H as [(s' & bs & Hrl & Hinv' & Hbs & (_ & Hcp & _) & _)|?]; [left|by right]. exists s', bs. split; [done|]. split; [|done].
    unfold cur_inv. by rewrite Hcp.
  - destruct b; [by destruct Hm; apply Hb | done].
Qed.

(** An unaligned range that crosses into an unmapped page passes
    [range_perm], which steps by whole pages from the unaligned start: the
    copy then stops inside [vmmap_read] (if the lookup of the first page
    succeeds) and -1 is returned instead of -EFAULT. *)
Theorem copy_from_user_unaligned s vs R va len :
  cur_inv s vs R -> 0 <= va -> 0 < len <= PAGE_SIZE -> va + len < 2 ^ 32 ->
  PAGE_SIZE < PAGE_OFFSET va + len ->
  is_Some (amap vs.*2 (ADDR_TO_PN va)) -> amap vs.*2 (ADDR_TO_PN va + 1) = None ->
  ~ lookup_fails false (objs s) vs.*2 (map vma_obj vs.*2 ++ R) (eq va) ->
  exists s' bs, copy_from_user va len s = Ok ((-1, bs), s') /\ kt_errno s' = 1.
Proof.
  intros Hinv Hva Hlen Hend Hx Hm Hn Hnf. unfold copy_from_user. pose proof page_size_pos.
  pose proof (page_offset_bound va). destruct user_mem_range as (Hu1 & Hu2 & Hu3). fold PAGE_SIZE in *.
  destruct (range_perm_run s vs R va len PROT_READ Hinv Hva ltac:(lia) Hend ltac:(lia)) as (b & Hr & Hb).
  rewrite (mbind_run _ _ _ _ _ Hr). rewrite (proj2 Hb).
  2:{ intros x (i & Hi & -> & Hl). assert (i = 0) as -> by nia. by rewrite Z.mul_0_l, !Z.add_0_r. }
  cbn [negb]. unfold mget. unfold mbind_ at 1. unfold vmmap_read. rewrite u32_small by lia.
  destruct Hm as [pg Hpg]. replace (Z.to_nat len) with (S (Z.to_nat (len - 1))) by lia.
  destruct (read_step (S (Z.to_nat (len - 1))) s _ vs R va (va + len) len [] pg Hinv Hpg ltac:(lia))
    as [(st & Ho & _ & _ & _ & ->)|[_ ?]]; [|done].
  rewrite (u32_small (len - _)) by (cbn; lia). rewrite Z.min_r by (cbn; lia). cbv zeta.
  rewrite u32_small by lia. cbn [read_loop]. rewrite (proj2 (Z.ltb_lt _ _)) by lia.
  pose proof (addr_pn_offset va) as E.
  replace (va + (PAGE_SIZE - PAGE_OFFSET va)) with ((ADDR_TO_PN va + 1) * PAGE_SIZE) by lia.
  assert (ADDR_TO_PN ((ADDR_TO_PN va + 1) * PAGE_SIZE) = ADDR_TO_PN va + 1) as ->
    by (rewrite addr_to_pn at 1; apply Z.div_mul; lia).
  assert (map_rep (upd_objs st s) (p_vmmap (curproc s)) vs) as Hrep by apply Hinv.
  rewrite (mbind_run _ _ _ _ _ (vmmap_lookup_run _ _ _ _ Hrep)).
  rewrite find_area_amap in Hn. destruct (find_area vs _); [done|]. cbn.
  eexists _, _. split; [reflexivity|]. done.
Qed.

(** *** vm/brk.c *)
Lemma align_up_pn addr :
  0 < addr <= USER_MEM_HIGH ->
  ADDR_TO_PN (PAGE_ALIGN_UP addr) = (addr - 1) / PAGE_SIZE + 1 /\
  0 < (addr - 1) / PAGE_SIZE + 1 <= HIGH_PN.
Proof.
  intros Ha. pose proof page_size_pos. pose proof low_high_pn. rewrite user_high_pn in Ha.
  unfold PAGE_ALIGN_UP, PAGE_ALIGN_DOWN. assert (PAGE_SIZE <> 0) as Hnz by lia.
  pose proof (Z.div_mod (addr - 1) PAGE_SIZE Hnz). pose proof (page_offset_bound (addr - 1)) as Hmod. unfold PAGE_OFFSET in Hmod.
  set (q := (addr - 1) / PAGE_SIZE) in *.
  assert (0 <= q) by (apply Z.div_pos; lia). assert (q < HIGH_PN) by nia.
  replace (addr - 1 - (addr - 1) mod PAGE_SIZE + PAGE_SIZE) with ((q + 1) * PAGE_SIZE) by lia.
  rewrite u32_small by nia. rewrite addr_to_pn, Z.div_mul by done. lia.
Qed.

(** Extending an area over free pages. *)
Lemma areas_ok_extend l us a ws h e :
  areas_ok l (us ++ a :: ws) h -> vma_end a <= e -> e <= h ->
  range_free (us ++ a :: ws) (vma_end a) (e - vma_end a) ->
  areas_ok l (us ++ with_end e a :: ws) h.
Proof.
  intros (mid & Hu & H1 & H2 & H3)%areas_ok_app Hae Heh Hf. apply areas_ok_app. exists mid. split; [done|].
  cbn. split_and!; [done|lia|]. destruct ws as [|b ws]; [done|]. cbn in *.
  destruct H3 as (H4 & H5 & H6). split_and!; [|done..].
  destruct (decide (e <= vma_start b)); [done|]. exfalso.
  specialize (Hf (vma_start b) ltac:(lia)). rewrite amap_None in Hf.
  apply (Hf b); [set_solver|]. unfold covers. lia.
Qed.
Lemma amap_extend l us a ws h e vfn :
  areas_ok l (us ++ a :: ws) h -> vma_end a <= e ->
  range_free (us ++ a :: ws) (vma_end a) (e - vma_end a) ->
  amap (us ++ with_end e a :: ws) vfn =
  if decide (vma_end a <= vfn < e) then Some (page_of a vfn) else amap (us ++ a :: ws) vfn.
Proof.
  intros (mid & Hu & H1 & H2 & H3)%areas_ok_app Hae Hf. rewrite !amap_app. cbn [amap].
  unfold covers. cbn. pose proof (amap_outside _ _ _ vfn Hu) as Ho.
  destruct (decide (vma_end a <= vfn < e)) as [Hin|Hin].
  - rewrite Ho by lia. by rewrite decide_True by lia.
  - destruct (amap us vfn); [done|]. repeat case_decide; try done; lia.
Qed.

(** The lookup of the heap's area. *)
Lemma heap_lookup s xs v a ys R vfn :
  vm_inv s (p_vmmap (curproc s)) (xs ++ (v, a) :: ys) R -> covers a vfn ->
  vmmap_lookup (p_vmmap (curproc s)) vfn s = Ok (v, s) /\ load_area v s = Ok (a, s).
Proof.
  intros (Hm & _ & Hok & _) Hc. split; [|by apply (map_rep_load _ _ _ (v, a) Hm); set_solver].
  rewrite (vmmap_lookup_run _ _ _ _ Hm). rewrite fmap_app in Hok. do 2 f_equal.
  assert (forall b, b ∈ xs.*2 ++ ys.*2 -> ~ covers b vfn) as Hu by (intros b; by eapply areas_ok_unique).
  clear Hm Hok. induction xs as [|[w b] xs IH]; cbn.
  - by rewrite decide_True.
  - rewrite decide_False by (apply Hu; set_solver). apply IH. set_solver.
Qed.

(** What [do_brk] promises when it succeeds. *)
Definition brk_set s s' vs vs' R (a : vmarea) (addr e : Z) : Prop :=
  cur_inv s' vs' R /\ p_brk (curproc s') = addr /\
  p_start_brk (curproc s') = p_start_brk (curproc s) /\
  forall vfn, amap vs'.*2 vfn =
    if decide (e <= vfn < vma_end a) then None
    else if decide (vma_end a <= vfn < e) then Some (page_of a vfn) else amap vs.*2 vfn.

(** The run of [do_brk] up to the comparison of the two ends. *)
Lemma do_brk_prefix s xs v a ys R addr :
  cur_inv s (xs ++ (v, a) :: ys) R -> covers a (ADDR_TO_PN (p_start_brk (curproc s))) ->
  0 < p_start_brk (curproc s) <= addr -> addr <= USER_MEM_HIGH ->
  let e := (addr - 1) / PAGE_SIZE + 1 in
  let m := p_vmmap (curproc s) in
  do_brk addr s =
  (if e <? vma_end a then
     let! _ := vmmap_remove m e (vma_end a - e) in
     mput (upd_curproc (set_brk addr)) ;;; mret_ (0, addr)
   else if vma_end a <? e then
     let! empty := vmmap_is_range_empty m (vma_end a) (e - vma_end a) in
     if empty =? 0 then mret_ (- ENOMEM, 0)
     else store_area v (with_end e) ;;; mput (upd_curproc (set_brk addr)) ;;; mret_ (0, addr)
   else mput (upd_curproc (set_brk addr)) ;;; mret_ (0, addr)) s.
Proof.
  intros Hinv Hc Hs Hh e m. unfold do_brk, mget. unfold mbind_ at 1.
  rewrite (proj2 (Z.eqb_neq addr 0)), (proj2 (Z.ltb_ge addr _)), (proj2 (Z.ltb_ge _ addr)) by lia. cbn [orb].
  destruct (heap_lookup _ _ _ _ _ _ _ Hinv Hc) as [Hl Ha].
  rewrite (mbind_run _ _ _ _ _ Hl), (mbind_run _ _ _ _ _ Ha).
  destruct (align_up_pn addr) as [-> He]; [lia|]. fold e in He |- *. fold m.
  destruct Hinv as (_ & _ & Hok & _). rewrite fmap_app in Hok.
  destruct (areas_ok_bounds _ _ _ a Hok) as (Hb1 & Hb2 & Hb3); [set_solver|].
  destruct high_pn_u32 as (? & ? & ?).
  destruct (Z.ltb_spec e (vma_end a)).
  - unfold u32. rewrite <- Z.sub_0_l, Zminus_mod_idemp_r.
    replace (0 - (e - vma_end a)) with (vma_end a - e) by lia. by rewrite Z.mod_small by lia.
  - destruct (Z.ltb_spec (vma_end a) e); [|done]. by rewrite u32_small by lia.
Qed.

Lemma do_brk_shrink s xs v a ys R addr :
  (forall h : gmap Z vmarea, is_Some (slab_pick h)) ->
  cur_inv s (xs ++ (v, a) :: ys) R -> covers a (ADDR_TO_PN (p_start_brk (curproc s))) ->
  0 < p_start_brk (curproc s) <= addr -> addr <= USER_MEM_HIGH ->
  let e := (addr - 1) / PAGE_SIZE + 1 in e < vma_end a ->
  exists s' vs', do_brk addr s = Ok ((0, addr), s') /\ brk_set s s' (xs ++ (v, a) :: ys) vs' R a addr e.
Proof.
  intros Htot Hinv Hc Hs Hh e He. rewrite (do_brk_prefix _ _ _ _ _ _ _ Hinv Hc Hs Hh). fold e.
  rewrite (proj2 (Z.ltb_lt _ _) He). destruct (align_up_pn addr) as [_ He0]; [lia|]. fold e in He0.
  pose proof Hinv as (_ & _ & Hok & _). rewrite fmap_app in Hok.
  destruct (areas_ok_bounds _ _ _ a Hok) as (Hb1 & Hb2 & Hb3); [set_solver|].
  destruct (vmmap_remove_run s _ _ R e (vma_end a - e) Htot Hinv) as (s1 & vs1 & Hr & Hinv1 & _ & Hmap & _ & _ & Hcp & _); [lia..|].
  rewrite (mbind_run _ _ _ _ _ Hr). unfold mput, mret_, mbind_. eexists _, vs1. split; [reflexivity|].
  unfold brk_set, cur_inv. cbn. rewrite Hcp. split; [exact Hinv1|]. split; [done|]. split; [done|].
  intros vfn. rewrite Hmap. repeat case_decide; try done; lia.
Qed.

Lemma do_brk_grow s xs v a ys R addr :
  cur_inv s (xs ++ (v, a) :: ys) R -> covers a (ADDR_TO_PN (p_start_brk (curproc s))) ->
  0 < p_start_brk (curproc s) <= addr -> addr <= USER_MEM_HIGH ->
  let vs := xs ++ (v, a) :: ys in
  let e := (addr - 1) / PAGE_SIZE + 1 in vma_end a <= e ->
  (range_free vs.*2 (vma_end a) (e - vma_end a) ->
   exists s' vs', do_brk addr s = Ok ((0, addr), s') /\ brk_set s s' vs vs' R a addr e) /\
  (~ range_free vs.*2 (vma_end a) (e - vma_end a) -> do_brk addr s = Ok ((- ENOMEM, 0), s)).
Proof.
  intros Hinv Hc Hs Hh vs e He. rewrite (do_brk_prefix _ _ _ _ _ _ _ Hinv Hc Hs Hh). fold e.
  rewrite (proj2 (Z.ltb_ge _ _)) by lia. destruct (align_up_pn addr) as [_ He0]; [lia|]. fold e in He0.
  pose proof Hinv as (Hm & Hz & Hok & Hvm & Ho). rewrite fmap_app in Hok. cbn [fmap list_fmap snd] in Hok.
  destruct (areas_ok_bounds _ _ _ a Hok) as (Hb1 & Hb2 & Hb3); [set_solver|].
  assert (areas s !! v = Some a) as Ha by by eapply map_rep_lookup.
  destruct (Z.ltb_spec (vma_end a) e) as [Hlt|Hge].
  - destruct (is_range_empty_run s _ vs R (vma_end a) (e - vma_end a) Hinv) as (r & Hr & Hspec); [lia..|].
    rewrite (mbind_run _ _ _ _ _ Hr). destruct Hspec as [[-> Hf]|[-> Hf]]; (split; [intros Hf'|done]); [|done].
    cbn [Z.eqb]. rewrite (mbind_run _ _ _ _ _ (store_area_run _ _ _ _ Ha)).
    unfold mput, mret_, mbind_. exists (upd_curproc (set_brk addr) (upd_areas (<[v := with_end e a]>) s)).
    exists (xs ++ (v, with_end e a) :: ys). split; [done|].
    unfold vs in Hf. rewrite fmap_app in Hf. cbn [fmap list_fmap snd] in Hf.
    assert (v <> 0) by congruence. split; [|split; [done|split; [done|]]].
    + split; [by apply (map_rep_update s _ xs v a)|]. split; [cbn; by rewrite lookup_insert_ne|].
      rewrite fmap_app in Hvm |- *. split; [by apply areas_ok_extend; [..|lia|]|]. split.
      * rewrite Forall_app in *. destruct Hvm as [? [? ?]%Forall_cons]. by repeat constructor.
      * revert Ho. by rewrite !fmap_app, ?map_app.
    + intros vfn. unfold vs. rewrite !fmap_app. cbn [fmap list_fmap snd].
      rewrite (amap_extend _ _ _ _ _ _ _ Hok) by done. by rewrite (decide_False (P := e <= vfn < vma_end a)) by lia.
  - split; [intros _|intros Hf; destruct Hf; intros vfn ?; lia].
    eexists _, vs. split; [reflexivity|]. split; [done|]. split; [done|]. split; [done|].
    intros vfn. by rewrite !decide_False by lia.
Qed.

(** C35: [do_brk] when the page of the starting break is mapped, by the area
    [a].  Break 0 asks for the current break.  A break below the start or
    above user memory, or one that would grow into another mapping, gives
    -ENOMEM and changes nothing; otherwise the break is set, growing maps
    exactly the pages up to the new break to the heap's object and shrinking
    unmaps exactly the pages above it, and the invariant is kept. *)
Theorem do_brk_correct s xs v a ys R addr :
  (forall h : gmap Z vmarea, is_Some (slab_pick h)) ->
  let vs := xs ++ (v, a) :: ys in let start := p_start_brk (curproc s) in
  cur_inv s vs R -> covers a (ADDR_TO_PN start) -> 0 < start -> 0 < addr ->
  let e := (addr - 1) / PAGE_SIZE + 1 in
  do_brk 0 s = Ok ((0, p_brk (curproc s)), s) /\
  (addr < start \/ USER_MEM_HIGH < addr -> do_brk addr s = Ok ((- ENOMEM, 0), s)) /\
  (start <= addr <= USER_MEM_HIGH ->
   (range_free vs.*2 (vma_end a) (e - vma_end a) ->
    exists s' vs', do_brk addr s = Ok ((0, addr), s') /\ brk_set s s' vs vs' R a addr e) /\
   (~ range_free vs.*2 (vma_end a) (e - vma_end a) -> do_brk addr s = Ok ((- ENOMEM, 0), s))).
Proof.
  intros Htot vs start Hinv Hc Hs Ha e. split; [done|]. split.
  - intros Hbad. unfold do_brk, mget. unfold mbind_ at 1. rewrite (proj2 (Z.eqb_neq addr 0)) by lia.
    fold start. replace ((addr <? start) || (USER_MEM_HIGH <? addr)) with true; [done|].
    symmetry. rewrite orb_true_iff, !Z.ltb_lt. done.
  - intros [Hlo Hhi]. destruct (Z.lt_ge_cases e (vma_end a)) as [He|He].
    + split; [intros _|intros Hf; destruct Hf; intros vfn ?; lia].
      by apply (do_brk_shrink s xs v a ys R addr Htot).
    + by apply (do_brk_grow s xs v a ys R addr).
Qed.

(** When the page of the starting break is not mapped (for instance
    after a page-aligned starting break has been shrunk to itself),
    [do_brk] dereferences the NULL that the lookup returns. *)
Theorem do_brk_unmapped s vs R addr :
  cur_inv s vs R -> amap vs.*2 (ADDR_TO_PN (p_start_brk (curproc s))) = None ->
  0 < addr -> p_start_brk (curproc s) <= addr <= USER_MEM_HIGH -> do_brk addr s = Err FUndef.
Proof.
  intros (Hm & Hz & _) Hn Ha [Hlo Hhi]. unfold do_brk, mget. unfold mbind_ at 1.
  rewrite (proj2 (Z.eqb_neq addr 0)), (proj2 (Z.ltb_ge addr _)), (proj2 (Z.ltb_ge _ addr)) by lia. cbn [orb].
  rewrite (mbind_run _ _ _ _ _ (vmmap_lookup_run _ _ _ _ Hm)).
  rewrite find_area_amap in Hn. destruct (find_area vs _); [done|]. cbn [from_option].
  apply mbind_err. unfold load_area. by rewrite Hz.
Qed.

(** *** vm/mmap.c *)
Lemma pages_of_bounds len : 0 < len -> 0 < pages_of len /\ (pages_of len - 1) * PAGE_SIZE < len <= pages_of len * PAGE_SIZE.
Proof.
  intros Hl. pose proof page_size_pos. unfold pages_of. assert (PAGE_SIZE <> 0) as Hnz by lia.
  pose proof (Z.div_mod len PAGE_SIZE Hnz). pose proof (page_offset_bound len) as Hm. unfold PAGE_OFFSET in Hm.
  assert (0 <= len / PAGE_SIZE) by (apply Z.div_pos; lia).
  destruct (Z.eqb_spec (len mod PAGE_SIZE) 0); nia.
Qed.
Lemma aligned_pn addr : PAGE_ALIGNED addr = true -> addr = ADDR_TO_PN addr * PAGE_SIZE.
Proof.
  intros H%Z.eqb_eq. rewrite (addr_pn_offset addr) at 1. unfold PAGE_OFFSET. rewrite H. lia.
Qed.
(** The pages of an aligned range in user memory end in user memory. *)
Lemma pages_in_user addr len :
  PAGE_ALIGNED addr = true -> 0 <= addr -> 0 < len -> addr + len <= USER_MEM_HIGH ->
  0 <= ADDR_TO_PN addr /\ 0 < pages_of len /\ ADDR_TO_PN addr + pages_of len <= HIGH_PN.
Proof.
  intros Hal Ha Hl Hh. rewrite user_high_pn in Hh. rewrite (aligned_pn addr Hal) in Ha, Hh.
  destruct (pages_of_bounds len Hl) as (? & ? & ?). pose proof page_size_pos. nia.
Qed.

(** [do_munmap] checks its arguments (-EINVAL, nothing changed) and
    otherwise unmaps every page that meets the byte range and no other, with
    no stale translation left. *)
Theorem do_munmap_correct s vs R addr len :
  (forall h : gmap Z vmarea, is_Some (slab_pick h)) -> cur_inv s vs R ->
  0 <= addr -> 0 <= len -> addr + len < 2 ^ 32 ->
  if decide (PAGE_ALIGNED addr = true /\ 0 < len /\ USER_MEM_LOW <= addr + len <= USER_MEM_HIGH) then
    exists s' vs', do_munmap addr len s = Ok (0, s') /\ cur_inv s' vs' R /\
      (forall vfn, amap vs'.*2 vfn =
         if decide (addr < (vfn + 1) * PAGE_SIZE /\ vfn * PAGE_SIZE < addr + len) then None else amap vs.*2 vfn) /\
      (forall vfn, tlb_entry (mmu s') vfn = None) /\
      (forall vfn, addr < (vfn + 1) * PAGE_SIZE /\ vfn * PAGE_SIZE < addr + len ->
         pt_entry (mmu s') (p_pagedir (curproc s)) vfn = None)
  else do_munmap addr len s = Ok (- EINVAL, s).
Proof.
  intros Htot Hinv Ha Hl Hsum. unfold do_munmap. pose proof page_size_pos. case_decide as Hok.
  - destruct Hok as (Hal & Hlen & Hlo & Hhi). rewrite Hal, u32_small by lia. cbn [negb].
    rewrite !(proj2 (Z.ltb_ge _ _)), (proj2 (Z.eqb_neq len 0)) by lia. cbn [orb].
    destruct (pages_in_user addr len Hal Ha Hlen Hhi) as (Hp & Hn & Hend).
    pose proof (aligned_pn addr Hal) as Ea. destruct (pages_of_bounds len Hlen) as (_ & Hb1 & Hb2).
    unfold mget. unfold mbind_ at 1.
    destruct (vmmap_remove_run s _ vs R (ADDR_TO_PN addr) (pages_of len) Htot Hinv)
      as (s1 & vs1 & Hr & Hinv1 & _ & Hmap & Htlb & Hpt & Hcp & _); [lia..|].
    rewrite (mbind_run _ _ _ _ _ Hr). unfold mput, mret_, mbind_. eexists _, vs1. split; [reflexivity|].
    assert (forall vfn, ADDR_TO_PN addr <= vfn < ADDR_TO_PN addr + pages_of len <->
      addr < (vfn + 1) * PAGE_SIZE /\ vfn * PAGE_SIZE < addr + len) as Hiff by (intros vfn; nia).
    split; [unfold cur_inv; cbn; rewrite Hcp; exact Hinv1|]. cbn. split_and!.
    + intros vfn. rewrite Hmap. apply decide_ext. apply Hiff.
    + intros vfn. apply tlb_flush_all_tlb.
    + intros vfn Hv. rewrite tlb_flush_all_pt, Hpt. apply decide_True. by apply Hiff.
  - destruct (PAGE_ALIGNED addr); [|done]. cbn [negb]. rewrite u32_small by lia.
    destruct (_ || _) eqn:E; [done|]. exfalso. apply Hok.
    rewrite !orb_false_iff, !Z.ltb_ge, Z.eqb_neq in E. split; [done|]. lia.
Qed.

Section Mmap.
Context `{FI : Files}.

Lemma vm_op_run {A} (c : M vms A) s f r s' : c s = Ok (r, s') -> vm_op c (s, f) = Ok (r, (s', f)).
Proof. unfold vm_op. by intros ->. Qed.
Lemma vm_op_err {A} (c : M vms A) s f e : c s = Err e -> vm_op c (s, f) = Err e.
Proof. unfold vm_op. by intros ->. Qed.
Lemma file_op_run {A} (c : M fstate A) s f r f' : c f = Ok (r, f') -> file_op c (s, f) = Ok (r, (s, f')).
Proof. unfold file_op. by intros ->. Qed.

(** The argument checks of [do_mmap] that do not involve the file. *)
Definition mmap_args_ok (addr len flags off : Z) : Prop :=
  PAGE_ALIGNED off = true /\ (addr = 0 \/ PAGE_ALIGNED addr = true) /\
  u32 (addr + len) <= USER_MEM_HIGH /\ len <> 0 /\
  (flag flags MAP_PRIVATE = true \/ flag flags MAP_SHARED = true) /\
  (flag flags MAP_FIXED = true -> addr <> 0).

Lemma do_mmap_args addr len prot flags fd off :
  mmap_args_ok addr len flags off ->
  do_mmap addr len prot flags fd off =
  let lopage := if addr =? 0 then 0 else ADDR_TO_PN addr in
  if flag flags MAP_ANON then mmap_finish 0 0 lopage len prot flags off
  else if fd =? -1 then mret_ (- EBADF, 0)
  else
    let! file := file_op (fget fd) in
    if file =? 0 then mret_ (- EBADF, 0)
    else
      let! vn := file_op (mget (fun f => f_vnode f file)) in
      let! mode := file_op (mget (fun f => f_mode f file)) in
      if negb (flag mode FMODE_WRITE) && flag prot PROT_WRITE && negb (flag flags MAP_PRIVATE) then
        file_op (fput file) ;;; mret_ (- EACCES, 0)
      else mmap_finish file vn lopage len prot flags off.
Proof.
  intros (Ho & Ha & Hs & Hl & Hf & Hfix). unfold do_mmap. rewrite Ho. cbn [negb orb].
  replace (negb (addr =? 0) && negb (PAGE_ALIGNED addr)) with false.
  2:{ symmetry. destruct Ha as [->| ->]; [done | by rewrite andb_false_r]. }
  rewrite (proj2 (Z.ltb_ge _ _) Hs), (proj2 (Z.eqb_neq _ _) Hl). cbn [orb].
  replace (negb (flag flags MAP_PRIVATE) && negb (flag flags MAP_SHARED)) with false.
  2:{ symmetry. destruct Hf as [-> | ->]; [done | by rewrite andb_false_r]. }
  replace (flag flags MAP_FIXED && (addr =? 0)) with false; [done|].
  symmetry. destruct (flag flags MAP_FIXED); [|done]. cbn. apply Z.eqb_neq. by apply Hfix.
Qed.

(** The error paths of [do_mmap]: bad arguments give -EINVAL, a bad
    descriptor -EBADF, and a shared writable mapping of a file that is not
    open for writing -EACCES; the address space is untouched, and a file
    reference that was taken has been given back. *)
Theorem do_mmap_errors s f F addr len prot flags fd off :
  fowns f F ->
  (~ mmap_args_ok addr len flags off -> do_mmap addr len prot flags fd off (s, f) = Ok ((- EINVAL, 0), (s, f))) /\
  (mmap_args_ok addr len flags off -> flag flags MAP_ANON = false ->
   exists fp f1, fget fd f = Ok (fp, f1) /\
   (fd = -1 \/ fp = 0 -> exists f', do_mmap addr len prot flags fd off (s, f) = Ok ((- EBADF, 0), (s, f')) /\ fowns f' F) /\
   (fd <> -1 -> fp <> 0 -> flag (f_mode f1 fp) FMODE_WRITE = false -> flag prot PROT_WRITE = true ->
    flag flags MAP_PRIVATE = false ->
    exists f', do_mmap addr len prot flags fd off (s, f) = Ok ((- EACCES, 0), (s, f')) /\ fowns f' F)).
Proof.
  intros Hf. split.
  - intros Hbad. unfold do_mmap.
    repeat match goal with |- (if ?b then _ else _) _ = _ => destruct b eqn:?; [done|] end.
    exfalso. apply Hbad. unfold mmap_args_ok.
    repeat match goal with
    | H : _ || _ = false |- _ => apply orb_false_iff in H as [? ?]
    | H : _ && _ = false |- _ => apply andb_false_iff in H
    | H : negb _ = false |- _ => apply negb_false_iff in H
    | H : negb _ = false \/ _ |- _ => rewrite negb_false_iff in H
    | H : _ \/ negb _ = false |- _ => rewrite negb_false_iff in H
    | H : (_ <? _) = false |- _ => apply Z.ltb_ge in H
    | H : (_ =? _) = false |- _ => apply Z.eqb_neq in H
    end.
    split_and!; try done.
    + rewrite Z.eqb_eq in *. naive_solver.
    + intros Hx. rewrite Z.eqb_neq in *. naive_solver congruence.
  - intros Hok Hanon. rewrite (do_mmap_args _ _ _ _ _ _ Hok), Hanon. cbv zeta.
    destruct (fget_ok f F fd Hf) as (fp & f1 & Hg & Hf1). exists fp, f1. split; [done|]. split.
    + intros Hb. destruct (Z.eqb_spec fd (-1)); [by exists f|].
      destruct Hb as [?| ->]; [done|]. rewrite (mbind_run _ _ _ _ _ (file_op_run _ s _ _ _ Hg)). by exists f1.
    + intros Hfd Hfp Hw Hp Hpr. rewrite (proj2 (Z.eqb_neq fd _)) by done.
      rewrite (mbind_run _ _ _ _ _ (file_op_run _ s _ _ _ Hg)), (proj2 (Z.eqb_neq fp 0)) in * by done.
      rewrite (mbind_run _ _ _ _ _ (file_op_run (mget _) s f1 _ f1 eq_refl)).
      rewrite (mbind_run _ _ _ _ _ (file_op_run (mget _) s f1 _ f1 eq_refl)). rewrite Hw, Hp, Hpr. cbn [negb andb].
      destruct (fput_ok f1 F fp Hf1) as (f2 & Hput & Hf2).
      rewrite (mbind_run _ _ _ _ _ (file_op_run _ s _ _ _ Hput)). by exists f2.
Qed.

(** An address below user memory passes the checks of [do_mmap] and
    reaches the assertion of [vmmap_map]: a system call panics the kernel. *)
Theorem do_mmap_low_address_panics s f addr len prot flags fd off :
  mmap_args_ok addr len flags off -> flag flags MAP_ANON = true -> p_vmmap (curproc s) <> 0 ->
  0 < addr < USER_MEM_LOW -> 0 < len ->
  do_mmap addr len prot flags fd off (s, f) = Err FAssert.
Proof.
  intros Hok Hanon Hm Ha Hl. rewrite (do_mmap_args _ _ _ _ _ _ Hok), Hanon. cbv zeta.
  rewrite (proj2 (Z.eqb_neq addr 0)) by lia. unfold mmap_finish.
  rewrite (mbind_run _ _ _ _ _ (vm_op_run (mget curproc) s f _ s eq_refl)). apply mbind_err, vm_op_err.
  pose proof page_size_pos. destruct Hok as (Hoff & [->|Hal] & _ & _ & Hfl & _); [lia|].
  pose proof (aligned_pn addr Hal) as Ea. rewrite user_low_pn in Ha.
  destruct (pages_of_bounds len Hl) as [Hp _]. unfold vmmap_map, KASSERT, mguard.
  rewrite (proj2 (Z.eqb_neq _ 0) Hm), (proj2 (Z.ltb_lt 0 _)) by done.
  replace (flag flags MAP_SHARED || flag flags MAP_PRIVATE) with true
    by (symmetry; apply orb_true_iff; naive_solver).
  rewrite (proj2 (Z.eqb_neq _ 0)), (proj2 (Z.leb_gt _ _)) by nia. done.
Qed.

(** The object of an anonymous mapping is new and has pages of zeros. *)
Lemma anon_mapping_fresh `{FP : !FreshPages} st Q v flags st' o : owns st Q -> mapping_object 0 v flags st st' o ->
  o ∉ Q /\ forall n, contents st' o n = replicate (Z.to_nat PAGE_SIZE) 0.
Proof.
  intros Ho (b & st1 & Hb & Ho0 & Hbk & Hov). unfold back_object in Hbk. rewrite decide_True in Hbk by done.
  destruct (anon_zero _ _ _ _ Ho Hbk Hb) as [Hn Hz]. unfold over_object in Hov. destruct (flag flags MAP_PRIVATE).
  - destruct Hov as (st2 & Hsh & Hat).
    assert (owns st1 (b :: Q)) as Ho1.
    { destruct (anon_create_ok _ _ Ho) as (b' & st1' & E & Ho1). rewrite Hbk in E. injection E as <- <-. by rewrite (proj2 (Z.eqb_neq b 0)) in Ho1. }
    destruct (shadow_shows _ _ _ _ _ _ Ho1 Hsh Ho0 Hat) as [Hns Hss]. split; [set_solver|]. intros n. by rewrite Hss.
  - by destruct Hov as [-> ->].
Qed.

(** C34: An anonymous [do_mmap] in user memory, with a mapping there already
    (the search in an empty map is undefined) and memory for the objects: it
    returns the address of the mapping; exactly the pages of the rounded-up
    length there have changed, to pages of zeros of a new object, which no other
    mapping and nobody else has; a fixed address is used as given and without
    an address a free range is found.  The invariant holds, the TLB is empty,
    and the file table is not touched.  The only failure, without an address,
    is that no free range is large enough: -1, with nothing changed. *)
Theorem do_mmap_anon_correct `{FP : !FreshPages} s vs R f addr len prot flags fd off :
  (forall h : gmap Z vmarea, is_Some (slab_pick h)) ->
  (forall st Q o st', owns st Q -> anon_create st = Ok (o, st') -> o <> 0) ->
  (forall st Q o st', owns st Q -> shadow_create st = Ok (o, st') -> o <> 0) ->
  cur_inv s vs R -> p_pagedir (curproc s) <> 0 ->
  mmap_args_ok addr len flags off -> flag flags MAP_ANON = true -> 0 < len -> vs <> [] ->
  addr = 0 /\ len <= USER_MEM_HIGH \/ USER_MEM_LOW <= addr /\ addr + len <= USER_MEM_HIGH ->
  (exists ret s' vs' o, do_mmap addr len prot flags fd off (s, f) = Ok ((0, ret), (s', f)) /\
     cur_inv s' vs' R /\ PAGE_ALIGNED ret = true /\
     mapped_over vs vs' (ADDR_TO_PN ret) (pages_of len) o (ADDR_TO_PN (u32 off)) prot flags /\
     (forall n, contents (objs s') o n = replicate (Z.to_nat PAGE_SIZE) 0) /\
     o ∉ R /\ (forall vfn pg, ~ (ADDR_TO_PN ret <= vfn < ADDR_TO_PN ret + pages_of len) -> amap vs.*2 vfn = Some pg -> pg_obj pg <> o) /\
     USER_MEM_LOW <= ret /\ ret + len <= USER_MEM_HIGH /\
     (if decide (addr = 0) then range_free vs.*2 (ADDR_TO_PN ret) (pages_of len) else ret = addr) /\
     forall vfn, tlb_entry (mmu s') vfn = None) \/
  (do_mmap addr len prot flags fd off (s, f) = Ok ((-1, 0), (s, f)) /\ addr = 0 /\
     forall lo, LOW_PN <= lo -> lo + pages_of len <= HIGH_PN -> ~ range_free vs.*2 lo (pages_of len)).
Proof.
  intros Htot Hanon Hsh Hinv Hpd Hok Han Hl Hvs Haddr.
  rewrite (do_mmap_args _ _ _ _ _ _ Hok), Han. cbv zeta. unfold mmap_finish.
  rewrite (mbind_run _ _ _ _ _ (vm_op_run (mget curproc) s f _ s eq_refl)).
  destruct Hok as (Hoff & Hal & _ & _ & Hfl & _). pose proof page_size_pos. pose proof low_high_pn as (Hlow & Hlh & _).
  destruct (pages_of_bounds len Hl) as (Hp & Hp1 & Hp2). pose proof high_pn_small.
  assert (pages_of len <= HIGH_PN) as Hpn by (rewrite user_high_pn, user_low_pn in Haddr; nia).
  set (lopage := if addr =? 0 then 0 else ADDR_TO_PN addr).
  assert (lopage = 0 /\ addr = 0 \/ LOW_PN <= lopage /\ lopage + pages_of len <= HIGH_PN /\ addr <> 0 /\ addr = lopage * PAGE_SIZE) as Hlp.
  { unfold lopage. destruct Haddr as [[-> _]|[Ha1 Ha2]]; [by left|]. right. rewrite user_low_pn in Ha1.
    rewrite (proj2 (Z.eqb_neq addr 0)) by nia. destruct Hal as [->|Hal]; [nia|].
    destruct (pages_in_user addr len Hal) as (_ & _ & ?); [nia..|]. pose proof (aligned_pn addr Hal). nia. }
  destruct (vmmap_map_run s _ vs R 0 lopage (pages_of len) prot flags off VMMAP_DIR_HILO Htot Hinv)
    as [v s1 vs1 a o s0 vs0 Hr Hinv1 Hcp Hin Hmo Hlo Hhi Hif Hinv0 Hsame Hob|Hz Hno Hr|_ ? _|e v st o st' lo s' ? _ _ _ _ _ _ _|_ (st & Q & st' & Ho & Hbad)];
    [lia|by apply orb_true_iff; naive_solver|done|lia| | |done|done|].
  - left. rewrite (mbind_run _ _ _ _ _ (vm_op_run _ s f _ _ Hr)). cbn [Z.ltb Z.compare].
    assert (load_area v s1 = Ok (a, s1)) as Hla by (apply (map_rep_load _ _ _ (v, a) ltac:(apply Hinv1) Hin)).
    rewrite (mbind_run _ _ _ _ _ (vm_op_run _ s1 f _ _ Hla)).
    rewrite (mbind_run _ _ _ _ _ (vm_op_run (mput _) s1 f _ _ eq_refl)). cbn [Z.eqb negb].
    rewrite (mbind_run _ _ _ tt (upd_mmu tlb_flush_all s1, f) eq_refl), (proj2 (Z.eqb_neq _ 0) Hpd).
    eexists _, (upd_mmu tlb_flush_all s1), vs1, o. split; [reflexivity|].
    assert (PN_TO_ADDR (vma_start a) = vma_start a * PAGE_SIZE) as Er by (apply pn_to_addr; lia).
    assert (ADDR_TO_PN (PN_TO_ADDR (vma_start a)) = vma_start a) as Ep by (apply pn_of_addr; lia).
    destruct (anon_mapping_fresh _ _ _ _ _ _ (proj2 (proj2 (proj2 (proj2 Hinv0)))) Hob) as [Hfresh Hzero].
    split; [unfold cur_inv; cbn; rewrite Hcp; exact Hinv1|]. rewrite Ep, Er.
    split; [unfold PAGE_ALIGNED; by rewrite Z.mod_mul by lia|]. split; [done|]. split; [exact Hzero|]. split; [set_solver|]. split.
    { intros vfn pg Hv Hpg E. rewrite <- (Hsame vfn Hv) in Hpg. destruct (lookup_mapped _ _ _ _ _ _ Hinv0 Hpg) as (w & b & _ & _ & _ & Eb & _ & Hb & _).
      apply Hfresh. rewrite <- E, <- Eb. done. }
    rewrite user_low_pn, user_high_pn. split; [nia|]. split; [nia|]. split; [|intros vfn; apply tlb_flush_all_tlb].
    destruct Hlp as [[E ->]|(_ & _ & Hne & E)].
    + rewrite decide_True in Hif |- * by done. apply Hif.
    + rewrite (decide_False (P := addr = 0)) by done. rewrite decide_False in Hif by lia. destruct Hif. nia.
  - right. destruct Hlp as [[_ ->]|]; [|lia]. split; [|done]. by rewrite (mbind_run _ _ _ _ _ (vm_op_run _ s f _ _ Hr)).
  - exfalso. destruct Hbad as [[_ E]|[_ E]]; [by apply (Hanon st Q 0 st')|by apply (Hsh st Q 0 st')].
Qed.
End Mmap.

(** *** vm/pagefault.c *)
Section Fault.
Context `{FO : !FrameOps} `{PT : !PtMap}.

(** The protection bits the fault asks for. *)
Definition access_ok (prot cause : Z) : Prop :=
  (flag cause FAULT_WRITE = false -> flag cause FAULT_EXEC = false -> flag prot PROT_READ = true) /\
  (flag cause FAULT_WRITE = true -> flag prot PROT_WRITE = true) /\
  (flag cause FAULT_EXEC = true -> flag prot PROT_EXEC = true).

Lemma page_align_down va : PAGE_ALIGN_DOWN va = ADDR_TO_PN va * PAGE_SIZE.
Proof. unfold PAGE_ALIGN_DOWN. pose proof (addr_pn_offset va). unfold PAGE_OFFSET in *. lia. Qed.

Lemma pframe_lookup_run s o n w r st :
  o <> 0 -> lookuppage o n w (objs s) = Ok (r, st) -> pframe_lookup o n w s = Ok (r, upd_objs st s).
Proof.
  intros Ho Hr. unfold pframe_lookup. rewrite (proj2 (Z.eqb_neq o 0)) by done.
  rewrite (mbind_run _ _ _ tt s eq_refl). by apply obj_op_run.
Qed.

(** Marking the frame dirty for a write access. *)
Lemma mark_dirty_run s R o n pf (w : bool) :
  owns (objs s) R -> (w = true -> writable (objs s) o n pf) ->
  exists st, (if w then obj_op (pframe_pin pf ;;; let! _ := pframe_dirty pf in pframe_unpin pf)
              else mret_ tt) s = Ok (tt, upd_objs st s) /\ owns st R /\
    pf_addr st pf = pf_addr (objs s) pf /\ pf_data st pf = pf_data (objs s) pf.
Proof.
  intros Ho Hw. destruct w.
  - destruct (pin_dirty_unpin_ok _ _ _ _ _ Ho (Hw eq_refl)) as (st & Hr & Ho' & _ & Ha & Hd).
    exists st. by rewrite (obj_op_run _ _ _ _ Hr).
  - exists (objs s). split; [by destruct s|]. done.
Qed.

(** The handler once the access has been found legal. *)
Lemma fault_map_run s vs R va pg a w pdf ptf :
  cur_inv s vs R -> vma_obj a = pg_obj pg -> u32 (vma_off a + ADDR_TO_PN va - vma_start a) = pg_num pg ->
  vma_obj a ∈ map vma_obj vs.*2 ++ R -> vma_obj a <> 0 ->
  (forall pd va pa f1 f2 h, 0 <= fst (pt_map pd va pa f1 f2 h)) ->
  let run :=
    (let! (code, pf) := pframe_lookup (vma_obj a) (u32 (ADDR_TO_PN va - vma_start a + vma_off a)) w in
     (if code <? 0 then do_exit_status EFAULT else mret_ tt) ;;;
     KASSERT (negb (pf =? 0)) ;;;
     let! ad := mget (fun s => pf_addr (objs s) pf) in
     KASSERT (negb (ad =? 0)) ;;;
     (if w then obj_op (pframe_pin pf ;;; let! _ := pframe_dirty pf in pframe_unpin pf) else mret_ tt) ;;;
     let! ad := mget (fun s => pf_addr (objs s) pf) in
     mput (upd_mmu (fun h => snd (pt_map (p_pagedir (curproc s)) (PAGE_ALIGN_DOWN va) (pt_virt_to_phys ad) pdf ptf h))) ;;;
     mput (upd_mmu (tlb_flush (PAGE_ALIGN_DOWN va)))) s in
  exists e pf st, lookuppage (pg_obj pg) (pg_num pg) w (objs s) = Ok ((e, pf), st) /\
  if e <? 0 then run = Err (FExit EFAULT) else
  exists s', run = Ok (tt, s') /\
    cur_inv s' vs R /\ pf_data (objs s') pf = contents (objs s) (pg_obj pg) (pg_num pg) /\
    pt_entry (mmu s') (p_pagedir (curproc s)) (ADDR_TO_PN va) = Some (pt_virt_to_phys (pf_addr (objs s') pf)) /\
    pt_flags (mmu s') (p_pagedir (curproc s)) (ADDR_TO_PN va) = ptf /\
    tlb_entry (mmu s') (ADDR_TO_PN va) = None.
Proof.
  intros Hinv Eo En Hmem Hnz Hmap run. subst run.
  replace (ADDR_TO_PN va - vma_start a + vma_off a) with (vma_off a + ADDR_TO_PN va - vma_start a) by lia.
  rewrite En. destruct (lookuppage_ok (objs s) _ (vma_obj a) (pg_num pg) w ltac:(apply Hinv) Hmem)
    as (er & pf & st & Hr & Hcase). exists er, pf, st. rewrite <- Eo at 1. split; [done|].
  rewrite (mbind_run _ _ _ _ _ (pframe_lookup_run _ _ _ _ _ _ Hnz Hr)).
  destruct Hcase as [He|(-> & Ho & Hc & _ & Hdata & Hw)]; [by rewrite (proj2 (Z.ltb_lt _ _) He)|]. cbn [Z.ltb Z.compare].
  destruct (lookup_frame _ _ _ _ _ _ _ (proj2 (proj2 (proj2 (proj2 Hinv)))) Hmem Hr) as [Hpf Had].
  set (s1 := upd_objs st s). rewrite (mbind_run _ _ _ tt s1 eq_refl), (proj2 (Z.eqb_neq pf 0)) by done.
  rewrite (mbind_run (KASSERT (negb false)) _ s1 tt s1 eq_refl).
  rewrite (mbind_run (mget (fun s => pf_addr (objs s) pf)) _ s1 (pf_addr st pf) s1 eq_refl), (proj2 (Z.eqb_neq _ 0) Had).
  rewrite (mbind_run (KASSERT (negb false)) _ s1 tt s1 eq_refl).
  destruct (mark_dirty_run s1 _ (vma_obj a) (pg_num pg) pf w Ho Hw) as (st2 & Hd & Ho2 & Ha2 & Hdt2).
  rewrite (mbind_run _ _ _ _ _ Hd). set (s2 := upd_objs st2 s1).
  rewrite (mbind_run (mget (fun s => pf_addr (objs s) pf)) _ s2 (pf_addr st2 pf) s2 eq_refl). unfold mput, mbind_.
  eexists. split; [reflexivity|]. rewrite page_align_down. cbn.
  split; [exact (vm_inv_objs s _ vs R st2 Hinv Ho2)|]. split; [by rewrite Hdt2; cbn; rewrite Hdata, Eo|].
  pose proof (pt_map_entry (p_pagedir (curproc s)) (ADDR_TO_PN va) (pt_virt_to_phys (pf_addr st2 pf)) pdf ptf (mmu s)
    ltac:(apply Hmap)) as (He & Hfl & Htl).
  by split_and!.
Qed.

(** C31: [handle_pagefault] ends the process with status EFAULT when the page
    is not mapped, its area does not allow the access or the lookup of the
    page fails.  Otherwise, if the page table accepts the entry, the page is mapped to a frame that holds
    the contents of the object's page, writable only for a write access to an
    area that allows writing, and the TLB holds no old entry for it. *)
Theorem handle_pagefault_correct s vs R va cause :
  cur_inv s vs R -> 0 <= va ->
  match amap vs.*2 (ADDR_TO_PN va) with
  | None => handle_pagefault va cause s = Err (FExit EFAULT)
  | Some pg =>
      (~ access_ok (pg_prot pg) cause -> handle_pagefault va cause s = Err (FExit EFAULT)) /\
      (access_ok (pg_prot pg) cause ->
       (forall pd va pa f1 f2 h, 0 <= fst (pt_map pd va pa f1 f2 h)) ->
       exists e pf st, lookuppage (pg_obj pg) (pg_num pg) (flag cause FAULT_WRITE) (objs s) = Ok ((e, pf), st) /\
       if e <? 0 then handle_pagefault va cause s = Err (FExit EFAULT) else
       exists s', handle_pagefault va cause s = Ok (tt, s') /\ cur_inv s' vs R /\
         pf_data (objs s') pf = contents (objs s) (pg_obj pg) (pg_num pg) /\
         pt_entry (mmu s') (p_pagedir (curproc s)) (ADDR_TO_PN va) = Some (pt_virt_to_phys (pf_addr (objs s') pf)) /\
         pt_flags (mmu s') (p_pagedir (curproc s)) (ADDR_TO_PN va) =
           (if flag cause FAULT_WRITE then Z.lor (Z.lor PT_PRESENT PT_USER) PT_WRITE else Z.lor PT_PRESENT PT_USER) /\
         tlb_entry (mmu s') (ADDR_TO_PN va) = None)
  end.
Proof.
  intros Hinv Hva. unfold handle_pagefault. rewrite (mbind_run _ _ _ (curproc s) s eq_refl).
  destruct (amap vs.*2 (ADDR_TO_PN va)) as [pg|] eqn:Hpg.
  2:{ rewrite (mbind_run _ _ _ _ _ (vmmap_lookup_run s _ vs _ (proj1 Hinv))).
      rewrite find_area_amap in Hpg. destruct (find_area vs _); [done|]. done. }
  destruct (lookup_mapped _ _ _ _ _ _ Hinv Hpg) as (v & a & Hl & Hv & Ha & Eo & En & Hmem & Hnz & Ep).
  rewrite (mbind_run _ _ _ _ _ Hl), (proj2 (Z.eqb_neq v 0) Hv), (mbind_run _ _ _ tt s eq_refl), (mbind_run _ _ _ _ _ Ha), Ep.
  unfold access_ok. split.
  - intros Hno.
    destruct (flag cause FAULT_WRITE) eqn:Ew, (flag cause FAULT_EXEC) eqn:Ee,
      (flag (pg_prot pg) PROT_READ) eqn:Er, (flag (pg_prot pg) PROT_WRITE) eqn:Ewr,
      (flag (pg_prot pg) PROT_EXEC) eqn:Eex; cbn; try done; exfalso; apply Hno; done.
  - intros (H1 & H2 & H3) Hmap.
    assert (negb (flag cause FAULT_WRITE || flag cause FAULT_EXEC) && negb (flag (pg_prot pg) PROT_READ) = false) as ->.
    { destruct (flag cause FAULT_WRITE), (flag cause FAULT_EXEC); try done. by rewrite H1. }
    assert (flag cause FAULT_WRITE && negb (flag (pg_prot pg) PROT_WRITE) = false) as ->.
    { destruct (flag cause FAULT_WRITE); [|done]. by rewrite H2. }
    assert (flag cause FAULT_EXEC && negb (flag (pg_prot pg) PROT_EXEC) = false) as ->.
    { destruct (flag cause FAULT_EXEC); [|done]. by rewrite H3. }
    do 3 rewrite (mbind_run _ _ _ tt s eq_refl).
    by apply fault_map_run.
Qed.
End Fault.
End Bytes.

(** ** Instances *)
Definition zero_page : list Z := replicate 4096 0.
Definition c_contents (s : cobjs) (o n : Z) : list Z :=
  if decide (length (pages s o n) = 4096%nat) then pages s o n else zero_page.
Definition c_store (pf off : Z) (bs : list Z) : M cobjs unit := fun s =>
  match decode_Z pf : option (Z * Z) with
  | Some (o, n) =>
      Ok (tt, mkCobjs (held s) (pending s) (next_obj s)
                (fun o' n' => if decide (o' = o /\ n' = n) then list_inserts (Z.to_nat off) bs (c_contents s o n) else pages s o' n'))
  | None => Err FUndef
  end.
Lemma c_contents_length s o n : length (c_contents s o n) = 4096%nat.
Proof. unfold c_contents. repeat case_match; try done; apply length_replicate. Qed.
Lemma c_owns_pages s R g :
  c_owns s R -> c_owns (mkCobjs (held s) (pending s) (next_obj s) g) R.
Proof. done. Qed.

#[refine] Definition count_pages : @MmPages i386_geometry count_mmobjs := {|
  lookuppage o n w := mret_ (0, encode_Z (o, n)) : M (@ost count_mmobjs) (Z * Z);
  pf_data s pf := match decode_Z pf : option (Z * Z) with Some (o, n) => c_contents s o n | None => [] end;
  pf_store := c_store; pframe_dirty pf := mret_ 0;
  contents := c_contents; depends s p q := p = q;
  writable s o n pf := pf = encode_Z (o, n);
|}.
Proof.
  - intros s o n. apply c_contents_length.
  - intros s R o n w Ho _. eexists 0, _, s. split; [reflexivity|]. right. split_and!; try done.
    by rewrite decode_encode_Z.
  - intros s R o n pf off bs Ho -> Hoff Hlen. unfold c_store. rewrite decode_encode_Z.
    eexists _, _, _. split; [reflexivity|]. split; [reflexivity|]. split; [by apply c_owns_pages|].
    split_and!; [| |done]; unfold c_contents at 1; cbn.
    + rewrite (decide_True (P := o = o /\ n = n)) by done. rewrite decide_True; [done|]. by rewrite length_inserts, c_contents_length.
    + intros o' n' Hne. rewrite (decide_False (P := o' = o /\ n' = n)); [done|]. intros [-> ->]. done.
Defined.

#[refine] Definition count_fresh : @FreshPages i386_geometry count_mmobjs count_pages := {| anon_zero := _ |}.
Proof.
  - intros s Q o s' (Hp & _ & Hpos & _) E _. injection E as <- <-. destruct (max_obj_bound s Hpos) as [_ Hb]. split.
    + intros Hin. rewrite <- Hp in Hin. specialize (Hb _ Hin). lia.
    + intros n. cbn. unfold c_contents. cbn. by rewrite Z.eqb_refl, decide_False.
  - intros s Q o sh s1 s' Ho E _ Hr. destruct Ho as (Hp & _ & Hpos & _). cbn in E. injection E as <- <-. destruct (max_obj_bound s Hpos) as [_ Hb].
    assert (max_obj s + 1 ∉ o :: Q) as Hn by (intros Hin; rewrite <- Hp in Hin; specialize (Hb _ Hin); lia). split; [done|].
    assert (o <> max_obj s + 1) as Hne by (intros E; apply Hn; rewrite <- E; by left).
    intros n. cbn in Hr. unfold c_shadow, c_take, mbind_ in Hr. cbn in Hr.
    destruct (decide (o = max_obj s + 1)); [done|]. destruct (remove_one o (held s)); cbn in Hr; [|done].
    unfold mret_, mput, c_ref in Hr. cbn in Hr. rewrite decide_True in Hr by done. injection Hr as <-. cbn. unfold c_contents. cbn.
    by rewrite Z.eqb_refl, (proj2 (Z.eqb_neq o _)).
Defined.

Definition f_map (pd va pa f1 f2 : Z) (h : @hw _ fun_mmu) : Z * @hw _ fun_mmu :=
  (0, mkFhw (fun d n => if decide (d = pd /\ n = va / 4096) then Some pa else f_pt h d n)
        (f_tlb h) (fun d n => if decide (d = pd /\ n = va / 4096) then f2 else f_flags h d n)).
Definition f_flush (va : Z) (h : @hw _ fun_mmu) : @hw _ fun_mmu :=
  mkFhw (f_pt h) (fun n => if decide (n = va / 4096) then None else f_tlb h n) (f_flags h).
Definition f_fl (h : @hw _ fun_mmu) : Z -> Z -> Z := f_flags h.

#[refine] Definition count_frames : @FrameOps i386_geometry count_mmobjs count_pages := {|
  pf_addr s pf := pf; pframe_pin pf := mret_ tt; pframe_unpin pf := mret_ tt;
|}.
Proof.
  - intros s R o n w pf s' _ _ [= <- <-]. by split.
  - intros s R o n pf Ho _. exists s. by split_and!.
Defined.
#[refine] Definition fun_pt : @PtMap i386_geometry fun_mmu := {|
  pt_virt_to_phys a := a;
  PT_PRESENT := 1; PT_WRITE := 2; PT_USER := 4; PD_PRESENT := 1; PD_WRITE := 2; PD_USER := 4;
  pt_map := f_map; tlb_flush := f_flush; pt_flags := f_fl;
|}.
Proof.
  - intros pd pn pa f1 f2 h _. cbn. change PAGE_SIZE with 4096. rewrite Z.div_mul by lia.
    by rewrite !decide_True.
Defined.

(** A file table with one open file, 7, at descriptor 3. *)
#[refine] Definition one_file : Files := {|
  fstate := list Z;
  fget fd := fun s => if fd =? 3 then Ok (7, 7 :: s) else Ok (0, s);
  fput f := fun s => match remove_one f s with Some s' => Ok (tt, s') | None => Err FUndef end;
  f_vnode s f := 1; f_mode s f := 1;
  fowns s F := Permutation s F;
|}.
Proof.
  - intros s F fd H. destruct (fd =? 3); eexists _, _; (split; [reflexivity|]); cbn; by rewrite H.
  - intros s F f H. destruct (remove_one_perm _ _ _ H) as (l & -> & Hl). by exists l.
Defined.

Definition weenix_prot : ProtFlags := {|
  PROT_READ := 1; PROT_WRITE := 2; PROT_EXEC := 4; FMODE_WRITE := 2; FAULT_WRITE := 2; FAULT_EXEC := 16 |}.

Section Example.
#[local] Existing Instance seq_klist.
#[local] Existing Instance first_slab.
#[local] Existing Instance i386_geometry.
#[local] Existing Instance count_mmobjs.
#[local] Existing Instance fun_mmu.
#[local] Existing Instance weenix_map_flags.
#[local] Existing Instance count_pages.
#[local] Existing Instance count_frames.
#[local] Existing Instance fun_pt.
#[local] Existing Instance one_file.
#[local] Existing Instance weenix_prot.
#[local] Existing Instance weenix_errno.

(** The address space of [Vmmap] with the break inside the first area. *)
Definition st1 : vms := upd_curproc (fun _ => mkVproc 50 1 4509696 4509696) st0.
Lemma st1_inv : cur_inv st1 vs0 [6].
Proof. exact st0_inv. Qed.
(** The same with the starting break in no area. *)
Definition st2 : vms := upd_curproc (fun _ => mkVproc 50 1 4096000 4096000) st0.

Lemma vs0_mapped n : 1100 <= n < 1110 -> is_Some (amap vs0.*2 n).
Proof. intros. cbn. rewrite decide_True by (unfold covers; cbn; lia). by eexists. Qed.
Lemma vs0_range va n : 1100 * 4096 <= va -> va + n <= 1110 * 4096 -> range_mapped vs0.*2 va n.
Proof.
  intros H1 H2 x Hx. apply vs0_mapped. rewrite addr_to_pn. change PAGE_SIZE with 4096.
  split; [apply Z.div_le_lower_bound; lia | apply Z.div_lt_upper_bound; lia].
Qed.

Lemma no_lookup_fails w st us Q D : ~ lookup_fails w st us Q D.
Proof. intros (x & pg & b & st' & e & pf & st2 & _ & _ & _ & _ & _ & [= <- _ _] & He). lia. Qed.

Lemma vmmap_read_correct_witness :
  exists s' bs, vmmap_read 1 4510000 5000 st1 = Ok ((0, bs), s') /\ vm_inv s' 1 vs0 [6] /\
    Z.of_nat (length bs) = 5000 /\
    (forall i, 0 <= i < 5000 -> bs !! Z.to_nat i = aspace_byte (objs st1) vs0.*2 (4510000 + i)) /\
    (forall o n, contents (objs s') o n = contents (objs st1) o n).
Proof.
  destruct (vmmap_read_correct st1 1 vs0 [6] 4510000 5000) as [H|[_ F]]; [apply st1_inv | lia..|apply vs0_range; lia|exact H|].
  by destruct (no_lookup_fails _ _ _ _ _ F).
Defined.

Lemma vmmap_write_correct_witness :
  exists s', vmmap_write 1 4513790 [1; 2; 3; 4] st1 = Ok (0, s') /\ vm_inv s' 1 vs0 [6] /\
    forall x, isolated (objs st1) vs0.*2 4513790 4 x -> is_Some (amap vs0.*2 (ADDR_TO_PN x)) ->
      aspace_byte (objs s') vs0.*2 x =
      if decide (4513790 <= x < 4513790 + 4) then [1; 2; 3; 4] !! Z.to_nat (x - 4513790)
      else aspace_byte (objs st1) vs0.*2 x.
Proof.
  destruct (vmmap_write_correct st1 1 vs0 [6] 4513790 [1; 2; 3; 4]) as [H|[_ F]];
    [apply st1_inv | lia | cbn; lia | apply vs0_range; cbn; lia|exact H|]. by destruct (no_lookup_fails _ _ _ _ _ F).
Defined.

Lemma addr_perm_ignores_perm_witness :
  exists b, addr_perm 4510000 7 st1 = Ok (b, st1) /\
    (b = true <-> is_Some (amap vs0.*2 (ADDR_TO_PN 4510000))).
Proof. apply (addr_perm_ignores_perm st1 vs0 [6] 4510000 7 st1_inv). Defined.

Lemma copy_from_user_correct_witness :
  (range_mapped vs0.*2 4509696 5000 ->
   (exists s' bs, copy_from_user 4509696 5000 st1 = Ok ((0, bs), s') /\ cur_inv s' vs0 [6] /\
     reads_as (objs st1) vs0.*2 4509696 5000 bs) \/
   (copy_from_user 4509696 5000 st1 = Err FUndef /\
    lookup_fails false (objs st1) vs0.*2 (map vma_obj vs0.*2 ++ [6]) (in_range 4509696 5000))) /\
  (~ range_mapped vs0.*2 4509696 5000 -> copy_from_user 4509696 5000 st1 = Ok ((- EFAULT, []), st1)).
Proof.
  apply (copy_from_user_correct st1 vs0 [6] 4509696 5000); [apply st1_inv | done | lia..| done].
Defined.

(** 100 bytes at the end of the last page of the first area. *)
Lemma copy_from_user_unaligned_witness :
  exists s' bs, copy_from_user 4546550 100 st1 = Ok ((-1, bs), s') /\ kt_errno s' = 1.
Proof.
  apply (copy_from_user_unaligned st1 vs0 [6] 4546550 100);
    [apply st1_inv | lia | done | lia | done | by eexists | done | apply no_lookup_fails].
Defined.

Lemma do_brk_correct_witness :
  let e := (4513800 - 1) / PAGE_SIZE + 1 in
  do_brk 0 st1 = Ok ((0, 4509696), st1) /\
  (4513800 < 4509696 \/ USER_MEM_HIGH < 4513800 -> do_brk 4513800 st1 = Ok ((- ENOMEM, 0), st1)) /\
  (4509696 <= 4513800 <= USER_MEM_HIGH ->
   (range_free vs0.*2 1110 (e - 1110) ->
    exists s' vs', do_brk 4513800 st1 = Ok ((0, 4513800), s') /\ brk_set st1 s' vs0 vs' [6] area1 4513800 e) /\
   (~ range_free vs0.*2 1110 (e - 1110) -> do_brk 4513800 st1 = Ok ((- ENOMEM, 0), st1))).
Proof.
  apply (do_brk_correct st1 [] 10 area1 [(11, area2)] [6] 4513800); [apply slab_total | apply st1_inv | | done | done].
  unfold covers. vm_compute. by split.
Defined.

Lemma do_brk_unmapped_witness : do_brk 4100000 st2 = Err FUndef.
Proof. apply (do_brk_unmapped st2 vs0 [6] 4100000); [exact st0_inv | done | done | done]. Defined.

Lemma do_munmap_correct_witness :
  exists s' vs', do_munmap 4509696 5000 st1 = Ok (0, s') /\ cur_inv s' vs' [6] /\
    (forall vfn, amap vs'.*2 vfn =
       if decide (4509696 < (vfn + 1) * PAGE_SIZE /\ vfn * PAGE_SIZE < 4509696 + 5000) then None
       else amap vs0.*2 vfn) /\
    (forall vfn, tlb_entry (mmu s') vfn = None) /\
    (forall vfn, 4509696 < (vfn + 1) * PAGE_SIZE /\ vfn * PAGE_SIZE < 4509696 + 5000 ->
       pt_entry (mmu s') 50 vfn = None).
Proof.
  apply (do_munmap_correct st1 vs0 [6] 4509696 5000); [apply slab_total | apply st1_inv | lia..].
Defined.

Definition no_files : @fstate one_file := [].

Lemma do_mmap_errors_witness :
  (~ mmap_args_ok 4513792 100 1 0 -> do_mmap 4513792 100 2 1 3 0 (st1, no_files) = Ok ((- EINVAL, 0), (st1, no_files))) /\
  (mmap_args_ok 4513792 100 1 0 -> flag 1 MAP_ANON = false ->
   exists fp f1, fget 3 no_files = Ok (fp, f1) /\
   (3 = -1 \/ fp = 0 -> exists f', do_mmap 4513792 100 2 1 3 0 (st1, no_files) = Ok ((- EBADF, 0), (st1, f')) /\ fowns f' []) /\
   (3 <> -1 -> fp <> 0 -> flag (f_mode f1 fp) FMODE_WRITE = false -> flag 2 PROT_WRITE = true ->
    flag 1 MAP_PRIVATE = false ->
    exists f', do_mmap 4513792 100 2 1 3 0 (st1, no_files) = Ok ((- EACCES, 0), (st1, f')) /\ fowns f' [])).
Proof. apply (do_mmap_errors st1 no_files []). constructor. Defined.

Lemma mmap_args_1 addr : PAGE_ALIGNED addr = true -> 0 <= addr < 3000000000 -> mmap_args_ok addr 100 10 0.
Proof.
  intros Ha Hb. split_and!; try done; [by right | | by left].
  rewrite u32_small by lia. change USER_MEM_HIGH with 3221225472. lia.
Qed.

Lemma do_mmap_low_address_panics_witness :
  do_mmap 4096 100 1 10 (-1) 0 (st1, no_files) = Err FAssert.
Proof.
  apply (do_mmap_low_address_panics st1 no_files 4096 100 1 10 (-1) 0);
    [by apply mmap_args_1 | done | done | done | done].
Defined.

(** A private anonymous mapping at 4505600, over part of the first area. *)
Lemma do_mmap_anon_correct_witness :
  exists ret s' vs' o, do_mmap 4505600 100 3 10 (-1) 0 (st1, no_files) = Ok ((0, ret), (s', no_files)) /\
     cur_inv s' vs' [6] /\ PAGE_ALIGNED ret = true /\
     mapped_over vs0 vs' (ADDR_TO_PN ret) (pages_of 100) o (ADDR_TO_PN (u32 0)) 3 10 /\
     (forall n, contents (objs s') o n = replicate (Z.to_nat PAGE_SIZE) 0) /\ o ∉ [6] /\ ret = 4505600.
Proof.
  destruct (do_mmap_anon_correct (MO := count_mmobjs) (FP := count_fresh) st1 vs0 [6] no_files 4505600 100 3 10 (-1) 0)
    as [(ret & s' & vs' & o & H1 & H2 & H3 & H4 & H5 & H6 & _ & _ & _ & H7 & _)|(_ & H & _)];
    [apply slab_total | apply c_new_some | apply c_new_some | apply st1_inv | done |
     by apply mmap_args_1 | done | done | done | by right | | discriminate H].
  exists ret, s', vs', o. rewrite decide_False in H7 by done. done.
Defined.

(** A write to page 1 of object 5: the fault is served. *)
Lemma handle_pagefault_correct_witness :
  exists pf s', handle_pagefault 4510000 2 st1 = Ok (tt, s') /\ cur_inv s' vs0 [6] /\
    pf_data (objs s') pf = contents (objs st1) 5 1 /\
    pt_entry (mmu s') 50 (ADDR_TO_PN 4510000) = Some (pt_virt_to_phys (pf_addr (objs s') pf)) /\
    pt_flags (mmu s') 50 (ADDR_TO_PN 4510000) = Z.lor (Z.lor PT_PRESENT PT_USER) PT_WRITE /\
    tlb_entry (mmu s') (ADDR_TO_PN 4510000) = None.
Proof.
  destruct (handle_pagefault_correct st1 vs0 [6] 4510000 2 st1_inv ltac:(lia)) as [_ H].
  destruct H as (e & pf & st & E & H); [done|done|]. injection E as <- <- <-. destruct H as (s' & H). by exists (encode_Z (5, 1)), s'.
Defined.
End Example.
