(* ===== verification/MmObj.v ===== *)
(** * mm/pframe.c, vm/anon.c and vm/shadow.c: page frames and memory objects

    A memory object caches pages; a page frame holds one page of one object
    and is found through a hash table, on the list of the pages that may be
    paged out or on the list of pinned pages, and on its object's list.
    Anonymous objects make zero pages, shadow objects copy on write from the
    object they shadow.  The three files call each other through the
    operation tables of the objects ([mmo_ops]), so they are one component.

    The operations of vnode objects, the page allocator, the MMU and the
    inline functions of mm/mmobj.h and mm/pframe.h are parameters.  Where
    the code sleeps until a page is no longer busy the model stops with
    [FFuel]. *)
From stdpp Require Import base gmap list fin_maps.
From Stdlib Require Import ZArith Lia.
From S2P Require Import Prelude KEnv Vmmap.
Open Scope Z_scope.
Open Scope c_scope.

(** ** Data *)
(** [mmo_ops]: one of the operation tables. *)
Inductive mmobj_ops := anon_mmobj_ops | shadow_mmobj_ops | vnode_mmobj_ops.
#[export] Instance mmobj_ops_eq_dec : EqDecision mmobj_ops.
Proof. solve_decision. Defined.

Record pframe := mkPframe {
  pf_obj : Z;
  pf_pagenum : Z;
  pf_addr : Z;
  (** the bits of [pf_flags] *)
  pf_busy : bool;
  pf_dirty : bool;
  pf_pincount : Z
}.

Record mmobj `{KList} := mkMmobj {
  mmo_ops : mmobj_ops;
  mmo_refcount : Z;
  mmo_nrespages : Z;
  mmo_respages : klist;
  mmo_shadowed : Z;
  (** the members of [mmo_un] *)
  mmo_bottom_obj : Z;
  mmo_vmas : klist
}.

(** The queues that are broadcast on. *)
Inductive waitq := pf_waitq (pf : Z) | pageoutd_waitq | alloc_waitq.

(** [pframe_hash] by index; [memory] holds the pages of [page_alloc] by
    address; [vm_areas], [vmm_procs] and [pagedirs] are the areas, the
    process of an address space and the page directory of a process;
    [broadcasts] lists the calls of [sched_broadcast_on], the last first. *)
Record mms `{KList} `{KG : KGeometry} `{MU : !Mmu} := mkMms {
  pframes : gmap Z pframe;
  mmobjs : gmap Z mmobj;
  memory : gmap Z (list Z);
  pframe_hash : gmap Z klist;
  pinned_list : klist;
  alloc_list : klist;
  npinned : Z;
  nallocated : Z;
  nfreepages_min : Z;
  nfreepages_target : Z;
  vm_areas : gmap Z vmarea;
  vmm_procs : gmap Z Z;
  pagedirs : gmap Z Z;
  mm_hw : hw;
  broadcasts : list waitq
}.

(** ** Parameters *)
(** [page_alloc] takes a free page, whose content is arbitrary; [slab_keeps]
    says whether an object's memory can still be read after [slab_obj_free]
    and before the next allocation. *)
Class PageAlloc `{KGeometry} := {
  page_pick : gmap Z (list Z) -> option (Z * list Z);
  page_free_count : gmap Z (list Z) -> Z;
  PF_HASH_SIZE : Z;
  slab_keeps : bool;
  page_fresh m a d : page_pick m = Some (a, d) ->
    a <> 0 /\ m !! a = None /\ length d = Z.to_nat PAGE_SIZE;
  hash_size_pos : 0 < PF_HASH_SIZE;
}.

(** The inline functions of mm/mmobj.h and mm/pframe.h. *)
Class MmHeader `{KList} := {
  mmobj_init : mmobj_ops -> mmobj;
  mmobj_bottom_obj : Z -> mmobj -> Z;
  pframe_is_free : pframe -> bool;
  init_ops k : mmo_ops (mmobj_init k) = k;
  init_counts k : mmo_nrespages (mmobj_init k) = 0 /\ list_items (mmo_respages (mmobj_init k)) = [];
  init_shadowed k : mmo_shadowed (mmobj_init k) = 0;
  init_vmas k : list_items (mmo_vmas (mmobj_init k)) = [];
  bottom_shadow o x : mmo_shadowed x <> 0 -> mmobj_bottom_obj o x = mmo_bottom_obj x;
  bottom_plain o x : mmo_shadowed x = 0 -> mmobj_bottom_obj o x = o;
  is_free_obj x : pf_obj x <> 0 -> pframe_is_free x = false;
}.

(** [tlb_flush] and [pt_unmap]. *)
Class PtUnmap `{KG : KGeometry} `{MU : !Mmu} := {
  tlb_flush : Z -> hw -> hw;
  pt_unmap : Z -> Z -> hw -> hw;
  tlb_flush_entries va h pd pn : pt_entry (tlb_flush va h) pd pn = pt_entry h pd pn;
  pt_unmap_entries pd pn h pd' pn' : 0 <= pn < HIGH_PN ->
    pt_entry (pt_unmap pd (PN_TO_ADDR pn) h) pd' pn' =
    if decide (pd' = pd /\ pn' = pn) then None else pt_entry h pd' pn';
}.

Section State.
Context `{KL : KList} `{KG : KGeometry} `{MU : !Mmu}.

Definition upd_pframes (f : gmap Z pframe -> gmap Z pframe) (s : mms) : mms :=
  mkMms _ _ _ (f (pframes s)) (mmobjs s) (memory s) (pframe_hash s) (pinned_list s) (alloc_list s) (npinned s)
    (nallocated s) (nfreepages_min s) (nfreepages_target s) (vm_areas s) (vmm_procs s) (pagedirs s) (mm_hw s) (broadcasts s).
Definition upd_mmobjs (f : gmap Z mmobj -> gmap Z mmobj) (s : mms) : mms :=
  mkMms _ _ _ (pframes s) (f (mmobjs s)) (memory s) (pframe_hash s) (pinned_list s) (alloc_list s) (npinned s)
    (nallocated s) (nfreepages_min s) (nfreepages_target s) (vm_areas s) (vmm_procs s) (pagedirs s) (mm_hw s) (broadcasts s).
Definition upd_memory (f : gmap Z (list Z) -> gmap Z (list Z)) (s : mms) : mms :=
  mkMms _ _ _ (pframes s) (mmobjs s) (f (memory s)) (pframe_hash s) (pinned_list s) (alloc_list s) (npinned s)
    (nallocated s) (nfreepages_min s) (nfreepages_target s) (vm_areas s) (vmm_procs s) (pagedirs s) (mm_hw s) (broadcasts s).
Definition upd_hash (f : gmap Z klist -> gmap Z klist) (s : mms) : mms :=
  mkMms _ _ _ (pframes s) (mmobjs s) (memory s) (f (pframe_hash s)) (pinned_list s) (alloc_list s) (npinned s)
    (nallocated s) (nfreepages_min s) (nfreepages_target s) (vm_areas s) (vmm_procs s) (pagedirs s) (mm_hw s) (broadcasts s).
(** The two page lists and their counters. *)
Definition upd_lists (f : klist -> klist) (g : klist -> klist) (dp da : Z) (s : mms) : mms :=
  mkMms _ _ _ (pframes s) (mmobjs s) (memory s) (pframe_hash s) (f (pinned_list s)) (g (alloc_list s)) (npinned s + dp)
    (nallocated s + da) (nfreepages_min s) (nfreepages_target s) (vm_areas s) (vmm_procs s) (pagedirs s) (mm_hw s) (broadcasts s).
Definition upd_hw (f : hw -> hw) (s : mms) : mms :=
  mkMms _ _ _ (pframes s) (mmobjs s) (memory s) (pframe_hash s) (pinned_list s) (alloc_list s) (npinned s)
    (nallocated s) (nfreepages_min s) (nfreepages_target s) (vm_areas s) (vmm_procs s) (pagedirs s) (f (mm_hw s)) (broadcasts s).
(** [sched_broadcast_on] *)
Definition wake_queue (q : waitq) : M mms unit := mput (fun s =>
  mkMms _ _ _ (pframes s) (mmobjs s) (memory s) (pframe_hash s) (pinned_list s) (alloc_list s) (npinned s)
    (nallocated s) (nfreepages_min s) (nfreepages_target s) (vm_areas s) (vmm_procs s) (pagedirs s) (mm_hw s)
    (q :: broadcasts s)).

(** *** Memory accesses *)
Definition load_pf (pf : Z) : M mms pframe := fun s => mthe (pframes s !! pf) s.
Definition store_pf (pf : Z) (f : pframe -> pframe) : M mms unit :=
  let! x := load_pf pf in mput (upd_pframes (<[pf := f x]>)).
Definition load_mmo (o : Z) : M mms mmobj := fun s => mthe (mmobjs s !! o) s.
Definition store_mmo (o : Z) (f : mmobj -> mmobj) : M mms unit :=
  let! x := load_mmo o in mput (upd_mmobjs (<[o := f x]>)).
(** The bytes of a page. *)
Definition load_page (a : Z) : M mms (list Z) := fun s => mthe (memory s !! a) s.
Definition store_page (a : Z) (d : list Z) : M mms unit :=
  let! _ := load_page a in mput (upd_memory (<[a := d]>)).

Definition with_busy (b : bool) (x : pframe) : pframe :=
  mkPframe (pf_obj x) (pf_pagenum x) (pf_addr x) b (pf_dirty x) (pf_pincount x).
Definition with_dirty (b : bool) (x : pframe) : pframe :=
  mkPframe (pf_obj x) (pf_pagenum x) (pf_addr x) (pf_busy x) b (pf_pincount x).
Definition with_pincount (n : Z) (x : pframe) : pframe :=
  mkPframe (pf_obj x) (pf_pagenum x) (pf_addr x) (pf_busy x) (pf_dirty x) n.
Definition with_pfobj (o : Z) (x : pframe) : pframe :=
  mkPframe o (pf_pagenum x) (pf_addr x) (pf_busy x) (pf_dirty x) (pf_pincount x).
Definition with_ref (n : Z) (x : mmobj) : mmobj :=
  mkMmobj _ (mmo_ops x) n (mmo_nrespages x) (mmo_respages x) (mmo_shadowed x) (mmo_bottom_obj x) (mmo_vmas x).
Definition with_nres (n : Z) (x : mmobj) : mmobj :=
  mkMmobj _ (mmo_ops x) (mmo_refcount x) n (mmo_respages x) (mmo_shadowed x) (mmo_bottom_obj x) (mmo_vmas x).
Definition with_res (f : klist -> klist) (x : mmobj) : mmobj :=
  mkMmobj _ (mmo_ops x) (mmo_refcount x) (mmo_nrespages x) (f (mmo_respages x)) (mmo_shadowed x) (mmo_bottom_obj x) (mmo_vmas x).
Definition with_shadowed (o : Z) (x : mmobj) : mmobj :=
  mkMmobj _ (mmo_ops x) (mmo_refcount x) (mmo_nrespages x) (mmo_respages x) o (mmo_bottom_obj x) (mmo_vmas x).
Definition with_bottom (b : Z) (x : mmobj) : mmobj :=
  mkMmobj _ (mmo_ops x) (mmo_refcount x) (mmo_nrespages x) (mmo_respages x) (mmo_shadowed x) b (mmo_vmas x).

Definition pframe_is_pinned (x : pframe) : bool := 0 <? pf_pincount x.
(** [list_remove(&pf->pf_link)]: the link is on one of the two page lists. *)
Definition remove_link (pf : Z) : M mms unit := fun s =>
  if decide (pf ∈ list_items (alloc_list s)) then Ok (tt, upd_lists id (list_remove pf) 0 0 s)
  else Ok (tt, upd_lists (list_remove pf) id 0 0 s).
Definition upd_chain (i : Z) (f : klist -> klist) : M mms unit :=
  let! c := fun s => mthe (pframe_hash s !! i) s in mput (upd_hash (<[i := f c]>)).
End State.

(** The operations of vnode objects: [vo_vref], [vo_vput], [vlookuppage],
    [vreadpage], [vdirtypage] and [vcleanpage].  While others hold the vnode,
    [vo_vput] only drops a reference. *)
Class VnodeObjs `{KList} `{KG : KGeometry} `{MU : !Mmu} := {
  vo_vref : Z -> M mms unit;
  vo_vput : Z -> M mms unit;
  vlookuppage : Z -> Z -> bool -> M mms (Z * Z);
  vreadpage : Z -> Z -> M mms Z;
  vdirtypage : Z -> Z -> M mms Z;
  vcleanpage : Z -> Z -> M mms Z;
  vo_vref_ok s o x : mmobjs s !! o = Some x -> 0 < mmo_refcount x ->
    vo_vref o s = Ok (tt, upd_mmobjs (<[o := with_ref (mmo_refcount x + 1) x]>) s);
  vo_vput_ok s o x : mmobjs s !! o = Some x -> mmo_nrespages x + 1 < mmo_refcount x ->
    vo_vput o s = Ok (tt, upd_mmobjs (<[o := with_ref (mmo_refcount x - 1) x]>) s);
}.

Section MmObj.
Context `{KL : KList} `{SL : Slab} `{KG : KGeometry} `{MU : !Mmu} `{PA : !PageAlloc} `{MH : !MmHeader}.
Context `{PU : !PtUnmap} `{VO : !VnodeObjs} `{ER : KErrno}.

(** ** vm/anon.c and vm/shadow.c: creation and references *)
Definition create (k : mmobj_ops) : M mms Z := fun s =>
  match slab_pick (mmobjs s) with
  | None => Err FUndef
  | Some o => Ok (o, upd_mmobjs (<[o := with_ref 1 (mmobj_init k)]>) s)
  end.
(** [mmobj_init] writes through the pointer that [slab_obj_alloc] returned
    without a test for NULL. *)
Definition anon_create : M mms Z := create anon_mmobj_ops.
Definition shadow_create : M mms Z := create shadow_mmobj_ops.

Definition anon_ref (o : Z) : M mms unit :=
  KASSERT (negb (o =? 0)) ;;;
  let! x := load_mmo o in
  KASSERT ((0 <? mmo_refcount x) && bool_decide (mmo_ops x = anon_mmobj_ops)) ;;;
  store_mmo o (with_ref (mmo_refcount x + 1)).
Definition shadow_ref (o : Z) : M mms unit :=
  KASSERT (negb (o =? 0)) ;;;
  let! x := load_mmo o in
  KASSERT ((0 <? mmo_refcount x) && bool_decide (mmo_ops x = shadow_mmobj_ops)) ;;;
  store_mmo o (with_ref (mmo_refcount x + 1)).
(** [o->mmo_ops->ref(o)] *)
Definition mmo_ref (o : Z) : M mms unit :=
  let! x := load_mmo o in
  match mmo_ops x with
  | anon_mmobj_ops => anon_ref o
  | shadow_mmobj_ops => shadow_ref o
  | vnode_mmobj_ops => vo_vref o
  end.

(** ** vm/vmmap.c and proc/fork.c: making shadow objects *)
(** The assignments to [mmo_shadowed] and [mmo_un.mmo_bottom_obj]. *)
Definition shadow_over (sh o : Z) : M mms unit :=
  store_mmo sh (with_shadowed o) ;;;
  let! x := load_mmo o in
  store_mmo sh (with_bottom (mmobj_bottom_obj o x)).
(** Private mappings in [vmmap_map]: a shadow object over [o]. *)
Definition map_private (o : Z) : M mms Z :=
  let! sh := shadow_create in
  shadow_over sh o ;;;
  let! x := load_mmo o in
  mmo_ref (mmobj_bottom_obj o x) ;;;
  mret_ sh.
(** Private mappings in [do_fork]: the shadow objects of the parent and of the
    child over the area's object. *)
Definition fork_private (o : Z) : M mms (Z * Z) :=
  let! parentShadow := shadow_create in
  shadow_over parentShadow o ;;;
  let! childShadow := shadow_create in
  shadow_over childShadow o ;;;
  let! c := load_mmo childShadow in
  mmo_ref (mmo_shadowed c) ;;;
  let! c := load_mmo childShadow in
  mmo_ref (mmo_bottom_obj c) ;;;
  let! p := load_mmo parentShadow in
  mmo_ref (mmo_bottom_obj p) ;;;
  mret_ (parentShadow, childShadow).

(** ** mm/pframe.c: the page cache *)
Definition hash_page (o pagenum : Z) : Z := u32 (o + pagenum) mod PF_HASH_SIZE.

(** Both lists and all chains of the hash table become empty, half of the
    memory is to be kept free. *)
Definition pframe_init : M mms unit := mput (fun s =>
  mkMms _ _ _ (pframes s) (mmobjs s) (memory s)
    (list_to_map ((fun i => (i, list_empty_head)) <$> seqZ 0 PF_HASH_SIZE)) list_empty_head list_empty_head 0 0
    0 (Z.shiftr (page_free_count (memory s)) 1) (vm_areas s) (vmm_procs s) (pagedirs s) (mm_hw s) (broadcasts s)).

Fixpoint resident_loop (hashchain : list Z) (o pagenum : Z) : M mms Z :=
  match hashchain with
  | [] => mret_ 0
  | pf :: r =>
      let! x := load_pf pf in
      if (o =? pf_obj x) && (pagenum =? pf_pagenum x) then
        (if negb (pframe_is_pinned x) then
           remove_link pf ;;; mput (upd_lists id (list_insert_tail pf) 0 0)
         else mret_ tt) ;;;
        mret_ pf
      else resident_loop r o pagenum
  end.
Definition pframe_get_resident (o pagenum : Z) : M mms Z :=
  let! c := fun s => mthe (pframe_hash s !! hash_page o pagenum) s in
  resident_loop (list_items c) o pagenum.

Definition pframe_alloc (o pagenum : Z) : M mms Z :=
  let! p := mget (fun s => slab_pick (pframes s)) in
  match p with
  | None => mret_ 0
  | Some pf =>
      let! a := mget (fun s => page_pick (memory s)) in
      match a with
      | None => mret_ 0
      | Some (addr, d) =>
          mput (upd_memory (<[addr := d]>)) ;;;
          mput (upd_lists id (list_insert_tail pf) 0 1) ;;;
          mput (upd_pframes (<[pf := mkPframe o pagenum addr false false 0]>)) ;;;
          upd_chain (hash_page o pagenum) (list_insert_head pf) ;;;
          mmo_ref o ;;;
          store_mmo o (fun x => with_nres (mmo_nrespages x + 1) x) ;;;
          store_mmo o (with_res (list_insert_head pf)) ;;;
          mret_ pf
      end
  end.

Definition pframe_pin (pf : Z) : M mms unit :=
  KASSERT (negb (pf =? 0)) ;;;
  let! x := load_pf pf in
  KASSERT (negb (pframe_is_free x)) ;;;
  KASSERT (0 <=? pf_pincount x) ;;;
  (if negb (pframe_is_pinned x) then
     remove_link pf ;;;
     mput (upd_lists (list_insert_tail pf) id 1 (-1))
   else mret_ tt) ;;;
  store_pf pf (fun x => with_pincount (pf_pincount x + 1) x).
Definition pframe_unpin (pf : Z) : M mms unit :=
  KASSERT (negb (pf =? 0)) ;;;
  let! x := load_pf pf in
  KASSERT (negb (pframe_is_free x)) ;;;
  KASSERT (0 <? pf_pincount x) ;;;
  store_pf pf (fun x => with_pincount (pf_pincount x - 1) x) ;;;
  let! x := load_pf pf in
  if pf_pincount x =? 0 then
    remove_link pf ;;;
    mput (upd_lists id (list_insert_tail pf) (-1) 1)
  else mret_ tt.

(** The areas that map the bottom object of [pf]'s object. *)
Definition mmobj_bottom_vmas (o : Z) : M mms (list Z) :=
  let! x := load_mmo o in
  let! b := load_mmo (mmobj_bottom_obj o x) in
  mret_ (list_items (mmo_vmas b)).
Fixpoint unmap_loop (l : list Z) (pagenum : Z) : M mms unit :=
  match l with
  | [] => mret_ tt
  | v :: r =>
      let! vma := fun s => mthe (vm_areas s !! v) s in
      (if (vma_off vma <=? pagenum) &&
          (pagenum <? u32 (vma_off vma + u32 (vma_end vma - vma_start vma))) then
         let vaddr := PN_TO_ADDR (u32 (vma_start vma + pagenum - vma_off vma)) in
         let! p := fun s => mthe (vmm_procs s !! vma_vmmap vma) s in
         if p =? 0 then mret_ tt
         else
           let! pd := fun s => mthe (pagedirs s !! p) s in
           mput (upd_hw (pt_unmap pd vaddr))
       else mret_ tt) ;;;
      unmap_loop r pagenum
  end.
Definition pframe_remove_from_pts (pf : Z) : M mms unit :=
  let! x := load_pf pf in
  let! l := mmobj_bottom_vmas (pf_obj x) in
  unmap_loop l (pf_pagenum x).

(** [pframe_free], given the object's [put].  It unlinks [pf_olink] after
    [slab_obj_free]. *)
Definition pframe_free_ (put : Z -> M mms unit) (pf : Z) : M mms unit :=
  let! x := load_pf pf in
  KASSERT (negb (pframe_is_pinned x)) ;;;
  KASSERT (negb (pframe_is_free x)) ;;;
  KASSERT (negb (pf_busy x)) ;;;
  let o := pf_obj x in
  mput (upd_hw (tlb_flush (pf_addr x))) ;;;
  pframe_remove_from_pts pf ;;;
  upd_chain (hash_page o (pf_pagenum x)) (list_remove pf) ;;;
  store_pf pf (with_pfobj 0) ;;;
  mput (upd_lists id id 0 (-1)) ;;;
  remove_link pf ;;;
  mput (upd_memory (delete (pf_addr x))) ;;;
  mput (upd_pframes (delete pf)) ;;;
  store_mmo o (fun y => with_nres (mmo_nrespages y - 1) y) ;;;
  mguard slab_keeps FUndef ;;;
  store_mmo o (with_res (list_remove pf)) ;;;
  put o.

(** The loop of [anon_put] and [shadow_put] over the resident pages. *)
Fixpoint uncache_loop (put : Z -> M mms unit) (l : list Z) : M mms unit :=
  match l with
  | [] => mret_ tt
  | pf :: r =>
      let! x := load_pf pf in
      (if pframe_is_pinned x then pframe_unpin pf else mret_ tt) ;;;
      pframe_free_ put pf ;;;
      uncache_loop put r
  end.
Definition anon_put_ (put : Z -> M mms unit) (o : Z) : M mms unit :=
  KASSERT (negb (o =? 0)) ;;;
  let! x := load_mmo o in
  KASSERT ((0 <? mmo_refcount x) && bool_decide (mmo_ops x = anon_mmobj_ops)) ;;;
  if mmo_refcount x - 1 =? mmo_nrespages x then
    uncache_loop put (list_items (mmo_respages x)) ;;;
    store_mmo o (fun x => with_ref (mmo_refcount x - 1) x) ;;;
    mput (upd_mmobjs (delete o))
  else store_mmo o (fun x => with_ref (mmo_refcount x - 1) x).
Definition shadow_put_ (put : Z -> M mms unit) (o : Z) : M mms unit :=
  KASSERT (negb (o =? 0)) ;;;
  let! x := load_mmo o in
  KASSERT ((0 <? mmo_refcount x) && bool_decide (mmo_ops x = shadow_mmobj_ops)) ;;;
  if mmo_refcount x - 1 =? mmo_nrespages x then
    uncache_loop put (list_items (mmo_respages x)) ;;;
    let! x := load_mmo o in
    put (mmo_bottom_obj x) ;;;
    let! x := load_mmo o in
    put (mmo_shadowed x) ;;;
    store_mmo o (fun x => with_ref (mmo_refcount x - 1) x) ;;;
    mput (upd_mmobjs (delete o))
  else store_mmo o (fun x => with_ref (mmo_refcount x - 1) x).
(** [o->mmo_ops->put(o)].  The calls from [pframe_free] go no further, those
    on the shadowed object follow the chain of shadow objects. *)
Fixpoint mmo_put_ (fuel : nat) (o : Z) : M mms unit :=
  match fuel with
  | O => mfail FFuel
  | S fuel =>
      let! x := load_mmo o in
      match mmo_ops x with
      | anon_mmobj_ops => anon_put_ (mmo_put_ fuel) o
      | shadow_mmobj_ops => shadow_put_ (mmo_put_ fuel) o
      | vnode_mmobj_ops => vo_vput o
      end
  end.
(** A chain has at most as many objects as there are. *)
Definition mmo_put (o : Z) : M mms unit := fun s => mmo_put_ (S (size (mmobjs s))) o s.
Definition pframe_free (pf : Z) : M mms unit := pframe_free_ mmo_put pf.

(** ** Filling, dirtying and looking up pages *)
Definition zero_page : list Z := replicate (Z.to_nat PAGE_SIZE) 0.
Definition anon_fillpage (o pf : Z) : M mms Z :=
  let! x := load_pf pf in
  KASSERT (pf_busy x) ;;;
  KASSERT (negb (pframe_is_pinned x)) ;;;
  pframe_pin pf ;;;
  let! x := load_pf pf in
  store_page (pf_addr x) zero_page ;;;
  mret_ 0.
(** [memcpy(dst->pf_addr, src->pf_addr, PAGE_SIZE)] *)
Definition copy_page (dst src : Z) : M mms unit :=
  let! x := load_pf dst in
  let! y := load_pf src in
  let! d := load_page (pf_addr y) in
  store_page (pf_addr x) d.

(** The loop of [shadow_fillpage]; 0 when no shadowed object has the page. *)
Fixpoint shadow_fill_loop (fuel : nat) (cur pf : Z) : M mms Z :=
  match fuel with
  | O => mfail FFuel
  | S fuel =>
      let! x := load_mmo cur in
      if mmo_shadowed x =? 0 then mret_ 0
      else
        let! y := load_pf pf in
        let! p := pframe_get_resident (mmo_shadowed x) (pf_pagenum y) in
        if negb (p =? 0) then
          copy_page pf p ;;;
          pframe_pin pf ;;;
          mret_ p
        else shadow_fill_loop fuel (mmo_shadowed x) pf
  end.
Definition shadow_fillpage_ (lookup : Z -> Z -> bool -> M mms (Z * Z)) (o pf : Z) : M mms Z :=
  let! x := load_pf pf in
  KASSERT (pf_busy x) ;;;
  KASSERT (negb (pframe_is_pinned x)) ;;;
  let! n := mget (fun s => size (mmobjs s)) in
  let! p := shadow_fill_loop n o pf in
  if p =? 0 then
    let! y := load_mmo o in
    let! x := load_pf pf in
    KASSERT (negb (mmo_bottom_obj y =? 0)) ;;;
    let! (code, p) := lookup (mmo_bottom_obj y) (pf_pagenum x) false in
    if code <? 0 then mret_ code
    else copy_page pf p ;;; pframe_pin pf ;;; mret_ 0
  else mret_ 0.
(** [o->mmo_ops->fillpage(o, pf)] *)
Definition fillpage_ (lookup : Z -> Z -> bool -> M mms (Z * Z)) (o pf : Z) : M mms Z :=
  let! x := load_mmo o in
  match mmo_ops x with
  | anon_mmobj_ops => anon_fillpage o pf
  | shadow_mmobj_ops => shadow_fillpage_ lookup o pf
  | vnode_mmobj_ops => vreadpage o pf
  end.

Definition pframe_fill_ (lookup : Z -> Z -> bool -> M mms (Z * Z)) (pf : Z) : M mms Z :=
  store_pf pf (with_busy true) ;;;
  let! x := load_pf pf in
  let! ret := fillpage_ lookup (pf_obj x) pf in
  store_pf pf (with_busy false) ;;;
  wake_queue (pf_waitq pf) ;;;
  mret_ ret.

Definition pageoutd_needed : M mms bool :=
  mget (fun s => (page_free_count (memory s) <=? nfreepages_min s) && negb (bool_decide (list_items (alloc_list s) = []))).
(** The result is the code and [*result], 0 when it is not set. *)
Definition pframe_get_ (lookup : Z -> Z -> bool -> M mms (Z * Z)) (o pagenum : Z) : M mms (Z * Z) :=
  let! pf := pframe_get_resident o pagenum in
  let! (code, pf) :=
    if negb (pf =? 0) then
      let! x := load_pf pf in
      mguard (negb (pf_busy x)) FFuel ;;;
      mret_ (0, pf)
    else
      let! need := pageoutd_needed in
      (if need then wake_queue pageoutd_waitq else mret_ tt) ;;;
      let! pf := pframe_alloc o pagenum in
      if pf =? 0 then mret_ (- ENOMEM, 0)
      else
        let! code := pframe_fill_ lookup pf in
        mret_ (code, pf) in
  if code <? 0 then mret_ (code, 0)
  else
    KASSERT (negb (pf =? 0)) ;;;
    let! x := load_pf pf in
    KASSERT (negb (pf_busy x)) ;;;
    mret_ (0, pf).

Definition anon_dirtypage (o pf : Z) : M mms Z := store_pf pf (with_dirty true) ;;; mret_ 0.
Definition shadow_dirtypage (o pf : Z) : M mms Z := store_pf pf (with_dirty true) ;;; mret_ 0.
Definition dirtypage (o pf : Z) : M mms Z :=
  let! x := load_mmo o in
  match mmo_ops x with
  | anon_mmobj_ops => anon_dirtypage o pf
  | shadow_mmobj_ops => shadow_dirtypage o pf
  | vnode_mmobj_ops => vdirtypage o pf
  end.
Definition pframe_dirty (pf : Z) : M mms Z :=
  let! x := load_pf pf in
  KASSERT (negb (pf_busy x)) ;;;
  store_pf pf (with_busy true) ;;;
  let! ret := dirtypage (pf_obj x) pf in
  (if ret =? 0 then store_pf pf (with_dirty true) else mret_ tt) ;;;
  store_pf pf (with_busy false) ;;;
  wake_queue (pf_waitq pf) ;;;
  mret_ ret.

Definition anon_lookuppage_ (lookup : Z -> Z -> bool -> M mms (Z * Z)) (o pagenum : Z) (forwrite : bool) : M mms (Z * Z) :=
  pframe_get_ lookup o pagenum.
(** The loop of [shadow_lookuppage] for reading. *)
Fixpoint shadow_read_loop (fuel : nat) (cur pagenum : Z) : M mms Z :=
  match fuel with
  | O => mfail FFuel
  | S fuel =>
      let! x := load_mmo cur in
      if mmo_shadowed x =? 0 then mret_ 0
      else
        let! p := pframe_get_resident cur pagenum in
        if negb (p =? 0) then mret_ p else shadow_read_loop fuel (mmo_shadowed x) pagenum
  end.
Definition shadow_lookuppage_ (lookup : Z -> Z -> bool -> M mms (Z * Z)) (o pagenum : Z) (forwrite : bool) : M mms (Z * Z) :=
  let! (code, pf) :=
    if forwrite then
      let! p := pframe_get_resident o pagenum in
      if p =? 0 then
        let! (code, pf) := pframe_get_ lookup o pagenum in
        if code <? 0 then mret_ (code, 0)
        else
          let! _ := pframe_dirty pf in
          mret_ (0, pf)
      else mret_ (0, p)
    else
      let! n := mget (fun s => size (mmobjs s)) in
      let! p := shadow_read_loop n o pagenum in
      if p =? 0 then
        let! x := load_mmo o in
        KASSERT (negb (mmo_bottom_obj x =? 0)) ;;;
        lookup (mmo_bottom_obj x) pagenum false
      else mret_ (0, p) in
  if code <? 0 then mret_ (code, 0)
  else
    KASSERT (negb (pf =? 0)) ;;;
    let! x := load_pf pf in
    KASSERT ((pagenum =? pf_pagenum x) && negb (pf_busy x)) ;;;
    mret_ (0, pf).
(** [o->mmo_ops->lookuppage(o, pagenum, forwrite, &pf)].  A shadow object
    looks up in its bottom object, which is not a shadow object. *)
Fixpoint lookuppage_ (fuel : nat) (o pagenum : Z) (forwrite : bool) : M mms (Z * Z) :=
  match fuel with
  | O => mfail FFuel
  | S fuel =>
      let! x := load_mmo o in
      match mmo_ops x with
      | anon_mmobj_ops => anon_lookuppage_ (lookuppage_ fuel) o pagenum forwrite
      | shadow_mmobj_ops => shadow_lookuppage_ (lookuppage_ fuel) o pagenum forwrite
      | vnode_mmobj_ops => vlookuppage o pagenum forwrite
      end
  end.
Definition lookuppage : Z -> Z -> bool -> M mms (Z * Z) := lookuppage_ 2.
Definition pframe_lookup (o pagenum : Z) (forwrite : bool) : M mms (Z * Z) :=
  KASSERT (negb (o =? 0)) ;;;
  lookuppage o pagenum forwrite.
Definition pframe_get : Z -> Z -> M mms (Z * Z) := pframe_get_ lookuppage.

(** ** Cleaning *)
Definition cleanpage_copy (o pf : Z) : M mms Z :=
  let! x := load_pf pf in
  let! (_, copy) := lookuppage o (pf_pagenum x) true in
  copy_page copy pf ;;;
  store_pf copy (with_dirty false) ;;;
  mret_ 0.
Definition anon_cleanpage (o pf : Z) : M mms Z := cleanpage_copy o pf.
Definition shadow_cleanpage (o pf : Z) : M mms Z := cleanpage_copy o pf.
Definition cleanpage (o pf : Z) : M mms Z :=
  let! x := load_mmo o in
  match mmo_ops x with
  | anon_mmobj_ops => anon_cleanpage o pf
  | shadow_mmobj_ops => shadow_cleanpage o pf
  | vnode_mmobj_ops => vcleanpage o pf
  end.
Definition pframe_clean (pf : Z) : M mms Z :=
  let! x := load_pf pf in
  KASSERT (pf_dirty x) ;;;
  KASSERT (pf_pincount x =? 0) ;;;
  store_pf pf (with_dirty false) ;;;
  mput (upd_hw (tlb_flush (pf_addr x))) ;;;
  pframe_remove_from_pts pf ;;;
  store_pf pf (with_busy true) ;;;
  let! ret := cleanpage (pf_obj x) pf in
  (if ret <? 0 then store_pf pf (with_dirty true) else mret_ tt) ;;;
  store_pf pf (with_busy false) ;;;
  wake_queue (pf_waitq pf) ;;;
  mret_ ret.

Definition pframe_migrate (pf dest : Z) : M mms unit :=
  let! x := load_pf pf in
  KASSERT (negb (pf_busy x)) ;;;
  let! p := pframe_get_resident dest (pf_pagenum x) in
  if negb (p =? 0) then
    pframe_unpin pf ;;;
    let! _ := pframe_clean pf in
    pframe_free pf
  else
    let src := pf_obj x in
    store_pf pf (with_pfobj dest) ;;;
    upd_chain (hash_page src (pf_pagenum x)) (list_remove pf) ;;;
    store_mmo src (with_res (list_remove pf)) ;;;
    store_mmo src (fun y => with_nres (mmo_nrespages y - 1) y) ;;;
    mmo_put src ;;;
    upd_chain (hash_page dest (pf_pagenum x)) (list_insert_head pf) ;;;
    store_mmo dest (with_res (list_insert_head pf)) ;;;
    store_mmo dest (fun y => with_nres (mmo_nrespages y + 1) y) ;;;
    mmo_ref dest.

(** [pframe_clean_all]: from the head of [alloc_list], again from the start
    after each page that is cleaned. *)
Fixpoint clean_scan (l : list Z) : M mms bool :=
  match l with
  | [] => mret_ true
  | pf :: r =>
      let! x := load_pf pf in
      KASSERT (negb (pframe_is_pinned x)) ;;;
      KASSERT (negb (pframe_is_free x)) ;;;
      mguard (negb (pf_busy x)) FFuel ;;;
      if pf_dirty x then let! _ := pframe_clean pf in mret_ false
      else clean_scan r
  end.
Fixpoint pframe_clean_all (fuel : nat) : M mms unit :=
  match fuel with
  | O => mfail FFuel
  | S fuel =>
      let! l := mget (fun s => list_items (alloc_list s)) in
      let! fin := clean_scan l in
      if fin : bool then mret_ tt else pframe_clean_all fuel
  end.

(** The inner loop of [pageoutd_run]: the pages of [alloc_list] from the
    least recently requested one, until enough pages are free. *)
Fixpoint pageout_loop (fuel : nat) : M mms unit :=
  match fuel with
  | O => mfail FFuel
  | S fuel =>
      let! met := mget (fun s => nfreepages_target s <=? page_free_count (memory s)) in
      let! l := mget (fun s => list_items (alloc_list s)) in
      match l with
      | [] => mret_ tt
      | pf :: _ =>
          if met : bool then mret_ tt
          else
            let! x := load_pf pf in
            mguard (negb (pf_busy x)) FFuel ;;;
            (if pf_dirty x then let! _ := pframe_clean pf in mret_ tt else pframe_free pf) ;;;
            pageout_loop fuel
      end
  end.
(** One round of [pageoutd_run], up to its sleep. *)
Definition pageoutd_round (fuel : nat) : M mms unit :=
  let! n := mget nallocated in
  KASSERT (0 <=? n) ;;;
  pageout_loop fuel ;;;
  wake_queue alloc_waitq.
End MmObj.
