(* ===== verification/MmInv.v ===== *)
(** * The invariant of the page cache

    Every page frame is on exactly the lists that pframe.c says: the list of
    pinned or of allocated pages, one chain of the hash table and the list of
    its object; the counters are the lengths of the lists.  Each primitive of
    mm/pframe.c is shown to run and to preserve this. *)
From stdpp Require Import base gmap list fin_maps.
From Stdlib Require Import ZArith Lia.
From S2P Require Import Prelude KEnv Vmmap MmObj.
Open Scope Z_scope.
Open Scope c_scope.

(** ** Lists of linked structures *)
Section Linked.
Context `{KL : KList}.

(** The members of [c] are those of [P], each once. *)
Definition linked (c : klist) (P : Z -> Prop) : Prop :=
  NoDup (list_items c) /\ forall x, x ∈ list_items c <-> P x.

#[export] Instance linked_proper c : Proper (pointwise_relation Z iff ==> iff) (linked c).
Proof. intros P Q HPQ. unfold linked. by setoid_rewrite HPQ. Qed.
Lemma linked_iff c P Q : linked c P -> (forall x, P x <-> Q x) -> linked c Q.
Proof. intros H HPQ. by rewrite <- (linked_proper c P Q HPQ). Qed.

Lemma linked_head c P x : linked c P -> ~ P x ->
  list_items (list_insert_head x c) = x :: list_items c /\
  linked (list_insert_head x c) (fun y => y = x \/ P y).
Proof.
  intros [Hn Hm] Hx. assert (x ∉ list_items c) as Hni by by rewrite Hm.
  unfold linked. rewrite (items_insert_head _ _ Hni). split; [done|]. split; [by constructor|].
  intros y. rewrite elem_of_cons, Hm. done.
Qed.
Lemma linked_tail c P x : linked c P -> ~ P x ->
  list_items (list_insert_tail x c) = list_items c ++ [x] /\
  linked (list_insert_tail x c) (fun y => y = x \/ P y).
Proof.
  intros [Hn Hm] Hx. assert (x ∉ list_items c) as Hni by by rewrite Hm.
  unfold linked. rewrite (items_insert_tail _ _ Hni). split; [done|]. split.
  - apply NoDup_app. split; [done|]. split; [set_solver|]. apply NoDup_singleton.
  - intros y. rewrite elem_of_app, list_elem_of_singleton, Hm. tauto.
Qed.
Lemma linked_remove c P x : linked c P -> P x ->
  length (list_items c) = S (length (list_items (list_remove x c))) /\
  linked (list_remove x c) (fun y => y <> x /\ P y).
Proof.
  intros [Hn Hm] Hx. apply Hm in Hx. apply list_elem_of_split in Hx as (a & b & E).
  assert (x ∉ a ++ b) as Hab.
  { rewrite E in Hn. apply NoDup_app_cons_notin in Hn. set_solver. }
  unfold linked. rewrite (items_remove _ _ _ _ E Hab). split; [|split].
  - rewrite E, !length_app. cbn. lia.
  - rewrite E in Hn. by apply NoDup_app_cons_del in Hn.
  - intros y. rewrite <- Hm, E. set_solver.
Qed.
Lemma linked_length c P : linked c P -> (exists x, P x) -> (1 <= length (list_items c))%nat.
Proof. intros [_ Hm] [x Hx]. apply Hm in Hx. destruct (list_items c); [by apply elem_of_nil in Hx | cbn; lia]. Qed.
End Linked.

Section Inv.
Context `{KL : KList} `{SL : Slab} `{KG : KGeometry} `{MU : !Mmu} `{PA : !PageAlloc} `{MH : !MmHeader}.
Context `{PU : !PtUnmap} `{VO : !VnodeObjs} `{ER : KErrno}.

(** ** The invariant *)
Definition on_frame (s : mms) (P : pframe -> Prop) (pf : Z) : Prop :=
  exists x, pframes s !! pf = Some x /\ P x.

(** A frame's content: the bytes of its page. *)
Definition content (s : mms) (pf : Z) (d : list Z) : Prop :=
  exists x, pframes s !! pf = Some x /\ memory s !! pf_addr x = Some d.

Record frame_ok (s : mms) (pf : Z) (x : pframe) : Prop := {
  f_ptr : pf <> 0;
  f_pins : 0 <= pf_pincount x;
  f_obj : exists o, mmobjs s !! pf_obj x = Some o;
  f_mem : exists d, memory s !! pf_addr x = Some d /\ length d = Z.to_nat PAGE_SIZE;
}.
Record obj_ok (s : mms) (o : Z) (x : mmobj) : Prop := {
  o_ptr : o <> 0;
  o_res : linked (mmo_respages x) (on_frame s (fun y => pf_obj y = o));
  o_nres : mmo_nrespages x = Z.of_nat (length (list_items (mmo_respages x)));
}.
Record pages_inv (s : mms) : Prop := {
  p_frames pf x : pframes s !! pf = Some x -> frame_ok s pf x;
  p_addr pf pf' x x' : pframes s !! pf = Some x -> pframes s !! pf' = Some x' ->
    pf_addr x = pf_addr x' -> pf = pf';
  p_ident pf pf' x x' : pframes s !! pf = Some x -> pframes s !! pf' = Some x' ->
    pf_obj x = pf_obj x' -> pf_pagenum x = pf_pagenum x' -> pf = pf';
  p_alloc : linked (alloc_list s) (on_frame s (fun x => pf_pincount x = 0));
  p_nalloc : nallocated s = Z.of_nat (length (list_items (alloc_list s)));
  p_pinned : linked (pinned_list s) (on_frame s (fun x => 0 < pf_pincount x));
  p_npinned : npinned s = Z.of_nat (length (list_items (pinned_list s)));
  p_hash i : 0 <= i < PF_HASH_SIZE -> exists c, pframe_hash s !! i = Some c /\
    linked c (on_frame s (fun x => hash_page (pf_obj x) (pf_pagenum x) = i));
  p_objs o x : mmobjs s !! o = Some x -> obj_ok s o x;
  p_null : memory s !! 0 = None;
}.

(** Page [n] of object [o] is in frame [pf]. *)
Definition resident (s : mms) (o n pf : Z) : Prop :=
  on_frame s (fun x => pf_obj x = o /\ pf_pagenum x = n) pf.

Lemma hash_page_range o n : 0 <= hash_page o n < PF_HASH_SIZE.
Proof. apply Z.mod_pos_bound, hash_size_pos. Qed.

Lemma on_frame_iff s s' P Q pf : pframes s' = pframes s -> (forall x, P x <-> Q x) ->
  on_frame s P pf <-> on_frame s' Q pf.
Proof. intros E H. unfold on_frame. rewrite E. by setoid_rewrite H. Qed.
Lemma on_frame_insert s s' P pf x q : pframes s' = <[pf := x]> (pframes s) ->
  on_frame s' P q <-> (q = pf /\ P x) \/ (q <> pf /\ on_frame s P q).
Proof.
  intros E. unfold on_frame. rewrite E. destruct (decide (q = pf)) as [->|].
  - rewrite lookup_insert_eq. naive_solver.
  - rewrite lookup_insert_ne by done. naive_solver.
Qed.
Lemma on_frame_delete s s' P pf q : pframes s' = delete pf (pframes s) ->
  on_frame s' P q <-> q <> pf /\ on_frame s P q.
Proof.
  intros E. unfold on_frame. rewrite E. destruct (decide (q = pf)) as [->|].
  - rewrite lookup_delete_eq. naive_solver.
  - rewrite lookup_delete_ne by done. naive_solver.
Qed.

(** ** Updates that keep the invariant *)
(** The parts of a frame that the lists do not depend on. *)
Definition same_ident (x y : pframe) : Prop :=
  pf_obj x = pf_obj y /\ pf_pagenum x = pf_pagenum y /\ pf_addr x = pf_addr y /\ pf_pincount x = pf_pincount y.
Definition same_pages (x y : mmobj) : Prop :=
  mmo_respages x = mmo_respages y /\ mmo_nrespages x = mmo_nrespages y.
(** The fields of the state that the invariant is about, other than frames,
    objects and memory. *)
Definition same_lists (s s' : mms) : Prop :=
  pframe_hash s' = pframe_hash s /\ pinned_list s' = pinned_list s /\ alloc_list s' = alloc_list s /\
  npinned s' = npinned s /\ nallocated s' = nallocated s.

(** Frames change flags only, objects their other fields, pages their bytes. *)
Record pages_eq (s s' : mms) : Prop := {
  e_lists : same_lists s s';
  e_frames pf : option_relation same_ident (fun _ => False) (fun _ => False) (pframes s' !! pf) (pframes s !! pf);
  e_objs o : option_relation same_pages (fun _ => False) (fun _ => False) (mmobjs s' !! o) (mmobjs s !! o);
  e_mem a : option_relation (fun d d' => length d = length d') (fun _ => False) (fun _ => False)
    (memory s' !! a) (memory s !! a);
}.
Lemma option_rel_Some {A} (R : relation A) m m' x :
  option_relation R (fun _ => False) (fun _ => False) m m' -> m = Some x -> exists y, m' = Some y /\ R x y.
Proof. intros H ->. destruct m'; cbn in H; [by eexists | done]. Qed.
Lemma option_rel_Some' {A} (R : relation A) m m' x :
  option_relation R (fun _ => False) (fun _ => False) m m' -> m' = Some x -> exists y, m = Some y /\ R y x.
Proof. intros H ->. destruct m; cbn in H; [by eexists | done]. Qed.

Lemma on_frame_eq s s' P pf : pages_eq s s' -> (forall x y, same_ident x y -> P x <-> P y) ->
  on_frame s P pf <-> on_frame s' P pf.
Proof.
  intros E HP. pose proof (e_frames _ _ E pf) as H. unfold on_frame. split; intros (x & Hx & Px).
  - destruct (option_rel_Some' _ _ _ _ H Hx) as (y & Hy & R). exists y. split; [done|]. by apply (HP y x R).
  - destruct (option_rel_Some _ _ _ _ H Hx) as (y & Hy & R). exists y. split; [done|]. by apply (HP x y R).
Qed.
Lemma pages_inv_eq s s' : pages_eq s s' -> pages_inv s -> pages_inv s'.
Proof.
  intros E K. destruct (e_lists _ _ E) as (E1 & E2 & E3 & E4 & E5).
  assert (forall pf x, pframes s' !! pf = Some x -> exists y, pframes s !! pf = Some y /\ same_ident x y) as Hf.
  { intros pf x Hx. apply (option_rel_Some _ _ _ _ (e_frames _ _ E pf) Hx). }
  split.
  - intros pf x Hx. destruct (Hf _ _ Hx) as (y & Hy & R1 & R2 & R3 & R4).
    destruct (p_frames _ K _ _ Hy) as [F1 F2 [o F3] [d [F4 F5]]]. split; [done|lia| |].
    + rewrite R1. destruct (option_rel_Some' _ _ _ _ (e_objs _ _ E _) F3) as (o' & -> & _). by eexists.
    + rewrite R3. destruct (option_rel_Some' _ _ _ _ (e_mem _ _ E _) F4) as (d' & -> & L). exists d'. by rewrite L.
  - intros pf pf' x x' Hx Hx'. destruct (Hf _ _ Hx) as (y & Hy & R1 & R2 & R3 & R4).
    destruct (Hf _ _ Hx') as (y' & Hy' & Q1 & Q2 & Q3 & Q4). rewrite R3, Q3. by apply (p_addr _ K).
  - intros pf pf' x x' Hx Hx'. destruct (Hf _ _ Hx) as (y & Hy & R1 & R2 & R3 & R4).
    destruct (Hf _ _ Hx') as (y' & Hy' & Q1 & Q2 & Q3 & Q4). rewrite R1, R2, Q1, Q2. by apply (p_ident _ K).
  - rewrite E3. eapply linked_iff; [apply (p_alloc _ K)|]. intros pf. apply on_frame_eq; [done|].
    intros x y (_ & _ & _ & ->). done.
  - rewrite E3, E5. apply (p_nalloc _ K).
  - rewrite E2. eapply linked_iff; [apply (p_pinned _ K)|]. intros pf. apply on_frame_eq; [done|].
    intros x y (_ & _ & _ & ->). done.
  - rewrite E2, E4. apply (p_npinned _ K).
  - intros i Hi. rewrite E1. destruct (p_hash _ K i Hi) as (c & Hc & L). exists c. split; [done|].
    eapply linked_iff; [apply L|]. intros pf. apply on_frame_eq; [done|]. intros x y (-> & -> & _). done.
  - intros o x Hx. destruct (option_rel_Some _ _ _ _ (e_objs _ _ E o) Hx) as (y & Hy & R1 & R2).
    destruct (p_objs _ K _ _ Hy) as [O1 O2 O3]. split; [done| |by rewrite R1, R2].
    rewrite R1. eapply linked_iff; [apply O2|]. intros pf. apply on_frame_eq; [done|]. intros z w (-> & _). done.
  - pose proof (e_mem _ _ E 0) as H. rewrite (p_null _ K) in H. by destruct (memory s' !! 0).
Qed.

Lemma option_rel_refl {A} (R : relation A) m : (forall x, R x x) ->
  option_relation R (fun _ => False) (fun _ => False) m m.
Proof. intros H. destruct m; cbn; done. Qed.
#[local] Hint Resolve option_rel_refl : core.
Lemma pages_eq_frame s pf x x' : pframes s !! pf = Some x -> same_ident x' x ->
  pages_eq s (upd_pframes (<[pf := x']>) s).
Proof.
  intros Hx R. split; [done| |by intros; apply option_rel_refl..]. intros q. cbn. destruct (decide (q = pf)) as [->|].
  - by rewrite lookup_insert_eq, Hx.
  - rewrite lookup_insert_ne by done. by apply option_rel_refl.
Qed.
Lemma pages_eq_obj s o x x' : mmobjs s !! o = Some x -> same_pages x' x ->
  pages_eq s (upd_mmobjs (<[o := x']>) s).
Proof.
  intros Hx R. split; [done|by intros; apply option_rel_refl| |by intros; apply option_rel_refl]. intros q. cbn.
  destruct (decide (q = o)) as [->|].
  - by rewrite lookup_insert_eq, Hx.
  - rewrite lookup_insert_ne by done. by apply option_rel_refl.
Qed.
Lemma pages_eq_mem s a d d' : memory s !! a = Some d -> length d' = length d ->
  pages_eq s (upd_memory (<[a := d']>) s).
Proof.
  intros Hx R. split; [done|by intros; apply option_rel_refl..|]. intros q. cbn.
  destruct (decide (q = a)) as [->|].
  - by rewrite lookup_insert_eq, Hx.
  - rewrite lookup_insert_ne by done. by apply option_rel_refl.
Qed.
(** Updates of the fields the invariant does not mention. *)
Lemma pages_eq_rest s s' : same_lists s s' -> pframes s' = pframes s -> mmobjs s' = mmobjs s ->
  memory s' = memory s -> pages_eq s s'.
Proof. intros H E1 E2 E3. split; [done|..]; intros; rewrite ?E1, ?E2, ?E3; by apply option_rel_refl. Qed.

(** ** Pages move between the two lists *)
Lemma pages_inv_move s s' pf x x' : pages_inv s -> pframes s !! pf = Some x ->
  pf_obj x' = pf_obj x -> pf_pagenum x' = pf_pagenum x -> pf_addr x' = pf_addr x -> 0 <= pf_pincount x' ->
  pframes s' = <[pf := x']> (pframes s) -> mmobjs s' = mmobjs s -> memory s' = memory s ->
  pframe_hash s' = pframe_hash s ->
  linked (alloc_list s') (on_frame s' (fun x => pf_pincount x = 0)) ->
  nallocated s' = Z.of_nat (length (list_items (alloc_list s'))) ->
  linked (pinned_list s') (on_frame s' (fun x => 0 < pf_pincount x)) ->
  npinned s' = Z.of_nat (length (list_items (pinned_list s'))) -> pages_inv s'.
Proof.
  intros K Hx E1 E2 E3 Hp Ef Eo Em Eh L1 N1 L2 N2.
  assert (forall q y, pframes s' !! q = Some y -> exists z, pframes s !! q = Some z /\
    pf_obj y = pf_obj z /\ pf_pagenum y = pf_pagenum z /\ pf_addr y = pf_addr z /\ 0 <= pf_pincount y) as Hf.
  { intros q y. rewrite Ef. intros [[<- <-]|[Hne Hy]]%lookup_insert_Some; [by exists x|]. exists y.
    split_and!; try done. by apply (p_frames _ K) in Hy as []. }
  assert (forall q (P : pframe -> Prop), (forall y, P (mkPframe (pf_obj y) (pf_pagenum y) 0 false false 0) <-> P y) ->
    on_frame s P q <-> on_frame s' P q) as Hon.
  { intros q P HP. rewrite (on_frame_insert s s' P pf x' q Ef). unfold on_frame.
    assert (P x <-> P x') as Hxx by (rewrite <- (HP x), <- (HP x'), E1, E2; done).
    destruct (decide (q = pf)) as [->|]; [|naive_solver]. rewrite Hx. naive_solver. }
  split; try done.
  - intros q y Hy. destruct (Hf q y Hy) as (z & Hz & R1 & R2 & R3 & R4).
    destruct (p_frames _ K _ _ Hz) as [F1 F2 F3 F4]. split; [done|done|by rewrite Eo, R1|by rewrite Em, R3].
  - intros q q' y y' Hy Hy'. destruct (Hf q y Hy) as (z & Hz & R1 & R2 & R3 & R4).
    destruct (Hf q' y' Hy') as (z' & Hz' & Q1 & Q2 & Q3 & Q4). rewrite R3, Q3. by apply (p_addr _ K).
  - intros q q' y y' Hy Hy'. destruct (Hf q y Hy) as (z & Hz & R1 & R2 & R3 & R4).
    destruct (Hf q' y' Hy') as (z' & Hz' & Q1 & Q2 & Q3 & Q4). rewrite R1, R2, Q1, Q2. by apply (p_ident _ K).
  - intros i Hi. rewrite Eh. destruct (p_hash _ K i Hi) as (c & Hc & L). exists c. split; [done|].
    eapply linked_iff; [apply L|]. intros q. by apply Hon.
  - intros o y. rewrite Eo. intros Hy. destruct (p_objs _ K _ _ Hy) as [O1 O2 O3]. split; [done| |done].
    eapply linked_iff; [apply O2|]. intros q. by apply Hon.
  - rewrite Em. apply (p_null _ K).
Qed.

Lemma alloc_member s pf x : pages_inv s -> pframes s !! pf = Some x ->
  pf ∈ list_items (alloc_list s) <-> pf_pincount x = 0.
Proof.
  intros K Hx. rewrite (proj2 (p_alloc _ K) pf). unfold on_frame. split.
  - intros (y & Hy & E). congruence.
  - intros. by exists x.
Qed.
Lemma remove_link_alloc s pf x : pages_inv s -> pframes s !! pf = Some x -> pf_pincount x = 0 ->
  remove_link pf s = Ok (tt, upd_lists id (list_remove pf) 0 0 s).
Proof. intros K Hx Hp. unfold remove_link. rewrite decide_True; [done|]. by apply (alloc_member s pf x). Qed.
(** The list without a page that was pinned until now. *)
Lemma remove_link_pinned s pf : pf ∉ list_items (alloc_list s) ->
  remove_link pf s = Ok (tt, upd_lists (list_remove pf) id 0 0 s).
Proof. intros H. unfold remove_link. by rewrite decide_False. Qed.

(** [quiet s s']: only the order of [alloc_list] and the record of broadcasts
    differ. *)
Record quiet (s s' : mms) : Prop := {
  q_frames : pframes s' = pframes s;
  q_objs : mmobjs s' = mmobjs s;
  q_mem : memory s' = memory s;
  q_env : vm_areas s' = vm_areas s /\ vmm_procs s' = vmm_procs s /\ pagedirs s' = pagedirs s;
  q_inv : pages_inv s -> pages_inv s';
}.
Lemma quiet_refl s : quiet s s.
Proof. by split. Qed.
Lemma quiet_trans s1 s2 s3 : quiet s1 s2 -> quiet s2 s3 -> quiet s1 s3.
Proof.
  intros [A1 A2 A3 [A4 [A5 A6]] A7] [B1 B2 B3 [B4 [B5 B6]] B7].
  split; [congruence..| |auto]. split_and!; congruence.
Qed.

Lemma touch_ok s pf x : pages_inv s -> pframes s !! pf = Some x -> pf_pincount x = 0 ->
  exists s', (remove_link pf ;;; mput (upd_lists id (list_insert_tail pf) 0 0)) s = Ok (tt, s') /\ quiet s s'.
Proof.
  intros K Hx Hp. rewrite (mbind_run _ _ _ _ _ (remove_link_alloc s pf x K Hx Hp)).
  eexists. split; [reflexivity|]. split; [done..|]. intros _.
  destruct (linked_remove _ _ pf (p_alloc _ K)) as [Hl L]; [by exists x|].
  destruct (linked_tail _ _ pf L) as [Hi L']; [naive_solver|].
  eapply (pages_inv_move s _ pf x x K Hx); try done; cbn.
  - apply (p_frames _ K _ _ Hx).
  - by rewrite insert_id.
  - eapply linked_iff; [apply L'|]. intros q. cbn. destruct (decide (q = pf)) as [->|]; [|naive_solver].
    split; [|naive_solver]. intros _. by exists x.
  - rewrite Hi, length_app. cbn. rewrite (p_nalloc _ K), Hl. lia.
  - eapply linked_iff; [apply (p_pinned _ K)|]. done.
  - rewrite (p_npinned _ K). unfold id. lia.
Qed.

(** ** pframe_get_resident *)
Lemma load_pf_run s pf x : pframes s !! pf = Some x -> load_pf pf s = Ok (x, s).
Proof. unfold load_pf. by intros ->. Qed.
Lemma load_mmo_run s o x : mmobjs s !! o = Some x -> load_mmo o s = Ok (x, s).
Proof. unfold load_mmo. by intros ->. Qed.

Lemma resident_loop_ok s l o n : pages_inv s -> (forall pf, pf ∈ l -> is_Some (pframes s !! pf)) ->
  exists pf s', resident_loop l o n s = Ok (pf, s') /\ quiet s s' /\
    ((pf = 0 /\ forall q, q ∈ l -> ~ resident s o n q) \/ resident s o n pf).
Proof.
  intros K. induction l as [|q l IH]; intros Hl.
  { exists 0, s. split; [done|]. split; [apply quiet_refl|]. left. split; [done|]. intros ? []%elem_of_nil. }
  destruct (Hl q) as [x Hx]; [by left|]. cbn [resident_loop]. rewrite (mbind_run _ _ _ _ _ (load_pf_run _ _ _ Hx)).
  destruct (Z.eqb_spec o (pf_obj x)) as [E1|E1], (Z.eqb_spec n (pf_pagenum x)) as [E2|E2]; cbn [andb].
  2-4: destruct IH as (pf & s' & Hr & Q & Hc); [intros; apply Hl; by right|]; exists pf, s'; split; [done|];
    split; [done|]; destruct Hc as [[-> Hc]|Hc]; [left; split; [done|]|by right];
    intros q' [->|Hq']%elem_of_cons; [|by apply Hc]; intros (y & Hy & ? & ?); congruence.
  assert (resident s o n q) as Hres by (exists x; by split_and!).
  unfold pframe_is_pinned. destruct (Z.ltb_spec 0 (pf_pincount x)); cbn [negb].
  - exists q, s. split; [done|]. split; [apply quiet_refl|by right].
  - destruct (touch_ok s q x K Hx) as (s' & Hr & Q).
    { pose proof (f_pins _ _ _ (p_frames _ K _ _ Hx)). lia. }
    exists q, s'. rewrite (mbind_run _ _ _ _ _ Hr). split; [done|]. split; [done|by right].
Qed.
Lemma pframe_get_resident_ok s o n : pages_inv s ->
  exists pf s', pframe_get_resident o n s = Ok (pf, s') /\ quiet s s' /\
    ((pf = 0 /\ forall q, ~ resident s o n q) \/ (pf <> 0 /\ resident s o n pf)).
Proof.
  intros K. destruct (p_hash _ K (hash_page o n) (hash_page_range o n)) as (c & Hc & [_ L]).
  destruct (resident_loop_ok s (list_items c) o n K) as (pf & s' & Hr & Q & H).
  { intros pf (x & Hx & _)%L. by exists x. }
  exists pf, s'. unfold pframe_get_resident, mbind_. rewrite Hc. cbn. split; [done|]. split; [done|].
  destruct H as [[-> H]|H]; [left|right].
  - split; [done|]. intros q Hq. apply (H q); [|done]. apply L. destruct Hq as (x & Hx & <- & <-). by exists x.
  - split; [|done]. destruct H as (x & Hx & _). apply (p_frames _ K _ _ Hx).
Qed.
Lemma resident_unique s o n pf pf' : pages_inv s -> resident s o n pf -> resident s o n pf' -> pf = pf'.
Proof.
  intros K (x & Hx & E1 & E2) (y & Hy & E3 & E4). apply (p_ident _ K pf pf' x y); congruence.
Qed.

Lemma on_frame_new s s' P pf x q (Q : Prop) : pframes s' = <[pf := x]> (pframes s) ->
  Q <-> (q = pf /\ P x) \/ (q <> pf /\ on_frame s P q) -> Q <-> on_frame s' P q.
Proof. intros E H. by rewrite H, (on_frame_insert s s' P pf x q E). Qed.

(** ** Pinning *)
(** Frame [pf] becomes [x]; objects, memory and areas stay. *)
Record refit (s s' : mms) (pf : Z) (x : pframe) : Prop := {
  r_frames : pframes s' = <[pf := x]> (pframes s);
  r_objs : mmobjs s' = mmobjs s;
  r_mem : memory s' = memory s;
  r_env : vm_areas s' = vm_areas s /\ vmm_procs s' = vmm_procs s /\ pagedirs s' = pagedirs s;
}.
Lemma store_pf_run s pf f x : pframes s !! pf = Some x ->
  store_pf pf f s = Ok (tt, upd_pframes (<[pf := f x]>) s).
Proof. intros H. unfold store_pf. by rewrite (mbind_run _ _ _ _ _ (load_pf_run _ _ _ H)). Qed.
Lemma store_mmo_run s o f x : mmobjs s !! o = Some x ->
  store_mmo o f s = Ok (tt, upd_mmobjs (<[o := f x]>) s).
Proof. intros H. unfold store_mmo. by rewrite (mbind_run _ _ _ _ _ (load_mmo_run _ _ _ H)). Qed.
Lemma assert_run {A} (b : bool) (k : unit -> M mms A) s : b = true -> (let! u := KASSERT b in k u) s = k tt s.
Proof. by intros ->. Qed.
Lemma in_use s pf x : pages_inv s -> pframes s !! pf = Some x ->
  (pf =? 0) = false /\ pframe_is_free x = false /\ pf_obj x <> 0.
Proof.
  intros K Hx. destruct (p_frames _ K _ _ Hx) as [F1 F2 [o F3] F4]. pose proof (o_ptr _ _ _ (p_objs _ K _ _ F3)) as Ho.
  split; [by apply Z.eqb_neq|]. split; [by apply is_free_obj|done].
Qed.

Lemma pframe_pin_ok s pf x : pages_inv s -> pframes s !! pf = Some x ->
  exists s', pframe_pin pf s = Ok (tt, s') /\ pages_inv s' /\ refit s s' pf (with_pincount (pf_pincount x + 1) x).
Proof.
  intros K Hx. destruct (in_use _ _ _ K Hx) as (E1 & E2 & _). pose proof (f_pins _ _ _ (p_frames _ K _ _ Hx)) as Hp.
  unfold pframe_pin. rewrite E1, assert_run by done. rewrite (mbind_run _ _ _ _ _ (load_pf_run _ _ _ Hx)), E2.
  rewrite assert_run by done. rewrite assert_run by zbool. unfold pframe_is_pinned.
  destruct (Z.ltb_spec 0 (pf_pincount x)); cbn [negb].
  - rewrite (mbind_run (mret_ tt) _ s _ s eq_refl), (store_pf_run _ _ _ _ Hx). eexists. split; [reflexivity|].
    split; [|by split]. eapply (pages_inv_move s _ pf x (with_pincount (pf_pincount x + 1) x)); try done; cbn; try lia.
    + eapply linked_iff; [apply (p_alloc _ K)|]. intros q. eapply (on_frame_new s); [reflexivity|]. cbn.
      destruct (decide (q = pf)) as [->|]; [|naive_solver]. split; [intros (y & Hy & ?)|]; naive_solver lia.
    + apply (p_nalloc _ K).
    + eapply linked_iff; [apply (p_pinned _ K)|]. intros q. eapply (on_frame_new s); [reflexivity|]. cbn.
      destruct (decide (q = pf)) as [->|]; [|naive_solver]. split; [naive_solver lia|]. intros _. exists x. split; [done|lia].
    + apply (p_npinned _ K).
  - assert (pf_pincount x = 0) as Hp0 by lia. clear Hp. unfold mbind_. rewrite (remove_link_alloc s pf x K Hx Hp0). cbn [mput].
    rewrite (store_pf_run _ _ _ x) by done. eexists. split; [reflexivity|]. split; [|by split].
    destruct (linked_remove _ _ pf (p_alloc _ K)) as [Hl L]; [by exists x|].
    destruct (linked_tail _ _ pf (p_pinned _ K)) as [Hi L'].
    { intros (y & Hy & ?). simplify_eq. lia. }
    eapply (pages_inv_move s _ pf x (with_pincount (pf_pincount x + 1) x)); try done; cbn; try lia.
    + eapply linked_iff; [apply L|]. intros q. eapply (on_frame_new s); [reflexivity|]. cbn. naive_solver lia.
    + rewrite (p_nalloc _ K), Hl. unfold id. lia.
    + eapply linked_iff; [apply L'|]. intros q. eapply (on_frame_new s); [reflexivity|]. cbn. unfold id.
      destruct (decide (q = pf)) as [->|]; naive_solver lia.
    + unfold id. rewrite Hi, length_app. cbn. rewrite (p_npinned _ K). lia.
Qed.

Lemma pframe_unpin_ok s pf x : pages_inv s -> pframes s !! pf = Some x -> 0 < pf_pincount x ->
  exists s', pframe_unpin pf s = Ok (tt, s') /\ pages_inv s' /\ refit s s' pf (with_pincount (pf_pincount x - 1) x).
Proof.
  intros K Hx Hp. destruct (in_use _ _ _ K Hx) as (E1 & E2 & _).
  unfold pframe_unpin. rewrite E1, assert_run by done. rewrite (mbind_run _ _ _ _ _ (load_pf_run _ _ _ Hx)), E2.
  rewrite assert_run by done. rewrite assert_run by zbool. rewrite (mbind_run _ _ _ _ _ (store_pf_run _ _ _ _ Hx)).
  set (s1 := upd_pframes _ s). assert (pframes s1 !! pf = Some (with_pincount (pf_pincount x - 1) x)) as Hx1
    by (apply lookup_insert_eq). rewrite (mbind_run _ _ _ _ _ (load_pf_run _ _ _ Hx1)). cbn [pf_pincount with_pincount].
  destruct (Z.eqb_spec (pf_pincount x - 1) 0) as [E|E].
  - assert (pf ∉ list_items (alloc_list s1)) as Hni.
    { change (alloc_list s1) with (alloc_list s). rewrite (alloc_member s pf x K Hx). lia. }
    rewrite (mbind_run _ _ _ _ _ (remove_link_pinned _ _ Hni)). eexists. split; [reflexivity|]. split; [|by split].
    destruct (linked_remove _ _ pf (p_pinned _ K)) as [Hl L]; [by exists x|].
    destruct (linked_tail _ _ pf (p_alloc _ K)) as [Hi L'].
    { intros (y & Hy & ?). simplify_eq. lia. }
    eapply (pages_inv_move s _ pf x (with_pincount (pf_pincount x - 1) x)); try done; cbn; try lia.
    + eapply linked_iff; [apply L'|]. intros q. eapply (on_frame_new s); [reflexivity|]. cbn. unfold id.
      destruct (decide (q = pf)) as [->|]; naive_solver lia.
    + unfold id. rewrite Hi, length_app. cbn. rewrite (p_nalloc _ K). lia.
    + eapply linked_iff; [apply L|]. intros q. eapply (on_frame_new s); [reflexivity|]. cbn. naive_solver lia.
    + rewrite (p_npinned _ K), Hl. unfold id. lia.
  - eexists. split; [reflexivity|]. split; [|by split]. eapply (pages_inv_move s _ pf x (with_pincount (pf_pincount x - 1) x)); try done; cbn; try lia.
    + eapply linked_iff; [apply (p_alloc _ K)|]. intros q. eapply (on_frame_new s); [reflexivity|]. cbn.
      destruct (decide (q = pf)) as [->|]; [|naive_solver]. split; [intros (y & Hy & ?)|]; naive_solver lia.
    + apply (p_nalloc _ K).
    + eapply linked_iff; [apply (p_pinned _ K)|]. intros q. eapply (on_frame_new s); [reflexivity|]. cbn.
      destruct (decide (q = pf)) as [->|]; [|naive_solver]. split; [naive_solver lia|]. intros _. exists x. by split.
    + apply (p_npinned _ K).
Qed.

(** ** References *)
Lemma mmo_ref_ok s o x : o <> 0 -> mmobjs s !! o = Some x -> 0 < mmo_refcount x ->
  mmo_ref o s = Ok (tt, upd_mmobjs (<[o := with_ref (mmo_refcount x + 1) x]>) s).
Proof.
  intros Ho Hx Hp. unfold mmo_ref.
  rewrite (mbind_run _ _ _ _ _ (load_mmo_run _ _ _ Hx)).
  destruct (mmo_ops x) eqn:Eo; [| |by apply vo_vref_ok]; unfold anon_ref, shadow_ref;
    (rewrite assert_run by (by apply negb_true_iff, Z.eqb_neq));
    rewrite (mbind_run _ _ _ _ _ (load_mmo_run _ _ _ Hx)), Eo;
    (rewrite assert_run by zbool); by rewrite (store_mmo_run _ _ _ _ Hx).
Qed.

(** ** pframe_alloc *)
(** The object after a page is added to it. *)
Definition grown (pf : Z) (y : mmobj) : mmobj :=
  with_res (list_insert_head pf) (with_nres (mmo_nrespages y + 1) (with_ref (mmo_refcount y + 1) y)).
(** [s'] is [s] with a new frame [pf] with record [x] and bytes [d]. *)
Record added (s s' : mms) (pf : Z) (x : pframe) (d : list Z) : Prop := {
  a_fresh : pframes s !! pf = None;
  a_frames : pframes s' = <[pf := x]> (pframes s);
  a_addr : memory s !! pf_addr x = None;
  a_mem : memory s' = <[pf_addr x := d]> (memory s);
  a_len : length d = Z.to_nat PAGE_SIZE;
  a_objs : exists y, mmobjs s !! pf_obj x = Some y /\ mmobjs s' = <[pf_obj x := grown pf y]> (mmobjs s);
  a_env : vm_areas s' = vm_areas s /\ vmm_procs s' = vmm_procs s /\ pagedirs s' = pagedirs s;
}.
Lemma added_inv s s' pf x d : pages_inv s -> added s s' pf x d -> pf <> 0 -> pf_addr x <> 0 -> pf_pincount x = 0 ->
  (forall q, ~ resident s (pf_obj x) (pf_pagenum x) q) ->
  pinned_list s' = pinned_list s -> npinned s' = npinned s ->
  alloc_list s' = list_insert_tail pf (alloc_list s) -> nallocated s' = nallocated s + 1 ->
  (exists c, pframe_hash s !! hash_page (pf_obj x) (pf_pagenum x) = Some c /\
     pframe_hash s' = <[hash_page (pf_obj x) (pf_pagenum x) := list_insert_head pf c]> (pframe_hash s)) ->
  pages_inv s'.
Proof.
  intros K A Hpf Hnz Hpin Hres E1 E2 E3 E4 (c & Hc & E5). destruct A as [A1 A2 A3 A4 A5 (y & A6 & A7) A8].
  assert (forall P, ~ on_frame s P pf) as Hno by (intros P (z & Hz & _); congruence).
  assert (forall q z, pframes s' !! q = Some z -> (q = pf /\ z = x) \/ (q <> pf /\ pframes s !! q = Some z)) as Hf.
  { intros q z. rewrite A2. intros [[<- <-]|[? ?]]%lookup_insert_Some; auto. }
  assert (forall q z, pframes s !! q = Some z -> pf_addr z <> pf_addr x) as Haddr.
  { intros q z Hz E. destruct (f_mem _ _ _ (p_frames _ K _ _ Hz)) as (? & ? & _). congruence. }
  assert (forall o', is_Some (mmobjs s !! o') -> is_Some (mmobjs s' !! o')) as Hlive.
  { intros o' Ho'. rewrite A7. destruct (decide (o' = pf_obj x)) as [->|].
    - by rewrite lookup_insert_eq.
    - by rewrite lookup_insert_ne. }
  split.
  - intros q z [[-> ->]|[Hq Hz]]%Hf.
    + split; [done|lia| |]. { destruct (Hlive (pf_obj x)) as [o Ho]; [by eexists|]. by exists o. }
      exists d. by rewrite A4, lookup_insert_eq.
    + destruct (p_frames _ K _ _ Hz) as [F1 F2 [o F3] (d' & F4 & F5)]. split; [done..| |].
      { destruct (Hlive (pf_obj z)) as [o' Ho]; [by eexists|]. by exists o'. }
      exists d'. rewrite A4, lookup_insert_ne; [done|]. intros E. by apply (Haddr _ _ Hz).
  - intros q q' z z' [[-> ->]|[Hq Hz]]%Hf [[-> ->]|[Hq' Hz']]%Hf E; [done| | |by apply (p_addr _ K q q' z z')].
    + by destruct (Haddr _ _ Hz').
    + by destruct (Haddr _ _ Hz).
  - intros q q' z z' [[-> ->]|[Hq Hz]]%Hf [[-> ->]|[Hq' Hz']]%Hf Ea Eb; [done| | |by apply (p_ident _ K q q' z z')].
    + destruct (Hres q'). by exists z'.
    + destruct (Hres q). by exists z.
  - rewrite E3. eapply linked_iff; [apply (linked_tail _ _ pf (p_alloc _ K)), Hno|]. intros q.
    eapply (on_frame_new s); [exact A2|]. cbn. destruct (decide (q = pf)) as [->|]; naive_solver.
  - rewrite E3, E4. destruct (linked_tail _ _ pf (p_alloc _ K)) as [-> _]; [apply Hno|].
    rewrite length_app, (p_nalloc _ K). cbn. lia.
  - rewrite E1. eapply linked_iff; [apply (p_pinned _ K)|]. intros q. eapply (on_frame_new s); [exact A2|]. cbn.
    rewrite Hpin. destruct (decide (q = pf)) as [->|]; [|naive_solver]. pose proof (Hno (fun x => 0 < pf_pincount x)). naive_solver lia.
  - rewrite E1, E2. apply (p_npinned _ K).
  - intros i Hi. rewrite E5. destruct (p_hash _ K i Hi) as (c' & Hc' & L).
    destruct (decide (i = hash_page (pf_obj x) (pf_pagenum x))) as [->|Hne].
    + rewrite lookup_insert_eq. simplify_eq. eexists. split; [done|].
      eapply linked_iff; [apply (linked_head _ _ pf L), Hno|]. intros q. eapply (on_frame_new s); [exact A2|]. cbn.
      destruct (decide (q = pf)) as [->|]; naive_solver.
    + rewrite lookup_insert_ne by done. exists c'. split; [done|]. eapply linked_iff; [apply L|]. intros q.
      eapply (on_frame_new s); [exact A2|]. cbn. destruct (decide (q = pf)) as [->|]; [|naive_solver].
      split; [by intros ?%Hno|naive_solver].
  - intros o z. rewrite A7. intros [[<- <-]|[Hne Hz]]%lookup_insert_Some.
    + destruct (p_objs _ K _ _ A6) as [O1 O2 O3]. destruct (linked_head _ _ pf O2) as [Hi L]; [apply Hno|].
      split; [done| |].
      * eapply linked_iff; [apply L|]. intros q. eapply (on_frame_new s); [exact A2|]. cbn.
        destruct (decide (q = pf)) as [->|]; naive_solver.
      * cbn. rewrite Hi, O3. cbn. lia.
    + destruct (p_objs _ K _ _ Hz) as [O1 O2 O3]. split; [done| |done].
      eapply linked_iff; [apply O2|]. intros q. eapply (on_frame_new s); [exact A2|]. cbn.
      destruct (decide (q = pf)) as [->|]; [|naive_solver]. split; [by intros ?%Hno|naive_solver].
  - rewrite A4, lookup_insert_ne by done. apply (p_null _ K).
Qed.

Lemma pframe_alloc_ok s o n y : pages_inv s -> mmobjs s !! o = Some y -> 0 < mmo_refcount y ->
  (forall q, ~ resident s o n q) ->
  (pframe_alloc o n s = Ok (0, s) /\ (slab_pick (pframes s) = None \/ page_pick (memory s) = None)) \/
  exists pf a d s', pframe_alloc o n s = Ok (pf, s') /\ pages_inv s' /\ pf <> 0 /\ page_pick (memory s) = Some (a, d) /\
    added s s' pf (mkPframe o n a false false 0) d.
Proof.
  intros K Hy Hp Hres. unfold pframe_alloc. rewrite (mbind_run (mget _) _ s _ s eq_refl).
  destruct (slab_pick (pframes s)) as [pf|] eqn:Es; [|left; by split; [|left]].
  rewrite (mbind_run (mget _) _ s _ s eq_refl).
  destruct (page_pick (memory s)) as [[a d]|] eqn:Ep; [|left; by split; [|right]].
  right. destruct (slab_fresh _ _ Es) as [Hpf Hf]. destruct (page_fresh _ _ _ Ep) as (Ha & Hm & Hd).
  destruct (p_hash _ K (hash_page o n) (hash_page_range o n)) as (c & Hc & _).
  rewrite (mbind_run (mput _) _ s _ _ eq_refl), (mbind_run (mput _) _ _ _ _ eq_refl), (mbind_run (mput _) _ _ _ _ eq_refl).
  set (s3 := upd_pframes _ _). unfold upd_chain at 1.
  assert (pframe_hash s3 !! hash_page o n = Some c) as Hc3 by done.
  set (s4 := upd_hash (<[hash_page o n := list_insert_head pf c]>) s3).
  rewrite (mbind_run _ _ s3 tt s4) by (unfold mbind_; by rewrite Hc3).
  pose proof (mmo_ref_ok s4 o y (o_ptr _ _ _ (p_objs _ K _ _ Hy)) Hy Hp) as Hr.
  rewrite (mbind_run _ _ _ _ _ Hr).
  rewrite (mbind_run _ _ _ _ _ (store_mmo_run _ o _ _ (lookup_insert_eq _ _ _))).
  rewrite (mbind_run _ _ _ _ _ (store_mmo_run _ o _ _ (lookup_insert_eq _ _ _))).
  eexists pf, a, d, _. split; [reflexivity|]. match goal with |- pages_inv ?t /\ _ => set (s' := t) end.
  assert (added s s' pf (mkPframe o n a false false 0) d) as A.
  { split; try done. exists y. split; [done|]. cbn. by rewrite !insert_insert_eq. }
  split; [|by split_and!]. apply (added_inv s s' pf _ d K A); try done.
  - cbn. unfold id. lia.
  - exists c. by split.
Qed.

(** ** Unmapping a page *)
(** The areas that map object [y] can be followed to their page tables. *)
Definition vmas_ok (s : mms) (y : mmobj) : Prop := forall v, v ∈ list_items (mmo_vmas y) ->
  exists vma p, vm_areas s !! v = Some vma /\ vmm_procs s !! vma_vmmap vma = Some p /\
    (p = 0 \/ is_Some (pagedirs s !! p)).
Definition mapped_ok (s : mms) (o : Z) : Prop := exists x y,
  mmobjs s !! o = Some x /\ mmobjs s !! mmobj_bottom_obj o x = Some y /\ vmas_ok s y.
(** Page [pn] of page directory [pd] shows page [n] of the bottom object, by
    area [v]. *)
Definition maps_page (s : mms) (v n pd pn : Z) : Prop := exists vma p,
  vm_areas s !! v = Some vma /\ vmm_procs s !! vma_vmmap vma = Some p /\ p <> 0 /\ pagedirs s !! p = Some pd /\
  vma_off vma <= n < vma_off vma + (vma_end vma - vma_start vma) /\ pn = vma_start vma + n - vma_off vma.
(** Areas lie in the user part and do not wrap around. *)
Definition area_ranges (s : mms) : Prop := forall v vma, vm_areas s !! v = Some vma ->
  0 <= vma_start vma <= vma_end vma /\ vma_end vma <= HIGH_PN /\ 0 <= vma_off vma /\
  vma_off vma + (vma_end vma - vma_start vma) < 2 ^ 32.

Lemma upd_hw_hw (s : mms) : upd_hw (fun _ => mm_hw s) s = s.
Proof. by destruct s. Qed.
Lemma unmap_loop_run l n s : (forall v, v ∈ l -> exists vma p, vm_areas s !! v = Some vma /\
    vmm_procs s !! vma_vmmap vma = Some p /\ (p = 0 \/ is_Some (pagedirs s !! p))) ->
  exists h, unmap_loop l n s = Ok (tt, upd_hw (fun _ => h) s).
Proof.
  revert s. induction l as [|v l IH]; intros s Hl.
  { exists (mm_hw s). by rewrite upd_hw_hw. }
  destruct (Hl v) as (vma & p & Hv & Hp & Hd); [by left|]. cbn [unmap_loop]. unfold mbind_ at 1. rewrite Hv. cbn [mthe mret_].
  assert (forall h, exists h', unmap_loop l n (upd_hw (fun _ => h) s) = Ok (tt, upd_hw (fun _ => h') s)) as Hgo.
  { intros h. destruct (IH (upd_hw (fun _ => h) s)) as [h' Hr]; [intros w Hw; apply Hl; by right|]. by exists h'. }
  assert (exists h', unmap_loop l n s = Ok (tt, upd_hw (fun _ => h') s)) as Hgo'.
  { specialize (Hgo (mm_hw s)). by rewrite upd_hw_hw in Hgo. }
  unfold mbind_ at 1. destruct ((vma_off vma <=? n) && _); [|exact Hgo'].
  unfold mbind_. rewrite Hp. cbn [mthe mret_]. destruct (Z.eqb_spec p 0) as [E|E]; [exact Hgo'|].
  destruct Hd as [?|[pd Hd]]; [done|]. rewrite Hd. cbn [mthe mret_ mput]. apply Hgo.
Qed.
Lemma u32_sum a b : 0 <= a -> 0 <= b -> a + b < 2 ^ 32 -> u32 (a + b) = a + b.
Proof. intros. apply u32_small. lia. Qed.
Lemma unmap_loop_entries l n s s' : area_ranges s -> unmap_loop l n s = Ok (tt, s') ->
  (forall v pd pn, v ∈ l -> maps_page s v n pd pn -> pt_entry (mm_hw s') pd pn = None) /\
  (forall pd pn, pt_entry (mm_hw s) pd pn = None -> pt_entry (mm_hw s') pd pn = None) /\
  (forall pd pn, (forall v, v ∈ l -> ~ maps_page s v n pd pn) ->
     pt_entry (mm_hw s') pd pn = pt_entry (mm_hw s) pd pn).
Proof.
  revert s. induction l as [|v l IH]; intros s Hr.
  { intros [= <-]. split; [by intros v pd pn []%elem_of_nil|done]. }
  cbn [unmap_loop]. rewrite mbind_Ok. intros (vma & s1 & E & Hb). destruct (vm_areas s !! v) as [w|] eqn:Hv; [|done].
  injection E as -> <-. apply mbind_Ok in Hb as ([] & s1 & E & Hb).
  destruct (Hr _ _ Hv) as (R1 & R2 & R3 & R4). pose proof high_pn_small as Hs.
  rewrite (u32_small (vma_end vma - vma_start vma)), u32_sum in E by lia.
  set (cond := (vma_off vma <=? n) && (n <? vma_off vma + (vma_end vma - vma_start vma))) in E.
  assert (vm_areas s1 = vm_areas s /\ vmm_procs s1 = vmm_procs s /\ pagedirs s1 = pagedirs s /\
    forall pd pn, (maps_page s v n pd pn -> pt_entry (mm_hw s1) pd pn = None) /\
     (~ maps_page s v n pd pn -> pt_entry (mm_hw s1) pd pn = pt_entry (mm_hw s) pd pn)) as (S1 & S2 & S3 & Hs1).
  { destruct cond eqn:Ec; unfold cond in Ec; revert Ec; zbool; intros Ec.
    2: { injection E as <-. split_and!; try done. intros pd pn. split; [|done]. intros (w & p & Hw & Hm). simplify_eq.
         destruct Hm as (_ & _ & _ & Hm & _). apply andb_false_iff in Ec as [?%Z.leb_gt|?%Z.ltb_ge]; lia. }
    apply mbind_Ok in E as (p & s2 & E & Hd). destruct (vmm_procs s !! vma_vmmap vma) as [p'|] eqn:Hp; [|done].
    injection E as -> <-. destruct (Z.eqb_spec p 0) as [E0|E0].
    { injection Hd as <-. split_and!; try done. intros pd pn. split; [|done]. intros (w & q & Hw & Hq & Hq0 & _). simplify_eq. }
    apply mbind_Ok in Hd as (pd0 & s2 & E & Hd). destruct (pagedirs s !! p) as [pd'|] eqn:Hpd; [|done]. injection E as -> <-.
    injection Hd as <-. split_and!; try done. intros pd pn. cbn.
    rewrite (u32_small (vma_start vma + n - vma_off vma)) by lia. rewrite pt_unmap_entries by lia. split.
    - intros (w & q & Hw & Hq & _ & Hpd' & _ & ->). simplify_eq. by rewrite decide_True.
    - intros Hm. rewrite decide_False; [done|]. intros [-> ->]. apply Hm. exists vma, p. split_and!; try done; lia. }
  assert (forall w pd pn, maps_page s1 w n pd pn <-> maps_page s w n pd pn) as Hm
    by (intros; unfold maps_page; by rewrite S1, S2, S3).
  destruct (IH s1) as (I1 & I2 & I3); [unfold area_ranges; by rewrite S1|done|]. split; [|split].
  - intros w pd pn [->|Hw]%elem_of_cons Hmp; [by apply I2, Hs1|]. apply (I1 w); [done|]. by apply Hm.
  - intros pd pn H0. apply I2. destruct (Hs1 pd pn) as [Ha Hb']. destruct (pt_entry (mm_hw s1) pd pn) eqn:E1; [|done].
    destruct (decide (pt_entry (mm_hw s1) pd pn = pt_entry (mm_hw s) pd pn)); [congruence|].
    exfalso. assert (~ ~ maps_page s v n pd pn) as Hnn by (intros ?%Hb'; congruence). apply Hnn. intros ?%Ha. congruence.
  - intros pd pn Hnm. rewrite I3; [apply Hs1, Hnm; by left|]. intros w Hw. rewrite Hm. apply Hnm. by right.
Qed.

Lemma remove_from_pts_run s pf x : pframes s !! pf = Some x -> mapped_ok s (pf_obj x) ->
  exists h, pframe_remove_from_pts pf s = Ok (tt, upd_hw (fun _ => h) s).
Proof.
  intros Hx (o & y & Ho & Hy & Hv). unfold pframe_remove_from_pts, mmobj_bottom_vmas.
  rewrite (mbind_run _ _ _ _ _ (load_pf_run _ _ _ Hx)).
  rewrite (mbind_run _ _ s (list_items (mmo_vmas y)) s).
  - by apply unmap_loop_run.
  - rewrite (mbind_run _ _ _ _ _ (load_mmo_run _ _ _ Ho)). by rewrite (mbind_run _ _ _ _ _ (load_mmo_run _ _ _ Hy)).
Qed.

(** ** pframe_free *)
Definition shrunk (pf : Z) (y : mmobj) : mmobj :=
  with_res (list_remove pf) (with_nres (mmo_nrespages y - 1) y).
(** [s'] is [s] without frame [pf], whose record was [x]. *)
Record removed (s s' : mms) (pf : Z) (x : pframe) : Prop := {
  d_frames : pframes s' = delete pf (pframes s);
  d_mem : memory s' = delete (pf_addr x) (memory s);
  d_objs : exists y, mmobjs s !! pf_obj x = Some y /\ mmobjs s' = <[pf_obj x := shrunk pf y]> (mmobjs s);
  d_env : vm_areas s' = vm_areas s /\ vmm_procs s' = vmm_procs s /\ pagedirs s' = pagedirs s;
  d_target : nfreepages_target s' = nfreepages_target s;
}.
Lemma removed_inv s s' pf x : pages_inv s -> removed s s' pf x -> pframes s !! pf = Some x -> pf_pincount x = 0 ->
  pinned_list s' = pinned_list s -> npinned s' = npinned s ->
  alloc_list s' = list_remove pf (alloc_list s) -> nallocated s' = nallocated s - 1 ->
  (exists c, pframe_hash s !! hash_page (pf_obj x) (pf_pagenum x) = Some c /\
     pframe_hash s' = <[hash_page (pf_obj x) (pf_pagenum x) := list_remove pf c]> (pframe_hash s)) ->
  pages_inv s'.
Proof.
  intros K D Hx Hpin E1 E2 E3 E4 (c & Hc & E5). destruct D as [D1 D2 (y & D3 & D4) D5].
  assert (forall q z, pframes s' !! q = Some z -> q <> pf /\ pframes s !! q = Some z) as Hf.
  { intros q z. rewrite D1. by intros [? ?]%lookup_delete_Some. }
  assert (forall P q, on_frame s' P q <-> q <> pf /\ on_frame s P q) as Hon
    by (intros; by apply on_frame_delete).
  assert (forall (P : pframe -> Prop) q, ~ P x -> on_frame s P q <-> on_frame s' P q) as Hother.
  { intros P q HP. rewrite Hon. split; [|naive_solver]. intros (z & Hz & ?). split; [|by exists z]. intros ->. naive_solver. }
  split.
  - intros q z [Hq Hz]%Hf. destruct (p_frames _ K _ _ Hz) as [F1 F2 [o F3] (d & F4 & F5)]. split; [done..| |].
    + rewrite D4. destruct (decide (pf_obj z = pf_obj x)) as [->|].
      * rewrite lookup_insert_eq. by eexists.
      * rewrite lookup_insert_ne by done. by exists o.
    + exists d. split; [|done]. rewrite D2, lookup_delete_ne; [done|]. intros E. apply Hq. by apply (p_addr _ K q pf z x).
  - intros q q' z z' [? ?]%Hf [? ?]%Hf. by apply (p_addr _ K).
  - intros q q' z z' [? ?]%Hf [? ?]%Hf. by apply (p_ident _ K).
  - rewrite E3. eapply linked_iff; [apply (linked_remove _ _ pf (p_alloc _ K)); by exists x|]. intros q. cbn. by rewrite Hon.
  - rewrite E3, E4, (p_nalloc _ K). destruct (linked_remove _ _ pf (p_alloc _ K)) as [-> _]; [by exists x|]. lia.
  - rewrite E1. eapply linked_iff; [apply (p_pinned _ K)|]. intros q. apply Hother. lia.
  - rewrite E1, E2. apply (p_npinned _ K).
  - intros i Hi. rewrite E5. destruct (p_hash _ K i Hi) as (c' & Hc' & L).
    destruct (decide (i = hash_page (pf_obj x) (pf_pagenum x))) as [->|Hne].
    + rewrite lookup_insert_eq. simplify_eq. eexists. split; [done|].
      eapply linked_iff; [apply (linked_remove _ _ pf L); by exists x|]. intros q. cbn. by rewrite Hon.
    + rewrite lookup_insert_ne by done. exists c'. split; [done|]. eapply linked_iff; [apply L|]. intros q. apply Hother. congruence.
  - intros o z. rewrite D4. intros [[<- <-]|[Hne Hz]]%lookup_insert_Some.
    + destruct (p_objs _ K _ _ D3) as [O1 O2 O3]. destruct (linked_remove _ _ pf O2) as [Hi L]; [by exists x|].
      split; [done| |].
      * eapply linked_iff; [apply L|]. intros q. cbn. by rewrite Hon.
      * cbn. rewrite O3, Hi. lia.
    + destruct (p_objs _ K _ _ Hz) as [O1 O2 O3]. split; [done| |done].
      eapply linked_iff; [apply O2|]. intros q. by apply Hother.
  - rewrite D2. apply lookup_delete_None. right. apply (p_null _ K).
Qed.

Lemma upd_chain_run s i f c : pframe_hash s !! i = Some c ->
  upd_chain i f s = Ok (tt, upd_hash (<[i := f c]>) s).
Proof. intros H. unfold upd_chain, mbind_. by rewrite H. Qed.

(** [pframe_free] up to the object's [put]. *)
Lemma pframe_free_run put s pf x : pages_inv s -> pframes s !! pf = Some x -> pf_pincount x = 0 ->
  pf_busy x = false -> mapped_ok s (pf_obj x) ->
  if slab_keeps then exists s', pframe_free_ put pf s = put (pf_obj x) s' /\ pages_inv s' /\ removed s s' pf x
  else pframe_free_ put pf s = Err FUndef.
Proof.
  intros K Hx Hp Hb Hm. destruct (in_use _ _ _ K Hx) as (_ & Hfree & _). unfold pframe_free_.
  rewrite (mbind_run _ _ _ _ _ (load_pf_run _ _ _ Hx)). unfold pframe_is_pinned. rewrite Hp, Hfree, Hb.
  rewrite !assert_run by done. cbv zeta. rewrite (mbind_run (mput _) _ s _ _ eq_refl).
  set (s1 := upd_hw (tlb_flush (pf_addr x)) s).
  destruct (remove_from_pts_run s1 pf x Hx Hm) as [h Hr]. rewrite (mbind_run _ _ _ _ _ Hr).
  set (s2 := upd_hw (fun _ => h) s1).
  destruct (p_hash _ K _ (hash_page_range (pf_obj x) (pf_pagenum x))) as (c & Hc & _).
  assert (pframe_hash s2 !! hash_page (pf_obj x) (pf_pagenum x) = Some c) as Hc2 by done.
  rewrite (mbind_run _ _ _ _ _ (upd_chain_run _ _ _ _ Hc2)). set (s3 := upd_hash _ s2).
  assert (pframes s3 !! pf = Some x) as Hx3 by done. rewrite (mbind_run _ _ _ _ _ (store_pf_run _ _ _ _ Hx3)).
  rewrite (mbind_run (mput _) _ _ _ _ eq_refl). set (s4 := upd_lists id id 0 (-1) _).
  assert (remove_link pf s4 = Ok (tt, upd_lists id (list_remove pf) 0 0 s4)) as Hl.
  { unfold remove_link. rewrite decide_True; [done|]. by apply (alloc_member s pf x K Hx). }
  rewrite (mbind_run _ _ _ _ _ Hl). rewrite !(mbind_run (mput _) _ _ _ _ eq_refl). set (s5 := upd_pframes (delete pf) _).
  destruct (f_obj _ _ _ (p_frames _ K _ _ Hx)) as [y Hy]. assert (mmobjs s5 !! pf_obj x = Some y) as Hy5 by done.
  rewrite (mbind_run _ _ _ _ _ (store_mmo_run _ _ _ _ Hy5)). set (s6 := upd_mmobjs _ s5). destruct slab_keeps; [|done].
  rewrite (mbind_run (mguard true _) _ s6 tt s6 eq_refl).
  assert (mmobjs s6 !! pf_obj x = Some (with_nres (mmo_nrespages y - 1) y)) as Hy6 by apply lookup_insert_eq.
  rewrite (mbind_run _ _ _ _ _ (store_mmo_run _ _ _ _ Hy6)). eexists. split; [reflexivity|].
  match goal with |- pages_inv ?t /\ _ => set (s' := t) end.
  assert (removed s s' pf x) as D.
  { split; [|done| |done|done]; cbn.
    - by rewrite delete_insert_eq.
    - exists y. split; [done|]. by rewrite insert_insert_eq. }
  split; [|done]. apply (removed_inv s s' pf x K D Hx Hp); try done.
  - cbn. unfold id. lia.
  - cbn. unfold id. lia.
  - by exists c.
Qed.

(** ** The hash table against a search through all frames *)
Definition find_frame (s : mms) (o n : Z) : Z :=
  match base.filter (fun e : Z * pframe => pf_obj e.2 = o /\ pf_pagenum e.2 = n) (map_to_list (pframes s)) with
  | [] => 0
  | e :: _ => e.1
  end.
Lemma find_frame_spec s o n : pages_inv s ->
  (find_frame s o n = 0 /\ forall q, ~ resident s o n q) \/ resident s o n (find_frame s o n).
Proof.
  intros K. unfold find_frame. destruct (base.filter _ _) as [|[q x] l] eqn:E.
  - left. split; [done|]. intros q (x & Hx & Ho). apply elem_of_map_to_list in Hx.
    assert ((q, x) ∈ @nil (Z * pframe)) as []%elem_of_nil. rewrite <- E. by apply list_elem_of_filter.
  - right. assert ((q, x) ∈ (q, x) :: l) as H by by left. rewrite <- E in H. apply list_elem_of_filter in H as [Ho Hx].
    apply elem_of_map_to_list in Hx. by exists x.
Qed.

(** C36: looking a page up through the hash table returns the same frame, or
    NULL, as a search through all frames, and changes at most the order of
    the pages that can be paged out. *)
Theorem pframe_get_resident_correct s o n : pages_inv s ->
  exists s', pframe_get_resident o n s = Ok (find_frame s o n, s') /\ quiet s s' /\ pages_inv s'.
Proof.
  intros K. destruct (pframe_get_resident_ok s o n K) as (pf & s' & Hr & Q & Hc). exists s'.
  split; [|split; [done|by apply Q]]. rewrite Hr. repeat f_equal.
  destruct Hc as [[-> Hn]|[_ Hp]], (find_frame_spec s o n K) as [[-> Hn']|Hf]; try done.
  - by destruct (Hn (find_frame s o n)).
  - by destruct (Hn' pf).
  - by apply (resident_unique s o n).
Qed.
End Inv.
