(* ===== verification/MmPut.v ===== *)
(** * References to memory objects: [ref] and [put]

    [owned s G R]: the references to memory objects are exactly those of the
    list [R], those of the resident pages, and two of each attached shadow
    object, to the object it shadows and to the bottom object of its chain;
    [G] gives these two.  Every anonymous or shadow object is referenced.
    [put] gives one reference of [R] back and keeps this: an object goes with
    its pages when its last reference does, and with it what only it
    referenced. *)
From stdpp Require Import base gmap list fin_maps fin_sets.
From Stdlib Require Import ZArith Lia.
From S2P Require Import Prelude KEnv Vmmap MmObj MmInv.
Open Scope Z_scope.
Open Scope c_scope.

(** ** Counting references *)
Definition occ (o : Z) (l : list Z) : Z := Z.of_nat (length (base.filter (fun x => x = o) l)).
Definition outs (G : gmap Z (Z * Z)) : list Z := flat_map (fun e => [e.2.1; e.2.2]) (map_to_list G).

Lemma occ_app o l l' : occ o (l ++ l') = occ o l + occ o l'.
Proof. unfold occ. rewrite filter_app, length_app. lia. Qed.
Lemma occ_cons o x l : occ o (x :: l) = (if decide (x = o) then 1 else 0) + occ o l.
Proof. unfold occ. rewrite filter_cons. case_decide; cbn; lia. Qed.
Lemma occ_nonneg o l : 0 <= occ o l.
Proof. unfold occ. lia. Qed.
Lemma occ_perm o l l' : Permutation l l' -> occ o l = occ o l'.
Proof. unfold occ. by intros ->. Qed.
Lemma occ_zero o l : occ o l = 0 <-> o ∉ l.
Proof.
  induction l as [|x l IH]; [split; [intros _ []%elem_of_nil|done]|]. rewrite occ_cons, elem_of_cons.
  pose proof (occ_nonneg o l). case_decide; split; intros H'; [lia|naive_solver| |].
  - intros [->|?]; [done|]. apply IH; [lia|done].
  - rewrite (proj2 IH); [lia|naive_solver].
Qed.
Lemma elem_of_outs o G : o ∈ outs G <-> exists p a b, G !! p = Some (a, b) /\ (o = a \/ o = b).
Proof.
  unfold outs. rewrite list_elem_of_In, in_flat_map. setoid_rewrite <- list_elem_of_In. split.
  - intros ([p [a b]] & H & Ho). apply elem_of_map_to_list in H. exists p, a, b. split; [done|]. set_solver.
  - intros (p & a & b & H & Ho). exists (p, (a, b)). split; [by apply elem_of_map_to_list|]. set_solver.
Qed.
Lemma outs_delete G o a b : G !! o = Some (a, b) -> Permutation (outs G) (a :: b :: outs (delete o G)).
Proof. intros H. unfold outs. by rewrite <- (map_to_list_delete G o (a, b) H). Qed.

(** ** Chains of shadow objects *)
Inductive chain (G : gmap Z (Z * Z)) : Z -> list Z -> Prop :=
| chain_bottom o : G !! o = None -> chain G o [o]
| chain_shadow o a b l : G !! o = Some (a, b) -> chain G a l -> chain G o (o :: l).

Definition ranked (G : gmap Z (Z * Z)) : Prop :=
  exists rk : Z -> nat, forall o a b, G !! o = Some (a, b) -> (rk a < rk o)%nat.
Lemma ranked_sub G G' : G' ⊆ G -> ranked G -> ranked G'.
Proof. intros H [rk Hrk]. exists rk. intros o a b Ho. apply (Hrk o a b). by apply (lookup_weaken _ _ _ _ Ho). Qed.
Lemma chain_exists G o : ranked G -> exists l, chain G o l.
Proof.
  intros [rk Hrk]. remember (rk o) as n eqn:En. revert o En. induction n as [n IH] using lt_wf_ind. intros o ->.
  destruct (G !! o) as [[a b]|] eqn:Ho; [|eexists; by constructor].
  destruct (IH (rk a) (Hrk _ _ _ Ho) a eq_refl) as [l Hl]. exists (o :: l). by eapply chain_shadow.
Qed.
Lemma chain_sub G G' o l l' : G' ⊆ G -> chain G o l -> chain G' o l' -> (length l' <= length l)%nat.
Proof.
  intros Hsub Hl Hl'. revert l Hl. induction Hl' as [o Ho|o a b l' Ho Hl' IH]; intros l Hl.
  - destruct Hl; cbn; lia.
  - apply (lookup_weaken _ _ _ _ Ho) in Hsub. destruct Hl as [o E|o a' b' l E Hl]; [congruence|].
    rewrite E in Hsub. simplify_eq. specialize (IH l Hl). cbn. lia.
Qed.
Lemma chain_sub_elem G G' o l l' p : G' ⊆ G -> chain G o l -> chain G' o l' -> p ∈ l' -> p ∈ l.
Proof.
  intros Hs Hl. revert l'. induction Hl as [o Ho|o a b l Ho Hl IH]; intros l' Hl' Hp; destruct Hl' as [o' Ho'|o' a' b' l' Ho' Hl'].
  - done.
  - apply (lookup_weaken _ _ _ _ Ho') in Hs. congruence.
  - apply list_elem_of_singleton in Hp as ->. by left.
  - pose proof (lookup_weaken _ _ _ _ Ho' Hs) as E. rewrite Ho in E. injection E as <- <-.
    apply elem_of_cons in Hp as [->|Hp]; [by left|right; by apply (IH l')].
Qed.
Lemma chain_has_bottom G a l b : (forall o a b, G !! o = Some (a, b) -> match G !! a with Some (_, b') => b' = b | None => a = b end) ->
  chain G a l -> match G !! a with Some (_, b') => b' = b | None => a = b end -> b ∈ l.
Proof.
  intros He Hl. induction Hl as [o Ho|o a b' l Ho Hl IH]; intros Hb; rewrite Ho in Hb.
  - subst. by left.
  - subst b'. right. apply IH. by apply (He o).
Qed.
Lemma chain_nodup G o l : ranked G -> chain G o l -> NoDup l.
Proof.
  intros [rk Hrk] Hl. assert (NoDup l /\ forall p, p ∈ l -> (rk p <= rk o)%nat) as [? _]; [|done].
  induction Hl as [o Ho|o a b l Ho Hl [IH1 IH2]].
  - split; [apply NoDup_singleton|]. by intros p ->%list_elem_of_singleton.
  - pose proof (Hrk _ _ _ Ho). split.
    + constructor; [|done]. intros ?%IH2. lia.
    + intros p [->|?%IH2]%elem_of_cons; lia.
Qed.

Section Put.
Context `{KL : KList} `{SL : Slab} `{KG : KGeometry} `{MU : !Mmu} `{PA : !PageAlloc} `{MH : !MmHeader}.
Context `{PU : !PtUnmap} `{VO : !VnodeObjs} `{ER : KErrno}.

(** ** Ownership *)
(** An object that is not a shadow object, or an attached one. *)
Definition settled (s : mms) (G : gmap Z (Z * Z)) (o : Z) : Prop := exists y,
  mmobjs s !! o = Some y /\ (mmo_ops y <> shadow_mmobj_ops \/ is_Some (G !! o)).

Record edge_ok (s : mms) (G : gmap Z (Z * Z)) (o a b : Z) : Prop := {
  g_obj : exists y, mmobjs s !! o = Some y /\ mmo_ops y = shadow_mmobj_ops /\ mmo_shadowed y = a /\ mmo_bottom_obj y = b;
  g_next : settled s G a;
  g_bottom : exists z, mmobjs s !! b = Some z /\ mmo_ops z <> shadow_mmobj_ops;
  g_same : match G !! a with Some (_, b') => b' = b | None => a = b end;
}.
Definition refs_ok (o : Z) (y : mmobj) (l : list Z) : Prop :=
  match mmo_ops y with
  | vnode_mmobj_ops => mmo_nrespages y + occ o l < mmo_refcount y
  | _ => mmo_refcount y = mmo_nrespages y + occ o l /\ 0 < occ o l
  end.
Record owned (s : mms) (G : gmap Z (Z * Z)) (R : list Z) : Prop := {
  w_inv : pages_inv s;
  w_busy pf x : pframes s !! pf = Some x -> pf_busy x = false;
  w_pins pf x y : pframes s !! pf = Some x -> mmobjs s !! pf_obj x = Some y -> mmo_ops y <> vnode_mmobj_ops ->
    pf_pincount x <= 1;
  w_settled pf x : pframes s !! pf = Some x -> settled s G (pf_obj x);
  w_plain o y : mmobjs s !! o = Some y -> mmo_ops y <> shadow_mmobj_ops -> mmo_shadowed y = 0 /\ vmas_ok s y;
  w_edges o a b : G !! o = Some (a, b) -> edge_ok s G o a b;
  w_rank : ranked G;
  w_live o : o ∈ R -> is_Some (mmobjs s !! o);
  w_refs o y : mmobjs s !! o = Some y -> refs_ok o y (R ++ outs G);
}.

Lemma settled_mapped s G R o : owned s G R -> settled s G o -> mapped_ok s o.
Proof.
  intros W (y & Hy & Hs). destruct (decide (mmo_ops y = shadow_mmobj_ops)) as [E|E].
  - destruct Hs as [?|[[a b] Hg]]; [done|]. destruct (w_edges _ _ _ W _ _ _ Hg) as [(y' & Hy' & _ & Ha & Hb) (z' & Hz' & _) (z & Hz & Hk) _].
    simplify_eq. destruct (w_plain _ _ _ W _ _ Hz Hk) as [_ Hv]. exists y, z. split_and!; try done.
    rewrite bottom_shadow; [done|]. apply (o_ptr _ _ _ (p_objs _ (w_inv _ _ _ W) _ _ Hz')).
  - destruct (w_plain _ _ _ W _ _ Hy E) as [H0 Hv]. exists y, y. by rewrite bottom_plain.
Qed.

(** Only reference counts change. *)
Definition same_shape (y' y : mmobj) : Prop := y' = with_ref (mmo_refcount y') y.
Lemma same_shape_refl y : same_shape y y.
Proof. by destruct y. Qed.
Lemma same_shape_trans x y z : same_shape x y -> same_shape y z -> same_shape x z.
Proof. unfold same_shape. intros H1 H2. rewrite H1 at 1. rewrite H2. done. Qed.
Lemma shape_fields y y' : same_shape y' y -> mmo_ops y' = mmo_ops y /\ mmo_nrespages y' = mmo_nrespages y /\
  mmo_respages y' = mmo_respages y /\ mmo_shadowed y' = mmo_shadowed y /\ mmo_bottom_obj y' = mmo_bottom_obj y /\
  mmo_vmas y' = mmo_vmas y.
Proof. intros ->. done. Qed.
Definition same_kind (y' y : mmobj) : Prop :=
  mmo_ops y' = mmo_ops y /\ mmo_shadowed y' = mmo_shadowed y /\ mmo_bottom_obj y' = mmo_bottom_obj y /\
  mmo_vmas y' = mmo_vmas y.
Definition same_env (s s' : mms) : Prop :=
  vm_areas s' = vm_areas s /\ vmm_procs s' = vmm_procs s /\ pagedirs s' = pagedirs s.

(** Ownership in a state with the same objects and no new or busier pages. *)
Record tamer (s s' : mms) : Prop := {
  t_objs p : option_relation same_kind (fun _ => False) (fun _ => False) (mmobjs s' !! p) (mmobjs s !! p);
  t_frames pf x : pframes s' !! pf = Some x -> exists x0, pframes s !! pf = Some x0 /\
    pf_obj x = pf_obj x0 /\ pf_busy x = pf_busy x0 /\ pf_pincount x <= pf_pincount x0;
  t_env : same_env s s';
}.
Lemma settled_tamer s s' G o : tamer s s' -> settled s G o -> settled s' G o.
Proof.
  intros T (y & Hy & Hs). destruct (option_rel_Some' _ _ _ _ (t_objs _ _ T o) Hy) as (y' & Hy' & E & _).
  exists y'. split; [done|]. by rewrite E.
Qed.
Lemma vmas_ok_env s s' y y' : same_env s s' -> mmo_vmas y' = mmo_vmas y -> vmas_ok s y -> vmas_ok s' y'.
Proof. intros (E1 & E2 & E3) E. unfold vmas_ok. by rewrite E, E1, E2, E3. Qed.
Lemma edge_ok_tamer s s' G o a b : tamer s s' -> edge_ok s G o a b -> edge_ok s' G o a b.
Proof.
  intros T [(y & Hy & K1 & K2 & K3) Hn (z & Hz & Kz) Hm]. split; [|by apply (settled_tamer s)| |done].
  - destruct (option_rel_Some' _ _ _ _ (t_objs _ _ T o) Hy) as (y' & Hy' & E1 & E2 & E3 & _).
    exists y'. rewrite E1, E2, E3. done.
  - destruct (option_rel_Some' _ _ _ _ (t_objs _ _ T b) Hz) as (z' & Hz' & E1 & _). exists z'. by rewrite E1.
Qed.
Lemma owned_tamer s s' G R R' : owned s G R -> tamer s s' -> pages_inv s' ->
  (forall o, o ∈ R' -> is_Some (mmobjs s !! o)) ->
  (forall o y, mmobjs s' !! o = Some y -> refs_ok o y (R' ++ outs G)) -> owned s' G R'.
Proof.
  intros W T K Hl Hr. split; try done.
  - intros pf x Hx. destruct (t_frames _ _ T _ _ Hx) as (x0 & H0 & _ & -> & _). apply (w_busy _ _ _ W _ _ H0).
  - intros pf x y Hx Hy Hk. destruct (t_frames _ _ T _ _ Hx) as (x0 & H0 & E & _ & Hp). rewrite E in Hy.
    destruct (option_rel_Some _ _ _ _ (t_objs _ _ T _) Hy) as (y0 & Hy0 & E1 & _). rewrite E1 in Hk.
    pose proof (w_pins _ _ _ W _ _ _ H0 Hy0 Hk). lia.
  - intros pf x Hx. destruct (t_frames _ _ T _ _ Hx) as (x0 & H0 & -> & _). apply (settled_tamer s); [done|].
    apply (w_settled _ _ _ W _ _ H0).
  - intros o y Hy Hk. destruct (option_rel_Some _ _ _ _ (t_objs _ _ T _) Hy) as (y0 & Hy0 & E1 & E2 & _ & E3).
    rewrite E1 in Hk. destruct (w_plain _ _ _ W _ _ Hy0 Hk) as [H0 Hv]. split; [congruence|].
    apply (vmas_ok_env s s' y0); [apply (t_env _ _ T)|done|done].
  - intros o a b Ho. apply (edge_ok_tamer s); [done|]. by apply (w_edges _ _ _ W).
  - apply (w_rank _ _ _ W).
  - intros o Ho. destruct (Hl o Ho) as [y Hy]. destruct (option_rel_Some' _ _ _ _ (t_objs _ _ T _) Hy) as (y' & -> & _). done.
Qed.
Lemma kind_refl y : same_kind y y.
Proof. done. Qed.
Lemma tamer_obj s o y y' : mmobjs s !! o = Some y -> same_kind y' y -> tamer s (upd_mmobjs (<[o := y']>) s).
Proof.
  intros Hy Hk. split; [|intros pf x Hx; by exists x|done]. intros p. cbn. destruct (decide (p = o)) as [->|].
  - by rewrite lookup_insert_eq, Hy.
  - rewrite lookup_insert_ne by done. by apply option_rel_refl, kind_refl.
Qed.

(** One reference of [o] less. *)
Definition deref (o : Z) (y : mmobj) (s : mms) : mms :=
  upd_mmobjs (<[o := with_ref (mmo_refcount y - 1) y]>) s.
Lemma refs_drop o y p l : refs_ok p y (o :: l) -> p <> o -> refs_ok p y l.
Proof. unfold refs_ok. rewrite occ_cons. intros H Hne. by rewrite decide_False in H by done. Qed.
Lemma owned_deref s G R o y : owned s G (o :: R) -> mmobjs s !! o = Some y ->
  (mmo_ops y = vnode_mmobj_ops \/ 0 < occ o (R ++ outs G)) -> owned (deref o y s) G R.
Proof.
  intros W Hy Hd. apply (owned_tamer s _ G (o :: R)); [done|by apply (tamer_obj s o y)| | |].
  - eapply pages_inv_eq; [by apply (pages_eq_obj s o y)|apply (w_inv _ _ _ W)].
  - intros p Hp. apply (w_live _ _ _ W). by right.
  - intros p z. cbn. intros [[<- <-]|[Hne Hz]]%lookup_insert_Some.
    + pose proof (w_refs _ _ _ W _ _ Hy) as Hr. unfold refs_ok in *. cbn in *. rewrite occ_cons, decide_True in Hr by done.
      destruct (mmo_ops y), Hd; try done; lia.
    + apply (w_refs _ _ _ W) in Hz. by apply (refs_drop o).
Qed.

(** What [put] does when other references are left. *)
Lemma put_shared n s G R o y : owned s G (o :: R) -> mmobjs s !! o = Some y ->
  (mmo_ops y = vnode_mmobj_ops \/ 0 < occ o (R ++ outs G)) -> mmo_put_ (S n) o s = Ok (tt, deref o y s).
Proof.
  intros W Hy Hd. cbn [mmo_put_]. rewrite (mbind_run _ _ _ _ _ (load_mmo_run _ _ _ Hy)).
  pose proof (o_ptr _ _ _ (p_objs _ (w_inv _ _ _ W) _ _ Hy)) as Ho. pose proof (w_refs _ _ _ W _ _ Hy) as Hr.
  pose proof (o_nres _ _ _ (p_objs _ (w_inv _ _ _ W) _ _ Hy)) as Hn.
  unfold refs_ok in Hr. cbn in Hr. rewrite occ_cons, decide_True in Hr by done. pose proof (occ_nonneg o (R ++ outs G)).
  destruct (mmo_ops y) eqn:Ek.
  3: { apply vo_vput_ok; [done|lia]. }
  all: assert (0 < mmo_refcount y) by lia; unfold anon_put_, shadow_put_; (rewrite assert_run by (by apply negb_true_iff, Z.eqb_neq));
    rewrite (mbind_run _ _ _ _ _ (load_mmo_run _ _ _ Hy)), Ek; (rewrite assert_run by zbool);
    (destruct Hd as [?|Hd]; [done|]); rewrite (proj2 (Z.eqb_neq _ _)) by lia; by rewrite (store_mmo_run _ _ _ _ Hy).
Qed.

(** ** Freeing pages

    [pframe_free] reads the frame after it is freed: where freed memory cannot
    be read ([slab_keeps] is false), freeing a page is undefined. *)

(** [s'] is [s] without frame [pf] and its reference to the object. *)
Record freed (s s' : mms) (pf : Z) (x : pframe) (y : mmobj) : Prop := {
  z_frames : pframes s' = delete pf (pframes s);
  z_mem : memory s' = delete (pf_addr x) (memory s);
  z_objs : mmobjs s' = <[pf_obj x := with_ref (mmo_refcount y - 1) (shrunk pf y)]> (mmobjs s);
  z_env : same_env s s';
  z_target : nfreepages_target s' = nfreepages_target s;
}.
Lemma removed_tamer s s' pf x : removed s s' pf x -> tamer s s'.
Proof.
  intros [D1 D2 (y & D3 & D4) D5]. split; [|intros q z|done].
  - intros p. rewrite D4. destruct (decide (p = pf_obj x)) as [->|].
    + by rewrite lookup_insert_eq, D3.
    + rewrite lookup_insert_ne by done. by apply option_rel_refl, kind_refl.
  - rewrite D1. intros [_ Hz]%lookup_delete_Some. by exists z.
Qed.
Lemma removed_owned s s' G R pf x : owned s G R -> pframes s !! pf = Some x -> removed s s' pf x ->
  pages_inv s' -> owned s' G (pf_obj x :: R).
Proof.
  intros W Hx D K. apply (owned_tamer s _ G R); [done|by apply removed_tamer with pf x|done| |].
  - intros p [->|Hp]%elem_of_cons; [|by apply (w_live _ _ _ W)]. destruct (w_settled _ _ _ W _ _ Hx) as (y & -> & _). done.
  - destruct D as [_ _ (y & D3 & ->) _]. intros p z [[<- <-]|[Hne Hz]]%lookup_insert_Some.
    + pose proof (w_refs _ _ _ W _ _ D3) as Hr. unfold refs_ok in *. cbn in *. rewrite occ_cons, decide_True by done.
      destruct (mmo_ops y); lia.
    + apply (w_refs _ _ _ W) in Hz. unfold refs_ok in *. cbn. by rewrite occ_cons, decide_False.
Qed.
Lemma free_page_ok put s G R pf x y : slab_keeps = true -> (forall o s, exists n, put o s = mmo_put_ (S n) o s) ->
  owned s G R -> pframes s !! pf = Some x -> pf_pincount x = 0 -> mmobjs s !! pf_obj x = Some y ->
  exists s', pframe_free_ put pf s = Ok (tt, s') /\ owned s' G R /\ freed s s' pf x y.
Proof.
  intros keeps Hput W Hx Hp Hy. pose proof (pframe_free_run put s pf x (w_inv _ _ _ W) Hx Hp (w_busy _ _ _ W _ _ Hx)
    (settled_mapped s G R _ W (w_settled _ _ _ W _ _ Hx))) as H. rewrite keeps in H.
  destruct H as (s1 & Hr & K1 & D). pose proof (removed_owned s s1 G R pf x W Hx D K1) as W1.
  destruct D as [D1 D2 (y' & D3 & D4) D5]. simplify_eq.
  assert (mmobjs s1 !! pf_obj x = Some (shrunk pf y)) as Hy1 by (rewrite D4; apply lookup_insert_eq).
  assert (mmo_ops (shrunk pf y) = vnode_mmobj_ops \/ 0 < occ (pf_obj x) (R ++ outs G)) as Hd.
  { pose proof (w_refs _ _ _ W _ _ Hy) as Hr'. unfold refs_ok in Hr'. cbn. destruct (mmo_ops y); auto; naive_solver. }
  destruct (Hput (pf_obj x) s1) as [n Hn].
  exists (deref (pf_obj x) (shrunk pf y) s1). rewrite Hr, Hn, (put_shared n s1 G R _ _ W1 Hy1 Hd). split; [done|].
  split; [by apply owned_deref|]. split; [done|done| |done|done]. cbn. by rewrite D4, insert_insert_eq.
Qed.

Lemma free_page_undef put s G R pf x : slab_keeps = false -> owned s G R -> pframes s !! pf = Some x -> pf_pincount x = 0 ->
  pframe_free_ put pf s = Err FUndef.
Proof.
  intros Hk W Hx Hp. pose proof (pframe_free_run put s pf x (w_inv _ _ _ W) Hx Hp (w_busy _ _ _ W _ _ Hx)
    (settled_mapped s G R _ W (w_settled _ _ _ W _ _ Hx))) as H. by rewrite Hk in H.
Qed.

(** The loop of [anon_put] and [shadow_put]: the object loses its pages. *)
Record stripped (s s' : mms) (o : Z) (y : mmobj) : Prop := {
  k_frames pf x : pframes s' !! pf = Some x <-> pframes s !! pf = Some x /\ pf_obj x <> o;
  k_mem pf x : pframes s' !! pf = Some x -> memory s' !! pf_addr x = memory s !! pf_addr x;
  k_objs : exists y', mmobjs s' = <[o := y']> (mmobjs s) /\ same_kind y' y;
  k_env : same_env s s';
}.
Lemma unpin_owned s G R pf x y : owned s G R -> pframes s !! pf = Some x -> mmobjs s !! pf_obj x = Some y ->
  mmo_ops y <> vnode_mmobj_ops ->
  exists s', (if pframe_is_pinned x then pframe_unpin pf else mret_ tt) s = Ok (tt, s') /\ owned s' G R /\
    refit s s' pf (with_pincount 0 x).
Proof.
  intros W Hx Hy Hk. pose proof (w_pins _ _ _ W _ _ _ Hx Hy Hk) as Hp. pose proof (f_pins _ _ _ (p_frames _ (w_inv _ _ _ W) _ _ Hx)) as Hp'.
  unfold pframe_is_pinned. destruct (Z.ltb_spec 0 (pf_pincount x)).
  - destruct (pframe_unpin_ok s pf x (w_inv _ _ _ W) Hx) as (s' & Hr & K & F); [done|]. exists s'. split; [done|].
    replace (pf_pincount x - 1) with 0 in F by lia. split; [|done]. destruct F as [F1 F2 F3 F4].
    apply (owned_tamer s _ G R); [done| |done|apply (w_live _ _ _ W)|rewrite F2; apply (w_refs _ _ _ W)].
    split; [|intros q z|done].
    + intros p. rewrite F2. by apply option_rel_refl, kind_refl.
    + rewrite F1. intros [[<- <-]|[Hne Hz]]%lookup_insert_Some; [|by exists z]. exists x. cbn. split_and!; done || lia.
  - exists s. split; [done|]. split; [done|]. split; try done. replace (with_pincount 0 x) with x.
    + by rewrite insert_id.
    + assert (pf_pincount x = 0) as E by lia. rewrite <- E. by destruct x.
Qed.
Lemma uncache_ok n l s G R o y : owned s G R -> mmobjs s !! o = Some y -> mmo_ops y <> vnode_mmobj_ops ->
  list_items (mmo_respages y) = l -> slab_keeps = true \/ l = [] ->
  exists s', uncache_loop (mmo_put_ (S n)) l s = Ok (tt, s') /\ owned s' G R /\ stripped s s' o y.
Proof.
  revert s y. induction l as [|pf l IH]; intros s y W Hy Hk Hl Hkp.
  { exists s. split; [done|]. split; [done|]. destruct (p_objs _ (w_inv _ _ _ W) _ _ Hy) as [_ [_ O2] _].
    split; [|done| |done].
    - intros q z. split; [|naive_solver]. intros Hz. split; [done|]. intros Ho. assert (q ∈ list_items (mmo_respages y)) as Hq.
      { apply O2. by exists z. } rewrite Hl in Hq. by apply elem_of_nil in Hq.
    - exists y. by rewrite insert_id. }
  destruct (p_objs _ (w_inv _ _ _ W) _ _ Hy) as [_ [O1 O2] _]. destruct (proj1 (O2 pf)) as (x & Hx & Ho).
  { rewrite Hl. by left. }
  assert (slab_keeps = true) as keeps by (by destruct Hkp).
  subst o. cbn [uncache_loop]. rewrite (mbind_run _ _ _ _ _ (load_pf_run _ _ _ Hx)).
  destruct (unpin_owned s G R pf x y W Hx Hy Hk) as (s1 & Hr1 & W1 & [F1 F2 F3 F4]). rewrite (mbind_run _ _ _ _ _ Hr1).
  assert (pframes s1 !! pf = Some (with_pincount 0 x)) as Hx1 by (rewrite F1; apply lookup_insert_eq).
  assert (mmobjs s1 !! pf_obj (with_pincount 0 x) = Some y) as Hy1 by (by rewrite F2).
  destruct (free_page_ok (mmo_put_ (S n)) s1 G R pf _ y keeps ltac:(eauto) W1 Hx1 eq_refl Hy1) as (s2 & Hr2 & W2 & [Z1 Z2 Z3 Z4]). rewrite (mbind_run _ _ _ _ _ Hr2).
  cbn [pf_obj pf_addr with_pincount] in *. set (y2 := with_ref _ (shrunk pf y)) in Z3.
  assert (mmobjs s2 !! pf_obj x = Some y2) as Hy2 by (rewrite Z3; apply lookup_insert_eq).
  assert (pf ∉ l) as Hni by (rewrite Hl in O1; by apply NoDup_cons in O1 as []).
  destruct (IH s2 y2 W2 Hy2 Hk) as (s3 & Hr3 & W3 & [K1 K2 (y3 & K3 & K3') K4]).
  { cbn. rewrite (items_remove pf _ [] l); done. } { by left. }
  exists s3. split; [done|]. split; [done|].
  assert (forall q z, pframes s2 !! q = Some z <-> q <> pf /\ pframes s !! q = Some z) as Hf.
  { intros q z. rewrite Z1, lookup_delete_Some, F1. split; intros [Hne Hz].
    - by rewrite lookup_insert_ne in Hz.
    - by rewrite lookup_insert_ne. }
  split.
  - intros q z. rewrite K1, Hf. split; [naive_solver|]. intros [Hz Hne]. split; [|done]. split; [|done]. intros ->. congruence.
  - intros q z Hz. rewrite (K2 _ _ Hz), Z2, F3. apply K1 in Hz as [Hz _]. apply Hf in Hz as [Hne Hz].
    apply lookup_delete_ne. intros E. apply Hne. symmetry. by apply (p_addr _ (w_inv _ _ _ W) _ _ _ _ Hx Hz).
  - exists y3. rewrite K3, Z3, F2, insert_insert_eq. done.
  - destruct F4 as (? & ? & ?), Z4 as (? & ? & ?), K4 as (? & ? & ?). split_and!; congruence.
Qed.

Lemma uncache_undef put l pf s G R o y : slab_keeps = false -> owned s G R -> mmobjs s !! o = Some y -> mmo_ops y <> vnode_mmobj_ops ->
  list_items (mmo_respages y) = pf :: l -> uncache_loop put (pf :: l) s = Err FUndef /\ exists x, pframes s !! pf = Some x /\ pf_obj x = o.
Proof.
  intros Hkp W Hy Hk Hl. destruct (p_objs _ (w_inv _ _ _ W) _ _ Hy) as [_ [_ O2] _]. destruct (proj1 (O2 pf)) as (x & Hx & Ho).
  { rewrite Hl. by left. }
  split; [|by exists x]. subst o. cbn [uncache_loop]. rewrite (mbind_run _ _ _ _ _ (load_pf_run _ _ _ Hx)).
  destruct (unpin_owned s G R pf x y W Hx Hy Hk) as (s1 & Hr1 & W1 & [F1 _ _ _]). rewrite (mbind_run _ _ _ _ _ Hr1).
  apply mbind_err. apply (free_page_undef _ s1 G R pf (with_pincount 0 x)); try done. rewrite F1. apply lookup_insert_eq.
Qed.

(** ** Objects that go away *)
Definition no_pages (s : mms) (o : Z) : Prop := forall pf x, pframes s !! pf = Some x -> pf_obj x <> o.

Lemma owned_detach s G R o a b : owned s G (o :: R) -> G !! o = Some (a, b) -> o ∉ outs G -> no_pages s o ->
  owned s (delete o G) (b :: a :: o :: R).
Proof.
  intros W Ho Hout Hp.
  assert (forall p, p <> o -> settled s G p -> settled s (delete o G) p) as Hset.
  { intros p Hne (y & Hy & Hs). exists y. by rewrite lookup_delete_ne. }
  split; try apply W.
  - intros pf x Hx. apply Hset; [by apply (Hp pf)|apply (w_settled _ _ _ W _ _ Hx)].
  - intros p a' b' [Hne Hg]%lookup_delete_Some. pose proof (w_edges _ _ _ W _ _ _ Hg) as [E1 E2 E3 E4].
    assert (a' <> o) as Ha by (intros ->; apply Hout, elem_of_outs; naive_solver).
    split; [done|by apply Hset|done|by rewrite lookup_delete_ne].
  - apply (ranked_sub G); [apply delete_subseteq|apply (w_rank _ _ _ W)].
  - destruct (w_edges _ _ _ W _ _ _ Ho) as [_ (y & Hy & _) (z & Hz & _) _].
    intros p [->|[->|Hp']%elem_of_cons]%elem_of_cons; [by exists z|by exists y|by apply (w_live _ _ _ W)].
  - intros p y Hy. pose proof (w_refs _ _ _ W _ _ Hy) as Hr. unfold refs_ok in *.
    assert (occ p ((b :: a :: o :: R) ++ outs (delete o G)) = occ p ((o :: R) ++ outs G)) as ->; [|done].
    apply occ_perm. rewrite (outs_delete _ _ _ _ Ho). cbn. rewrite <- !Permutation_middle. cbn. solve_Permutation.
Qed.
Lemma pages_inv_delete s o : pages_inv s -> no_pages s o -> pages_inv (upd_mmobjs (delete o) s).
Proof.
  intros K Hp. split; try apply K.
  - intros pf x Hx. destruct (p_frames _ K _ _ Hx) as [F1 F2 [y F3] F4]. split; [done..| |done]. exists y. cbn.
    rewrite lookup_delete_ne; [done|]. intros E. by apply (Hp _ _ Hx).
  - intros p y. cbn. intros [Hne Hy]%lookup_delete_Some. destruct (p_objs _ K _ _ Hy) as [O1 O2 O3]. by split.
Qed.
Lemma owned_delete s G R o : owned s G (o :: R) -> G !! o = None -> o ∉ R -> o ∉ outs G -> no_pages s o ->
  owned (upd_mmobjs (delete o) s) G R.
Proof.
  intros W Hg HR Hout Hp.
  assert (forall p, p <> o -> settled s G p -> settled (upd_mmobjs (delete o) s) G p) as Hset.
  { intros p Hne (y & Hy & Hs). exists y. cbn. by rewrite lookup_delete_ne. }
  split; try apply W.
  - by apply pages_inv_delete, Hp; apply W.
  - intros pf x y Hx. cbn. intros [_ Hy]%lookup_delete_Some. by apply (w_pins _ _ _ W pf x y).
  - intros pf x Hx. apply Hset; [by apply (Hp pf)|apply (w_settled _ _ _ W _ _ Hx)].
  - intros p y. cbn. intros [_ Hy]%lookup_delete_Some Hk. by apply (w_plain _ _ _ W p).
  - intros p a b Hpg. destruct (w_edges _ _ _ W _ _ _ Hpg) as [(y & Hy & E1) E2 (z & Hz & E3) E4].
    assert (a <> o /\ b <> o) as [Ha Hb] by (split; intros ->; apply Hout, elem_of_outs; naive_solver).
    split; [|by apply Hset| |done].
    + exists y. cbn. rewrite lookup_delete_ne by (intros ->; congruence). done.
    + exists z. cbn. by rewrite lookup_delete_ne.
  - intros p Hp'. destruct (w_live _ _ _ W p) as [y Hy]; [by right|]. exists y. cbn.
    rewrite lookup_delete_ne; [done|]. by intros ->.
  - intros p y. cbn. intros [Hne Hy]%lookup_delete_Some. apply (w_refs _ _ _ W) in Hy. by apply (refs_drop o).
Qed.

(** ** put *)
(** Objects have gone, with their pages and edges; the reference counts of the
    others may be smaller. *)
Record shrinks (s : mms) (G : gmap Z (Z * Z)) (s' : mms) (G' : gmap Z (Z * Z)) : Prop := {
  h_objs p y' : mmobjs s' !! p = Some y' -> exists y, mmobjs s !! p = Some y /\ same_kind y' y;
  h_frames pf x : pframes s' !! pf = Some x <-> pframes s !! pf = Some x /\ is_Some (mmobjs s' !! pf_obj x);
  h_mem pf x : pframes s' !! pf = Some x -> memory s' !! pf_addr x = memory s !! pf_addr x;
  h_edges p : G' !! p = match mmobjs s' !! p with Some _ => G !! p | None => None end;
  h_env : same_env s s';
}.
Lemma shrinks_sub s G s' G' : shrinks s G s' G' -> G' ⊆ G.
Proof. intros H. apply map_subseteq_spec. intros p e He. rewrite (h_edges _ _ _ _ H) in He. by destruct (mmobjs s' !! p). Qed.
Lemma shrinks_live s G s' G' p : shrinks s G s' G' -> is_Some (mmobjs s' !! p) -> is_Some (mmobjs s !! p).
Proof. intros H [y Hy]. destruct (h_objs _ _ _ _ H _ _ Hy) as (y0 & -> & _). done. Qed.
Lemma shrinks_trans s1 G1 s2 G2 s3 G3 : shrinks s1 G1 s2 G2 -> shrinks s2 G2 s3 G3 -> shrinks s1 G1 s3 G3.
Proof.
  intros A B. split.
  - intros p y3 H3. destruct (h_objs _ _ _ _ B _ _ H3) as (y2 & H2 & K1 & K2 & K3 & K4).
    destruct (h_objs _ _ _ _ A _ _ H2) as (y1 & H1 & L1 & L2 & L3 & L4). exists y1. split; [done|].
    split_and!; congruence.
  - intros pf x. rewrite (h_frames _ _ _ _ B), (h_frames _ _ _ _ A). split; [naive_solver|]. intros [Hx Hl].
    split; [|done]. split; [done|]. by apply (shrinks_live _ _ _ _ _ B).
  - intros pf x Hx. rewrite (h_mem _ _ _ _ B _ _ Hx). apply (h_mem _ _ _ _ A pf). by apply (h_frames _ _ _ _ B) in Hx as [? _].
  - intros p. rewrite (h_edges _ _ _ _ B), (h_edges _ _ _ _ A).
    destruct (mmobjs s3 !! p) eqn:E3; [|done]. destruct (shrinks_live _ _ _ _ p B) as [y ->]; [by eexists|]. done.
  - destruct (h_env _ _ _ _ A) as (? & ? & ?), (h_env _ _ _ _ B) as (? & ? & ?). split_and!; congruence.
Qed.
Lemma shrinks_deref s G R o y : owned s G (o :: R) -> mmobjs s !! o = Some y -> shrinks s G (deref o y s) G.
Proof.
  intros W Hy. assert (forall p, is_Some (mmobjs (deref o y s) !! p) <-> is_Some (mmobjs s !! p)) as Hl.
  { intros p. cbn. destruct (decide (p = o)) as [->|]; [rewrite lookup_insert_eq, Hy; naive_solver|by rewrite lookup_insert_ne]. }
  split; [|intros pf x|done| |done].
  - intros p y'. cbn. intros [[<- <-]|[Hne Hp]]%lookup_insert_Some; [by exists y|by exists y'].
  - split; [|naive_solver]. intros Hx. split; [done|]. apply Hl. destruct (f_obj _ _ _ (p_frames _ (w_inv _ _ _ W) _ _ Hx)) as [z ->]. done.
  - intros p. destruct (mmobjs (deref o y s) !! p) eqn:E; [done|]. destruct (G !! p) as [[a b]|] eqn:Eg; [|done].
    destruct (w_edges _ _ _ W _ _ _ Eg) as [(z & Hz & _) _ _ _]. destruct (proj2 (Hl p)) as [w Hw]; [by eexists|]. congruence.
Qed.
Lemma shrinks_refl s G R : owned s G R -> shrinks s G s G.
Proof.
  intros W. split; [| |done| |done].
  - intros p y Hy. by exists y.
  - intros pf x. split; [|naive_solver]. intros Hx. split; [done|]. destruct (f_obj _ _ _ (p_frames _ (w_inv _ _ _ W) _ _ Hx)) as [y ->]. done.
  - intros p. destruct (mmobjs s !! p) eqn:E; [done|]. destruct (G !! p) as [[a b]|] eqn:Eg; [|done].
    destruct (w_edges _ _ _ W _ _ _ Eg) as [(z & Hz & _) _ _ _]. congruence.
Qed.
(** The object loses its pages, others may go, and then it goes. *)
Lemma shrinks_gone s G s1 s2 G2 o y : mmobjs s !! o = Some y -> stripped s s1 o y -> shrinks s1 (delete o G) s2 G2 ->
  shrinks s G (upd_mmobjs (delete o) s2) G2.
Proof.
  intros Hy [K1 K2 (y' & K3 & K3') K4] A. split.
  - intros p z. cbn. intros [Hne Hz]%lookup_delete_Some. destruct (h_objs _ _ _ _ A _ _ Hz) as (z1 & Hz1 & K).
    rewrite K3, lookup_insert_ne in Hz1 by done. by exists z1.
  - intros pf x. cbn. rewrite (h_frames _ _ _ _ A), K1. destruct (decide (pf_obj x = o)) as [->|Hne].
    + rewrite lookup_delete_eq. split; [naive_solver|]. intros [_ [? ?]]. done.
    + rewrite lookup_delete_ne by done. naive_solver.
  - intros pf x Hx. cbn in *. rewrite (h_mem _ _ _ _ A _ _ Hx). apply (K2 pf). by apply (h_frames _ _ _ _ A) in Hx as [? _].
  - intros p. rewrite (h_edges _ _ _ _ A). cbn. destruct (decide (p = o)) as [->|Hne].
    + rewrite !lookup_delete_eq. by destruct (mmobjs s2 !! o).
    + by rewrite !lookup_delete_ne.
  - destruct K4 as (? & ? & ?), (h_env _ _ _ _ A) as (? & ? & ?). unfold same_env. cbn. split_and!; congruence.
Qed.
Lemma drop_run s o y : mmobjs s !! o = Some y ->
  (store_mmo o (fun x => with_ref (mmo_refcount x - 1) x) ;;; mput (upd_mmobjs (delete o))) s =
  Ok (tt, upd_mmobjs (delete o) s).
Proof.
  intros Hy. rewrite (mbind_run _ _ _ _ _ (store_mmo_run _ _ _ _ Hy)). unfold mput, upd_mmobjs. cbn. by rewrite delete_insert_eq.
Qed.
Lemma stripped_pages s s1 o y : stripped s s1 o y -> no_pages s1 o.
Proof. intros K pf x Hx. by apply (k_frames _ _ _ _ K) in Hx as [_ ?]. Qed.
Lemma stripped_obj s s1 o y : mmobjs s !! o = Some y -> stripped s s1 o y ->
  exists y1, mmobjs s1 !! o = Some y1 /\ same_kind y1 y.
Proof. intros Hy K. destruct (k_objs _ _ _ _ K) as (y1 & -> & ?). exists y1. by rewrite lookup_insert_eq. Qed.

(** An object among [l] that nothing in [R] refers to has a page. *)
Definition has_page (s : mms) (R l : list Z) : Prop :=
  exists pf x, pframes s !! pf = Some x /\ pf_obj x ∈ l /\ pf_obj x ∉ R.
Lemma has_page_mono s s' R R' l l' : (forall pf x, pframes s' !! pf = Some x -> pframes s !! pf = Some x) ->
  R ⊆ R' -> l' ⊆ l -> has_page s' R' l' -> has_page s R l.
Proof. intros Hf HR Hl (pf & x & Hx & H1 & H2). exists pf, x. split; [by apply Hf|]. set_solver. Qed.

Definition put_spec (n : nat) : Prop := forall s G R o l,
  owned s G (o :: R) -> settled s G o -> chain G o l -> (length l < n)%nat ->
  (exists s' G', mmo_put_ n o s = Ok (tt, s') /\ owned s' G' R /\ shrinks s G s' G') \/
  (slab_keeps = false /\ mmo_put_ n o s = Err FUndef /\ has_page s R l).

(** The end of [shadow_put], when the object's pages are gone. *)
Lemma shadow_tail n s G R o a b l : put_spec n -> owned s G (o :: R) -> G !! o = Some (a, b) ->
  o ∉ R -> o ∉ outs G -> no_pages s o -> chain G a l -> (length l < n)%nat ->
  let run := (let! x := load_mmo o in
     mmo_put_ n (mmo_bottom_obj x) ;;;
     let! x := load_mmo o in
     mmo_put_ n (mmo_shadowed x) ;;;
     store_mmo o (fun x => with_ref (mmo_refcount x - 1) x) ;;;
     mput (upd_mmobjs (delete o))) s in
  (exists s' G', run = Ok (tt, upd_mmobjs (delete o) s') /\
    owned (upd_mmobjs (delete o) s') G' R /\ shrinks s (delete o G) s' G') \/
  (slab_keeps = false /\ run = Err FUndef /\ has_page s R l).
Proof.
  intros IH W1 Hg HR Hout Hnp Hl Hn run. subst run.
  pose proof (w_edges _ _ _ W1 _ _ _ Hg) as [(y1 & Hy1 & _ & Za & Zb) (ya & Hya & Hsa) (yb & Hyb & Hkb) _].
  pose proof (owned_detach s G R o _ _ W1 Hg Hout Hnp) as W2.
  assert (a <> o) as Hao.
  { intros E. destruct (w_rank _ _ _ W1) as [rk Hrk]. specialize (Hrk _ _ _ Hg). rewrite E in Hrk. lia. }
  assert (1 <= length l)%nat as Hl1 by (destruct Hl; cbn; lia).
  rewrite (mbind_run _ _ _ _ _ (load_mmo_run _ _ _ Hy1)).
  assert (b ∈ l) as Hbl.
  { apply (chain_has_bottom G a l b); [intros p a' b' Hp; by destruct (w_edges _ _ _ W1 _ _ _ Hp)|done|by destruct (w_edges _ _ _ W1 _ _ _ Hg)]. }
  destruct (IH s (delete o G) (a :: o :: R) b [b]) as [(s2 & G2 & Hp2 & W3 & A2)|(Hk & Hp2 & Hpg)]; [done|by exists yb; split; [|left]| |cbn; lia| |].
  { constructor. destruct (delete o G !! b) as [[? ?]|] eqn:Eb; [|done].
    destruct (w_edges _ _ _ W2 _ _ _ Eb) as [(z' & Hz' & Kz' & _) _ _ _]. congruence. }
  2:{ right. split; [done|]. split; [rewrite Zb; by apply mbind_err|]. apply (has_page_mono s s R (a :: o :: R) l [b]); [done|set_solver|set_solver|done]. }
  rewrite Zb, (mbind_run _ _ _ _ _ Hp2).
  destruct (w_live _ _ _ W3 o) as [z2 Hz2]; [right; by left|]. destruct (h_objs _ _ _ _ A2 _ _ Hz2) as (z1 & Hz1 & E1 & E2 & E3 & E4).
  rewrite Hy1 in Hz1. injection Hz1 as <-. rewrite (mbind_run _ _ _ _ _ (load_mmo_run _ _ _ Hz2)), E2, Za.
  destruct (chain_exists G2 a (w_rank _ _ _ W3)) as [l2 Hl2].
  assert (G2 ⊆ G) as Hsub2 by (etrans; [apply (shrinks_sub _ _ _ _ A2)|apply delete_subseteq]).
  destruct (IH s2 G2 (o :: R) a l2) as [(s3 & G3 & Hp3 & W4 & A3)|(Hk & Hp3 & Hpg)]; [done| |done| | |].
  { destruct (w_live _ _ _ W3 a) as [ya2 Hya2]; [by left|]. destruct (h_objs _ _ _ _ A2 _ _ Hya2) as (ya1 & Hya1 & Ea & _).
    rewrite Hya in Hya1. injection Hya1 as <-. exists ya2. split; [done|]. rewrite Ea. destruct Hsa as [?|Hsa]; [by left|right].
    rewrite (h_edges _ _ _ _ A2), Hya2, lookup_delete_ne by done. done. }
  { pose proof (chain_sub _ _ _ _ _ Hsub2 Hl Hl2). lia. }
  2:{ right. split; [done|]. split; [by apply mbind_err|]. apply (has_page_mono s s2 R (o :: R) l l2); [|set_solver| |done].
      - intros pf x Hx. by apply (h_frames _ _ _ _ A2) in Hx as [? _].
      - intros p Hp. by apply (chain_sub_elem G G2 a l l2). }
  left.
  rewrite (mbind_run _ _ _ _ _ Hp3). destruct (w_live _ _ _ W4 o) as [z3 Hz3]; [by left|].
  rewrite (drop_run _ _ _ Hz3). exists s3, G3. split; [done|].
  pose proof (shrinks_trans _ _ _ _ _ _ A2 A3) as A. pose proof (shrinks_sub _ _ _ _ A) as Hsub. split; [|done].
  apply owned_delete; [done| |done| |].
  - destruct (G3 !! o) eqn:E; [|done]. apply (lookup_weaken _ _ _ _ E) in Hsub. by rewrite lookup_delete_eq in Hsub.
  - intros (p & a' & b' & Hp' & Hor)%elem_of_outs. apply Hout, elem_of_outs. exists p, a', b'. split; [|done].
    apply (lookup_weaken _ _ _ _ Hp') in Hsub. by apply lookup_delete_Some in Hsub as [_ ?].
  - intros pf x Hx. apply (h_frames _ _ _ _ A) in Hx as [Hx _]. by apply (Hnp pf).
Qed.
(** No other reference to an object that is not a vnode. *)
Lemma last_ref s G R o y : owned s G (o :: R) -> mmobjs s !! o = Some y ->
  ~ (mmo_ops y = vnode_mmobj_ops \/ 0 < occ o (R ++ outs G)) ->
  mmo_ops y <> vnode_mmobj_ops /\ o ∉ R /\ o ∉ outs G /\ mmo_refcount y = mmo_nrespages y + 1 /\ 0 < mmo_refcount y.
Proof.
  intros W Hy Hd. assert (occ o (R ++ outs G) = 0) as H0 by (pose proof (occ_nonneg o (R ++ outs G)); lia).
  assert (mmo_ops y <> vnode_mmobj_ops) as Hv by tauto. clear Hd. split; [done|].
  pose proof (w_refs _ _ _ W _ _ Hy) as Hr. pose proof (o_nres _ _ _ (p_objs _ (w_inv _ _ _ W) _ _ Hy)) as Hnr.
  unfold refs_ok in Hr. cbn in Hr. rewrite occ_cons, decide_True in Hr by done. rewrite occ_app in H0.
  pose proof (occ_nonneg o R). pose proof (occ_nonneg o (outs G)).
  split; [apply occ_zero; lia|]. split; [apply occ_zero; lia|]. rewrite occ_app in Hr. destruct (mmo_ops y); (done || lia).
Qed.

Lemma put_ok n : put_spec n.
Proof.
  induction n as [|n IH]; intros s G R o l W (y & Hy & Hs) Hc Hn; [lia|].
  destruct (decide (mmo_ops y = vnode_mmobj_ops \/ 0 < occ o (R ++ outs G))) as [Hd|Hd].
  { left. exists (deref o y s), G. split; [by apply (put_shared n s G R)|]. split; [by apply owned_deref|by apply (shrinks_deref s G R)]. }
  destruct (last_ref s G R o y W Hy Hd) as (Hv & HR & Hout & Hr1 & Hr2). clear Hd.
  pose proof (o_ptr _ _ _ (p_objs _ (w_inv _ _ _ W) _ _ Hy)) as Ho.
  assert (exists m, n = S m) as [m ->] by (destruct n; [destruct Hc; cbn in Hn; lia|by eexists]).
  assert (o ∈ l) as Hol by (destruct Hc; by left).
  assert ((slab_keeps = true \/ list_items (mmo_respages y) = []) \/ slab_keeps = false /\ exists pf r, list_items (mmo_respages y) = pf :: r) as [Hkp|(Hkp & pf & r & Er)].
  { destruct slab_keeps; [auto|]. destruct (list_items (mmo_respages y)); [auto|eauto]. }
  2:{ right. split; [done|]. destruct (uncache_undef (mmo_put_ (S m)) r pf s G (o :: R) o y Hkp W Hy Hv Er) as [Hu (x & Hx & Hxo)].
      split; [|exists pf, x; by rewrite Hxo]. remember (S m) as k eqn:Ek'. cbn [mmo_put_]. rewrite (mbind_run _ _ _ _ _ (load_mmo_run _ _ _ Hy)).
      destruct (mmo_ops y) eqn:Ek; [| |done].
      all: unfold anon_put_, shadow_put_; (rewrite assert_run by (by apply negb_true_iff, Z.eqb_neq));
        rewrite (mbind_run _ _ _ _ _ (load_mmo_run _ _ _ Hy)), Ek; (rewrite assert_run by zbool);
        rewrite (proj2 (Z.eqb_eq _ _)), Er by lia; by apply mbind_err. }
  destruct (uncache_ok m _ s G (o :: R) o y W Hy Hv eq_refl Hkp) as (s1 & Hu & W1 & K).
  destruct (stripped_obj s s1 o y Hy K) as (y1 & Hy1 & _). pose proof (stripped_pages s s1 o y K) as Hnp.
  remember (S m) as k eqn:Ek'. cbn [mmo_put_]. rewrite (mbind_run _ _ _ _ _ (load_mmo_run _ _ _ Hy)).
  destruct (mmo_ops y) eqn:Ek; [| |done].
  all: unfold anon_put_, shadow_put_; (rewrite assert_run by (by apply negb_true_iff, Z.eqb_neq));
    rewrite (mbind_run _ _ _ _ _ (load_mmo_run _ _ _ Hy)), Ek; (rewrite assert_run by zbool);
    rewrite (proj2 (Z.eqb_eq _ _)) by lia; rewrite (mbind_run _ _ _ _ _ Hu).
  - assert (G !! o = None) as Hg.
    { destruct (G !! o) as [[a b]|] eqn:Eg; [|done]. destruct (w_edges _ _ _ W _ _ _ Eg) as [(z & Hz & Kz & _) _ _ _]. congruence. }
    left. rewrite (drop_run _ _ _ Hy1). eexists _, G. split; [reflexivity|]. split; [by apply owned_delete|].
    apply (shrinks_gone s G s1 s1 G o y Hy K). rewrite delete_id by done. by apply (shrinks_refl s1 G (o :: R)).
  - destruct Hs as [?|[[a b] Hg]]; [done|]. destruct Hc as [o Hc|o a' b' l Hc Hl]; [congruence|]. rewrite Hg in Hc. simplify_eq.
    destruct (shadow_tail (S m) s1 G R o a' b' l IH W1 Hg HR Hout Hnp Hl) as [(s3 & G3 & Ht & W3 & A)|(Hk & Ht & Hpg)]; [cbn [length] in Hn; lia| |].
    2:{ right. split; [done|]. split; [exact Ht|]. apply (has_page_mono s s1 R R (o :: l) l); [|done|set_solver|done].
        intros pf x Hx. by apply (k_frames _ _ _ _ K) in Hx as [? _]. }
    left. eexists _, G3. split; [exact Ht|]. split; [done|]. by apply (shrinks_gone s G s1 s3 G3 o y Hy K).
Qed.

(** A chain has at most as many objects as there are. *)
Lemma chain_live s G o l : (forall o a b, G !! o = Some (a, b) -> settled s G a) -> settled s G o -> chain G o l ->
  forall p, p ∈ l -> is_Some (mmobjs s !! p).
Proof.
  intros He Hs Hl. induction Hl as [o Ho|o a b l Ho Hl IH]; intros p.
  - intros ->%list_elem_of_singleton. destruct Hs as (y & -> & _). done.
  - intros [->|Hp]%elem_of_cons; [destruct Hs as (y & -> & _); done|]. apply IH; [|done]. apply (He _ _ _ Ho).
Qed.
Lemma chain_size s G o l : ranked G -> (forall o a b, G !! o = Some (a, b) -> settled s G a) -> settled s G o ->
  chain G o l -> (length l <= size (mmobjs s))%nat.
Proof.
  intros Hrk He Hs Hl. pose proof (chain_nodup _ _ _ Hrk Hl) as Hn. pose proof (chain_live s G o l He Hs Hl) as Hall.
  rewrite <- size_dom, <- (size_list_to_set (C := gset Z) l Hn). apply subseteq_size. intros p Hp%elem_of_list_to_set.
  apply elem_of_dom. by apply Hall.
Qed.

(** ** Taking references and attaching shadow objects *)
Lemma owned_ref s G R o y : owned s G R -> mmobjs s !! o = Some y -> 0 < mmo_refcount y ->
  exists s', mmo_ref o s = Ok (tt, s') /\ owned s' G (o :: R) /\
    s' = upd_mmobjs (<[o := with_ref (mmo_refcount y + 1) y]>) s.
Proof.
  intros W Hy Hp. pose proof (o_ptr _ _ _ (p_objs _ (w_inv _ _ _ W) _ _ Hy)) as Ho.
  eexists. split; [by apply mmo_ref_ok|]. split; [|done].
  apply (owned_tamer s _ G R); [done|by apply (tamer_obj s o y)| | |].
  - eapply pages_inv_eq; [by apply (pages_eq_obj s o y)|apply (w_inv _ _ _ W)].
  - intros p [->|Hp']%elem_of_cons; [by eexists|by apply (w_live _ _ _ W)].
  - intros p z. cbn. intros [[<- <-]|[Hne Hz]]%lookup_insert_Some.
    + pose proof (w_refs _ _ _ W _ _ Hy) as Hr. unfold refs_ok in *. cbn. rewrite occ_cons, decide_True by done.
      destruct (mmo_ops y); lia.
    + apply (w_refs _ _ _ W) in Hz. unfold refs_ok in *. by rewrite occ_cons, decide_False.
Qed.
Lemma owned_refcount s G R o y : owned s G R -> mmobjs s !! o = Some y -> 0 < mmo_refcount y.
Proof.
  intros W Hy. pose proof (w_refs _ _ _ W _ _ Hy) as Hr. pose proof (o_nres _ _ _ (p_objs _ (w_inv _ _ _ W) _ _ Hy)).
  pose proof (occ_nonneg o (R ++ outs G)). unfold refs_ok in Hr. destruct (mmo_ops y); lia.
Qed.

(** A new object has one reference, its creator's. *)
Lemma owned_create k s G R o : owned s G R -> k <> vnode_mmobj_ops -> slab_pick (mmobjs s) = Some o ->
  let s' := upd_mmobjs (<[o := with_ref 1 (mmobj_init k)]>) s in
  create k s = Ok (o, s') /\ owned s' G (o :: R) /\ mmobjs s !! o = None.
Proof.
  intros W Hk Ho. unfold create. rewrite Ho. destruct (slab_fresh _ _ Ho) as [Hnz Hf]. split; [done|]. split; [|done].
  assert (forall p y, mmobjs s !! p = Some y -> <[o := with_ref 1 (mmobj_init k)]> (mmobjs s) !! p = Some y) as Hold.
  { intros p y Hy. rewrite lookup_insert_ne; [done|]. intros ->. congruence. }
  assert (forall p, settled s G p -> settled (upd_mmobjs (<[o := with_ref 1 (mmobj_init k)]>) s) G p) as Hset.
  { intros p (y & Hy & Hs). exists y. split; [by apply Hold|done]. }
  assert (o ∉ R ++ outs G) as Hnot.
  { intros [H|(p & a & b & Hg & Hor)%elem_of_outs]%elem_of_app.
    - apply (w_live _ _ _ W) in H as [? ?]. congruence.
    - destruct (w_edges _ _ _ W _ _ _ Hg) as [_ (ya & Hya & _) (yb & Hyb & _) _]. destruct Hor; congruence. }
  destruct (init_counts k) as [In Ir].
  assert (no_pages s o) as Hnp.
  { intros pf x Hx E. destruct (f_obj _ _ _ (p_frames _ (w_inv _ _ _ W) _ _ Hx)) as [y Hy]. congruence. }
  split; try apply W.
  - pose proof (w_inv _ _ _ W) as K. split; try apply K.
    + intros pf x Hx. destruct (p_frames _ K _ _ Hx) as [F1 F2 [y F3] F4]. split; [done..| |done]. exists y. by apply Hold.
    + intros p y. cbn. intros [[<- <-]|[Hne Hy]]%lookup_insert_Some.
      * split; [done| |by cbn; rewrite In, Ir]. split; cbn; rewrite Ir; [constructor|]. intros q. split; [by intros []%elem_of_nil|].
        intros (x & Hx & E). by destruct (Hnp _ _ Hx).
      * destruct (p_objs _ K _ _ Hy) as [O1 O2 O3]. by split.
  - intros pf x y Hx. cbn. intros [[E _]|[Hne Hy]]%lookup_insert_Some; [by destruct (Hnp _ _ Hx)|].
    by apply (w_pins _ _ _ W pf x y).
  - intros pf x Hx. apply Hset, (w_settled _ _ _ W _ _ Hx).
  - intros p y. cbn. intros [[<- <-]|[Hne Hy]]%lookup_insert_Some Hk'; [|by apply (w_plain _ _ _ W p)].
    split; [apply init_shadowed|]. intros v. cbn. rewrite init_vmas. by intros []%elem_of_nil.
  - intros p a b Hg. destruct (w_edges _ _ _ W _ _ _ Hg) as [(y & Hy & E1) E2 (z & Hz & E3) E4]. split; [|by apply Hset| |done].
    + exists y. split; [by apply Hold|done].
    + exists z. split; [by apply Hold|done].
  - intros p [->|Hp]%elem_of_cons; [cbn; by rewrite lookup_insert_eq|]. destruct (w_live _ _ _ W p Hp) as [y Hy].
    exists y. by apply Hold.
  - intros p y. cbn. intros [[<- <-]|[Hne Hy]]%lookup_insert_Some.
    + unfold refs_ok. cbn. rewrite In, init_ops, occ_cons, decide_True by done. rewrite (proj2 (occ_zero _ _) Hnot).
      by destruct k.
    + apply (w_refs _ _ _ W) in Hy. unfold refs_ok in *. rewrite occ_cons, decide_False by done. done.
Qed.

(** The pointers of a shadow object that is not attached are free. *)
Definition with_ptrs (a b : Z) (y : mmobj) : mmobj :=
  mkMmobj _ (mmo_ops y) (mmo_refcount y) (mmo_nrespages y) (mmo_respages y) a b (mmo_vmas y).
Lemma owned_ptrs s G R o y a b : owned s G R -> mmobjs s !! o = Some y -> mmo_ops y = shadow_mmobj_ops -> G !! o = None ->
  owned (upd_mmobjs (<[o := with_ptrs a b y]>) s) G R.
Proof.
  intros W Hy Hk Hg. assert (forall p z, mmobjs s !! p = Some z -> exists z',
    <[o := with_ptrs a b y]> (mmobjs s) !! p = Some z' /\ mmo_ops z' = mmo_ops z /\ (p <> o -> z' = z)) as Hold.
  { intros p z Hz. destruct (decide (p = o)) as [->|]; [rewrite lookup_insert_eq|rewrite lookup_insert_ne by done]; eexists;
      (split; [done|]); simplify_eq; done. }
  assert (forall p, settled s G p -> settled (upd_mmobjs (<[o := with_ptrs a b y]>) s) G p) as Hset.
  { intros p (z & Hz & Hs). destruct (Hold _ _ Hz) as (z' & Hz' & E & _). exists z'. by rewrite E. }
  split; try apply W.
  - eapply pages_inv_eq; [by apply (pages_eq_obj s o y)|apply W].
  - intros pf x z Hx. cbn. intros [[E <-]|[Hne Hz]]%lookup_insert_Some Hk'; [|by apply (w_pins _ _ _ W pf x z)].
    apply (w_pins _ _ _ W pf x y); by rewrite <- ?E.
  - intros pf x Hx. apply Hset, (w_settled _ _ _ W _ _ Hx).
  - intros p z. cbn. intros [[<- <-]|[Hne Hz]]%lookup_insert_Some Hk'; [done|by apply (w_plain _ _ _ W p)].
  - intros p a' b' Hp. destruct (w_edges _ _ _ W _ _ _ Hp) as [(z & Hz & E1) E2 (w & Hw & E3) E4]. split; [|by apply Hset| |done].
    + destruct (Hold _ _ Hz) as (z' & Hz' & _ & E). rewrite E in Hz' by (intros ->; congruence). by exists z.
    + destruct (Hold _ _ Hw) as (w' & Hw' & E & _). exists w'. by rewrite E.
  - intros p Hp. destruct (w_live _ _ _ W p Hp) as [z Hz]. destruct (Hold _ _ Hz) as (z' & Hz' & _). by exists z'.
  - intros p z. cbn. intros [[<- <-]|[Hne Hz]]%lookup_insert_Some; [apply (w_refs _ _ _ W _ _ Hy)|by apply (w_refs _ _ _ W)].
Qed.

(** The references taken for the two pointers become those of the object. *)
Lemma owned_link s G R o y a b : owned s G (a :: b :: R) -> mmobjs s !! o = Some y -> mmo_ops y = shadow_mmobj_ops ->
  G !! o = None -> mmo_shadowed y = a -> mmo_bottom_obj y = b -> settled s G a ->
  (exists z, mmobjs s !! b = Some z /\ mmo_ops z <> shadow_mmobj_ops) ->
  match G !! a with Some (_, b') => b' = b | None => a = b end ->
  owned s (<[o := (a, b)]> G) R.
Proof.
  intros W Hy Hk Hg Ea Eb Ha Hb Hsame.
  assert (forall p, settled s G p -> p <> o) as Hno.
  { intros p (z & Hz & Hs) ->. rewrite Hy in Hz. simplify_eq. destruct Hs as [?|[? ?]]; congruence. }
  assert (forall p, settled s G p -> settled s (<[o := (a, b)]> G) p) as Hset.
  { intros p Hs. pose proof (Hno p Hs). destruct Hs as (z & Hz & Hs). exists z. by rewrite lookup_insert_ne. }
  split; try apply W.
  - intros pf x Hx. apply Hset, (w_settled _ _ _ W _ _ Hx).
  - intros p a' b' [[<- [= <- <-]]|[Hne Hp]]%lookup_insert_Some.
    + split; [by exists y|by apply Hset|done|]. by rewrite lookup_insert_ne by (apply not_eq_sym, Hno, Ha).
    + destruct (w_edges _ _ _ W _ _ _ Hp) as [E1 E2 E3 E4]. split; [done|by apply Hset|done|].
      by rewrite lookup_insert_ne by (apply not_eq_sym, Hno, E2).
  - destruct (w_rank _ _ _ W) as [rk Hrk]. exists (fun p => if decide (p = o) then S (rk a) else rk p).
    intros p a' b' [[<- [= <- <-]]|[Hne Hp]]%lookup_insert_Some.
    + rewrite decide_False by (by apply Hno). rewrite decide_True by done. lia.
    + rewrite decide_False by (by apply Hno, (w_edges _ _ _ W _ _ _ Hp)). rewrite decide_False by done. apply (Hrk _ _ _ Hp).
  - intros p Hp. apply (w_live _ _ _ W). set_solver.
  - intros p z Hz. apply (w_refs _ _ _ W) in Hz. unfold refs_ok in *.
    assert (occ p (R ++ outs (<[o := (a, b)]> G)) = occ p ((a :: b :: R) ++ outs G)) as ->; [|done].
    apply occ_perm. rewrite (outs_delete (<[o := (a, b)]> G) o a b) by apply lookup_insert_eq.
    rewrite delete_insert_id by done. cbn. rewrite <- !Permutation_middle. done.
Qed.

Lemma owned_perm s G R R' : Permutation R R' -> owned s G R -> owned s G R'.
Proof.
  intros HR W. split; try apply W.
  - intros o Ho. apply (w_live _ _ _ W). by rewrite HR.
  - intros o y Hy. apply (w_refs _ _ _ W) in Hy. unfold refs_ok in *.
    by rewrite (occ_perm o (R' ++ outs G) (R ++ outs G)) by (by rewrite HR).
Qed.
Lemma owned_fresh_edge s G R o : owned s G R -> mmobjs s !! o = None -> G !! o = None.
Proof.
  intros W Ho. destruct (G !! o) as [[a b]|] eqn:E; [|done]. destruct (w_edges _ _ _ W _ _ _ E) as [(y & Hy & _) _ _ _]. congruence.
Qed.
(** The bottom object of [o]'s chain. *)
Definition bottom_is (s : mms) (G : gmap Z (Z * Z)) (o b : Z) : Prop :=
  (exists z, mmobjs s !! b = Some z /\ mmo_ops z <> shadow_mmobj_ops) /\
  match G !! o with Some (_, b') => b' = b | None => o = b end.
Lemma settled_bottom s G R o : owned s G R -> settled s G o -> exists x, mmobjs s !! o = Some x /\
  bottom_is s G o (mmobj_bottom_obj o x).
Proof.
  intros W (y & Hy & Hs). exists y. split; [done|]. unfold bottom_is. destruct (G !! o) as [[a b]|] eqn:E.
  - destruct (w_edges _ _ _ W _ _ _ E) as [(y' & Hy' & _ & Ha & Hb) (z' & Hz' & _) Hz _]. simplify_eq.
    rewrite bottom_shadow; [done|]. apply (o_ptr _ _ _ (p_objs _ (w_inv _ _ _ W) _ _ Hz')).
  - assert (mmo_ops y <> shadow_mmobj_ops) as Hk by (destruct Hs as [?|[? ?]]; congruence).
    destruct (w_plain _ _ _ W _ _ Hy Hk) as [H0 _]. rewrite bottom_plain by done. split; [by exists y|done].
Qed.

(** Only the object [o] differs. *)
Record alters (s s' : mms) (o : Z) (y : mmobj) : Prop := {
  v_objs : mmobjs s' = <[o := y]> (mmobjs s);
  v_frames : pframes s' = pframes s;
  v_mem : memory s' = memory s;
  v_env : same_env s s';
}.
Lemma shadow_over_ok s G R sh o y : owned s G R -> mmobjs s !! sh = Some y -> mmo_ops y = shadow_mmobj_ops -> G !! sh = None ->
  settled s G o -> exists b s', bottom_is s G o b /\ shadow_over sh o s = Ok (tt, s') /\ owned s' G R /\
    alters s s' sh (with_ptrs o b y).
Proof.
  intros W Hy Hk Hg Hs. destruct (settled_bottom s G R o W Hs) as (x & Hx & Hb).
  assert (o <> sh) as Hne.
  { intros ->. destruct Hs as (z & Hz & Hs). simplify_eq. destruct Hs as [?|[? ?]]; congruence. }
  eexists _, _. split; [exact Hb|]. unfold shadow_over. rewrite (mbind_run _ _ _ _ _ (store_mmo_run _ _ _ _ Hy)).
  rewrite (mbind_run _ _ _ _ _ (load_mmo_run (upd_mmobjs _ s) o x (eq_trans (lookup_insert_ne _ _ _ _ (not_eq_sym Hne)) Hx))).
  rewrite (store_mmo_run _ sh _ _ (lookup_insert_eq _ _ _)). split; [reflexivity|].
  assert (forall f, upd_mmobjs f (upd_mmobjs (<[sh := with_shadowed o y]>) s) = upd_mmobjs (fun m => f (<[sh := with_shadowed o y]> m)) s) as E by done.
  split; [|split; [cbn; by rewrite insert_insert_eq|done..]].
  pose proof (owned_ptrs s G R sh y o (mmobj_bottom_obj o x) W Hy Hk Hg) as W'. rewrite E.
  replace (upd_mmobjs (fun m => <[sh := with_bottom (mmobj_bottom_obj o x) (with_shadowed o y)]> (<[sh := with_shadowed o y]> m)) s)
    with (upd_mmobjs (<[sh := with_ptrs o (mmobj_bottom_obj o x) y]>) s); [done|].
  unfold upd_mmobjs. f_equal. by rewrite insert_insert_eq.
Qed.

(** ** Ownership of all attached objects *)
Definition edge_of (y : mmobj) : option (Z * Z) :=
  if decide (mmo_ops y = shadow_mmobj_ops /\ mmo_shadowed y <> 0) then Some (mmo_shadowed y, mmo_bottom_obj y) else None.
Definition edges (s : mms) : gmap Z (Z * Z) := omap edge_of (mmobjs s).
Definition owns (s : mms) (R : list Z) : Prop := owned s (edges s) R.
(** Not a shadow object that still has to be attached. *)
Definition attached (s : mms) (o : Z) : Prop := exists y, mmobjs s !! o = Some y /\
  (mmo_ops y <> shadow_mmobj_ops \/ mmo_shadowed y <> 0).

Lemma edges_lookup s o : edges s !! o = mmobjs s !! o ≫= edge_of.
Proof. unfold edges. by rewrite lookup_omap. Qed.
Lemma attached_settled s o : attached s o <-> settled s (edges s) o.
Proof.
  split; intros (y & Hy & Hs); exists y; (split; [done|]).
  - destruct (decide (mmo_ops y = shadow_mmobj_ops)) as [E|]; [right|by left]. rewrite edges_lookup, Hy. cbn.
    unfold edge_of. rewrite decide_True by (destruct Hs; done). by eexists.
  - destruct Hs as [?|[e He]]; [by left|]. rewrite edges_lookup, Hy in He. cbn in He. unfold edge_of in He.
    case_decide; [|done]. right. tauto.
Qed.
Lemma owned_edges s G R : owned s G R -> (forall o, attached s o -> settled s G o) -> G = edges s.
Proof.
  intros W Hall. apply map_eq. intros o. rewrite edges_lookup. destruct (G !! o) as [[a b]|] eqn:E.
  - destruct (w_edges _ _ _ W _ _ _ E) as [(y & Hy & Hk & Ha & Hb) (z & Hz & _) _ _]. rewrite Hy. cbn. unfold edge_of.
    pose proof (o_ptr _ _ _ (p_objs _ (w_inv _ _ _ W) _ _ Hz)). rewrite decide_True by (split; congruence). congruence.
  - destruct (mmobjs s !! o) as [y|] eqn:Hy; [|done]. cbn. unfold edge_of. case_decide as Hd; [|done].
    destruct (Hall o) as (y' & Hy' & [?|[? ?]]); [|naive_solver|congruence]. exists y. split; [done|right; tauto].
Qed.
Lemma shrinks_edges s s' G' : shrinks s (edges s) s' G' -> G' = edges s'.
Proof.
  intros A. apply map_eq. intros p. rewrite (h_edges _ _ _ _ A), !edges_lookup. destruct (mmobjs s' !! p) as [y'|] eqn:E; [|done].
  destruct (h_objs _ _ _ _ A _ _ E) as (y & -> & K1 & K2 & K3 & _). cbn. unfold edge_of. by rewrite K1, K2, K3.
Qed.

(** What is left keeps its identity, its pages and their bytes. *)
Record survives (s s' : mms) : Prop := {
  sv_objs p y' : mmobjs s' !! p = Some y' -> exists y, mmobjs s !! p = Some y /\ same_kind y' y;
  sv_frames pf x : pframes s' !! pf = Some x <-> pframes s !! pf = Some x /\ is_Some (mmobjs s' !! pf_obj x);
  sv_mem pf x : pframes s' !! pf = Some x -> memory s' !! pf_addr x = memory s !! pf_addr x;
}.
Lemma mmo_put_cases s R o : owns s (o :: R) -> attached s o ->
  (exists s', mmo_put o s = Ok (tt, s') /\ owns s' R /\ survives s s') \/
  (slab_keeps = false /\ mmo_put o s = Err FUndef /\ exists l, chain (edges s) o l /\ has_page s R l).
Proof.
  intros W Ha%attached_settled. destruct (chain_exists (edges s) o (w_rank _ _ _ W)) as [l Hl].
  pose proof (chain_size _ _ _ _ (w_rank _ _ _ W) (fun o a b H => g_next _ _ _ _ _ (w_edges _ _ _ W o a b H)) Ha Hl) as Hn.
  destruct (put_ok (S (size (mmobjs s))) s (edges s) R o l W Ha Hl) as [(s' & G' & Hr & W' & A)|(Hk & Hr & Hp)]; [lia|left|right; eauto].
  rewrite (shrinks_edges _ _ _ A) in W'. exists s'. split; [done|]. split; [done|]. split; apply A.
Qed.
Lemma mmo_put_run s R o : slab_keeps = true -> owns s (o :: R) -> attached s o ->
  exists s', mmo_put o s = Ok (tt, s') /\ owns s' R /\ survives s s'.
Proof. intros Hk W Ha. destruct (mmo_put_cases s R o W Ha) as [?|[? _]]; [done|congruence]. Qed.
Lemma outs_edges_mono s s' p : survives s s' -> p ∈ outs (edges s') -> p ∈ outs (edges s).
Proof.
  intros A (q & a & b & Hq & Hp)%elem_of_outs. apply elem_of_outs. exists q, a, b. split; [|done].
  rewrite edges_lookup in *. destruct (mmobjs s' !! q) as [y'|] eqn:E; [|done].
  destruct (sv_objs _ _ A _ _ E) as (y & -> & K1 & K2 & K3 & _). cbn in *. unfold edge_of in *. by rewrite K1, K2, K3 in Hq.
Qed.

(** C11: giving back a reference to an anonymous, shadow or shared vnode
    object: [put] returns, the references are again accounted for exactly
    (nothing leaks and nothing dangles), the object goes when this was its
    last reference and stays while another is held, and what stays keeps its
    pages and their bytes.  The one exception is that a page goes with an
    object of the chain that nothing else refers to: [pframe_free] reads the
    frame after it is freed, which is undefined where freed memory cannot be
    read. *)
Theorem mmo_put_correct s R o y : owns s (o :: R) -> attached s o -> mmobjs s !! o = Some y ->
  (exists s', mmo_put o s = Ok (tt, s') /\ owns s' R /\ survives s s' /\
    (o ∈ R -> is_Some (mmobjs s' !! o)) /\
    (mmo_ops y <> vnode_mmobj_ops -> o ∉ R -> o ∉ outs (edges s) -> mmobjs s' !! o = None)) \/
  (slab_keeps = false /\ mmo_put o s = Err FUndef /\ exists l, chain (edges s) o l /\ has_page s R l).
Proof.
  intros W Ha Hy. destruct (mmo_put_cases s R o W Ha) as [(s' & Hr & W' & A)|?]; [left|by right]. exists s'.
  split; [done|]. split; [done|]. split; [done|]. split; [apply (w_live _ _ _ W')|].
  intros Hk HR Hout. destruct (mmobjs s' !! o) as [y'|] eqn:E; [|done]. exfalso.
  destruct (sv_objs _ _ A _ _ E) as (y0 & Hy0 & K & _). simplify_eq. pose proof (w_refs _ _ _ W' _ _ E) as Hrf.
  assert (occ o (R ++ outs (edges s')) = 0) as H0.
  { apply occ_zero. rewrite elem_of_app. intros [?|?%(outs_edges_mono s)]; done. }
  unfold refs_ok in Hrf. rewrite K, H0 in Hrf. destruct (mmo_ops y); naive_solver lia.
Qed.

(** [pframe_free] takes an unpinned page out of the cache: frame, page and
    the page's reference to its object go, everything else stays and the
    references stay accounted for (where freed memory can be read). *)
Theorem pframe_free_correct s R pf x y : slab_keeps = true -> owns s R -> pframes s !! pf = Some x -> pf_pincount x = 0 ->
  mmobjs s !! pf_obj x = Some y ->
  exists s', pframe_free pf s = Ok (tt, s') /\ owns s' R /\ freed s s' pf x y.
Proof.
  intros keeps W Hx Hp Hy. destruct (free_page_ok mmo_put s _ R pf x y keeps (fun o t => ex_intro _ (size (mmobjs t)) eq_refl) W Hx Hp Hy) as (s' & Hr & W' & F).
  exists s'. split; [done|]. split; [|done]. unfold owns. replace (edges s') with (edges s); [done|].
  apply map_eq. intros p. rewrite !edges_lookup, (z_objs _ _ _ _ _ F). destruct (decide (p = pf_obj x)) as [->|].
  - by rewrite lookup_insert_eq, Hy.
  - by rewrite lookup_insert_ne.
Qed.
End Put.

Section Frames.
Context `{KL : KList} `{SL : Slab} `{KG : KGeometry} `{MU : !Mmu} `{PA : !PageAlloc} `{MH : !MmHeader}.
Context `{PU : !PtUnmap} `{VO : !VnodeObjs} `{ER : KErrno}.

(** [pframe_init] sets up an empty page cache: the lists, the counters and
    every chain of the hash table, with no reference outstanding; no page of
    the allocator is at NULL. *)
Theorem pframe_init_correct s : pframes s = ∅ -> mmobjs s = ∅ -> memory s !! 0 = None -> exists s', pframe_init s = Ok (tt, s') /\ owns s' [].
Proof.
  intros Hf Ho Hm. eexists. split; [reflexivity|]. match goal with |- owns ?t _ => set (s' := t) end.
  assert (forall P q, ~ on_frame s' P q) as Hno by (intros P q (x & Hx & _); cbn in Hx; by rewrite Hf in Hx).
  assert (forall P, linked list_empty_head (on_frame s' P)) as Hl.
  { intros P. unfold linked. rewrite items_empty. split; [constructor|]. intros q. split; [by intros []%elem_of_nil|by intros ?%Hno]. }
  assert (forall o y, mmobjs s' !! o = Some y -> False) as Hob by (intros o y; cbn; by rewrite Ho).
  assert (edges s' = ∅) as He by (unfold edges; cbn; by rewrite Ho).
  assert (forall pf x, pframes s' !! pf = Some x -> False) as Hfr by (intros pf x; cbn; by rewrite Hf).
  unfold owns. rewrite He. split; try (intros; exfalso; eauto; fail); try (by intros ???).
  - split; try (intros; exfalso; eauto; fail); cbn; rewrite ?items_empty; try done; try apply Hl.
    intros i Hi. exists list_empty_head. split; [|apply Hl]. apply elem_of_list_to_map.
    + rewrite <- list_fmap_compose, (list_fmap_ext _ id) by done. rewrite list_fmap_id. apply NoDup_seqZ.
    + apply list_elem_of_fmap. exists i. split; [done|]. apply elem_of_seqZ. lia.
  - by exists (fun _ => 0%nat).
  - by intros o []%elem_of_nil.
Qed.

(** [pframe_free] unlinks the frame from its object's list after
    [slab_obj_free]: where freed objects are not readable, every run that
    frees a page is undefined. *)
Theorem pframe_free_use_after_free s R pf x : slab_keeps = false -> owns s R -> pframes s !! pf = Some x ->
  pf_pincount x = 0 -> pframe_free pf s = Err FUndef.
Proof.
  intros Hk W Hx Hp. by apply (free_page_undef mmo_put s (edges s) R pf x).
Qed.

(** [pframe_remove_from_pts] unmaps a page everywhere and nothing else: no
    page table of a process that maps the page's object still has an entry
    for it, and every other entry is as before. *)
Theorem pframe_remove_from_pts_correct s R pf x : owns s R -> area_ranges s -> pframes s !! pf = Some x ->
  exists y s', mmobjs s !! pf_obj x = Some y /\ pframe_remove_from_pts pf s = Ok (tt, s') /\
    (exists b, mmobjs s !! mmobj_bottom_obj (pf_obj x) y = Some b /\
      (forall v pd pn, v ∈ list_items (mmo_vmas b) -> maps_page s v (pf_pagenum x) pd pn ->
         pt_entry (mm_hw s') pd pn = None) /\
      (forall pd pn, (forall v, v ∈ list_items (mmo_vmas b) -> ~ maps_page s v (pf_pagenum x) pd pn) ->
         pt_entry (mm_hw s') pd pn = pt_entry (mm_hw s) pd pn)) /\
    exists h, s' = upd_hw (fun _ => h) s.
Proof.
  intros W Ha Hx. pose proof (settled_mapped s _ R _ W (w_settled _ _ _ W _ _ Hx)) as Hm.
  destruct (remove_from_pts_run s pf x Hx Hm) as [h Hr]. destruct Hm as (y & b & Hy & Hb & Hv).
  exists y, (upd_hw (fun _ => h) s). split; [done|]. split; [done|]. split; [|by exists h]. exists b. split; [done|].
  unfold pframe_remove_from_pts, mmobj_bottom_vmas in Hr. rewrite (mbind_run _ _ _ _ _ (load_pf_run _ _ _ Hx)) in Hr.
  rewrite (mbind_run _ _ s (list_items (mmo_vmas b)) s) in Hr.
  - destruct (unmap_loop_entries _ _ _ _ Ha Hr) as (H1 & _ & H3). done.
  - rewrite (mbind_run _ _ _ _ _ (load_mmo_run _ _ _ Hy)). by rewrite (mbind_run _ _ _ _ _ (load_mmo_run _ _ _ Hb)).
Qed.
End Frames.
