(* ===== verification/MmCow.v ===== *)
(** * Copy on write

    [shows s G o n d]: page [n] of object [o] reads as the bytes [d]: those of
    the first resident page down the chain of shadow objects, or zeros when
    no object of the chain has the page.  Looking a page up never changes
    what any object shows; a page looked up for writing is private to its
    object, so a store to it changes what that object and the objects above
    it show and nothing else. *)
From stdpp Require Import base gmap list fin_maps fin_sets.
From Stdlib Require Import ZArith Lia.
From S2P Require Import Prelude KEnv Vmmap MmObj MmInv MmPut.
Open Scope Z_scope.
Open Scope c_scope.

Section Cow.
Context `{KL : KList} `{SL : Slab} `{KG : KGeometry} `{MU : !Mmu} `{PA : !PageAlloc} `{MH : !MmHeader}.
Context `{PU : !PtUnmap} `{VO : !VnodeObjs} `{ER : KErrno}.

(** ** What an object shows *)
Definition absent (s : mms) (o n : Z) : Prop := forall pf, ~ resident s o n pf.
Definition none (s : mms) (l : list Z) (n : Z) : Prop := forall o, o ∈ l -> absent s o n.
Definition found (s : mms) (l : list Z) (n pf : Z) : Prop := exists l1 o l2,
  l = l1 ++ o :: l2 /\ none s l1 n /\ resident s o n pf.
Definition shows (s : mms) (G : gmap Z (Z * Z)) (o n : Z) (d : list Z) : Prop := exists l, chain G o l /\
  ((exists pf, found s l n pf /\ content s pf d) \/
   (none s l n /\ d = zero_page /\ exists b y, last l = Some b /\ mmobjs s !! b = Some y /\ mmo_ops y = anon_mmobj_ops)).

Lemma chain_unique G o l l' : chain G o l -> chain G o l' -> l = l'.
Proof.
  intros Hl. revert l'. induction Hl as [o Ho|o a b l Ho Hl IH]; intros l' Hl'; inversion Hl'; simplify_eq; try congruence.
  f_equal. apply IH. congruence.
Qed.
Lemma found_here s o l n pf : resident s o n pf -> found s (o :: l) n pf.
Proof. intros H. exists [], o, l. split; [done|]. split; [by intros ? []%elem_of_nil|done]. Qed.
Lemma found_next s o l n pf : absent s o n -> found s l n pf -> found s (o :: l) n pf.
Proof.
  intros Ho (l1 & p & l2 & -> & Hn & Hr). exists (o :: l1), p, l2. split; [done|]. split; [|done].
  intros q [->|Hq]%elem_of_cons; [done|by apply Hn].
Qed.
Lemma none_cons s o l n : none s (o :: l) n <-> absent s o n /\ none s l n.
Proof.
  unfold none. split.
  - intros H. split; [apply H; by left|]. intros q Hq. apply H. by right.
  - intros [H1 H2] q [->|Hq]%elem_of_cons; [done|by apply H2].
Qed.
Lemma found_not_none s l n pf : found s l n pf -> ~ none s l n.
Proof. intros (l1 & o & l2 & -> & _ & Hr) Hn. apply (Hn o) with pf; [set_solver|done]. Qed.
Lemma found_unique s l n pf pf' : pages_inv s -> found s l n pf -> found s l n pf' -> pf = pf'.
Proof.
  intros K. revert pf pf'. induction l as [|o l IH]; intros pf pf' H H'.
  { destruct H as (l1 & ? & ? & E & _). by destruct l1. }
  assert (forall q, found s (o :: l) n q -> resident s o n q \/ (absent s o n /\ found s l n q)) as Hcase.
  { intros q (l1 & p & l2 & E & Hn & Hr). destruct l1 as [|z l1]; injection E as -> ->; [by left|right].
    apply none_cons in Hn as [Ha Hn]. split; [done|]. by exists l1, p, l2. }
  destruct (Hcase _ H) as [R1|[A1 F1]], (Hcase _ H') as [R2|[A2 F2]].
  - by apply (resident_unique s o n).
  - by destruct (A2 pf).
  - by destruct (A1 pf').
  - by apply IH.
Qed.
Lemma shows_unique s G o n d d' : pages_inv s -> shows s G o n d -> shows s G o n d' -> d = d'.
Proof.
  intros K (l & Hl & H) (l' & Hl' & H'). rewrite (chain_unique _ _ _ _ Hl' Hl) in H'.
  destruct H as [(pf & Hf & x & Hx & Hd)|(Hn & -> & _)], H' as [(pf' & Hf' & x' & Hx' & Hd')|(Hn' & -> & _)].
  - rewrite (found_unique s l n pf' pf K Hf' Hf) in Hx'. simplify_eq. done.
  - by destruct (found_not_none _ _ _ _ Hf).
  - by destruct (found_not_none _ _ _ _ Hf').
  - done.
Qed.

(** ** The graph of objects, while pages may be busy *)
Record graph (s : mms) (G : gmap Z (Z * Z)) : Prop := {
  gr_edges o a b : G !! o = Some (a, b) -> edge_ok s G o a b;
  gr_null : mmobjs s !! 0 = None;
  gr_plain o y : mmobjs s !! o = Some y -> mmo_ops y <> shadow_mmobj_ops -> mmo_shadowed y = 0;
  gr_rank : ranked G;
  gr_refs o y : mmobjs s !! o = Some y -> 0 < mmo_refcount y;
}.
Lemma pages_null s : pages_inv s -> mmobjs s !! 0 = None.
Proof. intros K. destruct (mmobjs s !! 0) eqn:E; [|done]. by destruct (o_ptr _ _ _ (p_objs _ K _ _ E)). Qed.
Lemma owned_graph s G R : owned s G R -> graph s G.
Proof.
  intros W. split.
  - apply (w_edges _ _ _ W).
  - apply pages_null, W.
  - intros o y Hy Hk. by apply (w_plain _ _ _ W o).
  - apply (w_rank _ _ _ W).
  - intros o y Hy. by apply (owned_refcount s G R o).
Qed.
(** Objects keep their kind and links and stay referenced. *)
Record same_graph (s s' : mms) : Prop := {
  sg_objs p : option_relation same_kind (fun _ => False) (fun _ => False) (mmobjs s' !! p) (mmobjs s !! p);
  sg_refs p y y' : mmobjs s !! p = Some y -> mmobjs s' !! p = Some y' -> mmo_refcount y <= mmo_refcount y';
}.
Lemma graph_same s s' G : same_graph s s' -> graph s G -> graph s' G.
Proof.
  intros S [E1 E2 E3 E4 E5].
  assert (forall o, settled s G o -> settled s' G o) as Hset.
  { intros o (y & Hy & Hs). destruct (option_rel_Some' _ _ _ _ (sg_objs _ _ S o) Hy) as (y' & Hy' & K & _). exists y'. by rewrite K. }
  split; [| | |done|].
  - intros o a b Ho. destruct (E1 _ _ _ Ho) as [(y & Hy & K1 & K2 & K3) Hn (z & Hz & Kz) Hm].
    destruct (option_rel_Some' _ _ _ _ (sg_objs _ _ S o) Hy) as (y' & Hy' & L1 & L2 & L3 & _).
    destruct (option_rel_Some' _ _ _ _ (sg_objs _ _ S b) Hz) as (z' & Hz' & M1 & _).
    split; [exists y'; by rewrite L1, L2, L3|by apply Hset|exists z'; by rewrite M1|done].
  - destruct (mmobjs s' !! 0) eqn:E; [|done]. destruct (option_rel_Some _ _ _ _ (sg_objs _ _ S 0) E) as (? & ? & _). congruence.
  - intros o y Hy Hk. destruct (option_rel_Some _ _ _ _ (sg_objs _ _ S o) Hy) as (y0 & Hy0 & L1 & L2 & _).
    rewrite L1 in Hk. rewrite L2. by apply (E3 o).
  - intros o y Hy. destruct (option_rel_Some _ _ _ _ (sg_objs _ _ S o) Hy) as (y0 & Hy0 & _).
    pose proof (sg_refs _ _ S _ _ _ Hy0 Hy). pose proof (E5 _ _ Hy0). lia.
Qed.
Lemma same_graph_id s s' : mmobjs s' = mmobjs s -> same_graph s s'.
Proof. intros E. split; rewrite E; [intros; by apply option_rel_refl, kind_refl|]. intros p y y' ? ?. simplify_eq. lia. Qed.
Lemma same_graph_added s s' pf x d : added s s' pf x d -> same_graph s s'.
Proof.
  intros [_ _ _ _ _ (y & Hy & E) _]. split.
  - intros p. rewrite E. destruct (decide (p = pf_obj x)) as [->|].
    + by rewrite lookup_insert_eq, Hy.
    + rewrite lookup_insert_ne by done. by apply option_rel_refl, kind_refl.
  - intros p z z' Hz. rewrite E. intros [[<- <-]|[Hne Hz']]%lookup_insert_Some; simplify_eq; cbn; lia.
Qed.

(** ** Steps *)
Lemma shows_same s s' G o n d : pframes s' = pframes s -> memory s' = memory s -> mmobjs s' = mmobjs s ->
  shows s' G o n d <-> shows s G o n d.
Proof. intros E1 E2 E3. unfold shows, found, none, absent, resident, content, on_frame. by rewrite E1, E2, E3. Qed.

(** Frame [pf] becomes [x] with the bytes [d]. *)
Record refill (s s' : mms) (pf : Z) (x : pframe) (d : list Z) : Prop := {
  l_frames : pframes s' = <[pf := x]> (pframes s);
  l_mem : memory s' = <[pf_addr x := d]> (memory s);
  l_objs : mmobjs s' = mmobjs s;
  l_env : same_env s s';
}.
Lemma added_refill s s1 s2 pf x x' d d' : added s s1 pf x d -> refill s1 s2 pf x' d' ->
  pf_obj x' = pf_obj x -> pf_addr x' = pf_addr x -> length d' = length d -> added s s2 pf x' d'.
Proof.
  intros [A1 A2 A3 A4 A5 (y & A6 & A7) A8] [L1 L2 L3 (? & ? & ?)] E1 E2 El. split; [done| |congruence| |congruence| |].
  - by rewrite L1, A2, insert_insert_eq.
  - by rewrite L2, A4, E2, insert_insert_eq.
  - exists y. rewrite E1, L3. done.
  - destruct A8 as (? & ? & ?). split_and!; congruence.
Qed.
Lemma quiet_added s s0 s1 pf x d : quiet s s0 -> added s0 s1 pf x d -> added s s1 pf x d.
Proof.
  intros [Q1 Q2 Q3 (? & ? & ?) _] [A1 A2 A3 A4 A5 (y & A6 & A7) (? & ? & ?)]. 
  split; [congruence|congruence|congruence|congruence|done| |split_and!; congruence].
  exists y. split; congruence.
Qed.
Lemma refit_flags s pf x x' : pages_inv s -> pframes s !! pf = Some x -> same_ident x' x ->
  pages_inv (upd_pframes (<[pf := x']>) s) /\ refit s (upd_pframes (<[pf := x']>) s) pf x'.
Proof. intros K Hx Hi. split; [|by split]. eapply pages_inv_eq; [by apply (pages_eq_frame s pf x)|done]. Qed.
Lemma store_page_ok s a d d' : pages_inv s -> memory s !! a = Some d -> length d' = length d ->
  store_page a d' s = Ok (tt, upd_memory (<[a := d']>) s) /\ pages_inv (upd_memory (<[a := d']>) s).
Proof.
  intros K Hd Hl. split.
  - unfold store_page, load_page, mbind_. by rewrite Hd.
  - eapply pages_inv_eq; [by apply (pages_eq_mem s a d)|done].
Qed.
Lemma broadcast_quiet s q : exists s', wake_queue q s = Ok (tt, s') /\ quiet s s'.
Proof. eexists. split; [reflexivity|]. split; [done..|]. intros K. apply (pages_inv_eq s); [by apply pages_eq_rest|done]. Qed.
Lemma guard_run {A} (b : bool) f (k : unit -> M mms A) s : b = true -> (let! u := mguard b f in k u) s = k tt s.
Proof. by intros ->. Qed.

(** Filling a frame with [d]: a fill that pins the frame and stores [d]. *)
Definition fills (fill : M mms Z) (s : mms) (pf : Z) (x : pframe) (d : list Z) : Prop :=
  exists s', fill s = Ok (0, s') /\ pages_inv s' /\ refill s s' pf (with_pincount (pf_pincount x + 1) x) d.
Lemma zero_page_length : length zero_page = Z.to_nat PAGE_SIZE.
Proof. apply length_replicate. Qed.
Lemma frame_page s pf x : pages_inv s -> pframes s !! pf = Some x ->
  exists d, memory s !! pf_addr x = Some d /\ length d = Z.to_nat PAGE_SIZE.
Proof. intros K Hx. apply (f_mem _ _ _ (p_frames _ K _ _ Hx)). Qed.

Lemma anon_fill_ok s o pf x : pages_inv s -> pframes s !! pf = Some x -> pf_busy x = true -> pf_pincount x = 0 ->
  fills (anon_fillpage o pf) s pf x zero_page.
Proof.
  intros K Hx Hb Hp. unfold fills, anon_fillpage. rewrite (mbind_run _ _ _ _ _ (load_pf_run _ _ _ Hx)).
  rewrite assert_run by done. unfold pframe_is_pinned. rewrite assert_run by (by rewrite Hp).
  destruct (pframe_pin_ok s pf x K Hx) as (s1 & Hr & K1 & [R1 R2 R3 R4]). rewrite (mbind_run _ _ _ _ _ Hr).
  set (x1 := with_pincount _ x) in *. assert (pframes s1 !! pf = Some x1) as Hx1 by (rewrite R1; apply lookup_insert_eq).
  rewrite (mbind_run _ _ _ _ _ (load_pf_run _ _ _ Hx1)). destruct (frame_page s1 pf x1 K1 Hx1) as (d & Hd & Hl).
  destruct (store_page_ok s1 (pf_addr x1) d zero_page K1 Hd) as [Hs K2]; [by rewrite Hl, zero_page_length|].
  rewrite (mbind_run _ _ _ _ _ Hs). eexists. split; [reflexivity|]. split; [done|]. split; cbn; [done|by rewrite R3|done|done].
Qed.
(** [memcpy] into the frame, and the pin that follows it. *)
Lemma copy_pin_ok {A} s pf x p d (k : M mms A) : pages_inv s -> pframes s !! pf = Some x -> content s p d ->
  exists s', (copy_page pf p ;;; pframe_pin pf ;;; k) s = k s' /\ pages_inv s' /\
    refill s s' pf (with_pincount (pf_pincount x + 1) x) d.
Proof.
  intros K Hx (y & Hy & Hd). unfold copy_page. destruct (frame_page s pf x K Hx) as (d0 & Hd0 & Hl0).
  destruct (frame_page s p y K Hy) as (d1 & Hd1 & Hl1). rewrite Hd in Hd1. injection Hd1 as <-.
  destruct (store_page_ok s (pf_addr x) d0 d K Hd0) as [Hs K1]; [by rewrite Hl0, Hl1|].
  rewrite (mbind_run _ _ s tt (upd_memory (<[pf_addr x := d]>) s)).
  2: { rewrite (mbind_run _ _ _ _ _ (load_pf_run _ _ _ Hx)), (mbind_run _ _ _ _ _ (load_pf_run _ _ _ Hy)).
       unfold load_page at 1, mbind_ at 1. rewrite Hd. exact Hs. }
  destruct (pframe_pin_ok _ pf x K1 Hx) as (s1 & Hr & K2 & [R1 R2 R3 R4]). rewrite (mbind_run _ _ _ _ _ Hr).
  exists s1. split; [done|]. split; [done|]. split; [done|done|done|done].
Qed.

(** [pframe_fill] around a fill: the frame is busy in between. *)
Lemma pframe_fill_run lookup s pf x e s2 x2 : pframes s !! pf = Some x ->
  fillpage_ lookup (pf_obj x) pf (upd_pframes (<[pf := with_busy true x]>) s) = Ok (e, s2) ->
  pages_inv s2 -> pframes s2 !! pf = Some x2 ->
  exists s3, pframe_fill_ lookup pf s = Ok (e, s3) /\ pages_inv s3 /\ refit s2 s3 pf (with_busy false x2).
Proof.
  intros Hx Hf K2 Hx2. unfold pframe_fill_. rewrite (mbind_run _ _ _ _ _ (store_pf_run _ _ _ _ Hx)).
  rewrite (mbind_run _ _ _ _ _ (load_pf_run (upd_pframes _ s) pf (with_busy true x) (lookup_insert_eq _ _ _))).
  cbn [pf_obj with_busy]. rewrite (mbind_run _ _ _ _ _ Hf), (mbind_run _ _ _ _ _ (store_pf_run _ _ _ _ Hx2)).
  destruct (refit_flags s2 pf x2 (with_busy false x2) K2 Hx2) as [K3 [R1 R2 R3 R4]]; [done|].
  destruct (broadcast_quiet (upd_pframes (<[pf := with_busy false x2]>) s2) (pf_waitq pf)) as (s4 & Hq & [Q1 Q2 Q3 Q4 Q5]).
  rewrite (mbind_run _ _ _ _ _ Hq). exists s4. split; [done|]. split; [by apply Q5|].
  split; [congruence|congruence|congruence|].
  destruct R4 as (? & ? & ?), Q4 as (? & ? & ?). split_and!; congruence.
Qed.
Lemma refill_refit s s1 s2 pf x x' d : refill s s1 pf x d -> refit s1 s2 pf x' -> pf_addr x' = pf_addr x -> refill s s2 pf x' d.
Proof.
  intros [L1 L2 L3 (? & ? & ?)] [R1 R2 R3 (? & ? & ?)] E. split; [|congruence|congruence|split_and!; congruence].
  by rewrite R1, L1, insert_insert_eq.
Qed.
Lemma pframe_fill_ok lookup s pf x d : pages_inv s -> pframes s !! pf = Some x -> pf_busy x = false ->
  fills (fillpage_ lookup (pf_obj x) pf) (upd_pframes (<[pf := with_busy true x]>) s) pf (with_busy true x) d ->
  exists s', pframe_fill_ lookup pf s = Ok (0, s') /\ pages_inv s' /\ refill s s' pf (with_pincount (pf_pincount x + 1) x) d.
Proof.
  intros K Hx Hb (s2 & Hf & K2 & F). set (x2 := with_pincount _ _) in *.
  assert (pframes s2 !! pf = Some x2) as Hx2 by (rewrite (l_frames _ _ _ _ _ F); apply lookup_insert_eq).
  destruct (pframe_fill_run lookup s pf x 0 s2 x2 Hx Hf K2 Hx2) as (s3 & Hr & K3 & R). exists s3. split; [done|]. split; [done|].
  assert (with_busy false x2 = with_pincount (pf_pincount x + 1) x) as Ex by (destruct x; cbn in *; by subst).
  rewrite Ex in R. destruct (refill_refit _ _ _ _ _ _ _ F R eq_refl) as [L1 L2 L3 L4].
  split; [|done|done|done]. rewrite L1. cbn. by rewrite insert_insert_eq.
Qed.

(** ** pframe_get *)
(** The end of [pframe_get] for a new frame. *)
Definition get_fill (lookup : Z -> Z -> bool -> M mms (Z * Z)) (pf : Z) : M mms (Z * Z) :=
  let! code := pframe_fill_ lookup pf in
  if code <? 0 then mret_ (code, 0)
  else
    KASSERT (negb (pf =? 0)) ;;;
    let! x := load_pf pf in
    KASSERT (negb (pf_busy x)) ;;;
    mret_ (0, pf).
(** The page is found, or there is no memory, or a frame is allocated. *)
Inductive get_case (lookup : Z -> Z -> bool -> M mms (Z * Z)) (s : mms) (o n : Z) : Prop :=
| get_found pf s' : resident s o n pf -> quiet s s' -> pframe_get_ lookup o n s = Ok ((0, pf), s') -> get_case lookup s o n
| get_nomem s' : absent s o n -> quiet s s' -> slab_pick (pframes s) = None \/ page_pick (memory s) = None ->
    pframe_get_ lookup o n s = Ok ((- ENOMEM, 0), s') -> get_case lookup s o n
| get_new pf a d s' : absent s o n -> pages_inv s' -> pf <> 0 -> page_pick (memory s) = Some (a, d) -> added s s' pf (mkPframe o n a false false 0) d ->
    pframe_get_ lookup o n s = get_fill lookup pf s' -> get_case lookup s o n.
Lemma enomem_neg : (- ENOMEM <? 0) = true.
Proof. apply Z.ltb_lt. pose proof errno_pos as H. rewrite !Forall_cons in H. lia. Qed.
Lemma pframe_get_cases lookup s o n y : pages_inv s -> mmobjs s !! o = Some y -> 0 < mmo_refcount y ->
  (forall pf x, resident s o n pf -> pframes s !! pf = Some x -> pf_busy x = false) -> get_case lookup s o n.
Proof.
  intros K Hy Hp Hb. destruct (pframe_get_resident_ok s o n K) as (pf & s0 & Hr & Q & Hc).
  destruct Q as [Q1 Q2 Q3 Q4 Q5] eqn:EQ. clear EQ. destruct Hc as [[-> Ha]|[Hnz Hres]].
  - set (need := (page_free_count (memory s0) <=? nfreepages_min s0) && negb (bool_decide (list_items (alloc_list s0) = []))).
    assert (exists s1, (if need then wake_queue pageoutd_waitq else mret_ tt) s0 = Ok (tt, s1) /\ quiet s s1) as (s1 & Hn & Q').
    { destruct need; [|by exists s0]. destruct (broadcast_quiet s0 pageoutd_waitq) as (s1 & H1 & Q').
      exists s1. split; [done|]. by apply (quiet_trans s s0). }
    assert (mmobjs s1 !! o = Some y) as Hy1 by (by rewrite (q_objs _ _ Q')).
    assert (absent s1 o n) as Ha1 by (unfold absent, resident, on_frame; by rewrite (q_frames _ _ Q')).
    destruct (pframe_alloc_ok s1 o n y (q_inv _ _ Q' K) Hy1 Hp Ha1) as [[Hal Hno]|(pf & a & d & s2 & Hal & K2 & Hpf & Hpk & A)].
    + rewrite (q_frames _ _ Q'), (q_mem _ _ Q') in Hno. apply (get_nomem _ _ _ _ s1); try done. unfold pframe_get_.
      rewrite (mbind_run _ _ _ _ _ Hr). cbn [Z.eqb negb]. rewrite (mbind_run _ _ s0 (- ENOMEM, 0) s1); [by rewrite enomem_neg|].
      unfold pageoutd_needed. rewrite (mbind_run (mget _) _ s0 _ s0 eq_refl). fold need. rewrite (mbind_run _ _ _ _ _ Hn).
      by rewrite (mbind_run _ _ _ _ _ Hal).
    + apply (get_new _ _ _ _ pf a d s2); [done|done|done|by rewrite <- (q_mem _ _ Q')|by apply (quiet_added s s1)|]. unfold pframe_get_, get_fill.
      rewrite (mbind_run _ _ _ _ _ Hr). cbn [Z.eqb negb]. unfold pageoutd_needed.
      unfold mbind_. cbn [mget]. fold need. rewrite Hn, Hal, (proj2 (Z.eqb_neq pf 0) Hpf).
      destruct (pframe_fill_ lookup pf s2) as [[code s3]|]; [|done]. unfold mret_. cbv beta iota.
      by rewrite (proj2 (Z.eqb_neq pf 0) Hpf).
  - apply (get_found _ _ _ _ pf s0); [done|by split|]. destruct Hres as (x & Hx & E1 & E2).
    assert (pf_busy x = false) as Hbx by (apply (Hb pf); [by exists x|done]).
    assert (pframes s0 !! pf = Some x) as Hx0 by (by rewrite Q1). unfold pframe_get_. rewrite (mbind_run _ _ _ _ _ Hr).
    rewrite (proj2 (Z.eqb_neq pf 0) Hnz). cbn [negb]. rewrite (mbind_run _ _ s0 (0, pf) s0).
    + change (0 <? 0) with false. cbn iota. rewrite assert_run by (by apply negb_true_iff, Z.eqb_neq).
      rewrite (mbind_run _ _ _ _ _ (load_pf_run _ _ _ Hx0)), Hbx. by rewrite assert_run.
    + rewrite (mbind_run _ _ _ _ _ (load_pf_run _ _ _ Hx0)), Hbx. by rewrite guard_run.
Qed.
(** After a fill that succeeded. *)
Lemma get_fill_ok lookup s s' pf x : pframe_fill_ lookup pf s = Ok (0, s') -> pf <> 0 ->
  pframes s' !! pf = Some x -> pf_busy x = false -> get_fill lookup pf s = Ok ((0, pf), s').
Proof.
  intros Hf Hpf Hx Hb. unfold get_fill. rewrite (mbind_run _ _ _ _ _ Hf). change (0 <? 0) with false. cbn iota.
  rewrite assert_run by (by apply negb_true_iff, Z.eqb_neq). rewrite (mbind_run _ _ _ _ _ (load_pf_run _ _ _ Hx)), Hb.
  by rewrite assert_run.
Qed.

(** [pframe_get] on an anonymous object. *)
Inductive anon_got (s : mms) (o n : Z) (r : outcome (Z * Z * mms)) : Prop :=
| anon_found pf s' : resident s o n pf -> quiet s s' -> r = Ok ((0, pf), s') -> anon_got s o n r
| anon_nomem s' : quiet s s' -> slab_pick (pframes s) = None \/ page_pick (memory s) = None ->
    r = Ok ((- ENOMEM, 0), s') -> anon_got s o n r
| anon_new pf a s' : absent s o n -> pages_inv s' -> pf <> 0 ->
    added s s' pf (mkPframe o n a false false 1) zero_page -> r = Ok ((0, pf), s') -> anon_got s o n r.
Lemma anon_get_ok lookup s o n y : pages_inv s -> mmobjs s !! o = Some y -> 0 < mmo_refcount y ->
  mmo_ops y = anon_mmobj_ops -> (forall pf x, resident s o n pf -> pframes s !! pf = Some x -> pf_busy x = false) ->
  anon_got s o n (pframe_get_ lookup o n s).
Proof.
  intros K Hy Hp Hk Hb. destruct (pframe_get_cases lookup s o n y K Hy Hp Hb) as [pf s' ? ? E|s' ? ? ? E|pf a d s1 Ha K1 Hpf Hpk A E].
  - by eapply anon_found.
  - by eapply anon_nomem.
  - set (x := mkPframe o n a false false 0) in *.
    assert (pframes s1 !! pf = Some x) as Hx by (rewrite (a_frames _ _ _ _ _ A); apply lookup_insert_eq).
    destruct (option_rel_Some' _ _ _ _ (sg_objs _ _ (same_graph_added _ _ _ _ _ A) o) Hy) as (y1 & Hy1 & Hk1 & _).
    set (s1b := upd_pframes (<[pf := with_busy true x]>) s1).
    destruct (refit_flags s1 pf x (with_busy true x) K1 Hx) as [K1b _]; [done|].
    destruct (pframe_fill_ok lookup s1 pf x zero_page K1 Hx eq_refl) as (s2 & Hf & K2 & F).
    { unfold fills, fillpage_. change (mmobjs s1 !! o = Some y1) with (mmobjs s1b !! o = Some y1) in Hy1.
      rewrite (mbind_run _ _ _ _ _ (load_mmo_run _ _ _ Hy1)), Hk1, Hk. apply anon_fill_ok; [done|apply lookup_insert_eq|done|done]. }
    assert (added s s2 pf (mkPframe o n a false false 1) zero_page) as A2.
    { eapply (added_refill s s1 s2); [exact A|exact F|done..|]. by rewrite (a_len _ _ _ _ _ A), zero_page_length. }
    eapply anon_new; [done|done|done|exact A2|]. rewrite E. apply (get_fill_ok _ _ _ _ (mkPframe o n a false false 1)); try done.
    rewrite (a_frames _ _ _ _ _ A2). apply lookup_insert_eq.
Qed.

(** ** The loops along the chain *)
Lemma quiet_absent s s' o n : quiet s s' -> absent s' o n <-> absent s o n.
Proof. intros Q. unfold absent, resident, on_frame. by rewrite (q_frames _ _ Q). Qed.
Lemma quiet_none s s' l n : quiet s s' -> none s' l n <-> none s l n.
Proof. intros Q. unfold none. by setoid_rewrite (quiet_absent s s' _ n Q). Qed.
Lemma quiet_found s s' l n pf : quiet s s' -> found s' l n pf <-> found s l n pf.
Proof.
  intros Q. unfold found. setoid_rewrite (quiet_none s s' _ n Q). unfold resident, on_frame. by rewrite (q_frames _ _ Q).
Qed.
Lemma chain_head G o l : chain G o l -> exists l', l = o :: l'.
Proof. destruct 1; by eexists. Qed.
Lemma graph_quiet s s' G : quiet s s' -> graph s G -> graph s' G.
Proof. intros Q. apply graph_same, same_graph_id, (q_objs _ _ Q). Qed.
(** The object at the end of a chain, and the others, as the loops see them. *)
Lemma chain_load s G o l : graph s G -> settled s G o -> chain G o l -> exists y, load_mmo o s = Ok (y, s) /\
  ((mmo_shadowed y = 0 /\ l = [o]) \/
   exists l', mmo_shadowed y <> 0 /\ l = o :: l' /\ chain G (mmo_shadowed y) l' /\ settled s G (mmo_shadowed y)).
Proof.
  intros Hg Hs Hl. destruct Hl as [o Ho|o a b l Ho Hl].
  - destruct Hs as (y & Hy & Hs). exists y. split; [by apply load_mmo_run|left]. split; [|done].
    apply (gr_plain _ _ Hg o); [done|]. destruct Hs as [?|[? ?]]; congruence.
  - destruct (gr_edges _ _ Hg _ _ _ Ho) as [(y & Hy & _ & <- & _) Hn _ _]. exists y. split; [by apply load_mmo_run|right].
    exists l. split_and!; try done. destruct Hn as (z & Hz & _). intros E. rewrite E, (gr_null _ _ Hg) in Hz. done.
Qed.

Lemma shadow_read_loop_ok G n l : forall fuel s o, pages_inv s -> graph s G -> settled s G o -> chain G o l -> (length l <= fuel)%nat ->
  exists p s', shadow_read_loop fuel o n s = Ok (p, s') /\ quiet s s' /\
    ((p <> 0 /\ found s l n p) \/ (p = 0 /\ none s (removelast l) n)).
Proof.
  induction l as [|o' l IH]; intros fuel s o K Hg Hs Hl Hf; [by apply chain_head in Hl as [? ?]|].
  destruct fuel as [|fuel]; [cbn in Hf; lia|]. cbn [shadow_read_loop length] in *.
  destruct (chain_load s G o _ Hg Hs Hl) as (y & Hy & Hc). rewrite (mbind_run _ _ _ _ _ Hy).
  destruct Hc as [(-> & [= -> ->])|(l' & Hnz & [= -> ->] & Hl' & Hs')].
  { exists 0, s. split; [done|]. split; [apply quiet_refl|right]. split; [done|]. by intros ? []%elem_of_nil. }
  rewrite (proj2 (Z.eqb_neq _ 0) Hnz). destruct (pframe_get_resident_ok s o n K) as (p & s1 & Hr & Q & Hp).
  rewrite (mbind_run _ _ _ _ _ Hr). destruct Hp as [[-> Ha]|[Hp Hres]].
  - cbn [Z.eqb negb]. destruct (IH fuel s1 (mmo_shadowed y)) as (p & s2 & Hr2 & Q2 & Hc); [by apply Q|by apply (graph_quiet s)| |done|lia|].
    { destruct Hs' as (z & Hz & Hzz). exists z. by rewrite (q_objs _ _ Q). }
    exists p, s2. split; [done|]. split; [by apply (quiet_trans s s1)|]. destruct (chain_head _ _ _ Hl') as [l2 ->].
    destruct Hc as [[Hp Hc]|[-> Hc]]; [left|right]; (split; [done|]).
    + apply found_next; [done|]. by apply (quiet_found s s1).
    + change (removelast (o :: mmo_shadowed y :: l2)) with (o :: removelast (mmo_shadowed y :: l2)). apply none_cons.
      split; [done|]. by apply (quiet_none s s1).
  - rewrite (proj2 (Z.eqb_neq p 0) Hp). cbn [negb]. exists p, s1. split; [done|]. split; [done|left]. split; [done|]. by apply found_here.
Qed.

Lemma shadow_fill_loop_ok G n pf x l : forall fuel s o, pages_inv s -> graph s G -> settled s G o -> chain G o l -> (length l <= fuel)%nat ->
  pframes s !! pf = Some x -> pf_pagenum x = n ->
  exists p s', shadow_fill_loop fuel o pf s = Ok (p, s') /\
    ((p <> 0 /\ exists d s0, found s (tail l) n p /\ content s p d /\ quiet s s0 /\ pages_inv s' /\
        refill s0 s' pf (with_pincount (pf_pincount x + 1) x) d) \/
     (p = 0 /\ none s (tail l) n /\ quiet s s')).
Proof.
  induction l as [|o' l IH]; intros fuel s o K Hg Hs Hl Hf Hx Hn; [by apply chain_head in Hl as [? ?]|].
  destruct fuel as [|fuel]; [cbn in Hf; lia|]. cbn [shadow_fill_loop length tail] in *.
  destruct (chain_load s G o _ Hg Hs Hl) as (y & Hy & Hc). rewrite (mbind_run _ _ _ _ _ Hy).
  destruct Hc as [(-> & [= -> ->])|(l' & Hnz & [= -> ->] & Hl' & Hs')].
  { exists 0, s. split; [done|right]. split; [done|]. split; [by intros ? []%elem_of_nil|apply quiet_refl]. }
  rewrite (proj2 (Z.eqb_neq _ 0) Hnz). rewrite (mbind_run _ _ _ _ _ (load_pf_run _ _ _ Hx)), Hn.
  destruct (pframe_get_resident_ok s (mmo_shadowed y) n K) as (p & s1 & Hr & Q & Hp).
  rewrite (mbind_run _ _ _ _ _ Hr). pose proof (q_inv _ _ Q K) as K1.
  assert (pframes s1 !! pf = Some x) as Hx1 by (by rewrite (q_frames _ _ Q)).
  destruct (chain_head _ _ _ Hl') as [l2 El2]. destruct Hp as [[-> Ha]|[Hp Hres]].
  - cbn [Z.eqb negb]. destruct (IH fuel s1 (mmo_shadowed y)) as (p & s2 & Hr2 & Hc); [done|by apply (graph_quiet s)| |done|lia|done|done|].
    { destruct Hs' as (z & Hz & Hzz). exists z. by rewrite (q_objs _ _ Q). }
    exists p, s2. split; [done|]. rewrite El2 in *. cbn [tail] in Hc.
    destruct Hc as [(Hp & d & s0 & Hc & Hd & Q0 & K2 & F)|(-> & Hc & Q2)]; [left|right]; (split; [done|]).
    + exists d, s0. split; [apply found_next; [done|]; by apply (quiet_found s s1)|].
      split; [|split; [by apply (quiet_trans s s1)|done]]. unfold content in *. by rewrite <- (q_frames _ _ Q), <- (q_mem _ _ Q).
    + split; [|by apply (quiet_trans s s1)]. apply none_cons. split; [done|]. by apply (quiet_none s s1).
  - rewrite (proj2 (Z.eqb_neq p 0) Hp). cbn [negb]. destruct Hres as (z & Hz & Ez1 & Ez2).
    destruct (frame_page s p z K Hz) as (d & Hd & _). assert (content s1 p d) as Hd1.
    { exists z. by rewrite (q_frames _ _ Q), (q_mem _ _ Q). }
    destruct (copy_pin_ok s1 pf x p d (mret_ p) K1 Hx1 Hd1) as (s2 & Hr2 & K2 & F). exists p, s2. split; [done|left]. split; [done|].
    exists d, s1. split; [rewrite El2; apply found_here; by exists z|]. split; [by exists z|]. done.
Qed.

(** ** Filling a page of a shadow object *)
Lemma chain_last s G o l b : graph s G -> chain G o l -> match G !! o with Some (_, b') => b' = b | None => o = b end ->
  last l = Some b.
Proof.
  intros Hg Hl. induction Hl as [o Ho|o a b' l Ho Hl IH]; rewrite Ho.
  - by intros ->.
  - intros ->. destruct (gr_edges _ _ Hg _ _ _ Ho) as [_ _ _ Hm]. destruct (chain_head _ _ _ Hl) as [l' ->].
    rewrite <- (IH Hm). done.
Qed.
Lemma graph_size s G o l : graph s G -> settled s G o -> chain G o l -> (length l <= size (mmobjs s))%nat.
Proof. intros Hg. apply chain_size; [apply (gr_rank _ _ Hg)|]. intros p a b Hp. apply (gr_edges _ _ Hg _ _ _ Hp). Qed.

(** [d] is what the objects of [l] show, the last of which is anonymous. *)
Definition chain_shows (s : mms) (l : list Z) (n : Z) (d : list Z) : Prop :=
  (exists p, found s l n p /\ content s p d) \/ (none s l n /\ d = zero_page).
(** Nothing happens, or the anonymous object [b] gets a zero page [n]. *)
Definition maybe_zero (s s' : mms) (b n : Z) : Prop :=
  quiet s s' \/ exists pf a, absent s b n /\ added s s' pf (mkPframe b n a false false 1) zero_page.
Definition nomem (s : mms) : Prop := slab_pick (pframes s) = None \/ page_pick (memory s) = None.

Lemma shadow_fill_ok k s G o a b l n pf x yb : pages_inv s -> graph s G -> G !! o = Some (a, b) -> chain G a l ->
  pframes s !! pf = Some x -> pf_pagenum x = n -> pf_busy x = true -> pf_pincount x = 0 ->
  mmobjs s !! b = Some yb -> mmo_ops yb = anon_mmobj_ops ->
  exists e s', shadow_fillpage_ (lookuppage_ (S k)) o pf s = Ok (e, s') /\
    ((e = 0 /\ pages_inv s' /\ exists d sm, chain_shows s l n d /\ maybe_zero s sm b n /\
        refill sm s' pf (with_pincount (pf_pincount x + 1) x) d) \/
     (e = - ENOMEM /\ quiet s s' /\ nomem s)).
Proof.
  intros K Hg Ho Hl Hx Hn Hb Hp Hyb Hkb. destruct (gr_edges _ _ Hg _ _ _ Ho) as [(y & Hy & Hk & Ha & Hbot) Hs Hbb Hsame].
  assert (settled s G o) as Hso by (exists y; split; [done|right; by eexists]).
  assert (chain G o (o :: l)) as Hol by by eapply chain_shadow.
  unfold shadow_fillpage_. rewrite (mbind_run _ _ _ _ _ (load_pf_run _ _ _ Hx)). rewrite assert_run by done.
  unfold pframe_is_pinned. rewrite assert_run by (by rewrite Hp). rewrite (mbind_run (mget _) _ s _ s eq_refl).
  destruct (shadow_fill_loop_ok G n pf x (o :: l) (size (mmobjs s)) s o K Hg Hso Hol) as (p & s1 & Hr & Hc);
    [by apply (graph_size s G o)|done|done|]. cbn [tail] in Hc. rewrite (mbind_run _ _ _ _ _ Hr).
  destruct Hc as [(Hpz & d & s0 & Hf & Hd & Q & K1 & F)|(-> & Hnone & Q)].
  { rewrite (proj2 (Z.eqb_neq p 0) Hpz). exists 0, s1. split; [done|left]. split; [done|]. split; [done|]. exists d, s0.
    split; [left; by exists p|]. split; [by left|done]. }
  change (0 =? 0) with true. cbn iota. pose proof (q_inv _ _ Q K) as K1.
  assert (mmobjs s1 !! o = Some y /\ mmobjs s1 !! b = Some yb) as [Hy1 Hyb1] by by rewrite (q_objs _ _ Q).
  assert (pframes s1 !! pf = Some x) as Hx1 by by rewrite (q_frames _ _ Q).
  rewrite (mbind_run _ _ _ _ _ (load_mmo_run _ _ _ Hy1)), (mbind_run _ _ _ _ _ (load_pf_run _ _ _ Hx1)), Hbot, Hn.
  pose proof (o_ptr _ _ _ (p_objs _ K _ _ Hyb)) as Hb0. rewrite assert_run by (by apply negb_true_iff, Z.eqb_neq).
  assert (absent s b n) as Hab.
  { apply Hnone. pose proof (chain_last s G a l b Hg Hl Hsame) as Hlast. apply last_Some in Hlast as [l' ->]. set_solver. }
  assert (lookuppage_ (S k) b n false s1 = pframe_get_ (lookuppage_ k) b n s1) as El.
  { cbn [lookuppage_]. by rewrite (mbind_run _ _ _ _ _ (load_mmo_run _ _ _ Hyb1)), Hkb. }
  assert (absent s1 b n) as Hab1 by by apply (quiet_absent s).
  destruct (anon_get_ok (lookuppage_ k) s1 b n yb K1 Hyb1) as [q s2 Hq _ _|s2 Q2 Hno E|q ab s2 _ K2 Hq A E];
    [apply (gr_refs _ _ Hg b); done|done|intros q z Hq; by destruct (Hab1 q)|by destruct (Hab1 q)| |]; rewrite E in El; clear E.
  - rewrite (mbind_run _ _ _ _ _ El). cbn iota beta. rewrite enomem_neg. exists (- ENOMEM), s2. split; [done|right].
    split; [done|]. split; [by apply (quiet_trans s s1)|]. unfold nomem. by rewrite <- (q_frames _ _ Q), <- (q_mem _ _ Q).
  - rewrite (mbind_run _ _ _ _ _ El). change (0 <? 0) with false. cbn iota.
    assert (pf <> q) as Hne by (intros ->; rewrite (a_fresh _ _ _ _ _ A) in Hx1; done).
    assert (pframes s2 !! pf = Some x) as Hx2 by (by rewrite (a_frames _ _ _ _ _ A), lookup_insert_ne by done).
    destruct (copy_pin_ok s2 pf x q zero_page (mret_ 0) K2 Hx2) as (s3 & Hr3 & K3 & F).
    { eexists. rewrite (a_frames _ _ _ _ _ A), (a_mem _ _ _ _ _ A), lookup_insert_eq. split; [done|]. apply lookup_insert_eq. }
    exists 0, s3. split; [done|left]. split; [done|]. split; [done|]. exists zero_page, s2. split; [by right|]. split; [|done].
    right. exists q, ab. split; [done|]. by apply (quiet_added s s1).
Qed.

(** ** New pages change nothing that is shown *)
Record grows (s s' : mms) (G : gmap Z (Z * Z)) : Prop := {
  x_old pf x : pframes s !! pf = Some x -> pframes s' !! pf = Some x /\ memory s' !! pf_addr x = memory s !! pf_addr x;
  x_new pf x : pframes s' !! pf = Some x -> pframes s !! pf = None ->
    absent s (pf_obj x) (pf_pagenum x) /\ pf_busy x = false /\ pf_pincount x = 1 /\ settled s G (pf_obj x) /\
    exists d, memory s' !! pf_addr x = Some d /\ shows s G (pf_obj x) (pf_pagenum x) d;
  x_objs p : option_relation (fun y' y => same_kind y' y /\ mmo_refcount y' - mmo_nrespages y' = mmo_refcount y - mmo_nrespages y)
    (fun _ => False) (fun _ => False) (mmobjs s' !! p) (mmobjs s !! p);
  x_env : same_env s s';
}.
Lemma grows_quiet s s' G : quiet s s' -> grows s s' G.
Proof.
  intros [Q1 Q2 Q3 Q4 _]. split; [| | |done].
  - intros pf x. by rewrite Q1, Q3.
  - intros pf x. rewrite Q1. congruence.
  - intros p. rewrite Q2. by apply option_rel_refl.
Qed.
Lemma grows_owned s s' G R : owned s G R -> pages_inv s' -> grows s s' G -> owned s' G R.
Proof.
  intros W K X.
  assert (forall o y', mmobjs s' !! o = Some y' -> exists y, mmobjs s !! o = Some y /\ same_kind y' y /\
    mmo_refcount y' - mmo_nrespages y' = mmo_refcount y - mmo_nrespages y) as Hobj
    by (intros o y' Hy'; apply (option_rel_Some _ _ _ _ (x_objs _ _ _ X o) Hy')).
  assert (forall o y, mmobjs s !! o = Some y -> exists y', mmobjs s' !! o = Some y' /\ same_kind y' y) as Hobj'.
  { intros o y Hy. destruct (option_rel_Some' _ _ _ _ (x_objs _ _ _ X o) Hy) as (y' & ? & ? & _). by exists y'. }
  assert (forall o, settled s G o -> settled s' G o) as Hset.
  { intros o (y & Hy & Hs). destruct (Hobj' _ _ Hy) as (y' & Hy' & E & _). exists y'. by rewrite E. }
  assert (forall pf x, pframes s' !! pf = Some x -> pframes s !! pf = Some x \/ pframes s !! pf = None) as Hfr.
  { intros pf x Hx. destruct (pframes s !! pf) as [x0|] eqn:E; [|by right]. left. destruct (x_old _ _ _ X _ _ E). congruence. }
  split; [done|..].
  - intros pf x Hx. destruct (Hfr _ _ Hx) as [H0|H0]; [by apply (w_busy _ _ _ W pf)|by apply (x_new _ _ _ X pf)].
  - intros pf x y' Hx Hy' Hk. destruct (Hobj _ _ Hy') as (y & Hy & [Ek _] & _). rewrite Ek in Hk.
    destruct (Hfr _ _ Hx) as [H0|H0]; [by apply (w_pins _ _ _ W pf x y)|]. destruct (x_new _ _ _ X _ _ Hx H0) as (_ & _ & -> & _). done.
  - intros pf x Hx. apply Hset. destruct (Hfr _ _ Hx) as [H0|H0]; [by apply (w_settled _ _ _ W pf)|by apply (x_new _ _ _ X pf)].
  - intros o y' Hy' Hk. destruct (Hobj _ _ Hy') as (y & Hy & (E1 & E2 & E3 & E4) & _). rewrite E1 in Hk.
    destruct (w_plain _ _ _ W _ _ Hy Hk) as [H0 Hv]. split; [congruence|]. by apply (vmas_ok_env s s' y), Hv; [apply X|].
  - intros o a b Ho. destruct (w_edges _ _ _ W _ _ _ Ho) as [(y & Hy & K1 & K2 & K3) Hn (z & Hz & Kz) Hm].
    destruct (Hobj' _ _ Hy) as (y' & Hy' & E1 & E2 & E3 & _). destruct (Hobj' _ _ Hz) as (z' & Hz' & F1 & _).
    split; [exists y'; by rewrite E1, E2, E3|by apply Hset|exists z'; by rewrite F1|done].
  - apply (w_rank _ _ _ W).
  - intros o Ho. destruct (w_live _ _ _ W o Ho) as [y Hy]. destruct (Hobj' _ _ Hy) as (y' & -> & _). done.
  - intros o y' Hy'. destruct (Hobj _ _ Hy') as (y & Hy & (E1 & _) & E). apply (w_refs _ _ _ W) in Hy. unfold refs_ok in *.
    rewrite E1. destruct (mmo_ops y); lia.
Qed.

(** The first object of the chain shows its own page or what is below. *)
Lemma shows_resident s G o n pf d : ranked G -> resident s o n pf -> content s pf d -> shows s G o n d.
Proof.
  intros Hrk Hr Hd. destruct (chain_exists G o Hrk) as [l Hl]. exists l. split; [done|left]. exists pf. split; [|done].
  destruct (chain_head _ _ _ Hl) as [l' ->]. by apply found_here.
Qed.
Lemma shows_cons s G o a b n d : G !! o = Some (a, b) -> absent s o n -> shows s G o n d <-> shows s G a n d.
Proof.
  intros Ho Ha. split.
  - intros (l & Hl & H). inversion Hl as [|? a' b' l' Ho' Hl']; simplify_eq. exists l'. split; [done|].
    destruct H as [(pf & (l1 & p & l2 & E & Hn & Hr) & Hd)|(Hn & -> & b2 & y & Hlast & Hy)].
    + left. exists pf. split; [|done]. destruct l1 as [|q l1]; injection E as -> ->; [by destruct (Ha pf)|].
      apply none_cons in Hn as [_ Hn]. by exists l1, p, l2.
    + right. apply none_cons in Hn as [_ Hn]. split; [done|]. split; [done|]. exists b2, y. split; [|done].
      destruct (chain_head _ _ _ Hl') as [l2 ->]. done.
  - intros (l & Hl & H). exists (o :: l). split; [by eapply chain_shadow|]. destruct H as [(pf & Hf & Hd)|(Hn & -> & b2 & y & Hlast & Hy)].
    + left. exists pf. split; [|done]. by apply found_next.
    + right. split; [by apply none_cons|]. split; [done|]. exists b2, y. split; [|done]. destruct (chain_head _ _ _ Hl) as [l2 ->]. done.
Qed.
Lemma shows_zero s G o n y : G !! o = None -> mmobjs s !! o = Some y -> mmo_ops y = anon_mmobj_ops -> absent s o n ->
  shows s G o n zero_page.
Proof.
  intros Ho Hy Hk Ha. exists [o]. split; [by constructor|right]. split; [|split; [done|by exists o, y]].
  by intros p ->%list_elem_of_singleton.
Qed.
Lemma grows_content s s' G pf d : grows s s' G -> content s pf d -> content s' pf d.
Proof. intros X (x & Hx & Hd). destruct (x_old _ _ _ X _ _ Hx) as [Hx' E]. exists x. by rewrite E. Qed.
Lemma grows_shows s s' G R o n d : owned s G R -> pages_inv s' -> grows s s' G -> shows s G o n d -> shows s' G o n d.
Proof.
  intros W K' X H. destruct (chain_exists G o (w_rank _ _ _ W)) as [l Hl]. revert H.
  assert (forall o pf, resident s o n pf -> resident s' o n pf) as Hold.
  { intros p pf (x & Hx & E). exists x. split; [|done]. by apply (x_old _ _ _ X). }
  assert (forall p, absent s' p n -> absent s p n) as Habs by (intros p H pf ?%Hold; by apply (H pf)).
  assert (forall p pf, resident s' p n pf -> forall d, shows s G p n d -> content s' pf d) as Hres.
  { intros p pf (x & Hx & <- & <-) d' H'. destruct (pframes s !! pf) as [x0|] eqn:E0.
    - destruct (x_old _ _ _ X _ _ E0) as [Hx' _]. simplify_eq. destruct (frame_page s pf x (w_inv _ _ _ W) E0) as (d2 & Hd2 & _).
      assert (content s pf d2) as Hc by by exists x. apply (grows_content s s' G); [done|].
      rewrite (shows_unique s G _ _ d' d2 (w_inv _ _ _ W) H'); [done|]. eapply shows_resident; [apply (w_rank _ _ _ W)|by exists x|done].
    - destruct (x_new _ _ _ X _ _ Hx E0) as (_ & _ & _ & _ & d2 & Hd2 & H2). exists x. split; [done|].
      by rewrite (shows_unique s G _ _ d' d2 (w_inv _ _ _ W) H' H2). }
  assert (forall p, (exists pf, resident s' p n pf) \/ absent s' p n) as Hdec.
  { intros p. destruct (pframe_get_resident_ok s' p n K') as (pf & _ & _ & _ & [[_ H]|[_ H]]); [by right|left; by exists pf]. }
  induction Hl as [o Ho|o a b l Ho Hl IH]; intros H; (destruct (Hdec o) as [[pf Hr]|Ha]; [apply (shows_resident s' G o n pf); [apply (w_rank _ _ _ W)|done|by apply (Hres o)]|]).
  - pose proof (Habs o Ha) as Ha0. destruct H as (l & Hl & H). inversion Hl; simplify_eq.
    destruct H as [(pf & (l1 & p & l2 & E & Hn & Hr) & Hd)|(Hn & -> & b & y & [= <-] & Hy & Hk)].
    + destruct l1 as [|? [|]]; cbn in E; simplify_eq. by destruct (Ha0 pf).
    + destruct (option_rel_Some' _ _ _ _ (x_objs _ _ _ X o) Hy) as (y' & Hy' & (E & _) & _). apply (shows_zero s' G o n y'); [done|done|congruence|done].
  - apply (shows_cons s' G o a b); [done|done|]. apply IH. by apply (shows_cons s G o a b n d Ho (Habs o Ha)).
Qed.

(** A new page that shows what its object showed. *)
Definition right_page (s : mms) (G : gmap Z (Z * Z)) (x : pframe) (d : list Z) : Prop :=
  absent s (pf_obj x) (pf_pagenum x) /\ pf_busy x = false /\ pf_pincount x = 1 /\ settled s G (pf_obj x) /\
  shows s G (pf_obj x) (pf_pagenum x) d.
Lemma added_grows s s' G R pf x d : owned s G R -> added s s' pf x d -> right_page s G x d -> grows s s' G.
Proof.
  intros W [A1 A2 A3 A4 A5 (y & A6 & A7) A8] (P1 & P2 & P3 & P4 & P5). split; [| | |done].
  - intros q z Hz. rewrite A2, A4. rewrite lookup_insert_ne by congruence. split; [done|].
    rewrite lookup_insert_ne; [done|]. intros E. destruct (frame_page s q z (w_inv _ _ _ W) Hz) as (? & ? & _). congruence.
  - intros q z. rewrite A2. intros [[<- <-]|[Hne Hz]]%lookup_insert_Some H0; [|congruence]. split_and!; try done.
    exists d. by rewrite A4, lookup_insert_eq.
  - intros p. rewrite A7. destruct (decide (p = pf_obj x)) as [->|].
    + rewrite lookup_insert_eq, A6. split; [done|]. cbn. lia.
    + rewrite lookup_insert_ne by done. by apply option_rel_refl.
Qed.
(** Two new pages, of [b] and of the shadow object above it. *)
Lemma cow_grows s G R s1 sm s3 pf x0 d0 xf d b n : owned s G R -> added s s1 pf x0 d0 ->
  maybe_zero (upd_pframes (<[pf := with_busy true x0]>) s1) sm b n -> refill sm s3 pf xf d ->
  pf_obj xf = pf_obj x0 -> pf_pagenum xf = pf_pagenum x0 -> pf_addr xf = pf_addr x0 -> right_page s G xf d ->
  pf_obj x0 <> b -> length d = length d0 ->
  (exists y, mmobjs s !! b = Some y /\ mmo_ops y = anon_mmobj_ops) -> grows s s3 G.
Proof.
  intros W A Hm F Eo En Ea P Hob Hlen (yb & Hyb & Hkb).
  destruct Hm as [Q|(pb & ab & Hab & B)].
  { apply (added_grows s s3 G R pf xf d W); [|done]. apply (added_refill s s1 s3 pf x0 xf d0 d A); try done.
    destruct Q as [Q1 Q2 Q3 Q4 _], F as [F1 F2 F3 F4]. split.
    - rewrite F1, Q1. cbn. by rewrite insert_insert_eq.
    - by rewrite F2, Q3.
    - by rewrite F3, Q2.
    - destruct Q4 as (? & ? & ?), F4 as (? & ? & ?). unfold same_env. cbn in *. split_and!; congruence. }
  destruct A as [A1 A2 A3 A4 A5 (y & A6 & A7) A8], B as [B1 B2 B3 B4 B5 (y' & B6 & B7) B8], F as [F1 F2 F3 F4]. cbn in *.
  rewrite A7 in B6, B7. rewrite lookup_insert_ne in B6 by done. rewrite Hyb in B6. injection B6 as <-.
  assert (pframes s3 = <[pf := xf]> (<[pb := mkPframe b n ab false false 1]> (<[pf := with_busy true x0]> (pframes s)))) as Ef
    by (by rewrite F1, B2, A2, insert_insert_eq).
  assert (memory s3 = <[pf_addr xf := d]> (<[ab := zero_page]> (<[pf_addr x0 := d0]> (memory s)))) as Em by (by rewrite F2, B4, A4).
  rewrite A2, insert_insert_eq, lookup_insert_None in B1. destruct B1 as [B1 Hpb]. rewrite A4, lookup_insert_None in B3. destruct B3 as [B3 Hadb].
  destruct P as (P1 & P2 & P3 & P4 & P5). split.
  - intros q z Hz. destruct (frame_page s q z (w_inv _ _ _ W) Hz) as (dz & Hdz & _).
    rewrite Ef, Em. rewrite !lookup_insert_ne by congruence. done.
  - intros q z. rewrite Ef. intros [[<- <-]|[Hne [[<- <-]|[Hne' [[<- <-]|[_ Hz]]%lookup_insert_Some]]%lookup_insert_Some]]%lookup_insert_Some H0; try congruence.
    + split_and!; try done. exists d. by rewrite Em, lookup_insert_eq.
    + assert (G !! b = None) as Hgb.
      { destruct (G !! b) as [[u v]|] eqn:E; [|done]. destruct (w_edges _ _ _ W _ _ _ E) as [(w & Hw & Kw & _) _ _ _]. congruence. }
      assert (absent s b n) as Hab0.
      { intros q' (z & Hz & Ez). apply (Hab q'). exists z. cbn. split; [|done]. rewrite A2, insert_insert_eq, lookup_insert_ne by congruence. done. }
      cbn. split_and!; try done. { exists yb. split; [done|left; congruence]. }
      exists zero_page. rewrite Em, lookup_insert_ne, lookup_insert_eq by congruence. split; [done|]. by apply (shows_zero s G b n yb).
  - intros p. rewrite F3, B7. destruct (decide (p = b)) as [->|Hpb'].
    + rewrite lookup_insert_eq, Hyb. split; [done|]. cbn. lia.
    + rewrite lookup_insert_ne by done. destruct (decide (p = pf_obj x0)) as [->|].
      * rewrite lookup_insert_eq, A6. split; [done|]. cbn. lia.
      * rewrite lookup_insert_ne by done. by apply option_rel_refl.
  - destruct A8 as (? & ? & ?), B8 as (? & ? & ?), F4 as (? & ? & ?). unfold same_env. split_and!; congruence.
Qed.
(** Pages of other objects do not matter for a chain. *)
Lemma chain_shows_other s s' l n d pf x : pframes s' = <[pf := x]> (pframes s) -> pframes s !! pf = None ->
  pf_obj x ∉ l -> (forall q z, pframes s !! q = Some z -> memory s' !! pf_addr z = memory s !! pf_addr z) ->
  chain_shows s' l n d -> chain_shows s l n d.
Proof.
  intros Ef Hf Hl Hmem. assert (forall o q, o ∈ l -> resident s' o n q <-> resident s o n q) as Hr.
  { intros o q Ho. unfold resident. rewrite (on_frame_insert s s' _ pf x q Ef). split.
    - intros [[-> [E _]]|[_ H]]; [congruence|done].
    - intros H. right. split; [|done]. intros ->. destruct H as (z & Hz & _). congruence. }
  intros [(p & (l1 & o & l2 & -> & Hn & Hp) & y & Hy & Hd)|[Hn ->]].
  - left. exists p. assert (resident s o n p) as Hp' by (apply Hr; [set_solver|done]). split.
    + exists l1, o, l2. split; [done|]. split; [|done]. intros q Hq z Hz. apply (Hn q Hq z), Hr; [set_solver|done].
    + destruct Hp' as (z & Hz & _). assert (y = z) as ->.
      { rewrite Ef, lookup_insert_ne in Hy by congruence. congruence. }
      exists z. split; [done|]. by rewrite <- (Hmem p z).
  - right. split; [|done]. intros o Ho q Hq. apply (Hn o Ho q). by apply Hr.
Qed.

(** [pframe_get] on a shadow object over an anonymous one. *)
Inductive shadow_got (s : mms) (G : gmap Z (Z * Z)) (o n : Z) (r : outcome (Z * Z * mms)) : Prop :=
| shadow_found pf s' : resident s o n pf -> quiet s s' -> r = Ok ((0, pf), s') -> shadow_got s G o n r
| shadow_new pf d s' : absent s o n -> pages_inv s' -> grows s s' G -> resident s' o n pf -> content s' pf d ->
    pf <> 0 -> shows s G o n d -> r = Ok ((0, pf), s') -> shadow_got s G o n r
| shadow_nomem s' : absent s o n -> quiet s s' -> nomem s -> r = Ok ((- ENOMEM, 0), s') -> shadow_got s G o n r
| shadow_nofill pf a d s' t : absent s o n -> pages_inv s' -> pf <> 0 -> page_pick (memory s) = Some (a, d) ->
    added s s' pf (mkPframe o n a false false 0) d -> nomem t ->
    r = Ok ((- ENOMEM, 0), s') -> shadow_got s G o n r.
Lemma shadow_get_ok k s G R o a b n yb : owned s G R -> G !! o = Some (a, b) -> mmobjs s !! b = Some yb ->
  mmo_ops yb = anon_mmobj_ops -> shadow_got s G o n (pframe_get_ (lookuppage_ (S k)) o n s).
Proof.
  intros W Ho Hyb Hkb. pose proof (w_inv _ _ _ W) as K. pose proof (owned_graph s G R W) as Hg.
  destruct (gr_edges _ _ Hg _ _ _ Ho) as [(y & Hy & Hk & _) Hsa _ _].
  assert (settled s G o) as Hso by (exists y; split; [done|right; by eexists]).
  destruct (pframe_get_cases (lookuppage_ (S k)) s o n y K Hy (gr_refs _ _ Hg _ _ Hy)) as [pf s' ? ? E|s' ? ? ? E|pf ad d0 s1 Ha K1 Hpf Hpk A E].
  { intros pf x _ Hx. by apply (w_busy _ _ _ W pf). }
  { by eapply shadow_found. }
  { by eapply shadow_nomem. }
  set (x0 := mkPframe o n ad false false 0) in *. set (s1b := upd_pframes (<[pf := with_busy true x0]>) s1).
  assert (pframes s1 !! pf = Some x0) as Hx by (rewrite (a_frames _ _ _ _ _ A); apply lookup_insert_eq).
  destruct (refit_flags s1 pf x0 (with_busy true x0) K1 Hx) as [K1b R1b]; [done|]. fold s1b in K1b, R1b.
  assert (pframes s1b !! pf = Some (with_busy true x0)) as Hx1b by apply lookup_insert_eq.
  pose proof (same_graph_added _ _ _ _ _ A) as SG. pose proof (graph_same s1 s1b G (same_graph_id s1 s1b eq_refl) (graph_same s s1 G SG Hg)) as Hg1.
  destruct (option_rel_Some' _ _ _ _ (sg_objs _ _ SG o) Hy) as (y1 & Hy1 & Hk1 & _).
  destruct (option_rel_Some' _ _ _ _ (sg_objs _ _ SG b) Hyb) as (yb1 & Hyb1 & Hkb1 & _).
  destruct (chain_exists G a (w_rank _ _ _ W)) as [l Hl].
  assert (fillpage_ (lookuppage_ (S k)) o pf s1b = shadow_fillpage_ (lookuppage_ (S k)) o pf s1b) as Efill.
  { unfold fillpage_. rewrite (mbind_run _ _ _ _ _ (load_mmo_run s1b o y1 Hy1)). by rewrite Hk1, Hk. }
  destruct (shadow_fill_ok k s1b G o a b l n pf (with_busy true x0) yb1 K1b Hg1 Ho Hl Hx1b eq_refl eq_refl eq_refl Hyb1)
    as (e & s2 & Hr & Hc); [congruence|]. rewrite Hr in Efill. clear Hr.
  destruct Hc as [(-> & K2 & d & sm & Hsh & Hm & F)|(-> & Q & Hno)].
  - set (x2 := with_pincount _ _) in F. assert (pframes s2 !! pf = Some x2) as Hx2 by (rewrite (l_frames _ _ _ _ _ F); apply lookup_insert_eq).
    destruct (pframe_fill_run (lookuppage_ (S k)) s1 pf x0 0 s2 x2 Hx Efill K2 Hx2) as (s3 & Hr & K3 & Rf).
    pose proof (refill_refit _ _ _ _ _ _ _ F Rf eq_refl) as F3.
    assert (pframes s3 !! pf = Some (with_busy false x2)) as Hx3 by (rewrite (l_frames _ _ _ _ _ F3); apply lookup_insert_eq).
    assert (chain_shows s l n d) as Hs0.
    { apply (chain_shows_other s s1b l n d pf (with_busy true x0)); [|apply (a_fresh _ _ _ _ _ A)| | |done].
      - cbn. by rewrite (a_frames _ _ _ _ _ A), insert_insert_eq.
      - pose proof (chain_nodup _ _ _ (w_rank _ _ _ W) (chain_shadow _ _ _ _ _ Ho Hl)) as [? _]%NoDup_cons. done.
      - intros q z Hz. cbn. rewrite (a_mem _ _ _ _ _ A), lookup_insert_ne; [done|]. intros Ez.
        destruct (frame_page s q z K Hz) as (? & ? & _). pose proof (a_addr _ _ _ _ _ A). congruence. }
    assert (shows s G o n d) as Hs.
    { apply (shows_cons s G o a b n d Ho Ha). exists l. split; [done|]. destruct Hs0 as [?|[? ->]]; [by left|right].
      split; [done|]. split; [done|]. exists b, yb. split; [|done]. apply (chain_last s G a l b Hg Hl). apply (gr_edges _ _ Hg _ _ _ Ho). }
    assert (memory s3 !! pf_addr (with_busy false x2) = Some d) as Hd3 by (rewrite (l_mem _ _ _ _ _ F3); apply lookup_insert_eq).
    destruct (frame_page s3 pf _ K3 Hx3) as (d3 & Hd3' & Hlen). simplify_eq.
    eapply (shadow_new s G o n _ pf d s3); [done|done| |by exists (with_busy false x2)|by exists (with_busy false x2)|done|done|].
    + eapply (cow_grows s G R s1 sm s3 pf x0 d0 _ d b n W A Hm F3); try done.
      * intros E0. cbn in E0. congruence.
      * by rewrite Hlen, (a_len _ _ _ _ _ A).
      * by exists yb.
    + rewrite E. by eapply get_fill_ok.
  - assert (pframes s2 !! pf = Some (with_busy true x0)) as Hx2 by by rewrite (q_frames _ _ Q).
    destruct (pframe_fill_run (lookuppage_ (S k)) s1 pf x0 (- ENOMEM) s2 _ Hx Efill (q_inv _ _ Q K1b) Hx2) as (s3 & Hr & K3 & [R1 R2 R3 R4]).
    eapply (shadow_nofill s G o n _ pf ad d0 s3 s1b); [done|done|done|done| |done|].
    + destruct (added_refill s s1 s3 pf x0 x0 d0 d0 A) as [B1 B2 B3 B4 B5 B6 B7]; [|done..].
      destruct Q as [Q1 Q2 Q3 (? & ? & ?) _], R4 as (? & ? & ?). split; [|by rewrite R3, Q3; cbn; rewrite (a_mem _ _ _ _ _ A), insert_insert_eq|by rewrite R2, Q2|].
      * rewrite R1, Q1. cbn. by rewrite insert_insert_eq.
      * unfold same_env. cbn in *. split_and!; congruence.
    + rewrite E. unfold get_fill. rewrite (mbind_run _ _ _ _ _ Hr). by rewrite enomem_neg.
Qed.

(** ** Looking pages up *)
Lemma quiet_grows s s0 s' G : quiet s s0 -> grows s0 s' G -> grows s s' G.
Proof.
  intros [Q1 Q2 Q3 (? & ? & ?) _] [X1 X2 X3 (? & ? & ?)]. split.
  - intros pf x Hx. rewrite <- Q3. apply X1. by rewrite Q1.
  - intros pf x Hx Hz. rewrite <- Q1 in Hz. destruct (X2 pf x Hx Hz) as (P1 & P2 & P3 & P4 & d & P5 & P6).
    unfold absent, resident, on_frame in *. rewrite Q1 in P1. split_and!; try done.
    + unfold settled in *. by rewrite Q2 in P4.
    + exists d. split; [done|]. by apply (shows_same s s0).
  - intros p. rewrite <- Q2. apply X3.
  - split_and!; congruence.
Qed.
Lemma owned_quiet s s' G R : owned s G R -> quiet s s' -> owned s' G R.
Proof. intros W Q. eapply grows_owned; [done|apply Q, W|by apply grows_quiet]. Qed.
Lemma pframe_dirty_ok s pf x y : pages_inv s -> pframes s !! pf = Some x -> pf_busy x = false ->
  mmobjs s !! pf_obj x = Some y -> mmo_ops y <> vnode_mmobj_ops ->
  exists s', pframe_dirty pf s = Ok (0, s') /\ pages_inv s' /\ refit s s' pf (with_dirty true x).
Proof.
  intros K Hx Hb Hy Hk. unfold pframe_dirty. rewrite (mbind_run _ _ _ _ _ (load_pf_run _ _ _ Hx)), Hb, assert_run by done.
  rewrite (mbind_run _ _ _ _ _ (store_pf_run _ _ _ _ Hx)). set (s1 := upd_pframes _ s).
  assert (pframes s1 !! pf = Some (with_busy true x)) as Hx1 by apply lookup_insert_eq.
  assert (dirtypage (pf_obj x) pf s1 = Ok (0, upd_pframes (<[pf := with_dirty true (with_busy true x)]>) s1)) as Hd.
  { unfold dirtypage. rewrite (mbind_run _ _ _ _ _ (load_mmo_run s1 _ y Hy)).
    destruct (mmo_ops y); [| |done]; unfold anon_dirtypage, shadow_dirtypage; by rewrite (mbind_run _ _ _ _ _ (store_pf_run _ _ _ _ Hx1)). }
  rewrite (mbind_run _ _ _ _ _ Hd). change (0 =? 0) with true. cbn iota.
  rewrite (mbind_run _ _ _ _ _ (store_pf_run _ pf _ _ (lookup_insert_eq _ _ _))).
  rewrite (mbind_run _ _ _ _ _ (store_pf_run _ pf _ _ (lookup_insert_eq _ _ _))).
  set (s4 := upd_pframes _ (upd_pframes _ _)). destruct (broadcast_quiet s4 (pf_waitq pf)) as (s5 & Hq & [Q1 Q2 Q3 Q4 Q5]).
  rewrite (mbind_run _ _ _ _ _ Hq). exists s5. split; [done|].
  assert (with_busy false (with_dirty true (with_dirty true (with_busy true x))) = with_dirty true x) as Ex by (destruct x; cbn in *; by subst).
  assert (pframes s4 = <[pf := with_dirty true x]> (pframes s)) as E4 by (cbn; by rewrite !insert_insert_eq, Ex).
  split; [|split; [by rewrite Q1|by rewrite Q2|by rewrite Q3|exact Q4]].
  apply Q5. apply (pages_inv_eq s); [|done]. split; [done| |intros; by apply option_rel_refl..]. intros q. rewrite E4.
  destruct (decide (q = pf)) as [->|]; [by rewrite lookup_insert_eq, Hx|]. rewrite lookup_insert_ne by done. by apply option_rel_refl.
Qed.
Lemma grows_dirty s s1 s2 G pf x : grows s s1 G -> pframes s1 !! pf = Some x -> pframes s !! pf = None ->
  refit s1 s2 pf (with_dirty true x) -> grows s s2 G.
Proof.
  intros [X1 X2 X3 (? & ? & ?)] Hx Hz0 [R1 R2 R3 (? & ? & ?)]. split.
  - intros q z Hz. rewrite R1, R3, lookup_insert_ne by congruence. by apply X1.
  - intros q z. rewrite R1, R3. intros [[<- <-]|[Hne Hz]]%lookup_insert_Some Hq; [exact (X2 pf x Hx Hz0)|by apply (X2 q)].
  - intros p. rewrite R2. apply X3.
  - split_and!; congruence.
Qed.

(** The result of a lookup: a frame with what the object shows. *)
Definition looked_up (s : mms) (G : gmap Z (Z * Z)) (o n : Z) (w : bool) (r : outcome (Z * Z * mms)) : Prop :=
  (exists pf s' d, r = Ok ((0, pf), s') /\ pages_inv s' /\ grows s s' G /\ shows s G o n d /\ content s' pf d /\
     on_frame s' (fun x => pf_pagenum x = n) pf /\ (w = true -> resident s' o n pf)) \/
  (exists s' t, r = Ok ((- ENOMEM, 0), s') /\ nomem t).
Lemma resident_content s o n pf : pages_inv s -> resident s o n pf -> exists d, content s pf d.
Proof. intros K (x & Hx & _). destruct (frame_page s pf x K Hx) as (d & Hd & _). by exists d, x. Qed.
Lemma quiet_content s s' pf d : quiet s s' -> content s pf d -> content s' pf d.
Proof. intros Q. unfold content. by rewrite (q_frames _ _ Q), (q_mem _ _ Q). Qed.
Lemma quiet_resident s s' o n pf : quiet s s' -> resident s o n pf -> resident s' o n pf.
Proof. intros Q. unfold resident, on_frame. by rewrite (q_frames _ _ Q). Qed.
Lemma looked_found s G R o n w pf s' : owned s G R -> resident s o n pf -> quiet s s' ->
  looked_up s G o n w (Ok ((0, pf), s')).
Proof.
  intros W Hr Q. left. destruct (resident_content s o n pf (w_inv _ _ _ W) Hr) as [d Hd]. exists pf, s', d.
  split; [done|]. split; [apply Q, W|]. split; [by apply grows_quiet|]. split; [by apply (shows_resident s G o n pf), Hd; [apply (w_rank _ _ _ W)|]|].
  split; [by apply (quiet_content s)|]. pose proof (quiet_resident s s' o n pf Q Hr) as Hr'. split; [|done].
  destruct Hr' as (x & Hx & _ & E). by exists x.
Qed.
Lemma anon_lookup_ok k s G R o n w y : owned s G R -> mmobjs s !! o = Some y -> mmo_ops y = anon_mmobj_ops ->
  looked_up s G o n w (lookuppage_ (S k) o n w s).
Proof.
  intros W Hy Hk. cbn [lookuppage_]. rewrite (mbind_run _ _ _ _ _ (load_mmo_run _ _ _ Hy)), Hk. unfold anon_lookuppage_.
  assert (G !! o = None) as Hg.
  { destruct (G !! o) as [[u v]|] eqn:E; [|done]. destruct (w_edges _ _ _ W _ _ _ E) as [(z & Hz & Kz & _) _ _ _]. congruence. }
  destruct (anon_get_ok (lookuppage_ k) s o n y (w_inv _ _ _ W) Hy (owned_refcount _ _ _ _ _ W Hy) Hk) as [pf s' Hr Q ->|s' Q Hno ->|pf a s' Ha K' Hpf A ->].
  - intros pf x _ Hx. by apply (w_busy _ _ _ W pf).
  - by apply (looked_found s G R).
  - right. by exists s', s.
  - left. exists pf, s', zero_page. pose proof (shows_zero s G o n y Hg Hy Hk Ha) as Hs. split; [done|]. split; [done|].
    assert (pframes s' !! pf = Some (mkPframe o n a false false 1)) as Hx by (rewrite (a_frames _ _ _ _ _ A); apply lookup_insert_eq).
    split; [|split; [done|split; [|by split; eexists]]].
    + apply (added_grows s s' G R pf _ zero_page W A). split_and!; try done. exists y. split; [done|left; congruence].
    + eexists. split; [done|]. rewrite (a_mem _ _ _ _ _ A). apply lookup_insert_eq.
Qed.

(** The assertions at the end of [shadow_lookuppage]. *)
Lemma lookup_check s n pf x : pages_inv s -> pframes s !! pf = Some x -> pf_pagenum x = n -> pf_busy x = false ->
  (KASSERT (negb (pf =? 0)) ;;; let! x := load_pf pf in
   KASSERT ((n =? pf_pagenum x) && negb (pf_busy x)) ;;; mret_ (0, pf)) s = Ok ((0, pf), s).
Proof.
  intros K Hx Hn Hb. pose proof (f_ptr _ _ _ (p_frames _ K _ _ Hx)) as Hp.
  rewrite assert_run by (by apply negb_true_iff, Z.eqb_neq). rewrite (mbind_run _ _ _ _ _ (load_pf_run _ _ _ Hx)), Hb.
  rewrite assert_run; [done|]. rewrite andb_true_r. by apply Z.eqb_eq.
Qed.
Lemma shows_bottom s G o l b n d : graph s G -> chain G o l -> last l = Some b -> none s (removelast l) n ->
  shows s G b n d -> shows s G o n d.
Proof.
  intros Hg Hl. induction Hl as [o Ho|o a b' l Ho Hl IH].
  - by intros [= ->].
  - destruct (chain_head _ _ _ Hl) as [l' ->]. intros Hlast Hn Hs.
    change (removelast (o :: a :: l')) with (o :: removelast (a :: l')) in Hn. apply none_cons in Hn as [Ha Hn].
    apply (shows_cons s G o a b' n d Ho Ha). by apply IH.
Qed.
Lemma shadow_write_ok k s G R o a b n yb : owned s G R -> G !! o = Some (a, b) -> mmobjs s !! b = Some yb ->
  mmo_ops yb = anon_mmobj_ops -> looked_up s G o n true (shadow_lookuppage_ (lookuppage_ (S k)) o n true s).
Proof.
  intros W Ho Hyb Hkb. pose proof (w_inv _ _ _ W) as K. unfold shadow_lookuppage_.
  destruct (pframe_get_resident_ok s o n K) as (p & s0 & Hr & Q & Hp). pose proof (owned_quiet s s0 G R W Q) as W0.
  destruct Hp as [[-> Ha]|[Hp Hres]].
  - assert (mmobjs s0 !! b = Some yb) as Hyb0 by by rewrite (q_objs _ _ Q).
    destruct (shadow_get_ok k s0 G R o a b n yb W0 Ho Hyb0 Hkb) as [pf s' Hr0 _ _|pf d s' Ha0 K' X Hr' Hd Hpf Hs E|s' _ _ Hno E|pf ad d s' t _ _ _ _ _ Hno E].
    + destruct (Ha pf). unfold resident, on_frame in *. by rewrite (q_frames _ _ Q) in Hr0.
    + destruct Hr' as (x & Hx & Eo & En). assert (pframes s0 !! pf = None) as Hf0.
      { destruct (pframes s0 !! pf) as [x0|] eqn:E0; [|done]. destruct (x_old _ _ _ X _ _ E0) as [Hx0 _]. simplify_eq.
        destruct (Ha0 pf). by exists x. }
      destruct (x_new _ _ _ X _ _ Hx Hf0) as (_ & Hb & _). destruct (gr_edges _ _ (owned_graph _ _ _ (grows_owned s0 s' G R W0 K' X)) _ _ _ Ho) as [(y' & Hy' & Hk' & _) _ _ _].
      destruct (pframe_dirty_ok s' pf x y' K' Hx Hb) as (s2 & Hd2 & K2 & F); [by rewrite Eo|congruence|].
      assert (pframes s2 !! pf = Some (with_dirty true x)) as Hx2 by (rewrite (r_frames _ _ _ _ F); apply lookup_insert_eq).
      left. exists pf, s2, d. split.
      { rewrite (mbind_run _ _ s (0, pf) s2); [change (0 <? 0) with false; cbn iota; by apply (lookup_check s2 n pf (with_dirty true x))|].
        rewrite (mbind_run _ _ _ _ _ Hr). change (0 =? 0) with true. cbn iota. rewrite (mbind_run _ _ _ _ _ E). change (0 <? 0) with false. cbn iota.
        by rewrite (mbind_run _ _ _ _ _ Hd2). }
      split; [done|]. split; [by apply (quiet_grows s s0), (grows_dirty s0 s' s2 G pf x)|]. split; [by apply (shows_same s s0); [apply Q..|]|].
      split; [|by split; [|intros _]; exists (with_dirty true x)]. destruct Hd as (x' & Hx' & Hd). simplify_eq.
      exists (with_dirty true x). by rewrite (r_mem _ _ _ _ F).
    + right. exists s', s0. split; [|done]. rewrite (mbind_run _ _ s (- ENOMEM, 0) s'); [by rewrite enomem_neg|].
      rewrite (mbind_run _ _ _ _ _ Hr). change (0 =? 0) with true. cbn iota. rewrite (mbind_run _ _ _ _ _ E). by rewrite enomem_neg.
    + right. exists s', t. split; [|done]. rewrite (mbind_run _ _ s (- ENOMEM, 0) s'); [by rewrite enomem_neg|].
      rewrite (mbind_run _ _ _ _ _ Hr). change (0 =? 0) with true. cbn iota. rewrite (mbind_run _ _ _ _ _ E). by rewrite enomem_neg.
  - rewrite (mbind_run _ _ s (0, p) s0).
    + change (0 <? 0) with false. cbn iota. destruct (quiet_resident s s0 o n p Q Hres) as (x & Hx & _ & En).
      rewrite (lookup_check s0 n p x); [by apply (looked_found s G R)|apply Q, K|done|done|by apply (w_busy _ _ _ W0 p)].
    + rewrite (mbind_run _ _ _ _ _ Hr). by rewrite (proj2 (Z.eqb_neq p 0) Hp).
Qed.
Lemma shadow_read_ok k s G R o a b n yb : owned s G R -> G !! o = Some (a, b) -> mmobjs s !! b = Some yb ->
  mmo_ops yb = anon_mmobj_ops -> looked_up s G o n false (shadow_lookuppage_ (lookuppage_ (S k)) o n false s).
Proof.
  intros W Ho Hyb Hkb. pose proof (w_inv _ _ _ W) as K. pose proof (owned_graph _ _ _ W) as Hg. unfold shadow_lookuppage_.
  destruct (gr_edges _ _ Hg _ _ _ Ho) as [(y & Hy & Hk & _ & Hbot) _ _ Hsame].
  assert (settled s G o) as Hso by (exists y; split; [done|right; by eexists]).
  destruct (chain_exists G o (w_rank _ _ _ W)) as [l Hl].
  destruct (shadow_read_loop_ok G n l (size (mmobjs s)) s o K Hg Hso Hl) as (p & s0 & Hr & Q & Hc); [by apply (graph_size s G o)|].
  pose proof (owned_quiet s s0 G R W Q) as W0. destruct Hc as [[Hp Hf]|[-> Hn]].
  - pose proof Hf as (l1 & q & l2 & El & _ & Hres). destruct (resident_content s q n p K Hres) as [d Hd].
    destruct (quiet_resident s s0 q n p Q Hres) as (x & Hx & _ & En).
    left. exists p, s0, d. split.
    { rewrite (mbind_run _ _ s (0, p) s0).
      - change (0 <? 0) with false. cbn iota. apply (lookup_check s0 n p x); [apply Q, K|done|done|by apply (w_busy _ _ _ W0 p)].
      - rewrite (mbind_run (mget _) _ s _ s eq_refl), (mbind_run _ _ _ _ _ Hr). by rewrite (proj2 (Z.eqb_neq p 0) Hp). }
    split; [apply Q, K|]. split; [by apply grows_quiet|]. split; [exists l; split; [done|left; by exists p]|].
    split; [by apply (quiet_content s)|]. split; [by exists x|done].
  - assert (mmobjs s0 !! o = Some y /\ mmobjs s0 !! b = Some yb) as [Hy0 Hyb0] by by rewrite (q_objs _ _ Q).
    pose proof (o_ptr _ _ _ (p_objs _ K _ _ Hyb)) as Hb0.
    assert (last l = Some b) as Hlast by (apply (chain_last s G o l b Hg Hl); by rewrite Ho).
    assert (forall r s1, lookuppage_ (S k) b n false s0 = Ok (r, s1) ->
      (let! n0 := mget (fun s => size (mmobjs s)) in let! p := shadow_read_loop n0 o n in
       if p =? 0 then let! x := load_mmo o in KASSERT (negb (mmo_bottom_obj x =? 0)) ;;; lookuppage_ (S k) (mmo_bottom_obj x) n false
       else mret_ (0, p)) s = Ok (r, s1)) as Hrun.
    { intros r s1 H1. rewrite (mbind_run (mget _) _ s _ s eq_refl), (mbind_run _ _ _ _ _ Hr). change (0 =? 0) with true. cbn iota.
      rewrite (mbind_run _ _ _ _ _ (load_mmo_run _ _ _ Hy0)), Hbot. by rewrite assert_run by (by apply negb_true_iff, Z.eqb_neq). }
    destruct (anon_lookup_ok k s0 G R b n false yb W0 Hyb0 Hkb) as [(pf & s1 & d & E & K1 & X & Hs & Hd & (x & Hx & En) & _)|(s1 & t & E & Hno)].
    + left. exists pf, s1, d. pose proof (grows_owned s0 s1 G R W0 K1 X) as W1. split.
      { rewrite (mbind_run _ _ _ _ _ (Hrun _ _ E)). change (0 <? 0) with false. cbn iota.
        apply (lookup_check s1 n pf x); [done|done|done|by apply (w_busy _ _ _ W1 pf)]. }
      split; [done|]. split; [by apply (quiet_grows s s0)|]. split; [|split; [done|split; [by exists x|done]]].
      apply (shows_bottom s G o l b n d Hg Hl Hlast Hn). by apply (shows_same s s0); [apply Q..|].
    + right. exists s1, t. split; [|done]. rewrite (mbind_run _ _ _ _ _ (Hrun _ _ E)). by rewrite enomem_neg.
Qed.

Lemma lookup_ok s G R o n w b yb : owned s G R -> settled s G o -> bottom_is s G o b -> mmobjs s !! b = Some yb ->
  mmo_ops yb = anon_mmobj_ops -> looked_up s G o n w (lookuppage o n w s).
Proof.
  intros W (y & Hy & Hs) [_ Hb] Hyb Hkb. unfold lookuppage. destruct (G !! o) as [[a b']|] eqn:Ho; [subst b'|subst b].
  - destruct (w_edges _ _ _ W _ _ _ Ho) as [(y' & Hy' & Hk & _) _ _ _]. cbn [lookuppage_].
    rewrite (mbind_run _ _ _ _ _ (load_mmo_run _ _ _ Hy')), Hk.
    destruct w; [by apply (shadow_write_ok 0 s G R o a b n yb)|by apply (shadow_read_ok 0 s G R o a b n yb)].
  - by apply (anon_lookup_ok 1 s G R o n w yb).
Qed.

(** ** Stores *)
(** A store to the page in frame [pf], through the kernel or a mapping. *)
Definition write_frame (pf : Z) (d : list Z) : M mms unit :=
  let! x := load_pf pf in store_page (pf_addr x) d.

Lemma write_frame_ok s G R pf x d : owned s G R -> pframes s !! pf = Some x -> length d = Z.to_nat PAGE_SIZE ->
  exists s', write_frame pf d s = Ok (tt, s') /\ owned s' G R /\ s' = upd_memory (<[pf_addr x := d]>) s.
Proof.
  intros W Hx Hl. pose proof (w_inv _ _ _ W) as K. destruct (frame_page s pf x K Hx) as (d0 & Hd0 & Hl0).
  destruct (store_page_ok s (pf_addr x) d0 d K Hd0) as [Hr K']; [congruence|]. eexists. unfold write_frame.
  rewrite (mbind_run _ _ _ _ _ (load_pf_run _ _ _ Hx)). split; [exact Hr|]. split; [|done]. apply (owned_tamer s _ G R); [done| |done|apply (w_live _ _ _ W)|apply (w_refs _ _ _ W)].
  split; [intros; by apply option_rel_refl, kind_refl|intros q z Hz; by exists z|done].
Qed.
Lemma write_shows s G R pf x d o n e l : owned s G R -> pframes s !! pf = Some x -> chain G o l ->
  (pf_obj x ∉ l \/ pf_pagenum x <> n) -> shows s G o n e -> shows (upd_memory (<[pf_addr x := d]>) s) G o n e.
Proof.
  intros W Hx Hl Hne (l' & Hl' & H). rewrite (chain_unique _ _ _ _ Hl' Hl) in *. exists l. split; [done|].
  destruct H as [(p & Hf & z & Hz & He)|?]; [left|by right]. exists p. split; [done|]. exists z. split; [done|]. cbn.
  rewrite lookup_insert_ne; [done|]. intros E. pose proof (p_addr _ (w_inv _ _ _ W) _ _ _ _ Hx Hz E) as ->. simplify_eq.
  destruct Hf as (l1 & q & l2 & -> & _ & u & Hu & E1 & E2). simplify_eq. destruct Hne as [Hne|?]; [|done]. apply Hne. set_solver.
Qed.

(** ** Forking a private mapping *)
Lemma chain_weaken s G G' o l : (forall o a b, G !! o = Some (a, b) -> settled s G a) -> settled s G o -> chain G o l ->
  (forall p, is_Some (mmobjs s !! p) -> G' !! p = G !! p) -> chain G' o l.
Proof.
  intros He Hs Hl HG. induction Hl as [o Ho|o a b l Ho Hl IH].
  - constructor. rewrite HG; [done|]. destruct Hs as (y & -> & _). done.
  - eapply chain_shadow; [rewrite HG; [done|destruct Hs as (y & -> & _); done]|]. apply IH. by apply (He _ _ _ Ho).
Qed.
(** New objects without pages. *)
Record adopts (s s' : mms) : Prop := {
  ad_objs p y : mmobjs s !! p = Some y -> exists y', mmobjs s' !! p = Some y' /\ same_kind y' y;
  ad_frames : pframes s' = pframes s;
  ad_mem : memory s' = memory s;
}.
Lemma adopts_shows s s' G G' R o n d : owned s G R -> adopts s s' -> settled s G o ->
  (forall p, is_Some (mmobjs s !! p) -> G' !! p = G !! p) -> shows s G o n d -> shows s' G' o n d.
Proof.
  intros W A Hs HG (l & Hl & H). exists l.
  split; [apply (chain_weaken s G); [intros p a b Hp; apply (w_edges _ _ _ W _ _ _ Hp)|done..]|].
  destruct H as [(p & Hf & Hd)|(Hn & -> & b & y & Hb & Hy & Hk)].
  - left. exists p. unfold found, none, absent, resident, content, on_frame in *. by rewrite (ad_frames _ _ A), (ad_mem _ _ A).
  - right. split; [|split; [done|]].
    + unfold none, absent, resident, on_frame in *. by rewrite (ad_frames _ _ A).
    + destruct (ad_objs _ _ A _ _ Hy) as (y' & Hy' & E & _). exists b, y'. split; [done|]. split; [done|congruence].
Qed.
Lemma adopts_refl s : adopts s s.
Proof. split; [|done..]. intros p y Hy. by exists y. Qed.
Lemma adopts_trans s1 s2 s3 : adopts s1 s2 -> adopts s2 s3 -> adopts s1 s3.
Proof.
  intros [A1 A2 A3] [B1 B2 B3]. split; [|congruence..]. intros p y Hy. destruct (A1 _ _ Hy) as (y2 & Hy2 & ? & ? & ? & ?).
  destruct (B1 _ _ Hy2) as (y3 & Hy3 & ? & ? & ? & ?). exists y3. split; [done|]. split_and!; congruence.
Qed.
Lemma adopts_new s o y : mmobjs s !! o = None -> adopts s (upd_mmobjs (<[o := y]>) s).
Proof. intros Ho. split; [|done..]. intros p z Hz. exists z. cbn. rewrite lookup_insert_ne by congruence. done. Qed.
Lemma adopts_ref s o y : mmobjs s !! o = Some y -> adopts s (upd_mmobjs (<[o := with_ref (mmo_refcount y + 1) y]>) s).
Proof.
  intros Hy. split; [|done..]. intros p z Hz. cbn. destruct (decide (p = o)) as [->|].
  - rewrite lookup_insert_eq. simplify_eq. by eexists.
  - rewrite lookup_insert_ne by done. by exists z.
Qed.
(** A new shadow object with its pointers, not attached yet. *)
Lemma new_shadow_ok s G R o : owned s G R -> settled s G o -> is_Some (slab_pick (mmobjs s)) ->
  exists sh b y s1 s', shadow_create s = Ok (sh, s1) /\ shadow_over sh o s1 = Ok (tt, s') /\ mmobjs s !! sh = None /\
    owned s' G (sh :: R) /\ bottom_is s G o b /\ adopts s s' /\ mmobjs s' = <[sh := y]> (mmobjs s) /\
    mmo_ops y = shadow_mmobj_ops /\ mmo_shadowed y = o /\ mmo_bottom_obj y = b.
Proof.
  intros W Hs [sh Hsh]. destruct (owned_create shadow_mmobj_ops s G R sh W ltac:(done) Hsh) as (Hc & W1 & Hf).
  set (y0 := with_ref 1 (mmobj_init shadow_mmobj_ops)) in *. set (s1 := upd_mmobjs (<[sh := y0]>) s) in *.
  assert (settled s1 G o) as Hs1.
  { destruct Hs as (y & Hy & Hs). exists y. split; [|done]. cbn. rewrite lookup_insert_ne by congruence. done. }
  destruct (shadow_over_ok s1 G (sh :: R) sh o y0 W1) as (b & s2 & Hb & Hr & W2 & [V1 V2 V3 V4]); [apply lookup_insert_eq|apply init_ops|by apply (owned_fresh_edge s G R)|done|].
  exists sh, b, (with_ptrs o b y0), s1, s2. split; [done|]. split; [done|].
  split; [done|]. split; [done|]. assert (mmobjs s2 = <[sh := with_ptrs o b y0]> (mmobjs s)) as E2 by (rewrite V1; cbn; by rewrite insert_insert_eq).
  split; [|split; [|split; [done|split; [apply init_ops|done]]]].
  - destruct Hb as [(z & Hz & Kz) Hb]. split; [|done]. cbn in Hz. apply lookup_insert_Some in Hz as [[<- <-]|[_ Hz]]; [|by exists z].
    destruct Kz. apply init_ops.
  - split; [|done|done]. intros p z Hz. exists z. rewrite E2, lookup_insert_ne by congruence. done.
Qed.
Lemma adopts_settled s s' G o : adopts s s' -> settled s G o -> settled s' G o.
Proof. intros A (y & Hy & Hs). destruct (ad_objs _ _ A _ _ Hy) as (y' & Hy' & E & _). exists y'. by rewrite E. Qed.
Lemma adopts_bottom s s' G o b : adopts s s' -> bottom_is s G o b -> bottom_is s' G o b.
Proof.
  intros A [(z & Hz & Kz) Hb]. split; [|done]. destruct (ad_objs _ _ A _ _ Hz) as (z' & Hz' & E & _). exists z'. by rewrite E.
Qed.
Lemma bottom_unique s s' G o b b' : bottom_is s G o b -> bottom_is s' G o b' -> b = b'.
Proof. intros [_ H] [_ H']. destruct (G !! o) as [[? ?]|]; congruence. Qed.
Lemma ref_step s G R o : owned s G R -> is_Some (mmobjs s !! o) ->
  exists s', mmo_ref o s = Ok (tt, s') /\ owned s' G (o :: R) /\ adopts s s' /\ dom (mmobjs s') = dom (mmobjs s).
Proof.
  intros W [y Hy]. destruct (owned_ref s G R o y W Hy (owned_refcount _ _ _ _ _ W Hy)) as (s' & Hr & W' & ->).
  eexists. split; [done|]. split; [done|]. split; [by apply adopts_ref|]. cbn. rewrite dom_insert_L.
  apply (elem_of_dom_2 (D := gset Z)) in Hy. set_solver.
Qed.
(** The unattached shadow object [sh] over [o]. *)
Definition shadow_of (s : mms) (sh o b : Z) : Prop := exists y, mmobjs s !! sh = Some y /\
  mmo_ops y = shadow_mmobj_ops /\ mmo_shadowed y = o /\ mmo_bottom_obj y = b.
Lemma adopts_shadow s s' sh o b : adopts s s' -> shadow_of s sh o b -> shadow_of s' sh o b.
Proof.
  intros A (y & Hy & K1 & K2 & K3). destruct (ad_objs _ _ A _ _ Hy) as (y' & Hy' & E1 & E2 & E3 & _).
  exists y'. by rewrite E1, E2, E3.
Qed.
Lemma link_shadow s G R sh o b : owned s G (o :: b :: R) -> shadow_of s sh o b -> G !! sh = None -> settled s G o ->
  bottom_is s G o b -> owned s (<[sh := (o, b)]> G) R.
Proof. intros W (y & Hy & K1 & K2 & K3) Hg Hs [Hb Hb']. by apply (owned_link s G R sh y o b). Qed.

Lemma fork_private_ok s G R o : owned s G (o :: R) -> settled s G o -> (forall m : gmap Z mmobj, is_Some (slab_pick m)) ->
  exists ps cs b s', fork_private o s = Ok ((ps, cs), s') /\ mmobjs s !! ps = None /\ mmobjs s !! cs = None /\ ps <> cs /\
    owned s' (<[cs := (o, b)]> (<[ps := (o, b)]> G)) (ps :: cs :: R) /\ adopts s s' /\ bottom_is s G o b /\
    dom (mmobjs s') = {[ps; cs]} ∪ dom (mmobjs s).
Proof.
  intros W Hs Hslab.
  destruct (new_shadow_ok s G (o :: R) o W Hs (Hslab _)) as (ps & b & yp & t1 & s1 & C1 & O1 & F1 & W1 & B1 & A1 & E1 & Yp).
  pose proof (adopts_settled s s1 G o A1 Hs) as Hs1.
  destruct (new_shadow_ok s1 G _ o W1 Hs1 (Hslab _)) as (cs & b' & yc & t2 & s2 & C2 & O2 & F2 & W2 & B2 & A2 & E2 & Yc).
  pose proof (bottom_unique _ _ _ _ _ _ B1 B2) as <-. clear B2. pose proof (adopts_trans _ _ _ A1 A2) as A12.
  assert (shadow_of s1 ps o b) as Sp by (exists yp; rewrite E1, lookup_insert_eq; done).
  assert (shadow_of s2 cs o b) as Sc2 by (exists yc; rewrite E2, lookup_insert_eq; done).
  assert (is_Some (mmobjs s2 !! o)) as L2 by (apply (w_live _ _ _ W2); set_solver).
  destruct (ref_step s2 G _ o W2 L2) as (s3 & R3 & W3 & A3 & D3).
  assert (forall t, adopts s t -> is_Some (mmobjs t !! b)) as Lb.
  { intros t At. destruct B1 as [(z & Hz & _) _]. destruct (ad_objs _ _ At _ _ Hz) as (z' & -> & _). done. }
  destruct (ref_step s3 G _ b W3 (Lb s3 (adopts_trans _ _ _ A12 A3))) as (s4 & R4 & W4 & A4 & D4).
  pose proof (adopts_trans _ _ _ (adopts_trans _ _ _ A12 A3) A4) as A14.
  destruct (ref_step s4 G _ b W4 (Lb s4 A14)) as (s5 & R5 & W5 & A5 & D5).
  pose proof (adopts_trans _ _ _ A14 A5) as A15.
  assert (shadow_of s3 cs o b) as Sc3 by by apply (adopts_shadow s2).
  assert (shadow_of s4 ps o b) as Sp4 by (apply (adopts_shadow s1); [apply (adopts_trans _ s2); [done|by apply (adopts_trans _ s3)]|done]).
  assert (ps <> cs) as Hne by (intros ->; rewrite E1, lookup_insert_eq in F2; done).
  assert (mmobjs s !! cs = None) as F2'.
  { destruct (mmobjs s !! cs) eqn:E; [|done]. rewrite E1, lookup_insert_ne in F2 by done. congruence. }
  exists ps, cs, b, s5. split.
  { unfold fork_private. rewrite (mbind_run _ _ _ _ _ C1), (mbind_run _ _ _ _ _ O1), (mbind_run _ _ _ _ _ C2), (mbind_run _ _ _ _ _ O2).
    destruct Sc2 as (y2 & Y2 & _ & Es & _), Sc3 as (y3 & Y3 & _ & _ & Eb), Sp4 as (y4 & Y4 & _ & _ & Eb').
    rewrite (mbind_run _ _ _ _ _ (load_mmo_run _ _ _ Y2)), Es, (mbind_run _ _ _ _ _ R3), (mbind_run _ _ _ _ _ (load_mmo_run _ _ _ Y3)), Eb.
    rewrite (mbind_run _ _ _ _ _ R4), (mbind_run _ _ _ _ _ (load_mmo_run _ _ _ Y4)), Eb'. by rewrite (mbind_run _ _ _ _ _ R5). }
  split; [done|]. split; [done|]. split; [done|]. split; [|split; [done|split; [done|]]].
  - assert (owned s5 G (o :: b :: o :: b :: ps :: cs :: R)) as W5'.
    { eapply owned_perm; [|exact W5]. solve_Permutation. }
    assert (G !! ps = None /\ G !! cs = None) as [Gp Gc] by (split; by apply (owned_fresh_edge s G (o :: R))).
    pose proof (adopts_settled s s5 G o A15 Hs) as Hs5. pose proof (adopts_bottom s s5 G o b A15 B1) as B5.
    assert (o <> ps) as Hop by (intros ->; destruct Hs as (? & ? & _); congruence).
    assert (owned s5 (<[ps := (o, b)]> G) (o :: b :: ps :: cs :: R)) as W6.
    { apply link_shadow; [done|by apply (adopts_shadow s4)|done|done|done]. }
    apply link_shadow; [done|by apply (adopts_shadow s3), Sc3; apply (adopts_trans _ s4)|by rewrite lookup_insert_ne| |].
    + destruct Hs5 as (y & Hy & Hd). exists y. split; [done|]. by rewrite lookup_insert_ne.
    + destruct B5 as [Hb Hb']. split; [done|]. by rewrite lookup_insert_ne.
  - rewrite D5, D4, D3, E2, E1, !dom_insert_L. set_solver.
Qed.

(** ** The theorems *)
Lemma edges_kind s s' : (forall p, option_relation same_kind (fun _ => False) (fun _ => False) (mmobjs s' !! p) (mmobjs s !! p)) ->
  edges s' = edges s.
Proof.
  intros H. apply map_eq. intros p. rewrite !edges_lookup. specialize (H p).
  destruct (mmobjs s' !! p) as [y'|], (mmobjs s !! p) as [y|]; cbn in H; try done. destruct H as (E1 & E2 & E3 & _).
  cbn. unfold edge_of. by rewrite E1, E2, E3.
Qed.
Lemma grows_edges s s' G : grows s s' G -> edges s' = edges s.
Proof.
  intros X. apply edges_kind. intros p. pose proof (x_objs _ _ _ X p) as H.
  destruct (mmobjs s' !! p), (mmobjs s !! p); cbn in *; naive_solver.
Qed.
(** The bottom object of [o] is anonymous. *)
Definition anon_bottom (s : mms) (o : Z) : Prop := exists x z,
  mmobjs s !! o = Some x /\ mmobjs s !! mmobj_bottom_obj o x = Some z /\ mmo_ops z = anon_mmobj_ops.
Definition plenty : Prop := (forall f : gmap Z pframe, is_Some (slab_pick f)) /\ (forall m, is_Some (page_pick m)).
Lemma plenty_mem t : plenty -> ~ nomem t.
Proof. intros [P1 P2] [H|H]; [destruct (P1 (pframes t)) | destruct (P2 (memory t))]; congruence. Qed.

(** C12: looking up a page of an anonymous object or of a chain of shadow
    objects over one, for reading or for writing, gives a frame with the
    bytes the object shows (the nearest resident page down the chain, or
    zeros), private to the object when it is for writing; nothing that any
    object shows changes and every reference stays accounted for.  The only
    failure is -ENOMEM, when the allocators have run out. *)
Theorem lookuppage_correct s R o n w : owns s R -> attached s o -> anon_bottom s o ->
  (exists pf s' d, lookuppage o n w s = Ok ((0, pf), s') /\ owns s' R /\ edges s' = edges s /\
     shows s (edges s) o n d /\ content s' pf d /\ (w = true -> resident s' o n pf) /\
     forall o' n' d', shows s (edges s) o' n' d' -> shows s' (edges s') o' n' d') \/
  (exists s', lookuppage o n w s = Ok ((- ENOMEM, 0), s') /\ ~ plenty).
Proof.
  intros W Ha (x & z & Hx & Hz & Hk). apply attached_settled in Ha.
  destruct (settled_bottom s _ R o W Ha) as (x' & Hx' & Hb). simplify_eq.
  destruct (lookup_ok s (edges s) R o n w _ z W Ha Hb Hz Hk) as [(pf & s' & d & E & K & X & Hs & Hd & _ & Hw)|(s' & t & E & Hno)].
  - left. exists pf, s', d. pose proof (grows_edges _ _ _ X) as Ee. split; [done|]. split; [unfold owns; rewrite Ee; by apply (grows_owned s)|].
    split; [done|]. split; [done|]. split; [done|]. split; [done|]. intros o' n' d' H. rewrite Ee. by apply (grows_shows s s' (edges s) R).
  - right. exists s'. split; [done|]. intros P. by apply (plenty_mem t).
Qed.

(** What a chain leads to after [fork]. *)
Lemma fork_edges s R o ps cs b s' : owns s (o :: R) -> mmobjs s !! ps = None -> mmobjs s !! cs = None ->
  owned s' (<[cs := (o, b)]> (<[ps := (o, b)]> (edges s))) (ps :: cs :: R) -> adopts s s' ->
  dom (mmobjs s') = {[ps; cs]} ∪ dom (mmobjs s) -> edges s' = <[cs := (o, b)]> (<[ps := (o, b)]> (edges s)).
Proof.
  intros W Hp Hc W' A D. symmetry. apply (owned_edges s' _ (ps :: cs :: R) W'). intros p (y' & Hy' & Hat).
  exists y'. split; [done|]. destruct (decide (p = cs)) as [->|Hpc]; [right; by rewrite lookup_insert_eq|].
  destruct (decide (p = ps)) as [->|Hpp]; [right; rewrite lookup_insert_ne by done; by rewrite lookup_insert_eq|].
  rewrite !lookup_insert_ne by done. assert (p ∈ dom (mmobjs s)) as Hd.
  { assert (p ∈ dom (mmobjs s')) by (by apply elem_of_dom_2 with y'). rewrite D in *. set_solver. }
  apply elem_of_dom in Hd as [y Hy]. destruct (ad_objs _ _ A _ _ Hy) as (y2 & Hy2 & E1 & E2 & _). simplify_eq.
  assert (settled s (edges s) p) as (y3 & Hy3 & Hs); [|simplify_eq; by rewrite E1].
  apply attached_settled. exists y. rewrite <- E1, <- E2. done.
Qed.
Lemma fresh_absent s G R o n : owned s G R -> mmobjs s !! o = None -> absent s o n.
Proof. intros W Ho pf (x & Hx & <- & _). destruct (f_obj _ _ _ (p_frames _ (w_inv _ _ _ W) _ _ Hx)) as [y Hy]. congruence. Qed.

Lemma found_dec s l n : pages_inv s -> (exists pf, found s l n pf) \/ none s l n.
Proof.
  intros K. induction l as [|o l IH]; [right; by intros ? []%elem_of_nil|].
  destruct (pframe_get_resident_ok s o n K) as (pf & _ & _ & _ & [[_ H]|[_ H]]).
  - destruct IH as [[p Hp]|Hn]; [left; exists p; by apply found_next|right; by apply none_cons].
  - left. exists pf. by apply found_here.
Qed.
Lemma shows_total s G R o b z n : owned s G R -> settled s G o -> bottom_is s G o b -> mmobjs s !! b = Some z ->
  mmo_ops z = anon_mmobj_ops -> exists d, shows s G o n d.
Proof.
  intros W Hs [_ Hb] Hz Hk. destruct (chain_exists G o (w_rank _ _ _ W)) as [l Hl].
  destruct (found_dec s l n (w_inv _ _ _ W)) as [[pf Hf]|Hn].
  - pose proof Hf as (l1 & p & l2 & _ & _ & Hr). destruct (resident_content s p n pf (w_inv _ _ _ W) Hr) as [d Hd].
    exists d, l. split; [done|left; by exists pf].
  - exists zero_page, l. split; [done|right]. split; [done|]. split; [done|]. exists b, z. split; [|done].
    by apply (chain_last s G o l b (owned_graph _ _ _ W)).
Qed.

(** C10: a private mapping after [fork].  Parent and child get a shadow object
    each over the area's object and see the pages it had; a write by one of
    them ([first] says which), looked up for writing and stored to the frame,
    is seen by it and never by the other, which keeps seeing the old bytes of
    every page; the references stay accounted for throughout. *)
Theorem fork_isolation s R o n (first : bool) : owns s (o :: R) -> attached s o -> anon_bottom s o -> plenty ->
  (forall m : gmap Z mmobj, is_Some (slab_pick m)) ->
  exists ps cs s1, fork_private o s = Ok ((ps, cs), s1) /\ owns s1 (ps :: cs :: R) /\
    (forall m e, shows s (edges s) o m e -> shows s1 (edges s1) ps m e /\ shows s1 (edges s1) cs m e) /\
    let writer := if first then ps else cs in
    let other := if first then cs else ps in
    exists pf s2 d, lookuppage writer n true s1 = Ok ((0, pf), s2) /\ shows s (edges s) o n d /\ content s2 pf d /\
      forall d', length d' = Z.to_nat PAGE_SIZE -> exists s3, write_frame pf d' s2 = Ok (tt, s3) /\
        owns s3 (ps :: cs :: R) /\ shows s3 (edges s3) writer n d' /\
        forall m e, shows s (edges s) o m e -> shows s3 (edges s3) other m e.
Proof.
  intros W Ha (x & z & Hx & Hz & Hk) P Hslab. apply attached_settled in Ha.
  destruct (settled_bottom s _ _ o W Ha) as (x' & Hx' & Hb). simplify_eq. set (b := mmobj_bottom_obj o x) in *.
  destruct (fork_private_ok s (edges s) R o W Ha Hslab) as (ps & cs & b' & s1 & Hr & Fp & Fc & Hne & W1 & A & Hb' & D).
  pose proof (bottom_unique _ _ _ _ _ _ Hb Hb') as <-. pose proof (fork_edges s R o ps cs b s1 W Fp Fc W1 A D) as E1.
  exists ps, cs, s1. rewrite <- E1 in W1. split; [done|]. split; [done|].
  assert (forall p, is_Some (mmobjs s !! p) -> edges s1 !! p = edges s !! p) as HG.
  { intros p [y Hy]. rewrite E1, !lookup_insert_ne by congruence. done. }
  assert (forall w, w = ps \/ w = cs -> edges s1 !! w = Some (o, b) /\ forall m, absent s1 w m) as Hw.
  { intros w Hor. split.
    - rewrite E1. destruct (decide (w = cs)) as [->|]; [apply lookup_insert_eq|]. rewrite lookup_insert_ne by done.
      destruct Hor as [->|?]; [apply lookup_insert_eq|done].
    - intros m. unfold absent, resident, on_frame. rewrite (ad_frames _ _ A). apply (fresh_absent s (edges s) (o :: R) w m W). by destruct Hor as [->| ->]. }
  assert (forall w m e, w = ps \/ w = cs -> shows s (edges s) o m e -> shows s1 (edges s1) w m e) as Hsh.
  { intros w m e Hor He. destruct (Hw w Hor) as [Ew Aw]. apply (shows_cons s1 _ w o b m e Ew (Aw m)).
    by apply (adopts_shows s s1 (edges s) _ (o :: R)). }
  split; [intros m e He; split; apply Hsh; auto|]. cbv zeta.
  set (writer := if first then ps else cs). set (other := if first then cs else ps).
  assert ((writer = ps \/ writer = cs) /\ (other = ps \/ other = cs) /\ writer <> other) as (Hw1 & Ho1 & Hwo)
    by (unfold writer, other; destruct first; auto).
  destruct (ad_objs _ _ A _ _ Hz) as (z1 & Hz1 & Kz & _).
  destruct (Hw writer Hw1) as [Ew Aw]. destruct (w_edges _ _ _ W1 _ _ _ Ew) as [(yw & Hyw & _) _ Hbb _].
  destruct (lookup_ok s1 (edges s1) _ writer n true b z1 W1) as [(pf & s2 & d & E & K2 & X & Hs & Hd & _ & Hres)|(s2 & t & _ & Hno)];
    [exists yw; split; [done|right; by eexists]|split; [done|by rewrite Ew]|done|congruence| |by destruct (plenty_mem t)].
  specialize (Hres eq_refl). pose proof (grows_owned _ _ _ _ W1 K2 X) as W2.
  destruct (shows_total s (edges s) (o :: R) o b z n W Ha Hb Hz Hk) as [d0 Hd0].
  assert (d0 = d) as -> by apply (shows_unique s1 _ _ _ _ _ (w_inv _ _ _ W1) (Hsh writer n d0 Hw1 Hd0) Hs).
  exists pf, s2, d. split; [done|]. split; [done|]. split; [done|]. intros d' Hlen. destruct Hres as (xf & Hxf & Eo & En).
  destruct (write_frame_ok s2 _ _ pf xf d' W2 Hxf Hlen) as (s3 & Hr3 & W3 & ->). eexists. split; [exact Hr3|].
  assert (edges (upd_memory (<[pf_addr xf := d']>) s2) = edges s1) as E3 by apply (grows_edges _ _ _ X).
  unfold owns. rewrite E3. split; [done|]. split.
  - apply (shows_resident _ _ _ _ pf); [apply (w_rank _ _ _ W1)|by exists xf|]. exists xf. split; [done|]. apply lookup_insert_eq.
  - intros m e He. destruct (chain_exists (edges s) o (w_rank _ _ _ W)) as [l Hl].
    assert (forall p a c, edges s !! p = Some (a, c) -> settled s (edges s) a) as Hed by (intros p a c Hp; apply (w_edges _ _ _ W _ _ _ Hp)).
    apply (write_shows s2 _ _ pf xf d' other m e (other :: l) W2 Hxf).
    + eapply chain_shadow; [apply (Hw other Ho1)|]. by apply (chain_weaken s (edges s)).
    + left. rewrite Eo. intros [?|Hin]%elem_of_cons; [done|]. destruct (chain_live s (edges s) o l Hed Ha Hl _ Hin) as [? ?].
      destruct Hw1 as [->| ->]; congruence.
    + apply (grows_shows s1 s2 _ _ other m e W1 K2 X). by apply Hsh.
Qed.
End Cow.
