(* ===== verification/Pageout.v ===== *)
(** * Paging out, and what goes wrong when memory runs out

    The page-out daemon of mm/pframe.c, the cleaning of pages of anonymous
    and shadow objects, and the page that a failed fill leaves behind; then
    concrete states on which the theorems about memory objects are applied. *)
From stdpp Require Import base gmap list fin_maps fin_sets.
From Stdlib Require Import ZArith Lia.
From S2P Require Import Prelude KEnv Vmmap MmObj MmInv MmPut MmCow.
Open Scope Z_scope.
Open Scope c_scope.

Section Pageout.
Context `{KL : KList} `{SL : Slab} `{KG : KGeometry} `{MU : !Mmu} `{PA : !PageAlloc} `{MH : !MmHeader}.
Context `{PU : !PtUnmap} `{VO : !VnodeObjs} `{ER : KErrno}.

Lemma lookuppage_shadow s o n w y : mmobjs s !! o = Some y -> mmo_ops y = shadow_mmobj_ops ->
  lookuppage o n w s = shadow_lookuppage_ (lookuppage_ 1) o n w s.
Proof.
  intros Hy Hk. unfold lookuppage. remember 1%nat as k eqn:Ek. cbn [lookuppage_].
  by rewrite (mbind_run _ _ _ _ _ (load_mmo_run _ _ _ Hy)), Hk.
Qed.
(** A page that is there is found by a lookup for writing. *)
Lemma shadow_hit s o n y pf x : pages_inv s -> mmobjs s !! o = Some y -> mmo_ops y = shadow_mmobj_ops ->
  pframes s !! pf = Some x -> pf_obj x = o -> pf_pagenum x = n ->
  exists s', quiet s s' /\ lookuppage o n true s = if pf_busy x then Err FAssert else Ok ((0, pf), s').
Proof.
  intros K Hy Hk Hx Eo En. destruct (pframe_get_resident_ok s o n K) as (p & s' & Hr & Q & Hp).
  assert (resident s o n pf) as Hres by by exists x.
  destruct Hp as [[_ Ha]|[Hp0 Hp]]; [by destruct (Ha pf)|]. rewrite (resident_unique s o n p pf K Hp Hres) in *.
  assert (pframes s' !! pf = Some x) as Hx' by by rewrite (q_frames _ _ Q).
  exists s'. split; [done|]. rewrite (lookuppage_shadow s o n true y Hy Hk).
  unfold shadow_lookuppage_. rewrite (mbind_run _ _ s (0, pf) s').
  2: { rewrite (mbind_run _ _ _ _ _ Hr). by rewrite (proj2 (Z.eqb_neq pf 0) Hp0). }
  change (0 <? 0) with false. cbn iota. destruct (pf_busy x) eqn:Eb; [|by apply (lookup_check s' n pf x); [apply Q, K|..]].
  rewrite assert_run by (by apply negb_true_iff, Z.eqb_neq). rewrite (mbind_run _ _ _ _ _ (load_pf_run _ _ _ Hx')), Eb.
  by rewrite andb_false_r.
Qed.
Lemma anon_hit_busy s o n y pf x : pages_inv s -> mmobjs s !! o = Some y -> mmo_ops y = anon_mmobj_ops ->
  pframes s !! pf = Some x -> pf_obj x = o -> pf_pagenum x = n -> pf_busy x = true ->
  lookuppage o n true s = Err FFuel.
Proof.
  intros K Hy Hk Hx Eo En Eb. destruct (pframe_get_resident_ok s o n K) as (p & s' & Hr & Q & Hp).
  assert (resident s o n pf) as Hres by by exists x.
  destruct Hp as [[_ Ha]|[Hp0 Hp]]; [by destruct (Ha pf)|]. rewrite (resident_unique s o n p pf K Hp Hres) in *.
  assert (pframes s' !! pf = Some x) as Hx' by by rewrite (q_frames _ _ Q).
  unfold lookuppage. cbn [lookuppage_]. rewrite (mbind_run _ _ _ _ _ (load_mmo_run _ _ _ Hy)), Hk.
  unfold anon_lookuppage_, pframe_get_. rewrite (mbind_run _ _ _ _ _ Hr), (proj2 (Z.eqb_neq pf 0) Hp0). cbn [negb].
  apply mbind_err. rewrite (mbind_run _ _ _ _ _ (load_pf_run _ _ _ Hx')), Eb. done.
Qed.

(** C38: [shadow_lookuppage] fails when the page that is copied cannot be
    brought in, but the new frame stays resident, unfilled: the next lookup
    of the page succeeds and returns the bytes that [page_alloc] happened to
    give. *)
Theorem failed_fill_stays s R o n s1 f a d : owns s R -> anon_bottom s o ->
  (exists y, mmobjs s !! o = Some y /\ mmo_ops y = shadow_mmobj_ops /\ mmo_shadowed y <> 0) -> absent s o n ->
  slab_pick (pframes s) = Some f -> page_pick (memory s) = Some (a, d) ->
  lookuppage o n true s = Ok ((- ENOMEM, 0), s1) ->
  exists pf s2, lookuppage o n true s1 = Ok ((0, pf), s2) /\ content s2 pf d /\ pframes s !! pf = None.
Proof.
  intros W (x & z & Hx & Hz & Hk) (y & Hy & Hky & Hsh) Ha Hf Hpk Hl. simplify_eq.
  assert (settled s (edges s) o) as Hs by (apply attached_settled; exists x; split; [done|by right]).
  destruct (settled_bottom s _ R o W Hs) as (x' & Hx' & [_ Hb]). simplify_eq.
  assert (edges s !! o = Some (mmo_shadowed x, mmo_bottom_obj x)) as Ho.
  { rewrite edges_lookup, Hx. cbn. unfold edge_of. by rewrite decide_True. }
  rewrite Ho in Hb. rewrite <- Hb in Hz. 
  rewrite (lookuppage_shadow s o n true x Hx Hky) in Hl. unfold shadow_lookuppage_ in Hl.
  destruct (pframe_get_resident_ok s o n (w_inv _ _ _ W)) as (p & s0 & Hr & Q & Hp).
  destruct Hp as [[-> _]|[_ Hp]]; [|by destruct (Ha p)]. pose proof (owned_quiet _ _ _ _ W Q) as W0.
  assert (mmobjs s0 !! mmo_bottom_obj x = Some z) as Hz0 by by rewrite (q_objs _ _ Q).
  pose proof enomem_neg as Hneg. apply Z.ltb_lt in Hneg.
  apply mbind_Ok in Hl as ([code pf] & s2 & H1 & H2). rewrite (mbind_run _ _ _ _ _ Hr) in H1.
  change (0 =? 0) with true in H1. cbn iota in H1. apply mbind_Ok in H1 as ([c q] & t & Hg & H1).
  destruct (shadow_get_ok 0 s0 _ R o _ _ n z W0 Ho Hz0 Hk) as [pf' t' Hr0 _ _|pf' d' t' _ _ _ _ _ _ _ E|t' _ _ Hno _|pf' ad d' t' t2 _ K' Hpf' Hpk' A _ E].
  - destruct (Ha pf'). unfold resident, on_frame in *. by rewrite (q_frames _ _ Q) in Hr0.
  - rewrite Hg in E. injection E as -> -> ->. change (0 <? 0) with false in H1. cbn iota in H1.
    apply mbind_Ok in H1 as (? & ? & _ & [= <- <- <-]). change (0 <? 0) with false in H2. cbn iota in H2.
    apply mbind_Ok in H2 as (? & ? & _ & H2). apply mbind_Ok in H2 as (? & ? & _ & H2). apply mbind_Ok in H2 as (? & ? & _ & [= E _ _]). lia.
  - unfold nomem in Hno. rewrite (q_frames _ _ Q), (q_mem _ _ Q) in Hno. destruct Hno; congruence.
  - rewrite Hg in E. injection E as -> -> ->. rewrite enomem_neg in H1. injection H1 as <- <- <-. rewrite enomem_neg in H2. injection H2 as <-.
    rewrite (q_mem _ _ Q) in Hpk'. simplify_eq.
    assert (pframes t' !! pf' = Some (mkPframe o n a false false 0)) as Hxf by (rewrite (a_frames _ _ _ _ _ A); apply lookup_insert_eq).
    destruct (option_rel_Some' _ _ _ _ (sg_objs _ _ (same_graph_added _ _ _ _ _ A) o) (eq_trans (f_equal (lookup o) (q_objs _ _ Q)) Hx)) as (yt & Hyt & Ek & _).
    destruct (shadow_hit t' o n yt pf' _ K' Hyt ltac:(congruence) Hxf eq_refl eq_refl) as (s3 & Q3 & Hl3). cbn in Hl3. exists pf', s3. split; [done|].
    split; [|by rewrite <- (q_frames _ _ Q), (a_fresh _ _ _ _ _ A)]. apply (quiet_content t'); [done|]. eexists. split; [done|].
    rewrite (a_mem _ _ _ _ _ A). apply lookup_insert_eq.
Qed.

(** [pframe_clean] marks the page busy before it calls [cleanpage], and the
    [cleanpage] of anonymous and shadow objects looks the same page up again:
    for a shadow object the assertion that the page is not busy fails, for
    an anonymous one the thread waits for the page it is cleaning itself. *)
Theorem pframe_clean_stuck s R pf x y : owns s R -> pframes s !! pf = Some x -> pf_dirty x = true -> pf_pincount x = 0 ->
  mmobjs s !! pf_obj x = Some y -> mmo_ops y <> vnode_mmobj_ops ->
  pframe_clean pf s = Err (if decide (mmo_ops y = shadow_mmobj_ops) then FAssert else FFuel).
Proof.
  intros W Hx Hd Hp Hy Hk. unfold pframe_clean. rewrite (mbind_run _ _ _ _ _ (load_pf_run _ _ _ Hx)), Hd, Hp.
  rewrite !assert_run by done. rewrite (mbind_run _ _ _ _ _ (store_pf_run _ _ _ _ Hx)), (mbind_run (mput _) _ _ _ _ eq_refl).
  set (s1 := upd_pframes _ s). set (s2 := upd_hw _ s1). assert (pframes s2 !! pf = Some (with_dirty false x)) as Hx2 by apply lookup_insert_eq.
  destruct (remove_from_pts_run s2 pf _ Hx2) as [h Hr].
  { destruct (settled_mapped s _ R _ W (w_settled _ _ _ W _ _ Hx)) as (u & v & Hu & Hv & Hm). by exists u, v. }
  rewrite (mbind_run _ _ _ _ _ Hr). set (s3 := upd_hw (fun _ => h) s2). assert (pframes s3 !! pf = Some (with_dirty false x)) as Hx3 by done.
  rewrite (mbind_run _ _ _ _ _ (store_pf_run _ _ _ _ Hx3)). set (s4 := upd_pframes _ s3).
  assert (pframes s4 !! pf = Some (with_busy true (with_dirty false x))) as Hx4 by apply lookup_insert_eq.
  assert (pages_inv s4) as K4.
  { apply (pages_inv_eq s), W. split; [done| |intros; by apply option_rel_refl..]. intros q. cbn. rewrite insert_insert_eq.
    destruct (decide (q = pf)) as [->|]; [by rewrite lookup_insert_eq, Hx|]. rewrite lookup_insert_ne by done. by apply option_rel_refl. }
  apply mbind_err. unfold cleanpage. rewrite (mbind_run _ _ _ _ _ (load_mmo_run s4 _ y Hy)).
  assert (cleanpage_copy (pf_obj x) pf s4 = Err (if decide (mmo_ops y = shadow_mmobj_ops) then FAssert else FFuel)) as Hc.
  { unfold cleanpage_copy. rewrite (mbind_run _ _ _ _ _ (load_pf_run _ _ _ Hx4)). apply mbind_err. cbn [pf_pagenum with_busy with_dirty].
    case_decide as Hs.
    - destruct (shadow_hit s4 (pf_obj x) (pf_pagenum x) y pf _ K4 Hy Hs Hx4 eq_refl eq_refl) as (s5 & _ & Hl). exact Hl.
    - eapply (anon_hit_busy s4 (pf_obj x) _ y pf); try done. by destruct (mmo_ops y). }
  by destruct (mmo_ops y).
Qed.

(** ** The page-out daemon *)
(** Dirty pages that are not pinned belong to anonymous and shadow objects. *)
Definition no_dirty_files (s : mms) : Prop := forall pf x y, pframes s !! pf = Some x -> pf_pincount x = 0 -> pf_dirty x = true ->
  mmobjs s !! pf_obj x = Some y -> mmo_ops y <> vnode_mmobj_ops.
(** Pinned pages and dirty pages stay, no page is new. *)
Record paged_out (s s' : mms) : Prop := {
  po_sub pf x : pframes s' !! pf = Some x -> pframes s !! pf = Some x;
  po_pinned pf x : pframes s !! pf = Some x -> 0 < pf_pincount x ->
    pframes s' !! pf = Some x /\ memory s' !! pf_addr x = memory s !! pf_addr x;
  po_clean pf x : pframes s !! pf = Some x -> pframes s' !! pf = None -> pf_dirty x = false;
  po_objs p y : mmobjs s !! p = Some y -> exists y', mmobjs s' !! p = Some y' /\ mmo_ops y' = mmo_ops y;
  po_target : nfreepages_target s' = nfreepages_target s;
}.
Lemma paged_out_trans s1 s2 s3 : paged_out s1 s2 -> paged_out s2 s3 -> paged_out s1 s3.
Proof.
  intros A B. split.
  - intros pf x H. by apply A, B.
  - intros pf x Hx Hp. destruct (po_pinned _ _ A _ _ Hx Hp) as [H2 M2]. destruct (po_pinned _ _ B _ _ H2 Hp) as [H3 M3].
    split; [done|congruence].
  - intros pf x Hx H3. destruct (pframes s2 !! pf) as [x2|] eqn:H2; [|by apply (po_clean _ _ A pf)].
    pose proof (po_sub _ _ A _ _ H2) as Hx'. rewrite Hx in Hx'. injection Hx' as <-. by apply (po_clean _ _ B pf).
  - intros p y Hy. destruct (po_objs _ _ A _ _ Hy) as (y2 & Hy2 & E2). destruct (po_objs _ _ B _ _ Hy2) as (y3 & Hy3 & E3).
    exists y3. split; [done|congruence].
  - rewrite (po_target _ _ B). apply (po_target _ _ A).
Qed.
Lemma paged_out_refl s : paged_out s s.
Proof. split; try done; [congruence|by eexists]. Qed.
Lemma freed_paged_out s s' R pf x y : owns s R -> pframes s !! pf = Some x -> pf_pincount x = 0 ->
  pf_dirty x = false -> mmobjs s !! pf_obj x = Some y -> freed s s' pf x y -> paged_out s s'.
Proof.
  intros W Hx Hp Hd Hy [Z1 Z2 Z3 _ Z5]. split; [| | | |done].
  - intros q z. rewrite Z1. by intros [_ ?]%lookup_delete_Some.
  - intros q z Hz Hq. assert (q <> pf) as Hne by (intros ->; simplify_eq; lia). rewrite Z1, Z2, lookup_delete_ne by done. split; [done|].
    apply lookup_delete_ne. intros E. apply Hne. symmetry. exact (p_addr _ (w_inv _ _ _ W) _ _ _ _ Hx Hz E).
  - intros q z Hz. rewrite Z1. intros [?|Hq]%lookup_delete_None; congruence.
  - intros p z Hz. rewrite Z3. destruct (decide (p = pf_obj x)) as [->|]; [rewrite lookup_insert_eq|rewrite lookup_insert_ne by done; by exists z].
    eexists. split; [done|]. cbn. congruence.
Qed.
Definition target_met (s : mms) : Prop := nfreepages_target s <= page_free_count (memory s).
(** Where a round comes to a stop: after pages of [s] have been taken out, too
    few are free and the next page of [alloc_list] has this property. *)
Definition next_page (s : mms) (P : mms -> Z -> pframe -> Prop) : Prop := exists s1 pf l x, paged_out s s1 /\
  nfreepages_target s1 > page_free_count (memory s1) /\ list_items (alloc_list s1) = pf :: l /\ pframes s1 !! pf = Some x /\ P s1 pf x.
(** A dirty page, whose cleaning fails with [e] ([pframe_clean_stuck]). *)
Definition dirty_page (e : fault) (s : mms) (pf : Z) (x : pframe) : Prop := pf_dirty x = true /\
  exists y, mmobjs s !! pf_obj x = Some y /\ e = if decide (mmo_ops y = shadow_mmobj_ops) then FAssert else FFuel.
Definition round_end (s s' : mms) (R : list Z) : Prop := owns s' R /\ paged_out s s' /\ (target_met s' \/ list_items (alloc_list s') = []).
Definition round_stops (s : mms) (r : outcome (unit * mms)) : Prop :=
  (r = Err FUndef /\ slab_keeps = false /\ next_page s (fun _ _ x => pf_dirty x = false)) \/
  (exists e, r = Err e /\ next_page s (dirty_page e)).
Lemma next_page_after s s1 P : paged_out s s1 -> next_page s1 P -> next_page s P.
Proof. intros A (s2 & pf & l & x & B & H). exists s2, pf, l, x. split; [by apply (paged_out_trans s s1)|done]. Qed.

Lemma pageout_loop_ok fuel : forall s R, owns s R -> no_dirty_files s -> (Z.to_nat (nallocated s) < fuel)%nat ->
  (exists s', pageout_loop fuel s = Ok (tt, s') /\ round_end s s' R) \/ round_stops s (pageout_loop fuel s).
Proof.
  induction fuel as [|fuel IH]; intros s R W Hnf Hf; [lia|]. cbn [pageout_loop].
  rewrite !(mbind_run (mget _) _ s _ s eq_refl). destruct (list_items (alloc_list s)) as [|pf l] eqn:El.
  { left. exists s. split; [done|]. split; [done|]. split; [apply paged_out_refl|by right]. }
  destruct (Z.leb_spec (nfreepages_target s) (page_free_count (memory s))) as [Ht|Ht].
  { left. exists s. split; [done|]. split; [done|]. split; [apply paged_out_refl|by left]. }
  destruct (proj1 (proj2 (p_alloc _ (w_inv _ _ _ W)) pf)) as (x & Hx & Hp); [rewrite El; by left|].
  destruct (f_obj _ _ _ (p_frames _ (w_inv _ _ _ W) _ _ Hx)) as [y Hy].
  rewrite (mbind_run _ _ _ _ _ (load_pf_run _ _ _ Hx)). rewrite (w_busy _ _ _ W _ _ Hx), guard_run by done.
  assert (forall P : mms -> Z -> pframe -> Prop, P s pf x -> next_page s P) as Hnext.
  { intros P HP. exists s, pf, l, x. split; [apply paged_out_refl|]. split; [lia|done]. }
  destruct (pf_dirty x) eqn:Hd.
  { right; right. eexists. split.
    - apply mbind_err, mbind_err. apply (pframe_clean_stuck s R pf x y); try done. by apply (Hnf pf x y).
    - apply Hnext. split; [done|]. by exists y. }
  destruct slab_keeps eqn:keeps.
  2:{ right; left. split; [|split; [done|by apply Hnext]]. apply mbind_err. by apply (free_page_undef mmo_put s (edges s) R pf x). }
  destruct (free_page_ok mmo_put s (edges s) R pf x y keeps (fun o t => ex_intro _ (size (mmobjs t)) eq_refl) W Hx Hp Hy) as (s1 & Hr & W1 & F).
  rewrite (mbind_run _ _ _ _ _ Hr). pose proof (freed_paged_out s s1 R pf x y W Hx Hp Hd Hy F) as P1.
  assert (edges s1 = edges s) as Ee.
  { apply edges_kind. intros p. rewrite (z_objs _ _ _ _ _ F). destruct (decide (p = pf_obj x)) as [->|].
    - by rewrite lookup_insert_eq, Hy.
    - rewrite lookup_insert_ne by done. by apply option_rel_refl, kind_refl. }
  destruct (IH s1 R) as [(s2 & Hr2 & W2 & P2 & Hend)|Hst].
  - unfold owns. by rewrite Ee.
  - intros q z w Hz Hq Hdz Hw. pose proof (po_sub _ _ P1 _ _ Hz) as Hz0. destruct (f_obj _ _ _ (p_frames _ (w_inv _ _ _ W) _ _ Hz0)) as [w0 Hw0].
    destruct (po_objs _ _ P1 _ _ Hw0) as (w1 & Hw1 & E). rewrite Hw in Hw1. injection Hw1 as <-. rewrite E. by apply (Hnf q z w0).
  - assert (length (list_items (alloc_list s)) = S (length (list_items (alloc_list s1)))) as Hlen.
    { change (S (length (list_items (alloc_list s1)))) with (length (pf :: list_items (alloc_list s1))). apply Permutation_length.
      destruct (p_alloc _ (w_inv _ _ _ W)) as [N M], (p_alloc _ (w_inv _ _ _ W1)) as [N1 M1].
      assert (forall q, q ∈ list_items (alloc_list s1) <-> q <> pf /\ q ∈ list_items (alloc_list s)) as Hq.
      { intros q. rewrite M1, M. apply (on_frame_delete s s1), F. }
      apply NoDup_Permutation; [done|constructor; [rewrite Hq; tauto|done]|]. intros q. rewrite elem_of_cons, Hq.
      destruct (decide (q = pf)) as [->|]; [rewrite El; set_solver|tauto]. }
    rewrite (p_nalloc _ (w_inv _ _ _ W)) in Hf. rewrite (p_nalloc _ (w_inv _ _ _ W1)). lia.
  - left. exists s2. split; [done|]. split; [done|]. split; [by apply (paged_out_trans s s1)|done].
  - right. destruct Hst as [(E & Hk & H)|(e & E & H)]; [congruence|right]. exists e. split; [done|]. by apply (next_page_after s s1).
Qed.

(** C37: one round of the page-out daemon, when no page of a file is dirty.  It
    ends, with one iteration per allocated page, having taken clean pages out
    until enough are free or none is left on [alloc_list]: pinned and dirty
    pages stay, the pinned ones with their bytes, no object goes, the
    references stay accounted for, and the threads that wait for memory are
    woken.  Otherwise, with too few pages free, it stops in one of two ways:
    at a clean page where freed memory cannot be read ([pframe_free] reads
    the frame after it is freed), or at a dirty page, which belongs to an
    anonymous object, whose cleaning waits for itself for ever, or to a
    shadow object, whose cleaning panics.  (The cleaning of a file's page is
    the vnode's, a parameter here.) *)
Theorem pageoutd_round_correct s R fuel : owns s R -> no_dirty_files s -> (Z.to_nat (nallocated s) < fuel)%nat ->
  (exists s', pageoutd_round fuel s = Ok (tt, s') /\ round_end s s' R /\ head (broadcasts s') = Some alloc_waitq) \/
  round_stops s (pageoutd_round fuel s).
Proof.
  intros W Hc Hf. unfold pageoutd_round. rewrite (mbind_run (mget _) _ s _ s eq_refl).
  rewrite assert_run by (rewrite (p_nalloc _ (w_inv _ _ _ W)); zbool).
  destruct (pageout_loop_ok fuel s R W Hc Hf) as [(s1 & Hr & W1 & P & Hend)|Hst].
  - left. rewrite (mbind_run _ _ _ _ _ Hr). eexists. split; [reflexivity|]. split; [split; [|split; [|exact Hend]]|done].
    + apply (owned_quiet s1); [exact W1|]. destruct (broadcast_quiet s1 alloc_waitq) as (s2 & [= <-] & Q). exact Q.
    + split; apply P.
  - right. destruct Hst as [(E & H)|(e & E & H)]; [left; split; [by apply mbind_err|done]|right]. exists e. split; [by apply mbind_err|done].
Qed.
End Pageout.

(** ** Concrete states *)
(** A page allocator with [k] pages, or without end, whose pages hold 7s. *)
Definition has_page (k : option nat) (m : gmap Z (list Z)) : bool :=
  match k with Some k => bool_decide (size m < k)%nat | None => true end.
#[refine] Definition pages_upto (k : option nat) : @PageAlloc i386_geometry := {|
  page_pick m := if has_page k m then Some (fresh (dom m ∪ {[0]} : gset Z), replicate 4096 7) else None;
  page_free_count m := from_option Z.of_nat 100 k - Z.of_nat (size m);
  PF_HASH_SIZE := 1; slab_keeps := true;
|}.
Proof.
  - intros m a d. destruct (has_page k m); [|done]. intros [= <- <-]. pose proof (is_fresh (dom m ∪ {[0]} : gset Z)) as Hfr.
    split; [set_solver|]. split; [apply not_elem_of_dom; set_solver|by vm_compute].
  - done.
Defined.
#[refine] Definition mm_header : @MmHeader seq_klist := {|
  mmobj_init k := @mkMmobj seq_klist k 0 0 [] 0 0 [];
  mmobj_bottom_obj o x := if mmo_shadowed x =? 0 then o else mmo_bottom_obj x;
  pframe_is_free x := pf_obj x =? 0;
|}.
Proof.
  all: try done.
  - intros o x H. by rewrite (proj2 (Z.eqb_neq _ _) H).
  - intros o x ->. done.
  - intros x H. by apply Z.eqb_neq.
Defined.
Definition fun_flush (va : Z) (h : @hw _ fun_mmu) : @hw _ fun_mmu :=
  mkFhw (f_pt h) (fun n => if decide (n = va / 4096) then None else f_tlb h n) (f_flags h).
Definition fun_pt_unmap (pd va : Z) (h : @hw _ fun_mmu) : @hw _ fun_mmu :=
  mkFhw (fun d n => if decide (d = pd /\ n = va / 4096) then None else f_pt h d n) (f_tlb h) (f_flags h).
#[refine] Definition fun_unmap : @PtUnmap i386_geometry fun_mmu := {|
  tlb_flush := fun_flush; pt_unmap := fun_pt_unmap;
|}.
Proof.
  - done.
  - intros pd pn h pd' pn' Hpn. cbn. rewrite (pn_to_addr pn) by lia. change PAGE_SIZE with 4096. by rewrite Z.div_mul.
Defined.
(** Vnode objects whose pages cannot be read. *)
Definition vo_change (k : Z) (o : Z) : M (@mms seq_klist i386_geometry fun_mmu) unit :=
  store_mmo o (fun x => with_ref (mmo_refcount x + k) x).
#[refine] Definition no_vnodes : @VnodeObjs seq_klist i386_geometry fun_mmu := {|
  vo_vref := vo_change 1; vo_vput := vo_change (-1);
  vlookuppage o n w := mret_ (-5, 0); vreadpage o pf := mret_ (-5); vdirtypage o pf := mret_ 0; vcleanpage o pf := mret_ 0;
|}.
Proof.
  - intros s o x Hx _. unfold vo_change. by rewrite (store_mmo_run _ _ _ _ Hx).
  - intros s o x Hx _. unfold vo_change. by rewrite (store_mmo_run _ _ _ _ Hx).
Defined.

Module Examples.
#[local] Existing Instance seq_klist.
#[local] Existing Instance first_slab.
#[local] Existing Instance i386_geometry.
#[local] Existing Instance fun_mmu.
#[local] Existing Instance mm_header.
#[local] Existing Instance fun_unmap.
#[local] Existing Instance no_vnodes.
#[local] Existing Instance weenix_errno.

Definition hw0 : @hw _ fun_mmu := mkFhw (fun _ _ => Some 1) (fun _ => None) (fun _ _ => 0).
(** An anonymous object 1 and a shadow object 3 over it, without pages. *)
Definition two : mms :=
  mkMms _ _ _ ∅ {[1 := @mkMmobj seq_klist anon_mmobj_ops 2 0 [] 0 0 []; 3 := @mkMmobj seq_klist shadow_mmobj_ops 1 0 [] 1 1 []]}
    ∅ {[0 := [] : klist]} [] [] 0 0 0 2 ∅ ∅ ∅ hw0 [].
(** An anonymous object 1 with one page that is not pinned, mapped by area 40 at
    page 1100 of page directory 70. *)
Definition one (dirty : bool) : mms :=
  mkMms _ _ _ {[2 := mkPframe 1 5 9 false dirty 0]} {[1 := @mkMmobj seq_klist anon_mmobj_ops 2 1 [2] 0 0 [40]]}
    {[9 := replicate 4096 7]} {[0 := [2] : klist]} [] [2] 0 1 0 2 {[40 := mkArea 1100 1110 0 3 2 50 1 None]} {[50 := 60]} {[60 := 70]} hw0 [].

Section States.
Context (k : option nat).
#[local] Instance pages_k : PageAlloc := pages_upto k.

Lemma linked_nil (P : Z -> Prop) : (forall x, ~ P x) -> linked ([] : klist) P.
Proof. intros H. split; [constructor|]. intros x. split; [by intros []%elem_of_nil|by intros ?%H]. Qed.
Lemma linked_one (P : Z -> Prop) x : (forall y, P y <-> y = x) -> linked ([x] : klist) P.
Proof. intros H. split; [apply NoDup_singleton|]. intros y. change (y ∈ [x] <-> P y). by rewrite list_elem_of_singleton, H. Qed.

Lemma two_objs o y : mmobjs two !! o = Some y ->
  (o = 1 /\ y = @mkMmobj seq_klist anon_mmobj_ops 2 0 [] 0 0 []) \/ (o = 3 /\ y = @mkMmobj seq_klist shadow_mmobj_ops 1 0 [] 1 1 []).
Proof. cbn. intros [[<- <-]|[_ [<- <-]%lookup_singleton_Some]]%lookup_insert_Some; auto. Qed.
Lemma two_edges : edges two = {[3 := (1, 1)]}.
Proof. by vm_compute. Qed.
Lemma two_owns : owns two [3].
Proof.
  unfold owns. rewrite two_edges.
  assert (forall P pf, ~ on_frame two P pf) as Hno by (by intros P pf (x & Hx & _)).
  assert (settled two {[3 := (1, 1)]} 1) as S1 by (eexists; split; [reflexivity|by left]).
  split.
  - split; try done.
    + by apply linked_nil.
    + by apply linked_nil.
    + intros i Hi. assert (i = 0) as -> by (cbn in Hi; lia). exists (@nil Z). split; [done|]. by apply linked_nil.
    + intros o y [[-> ->]|[-> ->]]%two_objs; (split; [done|by apply linked_nil|done]).
  - done.
  - done.
  - done.
  - intros o y [[-> ->]|[-> ->]]%two_objs; [|done]. intros _. split; [done|]. by intros v []%elem_of_nil.
  - intros o a b [<- [= <- <-]]%lookup_singleton_Some. split; [by eexists|done|by eexists|]. by rewrite lookup_singleton_ne.
  - exists (fun o => Z.to_nat o). intros o a b [<- [= <- <-]]%lookup_singleton_Some. lia.
  - intros o ->%list_elem_of_singleton. by eexists.
  - intros o y [[-> ->]|[-> ->]]%two_objs; by vm_compute.
Qed.
Lemma two_attached : attached two 3.
Proof. eexists. split; [reflexivity|by right]. Qed.
Lemma two_bottom : anon_bottom two 3.
Proof. eexists _, _. by split; [reflexivity|]. Qed.

Lemma one_frames b pf x : pframes (one b) !! pf = Some x -> pf = 2 /\ x = mkPframe 1 5 9 false b 0.
Proof. cbn. by intros [<- <-]%lookup_singleton_Some. Qed.
Lemma one_objs b o y : mmobjs (one b) !! o = Some y -> o = 1 /\ y = @mkMmobj seq_klist anon_mmobj_ops 2 1 [2] 0 0 [40].
Proof. cbn. by intros [<- <-]%lookup_singleton_Some. Qed.
Lemma one_frame b P pf : on_frame (one b) P pf <-> pf = 2 /\ P (mkPframe 1 5 9 false b 0).
Proof.
  split.
  - by intros (x & [-> ->]%one_frames & HP).
  - intros [-> HP]. eexists. split; [apply lookup_singleton_eq|done].
Qed.
Lemma one_owns b : owns (one b) [1].
Proof.
  unfold owns. assert (edges (one b) = ∅) as -> by by vm_compute.
  split.
  - split; try done.
    + intros pf x [-> ->]%one_frames. split; [done|done|by eexists|]. eexists. split; [reflexivity|by vm_compute].
    + by intros pf pf' x x' [-> ->]%one_frames [-> ->]%one_frames.
    + by intros pf pf' x x' [-> ->]%one_frames [-> ->]%one_frames.
    + apply linked_one. intros q. rewrite one_frame. naive_solver.
    + apply linked_nil. intros q. rewrite one_frame. naive_solver lia.
    + intros i Hi. assert (i = 0) as -> by (cbn in Hi; lia). exists (cons 2 nil). split; [done|]. apply linked_one.
      intros q. rewrite one_frame. split; [naive_solver|]. intros ->. split; [done|by vm_compute].
    + intros o y [-> ->]%one_objs. split; [done| |done]. apply linked_one. intros q. rewrite one_frame. naive_solver.
  - by intros pf x [-> ->]%one_frames.
  - by intros pf x y [-> ->]%one_frames.
  - intros pf x [-> ->]%one_frames. eexists. split; [reflexivity|by left].
  - intros o y [-> ->]%one_objs _. split; [done|]. intros v ->%list_elem_of_singleton. eexists _, _. split; [reflexivity|].
    split; [reflexivity|]. right. by eexists.
  - done.
  - by exists (fun _ => 0%nat).
  - intros o ->%list_elem_of_singleton. by eexists.
  - intros o y [-> ->]%one_objs. by vm_compute.
Qed.
Lemma one_ranges b : area_ranges (one b).
Proof. intros v vma. cbn. intros [<- <-]%lookup_singleton_Some. by vm_compute. Qed.
End States.

Lemma plenty_unlimited : plenty (PA := pages_upto None).
Proof. split; [intros f; by eexists|intros m; by eexists]. Qed.

(** The last reference to an object with a page: both go. *)
Lemma mmo_put_correct_witness :
  let PA := pages_upto (Some 8%nat) in
  exists s', mmo_put 1 (one true) = Ok (tt, s') /\ owns s' [] /\ survives (one true) s' /\ mmobjs s' !! 1 = None /\ pframes s' !! 2 = None.
Proof.
  destruct (mmo_put_correct (PA := pages_upto (Some 8%nat)) (one true) [] 1 (@mkMmobj seq_klist anon_mmobj_ops 2 1 [2] 0 0 [40])) as
    [(s' & E & W & A & _ & H)|[H _]]; [apply one_owns | eexists; split; [reflexivity|by left] | reflexivity | | discriminate H].
  assert (mmobjs s' !! 1 = None) as H1.
  { apply H; [discriminate|set_solver|]. replace (outs (edges (one true))) with ([] : list Z) by (by vm_compute). set_solver. }
  exists s'. split; [exact E|]. split; [exact W|]. split; [exact A|]. split; [exact H1|].
  destruct (pframes s' !! 2) as [x|] eqn:Hx; [|reflexivity]. apply (sv_frames _ _ A) in Hx as [Hx [y Hy]].
  apply one_frames in Hx as [_ ->]. cbn in Hy. congruence.
Defined.
Lemma pframe_free_correct_witness :
  let PA := pages_upto (Some 8%nat) in
  exists s', pframe_free 2 (one true) = Ok (tt, s') /\ owns s' [1] /\
    freed (one true) s' 2 (mkPframe 1 5 9 false true 0) (@mkMmobj seq_klist anon_mmobj_ops 2 1 [2] 0 0 [40]).
Proof.
  apply (pframe_free_correct (PA := pages_upto (Some 8%nat)) (one true) [1] 2 _ _ eq_refl); try reflexivity. apply one_owns.
Defined.
Lemma lookuppage_correct_witness :
  let PA := pages_upto (Some 8%nat) in
  (exists pf s' d, lookuppage 3 4 true two = Ok ((0, pf), s') /\ owns s' [3] /\ edges s' = edges two /\
     shows two (edges two) 3 4 d /\ content s' pf d /\ (true = true -> resident s' 3 4 pf) /\
     forall o' n' d', shows two (edges two) o' n' d' -> shows s' (edges s') o' n' d') \/
  (exists s', lookuppage 3 4 true two = Ok ((- ENOMEM, 0), s') /\ ~ plenty).
Proof.
  apply (lookuppage_correct (PA := pages_upto (Some 8%nat)) two [3] 3 4 true); [apply two_owns | apply two_attached | apply two_bottom].
Defined.
Lemma fork_isolation_witness :
  let PA := pages_upto None in
  exists ps cs s1, fork_private 3 two = Ok ((ps, cs), s1) /\ owns s1 [ps; cs] /\
    (forall m e, shows two (edges two) 3 m e -> shows s1 (edges s1) ps m e /\ shows s1 (edges s1) cs m e) /\
    exists pf s2 d, lookuppage ps 4 true s1 = Ok ((0, pf), s2) /\ shows two (edges two) 3 4 d /\ content s2 pf d /\
      forall d', length d' = Z.to_nat PAGE_SIZE -> exists s3, write_frame pf d' s2 = Ok (tt, s3) /\
        owns s3 [ps; cs] /\ shows s3 (edges s3) ps 4 d' /\
        forall m e, shows two (edges two) 3 m e -> shows s3 (edges s3) cs m e.
Proof.
  apply (fork_isolation (PA := pages_upto None) two [] 3 4 true);
    [apply two_owns | apply two_attached | apply two_bottom | apply plenty_unlimited | intros m; by eexists].
Defined.
Lemma pframe_get_resident_correct_witness :
  let PA := pages_upto (Some 8%nat) in
  exists s', pframe_get_resident 1 5 (one true) = Ok (find_frame (one true) 1 5, s') /\ quiet (one true) s' /\ pages_inv s'.
Proof.
  apply (pframe_get_resident_correct (PA := pages_upto (Some 8%nat)) (one true) 1 5).
  apply (w_inv (PA := pages_upto (Some 8%nat)) _ _ _ (one_owns (Some 8%nat) true)).
Defined.
Lemma pframe_remove_from_pts_correct_witness :
  let PA := pages_upto (Some 8%nat) in
  exists y s', mmobjs (one true) !! 1 = Some y /\ pframe_remove_from_pts 2 (one true) = Ok (tt, s') /\
    (exists b, mmobjs (one true) !! mmobj_bottom_obj 1 y = Some b /\
      (forall v pd pn, v ∈ list_items (mmo_vmas b) -> maps_page (one true) v 5 pd pn -> pt_entry (mm_hw s') pd pn = None) /\
      (forall pd pn, (forall v, v ∈ list_items (mmo_vmas b) -> ~ maps_page (one true) v 5 pd pn) ->
         pt_entry (mm_hw s') pd pn = pt_entry (mm_hw (one true)) pd pn)) /\
    exists h, s' = upd_hw (fun _ => h) (one true).
Proof.
  apply (pframe_remove_from_pts_correct (PA := pages_upto (Some 8%nat)) (one true) [1] 2 (mkPframe 1 5 9 false true 0));
    [apply one_owns | apply one_ranges | reflexivity].
Defined.
Definition full_lookup : outcome (Z * Z * mms) := lookuppage (PA := pages_upto (Some 1%nat)) 3 4 true two.
Definition after_full : mms := match full_lookup with Ok (_, s) => s | Err _ => two end.
Lemma failed_fill_stays_witness :
  let PA := pages_upto (Some 1%nat) in
  exists pf s2, lookuppage 3 4 true after_full = Ok ((0, pf), s2) /\ content s2 pf (replicate 4096 7) /\ pframes two !! pf = None.
Proof.
  apply (failed_fill_stays (PA := pages_upto (Some 1%nat)) two [3] 3 4 after_full (fresh ({[0]} : gset Z)) (fresh ({[0]} : gset Z)));
    [apply two_owns | apply two_bottom | eexists; split; [reflexivity|done] | intros pf (x & Hx & _); done | by vm_compute .. ].
Defined.
Lemma pframe_clean_stuck_witness :
  pframe_clean (PA := pages_upto (Some 8%nat)) 2 (one true) = Err FFuel.
Proof.
  apply (pframe_clean_stuck (PA := pages_upto (Some 8%nat)) (one true) [1] 2 (mkPframe 1 5 9 false true 0)
    (@mkMmobj seq_klist anon_mmobj_ops 2 1 [2] 0 0 [40])); try reflexivity; [apply one_owns | done].
Defined.
(** A clean page is taken out; a dirty one stops the daemon. *)
Lemma pageoutd_round_correct_witness :
  let PA := pages_upto (Some 1%nat) in
  (exists s', pageoutd_round 2 (one false) = Ok (tt, s') /\ round_end (one false) s' [1] /\ head (broadcasts s') = Some alloc_waitq) /\
  round_stops (one true) (pageoutd_round 2 (one true)).
Proof.
  split.
  - destruct (pageoutd_round_correct (PA := pages_upto (Some 1%nat)) (one false) [1] 2) as [H|[[_ [H _]]|(e & H & _)]];
      [apply one_owns | by intros pf x y [-> ->]%one_frames | cbn; lia | exact H | discriminate H | vm_compute in H; discriminate H].
  - destruct (pageoutd_round_correct (PA := pages_upto (Some 1%nat)) (one true) [1] 2) as [(s' & H & _)|H];
      [apply one_owns | intros pf x y _ _ _ [_ ->]%one_objs; discriminate | cbn; lia | vm_compute in H; discriminate H | exact H].
Defined.
End Examples.
