(* ===== verification/ForkVm.v ===== *)
(** * proc/fork.c: the address space of the child

    [do_fork] clones the layout of the parent's address space and then gives
    every area of the child its object: the parent's object for a shared
    mapping, and for a private one a shadow object each for the child and the
    parent over the object the parent had.  The rest of [do_fork] is in
    [Fork].  The file also has the invariant of several address spaces in
    one heap. *)
From stdpp Require Import base gmap list fin_maps.
From Stdlib Require Import ZArith Lia.
From S2P Require Import Prelude KEnv Vmmap.
Open Scope Z_scope.
Open Scope c_scope.

(** The mask of the sharing flags, and the fields of a shadow object.
    [sees s o n d]: a lookup of page [n] of object [o] shows the bytes [d]. *)
Class ShadowFields `{MO : Mmobjs} := {
  MAP_TYPE : Z;
  get_shadowed : Z -> M ost Z;
  get_bottom : Z -> M ost Z;
  sees : ost -> Z -> Z -> list Z -> Prop;
}.

Section Model.
Context `{KL : KList} `{SL : Slab} `{KG : KGeometry} `{MO : Mmobjs} `{SF : !ShadowFields} `{MU : !Mmu} `{MF : MapFlags}.

(** The shadow objects of the parent and of the child over [o]. *)
Definition fork_shadows (o : Z) : M ost (Z * Z) :=
  let! parentShadow := shadow_create in
  mguard (negb (parentShadow =? 0)) FUndef ;;;
  set_shadowed parentShadow o ;;;
  let! b := mmobj_bottom_obj o in
  set_bottom parentShadow b ;;;
  let! childShadow := shadow_create in
  mguard (negb (childShadow =? 0)) FUndef ;;;
  set_shadowed childShadow o ;;;
  let! b := mmobj_bottom_obj o in
  set_bottom childShadow b ;;;
  let! x := get_shadowed childShadow in
  mmo_ref x ;;;
  let! x := get_bottom childShadow in
  mmo_ref x ;;;
  let! x := get_bottom parentShadow in
  mmo_ref x ;;;
  mret_ (parentShadow, childShadow).

(** The body of the loop: the area [v] of the child. *)
Definition fork_area (parent v : Z) : M vms unit :=
  let! c := load_area v in
  let! pv := vmmap_lookup parent (vma_start c) in
  let! p := load_area pv in
  (if MAP_SHARED =? Z.land (vma_flags c) MAP_TYPE then
     store_area v (with_obj (vma_obj p)) ;;;
     mmo_call (vma_obj p) mmo_ref
   else
     let! (parentShadow, childShadow) := obj_op (fork_shadows (vma_obj p)) in
     store_area pv (with_obj parentShadow) ;;;
     store_area v (with_obj childShadow)) ;;;
  let! p := load_area pv in
  let! b := obj_op (mmobj_bottom_obj (vma_obj p)) in
  olink_insert b v.
Fixpoint fork_areas (parent : Z) (vs : list Z) : M vms unit :=
  match vs with
  | [] => mret_ tt
  | v :: r => fork_area parent v ;;; fork_areas parent r
  end.
Definition set_vmm_proc (m p : Z) : M vms unit :=
  let! mp := load_map m in mput (upd_vmaps (<[m := mkVmmap _ (vmm_list mp) p]>)).
(** The loop over the areas of the child's map. *)
Definition fork_objects (parent child : Z) : M vms unit :=
  let! mp := load_map child in
  fork_areas parent (list_items (vmm_list mp)).
(** Every access to user memory has to fault again. *)
Definition fork_unmap (pagedir : Z) : M vms unit :=
  mput (upd_mmu (pt_unmap_range pagedir USER_MEM_LOW USER_MEM_HIGH)) ;;;
  mput (upd_mmu tlb_flush_all).
End Model.

(** What the loop relies on.  [is_shadow s x o]: [x] is a shadow object over
    [o]. *)
Section IsShadow.
Context `{MO : Mmobjs} `{SF : !ShadowFields}.
Definition is_shadow (s : ost) (x o : Z) : Prop := get_shadowed x s = Ok (o, s) /\ o <> 0.
Definition keeps_shadows (s s' : ost) : Prop :=
  (forall x o, is_shadow s x o -> is_shadow s' x o) /\ forall x n d, sees s x n d -> sees s' x n d.
Lemma keeps_trans s s1 s2 : keeps_shadows s s1 -> keeps_shadows s1 s2 -> keeps_shadows s s2.
Proof. intros [A1 A2] [B1 B2]. split; auto. Qed.
End IsShadow.
Class ForkObjs `{MO : Mmobjs} `{SF : !ShadowFields} := {
  fork_shadows_ok s R o : owns s (o :: R) -> (forall st sh st', shadow_create st = Ok (sh, st') -> sh <> 0) ->
    exists p c s', fork_shadows o s = Ok ((p, c), s') /\ owns s' (p :: c :: R) /\ p <> c /\
      is_shadow s' p o /\ is_shadow s' c o /\ keeps_shadows s s' /\
      forall n d, sees s o n d -> sees s' p n d /\ sees s' c n d;
  ref_shadows s R o s' : owns s R -> o ∈ R -> mmo_ref o s = Ok (tt, s') -> keeps_shadows s s';
  bottom_ok s R o : owns s R -> o ∈ R -> exists b, mmobj_bottom_obj o s = Ok (b, s) /\ b <> 0;
}.

(** ** One area *)
Section Spec.
Context `{KL : KList} `{SL : Slab} `{KG : KGeometry} `{MO : Mmobjs} `{SF : !ShadowFields} `{MU : !Mmu} `{MF : MapFlags}.
Context `{FO : !ForkObjs}.
Context (shadow_some : forall st sh st', shadow_create st = Ok (sh, st') -> sh <> 0).
Implicit Types (s : vms) (vs ws us : list (Z * vmarea)).

Definition shared (a : vmarea) : bool := MAP_SHARED =? Z.land (vma_flags a) MAP_TYPE.
(** The area of the child with object [o]. *)
Definition child_area (m o b : Z) (a : vmarea) : vmarea := with_olink (Some b) (with_obj o (cloned m a)).
(** What becomes of the area [a]: [a1] of the parent and [a2] of the child,
    which show what [a] has shown. *)
Definition forked (st0 st : ost) (m : Z) (a a1 a2 : vmarea) : Prop := exists o1 o2 b,
  a1 = with_obj o1 a /\ a2 = child_area m o2 b a /\
  (forall n d, sees st0 (vma_obj a) n d -> sees st o1 n d /\ sees st o2 n d) /\
  if shared a then o1 = vma_obj a /\ o2 = vma_obj a
  else o1 <> o2 /\ is_shadow st o1 (vma_obj a) /\ is_shadow st o2 (vma_obj a).

Lemma forked_keeps st0 st1 st st' m a a1 a2 : keeps_shadows st0 st1 -> keeps_shadows st st' -> forked st1 st m a a1 a2 -> forked st0 st' m a a1 a2.
Proof.
  intros [_ K0] [K1 K2] (o1 & o2 & b & H1 & H2 & H3 & H4). exists o1, o2, b. split; [done|]. split; [done|]. split.
  - intros n d Hs. destruct (H3 n d (K0 _ _ _ Hs)). auto.
  - destruct (shared a); [done|]. naive_solver.
Qed.
Lemma find_area_start us pv p ws lo hi : areas_ok lo (us ++ (pv, p) :: ws).*2 hi ->
  find_area (us ++ (pv, p) :: ws) (vma_start p) = Some (pv, p).
Proof.
  rewrite fmap_app. cbn. intros Hok.
  assert (covers p (vma_start p)) as Hp.
  { apply areas_ok_app in Hok as (mid & _ & H & H' & _). unfold covers. lia. }
  assert (forall x, x ∈ us -> ~ covers x.2 (vma_start p)) as Hn.
  { intros x Hx. eapply areas_ok_unique; [exact Hok|done|]. apply elem_of_app. left. by apply list_elem_of_fmap_2. }
  clear Hok. induction us as [|x us IH]; cbn; [by rewrite decide_True|].
  rewrite decide_False by (apply Hn; left). apply IH. intros y Hy. apply Hn. by right.
Qed.

(** The heap outside the areas [A] is untouched. *)
Record vkeeps s s' (A : list Z) : Prop := {
  vk_areas x : x ∉ A -> areas s' !! x = areas s !! x;
  vk_maps : vmaps s' = vmaps s;
  vk_env : same_env s s';
}.
Lemma vkeeps_trans s s1 s2 A B C : vkeeps s s1 A -> vkeeps s1 s2 B -> A ⊆ C -> B ⊆ C -> vkeeps s s2 C.
Proof.
  intros [A1 M1 E1] [A2 M2 E2] HA HB. split.
  - intros x Hx. rewrite A2, A1; set_solver.
  - congruence.
  - by eapply same_env_trans.
Qed.
Lemma vkeeps_rep s s' A m vs : vkeeps s s' A -> (forall x, x ∈ vs.*1 -> x ∉ A) -> map_rep s m vs -> map_rep s' m vs.
Proof.
  intros K Hd (H0 & Hnd & Hf & mp & Hmp & Hi). split_and!; [done..| |by exists mp; rewrite (vk_maps _ _ _ K)].
  rewrite Forall_forall in *. intros x Hx. rewrite (vk_areas _ _ _ K); [by apply Hf|]. apply Hd, list_elem_of_fmap. eauto.
Qed.
Lemma vkeeps_store s v a : vkeeps s (upd_areas (<[v := a]>) s) [v].
Proof. split; [|done|done]. intros x Hx. cbn. apply lookup_insert_ne. set_solver. Qed.
Lemma vkeeps_objs s o A : vkeeps s (upd_objs o s) A.
Proof. done. Qed.
Lemma vkeeps_olink s f v a : vkeeps s (upd_areas (<[v := a]>) (upd_ovmas f s)) [v].
Proof. split; [|done|done]. intros x Hx. cbn. apply lookup_insert_ne. set_solver. Qed.

(** The objects of the area [p] of the parent and of its clone. *)
Lemma fork_choose_run s pv p v c (R : list Z) : areas s !! pv = Some p -> areas s !! v = Some c -> pv <> v ->
  owns (objs s) (vma_obj p :: R) -> vma_flags c = vma_flags p ->
  wp (if MAP_SHARED =? Z.land (vma_flags c) MAP_TYPE then
        store_area v (with_obj (vma_obj p)) ;;;
        mmo_call (vma_obj p) mmo_ref
      else
        let! (parentShadow, childShadow) := obj_op (fork_shadows (vma_obj p)) in
        store_area pv (with_obj parentShadow) ;;;
        store_area v (with_obj childShadow)) s (fun _ s' => exists o1 o2,
    areas s' = <[v := with_obj o2 c]> (<[pv := with_obj o1 p]> (areas s)) /\ vmaps s' = vmaps s /\ same_env s s' /\
    owns (objs s') (o1 :: o2 :: R) /\ keeps_shadows (objs s) (objs s') /\
    (forall n d, sees (objs s) (vma_obj p) n d -> sees (objs s') o1 n d /\ sees (objs s') o2 n d) /\
    if shared p then o1 = vma_obj p /\ o2 = vma_obj p
    else o1 <> o2 /\ is_shadow (objs s') o1 (vma_obj p) /\ is_shadow (objs s') o2 (vma_obj p)).
Proof.
  intros Hp Hv Hne Ho Hfl. rewrite Hfl. fold (shared p). destruct (shared p) eqn:E.
  - rewrite wp_ok. destruct (mmo_ref_ok (objs s) (vma_obj p :: R) (vma_obj p) Ho) as (st & Hr & Ho'); [by left|].
    eexists tt, _. rewrite (mbind_run _ _ _ _ _ (store_area_run s v _ c Hv)). split.
    + apply mmo_call_run; [by eapply owns_nonnull|]. exact Hr.
    + exists (vma_obj p), (vma_obj p). cbn. split; [|do 2 (split; [done|]); split; [done|]].
      * f_equal. rewrite insert_id; [done|]. rewrite Hp. by destruct p.
      * assert (keeps_shadows (objs s) st) as K by (by eapply ref_shadows; [exact Ho|left|]). split; [done|]. split; [|done].
        intros n d Hs. by split; apply K.
  - destruct (fork_shadows_ok (objs s) R (vma_obj p) Ho shadow_some) as (o1 & o2 & st & Hr & Ho' & H12 & S1 & S2 & K & Hsee).
    apply wp_bind, wp_ok. eexists _, _. split; [by apply obj_op_run|]. cbn beta iota.
    apply wp_ok. eexists tt, _. split.
    + rewrite (mbind_run _ _ _ _ _ (store_area_run (upd_objs st s) pv _ p Hp)).
      apply (store_area_run _ v _ c). cbn. by rewrite lookup_insert_ne.
    + exists o1, o2. done.
Qed.

(** One turn of the loop of [do_fork]. *)
Lemma fork_area_run s m m' us pv p ws vs v zs (R : list Z) :
  map_rep s m (us ++ (pv, p) :: ws) -> areas_ok LOW_PN (us ++ (pv, p) :: ws).*2 HIGH_PN ->
  map_rep s m' (vs ++ (v, cloned m' p) :: zs) -> areas s !! 0 = None ->
  (forall x, x ∈ (us ++ (pv, p) :: ws).*1 -> x ∉ (vs ++ (v, cloned m' p) :: zs).*1) ->
  owns (objs s) (vma_obj p :: R) ->
  exists s' p' c, fork_area m v s = Ok (tt, s') /\ forked (objs s) (objs s') m' p p' c /\
    map_rep s' m (us ++ (pv, p') :: ws) /\ map_rep s' m' (vs ++ (v, c) :: zs) /\ areas s' !! 0 = None /\
    owns (objs s') (vma_obj p' :: vma_obj c :: R) /\ keeps_shadows (objs s) (objs s') /\ vkeeps s s' [pv; v].
Proof.
  intros Hm Hok Hm' Hz Hd Ho. pose proof (map_rep_lookup _ _ _ _ _ _ Hm) as Hp. pose proof (map_rep_lookup _ _ _ _ _ _ Hm') as Hv.
  assert (pv <> v) as Hne by (intros ->; apply (Hd v); rewrite fmap_app; set_solver).
  assert (pv <> 0 /\ v <> 0) as [Hp0 Hv0] by (split; congruence).
  destruct (proj1 (wp_ok _ _ _) (fork_choose_run s pv p v (cloned m' p) R Hp Hv Hne Ho eq_refl))
    as ([] & s1 & Hr & o1 & o2 & Ea & Em & He & Ho1 & K & Hsee & Hsh).
  destruct (bottom_ok (objs s1) _ o1 Ho1) as (b & Hb & Hb0); [by left|].
  assert (areas s1 !! pv = Some (with_obj o1 p)) as Hp1 by (rewrite Ea, lookup_insert_ne, lookup_insert_eq; done).
  assert (areas s1 !! v = Some (with_obj o2 (cloned m' p))) as Hv1 by by rewrite Ea, lookup_insert_eq.
  assert (obj_op (mmobj_bottom_obj o1) s1 = Ok (b, s1)) as Hb1 by (rewrite (obj_op_run _ _ _ _ Hb); by destruct s1).
  destruct (olink_insert_run s1 b v _ Hb0 Hv1) as [f Hol].
  exists (upd_areas (<[v := child_area m' o2 b p]>) (upd_ovmas f s1)), (with_obj o1 p), (child_area m' o2 b p).
  split; [|split; [|split; [|split; [|split; [|split; [|split]]]]]].
  - unfold fork_area. rewrite (mbind_run _ _ _ _ _ (load_area_run _ _ _ Hv)).
    rewrite (mbind_run _ _ _ _ _ (vmmap_lookup_run _ _ _ _ Hm)). cbn [cloned vma_start].
    rewrite (find_area_start _ _ _ _ _ _ Hok). cbn [from_option fst].
    rewrite (mbind_run _ _ _ _ _ (load_area_run _ _ _ Hp)), (mbind_run _ _ _ _ _ Hr).
    rewrite (mbind_run _ _ _ _ _ (load_area_run _ _ _ Hp1)). cbn [with_obj vma_obj]. by rewrite (mbind_run _ _ _ _ _ Hb1).
  - exists o1, o2, b. done.
  - apply (map_rep_update _ _ _ _ _ (with_obj o1 p)) in Hm. eapply (vkeeps_rep _ _ [v]); [| |exact Hm].
    + split; [|done|done]. intros x [Hx _]%not_elem_of_cons. cbn. rewrite Ea, (lookup_insert_ne _ v), (lookup_insert_ne _ v) by done. done.
    + intros x Hx ->%list_elem_of_singleton. apply (Hd v); rewrite fmap_app in *; set_solver.
  - apply (map_rep_update _ _ _ _ _ (child_area m' o2 b p)) in Hm'. eapply (vkeeps_rep _ _ [pv]); [| |exact Hm'].
    + split; [|done|done]. intros x [Hx _]%not_elem_of_cons. cbn. rewrite Ea. destruct (decide (x = v)) as [->|]; [by rewrite !lookup_insert_eq|].
      rewrite !lookup_insert_ne by done. done.
    + intros x Hx ->%list_elem_of_singleton. apply (Hd pv); rewrite fmap_app in *; set_solver.
  - cbn. rewrite Ea, !lookup_insert_ne by done. done.
  - exact Ho1.
  - exact K.
  - split; [|done|done]. intros x [? [? _]%not_elem_of_cons]%not_elem_of_cons. cbn. rewrite Ea, !lookup_insert_ne by done. done.
Qed.

Lemma areas_ok_same lo (as1 as2 : list vmarea) hi : Forall2 (fun a a' => vma_start a' = vma_start a /\ vma_end a' = vma_end a) as1 as2 ->
  areas_ok lo as1 hi -> areas_ok lo as2 hi.
Proof. intros H. revert lo. induction H as [|a a2 as1 as2 [E1 E2] _ IH]; intros lo; cbn; [done|]. rewrite E1, E2. naive_solver. Qed.
Lemma forked_range st0 st m a a1 a2 : forked st0 st m a a1 a2 -> vma_start a1 = vma_start a /\ vma_end a1 = vma_end a.
Proof. by intros (? & ? & ? & -> & _). Qed.

(** The loop, over the areas [ws] of the parent and their clones [zs]. *)
Lemma fork_areas_run m m' ws : forall s us vs zs (R : list Z),
  map_rep s m (us ++ ws) -> areas_ok LOW_PN (us ++ ws).*2 HIGH_PN ->
  map_rep s m' (vs ++ zs) -> zs.*2 = map (cloned m') ws.*2 -> areas s !! 0 = None ->
  (forall x, x ∈ (us ++ ws).*1 -> x ∉ (vs ++ zs).*1) ->
  owns (objs s) (map vma_obj ws.*2 ++ R) ->
  exists s' ws' zs', fork_areas m zs.*1 s = Ok (tt, s') /\ ws'.*1 = ws.*1 /\ zs'.*1 = zs.*1 /\
    Forall3 (forked (objs s) (objs s') m') ws.*2 ws'.*2 zs'.*2 /\
    map_rep s' m (us ++ ws') /\ map_rep s' m' (vs ++ zs') /\ areas s' !! 0 = None /\
    owns (objs s') (map vma_obj ws'.*2 ++ map vma_obj zs'.*2 ++ R) /\ keeps_shadows (objs s) (objs s') /\
    vkeeps s s' (ws.*1 ++ zs.*1).
Proof.
  induction ws as [|[pv p] ws IH]; intros s us vs zs R Hm Hok Hm' Ez Hz Hd Ho.
  { destruct zs; [|done]. exists s, [], []. do 3 (split; [done|]). split; [constructor|]. do 4 (split; [done|]). split; [|done]. split; by intros. }
  destruct zs as [|[v c] zs]; [done|]. cbn in Ez. injection Ez as -> Ez. cbn [fork_areas fmap list_fmap fst].
  destruct (fork_area_run s m m' us pv p ws vs v zs _ Hm Hok Hm' Hz Hd Ho) as (s1 & p' & c' & Hr & Hf & Hm1 & Hm1' & Hz1 & Ho1 & K1 & V1).
  rewrite (mbind_run _ _ _ _ _ Hr). destruct (forked_range _ _ _ _ _ _ Hf) as [Er1 Er2].
  destruct (IH s1 (us ++ [(pv, p')]) (vs ++ [(v, c')]) zs (vma_obj p' :: vma_obj c' :: R))
    as (s' & ws' & zs' & Hr' & E1 & E2 & F & Hm2 & Hm2' & Hz2 & Ho2 & K2 & V2); try done.
  - by rewrite <- app_assoc.
  - rewrite <- app_assoc. eapply areas_ok_same; [|exact Hok]. rewrite !fmap_app. cbn.
    apply Forall2_app; [|constructor; [done|]]; by apply Forall_Forall2_diag, Forall_true.
  - by rewrite <- app_assoc.
  - intros x. rewrite <- !app_assoc. intros Hx. specialize (Hd x). rewrite !fmap_app in *. cbn in *. by apply Hd.
  - eapply owns_perm; [|exact Ho1]. rewrite <- !Permutation_middle. done.
  - exists s', ((pv, p') :: ws'), ((v, c') :: zs'). rewrite <- !app_assoc in *. cbn [fmap list_fmap fst snd map app] in *.
    split; [done|]. split; [by rewrite E1|]. split; [by rewrite E2|].
    split; [constructor; [eapply forked_keeps; [|exact K2|exact Hf]; split; by intros|]|].
    { eapply Forall3_impl; [exact F|]. intros ???. apply forked_keeps; [done|]. split; by intros. }
    split; [done|]. split; [done|]. split; [done|]. split; [|split].
    + eapply owns_perm; [|exact Ho2]. solve_Permutation.
    + by eapply keeps_trans.
    + eapply vkeeps_trans; [exact V1|exact V2|set_solver|set_solver].
Qed.
End Spec.

(** ** Several address spaces *)
Section Maps.
Context `{KL : KList} `{SL : Slab} `{KG : KGeometry} `{MO : Mmobjs} `{MU : !Mmu}.
Implicit Types (s : vms) (W : list (Z * list (Z * vmarea))) (vs ws : list (Z * vmarea)).

(** [W] lists the maps with their areas; they hold one reference to an
    object per area, [R] are the references held elsewhere. *)
Definition map_ok s (w : Z * list (Z * vmarea)) : Prop :=
  map_rep s w.1 w.2 /\ areas_ok LOW_PN w.2.*2 HIGH_PN /\ Forall (fun a => vma_vmmap a = w.1) w.2.*2.
Definition held_objs W : list Z := W ≫= (fun w => map vma_obj w.2.*2).
Record maps_inv s W (R : list Z) : Prop := {
  mi_nodup : NoDup W.*1;
  mi_null : areas s !! 0 = None;
  mi_maps w : w ∈ W -> map_ok s w;
  mi_owns : owns (objs s) (held_objs W ++ R);
}.

Lemma held_objs_perm W W' : W ≡ₚ W' -> held_objs W ≡ₚ held_objs W'.
Proof. intros H. unfold held_objs. by rewrite H. Qed.
Lemma maps_inv_perm s W W' R : W ≡ₚ W' -> maps_inv s W R -> maps_inv s W' R.
Proof.
  intros H [H1 H2 H3 H4]. split; [by rewrite <- H|done| |].
  - intros w Hw. apply H3. by rewrite H.
  - eapply owns_perm; [|exact H4]. by rewrite (held_objs_perm _ _ H).
Qed.
Lemma maps_inv_one s m vs W R : maps_inv s ((m, vs) :: W) R -> vm_inv s m vs (held_objs W ++ R).
Proof.
  intros [H1 H2 H3 H4]. destruct (H3 (m, vs)) as (? & ? & ?); [by left|]. split_and!; try done.
  eapply owns_perm; [|exact H4]. cbn. by rewrite app_assoc.
Qed.
Lemma maps_member s w x : map_ok s w -> x ∈ w.2.*1 -> exists a, areas s !! x = Some a /\ vma_vmmap a = w.1.
Proof.
  intros ((_ & _ & F & _) & _ & V) Hx. apply list_elem_of_fmap in Hx as ([y a] & -> & Ha). rewrite Forall_forall in F.
  rewrite Forall_forall in V. exists a. split; [by apply (F (y, a))|]. by apply V, (list_elem_of_fmap_2 snd _ (y, a)).
Qed.
(** Two maps have no area in common. *)
Lemma maps_apart s m vs w : map_ok s (m, vs) -> map_ok s w -> w.1 <> m -> forall x, x ∈ vs.*1 -> x ∉ w.2.*1.
Proof.
  intros M1 M2 Hne x Hx Hx'. destruct (maps_member s _ x M1 Hx) as (a & Ha & E). destruct (maps_member s _ x M2 Hx') as (a' & Ha' & E'). cbn in E.
  apply Hne. congruence.
Qed.
(** A step that leaves the areas and the list of a map alone. *)
Lemma map_ok_kept s s' w : map_ok s w -> (forall x, x ∈ w.2.*1 -> areas s' !! x = areas s !! x) ->
  vmaps s' !! w.1 = vmaps s !! w.1 -> map_ok s' w.
Proof.
  intros ((H0 & Hnd & Hf & mp & Hmp & Hi) & ?) Ha Hm. split; [|done]. split; [done|]. split; [done|]. split; [|exists mp; by rewrite Hm].
  rewrite Forall_forall in *. intros x Hx. rewrite Ha; [by apply Hf|]. by apply list_elem_of_fmap_2.
Qed.
Lemma maps_fresh s W R m : maps_inv s W R -> vmaps s !! m = None -> m ∉ W.*1.
Proof.
  intros I Hm Hin. apply list_elem_of_fmap in Hin as (w & -> & Hw). destruct (mi_maps _ _ _ I _ Hw) as ((_ & _ & _ & mp & Hmp & _) & _). congruence.
Qed.

(** A new map is empty. *)
Lemma maps_create s W R p : maps_inv s W R -> slab_pick (vmaps s) = Some p ->
  maps_inv (upd_vmaps (<[p := mkVmmap _ list_empty_head 0]>) s) ((p, []) :: W) R /\ p <> 0.
Proof.
  intros I Hp. destruct (slab_fresh _ _ Hp) as [Hp0 Hpn]. pose proof (maps_fresh _ _ _ _ I Hpn) as Hf. split; [|done]. split.
  - cbn. apply NoDup_cons. split; [done|apply I].
  - apply I.
  - intros w [->|Hw]%elem_of_cons.
    + split_and!; [|cbn; pose proof low_high_pn; lia|constructor]. split_and!; [done|constructor|constructor|]. eexists. cbn. rewrite lookup_insert_eq. split; [done|]. apply items_empty.
    + apply (map_ok_kept s); [by apply I|done|]. cbn. rewrite lookup_insert_ne; [done|]. intros ->. apply Hf. by apply list_elem_of_fmap_2.
  - apply I.
Qed.
(** Destroying a map gives back what it held. *)
Lemma maps_destroy s m vs W R : maps_inv s ((m, vs) :: W) R ->
  exists s', vmmap_destroy m s = Ok (tt, s') /\ maps_inv s' W R.
Proof.
  intros I. destruct (vmmap_destroy_run s m vs _ (maps_inv_one _ _ _ _ _ I)) as (s' & Hr & Ho & Hm & Ha & Hmaps).
  exists s'. split; [done|]. destruct I as [Hnd Hz Hok _]. apply NoDup_cons in Hnd as [Hnot Hnd]. split; [done| | |done].
  - rewrite Ha. by case_decide.
  - intros w Hw. assert (w.1 <> m) as Hne by (intros <-; apply Hnot, (list_elem_of_fmap_2 fst _ _ Hw)).
    apply (map_ok_kept s); [by apply Hok, list_elem_of_further| |by apply Hmaps]. intros x Hx. rewrite Ha. rewrite decide_False; [done|].
    intros Hx'. by apply (maps_apart s m vs w (Hok _ (list_elem_of_here _ _)) (Hok _ (list_elem_of_further _ _ _ Hw)) Hne x).
Qed.
Lemma maps_set_proc s W R m p : maps_inv s W R -> m ∈ W.*1 -> exists s', set_vmm_proc m p s = Ok (tt, s') /\ maps_inv s' W R /\
  areas s' = areas s /\ objs s' = objs s /\ same_env s s'.
Proof.
  intros I Hin. apply list_elem_of_fmap in Hin as (w & -> & Hw). destruct (mi_maps _ _ _ I _ Hw) as ((_ & _ & _ & mp & Hmp & _) & _).
  eexists. unfold set_vmm_proc. rewrite (mbind_run _ _ _ _ _ (load_map_run _ _ _ Hmp)). split; [done|]. split; [|done].
  split; [apply I|apply I| |apply I]. intros w' Hw'. destruct (mi_maps _ _ _ I _ Hw') as ((H0 & Hnd & Hf & mp' & Hmp' & Hi) & ?).
  split; [|done]. split; [done|]. split; [done|]. split; [done|]. destruct (decide (w'.1 = w.1)) as [E|]; cbn.
  - rewrite E, lookup_insert_eq. eexists. split; [done|]. cbn. rewrite E in *. congruence.
  - rewrite lookup_insert_ne by done. eauto.
Qed.
End Maps.

(** ** The address space of the child *)
Section Fork.
Context `{KL : KList} `{SL : Slab} `{KG : KGeometry} `{MO : Mmobjs} `{SF : !ShadowFields} `{MU : !Mmu} `{MF : MapFlags}.
Context `{FO : !ForkObjs}.
Implicit Types (s : vms) (W : list (Z * list (Z * vmarea))) (vs ws : list (Z * vmarea)).

(** Memory does not run out. *)
Record vm_plenty : Prop := {
  vp_areas (h : gmap Z vmarea) : is_Some (slab_pick h);
  vp_maps (h : gmap Z vmmap) : is_Some (slab_pick h);
  vp_shadow st sh st' : shadow_create st = Ok (sh, st') -> sh <> 0;
}.

Lemma set_proc_run s m p vs : map_rep s m vs -> exists s', set_vmm_proc m p s = Ok (tt, s') /\ map_rep s' m vs /\
  areas s' = areas s /\ objs s' = objs s /\ same_env s s' /\ forall q, q <> m -> vmaps s' !! q = vmaps s !! q.
Proof.
  intros (H0 & Hnd & Hf & mp & Hmp & Hi). eexists. unfold set_vmm_proc. rewrite (mbind_run _ _ _ _ _ (load_map_run _ _ _ Hmp)).
  split; [done|]. split; [|do 3 (split; [done|]); intros q Hq; cbn; by rewrite lookup_insert_ne].
  split; [done|]. split; [done|]. split; [done|]. cbn. rewrite lookup_insert_eq. by eexists.
Qed.

Lemma cloned_member s m (l : list vmarea) ws x : map_rep s m ws -> ws.*2 = map (cloned m) l -> x ∈ ws.*1 ->
  exists c, areas s !! x = Some c /\ vma_vmmap c = m.
Proof.
  intros (_ & _ & F & _) E Hx. apply list_elem_of_fmap in Hx as ([y c] & -> & Hc). rewrite Forall_forall in F. exists c. split; [by apply (F (y, c))|].
  assert (c ∈ ws.*2) as Hin by apply (list_elem_of_fmap_2 snd _ _ Hc). rewrite E in Hin.
  by apply list_elem_of_In, in_map_iff in Hin as (b & <- & _).
Qed.

Lemma forked_ok st0 st m' as1 as2 as3 lo hi : Forall3 (forked st0 st m') as1 as2 as3 -> areas_ok lo as1 hi ->
  areas_ok lo as2 hi /\ areas_ok lo as3 hi /\ Forall (fun a => vma_vmmap a = m') as3.
Proof.
  intros F. revert lo. induction F as [|a a1 a2 as1 as2 as3 Hf _ IH]; intros lo; [done|]. cbn. intros (H1 & H2 & H3).
  destruct Hf as (o1 & o2 & b & -> & -> & _). cbn. destruct (IH _ H3) as (I1 & I2 & I3).
  split; [done|]. split; [done|]. by constructor.
Qed.
Lemma forked_vmmap st0 st m m' as1 as2 as3 : Forall3 (forked st0 st m') as1 as2 as3 -> Forall (fun a => vma_vmmap a = m) as1 ->
  Forall (fun a => vma_vmmap a = m) as2.
Proof.
  induction 1 as [|a a1 a2 as1 as2 as3 (o1 & o2 & b & -> & _) _ IH]; [done|]. intros [? ?]%Forall_cons. constructor; auto.
Qed.

(** Cloning the map, and the loop over the areas of the clone. *)
Lemma fork_space_run s m vs W (R : list Z) p : vm_plenty -> maps_inv s ((m, vs) :: W) R ->
  exists m' s1 s2 s3 vs' ws, vmmap_clone m s = Ok (m', s1) /\ set_vmm_proc m' p s1 = Ok (tt, s2) /\ fork_objects m m' s2 = Ok (tt, s3) /\
    m' <> 0 /\ m' ∉ ((m, vs) :: W).*1 /\ maps_inv s3 ((m, vs') :: (m', ws) :: W) R /\ vs'.*1 = vs.*1 /\
    Forall3 (forked (objs s) (objs s3) m') vs.*2 vs'.*2 ws.*2 /\ same_env s s3.
Proof.
  intros [Pa Pm Ps] I. pose proof I as [Hnd Hz Hok Ho]. pose proof (Hok _ (list_elem_of_here _ _)) as Hmok.
  destruct (vmmap_clone_run s m vs Pa Pm (proj1 Hmok) Hz) as (m' & s1 & zs & R1 & Hne & Hfr & Hm' & Ez & Hz1 & Ho1 & He1 & Hf1).
  assert (map_rep s1 m vs) as Hm1 by (eapply map_rep_frame; [exact Hf1|done|set_solver|apply Hmok]).
  destruct (set_proc_run s1 m' p zs Hm') as (s2 & R2 & Hm2' & Ea2 & Eo2 & He2 & Hk2).
  assert (map_rep s2 m vs) as Hm2.
  { destruct Hm1 as (? & ? & ? & mp & ? & ?). split; [done|]. split; [done|]. split; [by rewrite Ea2|]. exists mp. by rewrite Hk2. }
  assert (forall w x, map_ok s w -> w.1 <> m' -> x ∈ w.2.*1 -> x ∉ zs.*1) as Hd.
  { intros w x Hw Hwm Hx Hx'. destruct (maps_member s w x Hw Hx) as (a & Ha & Ea). destruct (cloned_member s1 m' _ zs x Hm' Ez Hx') as (c & Hc & Ec).
    destruct Hf1 as [Hfa _]. rewrite Hfa in Hc by (by apply not_elem_of_nil || eauto). congruence. }
  destruct (fork_areas_run Ps m m' vs s2 [] [] zs (held_objs W ++ R)) as (s3 & vs' & ws & R3 & E1 & E2 & F & Hm3 & Hm3' & Hz3 & Ho3 & _ & V3); try done.
  { apply Hmok. } { by rewrite Ea2. } { intros x. by apply (Hd (m, vs)). } { rewrite Eo2, Ho1. eapply owns_perm; [|exact Ho]. cbn. by rewrite app_assoc. }
  rewrite Eo2, Ho1 in F. destruct Hmok as (_ & Hao & Hvm). destruct (forked_ok _ _ _ _ _ _ _ _ F Hao) as (A1 & A2 & A3).
  exists m', s1, s2, s3, vs', ws. split; [done|]. split; [done|]. split.
  { destruct Hm2' as (_ & _ & _ & mp & Hmp & Hi). unfold fork_objects. rewrite (mbind_run _ _ _ _ _ (load_map_run _ _ _ Hmp)). by rewrite Hi. }
  split; [by apply Hm'|]. pose proof (maps_fresh _ _ _ _ I Hfr) as Hnew. split; [done|]. split; [|split; [done|split; [done|]]].
  2:{ eapply same_env_trans; [exact He1|]. eapply same_env_trans; [exact He2|]. apply (vk_env _ _ _ V3). }
  cbn in Hnd, Hnew. apply NoDup_cons in Hnd as [Hn1 Hn2]. apply not_elem_of_cons in Hnew as [_ Hnew]. split; [|done| |].
  - cbn. apply NoDup_cons. split; [|by apply NoDup_cons]. intros [?|?]%elem_of_cons; [by apply Hne|done].
  - intros w [->|[->|Hw]%elem_of_cons]%elem_of_cons.
    + split; [done|]. split; [done|]. by eapply forked_vmmap.
    + done.
    + pose proof (Hok w (list_elem_of_further _ _ _ Hw)) as Hwok.
      assert (w.1 <> m) as Hwm by (intros <-; apply Hn1, (list_elem_of_fmap_2 fst _ _ Hw)).
      assert (w.1 <> m') as Hwm' by (intros <-; apply Hnew, (list_elem_of_fmap_2 fst _ _ Hw)).
      apply (map_ok_kept s); [done| |].
      * intros x Hx. destruct (maps_member s w x Hwok Hx) as (a & Ha & _). destruct Hf1 as [Hfa _].
        rewrite (vk_areas _ _ _ V3), Ea2; [apply Hfa; [apply not_elem_of_nil|eauto]|]. rewrite elem_of_app. intros [H|H].
        -- by apply (maps_apart s m vs w (Hok _ (list_elem_of_here _ _)) Hwok Hwm x).
        -- by apply (Hd w x).
      * rewrite (vk_maps _ _ _ V3), Hk2 by done. by apply Hf1.
  - eapply owns_perm; [|exact Ho3]. cbn. by rewrite !app_assoc.
Qed.

(** What becomes of a page of the parent, [old]: the page [par] of the parent
    and the page [chi] of the child have the same number, protection and
    flags; a shared page keeps its object, the objects of a private page are
    two shadow objects over the one it had.  Both show the bytes of before. *)
Definition with_pobj (o : Z) (pg : page) : page := mkPage o (pg_num pg) (pg_prot pg) (pg_flags pg).
Definition page_forked (st0 st : ost) (old par chi : option page) : Prop :=
  match old with
  | None => par = None /\ chi = None
  | Some pg => exists o1 o2, par = Some (with_pobj o1 pg) /\ chi = Some (with_pobj o2 pg) /\
      (forall d, sees st0 (pg_obj pg) (pg_num pg) d -> sees st o1 (pg_num pg) d /\ sees st o2 (pg_num pg) d) /\
      if MAP_SHARED =? Z.land (pg_flags pg) MAP_TYPE then o1 = pg_obj pg /\ o2 = pg_obj pg
      else o1 <> o2 /\ is_shadow st o1 (pg_obj pg) /\ is_shadow st o2 (pg_obj pg)
  end.
Lemma forked_amap st0 st m' as1 as2 as3 vfn : Forall3 (forked st0 st m') as1 as2 as3 ->
  page_forked st0 st (amap as1 vfn) (amap as2 vfn) (amap as3 vfn).
Proof.
  induction 1 as [|a a1 a2 as1 as2 as3 (o1 & o2 & b & -> & -> & Hsee & Hsh) _ IH]; [done|]. cbn [amap].
  assert (forall o b, covers (with_obj o a) vfn <-> covers a vfn) as C1 by done.
  assert (forall o b, covers (child_area m' o b a) vfn <-> covers a vfn) as C2 by done.
  destruct (decide (covers a vfn)) as [Hc|Hc].
  - rewrite !decide_True by done. exists o1, o2. split; [done|]. split; [done|]. split; [|done]. intros d. apply Hsee.
  - rewrite !decide_False by done. done.
Qed.

Lemma fork_unmap_run s W (R : list Z) pd : maps_inv s W R -> exists s', fork_unmap pd s = Ok (tt, s') /\ maps_inv s' W R /\ objs s' = objs s /\
  (forall pn, tlb_entry (mmu s') pn = None) /\ forall pn, LOW_PN <= pn < HIGH_PN -> pt_entry (mmu s') pd pn = None.
Proof.
  intros I. eexists. split; [reflexivity|]. split; [|split; [done|]].
  - destruct I as [H1 H2 H3 H4]. split; [done|done| |done]. intros w Hw. by apply (map_ok_kept s); [apply H3|..].
  - split; [intros pn; apply tlb_flush_all_tlb|]. intros pn Hpn. cbn. rewrite tlb_flush_all_pt, user_low_pn, user_high_pn.
    pose proof low_high_pn. rewrite pt_unmap_range_pt by lia. by rewrite decide_True.
Qed.

Lemma fork_space_ok s m vs W (R : list Z) p pd : vm_plenty -> maps_inv s ((m, vs) :: W) R ->
  exists m' s1 s2 s3 s4 vs' ws,
    vmmap_clone m s = Ok (m', s1) /\ set_vmm_proc m' p s1 = Ok (tt, s2) /\ fork_objects m m' s2 = Ok (tt, s3) /\
    fork_unmap pd s3 = Ok (tt, s4) /\ m' <> 0 /\ m' ∉ ((m, vs) :: W).*1 /\ maps_inv s4 ((m, vs') :: (m', ws) :: W) R /\
    (forall vfn, page_forked (objs s) (objs s4) (amap vs.*2 vfn) (amap vs'.*2 vfn) (amap ws.*2 vfn)) /\
    (forall pn, tlb_entry (mmu s4) pn = None) /\ forall pn, LOW_PN <= pn < HIGH_PN -> pt_entry (mmu s4) pd pn = None.
Proof.
  intros PL I. destruct (fork_space_run s m vs W R p PL I) as (m' & s1 & s2 & s3 & vs' & ws & R1 & R2 & R3 & H0 & Hn & I3 & _ & F & _).
  destruct (fork_unmap_run s3 _ R pd I3) as (s4 & R4 & I4 & Eo & Ht & Hp).
  exists m', s1, s2, s3, s4, vs', ws. do 7 (split; [done|]). split; [|done]. intros vfn. rewrite Eo. by eapply forked_amap.
Qed.
End Fork.
