(* ===== verification/MmBridge.v ===== *)
(** * The memory objects under the address spaces

    [Vmmap] and [ForkVm] use memory objects through the interfaces [Mmobjs],
    [ShadowFields] and [ForkObjs].  Here the objects of [MmObj] (anon.c,
    shadow.c and pframe.c) implement them: what the address spaces rely on
    is what [MmPut] and [MmCow] prove.  The lists [mmo_vmas] are kept by
    [Vmmap] itself. *)
From stdpp Require Import base gmap list fin_maps.
From Stdlib Require Import ZArith Lia.
From S2P Require Import Prelude KEnv Vmmap MmObj MmInv MmPut MmCow ForkVm.
Open Scope Z_scope.
Open Scope c_scope.

Section Bridge.
Context `{KL : KList} `{SL : Slab} `{KG : KGeometry} `{MU : !Mmu} `{PA : !PageAlloc} `{MH : !MmHeader}.
Context `{PU : !PtUnmap} `{VO : !VnodeObjs} `{ER : KErrno}.
Context (keeps : slab_keeps = true) (slab : forall m : gmap Z mmobj, is_Some (slab_pick m)).

(** References to attached objects. *)
Definition holds_refs (s : mms) (R : list Z) : Prop := owns s R /\ forall o, o ∈ R -> attached s o.

(** [file->vn_ops->mmap]: on success a new reference to the object of the file. *)
Class VnMmap := {
  vnode_mmap : Z -> Z -> M mms (Z * Z);
  vnode_mmap_ok s R f v : holds_refs s R -> exists e o s', vnode_mmap f v s = Ok ((e, o), s') /\
    holds_refs s' (if e <? 0 then R else o :: R);
}.

Lemma same_kind_attached (s s' : mms) o y y' : mmobjs s !! o = Some y -> mmobjs s' !! o = Some y' -> same_kind y' y -> attached s o -> attached s' o.
Proof.
  intros Hy Hy' (E1 & E2 & _) (z & Hz & Hs). simplify_eq. exists y'. split; [done|]. by rewrite E1, E2.
Qed.
Lemma adopts_attached s s' o : adopts s s' -> attached s o -> attached s' o.
Proof.
  intros A Hat. pose proof Hat as (y & Hy & _). destruct (ad_objs _ _ A _ _ Hy) as (y' & Hy' & K). by apply (same_kind_attached s s' o y y').
Qed.
Lemma attached_nonnull s R o : owns s R -> attached s o -> o <> 0.
Proof. intros W (y & Hy & _) ->. pose proof (pages_null _ (w_inv _ _ _ W)). congruence. Qed.
(** What an object shows. *)
Definition sees_page (s : mms) (o n : Z) (d : list Z) : Prop := attached s o /\ shows s (edges s) o n d.
Lemma adopts_sees s s' R o n d : owns s R -> adopts s s' -> (forall p, is_Some (mmobjs s !! p) -> edges s' !! p = edges s !! p) ->
  sees_page s o n d -> sees_page s' o n d.
Proof.
  intros W A E [Ha Hs]. split; [by apply (adopts_attached s)|]. apply (adopts_shows s s' (edges s) _ R); try done. by apply attached_settled.
Qed.
Lemma refs_ref s R o : holds_refs s R -> o ∈ R -> exists s', mmo_ref o s = Ok (tt, s') /\ holds_refs s' (o :: R) /\ adopts s s' /\
  edges s' = edges s.
Proof.
  intros [W Ha] Hin. destruct (ref_step s (edges s) R o W (w_live _ _ _ W _ Hin)) as (s' & Hr & W' & A & D). exists s'. split; [done|].
  assert (edges s' = edges s) as E.
  { apply edges_kind. intros p. destruct (mmobjs s !! p) as [y|] eqn:Hy; [by destruct (ad_objs _ _ A _ _ Hy) as (y' & -> & ?)|].
    apply not_elem_of_dom in Hy. rewrite <- D in Hy. apply not_elem_of_dom in Hy. by rewrite Hy. }
  split; [|done]. split; [unfold owns; by rewrite E|]. intros p Hp. apply (adopts_attached s); [done|]. apply elem_of_cons in Hp as [->|?]; by apply Ha.
Qed.
Lemma refs_put s R o : holds_refs s (o :: R) -> exists s', mmo_put o s = Ok (tt, s') /\ holds_refs s' R /\ survives s s'.
Proof.
  intros [W Ha]. destruct (mmo_put_run s R o keeps W (Ha _ (list_elem_of_here _ _))) as (s' & Hr & W' & A). exists s'. split; [done|]. split; [|done]. split; [done|].
  intros p Hp. destruct (w_live _ _ _ W' p Hp) as [y' Hy']. destruct (sv_objs _ _ A _ _ Hy') as (y & Hy & K).
  apply (same_kind_attached s s' p y y'); try done. apply Ha. by right.
Qed.
Lemma attached_new (s : mms) o y p : mmobjs s !! o = None -> attached s p -> attached (upd_mmobjs (<[o := y]>) s) p.
Proof. intros Ho (z & Hz & Hs). exists z. split; [|done]. cbn. rewrite lookup_insert_ne by congruence. done. Qed.
Lemma refs_anon s R : holds_refs s R ->
  exists o s', anon_create s = Ok (o, s') /\ o <> 0 /\ holds_refs s' (o :: R) /\ mmobjs s !! o = None /\ adopts s s' /\
    edges s' = edges s /\ exists y, mmobjs s' !! o = Some y /\ mmo_ops y = anon_mmobj_ops /\ mmo_shadowed y = 0.
Proof.
  intros [W Ha]. destruct (slab (mmobjs s)) as [o Ho]. destruct (slab_fresh _ _ Ho) as [H0 Hf].
  destruct (owned_create anon_mmobj_ops s (edges s) R o W ltac:(done) Ho) as (Hc & W' & _). eexists o, _. split; [exact Hc|]. split; [done|].
  set (y := with_ref 1 (mmobj_init anon_mmobj_ops)) in *.
  assert (edges (upd_mmobjs (<[o := y]>) s) = edges s) as E.
  { apply map_eq. intros p. rewrite !edges_lookup. cbn.
    destruct (decide (p = o)) as [->|]; [|by rewrite lookup_insert_ne]. rewrite Hf, lookup_insert_eq. cbn. unfold edge_of. cbn.
    rewrite decide_False; [done|]. rewrite init_ops. by intros [? _]. }
  split; [|split; [done|split; [by apply adopts_new|split; [done|]]]].
  2: { exists y. cbn. rewrite lookup_insert_eq. split; [done|]. split; [apply init_ops|apply init_shadowed]. }
  split.
  - unfold owns. by rewrite E.
  - intros p [->|Hp]%elem_of_cons; [|by apply attached_new, Ha]. exists y. cbn. rewrite lookup_insert_eq. split; [done|]. left. cbn. by rewrite init_ops.
Qed.

(** ** Shadow objects *)
Definition shadow_edge (s : mms) (sh o : Z) : Prop := exists y, mmobjs s !! sh = Some y /\ mmo_shadowed y = o.
Definition bottom_of (o : Z) : M mms Z := let! x := load_mmo o in mret_ (mmobj_bottom_obj o x).
Lemma over_parts sh o s s' : shadow_over sh o s = Ok (tt, s') -> exists t x,
  store_mmo sh (with_shadowed o) s = Ok (tt, t) /\ bottom_of o t = Ok (mmobj_bottom_obj o x, t) /\
  store_mmo sh (with_bottom (mmobj_bottom_obj o x)) t = Ok (tt, s').
Proof.
  unfold shadow_over. intros ([] & t & H1 & (x & t' & H2 & H3)%mbind_Ok)%mbind_Ok. exists t, x.
  assert (t' = t) as -> by (unfold load_mmo in H2; destruct (mmobjs t !! o); by inversion H2).
  split; [done|]. split; [|done]. unfold bottom_of. by rewrite (mbind_run _ _ _ _ _ H2).
Qed.
Lemma stored_bottom sh b t s' y : store_mmo sh (with_bottom b) t = Ok (tt, s') -> mmobjs s' !! sh = Some y -> mmo_bottom_obj y = b.
Proof.
  unfold store_mmo, load_mmo. intros (x & t' & H1 & H2)%mbind_Ok. destruct (mmobjs t !! sh); inversion H1; subst. inversion H2; subst.
  cbn. rewrite lookup_insert_eq. by intros [= <-].
Qed.

(** A shadow object over [o], as [vmmap_map] makes it. *)
Lemma refs_shadow s R o : holds_refs s (o :: R) ->
  exists sh s1 s', shadow_create s = Ok (sh, s1) /\ sh <> 0 /\
    (store_mmo sh (with_shadowed o) ;;; let! b := bottom_of o in store_mmo sh (with_bottom b) ;;; mmo_ref b) s1 = Ok (tt, s') /\
    holds_refs s' (sh :: R) /\ adopts s s' /\
    exists b, bottom_is s (edges s) o b /\ mmobjs s !! sh = None /\ edges s' = <[sh := (o, b)]> (edges s).
Proof.
  intros [W Ha]. pose proof (proj1 (attached_settled s o) (Ha _ (list_elem_of_here _ _))) as Hs.
  destruct (new_shadow_ok s (edges s) (o :: R) o W Hs (slab _)) as (sh & b & y & s1 & s2 & C & Ov & F & W2 & B & A & E & K1 & K2 & K3).
  assert (is_Some (mmobjs s2 !! b)) as Lb by (destruct B as [(z & Hz & _) _]; destruct (ad_objs _ _ A _ _ Hz) as (z' & -> & _); done).
  destruct (ref_step s2 (edges s) _ b W2 Lb) as (s3 & R3 & W3 & A3 & D3). pose proof (adopts_trans _ _ _ A A3) as A13.
  destruct (over_parts _ _ _ _ Ov) as (t & x & P1 & P2 & P3).
  assert (mmobjs s2 !! sh = Some y) as Hy by by rewrite E, lookup_insert_eq.
  assert (mmobj_bottom_obj o x = b) as Eb by (rewrite <- K3; symmetry; by eapply stored_bottom). rewrite Eb in P2, P3.
  exists sh, s1, s3. split; [done|]. assert (sh <> 0) as Hsh by (intros ->; pose proof (pages_null _ (w_inv _ _ _ W2)); congruence).
  split; [done|]. split; [by rewrite (mbind_run _ _ _ _ _ P1), (mbind_run _ _ _ _ _ P2), (mbind_run _ _ _ _ _ P3)|].
  pose proof (owned_fresh_edge _ _ _ _ W F) as Gf.
  assert (owned s3 (<[sh := (o, b)]> (edges s)) (sh :: R)) as W4.
  { apply link_shadow; [eapply owned_perm; [|exact W3]; solve_Permutation| |done|by apply (adopts_settled s)|by apply (adopts_bottom s)].
    apply (adopts_shadow s2); [done|]. by exists y. }
  assert (edges s3 = <[sh := (o, b)]> (edges s)) as E3.
  { symmetry. apply (owned_edges s3 _ (sh :: R) W4). intros p (z' & Hz' & Hat). exists z'. split; [done|].
    destruct (decide (p = sh)) as [->|Hne]; [right; by rewrite lookup_insert_eq|]. rewrite lookup_insert_ne by done.
    assert (p ∈ dom (mmobjs s)) as Hd.
    { assert (p ∈ dom (mmobjs s3)) as Hd by (by apply elem_of_dom_2 with z'). rewrite D3, E, dom_insert_L in Hd. set_solver. }
    apply elem_of_dom in Hd as [z Hz]. destruct (ad_objs _ _ A13 _ _ Hz) as (z2 & Hz2 & Q1 & Q2 & _). simplify_eq.
    assert (settled s (edges s) p) as (z3 & Hz3 & Hs3); [|simplify_eq; by rewrite Q1].
    apply attached_settled. exists z. by rewrite <- Q1, <- Q2. }
  split; [|split; [done|by exists b]].
  split; [unfold owns; by rewrite E3|]. intros p [->|Hp]%elem_of_cons.
  - destruct (ad_objs _ _ A3 _ _ Hy) as (y3 & Hy3 & Q1 & Q2 & _). exists y3. split; [done|]. right. rewrite Q2, K2.
    apply (attached_nonnull s (o :: R)); [done|]. apply Ha. by left.
  - apply (adopts_attached s); [done|]. apply Ha. by right.
Qed.

(** Both shadow objects of a fork. *)
Lemma refs_fork s R o : holds_refs s (o :: R) -> exists p c s', fork_private o s = Ok ((p, c), s') /\ holds_refs s' (p :: c :: R) /\
  p <> c /\ p <> 0 /\ c <> 0 /\ adopts s s' /\ shadow_edge s' p o /\ shadow_edge s' c o /\
  (forall x n d, sees_page s x n d -> sees_page s' x n d) /\ (forall n d, sees_page s o n d -> sees_page s' p n d /\ sees_page s' c n d).
Proof.
  intros [W Ha]. pose proof (proj1 (attached_settled s o) (Ha _ (list_elem_of_here _ _))) as Hs.
  destruct (fork_private_ok s (edges s) R o W Hs slab) as (p & c & b & s' & Hr & Fp & Fc & Hne & W' & A & B & D).
  pose proof (fork_edges s R o p c b s' W Fp Fc W' A D) as E. rewrite <- E in W'.
  assert (forall x, edges s' !! x = Some (o, b) -> shadow_edge s' x o /\ attached s' x) as Hx.
  { intros x Hx. destruct (w_edges _ _ _ W' _ _ _ Hx) as [(y & Hy & K1 & K2 & _) (z & Hz & _) _ _].
    pose proof (attached_nonnull s _ o W (Ha _ (list_elem_of_here _ _))) as Ho. rewrite <- K2 in Ho. split; exists y; auto. }
  destruct (Hx p) as [Sp Ap]; [by rewrite E, lookup_insert_ne, lookup_insert_eq|]. destruct (Hx c) as [Sc Ac]; [by rewrite E, lookup_insert_eq|].
  assert (forall q, is_Some (mmobjs s !! q) -> edges s' !! q = edges s !! q) as HG by (intros q [y Hy]; rewrite E, !lookup_insert_ne by congruence; done).
  pose proof (fun x n d => adopts_sees s s' _ x n d W A HG) as Hsee.
  exists p, c, s'. split; [done|]. split; [|do 6 (split; [done || by apply (attached_nonnull s' _ _ W')|]); split; [done|]].
  - split; [done|]. intros x [->|[->|Hin]%elem_of_cons]%elem_of_cons; [done..|]. apply (adopts_attached s); [done|]. apply Ha. by right.
  - assert (forall x n d, mmobjs s !! x = None -> edges s' !! x = Some (o, b) -> sees_page s o n d -> sees_page s' x n d) as Hnew.
    { intros x n d Fx Ex Hs'. split; [by apply Hx|]. apply (shows_cons s' _ x o b n d Ex); [|by apply Hsee].
      unfold absent, resident, on_frame. rewrite (ad_frames _ _ A). by apply (fresh_absent s (edges s) (o :: R) x n W). }
    intros n d Hs'. split; apply Hnew; try done; rewrite E; [by rewrite lookup_insert_ne, lookup_insert_eq|by rewrite lookup_insert_eq].
Qed.

(** ** The interfaces *)
Context `{VM : !VnMmap}.
#[refine] Definition mm_mmobjs : Mmobjs := {|
  Vmmap.ost := mms; Vmmap.mmo_ref := mmo_ref; Vmmap.mmo_put := mmo_put; Vmmap.anon_create := anon_create;
  Vmmap.shadow_create := shadow_create; Vmmap.mmobj_bottom_obj := bottom_of;
  Vmmap.set_shadowed sh o := store_mmo sh (with_shadowed o);
  Vmmap.set_bottom sh b := store_mmo sh (with_bottom b);
  Vmmap.vn_mmap := vnode_mmap; Vmmap.owns := holds_refs;
|}.
Proof.
  - intros s R R' HR [W Ha]. split; [by eapply owned_perm|]. intros o Ho. apply Ha. by rewrite HR.
  - intros s o R [W Ha]. apply (attached_nonnull s _ o W). apply Ha. by left.
  - intros s R o H Ho. destruct (refs_ref s R o H Ho) as (s' & Hr & H' & _). eauto.
  - intros s R o H. destruct (refs_put s R o H) as (s' & Hr & H' & _). eauto.
  - intros s R H. destruct (refs_anon s R H) as (o & s' & Hr & Ho & H' & _). exists o, s'. by rewrite (proj2 (Z.eqb_neq _ _) Ho).
  - apply vnode_mmap_ok.
  - intros s R o H. destruct (refs_shadow s R o H) as (sh & s1 & s' & Hr & Hsh & Hc & H' & _). exists sh, s1. split; [done|].
    rewrite (proj2 (Z.eqb_neq _ _) Hsh). eauto.
Defined.
Definition mm_fields (map_type : Z) : @ShadowFields mm_mmobjs := {|
  MAP_TYPE := map_type;
  get_shadowed sh := (let! x := load_mmo sh in mret_ (mmo_shadowed x)) : M (@ost mm_mmobjs) Z;
  get_bottom sh := (let! x := load_mmo sh in mret_ (mmo_bottom_obj x)) : M (@ost mm_mmobjs) Z;
  sees := sees_page;
|}.

Lemma is_shadow_edge t s x o : shadow_edge s x o -> o <> 0 -> @is_shadow mm_mmobjs (mm_fields t) s x o.
Proof. intros (y & Hy & <-) H0. split; [|done]. cbn. by rewrite (mbind_run _ _ _ _ _ (load_mmo_run _ _ _ Hy)). Qed.
Lemma adopts_keeps t s s' : adopts s s' -> (forall x n d, sees_page s x n d -> sees_page s' x n d) ->
  @keeps_shadows mm_mmobjs (mm_fields t) s s'.
Proof.
  intros A Hsee. split; [|done]. intros x o [Hx H0]. cbn in Hx. unfold load_mmo in Hx. apply mbind_Ok in Hx as (y & s1 & Hy & E).
  destruct (mmobjs s !! x) as [y0|] eqn:Ex; inversion Hy; subst. inversion E; subst.
  destruct (ad_objs _ _ A _ _ Ex) as (y' & Hy' & _ & K & _). apply is_shadow_edge; [by exists y'|done].
Qed.
Lemma load_mmo_state o s x s' : load_mmo o s = Ok (x, s') -> s' = s.
Proof. unfold load_mmo. destruct (mmobjs s !! o); by inversion 1. Qed.
Lemma fork_shadows_private t o s p c s' : fork_private o s = Ok ((p, c), s') -> p <> 0 -> c <> 0 ->
  @fork_shadows mm_mmobjs (mm_fields t) o s = Ok ((p, c), s').
Proof.
  unfold fork_private. intros (p' & s1 & C1 & ([] & s2 & O1 & (c' & s3 & C2 & ([] & s4 & O2 & H)%mbind_Ok)%mbind_Ok)%mbind_Ok)%mbind_Ok Hp Hc.
  assert (p' = p /\ c' = c) as [-> ->].
  { do 6 (apply mbind_Ok in H as (? & ? & _ & H)). by inversion H. }
  destruct (over_parts _ _ _ _ O1) as (t1 & x1 & A1 & A2 & A3). destruct (over_parts _ _ _ _ O2) as (t2 & x2 & B1 & B2 & B3).
  unfold fork_shadows. cbn. rewrite (mbind_run _ _ _ _ _ C1), (proj2 (Z.eqb_neq _ _) Hp). cbn [negb].
  rewrite (mbind_run _ _ s1 tt s1 eq_refl), (mbind_run _ _ _ _ _ A1), (mbind_run _ _ _ _ _ A2), (mbind_run _ _ _ _ _ A3).
  rewrite (mbind_run _ _ _ _ _ C2), (proj2 (Z.eqb_neq _ _) Hc). cbn [negb].
  rewrite (mbind_run _ _ s3 tt s3 eq_refl), (mbind_run _ _ _ _ _ B1), (mbind_run _ _ _ _ _ B2), (mbind_run _ _ _ _ _ B3).
  apply mbind_Ok in H as (y1 & t3 & L1 & ([] & s5 & R1 & (y2 & t4 & L2 & ([] & s6 & R2 & (y3 & t5 & L3 & ([] & s7 & R3 & E)%mbind_Ok)%mbind_Ok)%mbind_Ok)%mbind_Ok)%mbind_Ok).
  pose proof (load_mmo_state _ _ _ _ L1) as ->. pose proof (load_mmo_state _ _ _ _ L2) as ->. pose proof (load_mmo_state _ _ _ _ L3) as ->.
  assert (forall (f : mmobj -> Z) q st y, load_mmo q st = Ok (y, st) -> (let! x := load_mmo q in mret_ (f x)) st = Ok (f y, st)) as G
    by (intros f q st y Hl; by rewrite (mbind_run _ _ _ _ _ Hl)).
  rewrite (mbind_run _ _ _ _ _ (G mmo_shadowed _ _ _ L1)), (mbind_run _ _ _ _ _ R1), (mbind_run _ _ _ _ _ (G mmo_bottom_obj _ _ _ L2)).
  by rewrite (mbind_run _ _ _ _ _ R2), (mbind_run _ _ _ _ _ (G mmo_bottom_obj _ _ _ L3)), (mbind_run _ _ _ _ _ R3).
Qed.
(** The objects of anon.c and shadow.c do what [do_fork] relies on. *)
#[refine] Definition mm_fork_objs (t : Z) : @ForkObjs mm_mmobjs (mm_fields t) := {| ForkVm.fork_shadows_ok := _ |}.
Proof.
  - intros s R o H _. destruct (refs_fork s R o H) as (p & c & s' & Hr & H' & Hne & Hp & Hc & A & Sp & Sc & S1 & S2). exists p, c, s'.
    assert (o <> 0) as Ho by (destruct H as [W Ha]; apply (attached_nonnull s _ o W), Ha; by left).
    split; [by apply fork_shadows_private|]. split; [done|]. split; [done|].
    split; [by apply is_shadow_edge|]. split; [by apply is_shadow_edge|]. split; [by apply adopts_keeps|done].
  - intros s R o s' H Hin Hr. destruct (refs_ref s R o H Hin) as (s1 & Hr1 & _ & A & E). cbn in Hr. rewrite Hr in Hr1. injection Hr1 as <-.
    apply adopts_keeps; [done|]. intros x n d. apply (adopts_sees s s' R); [apply H|done|]. intros. by rewrite E.
  - intros s R o [W Ha] Hin. pose proof (proj1 (attached_settled s o) (Ha _ Hin)) as Hs.
    destruct (settled_bottom s _ R o W Hs) as (x & Hx & (z & Hz & _) & _). exists (mmobj_bottom_obj o x). cbn. unfold bottom_of.
    rewrite (mbind_run _ _ _ _ _ (load_mmo_run _ _ _ Hx)). split; [done|]. intros E. rewrite E in Hz. pose proof (pages_null _ (w_inv _ _ _ W)). congruence.
Defined.
End Bridge.

(** ** Fork over anonymous and shadow objects *)
Section ForkSpace.
Context `{KL : KList} `{SL : Slab} `{KG : KGeometry} `{MU : !Mmu} `{PA : !PageAlloc} `{MH : !MmHeader}.
Context `{PU : !PtUnmap} `{VO : !VnodeObjs} `{ER : KErrno} `{VM : !VnMmap} `{MF : MapFlags}.
Context (keeps : slab_keeps = true) (slab : forall m : gmap Z mmobj, is_Some (slab_pick m)) (map_type : Z).
#[local] Instance mm_objs : Mmobjs := mm_mmobjs keeps slab.
#[local] Instance mm_shadow_fields : ShadowFields := mm_fields keeps slab map_type.
#[local] Instance mm_fork : ForkObjs := mm_fork_objs keeps slab map_type.

(** C9: The address space of a forked process, over the memory objects of anon.c
    and shadow.c: with enough memory the clone and
    the loop of [do_fork] succeed; the child maps exactly the pages the
    parent maps, shared pages with the same object, private pages with a
    shadow object each for parent and child over the object of before, and both
    see the bytes of before; every
    address space is well-formed and all references are accounted for; no
    translation of the parent is left in its page table or the TLB. *)
Theorem fork_space_correct s m vs W (R : list Z) p pd : vm_plenty -> maps_inv s ((m, vs) :: W) R ->
  exists m' s1 s2 s3 s4 vs' ws,
    vmmap_clone m s = Ok (m', s1) /\ ForkVm.set_vmm_proc m' p s1 = Ok (tt, s2) /\ fork_objects m m' s2 = Ok (tt, s3) /\
    fork_unmap pd s3 = Ok (tt, s4) /\ m' <> 0 /\ m' ∉ ((m, vs) :: W).*1 /\ maps_inv s4 ((m, vs') :: (m', ws) :: W) R /\
    (forall vfn, page_forked (objs s) (objs s4) (amap vs.*2 vfn) (amap vs'.*2 vfn) (amap ws.*2 vfn)) /\
    (forall pn, tlb_entry (mmu s4) pn = None) /\ forall pn, LOW_PN <= pn < HIGH_PN -> pt_entry (mmu s4) pd pn = None.
Proof. apply fork_space_ok. Qed.
End ForkSpace.
