(* ===== verification/MmFrames.v ===== *)
(** * The pages under the address spaces

    [VmAccess] reaches pages through the interfaces [MmPages], [FreshPages]
    and [FrameOps].  Here [lookuppage], [pframe_dirty], [pframe_pin] and
    [pframe_unpin] of [MmObj] (anon.c, shadow.c and pframe.c) implement them,
    for address spaces over anonymous objects and shadow objects over these:
    page [n] of an object is what the first resident page down its chain
    holds, or zeros.  A lookup fails with -ENOMEM only. *)
From stdpp Require Import base gmap list fin_maps fin_sets.
From Stdlib Require Import ZArith Lia.
From S2P Require Import Prelude KEnv Vmmap VmAccess MmObj MmInv MmPut MmCow MmBridge.
Open Scope Z_scope.
Open Scope c_scope.

Section Pages.
Context `{KL : KList} `{SL : Slab} `{KG : KGeometry} `{MU : !Mmu} `{PA : !PageAlloc} `{MH : !MmHeader}.
Context `{PU : !PtUnmap} `{VO : !VnodeObjs} `{ER : KErrno}.

(** ** The page an object shows, computed *)
Definition frame_data (s : mms) (pf : Z) : list Z :=
  match pframes s !! pf with Some x => default [] (memory s !! pf_addr x) | None => [] end.
Fixpoint page_of (fuel : nat) (G : gmap Z (Z * Z)) (s : mms) (o n : Z) : list Z :=
  let pf := find_frame s o n in
  if pf =? 0 then
    match fuel with
    | O => zero_page
    | S fuel => match G !! o with Some (a, _) => page_of fuel G s a n | None => zero_page end
    end
  else frame_data s pf.
(** A chain has at most as many objects as there are. *)
Definition page_shown (s : mms) (o n : Z) : list Z :=
  resize (Z.to_nat PAGE_SIZE) 0 (page_of (size (mmobjs s)) (edges s) s o n).

Lemma content_data s pf d : content s pf d -> frame_data s pf = d.
Proof. intros (x & Hx & Hd). unfold frame_data. by rewrite Hx, Hd. Qed.
Lemma page_case s G o n fuel : pages_inv s ->
  (exists pf, resident s o n pf /\ page_of fuel G s o n = frame_data s pf) \/
  (absent s o n /\ page_of fuel G s o n = match fuel with
     | O => zero_page
     | S k => match G !! o with Some (a, _) => page_of k G s a n | None => zero_page end
     end).
Proof.
  intros K. destruct (find_frame_spec s o n K) as [[E Ha]|Hr].
  - right. split; [done|]. destruct fuel; cbn [page_of]; by rewrite E.
  - left. exists (find_frame s o n). split; [done|]. destruct Hr as (x & Hx & _). pose proof (f_ptr _ _ _ (p_frames _ K _ _ Hx)) as H0.
    destruct fuel; cbn [page_of]; by rewrite (proj2 (Z.eqb_neq _ 0) H0).
Qed.
Lemma page_resident s G o n fuel pf d : pages_inv s -> resident s o n pf -> content s pf d -> page_of fuel G s o n = d.
Proof.
  intros K Hr Hd. destruct (page_case s G o n fuel K) as [(q & Hq & ->)|[Ha _]]; [|by destruct (Ha pf)].
  rewrite (resident_unique s o n q pf K Hq Hr). by apply content_data.
Qed.
Lemma chain_positive G o l : chain G o l -> (1 <= length l)%nat.
Proof. intros H. destruct (chain_head _ _ _ H) as [l' ->]. cbn. lia. Qed.

(** What an object shows is what the function computes. *)
Lemma shows_page s G o n d l fuel : pages_inv s -> ranked G -> chain G o l -> (length l <= S fuel)%nat ->
  shows s G o n d -> page_of fuel G s o n = d.
Proof.
  intros K Hrk Hl. revert fuel. induction Hl as [o Ho|o a b l Ho Hl IH]; intros fuel Hf H;
    (destruct (page_case s G o n fuel K) as [(pf & Hr & E)|[Ha E]];
      [destruct (resident_content s o n pf K Hr) as [d0 Hd0]; rewrite E, (content_data _ _ _ Hd0);
       by apply (shows_unique s G o n d0 d K), H; apply (shows_resident s G o n pf)|]); rewrite E, Ho.
  - destruct H as (l & Hl & H). inversion Hl; simplify_eq. destruct H as [(pf & (l1 & p & l2 & El & _ & Hr) & _)|(_ & -> & _)].
    + destruct l1 as [|? [|]]; cbn in El; simplify_eq. by destruct (Ha pf).
    + by destruct fuel.
  - pose proof (chain_positive _ _ _ Hl). cbn in Hf. destruct fuel as [|k]; [lia|].
    apply IH; [lia|]. by apply (shows_cons s G o a b n d Ho Ha).
Qed.
Lemma page_fuel s G o n l f f' : pages_inv s -> chain G o l -> (length l <= S f)%nat -> (length l <= S f')%nat ->
  page_of f G s o n = page_of f' G s o n.
Proof.
  intros K Hl. revert f f'. induction Hl as [o Ho|o a b l Ho Hl IH]; intros f f' Hf Hf';
    destruct (page_case s G o n f K) as [(pf & Hr & ->)|[Ha ->]], (page_case s G o n f' K) as [(pf' & Hr' & ->)|[Ha' ->]];
    try (by rewrite (resident_unique s o n pf pf' K Hr Hr')); try (by destruct (Ha' pf)); try (by destruct (Ha pf')); rewrite Ho.
  - by destruct f, f'.
  - pose proof (chain_positive _ _ _ Hl). cbn in Hf, Hf'. destruct f, f'; try lia. apply IH; lia.
Qed.
(** Two states with the same pages along a chain. *)
Lemma page_same s s' G G' o l n fuel : pages_inv s -> pages_inv s' -> chain G o l -> chain G' o l ->
  (forall p pf, p ∈ l -> resident s' p n pf <-> resident s p n pf) ->
  (forall p pf, p ∈ l -> resident s p n pf -> frame_data s' pf = frame_data s pf) ->
  page_of fuel G' s' o n = page_of fuel G s o n.
Proof.
  intros K K' Hl. revert fuel. induction Hl as [o Ho|o a b l Ho Hl IH]; intros fuel Hl' Hr Hd.
  all: destruct (page_case s G o n fuel K) as [(pf & Hp & ->)|[Ha ->]], (page_case s' G' o n fuel K') as [(pf' & Hp' & ->)|[Ha' ->]].
  all: try (rewrite (Hr o) in Hp' by (by left); rewrite (resident_unique s o n pf' pf K Hp' Hp); by apply (Hd o); [left|]).
  all: try (by destruct (Ha' pf); apply Hr; [left|]).
  all: try (by destruct (Ha pf'); apply Hr; [left|]).
  - inversion Hl' as [o' Ho'|o' a' b' l' Ho' Hl2]; subst; rewrite Ho, ?Ho'; [by destruct fuel|]. by destruct (chain_head _ _ _ Hl2).
  - destruct (chain_head _ _ _ Hl) as [l0 El]. inversion Hl' as [o' Ho'|o' a' b' l' Ho' Hl2]; subst; [done|]. rewrite Ho, Ho'.
    destruct (chain_head _ _ _ Hl2) as [l1 [= <- <-]]. destruct fuel as [|k]; [done|]. apply IH; [done|..].
    + intros p pf Hp. apply Hr. by right.
    + intros p pf Hp. apply Hd. by right.
Qed.
(** New pages hold what their object showed. *)
Lemma page_grows_here s s' G R l o n fuel pf : owned s G R -> pages_inv s' -> grows s s' G -> chain G o l -> (length l <= S fuel)%nat ->
  resident s' o n pf -> page_of fuel G s o n = frame_data s' pf.
Proof.
  intros W K' X Hl Hf (x & Hx & Eo & En). pose proof (w_inv _ _ _ W) as K. destruct (pframes s !! pf) as [x0|] eqn:E0.
  - destruct (x_old _ _ _ X _ _ E0) as [Hx' Em]. simplify_eq. destruct (frame_page s pf x K E0) as (d & Hd & _).
    rewrite (content_data s' pf d) by (exists x; by rewrite Em). by apply (page_resident s G _ _ fuel pf d K); exists x.
  - destruct (x_new _ _ _ X _ _ Hx E0) as (_ & _ & _ & _ & d & Hd & Hs). rewrite Eo, En in Hs.
    rewrite (content_data s' pf d) by (by exists x). by apply (shows_page s G o n d l fuel K (w_rank _ _ _ W)).
Qed.
Lemma page_grows s s' G R l o n fuel : owned s G R -> pages_inv s' -> grows s s' G -> chain G o l -> (length l <= S fuel)%nat ->
  page_of fuel G s' o n = page_of fuel G s o n.
Proof.
  intros W K' X Hl. pose proof (w_inv _ _ _ W) as K. revert fuel. induction Hl as [o Ho|o a b l Ho Hl IH]; intros fuel Hf;
    destruct (page_case s' G o n fuel K') as [(pf & Hr & E)|[Ha E]]; rewrite E.
  - symmetry. eapply (page_grows_here s s' G R [o]); try done. by constructor.
  - destruct (page_case s G o n fuel K) as [(pf & (x & Hx & Er) & _)|[_ ->]]; [|by rewrite Ho].
    destruct (Ha pf). exists x. split; [by apply (x_old _ _ _ X)|done].
  - symmetry. eapply (page_grows_here s s' G R (o :: l)); try done. by eapply chain_shadow.
  - destruct (page_case s G o n fuel K) as [(pf & (x & Hx & Er) & _)|[_ ->]].
    { destruct (Ha pf). exists x. split; [by apply (x_old _ _ _ X)|done]. }
    rewrite Ho. pose proof (chain_positive _ _ _ Hl). cbn in Hf. destruct fuel as [|k]; [lia|]. apply IH. lia.
Qed.

Lemma chain_short s G R o l : owned s G R -> chain G o l -> (length l <= S (size (mmobjs s)))%nat.
Proof.
  intros W Hl. inversion Hl as [|? a b l' Ho Hl']; subst; [cbn; lia|]. etransitivity; [eapply graph_size; [by eapply owned_graph| |exact Hl]|lia].
  destruct (w_edges _ _ _ W _ _ _ Ho) as [(y & Hy & _) _ _ _]. exists y. split; [done|right]. by rewrite Ho.
Qed.
Lemma frame_data_length s o n pf d : pages_inv s -> resident s o n pf -> content s pf d -> length d = Z.to_nat PAGE_SIZE.
Proof. intros K _ (x & Hx & Hd). destruct (frame_page s pf x K Hx) as (d' & Hd' & Hl). congruence. Qed.
Lemma page_shown_resident s R o n pf d : owns s R -> resident s o n pf -> content s pf d -> page_shown s o n = d.
Proof.
  intros W Hr Hd. unfold page_shown. rewrite (page_resident s _ o n _ pf d (w_inv _ _ _ W) Hr Hd). apply resize_all_alt.
  symmetry. by apply (frame_data_length s o n pf d (w_inv _ _ _ W)).
Qed.
Lemma page_shown_length s o n : length (page_shown s o n) = Z.to_nat PAGE_SIZE.
Proof. apply length_resize. Qed.
(** [page_shown] with any fuel that is enough. *)
Lemma page_shown_fuel s R o n l fuel : owns s R -> chain (edges s) o l -> (length l <= S fuel)%nat ->
  page_shown s o n = resize (Z.to_nat PAGE_SIZE) 0 (page_of fuel (edges s) s o n).
Proof.
  intros W Hl Hf. unfold page_shown. f_equal. apply (page_fuel s _ o n l); [apply W|done| |done]. by apply (chain_short s (edges s) R o).
Qed.
Lemma page_shown_grows s s' R o n : owns s R -> owns s' R -> grows s s' (edges s) -> page_shown s' o n = page_shown s o n.
Proof.
  intros W W' X. destruct (chain_exists (edges s) o (w_rank _ _ _ W)) as [l Hl]. pose proof (chain_short s (edges s) R o l W Hl) as Hs.
  pose proof (grows_edges _ _ _ X) as E. rewrite (page_shown_fuel s R o n l (size (mmobjs s)) W Hl Hs).
  rewrite (page_shown_fuel s' R o n l (size (mmobjs s)) W'); [|by rewrite E|done]. f_equal. rewrite E.
  apply (page_grows s s' _ R l); [done|apply W'|done|done|done].
Qed.
Lemma page_shown_same s s' R R' o n l : owns s R -> owns s' R' -> chain (edges s) o l -> chain (edges s') o l ->
  (forall p pf, p ∈ l -> resident s' p n pf <-> resident s p n pf) ->
  (forall p pf, p ∈ l -> resident s p n pf -> frame_data s' pf = frame_data s pf) -> page_shown s' o n = page_shown s o n.
Proof.
  intros W W' Hl Hl' Hr Hd. pose proof (chain_short s (edges s) R o l W Hl) as Hs.
  rewrite (page_shown_fuel s R o n l _ W Hl Hs), (page_shown_fuel s' R' o n l _ W' Hl' Hs). f_equal.
  apply (page_same s s' _ _ o l); [apply W|apply W'|done..].
Qed.

(** ** Objects over anonymous ones *)
Definition kinds (s s' : mms) : Prop := forall p y, mmobjs s !! p = Some y -> exists y', mmobjs s' !! p = Some y' /\ same_kind y' y.
Lemma bottom_kind o x x' : same_kind x' x -> mmobj_bottom_obj o x' = mmobj_bottom_obj o x.
Proof.
  intros (_ & E & Eb & _). destruct (decide (mmo_shadowed x = 0)) as [H|H].
  - rewrite !bottom_plain by congruence. done.
  - rewrite !bottom_shadow by congruence. done.
Qed.
Lemma anon_kinds s s' o : kinds s s' -> anon_bottom s o -> anon_bottom s' o.
Proof.
  intros H (x & z & Hx & Hz & Hk). destruct (H _ _ Hx) as (x' & Hx' & Kx), (H _ _ Hz) as (z' & Hz' & Ez & _). exists x', z'.
  rewrite (bottom_kind _ _ _ Kx). split_and!; congruence.
Qed.
Lemma attached_kinds s s' o : kinds s s' -> attached s o -> attached s' o.
Proof. intros H Ha. pose proof Ha as (y & Hy & _). destruct (H _ _ Hy) as (y' & Hy' & K). by apply (same_kind_attached s s' o y y'). Qed.
Lemma adopts_kinds s s' : adopts s s' -> kinds s s'.
Proof. intros A p y Hy. destruct (ad_objs _ _ A _ _ Hy) as (y' & ? & ?). eauto. Qed.
Lemma grows_kinds s s' G : grows s s' G -> kinds s s'.
Proof. intros X p y Hy. destruct (option_rel_Some' _ _ _ _ (x_objs _ _ _ X p) Hy) as (y' & ? & ? & _). eauto. Qed.
Lemma anon_not_vnode s o : anon_bottom s o -> (exists R, owns s R) -> exists y, mmobjs s !! o = Some y /\ mmo_ops y <> vnode_mmobj_ops.
Proof.
  intros (x & z & Hx & Hz & Hk) [R W]. exists x. split; [done|]. intros E. destruct (w_plain _ _ _ W o x Hx) as [H0 _]; [by rewrite E|].
  rewrite bottom_plain in Hz by done. congruence.
Qed.

(** References to attached objects over anonymous ones. *)
Definition holds_anon (s : mms) (R : list Z) : Prop := holds_refs s R /\ forall o, o ∈ R -> anon_bottom s o.
Lemma holds_kinds s s' R : owns s' R -> kinds s s' -> holds_anon s R -> holds_anon s' R.
Proof.
  intros W K [[_ Ha] Hb]. split; [split; [done|]|]; intros o Ho; [by apply (attached_kinds s), Ha|by apply (anon_kinds s), Hb].
Qed.
Lemma holds_shrink s s' R o : holds_refs s' R -> survives s s' -> holds_anon s (o :: R) -> holds_anon s' R.
Proof.
  intros [W Ha'] A [[W0 Ha] Hb]. split; [done|]. intros p Hp. destruct (Hb p) as (x & z & Hx & Hz & Hk); [by right|].
  destruct (settled_bottom s' (edges s') R p W) as (x' & Hx' & (z' & Hz' & _) & _); [by apply attached_settled, Ha'|].
  destruct (sv_objs _ _ A _ _ Hx') as (x0 & Hx0 & Kx). simplify_eq. exists x', z'. split; [done|]. split; [done|].
  rewrite (bottom_kind _ _ _ Kx) in Hz'. destruct (sv_objs _ _ A _ _ Hz') as (z0 & Hz0 & Ez & _). congruence.
Qed.
Lemma holds_new_anon s s' R o y : holds_refs s' (o :: R) -> adopts s s' -> mmobjs s' !! o = Some y ->
  mmo_ops y = anon_mmobj_ops -> mmo_shadowed y = 0 -> holds_anon s R -> holds_anon s' (o :: R).
Proof.
  intros W A Hy Hk H0 [_ Hb]. split; [done|]. intros p [->|Hp]%elem_of_cons.
  - exists y, y. by rewrite bottom_plain.
  - by apply (anon_kinds s), Hb, Hp; apply adopts_kinds.
Qed.
Lemma holds_new_shadow s s' R o sh b : holds_refs s' (sh :: R) -> adopts s s' -> bottom_is s (edges s) o b ->
  edges s' !! sh = Some (o, b) -> holds_anon s (o :: R) -> holds_anon s' (sh :: R).
Proof.
  intros [W Ha'] A Hbo E [[W0 Ha] Hb]. pose proof (adopts_kinds _ _ A) as K. split; [done|]. intros p [->|Hp]%elem_of_cons; [|by apply (anon_kinds s), Hb; [|right]].
  destruct (Hb o) as (x & z & Hx & Hz & Hk); [by left|].
  destruct (settled_bottom s _ _ o W0) as (x0 & Hx0 & Hb0); [by apply attached_settled, Ha; left|]. simplify_eq.
  rewrite (bottom_unique s s (edges s) o _ _ Hb0 Hbo) in Hz.
  destruct (settled_bottom s' _ _ sh W) as (x' & Hx' & [_ Hb']); [by apply attached_settled, Ha'; left|]. rewrite E in Hb'.
  destruct (K _ _ Hz) as (z' & Hz' & Ez & _). exists x', z'. rewrite <- Hb'. split_and!; congruence.
Qed.

(** ** Stores and flags *)
Lemma owned_refit s s' G R pf x x' : owned s G R -> pages_inv s' -> pframes s !! pf = Some x -> refit s s' pf x' ->
  pf_obj x' = pf_obj x -> pf_busy x' = pf_busy x -> pf_pincount x' = pf_pincount x -> owned s' G R.
Proof.
  intros W K Hx [F1 F2 F3 F4] E1 E2 E3. apply (owned_tamer s _ G R); [done| |done|apply (w_live _ _ _ W)|rewrite F2; apply (w_refs _ _ _ W)].
  split; [intros p; rewrite F2; by apply option_rel_refl, kind_refl| |done]. intros q z. rewrite F1.
  intros [[<- <-]|[Hne Hz]]%lookup_insert_Some; [|by exists z]. exists x. split_and!; [done..|lia].
Qed.
Lemma refit_edges s s' pf x : refit s s' pf x -> edges s' = edges s.
Proof. intros [_ E _ _]. unfold edges. by rewrite E. Qed.
Lemma refit_kinds s s' pf x : refit s s' pf x -> kinds s s'.
Proof. intros [_ E _ _] p y Hy. exists y. by rewrite E. Qed.
Lemma refit_resident s s' pf x x' o n q : pframes s !! pf = Some x -> refit s s' pf x' -> pf_obj x' = pf_obj x ->
  pf_pagenum x' = pf_pagenum x -> resident s' o n q <-> resident s o n q.
Proof.
  intros Hx [F _ _ _] E1 E2. unfold resident. rewrite (on_frame_insert s s' _ pf x' q F), E1, E2. unfold on_frame.
  destruct (decide (q = pf)) as [->|]; [|naive_solver]. rewrite Hx. naive_solver.
Qed.
Lemma refit_data s s' pf x x' q : pframes s !! pf = Some x -> refit s s' pf x' -> pf_addr x' = pf_addr x ->
  frame_data s' q = frame_data s q.
Proof.
  intros Hx [F1 _ F3 _] E. unfold frame_data. rewrite F1, F3. destruct (decide (q = pf)) as [->|].
  - by rewrite lookup_insert_eq, Hx, E.
  - by rewrite lookup_insert_ne.
Qed.
Lemma refit_shown s s' R pf x x' o n : owns s R -> owns s' R -> pframes s !! pf = Some x -> refit s s' pf x' -> same_ident x' x ->
  page_shown s' o n = page_shown s o n.
Proof.
  intros W W' Hx F (E1 & E2 & E3 & _). destruct (chain_exists (edges s) o (w_rank _ _ _ W)) as [l Hl].
  apply (page_shown_same s s' R R o n l W W' Hl).
  - by rewrite (refit_edges _ _ _ _ F).
  - intros p q _. by apply (refit_resident s s' pf x x').
  - intros p q _ _. by apply (refit_data s s' pf x x').
Qed.

(** [memcpy] into the page of a frame. *)
Definition pf_store (pf off : Z) (bs : list Z) : M mms unit :=
  let! x := load_pf pf in
  let! d := load_page (pf_addr x) in
  store_page (pf_addr x) (list_inserts (Z.to_nat off) bs d).
Definition can_write (s : mms) (o n pf : Z) : Prop := resident s o n pf /\
  exists y, mmobjs s !! o = Some y /\ mmo_ops y <> vnode_mmobj_ops.
(** Page [n'] of [o'] may show page [n] of [o]: the same page of an object
    down the chain. *)
Definition page_depends (s : mms) (p q : Z * Z) : Prop := p.2 = q.2 /\ exists l, chain (edges s) p.1 l /\ q.1 ∈ l.

Lemma pf_store_run s R pf x off bs : owns s R -> pframes s !! pf = Some x ->
  exists d, memory s !! pf_addr x = Some d /\ length d = Z.to_nat PAGE_SIZE /\
    pf_store pf off bs s = Ok (tt, upd_memory (<[pf_addr x := list_inserts (Z.to_nat off) bs d]>) s) /\
    owns (upd_memory (<[pf_addr x := list_inserts (Z.to_nat off) bs d]>) s) R.
Proof.
  intros W Hx. destruct (frame_page s pf x (w_inv _ _ _ W) Hx) as (d & Hd & Hl). exists d. split; [done|]. split; [done|].
  destruct (write_frame_ok s _ R pf x (list_inserts (Z.to_nat off) bs d) W Hx) as (s' & Hr & W' & ->); [by rewrite length_inserts|].
  split; [|done]. unfold write_frame in Hr. unfold pf_store. rewrite (mbind_run _ _ _ _ _ (load_pf_run _ _ _ Hx)) in Hr.
  rewrite (mbind_run _ _ _ _ _ (load_pf_run _ _ _ Hx)). rewrite (mbind_run _ _ s d s) by (unfold load_page; by rewrite Hd). exact Hr.
Qed.

(** A store and the flag that follows it. *)
Lemma store_dirty_ok s R o n pf off bs : owns s R -> anon_bottom s o -> can_write s o n pf ->
  0 <= off -> off + Z.of_nat (length bs) <= PAGE_SIZE ->
  exists s' s'', pf_store pf off bs s = Ok (tt, s') /\ pframe_dirty pf s' = Ok (0, s'') /\ owns s'' R /\ kinds s s'' /\
    edges s'' = edges s /\
    page_shown s'' o n = list_inserts (Z.to_nat off) bs (page_shown s o n) /\
    (forall o' n', ~ page_depends s (o', n') (o, n) -> page_shown s'' o' n' = page_shown s o' n').
Proof.
  intros W Hb [(x & Hx & Eo & En) (y & Hy & Hk)] Hoff Hlen.
  destruct (pf_store_run s R pf x off bs W Hx) as (d & Hd & Hl & Hr & W1). set (d' := list_inserts _ bs d) in *.
  set (s1 := upd_memory (<[pf_addr x := d']>) s) in *.
  assert (pframes s1 !! pf = Some x) as Hx1 by done.
  destruct (pframe_dirty_ok s1 pf x y (w_inv _ _ _ W1) Hx1) as (s2 & Hr2 & K2 & F); [by apply (w_busy _ _ _ W pf)|by rewrite Eo|done|].
  assert (owns s2 R) as W2 by (unfold owns; rewrite (refit_edges _ _ _ _ F); by apply (owned_refit s1 s2 _ R pf x (with_dirty true x))).
  exists s1, s2. split; [done|]. split; [done|]. split; [done|].
  split; [by apply (refit_kinds _ _ _ _ F)|]. split; [by apply (refit_edges s1 s2 pf _ F)|].
  assert (forall p m, page_shown s2 p m = page_shown s1 p m) as Hs2 by (intros; by apply (refit_shown s1 s2 R pf x (with_dirty true x))).
  split; [|intros o' n' Hnd]; rewrite Hs2.
  - rewrite (page_shown_resident s1 R o n pf d' W1); [|by exists x|exists x; split; [done|apply lookup_insert_eq]].
    by rewrite (page_shown_resident s R o n pf d W); [|exists x|exists x].
  - destruct (chain_exists (edges s) o' (w_rank _ _ _ W)) as [l Hc].
    apply (page_shown_same s s1 R R o' n' l W W1 Hc Hc); [done|]. intros p q Hp (z & Hz & Ep & Enz). unfold frame_data. cbn.
    rewrite Hz, lookup_insert_ne; [done|]. intros Ea. pose proof (p_addr _ (w_inv _ _ _ W) _ _ _ _ Hx Hz Ea) as ->.
    simplify_eq. apply Hnd. split; [done|]. exists l. split; [done|]. cbn. congruence.
Qed.

(** Pinning a frame while it is marked dirty. *)
Lemma pin_dirty_unpin_run s R o n pf : owns s R -> anon_bottom s o -> can_write s o n pf ->
  exists s', (pframe_pin pf ;;; let! _ := pframe_dirty pf in pframe_unpin pf) s = Ok (tt, s') /\ owns s' R /\ kinds s s' /\
    (forall o' n', page_shown s' o' n' = page_shown s o' n') /\
    (exists x, pframes s !! pf = Some x /\ refit s s' pf (with_dirty true x)) /\ edges s' = edges s.
Proof.
  intros W Hb [(x & Hx & Eo & En) (y & Hy & Hk)]. pose proof (w_inv _ _ _ W) as K.
  destruct (pframe_pin_ok s pf x K Hx) as (s1 & Hr1 & K1 & F1). rewrite (mbind_run _ _ _ _ _ Hr1).
  assert (pframes s1 !! pf = Some (with_pincount (pf_pincount x + 1) x)) as Hx1 by (rewrite (r_frames _ _ _ _ F1); apply lookup_insert_eq).
  destruct (pframe_dirty_ok s1 pf _ y K1 Hx1) as (s2 & Hr2 & K2 & F2);
    [cbn; by apply (w_busy _ _ _ W pf)|cbn; by rewrite (r_objs _ _ _ _ F1), Eo|done|].
  rewrite (mbind_run _ _ _ _ _ Hr2). set (x2 := with_dirty true _) in F2.
  assert (pframes s2 !! pf = Some x2) as Hx2 by (rewrite (r_frames _ _ _ _ F2); apply lookup_insert_eq).
  pose proof (f_pins _ _ _ (p_frames _ K _ _ Hx)) as Hp.
  destruct (pframe_unpin_ok s2 pf x2 K2 Hx2) as (s3 & Hr3 & K3 & F3); [cbn; lia|]. exists s3. split; [done|].
  assert (refit s s3 pf (with_dirty true x)) as F.
  { destruct F1 as [A1 A2 A3 (? & ? & ?)], F2 as [B1 B2 B3 (? & ? & ?)], F3 as [C1 C2 C3 (? & ? & ?)]. split; [|congruence|congruence|split_and!; congruence].
    rewrite C1, B1, A1, !insert_insert_eq. f_equal. unfold x2. destruct x. unfold with_pincount, with_dirty. cbn. f_equal. lia. }
  assert (owns s3 R) as W3 by (unfold owns; rewrite (refit_edges _ _ _ _ F); by apply (owned_refit s s3 _ R pf x (with_dirty true x))).
  split; [done|]. split; [by apply (refit_kinds _ _ _ _ F)|]. split; [intros; by apply (refit_shown s s3 R pf x (with_dirty true x))|].
  split; [by exists x|by apply (refit_edges s s3 pf _ F)].
Qed.

(** A lookup. *)
Lemma lookup_run s R o n w : holds_anon s R -> o ∈ R ->
  (exists pf s', MmObj.lookuppage o n w s = Ok ((0, pf), s') /\ holds_anon s' R /\ edges s' = edges s /\
    (forall o' n', page_shown s' o' n' = page_shown s o' n') /\ content s' pf (page_shown s o n) /\
    (w = true -> can_write s' o n pf)) \/
  (exists s', MmObj.lookuppage o n w s = Ok ((- ENOMEM, 0), s')).
Proof.
  intros H Ho. pose proof H as [[W Ha] Hb]. pose proof (proj1 (attached_settled s o) (Ha _ Ho)) as Hs.
  destruct (Hb _ Ho) as (x & z & Hx & Hz & Hk). destruct (settled_bottom s _ R o W Hs) as (x' & Hx' & Hbo). simplify_eq.
  destruct (lookup_ok s (edges s) R o n w _ z W Hs Hbo Hz Hk) as [(pf & s' & d & E & K & X & Hsh & Hd & _ & Hw)|(s' & t & E & _)]; [left|right; by exists s'].
  pose proof (grows_edges _ _ _ X) as Ee. assert (owns s' R) as W' by (unfold owns; rewrite Ee; by apply (grows_owned s)).
  pose proof (grows_kinds _ _ _ X) as Kd. exists pf, s'. split; [done|]. split; [by apply (holds_kinds s)|]. split; [done|].
  split; [intros; by apply (page_shown_grows s s' R)|].
  destruct (chain_exists (edges s) o (w_rank _ _ _ W)) as [l Hl].
  assert (page_shown s o n = d) as ->.
  { destruct Hd as (y & Hy & Hd). destruct (frame_page s' pf y K Hy) as (d' & Hd' & Hlen). simplify_eq.
    unfold page_shown. rewrite (shows_page s (edges s) o n d l); [by apply resize_all_alt|apply W|apply (w_rank _ _ _ W)|done| |done].
    by apply (chain_short s (edges s) R o). }
  split; [done|]. intros Hw'. split; [by apply Hw|]. apply anon_not_vnode; [by apply (anon_kinds s), Hb|by exists R].
Qed.
End Pages.

(** ** The interfaces

    Over anonymous bottom objects, with slab memory left and where the memory
    of a freed page frame stays readable (otherwise [mmo_put] of an object
    with pages is undefined). *)
Section Interfaces.
Context `{KL : KList} `{SL : Slab} `{KG : KGeometry} `{MU : !Mmu} `{PA : !PageAlloc} `{MH : !MmHeader}.
Context `{PU : !PtUnmap} `{VO : !VnodeObjs} `{ER : KErrno}.
Context (keeps : slab_keeps = true) (slab : forall m : gmap Z mmobj, is_Some (slab_pick m)).

(** The [mmap] of a special file that maps anonymous memory, as [/dev/zero]. *)
Class AnonMmap := {
  anon_mmap : Z -> Z -> M mms (Z * Z);
  anon_mmap_ok s R f v : holds_anon s R -> exists e o s', anon_mmap f v s = Ok ((e, o), s') /\
    holds_anon s' (if e <? 0 then R else o :: R);
}.
Context `{AM : !AnonMmap}.

#[refine] Definition anon_mmobjs : Mmobjs := {|
  Vmmap.ost := mms; Vmmap.mmo_ref := mmo_ref; Vmmap.mmo_put := mmo_put; Vmmap.anon_create := anon_create;
  Vmmap.shadow_create := shadow_create; Vmmap.mmobj_bottom_obj := bottom_of;
  Vmmap.set_shadowed sh o := store_mmo sh (with_shadowed o);
  Vmmap.set_bottom sh b := store_mmo sh (with_bottom b);
  Vmmap.vn_mmap := anon_mmap; Vmmap.owns := holds_anon;
|}.
Proof.
  - intros s R R' HR [[W Ha] Hb]. split; [split; [by eapply owned_perm|]|]; intros o Ho; [apply Ha|apply Hb]; by rewrite HR.
  - intros s o R [[W Ha] _]. apply (attached_nonnull s _ o W). apply Ha. by left.
  - intros s R o [H Hb] Ho. destruct (refs_ref s R o H Ho) as (s' & Hr & H' & A & _). exists s'. split; [done|]. split; [done|].
    intros p Hp. apply (anon_kinds s); [by apply adopts_kinds|]. apply elem_of_cons in Hp as [->|Hp]; by apply Hb.
  - intros s R o H. destruct (refs_put keeps s R o (proj1 H)) as (s' & Hr & H' & A). exists s'. split; [done|]. by apply (holds_shrink s s' R o).
  - intros s R H. destruct (refs_anon slab s R (proj1 H)) as (o & s' & Hr & Ho & H' & _ & A & _ & y & Hy & Hk & H0). exists o, s'.
    rewrite (proj2 (Z.eqb_neq _ _) Ho). split; [done|]. by apply (holds_new_anon s s' R o y).
  - apply anon_mmap_ok.
  - intros s R o H. destruct (refs_shadow keeps slab s R o (proj1 H)) as (sh & s1 & s' & Hr & Hsh & Hc & H' & A & b & Hbo & _ & E). exists sh, s1. split; [done|].
    rewrite (proj2 (Z.eqb_neq _ _) Hsh). exists s'. split; [exact Hc|]. apply (holds_new_shadow s s' R o sh b); try done. rewrite E. apply lookup_insert_eq.
Defined.
#[local] Existing Instance anon_mmobjs.

Lemma enomem_ltb : - ENOMEM < 0.
Proof. pose proof enomem_neg. lia. Qed.

#[refine] Definition mm_pages : @MmPages KG anon_mmobjs := {|
  VmAccess.lookuppage := MmObj.lookuppage; VmAccess.pf_data := frame_data;
  VmAccess.pf_store := pf_store; VmAccess.pframe_dirty := MmObj.pframe_dirty;
  contents := page_shown; depends := page_depends; writable s o n pf := can_write s o n pf /\ anon_bottom s o;
|}.
Proof.
  - intros s o n. apply page_shown_length.
  - intros s R o n w H Ho. destruct (lookup_run s R o n w H Ho) as [(pf & s' & Hr & H' & E & Hc & Hd & Hw)|(s' & Hr)].
    + exists 0, pf, s'. split; [done|right]. split; [done|]. split; [done|]. split; [done|].
      split; [intros p q; unfold page_depends; by rewrite E|]. split; [by apply content_data|]. intros Hw'. split; [by apply Hw|by apply H'].
    + exists (- ENOMEM), 0, s'. split; [done|left]. apply enomem_ltb.
  - intros s R o n pf off bs H [Hw Hb] Hoff Hlen.
    destruct (store_dirty_ok s R o n pf off bs (proj1 (proj1 H)) Hb Hw Hoff Hlen) as (s' & s'' & H1 & H2 & W & K & E & Hc & Ho).
    exists s', 0, s''. split; [done|]. split; [done|]. split; [by apply (holds_kinds s)|]. split; [done|]. split; [done|].
    intros p q. unfold page_depends. by rewrite E.
Defined.
#[local] Existing Instance mm_pages.

#[refine] Definition mm_frames : @FrameOps KG anon_mmobjs mm_pages := {|
  VmAccess.pf_addr s pf := match pframes s !! pf with Some x => MmObj.pf_addr x | None => 0 end;
  VmAccess.pframe_pin := MmObj.pframe_pin; VmAccess.pframe_unpin := MmObj.pframe_unpin;
|}.
Proof.
  - intros s R o n w pf s' H Ho Hr. destruct (lookup_run s R o n w H Ho) as [(q & s1 & E & H' & _ & _ & (x & Hx & Hd) & _)|(s1 & E)].
    + assert (Ok ((0, q), s1) = Ok ((0, pf), s')) as [= -> ->] by (by rewrite <- E, <- Hr). pose proof (w_inv _ _ _ (proj1 (proj1 H'))) as K. rewrite Hx.
      split; [apply (p_frames _ K _ _ Hx)|]. intros E0. rewrite E0, (p_null _ K) in Hd. done.
    + assert (Ok ((- ENOMEM, 0), s1) = Ok ((0, pf), s')) as [= E0 _ _] by (by rewrite <- E, <- Hr). pose proof enomem_ltb. lia.
  - intros s R o n pf H [Hw Hb]. destruct (pin_dirty_unpin_run s R o n pf (proj1 (proj1 H)) Hb Hw) as (s' & Hr & W & K & Hc & (x & Hx & F) & _).
    exists s'. split; [done|]. split; [by apply (holds_kinds s)|]. split; [done|].
    split; [by rewrite (r_frames _ _ _ _ F), lookup_insert_eq, Hx|]. by apply (refit_data s s' pf x (with_dirty true x)).
Defined.

(** New objects show zeros, or what is under them. *)
#[refine] Definition mm_fresh : @FreshPages KG anon_mmobjs mm_pages := {| anon_zero := _ |}.
Proof.
  - intros s Q o s' H Hr _. destruct (refs_anon slab s Q (proj1 H)) as (o' & s1 & Hr' & _ & H' & F & A & E & _).
    cbn in Hr. rewrite Hr in Hr'. injection Hr' as <- <-. destruct H as [[W _] _]. split.
    + intros Hin. destruct (w_live _ _ _ W _ Hin) as [y Hy]. congruence.
    + intros n. cbn. unfold page_shown. destruct (page_case s' (edges s') o n (size (mmobjs s')) (w_inv _ _ _ (proj1 H'))) as [(pf & Hp & _)|[_ ->]].
      * destruct (fresh_absent s (edges s) Q o n W F pf). unfold resident, on_frame in *. by rewrite <- (ad_frames _ _ A).
      * rewrite E, (owned_fresh_edge s (edges s) Q o W F). destruct (size _); apply resize_all_alt; by rewrite length_replicate.
  - intros s Q o sh s1 s' H Hr _ Hrun. destruct (refs_shadow keeps slab s Q o (proj1 H)) as (sh' & s2 & s3 & Hr' & _ & Hrun' & H' & A & b & Hbo & F & E).
    cbn in Hr, Hrun. rewrite Hr in Hr'. injection Hr' as <- <-. rewrite Hrun in Hrun'. injection Hrun' as <-. destruct H as [[W Ha] _]. split.
    + intros Hin. destruct (w_live _ _ _ W _ Hin) as [y Hy]. congruence.
    + intros n. cbn. destruct (chain_exists (edges s) o (w_rank _ _ _ W)) as [l Hl].
      assert (chain (edges s') o l) as Hl'.
      { apply (chain_weaken s (edges s)); [intros p x y Hp; apply (w_edges _ _ _ W _ _ _ Hp)|by apply attached_settled, Ha; left|done|].
        intros p [y Hy]. rewrite E, lookup_insert_ne by congruence. done. }
      assert (edges s' !! sh = Some (o, b)) as Es by (rewrite E; apply lookup_insert_eq).
      rewrite (page_shown_fuel s' _ sh n (sh :: l) (S (length l)) (proj1 H')); [|by eapply chain_shadow|cbn; lia].
      destruct (page_case s' (edges s') sh n (S (length l)) (w_inv _ _ _ (proj1 H'))) as [(pf & Hp & _)|[_ ->]].
      { destruct (fresh_absent s (edges s) _ sh n W F pf). unfold resident, on_frame in *. by rewrite <- (ad_frames _ _ A). }
      rewrite Es, <- (page_shown_fuel s' _ o n l (length l) (proj1 H') Hl'); [|lia].
      apply (page_shown_same s s' _ _ o n l W (proj1 H') Hl Hl').
      * intros p pf _. unfold resident, on_frame. by rewrite (ad_frames _ _ A).
      * intros p pf _ _. unfold frame_data. by rewrite (ad_frames _ _ A), (ad_mem _ _ A).
Defined.
End Interfaces.
