(* ===== verification/Sched.v ===== *)
(** * proc/sched.c, sched_helper.c and kmutex.c: queues, the scheduler, mutexes

    The kernel runs one thread at a time, [curthr]; a thread gives up the
    processor only in [sched_switch], called when it goes to sleep or exits.
    A blocking call is therefore modelled in two parts: up to the context
    switch, which saves a continuation ([kcont]: which function is waiting)
    in the context of the thread, and [resume], the code that runs when the
    thread is switched to again.  The step relation [kstep] interleaves the
    calls of the threads in this way. *)
From stdpp Require Import base countable gmap fin_maps list.
From Stdlib Require Import ZArith Lia.
From S2P Require Import Prelude KEnv.
Open Scope Z_scope.
Open Scope c_scope.

(** ** State *)

(** The addresses of the queues: the run queue, the wait queue of a mutex,
    the [p_wait] queue of a process, and any other queue. *)
Inductive qid := RunQ | MutexQ (m : Z) | ProcQ (p : Z) | OtherQ (a : Z).
#[export] Instance qid_eq_dec : EqDecision qid.
Proof. solve_decision. Defined.
#[export] Instance qid_countable : Countable qid.
Proof.
  apply (inj_countable'
    (fun q => match q with RunQ => (0, 0) | MutexQ m => (1, m) | ProcQ p => (2, p) | OtherQ a => (3, a) end)
    (fun '(k, a) => if k =? 0 then RunQ else if k =? 1 then MutexQ a else if k =? 2 then ProcQ a else OtherQ a)).
  by intros [].
Defined.

Inductive kt_state_t := KT_NO_STATE | KT_RUN | KT_SLEEP | KT_SLEEP_CANCELLABLE | KT_EXITED.
#[export] Instance kt_state_eq_dec : EqDecision kt_state_t.
Proof. solve_decision. Defined.

(** What a thread does when it is switched to. *)
Inductive kcont :=
| CStart                      (** a new thread: its first instruction *)
| CSleep                      (** return from [sched_sleep_on] *)
| CSleepCancellable           (** the rest of [sched_cancellable_sleep_on] *)
| CLock (m : Z)               (** the rest of [kmutex_lock] *)
| CLockCancellable (m : Z)    (** the rest of [kmutex_lock_cancellable] *)
| CWaitpid (pid status : Z)   (** [goto findpid] in [do_waitpid] *)
| CDead.                      (** an exited thread: never switched to *)

Record kthread := mkThread {
  kt_state : kt_state_t;
  kt_wchan : option qid;
  (** [kt_qlink.l_next && kt_qlink.l_prev] *)
  kt_qlink : bool;
  kt_cancelled : bool;
  kt_retval : Z;
  kt_proc : Z;
  kt_kstack : Z;
  (** the saved IPL and continuation *)
  kt_ctx : Z * kcont
}.

Record ktqueue `{KList} := mkQueue { tq_list : klist; tq_size : Z }.

(** What util/list.h does to a link: inserting it makes both its pointers
    non-NULL, removing it sets them to NULL. *)
Class KLink := {
  link_initialised : bool;
  link_inserted : bool;
  link_removed : bool;
  link_inserted_true : link_inserted = true;
  link_removed_false : link_removed = false;
}.

(** Interrupt priority levels, and what happens while the processor waits for
    an interrupt: [intr_wait t] are the queues the interrupt handlers wake,
    [t] counting the waits. *)
Class KIntr := {
  IPL_LOW : Z; IPL_HIGH : Z;
  intr_wait : nat -> list qid;
}.

Record ks `{KList} := mkKs {
  threads : gmap Z kthread;
  queues : gmap qid ktqueue;
  (** [km_holder] of each mutex *)
  mutexes : gmap Z Z;
  curthr : Z;
  curproc : Z;
  ipl : Z;
  (** the current thread still has to run its continuation *)
  switched : bool;
  waits : nat
}.

Section Sched.
Context `{KL : KList} `{LK : KLink} `{IN : KIntr} `{ER : KErrno}.

Definition upd_threads (f : gmap Z kthread -> gmap Z kthread) (s : ks) : ks :=
  mkKs _ (f (threads s)) (queues s) (mutexes s) (curthr s) (curproc s) (ipl s) (switched s) (waits s).
Definition upd_queues (f : gmap qid ktqueue -> gmap qid ktqueue) (s : ks) : ks :=
  mkKs _ (threads s) (f (queues s)) (mutexes s) (curthr s) (curproc s) (ipl s) (switched s) (waits s).
Definition upd_mutexes (f : gmap Z Z -> gmap Z Z) (s : ks) : ks :=
  mkKs _ (threads s) (queues s) (f (mutexes s)) (curthr s) (curproc s) (ipl s) (switched s) (waits s).
Definition set_ipl (i : Z) (s : ks) : ks :=
  mkKs _ (threads s) (queues s) (mutexes s) (curthr s) (curproc s) i (switched s) (waits s).
Definition set_cur (t p : Z) (b : bool) (s : ks) : ks :=
  mkKs _ (threads s) (queues s) (mutexes s) t p (ipl s) b (waits s).
Definition count_wait (s : ks) : ks :=
  mkKs _ (threads s) (queues s) (mutexes s) (curthr s) (curproc s) (ipl s) (switched s) (S (waits s)).

Definition load_thr (t : Z) : M ks kthread := fun s => mthe (threads s !! t) s.
Definition store_thr (t : Z) (f : kthread -> kthread) : M ks unit :=
  let! x := load_thr t in mput (upd_threads (<[t := f x]>)).
Definition load_q (q : qid) : M ks ktqueue := fun s => mthe (queues s !! q) s.
Definition load_mutex (m : Z) : M ks Z := fun s => mthe (mutexes s !! m) s.
Definition store_mutex (m h : Z) : M ks unit :=
  let! _ := load_mutex m in mput (upd_mutexes (<[m := h]>)).

Definition with_state (x : kt_state_t) (t : kthread) : kthread :=
  mkThread x (kt_wchan t) (kt_qlink t) (kt_cancelled t) (kt_retval t) (kt_proc t) (kt_kstack t) (kt_ctx t).
Definition with_wchan (x : option qid) (l : bool) (t : kthread) : kthread :=
  mkThread (kt_state t) x l (kt_cancelled t) (kt_retval t) (kt_proc t) (kt_kstack t) (kt_ctx t).
Definition with_cancelled (t : kthread) : kthread :=
  mkThread (kt_state t) (kt_wchan t) (kt_qlink t) true (kt_retval t) (kt_proc t) (kt_kstack t) (kt_ctx t).
Definition with_retval (x : Z) (t : kthread) : kthread :=
  mkThread (kt_state t) (kt_wchan t) (kt_qlink t) (kt_cancelled t) x (kt_proc t) (kt_kstack t) (kt_ctx t).
Definition with_ctx (x : Z * kcont) (t : kthread) : kthread :=
  mkThread (kt_state t) (kt_wchan t) (kt_qlink t) (kt_cancelled t) (kt_retval t) (kt_proc t) (kt_kstack t) x.

(** ** Queues *)
Definition ktqueue_enqueue (q : qid) (t : Z) : M ks unit :=
  let! x := load_thr t in
  KASSERT (bool_decide (kt_wchan x = None)) ;;;
  let! y := load_q q in
  store_thr t (with_wchan (Some q) link_inserted) ;;;
  mput (upd_queues (<[q := mkQueue _ (list_insert_head t (tq_list y)) (tq_size y + 1)]>)).

(** The result is 0 (NULL) for an empty queue. *)
Definition ktqueue_dequeue (q : qid) : M ks Z :=
  let! y := load_q q in
  match last (list_items (tq_list y)) with
  | None => mret_ 0
  | Some t =>
      store_thr t (with_wchan None link_removed) ;;;
      mput (upd_queues (<[q := mkQueue _ (list_remove t (tq_list y)) (tq_size y - 1)]>)) ;;;
      mret_ t
  end.

Definition ktqueue_remove (q : option qid) (t : Z) : M ks unit :=
  let! x := load_thr t in
  KASSERT (kt_qlink x) ;;;
  let! q := mthe q in
  let! y := load_q q in
  store_thr t (with_wchan None link_removed) ;;;
  mput (upd_queues (<[q := mkQueue _ (list_remove t (tq_list y)) (tq_size y - 1)]>)).

Definition sched_queue_init (q : qid) : M ks unit :=
  mput (upd_queues (<[q := mkQueue _ list_empty_head 0]>)).
Definition sched_queue_empty (q : qid) : M ks bool :=
  let! y := load_q q in mret_ (bool_decide (list_items (tq_list y) = [])).

Definition sched_make_runnable (t : Z) : M ks unit :=
  KASSERT (negb (t =? 0)) ;;;
  let! x := load_thr t in
  KASSERT (bool_decide (kt_wchan x <> Some RunQ)) ;;;
  let! oldIPL := mget ipl in
  mput (set_ipl IPL_HIGH) ;;;
  ktqueue_enqueue RunQ t ;;;
  mput (set_ipl oldIPL).

(** ** Waking up *)
(** A queue argument is never NULL in the model. *)
Definition sched_wakeup_on (q : qid) : M ks Z :=
  let! e := sched_queue_empty q in
  KASSERT (negb e) ;;;
  let! t := ktqueue_dequeue q in
  let! x := load_thr t in
  KASSERT (bool_decide (kt_state x = KT_SLEEP) || bool_decide (kt_state x = KT_SLEEP_CANCELLABLE)) ;;;
  store_thr t (with_state KT_RUN) ;;;
  sched_make_runnable t ;;;
  mret_ t.

(** Every iteration takes a thread off the queue, so the length of the queue
    bounds the loop. *)
Fixpoint broadcast_loop (fuel : nat) (q : qid) : M ks unit :=
  match fuel with
  | O => mfail FFuel
  | S fuel =>
      let! e := sched_queue_empty q in
      if e then mret_ tt
      else let! _ := sched_wakeup_on q in broadcast_loop fuel q
  end.
Definition sched_broadcast_on (q : qid) : M ks unit :=
  let! y := load_q q in broadcast_loop (S (length (list_items (tq_list y)))) q.

(** ** The context switch *)
(** Waiting for an interrupt: the handlers wake the queues they serve. *)
Fixpoint wake_all (qs : list qid) : M ks unit :=
  match qs with
  | [] => mret_ tt
  | q :: r => sched_broadcast_on q ;;; wake_all r
  end.
Fixpoint idle_loop (fuel : nat) : M ks unit :=
  match fuel with
  | O => mfail FFuel
  | S fuel =>
      let! e := sched_queue_empty RunQ in
      if e then
        mput (set_ipl IPL_LOW) ;;;
        let! n := mget waits in
        wake_all (intr_wait n) ;;;
        mput count_wait ;;;
        mput (set_ipl IPL_HIGH) ;;;
        idle_loop fuel
      else mret_ tt
  end.

(** [fuel] bounds the number of interrupts waited for.  The current thread
    saves its IPL and continuation [c]; the next one is switched to. *)
Definition sched_switch (fuel : nat) (c : kcont) : M ks unit :=
  let! oldIPL := mget ipl in
  mput (set_ipl IPL_HIGH) ;;;
  idle_loop fuel ;;;
  let! oldThread := mget curthr in
  let! t := ktqueue_dequeue RunQ in
  let! x := load_thr t in
  store_thr oldThread (with_ctx (oldIPL, c)) ;;;
  mput (set_cur t (kt_proc x) true).

(** ** Sleeping *)
(** The result of a call: it returned, the thread is waiting, or the caller
    starts over ([goto findpid]). *)
Inductive kres := Returned (v : Z) | Blocked | Again (pid status : Z).

Definition sched_sleep_on_ (fuel : nat) (q : qid) (c : kcont) : M ks kres :=
  let! cur := mget curthr in
  store_thr cur (with_state KT_SLEEP) ;;;
  ktqueue_enqueue q cur ;;;
  store_thr cur (fun x => with_wchan (Some q) (kt_qlink x) x) ;;;
  sched_switch fuel c ;;;
  mret_ Blocked.
Definition sched_sleep_on (fuel : nat) (q : qid) : M ks kres := sched_sleep_on_ fuel q CSleep.

Definition sched_cancellable_sleep_on_ (fuel : nat) (q : qid) (c : kcont) : M ks kres :=
  let! cur := mget curthr in
  let! x := load_thr cur in
  if kt_cancelled x then mret_ (Returned (- EINTR))
  else
    store_thr cur (with_state KT_SLEEP_CANCELLABLE) ;;;
    ktqueue_enqueue q cur ;;;
    sched_switch fuel c ;;;
    mret_ Blocked.
Definition sched_cancellable_sleep_on (fuel : nat) (q : qid) : M ks kres :=
  sched_cancellable_sleep_on_ fuel q CSleepCancellable.
(** The end of [sched_cancellable_sleep_on], after the switch back. *)
Definition cancellable_wakeup : M ks Z :=
  let! cur := mget curthr in
  let! x := load_thr cur in
  mret_ (if kt_cancelled x then - EINTR else 0).

Definition sched_cancel (t : Z) : M ks unit :=
  KASSERT (negb (t =? 0)) ;;;
  store_thr t with_cancelled ;;;
  let! x := load_thr t in
  if decide (kt_state x = KT_SLEEP_CANCELLABLE) then
    ktqueue_remove (kt_wchan x) t ;;;
    sched_make_runnable t
  else mret_ tt.

(** ** Mutexes *)
Definition kmutex_init (m : Z) : M ks unit :=
  KASSERT (negb (m =? 0)) ;;;
  sched_queue_init (MutexQ m) ;;;
  mput (upd_mutexes (<[m := 0]>)).

Definition kmutex_lock (fuel : nat) (m : Z) : M ks kres :=
  KASSERT (negb (m =? 0)) ;;;
  let! cur := mget curthr in
  let! h := load_mutex m in
  KASSERT (negb (cur =? 0) && negb (cur =? h)) ;;;
  if h =? 0 then store_mutex m cur ;;; mret_ (Returned 0)
  else sched_sleep_on_ fuel (MutexQ m) (CLock m).

Definition kmutex_unlock (m : Z) : M ks unit :=
  KASSERT (negb (m =? 0)) ;;;
  let! cur := mget curthr in
  let! h := load_mutex m in
  KASSERT (negb (cur =? 0) && (cur =? h)) ;;;
  store_mutex m 0 ;;;
  let! e := sched_queue_empty (MutexQ m) in
  (if e then mret_ tt
   else let! nextThread := sched_wakeup_on (MutexQ m) in store_mutex m nextThread) ;;;
  let! h' := load_mutex m in
  KASSERT (negb (cur =? h')).

(** What follows the sleep in [kmutex_lock_cancellable]. *)
Definition lock_cancellable_wakeup (m code : Z) : M ks Z :=
  if code =? - EINTR then
    let! cur := mget curthr in
    let! h := load_mutex m in
    (if h =? cur then kmutex_unlock m else mret_ tt) ;;;
    mret_ code
  else mret_ 0.
Definition kmutex_lock_cancellable (fuel : nat) (m : Z) : M ks kres :=
  KASSERT (negb (m =? 0)) ;;;
  let! cur := mget curthr in
  let! h := load_mutex m in
  KASSERT (negb (cur =? 0) && negb (cur =? h)) ;;;
  let! x := load_thr cur in
  if kt_cancelled x then mret_ (Returned (- EINTR))
  else if h =? 0 then store_mutex m cur ;;; mret_ (Returned 0)
  else
    let! r := sched_cancellable_sleep_on_ fuel (MutexQ m) (CLockCancellable m) in
    match r with
    | Blocked | Again _ _ => mret_ r
    | Returned code => let! v := lock_cancellable_wakeup m code in mret_ (Returned v)
    end.

(** ** Coming back from a context switch *)
Definition resume : M ks kres :=
  let! cur := mget curthr in
  let! x := load_thr cur in
  mput (set_ipl (fst (kt_ctx x))) ;;;
  let! p := mget curproc in
  mput (set_cur cur p false) ;;;
  match snd (kt_ctx x) with
  | CStart | CSleep => mret_ (Returned 0)
  | CSleepCancellable => let! v := cancellable_wakeup in mret_ (Returned v)
  | CLock m => mret_ (Returned 0)
  | CLockCancellable m =>
      let! code := cancellable_wakeup in
      let! v := lock_cancellable_wakeup m code in
      mret_ (Returned v)
  | CWaitpid pid status => mret_ (Again pid status)
  | CDead => mfail FUndef
  end.
End Sched.

(** ** Queues and threads agree *)
Section Queues.
Context `{KL : KList} `{LK : KLink} `{IN : KIntr} `{ER : KErrno}.
Implicit Types s : ks.

Definition items s (q : qid) : list Z :=
  from_option (fun y => list_items (tq_list y)) [] (queues s !! q).

(** A thread is on a queue exactly when [kt_wchan] says so, at most once, and
    [tq_size] counts the threads. *)
Record qok s : Prop := {
  q_nodup : forall q, NoDup (items s q);
  q_size : forall q y, queues s !! q = Some y -> tq_size y = Z.of_nat (length (items s q));
  q_wchan : forall q t, t ∈ items s q <-> exists x, threads s !! t = Some x /\ kt_wchan x = Some q;
  q_linked : forall t x q, threads s !! t = Some x -> kt_wchan x = Some q ->
    is_Some (queues s !! q) /\ kt_qlink x = true;
}.

(** [s'] is [s] with another record for thread [t] (and other queue
    contents). *)
Record step_thr s s' (t : Z) (x' : kthread) : Prop := {
  st_threads : threads s' = <[t := x']> (threads s);
  st_mutexes : mutexes s' = mutexes s;
  st_curthr : curthr s' = curthr s;
  st_curproc : curproc s' = curproc s;
  st_ipl : ipl s' = ipl s;
  st_switched : switched s' = switched s;
  st_queues : forall q, is_Some (queues s' !! q) <-> is_Some (queues s !! q);
}.

Lemma step_thr_trans s s' s'' t x x' :
  step_thr s s' t x -> step_thr s' s'' t x' -> step_thr s s'' t x'.
Proof.
  intros [] []. split; try congruence.
  - rewrite st_threads1, st_threads0. by rewrite insert_insert_eq.
  - intros q. by rewrite st_queues1.
Qed.

Lemma load_thr_run s t x : threads s !! t = Some x -> load_thr t s = Ok (x, s).
Proof. unfold load_thr. by intros ->. Qed.
Lemma store_thr_run s t f x :
  threads s !! t = Some x -> store_thr t f s = Ok (tt, upd_threads (<[t := f x]>) s).
Proof. intros H. unfold store_thr. by rewrite (mbind_run _ _ _ _ _ (load_thr_run _ _ _ H)). Qed.
Lemma load_q_run s q y : queues s !! q = Some y -> load_q q s = Ok (y, s).
Proof. unfold load_q. by intros ->. Qed.
Lemma KASSERT_ok {S} (b : bool) (s : S) : b = true -> KASSERT b s = Ok (tt, s).
Proof. by intros ->. Qed.

Lemma items_lookup s q y : queues s !! q = Some y -> items s q = list_items (tq_list y).
Proof. unfold items. by intros ->. Qed.

(** Storing a record that does not change the wait channel keeps the
    agreement. *)
Lemma qok_store s t x x' :
  qok s -> threads s !! t = Some x -> kt_wchan x' = kt_wchan x -> kt_qlink x' = kt_qlink x ->
  qok (upd_threads (<[t := x']>) s).
Proof.
  intros [H1 H2 H3 H4] Ht Ew El. split; [done|done| |].
  - intros q u. rewrite (H3 q u). cbn. destruct (decide (u = t)) as [->|Hne].
    + rewrite lookup_insert_eq, Ht. naive_solver congruence.
    + by rewrite lookup_insert_ne.
  - intros u y q. cbn. destruct (decide (u = t)) as [->|Hne].
    + rewrite lookup_insert_eq. intros [= <-]. rewrite Ew, El. intros Hq. by apply (H4 t x).
    + rewrite lookup_insert_ne by done. by apply H4.
Qed.

Lemma enqueue_rel s q t x :
  qok s -> threads s !! t = Some x -> kt_wchan x = None -> is_Some (queues s !! q) ->
  exists s', ktqueue_enqueue q t s = Ok (tt, s') /\ step_thr s s' t (with_wchan (Some q) true x) /\
    qok s' /\ items s' q = t :: items s q /\ forall q', q' <> q -> items s' q' = items s q'.
Proof.
  intros [H1 H2 H3 H4] Ht Hw [y Hy]. unfold ktqueue_enqueue.
  rewrite (mbind_run _ _ _ _ _ (load_thr_run _ _ _ Ht)), (bool_decide_eq_true_2 _ Hw).
  rewrite (mbind_run _ _ _ tt s eq_refl), (mbind_run _ _ _ _ _ (load_q_run _ _ _ Hy)).
  rewrite (mbind_run _ _ _ _ _ (store_thr_run _ _ _ _ Ht)), link_inserted_true.
  eexists. split; [reflexivity|].
  assert (t ∉ items s q) as Hni by (rewrite H3; intros (x0 & ? & ?); congruence).
  set (y' := mkQueue _ _ _).
  assert (forall q', items (upd_queues (<[q := y']>) (upd_threads (<[t := with_wchan (Some q) true x]>) s)) q' =
    if decide (q' = q) then t :: items s q else items s q') as Hit.
  { intros q'. unfold items. cbn. case_decide as Hq; [subst q'; rewrite lookup_insert_eq | by rewrite lookup_insert_ne by done].
    cbn. rewrite Hy. cbn. rewrite items_insert_head; [done|]. by rewrite <- (items_lookup _ _ _ Hy). }
  split; [|split; [split|]].
  - split; try done. cbn. intros q'. destruct (decide (q' = q)) as [->|]; [rewrite lookup_insert_eq, Hy; split; eauto | by rewrite lookup_insert_ne].
  - intros q'. rewrite Hit. case_decide; [constructor; [done|apply H1] | apply H1].
  - intros q' z. rewrite Hit. cbn. case_decide as Hq.
    + subst q'. rewrite lookup_insert_eq. intros [= <-]. cbn. rewrite (H2 _ _ Hy). cbn [length]. lia.
    + rewrite lookup_insert_ne by done. apply H2.
  - intros q' u. rewrite Hit. cbn. destruct (decide (u = t)) as [->|Hu].
    + rewrite lookup_insert_eq. case_decide as Hq; [subst; split; [by eexists|by left]|].
      rewrite H3. split; [intros (x0 & ? & ?); congruence | intros (x0 & [= <-] & [= ?]); congruence].
    + rewrite lookup_insert_ne by done. case_decide as Hq; [subst q'; rewrite elem_of_cons, <- H3; naive_solver | apply H3].
  - intros u z q' Hz Hwz. cbn in Hz |- *.
    assert (is_Some (queues s !! q') /\ kt_qlink z = true \/ q' = q /\ kt_qlink z = true) as Hz'.
    { destruct (decide (u = t)) as [->|Hu]; [rewrite lookup_insert_eq in Hz; simplify_eq/=; by right|].
      rewrite lookup_insert_ne in Hz by done. left. by eapply H4. }
    destruct (decide (q' = q)) as [->|]; [rewrite lookup_insert_eq; naive_solver | rewrite lookup_insert_ne by done; naive_solver].
  - split; [by rewrite Hit, decide_True|]. intros q' Hne. by rewrite Hit, decide_False.
Qed.

(** Taking a thread off its queue: the common part of [ktqueue_dequeue] and
    [ktqueue_remove]. *)
Definition unlinked s (q : qid) (t : Z) (x : kthread) (y : ktqueue) : ks :=
  upd_queues (<[q := mkQueue _ (list_remove t (tq_list y)) (tq_size y - 1)]>)
    (upd_threads (<[t := with_wchan None false x]>) s).

Lemma unlinked_rel s q t x y l1 l2 :
  qok s -> threads s !! t = Some x -> queues s !! q = Some y -> items s q = l1 ++ t :: l2 ->
  let s' := unlinked s q t x y in
  step_thr s s' t (with_wchan None false x) /\ qok s' /\ items s' q = l1 ++ l2 /\
  forall q', q' <> q -> items s' q' = items s q'.
Proof.
  intros [H1 H2 H3 H4] Ht Hy Hi s'. pose proof (H1 q) as Hnd. rewrite Hi in Hnd.
  destruct (NoDup_app_cons_notin _ _ _ Hnd) as [Hn1 Hn2].
  assert (forall q', items s' q' = if decide (q' = q) then l1 ++ l2 else items s q') as Hit.
  { intros q'. unfold s', unlinked, items. cbn. case_decide as Hq; [subst q'; rewrite lookup_insert_eq | by rewrite lookup_insert_ne by done].
    cbn. apply items_remove; [by rewrite <- (items_lookup _ _ _ Hy) | set_solver]. }
  split; [|split; [split|]].
  - split; try done. cbn. intros q'. destruct (decide (q' = q)) as [->|]; [rewrite lookup_insert_eq, Hy; split; eauto | by rewrite lookup_insert_ne].
  - intros q'. rewrite Hit. case_decide; [by apply NoDup_app_cons_del in Hnd | apply H1].
  - intros q' z. rewrite Hit. cbn. case_decide as Hq.
    + subst q'. rewrite lookup_insert_eq. intros [= <-]. cbn. rewrite (H2 _ _ Hy), Hi, !length_app. cbn [length]. lia.
    + rewrite lookup_insert_ne by done. apply H2.
  - intros q' u. rewrite Hit. cbn. destruct (decide (u = t)) as [->|Hu].
    + rewrite lookup_insert_eq. split; [|naive_solver]. case_decide as Hq; [set_solver|].
      rewrite H3. intros (x0 & Hx0 & Hw0). rewrite Ht in Hx0. simplify_eq.
      destruct (proj1 (H3 q t)) as (x1 & ? & ?); [rewrite Hi; set_solver|]. congruence.
    + rewrite lookup_insert_ne by done. rewrite <- H3. case_decide as Hq; [subst q'; rewrite Hi; set_solver | done].
  - intros u z q' Hz Hwz. cbn in Hz |- *.
    destruct (decide (u = t)) as [->|Hu]; [rewrite lookup_insert_eq in Hz; by simplify_eq/=|].
    rewrite lookup_insert_ne in Hz by done. destruct (H4 u z q' Hz Hwz) as [Hq' Hl].
    destruct (decide (q' = q)) as [->|]; [rewrite lookup_insert_eq; eauto | by rewrite lookup_insert_ne].
  - split; [by rewrite Hit, decide_True|]. intros q' Hne. by rewrite Hit, decide_False.
Qed.

Lemma dequeue_rel s q t l x :
  qok s -> items s q = l ++ [t] -> threads s !! t = Some x ->
  exists s', ktqueue_dequeue q s = Ok (t, s') /\ step_thr s s' t (with_wchan None false x) /\ qok s' /\
    items s' q = l /\ forall q', q' <> q -> items s' q' = items s q'.
Proof.
  intros Hq Hi Ht. destruct (queues s !! q) as [y|] eqn:Hy; [|unfold items in Hi; rewrite Hy in Hi; by destruct l].
  destruct (unlinked_rel s q t x y l [] Hq Ht Hy Hi) as (H1 & H2 & H3 & H4). rewrite app_nil_r in H3.
  exists (unlinked s q t x y). split; [|by auto]. unfold ktqueue_dequeue.
  rewrite (mbind_run _ _ _ _ _ (load_q_run _ _ _ Hy)), <- (items_lookup _ _ _ Hy), Hi, last_snoc.
  rewrite (mbind_run _ _ _ _ _ (store_thr_run _ _ _ _ Ht)), link_removed_false. done.
Qed.
Lemma dequeue_empty s q : is_Some (queues s !! q) -> items s q = [] -> ktqueue_dequeue q s = Ok (0, s).
Proof.
  intros [y Hy] Hi. unfold ktqueue_dequeue.
  by rewrite (mbind_run _ _ _ _ _ (load_q_run _ _ _ Hy)), <- (items_lookup _ _ _ Hy), Hi.
Qed.

Lemma remove_rel s q t x :
  qok s -> threads s !! t = Some x -> kt_wchan x = Some q ->
  exists s' l1 l2, ktqueue_remove (Some q) t s = Ok (tt, s') /\ step_thr s s' t (with_wchan None false x) /\ qok s' /\
    items s q = l1 ++ t :: l2 /\ items s' q = l1 ++ l2 /\ forall q', q' <> q -> items s' q' = items s q'.
Proof.
  intros Hq Ht Hw. destruct (q_linked _ Hq _ _ _ Ht Hw) as [[y Hy] Hl].
  destruct (list_elem_of_split (items s q) t) as (l1 & l2 & Hi); [apply Hq; eauto|].
  destruct (unlinked_rel s q t x y l1 l2 Hq Ht Hy Hi) as (H1 & H2 & H3 & H4).
  exists (unlinked s q t x y), l1, l2. split; [|by auto 7]. unfold ktqueue_remove.
  rewrite (mbind_run _ _ _ _ _ (load_thr_run _ _ _ Ht)), Hl, (mbind_run _ _ _ tt s eq_refl).
  rewrite (mbind_run _ _ _ q s eq_refl), (mbind_run _ _ _ _ _ (load_q_run _ _ _ Hy)).
  by rewrite (mbind_run _ _ _ _ _ (store_thr_run _ _ _ _ Ht)), link_removed_false.
Qed.

Lemma queue_empty_run s q : is_Some (queues s !! q) ->
  sched_queue_empty q s = Ok (bool_decide (items s q = []), s).
Proof.
  intros [y Hy]. unfold sched_queue_empty. by rewrite (mbind_run _ _ _ _ _ (load_q_run _ _ _ Hy)), (items_lookup _ _ _ Hy).
Qed.

Lemma step_thr_store s t x' : step_thr s (upd_threads (<[t := x']>) s) t x'.
Proof. by split. Qed.

(** Agreement and contents do not depend on the interrupt level. *)
Lemma qok_frame s s' : threads s' = threads s -> queues s' = queues s -> qok s -> qok s'.
Proof.
  intros Et Eq [H1 H2 H3 H4]. assert (forall q, items s' q = items s q) as Ei by (intros; unfold items; by rewrite Eq).
  split; try setoid_rewrite Ei; rewrite ?Et, ?Eq; done.
Qed.

Lemma make_runnable_rel s t x :
  qok s -> is_Some (queues s !! RunQ) -> t <> 0 -> threads s !! t = Some x -> kt_wchan x = None ->
  exists s', sched_make_runnable t s = Ok (tt, s') /\ step_thr s s' t (with_wchan (Some RunQ) true x) /\ qok s' /\
    items s' RunQ = t :: items s RunQ /\ forall q', q' <> RunQ -> items s' q' = items s q'.
Proof.
  intros Hq HR H0 Ht Hw. unfold sched_make_runnable.
  rewrite (proj2 (Z.eqb_neq _ _) H0), (mbind_run _ _ _ tt s eq_refl), (mbind_run _ _ _ _ _ (load_thr_run _ _ _ Ht)).
  rewrite bool_decide_eq_true_2 by congruence. rewrite (mbind_run _ _ _ tt s eq_refl).
  unfold mget. unfold mbind_ at 1. unfold mput at 1. unfold mbind_ at 1.
  destruct (enqueue_rel (set_ipl IPL_HIGH s) RunQ t x) as (s1 & E & [] & H1 & H2 & H3); [by apply (qok_frame s)|done..|].
  rewrite (mbind_run _ _ _ _ _ E). eexists. split; [reflexivity|].
  split; [by split|]. split; [by apply (qok_frame s1)|]. done.
Qed.

(** Waking the oldest thread of a queue. *)
Definition woken (x : kthread) : kthread := with_wchan (Some RunQ) true (with_state KT_RUN x).
Definition asleep (x : kthread) : Prop := kt_state x = KT_SLEEP \/ kt_state x = KT_SLEEP_CANCELLABLE.

Lemma wakeup_rel s q t x l :
  qok s -> is_Some (queues s !! RunQ) -> q <> RunQ -> items s q = l ++ [t] -> t <> 0 ->
  threads s !! t = Some x -> asleep x ->
  exists s', sched_wakeup_on q s = Ok (t, s') /\ step_thr s s' t (woken x) /\ qok s' /\
    items s' q = l /\ items s' RunQ = t :: items s RunQ /\
    forall q', q' <> RunQ -> q' <> q -> items s' q' = items s q'.
Proof.
  intros Hq HR Hne Hi H0 Ht Ha. unfold sched_wakeup_on.
  assert (is_Some (queues s !! q)) as Hs.
  { destruct (queues s !! q) eqn:Hy; [eauto|]. unfold items in Hi. rewrite Hy in Hi. by destruct l. }
  rewrite (mbind_run _ _ _ _ _ (queue_empty_run _ _ Hs)), bool_decide_eq_false_2 by (rewrite Hi; by destruct l).
  rewrite (mbind_run _ _ _ tt s eq_refl).
  destruct (dequeue_rel s q t l x) as (s1 & E1 & T1 & Q1 & I1 & J1); [done..|]. rewrite (mbind_run _ _ _ _ _ E1).
  assert (threads s1 !! t = Some (with_wchan None false x)) as Ht1 by (rewrite (st_threads _ _ _ _ T1); apply lookup_insert_eq).
  rewrite (mbind_run _ _ _ _ _ (load_thr_run _ _ _ Ht1)).
  rewrite (mbind_run _ _ _ tt s1). 2:{ apply KASSERT_ok. destruct Ha as [Ha|Ha]; cbn; rewrite Ha; done. }
  rewrite (mbind_run _ _ _ _ _ (store_thr_run _ _ _ _ Ht1)).
  set (x2 := with_state KT_RUN _). set (s2 := upd_threads _ s1).
  assert (qok s2) as Q2 by (by eapply qok_store).
  destruct (make_runnable_rel s2 t x2) as (s3 & E3 & T3 & Q3 & I3 & J3); [done| |done| |done|].
  { cbn. by apply (st_queues _ _ _ _ T1). } { apply lookup_insert_eq. }
  rewrite (mbind_run _ _ _ _ _ E3). exists s3. split; [done|]. split.
  { eapply step_thr_trans; [exact T1|]. eapply step_thr_trans; [apply step_thr_store|exact T3]. }
  split; [done|]. rewrite J3 by done. split; [done|]. split; [rewrite I3; f_equal; by apply J1|].
  intros q' HnR Hnq. rewrite J3 by done. by apply J1.
Qed.

(** ** A queue is a FIFO *)
Inductive qop := QEnq (t : Z) | QDeq.
Fixpoint run_qops (q : qid) (ops : list qop) : M ks (list Z) :=
  match ops with
  | [] => mret_ []
  | QEnq t :: r => ktqueue_enqueue q t ;;; run_qops q r
  | QDeq :: r => let! t := ktqueue_dequeue q in let! ts := run_qops q r in mret_ (t :: ts)
  end.
(** The specification: what comes out (0 for an empty queue), and what is
    left, oldest first; a thread on the queue is not enqueued again. *)
Fixpoint fifo_run (l : list Z) (ops : list qop) : option (list Z * list Z) :=
  match ops with
  | [] => Some ([], l)
  | QEnq t :: r => if decide (t ∈ l) then None else fifo_run (l ++ [t]) r
  | QDeq :: r => out ← fifo_run (tail l) r; Some (default 0 (head l) :: out.1, out.2)
  end.
Definition enqueues (ops : list qop) : list Z :=
  omap (fun o => match o with QEnq t => Some t | QDeq => None end) ops.

(** The thread may be put on [q]: it is on no queue, or on [q]. *)
Definition on_or_free s (q : qid) (t : Z) : Prop :=
  exists x, threads s !! t = Some x /\ (kt_wchan x = None \/ kt_wchan x = Some q).
Lemma on_or_free_step s s' q t x' u :
  step_thr s s' t x' -> kt_wchan x' = None \/ kt_wchan x' = Some q -> on_or_free s q u -> on_or_free s' q u.
Proof.
  intros T Hw (x & Hu & Hx). unfold on_or_free. rewrite (st_threads _ _ _ _ T).
  destruct (decide (u = t)) as [->|]; [rewrite lookup_insert_eq; eauto | rewrite lookup_insert_ne; eauto].
Qed.

Lemma qops_run q ops : forall s out l,
  qok s -> is_Some (queues s !! q) -> (forall t, t ∈ enqueues ops -> on_or_free s q t) ->
  fifo_run (rev (items s q)) ops = Some (out, l) ->
  exists s', run_qops q ops s = Ok (out, s') /\ qok s' /\ rev (items s' q) = l /\
    forall q', q' <> q -> items s' q' = items s q'.
Proof.
  induction ops as [|[t|] ops IH]; intros s out l Hq Hs He Hf; cbn in Hf |- *.
  - simplify_eq. by exists s.
  - case_decide as Hin; [done|]. rewrite list_elem_of_In, <- in_rev, <- list_elem_of_In in Hin.
    destruct (He t) as (x & Ht & Hx); [by left|].
    assert (kt_wchan x = None) as Hw by (destruct Hx; [done|]; exfalso; apply Hin, Hq; eauto).
    destruct (enqueue_rel s q t x) as (s1 & E & T & Q & I & J); [done..|]. rewrite (mbind_run _ _ _ _ _ E).
    destruct (IH s1 out l) as (s' & E' & Q' & I' & J'); [done|by apply (st_queues _ _ _ _ T)| |by rewrite I|].
    + intros u Hu. eapply on_or_free_step; [exact T|by right|]. apply He. by right.
    + exists s'. rewrite E'. split_and!; [done..|]. intros q' Hne. rewrite J' by done. by apply J.
  - apply bind_Some in Hf as ([o l'] & Hf & ?). simplify_eq/=.
    destruct (rev (items s q)) as [|t r] eqn:Hr; cbn in Hf |- *.
    + assert (items s q = []) as Hi by (rewrite <- (rev_involutive (items s q)), Hr; done).
      rewrite (mbind_run _ _ _ _ _ (dequeue_empty _ _ Hs Hi)).
      destruct (IH s o l) as (s' & E' & H'); [done..|by rewrite Hi|]. rewrite (mbind_run _ _ _ _ _ E'). eauto.
    + assert (items s q = rev r ++ [t]) as Hi by (by rewrite <- (rev_involutive (items s q)), Hr).
      destruct (proj1 (q_wchan _ Hq q t)) as (x & Ht & Hw); [rewrite Hi; set_solver|].
      destruct (dequeue_rel s q t (rev r) x) as (s1 & E & T & Q & I & J); [done..|]. rewrite (mbind_run _ _ _ _ _ E).
      destruct (IH s1 o l) as (s' & E' & Q' & I' & J'); [done|by apply (st_queues _ _ _ _ T)| |by rewrite I, rev_involutive|].
      * intros u Hu. eapply on_or_free_step; [exact T|by left|]. by apply He.
      * rewrite (mbind_run _ _ _ _ _ E'). exists s'. split_and!; [done..|]. intros q' Hne. rewrite J' by done. by apply J.
Qed.

(** The queues of the scheduler are first-in first-out: any sequence of
    [ktqueue_enqueue] and [ktqueue_dequeue] on a queue returns what the FIFO
    specification returns (0 on an empty queue) and leaves its contents,
    keeping the agreement between queues, sizes and wait channels and leaving
    the other queues alone. *)
Theorem ktqueue_fifo q ops s out l :
  qok s -> is_Some (queues s !! q) -> (forall t, t ∈ enqueues ops -> on_or_free s q t) ->
  fifo_run (rev (items s q)) ops = Some (out, l) ->
  exists s', run_qops q ops s = Ok (out, s') /\ qok s' /\ rev (items s' q) = l /\
    forall q', q' <> q -> items s' q' = items s q'.
Proof. apply qops_run. Qed.
End Queues.

(** ** The invariant of the scheduler

    Between two steps the current thread runs ([cc = None]); while it blocks
    it is already on a queue and [cc = Some c] is the continuation that the
    context switch is going to save. *)
Section Invariant.
Context `{KL : KList} `{LK : KLink} `{IN : KIntr} `{ER : KErrno}.
Implicit Types s : ks.

Definition eff (cc : option kcont) (cur t : Z) (x : kthread) : kcont :=
  match cc with Some c => if decide (t = cur) then c else snd (kt_ctx x) | None => snd (kt_ctx x) end.

(** A thread that may be switched to: one that waited for a mutex has been
    made its holder, or was cancelled. *)
Definition ready (mx : gmap Z Z) (t : Z) (x : kthread) (c : kcont) : Prop :=
  match c with
  | CLock m => mx !! m = Some t
  | CLockCancellable m => mx !! m = Some t \/ (is_Some (mx !! m) /\ kt_cancelled x = true)
  | CDead => False
  | _ => True
  end.
(** A thread on the wait queue of a mutex: somebody holds it. *)
Definition awaits (mx : gmap Z Z) (m : Z) (x : kthread) (c : kcont) : Prop :=
  (exists h, mx !! m = Some h /\ h <> 0) /\
  (c = CLock m /\ kt_state x = KT_SLEEP \/ c = CLockCancellable m /\ kt_state x = KT_SLEEP_CANCELLABLE).
Definition plain (c : kcont) : Prop :=
  match c with CStart | CSleep | CSleepCancellable | CWaitpid _ _ => True | _ => False end.

Definition thr_ok (mx : gmap Z Z) (cc : option kcont) (cur t : Z) (x : kthread) : Prop :=
  match kt_wchan x with
  | None => (cc = None /\ t = cur) \/ kt_state x = KT_EXITED \/
      (t <> cur /\ snd (kt_ctx x) = CStart /\ kt_state x <> KT_SLEEP_CANCELLABLE)
  | Some RunQ => ready mx t x (eff cc cur t x)
  | Some (MutexQ m) => awaits mx m x (eff cc cur t x)
  | Some _ => plain (eff cc cur t x) /\ asleep x
  end.
Definition plainq (q : qid) : Prop := match q with RunQ | MutexQ _ => False | _ => True end.

Record kinv (cc : option kcont) s : Prop := {
  k_q : qok s;
  k_run : is_Some (queues s !! RunQ);
  k_null : threads s !! 0 = None;
  k_cur : exists x, threads s !! curthr s = Some x /\
    (cc = None -> kt_wchan x = None) /\
    (switched s = true -> ready (mutexes s) (curthr s) x (snd (kt_ctx x)));
  k_thr : forall t x, threads s !! t = Some x -> thr_ok (mutexes s) cc (curthr s) t x;
  k_mx : forall m h, mutexes s !! m = Some h ->
    m <> 0 /\ is_Some (queues s !! MutexQ m) /\ (h = 0 -> items s (MutexQ m) = []);
  k_intr : forall n q, q ∈ intr_wait n -> plainq q /\ is_Some (queues s !! q);
}.

(** One thread record changes, mutexes stay. *)
Lemma kinv_step cc s s' t x' :
  kinv cc s -> step_thr s s' t x' -> qok s' -> is_Some (threads s !! t) -> switched s = false ->
  thr_ok (mutexes s) cc (curthr s) t x' -> (t = curthr s -> cc = None -> kt_wchan x' = None) ->
  (forall m, mutexes s !! m = Some 0 -> items s' (MutexQ m) = []) -> kinv cc s'.
Proof.
  intros [Hq HR HN (xc & Hc & Hcw & Hcr) HT HM HI] T Q Ht Hsw Hok Hcur Hmx.
  destruct T as [ET EM EC EP EI ES EQ]. split; [done|by apply EQ| | | | |].
  - rewrite ET. destruct (decide (t = 0)) as [->|]; [rewrite HN in Ht; by destruct Ht | by rewrite lookup_insert_ne].
  - rewrite ET, EC, ES, Hsw. destruct (decide (t = curthr s)) as [->|]; [rewrite lookup_insert_eq | rewrite lookup_insert_ne by done];
      eexists; (split; [done|]); (split; [by auto|done]).
  - intros u y. rewrite ET, EM, EC. destruct (decide (u = t)) as [->|].
    + rewrite lookup_insert_eq. by intros [= <-].
    + rewrite lookup_insert_ne by done. by apply HT.
  - intros m h. rewrite EM. intros Hm. destruct (HM m h Hm) as (H1 & H2 & H3). split; [done|]. split; [by apply EQ|].
    intros ->. by apply Hmx.
  - intros n q Hn. destruct (HI n q Hn). split; [done|by apply EQ].
Qed.

(** A thread on a sleep queue is asleep. *)
Lemma kinv_asleep cc s q t x :
  kinv cc s -> q <> RunQ -> threads s !! t = Some x -> kt_wchan x = Some q -> asleep x.
Proof.
  intros K Hne Ht Hw. pose proof (k_thr _ _ K _ _ Ht) as H. unfold thr_ok in H. rewrite Hw in H.
  destruct q; [done| |naive_solver..]. unfold asleep. destruct H as [_ [[_ ?]|[_ ?]]]; auto.
Qed.
Lemma kinv_member cc s q t : kinv cc s -> t ∈ items s q ->
  exists x, threads s !! t = Some x /\ kt_wchan x = Some q /\ t <> 0.
Proof.
  intros K Hi. apply (k_q _ _ K) in Hi as (x & Ht & Hw). exists x. split_and!; [done..|].
  intros ->. rewrite (k_null _ _ K) in Ht. done.
Qed.

(** Waking a thread of a queue that is not a mutex's. *)
Lemma wakeup_kinv cc s q t l :
  kinv cc s -> switched s = false -> plainq q -> items s q = l ++ [t] ->
  exists s' x, sched_wakeup_on q s = Ok (t, s') /\ kinv cc s' /\ (threads s !! t = Some x /\ kt_wchan x = Some q) /\
    step_thr s s' t (woken x) /\ items s' q = l /\ items s' RunQ = t :: items s RunQ /\
    forall q', q' <> RunQ -> q' <> q -> items s' q' = items s q'.
Proof.
  intros K Hsw Hp Hi. destruct (kinv_member _ _ q t K) as (x & Ht & Hw & H0); [rewrite Hi; set_solver|].
  assert (q <> RunQ) as Hne by (by intros ->).
  destruct (wakeup_rel s q t x l) as (s' & E & T & Q & I1 & I2 & I3); [apply K|apply K|done..| |].
  { by eapply kinv_asleep. }
  exists s', x. split; [done|]. split; [|by auto 8].
  eapply kinv_step; [exact K|exact T|done|by eexists|done| | |].
  - pose proof (k_thr _ _ K _ _ Ht) as H. unfold thr_ok in *. rewrite Hw in H. cbn.
    assert (eff cc (curthr s) t (woken x) = eff cc (curthr s) t x) as -> by done.
    destruct q; [done|done|destruct H as [H _]..]; destruct (eff cc (curthr s) t x); done.
  - intros -> ->. destruct (k_cur _ _ K) as (xc & Hc & Hcw & _). rewrite Ht in Hc. simplify_eq.
    rewrite Hcw in Hw by done. done.
  - intros m Hm. rewrite I3; [by apply (k_mx _ _ K m 0)|done|]. by intros <-.
Qed.

(** A thread that is not running itself is at most woken or switched to. *)
Record moved (x x' : kthread) : Prop := {
  mv_proc : kt_proc x' = kt_proc x;
  mv_stack : kt_kstack x' = kt_kstack x;
  mv_retval : kt_retval x' = kt_retval x;
  mv_cancelled : kt_cancelled x' = kt_cancelled x;
  mv_off : kt_wchan x = None -> kt_wchan x' = None /\ kt_state x' = kt_state x;
  mv_wchan : kt_wchan x' = kt_wchan x \/ kt_wchan x' = Some RunQ \/ kt_wchan x' = None;
  mv_state : kt_state x' = kt_state x \/ kt_state x' = KT_RUN;
}.
#[local] Instance moved_preorder : PreOrder moved.
Proof.
  split; [by intros x; split; auto|]. intros x y z [A1 A2 A3 A4 A5 A6 A7] [B1 B2 B3 B4 B5 B6 B7]. split; try congruence.
  - intros H. destruct (A5 H) as [E1 E2]. destruct (B5 E1). split; congruence.
  - destruct B6 as [->|]; auto.
  - destruct B7 as [->|]; auto.
Qed.
(** The same threads, moved. *)
Definition keeps s s' : Prop := forall t,
  option_Forall2 moved (threads s !! t) (threads s' !! t).
#[export] Instance keeps_preorder : PreOrder keeps.
Proof.
  split.
  - intros s t. destruct (threads s !! t); constructor. done.
  - intros s1 s2 s3 H1 H2 t. specialize (H1 t). specialize (H2 t). destruct H1; inversion H2; subst; constructor. by etrans.
Qed.
Lemma keeps_step s s' t x x' : threads s !! t = Some x -> threads s' = <[t := x']> (threads s) -> moved x x' -> keeps s s'.
Proof.
  intros Hx E H u. rewrite E. destruct (decide (u = t)) as [->|].
  - rewrite Hx, lookup_insert_eq. by constructor.
  - rewrite lookup_insert_ne by done. destruct (threads s !! u); constructor. done.
Qed.
Lemma keeps_same s s' : threads s' = threads s -> keeps s s'.
Proof. intros E t. rewrite E. destruct (threads s !! t); by constructor. Qed.
Lemma keeps_lookup s s' t x : keeps s s' -> threads s !! t = Some x -> exists x', threads s' !! t = Some x' /\ moved x x'.
Proof. intros H Hx. specialize (H t). rewrite Hx in H. inversion H; subst. eauto. Qed.
Lemma keeps_back s s' t x' : keeps s s' -> threads s' !! t = Some x' -> exists x, threads s !! t = Some x /\ moved x x'.
Proof. intros H Hx. specialize (H t). rewrite Hx in H. inversion H; subst. eauto. Qed.

(** What waking every thread of a list of queues leaves alone. *)
Record woke s s' : Prop := {
  w_keep : keeps s s';
  w_cur : curthr s' = curthr s;
  w_proc : curproc s' = curproc s;
  w_mx : mutexes s' = mutexes s;
  w_sw : switched s' = switched s;
  w_q : forall q, is_Some (queues s' !! q) <-> is_Some (queues s !! q);
  w_run : exists l, items s' RunQ = l ++ items s RunQ;
  w_thr : forall t x, threads s !! t = Some x -> exists x', threads s' !! t = Some x' /\
    (x' = x \/ x' = woken x);
}.
Lemma woken_woken x : woken (woken x) = woken x.
Proof. done. Qed.
#[local] Instance woke_preorder : PreOrder woke.
Proof.
  split.
  - intros s. split; try done; [by exists []|eauto].
  - intros s1 s2 s3 [] []. split; try congruence.
    + by etrans.
    + intros q. by rewrite w_q1.
    + destruct w_run0 as [l1 E1]. destruct w_run1 as [l2 E2]. exists (l2 ++ l1). by rewrite E2, E1, app_assoc.
    + intros t x Hx. destruct (w_thr0 t x Hx) as (x1 & H1 & Hx1). destruct (w_thr1 t x1 H1) as (x2 & H2 & Hx2).
      exists x2. split; [done|]. naive_solver.
Qed.

Lemma woke_step s s' t x : threads s !! t = Some x -> kt_wchan x <> None -> step_thr s s' t (woken x) ->
  items s' RunQ = t :: items s RunQ -> woke s s'.
Proof.
  intros Ht Hw [] Hi. split; try done; [|by exists [t]|].
  { eapply keeps_step; [done..|]. split; try done; auto. }
  intros u y Hu. rewrite st_threads0. destruct (decide (u = t)) as [->|].
  - rewrite lookup_insert_eq. simplify_eq. eauto.
  - rewrite lookup_insert_ne by done. eauto.
Qed.

Lemma broadcast_loop_kinv cc q n : forall fuel s,
  kinv cc s -> switched s = false -> plainq q -> is_Some (queues s !! q) -> length (items s q) = n -> (n < fuel)%nat ->
  exists s', broadcast_loop fuel q s = Ok (tt, s') /\ kinv cc s' /\ woke s s' /\
    items s' q = [] /\ items s' RunQ = items s q ++ items s RunQ /\
    (forall q', q' <> RunQ -> q' <> q -> items s' q' = items s q').
Proof.
  induction n as [|n IH]; intros [|fuel] s K Hsw Hp Hs Hl Hf; [lia| |lia|]; cbn.
  - apply nil_length_inv in Hl. rewrite (mbind_run _ _ _ _ _ (queue_empty_run _ _ Hs)), bool_decide_eq_true_2 by done.
    exists s. rewrite Hl. split_and!; done.
  - destruct (items s q) as [|t l _] eqn:Hi using rev_ind; [done|].
    rewrite (mbind_run _ _ _ _ _ (queue_empty_run _ _ Hs)), bool_decide_eq_false_2 by (rewrite Hi; by destruct l).
    destruct (wakeup_kinv cc s q t l) as (s1 & x & E & K1 & Ht & T & I1 & I2 & I3); [done..|].
    rewrite (mbind_run _ _ _ _ _ E). rewrite length_app in Hl. cbn in Hl.
    destruct (IH fuel s1) as (s' & E' & K' & W' & J1 & J2 & J3); [done| |done|by apply (st_queues _ _ _ _ T)|rewrite I1; lia|lia|].
    { by rewrite (st_switched _ _ _ _ T). }
    exists s'. split; [done|]. split; [done|]. split; [etrans; [eapply woke_step; try done; naive_solver congruence|done]|]. split; [done|].
    split; [by rewrite J2, I1, I2, <- app_assoc|]. intros q' H1 H2. rewrite J3 by done. by apply I3.
Qed.

Lemma broadcast_kinv cc q s :
  kinv cc s -> switched s = false -> plainq q -> is_Some (queues s !! q) ->
  exists s', sched_broadcast_on q s = Ok (tt, s') /\ kinv cc s' /\ woke s s' /\
    items s' q = [] /\ items s' RunQ = items s q ++ items s RunQ /\
    (forall q', q' <> RunQ -> q' <> q -> items s' q' = items s q').
Proof.
  intros K Hsw Hp Hs. unfold sched_broadcast_on. pose proof Hs as [y Hy].
  rewrite (mbind_run _ _ _ _ _ (load_q_run _ _ _ Hy)), <- (items_lookup _ _ _ Hy).
  by apply (broadcast_loop_kinv cc q (length (items s q))); try lia.
Qed.

Lemma wake_all_kinv cc qs : forall s,
  kinv cc s -> switched s = false -> (forall q, q ∈ qs -> plainq q /\ is_Some (queues s !! q)) ->
  exists s', wake_all qs s = Ok (tt, s') /\ kinv cc s' /\ woke s s'.
Proof.
  induction qs as [|q qs IH]; intros s K Hsw Hqs; cbn; [by exists s|].
  destruct (Hqs q) as [Hp Hs]; [by left|].
  destruct (broadcast_kinv cc q s) as (s1 & E & K1 & W1 & _); [done..|]. rewrite (mbind_run _ _ _ _ _ E).
  destruct (IH s1) as (s' & E' & K' & W'); [done|by rewrite (w_sw _ _ W1)| |].
  { intros q' Hq'. destruct (Hqs q'); [by right|]. split; [done|by apply (w_q _ _ W1)]. }
  exists s'. split; [done|]. split; [done|]. by etrans.
Qed.

(** Changing the interrupt level or counting a wait is invisible. *)
Lemma kinv_frame cc s s' :
  threads s' = threads s -> queues s' = queues s -> mutexes s' = mutexes s -> curthr s' = curthr s ->
  switched s' = switched s -> kinv cc s -> kinv cc s'.
Proof.
  intros E1 E2 E3 E4 E5 []. assert (forall q, items s' q = items s q) as Ei by (intros; unfold items; by rewrite E2).
  split; [by apply (qok_frame s)|rewrite ?E1, ?E2, ?E3, ?E4, ?E5; try setoid_rewrite Ei; try done..].
Qed.

Lemma woke_frame s s1 s2 : woke s s1 -> threads s2 = threads s1 -> queues s2 = queues s1 -> mutexes s2 = mutexes s1 ->
  curthr s2 = curthr s1 -> curproc s2 = curproc s1 -> switched s2 = switched s1 -> woke s s2.
Proof.
  intros [] E1 E2 E3 E4 E5 E6. split; try congruence.
  - by etrans; [|apply keeps_same].
  - intros q. by rewrite E2.
  - unfold items in *. by rewrite E2.
  - by rewrite E1.
Qed.

(** Waiting for a runnable thread: it ends as soon as the run queue is not
    empty, and only the fuel (the number of interrupts waited for) can run
    out. *)
Lemma idle_loop_kinv cc fuel : forall s, kinv cc s -> switched s = false ->
  idle_loop fuel s = Err FFuel \/
  exists s', idle_loop fuel s = Ok (tt, s') /\ kinv cc s' /\ woke s s' /\ items s' RunQ <> [].
Proof.
  induction fuel as [|fuel IH]; intros s K Hsw; [by left|].
  pose proof (queue_empty_run _ _ (k_run _ _ K)) as E0. case_bool_decide as He.
  2:{ right. exists s. cbn. by rewrite (mbind_run _ _ _ _ _ E0). }
  set (s0 := set_ipl IPL_LOW s). assert (kinv cc s0) as K0 by (by apply (kinv_frame cc s)).
  destruct (wake_all_kinv cc (intr_wait (waits s0)) s0) as (s1 & E & K1 & W1); [done|done| |].
  { intros q Hq. by apply (k_intr _ _ K (waits s0)). }
  set (s2 := set_ipl IPL_HIGH (count_wait s1)).
  assert (idle_loop (S fuel) s = idle_loop fuel s2) as ->.
  { cbn. rewrite (mbind_run _ _ _ _ _ E0). rewrite (mbind_run (mput _) _ _ tt s0 eq_refl).
    rewrite (mbind_run (mget _) _ _ (waits s0) s0 eq_refl), (mbind_run _ _ _ _ _ E). done. }
  assert (kinv cc s2) as K2 by (by apply (kinv_frame cc s1)).
  assert (woke s s1) as W1' by (destruct W1; by split).
  assert (woke s s2) as W2 by (by apply (woke_frame s s1)).
  destruct (IH s2 K2) as [->|(s' & -> & K' & W' & HN)]; [by rewrite (w_sw _ _ W2)|by left|].
  right. exists s'. split; [done|]. split; [done|]. split; [by etrans|done].
Qed.
Lemma idle_loop_now fuel s : is_Some (queues s !! RunQ) -> items s RunQ <> [] -> idle_loop (S fuel) s = Ok (tt, s).
Proof. intros H1 H2. cbn. by rewrite (mbind_run _ _ _ _ _ (queue_empty_run _ _ H1)), bool_decide_eq_false_2. Qed.

(** Seen from the thread switched to, a blocked thread has its continuation
    saved. *)
Lemma thr_ok_switch mx c old t u y i :
  thr_ok mx (Some c) old u y -> u <> t ->
  thr_ok mx None t u (if decide (u = old) then with_ctx (i, c) y else y).
Proof.
  unfold thr_ok, eff. intros H Hne. case_decide as Hu; cbn.
  - destruct (kt_wchan y) as [[]|]; try done. destruct H as [[? _]|[?|[? _]]]; [done|by auto|done].
  - destruct (kt_wchan y) as [[]|]; try done. destruct H as [[? _]|[?|(? & ? & ?)]]; [done|by auto|by auto].
Qed.

(** The state after the context switch from [s1]: [t], the oldest thread of
    the run queue, is current. *)
Lemma switch_to_kinv c i s1 s2 s' t x l :
  kinv (Some c) s1 -> switched s1 = false -> items s1 RunQ = l ++ [t] -> threads s1 !! t = Some x ->
  step_thr s1 s2 t (with_wchan None false x) -> qok s2 ->
  items s2 RunQ = l -> (forall q', q' <> RunQ -> items s2 q' = items s1 q') ->
  forall xo, threads s2 !! curthr s1 = Some xo ->
  s' = set_cur t (kt_proc x) true (upd_threads (<[curthr s1 := with_ctx (i, c) xo]>) s2) ->
  kinv None s'.
Proof.
  intros K Hsw Hi Ht T Q I1 I2 xo Ho ->. pose proof (k_q _ _ K) as HQ.
  destruct (proj1 (q_wchan _ HQ RunQ t)) as (x0 & Hx0 & Hw); [rewrite Hi; set_solver|]. simplify_eq.
  pose proof (k_thr _ _ K _ _ Ht) as Hr. unfold thr_ok in Hr. rewrite Hw in Hr.
  destruct T as [ET EM EC EP EI ES EQ]. rewrite ET in Ho.
  split; cbn.
  - apply (qok_frame (upd_threads (<[curthr s1 := with_ctx (i, c) xo]>) s2)); [done..|].
    eapply qok_store; [done|by rewrite ET|done..].
  - apply EQ, K.
  - rewrite ET. pose proof (k_null _ _ K) as HN. rewrite !lookup_insert_ne; [done|congruence|].
    intros E. destruct (k_cur _ _ K) as (? & Hc & _). rewrite E in Hc. congruence.
  - rewrite ET, EM. destruct (decide (curthr s1 = t)) as [E|Hne].
    + rewrite E in *. rewrite lookup_insert_eq in *. simplify_eq. eexists. split; [done|]. split; [done|]. intros _. cbn.
      unfold eff in Hr. by rewrite decide_True in Hr by done.
    + rewrite lookup_insert_ne, lookup_insert_eq by done. eexists. split; [done|]. split; [done|]. intros _. cbn.
      unfold eff in Hr. by rewrite decide_False in Hr by congruence.
  - rewrite ET, EM. intros u y Hu. destruct (decide (u = t)) as [->|Hne].
    + unfold thr_ok. assert (kt_wchan y = None) as ->; [|by left].
      destruct (decide (curthr s1 = t)) as [E|Hne].
      * rewrite E in *. rewrite lookup_insert_eq in *. by simplify_eq.
      * rewrite lookup_insert_ne, lookup_insert_eq in Hu by done. by simplify_eq.
    + assert (exists y0, threads s1 !! u = Some y0 /\ y = if decide (u = curthr s1) then with_ctx (i, c) y0 else y0) as (y0 & Hy0 & ->).
      { destruct (decide (u = curthr s1)) as [->|Hu2].
        - rewrite lookup_insert_eq in Hu. rewrite lookup_insert_ne in Ho by done. simplify_eq. eauto.
        - rewrite !lookup_insert_ne in Hu by done. eauto. }
      apply thr_ok_switch; [by apply K|done].
  - intros m h. rewrite EM. intros Hm. destruct (k_mx _ _ K m h Hm) as (H1 & H2 & H3). split; [done|]. split; [by apply EQ|].
    intros H0. unfold items in *. cbn. rewrite I2 by done. by apply H3.
  - intros n q Hn. destruct (k_intr _ _ K n q Hn). split; [done|by apply EQ].
Qed.

(** What a context switch does to the state it starts in. *)
Record switched_from s s' (c : kcont) : Prop := {
  sw_kinv : kinv None s';
  sw_flag : switched s' = true;
  sw_mx : mutexes s' = mutexes s;
  sw_q : forall q, is_Some (queues s' !! q) <-> is_Some (queues s !! q);
  sw_saved : exists x x', threads s !! curthr s = Some x /\ threads s' !! curthr s = Some x' /\
    kt_ctx x' = (ipl s, c) /\ kt_proc x' = kt_proc x /\ kt_cancelled x' = kt_cancelled x;
  sw_keep : keeps s s';
  sw_ctx : forall t x x', t <> curthr s -> threads s !! t = Some x -> threads s' !! t = Some x' -> kt_ctx x' = kt_ctx x;
  sw_next : exists x x', threads s !! curthr s' = Some x /\ kt_wchan x <> None /\ threads s' !! curthr s' = Some x' /\
    curproc s' = kt_proc x' /\ kt_qlink x' = false;
}.

Lemma switch_kinv c fuel s : kinv (Some c) s -> switched s = false ->
  sched_switch fuel c s = Err FFuel \/
  exists s', sched_switch fuel c s = Ok (tt, s') /\ switched_from s s' c.
Proof.
  intros K Hsw. unfold sched_switch. set (s0 := set_ipl IPL_HIGH s).
  assert (kinv (Some c) s0) as K0 by (by apply (kinv_frame (Some c) s)).
  pose proof (idle_loop_kinv (Some c) fuel s0 K0 Hsw) as [E|(s1 & E & K1 & W1 & HN)].
  { left. rewrite (mbind_run (mget _) _ _ (ipl s) s eq_refl), (mbind_run (mput _) _ _ tt s0 eq_refl). by apply mbind_err. }
  right. destruct (items s1 RunQ) as [|t l _] eqn:Hi using rev_ind; [done|].
  destruct (kinv_member _ _ RunQ t K1) as (x & Ht & Hw & H0); [rewrite Hi; set_solver|].
  destruct (dequeue_rel s1 RunQ t l x) as (s2 & E2 & T & Q & I1 & I2); [apply K1|done..|].
  destruct (k_cur _ _ K) as (xc & Hc & _). destruct (w_thr _ _ W1 (curthr s) xc Hc) as (xc1 & Hc1 & Hx1).
  assert (exists xo, threads s2 !! curthr s = Some xo /\ kt_proc xo = kt_proc xc /\ kt_cancelled xo = kt_cancelled xc) as (xo & Ho & Hp & Hcc).
  { rewrite (st_threads _ _ _ _ T). destruct (decide (curthr s = t)) as [E'|].
    - rewrite E', lookup_insert_eq. eexists. split; [done|]. rewrite E' in Hc1. destruct Hx1; simplify_eq; done.
    - rewrite lookup_insert_ne by done. eexists. split; [done|]. destruct Hx1; subst; done. }
  assert (threads s2 !! t = Some (with_wchan None false x)) as Ht2 by (rewrite (st_threads _ _ _ _ T); apply lookup_insert_eq).
  pose proof (w_cur _ _ W1) as Ec. cbn in Ec. assert (curthr s2 = curthr s) as Ec2 by (by rewrite (st_curthr _ _ _ _ T)).
  eexists. split.
  { rewrite (mbind_run (mget _) _ _ (ipl s) s eq_refl), (mbind_run (mput _) _ _ tt s0 eq_refl).
    rewrite (mbind_run _ _ _ _ _ E), (mbind_run (mget _) _ _ (curthr s) s1) by (unfold mget; by rewrite Ec).
    rewrite (mbind_run _ _ _ _ _ E2), (mbind_run _ _ _ _ _ (load_thr_run _ _ _ Ht2)).
    rewrite (mbind_run _ _ _ _ _ (store_thr_run _ _ _ _ Ho)). reflexivity. }
  assert (keeps s1 s2) as Hk2.
  { eapply keeps_step; [exact Ht|exact (st_threads _ _ _ _ T)|]. split; try done; auto. }
  split; [|done|cbn; rewrite (st_mutexes _ _ _ _ T), (w_mx _ _ W1); done| | | | |].
  - eapply (switch_to_kinv c (ipl s) s1 s2); [done|by rewrite (w_sw _ _ W1)|done..|by rewrite Ec|by rewrite Ec].
  - intros q. cbn. rewrite (st_queues _ _ _ _ T). apply (w_q _ _ W1).
  - exists xc, (with_ctx (ipl s, c) xo). split; [done|]. split; [apply lookup_insert_eq|]. done.
  - etrans; [by apply (keeps_same s s0)|]. etrans; [apply W1|]. etrans; [exact Hk2|].
    eapply keeps_step; [exact Ho|done|]. by split; auto.
  - intros u y y' Hu Hy Hy'. cbn in Hy'. rewrite lookup_insert_ne, (st_threads _ _ _ _ T) in Hy' by done.
    destruct (w_thr _ _ W1 u y Hy) as (y1 & Hy1 & Hy1'). destruct (decide (u = t)) as [->|].
    + rewrite lookup_insert_eq in Hy'. injection Hy' as <-. rewrite Ht in Hy1. injection Hy1 as <-. by destruct Hy1' as [->| ->].
    + rewrite lookup_insert_ne in Hy' by done. rewrite Hy1 in Hy'. injection Hy' as <-. by destruct Hy1' as [->| ->].
  - destruct (keeps_back s0 s1 t x (w_keep _ _ W1) Ht) as (x0 & Hx0 & Hm). exists x0.
    assert (kt_wchan x0 <> None) by (intros E0; destruct (mv_off _ _ Hm E0); congruence).
    cbn. destruct (decide (curthr s = t)) as [<-|]; [rewrite lookup_insert_eq | rewrite lookup_insert_ne, Ht2 by done];
      eexists; (split; [done|]); (split; [done|]); (split; [done|]); [|done].
    cbn. rewrite Ht2 in Ho. by simplify_eq.
Qed.

(** With a runnable thread the switch takes place at once, to the oldest one. *)
Lemma switch_now c fuel s t l : kinv (Some c) s -> switched s = false -> items s RunQ = l ++ [t] ->
  exists s', sched_switch (S fuel) c s = Ok (tt, s') /\ switched_from s s' c /\ curthr s' = t /\
    items s' RunQ = l /\ forall q, q <> RunQ -> items s' q = items s q.
Proof.
  intros K Hsw Hi. destruct (kinv_member _ _ RunQ t K) as (x & Ht & Hw & H0); [rewrite Hi; set_solver|].
  set (s0 := set_ipl IPL_HIGH s).
  destruct (dequeue_rel s0 RunQ t l x) as (s2 & E2 & T & Q & I1 & I2); [by apply (qok_frame s), K|done..|].
  assert (idle_loop (S fuel) s0 = Ok (tt, s0)) as E.
  { apply idle_loop_now; [apply K|]. assert (items s0 RunQ = items s RunQ) as -> by done. rewrite Hi. by destruct l. }
  assert (threads s2 !! t = Some (with_wchan None false x)) as Ht2 by (rewrite (st_threads _ _ _ _ T); apply lookup_insert_eq).
  destruct (k_cur _ _ K) as (xc & Hc & _).
  assert (exists xo, threads s2 !! curthr s = Some xo) as (xo & Ho).
  { rewrite (st_threads _ _ _ _ T). destruct (decide (curthr s = t)) as [->|]; [rewrite lookup_insert_eq | rewrite lookup_insert_ne by done]; eauto. }
  assert (exists s', sched_switch (S fuel) c s = Ok (tt, s') /\ curthr s' = t /\ queues s' = queues s2) as (s' & E' & Hcur & Eq).
  { eexists. unfold sched_switch.
    rewrite (mbind_run (mget _) _ _ (ipl s) s eq_refl), (mbind_run (mput _) _ _ tt s0 eq_refl), (mbind_run _ _ _ _ _ E).
    rewrite (mbind_run (mget _) _ s0 (curthr s) s0 eq_refl), (mbind_run _ _ _ _ _ E2).
    rewrite (mbind_run _ _ _ _ _ (load_thr_run _ _ _ Ht2)), (mbind_run _ _ _ _ _ (store_thr_run _ _ _ _ Ho)).
    split; [reflexivity|]. split; reflexivity. }
  exists s'. split; [done|]. destruct (switch_kinv c (S fuel) s K Hsw) as [?|(s'' & E'' & F)]; [congruence|].
  rewrite E' in E''. simplify_eq. split; [done|]. split; [done|]. unfold items in *. rewrite Eq. split; [done|].
  intros q Hq. by rewrite I2.
Qed.

(** ** Going to sleep *)
(** The current thread, put on a queue before it is switched away. *)
Lemma block_kinv q c st s x :
  kinv None s -> switched s = false -> threads s !! curthr s = Some x -> is_Some (queues s !! q) ->
  thr_ok (mutexes s) (Some c) (curthr s) (curthr s) (with_wchan (Some q) true (with_state st x)) ->
  (forall m, q = MutexQ m -> mutexes s !! m <> Some 0) ->
  exists s1, ktqueue_enqueue q (curthr s) (upd_threads (<[curthr s := with_state st x]>) s) = Ok (tt, s1) /\
    step_thr s s1 (curthr s) (with_wchan (Some q) true (with_state st x)) /\ kinv (Some c) s1 /\
    items s1 q = curthr s :: items s q /\ forall q', q' <> q -> items s1 q' = items s q'.
Proof.
  intros K Hsw Hx Hq Hok Hm. destruct (k_cur _ _ K) as (xc & Hc & Hcw & _). rewrite Hx in Hc. simplify_eq.
  set (s0 := upd_threads _ s). assert (qok s0) as Q0 by (by eapply qok_store; [apply K|..]).
  destruct (enqueue_rel s0 q (curthr s) (with_state st xc)) as (s1 & E & T & Q & I1 & I2); [done|apply lookup_insert_eq|by apply Hcw|done|].
  exists s1. split; [done|]. assert (step_thr s s1 (curthr s) (with_wchan (Some q) true (with_state st xc))) as T'.
  { eapply step_thr_trans; [apply step_thr_store|exact T]. }
  split; [done|]. split; [|done]. destruct T' as [ET EM EC EP EI ES EQ].
  split; [done|by apply EQ, K| | | | |].
  - rewrite ET, lookup_insert_ne; [apply K|]. intros E0. pose proof (k_null _ _ K). congruence.
  - rewrite ET, EC, ES, lookup_insert_eq, Hsw. by eexists.
  - intros u y. rewrite ET, EM, EC. destruct (decide (u = curthr s)) as [->|Hu].
    + rewrite lookup_insert_eq. by intros [= <-].
    + rewrite lookup_insert_ne by done. intros Hy. pose proof (k_thr _ _ K _ _ Hy) as H. unfold thr_ok, eff in *.
      rewrite decide_False by done. destruct (kt_wchan y) as [[]|]; try done. naive_solver.
  - intros m h. rewrite EM. intros Hmh. destruct (k_mx _ _ K m h Hmh) as (H1 & H2 & H3). split; [done|]. split; [by apply EQ|].
    intros ->. destruct (decide (MutexQ m = q)) as [<-|]; [by destruct (Hm m)|]. rewrite I2 by done. by apply H3.
  - intros n q' Hn. destruct (k_intr _ _ K n q' Hn). split; [done|by apply EQ].
Qed.

(** What a call that goes to sleep on [q] with continuation [c] does: it ends
    in another thread, or waits for interrupts; with a runnable thread it
    does not wait. *)
Definition sleeps (fuel : nat) (m : M ks kres) s (q : qid) (c : kcont) (st : kt_state_t) : Prop :=
  exists x s1, threads s !! curthr s = Some x /\
    step_thr s s1 (curthr s) (with_wchan (Some q) true (with_state st x)) /\
    items s1 q = curthr s :: items s q /\ (forall q', q' <> q -> items s1 q' = items s q') /\
    (m s = Err FFuel \/ exists s', m s = Ok (Blocked, s') /\ switched_from s1 s' c) /\
    (forall l t, items s RunQ = l ++ [t] -> fuel <> O -> exists s', m s = Ok (Blocked, s') /\
       switched_from s1 s' c /\ curthr s' = t /\ items s' RunQ = l /\ forall q', q' <> RunQ -> items s' q' = items s1 q').

Lemma sleeps_of_block fuel m s q c st x s1 :
  threads s !! curthr s = Some x -> q <> RunQ ->
  step_thr s s1 (curthr s) (with_wchan (Some q) true (with_state st x)) -> kinv (Some c) s1 -> switched s = false ->
  items s1 q = curthr s :: items s q -> (forall q', q' <> q -> items s1 q' = items s q') ->
  m s = (sched_switch fuel c ;;; mret_ Blocked) s1 -> sleeps fuel m s q c st.
Proof.
  intros Hx Hq T K1 Hsw I1 I2 Em. exists x, s1. split; [done|]. split; [done|]. split; [done|]. split; [done|].
  assert (switched s1 = false) as Hsw1 by (by rewrite (st_switched _ _ _ _ T)). rewrite !Em. split.
  - destruct (switch_kinv c fuel s1 K1 Hsw1) as [E|(s' & E & F)]; [left; by apply mbind_err|right].
    exists s'. by rewrite (mbind_run _ _ _ _ _ E).
  - intros l t Hl Hf. destruct fuel as [|fuel]; [done|].
    destruct (switch_now c fuel s1 t l) as (s' & E & F & H); [done..|by rewrite I2|].
    exists s'. by rewrite (mbind_run _ _ _ _ _ E).
Qed.

Lemma upd_threads_id s t x : threads s !! t = Some x -> upd_threads (<[t := x]>) s = s.
Proof. intros H. destruct s. unfold upd_threads. cbn in *. by rewrite insert_id. Qed.

Lemma sleep_on_sleeps fuel q c s :
  kinv None s -> switched s = false -> is_Some (queues s !! q) -> q <> RunQ ->
  (plain c /\ plainq q \/ exists m h, q = MutexQ m /\ c = CLock m /\ mutexes s !! m = Some h /\ h <> 0) ->
  sleeps fuel (sched_sleep_on_ fuel q c) s q c KT_SLEEP.
Proof.
  intros K Hsw Hq HR Hc. destruct (k_cur _ _ K) as (x & Hx & Hw & _).
  destruct (block_kinv q c KT_SLEEP s x) as (s1 & E & T & K1 & I1 & I2); [done..| | |].
  { unfold thr_ok, eff. cbn. rewrite decide_True by done. destruct Hc as [[Hc Hp]|(m & h & -> & -> & Hm & Hh)].
    - destruct q; [done|done|..]; (split; [done|by left]).
    - split; [eauto|by left]. }
  { intros m -> Hm. destruct Hc as [[Hc Hp]|(m' & h & [= <-] & -> & Hm' & Hh)]; [done|]. congruence. }
  eapply sleeps_of_block; [done|done|exact T|exact K1|done..|]. unfold sched_sleep_on_.
  rewrite (mbind_run (mget _) _ _ (curthr s) s eq_refl), (mbind_run _ _ _ _ _ (store_thr_run _ _ _ _ Hx)).
  rewrite (mbind_run _ _ _ _ _ E).
  assert (threads s1 !! curthr s = Some (with_wchan (Some q) true (with_state KT_SLEEP x))) as H1
    by (rewrite (st_threads _ _ _ _ T); apply lookup_insert_eq).
  rewrite (mbind_run _ _ _ _ _ (store_thr_run _ _ _ _ H1)). cbn [kt_qlink with_wchan].
  by rewrite (upd_threads_id s1).
Qed.

Lemma cancellable_sleeps fuel q c s x :
  kinv None s -> switched s = false -> is_Some (queues s !! q) -> q <> RunQ -> threads s !! curthr s = Some x ->
  (plain c /\ plainq q \/ exists m h, q = MutexQ m /\ c = CLockCancellable m /\ mutexes s !! m = Some h /\ h <> 0) ->
  (kt_cancelled x = true -> sched_cancellable_sleep_on_ fuel q c s = Ok (Returned (- EINTR), s)) /\
  (kt_cancelled x = false -> sleeps fuel (sched_cancellable_sleep_on_ fuel q c) s q c KT_SLEEP_CANCELLABLE).
Proof.
  intros K Hsw Hq HR Hx Hc. split; intros Hcan.
  { unfold sched_cancellable_sleep_on_. rewrite (mbind_run (mget _) _ _ (curthr s) s eq_refl).
    by rewrite (mbind_run _ _ _ _ _ (load_thr_run _ _ _ Hx)), Hcan. }
  destruct (block_kinv q c KT_SLEEP_CANCELLABLE s x) as (s1 & E & T & K1 & I1 & I2); [done..| | |].
  { unfold thr_ok, eff. cbn. rewrite decide_True by done. destruct Hc as [[Hc Hp]|(m & h & -> & -> & Hm & Hh)].
    - destruct q; [done|done|..]; (split; [done|by right]).
    - split; [eauto|by right]. }
  { intros m -> Hm. destruct Hc as [[Hc Hp]|(m' & h & [= <-] & -> & Hm' & Hh)]; [done|]. congruence. }
  eapply sleeps_of_block; [done|done|exact T|exact K1|done..|]. unfold sched_cancellable_sleep_on_.
  rewrite (mbind_run (mget _) _ _ (curthr s) s eq_refl), (mbind_run _ _ _ _ _ (load_thr_run _ _ _ Hx)), Hcan.
  by rewrite (mbind_run _ _ _ _ _ (store_thr_run _ _ _ _ Hx)), (mbind_run _ _ _ _ _ E).
Qed.

(** ** Changing the holder of a mutex *)
Lemma load_mutex_run s m h : mutexes s !! m = Some h -> load_mutex m s = Ok (h, s).
Proof. unfold load_mutex. by intros ->. Qed.
Lemma store_mutex_run s m h h' : mutexes s !! m = Some h -> store_mutex m h' s = Ok (tt, upd_mutexes (<[m := h']>) s).
Proof. intros H. unfold store_mutex. by rewrite (mbind_run _ _ _ _ _ (load_mutex_run _ _ _ H)). Qed.

Lemma thr_ok_mx mx cur t x m h h' :
  mx !! m = Some h -> (kt_wchan x = Some RunQ -> h <> t) -> (kt_wchan x = Some (MutexQ m) -> h' <> 0) ->
  thr_ok mx None cur t x -> thr_ok (<[m := h']> mx) None cur t x.
Proof.
  intros Hm H1 H2 H. unfold thr_ok in *. destruct (kt_wchan x) as [[|m'| |]|] eqn:Hw; try done.
  - unfold ready in *. destruct (eff None cur t x) as [| | |m'|m'| |]; try done.
    + destruct (decide (m' = m)) as [->|]; [|by rewrite lookup_insert_ne]. rewrite Hm in H. injection H as H. by destruct (H1 eq_refl).
    + destruct (decide (m' = m)) as [->|]; [|by rewrite lookup_insert_ne]. rewrite Hm in H. destruct H as [[= H]|[_ H]].
      * by destruct (H1 eq_refl).
      * right. rewrite lookup_insert_eq. split; [eauto|done].
  - destruct H as [(h0 & Hh0 & Hn) H]. split; [|done]. destruct (decide (m' = m)) as [->|].
    + rewrite lookup_insert_eq. eauto.
    + rewrite lookup_insert_ne by done. eauto.
Qed.

(** The current thread takes a free mutex, gives it up, or hands it over. *)
Lemma kinv_mx s m h h' :
  kinv None s -> switched s = false -> mutexes s !! m = Some h -> (h = 0 \/ h = curthr s) ->
  (h' = 0 -> items s (MutexQ m) = []) -> kinv None (upd_mutexes (<[m := h']>) s).
Proof.
  intros K Hsw Hm Hh H0. pose proof K as [Hq HR HN (xc & Hc & Hcw & Hcr) HT HM HI]. split; try done.
  - by apply (qok_frame s).
  - exists xc. split; [done|]. split; [done|]. cbn. by rewrite Hsw.
  - cbn. intros t x Ht. eapply thr_ok_mx; [done| | |by apply HT].
    + intros Hw <-. destruct Hh as [-> | ->]; [congruence|]. rewrite Hc in Ht. simplify_eq. by rewrite Hcw in Hw.
    + intros Hw ->. assert (t ∈ items s (MutexQ m)) as Hi by (apply Hq; eauto). rewrite H0 in Hi by done. by apply not_elem_of_nil in Hi.
  - cbn. intros m' h0. destruct (decide (m' = m)) as [->|].
    + rewrite lookup_insert_eq. intros [= <-]. destruct (HM m h Hm) as (? & ? & _). split; [done|]. split; [done|]. done.
    + rewrite lookup_insert_ne by done. apply HM.
Qed.

Lemma cur_nonzero cc s : kinv cc s -> curthr s <> 0.
Proof. intros K E. destruct (k_cur _ _ K) as (x & Hx & _). rewrite E, (k_null _ _ K) in Hx. done. Qed.
Lemma holder_tests cur h : cur <> 0 ->
  negb (cur =? 0) && negb (cur =? h) = bool_decide (cur <> h) /\ negb (cur =? 0) && (cur =? h) = bool_decide (cur = h).
Proof.
  intros H. rewrite (proj2 (Z.eqb_neq _ _) H). cbn.
  destruct (Z.eqb_spec cur h); repeat case_bool_decide; cbn; split; congruence.
Qed.

(** The last part of [kmutex_unlock], after the holder is reset. *)
Definition unlock_rest (cur m : Z) : M ks unit :=
  let! e := sched_queue_empty (MutexQ m) in
  (if e then mret_ tt else let! n := sched_wakeup_on (MutexQ m) in store_mutex m n) ;;;
  let! h' := load_mutex m in KASSERT (negb (cur =? h')).
Lemma unlock_unfold m s : kinv None s -> mutexes s !! m = Some (curthr s) ->
  kmutex_unlock m s = unlock_rest (curthr s) m (upd_mutexes (<[m := 0]>) s).
Proof.
  intros K Hm. pose proof (cur_nonzero _ _ K) as Hc0. destruct (k_mx _ _ K _ _ Hm) as (Hm0 & _).
  unfold kmutex_unlock. rewrite (proj2 (Z.eqb_neq _ _) Hm0), (mbind_run _ _ _ tt s eq_refl).
  rewrite (mbind_run (mget _) _ _ (curthr s) s eq_refl), (mbind_run _ _ _ _ _ (load_mutex_run _ _ _ Hm)).
  rewrite (proj2 (holder_tests _ (curthr s) Hc0)), bool_decide_eq_true_2, (mbind_run _ _ _ tt s eq_refl) by done.
  by rewrite (mbind_run _ _ _ _ _ (store_mutex_run _ _ _ 0 Hm)).
Qed.

(** Handing a mutex over to a waiter [t] that has been woken. *)
Lemma handoff_kinv m t x s s' :
  kinv None s -> switched s = false -> mutexes s !! m = Some (curthr s) -> t <> 0 -> t <> curthr s ->
  threads s !! t = Some x -> kt_wchan x = Some (MutexQ m) -> qok s' ->
  step_thr (upd_mutexes (<[m := t]>) s) s' t (woken x) ->
  (forall q', q' <> RunQ -> q' <> MutexQ m -> items s' q' = items s q') -> kinv None s'.
Proof.
  intros K Hsw Hm Ht0 Htc Ht Hw Q T I3.
  assert (kinv None (upd_mutexes (<[m := t]>) s)) as Ka by (eapply kinv_mx; [done..|by right|done]).
  eapply kinv_step; [exact Ka|exact T|done|by eexists|done| | |].
  - pose proof (k_thr _ _ Ka _ _ Ht) as H. unfold thr_ok in *. rewrite Hw in H. cbn in *.
    destruct H as [_ [[-> _]|[-> _]]]; [|left]; apply lookup_insert_eq.
  - done.
  - cbn. intros m' Hm'. destruct (decide (m' = m)) as [->|]; [rewrite lookup_insert_eq in Hm'; congruence|].
    rewrite lookup_insert_ne in Hm' by done. rewrite I3 by congruence. by apply (k_mx _ _ K m' 0).
Qed.

(** Giving the mutex up: [h'] is the new holder, the oldest waiter. *)
Lemma unlock_run m s : kinv None s -> switched s = false -> mutexes s !! m = Some (curthr s) ->
  exists s' h', kmutex_unlock m s = Ok (tt, s') /\ kinv None s' /\ h' = default 0 (last (items s (MutexQ m))) /\
    mutexes s' = <[m := h']> (mutexes s) /\ curthr s' = curthr s /\ curproc s' = curproc s /\ switched s' = false /\
    h' <> curthr s /\
    (items s (MutexQ m) = [] -> s' = upd_mutexes (<[m := 0]>) s) /\
    (forall l, items s (MutexQ m) = l ++ [h'] -> items s' (MutexQ m) = l /\ items s' RunQ = h' :: items s RunQ /\
       exists x, threads s !! h' = Some x /\ threads s' = <[h' := woken x]> (threads s)).
Proof.
  intros K Hsw Hm. pose proof (cur_nonzero _ _ K) as Hc0. destruct (k_mx _ _ K _ _ Hm) as (Hm0 & Hq & _).
  rewrite (unlock_unfold m s K Hm). set (s0 := upd_mutexes (<[m := 0]>) s). unfold unlock_rest.
  rewrite (mbind_run _ _ s0 _ _ (queue_empty_run s0 _ Hq)). assert (items s0 = items s) as -> by done.
  destruct (items s (MutexQ m)) as [|t l _] eqn:Hi using rev_ind.
  - rewrite bool_decide_eq_true_2, (mbind_run _ _ _ tt s0 eq_refl) by done.
    rewrite (mbind_run _ _ _ 0 s0) by (apply load_mutex_run; cbn; by rewrite lookup_insert_eq).
    rewrite (proj2 (Z.eqb_neq _ _) Hc0). exists s0, 0.
    split; [done|]. split; [by eapply kinv_mx; [| | |right|]|]. split; [done|]. do 4 (split; [done|]). split; [by auto|]. split; [done|].
    intros l Hl. by destruct l.
  - rewrite last_snoc, bool_decide_eq_false_2 by (by destruct l).
    destruct (kinv_member _ _ (MutexQ m) t K) as (x & Ht & Hw & Ht0); [rewrite Hi; set_solver|].
    assert (t <> curthr s) as Htc.
    { intros ->. destruct (k_cur _ _ K) as (xc & Hxc & Hcw & _). rewrite Ht in Hxc. simplify_eq. by rewrite Hcw in Hw. }
    destruct (wakeup_rel s0 (MutexQ m) t x l) as (s1 & E & T & Q & I1 & I2 & I3);
      [by apply (qok_frame s), K|apply K|done..|by eapply (kinv_asleep None s (MutexQ m))|].
    assert (mutexes s1 !! m = Some 0) as Hm1 by (rewrite (st_mutexes _ _ _ _ T); apply lookup_insert_eq).
    assert (forall r, (let! n := sched_wakeup_on (MutexQ m) in store_mutex m n) s0 = r -> r = Ok (tt, upd_mutexes (<[m := t]>) s1)) as E1.
    { intros r <-. by rewrite (mbind_run _ _ _ _ _ E), (store_mutex_run _ _ _ _ Hm1). }
    rewrite (mbind_run _ _ _ _ _ (E1 _ eq_refl)), (mbind_run _ _ _ t (upd_mutexes (<[m := t]>) s1))
      by (apply load_mutex_run, lookup_insert_eq).
    rewrite (proj2 (Z.eqb_neq _ _)) by congruence. exists (upd_mutexes (<[m := t]>) s1), t.
    destruct T as [ET EM EC EP EI ES EQ]. cbn in ET, EM, EC, EP, EI, ES.
    assert (step_thr (upd_mutexes (<[m := t]>) s) (upd_mutexes (<[m := t]>) s1) t (woken x)) as T'.
    { split; cbn; try done. by rewrite EM, insert_insert_eq. }
    split; [done|]. split.
    { by eapply handoff_kinv; [..|exact T'|]; [..|apply (qok_frame s1)|]. }
    split; [done|]. cbn. rewrite EM, EC, EP, ES, ET. split; [by rewrite insert_insert_eq|]. split; [done|]. split; [done|].
    split; [done|]. split; [done|]. split; [intros Hl; by destruct l|].
    intros l' Hl'. apply app_inj_2 in Hl' as [-> _]; [|done]. unfold items in *. cbn. eauto.
Qed.

Lemma lock_run fuel m h s :
  kinv None s -> switched s = false -> mutexes s !! m = Some h -> h <> curthr s ->
  (h = 0 -> kmutex_lock fuel m s = Ok (Returned 0, upd_mutexes (<[m := curthr s]>) s) /\
     kinv None (upd_mutexes (<[m := curthr s]>) s)) /\
  (h <> 0 -> sleeps fuel (kmutex_lock fuel m) s (MutexQ m) (CLock m) KT_SLEEP).
Proof.
  intros K Hsw Hm Hne. pose proof (cur_nonzero _ _ K) as Hc0. destruct (k_mx _ _ K _ _ Hm) as (Hm0 & Hq & _).
  assert (kmutex_lock fuel m s = if h =? 0 then Ok (Returned 0, upd_mutexes (<[m := curthr s]>) s)
    else sched_sleep_on_ fuel (MutexQ m) (CLock m) s) as E.
  { unfold kmutex_lock. rewrite (proj2 (Z.eqb_neq _ _) Hm0), (mbind_run _ _ _ tt s eq_refl).
    rewrite (mbind_run (mget _) _ _ (curthr s) s eq_refl), (mbind_run _ _ _ _ _ (load_mutex_run _ _ _ Hm)).
    rewrite (proj1 (holder_tests _ h Hc0)), bool_decide_eq_true_2, (mbind_run _ _ _ tt s eq_refl) by done.
    destruct (h =? 0); [|done]. by rewrite (mbind_run _ _ _ _ _ (store_mutex_run _ _ _ (curthr s) Hm)). }
  split; intros Hh.
  - subst h. cbn in E. split; [done|]. eapply kinv_mx; [done..|by left|]. intros. congruence.
  - rewrite (proj2 (Z.eqb_neq _ _) Hh) in E.
    destruct (sleep_on_sleeps fuel (MutexQ m) (CLock m) s) as (x & s1 & H); [done..|right; by exists m, h|].
    exists x, s1. by rewrite E.
Qed.

Lemma lock_cancellable_run fuel m h s x :
  kinv None s -> switched s = false -> mutexes s !! m = Some h -> h <> curthr s -> threads s !! curthr s = Some x ->
  (kt_cancelled x = true -> kmutex_lock_cancellable fuel m s = Ok (Returned (- EINTR), s)) /\
  (kt_cancelled x = false -> h = 0 ->
     kmutex_lock_cancellable fuel m s = Ok (Returned 0, upd_mutexes (<[m := curthr s]>) s) /\
     kinv None (upd_mutexes (<[m := curthr s]>) s)) /\
  (kt_cancelled x = false -> h <> 0 ->
     sleeps fuel (kmutex_lock_cancellable fuel m) s (MutexQ m) (CLockCancellable m) KT_SLEEP_CANCELLABLE).
Proof.
  intros K Hsw Hm Hne Hx. pose proof (cur_nonzero _ _ K) as Hc0. destruct (k_mx _ _ K _ _ Hm) as (Hm0 & Hq & _).
  assert (kmutex_lock_cancellable fuel m s =
    if kt_cancelled x then Ok (Returned (- EINTR), s)
    else if h =? 0 then Ok (Returned 0, upd_mutexes (<[m := curthr s]>) s)
    else (let! r := sched_cancellable_sleep_on_ fuel (MutexQ m) (CLockCancellable m) in
      match r with
      | Blocked | Again _ _ => mret_ r
      | Returned code => let! v := lock_cancellable_wakeup m code in mret_ (Returned v)
      end) s) as E.
  { unfold kmutex_lock_cancellable. rewrite (proj2 (Z.eqb_neq _ _) Hm0), (mbind_run _ _ _ tt s eq_refl).
    rewrite (mbind_run (mget _) _ _ (curthr s) s eq_refl), (mbind_run _ _ _ _ _ (load_mutex_run _ _ _ Hm)).
    rewrite (proj1 (holder_tests _ h Hc0)), bool_decide_eq_true_2, (mbind_run _ _ _ tt s eq_refl) by done.
    rewrite (mbind_run _ _ _ _ _ (load_thr_run _ _ _ Hx)). destruct (kt_cancelled x); [done|].
    destruct (h =? 0); [|done]. by rewrite (mbind_run _ _ _ _ _ (store_mutex_run _ _ _ (curthr s) Hm)). }
  split_and!; intros Hcan; rewrite Hcan in E; [done|intros -> |intros Hh; rewrite (proj2 (Z.eqb_neq _ _) Hh) in E].
  - cbn in E. split; [done|]. eapply kinv_mx; [done..|by left|]. intros. congruence.
  - destruct (cancellable_sleeps fuel (MutexQ m) (CLockCancellable m) s x) as [_ (x' & s1 & H1 & H2 & H3 & H4 & H5 & H6)];
      [done..|right; by exists m, h|done|].
    exists x', s1. rewrite E.
    split; [done|]. split; [done|]. split; [done|]. split; [done|]. split.
    + destruct H5 as [E5|(s' & E5 & F)]; [left; by apply mbind_err|right; exists s'; by rewrite (mbind_run _ _ _ _ _ E5)].
    + intros l t Hl Hf. destruct (H6 l t Hl Hf) as (s' & E' & F). exists s'. by rewrite (mbind_run _ _ _ _ _ E').
Qed.

(** Marking a thread as cancelled. *)
Lemma mark_kinv t s x : kinv None s -> switched s = false -> threads s !! t = Some x ->
  kinv None (upd_threads (<[t := with_cancelled x]>) s).
Proof.
  intros K Hsw Ht. pose proof (k_thr _ _ K _ _ Ht) as Hok.
  eapply kinv_step; [exact K|apply step_thr_store|by eapply qok_store; [apply K|..]|by eexists|done| | |].
  - unfold thr_ok in *. cbn. destruct (kt_wchan x) as [[]|]; try done. unfold ready in *. cbn in *.
    destruct (snd (kt_ctx x)); naive_solver.
  - intros -> _. destruct (k_cur _ _ K) as (xc & Hxc & Hcw & _). rewrite Ht in Hxc. simplify_eq. by apply Hcw.
  - intros m Hm. by apply (k_mx _ _ K m 0).
Qed.
(** Moving a cancelled thread from its queue to the run queue. *)
Lemma requeue_kinv t s s' x q l1 l2 :
  kinv None s -> switched s = false -> t <> curthr s -> threads s !! t = Some x -> kt_wchan x = Some q ->
  kt_state x = KT_SLEEP_CANCELLABLE -> kt_cancelled x = true -> items s q = l1 ++ t :: l2 ->
  step_thr s s' t (with_wchan (Some RunQ) true x) -> qok s' ->
  (forall q', q' <> q -> q' <> RunQ -> items s' q' = items s q') -> kinv None s'.
Proof.
  intros K Hsw Hcur Ht Hw Hst Hcan I1 T Q J.
  eapply kinv_step; [exact K|exact T|done|by eexists|done| |done|].
  - pose proof (k_thr _ _ K _ _ Ht) as H. unfold thr_ok in *. cbn in *. rewrite Hw in H. destruct q as [|m| |]; [done| |..].
    + destruct H as [(h & Hh & Hh0) [[-> Hs]|[-> _]]]; [cbn in Hs; congruence|]. right. by split; [eexists|].
    + destruct H as [H _]. cbn in H. by destruct (snd (kt_ctx x)).
    + destruct H as [H _]. cbn in H. by destruct (snd (kt_ctx x)).
  - intros m Hm. assert (items s (MutexQ m) = []) as E by (by apply (k_mx _ _ K m 0)).
    destruct (decide (q = MutexQ m)) as [->|Hnq]; [rewrite E in I1; by destruct l1|]. by rewrite J.
Qed.

(** Cancelling: a thread in a cancellable sleep becomes runnable; any other
    only gets the mark. *)
Lemma cancel_run t s x :
  kinv None s -> switched s = false -> threads s !! t = Some x ->
  (t = curthr s -> kt_state x <> KT_SLEEP_CANCELLABLE) ->
  exists s', sched_cancel t s = Ok (tt, s') /\ kinv None s' /\ mutexes s' = mutexes s /\ curthr s' = curthr s /\
    curproc s' = curproc s /\ switched s' = false /\
    (kt_state x <> KT_SLEEP_CANCELLABLE -> s' = upd_threads (<[t := with_cancelled x]>) s) /\
    (kt_state x = KT_SLEEP_CANCELLABLE -> exists q l1 l2, kt_wchan x = Some q /\ items s q = l1 ++ t :: l2 /\
       threads s' = <[t := with_wchan (Some RunQ) true (with_cancelled x)]> (threads s) /\
       items s' RunQ = t :: (if decide (q = RunQ) then l1 ++ l2 else items s RunQ) /\
       (q <> RunQ -> items s' q = l1 ++ l2)) /\
    step_thr s s' t (if decide (kt_state x = KT_SLEEP_CANCELLABLE) then with_wchan (Some RunQ) true (with_cancelled x) else with_cancelled x).
Proof.
  intros K Hsw Ht Hcur. unfold sched_cancel.
  assert (t <> 0) as Ht0 by (intros ->; rewrite (k_null _ _ K) in Ht; done).
  pose proof (k_thr _ _ K _ _ Ht) as Hok.
  rewrite (proj2 (Z.eqb_neq _ _) Ht0), (mbind_run _ _ _ tt s eq_refl), (mbind_run _ _ _ _ _ (store_thr_run _ _ _ _ Ht)).
  set (s0 := upd_threads _ s). assert (threads s0 !! t = Some (with_cancelled x)) as Ht1 by apply lookup_insert_eq.
  pose proof (mark_kinv t s x K Hsw Ht) as K0. fold s0 in K0.
  rewrite (mbind_run _ _ _ _ _ (load_thr_run _ _ _ Ht1)). cbn [kt_state with_cancelled].
  case_decide as Hst; [|exists s0; do 7 (split; [done|]); split; [intros ?; congruence|apply step_thr_store]].
  assert (exists q, kt_wchan x = Some q) as [q Hw].
  { unfold thr_ok in Hok. destruct (kt_wchan x); [eauto|]. naive_solver congruence. }
  cbn [kt_wchan with_cancelled]. rewrite Hw.
  destruct (remove_rel s0 q t (with_cancelled x)) as (s1 & l1 & l2 & E1 & T1 & Q1 & I1 & J1 & J2); [apply K0|done|done|].
  rewrite (mbind_run _ _ _ _ _ E1).
  assert (threads s1 !! t = Some (with_wchan None false (with_cancelled x))) as Ht2 by (rewrite (st_threads _ _ _ _ T1); apply lookup_insert_eq).
  destruct (make_runnable_rel s1 t (with_wchan None false (with_cancelled x)) Q1) as (s2 & E2 & T2 & Q2 & I2 & J3); [by apply (st_queues _ _ _ _ T1), K|done|exact Ht2|done|].
  rewrite E2. exists s2. split; [done|].
  assert (step_thr s0 s2 t (with_wchan (Some RunQ) true (with_cancelled x))) as T by (by eapply step_thr_trans).
  split.
  { eapply (requeue_kinv t s0); [done|done| |exact Ht1|done..|].
    - intros Htc. by destruct (Hcur Htc).
    - intros q' H1 H2. rewrite J3 by done. by apply J2. }
  split; [apply T|]. split; [apply T|]. split; [apply T|]. split; [by rewrite (st_switched _ _ _ _ T)|]. split; [done|].
  split; [|eapply step_thr_trans; [apply step_thr_store|exact T]]. destruct T as [ET EM EC EP EI ES EQ].
  intros _. exists q, l1, l2. split; [done|]. split; [done|]. split; [rewrite ET; unfold s0; cbn; by rewrite insert_insert_eq|].
  split; [rewrite I2; f_equal; case_decide as Hd; [rewrite <- Hd; done|rewrite J2 by congruence; done]|]. intros Hq. by rewrite J3.
Qed.

Lemma eintr_pos : 0 < EINTR.
Proof. pose proof errno_pos as H. rewrite Forall_forall in H. apply H. set_solver. Qed.

Lemma thr_ok_mono mx mx' cc cur t x :
  (forall m h, mx !! m = Some h -> mx' !! m = Some h) -> thr_ok mx cc cur t x -> thr_ok mx' cc cur t x.
Proof.
  intros Em H. unfold thr_ok in *. destruct (kt_wchan x) as [[|m'| |]|]; try done.
  - unfold ready in *. destruct (eff cc cur t x) as [| | |m'|m'| |]; try done; [by apply Em|].
    destruct H as [H|[[h H] Hx]]; [left; by apply Em|right]. split; [exists h; by apply Em|done].
  - destruct H as [(h & Hh & Hh0) H]. split; [|done]. exists h. split; [by apply Em|done].
Qed.
Lemma kmutex_init_run m s : kinv None s -> switched s = false -> m <> 0 -> mutexes s !! m = None -> queues s !! MutexQ m = None ->
  exists s', kmutex_init m s = Ok (tt, s') /\ kinv None s' /\ mutexes s' = <[m := 0]> (mutexes s) /\
    threads s' = threads s /\ curthr s' = curthr s /\ switched s' = false.
Proof.
  intros K Hsw Hm0 Hm Hq. unfold kmutex_init. rewrite (proj2 (Z.eqb_neq _ _) Hm0), (mbind_run _ _ _ tt s eq_refl).
  unfold sched_queue_init. eexists. split; [reflexivity|]. split; [|done].
  pose proof K as [[Q1 Q2 Q3 Q4] HR HN (xc & Hc & Hcw & Hcr) HT HM HI].
  set (s' := upd_mutexes _ _).
  assert (forall q, items s' q = items s q) as Ei.
  { intros q. unfold items, s'. cbn. destruct (decide (q = MutexQ m)) as [->|]; [|by rewrite lookup_insert_ne].
    rewrite lookup_insert_eq, Hq. apply items_empty. }
  assert (forall q, is_Some (queues s !! q) -> is_Some (queues s' !! q)) as Eq.
  { intros q [y Hy]. unfold s'. cbn. rewrite lookup_insert_ne by congruence. eauto. }
  assert (forall m' h, mutexes s !! m' = Some h -> mutexes s' !! m' = Some h) as Em.
  { intros m' h Hh. unfold s'. cbn. by rewrite lookup_insert_ne by congruence. }
  split; [split| | | | | |]; try (setoid_rewrite Ei); try done.
  - intros q y. unfold s'. cbn. destruct (decide (q = MutexQ m)) as [->|]; [|rewrite lookup_insert_ne by done; by apply Q2].
    rewrite lookup_insert_eq. intros [= <-]. cbn. unfold items. by rewrite Hq.
  - intros t x q Ht Hw. destruct (Q4 t x q Ht Hw) as [? ?]. split; [by apply Eq|done].
  - by apply Eq.
  - exists xc. split; [done|]. split; [done|]. unfold s'. cbn. by rewrite Hsw.
  - intros t x Ht. eapply thr_ok_mono; [exact Em|by apply HT].
  - intros m' h Hh. unfold s' in Hh. cbn in Hh. destruct (decide (m' = m)) as [->|].
    + split; [done|]. split; [unfold s'; cbn; rewrite lookup_insert_eq; eauto|]. intros _. unfold items. by rewrite Hq.
    + rewrite lookup_insert_ne in Hh by done. destruct (HM m' h Hh) as (? & ? & ?). split; [done|]. split; [by apply Eq|done].
  - intros n q Hn. destruct (HI n q Hn). split; [done|by apply Eq].
Qed.

(** ** Coming back *)
(** What the code that runs after a context switch guarantees, by the call
    that went to sleep. *)
Definition resumed s s' (x : kthread) (r : kres) : Prop :=
  match snd (kt_ctx x) with
  | CLock m => r = Returned 0 /\ mutexes s' !! m = Some (curthr s) /\ mutexes s' = mutexes s
  | CLockCancellable m =>
      (r = Returned 0 /\ kt_cancelled x = false /\ mutexes s' !! m = Some (curthr s) /\ mutexes s' = mutexes s) \/
      (r = Returned (- EINTR) /\ kt_cancelled x = true /\ mutexes s' !! m <> Some (curthr s) /\
       exists h, mutexes s' = <[m := h]> (mutexes s) /\
         (mutexes s !! m <> Some (curthr s) -> mutexes s' = mutexes s))
  | CSleepCancellable => r = Returned (if kt_cancelled x then - EINTR else 0) /\ mutexes s' = mutexes s
  | CWaitpid pid status => r = Again pid status /\ mutexes s' = mutexes s
  | _ => r = Returned 0 /\ mutexes s' = mutexes s
  end.

Lemma cancellable_wakeup_run s x : threads s !! curthr s = Some x ->
  cancellable_wakeup s = Ok (if kt_cancelled x then - EINTR else 0, s).
Proof.
  intros Hx. unfold cancellable_wakeup. rewrite (mbind_run (mget _) _ s (curthr s) s eq_refl).
  by rewrite (mbind_run _ _ _ _ _ (load_thr_run _ _ _ Hx)).
Qed.
(** A cancelled thread that was handed the mutex passes it on. *)
Lemma lock_wakeup_run m h s : kinv None s -> switched s = false -> mutexes s !! m = Some h ->
  lock_cancellable_wakeup m 0 s = Ok (0, s) /\
  exists s' h', lock_cancellable_wakeup m (- EINTR) s = Ok (- EINTR, s') /\ kinv None s' /\ switched s' = false /\
    curthr s' = curthr s /\ h' <> curthr s /\ mutexes s' = <[m := h']> (mutexes s) /\ (h <> curthr s -> s' = s).
Proof.
  intros K Hsw Hh. pose proof eintr_pos. unfold lock_cancellable_wakeup.
  rewrite (proj2 (Z.eqb_neq _ _)), Z.eqb_refl by lia. split; [done|].
  destruct (decide (h = curthr s)) as [->|Hne].
  - destruct (unlock_run m s K Hsw Hh) as (s2 & h' & E & K2 & _ & Em & Ec & _ & Es & Hn & _). exists s2, h'.
    rewrite (mbind_run (mget _) _ s (curthr s) s eq_refl), (mbind_run _ _ _ _ _ (load_mutex_run _ _ _ Hh)), Z.eqb_refl.
    by rewrite (mbind_run _ _ _ _ _ E).
  - exists s, h. rewrite (mbind_run (mget _) _ s (curthr s) s eq_refl), (mbind_run _ _ _ _ _ (load_mutex_run _ _ _ Hh)).
    rewrite (proj2 (Z.eqb_neq _ _) Hne). do 5 (split; [done|]). by rewrite insert_id.
Qed.

Lemma resume_run s x : kinv None s -> switched s = true -> threads s !! curthr s = Some x ->
  exists r s', resume s = Ok (r, s') /\ kinv None s' /\ switched s' = false /\ curthr s' = curthr s /\ resumed s s' x r.
Proof.
  intros K Hsw Hx. unfold resume, resumed.
  rewrite (mbind_run (mget _) _ _ (curthr s) s eq_refl), (mbind_run _ _ _ _ _ (load_thr_run _ _ _ Hx)).
  rewrite (mbind_run (mput _) _ _ tt (set_ipl (fst (kt_ctx x)) s) eq_refl).
  rewrite (mbind_run (mget curproc) _ (set_ipl (fst (kt_ctx x)) s) (curproc s) _ eq_refl).
  set (s1 := set_cur (curthr s) (curproc s) false (set_ipl (fst (kt_ctx x)) s)).
  rewrite (mbind_run (mput _) _ _ tt s1 eq_refl).
  assert (kinv None s1) as K1.
  { destruct K as [Q ? ? (xc & ? & ? & ?) ? ? ?]. split; try done; [by apply (qok_frame s)|]. by exists xc. }
  assert (threads s1 !! curthr s1 = Some x) as Hx1 by done.
  destruct (k_cur _ _ K) as (x' & Hx' & _ & Hr). rewrite Hx in Hx'. simplify_eq. specialize (Hr Hsw).
  destruct (snd (kt_ctx x')) as [| | |m|m|pid st|]; cbn in Hr; try done; try (by eexists _, s1; eauto 6);
    rewrite (mbind_run _ _ _ _ _ (cancellable_wakeup_run s1 x' Hx1)).
  - by eexists _, s1.
  - assert (is_Some (mutexes s !! m)) as [h Hh] by (destruct Hr as [-> |[? _]]; eauto).
    destruct (lock_wakeup_run m h s1 K1 eq_refl Hh) as [E0 (s2 & h' & E & K2 & Es & Ec & Hn & Em & Hs)].
    destruct (kt_cancelled x') eqn:Hcan.
    + rewrite (mbind_run _ _ _ _ _ E). eexists _, s2. split; [done|]. split; [done|]. split; [done|]. split; [done|].
      right. do 2 (split; [done|]). rewrite Em, lookup_insert_eq. split; [by intros [= ?]|]. exists h'. split; [done|].
      rewrite Hh. intros Hne. rewrite <- Em, Hs; [done|]. cbn. congruence.
    + rewrite (mbind_run _ _ _ _ _ E0). eexists _, s1. split; [done|]. do 3 (split; [done|]). left. naive_solver.
Qed.

(** ** Interleaved execution

    The calls that threads make, one at a time: the current thread makes any
    call, or, when it has just been switched to, finishes the one it was
    sleeping in. *)
Inductive kop :=
| OInit (m : Z) | OLock (m : Z) | OLockCancellable (m : Z) | OUnlock (m : Z)
| OSleep (q : qid) | OSleepCancellable (q : qid) | OWakeup (q : qid) | OBroadcast (q : qid)
| OCancel (t : Z) | OResume.

Definition run_kop (fuel : nat) (op : kop) : M ks kres :=
  match op with
  | OInit m => kmutex_init m ;;; mret_ (Returned 0)
  | OLock m => kmutex_lock fuel m
  | OLockCancellable m => kmutex_lock_cancellable fuel m
  | OUnlock m => kmutex_unlock m ;;; mret_ (Returned 0)
  | OSleep q => sched_sleep_on fuel q
  | OSleepCancellable q => sched_cancellable_sleep_on fuel q
  | OWakeup q => let! t := sched_wakeup_on q in mret_ (Returned t)
  | OBroadcast q => sched_broadcast_on q ;;; mret_ (Returned 0)
  | OCancel t => sched_cancel t ;;; mret_ (Returned 0)
  | OResume => resume
  end.

(** The calls the comments of the files allow: a mutex is initialised once,
    locked by a thread that does not hold it and unlocked by its holder; the
    queues of mutexes are used by kmutex.c only; a thread other than the
    current one (which would exit instead) is cancelled. *)
Definition kop_pre s (op : kop) : Prop :=
  match op with
  | OResume => switched s = true
  | op => switched s = false /\
    match op with
    | OInit m => m <> 0 /\ mutexes s !! m = None /\ queues s !! MutexQ m = None
    | OLock m | OLockCancellable m => exists h, mutexes s !! m = Some h /\ h <> curthr s
    | OUnlock m => mutexes s !! m = Some (curthr s)
    | OSleep q | OSleepCancellable q | OBroadcast q => plainq q /\ is_Some (queues s !! q)
    | OWakeup q => plainq q /\ items s q <> []
    | OCancel t => t <> curthr s /\ is_Some (threads s !! t)
    | OResume => True
    end
  end.

(** Which threads own which mutexes, from the results of their calls: a lock
    call that returned 0 gives the mutex, the unlock call takes it away. *)
Definition own_after (op : kop) (cur : Z) (c : kcont) (r : kres) (own : gset (Z * Z)) : gset (Z * Z) :=
  let lock m := match r with
    | Returned v => if v =? 0 then {[ (cur, m) ]} ∪ own else own ∖ {[ (cur, m) ]}
    | _ => own
    end in
  match op with
  | OLock m | OLockCancellable m => lock m
  | OUnlock m => own ∖ {[ (cur, m) ]}
  | OResume => match c with CLock m | CLockCancellable m => lock m | _ => own end
  | _ => own
  end.
Definition owns_ok s (own : gset (Z * Z)) : Prop :=
  forall t m, (t, m) ∈ own -> t <> 0 /\ mutexes s !! m = Some t.

(** The outcome of a call: it is carried out, or nothing is runnable and the
    processor waits for interrupts. *)
Definition op_outcome (fuel : nat) (op : kop) s (c : kcont) : Prop :=
  (run_kop fuel op s = Err FFuel /\ (fuel = O \/ items s RunQ = [])) \/
  exists r s', run_kop fuel op s = Ok (r, s') /\ kinv None s' /\
    forall own, owns_ok s own -> owns_ok s' (own_after op (curthr s) c r own).

Lemma owns_same s s' own : mutexes s' = mutexes s -> owns_ok s own -> owns_ok s' own.
Proof. unfold owns_ok. by intros ->. Qed.
Lemma owns_acquire s s' m own : mutexes s !! m = Some 0 -> curthr s <> 0 ->
  mutexes s' = <[m := curthr s]> (mutexes s) -> owns_ok s own -> owns_ok s' ({[ (curthr s, m) ]} ∪ own).
Proof.
  intros Hm H0 E H t m' Hin. rewrite E. apply elem_of_union in Hin as [Hin|Hin].
  - apply elem_of_singleton in Hin as [= -> ->]. by rewrite lookup_insert_eq.
  - destruct (H t m' Hin) as [Ht Hm']. rewrite lookup_insert_ne; [done|]. intros ->. congruence.
Qed.
Lemma owns_hold s s' m own : mutexes s !! m = Some (curthr s) -> curthr s <> 0 ->
  mutexes s' = mutexes s -> owns_ok s own -> owns_ok s' ({[ (curthr s, m) ]} ∪ own).
Proof.
  intros Hm H0 E H t m' Hin. rewrite E. apply elem_of_union in Hin as [Hin|Hin]; [|by apply H].
  by apply elem_of_singleton in Hin as [= -> ->].
Qed.
Lemma owns_release s s' m h own :
  (mutexes s !! m <> Some (curthr s) -> mutexes s' = mutexes s) ->
  mutexes s' = <[m := h]> (mutexes s) -> owns_ok s own -> owns_ok s' (own ∖ {[ (curthr s, m) ]}).
Proof.
  intros Hs E H t m' Hin. apply elem_of_difference in Hin as [Hin Hne]. destruct (H t m' Hin) as [Ht Hm'].
  split; [done|]. destruct (decide (m' = m)) as [->|]; [|by rewrite E, lookup_insert_ne].
  rewrite Hs; [done|]. rewrite Hm'. intros [= ->]. apply Hne. by apply elem_of_singleton.
Qed.

Lemma sleeps_outcome fuel op s q c st c' :
  sleeps fuel (run_kop fuel op) s q c st -> q <> RunQ -> (forall own, own_after op (curthr s) c' Blocked own = own) ->
  op_outcome fuel op s c'.
Proof.
  intros (x & s1 & Hx & T & I1 & I2 & H5 & H6) Hq Ho.
  assert (forall s', run_kop fuel op s = Ok (Blocked, s') -> switched_from s1 s' c -> op_outcome fuel op s c') as Hok.
  { intros s' E F. right. exists Blocked, s'. split; [done|]. split; [apply F|]. intros own H. rewrite Ho.
    eapply owns_same; [|done]. by rewrite (sw_mx _ _ _ F), (st_mutexes _ _ _ _ T). }
  destruct H5 as [E|(s' & E & F)]; [|by eapply Hok].
  destruct (items s RunQ) as [|t l _] eqn:Hi using rev_ind; [left; by auto|].
  destruct fuel as [|fuel]; [left; by auto|]. destruct (H6 l t eq_refl) as (s' & E' & _); [done|]. congruence.
Qed.

Lemma op_run fuel op s x : kinv None s -> kop_pre s op -> threads s !! curthr s = Some x ->
  op_outcome fuel op s (snd (kt_ctx x)).
Proof.
  intros K Hp Hx. pose proof (cur_nonzero _ _ K) as H0. pose proof eintr_pos.
  assert (- EINTR =? 0 = false) as HE by (apply Z.eqb_neq; lia).
  destruct op as [m|m|m|m|q|q|q|q|t|]; [destruct Hp as [Hsw Hp]..|].
  - destruct Hp as (Hm0 & Hm & Hq). destruct (kmutex_init_run m s) as (s' & E & K' & Em & _); [done..|].
    right. eexists _, s'. cbn. rewrite (mbind_run _ _ _ _ _ E). split; [done|]. split; [done|].
    intros own H1 t m' Hin. destruct (H1 t m' Hin). rewrite Em, lookup_insert_ne by congruence. done.
  - destruct Hp as (h & Hm & Hne). destruct (lock_run fuel m h s) as [L1 L2]; [done..|]. destruct (decide (h = 0)) as [->|Hh].
    + destruct (L1 eq_refl) as [E K']. right. eexists _, _. split; [exact E|]. split; [done|]. intros own. by apply owns_acquire.
    + by eapply (sleeps_outcome _ (OLock m)); [by apply L2|..].
  - destruct Hp as (h & Hm & Hne). destruct (lock_cancellable_run fuel m h s x) as (L0 & L1 & L2); [done..|].
    destruct (kt_cancelled x) eqn:Hcan; [|destruct (decide (h = 0)) as [->|Hh]].
    + right. eexists _, s. split; [by apply L0|]. split; [done|]. intros own Ho. cbn. rewrite HE. intros t m' Hin. apply Ho. set_solver.
    + destruct L1 as [E K']; [done..|]. right. eexists _, _. split; [exact E|]. split; [done|]. intros own. by apply owns_acquire.
    + by eapply (sleeps_outcome _ (OLockCancellable m)); [by apply L2|..].
  - destruct (unlock_run m s) as (s' & h' & E & K' & _ & Em & _); [done..|]. right. eexists _, s'. cbn.
    rewrite (mbind_run _ _ _ _ _ E). split; [done|]. split; [done|]. intros own. by eapply owns_release.
  - destruct Hp as [Hpq Hq]. assert (q <> RunQ) by (by intros ->).
    eapply (sleeps_outcome _ (OSleep q)); [apply sleep_on_sleeps; try done; by left|done|done].
  - destruct Hp as [Hpq Hq]. assert (q <> RunQ) by (by intros ->).
    destruct (cancellable_sleeps fuel q CSleepCancellable s x) as [L0 L1]; [done..|by left|].
    destruct (kt_cancelled x) eqn:Hcan; [|by eapply (sleeps_outcome _ (OSleepCancellable q)); [by apply L1|..]].
    right. eexists _, s. split; [by apply L0|]. done.
  - destruct Hp as [Hpq Hq]. destruct (items s q) as [|t l _] eqn:Hi using rev_ind; [done|].
    destruct (wakeup_kinv None s q t l) as (s' & y & E & K' & _ & T & _); [done..|]. right. eexists _, s'. cbn.
    rewrite (mbind_run _ _ _ _ _ E). split; [done|]. split; [done|]. intros own. apply owns_same, (st_mutexes _ _ _ _ T).
  - destruct Hp as [Hpq Hq]. destruct (broadcast_kinv None q s) as (s' & E & K' & W & _); [done..|]. right. eexists _, s'. cbn.
    rewrite (mbind_run _ _ _ _ _ E). split; [done|]. split; [done|]. intros own. apply owns_same, (w_mx _ _ W).
  - destruct Hp as [Hne [y Hy]]. destruct (cancel_run t s y) as (s' & E & K' & Em & _); [done..|]. right. eexists _, s'. cbn.
    rewrite (mbind_run _ _ _ _ _ E). split; [done|]. split; [done|]. intros own. by apply owns_same.
  - destruct (resume_run s x) as (r & s' & E & K' & _ & _ & R); [done..|]. right. exists r, s'. split; [done|]. split; [done|].
    intros own Ho. unfold resumed in R. cbn. destruct (snd (kt_ctx x)) as [| | |m|m|pid st|]; try (by eapply owns_same; [apply R|]).
    + destruct R as (-> & R1 & R2). cbn. eapply owns_hold; [congruence|done..].
    + destruct R as [(-> & _ & R1 & R2)|(-> & _ & R1 & h & R2 & R3)]; cbn; [eapply owns_hold; [congruence|done..]|].
      rewrite HE. by eapply owns_release.
Qed.

(** States reached by the calls of the threads from [s0], with the ownership
    their results describe. *)
Inductive kreach (s0 : ks) : ks -> gset (Z * Z) -> Prop :=
| kreach_init : kreach s0 s0 ∅
| kreach_step s own fuel op x r s' : kreach s0 s own -> kop_pre s op ->
    threads s !! curthr s = Some x -> run_kop fuel op s = Ok (r, s') ->
    kreach s0 s' (own_after op (curthr s) (snd (kt_ctx x)) r own).

Lemma kreach_inv s0 s own : kinv None s0 -> kreach s0 s own -> kinv None s /\ owns_ok s own.
Proof.
  intros K0. induction 1 as [|s own fuel op x r s' _ [K Ho] Hp Hx E].
  - split; [done|]. intros t m Hin. set_solver.
  - destruct (op_run fuel op s x K Hp Hx) as [[E' _]|(r' & s'' & E' & K' & Ho')]; [congruence|].
    rewrite E in E'. simplify_eq. auto.
Qed.

(** C27: Any call the kernel's rules allow, made in a state that satisfies the
    invariant of the scheduler (queues, sizes and wait channels agree, a free
    mutex has no waiters, a runnable thread that waited for a mutex holds it or
    was cancelled, no thread is lost), is carried out without a failed
    assertion or an undefined operation and restores the invariant; a call
    that sleeps can only keep waiting for interrupts, and only when no thread
    is runnable. *)
Theorem sched_step_safe fuel op s :
  kinv None s -> kop_pre s op ->
  (run_kop fuel op s = Err FFuel /\ (fuel = O \/ items s RunQ = [])) \/
  exists r s', run_kop fuel op s = Ok (r, s') /\ kinv None s'.
Proof.
  intros K Hp. destruct (k_cur _ _ K) as (x & Hx & _).
  destruct (op_run fuel op s x K Hp Hx) as [?|(r & s' & ? & ? & _)]; eauto.
Qed.

(** C28: Mutual exclusion: however the calls of the threads are interleaved,
    two threads that own a mutex (their lock call returned 0 and they have
    not unlocked it since) are the same thread, and it is [km_holder]. *)
Theorem kmutex_mutual_exclusion s0 s own m t t' :
  kinv None s0 -> kreach s0 s own -> (t, m) ∈ own -> (t', m) ∈ own ->
  t = t' /\ mutexes s !! m = Some t.
Proof.
  intros K0 R H1 H2. destruct (kreach_inv s0 s own K0 R) as [_ Ho].
  destruct (Ho t m H1) as [_ E1]. destruct (Ho t' m H2) as [_ E2]. by simplify_eq.
Qed.

(** [kmutex_lock] takes a free mutex at once and nothing else changes;
    when another thread holds it, the current thread goes to the end of the
    mutex's queue and the oldest runnable thread runs next. *)
Theorem kmutex_lock_correct fuel m h s :
  kinv None s -> switched s = false -> mutexes s !! m = Some h -> h <> curthr s ->
  (h = 0 -> kmutex_lock fuel m s = Ok (Returned 0, upd_mutexes (<[m := curthr s]>) s) /\
     kinv None (upd_mutexes (<[m := curthr s]>) s)) /\
  (h <> 0 -> sleeps fuel (kmutex_lock fuel m) s (MutexQ m) (CLock m) KT_SLEEP).
Proof. apply lock_run. Qed.

(** [kmutex_unlock] by the holder hands the mutex to the thread that has
    waited longest, which becomes runnable and leaves the queue, or frees the
    mutex when nobody waits; the current thread keeps running. *)
Theorem kmutex_unlock_correct m s :
  kinv None s -> switched s = false -> mutexes s !! m = Some (curthr s) ->
  exists s' h', kmutex_unlock m s = Ok (tt, s') /\ kinv None s' /\ h' = default 0 (last (items s (MutexQ m))) /\
    mutexes s' = <[m := h']> (mutexes s) /\ curthr s' = curthr s /\ curproc s' = curproc s /\ switched s' = false /\
    h' <> curthr s /\
    (items s (MutexQ m) = [] -> s' = upd_mutexes (<[m := 0]>) s) /\
    (forall l, items s (MutexQ m) = l ++ [h'] -> items s' (MutexQ m) = l /\ items s' RunQ = h' :: items s RunQ /\
       exists x, threads s !! h' = Some x /\ threads s' = <[h' := woken x]> (threads s)).
Proof. apply unlock_run. Qed.

(** [sched_cancel] marks the thread; a thread in a cancellable sleep is
    also taken off its queue (leaving the others in order) and put on the run
    queue, still in state [KT_SLEEP_CANCELLABLE]; any other thread stays
    where it is. *)
Theorem sched_cancel_correct t s x :
  kinv None s -> switched s = false -> threads s !! t = Some x ->
  (t = curthr s -> kt_state x <> KT_SLEEP_CANCELLABLE) ->
  exists s', sched_cancel t s = Ok (tt, s') /\ kinv None s' /\ mutexes s' = mutexes s /\ curthr s' = curthr s /\
    curproc s' = curproc s /\ switched s' = false /\
    (kt_state x <> KT_SLEEP_CANCELLABLE -> s' = upd_threads (<[t := with_cancelled x]>) s) /\
    (kt_state x = KT_SLEEP_CANCELLABLE -> exists q l1 l2, kt_wchan x = Some q /\ items s q = l1 ++ t :: l2 /\
       threads s' = <[t := with_wchan (Some RunQ) true (with_cancelled x)]> (threads s) /\
       items s' RunQ = t :: (if decide (q = RunQ) then l1 ++ l2 else items s RunQ) /\
       (q <> RunQ -> items s' q = l1 ++ l2)).
Proof. intros K Hsw Ht Hc. destruct (cancel_run t s x K Hsw Ht Hc) as (s' & H). exists s'. tauto. Qed.

(** After the context switch back, [kmutex_lock] returns only to the
    holder of the mutex; [kmutex_lock_cancellable] returns 0 to the holder
    and [-EINTR] to a cancelled thread, which no longer holds the mutex even
    if it had been handed over to it. *)
Theorem resume_correct s x : kinv None s -> switched s = true -> threads s !! curthr s = Some x ->
  exists r s', resume s = Ok (r, s') /\ kinv None s' /\ switched s' = false /\ curthr s' = curthr s /\ resumed s s' x r.
Proof. apply resume_run. Qed.
End Invariant.

(** ** Witnesses *)
Module Examples.
#[local] Existing Instance seq_klist.
#[local] Existing Instance weenix_errno.
#[local] Instance list_klink : KLink.
Proof. by refine {| link_initialised := true; link_inserted := true; link_removed := false |}. Defined.
#[local] Instance disk_intr : KIntr := {| IPL_LOW := 0; IPL_HIGH := 46; intr_wait := fun _ => [OtherQ 7] |}.

Definition thr (st : kt_state_t) (w : option qid) (c : kcont) (can : bool) : kthread :=
  mkThread st w (bool_decide (w <> None)) can 0 1 4096 (0, c).
(** Thread 1 runs and holds mutex 10, for which 2 waits; 3 is runnable and
    holds mutex 12; 4 sleeps on a device queue; mutex 11 is free. *)
Definition ex : ks :=
  mkKs _
    (<[1 := thr KT_RUN None CStart false]>
      (<[2 := thr KT_SLEEP (Some (MutexQ 10)) (CLock 10) false]>
      (<[3 := thr KT_RUN (Some RunQ) CStart false]>
      (<[4 := thr KT_SLEEP_CANCELLABLE (Some (OtherQ 7)) CSleepCancellable false]> ∅))))
    (<[RunQ := mkQueue seq_klist [3] 1]>
      (<[MutexQ 10 := mkQueue seq_klist [2] 1]>
      (<[MutexQ 11 := mkQueue seq_klist [] 0]>
      (<[MutexQ 12 := mkQueue seq_klist [] 0]>
      (<[OtherQ 7 := mkQueue seq_klist [4] 1]> ∅)))))
    (<[10 := 1]>
      (<[11 := 0]>
      (<[12 := 3]> ∅))) 1 1 0 false 0.

Ltac listed H :=
  cbn [queues threads mutexes] in H;
  repeat (rewrite lookup_insert_Some in H; destruct H as [[<- <-]|[_ H]]); [..|by rewrite lookup_empty in H].

Lemma ex_qok : qok ex.
Proof.
  split.
  - intros q. unfold items. destruct (queues ex !! q) as [y|] eqn:Hy; [|constructor]. unfold ex in Hy; listed Hy; cbn; repeat constructor; set_solver.
  - intros q y Hy. unfold items. rewrite Hy. by unfold ex in Hy; listed Hy.
  - intros q t. split.
    + unfold items. destruct (queues ex !! q) as [y|] eqn:Hy; [|by intros ?%not_elem_of_nil].
      unfold ex in Hy; listed Hy; cbn; rewrite ?list_elem_of_singleton, ?elem_of_nil; try done; intros ->; by eexists.
    + intros (x & Hx & Hw). unfold ex in Hx; listed Hx; cbn in Hw; simplify_eq; vm_compute; set_solver.
  - intros t x q Hx Hw. unfold ex in Hx; listed Hx; cbn in Hw; simplify_eq; (split; [by eexists|done]).
Qed.
Lemma ex_kinv : kinv None ex.
Proof.
  split; [apply ex_qok|by eexists|done| | | |].
  - eexists. split; [done|]. split; done.
  - intros t x Hx. unfold ex in Hx; listed Hx; first [by left | done | by (split; [by exists 1|left]) | by (split; [done|right])].
  - intros m h Hm. unfold ex in Hm; listed Hm; (split; [done|]); (split; [by eexists|]); vm_compute; done.
  - intros n q Hq. cbn in Hq. apply list_elem_of_singleton in Hq as ->. split; [done|by eexists].
Qed.

(** Threads on no queue. *)
Definition ex0 : ks :=
  mkKs _ (<[1 := thr KT_RUN None CStart false]>
      (<[2 := thr KT_RUN None CStart false]> ∅))
    (<[RunQ := mkQueue seq_klist [] 0]> ∅) ∅ 1 1 0 false 0.
Lemma ex0_qok : qok ex0.
Proof.
  split.
  - intros q. unfold items. destruct (queues ex0 !! q) as [y|] eqn:Hy; [|constructor]. unfold ex0 in Hy; listed Hy; cbn; constructor.
  - intros q y Hy. unfold items. rewrite Hy. by unfold ex0 in Hy; listed Hy.
  - intros q t. split.
    + unfold items. destruct (queues ex0 !! q) as [y|] eqn:Hy; [|by intros ?%not_elem_of_nil].
      unfold ex0 in Hy; listed Hy; cbn. by intros ?%not_elem_of_nil.
    + intros (x & Hx & Hw). unfold ex0 in Hx; listed Hx; cbn in Hw; simplify_eq.
  - intros t x q Hx Hw. unfold ex0 in Hx; listed Hx; cbn in Hw; simplify_eq.
Qed.

Lemma ktqueue_fifo_witness : exists s', run_qops RunQ [QEnq 2; QEnq 1; QDeq; QDeq; QDeq] ex0 = Ok ([2; 1; 0], s') /\ qok s'.
Proof.
  destruct (ktqueue_fifo RunQ [QEnq 2; QEnq 1; QDeq; QDeq; QDeq] ex0 [2; 1; 0] []) as (s' & E & Q & _).
  - apply ex0_qok.
  - by eexists.
  - intros t Ht. cbn in Ht. rewrite !elem_of_cons, elem_of_nil in Ht. destruct Ht as [-> |[-> |[]]];
      (eexists; split; [reflexivity|by left]).
  - reflexivity.
  - eauto.
Defined.

Lemma sched_step_safe_witness : exists r s', run_kop 1 (OLock 12) ex = Ok (r, s') /\ kinv None s'.
Proof.
  destruct (sched_step_safe 1 (OLock 12) ex) as [[_ [E|E]]|H].
  - apply ex_kinv.
  - split; [done|]. by exists 3.
  - done.
  - done.
  - exact H.
Defined.

(** 1 takes mutex 11 and gives up mutex 10. *)
Definition ex_locked : ks := upd_mutexes (<[11 := 1]>) ex.
Lemma kmutex_mutual_exclusion_witness : mutexes ex_locked !! 11 = Some 1.
Proof.
  apply (kmutex_mutual_exclusion ex ex_locked ({[ (1, 11) ]} ∪ ∅) 11 1 1).
  - apply ex_kinv.
  - refine (kreach_step ex ex ∅ 1 (OLock 11) _ (Returned 0) ex_locked _ _ _ _);
      [constructor|by split; [|exists 0]|reflexivity|reflexivity].
  - set_solver.
  - set_solver.
Defined.

Lemma kmutex_lock_correct_witness :
  kmutex_lock 1 11 ex = Ok (Returned 0, upd_mutexes (<[11 := 1]>) ex) /\
  sleeps 1 (kmutex_lock 1 12) ex (MutexQ 12) (CLock 12) KT_SLEEP.
Proof.
  split.
  - apply (kmutex_lock_correct 1 11 0 ex); [apply ex_kinv|done..].
  - apply (kmutex_lock_correct 1 12 3 ex); [apply ex_kinv|done..].
Defined.

Lemma kmutex_unlock_correct_witness : exists s', kmutex_unlock 10 ex = Ok (tt, s') /\ mutexes s' !! 10 = Some 2.
Proof.
  destruct (kmutex_unlock_correct 10 ex) as (s' & h' & E & _ & Hh & Em & _); [apply ex_kinv|done..|].
  exists s'. split; [done|]. rewrite Em, lookup_insert_eq, Hh. reflexivity.
Defined.

Lemma sched_cancel_correct_witness : exists s', sched_cancel 4 ex = Ok (tt, s') /\ items s' RunQ = [4; 3].
Proof.
  destruct (sched_cancel_correct 4 ex (thr KT_SLEEP_CANCELLABLE (Some (OtherQ 7)) CSleepCancellable false))
    as (s' & E & _ & _ & _ & _ & _ & _ & H); [apply ex_kinv|done..|].
  destruct (H eq_refl) as (q & l1 & l2 & Hw & _ & _ & Hr & _). exists s'. split; [done|].
  injection Hw as <-. exact Hr.
Defined.

(** The thread that waited for mutex 10 runs after being made its holder. *)
Definition ex_back : ks :=
  mkKs _ (<[2 := thr KT_RUN None (CLock 10) false]> ∅)
    (<[RunQ := mkQueue seq_klist [] 0]>
      (<[MutexQ 10 := mkQueue seq_klist [] 0]>
      (<[OtherQ 7 := mkQueue seq_klist [] 0]> ∅)))
    (<[10 := 2]> ∅) 2 1 0 true 0.
Lemma ex_back_kinv : kinv None ex_back.
Proof.
  split; [split| | | | | |].
  - intros q. unfold items. destruct (queues ex_back !! q) as [y|] eqn:Hy; [|constructor]. unfold ex_back in Hy; listed Hy; cbn; constructor.
  - intros q y Hy. unfold items. rewrite Hy. by unfold ex_back in Hy; listed Hy.
  - intros q t. split.
    + unfold items. destruct (queues ex_back !! q) as [y|] eqn:Hy; [|by intros ?%not_elem_of_nil].
      unfold ex_back in Hy; listed Hy; cbn; by intros ?%not_elem_of_nil.
    + intros (x & Hx & Hw). unfold ex_back in Hx; listed Hx; cbn in Hw; simplify_eq.
  - intros t x q Hx Hw. unfold ex_back in Hx; listed Hx; cbn in Hw; simplify_eq.
  - by eexists.
  - done.
  - eexists. split; [done|]. split; done.
  - intros t x Hx. unfold ex_back in Hx; listed Hx. by left.
  - intros m h Hm. unfold ex_back in Hm; listed Hm. split; [done|]. split; [by eexists|]. done.
  - intros n q Hq. cbn in Hq. apply list_elem_of_singleton in Hq as ->. split; [done|by eexists].
Qed.
Lemma resume_correct_witness : exists s', resume ex_back = Ok (Returned 0, s') /\ mutexes s' !! 10 = Some 2.
Proof.
  destruct (resume_correct ex_back (thr KT_RUN None (CLock 10) false)) as (r & s' & E & _ & _ & _ & R); [apply ex_back_kinv|done..|].
  destruct R as (-> & R & _). eauto.
Defined.
End Examples.
