(* ===== verification/Proc.v ===== *)
(** * proc/proc.c and proc/kthread.c: processes and threads

    A process has at most one thread (the kernel is built without [__MTP__]),
    a parent and children, and holds resources: open files, a working
    directory, an address space, a page directory and the kernel stack of its
    thread.  The file models creation, exit, cancellation and waiting on top
    of the scheduler of [Sched]: a state of processes contains the state of
    the scheduler, and the calls that sleep or exit end in a context switch.

    What processes do to their resources is the interface [ProcRes]; its
    predicate [holds] lists, with multiplicity, what is held. *)
From stdpp Require Import base gmap list fin_maps strings.
From Stdlib Require Import ZArith Lia Ascii.
From S2P Require Import Prelude KEnv Sched.
Open Scope Z_scope.
Open Scope c_scope.

(** ** Parameters *)
(** The constants of proc.h and config.h. *)
Class ProcConsts := {
  PROC_MAX_COUNT : Z; PROC_NAME_LEN : Z; NFILES : Z; DEFAULT_STACK_SIZE : Z; PID_IDLE : Z; PID_INIT : Z;
  proc_max_range : 1 < PROC_MAX_COUNT < 2 ^ 31;
  pid_idle_init : PID_IDLE = 0 /\ PID_INIT = 1;
  nfiles_nonneg : 0 <= NFILES;
}.

(** The machine context of a thread.  [context_setup] makes one that starts in
    a function; [start_ipl] is the interrupt level a new thread starts with. *)
Record kctx := mkCtx { c_pdptr : Z; c_eip : Z; c_esp : Z; c_kstack : Z; c_kstacksz : Z }.
Class Contexts := {
  context_setup : Z -> Z -> Z -> Z -> Z -> Z -> kctx;
  start_ipl : Z;
  context_setup_fields f a b k n pd : let c := context_setup f a b k n pd in
    c_pdptr c = pd /\ c_kstack c = k /\ c_kstacksz c = n;
}.

(** A reference to a vnode or an open file, an address space, a page directory,
    a kernel stack. *)
Inductive hold := HVnode (v : Z) | HFile (f : Z) | HMap (m : Z) | HPagedir (d : Z) | HStack (k : Z).
#[export] Instance hold_eq_dec : EqDecision hold.
Proof. solve_decision. Defined.

(** The operations on resources.  [set_vmm_proc m p] is [m->vmm_proc = p];
    [obj_keeps] says whether an object can still be read after
    [slab_obj_free] and before the next allocation. *)
Class ProcRes := {
  rst : Type;
  vref : Z -> M rst unit;
  vput : Z -> M rst unit;
  fref : Z -> M rst unit;
  fput : Z -> M rst unit;
  vmmap_create : M rst Z;
  set_vmm_proc : Z -> Z -> M rst unit;
  vmmap_destroy : Z -> M rst unit;
  pt_create_pagedir : M rst Z;
  pt_destroy_pagedir : Z -> M rst unit;
  page_alloc_n : Z -> M rst Z;
  page_free_n : Z -> Z -> M rst unit;
  obj_keeps : bool;
  holds : rst -> list hold -> Prop;
  holds_perm s R R' : Permutation R R' -> holds s R -> holds s R';
  vref_ok s R v : holds s R -> HVnode v ∈ R -> exists s', vref v s = Ok (tt, s') /\ holds s' (HVnode v :: R);
  vput_ok s R v : holds s (HVnode v :: R) -> exists s', vput v s = Ok (tt, s') /\ holds s' R;
  fref_ok s R f : holds s R -> HFile f ∈ R -> exists s', fref f s = Ok (tt, s') /\ holds s' (HFile f :: R);
  fput_ok s R f : holds s (HFile f :: R) -> exists s', fput f s = Ok (tt, s') /\ holds s' R;
  vmmap_create_ok s R m s' : holds s R -> vmmap_create s = Ok (m, s') -> m <> 0 /\ holds s' (HMap m :: R);
  set_vmm_proc_ok s R m p : holds s (HMap m :: R) -> exists s', set_vmm_proc m p s = Ok (tt, s') /\ holds s' (HMap m :: R);
  vmmap_destroy_ok s R m : holds s (HMap m :: R) -> exists s', vmmap_destroy m s = Ok (tt, s') /\ holds s' R;
  pt_create_pagedir_ok s R : holds s R -> exists d s', pt_create_pagedir s = Ok (d, s') /\
    holds s' (if d =? 0 then R else HPagedir d :: R);
  pt_destroy_pagedir_ok s R d : holds s (HPagedir d :: R) -> exists s', pt_destroy_pagedir d s = Ok (tt, s') /\ holds s' R;
  page_alloc_n_ok s R n : holds s R -> exists k s', page_alloc_n n s = Ok (k, s') /\
    holds s' (if k =? 0 then R else HStack k :: R);
  page_free_n_ok s R k n : holds s (HStack k :: R) -> exists s', page_free_n k n s = Ok (tt, s') /\ holds s' R;
}.

(** What a list head reads as after the links of its members were inserted in
    another list without removing them from this one. *)
Class StaleList `{KList} := { list_stale : klist -> klist }.

(** ** State *)
Inductive p_state_t := PROC_NO_STATE | PROC_RUNNING | PROC_DEAD.
#[export] Instance p_state_eq_dec : EqDecision p_state_t.
Proof. solve_decision. Defined.

Record proc `{KList} := mkProc {
  p_pid : Z;
  p_comm : list ascii;
  p_threads : klist;
  p_children : klist;
  p_status : Z;
  p_state : p_state_t;
  p_pproc : Z;
  p_pagedir : Z;
  p_cwd : Z;
  p_files : list Z;
  p_vmmap : Z;
  p_brk : Z;
  p_start_brk : Z
}.
(** The fields of a thread that the scheduler does not use. *)
Record kext := mkKext { kt_errno : Z; kt_context : kctx }.

(** [p_wait] of process [p] is the queue [ProcQ p] of the scheduler. *)
Record ps `{KList} `{ProcRes} := mkPs {
  procs : gmap Z proc;
  proc_list : klist;
  next_pid : Z;
  proc_initproc : Z;
  vfs_root_vn : Z;
  exts : gmap Z kext;
  kst : ks;
  res : rst
}.

Section Proc.
Context `{KL : KList} `{SL : Slab} `{KG : KGeometry} `{LK : KLink} `{IN : KIntr} `{ER : KErrno}.
Context `{PC : ProcConsts} `{CX : Contexts} `{PR : ProcRes} `{ST : !StaleList}.

Definition upd_procs (f : gmap Z proc -> gmap Z proc) (s : ps) : ps :=
  mkPs _ _ (f (procs s)) (proc_list s) (next_pid s) (proc_initproc s) (vfs_root_vn s) (exts s) (kst s) (res s).
Definition upd_plist (f : klist -> klist) (s : ps) : ps :=
  mkPs _ _ (procs s) (f (proc_list s)) (next_pid s) (proc_initproc s) (vfs_root_vn s) (exts s) (kst s) (res s).
Definition upd_next (n : Z) (s : ps) : ps :=
  mkPs _ _ (procs s) (proc_list s) n (proc_initproc s) (vfs_root_vn s) (exts s) (kst s) (res s).
Definition upd_init (p : Z) (s : ps) : ps :=
  mkPs _ _ (procs s) (proc_list s) (next_pid s) p (vfs_root_vn s) (exts s) (kst s) (res s).
Definition upd_exts (f : gmap Z kext -> gmap Z kext) (s : ps) : ps :=
  mkPs _ _ (procs s) (proc_list s) (next_pid s) (proc_initproc s) (vfs_root_vn s) (f (exts s)) (kst s) (res s).
Definition upd_kst (k : ks) (s : ps) : ps :=
  mkPs _ _ (procs s) (proc_list s) (next_pid s) (proc_initproc s) (vfs_root_vn s) (exts s) k (res s).
Definition upd_res (r : rst) (s : ps) : ps :=
  mkPs _ _ (procs s) (proc_list s) (next_pid s) (proc_initproc s) (vfs_root_vn s) (exts s) (kst s) r.

(** Calls into the scheduler and into the owners of the resources. *)
Definition sched_op {A} (c : M ks A) : M ps A := fun s =>
  match c (kst s) with Ok (a, k) => Ok (a, upd_kst k s) | Err f => Err f end.
Definition res_op {A} (c : M rst A) : M ps A := fun s =>
  match c (res s) with Ok (a, r) => Ok (a, upd_res r s) | Err f => Err f end.
Definition load_proc (p : Z) : M ps proc := fun s => mthe (procs s !! p) s.
Definition store_proc (p : Z) (f : proc -> proc) : M ps unit :=
  let! x := load_proc p in mput (upd_procs (<[p := f x]>)).
Definition cur_proc : M ps Z := mget (fun s => curproc (kst s)).

Definition with_pthreads (f : klist -> klist) (x : proc) : proc :=
  mkProc _ (p_pid x) (p_comm x) (f (p_threads x)) (p_children x) (p_status x) (p_state x) (p_pproc x) (p_pagedir x)
    (p_cwd x) (p_files x) (p_vmmap x) (p_brk x) (p_start_brk x).
Definition with_pchildren (f : klist -> klist) (x : proc) : proc :=
  mkProc _ (p_pid x) (p_comm x) (p_threads x) (f (p_children x)) (p_status x) (p_state x) (p_pproc x) (p_pagedir x)
    (p_cwd x) (p_files x) (p_vmmap x) (p_brk x) (p_start_brk x).
Definition with_pstatus (n : Z) (st : p_state_t) (x : proc) : proc :=
  mkProc _ (p_pid x) (p_comm x) (p_threads x) (p_children x) n st (p_pproc x) (p_pagedir x)
    (p_cwd x) (p_files x) (p_vmmap x) (p_brk x) (p_start_brk x).
Definition with_pproc (q : Z) (x : proc) : proc :=
  mkProc _ (p_pid x) (p_comm x) (p_threads x) (p_children x) (p_status x) (p_state x) q (p_pagedir x)
    (p_cwd x) (p_files x) (p_vmmap x) (p_brk x) (p_start_brk x).
Definition with_pagedir (d : Z) (x : proc) : proc :=
  mkProc _ (p_pid x) (p_comm x) (p_threads x) (p_children x) (p_status x) (p_state x) (p_pproc x) d
    (p_cwd x) (p_files x) (p_vmmap x) (p_brk x) (p_start_brk x).
Definition with_cwd (v : Z) (x : proc) : proc :=
  mkProc _ (p_pid x) (p_comm x) (p_threads x) (p_children x) (p_status x) (p_state x) (p_pproc x) (p_pagedir x)
    v (p_files x) (p_vmmap x) (p_brk x) (p_start_brk x).
Definition with_files (f : list Z -> list Z) (x : proc) : proc :=
  mkProc _ (p_pid x) (p_comm x) (p_threads x) (p_children x) (p_status x) (p_state x) (p_pproc x) (p_pagedir x)
    (p_cwd x) (f (p_files x)) (p_vmmap x) (p_brk x) (p_start_brk x).
Definition with_pvmmap (m : Z) (x : proc) : proc :=
  mkProc _ (p_pid x) (p_comm x) (p_threads x) (p_children x) (p_status x) (p_state x) (p_pproc x) (p_pagedir x)
    (p_cwd x) (p_files x) m (p_brk x) (p_start_brk x).
Definition with_brks (b sb : Z) (x : proc) : proc :=
  mkProc _ (p_pid x) (p_comm x) (p_threads x) (p_children x) (p_status x) (p_state x) (p_pproc x) (p_pagedir x)
    (p_cwd x) (p_files x) (p_vmmap x) b sb.

(** ** Process numbers *)
Fixpoint pid_used (l : list Z) (pid : Z) : M ps Z :=
  match l with
  | [] => mret_ 0
  | p :: r => let! x := load_proc p in if p_pid x =? pid then mret_ p else pid_used r pid
  end.
(** [proc_lookup]: the process with a number, or NULL. *)
Definition proc_lookup (pid : Z) : M ps Z :=
  let! l := mget (fun s => list_items (proc_list s)) in pid_used l pid.
(** The loop of [_proc_getid]; a number in use leads to the next one. *)
Fixpoint getid_loop (fuel : nat) (pid : Z) : M ps Z :=
  match fuel with
  | O => mfail FFuel
  | S fuel =>
      let! l := mget (fun s => list_items (proc_list s)) in
      let! p := pid_used l pid in
      if negb (p =? 0) then
        let pid := (pid + 1) mod PROC_MAX_COUNT in
        let! n := mget next_pid in
        if pid =? n then mret_ (-1) else getid_loop fuel pid
      else
        mput (upd_next ((pid + 1) mod PROC_MAX_COUNT)) ;;;
        mret_ pid
  end.
Definition _proc_getid : M ps Z :=
  let! n := mget next_pid in getid_loop (Z.to_nat PROC_MAX_COUNT) n.

(** ** proc_create *)
Definition zero_proc : proc :=
  mkProc _ 0 [] list_empty_head list_empty_head 0 PROC_NO_STATE 0 0 0 [] 0 0 0.
(** The fields set one after the other up to [p_state]. *)
Definition new_proc (pid : Z) (name : list ascii) (cur : Z) : proc :=
  mkProc _ pid (take (Z.to_nat (PROC_NAME_LEN - 1)) name) list_empty_head list_empty_head 0 PROC_RUNNING cur 0 0
    (replicate (Z.to_nat NFILES) 0) 0 0 0.
Definition proc_create (name : list ascii) : M ps Z :=
  let! p := fun s => mthe (slab_pick (procs s)) s in
  mput (upd_procs (<[p := zero_proc]>)) ;;;
  let! pid := _proc_getid in
  let! l := mget (fun s => list_items (proc_list s)) in
  KASSERT (negb (PID_IDLE =? pid) || bool_decide (l = [])) ;;;
  let! cur := cur_proc in
  (if PID_INIT =? pid then let! c := load_proc cur in KASSERT (PID_IDLE =? p_pid c) else mret_ tt) ;;;
  store_proc p (fun _ => new_proc pid name cur) ;;;
  sched_op (sched_queue_init (ProcQ p)) ;;;
  let! d := res_op pt_create_pagedir in
  store_proc p (with_pagedir d) ;;;
  (if negb (cur =? 0) then store_proc cur (with_pchildren (list_insert_tail p)) else mret_ tt) ;;;
  mput (upd_plist (list_insert_tail p)) ;;;
  let! root := mget vfs_root_vn in
  store_proc p (with_cwd root) ;;;
  (if negb (root =? 0) then res_op (vref root) else mret_ tt) ;;;
  let! m := res_op vmmap_create in
  store_proc p (with_pvmmap m) ;;;
  res_op (set_vmm_proc m p) ;;;
  (if pid =? PID_INIT then mput (upd_init p) else mret_ tt) ;;;
  mret_ p.

(** ** kthread_create, kthread_clone, kthread_destroy *)
Definition stack_pages : Z := 1 + Z.shiftr DEFAULT_STACK_SIZE PAGE_SHIFT.
Definition alloc_stack : M ps Z := res_op (page_alloc_n stack_pages).
Definition free_stack (k : Z) : M ps unit := res_op (page_free_n k stack_pages).

(** [slab_obj_alloc(kthread_allocator)], written to without a test for NULL. *)
Definition thread_alloc : M ps Z := fun s => mthe (slab_pick (threads (kst s))) s.
Definition new_thread (t : Z) (x : kthread) (e : kext) : M ps unit :=
  mput (fun s => upd_kst (upd_threads (<[t := x]>) (kst s)) s) ;;;
  mput (upd_exts (<[t := e]>)).

Definition kthread_create (p func arg1 arg2 : Z) : M ps Z :=
  KASSERT (negb (p =? 0)) ;;;
  let! t := thread_alloc in
  let! kstack := alloc_stack in
  let! x := load_proc p in
  new_thread t (mkThread KT_RUN None link_initialised false 0 p kstack (start_ipl, CStart))
    (mkKext 0 (context_setup func arg1 arg2 kstack DEFAULT_STACK_SIZE (p_pagedir x))) ;;;
  store_proc p (with_pthreads (list_insert_tail t)) ;;;
  mret_ t.

(** The new thread belongs to no process yet; its link is initialised with
    [list_link_init], to NULL pointers. *)
Definition kthread_clone (thr : Z) : M ps Z :=
  let! x := sched_op (load_thr thr) in
  KASSERT (bool_decide (kt_state x = KT_RUN)) ;;;
  let! t := thread_alloc in
  let! kstack := alloc_stack in
  let! p := load_proc (kt_proc x) in
  let! e := fun s => mthe (exts s !! thr) s in
  new_thread t (mkThread (kt_state x) (kt_wchan x) false (kt_cancelled x) (kt_retval x) 0 kstack (start_ipl, CStart))
    (mkKext (kt_errno e) (context_setup 0 0 0 kstack DEFAULT_STACK_SIZE (p_pagedir p))) ;;;
  let! x' := sched_op (load_thr t) in
  KASSERT (bool_decide (kt_state x' = KT_RUN)) ;;;
  mret_ t.

Definition kthread_destroy (t : Z) : M ps unit :=
  KASSERT (negb (t =? 0)) ;;;
  let! x := sched_op (load_thr t) in
  KASSERT (negb (kt_kstack x =? 0)) ;;;
  free_stack (kt_kstack x) ;;;
  store_proc (kt_proc x) (with_pthreads (fun l => if decide (t ∈ list_items l) then list_remove t l else l)) ;;;
  mput (fun s => upd_kst (upd_threads (delete t) (kst s)) s) ;;;
  mput (upd_exts (delete t)).

(** ** Exit *)
(** The loop that hands the children over to the init process. *)
Fixpoint reparent_loop (cur init : Z) (l : list Z) : M ps unit :=
  match l with
  | [] => mret_ tt
  | p :: r =>
      store_proc init (with_pchildren (list_insert_tail p)) ;;;
      store_proc cur (with_pchildren list_stale) ;;;
      store_proc p (with_pproc init) ;;;
      reparent_loop cur init r
  end.
(** The loop over [p_files], from index [a]. *)
Fixpoint close_loop (cur : Z) (a n : nat) : M ps unit :=
  match n with
  | O => mret_ tt
  | S n =>
      let! x := load_proc cur in
      let! f := mthe (p_files x !! a) in
      (if negb (f =? 0) then res_op (fput f) else mret_ tt) ;;;
      store_proc cur (with_files (<[a := 0]>)) ;;;
      close_loop cur (S a) n
  end.
Definition proc_cleanup (status : Z) : M ps unit :=
  let! init := mget proc_initproc in
  KASSERT (negb (init =? 0)) ;;;
  let! cur := cur_proc in
  let! x := load_proc cur in
  KASSERT (1 <=? p_pid x) ;;;
  KASSERT (negb (p_pproc x =? 0)) ;;;
  store_proc cur (with_pstatus status PROC_DEAD) ;;;
  reparent_loop cur init (list_items (p_children x)) ;;;
  (if negb (p_cwd x =? 0) then res_op (vput (p_cwd x)) else mret_ tt) ;;;
  close_loop cur 0 (Z.to_nat NFILES) ;;;
  res_op (vmmap_destroy (p_vmmap x)) ;;;
  let! _ := load_proc (p_pproc x) in
  sched_op (sched_broadcast_on (ProcQ (p_pproc x))) ;;;
  let! t := mget (fun s => curthr (kst s)) in
  sched_op (store_thr t (with_state KT_EXITED)) ;;;
  let! x := load_proc cur in
  KASSERT (negb (p_pproc x =? 0)).
(** [sched_switch] in [proc_thread_exited] does not come back. *)
Definition proc_thread_exited (fuel : nat) (retval : Z) : M ps kres :=
  proc_cleanup (s32 retval) ;;;
  sched_op (sched_switch fuel CDead) ;;;
  mret_ Blocked.
Definition kthread_exit (fuel : nat) (retval : Z) : M ps kres :=
  let! cur := mget (fun s => curthr (kst s)) in
  KASSERT (negb (cur =? 0)) ;;;
  sched_op (store_thr cur (fun x => with_state KT_EXITED (with_retval retval x))) ;;;
  let! x := sched_op (load_thr cur) in
  KASSERT (bool_decide (kt_wchan x = None)) ;;;
  KASSERT (negb (kt_qlink x)) ;;;
  let! p := cur_proc in
  KASSERT (kt_proc x =? p) ;;;
  proc_thread_exited fuel retval.

(** ** Cancellation *)
Definition kthread_cancel (fuel : nat) (t retval : Z) : M ps kres :=
  KASSERT (negb (t =? 0)) ;;;
  sched_op (store_thr t (fun x => with_retval retval (with_cancelled x))) ;;;
  let! cur := mget (fun s => curthr (kst s)) in
  if t =? cur then kthread_exit fuel retval
  else sched_op (sched_cancel t) ;;; mret_ (Returned 0).
(** [list_tail] of an empty list is not a thread. *)
Definition do_exit (fuel : nat) (status : Z) : M ps kres :=
  let! cur := cur_proc in
  let! x := load_proc cur in
  let! t := mthe (last (list_items (p_threads x))) in
  kthread_cancel fuel t status.
Fixpoint cancel_loop (fuel : nat) (l : list Z) (status : Z) : M ps kres :=
  match l with
  | [] => mret_ (Returned 0)
  | t :: r => let! _ := kthread_cancel fuel t status in cancel_loop fuel r status
  end.
Definition proc_kill (fuel : nat) (p status : Z) : M ps kres :=
  let! cur := cur_proc in
  KASSERT (negb (cur =? 0) && negb (p =? 0)) ;;;
  if cur =? p then do_exit fuel status
  else let! x := load_proc p in cancel_loop fuel (list_items (p_threads x)) status.
(** [p->p_pid != PID_IDLE && p->p_pproc->p_pid != PID_IDLE] *)
Definition not_idles (p : Z) : M ps bool :=
  let! x := load_proc p in
  if p_pid x =? PID_IDLE then mret_ false
  else let! y := load_proc (p_pproc x) in mret_ (negb (p_pid y =? PID_IDLE)).
Fixpoint kill_loop (fuel : nat) (l : list Z) : M ps unit :=
  match l with
  | [] => mret_ tt
  | p :: r =>
      let! k := not_idles p in
      let! cur := cur_proc in
      (if (k : bool) && negb (p =? cur) then let! _ := proc_kill fuel p 0 in mret_ tt else mret_ tt) ;;;
      kill_loop fuel r
  end.
Definition proc_kill_all (fuel : nat) : M ps kres :=
  let! l := mget (fun s => list_items (proc_list s)) in
  kill_loop fuel l ;;;
  let! cur := cur_proc in
  let! k := not_idles cur in
  if (k : bool) then proc_kill fuel cur 0 else mret_ (Returned 0).

(** ** Waiting for a child *)
(** The first child that [pid] may refer to, or NULL. *)
Fixpoint find_child (l : list Z) (pid : Z) : M ps Z :=
  match l with
  | [] => mret_ 0
  | p :: r =>
      let! x := load_proc p in
      if (p_pid x =? pid) || (pid =? -1) then mret_ p else find_child r pid
  end.
(** The end of the dead child [p] of process [cur]; [p] is read after
    [slab_obj_free]. *)
Definition reap (cur p pid : Z) : M ps Z :=
  let! y := load_proc p in
  let! t := mthe (last (list_items (p_threads y))) in
  kthread_destroy t ;;;
  store_proc p (with_pproc 0) ;;;
  store_proc cur (with_pchildren (list_remove p)) ;;;
  mput (upd_plist (list_remove p)) ;;;
  res_op (pt_destroy_pagedir (p_pagedir y)) ;;;
  mput (upd_procs (delete p)) ;;;
  mguard obj_keeps FUndef ;;;
  KASSERT (negb (p =? 0)) ;;;
  KASSERT ((pid =? -1) || (p_pid y =? pid)) ;;;
  KASSERT (negb (p_pagedir y =? 0)) ;;;
  mret_ (p_pid y).
(** The result and what is written to [*status] (nothing when the pointer
    [status] is NULL). *)
Definition do_waitpid (fuel : nat) (pid status : Z) : M ps (kres * option Z) :=
  let! cur := cur_proc in
  let! x := load_proc cur in
  let! p := find_child (list_items (p_children x)) pid in
  if p =? 0 then mret_ (Returned (- ECHILD), None)
  else
    let! y := load_proc p in
    if bool_decide (p_state y = PROC_DEAD) then
      let! r := reap cur p pid in
      mret_ (Returned r, if status =? 0 then None else Some (p_status y))
    else
      let! r := sched_op (sched_sleep_on_ fuel (ProcQ cur) (CWaitpid pid status)) in
      mret_ (r, None).
(** Coming back from a context switch; [do_waitpid] looks again. *)
Definition proc_resume (fuel : nat) : M ps (kres * option Z) :=
  let! r := sched_op resume in
  match r with
  | Again pid status => do_waitpid fuel pid status
  | r => mret_ (r, None)
  end.
End Proc.
