(* ===== verification/ProcInv.v ===== *)
(** * The invariant of processes and threads

    The process tree, the threads of each process, and what processes hold.
    Each operation of [Proc] keeps the invariant: the lemmas here are about
    the parts, the theorems are in [ProcThm]. *)
From stdpp Require Import base gmap list fin_maps strings.
From Stdlib Require Import ZArith Lia Ascii.
From S2P Require Import Prelude KEnv Sched Proc.
Open Scope Z_scope.
Open Scope c_scope.

(** ** What the values of a map hold *)
Section Gather.
Context {A B : Type} (f : A -> list B).
Definition gather (m : gmap Z A) : list B := map_to_list m ≫= (fun kx => f kx.2).

Lemma gather_insert m k x : m !! k = None -> gather (<[k := x]> m) ≡ₚ f x ++ gather m.
Proof. intros H. unfold gather. rewrite map_to_list_insert by done. done. Qed.
Lemma gather_delete m k x : m !! k = Some x -> gather m ≡ₚ f x ++ gather (delete k m).
Proof. intros H. rewrite <- (insert_delete_id m k x H) at 1. apply gather_insert, lookup_delete_eq. Qed.
Lemma gather_update m k x x' : m !! k = Some x -> gather (<[k := x']> m) ≡ₚ f x' ++ gather (delete k m).
Proof. intros H. rewrite <- insert_delete_eq. apply gather_insert, lookup_delete_eq. Qed.
Lemma gather_same m k x x' : m !! k = Some x -> f x' = f x -> gather (<[k := x']> m) ≡ₚ gather m.
Proof. intros H E. rewrite (gather_update m k x x' H), E. symmetry. by apply gather_delete. Qed.
Lemma gather_ext m : forall m', (forall k, option_Forall2 (fun x y => f y = f x) (m !! k) (m' !! k)) -> gather m' ≡ₚ gather m.
Proof.
  induction m as [|k x m Hk IH] using map_ind; intros m' H.
  - assert (m' = ∅) as ->; [|done]. apply map_eq. intros k. specialize (H k). rewrite lookup_empty in *. by inversion H.
  - pose proof (H k) as Hx. rewrite lookup_insert_eq in Hx. inversion Hx as [x0 x' E E1 E2|]; subst.
    rewrite gather_insert by done. rewrite (gather_delete m' k x' (eq_sym E2)), E. f_equiv. apply IH.
    intros j. destruct (decide (j = k)) as [->|]; [rewrite Hk, lookup_delete_eq; constructor|].
    rewrite lookup_delete_ne by done. specialize (H j). by rewrite lookup_insert_ne in H.
Qed.
Lemma elem_of_gather m k x b : m !! k = Some x -> b ∈ f x -> b ∈ gather m.
Proof. intros H Hb. rewrite (gather_delete m k x H). set_solver. Qed.
End Gather.

Section Inv.
Context `{KL : KList} `{SL : Slab} `{KG : KGeometry} `{LK : KLink} `{IN : KIntr} `{ER : KErrno}.
Context `{PC : ProcConsts} `{CX : Contexts} `{PR : ProcRes} `{ST : !StaleList}.

(** ** The invariant *)
Definition opt_hold (h : Z -> hold) (z : Z) : list hold := if z =? 0 then [] else [h z].
(** A running process holds its directory, files and address space; a dead one
    only the page directory, until it is waited for. *)
Definition run_holds (x : proc) : list hold :=
  opt_hold HVnode (p_cwd x) ++ (p_files x ≫= opt_hold HFile) ++ [HMap (p_vmmap x)].
Definition proc_holds (x : proc) : list hold :=
  HPagedir (p_pagedir x) :: if bool_decide (p_state x = PROC_RUNNING) then run_holds x else [].
Definition thr_holds (x : kthread) : list hold := [HStack (kt_kstack x)].
Definition all_holds (s : ps) : list hold := gather proc_holds (procs s) ++ gather thr_holds (threads (kst s)).

(** The tree: every process but the idle process is on the list of children of
    a running process. *)
Record tree (P : gmap Z proc) (l : klist) : Prop := {
  t_null : P !! 0 = None;
  t_nodup : NoDup (list_items l);
  t_list p : p ∈ list_items l <-> is_Some (P !! p);
  t_pid p q x y : P !! p = Some x -> P !! q = Some y -> p_pid x = p_pid y -> p = q;
  t_range p x : P !! p = Some x -> 0 <= p_pid x < PROC_MAX_COUNT;
  t_idle p x : P !! p = Some x -> p_pproc x = 0 <-> p_pid x = PID_IDLE;
  t_root : exists p x, P !! p = Some x /\ p_pid x = PID_IDLE;
  t_parent p x : P !! p = Some x -> p_pproc x <> 0 ->
    exists y, P !! p_pproc x = Some y /\ p_state y = PROC_RUNNING /\ p ∈ list_items (p_children y);
  t_children p x : P !! p = Some x -> p_state x = PROC_RUNNING ->
    NoDup (list_items (p_children x)) /\
    forall c, c ∈ list_items (p_children x) -> exists y, P !! c = Some y /\ p_pproc y = p;
  t_rank : exists rk : Z -> nat, forall p x, P !! p = Some x -> p_pproc x <> 0 -> (rk (p_pproc x) < rk p)%nat;
  t_init p x : P !! p = Some x -> p_pid x = PID_INIT ->
    exists y, P !! p_pproc x = Some y /\ p_pid y = PID_IDLE;
  t_state p x : P !! p = Some x -> p_state x = PROC_RUNNING \/ p_state x = PROC_DEAD;
  t_fields p x : P !! p = Some x -> p_pagedir x <> 0 /\ length (p_files x) = Z.to_nat NFILES;
}.

(** A thread of process [y]: the thread of a dead process has exited; only the
    process itself sleeps on its [p_wait]. *)
Record thread_of (t : Z) (x : kthread) (y : proc) : Prop := {
  o_stack : kt_kstack x <> 0;
  o_list : t ∈ list_items (p_threads y);
  o_dead : p_state y = PROC_DEAD -> kt_wchan x = None /\ kt_state x = KT_EXITED;
  o_run : p_state y = PROC_RUNNING -> kt_state x <> KT_EXITED;
  o_wait q : kt_wchan x = Some (ProcQ q) -> q = kt_proc x;
}.
Record linked (P : gmap Z proc) (T : gmap Z kthread) : Prop := {
  l_thr t x : T !! t = Some x -> exists y, P !! kt_proc x = Some y /\ thread_of t x y;
  l_one p y : P !! p = Some y ->
    (p_state y <> PROC_DEAD /\ list_items (p_threads y) = []) \/
    exists t x, list_items (p_threads y) = [t] /\ T !! t = Some x /\ kt_proc x = p;
}.

(** [L]: what others hold, the root of the file system among it. *)
Record pinv (L : list hold) (s : ps) : Prop := {
  pi_k : kinv None (kst s);
  pi_tree : tree (procs s) (proc_list s);
  pi_link : linked (procs s) (threads (kst s));
  pi_queue p : is_Some (procs s !! p) -> is_Some (queues (kst s) !! ProcQ p);
  pi_cur : exists x y, threads (kst s) !! curthr (kst s) = Some x /\ kt_proc x = curproc (kst s) /\
    procs s !! curproc (kst s) = Some y /\ p_state y = PROC_RUNNING /\ (p_pid y = PID_IDLE \/ kt_qlink x = false);
  pi_exts t : is_Some (threads (kst s) !! t) -> is_Some (exts s !! t);
  pi_next : 0 <= next_pid s < PROC_MAX_COUNT;
  pi_init p x : procs s !! p = Some x -> p_pid x = PID_INIT -> proc_initproc s = p;
  pi_root : vfs_root_vn s <> 0 -> HVnode (vfs_root_vn s) ∈ L;
  pi_holds : holds (res s) (L ++ all_holds s);
}.

(** ** Memory accesses *)
Lemma load_proc_run s p x : procs s !! p = Some x -> load_proc p s = Ok (x, s).
Proof. unfold load_proc. by intros ->. Qed.
Lemma store_proc_run s p x f : procs s !! p = Some x -> store_proc p f s = Ok (tt, upd_procs (<[p := f x]>) s).
Proof. intros H. unfold store_proc. by rewrite (mbind_run _ _ _ _ _ (load_proc_run _ _ _ H)). Qed.
Lemma sched_op_run {A} (c : M ks A) s a k : c (kst s) = Ok (a, k) -> sched_op c s = Ok (a, upd_kst k s).
Proof. unfold sched_op. by intros ->. Qed.
Lemma res_op_run {A} (c : M rst A) s a r : c (res s) = Ok (a, r) -> res_op c s = Ok (a, upd_res r s).
Proof. unfold res_op. by intros ->. Qed.
Lemma sched_load_run s t x : threads (kst s) !! t = Some x -> sched_op (load_thr t) s = Ok (x, s).
Proof. intros H. rewrite (sched_op_run _ _ _ _ (load_thr_run _ _ _ H)). by destruct s. Qed.
Lemma sched_store_run s t x f : threads (kst s) !! t = Some x ->
  sched_op (store_thr t f) s = Ok (tt, upd_kst (upd_threads (<[t := f x]>) (kst s)) s).
Proof. intros H. apply sched_op_run. by apply store_thr_run. Qed.
Lemma upd_kst_id s : upd_kst (kst s) s = s.
Proof. by destruct s. Qed.

(** ** Threads that move *)
Lemma thread_of_moved t x x' y : moved x x' -> thread_of t x y -> thread_of t x' y.
Proof.
  intros [] []. split; [congruence|done| | |].
  - intros Hd. destruct (o_dead0 Hd) as [H1 H2]. destruct (mv_off H1). split; congruence.
  - intros Hr. destruct mv_state as [->| ->]; [by apply o_run0|done].
  - intros q Hq. rewrite mv_proc. apply o_wait0. destruct mv_wchan as [E|[E|E]]; congruence.
Qed.
Lemma linked_keeps P k k' : keeps k k' -> linked P (threads k) -> linked P (threads k').
Proof.
  intros H [L1 L2]. split.
  - intros t x' Hx'. destruct (keeps_back _ _ _ _ H Hx') as (x & Hx & Hm). destruct (L1 t x Hx) as (y & Hy & Ho).
    exists y. rewrite (mv_proc _ _ Hm). split; [done|]. by eapply thread_of_moved.
  - intros p y Hy. destruct (L2 p y Hy) as [?|(t & x & E & Hx & Hp)]; [by left|right].
    destruct (keeps_lookup _ _ _ _ H Hx) as (x' & Hx' & Hm). exists t, x'. rewrite (mv_proc _ _ Hm). done.
Qed.
Lemma holds_keeps k k' : keeps k k' -> gather thr_holds (threads k') ≡ₚ gather thr_holds (threads k).
Proof.
  intros H. apply gather_ext. intros t. destruct (H t) as [x x' Hm|]; constructor.
  unfold thr_holds. by rewrite (mv_stack _ _ Hm).
Qed.
(** A change of the scheduler alone. *)
Lemma pinv_sched L s k : pinv L s -> kinv None k -> keeps (kst s) k ->
  (forall q, is_Some (queues (kst s) !! q) -> is_Some (queues k !! q)) ->
  (exists x y, threads k !! curthr k = Some x /\ kt_proc x = curproc k /\ procs s !! curproc k = Some y /\
     p_state y = PROC_RUNNING /\ (p_pid y = PID_IDLE \/ kt_qlink x = false)) ->
  pinv L (upd_kst k s).
Proof.
  intros [] K HK HQ HC. split; cbn; try done.
  - by eapply linked_keeps.
  - auto.
  - intros t [x' Hx']. destruct (keeps_back _ _ _ _ HK Hx') as (x & Hx & _). eauto.
  - eapply holds_perm; [|done]. unfold all_holds. cbn. by rewrite (holds_keeps _ _ HK).
Qed.
(** The thread switched to was on a queue, so its process is running. *)
Lemma next_running P k k' c : linked P (threads k) -> (forall p x, P !! p = Some x -> p_state x = PROC_RUNNING \/ p_state x = PROC_DEAD) ->
  switched_from k k' c ->
  exists x y, threads k' !! curthr k' = Some x /\ kt_proc x = curproc k' /\ P !! curproc k' = Some y /\
     p_state y = PROC_RUNNING /\ kt_qlink x = false.
Proof.
  intros HL HS F. destruct (sw_next _ _ _ F) as (x & x' & Hx & Hw & Hx' & Hp & Hq).
  destruct (keeps_lookup _ _ _ _ (sw_keep _ _ _ F) Hx) as (x2 & Hx2 & Hm). simplify_eq.
  destruct (l_thr _ _ HL _ _ Hx) as (y & Hy & Ho). exists x', y. rewrite Hp, (mv_proc _ _ Hm).
  split; [done|]. split; [done|]. split; [done|]. split; [|done].
  destruct (HS _ _ Hy) as [?|Hd]; [done|]. by destruct (o_dead _ _ _ Ho Hd).
Qed.

(** ** Process numbers *)
(** A number in use. *)
Definition used (s : ps) (i : Z) : Prop := exists p x, p ∈ list_items (proc_list s) /\ procs s !! p = Some x /\ p_pid x = i.

Lemma pid_used_run s pid l : (forall p, p ∈ l -> p <> 0 /\ is_Some (procs s !! p)) ->
  exists p, pid_used l pid s = Ok (p, s) /\
    ((p = 0 /\ forall q x, q ∈ l -> procs s !! q = Some x -> p_pid x <> pid) \/
     (p <> 0 /\ p ∈ l /\ exists x, procs s !! p = Some x /\ p_pid x = pid)).
Proof.
  induction l as [|p l IH]; intros H; cbn.
  - exists 0. split; [done|]. left. split; [done|]. by intros q x []%elem_of_nil.
  - destruct (H p) as [H0 [x Hx]]; [by left|]. rewrite (mbind_run _ _ _ _ _ (load_proc_run _ _ _ Hx)).
    destruct (p_pid x =? pid) eqn:E.
    + exists p. split; [done|]. right. split; [done|]. split; [by left|]. exists x. split; [done|]. by apply Z.eqb_eq.
    + destruct IH as (q & Hr & Hq); [intros q Hq; apply H; by right|]. exists q. split; [done|].
      destruct Hq as [[-> Hq]|(H1 & H2 & H3)]; [left|right; split; [done|]; split; [by right|done]].
      split; [done|]. intros q x' [->|Hin]%elem_of_cons Hx'; [|by eapply Hq]. simplify_eq. by apply Z.eqb_neq.
Qed.
Lemma getid_step n k : 0 <= n < PROC_MAX_COUNT -> 0 <= k ->
  ((n + k) mod PROC_MAX_COUNT + 1) mod PROC_MAX_COUNT = (n + (k + 1)) mod PROC_MAX_COUNT.
Proof. intros. rewrite Zplus_mod_idemp_l. f_equal. lia. Qed.
Lemma getid_wraps n k : 0 <= n < PROC_MAX_COUNT -> 0 < k <= PROC_MAX_COUNT ->
  (n + k) mod PROC_MAX_COUNT = n <-> k = PROC_MAX_COUNT.
Proof.
  intros Hn Hk. split; [|intros ->; rewrite <- (Z.mod_small n PROC_MAX_COUNT) at 2 by lia;
    rewrite <- Zplus_mod_idemp_r, Z_mod_same_full, Z.add_0_r; done].
  intros E. destruct (decide (k = PROC_MAX_COUNT)); [done|]. exfalso. destruct (decide (n + k < PROC_MAX_COUNT)).
  - rewrite Z.mod_small in E; lia.
  - assert ((n + k) mod PROC_MAX_COUNT = n + k - PROC_MAX_COUNT) as E'; [|lia].
    symmetry. apply (Z.mod_unique _ _ 1); lia.
Qed.
Lemma getid_loop_run s (fuel : nat) : forall k, (forall p, p ∈ list_items (proc_list s) -> p <> 0 /\ is_Some (procs s !! p)) ->
  0 <= next_pid s < PROC_MAX_COUNT -> 0 <= k < PROC_MAX_COUNT -> PROC_MAX_COUNT <= k + Z.of_nat fuel ->
  (forall j, 0 <= j < k -> used s ((next_pid s + j) mod PROC_MAX_COUNT)) ->
  (getid_loop fuel ((next_pid s + k) mod PROC_MAX_COUNT) s = Ok (-1, s) /\
     forall j, 0 <= j < PROC_MAX_COUNT -> used s ((next_pid s + j) mod PROC_MAX_COUNT)) \/
  exists j, k <= j < PROC_MAX_COUNT /\ let pid := (next_pid s + j) mod PROC_MAX_COUNT in
    getid_loop fuel ((next_pid s + k) mod PROC_MAX_COUNT) s = Ok (pid, upd_next ((pid + 1) mod PROC_MAX_COUNT) s) /\
    ~ used s pid /\ forall i, 0 <= i < j -> used s ((next_pid s + i) mod PROC_MAX_COUNT).
Proof.
  induction fuel as [|fuel IH]; intros k Hl Hn Hk Hf Hu; [lia|]. cbn [getid_loop].
  rewrite (mbind_run (mget _) _ s (list_items (proc_list s)) s eq_refl).
  destruct (pid_used_run s ((next_pid s + k) mod PROC_MAX_COUNT) (list_items (proc_list s)) Hl) as (p & Hr & Hp).
  rewrite (mbind_run _ _ _ _ _ Hr). destruct Hp as [[-> Hp]|(H0 & Hin & x & Hx & Hpid)].
  - right. exists k. split; [lia|]. cbn. split; [done|]. split; [|done]. intros (q & x & H1 & H2 & H3). by apply (Hp q x).
  - rewrite (proj2 (Z.eqb_neq _ _) H0). cbn [negb].
    assert (forall j, 0 <= j < k + 1 -> used s ((next_pid s + j) mod PROC_MAX_COUNT)) as Hu'.
    { intros j Hj. destruct (decide (j = k)) as [->|]; [by exists p, x|]. apply Hu. lia. }
    rewrite (mbind_run (mget _) _ s (next_pid s) s eq_refl), getid_step by lia. case_match eqn:E.
    + apply Z.eqb_eq, getid_wraps in E; [|lia..]. left. split; [done|]. intros j Hj. apply Hu'. lia.
    + apply Z.eqb_neq in E. rewrite getid_wraps in E by lia.
      destruct (IH (k + 1)) as [[IH1 IH2]|(j & Hj & IH')]; [done|done|lia|lia|done|by left|].
      right. exists j. split; [lia|]. exact IH'.
Qed.
(** The number after [next_pid] (cyclically) that is not in use. *)
Lemma getid_run s : (forall p, p ∈ list_items (proc_list s) -> p <> 0 /\ is_Some (procs s !! p)) ->
  0 <= next_pid s < PROC_MAX_COUNT ->
  (_proc_getid s = Ok (-1, s) /\ forall i, 0 <= i < PROC_MAX_COUNT -> used s i) \/
  exists j, 0 <= j < PROC_MAX_COUNT /\ let pid := (next_pid s + j) mod PROC_MAX_COUNT in
    _proc_getid s = Ok (pid, upd_next ((pid + 1) mod PROC_MAX_COUNT) s) /\
    ~ used s pid /\ forall i, 0 <= i < j -> used s ((next_pid s + i) mod PROC_MAX_COUNT).
Proof.
  intros Hl Hn. unfold _proc_getid. rewrite (mbind_run (mget _) _ s (next_pid s) s eq_refl).
  pose proof (getid_loop_run s (Z.to_nat PROC_MAX_COUNT) 0) as H. rewrite Z.add_0_r, Z.mod_small in H by lia.
  destruct H as [[H1 H2]|H]; [done|done|pose proof proc_max_range; lia..|left|by right].
  split; [done|]. intros i Hi. replace i with ((next_pid s + (i - next_pid s) mod PROC_MAX_COUNT) mod PROC_MAX_COUNT).
  - apply H2. apply Z.mod_pos_bound. lia.
  - rewrite Zplus_mod_idemp_r. replace (next_pid s + (i - next_pid s)) with i by lia. by apply Z.mod_small.
Qed.

(** ** Threads and queues that come and go *)
Implicit Types k : ks.
Lemma kinv_queue_init k q : kinv None k -> plainq q -> items k q = [] ->
  sched_queue_init q k = Ok (tt, upd_queues (<[q := mkQueue _ list_empty_head 0]>) k) /\
  kinv None (upd_queues (<[q := mkQueue _ list_empty_head 0]>) k) /\
  forall q', is_Some (queues k !! q') \/ q' = q -> is_Some (queues (upd_queues (<[q := mkQueue _ list_empty_head 0]>) k) !! q').
Proof.
  intros [[Q1 Q2 Q3 Q4] HR HN HC HT HM HI] Hp Hq. set (k' := upd_queues _ k). split; [done|].
  assert (forall q', items k' q' = items k q') as Ei.
  { intros q'. unfold items, k'. cbn. destruct (decide (q' = q)) as [->|]; [|by rewrite lookup_insert_ne].
    rewrite lookup_insert_eq. cbn. rewrite items_empty. unfold items in Hq. by rewrite Hq. }
  assert (forall q', is_Some (queues k !! q') \/ q' = q -> is_Some (queues k' !! q')) as Eq.
  { intros q' H. unfold k'. cbn. destruct (decide (q' = q)) as [->|]; [rewrite lookup_insert_eq; eauto|].
    rewrite lookup_insert_ne by done. naive_solver. }
  split; [|done]. split; [split| | | | | |]; try (setoid_rewrite Ei); try done.
  - intros q' y. unfold k'. cbn. destruct (decide (q' = q)) as [->|]; [|rewrite lookup_insert_ne by done; by apply Q2].
    rewrite lookup_insert_eq. intros [= <-]. cbn. by rewrite Hq.
  - intros t x q' Ht Hw. destruct (Q4 t x q' Ht Hw). auto.
  - auto.
  - intros m h Hh. destruct (HM m h Hh) as (? & ? & ?). auto.
  - intros n q' Hn. destruct (HI n q' Hn). auto.
Qed.

Lemma kinv_thread_new k t x : kinv None k -> threads k !! t = None -> t <> 0 -> kt_wchan x = None ->
  snd (kt_ctx x) = CStart -> kt_state x <> KT_SLEEP_CANCELLABLE -> kinv None (upd_threads (<[t := x]>) k).
Proof.
  intros [[Q1 Q2 Q3 Q4] HR HN (xc & Hc & HC) HT HM HI] Ht H0 Hw Hs Hst.
  assert (t <> curthr k) as Hne by congruence.
  split; [split| | | | | |]; try done.
  - intros q u. rewrite (Q3 q u). cbn. destruct (decide (u = t)) as [->|]; [rewrite lookup_insert_eq, Ht|by rewrite lookup_insert_ne].
    naive_solver congruence.
  - intros u y q. cbn. destruct (decide (u = t)) as [->|]; [rewrite lookup_insert_eq|rewrite lookup_insert_ne by done; by apply Q4].
    intros [= <-]. by rewrite Hw.
  - cbn. by rewrite lookup_insert_ne.
  - exists xc. cbn. by rewrite lookup_insert_ne.
  - intros u y. cbn. destruct (decide (u = t)) as [->|]; [rewrite lookup_insert_eq|rewrite lookup_insert_ne by done; by apply HT].
    intros [= <-]. unfold thr_ok. rewrite Hw. auto.
Qed.

Lemma kinv_thread_delete k t x : kinv None k -> threads k !! t = Some x -> kt_wchan x = None -> t <> curthr k ->
  kinv None (upd_threads (delete t) k).
Proof.
  intros [[Q1 Q2 Q3 Q4] HR HN (xc & Hc & HC) HT HM HI] Ht Hw Hne.
  split; [split| | | | | |]; try done.
  - intros q u. rewrite (Q3 q u). cbn. destruct (decide (u = t)) as [->|]; [rewrite lookup_delete_eq, Ht|by rewrite lookup_delete_ne].
    naive_solver congruence.
  - intros u y q. cbn. intros [_ Hu]%lookup_delete_Some. by apply (Q4 u).
  - cbn. apply lookup_delete_None. by right.
  - exists xc. cbn. by rewrite lookup_delete_ne.
  - intros u y. cbn. intros [_ Hu]%lookup_delete_Some. by apply HT.
Qed.

(** Making a thread runnable that is on no queue. *)
Lemma make_runnable_kinv k t x : kinv None k -> switched k = false -> threads k !! t = Some x -> kt_wchan x = None ->
  snd (kt_ctx x) = CStart -> t <> curthr k ->
  exists k', sched_make_runnable t k = Ok (tt, k') /\ kinv None k' /\ step_thr k k' t (with_wchan (Some RunQ) true x) /\
    items k' RunQ = t :: items k RunQ.
Proof.
  intros K Hsw Ht Hw Hc Hne. assert (t <> 0) as H0 by (intros ->; pose proof (k_null _ _ K); congruence).
  destruct (make_runnable_rel k t x) as (k' & E & T & Q & I1 & I2); [apply K|apply K|done..|].
  exists k'. split; [done|]. split; [|done]. eapply kinv_step; [exact K|exact T|done|by eexists|done| |done|].
  - unfold thr_ok, eff. cbn. unfold ready. by rewrite Hc.
  - intros m Hm. rewrite I2 by done. by apply (k_mx _ _ K m 0).
Qed.

(** ** Changes that leave the tree and the holdings alone *)
(** Everything but the family and the exit status. *)
Record same_core (x x' : proc) : Prop := {
  sc_pid : p_pid x' = p_pid x;
  sc_state : p_state x' = p_state x;
  sc_threads : p_threads x' = p_threads x;
  sc_pagedir : p_pagedir x' = p_pagedir x;
  sc_cwd : p_cwd x' = p_cwd x;
  sc_files : p_files x' = p_files x;
  sc_vmmap : p_vmmap x' = p_vmmap x;
}.
#[local] Instance same_core_preorder : PreOrder same_core.
Proof. split; [by split|]. intros x y z [] []. split; congruence. Qed.
Definition cores (P P' : gmap Z proc) : Prop := forall p, option_Forall2 same_core (P !! p) (P' !! p).
#[local] Instance cores_preorder : PreOrder cores.
Proof.
  split.
  - intros P p. destruct (P !! p); by constructor.
  - intros P1 P2 P3 H1 H2 p. specialize (H2 p). destruct (H1 p); inversion H2; subst; constructor. by etrans.
Qed.
Lemma cores_insert P p x x' : P !! p = Some x -> same_core x x' -> cores P (<[p := x']> P).
Proof.
  intros Hx H q. destruct (decide (q = p)) as [->|].
  - rewrite Hx, lookup_insert_eq. by constructor.
  - rewrite lookup_insert_ne by done. destruct (P !! q); by constructor.
Qed.
Lemma cores_lookup P P' p x : cores P P' -> P !! p = Some x -> exists x', P' !! p = Some x' /\ same_core x x'.
Proof. intros H Hx. specialize (H p). rewrite Hx in H. inversion H; subst. eauto. Qed.
Lemma cores_back P P' p x' : cores P P' -> P' !! p = Some x' -> exists x, P !! p = Some x /\ same_core x x'.
Proof. intros H Hx. specialize (H p). rewrite Hx in H. inversion H; subst. eauto. Qed.
Lemma proc_holds_core x x' : same_core x x' -> proc_holds x' = proc_holds x.
Proof. intros [E1 E2 E3 E4 E5 E6 E7]. unfold proc_holds, run_holds. by rewrite E2, E4, E5, E6, E7. Qed.
Lemma gather_cores P P' : cores P P' -> gather proc_holds P' ≡ₚ gather proc_holds P.
Proof. intros H. apply gather_ext. intros p. destruct (H p); constructor. by apply proc_holds_core. Qed.
Lemma linked_cores P P' T : cores P P' -> linked P T -> linked P' T.
Proof.
  intros H [L1 L2]. split.
  - intros t x Hx. destruct (L1 t x Hx) as (y & Hy & Ho). destruct (cores_lookup _ _ _ _ H Hy) as (y' & Hy' & []).
    exists y'. split; [done|]. destruct Ho. by split; rewrite ?sc_threads0, ?sc_state0.
  - intros p y' Hy'. destruct (cores_back _ _ _ _ H Hy') as (y & Hy & []). rewrite sc_state0, sc_threads0. eauto.
Qed.

(** ** Handing children over *)
Record reparented (P P' : gmap Z proc) (cur init : Z) (l : list Z) : Prop := {
  rp_cur c : P !! cur = Some c -> exists ch, P' !! cur = Some (with_pchildren (fun _ => ch) c);
  rp_init y : P !! init = Some y -> exists ch, P' !! init = Some (with_pchildren (fun _ => ch) y) /\
    list_items ch = list_items (p_children y) ++ l;
  rp_child q x : q ∈ l -> P !! q = Some x -> P' !! q = Some (with_pproc init x);
  rp_other q : q <> cur -> q <> init -> q ∉ l -> P' !! q = P !! q;
}.
Lemma reparent_run cur init l : forall s c y, cur <> init -> cur ∉ l -> init ∉ l -> NoDup l ->
  procs s !! cur = Some c -> procs s !! init = Some y -> (forall q, q ∈ l -> is_Some (procs s !! q)) ->
  (forall q, q ∈ l -> q ∉ list_items (p_children y)) ->
  exists P', reparent_loop cur init l s = Ok (tt, upd_procs (fun _ => P') s) /\ reparented (procs s) P' cur init l.
Proof.
  induction l as [|p l IH]; intros s c y Hne Hc Hi Hnd Hcur Hini Hl Hd; cbn [reparent_loop].
  - exists (procs s). split; [by destruct s|]. split; try done.
    + intros c' Hc'. exists (p_children c'). rewrite Hc'. by destruct c'.
    + intros y' Hy'. exists (p_children y'). rewrite Hy', app_nil_r. by destruct y'.
    + by intros q x []%elem_of_nil.
  - apply not_elem_of_cons in Hc as [Hcp Hc]. apply not_elem_of_cons in Hi as [Hip Hi]. apply NoDup_cons in Hnd as [Hpl Hnd].
    destruct (Hl p) as [x Hx]; [by left|].
    rewrite (mbind_run _ _ _ _ _ (store_proc_run _ _ _ _ Hini)). set (s1 := upd_procs _ s).
    assert (procs s1 !! cur = Some c) as Hcur1 by (cbn; by rewrite lookup_insert_ne).
    rewrite (mbind_run _ _ _ _ _ (store_proc_run _ _ _ _ Hcur1)). set (s2 := upd_procs _ s1).
    assert (procs s2 !! p = Some x) as Hx2 by (cbn; by rewrite !lookup_insert_ne).
    rewrite (mbind_run _ _ _ _ _ (store_proc_run _ _ _ _ Hx2)). set (s3 := upd_procs _ s2).
    destruct (IH s3 (with_pchildren list_stale c) (with_pchildren (list_insert_tail p) y)) as (P' & Hr & [R1 R2 R3 R4]); try done.
    { cbn. rewrite lookup_insert_ne by done. apply lookup_insert_eq. }
    { cbn. rewrite !lookup_insert_ne by done. apply lookup_insert_eq. }
    { intros q Hq. cbn. rewrite lookup_insert_ne by congruence. rewrite !lookup_insert_ne by set_solver. apply Hl. by right. }
    { intros q Hq. cbn. rewrite items_insert_tail by (apply Hd; by left). apply not_elem_of_app. split; [apply Hd; by right|].
      intros ->%list_elem_of_singleton. done. }
    exists P'. split; [done|]. split.
    + intros c' Hc'. simplify_eq. destruct (R1 (with_pchildren list_stale c)) as (ch & E).
      { cbn. rewrite lookup_insert_ne by done. apply lookup_insert_eq. }
      exists ch. by rewrite E.
    + intros y' Hy'. simplify_eq. destruct (R2 (with_pchildren (list_insert_tail p) y)) as (ch & E & Ei).
      { cbn. rewrite !lookup_insert_ne by done. apply lookup_insert_eq. }
      exists ch. rewrite E. split; [done|]. rewrite Ei. cbn. rewrite items_insert_tail by (apply Hd; by left). by rewrite <- app_assoc.
    + intros q x' [->|Hq]%elem_of_cons Hx'.
      * rewrite R4 by done. cbn. rewrite lookup_insert_eq. congruence.
      * apply R3; [done|]. cbn. rewrite lookup_insert_ne by congruence. rewrite !lookup_insert_ne by set_solver. done.
    + intros q H1 H2 H3. rewrite R4 by set_solver. cbn. rewrite !lookup_insert_ne by set_solver. done.
Qed.

(** What an exit does to the table of processes. *)
Record exit_rel (p cur init : Z) (l : list Z) (x x' : proc) : Prop := {
  er_pid : p_pid x' = p_pid x;
  er_state : p_state x' = if decide (p = cur) then PROC_DEAD else p_state x;
  er_pproc : p_pproc x' = if decide (p ∈ l) then init else p_pproc x;
  er_children : p <> cur -> list_items (p_children x') = if decide (p = init) then list_items (p_children x) ++ l else list_items (p_children x);
  er_threads : p_threads x' = p_threads x;
  er_pagedir : p_pagedir x' = p_pagedir x;
  er_files : length (p_files x') = length (p_files x);
}.
Definition exited (P P' : gmap Z proc) (cur init : Z) (l : list Z) : Prop :=
  forall p, option_Forall2 (exit_rel p cur init l) (P !! p) (P' !! p).
Lemma exited_back P P' cur init l p x' : exited P P' cur init l -> P' !! p = Some x' ->
  exists x, P !! p = Some x /\ exit_rel p cur init l x x'.
Proof. intros H Hx. specialize (H p). rewrite Hx in H. inversion H; subst. eauto. Qed.
Lemma exited_lookup P P' cur init l p x : exited P P' cur init l -> P !! p = Some x ->
  exists x', P' !! p = Some x' /\ exit_rel p cur init l x x'.
Proof. intros H Hx. specialize (H p). rewrite Hx in H. inversion H; subst. eauto. Qed.
Lemma exited_iff P P' cur init l p : exited P P' cur init l -> is_Some (P' !! p) <-> is_Some (P !! p).
Proof. intros H. destruct (H p); split; intros []; eauto; done. Qed.

(** The init process can take the children. *)
Definition adopts (P : gmap Z proc) (cur init : Z) : Prop :=
  exists y, P !! init = Some y /\ p_pid y = PID_INIT /\ p_state y = PROC_RUNNING /\ init <> cur.

Section Exit.
Context (P : gmap Z proc) (pl : klist) (cur : Z) (c : proc).
Notation l := (list_items (p_children c)).
Hypothesis (T : tree P pl) (Hc : P !! cur = Some c) (Hrun : p_state c = PROC_RUNNING).

Lemma child_parent p x : P !! p = Some x -> p ∈ l <-> p_pproc x = cur.
Proof.
  intros Hx. split.
  - intros Hp. destruct (t_children _ _ T cur c Hc Hrun) as [_ H]. destruct (H p Hp) as (y & Hy & <-). congruence.
  - intros Hp. destruct (t_parent _ _ T p x Hx) as (y & Hy & _ & Hin); [|congruence].
    rewrite Hp. intros ->. pose proof (t_null _ _ T). congruence.
Qed.
Lemma cur_not_child : cur ∉ l.
Proof.
  intros Hin. destruct (t_rank _ _ T) as [rk Hrk]. pose proof (proj1 (child_parent _ _ Hc) Hin) as E0.
  specialize (Hrk cur c Hc). rewrite E0 in Hrk. assert (cur <> 0) by (intros E1; pose proof (t_null _ _ T); congruence). specialize (Hrk H). lia.
Qed.
Hypothesis (Hpid : p_pid c <> PID_IDLE).

Lemma init_not_child p x : P !! p = Some x -> p_pid x = PID_INIT -> p ∉ l.
Proof.
  intros Hx Hp Hin. destruct (t_init _ _ T p x Hx Hp) as (y & Hy & Hy0). apply (child_parent p x Hx) in Hin. congruence.
Qed.
Context (P' : gmap Z proc) (init : Z).
Hypothesis (Hinit : l = [] \/ adopts P cur init) (E : exited P P' cur init l).

Lemma exit_rank : exists rk : Z -> nat, forall p x, P' !! p = Some x -> p_pproc x <> 0 -> (rk (p_pproc x) < rk p)%nat.
Proof.
  destruct (t_rank _ _ T) as [rk Hrk]. destruct Hinit as [E0|(y & Hy & Hyp & Hyr & Hne)].
  - exists rk. intros p x' Hx'. destruct (exited_back _ _ _ _ _ _ _ E Hx') as (x & Hx & []). rewrite er_pproc0, E0.
    rewrite decide_False by apply not_elem_of_nil. by apply Hrk.
  - destruct (t_root _ _ T) as (d & z & Hz & Hz0). destruct pid_idle_init as [I0 I1].
    exists (fun p => if decide (p = d) then 0 else if decide (p = init) then 1 else 2 + rk p)%nat.
    assert (forall p x, P !! p = Some x -> p_pproc x <> 0 -> p <> d) as Hd.
    { intros p x Hx Hp ->. simplify_eq. by apply Hp, (t_idle _ _ T d). }
    intros p x' Hx' Hp'. destruct (exited_back _ _ _ _ _ _ _ E Hx') as (x & Hx & []). rewrite er_pproc0 in *.
    destruct (decide (p ∈ l)) as [Hin|Hin].
    + pose proof (proj1 (child_parent _ _ Hx) Hin) as Hpp.
      assert (p_pproc x <> 0) as Hn0 by (rewrite Hpp; intros ->; pose proof (t_null _ _ T); congruence).
      rewrite (decide_False (P := p = d)) by eauto.
      rewrite (decide_False (P := p = init)) by (intros ->; by apply (init_not_child init y)).
      destruct (decide (init = d)); [lia|]. rewrite decide_True by done. lia.
    + pose proof (Hrk p x Hx Hp') as Hlt. rewrite (decide_False (P := p = d)) by eauto.
      destruct (decide (p_pproc x = d)) as [E1|E1]; [destruct (decide (p = init)); lia|].
      destruct (decide (p = init)) as [->|]; [|destruct (decide (p_pproc x = init)); lia]. exfalso. apply E1.
      simplify_eq. destruct (t_init _ _ T _ _ Hy Hyp) as (w & Hw & Hw0). apply (t_pid _ _ T _ _ w z); congruence.
Qed.

Lemma tree_exit : tree P' pl.
Proof.
  assert (forall p, p ∈ l -> init <> 0 /\ init <> cur /\ exists y, P !! init = Some y /\ p_state y = PROC_RUNNING) as Hini.
  { intros p Hp. destruct Hinit as [E0|(y & Hy & ? & ? & ?)]; [rewrite E0 in Hp; by apply elem_of_nil in Hp|].
    split; [|eauto]. intros ->. pose proof (t_null _ _ T). congruence. }
  assert (cur <> 0) as Hc0 by (intros ->; pose proof (t_null _ _ T); congruence).
  split.
  - pose proof (E 0) as H. rewrite (t_null _ _ T) in H. by inversion H.
  - apply T.
  - intros p. rewrite (exited_iff _ _ _ _ _ _ E). apply T.
  - intros p q x' y' Hx' Hy'. destruct (exited_back _ _ _ _ _ _ _ E Hx') as (x & Hx & []).
    destruct (exited_back _ _ _ _ _ _ _ E Hy') as (y & Hy & []). rewrite er_pid0, er_pid1. by apply (t_pid _ _ T).
  - intros p x' Hx'. destruct (exited_back _ _ _ _ _ _ _ E Hx') as (x & Hx & []). rewrite er_pid0. by apply (t_range _ _ T p).
  - intros p x' Hx'. destruct (exited_back _ _ _ _ _ _ _ E Hx') as (x & Hx & []). rewrite er_pid0, er_pproc0, <- (t_idle _ _ T p x Hx).
    destruct (decide (p ∈ l)) as [Hin|]; [|done]. rewrite (proj1 (child_parent _ _ Hx) Hin). destruct (Hini p Hin). tauto.
  - destruct (t_root _ _ T) as (p & x & Hx & Hp). destruct (exited_lookup _ _ _ _ _ _ _ E Hx) as (x' & Hx' & []).
    exists p, x'. split; [done|congruence].
  - intros p x' Hx'. destruct (exited_back _ _ _ _ _ _ _ E Hx') as (x & Hx & []). rewrite er_pproc0.
    destruct (decide (p ∈ l)) as [Hin|Hin]; intros Hp.
    + destruct (Hini p Hin) as (_ & Hne & y & Hy & Hr). destruct (exited_lookup _ _ _ _ _ _ _ E Hy) as (y' & Hy' & []).
      exists y'. split; [done|]. rewrite er_state1, er_children1, decide_False, decide_True by done. split; [done|set_solver].
    + destruct (t_parent _ _ T p x Hx Hp) as (y & Hy & Hr & Hm). destruct (exited_lookup _ _ _ _ _ _ _ E Hy) as (y' & Hy' & []).
      assert (p_pproc x <> cur) by (by rewrite <- (child_parent p x)).
      exists y'. split; [done|]. rewrite er_state1, er_children1, decide_False by done. split; [done|]. destruct (decide (p_pproc x = init)); set_solver.
  - intros p x' Hx'. destruct (exited_back _ _ _ _ _ _ _ E Hx') as (x & Hx & []). rewrite er_state0.
    destruct (decide (p = cur)) as [|Hne]; [done|]. intros Hr. rewrite er_children0 by done.
    destruct (t_children _ _ T p x Hx Hr) as [Hnd Hch].
    assert (forall q, q ∈ list_items (p_children x) -> exists y, P' !! q = Some y /\ p_pproc y = p /\ q ∉ l) as Hold.
    { intros q Hq. destruct (Hch q Hq) as (y & Hy & Hyp). destruct (exited_lookup _ _ _ _ _ _ _ E Hy) as (y' & Hy' & []).
      assert (q ∉ l) by (rewrite (child_parent q y) by done; congruence). exists y'. rewrite er_pproc1, decide_False by done. done. }
    destruct (decide (p = init)) as [->|]; [|split; [done|naive_solver]].
    split.
    + apply NoDup_app. split; [done|]. split; [naive_solver|]. apply (t_children _ _ T cur c Hc Hrun).
    + intros q [Hq|Hq]%elem_of_app; [naive_solver|]. destruct (t_children _ _ T cur c Hc Hrun) as [_ H].
      destruct (H q Hq) as (y & Hy & Hyp). destruct (exited_lookup _ _ _ _ _ _ _ E Hy) as (y' & Hy' & []).
      exists y'. rewrite er_pproc1, decide_True by done. done.
  - apply exit_rank.
  - intros p x' Hx'. destruct (exited_back _ _ _ _ _ _ _ E Hx') as (x & Hx & []). rewrite er_pid0, er_pproc0. intros Hp.
    rewrite decide_False by (by apply (init_not_child p x)). destruct (t_init _ _ T p x Hx Hp) as (y & Hy & Hy0).
    destruct (exited_lookup _ _ _ _ _ _ _ E Hy) as (y' & Hy' & []). exists y'. split; [done|congruence].
  - intros p x' Hx'. destruct (exited_back _ _ _ _ _ _ _ E Hx') as (x & Hx & []). rewrite er_state0.
    destruct (decide (p = cur)); [by right|by apply (t_state _ _ T p)].
  - intros p x' Hx'. destruct (exited_back _ _ _ _ _ _ _ E Hx') as (x & Hx & []). rewrite er_pagedir0, er_files0. by apply (t_fields _ _ T p).
Qed.
End Exit.

(** ** Processes that come and go *)
Lemma items_removed (x : Z) (l : klist) : NoDup (list_items l) -> x ∈ list_items l ->
  NoDup (list_items (list_remove x l)) /\ forall y, y ∈ list_items (list_remove x l) <-> y ∈ list_items l /\ y <> x.
Proof.
  intros Hnd Hx. apply list_elem_of_split in Hx as (a & b & E). rewrite E in Hnd.
  apply NoDup_app in Hnd as (Ha & Hab & Hb). apply NoDup_cons in Hb as [Hxb Hb].
  assert (x ∉ a ++ b) as Hn by (rewrite not_elem_of_app; split; [intros Hxa; apply (Hab x Hxa); by left|done]).
  rewrite (items_remove x l a b E Hn), E. split.
  - apply NoDup_app. split; [done|]. split; [|done]. intros y Hy Hyb. apply (Hab y Hy). by right.
  - intros y. rewrite !elem_of_app, elem_of_cons. rewrite not_elem_of_app in Hn. split; [|naive_solver].
    intros H. split; [naive_solver|]. intros ->. tauto.
Qed.

Section Family.
Context (P : gmap Z proc) (pl : klist) (cur : Z) (c : proc).
Hypothesis (T : tree P pl) (Hc : P !! cur = Some c) (Hrun : p_state c = PROC_RUNNING).

Lemma tree_new p x : P !! p = None -> p <> 0 -> p_pproc x = cur -> p_state x = PROC_RUNNING -> list_items (p_children x) = [] ->
  0 <= p_pid x < PROC_MAX_COUNT -> (forall q y, P !! q = Some y -> p_pid y <> p_pid x) -> p_pid x <> PID_IDLE ->
  (p_pid x = PID_INIT -> p_pid c = PID_IDLE) -> p_pagedir x <> 0 -> length (p_files x) = Z.to_nat NFILES ->
  tree (<[p := x]> (<[cur := with_pchildren (list_insert_tail p) c]> P)) (list_insert_tail p pl).
Proof.
  intros Hp Hp0 Hpp Hst Hch Hr Hu Hi HI Hpd Hf. set (c' := with_pchildren _ c).
  assert (cur <> p) as Hne by congruence. assert (cur <> 0) as Hc0 by (intros ->; pose proof (t_null _ _ T); congruence).
  destruct (t_children _ _ T cur c Hc Hrun) as [Hnd Hmem].
  assert (p ∉ list_items (p_children c)) as Hnp by (intros (y & Hy & _)%Hmem; congruence).
  assert (list_items (p_children c') = list_items (p_children c) ++ [p]) as Ec by (cbn; by rewrite items_insert_tail).
  assert (p ∉ list_items pl) as Hpl by (rewrite (t_list _ _ T); intros []; congruence).
  assert (forall q y, <[p := x]> (<[cur := c']> P) !! q = Some y -> (q = p /\ y = x) \/
    exists y0, q <> p /\ P !! q = Some y0 /\ same_core y0 y /\ p_pproc y = p_pproc y0 /\
      list_items (p_children y) = list_items (p_children y0) ++ (if decide (q = cur) then [p] else [])) as Inv.
  { intros q y. destruct (decide (q = p)) as [->|Hqp]; [rewrite lookup_insert_eq; intros [= <-]; by left|].
    rewrite lookup_insert_ne by done. destruct (decide (q = cur)) as [->|Hqc].
    - rewrite lookup_insert_eq. intros [= <-]. right. exists c. done.
    - rewrite lookup_insert_ne by done. intros Hy. right. exists y. rewrite app_nil_r. done. }
  assert (forall q y0, P !! q = Some y0 -> exists y, <[p := x]> (<[cur := c']> P) !! q = Some y /\ same_core y0 y /\
      p_pproc y = p_pproc y0 /\ forall z, z ∈ list_items (p_children y0) -> z ∈ list_items (p_children y)) as Fwd.
  { intros q y0 Hq. rewrite lookup_insert_ne by congruence. destruct (decide (q = cur)) as [->|].
    - rewrite lookup_insert_eq. eexists. split; [done|]. simplify_eq. split; [done|]. split; [done|]. intros z Hz. rewrite Ec. set_solver.
    - rewrite lookup_insert_ne by done. exists y0. done. }
  split.
  - rewrite !lookup_insert_ne by done. apply T.
  - rewrite items_insert_tail by done. apply NoDup_app. split; [apply T|]. split; [|apply NoDup_singleton].
    intros q Hq ->%list_elem_of_singleton. done.
  - intros q. rewrite items_insert_tail, elem_of_app, list_elem_of_singleton, (t_list _ _ T) by done.
    destruct (decide (q = p)) as [->|]; [rewrite lookup_insert_eq; split; eauto|rewrite lookup_insert_ne by done].
    destruct (decide (q = cur)) as [->|]; [rewrite lookup_insert_eq, Hc; split; eauto|rewrite lookup_insert_ne by done]. naive_solver.
  - intros q r y z Hy Hz. destruct (Inv _ _ Hy) as [[-> ->]|(y0 & ? & Hy0 & [] & _)], (Inv _ _ Hz) as [[-> ->]|(z0 & ? & Hz0 & [] & _)].
    + done.
    + rewrite sc_pid0. intros E. by destruct (Hu _ _ Hz0).
    + rewrite sc_pid0. intros E. by destruct (Hu _ _ Hy0).
    + rewrite sc_pid0, sc_pid1. by apply (t_pid _ _ T).
  - intros q y Hy. destruct (Inv _ _ Hy) as [[-> ->]|(y0 & ? & Hy0 & [] & _)]; [done|]. rewrite sc_pid0. by apply (t_range _ _ T q).
  - intros q y Hy. destruct (Inv _ _ Hy) as [[-> ->]|(y0 & ? & Hy0 & [] & E & _)]; [rewrite Hpp; tauto|]. rewrite E, sc_pid0. by apply (t_idle _ _ T q).
  - destruct (t_root _ _ T) as (q & y0 & Hy0 & E). destruct (Fwd _ _ Hy0) as (y & Hy & [] & _). exists q, y. split; [done|congruence].
  - intros q y Hy. destruct (Inv _ _ Hy) as [[-> ->]|(y0 & ? & Hy0 & [] & E & _)].
    + intros _. rewrite Hpp. exists c'. rewrite lookup_insert_ne, lookup_insert_eq, Ec by done. split; [done|]. split; [done|set_solver].
    + rewrite E. intros H0. destruct (t_parent _ _ T q y0 Hy0 H0) as (z0 & Hz0 & Hzr & Hin).
      destruct (Fwd _ _ Hz0) as (z & Hz & [] & _ & Hsub). exists z. split; [done|]. split; [congruence|auto].
  - intros q y Hy Hyr. destruct (Inv _ _ Hy) as [[-> ->]|(y0 & Hqp & Hy0 & [] & E & Hl)].
    + rewrite Hch. split; [constructor|]. by intros z []%elem_of_nil.
    + rewrite Hl. destruct (t_children _ _ T q y0 Hy0) as [Hnd0 Hm0]; [congruence|]. split.
      * apply NoDup_app. split; [done|]. case_decide; (split; [|repeat constructor; by intros []%elem_of_nil]); [|by intros ? _ []%elem_of_nil].
        intros z Hz ->%list_elem_of_singleton. subst q. by simplify_eq.
      * intros z [Hz|Hz]%elem_of_app.
        -- destruct (Hm0 z Hz) as (w0 & Hw0 & Ew). destruct (Fwd _ _ Hw0) as (w & Hw & _ & Ew' & _). exists w. split; [done|congruence].
        -- case_decide as Hd; [|by apply elem_of_nil in Hz]. apply list_elem_of_singleton in Hz as ->. exists x. rewrite lookup_insert_eq. split; [done|congruence].
  - destruct (t_rank _ _ T) as [rk Hrk]. exists (fun q => if decide (q = p) then S (rk cur) else rk q).
    intros q y Hy H0. destruct (Inv _ _ Hy) as [[-> ->]|(y0 & Hqp & Hy0 & [] & E & _)].
    + rewrite Hpp, decide_False, decide_True by done. lia.
    + rewrite E in *. rewrite (decide_False (P := q = p)) by done. rewrite decide_False; [by apply Hrk|].
      intros E0. destruct (t_parent _ _ T q y0 Hy0 H0) as (z & Hz & _). congruence.
  - intros q y Hy. destruct (Inv _ _ Hy) as [[-> ->]|(y0 & Hqp & Hy0 & [] & E & _)].
    + intros HH. rewrite Hpp. exists c'. rewrite lookup_insert_ne, lookup_insert_eq by done. split; [done|]. by apply HI.
    + rewrite sc_pid0, E. intros H0. destruct (t_init _ _ T q y0 Hy0 H0) as (z0 & Hz0 & Ez). destruct (Fwd _ _ Hz0) as (z & Hz & [] & _).
      exists z. split; [done|congruence].
  - intros q y Hy. destruct (Inv _ _ Hy) as [[-> ->]|(y0 & ? & Hy0 & [] & _)]; [by left|]. rewrite sc_state0. by apply (t_state _ _ T q).
  - intros q y Hy. destruct (Inv _ _ Hy) as [[-> ->]|(y0 & ? & Hy0 & [] & _)]; [done|]. rewrite sc_pagedir0, sc_files0. by apply (t_fields _ _ T q).
Qed.

(** A dead child goes; it has no children itself. *)
Lemma tree_reap p x : p ∈ list_items (p_children c) -> P !! p = Some x -> p_state x = PROC_DEAD ->
  tree (delete p (<[cur := with_pchildren (list_remove p) c]> P)) (list_remove p pl).
Proof.
  intros Hin Hp Hd. set (c' := with_pchildren _ c). assert (cur <> p) as Hne by congruence.
  destruct (t_children _ _ T cur c Hc Hrun) as [Hnd Hmem]. destruct (items_removed p (p_children c) Hnd Hin) as [Hnd' Hmem'].
  destruct (items_removed p pl (t_nodup _ _ T)) as [Hpl Hpl']; [apply (t_list _ _ T); eauto|].
  assert (p_pproc x = cur) as Hpp by (destruct (Hmem p Hin) as (y & ? & ?); congruence).
  assert (forall q y, P !! q = Some y -> p_pproc y <> p) as Hnone.
  { intros q y Hy E0. destruct (t_parent _ _ T q y Hy) as (z & Hz & Hzr & _); [rewrite E0; intros ->; pose proof (t_null _ _ T); congruence|congruence]. }
  assert (p_pid x <> PID_IDLE) as Hpid.
  { intros E0. apply (t_idle _ _ T p x Hp) in E0. rewrite Hpp in E0. subst. pose proof (t_null _ _ T). congruence. }
  assert (forall q y, delete p (<[cur := c']> P) !! q = Some y -> exists y0, q <> p /\ P !! q = Some y0 /\ same_core y0 y /\ p_pproc y = p_pproc y0 /\
    (q <> cur -> p_children y = p_children y0) /\ (q = cur -> p_children y = list_remove p (p_children c))) as Inv.
  { intros q y [Hqp Hq]%lookup_delete_Some. destruct (decide (q = cur)) as [->|Hqc].
    - rewrite lookup_insert_eq in Hq. injection Hq as <-. exists c. done.
    - rewrite lookup_insert_ne in Hq by done. exists y. done. }
  assert (forall q y0, P !! q = Some y0 -> q <> p -> exists y, delete p (<[cur := c']> P) !! q = Some y /\ same_core y0 y /\
      p_pproc y = p_pproc y0 /\ forall z, z ∈ list_items (p_children y0) -> z <> p -> z ∈ list_items (p_children y)) as Fwd.
  { intros q y0 Hq Hqp. rewrite lookup_delete_ne by done. destruct (decide (q = cur)) as [->|].
    - rewrite lookup_insert_eq. eexists. split; [done|]. simplify_eq. split; [done|]. split; [done|]. intros z Hz Hzp. by apply Hmem'.
    - rewrite lookup_insert_ne by done. exists y0. done. }
  split.
  - apply lookup_delete_None. right. rewrite lookup_insert_ne; [apply T|]. intros ->. pose proof (t_null _ _ T). congruence.
  - done.
  - intros q. rewrite Hpl', (t_list _ _ T). split; [intros [[y Hy] Hq]; destruct (Fwd _ _ Hy Hq) as (? & ? & _); eauto|].
    intros [y Hy]. destruct (Inv _ _ Hy) as (y0 & ? & ? & _). eauto.
  - intros q r y z Hy Hz. destruct (Inv _ _ Hy) as (y0 & ? & Hy0 & [] & _), (Inv _ _ Hz) as (z0 & ? & Hz0 & [] & _).
    rewrite sc_pid0, sc_pid1. by apply (t_pid _ _ T).
  - intros q y Hy. destruct (Inv _ _ Hy) as (y0 & ? & Hy0 & [] & _). rewrite sc_pid0. by apply (t_range _ _ T q).
  - intros q y Hy. destruct (Inv _ _ Hy) as (y0 & ? & Hy0 & [] & E & _). rewrite E, sc_pid0. by apply (t_idle _ _ T q).
  - destruct (t_root _ _ T) as (q & y0 & Hy0 & E). destruct (Fwd _ _ Hy0) as (y & Hy & [] & _); [congruence|]. exists q, y. split; [done|congruence].
  - intros q y Hy. destruct (Inv _ _ Hy) as (y0 & Hqp & Hy0 & [] & E & _). rewrite E. intros H0.
    destruct (t_parent _ _ T q y0 Hy0 H0) as (z0 & Hz0 & Hzr & Hz). destruct (Fwd _ _ Hz0) as (z & Hz' & [] & _ & Hsub); [eauto|].
    exists z. split; [done|]. split; [congruence|auto].
  - intros q y Hy Hyr. destruct (Inv _ _ Hy) as (y0 & Hqp & Hy0 & [] & E & Hl1 & Hl2). rewrite sc_state0 in Hyr.
    destruct (t_children _ _ T q y0 Hy0 Hyr) as [Hnd0 Hm0].
    assert (NoDup (list_items (p_children y)) /\ forall z, z ∈ list_items (p_children y) -> z ∈ list_items (p_children y0) /\ z <> p) as [Hn Hs].
    { destruct (decide (q = cur)) as [->|Hqc]; [rewrite Hl2 by done; simplify_eq; split; [done|]; intros z; apply Hmem'|].
      rewrite Hl1 by done. split; [done|]. intros z Hz. split; [done|]. intros ->. destruct (Hm0 p Hz) as (w & ? & ?). congruence. }
    split; [done|]. intros z Hz. destruct (Hs z Hz) as [Hz0 Hzp]. destruct (Hm0 z Hz0) as (w0 & Hw0 & Ew).
    destruct (Fwd _ _ Hw0 Hzp) as (w & Hw & _ & Ew' & _). exists w. split; [done|congruence].
  - destruct (t_rank _ _ T) as [rk Hrk]. exists rk. intros q y Hy. destruct (Inv _ _ Hy) as (y0 & ? & Hy0 & _ & -> & _). by apply Hrk.
  - intros q y Hy. destruct (Inv _ _ Hy) as (y0 & Hqp & Hy0 & [] & E & _). rewrite sc_pid0, E. intros H0.
    destruct (t_init _ _ T q y0 Hy0 H0) as (z0 & Hz0 & Ez). destruct (Fwd _ _ Hz0) as (z & Hz & [] & _); [eauto|]. exists z. split; [done|congruence].
  - intros q y Hy. destruct (Inv _ _ Hy) as (y0 & ? & Hy0 & [] & _). rewrite sc_state0. by apply (t_state _ _ T q).
  - intros q y Hy. destruct (Inv _ _ Hy) as (y0 & ? & Hy0 & [] & _). rewrite sc_pagedir0, sc_files0. by apply (t_fields _ _ T q).
Qed.
End Family.

(** The threads of processes: one is added, one goes with its process. *)
Lemma linked_new P T p y t x : linked P T -> P !! p = Some y -> list_items (p_threads y) = [] -> T !! t = None ->
  (forall q z, P !! q = Some z -> t ∉ list_items (p_threads z)) ->
  kt_proc x = p -> kt_kstack x <> 0 -> kt_wchan x = None -> kt_state x <> KT_EXITED -> p_state y = PROC_RUNNING ->
  linked (<[p := with_pthreads (list_insert_tail t) y]> P) (<[t := x]> T).
Proof.
  intros [L1 L2] Hp Hy Ht Hno Hx Hk Hw Hst Hrun.
  assert (list_items (p_threads (with_pthreads (list_insert_tail t) y)) = [t]) as Et.
  { cbn. rewrite items_insert_tail by (rewrite Hy; apply not_elem_of_nil). by rewrite Hy. }
  split.
  - intros u z. destruct (decide (u = t)) as [->|].
    + rewrite lookup_insert_eq. intros [= <-]. rewrite Hx, lookup_insert_eq. eexists. split; [done|]. split; try done; [|cbn; congruence|congruence].
      rewrite Et. by apply list_elem_of_singleton.
    + rewrite lookup_insert_ne by done. intros Hz. destruct (L1 u z Hz) as (w & Hw' & []). destruct (decide (kt_proc z = p)) as [E|].
      * rewrite E in Hw'. simplify_eq. rewrite Hy in o_list0. by apply elem_of_nil in o_list0.
      * rewrite lookup_insert_ne by done. eauto.
  - intros q w. destruct (decide (q = p)) as [->|].
    + rewrite lookup_insert_eq. intros [= <-]. right. exists t, x. rewrite lookup_insert_eq. done.
    + rewrite lookup_insert_ne by done. intros Hw'. destruct (L2 q w Hw') as [?|(u & z & E & Hz & Hq)]; [by left|right].
      exists u, z. rewrite lookup_insert_ne by congruence. done.
Qed.
Lemma linked_reap P T p y t : linked P T -> P !! p = Some y -> list_items (p_threads y) = [t] -> linked (delete p P) (delete t T).
Proof.
  intros [L1 L2] Hp Hy. split.
  - intros u z [Hu Hz]%lookup_delete_Some. destruct (L1 u z Hz) as (w & Hw & Ho). exists w. split; [|done].
    rewrite lookup_delete_ne; [done|]. intros E. rewrite <- E in Hw. simplify_eq. pose proof (o_list _ _ _ Ho) as H.
    rewrite Hy in H. apply list_elem_of_singleton in H. congruence.
  - intros q w [Hq Hw]%lookup_delete_Some. destruct (L2 q w Hw) as [?|(u & z & E & Hz & Hqz)]; [by left|right].
    exists u, z. rewrite lookup_delete_ne; [done|]. intros ->. destruct (L2 p y Hp) as [[_ E0]|(t' & x & E' & Hx & Hpx)]; [congruence|].
    rewrite Hy in E'. injection E' as <-. rewrite Hz in Hx. injection Hx as <-. congruence.
Qed.
End Inv.
