(* ===== verification/ProcThm.v ===== *)
(** * Processes and threads: what the operations do

    Creation, exit, cancellation and waiting keep the invariant of [ProcInv]
    and never fail, and what each of them does. *)
From stdpp Require Import base gmap list fin_maps strings.
From Stdlib Require Import ZArith Lia Ascii.
From S2P Require Import Prelude KEnv Sched Proc ProcInv.
Open Scope Z_scope.
Open Scope c_scope.

Section Ops.
Context `{KL : KList} `{SL : Slab} `{KG : KGeometry} `{LK : KLink} `{IN : KIntr} `{ER : KErrno}.
Context `{PC : ProcConsts} `{CX : Contexts} `{PR : ProcRes} `{ST : !StaleList}.

(** Memory for objects, and for pages, does not run out. *)
Record objs_plenty : Prop := {
  pl_slab {A} (h : gmap Z A) : is_Some (slab_pick h);
  pl_pagedir r d r' : pt_create_pagedir r = Ok (d, r') -> d <> 0;
  pl_vmmap r R : holds r R -> exists m r', vmmap_create r = Ok (m, r');
}.
Record plenty : Prop := {
  pl_objs :> objs_plenty;
  pl_pages r n k r' : page_alloc_n n r = Ok (k, r') -> k <> 0;
}.
Lemma pinv_listed L s p : pinv L s -> p ∈ list_items (proc_list s) -> p <> 0 /\ is_Some (procs s !! p).
Proof.
  intros I Hp. apply (t_list _ _ (pi_tree _ _ I)) in Hp as [x Hx]. split; [|eauto].
  intros ->. pose proof (t_null _ _ (pi_tree _ _ I)). congruence.
Qed.
Lemma used_iff L s i : pinv L s -> used s i <-> exists p x, procs s !! p = Some x /\ p_pid x = i.
Proof.
  intros I. split; [by intros (p & x & _ & ? & ?); eauto|]. intros (p & x & Hx & E). exists p, x. split; [|done].
  apply (t_list _ _ (pi_tree _ _ I)). eauto.
Qed.

(** [_proc_getid] always returns: the first process number after the last
    one given (cyclically) that no process has, or -1 when all are taken. *)
Theorem proc_getid_correct L s : pinv L s ->
  (_proc_getid s = Ok (-1, s) /\ forall i, 0 <= i < PROC_MAX_COUNT -> exists p x, procs s !! p = Some x /\ p_pid x = i) \/
  exists j, 0 <= j < PROC_MAX_COUNT /\ let pid := (next_pid s + j) mod PROC_MAX_COUNT in
    _proc_getid s = Ok (pid, upd_next ((pid + 1) mod PROC_MAX_COUNT) s) /\
    (forall p x, procs s !! p = Some x -> p_pid x <> pid) /\
    forall i, 0 <= i < j -> exists p x, procs s !! p = Some x /\ p_pid x = (next_pid s + i) mod PROC_MAX_COUNT.
Proof.
  intros I. destruct (getid_run s (fun p => pinv_listed L s p I) (pi_next _ _ I)) as [[H1 H2]|(j & Hj & H1 & H2 & H3)].
  - left. split; [done|]. intros i Hi. by apply (used_iff L s i I), H2.
  - right. exists j. split; [done|]. split; [done|]. split.
    + intros p x Hx E. apply H2, (used_iff L s _ I). eauto.
    + intros i Hi. by apply (used_iff L s _ I), H3.
Qed.

(** ** Creating a process *)
(** The state after [proc_create]: the new process [p] with number [pid], page
    directory [d] and address space [m]. *)
Definition created (s : ps) (p pid d m : Z) (name : list ascii) (c : proc) (r : rst) : ps :=
  let x := with_pvmmap m (with_cwd (vfs_root_vn s) (with_pagedir d (new_proc pid name (curproc (kst s))))) in
  mkPs _ _ (<[p := x]> (<[curproc (kst s) := with_pchildren (list_insert_tail p) c]> (procs s)))
    (list_insert_tail p (proc_list s)) (if pid =? -1 then next_pid s else (pid + 1) mod PROC_MAX_COUNT)
    (if pid =? PID_INIT then p else proc_initproc s) (vfs_root_vn s) (exts s)
    (upd_queues (<[ProcQ p := mkQueue _ list_empty_head 0]>) (kst s)) r.

(** What becomes of the resources: the page directory [d], a reference to the
    root directory and the address space [m] for process [p]. *)
Definition made (r0 : rst) (root p d m : Z) (r4 : rst) : Prop := exists r1 r2 r3, pt_create_pagedir r0 = Ok (d, r1) /\
  (if negb (root =? 0) then vref root r1 = Ok (tt, r2) else r2 = r1) /\
  vmmap_create r2 = Ok (m, r3) /\ set_vmm_proc m p r3 = Ok (tt, r4).
Lemma create_res L s p (R : list hold) : objs_plenty -> holds (res s) (L ++ R) -> (vfs_root_vn s <> 0 -> HVnode (vfs_root_vn s) ∈ L) ->
  exists d m r1 r2 r3 r4, d <> 0 /\ pt_create_pagedir (res s) = Ok (d, r1) /\
    (if negb (vfs_root_vn s =? 0) then vref (vfs_root_vn s) r1 = Ok (tt, r2) else r2 = r1) /\
    vmmap_create r2 = Ok (m, r3) /\ set_vmm_proc m p r3 = Ok (tt, r4) /\
    holds r4 (L ++ (HPagedir d :: opt_hold HVnode (vfs_root_vn s) ++ [HMap m]) ++ R).
Proof.
  intros PL H Hroot. destruct (pt_create_pagedir_ok _ _ H) as (d & r1 & E1 & H1). pose proof (pl_pagedir PL _ _ _ E1) as Hd.
  rewrite (proj2 (Z.eqb_neq _ _) Hd) in H1.
  assert (exists r2, (if negb (vfs_root_vn s =? 0) then vref (vfs_root_vn s) r1 = Ok (tt, r2) else r2 = r1) /\
    holds r2 (opt_hold HVnode (vfs_root_vn s) ++ HPagedir d :: L ++ R)) as (r2 & E2 & H2).
  { unfold opt_hold. destruct (vfs_root_vn s =? 0) eqn:E; cbn; [by exists r1|]. apply Z.eqb_neq in E.
    destruct (vref_ok _ _ (vfs_root_vn s) H1) as (r2 & ? & ?); [right; set_solver|eauto]. }
  destruct (pl_vmmap PL _ _ H2) as (m & r3 & E3). destruct (vmmap_create_ok _ _ _ _ H2 E3) as [Hm H3].
  destruct (set_vmm_proc_ok _ _ _ p H3) as (r4 & E4 & H4).
  exists d, m, r1, r2, r3, r4. do 5 (split; [done|]). eapply holds_perm; [|exact H4].
  rewrite (Permutation_cons_append _ (HMap m)). solve_Permutation.
Qed.

Lemma insert_twice (P : gmap Z proc) p q (x1 x2 x3 x4 x5 y : proc) : q <> p ->
  <[p := x5]> (<[p := x4]> (<[q := y]> (<[p := x3]> (<[p := x2]> (<[p := x1]> P))))) = <[p := x5]> (<[q := y]> P).
Proof.
  intros Hne. apply map_eq. intros k. destruct (decide (k = p)) as [->|]; [by rewrite !lookup_insert_eq|].
  rewrite !(lookup_insert_ne _ p) by done. destruct (decide (k = q)) as [->|]; [by rewrite !lookup_insert_eq|].
  by rewrite !lookup_insert_ne.
Qed.

Lemma create_run s p pid name c d m r1 r2 r3 r4 : slab_pick (procs s) = Some p -> procs s !! p = None ->
  _proc_getid (upd_procs (<[p := zero_proc]>) s) =
    Ok (pid, upd_next (if pid =? -1 then next_pid s else (pid + 1) mod PROC_MAX_COUNT) (upd_procs (<[p := zero_proc]>) s)) ->
  pid <> PID_IDLE -> procs s !! curproc (kst s) = Some c -> curproc (kst s) <> 0 -> (pid = PID_INIT -> p_pid c = PID_IDLE) ->
  pt_create_pagedir (res s) = Ok (d, r1) ->
  (if negb (vfs_root_vn s =? 0) then vref (vfs_root_vn s) r1 = Ok (tt, r2) else r2 = r1) ->
  vmmap_create r2 = Ok (m, r3) -> set_vmm_proc m p r3 = Ok (tt, r4) ->
  proc_create name s = Ok (p, created s p pid d m name c r4).
Proof.
  intros Hp Hnone Hg Hidle Hc Hc0 Hi E1 E2 E3 E4. unfold proc_create. assert (curproc (kst s) <> p) as Hne by congruence.
  rewrite (mbind_run (fun s0 => mthe (slab_pick (procs s0)) s0) _ s p s) by (by rewrite Hp).
  set (s1 := upd_procs _ s) in *. rewrite (mbind_run (mput (upd_procs (<[p := zero_proc]>))) _ s tt s1 eq_refl), (mbind_run _ _ _ _ _ Hg). set (s2 := upd_next _ s1).
  rewrite (mbind_run (mget _) _ s2 (list_items (proc_list s)) s2 eq_refl).
  rewrite (proj2 (Z.eqb_neq PID_IDLE pid)) by congruence. cbn [negb orb]. rewrite (mbind_run _ _ _ tt s2 eq_refl).
  rewrite (mbind_run cur_proc _ s2 (curproc (kst s)) s2 eq_refl).
  assert (procs s2 !! curproc (kst s) = Some c) as Hc2 by (cbn; by rewrite lookup_insert_ne).
  rewrite (mbind_run _ _ s2 tt s2); [|destruct (PID_INIT =? pid) eqn:E; [|done]; apply Z.eqb_eq in E; symmetry in E;
    rewrite (mbind_run _ _ _ _ _ (load_proc_run _ _ _ Hc2)), (Hi E), Z.eqb_refl; done].
  assert (procs s2 !! p = Some zero_proc) as Hp2 by apply lookup_insert_eq.
  rewrite (mbind_run _ _ _ _ _ (store_proc_run _ _ _ _ Hp2)). set (s3 := upd_procs _ s2).
  rewrite (mbind_run (sched_op (sched_queue_init (ProcQ p))) _ s3 tt (upd_kst (upd_queues (<[ProcQ p := mkQueue _ list_empty_head 0]>) (kst s)) s3) eq_refl).
  set (s4 := upd_kst _ s3). rewrite (mbind_run _ _ _ _ _ (res_op_run _ s4 d r1 E1)).
  assert (procs (upd_res r1 s4) !! p = Some (new_proc pid name (curproc (kst s)))) as Hp4 by apply lookup_insert_eq.
  rewrite (mbind_run _ _ _ _ _ (store_proc_run _ _ _ _ Hp4)). set (s5 := upd_procs _ _).
  rewrite (proj2 (Z.eqb_neq _ _) Hc0). cbn [negb].
  assert (procs s5 !! curproc (kst s) = Some c) as Hc5 by (cbn; by rewrite !lookup_insert_ne).
  rewrite (mbind_run _ _ _ _ _ (store_proc_run _ _ _ _ Hc5)). set (s6 := upd_procs _ s5).
  set (s7 := upd_plist (list_insert_tail p) s6). rewrite (mbind_run (mput (upd_plist (list_insert_tail p))) _ s6 tt s7 eq_refl).
  rewrite (mbind_run (mget _) _ s7 (vfs_root_vn s) s7 eq_refl).
  assert (procs s7 !! p = Some (with_pagedir d (new_proc pid name (curproc (kst s))))) as Hp7
    by (cbn; rewrite lookup_insert_ne by done; apply lookup_insert_eq).
  rewrite (mbind_run _ _ _ _ _ (store_proc_run _ _ _ _ Hp7)). set (s8 := upd_procs _ s7).
  rewrite (mbind_run _ _ s8 tt (upd_res r2 s8)); [|destruct (negb _); [by apply res_op_run|subst r2; reflexivity]].
  rewrite (mbind_run _ _ _ _ _ (res_op_run _ (upd_res r2 s8) m r3 E3)). set (s9 := upd_res r3 _).
  assert (procs s9 !! p = Some (with_cwd (vfs_root_vn s) (with_pagedir d (new_proc pid name (curproc (kst s)))))) as Hp9 by apply lookup_insert_eq.
  rewrite (mbind_run _ _ _ _ _ (store_proc_run _ _ _ _ Hp9)). set (s10 := upd_procs _ s9).
  rewrite (mbind_run _ _ _ _ _ (res_op_run _ s10 tt r4 E4)).
  set (s11 := upd_res r4 s10). unfold created. destruct (pid =? PID_INIT).
  - rewrite (mbind_run (mput (upd_init p)) _ s11 tt (upd_init p s11) eq_refl). unfold mret_. do 2 f_equal.
    unfold upd_init. f_equal. by apply insert_twice.
  - rewrite (mbind_run (mret_ tt) _ s11 tt s11 eq_refl). unfold mret_. do 2 f_equal.
    unfold s11, upd_res. f_equal. by apply insert_twice.
Qed.

Lemma linked_insert P T p x : linked P T -> P !! p = None -> list_items (p_threads x) = [] -> p_state x <> PROC_DEAD ->
  linked (<[p := x]> P) T.
Proof.
  intros [L1 L2] Hp Hx Hs. split.
  - intros t y Hy. destruct (L1 t y Hy) as (z & Hz & Ho). exists z. rewrite lookup_insert_ne by congruence. done.
  - intros q z. destruct (decide (q = p)) as [->|]; [rewrite lookup_insert_eq; intros [= <-]; by left|].
    rewrite lookup_insert_ne by done. apply L2.
Qed.
Lemma no_files n : replicate n 0 ≫= opt_hold HFile = [].
Proof. by induction n. Qed.
Lemma new_holds pid name cur d v m :
  proc_holds (with_pvmmap m (with_cwd v (with_pagedir d (new_proc pid name cur)))) = HPagedir d :: opt_hold HVnode v ++ [HMap m].
Proof. unfold proc_holds, run_holds. cbn. by rewrite no_files. Qed.
(** A process that does not exist is not waited on. *)
Lemma no_waiters L s p : pinv L s -> procs s !! p = None -> items (kst s) (ProcQ p) = [].
Proof.
  intros I Hp. destruct (items (kst s) (ProcQ p)) as [|t l] eqn:E; [done|].
  destruct (kinv_member _ _ (ProcQ p) t (pi_k _ _ I)) as (x & Hx & Hw & _); [rewrite E; by left|].
  destruct (l_thr _ _ (pi_link _ _ I) t x Hx) as (y & Hy & Ho). pose proof (o_wait _ _ _ Ho _ Hw). congruence.
Qed.

Lemma created_pinv L s p pid name c d m r : pinv L s -> procs s !! p = None -> p <> 0 -> procs s !! curproc (kst s) = Some c ->
  0 <= pid < PROC_MAX_COUNT -> (forall q y, procs s !! q = Some y -> p_pid y <> pid) -> pid <> PID_IDLE ->
  (pid = PID_INIT -> p_pid c = PID_IDLE) -> d <> 0 ->
  holds r (L ++ (HPagedir d :: opt_hold HVnode (vfs_root_vn s) ++ [HMap m]) ++ all_holds s) ->
  pinv L (created s p pid d m name c r).
Proof.
  intros I Hp Hp0 Hc Hr Hu Hidle Hi Hd Hh. destruct (pi_cur _ _ I) as (xc & c' & Hxc & Hpc & Hc' & Hrun & Hq). simplify_eq.
  assert (curproc (kst s) <> p) as Hne by congruence.
  destruct (kinv_queue_init (kst s) (ProcQ p) (pi_k _ _ I)) as (_ & K & Q); [done|by eapply no_waiters|].
  assert (cores (procs s) (<[curproc (kst s) := with_pchildren (list_insert_tail p) c]> (procs s))) as HC by (by eapply cores_insert).
  unfold created. split; cbn -[upd_queues].
  - exact K.
  - eapply tree_new; try done; [exact (pi_tree _ _ I)|apply items_empty|apply length_replicate].
  - apply linked_insert; [eapply linked_cores; [done|exact (pi_link _ _ I)]|by rewrite lookup_insert_ne|apply items_empty|done].
  - intros q. destruct (decide (q = p)) as [->|]; [intros _; apply Q; by right|]. rewrite lookup_insert_ne by done.
    intros [y Hy]. apply Q. left. apply (pi_queue _ _ I). destruct (cores_back _ _ _ _ HC Hy) as (y0 & ? & _). eauto.
  - eexists xc, _. split; [done|]. split; [done|]. rewrite lookup_insert_ne, lookup_insert_eq by done. split; [done|]. done.
  - exact (pi_exts _ _ I).
  - rewrite (proj2 (Z.eqb_neq pid (-1))) by lia. apply Z.mod_pos_bound. lia.
  - intros q y. destruct (decide (q = p)) as [->|].
    + rewrite lookup_insert_eq. intros [= <-]. cbn. intros ->. by rewrite Z.eqb_refl.
    + rewrite lookup_insert_ne by done. intros Hy Hyp. destruct (cores_back _ _ _ _ HC Hy) as (y0 & Hy0 & [E _]). rewrite E in Hyp.
      rewrite (proj2 (Z.eqb_neq pid PID_INIT)); [by apply (pi_init _ _ I q y0)|]. intros ->. by destruct (Hu _ _ Hy0).
  - exact (pi_root _ _ I).
  - eapply holds_perm; [|exact Hh]. f_equiv. unfold all_holds. cbn. rewrite gather_insert by (by rewrite lookup_insert_ne).
    rewrite (gather_cores _ _ HC), new_holds. cbn. by rewrite <- !app_assoc.
Qed.

Lemma create_ok L s name c : pinv L s -> objs_plenty -> procs s !! curproc (kst s) = Some c ->
  (exists i, 0 <= i < PROC_MAX_COUNT /\ forall q y, procs s !! q = Some y -> p_pid y <> i) ->
  (p_pid c = PID_IDLE \/ exists q y, procs s !! q = Some y /\ p_pid y = PID_INIT) ->
  exists p pid d m r, proc_create name s = Ok (p, created s p pid d m name c r) /\ pinv L (created s p pid d m name c r) /\
    procs s !! p = None /\ 0 <= pid < PROC_MAX_COUNT /\ (forall q y, procs s !! q = Some y -> p_pid y <> pid) /\
    made (res s) (vfs_root_vn s) p d m r /\ ((forall q y, procs s !! q = Some y -> p_pid y <> next_pid s) -> pid = next_pid s).
Proof.
  intros I PL Hc (i & Hi & Hfree) Hinit. destruct (pl_slab PL (procs s)) as [p Hp]. destruct (slab_fresh _ _ Hp) as [Hp0 Hnone].
  set (s1 := upd_procs (<[p := zero_proc]>) s).
  assert (forall q, q ∈ list_items (proc_list s1) -> q <> 0 /\ is_Some (procs s1 !! q)) as Hl1.
  { intros q Hq. destruct (pinv_listed L s q I Hq) as [? [y Hy]]. split; [done|]. cbn. rewrite lookup_insert_ne by congruence. eauto. }
  assert (forall i, used s1 i <-> exists q y, procs s !! q = Some y /\ p_pid y = i) as Hu1.
  { intros i'. rewrite <- (used_iff L s i' I). unfold used. cbn. split; intros (q & y & Hq & Hy & E); exists q, y; (split; [done|]); (split; [|done]);
      destruct (pinv_listed L s q I Hq) as [_ [y' Hy']]; rewrite lookup_insert_ne in * by congruence; done. }
  destruct (getid_run s1 Hl1 (pi_next _ _ I)) as [[_ H]|(j & Hj & Hg & Hu & Hjm)].
  { destruct (proj1 (Hu1 i) (H i Hi)) as (q & y & Hy & E). by destruct (Hfree q y Hy). }
  set (pid := (next_pid s1 + j) mod PROC_MAX_COUNT) in *.
  assert (0 <= pid < PROC_MAX_COUNT) as Hpid by (apply Z.mod_pos_bound; pose proof proc_max_range; lia).
  assert (forall q y, procs s !! q = Some y -> p_pid y <> pid) as Hun by (intros q y Hy E; apply Hu, Hu1; eauto).
  assert (pid <> PID_IDLE) as Hidle by (destruct (t_root _ _ (pi_tree _ _ I)) as (q & y & Hy & E); rewrite <- E; intros E'; by destruct (Hun q y Hy)).
  assert (pid = PID_INIT -> p_pid c = PID_IDLE) as HI by (intros E; destruct Hinit as [?|(q & y & Hy & Hyp)]; [done|]; destruct (Hun q y Hy); congruence).
  destruct (create_res L s p (all_holds s) PL (pi_holds _ _ I) (pi_root _ _ I)) as (d & m & r1 & r2 & r3 & r4 & Hd & E1 & E2 & E3 & E4 & Hh).
  exists p, pid, d, m, r4. split; [|split; [by eapply created_pinv|do 3 (split; [done|]); split; [by exists r1, r2, r3|]]].
  2:{ intros Hn. unfold pid. replace j with 0; [rewrite Z.add_0_r; apply Z.mod_small, (pi_next _ _ I)|]. destruct (decide (j = 0)) as [|Hj0]; [done|].
      destruct (proj1 (Hu1 _) (Hjm 0 ltac:(lia))) as (q & y & Hy & E). destruct (Hn q y Hy). rewrite E, Z.add_0_r. apply Z.mod_small, (pi_next _ _ I). }
  assert (curproc (kst s) <> 0) by (intros E0; pose proof (t_null _ _ (pi_tree _ _ I)); congruence).
  eapply create_run; try done. change (_proc_getid s1 = Ok (pid, upd_next (if pid =? -1 then next_pid s else (pid + 1) mod PROC_MAX_COUNT) s1)).
  rewrite (proj2 (Z.eqb_neq pid (-1))) by lia. done.
Qed.

(** When every process number is taken, [proc_create] makes a process with
    the number -1, the error code of [_proc_getid]. *)
Theorem proc_create_no_pid L s name c : pinv L s -> objs_plenty -> procs s !! curproc (kst s) = Some c ->
  (forall i, 0 <= i < PROC_MAX_COUNT -> exists q y, procs s !! q = Some y /\ p_pid y = i) ->
  exists p s' x, proc_create name s = Ok (p, s') /\ procs s' !! p = Some x /\ p_pid x = -1.
Proof.
  intros I PL Hc Hall. destruct (pl_slab PL (procs s)) as [p Hp]. destruct (slab_fresh _ _ Hp) as [Hp0 Hnone].
  set (s1 := upd_procs (<[p := zero_proc]>) s).
  assert (forall q, q ∈ list_items (proc_list s1) -> q <> 0 /\ is_Some (procs s1 !! q)) as Hl1.
  { intros q Hq. destruct (pinv_listed L s q I Hq) as [? [y Hy]]. split; [done|]. cbn. rewrite lookup_insert_ne by congruence. eauto. }
  destruct (getid_run s1 Hl1 (pi_next _ _ I)) as [[Hg _]|(j & Hj & _ & Hu & _)].
  2:{ destruct Hu. destruct (Hall ((next_pid s1 + j) mod PROC_MAX_COUNT)) as (q & y & Hy & E); [apply Z.mod_pos_bound; pose proof proc_max_range; lia|].
      exists q, y. split; [apply (t_list _ _ (pi_tree _ _ I)); eauto|]. split; [|done]. cbn. by rewrite lookup_insert_ne by congruence. }
  destruct (create_res L s p (all_holds s) PL (pi_holds _ _ I) (pi_root _ _ I)) as (d & m & r1 & r2 & r3 & r4 & Hd & E1 & E2 & E3 & E4 & Hh).
  destruct pid_idle_init as [I0 I1]. eexists p, (created s p (-1) d m name c r4), _. split; [|split; [apply lookup_insert_eq|done]].
  assert (curproc (kst s) <> 0) by (intros E0; pose proof (t_null _ _ (pi_tree _ _ I)); congruence).
  eapply create_run; try done; lia.
Qed.

(** ** Creating a thread *)
(** The same place in the tree. *)
Record kin (x x' : proc) : Prop := {
  kn_pid : p_pid x' = p_pid x;
  kn_state : p_state x' = p_state x;
  kn_pproc : p_pproc x' = p_pproc x;
  kn_children : p_children x' = p_children x;
  kn_pagedir : p_pagedir x' = p_pagedir x;
  kn_files : length (p_files x') = length (p_files x);
}.
Lemma tree_kin P P' pl : tree P pl -> (forall p, option_Forall2 kin (P !! p) (P' !! p)) -> tree P' pl.
Proof.
  intros T C.
  assert (forall p x', P' !! p = Some x' -> exists x, P !! p = Some x /\ kin x x') as Inv.
  { intros p x' Hx'. pose proof (C p) as H. rewrite Hx' in H. inversion H; subst. eauto. }
  assert (forall p x, P !! p = Some x -> exists x', P' !! p = Some x' /\ kin x x') as Fwd.
  { intros p x Hx. pose proof (C p) as H. rewrite Hx in H. inversion H; subst. eauto. }
  split.
  - pose proof (C 0) as H. rewrite (t_null _ _ T) in H. by inversion H.
  - apply T.
  - intros p. rewrite (t_list _ _ T). split; intros [x Hx]; [destruct (Fwd _ _ Hx) as (? & ? & _)|destruct (Inv _ _ Hx) as (? & ? & _)]; eauto.
  - intros p q x' y' Hx' Hy'. destruct (Inv _ _ Hx') as (x & Hx & K1), (Inv _ _ Hy') as (y & Hy & K2).
    rewrite (kn_pid _ _ K1), (kn_pid _ _ K2). by apply (t_pid _ _ T).
  - intros p x' Hx'. destruct (Inv _ _ Hx') as (x & Hx & K1). rewrite (kn_pid _ _ K1). by apply (t_range _ _ T p).
  - intros p x' Hx'. destruct (Inv _ _ Hx') as (x & Hx & K1). rewrite (kn_pid _ _ K1), (kn_pproc _ _ K1). by apply (t_idle _ _ T p).
  - destruct (t_root _ _ T) as (p & x & Hx & E). destruct (Fwd _ _ Hx) as (x' & Hx' & K1). exists p, x'. split; [done|]. by rewrite (kn_pid _ _ K1).
  - intros p x' Hx'. destruct (Inv _ _ Hx') as (x & Hx & K1). rewrite (kn_pproc _ _ K1). intros H0.
    destruct (t_parent _ _ T p x Hx H0) as (y & Hy & Hr & Hin). destruct (Fwd _ _ Hy) as (y' & Hy' & K2). exists y'.
    by rewrite (kn_state _ _ K2), (kn_children _ _ K2).
  - intros p x' Hx'. destruct (Inv _ _ Hx') as (x & Hx & K1). rewrite (kn_state _ _ K1), (kn_children _ _ K1). intros Hr.
    destruct (t_children _ _ T p x Hx Hr) as [Hnd Hm]. split; [done|]. intros c Hc. destruct (Hm c Hc) as (y & Hy & Ey).
    destruct (Fwd _ _ Hy) as (y' & Hy' & K2). exists y'. by rewrite (kn_pproc _ _ K2).
  - destruct (t_rank _ _ T) as [rk Hrk]. exists rk. intros p x' Hx'. destruct (Inv _ _ Hx') as (x & Hx & K1). rewrite (kn_pproc _ _ K1). by apply Hrk.
  - intros p x' Hx'. destruct (Inv _ _ Hx') as (x & Hx & K1). rewrite (kn_pid _ _ K1), (kn_pproc _ _ K1). intros Hp.
    destruct (t_init _ _ T p x Hx Hp) as (y & Hy & Ey). destruct (Fwd _ _ Hy) as (y' & Hy' & K2). exists y'. by rewrite (kn_pid _ _ K2).
  - intros p x' Hx'. destruct (Inv _ _ Hx') as (x & Hx & K1). rewrite (kn_state _ _ K1). by apply (t_state _ _ T p).
  - intros p x' Hx'. destruct (Inv _ _ Hx') as (x & Hx & K1). rewrite (kn_pagedir _ _ K1), (kn_files _ _ K1). by apply (t_fields _ _ T p).
Qed.
Lemma kin_insert (P : gmap Z proc) p x x' : P !! p = Some x -> kin x x' -> forall q, option_Forall2 kin (P !! q) (<[p := x']> P !! q).
Proof.
  intros Hx H q. destruct (decide (q = p)) as [->|].
  - rewrite Hx, lookup_insert_eq. by constructor.
  - rewrite lookup_insert_ne by done. destruct (P !! q); by constructor.
Qed.

(** ** The record of a process is replaced *)
Lemma linked_update P (T : gmap Z kthread) p y y' : linked P T -> P !! p = Some y -> p_threads y' = p_threads y -> p_state y' = p_state y ->
  linked (<[p := y']> P) T.
Proof.
  intros [L1 L2] Hy Et Es. split.
  - intros t x Hx. destruct (L1 t x Hx) as (z & Hz & Ho). destruct (decide (kt_proc x = p)) as [E|].
    + rewrite E, lookup_insert_eq. exists y'. split; [done|]. rewrite E in Hz. simplify_eq. destruct Ho. split; rewrite ?Et, ?Es; try done.
    + exists z. by rewrite lookup_insert_ne.
  - intros q z. destruct (decide (q = p)) as [->|].
    + rewrite lookup_insert_eq. intros [= <-]. rewrite Es, Et. by apply L2.
    + rewrite lookup_insert_ne by done. apply L2.
Qed.
Lemma pinv_update L0 L s p y y' r : pinv L0 s -> procs s !! p = Some y -> kin y y' -> p_threads y' = p_threads y ->
  (vfs_root_vn s <> 0 -> HVnode (vfs_root_vn s) ∈ L) -> holds r (L ++ all_holds (upd_procs (<[p := y']>) s)) ->
  pinv L (upd_res r (upd_procs (<[p := y']>) s)).
Proof.
  intros I Hy K Et Hroot Hh. destruct I as [I1 I2 I3 I4 (xc & c & Hxc & Hpc & Hcc & Hcr & Hq) I6 I7 I8 I9 I10]. split; cbn.
  - done.
  - eapply tree_kin; [done|]. by eapply kin_insert.
  - eapply linked_update; try done. apply K.
  - intros q. destruct (decide (q = p)) as [->|]; [intros _; apply I4; eauto|]. rewrite lookup_insert_ne by done. apply I4.
  - exists xc. destruct (decide (curproc (kst s) = p)) as [E|]; [exists y'; rewrite E in *; rewrite lookup_insert_eq|exists c; by rewrite lookup_insert_ne].
    rewrite Hy in Hcc. injection Hcc as <-. rewrite (kn_state _ _ K), (kn_pid _ _ K). done.
  - done.
  - done.
  - intros q z. destruct (decide (q = p)) as [->|]; [rewrite lookup_insert_eq; intros [= <-]; rewrite (kn_pid _ _ K); by apply I8|].
    rewrite lookup_insert_ne by done. apply I8.
  - done.
  - exact Hh.
Qed.

(** Thread [t] with record [x] and context [e] added to process [p]. *)
Definition with_thread (s : ps) (t : Z) (x : kthread) (e : kext) (p : Z) (y : proc) (r : rst) : ps :=
  mkPs _ _ (<[p := with_pthreads (list_insert_tail t) y]> (procs s)) (proc_list s) (next_pid s) (proc_initproc s)
    (vfs_root_vn s) (<[t := e]> (exts s)) (upd_threads (<[t := x]>) (kst s)) r.

Lemma with_thread_pinv L0 L s t x e p y r : pinv L0 s -> (vfs_root_vn s <> 0 -> HVnode (vfs_root_vn s) ∈ L) -> procs s !! p = Some y -> p_state y = PROC_RUNNING -> list_items (p_threads y) = [] ->
  threads (kst s) !! t = None -> t <> 0 -> kt_proc x = p -> kt_kstack x <> 0 -> kt_wchan x = None -> kt_state x = KT_RUN ->
  snd (kt_ctx x) = CStart -> holds r (HStack (kt_kstack x) :: L ++ all_holds s) ->
  pinv L (with_thread s t x e p y r).
Proof.
  intros I Hroot Hp Hrun Hemp Ht Ht0 Hx Hk Hw Hs Hc Hh. destruct (pi_cur _ _ I) as (xc & c & Hxc & Hpc & Hcc & Hcr & Hq).
  assert (curthr (kst s) <> t) by congruence. assert (curproc (kst s) <> p) as Hne.
  { intros E. rewrite E in Hcc. simplify_eq. destruct (l_thr _ _ (pi_link _ _ I) _ _ Hxc) as (y' & Hy' & Ho).
    rewrite Hpc, E, Hp in Hy'. injection Hy' as <-. pose proof (o_list _ _ _ Ho) as Hl. rewrite Hemp in Hl. by apply elem_of_nil in Hl. }
  unfold with_thread. split; cbn -[upd_threads].
  - apply kinv_thread_new; [apply I|done..|]. by rewrite Hs.
  - eapply tree_kin; [apply I|]. by eapply kin_insert.
  - apply linked_new; try done; [apply I| |by rewrite Hs]. intros q z Hz Hin. destruct (l_one _ _ (pi_link _ _ I) q z Hz) as [[_ E]|(t' & x' & E & Hx' & _)].
    + rewrite E in Hin. by apply elem_of_nil in Hin.
    + rewrite E in Hin. apply list_elem_of_singleton in Hin. congruence.
  - intros q. destruct (decide (q = p)) as [->|]; [intros _; apply (pi_queue _ _ I); eauto|]. rewrite lookup_insert_ne by done. apply (pi_queue _ _ I).
  - exists xc, c. cbn. rewrite !lookup_insert_ne by done. done.
  - intros u. cbn. destruct (decide (u = t)) as [->|]; [intros _; rewrite lookup_insert_eq; eauto|].
    rewrite (lookup_insert_ne (exts s)), (lookup_insert_ne (threads (kst s))) by done. apply (pi_exts _ _ I).
  - apply (pi_next _ _ I).
  - intros q z. destruct (decide (q = p)) as [->|]; [rewrite lookup_insert_eq; intros [= <-]; by apply (pi_init _ _ I p y)|].
    rewrite lookup_insert_ne by done. apply (pi_init _ _ I).
  - done.
  - eapply holds_perm; [|exact Hh]. unfold all_holds. cbn. rewrite (gather_same proc_holds _ p y) by done.
    rewrite (gather_insert thr_holds) by done. unfold thr_holds. cbn. rewrite <- !Permutation_middle. done.
Qed.

Lemma kthread_create_run s p y func arg1 arg2 t k r : slab_pick (threads (kst s)) = Some t -> page_alloc_n stack_pages (res s) = Ok (k, r) ->
  procs s !! p = Some y -> p <> 0 -> kthread_create p func arg1 arg2 s =
    Ok (t, with_thread s t (mkThread KT_RUN None link_initialised false 0 p k (start_ipl, CStart))
      (mkKext 0 (context_setup func arg1 arg2 k DEFAULT_STACK_SIZE (p_pagedir y))) p y r).
Proof.
  intros Ht E Hp Hp0. unfold kthread_create. rewrite (proj2 (Z.eqb_neq _ _) Hp0), (mbind_run _ _ s tt s eq_refl).
  rewrite (mbind_run thread_alloc _ s t s) by (unfold thread_alloc; by rewrite Ht).
  rewrite (mbind_run alloc_stack _ s k (upd_res r s)) by (by apply res_op_run).
  rewrite (mbind_run _ _ _ _ _ (load_proc_run (upd_res r s) p y Hp)). unfold new_thread.
  set (x := mkThread _ _ _ _ _ _ _ _). set (e := mkKext _ _).
  rewrite (mbind_run _ _ (upd_res r s) tt (upd_exts (<[t := e]>) (upd_kst (upd_threads (<[t := x]>) (kst s)) (upd_res r s))) eq_refl).
  by rewrite (mbind_run _ _ _ _ _ (store_proc_run (upd_exts (<[t := e]>) (upd_kst (upd_threads (<[t := x]>) (kst s)) (upd_res r s))) p y _ Hp)).
Qed.

(** [kthread_create] gives a running process its thread: a new thread with
    a stack of its own and a context on the page directory of the process, on
    the process's list and on no queue. *)
Lemma kthread_create_ok L s p y func arg1 arg2 : pinv L s -> plenty -> procs s !! p = Some y -> p_state y = PROC_RUNNING ->
  list_items (p_threads y) = [] ->
  exists t k r, let x := mkThread KT_RUN None link_initialised false 0 p k (start_ipl, CStart) in
    let e := mkKext 0 (context_setup func arg1 arg2 k DEFAULT_STACK_SIZE (p_pagedir y)) in
    kthread_create p func arg1 arg2 s = Ok (t, with_thread s t x e p y r) /\ pinv L (with_thread s t x e p y r) /\
    threads (kst s) !! t = None /\ k <> 0 /\ c_pdptr (kt_context e) = p_pagedir y.
Proof.
  intros I PL Hp Hrun Hemp. destruct (pl_slab PL (threads (kst s))) as [t Ht]. destruct (slab_fresh _ _ Ht) as [Ht0 Hnone].
  destruct (page_alloc_n_ok _ _ stack_pages (pi_holds _ _ I)) as (k & r & E & Hh). pose proof (pl_pages PL _ _ _ _ E) as Hk.
  rewrite (proj2 (Z.eqb_neq _ _) Hk) in Hh. exists t, k, r. cbn.
  assert (p <> 0) as Hp0 by (intros ->; pose proof (t_null _ _ (pi_tree _ _ I)); congruence).
  split; [|split; [apply (with_thread_pinv L L); try done; apply (pi_root _ _ I)|]].
  - by apply kthread_create_run.
  - split; [done|]. split; [done|]. apply context_setup_fields.
Qed.

(** ** One thread changes *)
Lemma linked_thr P T t x x' y : linked P T -> T !! t = Some x -> kt_proc x' = kt_proc x -> P !! kt_proc x = Some y -> thread_of t x' y ->
  linked P (<[t := x']> T).
Proof.
  intros [L1 L2] Ht Hp Hy Ho. split.
  - intros u z. destruct (decide (u = t)) as [->|]; [rewrite lookup_insert_eq; intros [= <-]; rewrite Hp; eauto|].
    rewrite lookup_insert_ne by done. apply L1.
  - intros q w Hw. destruct (L2 q w Hw) as [?|(u & z & E & Hz & Hq)]; [by left|right]. exists u.
    destruct (decide (u = t)) as [->|]; [rewrite lookup_insert_eq|rewrite lookup_insert_ne by done; eauto].
    simplify_eq. eauto.
Qed.
Lemma pinv_thr L s t x x' y k : pinv L s -> threads (kst s) !! t = Some x -> step_thr (kst s) k t x' -> kinv None k ->
  kt_proc x' = kt_proc x -> kt_kstack x' = kt_kstack x -> procs s !! kt_proc x = Some y -> thread_of t x' y ->
  (t = curthr (kst s) -> kt_qlink x' = kt_qlink x) -> pinv L (upd_kst k s).
Proof.
  intros I Ht [ET EM EC EP EI ES EQ] K Hp Hk Hy Ho Hq. split; cbn.
  - done.
  - apply I.
  - rewrite ET. eapply linked_thr; try done. apply I.
  - intros p Hs. by apply EQ, (pi_queue _ _ I).
  - destruct (pi_cur _ _ I) as (xc & c & Hxc & Hpc & Hcc & Hcr & Hqc). rewrite ET, EC, EP. destruct (decide (t = curthr (kst s))) as [->|].
    + rewrite lookup_insert_eq. exists x', c. simplify_eq. rewrite Hq by done. split; [done|]. split; [congruence|done].
    + rewrite lookup_insert_ne by done. exists xc, c. done.
  - intros u [z Hz]. rewrite ET in Hz. apply (pi_exts _ _ I). destruct (decide (u = t)) as [->|]; [eauto|]. rewrite lookup_insert_ne in Hz by done. eauto.
  - apply I.
  - apply I.
  - apply I.
  - eapply holds_perm; [|apply (pi_holds _ _ I)]. unfold all_holds. cbn. rewrite ET, (gather_same thr_holds _ t x) by (try done; unfold thr_holds; by rewrite Hk). done.
Qed.

(** Making the new thread of a process runnable puts it on the run queue
    and keeps the invariant. *)
Lemma make_runnable_pinv L s t x : pinv L s -> switched (kst s) = false -> threads (kst s) !! t = Some x -> kt_wchan x = None ->
  snd (kt_ctx x) = CStart -> kt_state x = KT_RUN -> t <> curthr (kst s) ->
  exists k, sched_op (sched_make_runnable t) s = Ok (tt, upd_kst k s) /\ pinv L (upd_kst k s) /\
    items k RunQ = t :: items (kst s) RunQ /\ step_thr (kst s) k t (with_wchan (Some RunQ) true x).
Proof.
  intros I Hsw Ht Hw Hc Hst Hne. destruct (make_runnable_kinv (kst s) t x) as (k & E & K & T & Hi); try done; [apply I|].
  exists k. split; [by apply sched_op_run|]. split; [|done]. destruct (l_thr _ _ (pi_link _ _ I) _ _ Ht) as (y & Hy & Ho).
  eapply pinv_thr; try done. destruct Ho. split; try done; cbn.
  intros Hd. destruct (o_dead Hd). congruence.
Qed.

(** Changes of a thread that leave its queue and state alone. *)
Lemma kinv_mark k t x x' : kinv None k -> switched k = false -> threads k !! t = Some x -> kt_wchan x' = kt_wchan x ->
  kt_qlink x' = kt_qlink x -> kt_state x' = kt_state x -> kt_ctx x' = kt_ctx x -> (kt_cancelled x = true -> kt_cancelled x' = true) ->
  kinv None (upd_threads (<[t := x']>) k).
Proof.
  intros K Hsw Ht E1 E2 E3 E4 E5. pose proof (k_thr _ _ K _ _ Ht) as Hok.
  eapply kinv_step; [exact K|apply step_thr_store|by eapply qok_store; [apply K|..]|by eexists|done| | |].
  - unfold thr_ok, eff, ready, awaits, asleep in *. rewrite E1, E3, E4. destruct (kt_wchan x) as [[]|]; try done.
    destruct (snd (kt_ctx x)); naive_solver.
  - intros -> _. destruct (k_cur _ _ K) as (xc & Hxc & Hcw & _). rewrite E1. rewrite Ht in Hxc. simplify_eq. by apply Hcw.
  - intros m Hm. by apply (k_mx _ _ K m 0).
Qed.

(** ** Cancelling another thread *)
Record cancelled (s s' : ps) (t retval : Z) (x : kthread) : Prop := {
  cn_procs : procs s' = procs s;
  cn_list : proc_list s' = proc_list s;
  cn_init : proc_initproc s' = proc_initproc s;
  cn_curthr : curthr (kst s') = curthr (kst s);
  cn_curproc : curproc (kst s') = curproc (kst s);
  cn_sw : switched (kst s') = switched (kst s);
  cn_threads : exists x', threads (kst s') = <[t := x']> (threads (kst s)) /\ kt_cancelled x' = true /\ kt_retval x' = retval /\
    kt_proc x' = kt_proc x /\ (kt_state x = KT_SLEEP_CANCELLABLE -> kt_wchan x' = Some RunQ /\ t ∈ items (kst s') RunQ);
  cn_mx : mutexes (kst s') = mutexes (kst s);
  cn_run : items (kst s') RunQ = [] -> items (kst s) RunQ = [];
}.
Lemma cancel_other L s fuel t x retval : pinv L s -> switched (kst s) = false -> threads (kst s) !! t = Some x -> t <> curthr (kst s) ->
  exists s', kthread_cancel fuel t retval s = Ok (Returned 0, s') /\ pinv L s' /\ cancelled s s' t retval x.
Proof.
  intros I Hsw Ht Hne. destruct (l_thr _ _ (pi_link _ _ I) _ _ Ht) as (y & Hy & Ho).
  assert (t <> 0) as Ht0 by (intros ->; pose proof (k_null _ _ (pi_k _ _ I)); congruence).
  unfold kthread_cancel. rewrite (proj2 (Z.eqb_neq _ _) Ht0), (mbind_run _ _ s tt s eq_refl).
  rewrite (mbind_run _ _ _ _ _ (sched_store_run s t x _ Ht)). set (x1 := with_retval retval (with_cancelled x)).
  set (k1 := upd_threads (<[t := x1]>) (kst s)). set (s1 := upd_kst k1 s).
  rewrite (mbind_run (mget _) _ s1 (curthr (kst s)) s1 eq_refl), (proj2 (Z.eqb_neq _ _) Hne).
  assert (kinv None k1) as K1 by (by eapply kinv_mark; [apply I|..]).
  assert (threads k1 !! t = Some x1) as Ht1 by apply lookup_insert_eq.
  assert (pinv L s1) as I1 by (eapply (pinv_thr L s t x x1 y); [exact I|exact Ht|apply step_thr_store|exact K1|done|done|exact Hy|by destruct Ho|done]).
  destruct (cancel_run t k1 x1) as (k2 & E & K2 & Em & Ec & Ep & Es & H1 & H2 & T); try done.
  assert (exists s', (sched_op (sched_cancel t) ;;; mret_ (Returned 0)) s1 = Ok (Returned 0, s') /\ s' = upd_kst k2 s) as (s' & Hr & ->).
  { rewrite (mbind_run _ _ _ _ _ (sched_op_run _ s1 _ _ E)). by eexists. }
  exists (upd_kst k2 s). split; [done|]. set (x2 := if decide (kt_state x1 = KT_SLEEP_CANCELLABLE) then _ else _) in T.
  assert (kt_proc x2 = kt_proc x /\ kt_kstack x2 = kt_kstack x /\ kt_cancelled x2 = true /\ kt_retval x2 = retval /\ kt_state x2 = kt_state x /\
    (kt_wchan x2 = kt_wchan x \/ kt_state x = KT_SLEEP_CANCELLABLE /\ kt_wchan x2 = Some RunQ)) as (F1 & F2 & F3 & F4 & F5 & F6).
  { unfold x2. case_decide; cbn; auto 10. }
  split.
  - change (pinv L (upd_kst k2 s1)). eapply (pinv_thr L s1 t x1 x2 y); try done. split.
    + rewrite F2. apply Ho.
    + apply Ho.
    + intros Hd. destruct (o_dead _ _ _ Ho Hd) as [E1 E2]. split; [|congruence]. destruct F6 as [->|[? _]]; [done|congruence].
    + rewrite F5. apply Ho.
    + intros q Hq. rewrite F1. apply (o_wait _ _ _ Ho). destruct F6 as [<-|[_ ?]]; congruence.
  - split; try done; [cbn; congruence| |].
    + exists x2. split; [cbn; rewrite (st_threads _ _ _ _ T); unfold k1; cbn; by rewrite insert_insert_eq|]. do 3 (split; [done|]). intros Hst.
      destruct (H2 Hst) as (q & l1 & l2 & _ & _ & _ & Hrun & _). split; [unfold x2; by rewrite decide_True|]. cbn. rewrite Hrun. by left.
    + cbn. destruct (decide (kt_state x1 = KT_SLEEP_CANCELLABLE)) as [Hst|Hst]; [|by rewrite (H1 Hst)].
      destruct (H2 Hst) as (q & l1 & l2 & _ & _ & _ & Hrun & _). by rewrite Hrun.
Qed.

(** ** Exit *)
Lemma close_run cur n : forall a s c r R, procs s !! cur = Some c -> res s = r -> (a + n)%nat = length (p_files c) ->
  holds r ((drop a (p_files c) ≫= opt_hold HFile) ++ R) ->
  exists r', close_loop cur a n s = Ok (tt, upd_procs (<[cur := with_files (fun l => take a l ++ replicate n 0) c]>) (upd_res r' s)) /\ holds r' R.
Proof.
  induction n as [|n IH]; intros a s c r R Hc Hr Hl Hh; cbn [close_loop].
  - exists r. rewrite drop_ge in Hh by lia. split; [|done]. unfold mret_. do 2 f_equal.
    assert (with_files (fun l => take a l ++ replicate 0 0) c = c) as -> by (destruct c; unfold with_files; cbn in *; by rewrite app_nil_r, take_ge by lia).
    subst r. destruct s; unfold upd_procs; cbn in *. by rewrite insert_id.
  - rewrite (mbind_run _ _ _ _ _ (load_proc_run _ _ _ Hc)).
    destruct (lookup_lt_is_Some_2 (p_files c) a) as [f Hf]; [lia|]. rewrite Hf, (mbind_run _ _ s f s eq_refl).
    rewrite (drop_S _ _ _ Hf) in Hh. cbn [mbind list_bind] in Hh. rewrite <- app_assoc in Hh.
    assert (exists r1, (if negb (f =? 0) then res_op (fput f) else mret_ tt) s = Ok (tt, upd_res r1 s) /\
      holds r1 ((drop (S a) (p_files c) ≫= opt_hold HFile) ++ R)) as (r1 & E1 & H1).
    { unfold opt_hold in Hh at 1. destruct (f =? 0); cbn [negb app] in *; [exists r; split; [subst r; by destruct s|done]|].
      destruct (fput_ok _ _ _ Hh) as (r1 & E & H1). exists r1. split; [|done]. apply res_op_run. by rewrite Hr. }
    rewrite (mbind_run _ _ _ _ _ E1), (mbind_run _ _ _ _ _ (store_proc_run (upd_res r1 s) cur c _ Hc)).
    set (c1 := with_files _ c). destruct (IH (S a) (upd_procs (<[cur := c1]>) (upd_res r1 s)) c1 r1 R) as (r' & E' & H'); try done.
    + apply lookup_insert_eq.
    + cbn. rewrite length_insert. lia.
    + cbn. by rewrite drop_insert_lt by lia.
    + exists r'. split; [|done]. rewrite E'. unfold upd_procs, upd_res. cbn. do 3 f_equal. rewrite insert_insert_eq. f_equal.
      unfold c1, with_files. cbn. f_equal. rewrite (take_S_r _ _ 0) by (apply list_lookup_insert_eq; lia).
      rewrite take_insert_ge by lia. by rewrite <- app_assoc.
Qed.

(** The table after the loop over the children, and after the files. *)
Lemma exited_cleanup P P1 P' cur init c c1 st f : let l := list_items (p_children c) in let Pd := <[cur := with_pstatus st PROC_DEAD c]> P in
  P !! cur = Some c -> cur ∉ l -> init ∉ l -> (forall q, q ∈ l -> is_Some (P !! q)) ->
  (l = [] /\ P1 = Pd) \/ (cur <> init /\ is_Some (P !! init) /\ reparented Pd P1 cur init l) ->
  P1 !! cur = Some c1 -> length (f (p_files c1)) = length (p_files c1) -> P' = <[cur := with_files f c1]> P1 ->
  cores Pd P1 /\ exited P P' cur init l /\ p_status c1 = st /\ p_state c1 = PROC_DEAD /\ p_pproc c1 = p_pproc c /\ p_pagedir c1 = p_pagedir c /\
    p_files c1 = p_files c.
Proof.
  intros l Pd Hc Hcl Hil Hl H1 Hc1 Hf ->.
  assert (forall q, option_Forall2 (fun x x' => same_core x x' /\ p_status x' = p_status x /\ p_pproc x' = (if decide (q ∈ l) then init else p_pproc x) /\
    (q <> cur -> list_items (p_children x') = if decide (q = init) then list_items (p_children x) ++ l else list_items (p_children x))) (Pd !! q) (P1 !! q)) as H.
  { intros q. destruct H1 as [[-> ->]|(Hne & [y Hy] & [R1 R2 R3 R4])].
    - destruct (Pd !! q); constructor. rewrite decide_False by apply not_elem_of_nil. split; [done|]. split; [done|]. split; [done|].
      intros _. case_decide; [by rewrite app_nil_r|done].
    - assert (Pd !! init = Some y) as Hy' by (unfold Pd; by rewrite lookup_insert_ne).
      destruct (decide (q = cur)) as [->|Hqc].
      { unfold Pd at 1. rewrite lookup_insert_eq. destruct (R1 (with_pstatus st PROC_DEAD c)) as [ch ->]; [apply lookup_insert_eq|].
        constructor. rewrite decide_False by done. done. }
      destruct (decide (q = init)) as [->|Hqi].
      { rewrite Hy'. destruct (R2 y Hy') as (ch & -> & E). constructor. rewrite decide_False by done. split; [done|]. split; [done|]. done. }
      unfold Pd at 1. rewrite lookup_insert_ne by done. destruct (decide (q ∈ l)) as [Hq|Hq].
      + destruct (Hl q Hq) as [x Hx]. rewrite Hx, (R3 q x) by (try done; unfold Pd; by rewrite lookup_insert_ne). by constructor.
      + rewrite R4 by done. unfold Pd. rewrite lookup_insert_ne by done. destruct (P !! q); by constructor. }
  assert (exists c0, P1 !! cur = Some c0 /\ same_core (with_pstatus st PROC_DEAD c) c0 /\ p_status c0 = st /\ p_pproc c0 = p_pproc c) as (c0 & Hc0 & HC & Hst & Hpp).
  { pose proof (H cur) as H0. unfold Pd in H0. rewrite lookup_insert_eq in H0. rewrite Hc1 in H0. inversion H0 as [x0 x1 (A1 & A2 & A3 & _) E0 E1|]; subst.
    rewrite decide_False in A3 by done. eauto. }
  simplify_eq. destruct HC as [B1 B2 B3 B4 B5 B6 B7]. cbn in *.
  split; [intros q; destruct (H q); constructor; tauto|]. split; [|done].
  intros q. destruct (decide (q = cur)) as [->|Hq].
  - rewrite Hc, lookup_insert_eq. constructor. split; cbn; try done; [by rewrite decide_True|by rewrite decide_False|congruence].
  - rewrite lookup_insert_ne by done. pose proof (H q) as H0. unfold Pd in H0. rewrite lookup_insert_ne in H0 by done.
    destruct H0 as [x x' (A1 & A2 & A3 & A4)|]; constructor. destruct A1. split; try done; [by rewrite decide_False|congruence].
Qed.

(** The current thread is on no queue: its record may change. *)
Lemma kinv_cur k x x' : kinv None k -> switched k = false -> threads k !! curthr k = Some x -> kt_wchan x' = None -> kt_qlink x' = kt_qlink x ->
  kinv None (upd_threads (<[curthr k := x']>) k).
Proof.
  intros K Hsw Hx Hw Hq. destruct (k_cur _ _ K) as (xc & Hc & Hcw & _). rewrite Hx in Hc. injection Hc as <-.
  eapply kinv_step; [exact K|apply step_thr_store| |by eexists|done| |done|].
  - eapply qok_store; [apply K|done| |done]. rewrite Hw. symmetry. by apply Hcw.
  - unfold thr_ok. rewrite Hw. by left.
  - intros m Hm. by apply (k_mx _ _ K m 0).
Qed.
Lemma kinv_dead k x : kinv None k -> switched k = false -> threads k !! curthr k = Some x -> kt_state x = KT_EXITED -> kinv (Some CDead) k.
Proof.
  intros [Q HR HN (xc & Hc & HC) HT HM HI] Hsw Hx Hst. split; try done.
  - exists xc. rewrite Hsw. done.
  - intros t y Hy. pose proof (HT t y Hy) as H. unfold thr_ok, eff in *. destruct (decide (t = curthr k)) as [->|Hne].
    + destruct HC as [Hw _]. simplify_eq. rewrite (Hw eq_refl). auto.
    + destruct (kt_wchan y) as [[]|]; try done. naive_solver.
Qed.

(** What is left of the process after [proc_cleanup]. *)
Record cleaned (L : list hold) (s s' : ps) (k2 : ks) (c : proc) (status : Z) : Prop := {
  cl_exited : exited (procs s) (procs s') (curproc (kst s)) (proc_initproc s) (list_items (p_children c));
  cl_status : exists c', procs s' !! curproc (kst s) = Some c' /\ p_status c' = status;
  cl_list : proc_list s' = proc_list s;
  cl_next : next_pid s' = next_pid s;
  cl_init : proc_initproc s' = proc_initproc s;
  cl_root : vfs_root_vn s' = vfs_root_vn s;
  cl_exts : exts s' = exts s;
  cl_kinv : kinv None (kst s');
  cl_woke : woke k2 (kst s');
  cl_wait : items (kst s') (ProcQ (p_pproc c)) = [];
  cl_run : items (kst s') RunQ = items k2 (ProcQ (p_pproc c)) ++ items k2 RunQ;
  cl_holds : holds (res s') (L ++ all_holds s');
}.

(** The loop over the children, from the state in which [cur] is dead. *)
Lemma reparent_children P pl s1 cur init c status : tree P pl -> P !! cur = Some c -> p_state c = PROC_RUNNING -> p_pid c <> PID_IDLE ->
  let l := list_items (p_children c) in let Pd := <[cur := with_pstatus status PROC_DEAD c]> P in
  l = [] \/ adopts P cur init -> procs s1 = Pd ->
  exists P1 c1, reparent_loop cur init l s1 = Ok (tt, upd_procs (fun _ => P1) s1) /\ P1 !! cur = Some c1 /\
    forall f, length (f (p_files c1)) = length (p_files c1) -> let P' := <[cur := with_files f c1]> P1 in
    cores Pd P1 /\ exited P P' cur init l /\ p_status c1 = status /\ p_state c1 = PROC_DEAD /\ p_pproc c1 = p_pproc c /\
    p_pagedir c1 = p_pagedir c /\ p_files c1 = p_files c.
Proof.
  intros T Hc Hrun Hpid l Pd Hadopt Hs1.
  assert (cur ∉ l) as Hcl by exact (cur_not_child _ _ _ _ T Hc Hrun).
  destruct (t_children _ _ T cur c Hc Hrun) as [Hnd Hm].
  assert (forall q, q ∈ l -> is_Some (P !! q)) as Hls by (intros q Hq'; destruct (Hm q Hq') as (y & ? & _); eauto).
  assert (init ∉ l) as Hil.
  { destruct Hadopt as [->|(y & Hy & Hyp & _)]; [apply not_elem_of_nil|]. by apply (init_not_child _ _ _ _ T Hc Hrun Hpid init y). }
  assert (exists P1, reparent_loop cur init l s1 = Ok (tt, upd_procs (fun _ => P1) s1) /\
    ((l = [] /\ P1 = Pd) \/ (cur <> init /\ is_Some (P !! init) /\ reparented Pd P1 cur init l))) as (P1 & Hr1 & HP1).
  { destruct Hadopt as [E|(y & Hy & Hyp & Hyr & Hne)].
    - exists Pd. rewrite E, <- Hs1. split; [by destruct s1|by left].
    - destruct (reparent_run cur init l s1 (with_pstatus status PROC_DEAD c) y) as (P1 & Hr & Hrp); rewrite ?Hs1; try done.
      + apply lookup_insert_eq.
      + unfold Pd. by rewrite lookup_insert_ne.
      + intros q Hq'. unfold Pd. rewrite lookup_insert_ne by (intros ->; done). by apply Hls.
      + intros q Hq' Hin. destruct (t_children _ _ T init y Hy Hyr) as [_ Hm']. destruct (Hm' q Hin) as (z & Hz & Hzp).
        apply (child_parent _ _ _ _ T Hc Hrun q z Hz) in Hq'. congruence.
      + rewrite Hs1 in Hrp. exists P1. split; [done|]. right. split; [done|]. split; [eauto|done]. }
  assert (exists c1, P1 !! cur = Some c1) as [c1 Hc1].
  { destruct HP1 as [[_ ->]|(_ & _ & [R1 _ _ _])]; [eexists; apply lookup_insert_eq|].
    destruct (R1 _ (lookup_insert_eq P cur (with_pstatus status PROC_DEAD c))) as [ch ?]. eauto. }
  exists P1, c1. split; [done|]. split; [done|]. intros f Hf P'. by eapply exited_cleanup.
Qed.

(** Everything a running process holds, given back. *)
Lemma holds_cleanup (L : list hold) (P Pd P1 P' : gmap Z proc) (T T' : gmap Z kthread) cur c c1 r status f : P !! cur = Some c -> p_state c = PROC_RUNNING ->
  Pd = <[cur := with_pstatus status PROC_DEAD c]> P -> cores Pd P1 -> P1 !! cur = Some c1 -> p_state c1 = PROC_DEAD ->
  P' = <[cur := with_files f c1]> P1 -> gather thr_holds T' ≡ₚ gather thr_holds T ->
  (holds r (L ++ gather proc_holds P ++ gather thr_holds T) ->
   holds r (opt_hold HVnode (p_cwd c) ++ (p_files c ≫= opt_hold HFile) ++ [HMap (p_vmmap c)] ++ L ++ gather proc_holds P' ++ gather thr_holds T')).
Proof.
  intros Hc Hrun -> HC Hc1 Hd -> HT. apply holds_perm. rewrite HT.
  rewrite (gather_same proc_holds P1 cur c1) by (try done; unfold proc_holds; cbn; by rewrite Hd).
  rewrite (gather_cores _ _ HC), (gather_update proc_holds P cur c _ Hc), (gather_delete proc_holds P cur c Hc).
  unfold proc_holds at 1. rewrite bool_decide_eq_true_2 by done. unfold run_holds.
  replace (proc_holds (with_pstatus status PROC_DEAD c)) with [HPagedir (p_pagedir c)] by done. cbn [app]. solve_Permutation.
Qed.

Lemma cleanup_run L s k2 x x2 c status : pinv L s -> switched (kst s) = false -> threads (kst s) !! curthr (kst s) = Some x ->
  k2 = upd_threads (<[curthr (kst s) := x2]>) (kst s) -> kinv None k2 -> kt_state x2 = KT_EXITED -> kt_wchan x2 = None -> kt_kstack x2 = kt_kstack x ->
  procs s !! curproc (kst s) = Some c -> p_pid c <> PID_IDLE -> proc_initproc s <> 0 ->
  list_items (p_children c) = [] \/ adopts (procs s) (curproc (kst s)) (proc_initproc s) ->
  exists s', proc_cleanup status (upd_kst k2 s) = Ok (tt, s') /\ cleaned L s s' k2 c status.
Proof.
  intros I Hsw Hx Hk2 K2 Hst Hw Hks Hc Hpid Hini Hadopt. destruct (pi_cur _ _ I) as (xc & c' & _ & _ & Hc' & Hrun & _). rewrite Hc in Hc'. injection Hc' as <-.
  pose proof (pi_tree _ _ I) as T. set (cur := curproc (kst s)) in *. set (init := proc_initproc s) in *.
  assert (p_pproc c <> 0) as Hpp by (rewrite (t_idle _ _ T cur c Hc); done).
  pose proof (t_range _ _ T cur c Hc) as Hrange. destruct pid_idle_init as [I0 _].
  destruct (t_parent _ _ T cur c Hc Hpp) as (par & Hpar & _). destruct (t_fields _ _ T cur c Hc) as [_ Hlen].
  unfold proc_cleanup. set (s0 := upd_kst k2 s). rewrite (mbind_run (mget _) _ s0 init s0 eq_refl).
  rewrite (proj2 (Z.eqb_neq _ _) Hini), (mbind_run _ _ s0 tt s0 eq_refl), (mbind_run cur_proc _ s0 cur s0) by (by subst k2).
  rewrite (mbind_run _ _ _ _ _ (load_proc_run s0 cur c Hc)), (proj2 (Z.leb_le 1 (p_pid c))) by lia.
  rewrite (mbind_run _ _ s0 tt s0 eq_refl), (proj2 (Z.eqb_neq _ _) Hpp), (mbind_run _ _ s0 tt s0 eq_refl).
  rewrite (mbind_run _ _ _ _ _ (store_proc_run s0 cur c _ Hc)). set (s1 := upd_procs _ s0).
  destruct (reparent_children (procs s) (proc_list s) s1 cur init c status) as (P1 & c1 & Hr1 & Hc1 & HX); try done.
  rewrite (mbind_run _ _ _ _ _ Hr1). set (s2 := upd_procs _ s1).
  set (f := fun l : list Z => take 0 l ++ replicate (Z.to_nat NFILES) 0). assert (length (f (p_files c1)) = Z.to_nat NFILES) as Hf by apply length_replicate.
  assert (p_files c1 = p_files c) as Hfs.
  { destruct (HX (fun fs => fs)) as (_ & _ & _ & _ & _ & _ & ?); done. }
  destruct (HX f) as (HC & HE & Hs1 & Hd1 & Hp1 & Hpd1 & _); [by rewrite Hf, Hfs|]. set (P' := <[cur := with_files f c1]> P1) in *.
  destruct (broadcast_kinv None (ProcQ (p_pproc c)) k2) as (k3 & Eb & K3 & W & Hi1 & Hi2 & _); [done|by subst k2|done|subst k2; by apply (pi_queue _ _ I)|].
  pose proof (w_keep _ _ W) as HK.
  assert (gather thr_holds (threads k3) ≡ₚ gather thr_holds (threads (kst s))) as HT.
  { rewrite (holds_keeps _ _ HK). subst k2. cbn. rewrite (gather_same thr_holds _ (curthr (kst s)) x); [done|done|]. unfold thr_holds. by rewrite Hks. }
  pose proof (holds_cleanup L (procs s) _ P1 P' (threads (kst s)) (threads k3) cur c c1 (res s) status f Hc Hrun eq_refl HC Hc1 Hd1 eq_refl HT (pi_holds _ _ I)) as Hh.
  assert (exists r1, (if negb (p_cwd c =? 0) then res_op (vput (p_cwd c)) else mret_ tt) s2 = Ok (tt, upd_res r1 s2) /\
    holds r1 ((p_files c ≫= opt_hold HFile) ++ [HMap (p_vmmap c)] ++ L ++ gather proc_holds P' ++ gather thr_holds (threads k3))) as (r1 & E1 & H1).
  { unfold opt_hold in Hh at 1. destruct (p_cwd c =? 0); [by exists (res s)|]. destruct (vput_ok _ _ _ Hh) as (r1 & E & H1).
    exists r1. split; [by apply res_op_run|done]. }
  rewrite (mbind_run _ _ _ _ _ E1).
  destruct (close_run cur (Z.to_nat NFILES) 0 (upd_res r1 s2) c1 r1 ([HMap (p_vmmap c)] ++ L ++ gather proc_holds P' ++ gather thr_holds (threads k3)))
    as (r2 & E2 & H2); [done|done|by rewrite Hfs, Hlen|by rewrite Hfs|].
  rewrite (mbind_run _ _ _ _ _ E2). set (s3 := upd_procs _ _). destruct (vmmap_destroy_ok _ _ _ H2) as (r3 & E3 & H3).
  rewrite (mbind_run _ _ _ _ _ (res_op_run _ s3 tt r3 E3)). set (s4 := upd_res r3 s3).
  assert (procs s4 = P') as HP4 by done.
  destruct (exited_lookup _ _ _ _ _ _ _ HE Hpar) as (par' & Hpar' & _).
  rewrite (mbind_run _ _ _ _ _ (load_proc_run s4 (p_pproc c) par' Hpar')), (mbind_run _ _ _ _ _ (sched_op_run _ s4 tt k3 Eb)).
  rewrite (mbind_run (mget _) _ (upd_kst k3 s4) (curthr (kst s)) (upd_kst k3 s4)) by (unfold mget; cbn; rewrite (w_cur _ _ W); by subst k2).
  assert (exists x3, threads k3 !! curthr (kst s) = Some x3 /\ kt_state x3 = KT_EXITED) as (x3 & Hx3 & Hst3).
  { destruct (keeps_lookup k2 k3 (curthr (kst s)) x2 HK) as (x3 & Hx3 & Hm); [subst k2; apply lookup_insert_eq|].
    exists x3. destruct (mv_off _ _ Hm Hw). split; [done|congruence]. }
  rewrite (mbind_run _ _ _ _ _ (sched_store_run (upd_kst k3 s4) _ x3 _ Hx3)). cbn [kst upd_kst].
  assert (with_state KT_EXITED x3 = x3) as -> by (destruct x3; cbn in *; by subst). rewrite (upd_threads_id k3 _ _ Hx3).
  set (s5 := upd_kst k3 (upd_kst k3 s4)).
  rewrite (mbind_run _ _ _ _ _ (load_proc_run s5 cur (with_files f c1) (lookup_insert_eq _ _ _))). cbn [p_pproc with_files].
  rewrite Hp1, (proj2 (Z.eqb_neq _ _) Hpp). exists s5. split; [done|].
  split; try done. exists (with_files f c1). split; [apply lookup_insert_eq|done].
Qed.

(** The only thread of the current process is the current thread. *)
Lemma cur_thread L s c : pinv L s -> procs s !! curproc (kst s) = Some c -> list_items (p_threads c) = [curthr (kst s)].
Proof.
  intros I Hc. destruct (pi_cur _ _ I) as (x & c' & Hx & Hp & Hc' & _). simplify_eq.
  destruct (l_thr _ _ (pi_link _ _ I) _ _ Hx) as (y & Hy & Ho). rewrite Hp, Hc in Hy. injection Hy as <-.
  pose proof (o_list _ _ _ Ho) as Hin. destruct (l_one _ _ (pi_link _ _ I) _ _ Hc) as [[_ E]|(t & x' & E & _)]; rewrite E in *.
  - by apply elem_of_nil in Hin.
  - apply list_elem_of_singleton in Hin. congruence.
Qed.
Lemma linked_exit P P' (T : gmap Z kthread) cur init l t x x2 c : linked P T -> exited P P' cur init l -> T !! t = Some x -> kt_proc x = cur ->
  P !! cur = Some c -> list_items (p_threads c) = [t] -> kt_proc x2 = cur -> kt_kstack x2 = kt_kstack x -> kt_wchan x2 = None -> kt_state x2 = KT_EXITED ->
  linked P' (<[t := x2]> T).
Proof.
  intros [L1 L2] E Ht Hp Hc Hl Hp2 Hk Hw Hs. split.
  - intros u z. destruct (decide (u = t)) as [->|Hne].
    + rewrite lookup_insert_eq. intros [= <-]. rewrite Hp2. destruct (exited_lookup _ _ _ _ _ _ _ E Hc) as (c' & Hc' & R). exists c'. split; [done|].
      destruct (L1 t x Ht) as (y & Hy & Ho). split.
      * rewrite Hk. apply Ho.
      * rewrite (er_threads _ _ _ _ _ _ R), Hl. by apply list_elem_of_singleton.
      * done.
      * by rewrite (er_state _ _ _ _ _ _ R), decide_True.
      * by rewrite Hw.
    + rewrite lookup_insert_ne by done. intros Hz. destruct (L1 u z Hz) as (y & Hy & Ho). destruct (exited_lookup _ _ _ _ _ _ _ E Hy) as (y' & Hy' & R).
      assert (kt_proc z <> cur) as Hzc.
      { intros E0. rewrite E0, Hc in Hy. injection Hy as <-. pose proof (o_list _ _ _ Ho) as Hin. rewrite Hl in Hin. by apply list_elem_of_singleton in Hin. }
      exists y'. split; [done|]. pose proof (er_state _ _ _ _ _ _ R) as Es. rewrite decide_False in Es by done.
      destruct Ho. split; rewrite ?Es, ?(er_threads _ _ _ _ _ _ R); done.
  - intros q y' Hy'. destruct (exited_back _ _ _ _ _ _ _ E Hy') as (y & Hy & R). rewrite (er_threads _ _ _ _ _ _ R), (er_state _ _ _ _ _ _ R).
    destruct (L2 q y Hy) as [[H1 H2]|(u & z & E1 & Hz & Hq)].
    + left. destruct (decide (q = cur)) as [->|]; [|done]. simplify_eq. congruence.
    + right. exists u. destruct (decide (u = t)) as [->|]; [|exists z; by rewrite lookup_insert_ne]. exists x2. rewrite lookup_insert_eq. simplify_eq. done.
Qed.

(** The state in which the current process is dead and its thread exited. *)
Record exit_state (L : list hold) (s s1 : ps) (c : proc) (status : Z) : Prop := {
  ex_exited : exited (procs s) (procs s1) (curproc (kst s)) (proc_initproc s) (list_items (p_children c));
  ex_status : exists c', procs s1 !! curproc (kst s) = Some c' /\ p_status c' = s32 status;
  ex_holds : holds (res s1) (L ++ all_holds s1);
}.

Lemma exit_run L fuel s c status : pinv L s -> switched (kst s) = false -> procs s !! curproc (kst s) = Some c -> p_pid c <> PID_IDLE ->
  proc_initproc s <> 0 -> list_items (p_children c) = [] \/ adopts (procs s) (curproc (kst s)) (proc_initproc s) ->
  (do_exit fuel status s = Err FFuel /\ (fuel = O \/ items (kst s) (ProcQ (p_pproc c)) ++ items (kst s) RunQ = [])) \/
  exists s' k3, do_exit fuel status s = Ok (Blocked, s') /\ pinv L s' /\ exit_state L s s' c status /\
    switched_from k3 (kst s') CDead /\ items k3 RunQ = items (kst s) (ProcQ (p_pproc c)) ++ items (kst s) RunQ /\
    (forall t x, t <> curthr (kst s) -> threads (kst s) !! t = Some x ->
       exists x', threads (kst s') !! t = Some x' /\ kt_ctx x' = kt_ctx x /\ kt_proc x' = kt_proc x) /\
    (forall q l t, items (kst s) (ProcQ (p_pproc c)) ++ items (kst s) RunQ = l ++ [t] -> fuel = S q -> curthr (kst s') = t /\ items (kst s') RunQ = l).
Proof.
  intros I Hsw Hc Hpid Hini Hadopt. destruct (pi_cur _ _ I) as (x & c' & Hx & Hp & Hc' & Hrun & Hq). rewrite Hc in Hc'. injection Hc' as <-.
  destruct Hq as [?|Hq]; [done|]. pose proof (cur_thread L s c I Hc) as Hl. pose proof (pi_k _ _ I) as K.
  destruct (k_cur _ _ K) as (x' & Hx' & Hw & _). rewrite Hx in Hx'. injection Hx' as <-. specialize (Hw eq_refl).
  pose proof (cur_nonzero _ _ K) as H0. set (cur := curthr (kst s)) in *.
  set (x1 := with_retval status (with_cancelled x)). set (x2 := with_state KT_EXITED (with_retval status x1)).
  set (k2 := upd_threads (<[cur := x2]>) (kst s)).
  assert (do_exit fuel status s = (proc_cleanup (s32 status) ;;; sched_op (sched_switch fuel CDead) ;;; mret_ Blocked) (upd_kst k2 s)) as ->.
  { unfold do_exit. rewrite (mbind_run cur_proc _ s (curproc (kst s)) s eq_refl), (mbind_run _ _ _ _ _ (load_proc_run _ _ _ Hc)), Hl.
    rewrite (mbind_run _ _ s cur s eq_refl). unfold kthread_cancel. rewrite (proj2 (Z.eqb_neq _ _) H0), (mbind_run _ _ s tt s eq_refl).
    rewrite (mbind_run _ _ _ _ _ (sched_store_run s cur x _ Hx)). set (s1 := upd_kst _ s).
    rewrite (mbind_run (mget _) _ s1 cur s1 eq_refl), Z.eqb_refl. unfold kthread_exit.
    rewrite (mbind_run (mget _) _ s1 cur s1 eq_refl), (proj2 (Z.eqb_neq _ _) H0), (mbind_run _ _ s1 tt s1 eq_refl).
    assert (sched_op (store_thr cur (fun x => with_state KT_EXITED (with_retval status x))) s1 = Ok (tt, upd_kst k2 s)) as E2.
    { rewrite (sched_store_run s1 cur x1 _ (lookup_insert_eq _ _ _)). unfold s1, k2, upd_kst, upd_threads. cbn. by rewrite insert_insert_eq. }
    rewrite (mbind_run _ _ _ _ _ E2).
    rewrite (mbind_run _ _ _ _ _ (sched_load_run (upd_kst k2 s) cur x2 (lookup_insert_eq _ _ _))). cbn [kt_wchan x2 x1 with_state with_retval with_cancelled].
    rewrite (bool_decide_eq_true_2 _ Hw), (mbind_run _ _ (upd_kst k2 s) tt _ eq_refl). cbn [kt_qlink x2 x1 with_state with_retval with_cancelled].
    rewrite Hq, (mbind_run _ _ (upd_kst k2 s) tt _ eq_refl), (mbind_run cur_proc _ (upd_kst k2 s) (curproc (kst s)) _ eq_refl).
    cbn [kt_proc x2 x1 with_state with_retval with_cancelled]. rewrite Hp, Z.eqb_refl, (mbind_run _ _ (upd_kst k2 s) tt _ eq_refl). done. }
  assert (kinv None k2) as K2 by (by eapply kinv_cur).
  destruct (cleanup_run L s k2 x x2 c (s32 status)) as (s1 & E1 & [C1 C2 C3 C4 C5 C6 C7 C8 C9 C10 C11 C12]); try done.
  rewrite (mbind_run _ _ _ _ _ E1). set (k3 := kst s1) in *. pose proof (w_keep _ _ C9) as HK.
  assert (curthr k3 = cur) as Ec by apply C9. assert (switched k3 = false) as Hsw3 by (by rewrite (w_sw _ _ C9)).
  assert (exists x3, threads k3 !! cur = Some x3 /\ kt_state x3 = KT_EXITED) as (x3 & Hx3 & Hst3).
  { destruct (keeps_lookup k2 k3 cur x2 HK (lookup_insert_eq _ _ _)) as (x3 & Hx3 & Hm). exists x3. destruct (mv_off _ _ Hm Hw) as [_ ->]. done. }
  assert (kinv (Some CDead) k3) as K3 by (apply (kinv_dead k3 x3); [done|done|by rewrite Ec|done]).
  assert (linked (procs s1) (threads k3)) as HL.
  { eapply linked_keeps; [exact HK|]. eapply linked_exit; try done. apply I. }
  assert (tree (procs s1) (proc_list s1)) as HT by (rewrite C3; by eapply tree_exit; [apply I|..]).
  assert (forall k4, switched_from k3 k4 CDead -> pinv L (upd_kst k4 s1)) as HI.
  { intros k4 F. pose proof (sw_keep _ _ _ F) as HK4. split; cbn.
    - apply F.
    - done.
    - by eapply linked_keeps.
    - intros p [y Hy]. apply (sw_q _ _ _ F), (w_q _ _ C9). apply (pi_queue _ _ I). by apply (exited_iff _ _ _ _ _ _ C1).
    - destruct (next_running (procs s1) k3 k4 CDead HL (t_state _ _ HT) F) as (z & y & ? & ? & ? & ? & ?). exists z, y. auto 8.
    - intros t [z Hz]. rewrite C7. destruct (keeps_back _ _ _ _ HK4 Hz) as (z1 & Hz1 & _). destruct (keeps_back _ _ _ _ HK Hz1) as (z2 & Hz2 & _).
      apply (pi_exts _ _ I). unfold k2 in Hz2. cbn in Hz2. destruct (decide (t = cur)) as [->|]; [eauto|rewrite lookup_insert_ne in Hz2 by done; eauto].
    - rewrite C4. apply I.
    - intros p y Hy Hyp. rewrite C5. destruct (exited_back _ _ _ _ _ _ _ C1 Hy) as (y0 & Hy0 & R). apply (pi_init _ _ I p y0 Hy0).
      by rewrite <- (er_pid _ _ _ _ _ _ R).
    - rewrite C6. apply I.
    - eapply holds_perm; [|exact C12]. unfold all_holds. cbn. by rewrite (holds_keeps _ _ HK4). }
  assert (forall k4, switched_from k3 k4 CDead -> exit_state L s (upd_kst k4 s1) c status) as HE.
  { intros k4 F. split; [done|done|]. apply (pi_holds _ _ (HI k4 F)). }
  destruct (switch_kinv CDead fuel k3 K3 Hsw3) as [Ef|(k4 & Ef & F)].
  - left. split; [apply mbind_err; unfold sched_op; fold k3; by rewrite Ef|].
    destruct fuel as [|fuel]; [by left|right]. destruct (items (kst s) (ProcQ (p_pproc c)) ++ items (kst s) RunQ) as [|t l _] eqn:E using rev_ind; [done|].
    destruct (switch_now CDead fuel k3 t l) as (k4 & E4 & _); [done|done|rewrite C11; exact E|congruence].
  - right. exists (upd_kst k4 s1), k3. rewrite (mbind_run _ _ _ _ _ (sched_op_run _ s1 tt k4 Ef)). split; [done|]. split; [by apply HI|].
    split; [by apply HE|]. split; [done|]. split; [done|]. split.
    { intros t z Hne Hz. destruct (w_thr _ _ C9 t z) as (z1 & Hz1 & Hz1'); [unfold k2; cbn; by rewrite lookup_insert_ne|].
      destruct (keeps_lookup _ _ _ _ (sw_keep _ _ _ F) Hz1) as (z2 & Hz2 & Hm). exists z2. split; [done|].
      rewrite (mv_proc _ _ Hm), (sw_ctx _ _ _ F t z1 z2) by (try done; by rewrite Ec). by destruct Hz1' as [->| ->]. }
    intros q l t E ->.
    destruct (switch_now CDead q k3 t l) as (k5 & E5 & _ & E6 & E7 & _); [done|done|rewrite C11; exact E|]. cbn. split; congruence.
Qed.

(** ** Waiting *)
Definition matches (pid : Z) (x : proc) : bool := (p_pid x =? pid) || (pid =? -1).
Lemma find_child_run s pid l : (forall q, q ∈ l -> q <> 0 /\ is_Some (procs s !! q)) ->
  (find_child l pid s = Ok (0, s) /\ forall q x, q ∈ l -> procs s !! q = Some x -> matches pid x = false) \/
  exists l1 p l2 x, l = l1 ++ p :: l2 /\ find_child l pid s = Ok (p, s) /\ procs s !! p = Some x /\ matches pid x = true /\
    forall q z, q ∈ l1 -> procs s !! q = Some z -> matches pid z = false.
Proof.
  induction l as [|p l IH]; intros H; cbn [find_child].
  - left. split; [done|]. by intros q x []%elem_of_nil.
  - destruct (H p) as [H0 [x Hx]]; [by left|]. rewrite (mbind_run _ _ _ _ _ (load_proc_run _ _ _ Hx)).
    change ((p_pid x =? pid) || (pid =? -1)) with (matches pid x). destruct (matches pid x) eqn:E.
    + right. exists [], p, l, x. do 4 (split; [done|]). by intros q z []%elem_of_nil.
    + destruct IH as [[Hr Hn]|(l1 & q & l2 & z & -> & Hr & Hz & Hm & Hn)]; [intros q Hq; apply H; by right|left|right].
      * split; [done|]. intros q z [->|Hq]%elem_of_cons Hz; [congruence|eauto].
      * exists (p :: l1), q, l2, z. do 4 (split; [done|]). intros q' z' [->|Hq]%elem_of_cons Hz'; [congruence|eauto].
Qed.

(** The state after a dead child [p] with thread [t] is gone. *)
Definition reaped (s : ps) (c : proc) (p t : Z) (r : rst) : ps :=
  mkPs _ _ (delete p (<[curproc (kst s) := with_pchildren (list_remove p) c]> (procs s))) (list_remove p (proc_list s)) (next_pid s)
    (proc_initproc s) (vfs_root_vn s) (delete t (exts s)) (upd_threads (delete t) (kst s)) r.

Section Reap.
Context (L : list hold) (s : ps) (c y : proc) (p t : Z) (x : kthread).
Hypothesis (I : pinv L s) (Hc : procs s !! curproc (kst s) = Some c) (Hin : p ∈ list_items (p_children c)).
Hypothesis (Hp : procs s !! p = Some y) (Hd : p_state y = PROC_DEAD).
Hypothesis (Hl : list_items (p_threads y) = [t]) (Ht : threads (kst s) !! t = Some x) (Hpx : kt_proc x = p).

Lemma reap_facts : curproc (kst s) <> p /\ t <> curthr (kst s) /\ t <> 0 /\ p <> 0 /\ kt_wchan x = None /\ kt_kstack x <> 0 /\ p_pagedir y <> 0.
Proof.
  destruct (pi_cur _ _ I) as (xc & c' & Hxc & Hpc & Hc' & Hrun & _). simplify_eq.
  destruct (l_thr _ _ (pi_link _ _ I) _ _ Ht) as (y' & Hy' & Ho). rewrite Hp in Hy'. injection Hy' as <-.
  assert (curproc (kst s) <> kt_proc x) as Hne by congruence. split; [done|]. split; [congruence|].
  split; [intros ->; pose proof (k_null _ _ (pi_k _ _ I)); congruence|].
  split; [intros E; pose proof (t_null _ _ (pi_tree _ _ I)); congruence|].
  split; [by apply (o_dead _ _ _ Ho)|]. split; [apply Ho|]. by eapply (t_fields _ _ (pi_tree _ _ I)).
Qed.

Lemma reaped_pinv r : holds (res s) (L ++ all_holds s) ->
  (holds r (L ++ gather proc_holds (delete p (procs s)) ++ gather thr_holds (delete t (threads (kst s)))) -> pinv L (reaped s c p t r)).
Proof.
  intros _ Hh. destruct reap_facts as (Hne & Htc & Ht0 & Hp0 & Hw & Hk & Hpd).
  destruct (pi_cur _ _ I) as (xc & c' & Hxc & Hpc & Hc' & Hrun & Hq). rewrite Hc in Hc'. injection Hc' as <-.
  set (C := with_pchildren (list_remove p) c). assert (cores (procs s) (<[curproc (kst s) := C]> (procs s))) as HC by (by eapply cores_insert).
  unfold reaped. fold C. split; cbn -[upd_threads].
  - eapply kinv_thread_delete; [apply I|done..].
  - by eapply tree_reap; [apply I|..].
  - apply (linked_reap _ (threads (kst s)) p y t); [eapply linked_cores; [done|apply I]|by rewrite lookup_insert_ne|done].
  - intros q [z Hz]. apply lookup_delete_Some in Hz as [_ Hz]. apply (pi_queue _ _ I). destruct (cores_back _ _ _ _ HC Hz) as (? & ? & _). eauto.
  - exists xc, C. cbn. rewrite lookup_delete_ne, (lookup_delete_ne _ p), lookup_insert_eq by done. done.
  - intros u [z Hz]. cbn in Hz. apply lookup_delete_Some in Hz as [Hu Hz]. rewrite lookup_delete_ne by done. apply (pi_exts _ _ I). eauto.
  - apply (pi_next _ _ I).
  - intros q z [_ Hz]%lookup_delete_Some. destruct (cores_back _ _ _ _ HC Hz) as (z0 & Hz0 & [E _]). rewrite E. by apply (pi_init _ _ I).
  - apply (pi_root _ _ I).
  - eapply holds_perm; [|exact Hh]. unfold all_holds. cbn. do 2 f_equiv.
    rewrite delete_insert_ne by done. symmetry. apply (gather_same proc_holds _ _ c); [by rewrite lookup_delete_ne|done].
Qed.

(** After [slab_obj_free] the process is read once more. *)
Lemma reap_run pid : matches pid y = true ->
  exists r, reap (curproc (kst s)) p pid s = (if obj_keeps then Ok (p_pid y, reaped s c p t r) else Err FUndef) /\ pinv L (reaped s c p t r).
Proof.
  intros Hm. destruct reap_facts as (Hne & Htc & Ht0 & Hp0 & Hw & Hk & Hpd).
  pose proof (pi_holds _ _ I) as Hh.
  assert (holds (res s) (HStack (kt_kstack x) :: HPagedir (p_pagedir y) :: L ++ gather proc_holds (delete p (procs s)) ++ gather thr_holds (delete t (threads (kst s))))) as Hh'.
  { eapply holds_perm; [|exact Hh]. unfold all_holds. rewrite (gather_delete proc_holds _ p y Hp), (gather_delete thr_holds _ t x Ht).
    unfold proc_holds at 1. rewrite bool_decide_eq_false_2 by congruence. unfold thr_holds at 1. cbn [app]. solve_Permutation. }
  destruct (page_free_n_ok _ _ _ stack_pages Hh') as (r1 & E1 & H1). destruct (pt_destroy_pagedir_ok _ _ _ H1) as (r2 & E2 & H2).
  exists r2. split; [|by apply reaped_pinv].
  unfold reap. rewrite (mbind_run _ _ _ _ _ (load_proc_run _ _ _ Hp)), Hl, (mbind_run _ _ s t s eq_refl).
  set (y1 := with_pthreads (fun l => if decide (t ∈ list_items l) then list_remove t l else l) y).
  set (s1 := upd_exts (delete t) (upd_kst (upd_threads (delete t) (kst s)) (upd_procs (<[p := y1]>) (upd_res r1 s)))).
  assert (kthread_destroy t s = Ok (tt, s1)) as Ed.
  { unfold kthread_destroy. rewrite (proj2 (Z.eqb_neq _ _) Ht0), (mbind_run _ _ s tt s eq_refl), (mbind_run _ _ _ _ _ (sched_load_run s t x Ht)).
    rewrite (proj2 (Z.eqb_neq _ _) Hk), (mbind_run _ _ s tt s eq_refl).
    unfold free_stack. rewrite (mbind_run _ _ _ _ _ (res_op_run _ s tt r1 E1)), Hpx.
    by rewrite (mbind_run _ _ _ _ _ (store_proc_run (upd_res r1 s) p y _ Hp)). }
  rewrite (mbind_run _ _ _ _ _ Ed), (mbind_run _ _ _ _ _ (store_proc_run s1 p y1 _ (lookup_insert_eq _ _ _))). set (s2 := upd_procs _ s1).
  assert (procs s2 !! curproc (kst s) = Some c) as Hc2 by (cbn; by rewrite !lookup_insert_ne).
  rewrite (mbind_run _ _ _ _ _ (store_proc_run s2 _ c _ Hc2)). set (s3 := upd_procs _ s2).
  rewrite (mbind_run (mput (upd_plist (list_remove p))) _ s3 tt (upd_plist (list_remove p) s3) eq_refl).
  rewrite (mbind_run _ _ _ _ _ (res_op_run _ (upd_plist (list_remove p) s3) tt r2 E2)). set (s4 := upd_res r2 _).
  rewrite (mbind_run (mput (upd_procs (delete p))) _ s4 tt (upd_procs (delete p) s4) eq_refl). destruct obj_keeps; [|done].
  rewrite (mbind_run _ _ _ tt (upd_procs (delete p) s4) eq_refl), (proj2 (Z.eqb_neq _ _) Hp0), (mbind_run _ _ _ tt (upd_procs (delete p) s4) eq_refl).
  replace ((pid =? -1) || (p_pid y =? pid)) with true by (unfold matches in Hm; by rewrite orb_comm). rewrite (mbind_run _ _ _ tt (upd_procs (delete p) s4) eq_refl).
  rewrite (proj2 (Z.eqb_neq _ _) Hpd), (mbind_run _ _ _ tt (upd_procs (delete p) s4) eq_refl). unfold mret_. do 2 f_equal.
  unfold reaped, upd_procs. cbn. f_equal. rewrite (delete_insert_ne (procs s)), delete_insert_ne by done. by rewrite !delete_insert_eq.
Qed.
End Reap.

Lemma child_listed L s c q : pinv L s -> procs s !! curproc (kst s) = Some c -> q ∈ list_items (p_children c) ->
  q <> 0 /\ exists y, procs s !! q = Some y /\ p_pproc y = curproc (kst s).
Proof.
  intros I Hc Hq. destruct (pi_cur _ _ I) as (xc & c' & _ & _ & Hc' & Hrun & _). rewrite Hc in Hc'. injection Hc' as <-.
  destruct (t_children _ _ (pi_tree _ _ I) _ _ Hc Hrun) as [_ Hm]. destruct (Hm q Hq) as (y & Hy & E). split; [|eauto].
  intros ->. pose proof (t_null _ _ (pi_tree _ _ I)). congruence.
Qed.

(** The current thread sleeps in [do_waitpid], another one runs. *)
Record waiting (L : list hold) (s s' : ps) (pid status : Z) : Prop := {
  wt_inv : pinv L s';
  wt_procs : procs s' = procs s;
  wt_list : proc_list s' = proc_list s;
  wt_switched : switched (kst s') = true;
  wt_saved : exists x, threads (kst s') !! curthr (kst s) = Some x /\ kt_proc x = curproc (kst s) /\ snd (kt_ctx x) = CWaitpid pid status;
}.
Lemma wait_sleeps L fuel s pid status : pinv L s -> switched (kst s) = false ->
  let m := sched_op (sched_sleep_on_ fuel (ProcQ (curproc (kst s))) (CWaitpid pid status)) in
  (m s = Err FFuel \/ exists s', m s = Ok (Blocked, s') /\ waiting L s s' pid status) /\
  (forall l t, items (kst s) RunQ = l ++ [t] -> fuel <> O -> exists s', m s = Ok (Blocked, s') /\ waiting L s s' pid status /\
     curthr (kst s') = t /\ curthr (kst s) ∈ items (kst s') (ProcQ (curproc (kst s))) /\ items (kst s') RunQ = l).
Proof.
  intros I Hsw m. set (q := ProcQ (curproc (kst s))) in *. set (ct := CWaitpid pid status) in *.
  destruct (pi_cur _ _ I) as (xc & c & Hxc & Hpc & Hc & Hrun & Hq).
  destruct (sleep_on_sleeps fuel q ct (kst s)) as (x & k1 & Hx & T & I1 & I2 & H5 & H6); try done; [apply I|apply (pi_queue _ _ I); eauto|by left|].
  rewrite Hxc in Hx. injection Hx as <-. destruct (l_thr _ _ (pi_link _ _ I) _ _ Hxc) as (y & Hy & Ho). rewrite Hpc, Hc in Hy. injection Hy as <-.
  assert (forall k2, switched_from k1 k2 ct -> waiting L s (upd_kst k2 s) pid status) as HW.
  { intros k2 F. pose proof (sw_keep _ _ _ F) as HK.
    assert (linked (procs s) (threads k1)) as HL.
    { rewrite (st_threads _ _ _ _ T). eapply (linked_thr _ _ _ xc); [apply I|done|done|by rewrite Hpc|]. destruct Ho. split; try done; cbn; [congruence|].
      intros q0 [= <-]. done. }
    split; try done.
    - split; cbn.
      + apply F.
      + apply I.
      + by eapply linked_keeps.
      + intros p Hp. apply (sw_q _ _ _ F), (st_queues _ _ _ _ T). by apply (pi_queue _ _ I).
      + destruct (next_running (procs s) k1 k2 ct HL (t_state _ _ (pi_tree _ _ I)) F) as (z & w & ? & ? & ? & ? & ?). exists z, w. auto 8.
      + intros t [z Hz]. destruct (keeps_back _ _ _ _ HK Hz) as (z1 & Hz1 & _). apply (pi_exts _ _ I). rewrite (st_threads _ _ _ _ T) in Hz1.
        destruct (decide (t = curthr (kst s))) as [->|]; [eauto|rewrite lookup_insert_ne in Hz1 by done; eauto].
      + apply I.
      + apply I.
      + apply I.
      + eapply holds_perm; [|apply (pi_holds _ _ I)]. unfold all_holds. cbn. rewrite (holds_keeps _ _ HK), (st_threads _ _ _ _ T).
        by rewrite (gather_same thr_holds _ _ xc).
    - apply F.
    - destruct (sw_saved _ _ _ F) as (z & z' & Hz & Hz' & E1 & E2 & _). rewrite (st_curthr _ _ _ _ T) in *. exists z'. split; [done|].
      rewrite (st_threads _ _ _ _ T), lookup_insert_eq in Hz. injection Hz as <-. rewrite E1, E2. done. }
  split.
  - destruct H5 as [E|(k2 & E & F)]; [left; unfold m, sched_op; by rewrite E|right]. exists (upd_kst k2 s). split; [by apply sched_op_run|by apply HW].
  - intros l t Hl Hf. destruct (H6 l t Hl Hf) as (k2 & E & F & E1 & E2 & E3). exists (upd_kst k2 s). split; [by apply sched_op_run|]. split; [by apply HW|].
    split; [done|]. cbn. rewrite E3, I1 by done. split; [by left|done].
Qed.

Lemma waitpid_run L fuel s c pid status : pinv L s -> switched (kst s) = false ->
  procs s !! curproc (kst s) = Some c ->
  (do_waitpid fuel pid status s = Ok ((Returned (- ECHILD), None), s) /\
     forall q y, q ∈ list_items (p_children c) -> procs s !! q = Some y -> matches pid y = false) \/
  exists l1 p l2 y, list_items (p_children c) = l1 ++ p :: l2 /\ procs s !! p = Some y /\ matches pid y = true /\
    (forall q z, q ∈ l1 -> procs s !! q = Some z -> matches pid z = false) /\
    if bool_decide (p_state y = PROC_DEAD) then
      exists t r, do_waitpid fuel pid status s =
          (if obj_keeps then Ok ((Returned (p_pid y), if status =? 0 then None else Some (p_status y)), reaped s c p t r) else Err FUndef) /\
        pinv L (reaped s c p t r)
    else
      (do_waitpid fuel pid status s = Err FFuel /\ (fuel = O \/ items (kst s) RunQ = [])) \/
      exists s', do_waitpid fuel pid status s = Ok ((Blocked, None), s') /\ waiting L s s' pid status.
Proof.
  intros I Hsw Hc. unfold do_waitpid. rewrite (mbind_run cur_proc _ s (curproc (kst s)) s eq_refl), (mbind_run _ _ _ _ _ (load_proc_run _ _ _ Hc)).
  destruct (find_child_run s pid (list_items (p_children c))) as [[Hr Hn]|(l1 & p & l2 & y & El & Hr & Hy & Hm & Hn)].
  { intros q Hq. destruct (child_listed L s c q I Hc Hq) as (? & z & ? & _). eauto. }
  - left. rewrite (mbind_run _ _ _ _ _ Hr). done.
  - right. exists l1, p, l2, y. do 4 (split; [done|]). rewrite (mbind_run _ _ _ _ _ Hr).
    assert (p ∈ list_items (p_children c)) as Hin by (rewrite El; set_solver). destruct (child_listed L s c p I Hc Hin) as (Hp0 & _).
    rewrite (proj2 (Z.eqb_neq _ _) Hp0), (mbind_run _ _ _ _ _ (load_proc_run _ _ _ Hy)). case_bool_decide as Hd.
    + destruct (l_one _ _ (pi_link _ _ I) _ _ Hy) as [[? _]|(t & x & E & Hx & Hpx)]; [done|].
      destruct (reap_run L s c y p t x I Hc Hin Hy Hd E Hx Hpx pid Hm) as (r & Er & Hr'). exists t, r.
      split; [|done]. destruct obj_keeps; [by rewrite (mbind_run _ _ _ _ _ Er)|by apply mbind_err].
    + destruct (wait_sleeps L fuel s pid status I Hsw) as [[Ef|(s' & Es & W)] H2].
      * left. split; [by apply mbind_err|]. destruct fuel as [|fuel]; [by left|right]. destruct (items (kst s) RunQ) as [|t l _] eqn:E using rev_ind; [done|].
        destruct (H2 l t eq_refl) as (s' & Es & _); [done|congruence].
      * right. exists s'. by rewrite (mbind_run _ _ _ _ _ Es).
Qed.

(** For -1 only the first child is looked at: while it runs, the caller goes to
    sleep and the next runnable thread is switched to. *)
Lemma wait_first L fuel s c p y l lr t status : pinv L s -> switched (kst s) = false -> procs s !! curproc (kst s) = Some c ->
  list_items (p_children c) = p :: l -> procs s !! p = Some y -> p_state y = PROC_RUNNING -> items (kst s) RunQ = lr ++ [t] -> fuel <> O ->
  exists s', do_waitpid fuel (-1) status s = Ok ((Blocked, None), s') /\ waiting L s s' (-1) status /\ curthr (kst s') = t /\
    curthr (kst s) ∈ items (kst s') (ProcQ (curproc (kst s))) /\ items (kst s') RunQ = lr.
Proof.
  intros I Hsw Hc El Hy Hr Hi Hf. destruct (child_listed L s c p I Hc) as [Hp0 _]; [rewrite El; by left|].
  destruct (wait_sleeps L fuel s (-1) status I Hsw) as [_ H2]. destruct (H2 lr t Hi Hf) as (s' & Es & W & H). exists s'.
  split; [|done]. unfold do_waitpid.
  rewrite (mbind_run cur_proc _ s (curproc (kst s)) s eq_refl), (mbind_run _ _ _ _ _ (load_proc_run _ _ _ Hc)), El.
  rewrite (mbind_run _ _ s p s).
  - rewrite (proj2 (Z.eqb_neq _ _) Hp0), (mbind_run _ _ _ _ _ (load_proc_run _ _ _ Hy)), bool_decide_eq_false_2 by congruence.
    by rewrite (mbind_run _ _ _ _ _ Es).
  - cbn [find_child]. rewrite (mbind_run _ _ _ _ _ (load_proc_run _ _ _ Hy)), orb_true_r. done.
Qed.
(** A child behind the first that has exited is then not disposed of. *)
Theorem do_waitpid_any_first L fuel s c p y q z status l : pinv L s -> switched (kst s) = false -> procs s !! curproc (kst s) = Some c ->
  list_items (p_children c) = p :: l -> procs s !! p = Some y -> p_state y = PROC_RUNNING ->
  q ∈ l -> procs s !! q = Some z -> p_state z = PROC_DEAD -> items (kst s) RunQ <> [] -> fuel <> O ->
  exists s', do_waitpid fuel (-1) status s = Ok ((Blocked, None), s') /\ procs s' !! q = Some z.
Proof.
  intros I Hsw Hc El Hy Hr Hq Hz Hd Hrun Hf.
  assert (exists l t, items (kst s) RunQ = l ++ [t]) as (l' & t & Hi) by (destruct (items (kst s) RunQ) as [|t l' _] using rev_ind; [done|eauto]).
  destruct (wait_first L fuel s c p y l l' t status) as (s' & E & W & _); try done. exists s'. by rewrite (wt_procs _ _ _ _ _ W).
Qed.

(** C16: [do_exit] never returns to the caller: the process is dead with its
    exit status, its children belong to the init process, everything a
    running process holds is given back, its parent's waiting thread is
    woken and another thread runs; the invariant is kept.  Only when no
    thread is runnable does the processor wait for interrupts. *)
Theorem do_exit_correct L fuel s c status : pinv L s -> switched (kst s) = false -> procs s !! curproc (kst s) = Some c -> p_pid c <> PID_IDLE ->
  proc_initproc s <> 0 -> list_items (p_children c) = [] \/ adopts (procs s) (curproc (kst s)) (proc_initproc s) ->
  (do_exit fuel status s = Err FFuel /\ (fuel = O \/ items (kst s) (ProcQ (p_pproc c)) ++ items (kst s) RunQ = [])) \/
  exists s', do_exit fuel status s = Ok (Blocked, s') /\ pinv L s' /\
    exited (procs s) (procs s') (curproc (kst s)) (proc_initproc s) (list_items (p_children c)) /\
    (exists c', procs s' !! curproc (kst s) = Some c' /\ p_status c' = s32 status) /\
    switched (kst s') = true /\ curproc (kst s') <> curproc (kst s).
Proof.
  intros I Hsw Hc Hpid Hini Hadopt. destruct (exit_run L fuel s c status I Hsw Hc Hpid Hini Hadopt) as [?|(s' & k3 & E & I' & [X1 X2 X3] & F & _)]; [by left|right].
  exists s'. split; [done|]. split; [done|]. split; [done|]. split; [done|]. split; [apply F|].
  intros E0. destruct (pi_cur _ _ I') as (x & y & _ & _ & Hy & Hr & _). destruct (exited_back _ _ _ _ _ _ _ X1 Hy) as (z & _ & R).
  pose proof (er_state _ _ _ _ _ _ R) as Es. rewrite decide_True in Es by done. congruence.
Qed.

(** ** Killing *)
(** Only threads changed: some were cancelled. *)
Record kept (s s' : ps) : Prop := {
  kp_procs : procs s' = procs s;
  kp_list : proc_list s' = proc_list s;
  kp_init : proc_initproc s' = proc_initproc s;
  kp_curthr : curthr (kst s') = curthr (kst s);
  kp_curproc : curproc (kst s') = curproc (kst s);
  kp_sw : switched (kst s') = switched (kst s);
  kp_thr t x : threads (kst s) !! t = Some x -> exists x', threads (kst s') !! t = Some x' /\ kt_proc x' = kt_proc x /\
    (kt_cancelled x = true -> kt_cancelled x' = true);
  kp_run : items (kst s') RunQ = [] -> items (kst s) RunQ = [];
}.
#[local] Instance kept_preorder : PreOrder kept.
Proof.
  split; [by intros s; split; eauto|]. intros s1 s2 s3 [] []. split; try congruence; [|auto].
  intros t x Hx. destruct (kp_thr0 t x Hx) as (x1 & H1 & E1 & C1). destruct (kp_thr1 t x1 H1) as (x2 & H2 & E2 & C2). exists x2. split; [done|]. split; [congruence|auto].
Qed.
Definition thread_cancelled (s : ps) (p : Z) : Prop :=
  forall t x, threads (kst s) !! t = Some x -> kt_proc x = p -> kt_cancelled x = true.

Lemma kill_other L fuel s p y status : pinv L s -> switched (kst s) = false -> procs s !! p = Some y -> p <> curproc (kst s) ->
  exists s', proc_kill fuel p status s = Ok (Returned 0, s') /\ pinv L s' /\ kept s s' /\ thread_cancelled s' p.
Proof.
  intros I Hsw Hp Hne. destruct (pi_cur _ _ I) as (xc & c & Hxc & Hpc & Hc & _).
  assert (p <> 0) as Hp0 by (intros ->; pose proof (t_null _ _ (pi_tree _ _ I)); congruence).
  assert (curproc (kst s) <> 0) as Hc0 by (intros E; pose proof (t_null _ _ (pi_tree _ _ I)); congruence).
  unfold proc_kill. rewrite (mbind_run cur_proc _ s (curproc (kst s)) s eq_refl), (proj2 (Z.eqb_neq _ _) Hp0), (proj2 (Z.eqb_neq _ _) Hc0).
  rewrite (mbind_run _ _ s tt s eq_refl), (proj2 (Z.eqb_neq (curproc (kst s)) p)) by done. rewrite (mbind_run _ _ _ _ _ (load_proc_run _ _ _ Hp)).
  destruct (l_one _ _ (pi_link _ _ I) _ _ Hp) as [[_ El]|(t & x & El & Hx & Hpx)]; rewrite El; cbn [cancel_loop].
  - exists s. split; [done|]. split; [done|]. split; [done|]. intros u z Hz Hzp. destruct (l_thr _ _ (pi_link _ _ I) _ _ Hz) as (w & Hw & Ho).
    rewrite Hzp, Hp in Hw. injection Hw as <-. pose proof (o_list _ _ _ Ho) as Hin. rewrite El in Hin. by apply elem_of_nil in Hin.
  - destruct (cancel_other L s fuel t x status I Hsw Hx) as (s' & E & I' & [C1 C2 C3 C4 C5 C6 (x' & C7 & C8 & C9 & C10 & _) C11 C12]); [congruence|].
    exists s'. rewrite (mbind_run _ _ _ _ _ E). split; [done|]. split; [done|]. split.
    + split; try done. intros u z Hz. rewrite C7. destruct (decide (u = t)) as [->|]; [rewrite lookup_insert_eq; simplify_eq; eauto|].
      rewrite lookup_insert_ne by done. eauto.
    + intros u z. rewrite C7. destruct (decide (u = t)) as [->|]; [rewrite lookup_insert_eq; by intros [= <-]|].
      rewrite lookup_insert_ne by done. intros Hz Hzp. destruct (l_thr _ _ (pi_link _ _ I) _ _ Hz) as (w & Hw & Ho).
      rewrite Hzp, Hp in Hw. injection Hw as <-. pose proof (o_list _ _ _ Ho) as Hin. rewrite El in Hin. by apply list_elem_of_singleton in Hin.
Qed.

(** Neither the idle process nor a child of it. *)
Definition below_idle (s : ps) (p : Z) : bool :=
  match procs s !! p with
  | Some x => negb (p_pid x =? PID_IDLE) &&
      match procs s !! p_pproc x with Some y => negb (p_pid y =? PID_IDLE) | None => false end
  | None => false
  end.
Lemma not_idles_run L s p : pinv L s -> is_Some (procs s !! p) -> not_idles p s = Ok (below_idle s p, s).
Proof.
  intros I [x Hx]. unfold not_idles, below_idle. rewrite (mbind_run _ _ _ _ _ (load_proc_run _ _ _ Hx)), Hx.
  destruct (p_pid x =? PID_IDLE) eqn:E; [done|]. apply Z.eqb_neq in E.
  destruct (t_parent _ _ (pi_tree _ _ I) p x Hx) as (y & Hy & _); [by rewrite (t_idle _ _ (pi_tree _ _ I) p x Hx)|].
  rewrite (mbind_run _ _ _ _ _ (load_proc_run _ _ _ Hy)), Hy. done.
Qed.
Lemma kill_loop_run L fuel l : forall s, pinv L s -> switched (kst s) = false -> (forall p, p ∈ l -> is_Some (procs s !! p)) ->
  exists s', kill_loop fuel l s = Ok (tt, s') /\ pinv L s' /\ kept s s' /\
    forall p, p ∈ l -> below_idle s p = true -> p <> curproc (kst s) -> thread_cancelled s' p.
Proof.
  induction l as [|p l IH]; intros s I Hsw Hl; cbn [kill_loop].
  - exists s. split; [done|]. split; [done|]. split; [done|]. by intros p []%elem_of_nil.
  - destruct (Hl p) as [y Hy]; [by left|]. rewrite (mbind_run _ _ _ _ _ (not_idles_run L s p I (Hl p ltac:(by left)))).
    rewrite (mbind_run cur_proc _ s (curproc (kst s)) s eq_refl).
    assert (exists s1, (if (below_idle s p : bool) && negb (p =? curproc (kst s)) then let! _ := proc_kill fuel p 0 in mret_ tt else mret_ tt) s = Ok (tt, s1) /\
      pinv L s1 /\ kept s s1 /\ (below_idle s p = true -> p <> curproc (kst s) -> thread_cancelled s1 p)) as (s1 & E1 & I1 & K1 & T1).
    { destruct (below_idle s p); cbn [andb]; [|by exists s]. destruct (p =? curproc (kst s)) eqn:E; cbn [negb].
      - apply Z.eqb_eq in E. exists s. split; [done|]. split; [done|]. split; [done|]. done.
      - apply Z.eqb_neq in E. destruct (kill_other L fuel s p y 0 I Hsw Hy E) as (s1 & E1 & I1 & K1 & T1). exists s1.
        rewrite (mbind_run _ _ _ _ _ E1). done. }
    rewrite (mbind_run _ _ _ _ _ E1). destruct (IH s1) as (s' & E' & I' & K' & T'); [done|by rewrite (kp_sw _ _ K1)| |].
    { intros q Hq. rewrite (kp_procs _ _ K1). apply Hl. by right. }
    exists s'. split; [done|]. split; [done|]. split; [by etrans|].
    assert (forall q, below_idle s1 q = below_idle s q) as Eb by (intros q; unfold below_idle; by rewrite (kp_procs _ _ K1)).
    intros q [->|Hq]%elem_of_cons Hb Hqc; [|apply T'; [done|by rewrite Eb|by rewrite (kp_curproc _ _ K1)]].
    intros t x Hx Hpx. destruct (l_one _ _ (pi_link _ _ I1) p y) as [[_ El]|(u & z & El & Hz & Hzp)]; [by rewrite (kp_procs _ _ K1)|..].
    + destruct (l_thr _ _ (pi_link _ _ I') _ _ Hx) as (w & Hw & Ho). rewrite Hpx, (kp_procs _ _ K'), (kp_procs _ _ K1), Hy in Hw. injection Hw as <-.
      pose proof (o_list _ _ _ Ho) as Hin. rewrite El in Hin. by apply elem_of_nil in Hin.
    + destruct (l_thr _ _ (pi_link _ _ I') _ _ Hx) as (w & Hw & Ho). rewrite Hpx, (kp_procs _ _ K'), (kp_procs _ _ K1), Hy in Hw. injection Hw as <-.
      pose proof (o_list _ _ _ Ho) as Hin. rewrite El in Hin. apply list_elem_of_singleton in Hin as ->.
      destruct (kp_thr _ _ K' u z Hz) as (x' & Hx' & _ & Hcc). rewrite Hx in Hx'. injection Hx' as <-. apply Hcc. by apply (T1 Hb Hqc u z).
Qed.

(** [proc_kill_all] cancels the thread of every process except the idle
    process, its children and the current process, and then exits the current
    process unless it is one of those. *)
Lemma kill_all_run L fuel s : pinv L s -> switched (kst s) = false ->
  exists s1, pinv L s1 /\ kept s s1 /\
    (forall p, is_Some (procs s !! p) -> below_idle s p = true -> p <> curproc (kst s) -> thread_cancelled s1 p) /\
    proc_kill_all fuel s = if below_idle s (curproc (kst s)) then do_exit fuel 0 s1 else Ok (Returned 0, s1).
Proof.
  intros I Hsw. destruct (kill_loop_run L fuel (list_items (proc_list s)) s I Hsw) as (s1 & E1 & I1 & K1 & T1).
  { intros p Hp. by apply (t_list _ _ (pi_tree _ _ I)). }
  exists s1. split; [done|]. split; [done|]. split; [intros p Hp; apply T1; by apply (t_list _ _ (pi_tree _ _ I))|].
  unfold proc_kill_all. rewrite (mbind_run (mget _) _ s (list_items (proc_list s)) s eq_refl), (mbind_run _ _ _ _ _ E1).
  rewrite (mbind_run cur_proc _ s1 (curproc (kst s)) s1) by (unfold cur_proc, mget; by rewrite (kp_curproc _ _ K1)).
  destruct (pi_cur _ _ I) as (xc & c & _ & _ & Hc & _).
  rewrite (mbind_run _ _ _ _ _ (not_idles_run L s1 _ I1 (ltac:(rewrite (kp_procs _ _ K1), Hc; eauto)))).
  replace (below_idle s1 (curproc (kst s))) with (below_idle s (curproc (kst s))) by (unfold below_idle; by rewrite (kp_procs _ _ K1)).
  destruct (below_idle s (curproc (kst s))); [|done]. unfold proc_kill.
  rewrite (mbind_run cur_proc _ s1 (curproc (kst s)) s1) by (unfold cur_proc, mget; by rewrite (kp_curproc _ _ K1)).
  assert (curproc (kst s) <> 0) as Hc0 by (intros E; pose proof (t_null _ _ (pi_tree _ _ I)); congruence).
  rewrite (proj2 (Z.eqb_neq _ _) Hc0), (mbind_run _ _ s1 tt s1 eq_refl), Z.eqb_refl. done.
Qed.

(** ** Coming back *)
Lemma resume_plain s x : kinv None s -> switched s = true -> threads s !! curthr s = Some x -> plain (snd (kt_ctx x)) ->
  let s' := set_cur (curthr s) (curproc s) false (set_ipl (fst (kt_ctx x)) s) in
  exists r, resume s = Ok (r, s') /\ kinv None s' /\
    match snd (kt_ctx x) with CWaitpid pid status => r = Again pid status | _ => exists v, r = Returned v end.
Proof.
  intros K Hsw Hx Hp s'.
  assert (exists r, resume s = Ok (r, s') /\ match snd (kt_ctx x) with CWaitpid pid status => r = Again pid status | _ => exists v, r = Returned v end) as (r & E & Hr).
  { unfold resume. rewrite (mbind_run (mget _) _ _ (curthr s) s eq_refl), (mbind_run _ _ _ _ _ (load_thr_run _ _ _ Hx)).
    rewrite (mbind_run (mput (set_ipl (fst (kt_ctx x)))) _ _ tt (set_ipl (fst (kt_ctx x)) s) eq_refl).
    rewrite (mbind_run (mget curproc) _ (set_ipl (fst (kt_ctx x)) s) (curproc s) _ eq_refl).
    rewrite (mbind_run (mput (set_cur (curthr s) (curproc s) false)) _ _ tt s' eq_refl).
    destruct (snd (kt_ctx x)); try done; try (eexists; split; [reflexivity|by eexists]).
    rewrite (mbind_run _ _ _ _ _ (cancellable_wakeup_run s' x Hx)). eexists. split; [reflexivity|by eexists]. }
  exists r. split; [done|]. split; [|done]. destruct (resume_run s x K Hsw Hx) as (r' & s2 & E' & K' & _). congruence.
Qed.
Lemma resumed_pinv L s x : pinv L s -> switched (kst s) = true -> threads (kst s) !! curthr (kst s) = Some x -> plain (snd (kt_ctx x)) ->
  let s1 := upd_kst (set_cur (curthr (kst s)) (curproc (kst s)) false (set_ipl (fst (kt_ctx x)) (kst s))) s in
  pinv L s1 /\ forall fuel, match snd (kt_ctx x) with
    | CWaitpid pid status => proc_resume fuel s = do_waitpid fuel pid status s1
    | _ => exists v, proc_resume fuel s = Ok ((Returned v, None), s1)
    end.
Proof.
  intros I Hsw Hx Hp s1. destruct (resume_plain (kst s) x (pi_k _ _ I) Hsw Hx Hp) as (r & E & K & Hr). split.
  - apply pinv_sched; try done; [by apply keeps_same|]. exact (pi_cur _ _ I).
  - intros fuel. unfold proc_resume. rewrite (mbind_run _ _ _ _ _ (sched_op_run _ s r _ E)). fold s1.
    destruct (snd (kt_ctx x)); try done; try (destruct Hr as [v ->]; by exists v). by subst r.
Qed.

(** ** Any sequence of calls *)
Inductive pop :=
| PCreate (name : list ascii) | PThread (p func arg1 arg2 : Z) | PRunnable (t : Z) | PExit (status : Z)
| PWait (pid status : Z) | PKill (p status : Z) | PKillAll | PResume.
Definition run_pop (fuel : nat) (op : pop) : M ps (kres * option Z) :=
  match op with
  | PCreate name => let! p := proc_create name in mret_ (Returned p, None)
  | PThread p func arg1 arg2 => let! t := kthread_create p func arg1 arg2 in mret_ (Returned t, None)
  | PRunnable t => sched_op (sched_make_runnable t) ;;; mret_ (Returned 0, None)
  | PExit status => let! r := do_exit fuel status in mret_ (r, None)
  | PWait pid status => do_waitpid fuel pid status
  | PKill p status => let! r := proc_kill fuel p status in mret_ (r, None)
  | PKillAll => let! r := proc_kill_all fuel in mret_ (r, None)
  | PResume => proc_resume fuel
  end.
(** The current process may exit: it is not the idle process, and the init
    process is there for its children. *)
Definition may_exit (s : ps) : Prop := exists c, procs s !! curproc (kst s) = Some c /\ p_pid c <> PID_IDLE /\ proc_initproc s <> 0 /\
  (list_items (p_children c) = [] \/ adopts (procs s) (curproc (kst s)) (proc_initproc s)).
(** A number is left for a new process, and number 1 goes to a child of the idle
    process; a process gets one thread, which is made runnable once; a thread
    that is switched to was not waiting for a mutex. *)
Definition pop_pre (s : ps) (op : pop) : Prop :=
  match op with
  | PResume => switched (kst s) = true /\ exists x, threads (kst s) !! curthr (kst s) = Some x /\ plain (snd (kt_ctx x))
  | _ => switched (kst s) = false /\
    match op with
    | PCreate _ => (exists i, 0 <= i < PROC_MAX_COUNT /\ forall q y, procs s !! q = Some y -> p_pid y <> i) /\
        exists c, procs s !! curproc (kst s) = Some c /\ (p_pid c = PID_IDLE \/ exists q y, procs s !! q = Some y /\ p_pid y = PID_INIT)
    | PThread p _ _ _ => exists y, procs s !! p = Some y /\ p_state y = PROC_RUNNING /\ list_items (p_threads y) = []
    | PRunnable t => exists x, threads (kst s) !! t = Some x /\ kt_wchan x = None /\ snd (kt_ctx x) = CStart /\ kt_state x = KT_RUN /\ t <> curthr (kst s)
    | PExit _ => may_exit s
    | PKill p _ => is_Some (procs s !! p) /\ (p = curproc (kst s) -> may_exit s)
    | PKillAll => below_idle s (curproc (kst s)) = true -> may_exit s
    | _ => True
    end
  end.
(** The call is [do_waitpid] with [pid], or comes back in it. *)
Definition waits_for (op : pop) (s : ps) (pid : Z) : Prop :=
  match op with
  | PWait p _ => p = pid
  | PResume => exists x i ptr, threads (kst s) !! curthr (kst s) = Some x /\ kt_ctx x = (i, CWaitpid pid ptr)
  | _ => False
  end.
(** The first child of the current process that [pid] may refer to is dead. *)
Definition first_dead (s : ps) (pid : Z) : Prop := exists c l1 p l2 y, procs s !! curproc (kst s) = Some c /\
  list_items (p_children c) = l1 ++ p :: l2 /\ (forall q z, q ∈ l1 -> procs s !! q = Some z -> matches pid z = false) /\
  procs s !! p = Some y /\ matches pid y = true /\ p_state y = PROC_DEAD.
(** A call is carried out and keeps the invariant, or the processor waits for
    interrupts because no thread is runnable, or [do_waitpid] disposes of a
    dead child, which it reads after freeing it, where freed memory cannot be
    read. *)
Definition pop_ok (L : list hold) (fuel : nat) (op : pop) (s : ps) : Prop :=
  (run_pop fuel op s = Err FFuel /\ (fuel = O \/ items (kst s) RunQ = [])) \/
  (run_pop fuel op s = Err FUndef /\ obj_keeps = false /\ exists pid, waits_for op s pid /\ first_dead s pid) \/
  exists r s', run_pop fuel op s = Ok (r, s') /\ pinv L s'.

Lemma wait_safe L fuel s c pid status : pinv L s -> switched (kst s) = false -> procs s !! curproc (kst s) = Some c ->
  (do_waitpid fuel pid status s = Err FFuel /\ (fuel = O \/ items (kst s) RunQ = [])) \/
  (do_waitpid fuel pid status s = Err FUndef /\ obj_keeps = false /\ first_dead s pid) \/
  exists r s', do_waitpid fuel pid status s = Ok (r, s') /\ pinv L s'.
Proof.
  intros I Hsw Hc. destruct (waitpid_run L fuel s c pid status I Hsw Hc) as [[E _]|(l1 & p & l2 & y & El & Hy & Hm & Hn & H)]; [right; right; eauto|].
  case_bool_decide as Hd.
  - destruct H as (t & r & E & I'). right. destruct obj_keeps eqn:Hk; [right; eauto|left]. split; [done|]. split; [done|].
    exists c, l1, p, l2, y. done.
  - destruct H as [?|(s' & E & W)]; [by left|right; right]. eexists _, s'. split; [done|apply W].
Qed.
Lemma exit_safe L fuel s status : pinv L s -> switched (kst s) = false -> may_exit s ->
  (do_exit fuel status s = Err FFuel /\ (fuel = O \/ items (kst s) RunQ = [])) \/
  exists r s', do_exit fuel status s = Ok (r, s') /\ pinv L s'.
Proof.
  intros I Hsw (c & Hc & Hpid & Hini & Had). destruct (exit_run L fuel s c status I Hsw Hc Hpid Hini Had) as [[E H]|(s' & k3 & E & I' & _)]; [left|right; eauto].
  split; [done|]. destruct H as [?|[_ ?]%app_eq_nil]; auto.
Qed.
Lemma kept_may_exit s s1 : kept s s1 -> may_exit s -> may_exit s1.
Proof. intros K. unfold may_exit. by rewrite (kp_procs _ _ K), (kp_curproc _ _ K), (kp_init _ _ K). Qed.

(** C13: every call of proc.c and kthread.c, made when it may be made and with
    memory left, keeps the invariant of processes, threads and what they hold,
    and trips no assertion.  It comes to an end unless no thread is runnable.
    The one undefined step is in [do_waitpid]: it reads the process of a dead
    child after [slab_obj_free]; the theorem says that nothing else can go
    wrong, and that this does where freed memory cannot be read. *)
Theorem proc_step_safe L fuel op s : pinv L s -> plenty -> pop_pre s op -> pop_ok L fuel op s.
Proof.
  intros I PL Hpre. unfold pop_ok. destruct (pi_cur _ _ I) as (xc & c & Hxc & _ & Hc & _).
  destruct op as [name|p func a b|t|st|pid st|p st| |]; [destruct Hpre as [Hsw Hpre]..|]; cbn [run_pop].
  - right; right. destruct Hpre as (Hfree & c' & Hc' & Hi). destruct (create_ok L s name c' I PL Hc' Hfree Hi) as (p & pid & d & m & r & E & I' & _).
    eexists _, _. rewrite (mbind_run _ _ _ _ _ E). split; [reflexivity|done].
  - right; right. destruct Hpre as (y & Hy & Hr & He). destruct (kthread_create_ok L s p y func a b I PL Hy Hr He) as (t & k & r & E & I' & _).
    eexists _, _. rewrite (mbind_run _ _ _ _ _ E). split; [reflexivity|done].
  - right; right. destruct Hpre as (x & Hx & Hw & Hcs & Hst & Hne). destruct (make_runnable_pinv L s t x I Hsw Hx Hw Hcs Hst Hne) as (k & E & I' & _).
    eexists _, _. rewrite (mbind_run _ _ _ _ _ E). split; [reflexivity|done].
  - destruct (exit_safe L fuel s st I Hsw Hpre) as [[E ?]|(r & s' & E & I')]; [left; split; [by apply mbind_err|done]|right; right].
    eexists _, _. rewrite (mbind_run _ _ _ _ _ E). split; [reflexivity|done].
  - destruct (wait_safe L fuel s c pid st) as [?|[(E & Hk & Hf)|?]]; try done; [by left|right; left|by right; right].
    split; [done|]. split; [done|]. by exists pid.
  - destruct Hpre as [[y Hy] Hx]. destruct (decide (p = curproc (kst s))) as [->|Hne].
    + assert (proc_kill fuel (curproc (kst s)) st s = do_exit fuel st s) as Ek.
      { unfold proc_kill. rewrite (mbind_run cur_proc _ s (curproc (kst s)) s eq_refl).
        assert (curproc (kst s) <> 0) as Hc0 by (intros E; pose proof (t_null _ _ (pi_tree _ _ I)); congruence).
        by rewrite (proj2 (Z.eqb_neq _ _) Hc0), (mbind_run _ _ s tt s eq_refl), Z.eqb_refl. }
      destruct (exit_safe L fuel s st I Hsw (Hx eq_refl)) as [[E ?]|(r & s' & E & I')].
      * left. split; [apply mbind_err; by rewrite Ek|done].
      * right; right. eexists _, _. rewrite (mbind_run _ _ s r s') by (by rewrite Ek). split; [reflexivity|done].
    + right; right. destruct (kill_other L fuel s p y st I Hsw Hy Hne) as (s' & E & I' & _). eexists _, _. rewrite (mbind_run _ _ _ _ _ E). split; [reflexivity|done].
  - destruct (kill_all_run L fuel s I Hsw) as (s1 & I1 & K1 & _ & E). destruct (below_idle s (curproc (kst s))).
    + pose proof (kp_run _ _ K1) as Hrun. destruct (exit_safe L fuel s1 0 I1) as [[E' H]|(r & s' & E' & I')]; [by rewrite (kp_sw _ _ K1)|by apply (kept_may_exit s), Hpre|left|right; right].
      * split; [apply mbind_err; by rewrite E|naive_solver].
      * eexists _, _. rewrite (mbind_run _ _ s r s') by (by rewrite E). split; [reflexivity|done].
    + right; right. eexists _, _. rewrite (mbind_run _ _ s _ s1 E). split; [reflexivity|done].
  - destruct Hpre as [Hsw (x & Hx & Hp)]. destruct (resumed_pinv L s x I Hsw Hx Hp) as [I1 H]. specialize (H fuel).
    destruct (snd (kt_ctx x)) as [| | | | |pid st|] eqn:Ex; try done; try (destruct H as [v E]; right; right; eauto; fail).
    rewrite H. destruct (wait_safe L fuel _ c pid st I1) as [?|[(E & Hk & Hf)|?]]; try done; [by left|right; left|by right; right].
    split; [done|]. split; [done|]. exists pid. split; [|exact Hf]. exists x, (fst (kt_ctx x)), st. by rewrite <- Ex, <- surjective_pairing.
Qed.

(** A thread that comes back in [do_waitpid] to its dead child. *)
Lemma resume_reaps L fuel s t q par x cpid y pid ptr : pinv L s -> switched (kst s) = true -> curthr (kst s) = t ->
  threads (kst s) !! t = Some x -> snd (kt_ctx x) = CWaitpid pid ptr -> kt_proc x = q ->
  procs s !! cpid = Some y -> p_pproc y = q -> p_pid y <> PID_IDLE -> p_state y = PROC_DEAD -> procs s !! q = Some par ->
  pid = p_pid y \/ pid = -1 /\ head (list_items (p_children par)) = Some cpid ->
  exists s', proc_resume fuel s = (if obj_keeps then Ok ((Returned (p_pid y), if ptr =? 0 then None else Some (p_status y)), s') else Err FUndef) /\
    pinv L s' /\ procs s' !! cpid = None.
Proof.
  intros I Hsw <- Hx Hcx Hp Hy Hyq Hid Hd Hpar Hpid. pose proof (pi_tree _ _ I) as T.
  assert (curproc (kst s) = q) as Hq by (destruct (pi_cur _ _ I) as (z & ? & Hz & Hzp & _); congruence).
  destruct (resumed_pinv L s x I Hsw Hx) as [I2 Hres]; [by rewrite Hcx|]. set (s1 := upd_kst _ s) in *.
  specialize (Hres fuel). rewrite Hcx in Hres. rewrite Hres.
  assert (cpid ∈ list_items (p_children par)) as Hin.
  { destruct (t_parent _ _ T _ y Hy) as (par0 & Hpar0 & _ & Hm); [by rewrite (t_idle _ _ T _ y Hy)|]. congruence. }
  assert (matches pid y = true) as Hm1.
  { unfold matches. destruct Hpid as [->|[-> _]]; [by rewrite Z.eqb_refl|by rewrite orb_true_r]. }
  destruct (waitpid_run L fuel s1 par pid ptr I2) as [[_ H]|(l1 & p & l2 & z & El & Hz & Hm & Hn & H)]; [done|by cbn; rewrite Hq| |].
  { rewrite (H cpid y) in Hm1; done. }
  assert (p = cpid) as ->.
  { destruct Hpid as [->|[-> Hh]].
    - apply (t_pid _ _ T _ _ z y); try done. unfold matches in Hm. apply orb_true_iff in Hm as [Hm|Hm]; [by apply Z.eqb_eq|].
      pose proof (t_range _ _ T _ y Hy). apply Z.eqb_eq in Hm. lia.
    - destruct l1 as [|q1 l1]; [rewrite El in Hh; by injection Hh|]. rewrite El in Hh. injection Hh as ->.
      rewrite (Hn cpid y) in Hm1; [done|by left|done]. }
  change (procs s !! cpid = Some z) in Hz. rewrite Hy in Hz. injection Hz as <-. rewrite bool_decide_eq_true_2 in H by done.
  destruct H as (t' & r & Ew & I3). exists (reaped s1 par cpid t' r). split; [done|]. split; [done|]. apply lookup_delete_eq.
Qed.

(** C14: a parent that waits in [do_waitpid] for the exiting child gets its
    status.  [do_exit] leaves the child dead with its status and the parent's
    thread runnable or, with no other thread runnable and no other waiting,
    running.  Whenever that thread runs again, with the child as [do_exit]
    left it, its [do_waitpid] returns the child's number and status, and the
    child is gone; a parent that waits for any child (-1) has to find it at
    the head of its children, since only the first is looked at.  As the
    process is read after it is freed, the return is undefined where freed
    memory cannot be read. *)
Theorem exit_wakes_parent L fuel s c status t x i pid ptr : pinv L s -> switched (kst s) = false ->
  procs s !! curproc (kst s) = Some c -> p_pid c <> PID_IDLE -> proc_initproc s <> 0 ->
  list_items (p_children c) = [] \/ adopts (procs s) (curproc (kst s)) (proc_initproc s) ->
  t ∈ items (kst s) (ProcQ (p_pproc c)) -> threads (kst s) !! t = Some x -> kt_ctx x = (i, CWaitpid pid ptr) ->
  exists s1 x1 y, do_exit (S fuel) status s = Ok (Blocked, s1) /\ pinv L s1 /\
    threads (kst s1) !! t = Some x1 /\ kt_ctx x1 = (i, CWaitpid pid ptr) /\
    (curthr (kst s1) = t \/ t ∈ items (kst s1) RunQ) /\
    (items (kst s) RunQ = [] -> items (kst s) (ProcQ (p_pproc c)) = [t] -> curthr (kst s1) = t) /\
    procs s1 !! curproc (kst s) = Some y /\ p_pid y = p_pid c /\ p_state y = PROC_DEAD /\ p_status y = s32 status /\
    forall L' fuel' s2 x2 par, pinv L' s2 -> switched (kst s2) = true -> curthr (kst s2) = t ->
      threads (kst s2) !! t = Some x2 -> kt_ctx x2 = kt_ctx x1 -> kt_proc x2 = kt_proc x1 ->
      procs s2 !! curproc (kst s) = Some y -> procs s2 !! kt_proc x2 = Some par ->
      pid = p_pid c \/ pid = -1 /\ head (list_items (p_children par)) = Some (curproc (kst s)) ->
      exists s3, proc_resume fuel' s2 =
          (if obj_keeps then Ok ((Returned (p_pid c), if ptr =? 0 then None else Some (s32 status)), s3) else Err FUndef) /\
        pinv L' s3 /\ procs s3 !! curproc (kst s) = None.
Proof.
  intros I Hsw Hc Hpid Hini Had Hq Hx Hcx. pose proof (pi_tree _ _ I) as T.
  destruct (kinv_member _ _ (ProcQ (p_pproc c)) t (pi_k _ _ I)) as (x0 & Hx0 & Hw & _); [done|]. rewrite Hx in Hx0. injection Hx0 as <-.
  destruct (l_thr _ _ (pi_link _ _ I) _ _ Hx) as (par & Hpar & Ho). pose proof (o_wait _ _ _ Ho _ Hw) as Hpx.
  assert (t <> curthr (kst s)) as Htc.
  { intros ->. destruct (k_cur _ _ (pi_k _ _ I)) as (z & Hz & Hzw & _). rewrite Hx in Hz. injection Hz as <-. rewrite Hzw in Hw by done. done. }
  destruct (exit_run L (S fuel) s c status I Hsw Hc Hpid Hini Had) as [[E [?|[H _]%app_eq_nil]]|(s1 & k3 & E & I1 & [X1 X2 X3] & F & HR & HX & HT)].
  { done. } { rewrite H in Hq. by apply elem_of_nil in Hq. }
  destruct (HX t x Htc Hx) as (x1 & Hx1 & Hc1 & Hp1). destruct X2 as (y & Hy & Hst).
  destruct (exited_lookup _ _ _ _ _ _ _ X1 Hc) as (y' & Hy' & R). rewrite Hy in Hy'. injection Hy' as <-.
  pose proof (er_pid _ _ _ _ _ _ R) as Eid. pose proof (er_state _ _ _ _ _ _ R) as Ed. rewrite decide_True in Ed by done.
  assert (p_pproc y = kt_proc x) as Epp.
  { rewrite (er_pproc _ _ _ _ _ _ R), Hpx. rewrite decide_False; [done|]. intros Hin.
    destruct (pi_cur _ _ I) as (xc & c' & _ & _ & Hc' & Hrun & _). rewrite Hc in Hc'. injection Hc' as <-.
    destruct (t_children _ _ T _ _ Hc Hrun) as [_ Hm]. destruct (Hm _ Hin) as (z & Hz & Ez). rewrite Hc in Hz. injection Hz as <-.
    destruct (t_rank _ _ T) as [rk Hrk]. specialize (Hrk _ c Hc). rewrite Ez in Hrk. rewrite <- Ez, (t_idle _ _ T _ c Hc) in Hrk. specialize (Hrk Hpid). lia. }
  exists s1, x1, y. split; [done|]. split; [done|]. split; [done|]. split; [by rewrite Hc1|]. split; [|split; [|do 4 (split; [done|])]].
  - destruct (items (kst s) (ProcQ (p_pproc c)) ++ items (kst s) RunQ) as [|u l _] eqn:El using rev_ind.
    { apply app_eq_nil in El as [H _]. rewrite H in Hq. by apply elem_of_nil in Hq. }
    destruct (HT fuel l u eq_refl eq_refl) as [-> ->].
    assert (t ∈ l ++ [u]) as Hin by (rewrite <- El; apply elem_of_app; by left). apply elem_of_app in Hin as [?|?%list_elem_of_singleton]; auto.
  - intros Hr Hq1. apply (HT fuel []); [by rewrite Hr, Hq1|done].
  - intros L' fuel' s2 x2 par2 J Hsw2 Hct Hx2 Ecx Epx Hy2 Hpar2 Hor.
    destruct (resume_reaps L' fuel' s2 t (kt_proc x2) par2 x2 (curproc (kst s)) y pid ptr) as (s3 & E3 & J3 & D3); try done; try congruence.
    + by rewrite Ecx, Hc1, Hcx.
    + exists s3. by rewrite E3, Eid, Hst.
Qed.

(** C17: [proc_create], while a process number and memory are left: the new
    process is a running child of the current one with the first free number,
    no threads and no files, it holds the root directory, an address space and
    a page directory of its own, and the invariant is kept. *)
Theorem proc_create_correct L s name c : pinv L s -> objs_plenty -> procs s !! curproc (kst s) = Some c ->
  (exists i, 0 <= i < PROC_MAX_COUNT /\ forall q y, procs s !! q = Some y -> p_pid y <> i) ->
  (p_pid c = PID_IDLE \/ exists q y, procs s !! q = Some y /\ p_pid y = PID_INIT) ->
  exists p pid d m r, proc_create name s = Ok (p, created s p pid d m name c r) /\ pinv L (created s p pid d m name c r) /\
    procs s !! p = None /\ 0 <= pid < PROC_MAX_COUNT /\ (forall q y, procs s !! q = Some y -> p_pid y <> pid).
Proof.
  intros I PL Hc Hf Hi. destruct (create_ok L s name c I PL Hc Hf Hi) as (p & pid & d & m & r & H1 & H2 & H3 & H4 & H5 & _).
  by exists p, pid, d, m, r.
Qed.

End Ops.
