(* ===== verification/ProcEx.v ===== *)
(** * Processes: instances and examples

    A ledger of what is held as an instance of [ProcRes], a state with three
    processes, and the theorems of [ProcThm] applied to it. *)
From stdpp Require Import base gmap list fin_maps strings.
From Stdlib Require Import ZArith Lia Ascii.
From S2P Require Import Prelude KEnv Sched Proc ProcInv ProcThm.
Open Scope Z_scope.
Open Scope c_scope.

(** ** A ledger *)
Fixpoint drop_one (h : hold) (l : list hold) : list hold :=
  match l with
  | [] => []
  | x :: r => if decide (x = h) then r else x :: drop_one h r
  end.
Lemma drop_one_perm h l : h ∈ l -> l ≡ₚ h :: drop_one h l.
Proof.
  induction l as [|x l IH]; cbn; [by intros []%elem_of_nil|]. intros Hin. case_decide as E; [by subst|].
  apply elem_of_cons in Hin as [->|Hin]; [done|]. rewrite (IH Hin) at 1. constructor.
Qed.
Lemma drop_one_rest h l R : l ≡ₚ h :: R -> h ∈ l /\ drop_one h l ≡ₚ R.
Proof.
  intros H. assert (h ∈ l) as Hin by (rewrite H; by left). split; [done|].
  apply (Permutation_cons_inv (a := h)). by rewrite <- drop_one_perm.
Qed.
Definition take_hold (h : hold) : M (list hold) unit := fun s => if decide (h ∈ s) then Ok (tt, h :: s) else Err FUndef.
Definition give_hold (h : hold) : M (list hold) unit := fun s => if decide (h ∈ s) then Ok (tt, drop_one h s) else Err FUndef.
Definition new_hold (h : Z -> hold) : M (list hold) Z := fun s => let z := 100 + Z.of_nat (length s) in Ok (z, h z :: s).

Lemma give_hold_ok h s R : s ≡ₚ h :: R -> exists s', give_hold h s = Ok (tt, s') /\ s' ≡ₚ R.
Proof. intros H. destruct (drop_one_rest h s R H) as [Hin Hr]. unfold give_hold. rewrite decide_True by done. eauto. Qed.
Lemma take_hold_ok h s R : s ≡ₚ R -> h ∈ R -> exists s', take_hold h s = Ok (tt, s') /\ s' ≡ₚ h :: R.
Proof. intros H Hin. unfold take_hold. rewrite decide_True by (by rewrite H). eexists. split; [done|]. by rewrite H. Qed.
Lemma new_hold_ok h s R : s ≡ₚ R -> exists z s', new_hold h s = Ok (z, s') /\ s' ≡ₚ (if z =? 0 then R else h z :: R).
Proof.
  intros H. unfold new_hold. eexists _, _. split; [done|]. rewrite (proj2 (Z.eqb_neq _ _)) by lia. by rewrite H.
Qed.

#[refine] Definition ledger : ProcRes := {|
  rst := list hold;
  vref v := take_hold (HVnode v); vput v := give_hold (HVnode v);
  fref f := take_hold (HFile f); fput f := give_hold (HFile f);
  vmmap_create := new_hold HMap; set_vmm_proc m p := mret_ tt; vmmap_destroy m := give_hold (HMap m);
  pt_create_pagedir := new_hold HPagedir; pt_destroy_pagedir d := give_hold (HPagedir d);
  page_alloc_n n := new_hold HStack; page_free_n k n := give_hold (HStack k);
  obj_keeps := true;
  holds s R := s ≡ₚ R;
|}.
Proof.
  - intros s R R' H1 H2. by rewrite H2.
  - intros s R v. apply take_hold_ok.
  - intros s R v. apply give_hold_ok.
  - intros s R f. apply take_hold_ok.
  - intros s R f. apply give_hold_ok.
  - intros s R m s' H. destruct (new_hold_ok HMap s R H) as (z & s1 & E & H1). intros E'. rewrite E in E'. injection E' as <- <-.
    assert (z <> 0) as Hz by (unfold new_hold in E; injection E as <- _; lia). split; [done|]. by rewrite (proj2 (Z.eqb_neq _ _) Hz) in H1.
  - intros s R m p H. by exists s.
  - intros s R m. apply give_hold_ok.
  - intros s R. apply new_hold_ok.
  - intros s R d. apply give_hold_ok.
  - intros s R n. apply new_hold_ok.
  - intros s R k n. apply give_hold_ok.
Defined.

#[refine] Definition weenix_consts : ProcConsts := {|
  PROC_MAX_COUNT := 65536; PROC_NAME_LEN := 256; NFILES := 32; DEFAULT_STACK_SIZE := 57344; PID_IDLE := 0; PID_INIT := 1;
|}.
Proof. all: (done || lia). Defined.
#[refine] Definition plain_context : Contexts := {|
  context_setup f a b k n pd := mkCtx pd f (k + n) k n; start_ipl := 0;
|}.
Proof. done. Defined.
Definition emptied : @StaleList seq_klist := {| list_stale _ := @list_empty_head seq_klist |}.

Module ProcExamples.
#[local] Existing Instance seq_klist.
#[local] Existing Instance first_slab.
#[local] Existing Instance i386_geometry.
#[local] Existing Instance weenix_errno.
#[local] Existing Instance weenix_consts.
#[local] Existing Instance plain_context.
#[local] Existing Instance ledger.
#[local] Existing Instance emptied.
#[local] Instance links : KLink.
Proof. by refine {| link_initialised := true; link_inserted := true; link_removed := false |}. Defined.
#[local] Instance no_intr : KIntr := {| IPL_LOW := 0; IPL_HIGH := 46; intr_wait := fun _ => [] |}.

Definition fthr (st : kt_state_t) (w : option qid) (p k : Z) (c : kcont) : kthread :=
  mkThread st w (bool_decide (w <> None)) false 0 p k (0, c).
(** The idle process waits for any child, init for its child, which runs. *)
Definition fam_ks : ks :=
  mkKs _
    {[11 := fthr KT_SLEEP (Some (ProcQ 1)) 1 65536 (CWaitpid (-1) 0); 12 := fthr KT_SLEEP (Some (ProcQ 2)) 2 131072 (CWaitpid 2 500);
      13 := fthr KT_RUN None 3 196608 CStart]}
    {[RunQ := mkQueue seq_klist [] 0; ProcQ 1 := mkQueue seq_klist [11] 1; ProcQ 2 := mkQueue seq_klist [12] 1; ProcQ 3 := mkQueue seq_klist [] 0]}
    ∅ 13 3 0 false 0.
Definition fproc (pid t : Z) (ch : list Z) (par d m : Z) (files : list Z) : proc :=
  @mkProc seq_klist pid [] [t] ch 0 PROC_RUNNING par d 7 files m 0 0.
Definition fam0 : ps :=
  mkPs _ _ {[1 := fproc 0 11 [2] 0 21 31 (replicate 32 0); 2 := fproc 1 12 [3] 1 22 32 (replicate 32 0);
             3 := fproc 2 13 [] 2 23 33 (9 :: replicate 31 0)]} ([1; 2; 3] : list Z) 3 2 7
    {[11 := mkKext 0 (mkCtx 21 0 0 0 0); 12 := mkKext 0 (mkCtx 22 0 0 0 0); 13 := mkKext 0 (mkCtx 23 0 0 0 0)]} fam_ks ([] : list hold).
Definition fam : ps := upd_res (HVnode 7 :: all_holds fam0 : list hold) fam0.

Ltac cases H :=
  cbn in H; repeat (rewrite lookup_insert_Some in H; destruct H as [[<- <-]|[_ H]]); try (apply lookup_singleton_Some in H as [<- <-]).

Lemma fam_qok : qok fam_ks.
Proof.
  split.
  - intros q. unfold items. destruct (queues fam_ks !! q) as [y|] eqn:Hy; [|constructor]. cases Hy; cbn; repeat constructor; set_solver.
  - intros q y Hy. unfold items. rewrite Hy. by cases Hy.
  - intros q t. split.
    + unfold items. destruct (queues fam_ks !! q) as [y|] eqn:Hy; [|by intros ?%not_elem_of_nil].
      cases Hy; cbn; rewrite ?list_elem_of_singleton, ?elem_of_nil; try done; intros ->; by eexists.
    + intros (x & Hx & Hw). cases Hx; cbn in Hw; simplify_eq; vm_compute; set_solver.
  - intros t x q Hx Hw. cases Hx; cbn in Hw; simplify_eq; (split; [by eexists|done]).
Qed.
Lemma fam_kinv : kinv None fam_ks.
Proof.
  split; [apply fam_qok|by eexists|done| | | |].
  - eexists. split; [done|]. split; done.
  - intros t x Hx. cases Hx; first [by left | by (split; [done|left])].
  - intros m h Hm. by cases Hm.
  - intros n q Hq. by apply elem_of_nil in Hq.
Qed.
Lemma fam_tree : tree (procs fam) (proc_list fam).
Proof.
  split.
  - done.
  - apply (bool_decide_unpack _). by vm_compute.
  - intros p. split.
    + intros Hp. cbn in Hp. rewrite !elem_of_cons, elem_of_nil in Hp. destruct Hp as [->|[->|[->|[]]]]; by eexists.
    + intros [x Hx]. cases Hx; set_solver.
  - intros p q x y Hx Hy. cases Hx; cases Hy; done.
  - intros p x Hx. cases Hx; by vm_compute.
  - intros p x Hx. cases Hx; by vm_compute.
  - by exists 1, (fproc 0 11 [2] 0 21 31 (replicate 32 0)).
  - intros p x Hx. cases Hx; cbn; intros H; [done|..]; (eexists; split; [reflexivity|split; [done|set_solver]]).
  - intros p x Hx _. cases Hx; cbn; (split; [repeat constructor; set_solver|]); intros c Hc; rewrite ?list_elem_of_singleton, ?elem_of_nil in Hc; try done;
      subst c; by eexists.
  - exists (fun p => Z.to_nat p). intros p x Hx. cases Hx; cbn; lia.
  - intros p x Hx. cases Hx; cbn; intros H; try done; by eexists.
  - intros p x Hx. cases Hx; by left.
  - intros p x Hx. cases Hx; done.
Qed.
Lemma fam_pinv : pinv [HVnode 7] fam.
Proof.
  split.
  - apply fam_kinv.
  - apply fam_tree.
  - split.
    + intros t x Hx. cases Hx; (eexists; split; [reflexivity|]); (split; [done|set_solver|done|done|intros q Hq; cbn in Hq; by simplify_eq]).
    + intros p y Hy. right. cases Hy; by eexists _, _.
  - intros p [x Hx]. cases Hx; by eexists.
  - eexists _, _. split; [reflexivity|]. split; [done|]. split; [reflexivity|]. split; [done|by right].
  - intros t [x Hx]. cases Hx; by eexists.
  - by vm_compute.
  - intros p x Hx. cases Hx; done.
  - intros _. by left.
  - by vm_compute.
Qed.
Lemma fam_plenty : plenty.
Proof. split; [split|]; cbn; unfold new_hold; [by eexists|intros r d r' [= <- _]; lia|intros r R _; by eexists _, _|intros r n k r' [= <- _]; lia]. Qed.

Definition child : proc := fproc 2 13 [] 2 23 33 (9 :: replicate 31 0).

(** The state after the child's exit with status 5, and after the next thread,
    that of init, has come back in [do_waitpid]. *)
Definition after_exit : ps := match do_exit 1 5 fam with Ok (_, s) => s | Err _ => fam end.
Lemma after_exit_run : do_exit 1 5 fam = Ok (Blocked, after_exit).
Proof.
  unfold after_exit. destruct (do_exit 1 5 fam) as [[r a]|e] eqn:E.
  - apply (f_equal (fun o => match o with Ok (r, _) => match r with Blocked => true | _ => false end | Err _ => false end)) in E. vm_compute in E. by destruct r.
  - apply (f_equal (fun o => match o with Ok _ => true | Err _ => false end)) in E. vm_compute in E. discriminate E.
Qed.
Lemma after_exit_thread : exists x, threads (kst after_exit) !! 12 = Some x /\ fst (kt_ctx x) = 0 /\ snd (kt_ctx x) = CWaitpid 2 500 /\ kt_proc x = 2.
Proof. vm_compute. eexists. split; [reflexivity|]. split_and!; reflexivity. Qed.
Lemma after_exit_cur : curthr (kst after_exit) = 12 /\ curproc (kst after_exit) = 2 /\ switched (kst after_exit) = true.
Proof. vm_compute. split_and!; reflexivity. Qed.
Definition back : ps := upd_kst (set_cur 12 2 false (set_ipl 0 (kst after_exit))) after_exit.
Definition init_proc : proc := default child (procs after_exit !! 2).
Lemma after_exit_init : procs after_exit !! 2 = Some init_proc.
Proof. unfold init_proc. destruct (procs after_exit !! 2) eqn:E; [done|]. vm_compute in E. discriminate E. Qed.

(** The child exits with status 5: init is switched to and gets number 2 and
    status 5. *)
Lemma exit_wakes_parent_witness :
  exists s1 s3, do_exit 1 5 fam = Ok (Blocked, s1) /\ curthr (kst s1) = 12 /\
    proc_resume 0 s1 = Ok ((Returned 2, Some 5), s3) /\ pinv [HVnode 7] s3 /\ procs s3 !! 3 = None.
Proof.
  destruct (exit_wakes_parent [HVnode 7] 0 fam child 5 12 (fthr KT_SLEEP (Some (ProcQ 2)) 2 131072 (CWaitpid 2 500)) 0 2 500) as
    (s1 & x1 & y & E & I1 & Hx1 & Hc1 & _ & Hcur & Hy & _ & _ & _ & H);
    [apply fam_pinv|reflexivity|reflexivity|done|done|by left|by left|reflexivity|reflexivity|].
  destruct after_exit_thread as (z & Hz & _ & _ & Hp). destruct after_exit_cur as (E1 & _ & E2).
  pose proof after_exit_run as Er. pose proof after_exit_init as Ei. set (a := after_exit) in *. set (ini := init_proc) in *. clearbody ini a.
  rewrite Er in E. injection E as <-. rewrite Hx1 in Hz. injection Hz as <-.
  destruct (H [HVnode 7] 0%nat a x1 ini) as (s3 & E3 & I3 & D3);
    [exact I1|exact E2|exact E1|exact Hx1|reflexivity|reflexivity|exact Hy|by rewrite Hp|by left|].
  exists a, s3. split; [exact Er|]. split; [exact E1|]. split; [exact E3|]. split; [exact I3|exact D3].
Defined.
Lemma proc_step_safe_witness : pop_ok [HVnode 7] 1 (PExit 5) fam.
Proof.
  apply (proc_step_safe [HVnode 7] 1 (PExit 5) fam); [apply fam_pinv|apply fam_plenty|].
  split; [reflexivity|]. exists child. split; [reflexivity|]. split; [done|]. split; [done|by left].
Defined.
Lemma do_exit_correct_witness :
  (do_exit 1 5 fam = Err FFuel /\ (1%nat = O \/ items (kst fam) (ProcQ 2) ++ items (kst fam) RunQ = [])) \/
  exists s', do_exit 1 5 fam = Ok (Blocked, s') /\ pinv [HVnode 7] s' /\ exited (procs fam) (procs s') 3 2 [] /\
    (exists c', procs s' !! 3 = Some c' /\ p_status c' = s32 5) /\ switched (kst s') = true /\ curproc (kst s') <> 3.
Proof. apply (do_exit_correct [HVnode 7] 1 fam child 5); try done; [apply fam_pinv|by left]. Defined.
(** init, back in [do_waitpid], disposes of its dead child. *)
Lemma back_pinv : pinv [HVnode 7] back.
Proof.
  destruct after_exit_thread as (x & Hx & H0 & Hc & _). destruct after_exit_cur as (E1 & E2 & E3).
  pose proof after_exit_run as Er. unfold back. set (a := after_exit) in *. clearbody a.
  destruct (exit_run [HVnode 7] 1 fam child 5) as [[E _]|(s1 & k3 & E & I1 & _)];
    [apply fam_pinv|reflexivity|reflexivity|done|done|by left|rewrite Er in E; discriminate E|].
  rewrite Er in E. injection E as <-.
  destruct (resumed_pinv [HVnode 7] a x I1 E3) as [I2 _]; [by rewrite E1|by rewrite Hc|].
  rewrite H0, E1, E2 in I2. exact I2.
Qed.
Lemma proc_create_correct_witness :
  exists p pid d m r, proc_create [] fam = Ok (p, created fam p pid d m [] child r) /\ pinv [HVnode 7] (created fam p pid d m [] child r) /\
    procs fam !! p = None /\ 0 <= pid < PROC_MAX_COUNT /\ (forall q y, procs fam !! q = Some y -> p_pid y <> pid).
Proof.
  apply (proc_create_correct [HVnode 7] fam [] child); [apply fam_pinv|apply (pl_objs fam_plenty)|reflexivity| |].
  - exists 3. split; [done|]. intros q y Hy. by cases Hy.
  - right. exists 2, (fproc 1 12 [3] 1 22 32 (replicate 32 0)). split; reflexivity.
Defined.
Lemma proc_getid_correct_witness :
  (_proc_getid fam = Ok (-1, fam) /\ forall i, 0 <= i < PROC_MAX_COUNT -> exists p x, procs fam !! p = Some x /\ p_pid x = i) \/
  exists j, 0 <= j < PROC_MAX_COUNT /\ let pid := (next_pid fam + j) mod PROC_MAX_COUNT in
    _proc_getid fam = Ok (pid, upd_next ((pid + 1) mod PROC_MAX_COUNT) fam) /\
    (forall p x, procs fam !! p = Some x -> p_pid x <> pid) /\
    forall i, 0 <= i < j -> exists p x, procs fam !! p = Some x /\ p_pid x = (next_pid fam + i) mod PROC_MAX_COUNT.
Proof. apply (proc_getid_correct [HVnode 7] fam). apply fam_pinv. Defined.
End ProcExamples.
