(* ===== verification/Boot.v ===== *)
(** * main/kmain.c and the start of the pageout daemon: starting the kernel

    [bootstrap] makes the idle process out of nothing; [idleproc_run] makes the
    init process, calls the initialisation functions of the kernel ([sched_init]
    and [pageoutd_init] among them), sets up directories and devices, and waits.
    The test commands of the kernel shell run a test in a process of its own. *)
From stdpp Require Import base gmap list fin_maps strings.
From Stdlib Require Import ZArith Lia Ascii.
From S2P Require Import Prelude KEnv Sched Proc.
Open Scope Z_scope.
Open Scope c_scope.

(** ** Parameters *)
Section Kmain.
Context `{KL : KList} `{SL : Slab} `{KG : KGeometry} `{LK : KLink} `{IN : KIntr} `{ER : KErrno}.
Context `{PC : ProcConsts} `{CX : Contexts} `{PR : ProcRes} `{ST : !StaleList}.

(** A function that was registered with [init_func]. *)
Inductive init_fn := InitSched | InitPageout | InitOther (c : M ps unit).

(** Code and constants outside the repository.  [init_order] is the order in
    which [init_call_all] calls the registered functions; [idleproc_fn],
    [initproc_fn] and [pageoutd_fn] are the addresses of the functions that the
    first threads run, the last four fields those of the test threads. *)
Class BootCalls := {
  pt_template_init : M rst unit;
  do_mkdir : list ascii -> M rst Z;
  do_mknod : list ascii -> Z -> Z -> M rst Z;
  intr_enable : M rst unit;
  init_order : list init_fn;
  S_IFCHR : Z; MEM_NULL_DEVID : Z; MEM_ZERO_DEVID : Z; MKDEVID : Z -> Z -> Z;
  idleproc_fn : Z; initproc_fn : Z; pageoutd_fn : Z; pageoutd_waitq : Z;
  sunghan_test : Z; sunghan_deadlock_test : Z; faber_thread_test : Z; vfstest_main : Z;
}.
Context `{BC : !BootCalls}.

(** ** The first process *)
(** The state that [kmain] leaves: nothing runs, no queue is initialised. *)
Definition kernel_start (ipl : Z) (r : rst) : ps :=
  mkPs _ _ ∅ list_empty_head 0 0 0 ∅ (mkKs _ ∅ ∅ ∅ 0 0 ipl false 0) r.

(** The processor gets the interrupt level of the thread and starts in the
    thread's function. *)
Definition context_make_active (t : Z) : M ps unit :=
  let! x := sched_op (load_thr t) in
  mput (fun s => upd_kst (set_ipl (fst (kt_ctx x)) (kst s)) s).

(** Up to the switch to the thread of the idle process. *)
Definition bootstrap : M ps unit :=
  res_op pt_template_init ;;;
  let! p := proc_create (String.list_ascii_of_string "idle proc") in
  let! t := kthread_create p idleproc_fn 0 0 in
  mput (fun s => upd_kst (set_cur t p false (kst s)) s) ;;;
  let! cur := cur_proc in
  KASSERT (negb (cur =? 0)) ;;;
  let! x := load_proc cur in
  KASSERT (PID_IDLE =? p_pid x) ;;;
  let! ct := mget (fun s => curthr (kst s)) in
  KASSERT (negb (ct =? 0)) ;;;
  context_make_active t.

(** ** The init process and the initialisation functions *)
Definition initproc_create : M ps Z :=
  let! p := proc_create (String.list_ascii_of_string "init proc") in
  let! t := kthread_create p initproc_fn 0 0 in
  KASSERT (negb (p =? 0)) ;;;
  let! x := load_proc p in
  KASSERT (PID_INIT =? p_pid x) ;;;
  KASSERT (negb (t =? 0)) ;;;
  mret_ t.

(** [sched_init] in proc/sched.c. *)
Definition sched_init : M ps unit := sched_op (sched_queue_init RunQ).

(** [pageoutd_init]: the result is what is stored in [pageoutd] and
    [pageoutd_thr]. *)
Definition pageoutd_init : M ps (Z * Z) :=
  sched_op (sched_queue_init (OtherQ pageoutd_waitq)) ;;;
  let! cur := cur_proc in
  KASSERT (negb (cur =? 0)) ;;;
  let! c := load_proc cur in
  KASSERT (PID_IDLE =? p_pid c) ;;;
  let! p := proc_create (String.list_ascii_of_string "pageoutd") in
  KASSERT (negb (p =? 0)) ;;;
  let! t := kthread_create p pageoutd_fn 0 0 in
  KASSERT (negb (t =? 0)) ;;;
  sched_op (sched_make_runnable t) ;;;
  mret_ (p, t).

Definition run_init (f : init_fn) : M ps unit :=
  match f with
  | InitSched => sched_init
  | InitPageout => let! _ := pageoutd_init in mret_ tt
  | InitOther c => c
  end.
Fixpoint run_inits (l : list init_fn) : M ps unit :=
  match l with
  | [] => mret_ tt
  | f :: r => run_init f ;;; run_inits r
  end.
(** Of [init_call_all], which is outside the repository, the model takes that it
    calls the registered functions in the order [init_order]. *)
Definition init_call_all : M ps unit := run_inits init_order.

(** ** The idle process *)
(** [p->p_cwd = vfs_root_vn; vref(p->p_cwd);] *)
Definition set_root_cwd (p : Z) : M ps unit :=
  let! root := mget vfs_root_vn in
  store_proc p (with_cwd root) ;;;
  res_op (vref root).

Definition make_devices : M ps unit :=
  let! _ := res_op (do_mkdir (String.list_ascii_of_string "/dev")) in
  let! _ := res_op (do_mknod (String.list_ascii_of_string "/dev/null") S_IFCHR MEM_NULL_DEVID) in
  let! _ := res_op (do_mknod (String.list_ascii_of_string "/dev/zero") S_IFCHR MEM_ZERO_DEVID) in
  let! _ := res_op (do_mknod (String.list_ascii_of_string "/dev/tty0") S_IFCHR (MKDEVID 2 0)) in
  let! _ := res_op (do_mknod (String.list_ascii_of_string "/dev/tty1") S_IFCHR (MKDEVID 2 1)) in
  mret_ tt.

(** Up to the wait for the init process; [status] is the address of the local
    variable. *)
Definition idleproc_run (fuel : nat) (status : Z) : M ps (kres * option Z) :=
  let! initthr := initproc_create in
  init_call_all ;;;
  let! cur := cur_proc in
  set_root_cwd cur ;;;
  let! x := sched_op (load_thr initthr) in
  set_root_cwd (kt_proc x) ;;;
  make_devices ;;;
  res_op intr_enable ;;;
  sched_op (sched_make_runnable initthr) ;;;
  do_waitpid fuel (-1) status.

(** ** The test commands of the kernel shell *)
(** The process of a test; the loop waits while there are children, and starts
    over with [wait_children] when a wait that slept has returned. *)
Fixpoint wait_children (fuel n : nat) : M ps kres :=
  match n with
  | O => mfail FFuel
  | S n =>
      let! cur := cur_proc in
      let! c := load_proc cur in
      if bool_decide (list_items (p_children c) = []) then mret_ (Returned 0)
      else
        let! r := do_waitpid fuel (-1) 0 in
        match fst r with Blocked => mret_ Blocked | _ => wait_children fuel n end
  end.
Definition run_test (name : list ascii) (func arg1 : Z) (fuel : nat) (kshell : Z) : M ps kres :=
  KASSERT (negb (kshell =? 0)) ;;;
  let! p := proc_create name in
  let! t := kthread_create p func arg1 0 in
  sched_op (sched_make_runnable t) ;;;
  let! l := mget (fun s => list_items (proc_list s)) in
  wait_children fuel (S (length l)).
Definition my_sunghan_test := run_test (String.list_ascii_of_string "sunghantest") sunghan_test 0.
Definition my_sunghan_deadlock_test := run_test (String.list_ascii_of_string "sunghandeadlocktest") sunghan_deadlock_test 0.
Definition my_faber_thread_test := run_test (String.list_ascii_of_string "faberthreadtest") faber_thread_test 0.
Definition my_vfs_test := run_test (String.list_ascii_of_string "vfstest") vfstest_main 1.
End Kmain.
