(* ===== verification/BootThm.v ===== *)
(** * Starting the kernel: the invariant of processes holds

    [kernel_boots] shows that the invariant of processes [pinv], which [ProcThm]
    proves that every call keeps, holds when the idle process of [Boot] first
    waits; the last part is a small kernel on which it is run.

    Before [sched_init] there is no run queue, and the queues of the drivers
    appear when the drivers are initialised, so that [pinv] does not hold during
    the start.  It holds of the [overlay] of the state, with empty queues added
    where there are none yet, and the creation of processes does not look at
    queues ([commutes]). *)
From stdpp Require Import base gmap list fin_maps strings.
From Stdlib Require Import ZArith Lia Ascii.
From S2P Require Import Prelude KEnv Sched Proc ProcInv ProcThm ProcEx Boot.
Open Scope Z_scope.
Open Scope c_scope.

(** ** What the start relies on *)
Section Start.
Context `{KL : KList} `{SL : Slab} `{KG : KGeometry} `{LK : KLink} `{IN : KIntr} `{ER : KErrno}.
Context `{PC : ProcConsts} `{CX : Contexts} `{PR : ProcRes} `{ST : !StaleList} `{BC : !BootCalls}.

Definition empty_queue : ktqueue := mkQueue _ list_empty_head 0.

(** What the initialisation of a driver or of a file system changes: it
    initialises queues of its own. *)
Record initialises (s s' : ps) : Prop := {
  in_procs : procs s' = procs s;
  in_list : proc_list s' = proc_list s;
  in_next : next_pid s' = next_pid s;
  in_init : proc_initproc s' = proc_initproc s;
  in_exts : exts s' = exts s;
  in_threads : threads (kst s') = threads (kst s);
  in_mutexes : mutexes (kst s') = mutexes (kst s);
  in_curthr : curthr (kst s') = curthr (kst s);
  in_curproc : curproc (kst s') = curproc (kst s);
  in_switched : switched (kst s') = switched (kst s);
  in_queues q : queues (kst s') !! q = queues (kst s) !! q \/
    (exists a, q = OtherQ a) /\ queues (kst s) !! q = None /\ queues (kst s') !! q = Some empty_queue;
}.
Definition rooted (L : list hold) (s : ps) : Prop := vfs_root_vn s <> 0 -> HVnode (vfs_root_vn s) ∈ L.
Definition driver (c : M ps unit) : Prop := forall s L R, holds (res s) (L ++ R) -> rooted L s ->
  exists s' L', c s = Ok (tt, s') /\ initialises s s' /\ holds (res s') (L' ++ R) /\ rooted L' s'.
(** A call that keeps what is held. *)
Definition neutral {A} (c : M rst A) : Prop := forall r R, holds r R -> exists a r', c r = Ok (a, r') /\ holds r' R.

(** [init_call_all] calls [sched_init] before [pageoutd_init] ([init_depends]);
    afterwards the root of the file system is there and the drivers have
    initialised the queues that their interrupt handlers wake. *)
Class BootLaws := {
  pt_template_init_ok : neutral pt_template_init;
  intr_enable_ok : neutral intr_enable;
  do_mkdir_ok path : neutral (do_mkdir path);
  do_mknod_ok path mode dev : neutral (do_mknod path mode dev);
  pids_enough : 2 < PROC_MAX_COUNT;
  init_first : list (M ps unit); init_middle : list (M ps unit); init_last : list (M ps unit);
  init_order_is : init_order = map InitOther init_first ++ InitSched :: map InitOther init_middle ++ InitPageout :: map InitOther init_last;
  init_drivers : Forall driver (init_first ++ init_middle ++ init_last);
  driver_queues : list Z;
  intr_drivers n q : q ∈ intr_wait n -> exists a, q = OtherQ a /\ a ∈ driver_queues;
  init_done s s' : init_call_all s = Ok (tt, s') ->
    vfs_root_vn s' <> 0 /\ forall a, a ∈ driver_queues -> is_Some (queues (kst s') !! OtherQ a);
}.
Context `{BL : !BootLaws}.

(** ** Queues that are not there yet *)
(** The queues of the drivers, and with the run queue. *)
Definition late_queues : gmap qid ktqueue := list_to_map (map (fun a => (OtherQ a, empty_queue)) driver_queues).
Definition all_queues : gmap qid ktqueue := <[RunQ := empty_queue]> late_queues.
Definition empties (A : gmap qid ktqueue) : Prop := forall q y, A !! q = Some y -> y = empty_queue.
Lemma late_queues_some q y : late_queues !! q = Some y -> y = empty_queue /\ exists a, q = OtherQ a /\ a ∈ driver_queues.
Proof. unfold late_queues. intros H. apply elem_of_list_to_map_2, list_elem_of_fmap in H as (a & [= -> ->] & ?). eauto. Qed.
Lemma late_empties : empties late_queues.
Proof. by intros q y [-> _]%late_queues_some. Qed.
Lemma all_empties : empties all_queues.
Proof. intros q y. unfold all_queues. rewrite lookup_insert_Some. intros [[<- <-]|[_ H]]; [done|by eapply late_empties]. Qed.
Lemma late_queues_driver a : a ∈ driver_queues -> is_Some (late_queues !! OtherQ a).
Proof.
  intros Ha. unfold late_queues. destruct (_ !! _) eqn:E; [eauto|].
  apply not_elem_of_list_to_map in E. destruct E. rewrite <- list_fmap_compose. apply list_elem_of_fmap. by exists a.
Qed.

Definition overlay (A : gmap qid ktqueue) (s : ps) : ps := upd_kst (upd_queues (fun Q => Q ∪ A) (kst s)) s.
Section Overlay.
Context (A : gmap qid ktqueue).
(** [c] does the same on the overlay. *)
Definition commutes {T} (c : M ps T) : Prop := forall s,
  c (overlay A s) = match c s with Ok (a, s') => Ok (a, overlay A s') | Err f => Err f end.

Lemma commutes_ret {T} (a : T) : commutes (mret_ a).
Proof. done. Qed.
Lemma commutes_bind {T U} (c : M ps T) (k : T -> M ps U) : commutes c -> (forall a, commutes (k a)) -> commutes (mbind_ c k).
Proof. intros H1 H2 s. unfold mbind_. rewrite H1. destruct (c s) as [[a s1]|]; [apply H2|done]. Qed.
Lemma commutes_get {T} (g : ps -> T) : (forall s, g (overlay A s) = g s) -> commutes (mget g).
Proof. intros H s. unfold mget. by rewrite H. Qed.
Lemma commutes_put g : (forall s, g (overlay A s) = overlay A (g s)) -> commutes (mput g).
Proof. intros H s. unfold mput. by rewrite H. Qed.
Lemma commutes_the {T} (g : ps -> option T) : (forall s, g (overlay A s) = g s) -> commutes (fun s => mthe (g s) s).
Proof. intros H s. rewrite H. by destruct (g s). Qed.
Lemma commutes_assert b : commutes (KASSERT b).
Proof. by destruct b. Qed.
Lemma commutes_res {T} (c : M rst T) : commutes (res_op c).
Proof. intros s. unfold res_op. cbn. by destruct (c (res s)) as [[]|]. Qed.
Lemma commutes_load p : commutes (load_proc p).
Proof. by apply (commutes_the (fun s => procs s !! p)). Qed.
Lemma commutes_store p f : commutes (store_proc p f).
Proof. apply commutes_bind; [apply commutes_load|intros; by apply commutes_put]. Qed.
Lemma commutes_queue_init q : commutes (sched_op (sched_queue_init q)).
Proof.
  intros s. change (sched_op (sched_queue_init q) ?s) with (Ok (tt, upd_kst (upd_queues (<[q := empty_queue]>) (kst s)) s)).
  unfold overlay, upd_kst, upd_queues. cbn. by rewrite insert_union_l.
Qed.
#[local] Hint Resolve commutes_ret commutes_assert commutes_res commutes_load commutes_store commutes_queue_init : commutes.
Ltac commutes := repeat (apply commutes_bind; [|intros ?]); auto with commutes;
  first [apply commutes_get | apply commutes_put | apply commutes_the | idtac]; try done.

Lemma commutes_pid_used l pid : commutes (pid_used l pid).
Proof. induction l; cbn [pid_used]; commutes. case_match; auto with commutes. Qed.
Lemma commutes_getid fuel : forall pid, commutes (getid_loop fuel pid).
Proof.
  induction fuel; intros pid; cbn [getid_loop]; [done|]. commutes; [apply commutes_pid_used|].
  case_match; commutes. case_match; auto with commutes.
Qed.
Lemma commutes_proc_create name : commutes (proc_create name).
Proof.
  unfold proc_create, _proc_getid. commutes; try (apply commutes_getid); try (case_match; commutes).
Qed.
Lemma commutes_kthread_create p func a b : commutes (kthread_create p func a b).
Proof. unfold kthread_create, new_thread, thread_alloc, alloc_stack. commutes. Qed.
(** Going back from the overlay. *)
Lemma commutes_back {T} (c : M ps T) s a S' : commutes c -> c (overlay A s) = Ok (a, S') -> exists s', c s = Ok (a, s') /\ S' = overlay A s'.
Proof. intros H E. rewrite H in E. destruct (c s) as [[b s']|]; [|done]. injection E as <- <-. eauto. Qed.
End Overlay.

(** ** The idle process *)
(** The state after the first [proc_create]. *)
Definition first_proc (p d m : Z) (name : list ascii) : proc :=
  with_pvmmap m (with_cwd 0 (with_pagedir d (new_proc PID_IDLE name 0))).
Definition one_proc (i p d m : Z) (name : list ascii) (r : rst) : ps :=
  mkPs _ _ {[p := first_proc p d m name]} (list_insert_tail p list_empty_head) (1 mod PROC_MAX_COUNT) 0 0 ∅
    (mkKs _ ∅ {[ProcQ p := empty_queue]} ∅ 0 0 i false 0) r.
Lemma getid_first i p r : let s := upd_procs (<[p := zero_proc]>) (kernel_start i r) in
  _proc_getid s = Ok (0, upd_next (1 mod PROC_MAX_COUNT) s).
Proof.
  intros s. unfold _proc_getid. rewrite (mbind_run (mget next_pid) _ s 0 s eq_refl). pose proof proc_max_range.
  destruct (Z.to_nat PROC_MAX_COUNT) as [|n] eqn:E; [lia|]. cbn [getid_loop].
  rewrite (mbind_run (mget _) _ s [] s) by (unfold mget; cbn; by rewrite items_empty).
  by rewrite (mbind_run (pid_used [] 0) _ s 0 s eq_refl).
Qed.
Lemma create_first i r p name d m r1 r3 r4 : slab_pick (∅ : gmap Z proc) = Some p -> pt_create_pagedir r = Ok (d, r1) ->
  vmmap_create r1 = Ok (m, r3) -> set_vmm_proc m p r3 = Ok (tt, r4) ->
  proc_create name (kernel_start i r) = Ok (p, one_proc i p d m name r4).
Proof.
  intros Hp E1 E3 E4. unfold proc_create. set (s := kernel_start i r). destruct pid_idle_init as [E0 EI].
  rewrite (mbind_run (fun s0 => mthe (slab_pick (procs s0)) s0) _ s p s) by (unfold s; cbn; by rewrite Hp).
  set (s1 := upd_procs (<[p := zero_proc]>) s). rewrite (mbind_run (mput _) _ s tt s1 eq_refl), (mbind_run _ _ _ _ _ (getid_first i p r)). fold s s1.
  set (s2 := upd_next _ s1). rewrite (mbind_run (mget _) _ s2 [] s2) by (unfold mget; cbn; by rewrite items_empty).
  rewrite (bool_decide_eq_true_2 _ eq_refl), orb_true_r, (mbind_run _ _ s2 tt s2 eq_refl).
  rewrite (mbind_run cur_proc _ s2 0 s2 eq_refl), EI. change (1 =? 0) with false. cbv iota. rewrite (mbind_run (mret_ tt) _ s2 tt s2 eq_refl).
  assert (procs s2 !! p = Some zero_proc) as H2 by apply lookup_insert_eq.
  rewrite (mbind_run _ _ _ _ _ (store_proc_run _ _ _ _ H2)). set (s3 := upd_procs _ s2).
  rewrite (mbind_run (sched_op (sched_queue_init (ProcQ p))) _ s3 tt (upd_kst (upd_queues (<[ProcQ p := empty_queue]>) (kst s3)) s3) eq_refl).
  set (s4 := upd_kst _ s3). rewrite (mbind_run _ _ _ _ _ (res_op_run _ s4 d r1 E1)).
  assert (procs (upd_res r1 s4) !! p = Some (new_proc 0 name 0)) as H4 by apply lookup_insert_eq.
  rewrite (mbind_run _ _ _ _ _ (store_proc_run _ _ _ _ H4)). set (s5 := upd_procs _ _). change (0 =? 0) with true. cbv iota. cbn [negb].
  rewrite (mbind_run (mret_ tt) _ s5 tt s5 eq_refl). set (s6 := upd_plist (list_insert_tail p) s5).
  rewrite (mbind_run (mput _) _ s5 tt s6 eq_refl), (mbind_run (mget vfs_root_vn) _ s6 0 s6 eq_refl).
  assert (procs s6 !! p = Some (with_pagedir d (new_proc 0 name 0))) as H6 by apply lookup_insert_eq.
  rewrite (mbind_run _ _ _ _ _ (store_proc_run _ _ _ _ H6)). set (s7 := upd_procs _ s6). change (0 =? 0) with true. cbv iota. cbn [negb].
  rewrite (mbind_run (mret_ tt) _ s7 tt s7 eq_refl), (mbind_run _ _ _ _ _ (res_op_run _ s7 m r3 E3)). set (s8 := upd_res r3 s7).
  assert (procs s8 !! p = Some (with_cwd 0 (with_pagedir d (new_proc 0 name 0)))) as H8 by apply lookup_insert_eq.
  rewrite (mbind_run _ _ _ _ _ (store_proc_run _ _ _ _ H8)). set (s9 := upd_procs _ s8).
  rewrite (mbind_run _ _ _ _ _ (res_op_run _ s9 tt r4 E4)). change (0 =? 1) with false. cbv iota. unfold mret_ at 1, mbind_, mret_.
  do 2 f_equal. unfold upd_res, s9, one_proc, first_proc. cbn. rewrite !insert_insert_eq, E0. done.
Qed.

(** The state in which [idleproc_run] starts: thread [t] of process [p] runs. *)
Definition idle_thread (p k : Z) : kthread := mkThread KT_RUN None link_initialised false 0 p k (start_ipl, CStart).
Definition idle_state (p t d m k : Z) (name : list ascii) (e : kext) (r : rst) : ps :=
  mkPs _ _ {[p := with_pthreads (list_insert_tail t) (first_proc p d m name)]} (list_insert_tail p list_empty_head)
    (1 mod PROC_MAX_COUNT) 0 0 {[t := e]}
    (mkKs _ {[t := idle_thread p k]} {[ProcQ p := empty_queue]} ∅ t p start_ipl false 0) r.
Lemma idle_pinv L p t d m k name e r : p <> 0 -> t <> 0 -> d <> 0 -> k <> 0 ->
  holds r (L ++ [HPagedir d; HMap m; HStack k]) -> pinv L (overlay all_queues (idle_state p t d m k name e r)).
Proof.
  intros Hp Ht Hd Hk Hh. destruct pid_idle_init as [E0 EI]. pose proof proc_max_range as HM. set (s := idle_state _ _ _ _ _ _ _ _).
  assert (forall q, items (kst (overlay all_queues s)) q = []) as Hi.
  { intros q. unfold items. cbn. destruct (_ !! q) as [y|] eqn:E; [|done]. cbn.
    apply lookup_union_Some_raw in E as [E|[_ E]]; [apply lookup_singleton_Some in E as [_ <-]|apply all_empties in E as ->]; apply items_empty. }
  assert (list_items (list_insert_tail t list_empty_head) = [t]) as Et by (rewrite items_insert_tail, items_empty; [done|by rewrite items_empty; apply not_elem_of_nil]).
  assert (list_items (list_insert_tail p list_empty_head) = [p]) as Ep by (rewrite items_insert_tail, items_empty; [done|by rewrite items_empty; apply not_elem_of_nil]).
  split; unfold overlay, upd_kst, upd_queues; cbn; rewrite ?E0, ?EI.
  - change (kinv None (kst (overlay all_queues s))). split; unfold upd_queues; cbn.
    + split; [intros q; rewrite Hi; constructor| | |].
      * intros q y. rewrite Hi. cbn. intros E. apply lookup_union_Some_raw in E as [E|[_ E]]; [apply lookup_singleton_Some in E as [_ <-]|apply all_empties in E as ->]; done.
      * intros q u. rewrite Hi. cbn. split; [by intros ?%not_elem_of_nil|]. intros (x & [<- <-]%lookup_singleton_Some & [=]).
      * intros u x q. cbn. intros [<- <-]%lookup_singleton_Some [=].
    + apply lookup_union_is_Some. right. unfold all_queues. rewrite lookup_insert_eq. eauto.
    + by apply lookup_singleton_ne.
    + exists (idle_thread p k). cbn. rewrite lookup_singleton_eq. done.
    + intros u x [<- <-]%lookup_singleton_Some. left. done.
    + done.
    + intros n q Hq. destruct (intr_drivers n q Hq) as (a & -> & Ha). split; [done|]. apply lookup_union_is_Some. right. unfold all_queues. rewrite lookup_insert_ne by done. by apply late_queues_driver.
  - split.
    + by apply lookup_singleton_ne.
    + rewrite Ep. apply NoDup_singleton.
    + intros q. rewrite Ep, list_elem_of_singleton, lookup_singleton_is_Some. naive_solver.
    + intros q q' x y [<- _]%lookup_singleton_Some [<- _]%lookup_singleton_Some. done.
    + intros q x [<- <-]%lookup_singleton_Some. cbn. lia.
    + intros q x [<- <-]%lookup_singleton_Some. done.
    + exists p. eexists. rewrite lookup_singleton_eq. done.
    + intros q x [<- <-]%lookup_singleton_Some. done.
    + intros q x [<- <-]%lookup_singleton_Some _. cbn. rewrite items_empty. split; [constructor|by intros ? ?%not_elem_of_nil].
    + exists (fun _ => O). intros q x [<- <-]%lookup_singleton_Some. done.
    + intros q x [<- <-]%lookup_singleton_Some. cbn. lia.
    + intros q x [<- <-]%lookup_singleton_Some. by left.
    + intros q x [<- <-]%lookup_singleton_Some. cbn. split; [done|apply length_replicate].
  - split.
    + intros u x [<- <-]%lookup_singleton_Some. cbn. eexists. rewrite lookup_singleton_eq. split; [done|]. split; cbn; try done. rewrite Et. by left.
    + intros q y [<- <-]%lookup_singleton_Some. right. exists t, (idle_thread p k). cbn. rewrite lookup_singleton_eq. done.
  - intros q. rewrite lookup_singleton_is_Some. intros ->. apply lookup_union_is_Some. left. rewrite lookup_singleton_eq. eauto.
  - exists (idle_thread p k). eexists. rewrite !lookup_singleton_eq. do 4 (split; [done|]). by left.
  - intros u. rewrite !lookup_singleton_is_Some. done.
  - apply Z.mod_pos_bound. lia.
  - intros q x [<- <-]%lookup_singleton_Some. cbn. lia.
  - done.
  - unfold all_holds. cbn. eapply holds_perm; [|exact Hh]. f_equiv. rewrite <- !insert_empty, !gather_insert by done.
    unfold gather. rewrite !map_to_list_empty. cbn. unfold proc_holds, run_holds. cbn. rewrite no_files. done.
Qed.
Lemma bootstrap_run i r L : plenty -> holds r L -> exists p t d m k e r', let s := idle_state p t d m k (String.list_ascii_of_string "idle proc") e r' in
  bootstrap (kernel_start i r) = Ok (tt, s) /\ pinv L (overlay all_queues s).
Proof.
  intros PL H0. destruct (pt_template_init_ok r L H0) as ([] & ra & Ea & Ha).
  destruct (pl_slab PL (∅ : gmap Z proc)) as [p Hp]. destruct (slab_fresh _ _ Hp) as [Hp0 _].
  destruct (create_res L (kernel_start i ra) p [] PL) as (d & m & r1 & r2 & r3 & r4 & Hd & E1 & E2 & E3 & E4 & Hh); [by rewrite app_nil_r|done|].
  cbn in E1, E2, Hh. subst r2. destruct (pl_slab PL (∅ : gmap Z kthread)) as [t Ht]. destruct (slab_fresh _ _ Ht) as [Ht0 _].
  destruct (page_alloc_n_ok _ _ stack_pages Hh) as (k & r5 & E5 & H5). pose proof (pl_pages PL _ _ _ _ E5) as Hk. rewrite (proj2 (Z.eqb_neq _ _) Hk) in H5.
  set (name := String.list_ascii_of_string "idle proc"). eexists p, t, d, m, k, _, r5. split.
  2:{ apply idle_pinv; try done. eapply holds_perm; [|exact H5]. solve_Permutation. }
  unfold bootstrap. rewrite (mbind_run _ _ _ _ _ (res_op_run _ (kernel_start i r) tt ra Ea)). change (upd_res ra (kernel_start i r)) with (kernel_start i ra).
  rewrite (mbind_run _ _ _ _ _ (create_first i ra p name d m r1 r3 r4 Hp E1 E3 E4)).
  rewrite (mbind_run _ _ _ _ _ (kthread_create_run (one_proc i p d m name r4) p _ idleproc_fn 0 0 t k r5 Ht E5 (lookup_singleton_eq _ _) Hp0)).
  set (s := with_thread _ _ _ _ _ _ _). set (s1 := upd_kst (set_cur t p false (kst s)) s). rewrite (mbind_run _ _ s tt s1 eq_refl).
  rewrite (mbind_run cur_proc _ s1 p s1 eq_refl), (proj2 (Z.eqb_neq _ _) Hp0), (mbind_run _ _ s1 tt s1 eq_refl).
  rewrite (mbind_run _ _ s1 _ s1 (load_proc_run s1 p _ (lookup_insert_eq _ _ _))). cbn [p_pid with_pthreads first_proc with_pvmmap with_cwd with_pagedir new_proc].
  rewrite Z.eqb_refl, (mbind_run _ _ s1 tt s1 eq_refl), (mbind_run _ _ s1 t s1 eq_refl), (proj2 (Z.eqb_neq _ _) Ht0), (mbind_run _ _ s1 tt s1 eq_refl).
  unfold context_make_active. rewrite (mbind_run _ _ s1 _ s1 (sched_load_run s1 t _ (lookup_insert_eq _ _ _))). unfold mput, s1, s, with_thread, one_proc, idle_state.
  unfold upd_kst, set_ipl, set_cur, upd_threads. cbn. rewrite insert_singleton_eq, !insert_empty. done.
Qed.

(** ** A new process with its thread *)
Record spawned (s s' : ps) (c : proc) (p t pid : Z) : Prop := {
  sp_fresh : procs s !! p = None;
  sp_null : p <> 0 /\ t <> 0;
  sp_cur : procs s' !! curproc (kst s) = Some (with_pchildren (list_insert_tail p) c);
  sp_new : exists y, procs s' !! p = Some y /\ p_pid y = pid /\ p_pproc y = curproc (kst s) /\ p_cwd y = vfs_root_vn s /\
    p_state y = PROC_RUNNING /\ list_items (p_threads y) = [t] /\ list_items (p_children y) = [];
  sp_other q : q <> p -> q <> curproc (kst s) -> procs s' !! q = procs s !! q;
  sp_thr : threads (kst s) !! t = None /\ exists k, threads (kst s') !! t = Some (idle_thread p k);
  sp_thrs u : u <> t -> threads (kst s') !! u = threads (kst s) !! u;
  sp_queues q : items (kst s') q = items (kst s) q;
  sp_next : next_pid s' = (pid + 1) mod PROC_MAX_COUNT;
  sp_root : vfs_root_vn s' = vfs_root_vn s;
  sp_curthr : curthr (kst s') = curthr (kst s);
  sp_curproc : curproc (kst s') = curproc (kst s);
  sp_switched : switched (kst s') = switched (kst s);
}.
Lemma spawn_ok L s name func a b c : pinv L s -> plenty -> procs s !! curproc (kst s) = Some c ->
  (exists i, 0 <= i < PROC_MAX_COUNT /\ forall q y, procs s !! q = Some y -> p_pid y <> i) ->
  (p_pid c = PID_IDLE \/ exists q y, procs s !! q = Some y /\ p_pid y = PID_INIT) ->
  exists p t pid s1 s2, proc_create name s = Ok (p, s1) /\ kthread_create p func a b s1 = Ok (t, s2) /\ pinv L s2 /\
    spawned s s2 c p t pid /\ 0 <= pid < PROC_MAX_COUNT /\ (forall q y, procs s !! q = Some y -> p_pid y <> pid) /\
    ((forall q y, procs s !! q = Some y -> p_pid y <> next_pid s) -> pid = next_pid s).
Proof.
  intros I PL Hc Hf Hi. destruct (create_ok L s name c I PL Hc Hf Hi) as (p & pid & d & m & r & E1 & I1 & Hp & Hr & Hu & _ & Hn).
  set (y := with_pvmmap m (with_cwd (vfs_root_vn s) (with_pagedir d (new_proc pid name (curproc (kst s)))))).
  assert (procs (created s p pid d m name c r) !! p = Some y) as Hy by apply lookup_insert_eq.
  destruct (kthread_create_ok L _ p y func a b I1 PL Hy) as (t & k & r2 & E2 & I2 & Ht & _); [done|apply items_empty|].
  assert (p <> 0) as Hp0 by (intros ->; pose proof (t_null _ _ (pi_tree _ _ I1)); congruence).
  assert (curproc (kst s) <> p) as Hne by congruence.
  exists p, t, pid. eexists _, _. split; [exact E1|]. split; [exact E2|]. split; [exact I2|]. split; [|done].
  split; try done; cbn -[upd_queues upd_threads].
  - split; [done|]. intros ->. pose proof (k_null _ _ (pi_k _ _ I2)) as H0. cbn in H0. by rewrite lookup_insert_eq in H0.
  - rewrite !lookup_insert_ne by done. apply lookup_insert_eq.
  - eexists. rewrite lookup_insert_eq. split; [reflexivity|]. cbn. do 4 (split; [done|]).
    by rewrite items_insert_tail, items_empty by (rewrite items_empty; apply not_elem_of_nil).
  - intros q H1 H2. by rewrite !lookup_insert_ne.
  - split; [exact Ht|]. exists k. apply lookup_insert_eq.
  - intros u H1. cbn. by rewrite lookup_insert_ne.
  - intros q. unfold items. cbn. destruct (decide (q = ProcQ p)) as [->|]; [|by rewrite lookup_insert_ne].
    rewrite lookup_insert_eq. cbn. rewrite items_empty. symmetry. exact (no_waiters L s p I Hp).
  - rewrite (proj2 (Z.eqb_neq pid (-1))) by lia. done.
Qed.
(** The same while queues are missing. *)
Lemma spawn_overlay A L s name func a b c : pinv L (overlay A s) -> plenty -> procs s !! curproc (kst s) = Some c -> p_pid c = PID_IDLE ->
  0 <= next_pid s < PROC_MAX_COUNT -> (forall q y, procs s !! q = Some y -> p_pid y <> next_pid s) ->
  exists p t s1 s2, proc_create name s = Ok (p, s1) /\ kthread_create p func a b s1 = Ok (t, s2) /\ pinv L (overlay A s2) /\
    spawned (overlay A s) (overlay A s2) c p t (next_pid s).
Proof.
  intros I PL Hc Hpid Hr Hn. destruct (spawn_ok L (overlay A s) name func a b c I PL Hc) as (p & t & pid & S1 & S2 & E1 & E2 & I2 & H & _ & _ & He);
    [by exists (next_pid s)|by left|].
  destruct (commutes_back _ _ _ _ _ (commutes_proc_create A name) E1) as (s1 & E1' & ->).
  destruct (commutes_back _ _ _ _ _ (commutes_kthread_create A p func a b) E2) as (s2 & E2' & ->). rewrite (He Hn) in H. by exists p, t, s1, s2.
Qed.

(** ** Initialisation functions *)
Lemma overlay_items A s q : empties A -> items (kst (overlay A s)) q = items (kst s) q.
Proof.
  intros HA. unfold items. cbn. destruct (queues (kst s) !! q) as [y|] eqn:E.
  - by rewrite (lookup_union_Some_l _ _ _ _ E).
  - rewrite lookup_union_r by done. destruct (A !! q) as [y|] eqn:E'; [|done]. rewrite (HA _ _ E'). apply items_empty.
Qed.
Lemma overlay_all s : is_Some (queues (kst s) !! RunQ) -> overlay all_queues s = overlay late_queues s.
Proof.
  intros [y Hy]. unfold overlay, upd_kst, upd_queues. do 2 f_equal. apply map_eq. intros q. destruct (decide (q = RunQ)) as [->|].
  - by rewrite !(lookup_union_Some_l _ _ _ _ Hy).
  - unfold all_queues. by rewrite !lookup_union, lookup_insert_ne.
Qed.
Lemma overlay_done s : (forall a, a ∈ driver_queues -> is_Some (queues (kst s) !! OtherQ a)) -> overlay late_queues s = s.
Proof.
  intros H. destruct s as [P l n i v E K r]. destruct K as [T Q X ct cp ip sw w]. unfold overlay, upd_kst, upd_queues. cbn in *. do 2 f_equal.
  apply map_eq. intros q. rewrite lookup_union. destruct (late_queues !! q) eqn:E1; [|by destruct (Q !! q)].
  destruct (late_queues_some _ _ E1) as (-> & a & -> & Ha). destruct (H a Ha) as [z Hz]. by rewrite Hz.
Qed.
Lemma initialises_items s s' q : initialises s s' -> items (kst s') q = items (kst s) q.
Proof.
  intros H. unfold items. destruct (in_queues _ _ H q) as [E|(_ & E & E')]; [by rewrite E|]. rewrite E, E'. apply items_empty.
Qed.
Lemma initialises_mono s s' q : initialises s s' -> is_Some (queues (kst s) !! q) -> is_Some (queues (kst s') !! q).
Proof. intros H Hq. destruct (in_queues _ _ H q) as [E|(_ & _ & E)]; rewrite E; [done|eauto]. Qed.
#[local] Instance initialises_preorder : PreOrder initialises.
Proof.
  split; [split; auto|]. intros s1 s2 s3 H1 H2. split; try (destruct H1, H2; congruence).
  intros q. destruct (in_queues _ _ H2 q) as [E|(Ha & E & E')], (in_queues _ _ H1 q) as [F|(Hb & F & F')]; rewrite ?E, ?E'; auto.
  right. rewrite <- F. auto.
Qed.
(** The invariant with more queues that are empty. *)
Lemma kinv_queues k k' : kinv None k -> threads k' = threads k -> mutexes k' = mutexes k -> curthr k' = curthr k -> switched k' = switched k ->
  (forall q, items k' q = items k q) -> (forall q y, queues k' !! q = Some y -> queues k !! q = Some y \/ y = empty_queue) ->
  (forall q, is_Some (queues k !! q) -> is_Some (queues k' !! q)) -> kinv None k'.
Proof.
  intros [[Q1 Q2 Q3 Q4] HR HN HC HT HM HI] ET EM EC ES Hi Hq Hm. split; rewrite ?ET, ?EM, ?EC, ?ES; auto.
  - split; rewrite ?ET; try (setoid_rewrite Hi); auto.
    + intros q y Hy. destruct (Hq q y Hy) as [?| ->]; [auto|]. cbn. rewrite <- (Hi q), (items_lookup _ _ _ Hy). cbn. by rewrite items_empty.
    + intros t x q Ht Hw. destruct (Q4 t x q Ht Hw). auto.
  - intros m h Hmh. destruct (HM m h Hmh) as (? & ? & ?). setoid_rewrite Hi. auto.
  - intros n q Hn. destruct (HI n q Hn). auto.
Qed.
Lemma driver_run A c L s : empties A -> driver c -> pinv L (overlay A s) ->
  exists s' L', c s = Ok (tt, s') /\ initialises s s' /\ pinv L' (overlay A s').
Proof.
  intros HA Hd I. destruct (Hd s L _ (pi_holds _ _ I) (pi_root _ _ I)) as (s' & L' & E & H & Hh & Hr). exists s', L'. do 2 (split; [done|]).
  assert (forall q, is_Some (queues (kst (overlay A s)) !! q) -> is_Some (queues (kst (overlay A s')) !! q)) as HM.
  { intros q. cbn. rewrite !lookup_union_is_Some. intros [Hq|?]; [left|by right]. by eapply initialises_mono. }
  pose proof H as [E1 E2 E3 E4 E5 E6 E7 E8 E9 E10 HQ]. split; unfold all_holds; cbn; rewrite ?E1, ?E2, ?E3, ?E4, ?E5, ?E6, ?E8, ?E9; try apply I.
  - apply (kinv_queues (kst (overlay A s))); [apply I|done..|intros q| |apply HM].
    + change (items (kst (overlay A s')) q = items (kst (overlay A s)) q). rewrite !overlay_items by done. by apply initialises_items.
    + intros q y Hy. cbn in Hy. apply lookup_union_Some_raw in Hy as [Hy|[_ Hy]]; [|right; by apply (HA q)].
      destruct (HQ q) as [E'|(_ & _ & E')]; rewrite E' in Hy; [|right; congruence]. left. by apply lookup_union_Some_l.
  - intros p Hp. apply HM, (pi_queue _ _ I). exact Hp.
  - exact Hr.
  - exact Hh.
Qed.
Lemma drivers_run A l : empties A -> Forall driver l -> forall L s, pinv L (overlay A s) ->
  exists s' L', run_inits (map InitOther l) s = Ok (tt, s') /\ initialises s s' /\ pinv L' (overlay A s').
Proof.
  intros HA. induction 1 as [|c l Hc _ IH]; intros L s I; cbn [map run_inits run_init]; [by exists s, L|].
  destruct (driver_run A c L s HA Hc I) as (s1 & L1 & E & H1 & I1). destruct (IH L1 s1 I1) as (s2 & L2 & E2 & H2 & I2).
  exists s2, L2. rewrite (mbind_run _ _ _ _ _ E), E2. split; [done|]. split; [by etrans|done].
Qed.
Lemma run_inits_app l1 l2 s s1 : run_inits l1 s = Ok (tt, s1) -> run_inits (l1 ++ l2) s = run_inits l2 s1.
Proof.
  revert s. induction l1 as [|f l1 IH]; intros s; cbn [run_inits app]; [by intros [= ->]|].
  intros ([] & s2 & E & E2)%mbind_Ok. rewrite (mbind_run _ _ _ _ _ E). by apply IH.
Qed.

(** ** The steps of the start *)
(** No thread waits, so every queue is empty. *)
Definition none_wait (s : ps) : Prop := forall u x, threads (kst s) !! u = Some x -> kt_wchan x = None.
Lemma none_wait_items A L s q : pinv L (overlay A s) -> none_wait s -> items (kst (overlay A s)) q = [].
Proof.
  intros I H. destruct (items (kst (overlay A s)) q) as [|t l] eqn:E; [done|].
  destruct (proj1 (q_wchan _ (k_q _ _ (pi_k _ _ I)) q t)) as (x & Hx & Hw); [rewrite E; by left|]. cbn in Hx. rewrite (H t x Hx) in Hw. done.
Qed.
Definition with_queue (q : qid) (s : ps) : ps := upd_kst (upd_queues (<[q := empty_queue]>) (kst s)) s.
Lemma with_queue_pinv A L s q : pinv L (overlay A s) -> none_wait s -> pinv L (overlay A (with_queue q s)).
Proof.
  intros I H. set (k' := upd_queues (<[q := empty_queue]>) (kst (overlay A s))).
  assert (overlay A (with_queue q s) = upd_kst k' (overlay A s)) as -> by (unfold overlay, with_queue, k', upd_kst, upd_queues; cbn; by rewrite insert_union_l).
  assert (forall z, is_Some (queues (kst (overlay A s)) !! z) -> is_Some (queues k' !! z)) as HM.
  { intros z. cbn. destruct (decide (z = q)) as [->|]; [rewrite lookup_insert_eq; eauto|by rewrite lookup_insert_ne]. }
  split; try apply I.
  - apply (kinv_queues (kst (overlay A s))); [apply I|done..|intros z| |exact HM].
    + rewrite (none_wait_items _ _ _ z I H). unfold items. cbn. destruct (decide (z = q)) as [->|]; [rewrite lookup_insert_eq; apply items_empty|].
      rewrite lookup_insert_ne by done. exact (none_wait_items _ _ _ z I H).
    + intros z y. cbn. rewrite lookup_insert_Some. intros [[<- <-]|[_ ?]]; auto.
  - intros p Hp. apply HM, (pi_queue _ _ I). exact Hp.
Qed.

(** The idle process [p] with thread [t] runs; [i] is the init process; [ch] are
    the children of the idle process, and there are no other processes. *)
Record booted (s : ps) (p t i ti : Z) (ch : list Z) : Prop := {
  bo_cur : curproc (kst s) = p /\ curthr (kst s) = t /\ switched (kst s) = false;
  bo_idle : exists c, procs s !! p = Some c /\ p_pid c = PID_IDLE /\ p_state c = PROC_RUNNING /\ p_cwd c = 0 /\ list_items (p_children c) = ch;
  bo_init : exists y, procs s !! i = Some y /\ p_pid y = PID_INIT /\ p_state y = PROC_RUNNING /\ p_cwd y = 0 /\ list_items (p_threads y) = [ti];
  bo_thr : ti <> t /\ exists k, threads (kst s) !! ti = Some (idle_thread i k);
  bo_procs q y : procs s !! q = Some y -> q = p \/ q ∈ ch;
}.
Lemma booted_initialises s s' p t i ti ch : initialises s s' -> booted s p t i ti ch -> booted s' p t i ti ch.
Proof. intros [] []. split; try congruence; rewrite ?in_procs0, ?in_threads0, ?in_curproc0, ?in_curthr0, ?in_switched0; done. Qed.
Lemma none_wait_initialises s s' : initialises s s' -> none_wait s -> none_wait s'.
Proof. intros H. unfold none_wait. by rewrite (in_threads _ _ H). Qed.
Lemma none_wait_spawned A s s' c p t pid : spawned (overlay A s) (overlay A s') c p t pid -> none_wait s -> none_wait s'.
Proof.
  intros H Hn u x Hx. destruct (decide (u = t)) as [->|Hu].
  - destruct (sp_thr _ _ _ _ _ _ H) as [_ [k Hk]]. cbn in Hk. by simplify_eq.
  - pose proof (sp_thrs _ _ _ _ _ _ H u Hu) as E. cbn in E. rewrite E in Hx. by eapply Hn.
Qed.

Lemma initproc_run L p t d m k name e r : let s := idle_state p t d m k name e r in
  plenty -> pinv L (overlay all_queues s) ->
  exists i ti s', initproc_create s = Ok (ti, s') /\ pinv L (overlay all_queues s') /\ booted s' p t i ti [i] /\ none_wait s' /\
    next_pid s' = 2 /\ vfs_root_vn s' = 0.
Proof.
  intros s PL I. destruct pid_idle_init as [E0 EI]. pose proof pids_enough as HM.
  assert (next_pid s = 1) as En by (apply Z.mod_small; lia).
  set (c := with_pthreads (list_insert_tail t) (first_proc p d m name)).
  assert (procs s !! p = Some c) as Hc by apply lookup_singleton_eq.
  assert (forall q z, procs s !! q = Some z -> p = q /\ c = z) as Hone by (intros q z; exact (proj1 (lookup_singleton_Some (M := gmap Z) p q c z))).
  assert (forall u z, threads (kst s) !! u = Some z -> t = u /\ idle_thread p k = z) as Hthr by (intros u z; exact (proj1 (lookup_singleton_Some (M := gmap Z) t u (idle_thread p k) z))).
  destruct (spawn_overlay all_queues L s (String.list_ascii_of_string "init proc") initproc_fn 0 0 c I PL Hc eq_refl) as (i & ti & s1 & s2 & E1 & E2 & I2 & H);
    [rewrite En; lia|intros q y [<- <-]%Hone; rewrite En; cbn; lia|]. rewrite En in H.
  destruct (sp_new _ _ _ _ _ _ H) as (y & Hy & Hpid & _ & Hcwd & Hst & Hth & _). destruct (sp_null _ _ _ _ _ _ H) as [Hi0 Ht0].
  pose proof (sp_fresh _ _ _ _ _ _ H) as Hf. destruct (sp_thr _ _ _ _ _ _ H) as [Hft Hk].
  assert (i <> p) as Hip by (intros ->; change (procs s !! p = None) in Hf; congruence).
  assert (ti <> t) as Htt by (intros ->; pose proof (lookup_singleton_eq (M := gmap Z) t (idle_thread p k)) as E; change (threads (kst s) !! t = Some (idle_thread p k)) in E; change (threads (kst s) !! t = None) in Hft; congruence).
  exists i, ti, s2. split; [|split; [done|split; [split|split; [|split]]]].
  - unfold initproc_create. rewrite (mbind_run _ _ _ _ _ E1), (mbind_run _ _ _ _ _ E2), (proj2 (Z.eqb_neq _ _) Hi0), (mbind_run _ _ s2 tt s2 eq_refl).
    rewrite (mbind_run _ _ _ _ _ (load_proc_run s2 i y Hy)), Hpid, EI, (mbind_run _ _ s2 tt s2 eq_refl).
    by rewrite (proj2 (Z.eqb_neq _ _) Ht0).
  - pose proof (sp_curproc _ _ _ _ _ _ H). pose proof (sp_curthr _ _ _ _ _ _ H). pose proof (sp_switched _ _ _ _ _ _ H). done.
  - eexists. split; [exact (sp_cur _ _ _ _ _ _ H)|]. cbn. do 3 (split; [done|]).
    rewrite items_insert_tail, items_empty; [done|]. rewrite items_empty. apply not_elem_of_nil.
  - exists y. rewrite Hpid, EI. done.
  - done.
  - intros q z Hz. destruct (decide (q = p)) as [|Hqp]; [by left|right]. destruct (decide (q = i)) as [->|Hqi]; [by left|].
    pose proof (sp_other _ _ _ _ _ _ H q Hqi Hqp) as E. change (procs s2 !! q = procs s !! q) in E. rewrite Hz in E. symmetry in E. by apply Hone in E as [-> _].
  - eapply none_wait_spawned; [exact H|]. intros u x [<- <-]%Hthr. done.
  - rewrite <- (Z.mod_small 2 PROC_MAX_COUNT) by lia. exact (sp_next _ _ _ _ _ _ H).
  - exact (sp_root _ _ _ _ _ _ H).
Qed.

(** Making a thread runnable while other queues are missing. *)
Lemma runnable_overlay A L s t x : pinv L (overlay A s) -> is_Some (queues (kst s) !! RunQ) -> switched (kst s) = false ->
  threads (kst s) !! t = Some x -> kt_wchan x = None -> snd (kt_ctx x) = CStart -> kt_state x = KT_RUN -> t <> curthr (kst s) ->
  exists s', sched_op (sched_make_runnable t) s = Ok (tt, s') /\ pinv L (overlay A s') /\
    items (kst (overlay A s')) RunQ = t :: items (kst (overlay A s)) RunQ /\ step_thr (kst (overlay A s)) (kst (overlay A s')) t (with_wchan (Some RunQ) true x) /\
    exists k, s' = upd_kst k s.
Proof.
  intros I [y Hy] Hsw Ht Hw Hc Hst Hne. destruct (make_runnable_pinv L (overlay A s) t x I Hsw Ht Hw Hc Hst Hne) as (k & E & I' & Hi & T).
  assert (t <> 0) as Ht0 by (intros ->; pose proof (k_null _ _ (pi_k _ _ I)) as H0; cbn in H0; congruence).
  set (f := fun K : ks => set_ipl (ipl K) (upd_queues (<[RunQ := mkQueue _ (list_insert_head t (tq_list y)) (tq_size y + 1)]>)
    (upd_threads (<[t := with_wchan (Some RunQ) link_inserted x]>) (set_ipl IPL_HIGH K)))).
  assert (forall K, threads K !! t = Some x -> queues K !! RunQ = Some y -> sched_make_runnable t K = Ok (tt, f K)) as Hrun.
  { intros K Kt Kq. unfold sched_make_runnable. rewrite (proj2 (Z.eqb_neq _ _) Ht0), (mbind_run _ _ K tt K eq_refl), (mbind_run _ _ _ _ _ (load_thr_run _ _ _ Kt)), Hw.
    rewrite (mbind_run _ _ K tt K eq_refl), (mbind_run (mget ipl) _ K (ipl K) K eq_refl). set (K1 := set_ipl IPL_HIGH K).
    rewrite (mbind_run (mput (set_ipl IPL_HIGH)) _ K tt K1 eq_refl). unfold ktqueue_enqueue. unfold mbind_ at 1.
    rewrite (mbind_run _ _ _ _ _ (load_thr_run K1 t x Kt)), Hw, (mbind_run _ _ K1 tt K1 eq_refl), (mbind_run _ _ _ _ _ (load_q_run K1 RunQ y Kq)).
    by rewrite (mbind_run _ _ _ _ _ (store_thr_run K1 t _ x Kt)). }
  rewrite (sched_op_run _ _ _ _ (Hrun (kst (overlay A s)) Ht (lookup_union_Some_l _ _ _ _ Hy))) in E. injection E as E.
  assert (overlay A (upd_kst (f (kst s)) s) = upd_kst k (overlay A s)) as EO.
  { rewrite <- E. unfold overlay, f, upd_kst, set_ipl, upd_queues, upd_threads. cbn. by rewrite insert_union_l. }
  exists (upd_kst (f (kst s)) s). split; [by apply sched_op_run, Hrun|]. rewrite EO. split; [done|]. split; [exact Hi|]. split; [exact T|]. by exists (f (kst s)).
Qed.

Lemma pageoutd_run L s p t i ti : plenty -> pinv L (overlay late_queues s) -> booted s p t i ti [i] -> none_wait s -> next_pid s = 2 ->
  exists pd td s', pageoutd_init s = Ok ((pd, td), s') /\ pinv L (overlay late_queues s') /\ booted s' p t i ti [i; pd] /\
    items (kst (overlay late_queues s')) RunQ = [td] /\ td <> ti /\
    exists z, procs s' !! pd = Some z /\ p_pid z = 2 /\ list_items (p_threads z) = [td].
Proof.
  intros PL I B Hn En. set (q := OtherQ pageoutd_waitq). set (s1 := with_queue q s).
  pose proof (with_queue_pinv late_queues L s q I Hn) as I1. destruct (bo_cur _ _ _ _ _ _ B) as (Ecp & Ect & Esw).
  destruct (bo_idle _ _ _ _ _ _ B) as (c & Hc & Hpid & Hst & Hcwd & Hch). destruct pid_idle_init as [E0 EI]. pose proof pids_enough as HM.
  destruct (bo_init _ _ _ _ _ _ B) as (y & Hy & Hypid & Hyst & Hycwd & Hyth). destruct (bo_thr _ _ _ _ _ _ B) as [Htt [ki Hki]].
  assert (p <> 0) as Hp0 by (intros ->; pose proof (t_null _ _ (pi_tree _ _ I)) as H0; cbn in H0; congruence).
  assert (i <> p) as Hip by congruence.
  assert (procs s1 !! curproc (kst s1) = Some c) as Hc1 by (cbn; by rewrite Ecp).
  destruct (spawn_overlay late_queues L s1 (String.list_ascii_of_string "pageoutd") pageoutd_fn 0 0 c I1 PL Hc1 Hpid) as (pd & td & s2 & s3 & E1 & E2 & I3 & H).
  { cbn. lia. }
  { cbn. intros z w Hz. destruct (bo_procs _ _ _ _ _ _ B z w Hz) as [->|Hzi%list_elem_of_singleton]; simplify_eq; lia. }
  change (next_pid s1) with (next_pid s) in H. rewrite En in H.
  destruct (sp_new _ _ _ _ _ _ H) as (z & Hz & Hzpid & _ & _ & _ & Hzth & _). destruct (sp_null _ _ _ _ _ _ H) as [Hpd0 Htd0].
  pose proof (sp_fresh _ _ _ _ _ _ H) as Hf. change (procs s !! pd = None) in Hf. destruct (sp_thr _ _ _ _ _ _ H) as [Hft [kd Hkd]]. change (threads (kst s) !! td = None) in Hft.
  assert (td <> ti) as Hdi by congruence.
  assert (td <> t) as Hdt by (intros ->; destruct (pi_cur _ _ I) as (xc & _ & Hxc & _); cbn in Hxc; congruence).
  pose proof (sp_curproc _ _ _ _ _ _ H) as F1. pose proof (sp_curthr _ _ _ _ _ _ H) as F2. pose proof (sp_switched _ _ _ _ _ _ H) as F3.
  change (curproc (kst s3) = curproc (kst s)) in F1. change (curthr (kst s3) = curthr (kst s)) in F2. change (switched (kst s3) = switched (kst s)) in F3.
  assert (is_Some (queues (kst s3) !! RunQ)) as HR.
  { pose proof (k_run _ _ (pi_k _ _ I3)) as [w Hw]. cbn in Hw. apply lookup_union_Some_raw in Hw as [?|[_ Hw]]; [eauto|].
    by destruct (late_queues_some _ _ Hw) as (_ & a & ? & _). }
  destruct (runnable_overlay late_queues L s3 td (idle_thread pd kd) I3 HR) as (s4 & E4 & I4 & Hi & T & k4 & ->); [congruence|done|done|done|done|congruence|].
  pose proof (st_threads _ _ _ _ T) as HT. change (threads k4 = <[td := with_wchan (Some RunQ) true (idle_thread pd kd)]> (threads (kst s3))) in HT.
  pose proof (st_curproc _ _ _ _ T) as G1. pose proof (st_curthr _ _ _ _ T) as G2. pose proof (st_switched _ _ _ _ T) as G3. cbn in G1, G2, G3.
  assert (forall w, w <> pd -> w <> p -> procs s3 !! w = procs s !! w) as Ho by (intros w H1 H2; apply (sp_other _ _ _ _ _ _ H w H1); cbn; congruence).
  exists pd, td, (upd_kst k4 s3). split; [|split; [done|split; [split|split; [|split; [done|by exists z]]]]].
  - unfold pageoutd_init. rewrite (mbind_run (sched_op (sched_queue_init q)) _ s tt s1 eq_refl), (mbind_run cur_proc _ s1 p s1) by (unfold cur_proc, mget; cbn; by rewrite Ecp).
    rewrite (proj2 (Z.eqb_neq _ _) Hp0), (mbind_run _ _ s1 tt s1 eq_refl), (mbind_run _ _ _ _ _ (load_proc_run s1 p c Hc)), Hpid.
    rewrite Z.eqb_refl, (mbind_run _ _ s1 tt s1 eq_refl), (mbind_run _ _ _ _ _ E1), (proj2 (Z.eqb_neq _ _) Hpd0), (mbind_run _ _ s2 tt s2 eq_refl).
    rewrite (mbind_run _ _ _ _ _ E2), (proj2 (Z.eqb_neq _ _) Htd0), (mbind_run _ _ s3 tt s3 eq_refl). by rewrite (mbind_run _ _ _ _ _ E4).
  - cbn. split; [congruence|]. split; congruence.
  - pose proof (sp_cur _ _ _ _ _ _ H) as Hcur. cbn in Hcur. rewrite Ecp in Hcur. eexists. split; [exact Hcur|]. cbn. do 3 (split; [done|]).
    rewrite items_insert_tail, Hch; [done|]. rewrite Hch. rewrite list_elem_of_singleton. congruence.
  - exists y. cbn. rewrite Ho by congruence. done.
  - split; [done|]. exists ki. cbn. rewrite HT, lookup_insert_ne by done.
    pose proof (sp_thrs _ _ _ _ _ _ H ti (not_eq_sym Hdi)) as E. cbn in E. by rewrite E.
  - intros w x Hx. cbn in Hx. destruct (decide (w = p)) as [|Hwp]; [by left|right]. destruct (decide (w = pd)) as [->|Hwd]; [set_solver|].
    rewrite Ho in Hx by done. destruct (bo_procs _ _ _ _ _ _ B w x Hx) as [?|?]; [done|set_solver].
  - rewrite Hi. f_equal. rewrite (sp_queues _ _ _ _ _ _ H). exact (none_wait_items late_queues L s1 RunQ I1 Hn).
Qed.

(** The initialisation functions leave the pageout daemon runnable. *)
Lemma init_call_all_run L s p t i ti : plenty -> pinv L (overlay all_queues s) -> booted s p t i ti [i] -> none_wait s -> next_pid s = 2 ->
  exists pd td s' L', init_call_all s = Ok (tt, s') /\ pinv L' s' /\ booted s' p t i ti [i; pd] /\ items (kst s') RunQ = [td] /\ td <> ti /\
    vfs_root_vn s' <> 0 /\ exists z, procs s' !! pd = Some z /\ p_pid z = 2 /\ list_items (p_threads z) = [td].
Proof.
  intros PL I B Hn En. pose proof init_drivers as HD. apply Forall_app in HD as [D1 [D2 D3]%Forall_app].
  destruct (drivers_run all_queues init_first all_empties D1 L s I) as (s1 & L1 & E1 & H1 & I1).
  set (s2 := with_queue RunQ s1). assert (none_wait s1) as Hn1 by (by eapply none_wait_initialises).
  pose proof (with_queue_pinv all_queues L1 s1 RunQ I1 Hn1) as I2. fold s2 in I2.
  rewrite overlay_all in I2 by (unfold s2, with_queue; cbn; rewrite lookup_insert_eq; eauto).
  destruct (drivers_run late_queues init_middle late_empties D2 L1 s2 I2) as (s3 & L3 & E3 & H3 & I3).
  assert (booted s3 p t i ti [i]) as B3 by (eapply booted_initialises; [done|]; apply (booted_initialises _ _ _ _ _ _ _ H1) in B; by destruct B).
  destruct (pageoutd_run L3 s3 p t i ti PL I3 B3) as (pd & td & s4 & E4 & I4 & B4 & Hi & Hne & z & Hz & Hz1 & Hz2).
  { by eapply (none_wait_initialises s2). }
  { rewrite (in_next _ _ H3). cbn. by rewrite (in_next _ _ H1). }
  destruct (drivers_run late_queues init_last late_empties D3 L3 s4 I4) as (s5 & L5 & E5 & H5 & I5).
  assert (init_call_all s = Ok (tt, s5)) as E.
  { unfold init_call_all. rewrite init_order_is, (run_inits_app _ _ _ _ E1). cbn [run_inits run_init].
    rewrite (mbind_run sched_init _ s1 tt s2 eq_refl), (run_inits_app _ _ _ _ E3). cbn [run_inits run_init].
    rewrite (mbind_run _ _ s3 tt s4) by (by rewrite (mbind_run _ _ _ _ _ E4)). done. }
  destruct (init_done s s5 E) as [Hroot Hq]. rewrite (overlay_done s5 Hq) in I5.
  exists pd, td, s5, L5. do 2 (split; [done|]). split; [by eapply booted_initialises|]. split.
  - rewrite (initialises_items _ _ _ H5), <- (overlay_items late_queues) by apply late_empties. done.
  - split; [done|]. split; [done|]. exists z. by rewrite (in_procs _ _ H5).
Qed.

(** ** Setting up the file system *)
Lemma root_cwd_run L s p y : pinv L s -> procs s !! p = Some y -> p_state y = PROC_RUNNING -> p_cwd y = 0 -> vfs_root_vn s <> 0 ->
  exists r, set_root_cwd p s = Ok (tt, upd_res r (upd_procs (<[p := with_cwd (vfs_root_vn s) y]>) s)) /\
    pinv L (upd_res r (upd_procs (<[p := with_cwd (vfs_root_vn s) y]>) s)).
Proof.
  intros I Hy Hst Hcwd Hr. set (y' := with_cwd (vfs_root_vn s) y).
  destruct (vref_ok (res s) (L ++ all_holds s) (vfs_root_vn s)) as (r & E & Hh); [apply I|apply elem_of_app; left; by apply (pi_root _ _ I)|].
  exists r. split.
  - unfold set_root_cwd. rewrite (mbind_run (mget _) _ s (vfs_root_vn s) s eq_refl), (mbind_run _ _ _ _ _ (store_proc_run _ _ _ _ Hy)).
    by rewrite (res_op_run _ (upd_procs (<[p := y']>) s) tt r E).
  - apply (pinv_update L L s p y y' r I Hy); [done|done|apply I|]. eapply holds_perm; [|exact Hh].
    unfold all_holds. cbn. rewrite (gather_update proc_holds _ p y y' Hy).
    rewrite <- (insert_id (procs s) p y Hy) at 1. rewrite (gather_update proc_holds _ p y y Hy).
    unfold proc_holds, run_holds, y'. cbn. rewrite Hst, (bool_decide_eq_true_2 _ eq_refl), Hcwd.
    assert (opt_hold HVnode (vfs_root_vn s) = [HVnode (vfs_root_vn s)]) as -> by (unfold opt_hold; by rewrite (proj2 (Z.eqb_neq _ _) Hr)).
    change (opt_hold HVnode 0) with (@nil hold). cbn. solve_Permutation.
Qed.
Lemma neutral_run {A} (c : M rst A) L s : neutral c -> pinv L s -> exists a r, res_op c s = Ok (a, upd_res r s) /\ pinv L (upd_res r s).
Proof.
  intros Hc I. destruct (Hc _ _ (pi_holds _ _ I)) as (a & r & E & Hh). exists a, r. split; [by apply res_op_run|].
  destruct I. by split.
Qed.
Lemma make_devices_run L s : pinv L s -> exists r, (make_devices ;;; res_op intr_enable) s = Ok (tt, upd_res r s) /\ pinv L (upd_res r s).
Proof.
  intros I. unfold make_devices.
  destruct (neutral_run _ _ _ (do_mkdir_ok (String.list_ascii_of_string "/dev")) I) as (a1 & r1 & E1 & I1).
  destruct (neutral_run _ _ _ (do_mknod_ok (String.list_ascii_of_string "/dev/null") S_IFCHR MEM_NULL_DEVID) I1) as (a2 & r2 & E2 & I2).
  destruct (neutral_run _ _ _ (do_mknod_ok (String.list_ascii_of_string "/dev/zero") S_IFCHR MEM_ZERO_DEVID) I2) as (a3 & r3 & E3 & I3).
  destruct (neutral_run _ _ _ (do_mknod_ok (String.list_ascii_of_string "/dev/tty0") S_IFCHR (MKDEVID 2 0)) I3) as (a4 & r4 & E4 & I4).
  destruct (neutral_run _ _ _ (do_mknod_ok (String.list_ascii_of_string "/dev/tty1") S_IFCHR (MKDEVID 2 1)) I4) as (a5 & r5 & E5 & I5).
  destruct (neutral_run _ _ _ intr_enable_ok I5) as ([] & r6 & E6 & I6). exists r6. split; [|exact I6].
  rewrite (mbind_run _ _ s tt (upd_res r5 s)); [exact E6|].
  rewrite (mbind_run _ _ _ _ _ E1), (mbind_run _ _ _ _ _ E2), (mbind_run _ _ _ _ _ E3), (mbind_run _ _ _ _ _ E4), (mbind_run _ _ _ _ _ E5). done.
Qed.

(** The idle process waits for any child; the thread [td] of the pageout daemon
    [pd] has been switched to; the thread [ti] of the init process is next. *)
Record kernel_up (L : list hold) (s : ps) (idle init pd t ti td status : Z) : Prop := {
  ku_inv : pinv L s;
  ku_idle : exists c root, procs s !! idle = Some c /\ p_pid c = PID_IDLE /\ list_items (p_children c) = [init; pd] /\ p_cwd c = root /\ root <> 0 /\
    exists y, procs s !! init = Some y /\ p_pid y = PID_INIT /\ list_items (p_threads y) = [ti] /\ p_cwd y = root;
  ku_pageoutd : exists z, procs s !! pd = Some z /\ p_pid z = 2 /\ list_items (p_threads z) = [td];
  ku_initproc : proc_initproc s = init;
  ku_procs q y : procs s !! q = Some y -> q = idle \/ q = init \/ q = pd;
  ku_cur : switched (kst s) = true /\ curthr (kst s) = td /\ curproc (kst s) = pd;
  ku_run : items (kst s) RunQ = [ti];
  ku_waits : t ∈ items (kst s) (ProcQ idle) /\ exists x, threads (kst s) !! t = Some x /\ snd (kt_ctx x) = CWaitpid (-1) status;
}.

(** C18: the kernel starts: from the state [kmain] leaves, in which there is no
    process, no thread and no queue, [bootstrap] and [idleproc_run] make the idle
    process (number 0), the init process (1) and the pageout daemon (2), no
    assertion fails, and when the idle process first goes to sleep, waiting for
    a child, the invariant of processes holds, so that [proc_step_safe] applies
    from then on. *)
Theorem kernel_boots L ipl r fuel status : plenty -> holds r L -> fuel <> O ->
  exists L' s idle init pd t ti td, (bootstrap ;;; idleproc_run fuel status) (kernel_start ipl r) = Ok ((Blocked, None), s) /\
    kernel_up L' s idle init pd t ti td status.
Proof.
  intros PL Hr Hf. destruct (bootstrap_run ipl r L PL Hr) as (p & t & d & m & k & e & r0 & E0 & I0).
  destruct (initproc_run L p t d m k _ e r0 PL I0) as (i & ti & s1 & E1 & I1 & B1 & N1 & En1 & _).
  destruct (init_call_all_run L s1 p t i ti PL I1 B1 N1 En1) as (pd & td & s2 & L2 & E2 & I2 & B2 & Hi2 & Hne & Hroot & z & Hz & Hzp & Hzt).
  destruct (bo_cur _ _ _ _ _ _ B2) as (Ecp & Ect & Esw). destruct (bo_idle _ _ _ _ _ _ B2) as (c & Hc & Hpid & Hst & Hcwd & Hch).
  destruct (bo_init _ _ _ _ _ _ B2) as (y & Hy & Hypid & Hyst & Hycwd & Hyth). destruct (bo_thr _ _ _ _ _ _ B2) as [Htt [ki Hki]]. destruct pid_idle_init as [P0 P1].
  assert (i <> p) as Hip by congruence. assert (pd <> p) as Hdp by (intros ->; simplify_eq; lia). assert (pd <> i) as Hdi by (intros ->; simplify_eq; lia).
  destruct (root_cwd_run L2 s2 p c I2 Hc Hst Hcwd Hroot) as (r3 & E3 & I3). set (c' := with_cwd (vfs_root_vn s2) c) in *. set (s3 := upd_res r3 _) in *.
  destruct (root_cwd_run L2 s3 i y I3) as (r4 & E4 & I4); [cbn; by rewrite lookup_insert_ne|done..|].
  change (vfs_root_vn s3) with (vfs_root_vn s2) in *. set (y' := with_cwd (vfs_root_vn s2) y) in *. set (s4 := upd_res r4 _) in *.
  destruct (make_devices_run L2 s4 I4) as (r5 & E5 & I5). set (s5 := upd_res r5 s4) in *. apply mbind_Ok in E5 as ([] & s4' & E5 & E5').
  assert (procs s5 = <[i := y']> (<[p := c']> (procs s2))) as EP by done.
  destruct (make_runnable_pinv L2 s5 ti (idle_thread i ki) I5 Esw Hki) as (k6 & E6 & I6 & Hi6 & T6); [done..|cbn; congruence|]. set (s6 := upd_kst k6 s5) in *.
  pose proof (st_curproc _ _ _ _ T6) as G1. pose proof (st_curthr _ _ _ _ T6) as G2. pose proof (st_switched _ _ _ _ T6) as G3. cbn in G1, G2, G3.
  assert (procs s6 !! p = Some c') as Hc6 by (change (procs s6) with (procs s5); by rewrite EP, lookup_insert_ne, lookup_insert_eq).
  assert (procs s6 !! i = Some y') as Hy6 by (change (procs s6) with (procs s5); by rewrite EP, lookup_insert_eq).
  destruct (wait_first L2 fuel s6 c' i y' [pd] [ti] td status I6) as (s7 & E7 & W & Hcur & Hw & Hrq); [cbn; congruence|cbn; by rewrite G1, Ecp|done|done|done|by cbn; rewrite Hi6; cbn; rewrite Hi2|done|].
  exists L2, s7, p, i, pd, t, ti, td. split.
  - rewrite (mbind_run _ _ _ _ _ E0). unfold idleproc_run. rewrite (mbind_run _ _ _ _ _ E1), (mbind_run _ _ _ _ _ E2), (mbind_run cur_proc _ s2 p s2) by (unfold cur_proc, mget; by rewrite Ecp).
    rewrite (mbind_run _ _ _ _ _ E3), (mbind_run _ _ s3 _ s3 (sched_load_run s3 ti _ Hki)). cbn [kt_proc idle_thread].
    by rewrite (mbind_run _ _ _ _ _ E4), (mbind_run _ _ _ _ _ E5), (mbind_run _ _ _ _ _ E5'), (mbind_run _ _ _ _ _ E6).
  - pose proof (wt_procs _ _ _ _ _ W) as HP. pose proof (wt_inv _ _ _ _ _ W) as I7.
    assert (procs s7 !! pd = Some z) as Hz7 by (rewrite HP; change (procs s6) with (procs s5); by rewrite EP, !lookup_insert_ne).
    split; rewrite ?HP; try done.
    + exists c', (vfs_root_vn s2). do 5 (split; [done|]). by exists y'.
    + rewrite HP in Hz7. by exists z.
    + apply (pi_init _ _ I7 i y'); [by rewrite HP|done].
    + intros q w. change (procs s6) with (procs s5). rewrite EP, !lookup_insert_Some. intros [[<- _]|[_ [[<- _]|[_ Hq]]]]; auto.
      destruct (bo_procs _ _ _ _ _ _ B2 q w Hq); [auto|set_solver].
    + split; [exact (wt_switched _ _ _ _ _ W)|]. split; [done|]. destruct (pi_cur _ _ I7) as (xc & c7 & Hxc & Hpc & _).
      destruct (l_one _ _ (pi_link _ _ I7) pd z Hz7) as [[_ H]|(u & x & H & Hx & Hxp)]; [congruence|]. rewrite Hzt in H. injection H as <-. congruence.
    + change (kst s6) with k6 in Hw. rewrite G1, G2, Ecp, Ect in Hw. split; [done|]. destruct (wt_saved _ _ _ _ _ W) as (x & Hx & _ & Hk).
      change (kst s6) with k6 in Hx. rewrite G2, Ect in Hx. eauto.
Qed.

(** A test command of the kernel shell, given by a process without children,
    runs its test in a new child and waits for it. *)
Theorem run_test_waits L s name func arg1 fuel kshell c l t0 : pinv L s -> plenty -> switched (kst s) = false -> kshell <> 0 ->
  procs s !! curproc (kst s) = Some c -> list_items (p_children c) = [] ->
  (exists i, 0 <= i < PROC_MAX_COUNT /\ forall q y, procs s !! q = Some y -> p_pid y <> i) ->
  (exists q y, procs s !! q = Some y /\ p_pid y = PID_INIT) -> items (kst s) RunQ = l ++ [t0] -> fuel <> O ->
  exists p t y s', run_test name func arg1 fuel kshell s = Ok (Blocked, s') /\ pinv L s' /\ procs s !! p = None /\ procs s' !! p = Some y /\
    p_pproc y = curproc (kst s) /\ list_items (p_threads y) = [t] /\ items (kst s') RunQ = t :: l /\ curthr (kst s') = t0.
Proof.
  intros I PL Hsw Hks Hc Hch Hf Hi Hrq Hfu. destruct (spawn_ok L s name func arg1 0 c I PL Hc Hf (or_intror Hi)) as (p & t & pid & s1 & s2 & E1 & E2 & I2 & H & _).
  destruct (sp_new _ _ _ _ _ _ H) as (y & Hy & _ & Hpp & _ & Hst & Hth & _). destruct (sp_thr _ _ _ _ _ _ H) as [Hft [k Hk]].
  assert (t <> curthr (kst s2)) as Hne by (rewrite (sp_curthr _ _ _ _ _ _ H); intros ->; destruct (pi_cur _ _ I) as (xc & _ & Hxc & _); congruence).
  destruct (make_runnable_pinv L s2 t (idle_thread p k) I2) as (k3 & E3 & I3 & Hi3 & T3); [by rewrite (sp_switched _ _ _ _ _ _ H)|done..|]. set (s3 := upd_kst k3 s2) in *.
  pose proof (st_curproc _ _ _ _ T3) as G1. pose proof (st_switched _ _ _ _ T3) as G3. rewrite (sp_curproc _ _ _ _ _ _ H) in G1. rewrite (sp_switched _ _ _ _ _ _ H), Hsw in G3.
  rewrite (sp_queues _ _ _ _ _ _ H), Hrq in Hi3. set (c' := with_pchildren (list_insert_tail p) c).
  assert (procs s3 !! curproc (kst s3) = Some c') as Hc3 by (cbn; rewrite G1; exact (sp_cur _ _ _ _ _ _ H)).
  assert (list_items (p_children c') = [p]) as Hch3 by (cbn; rewrite items_insert_tail, Hch; [done|rewrite Hch; apply not_elem_of_nil]).
  destruct (wait_first L fuel s3 c' p y [] (t :: l) t0 0 I3 G3 Hc3 Hch3 Hy Hst Hi3 Hfu) as (s4 & E4 & W & Hcur & _ & Hr4).
  exists p, t, y, s4. split; [|split; [apply W|split; [apply H|split; [by rewrite (wt_procs _ _ _ _ _ W)|done]]]].
  unfold run_test. rewrite (proj2 (Z.eqb_neq _ _) Hks), (mbind_run _ _ s tt s eq_refl), (mbind_run _ _ _ _ _ E1), (mbind_run _ _ _ _ _ E2), (mbind_run _ _ _ _ _ E3).
  rewrite (mbind_run (mget _) _ s3 (list_items (proc_list s3)) s3 eq_refl). cbn [wait_children].
  rewrite (mbind_run cur_proc _ s3 (curproc (kst s3)) s3 eq_refl), (mbind_run _ _ _ _ _ (load_proc_run _ _ _ Hc3)), Hch3, (bool_decide_eq_false_2 ([p] = [])) by done.
  by rewrite (mbind_run _ _ _ _ _ E4).
Qed.
End Start.

(** ** An example: the kernel with one file system *)
Module BootExamples.
#[local] Existing Instance seq_klist.
#[local] Existing Instance first_slab.
#[local] Existing Instance i386_geometry.
#[local] Existing Instance weenix_errno.
#[local] Existing Instance weenix_consts.
#[local] Existing Instance plain_context.
#[local] Existing Instance ledger.
#[local] Existing Instance emptied.
#[local] Existing Instance ProcExamples.links.
#[local] Existing Instance ProcExamples.no_intr.

(** Mounting the root file system: vnode 7 is its root. *)
Definition mount_root : M ps unit := fun s =>
  Ok (tt, mkPs _ _ (procs s) (proc_list s) (next_pid s) (proc_initproc s) 7 (exts s) (kst s) (HVnode 7 :: res s : list hold)).
#[local] Instance calls : BootCalls := {|
  pt_template_init := mret_ tt; do_mkdir _ := mret_ 0; do_mknod _ _ _ := mret_ 0; intr_enable := mret_ tt;
  init_order := [InitSched; InitPageout; InitOther mount_root];
  S_IFCHR := 8192; MEM_NULL_DEVID := 0; MEM_ZERO_DEVID := 1; MKDEVID := fun a b => a * 256 + b;
  idleproc_fn := 1000; initproc_fn := 1001; pageoutd_fn := 1002; pageoutd_waitq := 900;
  sunghan_test := 1003; sunghan_deadlock_test := 1004; faber_thread_test := 1005; vfstest_main := 1006;
|}.
#[local, refine] Instance laws : BootLaws := {|
  init_first := []; init_middle := []; init_last := [mount_root]; driver_queues := [];
|}.
Proof.
  1-4: intros; intros r R H; by eexists _, r.
  - vm_compute; reflexivity.
  - done.
  - repeat constructor. intros s L R Hh _. eexists _, (HVnode 7 :: L). split; [reflexivity|]. split; [by split; auto|].
    split; [|intros _; by left]. cbn in Hh |- *. by rewrite Hh.
  - intros n q []%elem_of_nil.
  - intros s s' H. cbn in H. apply mbind_Ok in H as ([] & s1 & _ & H). apply mbind_Ok in H as ([] & s2 & E & H). injection H as <-. injection E as <-.
    split; [done|]. by intros a ?%elem_of_nil.
Defined.

Lemma kernel_boots_witness : exists L' s idle init pd t ti td,
  (bootstrap ;;; idleproc_run 1 500) (kernel_start 0 ([] : list hold)) = Ok ((Blocked, None), s) /\ kernel_up L' s idle init pd t ti td 500.
Proof. refine (kernel_boots [] 0 _ 1 500 _ _ _); [exact ProcExamples.fam_plenty|reflexivity|discriminate]. Defined.
(** The same by computation: the numbers of the processes, of the running one and
    the length of the run queue. *)
Example boot_computed :
  match (bootstrap ;;; idleproc_run 1 500) (kernel_start 0 ([] : list hold)) with
  | Ok (_, s) => Some (map (fun p => p_pid <$> procs s !! p) (list_items (proc_list s)), p_pid <$> procs s !! curproc (kst s), length (items (kst s) RunQ))
  | Err _ => None
  end = Some ([Some 0; Some 1; Some 2], Some 2, 1%nat).
Proof. vm_compute. reflexivity. Qed.
End BootExamples.
