(* ===== verification/Fork.v ===== *)
(** * proc/fork.c: fork

    [do_fork] on processes whose address spaces are those of [Vmmap].  The
    state of resources that processes use ([ProcRes]) here consists of the
    address spaces, the words of kernel memory, and the other resources (files,
    vnodes, page directories, stacks), which stay an interface.  The instance
    [vm_res] proves for address spaces what [Proc] relies on. *)
From stdpp Require Import base gmap list fin_maps strings.
From Stdlib Require Import ZArith Lia Ascii.
From S2P Require Import Prelude KEnv Vmmap ForkVm Sched Proc ProcInv ProcThm.
Open Scope Z_scope.
Open Scope c_scope.

(** The resources other than address spaces. *)
Class OtherRes := other_res : ProcRes.

(** [struct regs]: its size and the offset of [r_eax], in bytes; the address of
    [userland_entry]. *)
Class RegsLayout `{ProcConsts} := {
  REGS_SIZE : Z; R_EAX : Z; userland_entry : Z;
  regs_fit : 0 < REGS_SIZE /\ REGS_SIZE + 12 <= DEFAULT_STACK_SIZE;
  regs_words : REGS_SIZE mod 4 = 0;
  r_eax_in : 0 <= R_EAX /\ R_EAX + 4 <= REGS_SIZE /\ R_EAX mod 4 = 0;
}.

(** ** Address spaces as resources of processes *)
Section Res.
Context `{KL : KList} `{SL : Slab} `{KG : KGeometry} `{MO : Mmobjs} `{MU : !Mmu} `{MF : MapFlags} `{OR : OtherRes}.

(** [fr_mem] is the content of kernel memory by word address. *)
Record frs := mkFrs { fr_vm : vms; fr_mem : Z -> Z; fr_other : @rst other_res }.
Definition on_vm {A} (c : M vms A) : M frs A := fun r =>
  match c (fr_vm r) with Ok (a, v) => Ok (a, mkFrs v (fr_mem r) (fr_other r)) | Err f => Err f end.
Definition on_other {A} (c : M (@rst other_res) A) : M frs A := fun r =>
  match c (fr_other r) with Ok (a, o) => Ok (a, mkFrs (fr_vm r) (fr_mem r) o) | Err f => Err f end.
Definition mem_op {A} (c : M (Z -> Z) A) : M frs A := fun r =>
  match c (fr_mem r) with Ok (a, m) => Ok (a, mkFrs (fr_vm r) m (fr_other r)) | Err f => Err f end.

Definition map_of (h : hold) : option Z := match h with HMap m => Some m | _ => None end.
Definition not_map (h : hold) : Prop := match h with HMap _ => False | _ => True end.
#[local] Instance not_map_dec h : Decision (not_map h).
Proof. destruct h; apply _. Defined.
Definition others (R : list hold) : list hold := base.filter not_map R.
Definition maps_of (R : list hold) : list Z := omap map_of R.
Definition vm_holds (r : frs) (R : list hold) : Prop := @holds other_res (fr_other r) (others R) /\
  exists W, W.*1 ≡ₚ maps_of R /\ maps_inv (fr_vm r) W [].

Lemma vm_holds_perm r R R' : R ≡ₚ R' -> vm_holds r R -> vm_holds r R'.
Proof.
  intros H [H1 (W & HW & I)]. split.
  - eapply holds_perm; [|exact H1]. unfold others. by rewrite H.
  - exists W. split; [|done]. rewrite HW. unfold maps_of. by rewrite H.
Qed.
(** An operation on the other resources that gives or takes [h]. *)
Lemma on_vm_run {A} (c : M vms A) r a v : c (fr_vm r) = Ok (a, v) -> on_vm c r = Ok (a, mkFrs v (fr_mem r) (fr_other r)).
Proof. unfold on_vm. by intros ->. Qed.
Lemma on_other_inv {A} (c : M (@rst other_res) A) r a r' : on_other c r = Ok (a, r') -> exists o, c (fr_other r) = Ok (a, o).
Proof. unfold on_other. destruct (c (fr_other r)) as [[b o]|]; [|done]. intros [= <- _]. by exists o. Qed.
Lemma on_other_run {A} (c : M (@rst other_res) A) r a o : c (fr_other r) = Ok (a, o) -> on_other c r = Ok (a, mkFrs (fr_vm r) (fr_mem r) o).
Proof. unfold on_other. by intros ->. Qed.
Lemma others_elem h R : not_map h -> h ∈ R -> h ∈ others R.
Proof. intros Hn Hin. unfold others. by apply list_elem_of_filter. Qed.
Lemma maps_split W m l : W.*1 ≡ₚ m :: l -> exists vs (W' : list (Z * list (Z * vmarea))), W ≡ₚ (m, vs) :: W' /\ W'.*1 ≡ₚ l.
Proof.
  intros H. assert (m ∈ W.*1) as Hin by (rewrite H; by left). apply list_elem_of_fmap in Hin as ([m' vs] & -> & Hw).
  apply elem_of_Permutation in Hw as [W' HW']. exists vs, W'. split; [done|]. rewrite HW' in H. cbn in H. by apply Permutation_cons_inv in H.
Qed.

#[refine] #[local] Instance vm_res : ProcRes := {|
  rst := frs;
  vref v := on_other (@vref other_res v); vput v := on_other (@vput other_res v);
  fref f := on_other (@fref other_res f); fput f := on_other (@fput other_res f);
  vmmap_create := on_vm Vmmap.vmmap_create; set_vmm_proc m p := on_vm (ForkVm.set_vmm_proc m p);
  vmmap_destroy m := on_vm (Vmmap.vmmap_destroy m);
  pt_create_pagedir := on_other (@pt_create_pagedir other_res); pt_destroy_pagedir d := on_other (@pt_destroy_pagedir other_res d);
  page_alloc_n n := on_other (@page_alloc_n other_res n); page_free_n k n := on_other (@page_free_n other_res k n);
  obj_keeps := @obj_keeps other_res;
  holds := vm_holds;
|}.
Proof.
  - intros r R R'. apply vm_holds_perm.
  - intros r R v [H Hm] Hin. destruct (vref_ok _ _ v H) as (o & E & H'); [by apply others_elem|].
    eexists. split; [by apply on_other_run|]. by split.
  - intros r R v [H Hm]. destruct (vput_ok _ _ v H) as (o & E & H'). eexists. split; [by apply on_other_run|]. by split.
  - intros r R f [H Hm] Hin. destruct (fref_ok _ _ f H) as (o & E & H'); [by apply others_elem|].
    eexists. split; [by apply on_other_run|]. by split.
  - intros r R f [H Hm]. destruct (fput_ok _ _ f H) as (o & E & H'). eexists. split; [by apply on_other_run|]. by split.
  - intros r R m r' [H (W & HW & I)] E. unfold on_vm, Vmmap.vmmap_create in E. destruct (slab_pick (vmaps (fr_vm r))) as [q|] eqn:Hq; [|done].
    injection E as <- <-. destruct (maps_create _ _ _ _ I Hq) as [I' H0]. split; [done|]. split; [done|]. exists ((q, []) :: W). split; [|done]. cbn. by rewrite HW.
  - intros r R m p [H (W & HW & I)]. destruct (maps_set_proc _ _ _ m p I) as (s' & E & I' & _); [rewrite HW; by left|].
    eexists. split; [by apply on_vm_run|]. split; [done|]. by exists W.
  - intros r R m [H (W & HW & I)]. cbn in HW. destruct (maps_split W m _ HW) as (vs & W' & E & HW').
    destruct (maps_destroy _ _ _ _ _ (maps_inv_perm _ _ _ _ E I)) as (s' & Hr & I'). eexists. split; [by apply on_vm_run|]. split; [done|]. by exists W'.
  - intros r R [H Hm]. destruct (pt_create_pagedir_ok _ _ H) as (d & o & E & H'). eexists d, _. split; [by apply on_other_run|].
    destruct (d =? 0); by split.
  - intros r R d [H Hm]. destruct (pt_destroy_pagedir_ok _ _ d H) as (o & E & H'). eexists. split; [by apply on_other_run|]. by split.
  - intros r R n [H Hm]. destruct (page_alloc_n_ok _ _ n H) as (k & o & E & H'). eexists k, _. split; [by apply on_other_run|].
    destruct (k =? 0); by split.
  - intros r R k n [H Hm]. destruct (page_free_n_ok _ _ k n H) as (o & E & H'). eexists. split; [by apply on_other_run|]. by split.
Defined.
End Res.
#[export] Existing Instance vm_res.

(** ** Model *)
Section Model.
Context `{KL : KList} `{SL : Slab} `{KG : KGeometry} `{LK : KLink} `{IN : KIntr} `{ER : KErrno}.
Context `{MO : Mmobjs} `{SF : !ShadowFields} `{MU : !Mmu} `{MF : MapFlags} `{OR : OtherRes}.
Context `{PC : ProcConsts} `{RL : !RegsLayout} `{CX : Contexts} `{ST : !StaleList}.

(** *** Kernel memory *)
Definition put_word (a v : Z) (mem : Z -> Z) : Z -> Z := fun x => if x =? a then v else mem x.
Fixpoint copy_words (n : nat) (dst src : Z) (mem : Z -> Z) : Z -> Z :=
  match n with
  | O => mem
  | S n => copy_words n (dst + 4) (src + 4) (put_word dst (mem src) mem)
  end.
Definition store_word (a v : Z) : M ps unit := res_op (mem_op (mput (put_word a v))).
Definition memcpy (dst src len : Z) : M ps unit := res_op (mem_op (mput (copy_words (Z.to_nat (len / 4)) dst src))).

Definition fork_setup_stack (regs kstack : Z) : M ps Z :=
  let esp := u32 (u32 (kstack + DEFAULT_STACK_SIZE) - (REGS_SIZE + 12)) in
  store_word (esp + 4) (esp + 8) ;;;
  memcpy (esp + 8) regs REGS_SIZE ;;;
  mret_ esp.

(** [childThread->kt_ctx.c_... = ...] *)
Definition store_ctx (t : Z) (f : kctx -> kctx) : M ps unit :=
  let! e := fun s => mthe (exts s !! t) s in
  mput (upd_exts (<[t := mkKext (kt_errno e) (f (kt_context e))]>)).
(** The loop over the file descriptors. *)
Fixpoint fork_files (cur child : Z) (a n : nat) : M ps unit :=
  match n with
  | O => mret_ tt
  | S n =>
      let! c := load_proc cur in
      let! f := mthe (p_files c !! a) in
      store_proc child (with_files (<[a := f]>)) ;;;
      let! y := load_proc child in
      let! g := mthe (p_files y !! a) in
      (if negb (g =? 0) then res_op (fref g) else mret_ tt) ;;;
      fork_files cur child (S a) n
  end.
Definition with_ktproc (p : Z) (x : kthread) : kthread :=
  mkThread (kt_state x) (kt_wchan x) (kt_qlink x) (kt_cancelled x) (kt_retval x) p (kt_kstack x) (kt_ctx x).
(** "childProcess" *)
Definition child_name : list ascii := String.list_ascii_of_string "childProcess".

(** From [kthread_clone] on, with the address space in place. *)
Definition fork_finish (regs cur child : Z) : M ps Z :=
  let! curthr := mget (fun s => curthr (kst s)) in
  let! t := kthread_clone curthr in
  let! y := load_proc child in
  KASSERT (bool_decide (p_state y = PROC_RUNNING)) ;;;
  KASSERT (negb (p_pagedir y =? 0)) ;;;
  let! x := sched_op (load_thr t) in
  KASSERT (negb (kt_kstack x =? 0)) ;;;
  store_word (regs + R_EAX) 0 ;;;
  store_ctx t (fun k => mkCtx (p_pagedir y) (c_eip k) (c_esp k) (c_kstack k) (c_kstacksz k)) ;;;
  store_ctx t (fun k => mkCtx (c_pdptr k) userland_entry (c_esp k) (c_kstack k) (c_kstacksz k)) ;;;
  let! esp := fork_setup_stack regs (kt_kstack x) in
  store_ctx t (fun k => mkCtx (c_pdptr k) (c_eip k) esp (c_kstack k) (c_kstacksz k)) ;;;
  store_ctx t (fun k => mkCtx (c_pdptr k) (c_eip k) (c_esp k) (kt_kstack x) (c_kstacksz k)) ;;;
  store_ctx t (fun k => mkCtx (c_pdptr k) (c_eip k) (c_esp k) (c_kstack k) DEFAULT_STACK_SIZE) ;;;
  store_word (regs + R_EAX) (p_pid y) ;;;
  fork_files cur child 0 (Z.to_nat NFILES) ;;;
  let! y := load_proc child in
  (if negb (p_cwd y =? 0) then res_op (vput (p_cwd y)) else mret_ tt) ;;;
  let! c := load_proc cur in
  store_proc child (with_cwd (p_cwd c)) ;;;
  let! y := load_proc child in
  (if negb (p_cwd y =? 0) then res_op (vref (p_cwd y)) else mret_ tt) ;;;
  sched_op (store_thr t (with_ktproc child)) ;;;
  store_proc child (with_pthreads (list_insert_tail t)) ;;;
  let! c := load_proc cur in
  store_proc child (with_brks (p_brk c) (p_start_brk c)) ;;;
  sched_op (sched_make_runnable t) ;;;
  let! y := load_proc child in
  mret_ (p_pid y).

Definition do_fork (regs : Z) : M ps Z :=
  KASSERT (negb (regs =? 0)) ;;;
  let! cur := cur_proc in
  KASSERT (negb (cur =? 0)) ;;;
  let! c := load_proc cur in
  KASSERT (bool_decide (p_state c = PROC_RUNNING)) ;;;
  let! child := proc_create child_name in
  let! c := load_proc cur in
  let! m := res_op (on_vm (vmmap_clone (p_vmmap c))) in
  res_op (on_vm (ForkVm.set_vmm_proc m child)) ;;;
  store_proc child (with_pvmmap m) ;;;
  let! y := load_proc child in
  let! c := load_proc cur in
  res_op (on_vm (fork_objects (p_vmmap c) (p_vmmap y))) ;;;
  res_op (on_vm (fork_unmap (p_pagedir c))) ;;;
  fork_finish regs cur child.
End Model.

(** ** Kernel memory *)
Section Mem.
Implicit Types mem : Z -> Z.
Lemma copy_words_outside n : forall dst src mem a, (forall i, 0 <= i < Z.of_nat n -> a <> dst + 4 * i) -> copy_words n dst src mem a = mem a.
Proof.
  induction n as [|n IH]; intros dst src mem a Ha; [done|]. cbn [copy_words]. rewrite IH.
  - unfold put_word. destruct (Z.eqb_spec a dst); [|done]. exfalso. apply (Ha 0); lia.
  - intros i Hi ->. apply (Ha (i + 1)); lia.
Qed.
(** Copying to a place that does not overlap what is copied. *)
Lemma copy_words_inside n : forall dst src mem i, dst + 4 * Z.of_nat n <= src \/ src + 4 * Z.of_nat n <= dst -> 0 <= i < Z.of_nat n ->
  copy_words n dst src mem (dst + 4 * i) = mem (src + 4 * i).
Proof.
  induction n as [|n IH]; intros dst src mem i Hd Hi; [lia|]. cbn [copy_words]. destruct (decide (i = 0)) as [->|].
  - rewrite copy_words_outside by lia. unfold put_word. rewrite Z.mul_0_r, !Z.add_0_r. by rewrite Z.eqb_refl.
  - replace (dst + 4 * i) with (dst + 4 + 4 * (i - 1)) by lia. rewrite IH by lia. unfold put_word.
    destruct (Z.eqb_spec (src + 4 + 4 * (i - 1)) dst); [lia|]. f_equal. lia.
Qed.
End Mem.

Section Spec.
Context `{KL : KList} `{SL : Slab} `{KG : KGeometry} `{LK : KLink} `{IN : KIntr} `{ER : KErrno}.
Context `{MO : Mmobjs} `{SF : !ShadowFields} `{MU : !Mmu} `{MF : MapFlags} `{OR : OtherRes} `{FO : !ForkObjs}.
Context `{PC : ProcConsts} `{RL : !RegsLayout} `{CX : Contexts} `{ST : !StaleList}.

(** ** The address space *)
(** The address space [m] before, in [v], and after, in [v'], and its copy [m']. *)
Definition space_forked (v v' : vms) (m m' pd : Z) : Prop := exists vs vs' ws,
  map_ok v (m, vs) /\ map_ok v' (m, vs') /\ map_ok v' (m', ws) /\
  (forall vfn, page_forked (objs v) (objs v') (amap vs.*2 vfn) (amap vs'.*2 vfn) (amap ws.*2 vfn)) /\
  (forall pn, tlb_entry (mmu v') pn = None) /\ forall pn, LOW_PN <= pn < HIGH_PN -> pt_entry (mmu v') pd pn = None.

Lemma fork_res r (R : list hold) m p pd : vm_plenty -> vm_holds r R -> HMap m ∈ R ->
  exists m' v1 v2 v3 v4, vmmap_clone m (fr_vm r) = Ok (m', v1) /\ ForkVm.set_vmm_proc m' p v1 = Ok (tt, v2) /\ fork_objects m m' v2 = Ok (tt, v3) /\
    fork_unmap pd v3 = Ok (tt, v4) /\ m' <> 0 /\ space_forked (fr_vm r) v4 m m' pd /\
    forall mem, vm_holds (mkFrs v4 mem (fr_other r)) (HMap m' :: R).
Proof.
  intros PL [Ho (W & HW & I)] Hin. assert (m ∈ maps_of R) as Hm by (apply list_elem_of_omap; by exists (HMap m)).
  apply elem_of_Permutation in Hm as [l Hl]. rewrite Hl in HW. destruct (maps_split W m l HW) as (vs & W' & E & HW').
  pose proof (maps_inv_perm _ _ _ _ E I) as I0.
  destruct (fork_space_ok (fr_vm r) m vs W' [] p pd PL I0) as (m' & v1 & v2 & v3 & v4 & vs' & ws & R1 & R2 & R3 & R4 & H0 & Hn & I4 & F & Ht & Hp).
  exists m', v1, v2, v3, v4. do 5 (split; [done|]). split.
  - exists vs, vs', ws. split; [apply (mi_maps _ _ _ I0); left|]. split; [apply (mi_maps _ _ _ I4); left|].
    split; [apply (mi_maps _ _ _ I4); right; left|]. done.
  - intros mem. split; [done|]. exists ((m, vs') :: (m', ws) :: W'). split; [|done]. cbn. rewrite HW'. fold (maps_of R). rewrite Hl. apply Permutation_swap.
Qed.

(** ** The thread *)
Definition clone_of (x : kthread) (k : Z) : kthread :=
  mkThread (kt_state x) (kt_wchan x) false (kt_cancelled x) (kt_retval x) 0 k (start_ipl, CStart).
Lemma kthread_clone_run s thr x e q t k r : threads (kst s) !! thr = Some x -> kt_state x = KT_RUN -> procs s !! kt_proc x = Some q ->
  exts s !! thr = Some e -> slab_pick (threads (kst s)) = Some t -> page_alloc_n stack_pages (res s) = Ok (k, r) ->
  kthread_clone thr s = Ok (t, upd_exts (<[t := mkKext (kt_errno e) (context_setup 0 0 0 k DEFAULT_STACK_SIZE (Proc.p_pagedir q))]>)
    (upd_kst (upd_threads (<[t := clone_of x k]>) (kst s)) (upd_res r s))).
Proof.
  intros Hx Hrun Hq He Ht Hk. unfold kthread_clone. rewrite (mbind_run _ _ _ _ _ (sched_load_run _ _ _ Hx)).
  rewrite bool_decide_eq_true_2 by done. rewrite (mbind_run _ _ s tt s eq_refl).
  rewrite (mbind_run thread_alloc _ s t s) by (unfold thread_alloc; by rewrite Ht).
  rewrite (mbind_run alloc_stack _ s k (upd_res r s)) by (by apply res_op_run).
  rewrite (mbind_run _ _ _ _ _ (load_proc_run (upd_res r s) _ q Hq)).
  rewrite (mbind_run (fun s => mthe (exts s !! thr) s) _ (upd_res r s) e (upd_res r s)) by (cbn; by rewrite He). unfold new_thread.
  fold (clone_of x k). set (e' := mkKext _ _). set (s' := upd_exts _ _).
  rewrite (mbind_run _ _ (upd_res r s) tt s' eq_refl).
  rewrite (mbind_run _ _ _ _ _ (sched_load_run s' t (clone_of x k) (lookup_insert_eq _ _ _))). cbn [kt_state clone_of].
  rewrite bool_decide_eq_true_2 by done. done.
Qed.
Lemma store_ctx_run s t e f : exts s !! t = Some e ->
  store_ctx t f s = Ok (tt, upd_exts (<[t := mkKext (kt_errno e) (f (kt_context e))]>) s).
Proof. intros H. unfold store_ctx. rewrite (mbind_run (fun s => mthe (exts s !! t) s) _ s e s) by (cbn; by rewrite H). done. Qed.

(** ** The files *)
Lemma fork_files_run cur child c n : forall a s y r (R : list hold), cur <> child -> procs s !! cur = Some c -> procs s !! child = Some y -> res s = r ->
  (a + n)%nat = length (p_files c) -> length (p_files y) = length (p_files c) -> take a (p_files y) = take a (p_files c) -> holds r R ->
  (forall f, f ∈ p_files c -> f <> 0 -> HFile f ∈ R) ->
  exists r', fork_files cur child a n s = Ok (tt, upd_procs (<[child := with_files (fun _ => p_files c) y]>) (upd_res r' s)) /\
    holds r' ((drop a (p_files c) ≫= opt_hold HFile) ++ R) /\ fr_vm r' = fr_vm r /\ fr_mem r' = fr_mem r.
Proof.
  induction n as [|n IH]; intros a s y r R Hne Hc Hy Hr Hl Hly Htk Hh HR; cbn [fork_files].
  - exists r. rewrite drop_ge by lia. split; [|done]. unfold mret_. do 2 f_equal.
    rewrite !take_ge in Htk by lia. assert (with_files (fun _ => p_files c) y = y) as -> by (destruct y; unfold with_files; cbn in *; by subst).
    subst r. destruct s; unfold upd_procs; cbn in *. by rewrite insert_id.
  - rewrite (mbind_run _ _ _ _ _ (load_proc_run _ _ _ Hc)).
    destruct (lookup_lt_is_Some_2 (p_files c) a) as [f Hf]; [lia|]. rewrite Hf, (mbind_run _ _ s f s eq_refl).
    rewrite (mbind_run _ _ _ _ _ (store_proc_run s child y _ Hy)). set (y1 := with_files _ y). set (s1 := upd_procs _ s).
    assert (procs s1 !! child = Some y1) as Hy1 by apply lookup_insert_eq.
    rewrite (mbind_run _ _ _ _ _ (load_proc_run s1 _ _ Hy1)).
    assert (p_files y1 !! a = Some f) as Hf1 by (cbn; rewrite list_lookup_insert_eq; [done|lia]).
    rewrite Hf1, (mbind_run _ _ s1 f s1 eq_refl).
    assert (exists r1, (if negb (f =? 0) then res_op (fref f) else mret_ tt) s1 = Ok (tt, upd_res r1 s1) /\ holds r1 (opt_hold HFile f ++ R) /\
      fr_vm r1 = fr_vm r /\ fr_mem r1 = fr_mem r) as (r1 & E1 & H1 & Ev & Em).
    { unfold opt_hold. destruct (Z.eqb_spec f 0) as [|Hf0]; cbn [negb app]; [exists r; split; [subst r; reflexivity|done]|].
      assert (HFile f ∈ R) as Hin by (apply HR; [by eapply list_elem_of_lookup_2|done]).
      destruct (fref_ok _ _ _ Hh Hin) as (r1 & E & H1). exists r1. split; [apply res_op_run; cbn; by rewrite Hr|]. split; [done|].
      cbn in E. unfold on_other in E. destruct (@fref other_res f (fr_other r)) as [[? ?]|]; [|done]. by injection E as _ <-. }
    rewrite (mbind_run _ _ _ _ _ E1). destruct (IH (S a) (upd_res r1 s1) y1 r1 (opt_hold HFile f ++ R)) as (r' & E' & H' & Ev' & Em'); try done.
    + cbn. by rewrite lookup_insert_ne.
    + lia.
    + cbn. by rewrite length_insert.
    + cbn. rewrite (take_S_r _ _ f), (take_S_r _ _ f), take_insert_ge by (done || lia). by rewrite Htk.
    + intros g Hg Hg0. apply elem_of_app. right. by apply HR.
    + exists r'. split; [|split; [|split; congruence]].
      * rewrite E'. unfold s1, upd_procs, upd_res. cbn. do 3 f_equal. by rewrite insert_insert_eq.
      * rewrite (drop_S _ _ _ Hf). cbn [mbind list_bind]. eapply holds_perm; [|exact H']. rewrite <- app_assoc. solve_Permutation.
Qed.

(** ** Kernel stacks *)
Definition stack_bytes : Z := stack_pages * PAGE_SIZE.
Lemma stack_bytes_le : DEFAULT_STACK_SIZE <= stack_bytes.
Proof.
  unfold stack_bytes, stack_pages. rewrite Z.shiftr_div_pow2 by (pose proof page_shift_pos; lia). fold PAGE_SIZE.
  pose proof page_size_pos. pose proof (Z.div_mod DEFAULT_STACK_SIZE PAGE_SIZE). pose proof (Z.mod_pos_bound DEFAULT_STACK_SIZE PAGE_SIZE). nia.
Qed.
(** Stacks are where [page_alloc_n] says, in memory of their own. *)
Class Stacks := {
  stack_range r k (R : list hold) : @holds other_res r (HStack k :: R) -> 0 < k /\ k + stack_bytes <= 2 ^ 32;
  stack_apart r k k' (R : list hold) : @holds other_res r (HStack k :: HStack k' :: R) -> k + stack_bytes <= k' \/ k' + stack_bytes <= k;
}.

(** The memory after [do_fork], with the registers of the caller at [regs], the
    child's stack pointer [esp] and its number [pid]. *)
Definition fork_mem (regs esp pid : Z) (mem : Z -> Z) : Z -> Z :=
  put_word (regs + R_EAX) pid (copy_words (Z.to_nat (REGS_SIZE / 4)) (esp + 8) regs
    (put_word (esp + 4) (esp + 8) (put_word (regs + R_EAX) 0 mem))).
Record mem_forked (regs esp pid : Z) (mem mem' : Z -> Z) : Prop := {
  mf_arg : mem' (esp + 4) = esp + 8;
  mf_regs i : 0 <= i < REGS_SIZE / 4 -> mem' (esp + 8 + 4 * i) = if 4 * i =? R_EAX then 0 else mem (regs + 4 * i);
  mf_eax : mem' (regs + R_EAX) = pid;
  mf_rest a : a <> regs + R_EAX -> ~ (esp + 4 <= a < esp + 8 + REGS_SIZE) -> mem' a = mem a;
}.
Lemma fork_mem_ok regs esp pid mem : regs + REGS_SIZE <= esp + 4 \/ esp + 8 + REGS_SIZE <= regs ->
  mem_forked regs esp pid mem (fork_mem regs esp pid mem).
Proof.
  intros Hd. destruct regs_fit as [Hpos _]. pose proof regs_words as Hw. destruct r_eax_in as (E1 & E2 & E3).
  assert (REGS_SIZE = 4 * (REGS_SIZE / 4)) as Hsz by (pose proof (Z.div_mod REGS_SIZE 4); lia). set (n := REGS_SIZE / 4) in *.
  assert (R_EAX = 4 * (R_EAX / 4)) as He by (pose proof (Z.div_mod R_EAX 4); lia).
  unfold fork_mem. fold n. split.
  - unfold put_word at 1. destruct (Z.eqb_spec (esp + 4) (regs + R_EAX)); [lia|]. rewrite copy_words_outside by lia.
    unfold put_word at 1. by rewrite Z.eqb_refl.
  - intros i Hi. unfold put_word at 1. destruct (Z.eqb_spec (esp + 8 + 4 * i) (regs + R_EAX)); [lia|].
    rewrite copy_words_inside by lia. unfold put_word. destruct (Z.eqb_spec (regs + 4 * i) (esp + 4)); [lia|].
    destruct (Z.eqb_spec (regs + 4 * i) (regs + R_EAX)), (Z.eqb_spec (4 * i) R_EAX); lia || done.
  - unfold put_word at 1. by rewrite Z.eqb_refl.
  - intros a Ha Hn. unfold put_word at 1. rewrite (proj2 (Z.eqb_neq _ _) Ha). rewrite copy_words_outside by lia.
    unfold put_word. destruct (Z.eqb_spec a (esp + 4)); [lia|]. by rewrite (proj2 (Z.eqb_neq _ _) Ha).
Qed.

(** ** The run *)
Section Run.
(** The state after [proc_create]: [cur] and its new child [p]. *)
Context (s : ps) (cur p : Z) (c : proc) (Hc : procs s !! cur = Some c) (Hne : cur <> p) (Hcur : curproc (kst s) = cur).
(** The states of the run: the child's record, the contexts, the scheduler and
    the resources change. *)
Definition at_ (y : proc) (E : gmap Z kext) (K : ks) (r : frs) : ps :=
  mkPs _ _ (<[p := y]> (procs s)) (proc_list s) (next_pid s) (proc_initproc s) (vfs_root_vn s) E K r.

Lemma at_cur y E K r : load_proc cur (at_ y E K r) = Ok (c, at_ y E K r).
Proof. apply load_proc_run. cbn. by rewrite lookup_insert_ne. Qed.
Lemma at_child y E K r : load_proc p (at_ y E K r) = Ok (y, at_ y E K r).
Proof. apply load_proc_run. cbn. by rewrite lookup_insert_eq. Qed.
Lemma at_store y E K r f : store_proc p f (at_ y E K r) = Ok (tt, at_ (f y) E K r).
Proof.
  rewrite (store_proc_run _ _ y) by (cbn; by rewrite lookup_insert_eq). unfold at_, upd_procs. cbn. by rewrite insert_insert_eq.
Qed.
Lemma at_res {A} (op : M frs A) y E K r a r' : op r = Ok (a, r') -> res_op op (at_ y E K r) = Ok (a, at_ y E K r').
Proof. intros H. exact (res_op_run (op : M rst A) (at_ y E K r) a r' H). Qed.
Lemma at_sched {A} (op : M ks A) y E K r a K' : op K = Ok (a, K') -> sched_op op (at_ y E K r) = Ok (a, at_ y E K' r).
Proof. intros H. exact (sched_op_run op (at_ y E K r) a K' H). Qed.
Lemma at_ctx t f y E e K r : store_ctx t f (at_ y (<[t := e]> E) K r) = Ok (tt, at_ y (<[t := mkKext (kt_errno e) (f (kt_context e))]> E) K r).
Proof.
  rewrite (store_ctx_run _ _ e) by (cbn; by rewrite lookup_insert_eq). unfold at_, upd_exts. cbn. by rewrite insert_insert_eq.
Qed.
Lemma at_word a v y E K r : store_word a v (at_ y E K r) = Ok (tt, at_ y E K (mkFrs (fr_vm r) (put_word a v (fr_mem r)) (fr_other r))).
Proof. by apply at_res. Qed.
Lemma at_files y E K r (R : list hold) : length (p_files c) = Z.to_nat NFILES -> length (p_files y) = Z.to_nat NFILES -> holds r R ->
  (forall f, f ∈ p_files c -> f <> 0 -> HFile f ∈ R) ->
  exists r', fork_files cur p 0 (Z.to_nat NFILES) (at_ y E K r) = Ok (tt, at_ (with_files (fun _ => p_files c) y) E K r') /\
    holds r' ((p_files c ≫= opt_hold HFile) ++ R) /\ fr_vm r' = fr_vm r /\ fr_mem r' = fr_mem r.
Proof.
  intros L1 L2 Hh HR. destruct (fork_files_run cur p c (Z.to_nat NFILES) 0 (at_ y E K r) y r R Hne) as (r' & E' & H' & Ev & Em); try done.
  - cbn. by rewrite lookup_insert_ne.
  - cbn. by rewrite lookup_insert_eq.
  - congruence.
  - exists r'. split; [|done]. rewrite E'. unfold at_, upd_procs. cbn. by rewrite insert_insert_eq.
Qed.
(** [vput] of the child's directory and [vref] of the parent's. *)
Lemma at_cwd y E K r (R : list hold) : holds r (opt_hold HVnode (p_cwd y) ++ R) -> (p_cwd c <> 0 -> HVnode (p_cwd c) ∈ R) ->
  exists r1 r2, (if negb (p_cwd y =? 0) then res_op (vput (p_cwd y)) else mret_ tt) (at_ y E K r) = Ok (tt, at_ y E K r1) /\
    (forall y, (if negb (p_cwd c =? 0) then res_op (vref (p_cwd c)) else mret_ tt) (at_ y E K r1) = Ok (tt, at_ y E K r2)) /\
    holds r2 (opt_hold HVnode (p_cwd c) ++ R) /\ fr_vm r2 = fr_vm r /\ fr_mem r2 = fr_mem r.
Proof.
  intros Hh HR.
  assert (exists r1, (if negb (p_cwd y =? 0) then res_op (vput (p_cwd y)) else mret_ tt) (at_ y E K r) = Ok (tt, at_ y E K r1) /\ holds r1 R /\
    fr_vm r1 = fr_vm r /\ fr_mem r1 = fr_mem r) as (r1 & E1 & H1 & Ev & Em).
  { unfold opt_hold in Hh. destruct (p_cwd y =? 0); cbn [negb app] in *; [by exists r|].
    destruct (vput_ok _ _ _ Hh) as (r1 & E1 & H1). exists r1. split; [by apply at_res|]. split; [done|].
    cbn in E1. unfold on_other in E1. destruct (@vput other_res _ (fr_other r)) as [[? ?]|]; [|done]. by injection E1 as _ <-. }
  exists r1. unfold opt_hold. destruct (Z.eqb_spec (p_cwd c) 0) as [|H0]; cbn [negb app]; [by exists r1|].
  destruct (vref_ok _ _ _ H1 (HR H0)) as (r2 & E2 & H2). exists r2. split; [done|]. split; [intros; by apply at_res|]. split; [done|].
  cbn in E2. unfold on_other in E2. destruct (@vref other_res _ (fr_other r1)) as [[? ?]|]; [|done]. injection E2 as _ <-. done.
Qed.
End Run.
Lemma at_start s p y : procs s !! p = Some y -> s = at_ s p y (exts s) (kst s) (res s).
Proof. intros Hp. unfold at_. rewrite insert_id by done. by destruct s. Qed.

(** The child's record when it is built. *)
Definition built (c y : proc) (m : Z) : proc :=
  with_brks (Proc.p_brk c) (Proc.p_start_brk c) (with_cwd (p_cwd c) (with_files (fun _ => p_files c) (with_pvmmap m y))).
Definition fork_esp (k : Z) : Z := u32 (u32 (k + DEFAULT_STACK_SIZE) - (REGS_SIZE + 12)).

(** [do_fork] after [proc_create]: either there is no memory for a stack, or
    the child gets its address space, thread, files and directory. *)
Section Tail.
Context (s : ps) (p : Z) (c y : proc) (x : kthread) (e : kext) (t regs m' m0 : Z) (L rest : list hold) (r2 : frs).
Context (Hc : procs s !! curproc (kst s) = Some c) (Hne : curproc (kst s) <> p) (Hp : procs s !! p = Some y).
Context (Hrun : p_state y = PROC_RUNNING) (Hpd : Proc.p_pagedir y <> 0).
Context (Hx : threads (kst s) !! curthr (kst s) = Some x) (Hxr : kt_state x = KT_RUN) (Hxp : kt_proc x = curproc (kst s)).
Context (He : exts s !! curthr (kst s) = Some e) (Ht : slab_pick (threads (kst s)) = Some t).
Context (Hfc : length (p_files c) = Z.to_nat NFILES) (Hfy : p_files y = replicate (Z.to_nat NFILES) 0).
Context (Hspace : exists v1 v2 v3, vmmap_clone (Proc.p_vmmap c) (fr_vm (res s)) = Ok (m', v1) /\ ForkVm.set_vmm_proc m' p v1 = Ok (tt, v2) /\
  fork_objects (Proc.p_vmmap c) m' v2 = Ok (tt, v3) /\ fork_unmap (Proc.p_pagedir c) v3 = Ok (tt, fr_vm r2)).
Context (Hr2 : r2 = mkFrs (fr_vm r2) (fr_mem (res s)) (fr_other (res s))).
Context (Hh2 : holds r2 (opt_hold HVnode (p_cwd y) ++ rest)).
Context (HcwdR : p_cwd c <> 0 -> HVnode (p_cwd c) ∈ rest) (HfR : forall f, f ∈ p_files c -> f <> 0 -> HFile f ∈ rest).

Lemma fork_space_steps {A} (k : M ps A) :
  (let! c := load_proc (curproc (kst s)) in
   let! m := res_op (on_vm (vmmap_clone (Proc.p_vmmap c))) in
   res_op (on_vm (ForkVm.set_vmm_proc m p)) ;;;
   store_proc p (with_pvmmap m) ;;;
   let! y := load_proc p in
   let! c := load_proc (curproc (kst s)) in
   res_op (on_vm (fork_objects (Proc.p_vmmap c) (Proc.p_vmmap y))) ;;;
   res_op (on_vm (fork_unmap (Proc.p_pagedir c)))   ;;; k) (at_ s p y (exts s) (kst s) (res s)) = k (at_ s p (with_pvmmap m' y) (exts s) (kst s) r2).
Proof.
  destruct Hspace as (v1 & v2 & v3 & R1 & R2 & R3 & R4).
  rewrite (mbind_run _ _ _ _ _ (at_cur s _ p c Hc Hne y _ _ _)).
  rewrite (mbind_run _ _ _ _ _ (at_res s p _ y _ _ _ _ _ (on_vm_run _ _ _ _ R1))).
  rewrite (mbind_run _ _ _ _ _ (at_res s p _ y _ _ _ _ _ (on_vm_run _ (mkFrs v1 _ _) _ _ R2))).
  rewrite (mbind_run _ _ _ _ _ (at_store s p y _ _ _ _)), (mbind_run _ _ _ _ _ (at_child s p _ _ _ _)).
  rewrite (mbind_run _ _ _ _ _ (at_cur s _ p c Hc Hne _ _ _ _)).
  rewrite (mbind_run _ _ _ _ _ (at_res s p _ _ _ _ _ _ _ (on_vm_run _ (mkFrs v2 _ _) _ _ R3))).
  rewrite (mbind_run _ _ _ _ _ (at_res s p _ _ _ _ _ _ _ (on_vm_run _ (mkFrs v3 _ _) _ _ R4))).
  cbn [fr_mem fr_other]. by rewrite <- Hr2.
Qed.

Definition child_ctx (k : Z) : kext := mkKext (kt_errno e) (mkCtx (Proc.p_pagedir y) userland_entry (fork_esp k) k DEFAULT_STACK_SIZE).
Definition child_ks (k : Z) : ks := upd_threads (<[t := with_ktproc p (clone_of x k)]>) (kst s).

Lemma setup_stack_run y' E K r k : fork_setup_stack regs k (at_ s p y' E K r) =
  Ok (fork_esp k, at_ s p y' E K (mkFrs (fr_vm r) (copy_words (Z.to_nat (REGS_SIZE / 4)) (fork_esp k + 8) regs
    (put_word (fork_esp k + 4) (fork_esp k + 8) (fr_mem r))) (fr_other r))).
Proof.
  unfold fork_setup_stack. fold (fork_esp k). rewrite (mbind_run _ _ _ _ _ (at_word s p _ _ _ _ _ _)). unfold memcpy.
  by rewrite (mbind_run _ _ _ _ _ (at_res s p (mem_op (mput _)) _ _ _ (mkFrs _ _ _) tt _ eq_refl)).
Qed.
Lemma fork_finish_run : exists k r3, page_alloc_n stack_pages r2 = Ok (k, r3) /\
  if k =? 0 then fork_finish regs (curproc (kst s)) p (at_ s p (with_pvmmap m' y) (exts s) (kst s) r2) = Err FAssert
  else exists r6,
    (forall k' (K' : ks), sched_make_runnable t (child_ks k) = Ok (tt, K') -> k' = p_pid y ->
     fork_finish regs (curproc (kst s)) p (at_ s p (with_pvmmap m' y) (exts s) (kst s) r2) =
       Ok (k', at_ s p (with_pthreads (list_insert_tail t) (built c y m')) (<[t := child_ctx k]> (exts s)) K' r6)) /\
    holds r6 (opt_hold HVnode (p_cwd c) ++ (p_files c ≫= opt_hold HFile) ++ HStack k :: rest) /\ fr_vm r6 = fr_vm r2 /\
    fr_mem r6 = fork_mem regs (fork_esp k) (p_pid y) (fr_mem r2).
Proof.
  destruct (page_alloc_n_ok _ _ stack_pages Hh2) as (k & r3 & Ek & H3). exists k, r3. split; [done|].
  set (y2 := with_pvmmap m' y). set (s2 := at_ s p y2 (exts s) (kst s) r2).
  assert (fr_vm r3 = fr_vm r2 /\ fr_mem r3 = fr_mem r2) as [Ev3 Em3].
  { cbn in Ek. unfold on_other in Ek. destruct (@page_alloc_n other_res _ (fr_other r2)) as [[? ?]|]; [|done]. by injection Ek as _ <-. }
  set (e0 := mkKext (kt_errno e) (context_setup 0 0 0 k DEFAULT_STACK_SIZE (Proc.p_pagedir c))).
  set (K1 := upd_threads (<[t := clone_of x k]>) (kst s)).
  assert (kthread_clone (curthr (kst s)) s2 = Ok (t, at_ s p y2 (<[t := e0]> (exts s)) K1 r3)) as Ecl.
  { rewrite (kthread_clone_run s2 _ x e c t k r3); try done. cbn. rewrite Hxp. by rewrite lookup_insert_ne. }
  assert (fork_finish regs (curproc (kst s)) p s2 = Err FAssert \/ k <> 0) as Hz.
  { destruct (decide (k = 0)) as [->|]; [left|by right]. unfold fork_finish. rewrite (mbind_run (mget _) _ s2 (curthr (kst s)) s2 eq_refl).
    rewrite (mbind_run _ _ _ _ _ Ecl), (mbind_run _ _ _ _ _ (at_child s p _ _ _ _)), (bool_decide_eq_true_2 _ Hrun). cbn [negb].
    rewrite (mbind_run _ _ _ tt _ eq_refl), (proj2 (Z.eqb_neq (Proc.p_pagedir y2) 0) Hpd). rewrite (mbind_run _ _ _ tt _ eq_refl).
    rewrite (mbind_run _ _ _ _ _ (at_sched s p (load_thr t) _ _ K1 _ (clone_of x 0) K1 (load_thr_run _ _ _ (lookup_insert_eq _ _ _)))). done. }
  destruct (Z.eqb_spec k 0) as [->|Hk]; [by destruct Hz|]. clear Hz.
  set (r4 := mkFrs (fr_vm r3) (fork_mem regs (fork_esp k) (p_pid y) (fr_mem r3)) (fr_other r3)).
  assert (holds r4 (opt_hold HVnode (p_cwd y) ++ HStack k :: rest)) as H4.
  { cbn. unfold vm_holds, r4. cbn [fr_vm fr_other]. eapply vm_holds_perm; [|exact H3]. solve_Permutation. }
  set (E1 := <[t := child_ctx k]> (exts s)).
  destruct (at_files s (curproc (kst s)) p c Hc Hne y2 E1 K1 r4 (opt_hold HVnode (p_cwd y) ++ HStack k :: rest)) as (r5 & R5 & H5 & Ev5 & Em5); try done.
  { cbn. by rewrite Hfy, length_replicate. }
  { intros f Hf Hf0. apply elem_of_app. right. right. by apply HfR. }
  set (y5 := with_files (fun _ => p_files c) y2) in *.
  destruct (at_cwd s p c y5 E1 K1 r5 ((p_files c ≫= opt_hold HFile) ++ HStack k :: rest)) as (r5' & r6 & R6 & R7 & H6 & Ev6 & Em6).
  { eapply holds_perm; [|exact H5]. cbn. solve_Permutation. }
  { intros H0. apply elem_of_app. right. right. by apply HcwdR. }
  exists r6. split; [|split; [done|split; [rewrite Ev6, Ev5; exact Ev3|rewrite Em6, Em5; cbn; by rewrite Em3]]].
  intros k' K' Hmr ->. unfold fork_finish. rewrite (mbind_run (mget _) _ s2 (curthr (kst s)) s2 eq_refl).
  rewrite (mbind_run _ _ _ _ _ Ecl), (mbind_run _ _ _ _ _ (at_child s p _ _ _ _)), (bool_decide_eq_true_2 _ Hrun). cbn [negb].
  rewrite (mbind_run _ _ _ tt _ eq_refl), (proj2 (Z.eqb_neq (Proc.p_pagedir y2) 0) Hpd). rewrite (mbind_run _ _ _ tt _ eq_refl).
  rewrite (mbind_run _ _ _ _ _ (at_sched s p (load_thr t) _ _ K1 _ (clone_of x k) K1 (load_thr_run _ _ _ (lookup_insert_eq _ _ _)))).
  cbn [kt_kstack clone_of]. rewrite (proj2 (Z.eqb_neq _ _) Hk), (mbind_run _ _ _ tt _ eq_refl).
  rewrite (mbind_run _ _ _ _ _ (at_word s p _ _ _ _ _ _)), !(mbind_run _ _ _ _ _ (at_ctx s p _ _ _ _ _ _ _)).
  rewrite (mbind_run _ _ _ _ _ (setup_stack_run _ _ _ _ _)), !(mbind_run _ _ _ _ _ (at_ctx s p _ _ _ _ _ _ _)).
  rewrite (mbind_run _ _ _ _ _ (at_word s p _ _ _ _ _ _)). cbn [fr_vm fr_mem fr_other kt_errno kt_context c_pdptr c_eip c_esp c_kstack c_kstacksz e0].
  fold (fork_mem regs (fork_esp k) (p_pid y2) (fr_mem r3)). change (p_pid y2) with (p_pid y). fold r4.
  change (mkKext (kt_errno e) (mkCtx (Proc.p_pagedir y2) userland_entry (fork_esp k) k DEFAULT_STACK_SIZE)) with (child_ctx k). fold E1.
  rewrite (mbind_run _ _ _ _ _ R5), (mbind_run _ _ _ _ _ (at_child s p _ _ _ _)), (mbind_run _ _ _ _ _ R6).
  rewrite (mbind_run _ _ _ _ _ (at_cur s _ p c Hc Hne _ _ _ _)), (mbind_run _ _ _ _ _ (at_store s p _ _ _ _ _)).
  rewrite (mbind_run _ _ _ _ _ (at_child s p _ _ _ _)), (mbind_run _ _ _ _ _ (R7 _)).
  assert (store_thr t (with_ktproc p) K1 = Ok (tt, child_ks k)) as Hst.
  { rewrite (store_thr_run _ _ _ (clone_of x k)) by apply lookup_insert_eq. unfold child_ks, K1, upd_threads. cbn. by rewrite insert_insert_eq. }
  rewrite (mbind_run _ _ _ _ _ (at_sched s p (store_thr t _) _ _ K1 _ tt (child_ks k) Hst)).
  rewrite (mbind_run _ _ _ _ _ (at_store s p _ _ _ _ _)), (mbind_run _ _ _ _ _ (at_cur s _ p c Hc Hne _ _ _ _)).
  rewrite (mbind_run _ _ _ _ _ (at_store s p _ _ _ _ _)), (mbind_run _ _ _ _ _ (at_sched s p _ _ _ _ _ _ _ Hmr)).
  rewrite (mbind_run _ _ _ _ _ (at_child s p _ _ _ _)). done.
Qed.
End Tail.

(** ** The theorem *)
(** What [proc_create] does to address spaces and memory: a new empty map. *)
Lemma made_frame (r0 r : frs) root p d m : made r0 root p d m r -> vmaps (fr_vm r0) !! m = None /\ areas (fr_vm r) = areas (fr_vm r0) /\
  objs (fr_vm r) = objs (fr_vm r0) /\ fr_mem r = fr_mem r0 /\ forall q, q <> m -> vmaps (fr_vm r) !! q = vmaps (fr_vm r0) !! q.
Proof.
  intros (r1 & r2 & r3 & E1 & E2 & E3 & E4).
  assert (fr_vm r2 = fr_vm r0 /\ fr_mem r2 = fr_mem r0) as [Ev Em].
  { assert (fr_vm r1 = fr_vm r0 /\ fr_mem r1 = fr_mem r0) as [<- <-].
    { cbn in E1. unfold on_other in E1. destruct (@pt_create_pagedir other_res (fr_other r0)) as [[? ?]|]; [|done]. by injection E1 as _ <-. }
    destruct (root =? 0); cbn [negb] in E2; [by subst|].
    cbn in E2. unfold on_other in E2. destruct (@vref other_res root (fr_other r1)) as [[? ?]|]; [|done]. by injection E2 as _ <-. }
  cbn in E3. unfold on_vm, Vmmap.vmmap_create in E3. destruct (slab_pick (vmaps (fr_vm r2))) as [q|] eqn:Hq; [|done]. injection E3 as <- <-.
  cbn in E4. unfold on_vm, ForkVm.set_vmm_proc in E4. cbn [fr_vm] in E4.
  rewrite (mbind_run _ _ _ _ _ (load_map_run (upd_vmaps _ (fr_vm r2)) q _ (lookup_insert_eq _ _ _))) in E4. injection E4 as <-.
  cbn. rewrite <- Ev. split; [by apply (slab_fresh _ _ Hq)|]. split; [done|]. split; [done|]. split; [done|].
  intros q' Hne. by rewrite !lookup_insert_ne.
Qed.
Lemma space_before v0 v v' m m' pd m0 : space_forked v v' m m' pd -> vmaps v0 !! m0 = None -> areas v = areas v0 -> objs v = objs v0 ->
  (forall q, q <> m0 -> vmaps v !! q = vmaps v0 !! q) -> is_Some (vmaps v0 !! m) -> space_forked v0 v' m m' pd.
Proof.
  intros (vs & vs' & ws & H1 & H2 & H3 & H4 & H5) Hm0 Ea Eo Em [mp Hmp]. exists vs, vs', ws. rewrite <- Eo. split; [|done].
  apply (map_ok_kept v); [done|intros; by rewrite Ea|]. cbn. symmetry. apply Em. congruence.
Qed.

(** The result of [do_fork]: child [p] with number [pid] and thread [t] on the
    stack [k]; the address space [m0] that [proc_create] made for the child is
    not used by anyone. *)
Record fork_done (L : list hold) (s s' : ps) (regs : Z) (c : proc) (p t k m0 pid : Z) : Prop := {
  fd_inv : pinv (HMap m0 :: L) s';
  fd_fresh : procs s !! p = None /\ threads (kst s) !! t = None;
  fd_pid : 0 <= pid < PROC_MAX_COUNT /\ forall q z, procs s !! q = Some z -> p_pid z <> pid;
  fd_child : exists y e, procs s' !! p = Some y /\ p_pid y = pid /\ p_state y = PROC_RUNNING /\ p_pproc y = curproc (kst s) /\
    list_items (p_threads y) = [t] /\ p_files y = p_files c /\ p_cwd y = p_cwd c /\
    Proc.p_brk y = Proc.p_brk c /\ Proc.p_start_brk y = Proc.p_start_brk c /\
    space_forked (fr_vm (res s)) (fr_vm (res s')) (Proc.p_vmmap c) (Proc.p_vmmap y) (Proc.p_pagedir c) /\
    exts s' !! t = Some e /\ kt_context e = mkCtx (Proc.p_pagedir y) userland_entry (fork_esp k) k DEFAULT_STACK_SIZE;
  fd_parent : procs s' !! curproc (kst s) = Some (with_pchildren (list_insert_tail p) c);
  fd_thread : exists z, threads (kst s') !! t = Some z /\ kt_proc z = p /\ kt_kstack z = k /\ items (kst s') RunQ = t :: items (kst s) RunQ;
  fd_stack : fork_esp k = k + DEFAULT_STACK_SIZE - (REGS_SIZE + 12) /\ k <= fork_esp k;
  fd_mem : mem_forked regs (fork_esp k) pid (fr_mem (res s)) (fr_mem (res s'));
}.

(** A process that has been created: what is held besides it. *)
Lemma others_hold (s : ps) p y h : procs s !! p = Some y -> h ∈ proc_holds y -> forall q, q <> p ->
  h ∈ gather proc_holds (delete q (procs s)) ++ gather thr_holds (threads (kst s)).
Proof. intros Hp Hh q Hq. apply elem_of_app. left. apply (elem_of_gather _ _ p y); [|done]. by rewrite lookup_delete_ne. Qed.
Lemma sched_op_inv {A} (op : M ks A) s a k : sched_op op s = Ok (a, upd_kst k s) -> op (kst s) = Ok (a, k).
Proof. unfold sched_op. destruct (op (kst s)) as [[b k']|]; [|done]. intros H. injection H as <- E. by subst. Qed.

Section Done.
Context `{SK : !Stacks}.
Context (L : list hold) (s : ps) (c : proc) (x : kthread) (regs p pid d m0 : Z) (r1 : frs).
Context (I : pinv L s) (Hsw : switched (kst s) = false) (PV : vm_plenty) (PT : is_Some (slab_pick (threads (kst s)))).
Context (Hc : procs s !! curproc (kst s) = Some c) (Hcr : p_state c = PROC_RUNNING).
Context (Hx : threads (kst s) !! curthr (kst s) = Some x) (Hxr : kt_state x = KT_RUN) (Hxp : kt_proc x = curproc (kst s)).
Context (Hrl : kt_kstack x <= regs) (Hrh : regs + REGS_SIZE <= kt_kstack x + DEFAULT_STACK_SIZE).
Let s1 := created s p pid d m0 child_name c r1.
Context (I1 : pinv L s1) (Hpn : procs s !! p = None) (Hpid : 0 <= pid < PROC_MAX_COUNT).
Context (Hfree : forall q y, procs s !! q = Some y -> p_pid y <> pid) (Hmade : made (res s) (vfs_root_vn s) p d m0 r1).

Let c1 := with_pchildren (list_insert_tail p) c.
Let y1 := with_pvmmap m0 (with_cwd (vfs_root_vn s) (with_pagedir d (new_proc pid child_name (curproc (kst s))))).
Let G := gather proc_holds (delete p (procs s1)) ++ gather thr_holds (threads (kst s1)).

Lemma created_cur : curproc (kst s) <> p /\ procs s1 !! curproc (kst s) = Some c1 /\ procs s1 !! p = Some y1.
Proof.
  assert (curproc (kst s) <> p) as Hne by congruence. unfold s1, created. cbn. split; [done|].
  split; [rewrite lookup_insert_ne by done; by rewrite lookup_insert_eq|by rewrite lookup_insert_eq].
Qed.
Lemma created_holds : holds r1 (opt_hold HVnode (vfs_root_vn s) ++ HPagedir d :: HMap m0 :: L ++ G).
Proof.
  destruct created_cur as (_ & _ & Hy). eapply holds_perm; [|exact (pi_holds _ _ I1)]. unfold all_holds, G.
  rewrite (gather_delete proc_holds _ _ _ Hy). unfold y1. rewrite new_holds. solve_Permutation.
Qed.

Lemma thread_stacks (r : frs) k k' (R : list hold) : holds r (HStack k :: R) -> HStack k' ∈ R ->
  (0 < k /\ k + stack_bytes <= 2 ^ 32) /\ (k + stack_bytes <= k' \/ k' + stack_bytes <= k).
Proof.
  intros Hh [R' HR]%elem_of_Permutation. assert (holds r (HStack k :: HStack k' :: R')) as [Ho _] by (eapply holds_perm; [|exact Hh]; by rewrite HR).
  split; [exact (stack_range _ _ _ Ho)|exact (stack_apart _ _ _ _ Ho)].
Qed.
Lemma fork_stack k : 0 < k -> k + stack_bytes <= 2 ^ 32 -> fork_esp k = k + DEFAULT_STACK_SIZE - (REGS_SIZE + 12) /\ k <= fork_esp k.
Proof.
  intros H1 H2. pose proof stack_bytes_le. destruct regs_fit. assert (fork_esp k = k + DEFAULT_STACK_SIZE - (REGS_SIZE + 12)) as ->; [|lia].
  unfold fork_esp. pose proof (Z.mod_small (k + DEFAULT_STACK_SIZE) (2 ^ 32)) as E. destruct (decide (k + DEFAULT_STACK_SIZE < 2 ^ 32)).
  - rewrite (u32_small (k + DEFAULT_STACK_SIZE)), u32_small by lia. lia.
  - assert (k + DEFAULT_STACK_SIZE = 2 ^ 32) as -> by lia. change (u32 (2 ^ 32)) with 0. unfold u32.
    rewrite <- (Z.mod_add _ 1), Z.mod_small by lia. lia.
Qed.

(** The run of [do_fork] from [s1] on. *)
Definition fork_from (cur child : Z) : M ps Z :=
  let! c := load_proc cur in
  let! m := res_op (on_vm (vmmap_clone (Proc.p_vmmap c))) in
  res_op (on_vm (ForkVm.set_vmm_proc m child)) ;;;
  store_proc child (with_pvmmap m) ;;;
  let! y := load_proc child in
  let! c := load_proc cur in
  res_op (on_vm (fork_objects (Proc.p_vmmap c) (Proc.p_vmmap y))) ;;;
  res_op (on_vm (fork_unmap (Proc.p_pagedir c))) ;;;
  fork_finish regs cur child.

(** The invariant holds again when the child's thread is on the run queue. *)
Lemma fork_pinv m' r6 t k e : threads (kst s) !! t = None -> t <> 0 -> k <> 0 ->
  holds r6 (opt_hold HVnode (p_cwd c1) ++ (p_files c1 ≫= opt_hold HFile) ++ HStack k :: HPagedir d :: HMap m0 :: HMap m' :: L ++ G) ->
  exists K', sched_make_runnable t (child_ks s1 p x t k) = Ok (tt, K') /\
    pinv (HMap m0 :: L) (at_ s1 p (with_pthreads (list_insert_tail t) (built c1 y1 m')) (<[t := e]> (exts s1)) K' r6) /\
    (exists z, threads K' !! t = Some z /\ kt_proc z = p /\ kt_kstack z = k) /\ items K' RunQ = t :: items (kst s) RunQ.
Proof.
  intros Htn Ht0 Hk Hh. destruct created_cur as (Hne & Hc1 & Hy1). set (yb := built c1 y1 m'). set (xt := with_ktproc p (clone_of x k)).
  assert (vfs_root_vn s1 <> 0 -> forall l, HVnode (vfs_root_vn s1) ∈ l ++ L) as Hroot by (intros H0 l; apply elem_of_app; right; by apply (pi_root _ _ I1)).
  destruct (t_fields _ _ (pi_tree _ _ I1) _ _ Hc1) as [_ Hfc]. destruct (t_fields _ _ (pi_tree _ _ I1) _ _ Hy1) as [_ Hfy].
  assert (pinv (HStack k :: HMap m0 :: L) (upd_res r6 (upd_procs (<[p := yb]>) s1))) as I5.
  { apply (pinv_update L _ s1 p y1 yb r6 I1 Hy1); [split; try done; exact (eq_trans Hfc (eq_sym Hfy))|done|intros H0; by apply (Hroot H0 [_; _])|].
    eapply holds_perm; [|exact Hh]. unfold all_holds, G. cbn -[gather]. rewrite (gather_update proc_holds _ p y1) by done.
    unfold proc_holds at 2. unfold run_holds. cbn -[gather]. solve_Permutation. }
  set (s5 := upd_res _ _) in I5. destruct (k_cur _ _ (pi_k _ _ I)) as (x' & Hx' & Hw & _). assert (x' = x) as -> by congruence.
  assert (pinv (HMap m0 :: L) (with_thread s5 t xt e p yb r6)) as I6.
  { apply (with_thread_pinv _ (HMap m0 :: L) s5 t xt e p yb r6 I5); try done; [intros H0; by apply (Hroot H0 [_])|cbn; apply lookup_insert_eq|cbn; apply items_empty|by apply Hw|].
    eapply holds_perm; [|exact (pi_holds _ _ I5)]. cbn. constructor. done. }
  set (s6 := with_thread _ _ _ _ _ _ _) in I6.
  destruct (make_runnable_pinv _ s6 t xt I6) as (K' & E & I7 & Hi & T); try done; [cbn; apply lookup_insert_eq|by apply Hw|cbn; congruence|].
  exists K'. apply sched_op_inv in E. split; [exact E|]. split; [|split].
  - replace (at_ s1 p _ _ _ _) with (upd_kst K' s6); [done|]. unfold s6, with_thread, s5, at_, upd_kst, upd_res, upd_procs. cbn. by rewrite insert_insert_eq.
  - exists (with_wchan (Some RunQ) true xt). rewrite (st_threads _ _ _ _ T). by rewrite lookup_insert_eq.
  - rewrite Hi. f_equal. unfold items. cbn. by rewrite lookup_insert_ne.
Qed.

(** What the parent holds is held besides the child. *)
Lemma parent_holds : HMap (Proc.p_vmmap c1) ∈ G /\ (p_cwd c1 <> 0 -> HVnode (p_cwd c1) ∈ G) /\
  forall f, f ∈ p_files c1 -> f <> 0 -> HFile f ∈ G.
Proof.
  destruct created_cur as (Hne & Hc1 & _).
  assert (forall h, h ∈ proc_holds c1 -> h ∈ G) as HG by (intros h Hh; by apply (others_hold s1 (curproc (kst s)) c1)).
  assert (bool_decide (p_state c1 = PROC_RUNNING) = true) as Hcr1 by (by apply bool_decide_eq_true_2).
  unfold proc_holds, run_holds in HG. rewrite Hcr1 in HG. split; [|split].
  - apply HG. right. apply elem_of_app. right. apply elem_of_app. right. by left.
  - intros H0. apply HG. right. apply elem_of_app. left. unfold opt_hold. rewrite (proj2 (Z.eqb_neq _ _) H0). by left.
  - intros f Hf H0. apply HG. right. apply elem_of_app. right. apply elem_of_app. left.
    apply list_elem_of_bind. exists f. unfold opt_hold. rewrite (proj2 (Z.eqb_neq _ _) H0). split; [by left|done].
Qed.
Lemma parent_map : is_Some (vmaps (fr_vm (res s)) !! Proc.p_vmmap c).
Proof.
  destruct (pi_holds _ _ I) as [_ (W & HW & IW)]. assert (Proc.p_vmmap c ∈ W.*1) as Hin.
  { rewrite HW. apply list_elem_of_omap. exists (HMap (Proc.p_vmmap c)). split; [|done]. apply elem_of_app. right. apply elem_of_app. left.
    apply (elem_of_gather _ _ (curproc (kst s)) c); [done|]. unfold proc_holds, run_holds. rewrite bool_decide_eq_true_2 by done. right.
    apply elem_of_app. right. apply elem_of_app. right. by left. }
  apply list_elem_of_fmap in Hin as (w & Ew & Hw). destruct (mi_maps _ _ _ IW _ Hw) as ((_ & _ & _ & mp & Hmp & _) & _). rewrite Ew. eauto.
Qed.

Lemma fork_from_ok : (fork_from (curproc (kst s)) p s1 = Err FAssert /\ exists o, @page_alloc_n other_res stack_pages (fr_other r1) = Ok (0, o)) \/
  exists t k s', fork_from (curproc (kst s)) p s1 = Ok (pid, s') /\ fork_done L s s' regs c p t k m0 pid.
Proof.
  destruct created_cur as (Hne & Hc1 & Hy1). destruct parent_holds as (HmG & HcG & HfG). destruct PT as [t Ht]. destruct (slab_fresh _ _ Ht) as [Ht0 Htn].
  destruct (fork_res r1 _ (Proc.p_vmmap c1) p (Proc.p_pagedir c1) PV created_holds) as (m' & v1 & v2 & v3 & v4 & R1 & R2 & R3 & R4 & Hm' & Hsp & Hh2); [set_solver|].
  set (r2 := mkFrs v4 (fr_mem r1) (fr_other r1)).
  destruct (pi_exts _ _ I1 (curthr (kst s))) as [e He]; [by exists x|].
  destruct (t_fields _ _ (pi_tree _ _ I1) _ _ Hc1) as [_ Hfc]. destruct (t_fields _ _ (pi_tree _ _ I1) _ _ Hy1) as [Hpd _].
  assert (forall h, h ∈ G -> h ∈ HPagedir d :: HMap m0 :: HMap m' :: L ++ G) as HGr by (intros h Hh; do 3 right; apply elem_of_app; by right).
  destruct (fork_finish_run s1 p c1 y1 x e t regs m' (HPagedir d :: HMap m0 :: HMap m' :: L ++ G) r2 Hc1 Hne) as (k & r3 & Ek & Hk); try done.
  { eapply holds_perm; [|exact (Hh2 (fr_mem r1))]. cbn. solve_Permutation. }
  { intros H0. by apply HGr, HcG. } { intros f Hf H0. by apply HGr, HfG. }
  assert (fork_from (curproc (kst s)) p s1 = fork_finish regs (curproc (kst s)) p (at_ s1 p (with_pvmmap m' y1) (exts s1) (kst s1) r2)) as Es.
  { unfold fork_from. etrans; [|apply (fork_space_steps s1 p c1 y1 m' r2 Hc1 Hne); [by exists v1, v2, v3|done]].
    by rewrite <- (at_start s1 p y1 Hy1). }
  rewrite Es. clear Es. destruct (Z.eqb_spec k 0) as [->|Hk0]; [left; split; [exact Hk|by apply (on_other_inv _ r2 0 r3)]|right].
  destruct Hk as (r6 & Hrun & H6 & Ev & Em). destruct (fork_pinv m' r6 t k (child_ctx y1 e k) Htn Ht0 Hk0 H6) as (K' & EK & I7 & Hz & Hi).
  exists t, k. eexists. split; [apply (Hrun pid K' EK eq_refl)|].
  destruct (made_frame _ _ _ _ _ _ Hmade) as (Hm0 & Ea & Eo & Emm & Emp).
  assert (HStack (kt_kstack x) ∈ G) as HxG by (apply elem_of_app; right; apply (elem_of_gather _ _ (curthr (kst s)) x); [done|by left]).
  destruct (thread_stacks r6 k (kt_kstack x) (opt_hold HVnode (p_cwd c1) ++ (p_files c1 ≫= opt_hold HFile) ++ HPagedir d :: HMap m0 :: HMap m' :: L ++ G))
    as [[Hk1 Hk2] Hap].
  { eapply holds_perm; [|exact H6]. solve_Permutation. } { do 2 (apply elem_of_app; right). by apply HGr. }
  destruct (fork_stack k Hk1 Hk2) as [He1 He2]. split; [done|done|done| | |destruct Hz as (z & ? & ? & ?); by exists z|done|].
  - eexists _, _. split; [apply lookup_insert_eq|]. do 3 (split; [done|]). split; [cbn; rewrite items_insert_tail; rewrite items_empty; [done|by apply not_elem_of_nil]|].
    do 4 (split; [done|]). split; [|split; [apply lookup_insert_eq|done]]. cbn. rewrite Ev.
    apply (space_before (fr_vm (res s)) (fr_vm r1) _ _ _ _ m0); try done. apply parent_map.
  - cbn. rewrite lookup_insert_ne by (by apply not_eq_sym). exact Hc1.
  - cbn. rewrite Em. cbn. rewrite Emm. apply fork_mem_ok. pose proof stack_bytes_le. destruct regs_fit. lia.
Qed.
End Done.

(** C8: [do_fork] in a process with enough memory for objects: it panics when there
    is no memory for the kernel stack of the child; otherwise it returns the number of a new
    child of the current process, which has an unused number, the parent's
    files, directory and break, the parent's pages (shared ones with the same
    object, private ones copy-on-write), and a thread at the tail of the run
    queue that will return 0 from the call with the parent's registers on
    a stack of its own; in the parent the call returns the child's number and
    no translation to a page is left.  The invariant of processes holds and
    every reference is accounted for, but for the address space [m0]. *)
Theorem do_fork_correct `{SK : !Stacks} L s regs c x : pinv L s -> switched (kst s) = false -> objs_plenty -> vm_plenty -> regs <> 0 ->
  procs s !! curproc (kst s) = Some c -> threads (kst s) !! curthr (kst s) = Some x -> kt_state x = KT_RUN ->
  kt_kstack x <= regs -> regs + REGS_SIZE <= kt_kstack x + DEFAULT_STACK_SIZE ->
  (exists i, 0 <= i < PROC_MAX_COUNT /\ forall q y, procs s !! q = Some y -> p_pid y <> i) ->
  (p_pid c = PID_IDLE \/ exists q y, procs s !! q = Some y /\ p_pid y = PID_INIT) ->
  (do_fork regs s = Err FAssert /\
     exists p s1 o, proc_create child_name s = Ok (p, s1) /\ @page_alloc_n other_res stack_pages (fr_other (res s1)) = Ok (0, o)) \/
  exists p t k m0 pid s', do_fork regs s = Ok (pid, s') /\ fork_done L s s' regs c p t k m0 pid.
Proof.
  intros I Hsw PL PV Hregs Hc Hx Hxr Hrl Hrh Hfree Hinit.
  destruct (pi_cur _ _ I) as (x' & c' & Hx' & Hxp & Hc' & Hcr & _). assert (x' = x) as -> by congruence. assert (c' = c) as -> by congruence.
  destruct (create_ok L s child_name c I PL Hc Hfree Hinit) as (p & pid & d & m0 & r1 & E1 & I1 & Hpn & Hpid & Hnew & Hmade & _).
  assert (curproc (kst s) <> 0) as Hcur0 by (intros E0; pose proof (t_null _ _ (pi_tree _ _ I)); congruence).
  assert (do_fork regs s = fork_from regs (curproc (kst s)) p (created s p pid d m0 child_name c r1)) as ->.
  { unfold do_fork. rewrite (proj2 (Z.eqb_neq _ _) Hregs), (mbind_run _ _ s tt s eq_refl).
    rewrite (mbind_run cur_proc _ s (curproc (kst s)) s eq_refl), (proj2 (Z.eqb_neq _ _) Hcur0), (mbind_run _ _ s tt s eq_refl).
    rewrite (mbind_run _ _ _ _ _ (load_proc_run _ _ _ Hc)), bool_decide_eq_true_2, (mbind_run _ _ s tt s eq_refl) by done.
    by rewrite (mbind_run _ _ _ _ _ E1). }
  destruct (fork_from_ok L s c x regs p pid d m0 r1 I Hsw PV (pl_slab PL _)) as [(? & o & Ho)|(t & k & s' & ? & ?)]; try done; [left; split; [done|by eexists p, _, o]|right].
  by exists p, t, k, m0, pid, s'.
Qed.
End Spec.
