(* ===== verification/ForkEx.v ===== *)
(** * Fork: an example

    The theorems of [ForkVm] and [Fork] applied to the process family of
    [ProcEx]; the running process has one private mapping of a shadow object
    of [MmObj], through the instances of [MmBridge]. *)
From stdpp Require Import base gmap list fin_maps strings.
From Stdlib Require Import ZArith Lia.
From S2P Require Import Prelude KEnv Vmmap MmObj MmInv MmPut MmCow ForkVm MmBridge Pageout Sched Proc ProcInv ProcThm ProcEx Fork.
Open Scope Z_scope.
Open Scope c_scope.

(** ** A ledger that also says where stacks are *)
Definition stack_of (h : hold) : option Z := match h with HStack k => Some k | _ => None end.
Definition stacks (s : list hold) : list Z := omap stack_of s.
Definition stack_ok (k : Z) : Prop := 0 < k /\ k mod 65536 = 0 /\ k + 61440 <= 2 ^ 32.
Definition stacks_ok (s : list hold) : Prop := NoDup (stacks s) /\ Forall stack_ok (stacks s).
Definition top_stack (s : list hold) : Z := fold_right Z.max 0 (stacks s).
(** A stack above all others, or NULL. *)
Definition new_stack : M (list hold) Z := fun s =>
  let k := top_stack s + 65536 in
  if 2 ^ 32 <? k + 61440 then Ok (0, s) else Ok (k, HStack k :: s).

Lemma top_stack_max s k : k ∈ stacks s -> k <= top_stack s.
Proof. unfold top_stack. induction (stacks s) as [|x l IH]; cbn; [by intros []%elem_of_nil|]. intros [->|H]%elem_of_cons; [lia|]. specialize (IH H). lia. Qed.
Lemma top_stack_mod s : Forall stack_ok (stacks s) -> 0 <= top_stack s /\ top_stack s mod 65536 = 0.
Proof.
  unfold top_stack. induction 1 as [|x l (H1 & H2 & H3) _ [I1 I2]]; cbn; [done|].
  destruct (Z.max_spec x (fold_right Z.max 0 l)) as [[_ ->]|[_ ->]]; lia.
Qed.
Lemma stacks_perm s s' : s ≡ₚ s' -> stacks s ≡ₚ stacks s'.
Proof. intros H. unfold stacks. by rewrite H. Qed.
Lemma stacks_ok_perm s s' : s ≡ₚ s' -> stacks_ok s -> stacks_ok s'.
Proof. intros H%stacks_perm [H1 H2]. split; by rewrite <- H. Qed.
Lemma stacks_ok_drop h s R : s ≡ₚ h :: R -> stacks_ok s -> stacks_ok R.
Proof.
  intros H Hs. apply (stacks_ok_perm _ _ H) in Hs as [H1 H2]. destruct h; try done.
  cbn in H1, H2. apply NoDup_cons in H1 as [_ H1]. apply Forall_cons in H2 as [_ H2]. done.
Qed.

Definition lholds (s R : list hold) : Prop := s ≡ₚ R /\ stacks_ok R.
Lemma lholds_give h s R : lholds s (h :: R) -> exists s', give_hold h s = Ok (tt, s') /\ lholds s' R.
Proof. intros [H Hs]. destruct (give_hold_ok h s R H) as (s' & E & H'). exists s'. split; [done|]. split; [done|]. by apply (stacks_ok_drop h (h :: R)). Qed.
Lemma lholds_take h s R : stack_of h = None -> lholds s R -> h ∈ R -> exists s', take_hold h s = Ok (tt, s') /\ lholds s' (h :: R).
Proof.
  intros Hn [H Hs] Hin. destruct (take_hold_ok h s R H Hin) as (s' & E & H'). exists s'. split; [done|]. split; [done|].
  unfold stacks_ok, stacks. cbn. by rewrite Hn.
Qed.
Lemma lholds_new h s R : (forall z, stack_of (h z) = None) -> lholds s R -> exists z s', new_hold h s = Ok (z, s') /\ z <> 0 /\ lholds s' (h z :: R).
Proof.
  intros Hn [H Hs]. unfold new_hold. eexists _, _. split; [done|]. split; [lia|]. split; [by rewrite H|]. unfold stacks_ok, stacks. cbn. by rewrite Hn.
Qed.
Lemma lholds_stack s R : lholds s R -> exists k s', new_stack s = Ok (k, s') /\ lholds s' (if k =? 0 then R else HStack k :: R).
Proof.
  intros [H Hs]. unfold new_stack. destruct (Z.ltb_spec (2 ^ 32) (top_stack s + 65536 + 61440)); [by exists 0, s|].
  pose proof (stacks_ok_perm _ _ (Permutation_sym H) Hs) as [H1 H2]. destruct (top_stack_mod s H2) as [T1 T2]. eexists _, _. split; [done|].
  rewrite (proj2 (Z.eqb_neq _ _)) by lia. split; [by apply perm_skip|]. apply (stacks_ok_perm (HStack (top_stack s + 65536) :: s)); [by apply perm_skip|]. split; cbn.
  - apply NoDup_cons. split; [|done]. intros Hin%top_stack_max. lia.
  - constructor; [|done]. split; [lia|]. split; [|lia]. rewrite <- Z.add_mod_idemp_l, T2 by lia. done.
Qed.

#[refine] Definition stack_ledger : ProcRes := {|
  rst := list hold;
  vref v := take_hold (HVnode v); vput v := give_hold (HVnode v);
  fref f := take_hold (HFile f); fput f := give_hold (HFile f);
  vmmap_create := new_hold HMap; set_vmm_proc m p := mret_ tt; vmmap_destroy m := give_hold (HMap m);
  pt_create_pagedir := new_hold HPagedir; pt_destroy_pagedir d := give_hold (HPagedir d);
  page_alloc_n n := new_stack; page_free_n k n := give_hold (HStack k);
  obj_keeps := true;
  holds := lholds;
|}.
Proof.
  - intros s R R' H1 [H2 H3]. split; [by rewrite H2|by eapply stacks_ok_perm].
  - intros s R v. by apply lholds_take.
  - intros s R v. apply lholds_give.
  - intros s R f. by apply lholds_take.
  - intros s R f. apply lholds_give.
  - intros s R m s' H E. destruct (lholds_new HMap s R (fun _ => eq_refl) H) as (z & s1 & E' & Hz & H1). rewrite E in E'. by injection E' as <- <-.
  - intros s R m p H. by exists s.
  - intros s R m. apply lholds_give.
  - intros s R H. destruct (lholds_new HPagedir s R (fun _ => eq_refl) H) as (z & s1 & E' & Hz & H1). exists z, s1. by rewrite (proj2 (Z.eqb_neq _ _) Hz).
  - intros s R d. apply lholds_give.
  - intros s R n. apply lholds_stack.
  - intros s R k n. apply lholds_give.
Defined.

Module ForkExamples.
#[local] Existing Instance seq_klist.
#[local] Existing Instance first_slab.
#[local] Existing Instance i386_geometry.
#[local] Existing Instance weenix_errno.
#[local] Existing Instance fun_mmu.
#[local] Existing Instance mm_header.
#[local] Existing Instance fun_unmap.
#[local] Existing Instance no_vnodes.
#[local] Existing Instance weenix_map_flags.
#[local] Existing Instance weenix_consts.
#[local] Existing Instance plain_context.
#[local] Existing Instance emptied.
#[local] Existing Instance ProcExamples.links.
#[local] Existing Instance ProcExamples.no_intr.
#[local] Instance many_pages : PageAlloc := pages_upto None.
(** No file can be mapped. *)
#[local] Instance no_files_mapped : VnMmap.
Proof. refine {| vnode_mmap f v := mret_ (-19, 0) |}. intros s R f v H. by exists (-19), 0, s. Defined.
Definition frames_kept : slab_keeps = true := eq_refl.
Definition objs_free (m : gmap Z mmobj) : is_Some (slab_pick m) := ex_intro _ _ eq_refl.
#[local] Instance objects : Mmobjs := mm_mmobjs frames_kept objs_free.
#[local] Instance fields : ShadowFields := mm_fields frames_kept objs_free 3.
#[local] Instance fork_objs : ForkObjs := mm_fork_objs frames_kept objs_free 3.
#[local] Instance other : OtherRes := stack_ledger.
#[local] Instance regs_layout : RegsLayout.
Proof. refine {| REGS_SIZE := 68; R_EAX := 36; userland_entry := 4096 |}; (done || vm_compute; done). Defined.
#[local] Instance stacks_apart : Stacks.
Proof.
  assert (stack_bytes = 61440) as E by by vm_compute. split.
  - intros r k R [_ [_ [(H1 & H2 & H3) _]%Forall_cons]]. rewrite E. done.
  - intros r k k' R [_ [[Hn _]%NoDup_cons [(H1 & H2 & H3) [(H4 & H5 & H6) _]%Forall_cons]%Forall_cons]]. rewrite E.
    assert (k <> k') by (intros ->; apply Hn; by left).
    apply Z.mod_divide in H2 as [a ->]; [|done]. apply Z.mod_divide in H5 as [b ->]; [|done]. lia.
Defined.

(** Process 3 maps ten pages of the shadow object 3, privately. *)
Definition area : vmarea := mkArea 1100 1110 0 3 2 33 3 (Some 1).
Definition spaces : vms :=
  mkVms _ _ _ _ {[10 := area]} {[31 := mkVmmap seq_klist [] 1; 32 := mkVmmap seq_klist [] 2; 33 := mkVmmap seq_klist [10] 3]}
    {[1 := [10] : klist]} Examples.two Examples.hw0 (mkVproc 23 33 0 0) 0.
Definition fam0 : ps :=
  mkPs _ _ (procs ProcExamples.fam) (proc_list ProcExamples.fam) 3 2 7 (exts ProcExamples.fam) (kst ProcExamples.fam) (mkFrs spaces (fun a => a) ([] : list hold)).
Definition family : ps := upd_res (mkFrs spaces (fun a => a) (others (HVnode 7 :: all_holds fam0))) fam0.

Definition allmaps : list (Z * list (Z * vmarea)) := [(33, [(10, area)]); (31, []); (32, [])].
Lemma spaces_inv : maps_inv spaces allmaps [].
Proof.
  destruct pages_i386 as [E1 E2]. split.
  - apply (bool_decide_unpack _). by vm_compute.
  - done.
  - intros w Hw. unfold allmaps in Hw. rewrite !elem_of_cons, elem_of_nil in Hw. destruct Hw as [->|[->|[->|[]]]].
    + split; [|split; [rewrite E1, E2; cbn; lia|by repeat constructor]]. split; [done|]. split; [apply NoDup_singleton|]. split; [by repeat constructor|]. by eexists.
    + split; [|split; [rewrite E1, E2; cbn; lia|constructor]]. split; [done|]. split; [constructor|]. split; [constructor|]. by eexists.
    + split; [|split; [rewrite E1, E2; cbn; lia|constructor]]. split; [done|]. split; [constructor|]. split; [constructor|]. by eexists.
  - split; [apply (Examples.two_owns None)|]. intros o [->|[]%elem_of_nil]%elem_of_cons. apply Examples.two_attached.
Qed.
Lemma family_holds : [HVnode 7] ++ all_holds family =
  [HVnode 7; HPagedir 23; HVnode 7; HFile 9; HMap 33; HPagedir 22; HVnode 7; HMap 32; HPagedir 21; HVnode 7; HMap 31;
   HStack 65536; HStack 196608; HStack 131072].
Proof. vm_compute. reflexivity. Qed.
Lemma family_pinv : pinv [HVnode 7] family.
Proof.
  pose proof ProcExamples.fam_pinv as I. split; try apply I.
  rewrite family_holds. split.
  - split; [by rewrite <- family_holds|]. split; [apply (bool_decide_unpack (NoDup [65536; 196608; 131072])); by vm_compute|].
    apply (bool_decide_unpack (Forall stack_ok [65536; 196608; 131072])). by vm_compute.
  - exists allmaps. split; [|apply spaces_inv]. by apply perm_skip, perm_swap.
Qed.
Lemma family_objs_plenty : objs_plenty.
Proof.
  split; [by eexists| |].
  - intros r d r' H. cbn in H. unfold on_other in H. cbn in H. unfold new_hold in H. injection H as <- _. lia.
  - intros r R _. cbn. unfold on_vm, Vmmap.vmmap_create. cbn. by eexists _, _.
Qed.
Lemma family_vm_plenty : vm_plenty.
Proof.
  split; [by eexists|by eexists|]. intros st sh st' H. cbn in H. unfold shadow_create, create in H.
  injection H as <- _. exact (proj1 (slab_fresh (mmobjs st) (fresh (dom (mmobjs st) ∪ {[0]} : gset Z)) eq_refl)).
Qed.
Definition parent : proc := ProcExamples.child.

Lemma do_fork_correct_witness :
  (do_fork 197000 family = Err FAssert /\
     exists p s1 o, proc_create child_name family = Ok (p, s1) /\ @page_alloc_n other stack_pages (fr_other (res s1)) = Ok (0, o)) \/
  exists p t k m0 pid s', do_fork 197000 family = Ok (pid, s') /\ fork_done [HVnode 7] family s' 197000 parent p t k m0 pid.
Proof.
  apply (do_fork_correct [HVnode 7] family 197000 parent (ProcExamples.fthr KT_RUN None 3 196608 CStart)); try done.
  - apply family_pinv.
  - apply family_objs_plenty.
  - apply family_vm_plenty.
  - exists 3. split; [done|]. intros q y Hy. by ProcExamples.cases Hy.
  - right. exists 2, (ProcExamples.fproc 1 12 [3] 1 22 32 (replicate 32 0)). split; reflexivity.
Defined.
(** The run of this example: the child gets number 3. *)
Example do_fork_runs : match do_fork 197000 family with Ok (pid, _) => pid | _ => -1 end = 3.
Proof. vm_compute. reflexivity. Qed.

Lemma fork_space_correct_witness :
  exists m' s1 s2 s3 s4 vs' ws,
    vmmap_clone 33 spaces = Ok (m', s1) /\ ForkVm.set_vmm_proc m' 4 s1 = Ok (tt, s2) /\ fork_objects 33 m' s2 = Ok (tt, s3) /\
    fork_unmap 23 s3 = Ok (tt, s4) /\ m' <> 0 /\ m' ∉ allmaps.*1 /\ maps_inv s4 ((33, vs') :: (m', ws) :: tail allmaps) [] /\
    (forall vfn, page_forked (objs spaces) (objs s4) (amap [area] vfn) (amap vs'.*2 vfn) (amap ws.*2 vfn)) /\
    (forall pn, tlb_entry (mmu s4) pn = None) /\ forall pn, LOW_PN <= pn < HIGH_PN -> pt_entry (mmu s4) 23 pn = None.
Proof. apply (fork_space_correct frames_kept objs_free 3 spaces 33 [(10, area)] (tail allmaps) [] 4 23); [apply family_vm_plenty|apply spaces_inv]. Defined.
End ForkExamples.
