(* ===== verification/Vnode.v ===== *)
(** * fs/vnode.c: the table of vnodes and their reference counts

    A vnode is in memory while something refers to it: each active reference
    ([vget], [vref]) and each resident page counts one in [vn_refcount].
    [vget] finds a vnode by file system and inode number or brings it in,
    [vput] drops a reference and frees the vnode when nothing is left.  The
    functions of a file system, of the devices and of the page cache's
    objects that are not in the repository are the interface [FsOps].

    Where the code would put the thread to sleep (a vnode or a page that is
    busy, no memory for a vnode) the model stops with [FFuel]: the rest of the
    call happens after other threads have run. *)
From stdpp Require Import base gmap list fin_maps.
From Stdlib Require Import ZArith Lia Ascii.
From S2P Require Import Prelude KEnv.
Open Scope Z_scope.
Open Scope c_scope.

(** ** Data *)
(** The operations a vnode may have. *)
Inductive vop :=
| Vread | Vwrite | Vmmap | Vcreate | Vmknod | Vlookup | Vlink | Vunlink | Vmkdir | Vrmdir | Vreaddir | Vstat
| Vfillpage | Vdirtypage | Vcleanpage.
(** [vn_ops]: a table of the file system (by number), or one of the two
    tables of special files. *)
Inductive vops := FsVops (k : Z) | bytedev_spec_vops | blockdev_spec_vops.
#[export] Instance vops_eq_dec : EqDecision vops.
Proof. solve_decision. Defined.

Record pframe := mkPframe { pf_pagenum : Z; pf_pinned : bool; pf_busy : bool; pf_dirty : bool }.

Record vnode := mkVnode {
  vn_fs : Z;
  vn_vno : Z;
  vn_ops : vops;
  vn_mode : Z;
  vn_len : Z;
  vn_devid : Z;
  (** [vn_cdev] or [vn_bdev]; 0 is NULL *)
  vn_dev : Z;
  vn_refcount : Z;
  vn_nrespages : Z;
  vn_respages : list pframe;
  (** [VN_BUSY & vn_flags] *)
  vn_busy : bool
}.

Record file := mkFile { f_pos : Z; f_mode : Z; f_refcount : Z; f_vnode : Z }.

(** What [read_vnode] sets in a new vnode. *)
Record vinit := mkVinit { vi_ops : Z; vi_mode : Z; vi_len : Z; vi_devid : Z }.

(** File systems and devices.  [dirent d fs vno name] is the inode that a
    directory has for a name; it and [read_vnode] are what a file system
    stores.  Evicting the vnode of a linked inode changes nothing that is
    stored, evicting an unlinked one nothing about other inodes. *)
Class FsOps := {
  fsst : Type;
  (** the file system operations, by file system and inode number *)
  read_vnode : fsst -> Z -> Z -> vinit;
  query_vnode : fsst -> Z -> Z -> bool;
  delete_vnode : option (fsst -> Z -> Z -> fsst);
  dirent : fsst -> Z -> Z -> list ascii -> option Z;
  (** [fs_root] of a file system *)
  fs_root : Z -> Z;
  (** the operations in the tables of the file systems that are not NULL *)
  fs_has : Z -> vop -> bool;
  (** driver lookup; 0 is NULL *)
  bytedev_lookup : Z -> Z;
  blockdev_lookup : Z -> Z;
  (** the operations of a driver that are not NULL, and what they do *)
  cd_has : Z -> vop -> bool;
  cd_read : Z -> Z -> Z -> fsst -> (Z * list Z) * fsst;
  cd_write : Z -> Z -> list Z -> fsst -> Z * fsst;
  (** [stat] of a file system's table: its result and what it writes to [*ss] *)
  fs_stat : Z -> fsst -> Z -> Z -> Z * list Z;
  (** whether the memory of a page frame can still be read after
      [slab_obj_free] and before the next allocation *)
  page_keeps : bool;
  dirent_linked d fs i n j : dirent d fs i n = Some j -> query_vnode d fs j = true;
  delete_linked f d fs i : delete_vnode = Some f -> query_vnode d fs i = true ->
    (forall fs' j, read_vnode (f d fs i) fs' j = read_vnode d fs' j) /\
    (forall fs' j, query_vnode (f d fs i) fs' j = query_vnode d fs' j) /\
    (forall fs' j n, dirent (f d fs i) fs' j n = dirent d fs' j n);
  delete_others f d fs i fs' j : delete_vnode = Some f -> (fs', j) <> (fs, i) ->
    read_vnode (f d fs i) fs' j = read_vnode d fs' j /\ query_vnode (f d fs i) fs' j = query_vnode d fs' j;
  cd_read_files dev pos n d fs j : read_vnode (snd (cd_read dev pos n d)) fs j = read_vnode d fs j /\
    query_vnode (snd (cd_read dev pos n d)) fs j = query_vnode d fs j;
  cd_write_files dev pos l d fs j : read_vnode (snd (cd_write dev pos l d)) fs j = read_vnode d fs j /\
    query_vnode (snd (cd_write dev pos l d)) fs j = query_vnode d fs j;
}.
(** File types, from the mode bits. *)
Class StatModes := {
  S_ISCHR : Z -> bool; S_ISBLK : Z -> bool; S_ISDIR : Z -> bool; S_ISREG : Z -> bool;
  stat_chr m : S_ISCHR m = true -> S_ISBLK m = false /\ S_ISDIR m = false /\ S_ISREG m = false;
  stat_blk m : S_ISBLK m = true -> S_ISDIR m = false /\ S_ISREG m = false;
  stat_dir m : S_ISDIR m = true -> S_ISREG m = false;
}.

Record vfs `{KList} `{FsOps} := mkVfs {
  vnodes : gmap Z vnode;
  vnode_inuse_list : klist;
  disk : fsst;
  files : gmap Z file;
  (** of the current process *)
  p_files : list Z;
  p_cwd : Z;
  vfs_root_vn : Z;
  (** the cached pages (vnode and page number) that are in a page table *)
  mapped : list (Z * Z)
}.

Section Vnode.
Context `{KL : KList} `{SL : Slab} `{FO : FsOps} `{SM : StatModes} `{ER : KErrno}.

Definition upd_vnodes (f : gmap Z vnode -> gmap Z vnode) (s : vfs) : vfs :=
  mkVfs _ _ (f (vnodes s)) (vnode_inuse_list s) (disk s) (files s) (p_files s) (p_cwd s) (vfs_root_vn s) (mapped s).
Definition upd_inuse (f : klist -> klist) (s : vfs) : vfs :=
  mkVfs _ _ (vnodes s) (f (vnode_inuse_list s)) (disk s) (files s) (p_files s) (p_cwd s) (vfs_root_vn s) (mapped s).
Definition upd_disk (f : fsst -> fsst) (s : vfs) : vfs :=
  mkVfs _ _ (vnodes s) (vnode_inuse_list s) (f (disk s)) (files s) (p_files s) (p_cwd s) (vfs_root_vn s) (mapped s).
Definition upd_files (f : gmap Z file -> gmap Z file) (s : vfs) : vfs :=
  mkVfs _ _ (vnodes s) (vnode_inuse_list s) (disk s) (f (files s)) (p_files s) (p_cwd s) (vfs_root_vn s) (mapped s).
Definition upd_fds (f : list Z -> list Z) (s : vfs) : vfs :=
  mkVfs _ _ (vnodes s) (vnode_inuse_list s) (disk s) (files s) (f (p_files s)) (p_cwd s) (vfs_root_vn s) (mapped s).
Definition set_cwd (v : Z) (s : vfs) : vfs :=
  mkVfs _ _ (vnodes s) (vnode_inuse_list s) (disk s) (files s) (p_files s) v (vfs_root_vn s) (mapped s).
Definition upd_mapped (f : list (Z * Z) -> list (Z * Z)) (s : vfs) : vfs :=
  mkVfs _ _ (vnodes s) (vnode_inuse_list s) (disk s) (files s) (p_files s) (p_cwd s) (vfs_root_vn s) (f (mapped s)).

Definition with_ref (n : Z) (x : vnode) : vnode :=
  mkVnode (vn_fs x) (vn_vno x) (vn_ops x) (vn_mode x) (vn_len x) (vn_devid x) (vn_dev x) n (vn_nrespages x) (vn_respages x) (vn_busy x).
Definition with_pages (n : Z) (l : list pframe) (x : vnode) : vnode :=
  mkVnode (vn_fs x) (vn_vno x) (vn_ops x) (vn_mode x) (vn_len x) (vn_devid x) (vn_dev x) (vn_refcount x) n l (vn_busy x).
Definition with_busy (b : bool) (x : vnode) : vnode :=
  mkVnode (vn_fs x) (vn_vno x) (vn_ops x) (vn_mode x) (vn_len x) (vn_devid x) (vn_dev x) (vn_refcount x) (vn_nrespages x) (vn_respages x) b.
Definition with_spec (o : vops) (d : Z) (x : vnode) : vnode :=
  mkVnode (vn_fs x) (vn_vno x) o (vn_mode x) (vn_len x) (vn_devid x) d (vn_refcount x) (vn_nrespages x) (vn_respages x) (vn_busy x).

Definition load_vn (v : Z) : M vfs vnode := fun s => mthe (vnodes s !! v) s.
Definition store_vn (v : Z) (f : vnode -> vnode) : M vfs unit :=
  let! x := load_vn v in mput (upd_vnodes (<[v := f x]>)).

(** Whether an operation of a vnode is not NULL. *)
Definition has_op (x : vnode) (o : vop) : bool :=
  match vn_ops x with
  | FsVops k => fs_has k o
  | bytedev_spec_vops =>
      match o with Vread | Vwrite | Vmmap | Vstat | Vfillpage | Vdirtypage | Vcleanpage => true | _ => false end
  | blockdev_spec_vops => match o with Vstat => true | _ => false end
  end.

(** ** Reference counts *)
Definition vref (v : Z) : M vfs unit :=
  KASSERT (negb (v =? 0)) ;;;
  let! x := load_vn v in
  KASSERT (0 <? vn_refcount x) ;;;
  store_vn v (fun x => with_ref (vn_refcount x + 1) x).

Definition init_special_vnode (v : Z) : M vfs unit :=
  let! x := load_vn v in
  if S_ISCHR (vn_mode x) then
    store_vn v (fun x => with_spec bytedev_spec_vops (bytedev_lookup (vn_devid x)) x)
  else
    KASSERT (S_ISBLK (vn_mode x)) ;;;
    store_vn v (fun x => with_spec blockdev_spec_vops (blockdev_lookup (vn_devid x)) x).

Fixpoint find_inuse (l : list Z) (fs vno : Z) : M vfs Z :=
  match l with
  | [] => mret_ 0
  | v :: r =>
      let! x := load_vn v in
      if (vn_fs x =? fs) && (vn_vno x =? vno) then mret_ v else find_inuse r fs vno
  end.

Definition vget (fs vno : Z) : M vfs Z :=
  KASSERT (negb (fs =? 0)) ;;;
  let! l := mget (fun s => list_items (vnode_inuse_list s)) in
  let! v := find_inuse l fs vno in
  if negb (v =? 0) then
    let! x := load_vn v in
    if vn_busy x then mfail FFuel
    else vref v ;;; mret_ v
  else
    let! h := mget vnodes in
    match slab_pick h with
    | None => mfail FFuel
    | Some v =>
        mput (upd_vnodes (<[v := mkVnode fs vno (FsVops 0) 0 0 0 0 0 0 [] true]>)) ;;;
        mput (upd_inuse (list_insert_head v)) ;;;
        let! d := mget disk in
        let i := read_vnode d fs vno in
        store_vn v (fun x => mkVnode fs vno (FsVops (vi_ops i)) (vi_mode i) (vi_len i) (vi_devid i) 0 0 0 [] false) ;;;
        (if S_ISCHR (vi_mode i) || S_ISBLK (vi_mode i) then init_special_vnode v else mret_ tt) ;;;
        store_vn v (with_ref 1) ;;;
        mret_ v
    end.

(** The pages of a vnode that goes away.  [pframe_free] takes the page out of
    the page tables, frees the frame, takes it off the object's list, for
    which it reads the freed frame, and drops the page's reference with [put]. *)
Definition unmap_page (v : Z) (p : pframe) (l : list (Z * Z)) : list (Z * Z) := filter (fun e => e <> (v, pf_pagenum p)) l.
Fixpoint free_pages (put : M vfs unit) (v : Z) (ps : list pframe) : M vfs unit :=
  match ps with
  | [] => mret_ tt
  | p :: r =>
      mguard (negb (pf_busy p)) FFuel ;;;
      KASSERT (negb (pf_pinned p)) ;;;
      mput (upd_mapped (unmap_page v p)) ;;;
      store_vn v (fun x => with_pages (vn_nrespages x - 1) (vn_respages x) x) ;;;
      mguard page_keeps FUndef ;;;
      store_vn v (fun x => with_pages (vn_nrespages x)
        (filter (fun q => pf_pagenum q <> pf_pagenum p) (vn_respages x)) x) ;;;
      put ;;;
      free_pages put v r
  end.
(** The last part of [vput]: one reference less, and the vnode goes when none
    is left. *)
Definition vput_drop (v : Z) : M vfs unit :=
  store_vn v (fun x => with_ref (vn_refcount x - 1) x) ;;;
  let! x := load_vn v in
  if 0 <? vn_refcount x then mret_ tt
  else
    KASSERT (vn_refcount x =? 0) ;;;
    KASSERT (vn_nrespages x =? 0) ;;;
    store_vn v (with_busy true) ;;;
    match delete_vnode with
    | Some f => mput (upd_disk (fun d => f d (vn_fs x) (vn_vno x)))
    | None => mret_ tt
    end ;;;
    mput (upd_inuse (list_remove v)) ;;;
    mput (upd_vnodes (delete v)).

(** [vput] calls itself through [pframe_free].  The inner call finds the
    reference being dropped and one page less, so it neither frees pages nor
    the vnode: one level of recursion is enough. *)
Fixpoint vput_ (fuel : nat) (v : Z) : M vfs unit :=
  match fuel with
  | O => mfail FFuel
  | S fuel =>
  KASSERT (negb (v =? 0)) ;;;
  let! x := load_vn v in
  KASSERT (0 <=? vn_nrespages x) ;;;
  KASSERT (vn_nrespages x <? vn_refcount x) ;;;
  KASSERT (negb (vn_busy x)) ;;;
  let! d := mget disk in
  (if (vn_nrespages x =? vn_refcount x - 1) && negb (query_vnode d (vn_fs x) (vn_vno x)) then
     free_pages (vput_ fuel v) v (vn_respages x) ;;;
     let! x := load_vn v in
     KASSERT (vn_nrespages x =? 0) ;;;
     KASSERT (vn_refcount x =? 1)
   else mret_ tt) ;;;
  vput_drop v
  end.
Definition vput (v : Z) : M vfs unit := vput_ 2 v.

(** ** Use of a file system *)
Fixpoint in_use_loop (l : list Z) (fs ret : Z) : M vfs Z :=
  match l with
  | [] => mret_ ret
  | v :: r =>
      let! x := load_vn v in
      KASSERT (vn_nrespages x <=? vn_refcount x) ;;;
      KASSERT (0 <=? vn_nrespages x) ;;;
      if negb (vn_fs x =? fs) then in_use_loop r fs ret
      else
        let refs := vn_refcount x - vn_nrespages x in
        let root := fs_root (vn_fs x) =? v in
        KASSERT (0 <=? refs) ;;;
        KASSERT ((root && (1 <=? refs)) || (negb root && (0 <=? refs))) ;;;
        if (root && (1 <? refs)) || (negb root && negb (refs =? 0)) then in_use_loop r fs (- EBUSY)
        else in_use_loop r fs ret
  end.
Definition vfs_is_in_use (fs : Z) : M vfs Z :=
  let! l := mget (fun s => list_items (vnode_inuse_list s)) in in_use_loop l fs 0.

Fixpoint inuse_count (l : list Z) (fs n : Z) : M vfs Z :=
  match l with
  | [] => mret_ n
  | v :: r => let! x := load_vn v in inuse_count r fs (if vn_fs x =? fs then n + 1 else n)
  end.
Definition vnode_inuse (fs : Z) : M vfs Z :=
  let! l := mget (fun s => list_items (vnode_inuse_list s)) in inuse_count l fs 0.

(** ** Special files *)
Definition special_file_stat (v : Z) : M vfs (Z * list Z) :=
  let! x := load_vn v in
  let! r := load_vn (fs_root (vn_fs x)) in
  KASSERT (has_op r Vstat) ;;;
  match vn_ops r with
  | FsVops k => let! d := mget disk in mret_ (fs_stat k d (vn_fs x) (vn_vno x))
  | _ => mfail FFuel
  end.
Definition special_file_read (v offset count : Z) : M vfs (Z * list Z) :=
  KASSERT (negb (v =? 0)) ;;;
  let! x := load_vn v in
  KASSERT (S_ISCHR (vn_mode x) || S_ISBLK (vn_mode x)) ;;;
  KASSERT (negb (vn_dev x =? 0) && cd_has (vn_dev x) Vread) ;;;
  let dev := bytedev_lookup (vn_devid x) in
  (if dev =? 0 then mfail FUndef else mret_ tt) ;;;
  let! d := mget disk in
  let '(r, d') := cd_read dev offset count d in
  mput (upd_disk (fun _ => d')) ;;; mret_ r.
Definition special_file_write (v offset : Z) (buf : list Z) : M vfs Z :=
  KASSERT (negb (v =? 0)) ;;;
  let! x := load_vn v in
  KASSERT (S_ISCHR (vn_mode x) || S_ISBLK (vn_mode x)) ;;;
  KASSERT (negb (vn_dev x =? 0) && cd_has (vn_dev x) Vwrite) ;;;
  let dev := bytedev_lookup (vn_devid x) in
  (if dev =? 0 then mfail FUndef else mret_ tt) ;;;
  let! d := mget disk in
  let '(r, d') := cd_write dev offset buf d in
  mput (upd_disk (fun _ => d')) ;;; mret_ r.
End Vnode.

(** ** References *)
Section VnodeSpec.
Context `{KL : KList} `{SL : Slab} `{FO : FsOps} `{SM : StatModes} `{ER : KErrno}.
Implicit Types s : vfs.

(** Active references: those that are not a resident page's. *)
Definition act s (v : Z) : Z :=
  from_option (fun x => vn_refcount x - vn_nrespages x) 0 (vnodes s !! v).

Record counted (x : vnode) : Prop := {
  c_pages : vn_nrespages x = Z.of_nat (length (vn_respages x));
  c_le : vn_nrespages x <= vn_refcount x;
  c_pos : 0 < vn_refcount x;
  c_nodup : NoDup (pf_pagenum <$> vn_respages x);
  c_quiet : Forall (fun p => pf_pinned p = false /\ pf_busy p = false) (vn_respages x);
  c_busy : vn_busy x = false;
}.

(** The operations of an inode's vnode. *)
Definition ino_vops (d : fsst) (fs vno : Z) : vops :=
  let i := read_vnode d fs vno in
  if S_ISCHR (vi_mode i) then bytedev_spec_vops
  else if S_ISBLK (vi_mode i) then blockdev_spec_vops
  else FsVops (vi_ops i).

(** The vnode table between two calls: the vnodes in use are on the list,
    each once; no two stand for the same inode; the counts cover the resident
    pages; no page or vnode is in transit. *)
Record vn_table s : Prop := {
  v_null : vnodes s !! 0 = None;
  v_nodup : NoDup (list_items (vnode_inuse_list s));
  v_list : forall v, v ∈ list_items (vnode_inuse_list s) <-> is_Some (vnodes s !! v);
  v_cnt : forall v x, vnodes s !! v = Some x -> counted x;
  v_uniq : forall v w x y, vnodes s !! v = Some x -> vnodes s !! w = Some y ->
    vn_fs x = vn_fs y -> vn_vno x = vn_vno y -> v = w;
  v_inode : forall v x, vnodes s !! v = Some x ->
    vn_ops x = ino_vops (disk s) (vn_fs x) (vn_vno x) /\
    vn_mode x = vi_mode (read_vnode (disk s) (vn_fs x) (vn_vno x));
}.
(** Where a freed page frame cannot be read, [vput] must not meet a cached
    page of an inode that is not linked (see [vput_correct]). *)
Definition pages_linked s : Prop := page_keeps = true \/
  forall v x, vnodes s !! v = Some x -> vn_respages x = [] \/ query_vnode (disk s) (vn_fs x) (vn_vno x) = true.
Record vn_ok s : Prop := { v_table :> vn_table s; v_linked : pages_linked s }.

(** The vnode of the same inode. *)
Definition same_vnode (x y : vnode) : Prop :=
  vn_fs y = vn_fs x /\ vn_vno y = vn_vno x /\ vn_ops y = vn_ops x /\ vn_mode y = vn_mode x /\ vn_devid y = vn_devid x.
#[export] Instance same_vnode_equiv : Equivalence same_vnode.
Proof. split; unfold same_vnode; [intros x|intros x y|intros x y z]; naive_solver congruence. Qed.

Definition ind (v w : Z) : Z := if decide (v = w) then 1 else 0.

(** [s'] has [dl v] active references more to every [v] than [s], and the
    vnodes that stay referenced are the same; nothing else of the process
    changes. *)
Record vrel s s' (dl : Z -> Z) : Prop := {
  r_act : forall v, act s' v = act s v + dl v;
  r_same : forall v x, vnodes s !! v = Some x -> 0 < act s v -> 0 < act s' v ->
    exists x', vnodes s' !! v = Some x' /\ same_vnode x x';
  r_files : files s' = files s;
  r_fds : p_files s' = p_files s;
  r_cwd : p_cwd s' = p_cwd s;
  r_root : vfs_root_vn s' = vfs_root_vn s;
}.
(** The same files and directories on disk. *)
Definition same_tree (d d' : fsst) : Prop :=
  (forall fs j, read_vnode d' fs j = read_vnode d fs j) /\
  (forall fs j, query_vnode d' fs j = query_vnode d fs j) /\
  (forall fs j n, dirent d' fs j n = dirent d fs j n).
#[export] Instance same_tree_equiv : Equivalence same_tree.
Proof. split; unfold same_tree; [intros x|intros x y|intros x y z]; naive_solver congruence. Qed.

Lemma act_pos_some s v : 0 < act s v -> exists x, vnodes s !! v = Some x.
Proof. unfold act. destruct (vnodes s !! v); cbn; [eauto|lia]. Qed.
Lemma act_nonneg s v : vn_ok s -> 0 <= act s v.
Proof. intros K. unfold act. destruct (vnodes s !! v) as [x|] eqn:E; cbn; [|lia]. pose proof (c_le _ (v_cnt _ K _ _ E)). lia. Qed.
Lemma act_nonzero s v : vn_ok s -> 0 < act s v -> v <> 0.
Proof. intros K H ->. unfold act in H. rewrite (v_null _ K) in H. cbn in H. lia. Qed.

(** Composing steps: what is referenced before and after must be so in
    between. *)
Lemma vrel_trans s s1 s2 d1 d2 d :
  vrel s s1 d1 -> vrel s1 s2 d2 -> (forall v, 0 <= d1 v) \/ (forall v, d2 v <= 0) ->
  (forall v, d v = d1 v + d2 v) -> vrel s s2 d.
Proof.
  intros [A1 B1 C1 D1 E1 F1] [A2 B2 C2 D2 E2 F2] Hm Hd. split; try congruence.
  - intros v. rewrite A2, A1, Hd. lia.
  - intros v x Hx Hp Hp2. assert (0 < act s1 v) as H1.
    { pose proof (A1 v). pose proof (A2 v). destruct Hm as [Hm|Hm]; specialize (Hm v); lia. }
    destruct (B1 v x Hx Hp H1) as (x1 & Hx1 & E). destruct (B2 v x1 Hx1 H1 Hp2) as (x2 & Hx2 & E').
    exists x2. split; [done|by etrans].
Qed.
Lemma vrel_refl s : vrel s s (fun _ => 0).
Proof. split; try done; [intros; lia|]. intros v x Hx _ _. by exists x. Qed.
Lemma vrel_ext s s' d d' : vrel s s' d -> (forall v, d' v = d v) -> vrel s s' d'.
Proof. intros [] E. split; try done. intros v. rewrite E. auto. Qed.

Lemma ind_same v : ind v v = 1.
Proof. unfold ind. by rewrite decide_True. Qed.
Lemma ind_other v w : v <> w -> ind v w = 0.
Proof. intros. unfold ind. by rewrite decide_False. Qed.
Lemma ind_range v w : 0 <= ind v w <= 1.
Proof. unfold ind. case_decide; lia. Qed.

Lemma load_vn_wp s v x Q : vnodes s !! v = Some x -> Q x s -> wp (load_vn v) s Q.
Proof. intros H ?. unfold wp, load_vn. by rewrite H. Qed.
Lemma store_vn_wp s v x f Q : vnodes s !! v = Some x -> Q tt (upd_vnodes (<[v := f x]>) s) -> wp (store_vn v f) s Q.
Proof. intros H ?. unfold store_vn. wp_step. by eapply load_vn_wp. Qed.

(** Another count for a vnode that stays in use. *)
Lemma set_vn_table s v x x' : vn_table s -> vnodes s !! v = Some x -> same_vnode x x' -> counted x' ->
  vn_table (upd_vnodes (<[v := x']>) s).
Proof.
  intros [H0 H1 H2 H3 H4 H5] Hx (E1 & E2 & E3 & E4 & E5) Hc. split; cbn.
  - rewrite lookup_insert_ne; [done|]. intros ->. congruence.
  - done.
  - intros w. rewrite H2. destruct (decide (w = v)) as [->|]; [rewrite lookup_insert_eq, Hx; split; eauto|by rewrite lookup_insert_ne].
  - intros w y. destruct (decide (w = v)) as [->|]; [rewrite lookup_insert_eq; by intros [= <-]|rewrite lookup_insert_ne by done; apply H3].
  - assert (forall w y, <[v := x']> (vnodes s) !! w = Some y -> exists y0, vnodes s !! w = Some y0 /\ vn_fs y0 = vn_fs y /\ vn_vno y0 = vn_vno y) as Hl.
    { intros w y. destruct (decide (w = v)) as [->|]; [rewrite lookup_insert_eq; intros [= <-]; eauto|rewrite lookup_insert_ne by done; eauto]. }
    intros w1 w2 y1 y2 (z1 & Hz1 & ? & ?)%Hl (z2 & Hz2 & ? & ?)%Hl ? ?. eapply (H4 w1 w2 z1 z2); congruence.
  - intros w y. destruct (decide (w = v)) as [->|]; [rewrite lookup_insert_eq; intros [= <-]|rewrite lookup_insert_ne by done; apply H5].
    rewrite E3, E4, E1, E2. by apply (H5 v).
Qed.
(** Cached pages of unlinked inodes do not appear. *)
Lemma pages_linked_step s s' : (forall w y, vnodes s' !! w = Some y -> vn_respages y = [] \/
    exists y0, vnodes s !! w = Some y0 /\ vn_respages y = vn_respages y0 /\
      query_vnode (disk s') (vn_fs y) (vn_vno y) = query_vnode (disk s) (vn_fs y0) (vn_vno y0)) ->
  pages_linked s -> pages_linked s'.
Proof.
  intros H [Hk|Hl]; [by left|right]. intros w y Hy. destruct (H w y Hy) as [E|(y0 & Hy0 & -> & ->)]; [by left|]. by apply (Hl w).
Qed.
Lemma set_vn_linked s v x x' : vnodes s !! v = Some x -> same_vnode x x' -> vn_respages x' = vn_respages x ->
  pages_linked s -> pages_linked (upd_vnodes (<[v := x']>) s).
Proof.
  intros Hx (E1 & E2 & _) Ep. apply pages_linked_step. intros w y. cbn. intros [[<- <-]|[Hne Hy]]%lookup_insert_Some; right.
  - exists x. by rewrite E1, E2.
  - by exists y.
Qed.
Lemma set_vn_ok s v x x' : vn_ok s -> vnodes s !! v = Some x -> same_vnode x x' -> counted x' -> vn_respages x' = vn_respages x ->
  vn_ok (upd_vnodes (<[v := x']>) s).
Proof. intros [K L] Hx E C Ep. split; [by apply (set_vn_table s v x)|by apply (set_vn_linked s v x)]. Qed.
Lemma set_vn_rel s v x x' n : vnodes s !! v = Some x -> same_vnode x x' ->
  vn_refcount x' - vn_nrespages x' = vn_refcount x - vn_nrespages x + n ->
  vrel s (upd_vnodes (<[v := x']>) s) (fun w => n * ind v w).
Proof.
  intros Hx E Hn. split; try done; cbn.
  - intros w. unfold act. cbn. destruct (decide (v = w)) as [->|].
    + rewrite lookup_insert_eq, Hx, ind_same. cbn. lia.
    + rewrite lookup_insert_ne, ind_other by done. lia.
  - intros w y Hy _ _. destruct (decide (v = w)) as [->|].
    + rewrite lookup_insert_eq. simplify_eq. eauto.
    + rewrite lookup_insert_ne by done. by exists y.
Qed.

Lemma vref_wp s v Q : vn_ok s -> is_Some (vnodes s !! v) ->
  (forall s', vn_ok s' -> vrel s s' (ind v) -> disk s' = disk s ->
     (forall x, vnodes s !! v = Some x -> exists x', vnodes s' !! v = Some x' /\ same_vnode x x') -> Q tt s') -> wp (vref v) s Q.
Proof.
  intros K [x Hx] HQ. assert (v <> 0) as H0 by (intros ->; rewrite (v_null _ K) in Hx; done).
  pose proof (v_cnt _ K _ _ Hx) as []. unfold vref.
  wp_step. wp_step; [zbool|]. wp_step. eapply load_vn_wp; [done|]. wp_step. wp_step; [zbool|].
  eapply store_vn_wp; [done|].
  apply HQ; [|eapply vrel_ext; [eapply (set_vn_rel s v x _ 1); [done..|cbn; lia]|intros; cbn beta; lia]|done|].
  - eapply set_vn_ok; [done..| |done]. split; cbn; try done; lia.
  - intros y Hy. simplify_eq. cbn. rewrite lookup_insert_eq. by eexists.
Qed.

(** ** [vput] *)
Lemma upd_vn_twice s v x y : upd_vnodes (<[v := y]>) (upd_vnodes (<[v := x]>) s) = upd_vnodes (<[v := y]>) s.
Proof. unfold upd_vnodes. cbn. by rewrite insert_insert_eq. Qed.
Lemma upd_vn_id s v x : vnodes s !! v = Some x -> upd_vnodes (<[v := x]>) s = s.
Proof. intros H. destruct s. unfold upd_vnodes. cbn in *. by rewrite insert_id. Qed.

(** The call of [vput] inside [pframe_free] only drops a reference. *)
Lemma vput_nested n s v x Q :
  v <> 0 -> vnodes s !! v = Some x -> 0 <= vn_nrespages x -> vn_nrespages x < vn_refcount x - 1 -> vn_busy x = false ->
  Q tt (upd_vnodes (<[v := with_ref (vn_refcount x - 1) x]>) s) -> wp (vput_ (S n) v) s Q.
Proof.
  intros H0 Hx Hn Hlt Hb HQ. cbn [vput_]. wp_step. wp_step; [zbool|]. wp_step. eapply load_vn_wp; [done|].
  wp_step. wp_step; [zbool|]. wp_step. wp_step; [zbool|]. wp_step. wp_step; [by rewrite Hb|]. wp_step. wp_step.
  rewrite (proj2 (Z.eqb_neq _ _)) by lia. cbn [andb]. wp_step. wp_step. unfold vput_drop. wp_step. eapply store_vn_wp; [done|].
  wp_step. eapply load_vn_wp; [apply lookup_insert_eq|]. cbn [vn_refcount with_ref].
  rewrite (proj2 (Z.ltb_lt _ _)) by lia. by wp_step.
Qed.

(** The page tables without the pages [ps] of [v]. *)
Definition unmap_all (v : Z) (ps : list pframe) (l : list (Z * Z)) : list (Z * Z) := foldl (fun l p => unmap_page v p l) l ps.
Lemma elem_of_unmap_all v ps : forall l e, e ∈ unmap_all v ps l <-> e ∈ l /\ ~ (e.1 = v /\ e.2 ∈ pf_pagenum <$> ps).
Proof.
  induction ps as [|p ps IH]; intros l e.
  - cbn. split; [|naive_solver]. intros H. split; [done|]. by intros [_ []%elem_of_nil].
  - change (unmap_all v (p :: ps) l) with (unmap_all v ps (unmap_page v p l)). rewrite IH, fmap_cons. unfold unmap_page. rewrite list_elem_of_filter, elem_of_cons. destruct e as [a b]. cbn. split.
    + intros [[Hne Hl] Hn]. split; [done|]. intros [-> [->|Hin]]; [by destruct Hne|by apply Hn].
    + intros [Hl Hn]. split; [split; [intros [= -> ->]; apply Hn; auto|done]|]. intros [-> Hin]. apply Hn. auto.
Qed.
Lemma upd_vn_mapped s f m : upd_mapped m (upd_vnodes f s) = upd_vnodes f (upd_mapped m s).
Proof. done. Qed.

Lemma free_pages_wp n v ps : page_keeps = true -> forall s x Q,
  v <> 0 -> vnodes s !! v = Some x -> vn_respages x = ps -> vn_nrespages x = Z.of_nat (length ps) ->
  vn_refcount x = Z.of_nat (length ps) + 1 -> NoDup (pf_pagenum <$> ps) ->
  Forall (fun p => pf_pinned p = false /\ pf_busy p = false) ps -> vn_busy x = false ->
  Q tt (upd_vnodes (<[v := with_ref 1 (with_pages 0 [] x)]>) (upd_mapped (unmap_all v ps) s)) -> wp (free_pages (vput_ (S n) v) v ps) s Q.
Proof.
  intros Hkp. induction ps as [|p ps IH]; intros s x Q H0 Hx Hp Hn Hr Hd Hq Hb HQ; cbn [free_pages].
  - wp_step. assert (with_ref 1 (with_pages 0 [] x) = x) as E.
    { destruct x. unfold with_ref, with_pages. cbn in *. by subst. }
    rewrite E, (upd_vn_id (upd_mapped (unmap_all v []) s) v x Hx) in HQ. by destruct s.
  - apply Forall_cons in Hq as [[Hp1 Hp2] Hq]. cbn in Hd. apply NoDup_cons in Hd as [Hni Hd]. cbn [length] in *.
    wp_step. wp_step; [by rewrite Hp2|]. wp_step. wp_step; [by rewrite Hp1|]. wp_step. wp_step. wp_step. eapply store_vn_wp; [done|].
    wp_step. wp_step; [done|]. wp_step. eapply store_vn_wp; [apply lookup_insert_eq|]. rewrite upd_vn_twice. cbn [vn_respages vn_nrespages with_pages].
    assert (base.filter (fun q => pf_pagenum q <> pf_pagenum p) (vn_respages x) = ps) as ->.
    { rewrite Hp, filter_cons_False by naive_solver. apply filter_id. intros q Hq' E. apply Hni. rewrite <- E. by apply list_elem_of_fmap_2. }
    wp_step. eapply vput_nested; [done|apply lookup_insert_eq|cbn; lia..|done|]. rewrite upd_vn_twice.
    eapply IH; [done|apply lookup_insert_eq|done|cbn; lia..|done|done|done|].
    rewrite upd_vn_mapped, upd_vn_twice. exact HQ.
Qed.
(** The first page is enough where freed frames cannot be read. *)
Lemma free_pages_undef put v p ps s x : page_keeps = false -> vnodes s !! v = Some x -> pf_pinned p = false -> pf_busy p = false ->
  free_pages put v (p :: ps) s = Err FUndef.
Proof.
  intros Hk Hx Hp Hb. cbn [free_pages]. rewrite Hp, Hb, Hk. cbn [negb].
  rewrite (mbind_run (mguard true _) _ s tt s eq_refl), (mbind_run (KASSERT true) _ s tt s eq_refl), (mbind_run (mput _) _ s tt _ eq_refl).
  unfold mbind_ at 1. unfold store_vn at 1, load_vn at 1, mbind_ at 1. cbn. by rewrite Hx.
Qed.

(** The state when the last reference is gone: the vnode is off the list and
    freed, its inode given back. *)
Definition freed s (v : Z) (x : vnode) : vfs :=
  let d := match delete_vnode with Some f => f (disk s) (vn_fs x) (vn_vno x) | None => disk s end in
  upd_vnodes (delete v) (upd_inuse (list_remove v) (upd_disk (fun _ => d) s)).

Lemma freed_disk s v x j k : (k, j) <> (vn_fs x, vn_vno x) ->
  read_vnode (disk (freed s v x)) k j = read_vnode (disk s) k j /\ query_vnode (disk (freed s v x)) k j = query_vnode (disk s) k j.
Proof. intros Hne. unfold freed. cbn. destruct delete_vnode eqn:E; [|done]. by apply delete_others. Qed.
Lemma freed_tree s v x : query_vnode (disk s) (vn_fs x) (vn_vno x) = true -> same_tree (disk s) (disk (freed s v x)).
Proof. intros Hq. unfold freed. cbn. destruct delete_vnode eqn:E; [|done]. by apply delete_linked. Qed.

Lemma freed_lookup s v x w y : vn_table s -> vnodes s !! v = Some x -> vnodes (freed s v x) !! w = Some y ->
  w <> v /\ vnodes s !! w = Some y /\ (vn_fs y, vn_vno y) <> (vn_fs x, vn_vno x).
Proof.
  intros K Hx. unfold freed. cbn. intros [Hne Hy]%lookup_delete_Some. split; [done|]. split; [done|].
  intros [= E1 E2]. apply Hne. symmetry. by apply (v_uniq _ K w v y x).
Qed.
Lemma freed_ok s v x : vn_table s -> vnodes s !! v = Some x -> vn_table (freed s v x).
Proof.
  intros K Hx. pose proof K as [H0 H1 H2 H3 H4 H5].
  destruct (list_elem_of_split (list_items (vnode_inuse_list s)) v) as (l1 & l2 & Hl); [by apply H2; eexists|].
  pose proof H1 as H1'. rewrite Hl in H1'. destruct (NoDup_app_cons_notin _ _ _ H1') as [Hn1 Hn2].
  assert (list_items (vnode_inuse_list (freed s v x)) = l1 ++ l2) as Hi by (apply items_remove; [done|set_solver]).
  split.
  - unfold freed. cbn. rewrite lookup_delete_ne; [done|]. intros ->. congruence.
  - rewrite Hi. by apply NoDup_app_cons_del in H1'.
  - intros w. rewrite Hi. unfold freed. cbn. destruct (decide (v = w)) as [<-|Hne].
    + rewrite lookup_delete_eq. split; [set_solver|by intros [? ?]].
    + rewrite lookup_delete_ne by done. rewrite <- H2, Hl. set_solver.
  - intros w y (_ & Hy & _)%freed_lookup; [by eapply H3|done..].
  - intros w1 w2 y1 y2 (_ & Hy1 & _)%freed_lookup (_ & Hy2 & _)%freed_lookup; [by apply H4|done..].
  - intros w y (_ & Hy & Hne)%freed_lookup; [|done..]. unfold ino_vops. destruct (freed_disk s v x (vn_vno y) (vn_fs y) Hne) as [-> _]. by apply (H5 w).
Qed.
Lemma freed_linked s v x : vn_table s -> vnodes s !! v = Some x -> pages_linked s -> pages_linked (freed s v x).
Proof.
  intros K Hx. apply pages_linked_step. intros w y (_ & Hy & Hne)%freed_lookup; [|done..]. right. exists y. split; [done|]. split; [done|].
  by apply freed_disk.
Qed.
Lemma freed_rel s v x : vnodes s !! v = Some x -> vn_refcount x - vn_nrespages x = 1 ->
  vrel s (freed s v x) (fun w => - ind v w).
Proof.
  intros Hx Hr. split; try done.
  - intros w. unfold act, freed. cbn. destruct (decide (v = w)) as [<-|Hne].
    + rewrite lookup_delete_eq, Hx, ind_same. cbn. lia.
    + rewrite lookup_delete_ne, ind_other by done. lia.
  - intros w y Hy _. unfold act, freed. cbn. destruct (decide (v = w)) as [<-|Hne].
    + rewrite lookup_delete_eq. cbn. lia.
    + rewrite lookup_delete_ne by done. intros _. by exists y.
Qed.

(** What dropping one reference does to the table. *)
Record put_done s s' (v : Z) (x : vnode) : Prop := {
  pd_table : vn_table s';
  pd_linked : pages_linked s -> pages_linked s';
  pd_rel : vrel s s' (fun w => - ind v w);
  pd_tree : query_vnode (disk s) (vn_fs x) (vn_vno x) = true \/ 1 < act s v -> same_tree (disk s) (disk s');
  pd_others : forall w, w <> v -> vnodes s' !! w = vnodes s !! w;
  (** it is freed with the last reference, or with the last active one when
      the inode is not linked any more *)
  pd_freed : vnodes s' !! v = None <->
    vn_refcount x = 1 \/ (act s v = 1 /\ query_vnode (disk s) (vn_fs x) (vn_vno x) = false);
}.
Record putted s s' (v : Z) (x : vnode) : Prop := {
  pt_ok : vn_ok s';
  pt_rel : vrel s s' (fun w => - ind v w);
  pt_tree : query_vnode (disk s) (vn_fs x) (vn_vno x) = true \/ 1 < act s v -> same_tree (disk s) (disk s');
  pt_freed : vnodes s' !! v = None <->
    vn_refcount x = 1 \/ (act s v = 1 /\ query_vnode (disk s) (vn_fs x) (vn_vno x) = false);
}.
(** The last active reference to an unlinked inode goes: its pages go with it,
    out of the page tables too. *)
Definition last_of_unlinked s (v : Z) (x : vnode) : Prop := act s v = 1 /\ query_vnode (disk s) (vn_fs x) (vn_vno x) = false.
Definition pages_unmapped s s' (v : Z) (x : vnode) : Prop := forall e, e ∈ mapped s' <->
  e ∈ mapped s /\ ~ (last_of_unlinked s v x /\ e.1 = v /\ e.2 ∈ pf_pagenum <$> vn_respages x).

(** The end of [vput], with the pages already dealt with ([x1]). *)
Lemma freed_putted s v x x1 : vn_table s -> vnodes s !! v = Some x -> same_vnode x x1 -> act s v = 1 ->
  vn_refcount x = 1 \/ query_vnode (disk s) (vn_fs x) (vn_vno x) = false ->
  put_done s (freed (upd_vnodes (<[v := x1]>) s) v x1) v x.
Proof.
  intros K Hx (E1 & E2 & _) Ha Hq.
  assert (freed (upd_vnodes (<[v := x1]>) s) v x1 = freed s v x) as ->.
  { unfold freed, upd_vnodes, upd_inuse, upd_disk. cbn. by rewrite E1, E2, delete_insert_eq. }
  pose proof Ha as Ha1. unfold act in Ha. rewrite Hx in Ha. cbn in Ha. split.
  - by apply freed_ok.
  - by apply freed_linked.
  - by apply freed_rel.
  - intros [?|?]; [by apply freed_tree|lia].
  - intros w Hne. unfold freed. cbn. by rewrite lookup_delete_ne.
  - unfold freed. cbn. rewrite lookup_delete_eq. unfold act. rewrite Hx. cbn. naive_solver.
Qed.

Lemma dropped_putted s v x : vn_table s -> vnodes s !! v = Some x -> 0 < act s v -> 1 < vn_refcount x ->
  query_vnode (disk s) (vn_fs x) (vn_vno x) = true \/ act s v <> 1 ->
  put_done s (upd_vnodes (<[v := with_ref (vn_refcount x - 1) x]>) s) v x.
Proof.
  intros K Hx Ha Hr Hq. pose proof (v_cnt _ K _ _ Hx) as [C1 C2 C3 C4 C5 C6].
  assert (act s v = vn_refcount x - vn_nrespages x) as Ea by (unfold act; by rewrite Hx). split.
  - eapply set_vn_table; [done..|]. split; cbn; try done; lia.
  - by apply (set_vn_linked s v x).
  - eapply vrel_ext; [eapply (set_vn_rel s v x _ (-1)); [done..|cbn; lia]|intros; cbn beta; lia].
  - done.
  - intros w Hne. cbn. by rewrite lookup_insert_ne.
  - cbn. rewrite lookup_insert_eq. split; [done|]. intros [?|[? E]]; [lia|]. destruct Hq; congruence.
Qed.

Lemma vput_drop_wp s v x x1 Q : vn_table s -> vnodes s !! v = Some x -> 0 < act s v ->
  (x1 = x /\ (act s v = 1 -> query_vnode (disk s) (vn_fs x) (vn_vno x) = true) \/
   x1 = with_ref 1 (with_pages 0 [] x) /\ act s v = 1 /\ query_vnode (disk s) (vn_fs x) (vn_vno x) = false) ->
  (forall s', put_done s s' v x -> mapped s' = mapped s -> Q tt s') -> wp (vput_drop v) (upd_vnodes (<[v := x1]>) s) Q.
Proof.
  intros K Hx Ha Hx1 HQ. pose proof (v_cnt _ K _ _ Hx) as [C1 C2 C3 C4 C5 C6].
  assert (act s v = vn_refcount x - vn_nrespages x) as Ea by (unfold act; by rewrite Hx).
  unfold vput_drop. wp_step. eapply store_vn_wp; [apply lookup_insert_eq|]. rewrite upd_vn_twice.
  wp_step. eapply load_vn_wp; [apply lookup_insert_eq|]. cbn [vn_refcount with_ref vn_nrespages].
  destruct (Z.ltb_spec 0 (vn_refcount x1 - 1)) as [Hr|Hr].
  { wp_step. destruct Hx1 as [[-> Hq]|(-> & _)]; [|cbn in Hr; lia]. apply HQ; [|done]. apply dropped_putted; [done..|lia|].
    destruct (decide (act s v = 1)); auto. }
  assert (vn_refcount x1 = 1 /\ vn_nrespages x1 = 0) as [Hr1 Hn1] by (destruct Hx1 as [[-> _]|[-> _]]; cbn in *; lia).
  wp_step. wp_step; [zbool|]. wp_step. wp_step; [zbool|]. wp_step. eapply store_vn_wp; [apply lookup_insert_eq|]. rewrite upd_vn_twice.
  set (x2 := with_busy true _). set (s2 := upd_vnodes _ s).
  wp_step. apply (wp_mono _ _ (fun _ s' => s' = upd_disk (fun _ => match delete_vnode with Some f => f (disk s2) (vn_fs x2) (vn_vno x2) | None => disk s2 end) s2)).
  { destruct delete_vnode; [by apply wp_put|]. apply wp_ret. by destruct s. }
  intros [] s' ->. wp_step. wp_step. wp_step. apply HQ; [|done].
  assert (same_vnode x x2) as E by (destruct Hx1 as [[-> _]|[-> _]]; done).
  apply (freed_putted s v x x2); [done..| |]; destruct Hx1 as [[-> _]|(-> & ? & ?)]; cbn in *; auto; lia.
Qed.

(** Page tables do not matter for the rest. *)
Lemma put_done_mapped s s' m v x : put_done (upd_mapped m s) s' v x -> put_done s s' v x.
Proof. intros [P1 P2 [R1 R2 R3 R4 R5 R6] P4 P5 P6]. by split. Qed.

(** [vput], given the first test of its recursion. *)
Lemma vput_table_wp s v x Q : vn_table s -> 0 < act s v -> vnodes s !! v = Some x ->
  page_keeps = true \/ ~ (last_of_unlinked s v x /\ vn_respages x <> []) ->
  (forall s', put_done s s' v x -> pages_unmapped s s' v x -> Q tt s') -> wp (vput v) s Q.
Proof.
  intros K Ha Hx Hkp HQ. assert (v <> 0) as H0 by (intros ->; rewrite (v_null _ K) in Hx; done).
  pose proof (v_cnt _ K _ _ Hx) as [C1 C2 C3 C4 C5 C6]. assert (act s v = vn_refcount x - vn_nrespages x) as Ea.
  { unfold act. by rewrite Hx. }
  unfold vput. remember 1%nat as n eqn:Hn. cbn [vput_]. wp_step. wp_step; [zbool|]. wp_step. eapply load_vn_wp; [done|].
  wp_step. wp_step; [zbool|]. wp_step. wp_step; [zbool|]. wp_step. wp_step; [by rewrite C6|]. wp_step. wp_step. wp_step.
  destruct ((vn_nrespages x =? vn_refcount x - 1) && negb (query_vnode (disk s) (vn_fs x) (vn_vno x))) eqn:Ec.
  - apply andb_true_iff in Ec as [Ec1%Z.eqb_eq Ec2%negb_true_iff]. subst n.
    assert (last_of_unlinked s v x) as Hlu by (split; [lia|done]).
    assert (wp (free_pages (vput_ 1 v) v (vn_respages x)) s (fun _ s1 =>
      s1 = upd_vnodes (<[v := with_ref 1 (with_pages 0 [] x)]>) (upd_mapped (unmap_all v (vn_respages x)) s))) as Hfree.
    { destruct (vn_respages x) as [|p l] eqn:El.
      - cbn [free_pages]. wp_step. assert (with_ref 1 (with_pages 0 [] x) = x) as ->.
        { destruct x. unfold with_ref, with_pages. cbn in *. subst. f_equal; lia. }
        rewrite upd_vn_id by done. by destruct s.
      - destruct Hkp as [Hkp|Hkp]; [|by destruct Hkp]. rewrite <- El in *. eapply free_pages_wp; [done|done|exact Hx|done|done|lia|done|done|done|done]. }
    wp_step. eapply wp_mono; [exact Hfree|]. intros [] s1 ->. wp_step. eapply load_vn_wp; [apply lookup_insert_eq|].
    wp_step. wp_step; [done|]. wp_step; [done|]. set (s1 := upd_mapped _ s).
    eapply (vput_drop_wp s1 v x); [by destruct K|exact Hx|done|right; split; [done|exact Hlu]|].
    intros s' P Em. apply HQ; [by eapply put_done_mapped|]. intros e. rewrite Em. unfold s1. cbn. rewrite elem_of_unmap_all. tauto.
  - wp_step. rewrite <- (upd_vn_id s v x Hx). eapply vput_drop_wp; [done|exact Hx|done|left; split; [done|]|].
    + intros Ha1. apply andb_false_iff in Ec as [Ec%Z.eqb_neq|Ec%negb_false_iff]; [lia|done].
    + intros s' P Em. apply HQ; [done|]. intros e. rewrite Em. unfold last_of_unlinked.
      apply andb_false_iff in Ec as [Ec%Z.eqb_neq|Ec%negb_false_iff]; [|naive_solver congruence]. split; [|tauto]. intros He. split; [done|]. intros ([? _] & _). lia.
Qed.
Lemma vput_wp s v Q : vn_ok s -> 0 < act s v ->
  (forall s' x, vnodes s !! v = Some x -> putted s s' v x -> Q tt s') -> wp (vput v) s Q.
Proof.
  intros [K L] Ha HQ. destruct (act_pos_some _ _ Ha) as [x Hx]. eapply vput_table_wp; [done..| |].
  - destruct L as [?|L]; [by left|right]. intros [[_ Hq] Hp]. destruct (L v x Hx); congruence.
  - intros s' [P1 P2 P3 P4 P5 P6] _. apply (HQ s' x Hx). split; try done. split; [done|by apply P2].
Qed.
(** A page of an unlinked inode, where freed frames cannot be read. *)
Lemma vput_undef s v x : vn_table s -> vnodes s !! v = Some x -> page_keeps = false -> last_of_unlinked s v x -> vn_respages x <> [] ->
  vput v s = Err FUndef.
Proof.
  intros K Hx Hkp [Ha Hq] Hp. assert (v <> 0) as H0 by (intros ->; rewrite (v_null _ K) in Hx; done).
  pose proof (v_cnt _ K _ _ Hx) as [C1 C2 C3 C4 C5 C6]. unfold act in Ha. rewrite Hx in Ha. cbn in Ha.
  unfold vput. remember 1%nat as n eqn:Hn. cbn [vput_]. rewrite (proj2 (Z.eqb_neq _ _) H0). cbn [negb]. rewrite (mbind_run (KASSERT true) _ s tt s eq_refl).
  rewrite (mbind_run (load_vn v) _ s x s) by (unfold load_vn; by rewrite Hx).
  rewrite (proj2 (Z.leb_le _ _)), (proj2 (Z.ltb_lt _ _)), C6 by lia. cbn [negb]. rewrite !(mbind_run (KASSERT true) _ s tt s eq_refl).
  rewrite (mbind_run (mget _) _ s _ s eq_refl), (proj2 (Z.eqb_eq _ _)), Hq by lia. cbn [andb negb].
  apply mbind_err, mbind_err. destruct (vn_respages x) as [|p l]; [done|]. apply Forall_cons in C5 as [[? ?] _]. by eapply free_pages_undef.
Qed.

(** ** [vget] *)
Lemma find_inuse_wp fs vno l : forall s Q, (forall v, v ∈ l -> is_Some (vnodes s !! v)) ->
  (forall v, (v = 0 /\ forall w x, w ∈ l -> vnodes s !! w = Some x -> ~ (vn_fs x = fs /\ vn_vno x = vno)) \/
     (v ∈ l /\ exists x, vnodes s !! v = Some x /\ vn_fs x = fs /\ vn_vno x = vno) -> Q v s) -> wp (find_inuse l fs vno) s Q.
Proof.
  induction l as [|v l IH]; intros s Q Hl HQ; cbn [find_inuse].
  - wp_step. apply HQ. left. split; [done|]. intros w x Hw. by apply not_elem_of_nil in Hw.
  - destruct (Hl v) as [x Hx]; [by left|]. wp_step. eapply load_vn_wp; [done|].
    destruct (Z.eqb_spec (vn_fs x) fs), (Z.eqb_spec (vn_vno x) vno); cbn [andb].
    1: { wp_step. apply HQ. right. split; [by left|eauto]. }
    all: apply IH; [intros; apply Hl; by right|]; intros w [[-> Hn]|[Hw Hx']]; apply HQ; [left|right; split; [by right|done]];
      (split; [done|]); intros w y [-> |Hw]%elem_of_cons Hy; [simplify_eq; naive_solver|by eapply Hn].
Qed.

(** The vnode [vget] brings in. *)
Definition fresh_vnode (d : fsst) (fs vno : Z) : vnode :=
  let i := read_vnode d fs vno in
  mkVnode fs vno (ino_vops d fs vno) (vi_mode i) (vi_len i) (vi_devid i)
    (if S_ISCHR (vi_mode i) then bytedev_lookup (vi_devid i)
     else if S_ISBLK (vi_mode i) then blockdev_lookup (vi_devid i) else 0) 1 0 [] false.

Lemma fresh_ok s v fs vno : vn_ok s -> v <> 0 -> vnodes s !! v = None ->
  (forall w x, vnodes s !! w = Some x -> ~ (vn_fs x = fs /\ vn_vno x = vno)) ->
  let s' := upd_vnodes (<[v := fresh_vnode (disk s) fs vno]>) (upd_inuse (list_insert_head v) s) in
  vn_ok s' /\ vrel s s' (ind v).
Proof.
  intros [[H0 H1 H2 H3 H4 H5] HL] Hv0 Hv Hn s'.
  assert (v ∉ list_items (vnode_inuse_list s)) as Hni by (rewrite H2, Hv; by intros [? ?]).
  assert (list_items (vnode_inuse_list s') = v :: list_items (vnode_inuse_list s)) as Hi by (by apply items_insert_head).
  assert (forall w y, vnodes s' !! w = Some y -> w = v /\ y = fresh_vnode (disk s) fs vno \/ w <> v /\ vnodes s !! w = Some y) as Hl.
  { intros w y. unfold s'. cbn. intros [[<- <-]|[? ?]]%lookup_insert_Some; auto. }
  split; [split; [split|]|split; try done].
  - unfold s'. cbn. by rewrite lookup_insert_ne.
  - rewrite Hi. by constructor.
  - intros w. rewrite Hi, elem_of_cons, H2. unfold s'. cbn. destruct (decide (w = v)) as [->|].
    + rewrite lookup_insert_eq. naive_solver.
    + rewrite lookup_insert_ne by done. naive_solver.
  - intros w y [[-> ->]|[_ Hy]]%Hl; [|by eapply H3]. split; cbn; (done || lia || constructor).
  - intros w1 w2 y1 y2 [[-> ->]|[Hw1 Hy1]]%Hl [[-> ->]|[Hw2 Hy2]]%Hl E1 E2; [done| | |by apply (H4 w1 w2 y1 y2)].
    + by destruct (Hn w2 y2 Hy2).
    + by destruct (Hn w1 y1 Hy1).
  - intros w y [[-> ->]|[_ Hy]]%Hl; [done|by apply (H5 w)].
  - revert HL. apply pages_linked_step. intros w y [[-> ->]|[_ Hy]]%Hl; [by left|right]. by exists y.
  - intros w. unfold act, s'. cbn. destruct (decide (v = w)) as [<-|].
    + rewrite lookup_insert_eq, Hv, ind_same. done.
    + rewrite lookup_insert_ne, ind_other by done. lia.
  - intros w y Hy _ _. unfold s'. cbn. rewrite lookup_insert_ne by congruence. by exists y.
Qed.

Lemma vget_new_wp s fs vno v Q : vnodes s !! v = None ->
  Q v (upd_vnodes (<[v := fresh_vnode (disk s) fs vno]>) (upd_inuse (list_insert_head v) s)) ->
  wp (mput (upd_vnodes (<[v := mkVnode fs vno (FsVops 0) 0 0 0 0 0 0 [] true]>)) ;;;
      mput (upd_inuse (list_insert_head v)) ;;;
      let! d := mget disk in
      let i := read_vnode d fs vno in
      store_vn v (fun x => mkVnode fs vno (FsVops (vi_ops i)) (vi_mode i) (vi_len i) (vi_devid i) 0 0 0 [] false) ;;;
      (if S_ISCHR (vi_mode i) || S_ISBLK (vi_mode i) then init_special_vnode v else mret_ tt) ;;;
      store_vn v (with_ref 1) ;;;
      mret_ v) s Q.
Proof.
  intros Hv HQ. wp_step. wp_step. wp_step. wp_step. wp_step. wp_step. cbv zeta.
  cbn [disk upd_inuse upd_vnodes]. set (i := read_vnode (disk s) fs vno).
  set (s0 := upd_inuse (list_insert_head v) s) in *.
  change (upd_inuse _ (upd_vnodes ?f s)) with (upd_vnodes f s0).
  wp_step. eapply store_vn_wp; [apply lookup_insert_eq|]. rewrite upd_vn_twice. wp_step. 
  unfold fresh_vnode, ino_vops in HQ. fold i in HQ. unfold init_special_vnode.
  destruct (S_ISCHR (vi_mode i)) eqn:Ec; [|destruct (S_ISBLK (vi_mode i)) eqn:Eb]; cbn [orb].
  - wp_step. eapply load_vn_wp; [apply lookup_insert_eq|]. cbn [vn_mode]. rewrite Ec. eapply store_vn_wp; [apply lookup_insert_eq|]. rewrite upd_vn_twice.
    wp_step. eapply store_vn_wp; [apply lookup_insert_eq|]. rewrite upd_vn_twice. wp_step. exact HQ.
  - wp_step. eapply load_vn_wp; [apply lookup_insert_eq|]. cbn [vn_mode]. rewrite Ec. wp_step. wp_step; [done|].
    eapply store_vn_wp; [apply lookup_insert_eq|]. rewrite upd_vn_twice.
    wp_step. eapply store_vn_wp; [apply lookup_insert_eq|]. rewrite upd_vn_twice. wp_step. exact HQ.
  - wp_step. wp_step. eapply store_vn_wp; [apply lookup_insert_eq|]. rewrite upd_vn_twice. wp_step. exact HQ.
Qed.

Lemma vget_wp s fs vno Q : vn_ok s -> fs <> 0 -> slab_pick (vnodes s) <> None ->
  (forall v s' x, vn_ok s' -> vrel s s' (ind v) -> disk s' = disk s -> vnodes s' !! v = Some x -> vn_fs x = fs -> vn_vno x = vno ->
     (vnodes s !! v = None -> x = fresh_vnode (disk s) fs vno) -> Q v s') -> wp (vget fs vno) s Q.
Proof.
  intros K Hfs Hsl HQ. unfold vget. wp_step. wp_step; [zbool|]. wp_step. wp_step. wp_step.
  eapply find_inuse_wp; [intros v; apply K|]. intros v [[-> Hn]|[Hv (x & Hx & E1 & E2)]].
  - cbn [negb Z.eqb]. wp_step. wp_step. destruct (slab_pick (vnodes s)) as [v|] eqn:Hpick; [|done].
    destruct (slab_fresh _ _ Hpick) as [Hv0 Hv]. destruct (fresh_ok s v fs vno) as [K' R]; [done..| |].
    { intros w x Hx. apply (Hn w x); [|done]. apply K. eauto. }
    apply vget_new_wp; [done|]. eapply HQ; [done|done|done|apply lookup_insert_eq|done..].
  - assert (v <> 0) as H0 by (intros ->; rewrite (v_null _ K) in Hx; done).
    rewrite (proj2 (Z.eqb_neq _ _) H0). cbn [negb]. wp_step. eapply load_vn_wp; [done|].
    rewrite (c_busy _ (v_cnt _ K _ _ Hx)). wp_step. eapply vref_wp; [done|eauto|]. intros s' K' R Ed Hs. wp_step.
    destruct (Hs x Hx) as (y & Hy & Hs1 & Hs2 & _). eapply HQ; try done; congruence.
Qed.

(** The inode's vnode before: none, or the same one. *)
Lemma find_vnode s fs vno v w x y : vn_ok s -> vnodes s !! v = Some x -> vnodes s !! w = Some y ->
  vn_fs x = fs -> vn_vno x = vno -> vn_fs y = fs -> vn_vno y = vno -> v = w.
Proof. intros K Hx Hy <- <- ? ?. by apply (v_uniq _ K v w x y). Qed.

(** ** File systems in use *)
(** A vnode of [fs] with a reference besides the one that the mounted file
    system has to its root. *)
Definition in_use s (fs v : Z) : Prop :=
  exists x, vnodes s !! v = Some x /\ vn_fs x = fs /\ ind (fs_root fs) v < act s v.

Lemma in_use_loop_wp fs l : forall s ret Q, vn_ok s -> (forall v, v ∈ l -> is_Some (vnodes s !! v)) ->
  (forall x, vnodes s !! fs_root fs = Some x -> vn_fs x = fs -> 1 <= act s (fs_root fs)) ->
  (forall r, (r = - EBUSY /\ exists v, v ∈ l /\ in_use s fs v) \/ (r = ret /\ forall v, v ∈ l -> ~ in_use s fs v) -> Q r s) ->
  wp (in_use_loop l fs ret) s Q.
Proof.
  induction l as [|v l IH]; intros s ret Q K Hl Hr HQ; cbn [in_use_loop].
  - wp_step. apply HQ. right. split; [done|]. intros v Hv. by apply not_elem_of_nil in Hv.
  - destruct (Hl v) as [x Hx]; [by left|]. wp_step. eapply load_vn_wp; [done|].
    pose proof (v_cnt _ K _ _ Hx) as [C1 C2 C3 C4 C5 C6].
    assert (act s v = vn_refcount x - vn_nrespages x) as Ea by (unfold act; by rewrite Hx).
    wp_step. wp_step; [zbool|]. wp_step. wp_step; [zbool|].
    assert (in_use s fs v -> wp (in_use_loop l fs (- EBUSY)) s Q) as Hyes.
    { intros Hu. eapply IH; [done|intros; apply Hl; by right|done|]. intros r [[-> _]|[-> _]]; apply HQ; left;
        (split; [done|]); exists v; (split; [by left|done]). }
    assert (~ in_use s fs v -> wp (in_use_loop l fs ret) s Q) as Hno.
    { intros Hu. eapply IH; [done|intros; apply Hl; by right|done|]. intros r [[-> (w & Hw & Hw')]|[-> Hn]]; apply HQ; [left|right];
        (split; [done|]); [exists w; (split; [by right|done])|]. intros w [-> |Hw]%elem_of_cons; [done|by apply Hn]. }
    destruct (Z.eqb_spec (vn_fs x) fs) as [<-|Hne]; cbn [negb]; [|apply Hno; intros (y & Hy & E & _); congruence].
    assert (in_use s (vn_fs x) v <-> ind (fs_root (vn_fs x)) v < act s v) as Hiff by (unfold in_use; naive_solver).
    cbv zeta. wp_step. wp_step; [zbool|]. unfold ind in Hiff.
    destruct (Z.eqb_spec (fs_root (vn_fs x)) v) as [E|E]; [rewrite decide_True in Hiff by done|rewrite decide_False in Hiff by done]; cbn [andb orb negb].
    + rewrite E in Hr. specialize (Hr x Hx eq_refl). wp_step. wp_step; [zbool|].
      destruct (Z.ltb_spec 1 (vn_refcount x - vn_nrespages x)); cbn [orb]; [apply Hyes|apply Hno]; rewrite Hiff; lia.
    + wp_step. wp_step; [zbool|]. destruct (Z.eqb_spec (vn_refcount x - vn_nrespages x) 0); cbn [orb negb]; [apply Hno|apply Hyes]; rewrite Hiff; lia.
Qed.

Lemma inuse_count_wp fs l : forall s n Q, (forall v, v ∈ l -> is_Some (vnodes s !! v)) ->
  Q (n + Z.of_nat (length (base.filter (fun v => vn_fs <$> vnodes s !! v = Some fs) l))) s -> wp (inuse_count l fs n) s Q.
Proof.
  induction l as [|v l IH]; intros s n Q Hl HQ; cbn [inuse_count].
  - wp_step. cbn in HQ. by rewrite Z.add_0_r in HQ.
  - destruct (Hl v) as [x Hx]; [by left|]. wp_step. eapply load_vn_wp; [done|].
    apply IH; [intros; apply Hl; by right|]. destruct (Z.eqb_spec (vn_fs x) fs) as [E|E].
    + rewrite filter_cons_True in HQ by (rewrite Hx; cbn; congruence). cbn [length] in HQ.
      by rewrite <- Z.add_assoc, Z.add_1_l, <- Nat2Z.inj_succ.
    + rewrite filter_cons_False in HQ by (rewrite Hx; cbn; congruence). done.
Qed.

(** C30: [vget] returns the vnode of the inode: the one in use, or a new one
    initialised from the file system with its operations; it holds one more
    active reference, all other vnodes keep theirs, and the table stays
    consistent (one vnode per inode, on the list exactly once). *)
Theorem vget_correct s fs vno : vn_ok s -> fs <> 0 -> slab_pick (vnodes s) <> None ->
  exists v s' x, vget fs vno s = Ok (v, s') /\ vn_ok s' /\ vrel s s' (ind v) /\ disk s' = disk s /\
    vnodes s' !! v = Some x /\ vn_fs x = fs /\ vn_vno x = vno /\
    (vnodes s !! v = None -> x = fresh_vnode (disk s) fs vno).
Proof.
  intros K Hfs Hs. assert (wp (vget fs vno) s (fun v s' => exists x, vn_ok s' /\ vrel s s' (ind v) /\ disk s' = disk s /\
    vnodes s' !! v = Some x /\ vn_fs x = fs /\ vn_vno x = vno /\ (vnodes s !! v = None -> x = fresh_vnode (disk s) fs vno)))
    as (v & s' & E & x & H)%wp_ok; [|by exists v, s', x]. apply vget_wp; [done..|]. eauto 10.
Qed.

(** C29: [vput] of a referenced vnode drops exactly one active reference and
    leaves the other vnodes alone; the vnode is freed exactly when that was the
    last reference, or the last active one to an inode that is no longer
    linked; in the latter case its cached pages go with it and out of the page
    tables, and otherwise no page table changes; no assertion fails and the
    recursion through [pframe_free] ends.  The exception: [pframe_free] reads
    the page frame after freeing it, so where freed frames cannot be read,
    dropping the last active reference to an unlinked inode with cached pages
    is undefined. *)
Theorem vput_correct s v x : vn_table s -> 0 < act s v -> vnodes s !! v = Some x ->
  (exists s', vput v s = Ok (tt, s') /\ put_done s s' v x /\ pages_unmapped s s' v x) \/
  (page_keeps = false /\ last_of_unlinked s v x /\ vn_respages x <> [] /\ vput v s = Err FUndef).
Proof.
  intros K Ha Hx.
  assert (page_keeps = true \/ ~ (last_of_unlinked s v x /\ vn_respages x <> []) \/
    page_keeps = false /\ last_of_unlinked s v x /\ vn_respages x <> []) as Hc.
  { destruct page_keeps; [by left|right]. unfold last_of_unlinked. destruct (decide (act s v = 1)); [|left; naive_solver].
    destruct (query_vnode (disk s) (vn_fs x) (vn_vno x)); [left; naive_solver|]. destruct (vn_respages x); [left; naive_solver|right; by split_and!]. }
  assert (page_keeps = true \/ ~ (last_of_unlinked s v x /\ vn_respages x <> []) ->
    exists s', vput v s = Ok (tt, s') /\ put_done s s' v x /\ pages_unmapped s s' v x) as Hok.
  { intros H. assert (wp (vput v) s (fun _ s' => put_done s s' v x /\ pages_unmapped s s' v x)) as ([] & s' & H')%wp_ok; [|eauto].
    by apply (vput_table_wp s v x). }
  destruct Hc as [H|[H|(Hk & Hl & Hp)]]; [left; auto..|right]. split_and!; [done..|]. by apply (vput_undef s v x).
Qed.

(** [vfs_is_in_use] answers [-EBUSY] exactly when some vnode of the file
    system is actively referenced, not counting the mount's reference to its
    root, and 0 otherwise; [vnode_inuse] counts the vnodes of the file
    system. *)
Theorem vfs_is_in_use_correct s fs : vn_ok s ->
  (forall x, vnodes s !! fs_root fs = Some x -> vn_fs x = fs -> 1 <= act s (fs_root fs)) ->
  exists r, vfs_is_in_use fs s = Ok (r, s) /\ (r = - EBUSY <-> exists v, in_use s fs v) /\ (r = 0 <-> forall v, ~ in_use s fs v) /\
    exists n, vnode_inuse fs s = Ok (n, s) /\
      n = Z.of_nat (length (base.filter (fun v => vn_fs <$> vnodes s !! v = Some fs) (list_items (vnode_inuse_list s)))).
Proof.
  intros K Hr. assert (0 < EBUSY) as He by (pose proof errno_pos as H; rewrite Forall_forall in H; apply H; set_solver).
  assert (wp (vfs_is_in_use fs) s (fun r s' => s' = s /\ (r = - EBUSY <-> exists v, in_use s fs v) /\ (r = 0 <-> forall v, ~ in_use s fs v)))
    as (r & s' & E & -> & H1 & H2)%wp_ok.
  { unfold vfs_is_in_use. wp_step. wp_step. eapply in_use_loop_wp; [done|intros v; apply K|done|].
    assert (forall v, in_use s fs v -> v ∈ list_items (vnode_inuse_list s)) as Hl by (intros v (x & Hx & _); apply K; eauto).
    intros r [[-> (v & Hv & Hu)]|[-> Hn]]; (split; [done|]); (split; [|]).
    - split; [eauto|done].
    - split; [lia|]. intros Hn. by destruct (Hn v).
    - split; [lia|]. intros (v & Hv). by destruct (Hn v (Hl v Hv)).
    - split; [|done]. intros _ v Hv. by destruct (Hn v (Hl v Hv)). }
  exists r. split; [done|]. split; [done|]. split; [done|].
  assert (wp (vnode_inuse fs) s (fun n s' => s' = s /\
    n = Z.of_nat (length (base.filter (fun v => vn_fs <$> vnodes s !! v = Some fs) (list_items (vnode_inuse_list s))))))
    as (n & s' & E' & -> & H)%wp_ok; [|eauto].
  unfold vnode_inuse. wp_step. wp_step. apply inuse_count_wp; [intros v; apply K|]. done.
Qed.
End VnodeSpec.
