(* ===== verification/Namev.v ===== *)
(** * fs/namev.c: path names to vnodes

    [lookup] finds a name in a directory, [dir_namev] resolves a path up to its
    last component, [open_namev] the whole path, creating the last component
    on demand.  The operations of the file systems' vnode tables are the
    interface [VnOps]; its laws are the contract of those operations: what
    they return and which references they take.

    A path is a list of characters; a pointer into it is the rest of the path
    from there, with [None] for NULL. *)
From stdpp Require Import base gmap list fin_maps.
From Stdlib Require Import ZArith Lia Ascii.
From S2P Require Import Prelude KEnv Vnode.
Open Scope Z_scope.
Open Scope c_scope.

(** Constants of fs/fcntl.h, fs/file.h and fs/dirent.h. *)
Class VfsConsts := {
  NAME_LEN : Z;
  NFILES : Z;
  O_RDONLY : Z; O_WRONLY : Z; O_RDWR : Z; O_CREAT : Z; O_APPEND : Z;
  FMODE_READ : Z; FMODE_WRITE : Z; FMODE_APPEND : Z;
  SEEK_SET : Z; SEEK_CUR : Z; SEEK_END : Z;
  SIZEOF_DIRENT : Z;
  name_len_pos : 0 < NAME_LEN;
  nfiles_pos : 0 < NFILES;
  o_rdonly : O_RDONLY = 0;
  seek_distinct : SEEK_SET <> SEEK_CUR /\ SEEK_SET <> SEEK_END /\ SEEK_CUR <> SEEK_END;
}.

(** What a call on a directory may do to the references: nothing. *)
Definition neutral `{KList} `{FsOps} `{StatModes} (s : vfs) (code : Z) (s' : vfs) : Prop :=
  vn_ok s' /\ vrel s s' (fun _ => 0) /\ code <= 0.

(** The operations in the tables of the file systems.  [lookup] and [create]
    return with a reference to the vnode they give out; the others leave the
    references as they are. *)
Class VnOps `{KList} `{FsOps} `{StatModes} `{KErrno} := {
  fs_lookup : Z -> Z -> list ascii -> M vfs (Z * Z);
  fs_create : Z -> Z -> list ascii -> M vfs (Z * Z);
  fs_mknod : Z -> Z -> list ascii -> Z -> Z -> M vfs Z;
  fs_mkdir : Z -> Z -> list ascii -> M vfs Z;
  fs_rmdir : Z -> Z -> list ascii -> M vfs Z;
  fs_unlink : Z -> Z -> list ascii -> M vfs Z;
  fs_link : Z -> Z -> Z -> list ascii -> M vfs Z;
  fs_read : Z -> Z -> Z -> Z -> M vfs (Z * list Z);
  fs_write : Z -> Z -> Z -> list Z -> M vfs Z;
  (** also the bytes of the entry *)
  fs_readdir : Z -> Z -> Z -> M vfs (Z * list Z);

  fs_lookup_law k dir x name s : vn_ok s -> vnodes s !! dir = Some x -> 0 < act s dir ->
    vn_ops x = FsVops k -> fs_has k Vlookup = true ->
    wp (fs_lookup k dir name) s (fun '(code, r) s' => vn_ok s' /\ same_tree (disk s) (disk s') /\
      match dirent (disk s) (vn_fs x) (vn_vno x) name with
      | Some j => code = 0 /\ vrel s s' (ind r) /\
          exists y, vnodes s' !! r = Some y /\ vn_fs y = vn_fs x /\ vn_vno y = j
      | None => code = - ENOENT /\ vrel s s' (fun _ => 0)
      end);
  fs_create_law k dir x name s : vn_ok s -> vnodes s !! dir = Some x -> 0 < act s dir ->
    vn_ops x = FsVops k -> fs_has k Vcreate = true ->
    wp (fs_create k dir name) s (fun '(code, r) s' =>
      (code < 0 /\ neutral s code s') \/
      (code = 0 /\ vn_ok s' /\ vrel s s' (ind r) /\
       exists y, vnodes s' !! r = Some y /\ vn_fs y = vn_fs x /\ S_ISREG (vn_mode y) = true /\
         dirent (disk s') (vn_fs x) (vn_vno x) name = Some (vn_vno y)));
  fs_mknod_law k dir x name mode dev s : vn_ok s -> vnodes s !! dir = Some x -> 0 < act s dir ->
    vn_ops x = FsVops k -> fs_has k Vmknod = true -> wp (fs_mknod k dir name mode dev) s (neutral s);
  fs_mkdir_law k dir x name s : vn_ok s -> vnodes s !! dir = Some x -> 0 < act s dir ->
    vn_ops x = FsVops k -> fs_has k Vmkdir = true -> wp (fs_mkdir k dir name) s (neutral s);
  fs_rmdir_law k dir x name s : vn_ok s -> vnodes s !! dir = Some x -> 0 < act s dir ->
    vn_ops x = FsVops k -> fs_has k Vrmdir = true -> wp (fs_rmdir k dir name) s (neutral s);
  fs_unlink_law k dir x name s : vn_ok s -> vnodes s !! dir = Some x -> 0 < act s dir ->
    vn_ops x = FsVops k -> fs_has k Vunlink = true -> wp (fs_unlink k dir name) s (neutral s);
  fs_link_law k from dir x name s : vn_ok s -> vnodes s !! dir = Some x -> 0 < act s dir -> is_Some (vnodes s !! from) ->
    vn_ops x = FsVops k -> fs_has k Vlink = true -> wp (fs_link k from dir name) s (neutral s);
  (** reading and writing leave the references alone; a file that has been
      written up to a position is at least that long *)
  fs_read_law k v x pos n s : vn_ok s -> vnodes s !! v = Some x -> 0 < act s v ->
    vn_ops x = FsVops k -> fs_has k Vread = true ->
    wp (fs_read k v pos n) s (fun '(r, _) s' => vn_ok s' /\ vrel s s' (fun _ => 0));
  fs_write_law k v x pos buf s : vn_ok s -> vnodes s !! v = Some x -> 0 < act s v ->
    vn_ops x = FsVops k -> fs_has k Vwrite = true ->
    wp (fs_write k v pos buf) s (fun r s' => vn_ok s' /\ vrel s s' (fun _ => 0) /\
      (0 <= r -> exists y, vnodes s' !! v = Some y /\ pos + r <= vn_len y));
  fs_readdir_law k v x pos s : vn_ok s -> vnodes s !! v = Some x -> 0 < act s v ->
    vn_ops x = FsVops k -> fs_has k Vreaddir = true ->
    wp (fs_readdir k v pos) s (fun _ s' => vn_ok s' /\ vrel s s' (fun _ => 0));
}.

Section Namev.
Context `{KL : KList} `{SL : Slab} `{FO : FsOps} `{SM : StatModes} `{ER : KErrno} `{VC : VfsConsts} `{!VnOps}.

(** ** lookup *)
(** The out-argument is the second result; it is only used when the first is
    not negative. *)
Definition lookup (dir : Z) (name : option (list ascii)) (len : Z) : M vfs (Z * Z) :=
  KASSERT (negb (dir =? 0)) ;;;
  KASSERT (bool_decide (is_Some name)) ;;;
  let! x := load_vn dir in
  if negb (has_op x Vlookup) then mret_ (- ENOTDIR, 0)
  else
    let! n := mthe name in
    match vn_ops x with
    | FsVops k => fs_lookup k dir (take (Z.to_nat len) n)
    | _ => mfail FUndef
    end.

(** ** dir_namev *)
Definition slash : ascii := "/"%char.
(** [pathname[i]] *)
Definition char_at (p : list ascii) (i : Z) : ascii := nth (Z.to_nat i) p Ascii.zero.

(** The two loops that move [resVNodeDirIndexLimit] down; [n] is that index
    plus one. *)
Fixpoint skip_trailing (p : list ascii) (n : nat) : nat :=
  match n with
  | O => O
  | S m => if decide (char_at p (Z.of_nat m) = slash) then skip_trailing p m else n
  end.
Fixpoint skip_basename (p : list ascii) (n : nat) : nat :=
  match n with
  | O => O
  | S m => if decide (char_at p (Z.of_nat m) = slash) then n else skip_basename p m
  end.
(** [while(fast < limit){ if('/' != pathname[fast]) break; fast++; }], and the
    same with the test negated. *)
Fixpoint skip_slash (fuel : nat) (p : list ascii) (fast limit : Z) : Z :=
  match fuel with
  | O => fast
  | S fuel =>
      if fast <? limit then
        if decide (char_at p fast = slash) then skip_slash fuel p (fast + 1) limit else fast
      else fast
  end.
Fixpoint find_slash (fuel : nat) (p : list ascii) (fast limit : Z) : Z :=
  match fuel with
  | O => fast
  | S fuel =>
      if fast <? limit then
        if decide (char_at p fast = slash) then fast else find_slash fuel p (fast + 1) limit
      else fast
  end.

(** The main loop: [inl] is an early return, [inr] the final [curBase] and
    [curVNode]. *)
Fixpoint resolve_loop (fuel : nat) (p : list ascii) (limit fast curBase curVNode prevVNode : Z) : M vfs (Z + Z * Z) :=
  match fuel with
  | O => mfail FFuel
  | S fuel =>
      if fast <? limit then
        let slow := fast in
        let fast := find_slash (length p) p fast limit in
        if NAME_LEN <? fast - slow then vput curVNode ;;; mret_ (inl (- ENAMETOOLONG))
        else
          let! (code, r) := lookup curBase (Some (drop (Z.to_nat slow) p)) (fast - slow) in
          (if negb (prevVNode =? 0) then vput prevVNode else mret_ tt) ;;;
          if code <? 0 then mret_ (inl code)
          else resolve_loop fuel p limit (skip_slash (length p) p fast limit) r r r
      else mret_ (inr (curBase, curVNode))
  end.

(** The end of [dir_namev], after the loop. *)
Definition dir_finish (namelen : Z) (name : option (list ascii)) (r : Z + Z * Z) : M vfs (Z * (Z * option (list ascii) * Z)) :=
  match r with
  | inl code => mret_ (code, (namelen, name, 0))
  | inr (curBase, curVNode) =>
      if negb (curVNode =? 0) then
        let! x := load_vn curBase in
        if negb (has_op x Vlookup) then vput curVNode ;;; mret_ (- ENOTDIR, (namelen, name, 0))
        else mret_ (0, (namelen, name, curVNode))
      else vref curBase ;;; mret_ (0, (namelen, name, curBase))
  end.

(** The rest of [dir_namev], once [curBase] is chosen.  Results: the code,
    [*namelen], [*name] and [*res_vnode]. *)
Definition dir_rest (p : list ascii) (curBase : Z) : M vfs (Z * (Z * option (list ascii) * Z)) :=
  let strlen := length p in
  let n1 := skip_trailing p strlen in
  let last_slash_len := Z.of_nat strlen - Z.of_nat n1 in
  let limit := Z.of_nat (skip_basename p n1) - 1 in
  let namelen := Z.of_nat strlen - last_slash_len - (limit + 1) in
  if (0 <? namelen) && (NAME_LEN <? namelen) then mret_ (- ENAMETOOLONG, (namelen, None, 0))
  else
    let name := if 0 <? namelen then Some (if 0 <=? limit then drop (Z.to_nat (limit + 1)) p else p) else None in
    let fast := skip_slash strlen p 0 limit in
    let! r := resolve_loop (S strlen) p limit fast curBase 0 0 in
    dir_finish namelen name r.

Definition dir_namev (p : list ascii) (base : Z) : M vfs (Z * (Z * option (list ascii) * Z)) :=
  let! root := mget vfs_root_vn in
  let! cwd := mget p_cwd in
  let curBase := if decide (char_at p 0 = slash) then root else if base =? 0 then cwd else base in
  KASSERT (negb (curBase =? 0)) ;;;
  dir_rest p curBase.

(** ** open_namev *)
Definition open_namev (p : list ascii) (flag base : Z) : M vfs (Z * Z) :=
  let! (code, (namelen, name, dir)) := dir_namev p base in
  if code <? 0 then mret_ (code, 0)
  else if namelen =? 0 then mret_ (0, dir)
  else
    let! (code, r) := lookup dir name namelen in
    if code <? 0 then
      if negb (Z.land flag O_CREAT =? 0) then
        let! x := load_vn dir in
        KASSERT (has_op x Vcreate) ;;;
        let! n := mthe name in
        let! (code, r) :=
          match vn_ops x with FsVops k => fs_create k dir (take (Z.to_nat namelen) n) | _ => mfail FUndef end in
        vput dir ;;;
        mret_ (code, r)
      else vput dir ;;; mret_ (code, 0)
    else
      let! y := load_vn r in
      if bool_decide (char_at p (Z.of_nat (length p) - 1) = slash) && negb (S_ISDIR (vn_mode y)) then
        vput r ;;; vput dir ;;; mret_ (- ENOTDIR, 0)
      else vput dir ;;; mret_ (0, r).
End Namev.

(** ** The components of a path *)
Section Components.
Context `{KL : KList} `{SL : Slab} `{FO : FsOps} `{SM : StatModes} `{ER : KErrno} `{VC : VfsConsts}.

Fixpoint comps_from (cur l : list ascii) : list (list ascii) :=
  match l with
  | [] => match cur with [] => [] | _ => [cur] end
  | c :: r =>
      if decide (c = slash) then match cur with [] => comps_from [] r | _ => cur :: comps_from [] r end
      else comps_from (cur ++ [c]) r
  end.
(** The names between the slashes. *)
Definition comps (l : list ascii) : list (list ascii) := comps_from [] l.

Lemma comps_from_word w : forall cur l, slash ∉ w -> comps_from cur (w ++ l) = comps_from (cur ++ w) l.
Proof.
  induction w as [|c w IH]; intros cur l Hn; cbn; [by rewrite app_nil_r|].
  rewrite decide_False by (intros ->; set_solver). rewrite IH by set_solver. by rewrite <- app_assoc.
Qed.
Lemma comps_first w l : w <> [] -> slash ∉ w -> comps (w ++ slash :: l) = w :: comps l.
Proof. intros Hw Hn. unfold comps. rewrite comps_from_word by done. cbn. rewrite decide_True by done. by destruct w. Qed.
Lemma comps_only w : w <> [] -> slash ∉ w -> comps w = [w].
Proof. intros Hw Hn. rewrite <- (app_nil_r w) at 1. unfold comps. rewrite comps_from_word by done. by destruct w. Qed.
Lemma comps_from_app a : forall cur b, comps_from cur (a ++ slash :: b) = comps_from cur a ++ comps b.
Proof.
  induction a as [|c a IH]; intros cur b; cbn.
  - rewrite decide_True by done. by destruct cur.
  - case_decide; [|apply IH]. destruct cur; [apply IH|]. cbn. f_equal. apply IH.
Qed.
Lemma comps_slashes t : Forall (fun c => c = slash) t -> comps t = [].
Proof. induction 1 as [|c t -> _ IH]; [done|]. unfold comps. cbn. by rewrite decide_True. Qed.
Lemma comps_trailing a t : Forall (fun c => c = slash) t -> comps (a ++ t) = comps a.
Proof.
  intros Ht. destruct t as [|c t]; [by rewrite app_nil_r|]. inversion Ht; subst.
  unfold comps. rewrite comps_from_app. rewrite (comps_slashes t) by done. apply app_nil_r.
Qed.

(** ** The scanning loops *)
Lemma char_at_nat p i c : p !! i = Some c -> char_at p (Z.of_nat i) = c.
Proof. intros H. unfold char_at. rewrite Nat2Z.id. apply nth_lookup_Some with (d := Ascii.zero) in H. done. Qed.
Lemma lookup_char p i : (i < length p)%nat -> p !! i = Some (char_at p (Z.of_nat i)).
Proof. intros H. destruct (lookup_lt_is_Some_2 p i H) as [c Hc]. by rewrite Hc, (char_at_nat p i c). Qed.

Lemma skip_trailing_spec p n : (n <= length p)%nat ->
  (skip_trailing p n <= n)%nat /\ (forall i, (skip_trailing p n <= i < n)%nat -> p !! i = Some slash) /\
  (forall m, skip_trailing p n = S m -> p !! m <> Some slash).
Proof.
  induction n as [|n IH]; intros Hn; cbn; [split_and!; [lia|lia|done]|].
  case_decide as Hc.
  - destruct IH as (H1 & H2 & H3); [lia|]. split_and!; [lia| |done]. intros i Hi.
    destruct (decide (i = n)) as [->|]; [rewrite lookup_char by lia; congruence|apply H2; lia].
  - split_and!; [lia|lia|]. intros m [= <-]. rewrite lookup_char by lia. congruence.
Qed.
Lemma skip_basename_spec p n : (n <= length p)%nat ->
  (skip_basename p n <= n)%nat /\ (forall i, (skip_basename p n <= i < n)%nat -> p !! i <> Some slash) /\
  (forall m, skip_basename p n = S m -> p !! m = Some slash).
Proof.
  induction n as [|n IH]; intros Hn; cbn; [split_and!; [lia|lia|done]|].
  case_decide as Hc.
  - split_and!; [lia|lia|]. intros m [= <-]. rewrite lookup_char by lia. congruence.
  - destruct IH as (H1 & H2 & H3); [lia|]. split_and!; [lia| |done]. intros i Hi.
    destruct (decide (i = n)) as [->|]; [rewrite lookup_char by lia; congruence|apply H2; lia].
Qed.

(** Where the path is cut: the directory part [d] up to and including its
    last slash, the last component [b] and trailing slashes [t]. *)
Record cut (p d b t : list ascii) : Prop := {
  cut_eq : p = d ++ b ++ t;
  cut_base : skip_trailing p (length p) = (length d + length b)%nat;
  cut_dir : skip_basename p (length d + length b) = length d;
  cut_noslash : slash ∉ b;
  cut_slashes : Forall (fun c => c = slash) t;
  cut_last : d = [] \/ exists d0, d = d0 ++ [slash];
  cut_empty : b = [] -> d = [];
}.
Lemma path_cut p : exists d b t, cut p d b t.
Proof.
  pose proof (skip_trailing_spec p (length p)) as (A1 & A2 & A3); [lia|]. set (n := skip_trailing p (length p)) in *.
  pose proof (skip_basename_spec p n) as (B1 & B2 & B3); [lia|]. set (m := skip_basename p n) in *.
  assert (length (take m p) = m) as Ld by (rewrite length_take; lia).
  assert (length (take (n - m) (drop m p)) = (n - m)%nat) as Lb by (rewrite length_take, length_drop; lia).
  exists (take m p), (take (n - m) (drop m p)), (drop n p). split.
  - rewrite <- (take_drop m p) at 1. f_equal. rewrite <- (take_drop (n - m) (drop m p)) at 1. f_equal.
    rewrite drop_drop. f_equal. lia.
  - rewrite Ld, Lb. fold n. lia.
  - rewrite Ld, Lb. replace (m + (n - m))%nat with n by lia. done.
  - rewrite list_elem_of_lookup. intros (i & Hi). assert (i < n - m)%nat as Hlt by (apply lookup_lt_Some in Hi; lia).
    rewrite lookup_take_lt, lookup_drop in Hi by lia. by apply (B2 (m + i)%nat); [lia|].
  - apply Forall_lookup. intros i c Hi. rewrite lookup_drop in Hi. assert (n + i < length p)%nat by (by apply lookup_lt_Some in Hi).
    rewrite A2 in Hi by lia. congruence.
  - destruct m as [|m']; [by left|right]. specialize (B3 m' eq_refl). exists (take m' p). by apply take_S_r.
  - intros Hb. rewrite Hb in Lb. change (length []) with 0%nat in Lb. clearbody m. clearbody n.
    destruct n as [|n']; [by replace m with 0%nat by lia|]. exfalso. assert (m = S n') as Hm by lia. apply (A3 n' eq_refl). by apply B3.
Qed.
Lemma cut_comps p d b t : cut p d b t ->
  (d = [] -> comps p = match b with [] => [] | _ => [b] end) /\
  (forall d0, d = d0 ++ [slash] -> comps p = comps d0 ++ [b]).
Proof.
  intros [-> _ _ Hn Ht _ He]. split.
  - intros ->. cbn. rewrite comps_trailing by done. destruct b; [done|]. by apply comps_only.
  - intros d0 ->. rewrite <- app_assoc. unfold comps. cbn [app]. rewrite comps_from_app. f_equal.
    rewrite comps_trailing by done. apply comps_only; [|done]. intros ->. by destruct d0; specialize (He eq_refl).
Qed.

Lemma drop_char d rest k : (k < length d)%nat ->
  drop k d = char_at (d ++ rest) (Z.of_nat k) :: drop (S k) d.
Proof.
  intros Hk. destruct (lookup_lt_is_Some_2 d k Hk) as [c Hc]. rewrite (char_at_nat (d ++ rest) k c); [by apply drop_S|].
  by apply lookup_app_l_Some.
Qed.

Lemma skip_slash_spec d rest : forall fuel k, (k <= length d)%nat -> (length d - k <= fuel)%nat ->
  exists k', skip_slash fuel (d ++ rest) (Z.of_nat k) (Z.of_nat (length d)) = Z.of_nat k' /\ (k <= k' <= length d)%nat /\
    comps (drop k' d) = comps (drop k d) /\ head (drop k' d) <> Some slash.
Proof.
  assert (forall fuel, skip_slash fuel (d ++ rest) (Z.of_nat (length d)) (Z.of_nat (length d)) = Z.of_nat (length d)) as Hend.
  { intros [|fuel]; cbn; [done|]. by rewrite Z.ltb_irrefl. }
  induction fuel as [|fuel IH]; intros k Hk Hf.
  - exists k. replace k with (length d) by lia. rewrite drop_ge by lia. split_and!; [done|lia|lia|done|done].
  - destruct (decide (k = length d)) as [->|Hne].
    + exists (length d). rewrite Hend, drop_ge by lia. split_and!; [done|lia|lia|done|done].
    + cbn. rewrite (proj2 (Z.ltb_lt _ _)) by lia. rewrite (drop_char d rest k) by lia. case_decide as Hc.
      * destruct (IH (S k)) as (k' & E & H1 & H2 & H3); [lia..|]. exists k'. rewrite <- E. split; [f_equal; lia|]. split; [lia|].
        split; [|done]. rewrite H2, Hc. unfold comps. cbn. by rewrite decide_True.
      * exists k. split_and!; [done|lia|lia|by rewrite (drop_char d rest k) by lia|]. rewrite (drop_char d rest k) by lia. cbn. congruence.
Qed.

Lemma find_slash_spec d rest : forall fuel k, (k <= length d)%nat -> (length d - k <= fuel)%nat ->
  exists k', find_slash fuel (d ++ rest) (Z.of_nat k) (Z.of_nat (length d)) = Z.of_nat k' /\ (k <= k' <= length d)%nat /\
    slash ∉ take (k' - k) (drop k d) /\ (drop k' d = [] \/ exists l, drop k' d = slash :: l).
Proof.
  induction fuel as [|fuel IH]; intros k Hk Hf.
  - exists k. rewrite Nat.sub_diag. cbn. split_and!; [done|lia|lia|set_solver|left; apply drop_ge; lia].
  - destruct (decide (k = length d)) as [->|Hne]; cbn.
    + exists (length d). rewrite Z.ltb_irrefl, Nat.sub_diag. split_and!; [done|lia|lia|set_solver|left; by apply drop_ge].
    + rewrite (proj2 (Z.ltb_lt _ _)) by lia. case_decide as Hc.
      * exists k. rewrite Nat.sub_diag. split_and!; [done|lia|lia|set_solver|right]. rewrite (drop_char d rest k), Hc by lia. eauto.
      * destruct (IH (S k)) as (k' & E & H1 & H2 & H3); [lia..|]. exists k'. rewrite <- E. split; [f_equal; lia|]. split; [lia|].
        split; [|done]. rewrite (drop_char d rest k) by lia. replace (k' - k)%nat with (S (k' - S k)) by lia. cbn [take].
        rewrite not_elem_of_cons. done.
Qed.

(** One component, found by the two loops. *)
Lemma component_found d k k' : (k <= k')%nat -> (k < length d)%nat -> head (drop k d) <> Some slash ->
  slash ∉ take (k' - k) (drop k d) -> (drop k' d = [] \/ exists l, drop k' d = slash :: l) ->
  take (k' - k) (drop k d) <> [] /\ comps (drop k d) = take (k' - k) (drop k d) :: comps (drop k' d).
Proof.
  intros Hle Hk Hh Hn Hr. assert (drop k d = take (k' - k) (drop k d) ++ drop k' d) as E.
  { rewrite <- (take_drop (k' - k) (drop k d)) at 1. rewrite drop_drop. do 2 f_equal. lia. }
  assert (take (k' - k) (drop k d) <> []) as Hne.
  { intros E0. rewrite E0 in E. cbn in E. destruct Hr as [Hr|[l Hr]]; rewrite Hr in E; [|rewrite E in Hh; done].
    apply (f_equal length) in E. rewrite length_drop in E. cbn in E. lia. }
  split; [done|]. rewrite E at 1. destruct Hr as [-> |[l ->]].
  - rewrite app_nil_r. by apply comps_only.
  - by rewrite comps_first.
Qed.
End Components.

(** ** Resolution *)
Section Resolve.
Context `{KL : KList} `{SL : Slab} `{FO : FsOps} `{SM : StatModes} `{ER : KErrno} `{VC : VfsConsts} `{VO : !VnOps}.
Implicit Types s : vfs.

(** The specification: following names from inode to inode. *)
Definition has_lookup (d : fsst) (fs i : Z) : bool :=
  match ino_vops d fs i with FsVops k => fs_has k Vlookup | _ => false end.
Fixpoint walk (d : fsst) (fs i : Z) (cs : list (list ascii)) : Z + Z :=
  match cs with
  | [] => inr i
  | c :: r =>
      if NAME_LEN <? Z.of_nat (length c) then inl ENAMETOOLONG
      else if negb (has_lookup d fs i) then inl ENOTDIR
      else match dirent d fs i c with None => inl ENOENT | Some j => walk d fs j r end
  end.

Lemma walk_tree d d' fs cs : forall i, same_tree d d' -> walk d' fs i cs = walk d fs i cs.
Proof.
  induction cs as [|c cs IH]; intros i (T1 & T2 & T3); cbn; [done|]. unfold has_lookup, ino_vops. rewrite T1, T3.
  destruct (dirent d fs i c); [|done]. by rewrite IH.
Qed.

Lemma vn_ops_lookup s v x : vn_ok s -> vnodes s !! v = Some x -> has_op x Vlookup = has_lookup (disk s) (vn_fs x) (vn_vno x).
Proof. intros K Hx. destruct (v_inode _ K _ _ Hx) as [E _]. unfold has_op, has_lookup. rewrite <- E. by destruct (vn_ops x). Qed.

(** What [lookup] finds. *)
Lemma lookup_wp s dir x name n len Q : vn_ok s -> vnodes s !! dir = Some x -> 0 < act s dir -> name = Some n ->
  (forall code r s', vn_ok s' -> same_tree (disk s) (disk s') ->
     match (if has_lookup (disk s) (vn_fs x) (vn_vno x) then dirent (disk s) (vn_fs x) (vn_vno x) (take (Z.to_nat len) n) else None) with
     | Some j => code = 0 /\ vrel s s' (ind r) /\ exists y, vnodes s' !! r = Some y /\ vn_fs y = vn_fs x /\ vn_vno y = j
     | None => code = (if has_lookup (disk s) (vn_fs x) (vn_vno x) then - ENOENT else - ENOTDIR) /\ vrel s s' (fun _ => 0)
     end -> Q (code, r) s') -> wp (lookup dir name len) s Q.
Proof.
  intros K Hx Ha -> HQ. pose proof (act_nonzero _ _ K Ha) as H0. unfold lookup.
  wp_step. wp_step; [zbool|]. wp_step. wp_step; [by apply bool_decide_eq_true|]. wp_step. eapply load_vn_wp; [done|].
  rewrite (vn_ops_lookup s dir x) by done. destruct (has_lookup (disk s) (vn_fs x) (vn_vno x)) eqn:Hl; cbn [negb].
  - wp_step. apply wp_the with (a := n); [done|]. pose proof (vn_ops_lookup s dir x K Hx) as Ho. rewrite Hl in Ho. unfold has_op in Ho.
    destruct (vn_ops x) as [k| |] eqn:Ek; [|done..]. eapply wp_mono; [by eapply fs_lookup_law|].
    intros [code r] s' (K' & T & H). by apply HQ.
  - wp_step. apply HQ; [done|done|]. split; [done|apply vrel_refl].
Qed.

(** The reference the loop holds. *)
Definition held (cur w : Z) : Z := if cur =? 0 then 0 else ind cur w.
Lemma held_zero w : held 0 w = 0.
Proof. done. Qed.
Lemma held_some cur w : cur <> 0 -> held cur w = ind cur w.
Proof. intros H. unfold held. by rewrite (proj2 (Z.eqb_neq _ _) H). Qed.

(** Dropping the reference to the previous directory, which is linked. *)
Lemma put_prev_wp s s1 prev x Q :
  vn_ok s1 -> (prev = 0 \/ 0 < act s1 prev /\ vnodes s1 !! prev = Some x /\ query_vnode (disk s1) (vn_fs x) (vn_vno x) = true) ->
  (forall s2, vn_ok s2 -> same_tree (disk s1) (disk s2) -> vrel s1 s2 (fun w => - held prev w) -> Q tt s2) ->
  wp (if negb (prev =? 0) then vput prev else mret_ tt) s1 Q.
Proof.
  intros K Hp HQ. destruct (Z.eqb_spec prev 0) as [->|H0]; cbn [negb].
  - wp_step. apply HQ; [done|done|]. eapply vrel_ext; [apply vrel_refl|done].
  - destruct Hp as [->|(Ha & Hx & Hq)]; [done|]. apply vput_wp; [done..|]. intros s2 y Hy P. simplify_eq.
    apply HQ; [apply P|by apply P; left|]. eapply vrel_ext; [apply P|]. intros w. cbn beta. by rewrite held_some.
Qed.

(** One step of the loop, counted from the state [s0] in which the resolution
    began: the next name is looked up, then the reference to the directory it
    was looked up in is dropped. *)
Definition stepped s0 s s' (x : vnode) (c : list ascii) (code r : Z) : Prop :=
  vn_ok s' /\ same_tree (disk s) (disk s') /\
  match (if has_lookup (disk s) (vn_fs x) (vn_vno x) then dirent (disk s) (vn_fs x) (vn_vno x) c else None) with
  | None => code = (if has_lookup (disk s) (vn_fs x) (vn_vno x) then - ENOENT else - ENOTDIR) /\ vrel s0 s' (fun _ => 0)
  | Some j => code = 0 /\ vrel s0 s' (ind r) /\ 0 < act s' r /\
      exists y, vnodes s' !! r = Some y /\ vn_fs y = vn_fs x /\ vn_vno y = j
  end.

(** The reference that is dropped is still there after the lookup. *)
Lemma prev_kept s s1 x base cur (e : Z -> Z) : (forall w, 0 <= e w) ->
  vnodes s !! base = Some x -> 0 < act s base -> vrel s s1 e -> same_tree (disk s) (disk s1) ->
  (cur = 0 \/ cur = base /\ query_vnode (disk s) (vn_fs x) (vn_vno x) = true) ->
  cur = 0 \/ 0 < act s1 cur /\ exists x1, vnodes s1 !! cur = Some x1 /\ query_vnode (disk s1) (vn_fs x1) (vn_vno x1) = true.
Proof.
  intros He Hx Ha R (_ & T & _) [->|[-> Hq]]; [by left|right]. assert (0 < act s1 base) as H1.
  { rewrite (r_act _ _ _ R). specialize (He base). lia. }
  split; [done|]. destruct (r_same _ _ _ R base x Hx Ha H1) as (x1 & Hx1 & E1 & E2 & _). exists x1. by rewrite T, E1, E2.
Qed.

Lemma held_range cur w : 0 <= held cur w <= 1.
Proof. unfold held. case_match; [lia|apply ind_range]. Qed.

Lemma step_wp {A} s0 s dir x cur n len (k : Z -> Z -> M vfs A) Q :
  vn_ok s0 -> vn_ok s -> vrel s0 s (held cur) -> vnodes s !! dir = Some x -> 0 < act s dir ->
  (cur = 0 \/ cur = dir /\ query_vnode (disk s) (vn_fs x) (vn_vno x) = true) ->
  (forall code r s', stepped s0 s s' x (take (Z.to_nat len) n) code r -> wp (k code r) s' Q) ->
  wp (let! (code, r) := lookup dir (Some n) len in
      (if negb (cur =? 0) then vput cur else mret_ tt) ;;; k code r) s Q.
Proof.
  intros K0 K R0 Hx Ha Hc HQ. wp_step. eapply lookup_wp; [done|exact Hx|done|done|]. intros code r s1 K1 T1 HL. wp_step.
  unfold stepped in HQ.
  assert (forall e, (forall w, 0 <= e w) -> vrel s s1 e -> forall R : unit -> vfs -> Prop,
    (forall s2, vn_ok s2 -> same_tree (disk s) (disk s2) -> vrel s1 s2 (fun w => - held cur w) -> vrel s0 s2 e -> R tt s2) ->
    wp (if negb (cur =? 0) then vput cur else mret_ tt) s1 R) as Hput.
  { intros e He R P HP. pose proof (prev_kept s s1 x dir cur e He Hx Ha R T1 Hc) as Hc1.
    apply (put_prev_wp s s1 cur (from_option id x (vnodes s1 !! cur))); [done| |].
    { destruct Hc1 as [?|(? & x1 & Hx1 & ?)]; [by left|right]. by rewrite Hx1. }
    intros s2 K2 T2 R2. apply HP; [done|by etrans|done|].
    eapply (vrel_trans s0 s1 s2 (fun w => held cur w + e w)); [|exact R2|right; intros w; pose proof (held_range cur w); cbn beta; lia|intros w; cbn beta; lia].
    eapply (vrel_trans s0 s s1); [exact R0|exact R|left; intros w; apply held_range|done]. }
  destruct (if has_lookup _ _ _ then dirent _ _ _ _ else None) as [j|] eqn:E.
  - destruct HL as (-> & R & y & Hy & Ey1 & Ey2). apply (Hput (ind r)); [intros w; apply ind_range|done|].
    intros s2 K2 T2 R2 R3. assert (0 < act s1 r) as H1 by (rewrite (r_act _ _ _ R), ind_same; pose proof (act_nonneg s r K); lia).
    assert (0 < act s2 r) as H2 by (rewrite (r_act _ _ _ R3), ind_same; pose proof (act_nonneg s0 r K0); lia).
    destruct (r_same _ _ _ R2 r y Hy H1 H2) as (y2 & Hy2 & E1 & E2 & _).
    apply HQ. split; [done|]. split; [done|]. split; [done|]. split; [done|]. split; [done|].
    exists y2. split; [done|]. split; congruence.
  - destruct HL as [-> R]. apply (Hput (fun _ => 0)); [intros w; lia|done|]. intros s2 K2 T2 R2 R3. by apply HQ.
Qed.

(** The outcome of the loop, by the walk over the remaining components. *)
Definition resolved s0 s s' (x : vnode) (base cur : Z) (cs : list (list ascii)) (r : Z + Z * Z) : Prop :=
  vn_ok s' /\ same_tree (disk s) (disk s') /\
  match walk (disk s) (vn_fs x) (vn_vno x) cs with
  | inl e => r = inl (- e) /\ vrel s0 s' (fun _ => 0)
  | inr j => exists b y, r = inr (b, match cs with [] => cur | _ => b end) /\
      vnodes s' !! b = Some y /\ vn_fs y = vn_fs x /\ vn_vno y = j /\ 0 < act s' b /\
      match cs with [] => b = base /\ s' = s | _ => vrel s0 s' (ind b) end
  end.

(** A step followed by the rest of the walk. *)
Lemma resolved_cons s0 s s1 s2 x base cur c cs r rr y :
  vn_ok s1 -> stepped s0 s s1 x c 0 r -> NAME_LEN <? Z.of_nat (length c) = false ->
  vnodes s1 !! r = Some y -> resolved s0 s1 s2 y r r cs rr -> resolved s0 s s2 x base cur (c :: cs) rr.
Proof.
  intros K1 (_ & T & H) Hl Hy (K2 & T2 & Hr). pose proof errno_pos as He. rewrite Forall_forall in He.
  assert (0 < ENOENT /\ 0 < ENOTDIR) as [? ?] by (split; apply He; set_solver).
  split; [done|]. split; [by etrans|]. cbn [walk]. rewrite Hl. destruct (has_lookup _ _ _); cbn [negb] in *; [|lia].
  destruct (dirent _ _ _ _) as [j|]; [|lia]. destruct H as (_ & R & Ha & y' & Hy' & E1 & E2). simplify_eq.
  rewrite E1, (walk_tree _ _ _ _ _ T) in Hr. destruct (walk _ _ _ cs) as [e|j]; [done|].
  destruct Hr as (b & z & -> & Hz & Ez1 & Ez2 & Hb & Hr). exists b, z. destruct cs as [|c' cs].
  - destruct Hr as [-> ->]. split_and!; done.
  - split_and!; done.
Qed.
Lemma stepped_fails s0 s s1 x base cur c cs code r :
  stepped s0 s s1 x c code r -> code < 0 -> NAME_LEN <? Z.of_nat (length c) = false ->
  resolved s0 s s1 x base cur (c :: cs) (inl code).
Proof.
  intros (K & T & H) Hlt Hl. split; [done|]. split; [done|]. cbn [walk]. rewrite Hl.
  destruct (has_lookup _ _ _); cbn [negb]; [|by destruct H as [-> ?]]. destruct (dirent _ _ _ _) as [j|]; [|by destruct H as [-> ?]].
  destruct H as [-> _]. lia.
Qed.
Lemma stepped_code s0 s s1 x c code r : stepped s0 s s1 x c code r -> code < 0 \/
  code = 0 /\ vrel s0 s1 (ind r) /\ 0 < act s1 r /\ exists y, vnodes s1 !! r = Some y /\ query_vnode (disk s1) (vn_fs y) (vn_vno y) = true.
Proof.
  intros (K & (T1 & T2 & T3) & H). pose proof errno_pos as He. rewrite Forall_forall in He.
  assert (0 < ENOENT /\ 0 < ENOTDIR) as [? ?] by (split; apply He; set_solver).
  destruct (has_lookup _ _ _); [destruct (dirent _ _ _ _) as [j|] eqn:E|].
  - right. destruct H as (-> & R & Ha & y & Hy & E1 & E2). split_and!; [done..|]. exists y. split; [done|].
    rewrite T2, E1, E2. by eapply dirent_linked.
  - left. destruct H as [-> _]. lia.
  - left. destruct H as [-> _]. lia.
Qed.

Lemma resolve_wp d rest s0 : vn_ok s0 -> forall fuel k s base x cur Q,
  vn_ok s -> vrel s0 s (held cur) -> (k <= length d)%nat -> (length d - k < fuel)%nat -> head (drop k d) <> Some slash ->
  vnodes s !! base = Some x -> 0 < act s base ->
  (cur = 0 \/ cur = base /\ query_vnode (disk s) (vn_fs x) (vn_vno x) = true) ->
  (cur = 0 -> match comps (drop k d) with c :: _ => Z.of_nat (length c) <= NAME_LEN | [] => True end) ->
  (forall r s', resolved s0 s s' x base cur (comps (drop k d)) r -> Q r s') ->
  wp (resolve_loop fuel (d ++ rest) (Z.of_nat (length d)) (Z.of_nat k) base cur cur) s Q.
Proof.
  intros K0. induction fuel as [|fuel IH]; intros k s base x cur Q K R0 Hk Hf Hh Hx Ha Hc Hl HQ; [lia|]. cbn [resolve_loop].
  destruct (Z.ltb_spec (Z.of_nat k) (Z.of_nat (length d))) as [Hlt|Hge].
  2:{ wp_step. apply HQ. rewrite drop_ge by lia. split; [done|]. split; [done|]. exists base, x. cbn. by split_and!. }
  destruct (find_slash_spec d rest (length (d ++ rest)) k) as (k' & Ef & Hk' & Hn & Hr); [lia|rewrite length_app; lia|].
  destruct (component_found d k k') as [Hne Hcs]; [lia|lia|done..|]. set (c := take (k' - k) (drop k d)) in *.
  assert (length c = (k' - k)%nat) as Lc by (unfold c; rewrite length_take, length_drop; lia).
  rewrite Hcs in Hl, HQ. cbv zeta. rewrite Ef. assert (Z.of_nat k' - Z.of_nat k = Z.of_nat (length c)) as -> by lia.
  assert (k < k')%nat as Hkk by (destruct c; [done|cbn in Lc; lia]).
  destruct (NAME_LEN <? Z.of_nat (length c)) eqn:Hlong.
  { apply Z.ltb_lt in Hlong. destruct Hc as [->|[-> Hq]]; [specialize (Hl eq_refl); lia|].
    wp_step. apply vput_wp; [done..|]. intros s' y Hy P. simplify_eq. wp_step. apply HQ.
    split; [apply P|]. split; [by apply P; left|]. cbn [walk]. rewrite (proj2 (Z.ltb_lt _ _)) by lia. split; [done|].
    assert (base <> 0) by (by eapply act_nonzero).
    eapply vrel_trans; [exact R0|apply P|left; intros w; apply held_range|intros w; cbn beta; rewrite held_some by done; lia]. }
  assert (take (Z.to_nat (Z.of_nat (length c))) (drop (Z.to_nat (Z.of_nat k)) (d ++ rest)) = c) as Etk.
  { rewrite !Nat2Z.id, drop_app_le, Lc by lia. unfold c. by rewrite take_app_le by (rewrite length_drop; lia). }
  eapply (step_wp s0 s base x cur); [done..|]. rewrite Etk. intros code r s1 S1.
  destruct (stepped_code _ _ _ _ _ _ _ S1) as [Hneg|(-> & R1 & Hr1 & y & Hy & Hq)].
  { rewrite (proj2 (Z.ltb_lt _ _)) by lia. wp_step. apply HQ. by eapply stepped_fails. }
  change (0 <? 0) with false. cbv iota.
  destruct (skip_slash_spec d rest (length (d ++ rest)) k') as (k2 & -> & Hk2 & Ecs & Hh2); [lia|rewrite length_app; lia|].
  assert (r <> 0) as Hr0 by (eapply act_nonzero; [apply S1|done]).
  eapply (IH k2 s1 r y r); [apply S1| |lia|lia|done|done|done|by right|by intros ->|].
  { eapply vrel_ext; [exact R1|]. intros w. by apply held_some. }
  rewrite Ecs. intros rr s2 R2. apply HQ. eapply resolved_cons; [apply S1|done..].
Qed.

(** ** The specification of [dir_namev] and [open_namev] *)
(** The directory of the last component, and that component. *)
Definition walk_dir (d : fsst) (fs i : Z) (cs : list (list ascii)) : Z + Z * option (list ascii) :=
  match last cs with
  | None => inr (i, None)
  | Some l =>
      if NAME_LEN <? Z.of_nat (length l) then inl ENAMETOOLONG
      else match walk d fs i (removelast cs) with
           | inl e => inl e
           | inr j =>
               if bool_decide (removelast cs <> []) && negb (has_lookup d fs j) then inl ENOTDIR else inr (j, Some l)
           end
  end.
(** Where resolution starts. *)
Definition start s (p : list ascii) (base : Z) : Z :=
  if decide (char_at p 0 = slash) then vfs_root_vn s else if base =? 0 then p_cwd s else base.
(** The first of several components is too long for a name, and the last one
    is not (it is looked at first). *)
Definition long_first (cs : list (list ascii)) : bool :=
  match removelast cs, last cs with
  | c :: _, Some l => (NAME_LEN <? Z.of_nat (length c)) && (Z.of_nat (length l) <=? NAME_LEN)
  | _, _ => false
  end.
Definition first_ok (cs : list (list ascii)) : Prop := long_first cs = false.
Lemma first_short cs l : first_ok cs -> last cs = Some l -> Z.of_nat (length l) <= NAME_LEN ->
  match removelast cs with c :: _ => Z.of_nat (length c) <= NAME_LEN | [] => True end.
Proof.
  unfold first_ok, long_first. intros H El Hl. rewrite El in H. destruct (removelast cs) as [|c r]; [done|].
  rewrite (proj2 (Z.leb_le _ _) Hl), andb_true_r in H. by apply Z.ltb_ge.
Qed.

(** How [dir_namev] ends: with an error and the references as before, or with
    a reference to the directory. *)
Definition dir_result s s' (x : vnode) (cs : list (list ascii)) (code nl : Z) (name : option (list ascii)) (dir : Z) : Prop :=
  vn_ok s' /\ same_tree (disk s) (disk s') /\
  match walk_dir (disk s) (vn_fs x) (vn_vno x) cs with
  | inl e => code = - e /\ 0 < e /\ vrel s s' (fun _ => 0)
  | inr (j, l) => code = 0 /\ vrel s s' (ind dir) /\ 0 < act s' dir /\
      (exists y, vnodes s' !! dir = Some y /\ vn_fs y = vn_fs x /\ vn_vno y = j) /\
      match l with
      | None => nl = 0 /\ name = None
      | Some l => 0 < nl /\ exists n, name = Some n /\ take (Z.to_nat nl) n = l
      end
  end.

Lemma walk_pos d fs cs : forall i e, walk d fs i cs = inl e -> 0 < e.
Proof.
  pose proof errno_pos as He. rewrite Forall_forall in He.
  assert (0 < ENOENT /\ 0 < ENOTDIR /\ 0 < ENAMETOOLONG) as (? & ? & ?) by (split_and!; apply He; set_solver).
  induction cs as [|c cs IH]; intros i e; cbn; [done|]. repeat case_match; naive_solver.
Qed.

Lemma walk_linked d fs cs : forall i j, walk d fs i cs = inr j -> cs <> [] -> query_vnode d fs j = true.
Proof.
  induction cs as [|c cs IH]; intros i j; cbn; [done|]. intros H _. case_match; [done|]. case_match; [done|].
  destruct (dirent d fs i c) as [i'|] eqn:E; [|done]. destruct cs as [|c' cs]; [|by eapply IH].
  cbn in H. simplify_eq. by eapply dirent_linked.
Qed.

Lemma dir_finish_wp s s1 x base cs l nl name r Q :
  vn_ok s -> last cs = Some l -> Z.of_nat (length l) <= NAME_LEN -> 0 < nl -> (exists n, name = Some n /\ take (Z.to_nat nl) n = l) ->
  resolved s s s1 x base 0 (removelast cs) r ->
  (forall code dir s', dir_result s s' x cs code nl name dir -> Q (code, (nl, name, dir)) s') ->
  wp (dir_finish nl name r) s1 Q.
Proof.
  intros K Hl Hle Hnl Hn (K1 & T1 & Hr) HQ. unfold dir_result, walk_dir in HQ. rewrite Hl, (proj2 (Z.ltb_ge _ _) Hle) in HQ.
  assert (0 < ENOTDIR) as Hpos by (pose proof errno_pos as He; rewrite Forall_forall in He; apply He; set_solver).
  destruct (walk _ _ _ (removelast cs)) as [e|j] eqn:Hw.
  { destruct Hr as [-> R]. cbn [dir_finish]. wp_step. apply HQ. split_and!; try done. by eapply walk_pos. }
  destruct Hr as (b & y & -> & Hy & E1 & E2 & Hb & Hr). cbn [dir_finish].
  assert (b <> 0) as Hb0 by (by eapply act_nonzero).
  destruct (removelast cs) as [|c cs'] eqn:Hcs.
  - destruct Hr as [-> ->]. cbn [negb Z.eqb]. wp_step. apply vref_wp; [done|eauto|]. intros s2 K2 R2 Ed Hs. wp_step. apply HQ.
    rewrite bool_decide_eq_false_2 by naive_solver. cbn [andb]. destruct (Hs y Hy) as (y2 & Hy2 & Es1 & Es2 & _).
    split; [done|]. split; [by rewrite Ed|]. split; [done|]. split; [done|]. split; [rewrite (r_act _ _ _ R2), ind_same; lia|].
    split; [exists y2; split; [done|]; split; congruence|done].
  - rewrite (proj2 (Z.eqb_neq _ _) Hb0). cbn [negb]. rewrite bool_decide_eq_true_2 in HQ by done. cbn [andb] in HQ. wp_step. eapply load_vn_wp; [done|].
    assert (has_op y Vlookup = has_lookup (disk s) (vn_fs x) j) as ->.
    { rewrite (vn_ops_lookup s1 b y K1 Hy), E1, E2. unfold has_lookup, ino_vops. by destruct T1 as (-> & _). }
    destruct (has_lookup _ _ j); cbn [negb].
    + wp_step. apply HQ. split; [done|]. split; [done|]. split; [done|]. split; [done|]. split; [done|]. split; [eauto|done].
    + wp_step. apply vput_wp; [done|done|]. intros s2 z Hz P. simplify_eq. wp_step. apply HQ. split; [apply P|].
      assert (query_vnode (disk s1) (vn_fs y) (vn_vno y) = true) as Hq.
      { destruct T1 as (_ & -> & _). rewrite E1. by eapply walk_linked. }
      split; [etrans; [done|by apply P; left]|]. split; [done|]. split; [done|].
      eapply vrel_trans; [exact Hr|apply P|left; intros w; apply ind_range|intros w; cbn beta; lia].
Qed.

(** The cut of a path and its components. *)
Lemma cut_cases p d b t : cut p d b t ->
  (d = [] /\ b = [] /\ comps p = [] /\ Z.of_nat (skip_basename p (skip_trailing p (length p))) = 0) \/
  (b <> [] /\ last (comps p) = Some b /\
   (d = [] /\ removelast (comps p) = [] \/ exists d0, d = d0 ++ [slash] /\ removelast (comps p) = comps d0)).
Proof.
  intros C. destruct (cut_comps _ _ _ _ C) as [H1 H2]. pose proof C as [E Hb Hd Hn Ht Hl He].
  destruct (decide (b = [])) as [->|Hbn].
  - left. rewrite (He eq_refl) in *. rewrite (H1 eq_refl), Hb, Hd. done.
  - right. split; [done|]. destruct Hl as [->|[d0 ->]].
    + rewrite (H1 eq_refl). destruct b; [done|]. cbn. auto.
    + rewrite (H2 d0 eq_refl), last_snoc, removelast_last. eauto 7.
Qed.

Lemma skip_slash_none n p : skip_slash n p 0 (-1) = 0.
Proof. by destruct n. Qed.
Lemma resolved_none s b x : vn_ok s -> vnodes s !! b = Some x -> 0 < act s b -> resolved s s s x b 0 [] (inr (b, 0)).
Proof. intros. split; [done|]. split; [done|]. exists b, x. cbn. by split_and!. Qed.

Lemma dir_rest_wp s p b0 x Q : vn_ok s -> vnodes s !! b0 = Some x -> 0 < act s b0 -> first_ok (comps p) ->
  (forall code nl name dir s', dir_result s s' x (comps p) code nl name dir -> Q (code, (nl, name, dir)) s') ->
  wp (dir_rest p b0) s Q.
Proof.
  intros K Hx Ha Hf HQ. unfold dir_rest. cbv zeta.
  destruct (path_cut p) as (d & b & t & C). pose proof C as [E Eb Ed Hn Ht _ _].
  assert (length p = (length d + length b + length t)%nat) as Lp by (rewrite E, !length_app; lia).
  rewrite Eb, Ed. assert (Z.of_nat (length p) - (Z.of_nat (length p) - Z.of_nat (length d + length b)) - (Z.of_nat (length d) - 1 + 1) = Z.of_nat (length b)) as -> by lia.
  destruct (cut_cases p d b t C) as [(-> & -> & Hcs & _)|(Hbn & Hlast & Hd)].
  { (* no component at all *)
    change (Z.of_nat (length (@nil ascii))) with 0. cbn [Z.ltb Z.compare andb]. change (0 - 1) with (-1). rewrite skip_slash_none.
    wp_step. cbn [resolve_loop Z.ltb Z.compare]. wp_step. cbn [dir_finish negb Z.eqb]. wp_step. apply vref_wp; [done|eauto|].
    intros s2 K2 R2 Ed2 Hs. wp_step. apply HQ. unfold dir_result, walk_dir. rewrite Hcs. cbn [last].
    destruct (Hs x Hx) as (y2 & Hy2 & Es1 & Es2 & _). split; [done|]. split; [by rewrite Ed2|]. split; [done|]. split; [done|].
    split; [rewrite (r_act _ _ _ R2), ind_same; lia|]. split; [exists y2; split; [done|]; split; congruence|done]. }
  assert (0 < Z.of_nat (length b)) as Lb by (destruct b; [done|cbn; lia]). rewrite (proj2 (Z.ltb_lt _ _) Lb). cbn [andb].
  destruct (Z.ltb_spec NAME_LEN (Z.of_nat (length b))) as [Hlong|Hle].
  { wp_step. apply HQ. unfold dir_result, walk_dir. rewrite Hlast, (proj2 (Z.ltb_lt _ _) Hlong). split; [done|]. split; [done|].
    split; [done|]. split; [|apply vrel_refl]. pose proof errno_pos as He. rewrite Forall_forall in He. apply He. set_solver. }
  destruct Hd as [[-> Hcs]|(d0 & -> & Hcs)].
  - (* a single component *)
    change (Z.of_nat (length (@nil ascii)) - 1) with (-1). rewrite skip_slash_none. cbn [Z.leb Z.compare].
    wp_step. cbn [resolve_loop Z.ltb Z.compare]. wp_step. eapply (dir_finish_wp s s x b0 (comps p) b); [done..| | |intros; by apply HQ].
    + exists p. split; [done|]. rewrite Nat2Z.id, E. cbn [app]. apply take_app_length.
    + rewrite Hcs. by apply resolved_none.
  - rewrite length_app in *. cbn [length] in *. assert (Z.of_nat (length d0 + 1) - 1 = Z.of_nat (length d0)) as -> by lia.
    rewrite (proj2 (Z.leb_le _ _)) by lia. assert (Z.to_nat (Z.of_nat (length d0) + 1) = length (d0 ++ [slash])) as -> by (rewrite length_app; cbn; lia).
    assert (p = d0 ++ slash :: b ++ t) as Ep by (rewrite E, <- app_assoc; done).
    destruct (skip_slash_spec d0 (slash :: b ++ t) (length p) 0) as (k & Ek & Hk & Hck & Hh); [lia..|]. rewrite <- Ep in Ek.
    change 0 with (Z.of_nat 0) at 1. rewrite Ek. wp_step. rewrite Ep at 2.
    pose proof (first_short _ _ Hf Hlast Hle) as Hfs. rewrite Hcs in Hfs.
    eapply (resolve_wp d0 (slash :: b ++ t) s K _ k s b0 x 0); [done|apply vrel_refl|lia|lia|done|done|done|by left|by rewrite Hck|].
    rewrite Hck. cbn [drop]. intros r s1 R1.
    eapply (dir_finish_wp s s1 x b0 (comps p) b); [done..| |by rewrite Hcs|intros; by apply HQ].
    exists (b ++ t). rewrite E at 1. rewrite drop_app_length, Nat2Z.id, take_app_length. done.
Qed.

Lemma dir_namev_wp s p base x Q : vn_ok s -> vnodes s !! start s p base = Some x -> 0 < act s (start s p base) -> first_ok (comps p) ->
  (forall code nl name dir s', dir_result s s' x (comps p) code nl name dir -> Q (code, (nl, name, dir)) s') ->
  wp (dir_namev p base) s Q.
Proof.
  intros K Hx Ha Hf HQ. unfold dir_namev. wp_step. wp_step. wp_step. wp_step. cbv zeta.
  assert (start s p base <> 0) as Hb0 by (by eapply act_nonzero). unfold start in *. wp_step. wp_step; [zbool|].
  by eapply dir_rest_wp.
Qed.

(** ** The whole path *)
Definition slashed (p : list ascii) : bool := bool_decide (char_at p (Z.of_nat (length p) - 1) = slash).
Definition walk_path (d : fsst) (fs i : Z) (cs : list (list ascii)) (sl : bool) : Z + Z :=
  match walk_dir d fs i cs with
  | inl e => inl e
  | inr (j, None) => inr j
  | inr (j, Some l) =>
      if negb (has_lookup d fs j) then inl ENOTDIR
      else match dirent d fs j l with
           | None => inl ENOENT
           | Some r => if sl && negb (S_ISDIR (vi_mode (read_vnode d fs r))) then inl ENOTDIR else inr r
           end
  end.

(** The vnode of the inode found, with a reference to it. *)
Definition opened s s' (x : vnode) (r j : Z) : Prop :=
  vrel s s' (ind r) /\ 0 < act s' r /\ exists y, vnodes s' !! r = Some y /\ vn_fs y = vn_fs x /\ vn_vno y = j.

(** With O_CREAT a missing last component is created: it is the one of
    [missing_in], a name that a directory does not have. *)
Definition creating (flag : Z) : bool := negb (Z.land flag O_CREAT =? 0).
Definition missing_in (d : fsst) (fs i : Z) (cs : list (list ascii)) : option (Z * list ascii) :=
  match walk_dir d fs i cs with
  | inr (j, Some l) => if has_lookup d fs j && bool_decide (dirent d fs j l = None) then Some (j, l) else None
  | _ => None
  end.

(** [create], of the file system of directory [j], called for the name [l]
    in a state with the files of [s], returned [code] and [r], leaving [t']. *)
Definition create_gave s (fs j : Z) (l : list ascii) (code r : Z) (t' : vfs) : Prop :=
  exists k dir y t, vnodes t !! dir = Some y /\ vn_fs y = fs /\ vn_vno y = j /\ vn_ops y = FsVops k /\
    same_tree (disk s) (disk t) /\ fs_create k dir l t = Ok ((code, r), t').
(** That result is returned: an error, or a reference to a new regular file
    that the directory has under the name. *)
Definition created s s' (x : vnode) (j : Z) (l : list ascii) (code r : Z) : Prop :=
  exists t', create_gave s (vn_fs x) j l code r t' /\
    ((code < 0 /\ vrel s s' (fun _ => 0)) \/
     (code = 0 /\ vrel s s' (ind r) /\ 0 < act s' r /\ exists z, vnodes s' !! r = Some z /\ vn_fs z = vn_fs x /\
        S_ISREG (vn_mode z) = true /\ dirent (disk t') (vn_fs x) j l = Some (vn_vno z))).
(** No reference and no file changes. *)
Definition kept s s' : Prop := vrel s s' (fun _ => 0) /\ same_tree (disk s) (disk s').

(** How [open_namev] ends: an error of the walk, the vnode the walk leads to,
    or, with O_CREAT and a missing last component, what [create] gives. *)
Definition open_result s s' (x : vnode) (p : list ascii) (flag code r : Z) : Prop :=
  vn_ok s' /\
  match walk_dir (disk s) (vn_fs x) (vn_vno x) (comps p) with
  | inl e => code = - e /\ 0 < e /\ kept s s'
  | inr (j, None) => code = 0 /\ opened s s' x r j /\ same_tree (disk s) (disk s')
  | inr (j, Some l) =>
      if negb (has_lookup (disk s) (vn_fs x) j) then code = - ENOTDIR /\ kept s s'
      else match dirent (disk s) (vn_fs x) j l with
           | Some i =>
               if slashed p && negb (S_ISDIR (vi_mode (read_vnode (disk s) (vn_fs x) i))) then code = - ENOTDIR /\ kept s s'
               else code = 0 /\ opened s s' x r i /\ same_tree (disk s) (disk s')
           | None => if creating flag then created s s' x j l code r else code = - ENOENT /\ kept s s'
           end
  end.
(** The same by what the whole path leads to. *)
Lemma open_cases s s' x p flag code r : open_result s s' x p flag code r ->
  match (if creating flag then missing_in (disk s) (vn_fs x) (vn_vno x) (comps p) else None) with
  | Some (j, l) => created s s' x j l code r
  | None =>
      match walk_path (disk s) (vn_fs x) (vn_vno x) (comps p) (slashed p) with
      | inl e => code = - e /\ 0 < e /\ vrel s s' (fun _ => 0)
      | inr i => code = 0 /\ opened s s' x r i
      end
  end.
Proof.
  intros [_ H]. pose proof errno_pos as He. rewrite Forall_forall in He.
  assert (0 < ENOENT /\ 0 < ENOTDIR) as [He1 He2] by (split; apply He; set_solver).
  unfold missing_in, walk_path, kept in *. destruct (walk_dir _ _ _ _) as [e|[j [l|]]].
  - destruct (creating flag); naive_solver.
  - destruct (has_lookup (disk s) (vn_fs x) j); cbn [negb andb] in *; [|destruct (creating flag); naive_solver].
    destruct (dirent (disk s) (vn_fs x) j l) as [i|].
    + rewrite bool_decide_eq_false_2 by done. destruct (slashed p && _), (creating flag); naive_solver.
    + rewrite bool_decide_eq_true_2 by done. destruct (creating flag); naive_solver.
  - destruct (creating flag); naive_solver.
Qed.

(** Every table with a lookup also has a create. *)
Definition dirs_create : Prop := forall k, fs_has k Vlookup = true -> fs_has k Vcreate = true.

(** The directory of the last component stays when it is given back: it is
    used elsewhere or linked. *)
Definition stays s (x : vnode) (j dir : Z) : Prop := 0 < act s dir \/ query_vnode (disk s) (vn_fs x) j = true.

(** Dropping the directory once the last component has been dealt with. *)
Lemma put_dir_wp s s1 s2 dir (e : Z -> Z) Q :
  vn_ok s -> vrel s s1 (ind dir) -> vn_ok s2 -> vrel s1 s2 e -> (forall w, 0 <= e w) ->
  (forall s3, vn_ok s3 -> vrel s s3 e -> vrel s2 s3 (fun w => - ind dir w) ->
     (0 < act s dir \/ (exists z, vnodes s2 !! dir = Some z /\ query_vnode (disk s2) (vn_fs z) (vn_vno z) = true) ->
      same_tree (disk s2) (disk s3)) -> Q tt s3) -> wp (vput dir) s2 Q.
Proof.
  intros K R1 K2 R2 He HQ. assert (act s2 dir = act s dir + 1 + e dir) as Ea by (rewrite (r_act _ _ _ R2), (r_act _ _ _ R1), ind_same; lia).
  pose proof (act_nonneg s dir K). pose proof (He dir). apply vput_wp; [done|lia|].
  intros s3 z Hz P. apply HQ; [apply P| |apply P|].
  - eapply (vrel_trans s s2 s3 (fun w => ind dir w + e w)); [|apply P|right; intros w; pose proof (ind_range dir w); cbn beta; lia|intros w; cbn beta; lia].
    eapply vrel_trans; [exact R1|exact R2|left; intros w; apply ind_range|done].
  - intros [Hs|(z' & Hz' & Hq)]; apply P; [right; lia|left; by simplify_eq].
Qed.

(** The vnode handed out stays the same while the directory is dropped. *)
Lemma handed_put s s1 s2 s3 r y dir :
  vn_ok s -> vn_ok s1 -> vrel s1 s2 (ind r) -> vnodes s2 !! r = Some y ->
  vrel s s3 (ind r) -> vrel s2 s3 (fun w => - ind dir w) ->
  0 < act s3 r /\ exists y3, vnodes s3 !! r = Some y3 /\ same_vnode y y3.
Proof.
  intros K K1 R2 Hy R3 R23.
  assert (0 < act s3 r) as H3 by (rewrite (r_act _ _ _ R3), ind_same; pose proof (act_nonneg s r K); lia). split; [done|].
  assert (0 < act s2 r) as H2 by (rewrite (r_act _ _ _ R2), ind_same; pose proof (act_nonneg s1 r K1); lia).
  apply (r_same _ _ _ R23 r y Hy H2 H3).
Qed.
Lemma wp_eq {A} (m : M vfs A) s (Q : A -> vfs -> Prop) : wp m s Q -> wp m s (fun a s' => m s = Ok (a, s') /\ Q a s').
Proof. unfold wp. by destruct (m s) as [[a s']|]. Qed.

(** The last component does not exist and is created. *)
Lemma create_wp s s1 s2 dir y n nl Q :
  vn_ok s -> vn_ok s1 -> vn_ok s2 -> vrel s s1 (ind dir) -> vrel s1 s2 (fun _ => 0) -> same_tree (disk s) (disk s2) ->
  vnodes s2 !! dir = Some y -> has_op y Vcreate = true ->
  (forall code r s', vn_ok s' -> created s s' y (vn_vno y) (take (Z.to_nat nl) n) code r -> Q (code, r) s') ->
  wp (let! x := load_vn dir in
      KASSERT (has_op x Vcreate) ;;;
      let! n := mthe (Some n) in
      let! (code, r) := match vn_ops x with FsVops k => fs_create k dir (take (Z.to_nat nl) n) | _ => mfail FUndef end in
      vput dir ;;;
      mret_ (code, r)) s2 Q.
Proof.
  intros K K1 K2 R1 R2 T Hy Hc HQ.
  assert (0 < act s2 dir) as Ha by (rewrite (r_act _ _ _ R2), (r_act _ _ _ R1), ind_same; pose proof (act_nonneg s dir K); lia).
  wp_step. eapply load_vn_wp; [done|]. wp_step. wp_step; [done|]. wp_step. apply wp_the with (a := n); [done|]. wp_step.
  unfold has_op in Hc. destruct (vn_ops y) as [k| |] eqn:Ek; [|done..]. eapply wp_mono; [by eapply wp_eq, fs_create_law|].
  intros [code r] s3 [E H3]. assert (create_gave s (vn_fs y) (vn_vno y) (take (Z.to_nat nl) n) code r s3) as G by (exists k, dir, y, s2; by split_and!).
  destruct H3 as [(Hneg & K3 & R3 & _)|(-> & K3 & R3 & z & Hz & Ez & Hreg & Hd)]; wp_step.
  - eapply (put_dir_wp s s1 s3 dir (fun _ => 0)); [done|done|done| |intros; cbn beta; lia|].
    { eapply vrel_trans; [exact R2|exact R3|left; intros; cbn beta; lia|intros; cbn beta; lia]. }
    intros s4 K4 R4 _ _. wp_step. apply HQ; [done|]. exists s3. split; [done|]. by left.
  - assert (vrel s1 s3 (ind r)) as R13 by (eapply vrel_trans; [exact R2|exact R3|left; intros; cbn beta; lia|intros; cbn beta; lia]).
    eapply (put_dir_wp s s1 s3 dir (ind r)); [done..|intros; apply ind_range|].
    intros s4 K4 R4 R34 _. wp_step. apply HQ; [done|]. exists s3. split; [done|right]. split; [done|]. split; [done|].
    destruct (handed_put s s1 s3 s4 r z dir K K1 R13 Hz R4 R34) as (Ha4 & z4 & Hz4 & F1 & F2 & _ & F4 & _). split; [done|]. exists z4.
    split_and!; congruence.
Qed.

(** The last component exists. *)
Lemma found_wp s s1 s2 x p r y j jd dir Q :
  vn_ok s -> vn_ok s1 -> vn_ok s2 -> vrel s s1 (ind dir) -> vrel s1 s2 (ind r) -> same_tree (disk s) (disk s2) ->
  vnodes s2 !! r = Some y -> vn_fs y = vn_fs x -> vn_vno y = j -> query_vnode (disk s) (vn_fs x) j = true ->
  stays s x jd dir -> (exists z, vnodes s1 !! dir = Some z /\ vn_fs z = vn_fs x /\ vn_vno z = jd) -> 0 < act s1 dir ->
  (forall code r' s', vn_ok s' -> same_tree (disk s) (disk s') ->
     (if slashed p && negb (S_ISDIR (vi_mode (read_vnode (disk s) (vn_fs x) j))) then code = - ENOTDIR /\ vrel s s' (fun _ => 0)
      else code = 0 /\ opened s s' x r' j) -> Q (code, r') s') ->
  wp (let! y := load_vn r in
      if bool_decide (char_at p (Z.of_nat (length p) - 1) = slash) && negb (S_ISDIR (vn_mode y)) then
        vput r ;;; vput dir ;;; mret_ (- ENOTDIR, 0)
      else vput dir ;;; mret_ (0, r)) s2 Q.
Proof.
  intros K K1 K2 R1 R2 T Hy E1 E2 Hq Hst (zd & Hzd & D1 & D2) Had HQ. wp_step. eapply load_vn_wp; [done|]. fold (slashed p).
  assert (vn_mode y = vi_mode (read_vnode (disk s) (vn_fs x) j)) as ->.
  { destruct (v_inode _ K2 _ _ Hy) as [_ ->]. rewrite E1, E2. by destruct T as (-> & _). }
  assert (forall s3 e, vn_ok s3 -> vrel s1 s3 e -> (forall w, 0 <= e w) -> same_tree (disk s) (disk s3) ->
    0 < act s dir \/ exists z, vnodes s3 !! dir = Some z /\ query_vnode (disk s3) (vn_fs z) (vn_vno z) = true) as Hkeep.
  { intros s3 e K3 R3 He3 T3. destruct Hst as [?|Hqd]; [by left|right].
    destruct (r_same _ _ _ R3 dir zd Hzd Had) as (z3 & Hz3 & F1 & F2 & _); [rewrite (r_act _ _ _ R3); specialize (He3 dir); lia|].
    exists z3. split; [done|]. rewrite F1, F2, D1, D2. by destruct T3 as (_ & -> & _). }
  destruct (slashed p && _).
  - wp_step. apply vput_wp; [done|rewrite (r_act _ _ _ R2), ind_same; pose proof (act_nonneg s1 r K1); lia|].
    intros s3 z Hz P. simplify_eq. assert (same_tree (disk s) (disk s3)) as T3.
    { etrans; [exact T|]. apply P. left. rewrite E1. by destruct T as (_ & -> & _). }
    assert (vrel s1 s3 (fun _ => 0)) as R13 by (eapply vrel_trans; [exact R2|apply P|left; intros; apply ind_range|intros w; cbn beta; lia]).
    wp_step. eapply (put_dir_wp s s1 s3 dir (fun _ => 0)); [done|done|apply P|done|intros; cbn beta; lia|].
    intros s4 K4 R4 _ T4. wp_step. apply HQ; [done| |done]. etrans; [exact T3|]. apply T4. by apply (Hkeep s3 (fun _ => 0)); [apply P|..].
  - wp_step. eapply (put_dir_wp s s1 s2 dir (ind r)); [done..|intros; apply ind_range|].
    intros s4 K4 R4 R24 T4. wp_step. apply HQ; [done| |].
    + etrans; [exact T|]. apply T4. by apply (Hkeep s2 (ind r)); [..|intros; apply ind_range|].
    + split; [done|]. split; [done|]. destruct (handed_put s s1 s2 s4 r y dir K K1 R2 Hy R4 R24) as (Ha4 & y4 & Hy4 & F1 & F2 & _).
      split; [done|]. exists y4. split; [done|]. split; congruence.
Qed.

(** The directory that [dir_namev] returns stays. *)
Lemma dir_stays s s1 x start dir y j l cs : vn_ok s1 -> vnodes s !! start = Some x -> 0 < act s start -> vrel s s1 (ind dir) ->
  vnodes s1 !! dir = Some y -> vn_fs y = vn_fs x -> vn_vno y = j -> walk_dir (disk s) (vn_fs x) (vn_vno x) cs = inr (j, Some l) ->
  stays s x j dir.
Proof.
  intros K1 Hx Ha R1 Hy E1 E2 Hw. unfold walk_dir in Hw. destruct (last cs); [|done]. destruct (NAME_LEN <? _); [done|].
  destruct (walk _ _ _ (removelast cs)) as [|j'] eqn:Hwk; [done|]. destruct (bool_decide _ && _); [done|]. injection Hw as -> _.
  destruct (removelast cs) as [|c r] eqn:Hcs; [left|right; by eapply walk_linked]. cbn in Hwk. injection Hwk as <-.
  assert (0 < act s1 start) as Ha1 by (rewrite (r_act _ _ _ R1); pose proof (ind_range dir start); lia).
  destruct (r_same _ _ _ R1 start x Hx Ha Ha1) as (x1 & Hx1 & F1 & F2 & _).
  assert (dir = start) as ->; [|done]. apply (v_uniq _ K1 dir start y x1); congruence.
Qed.

Lemma open_namev_wp s p flag base x Q : vn_ok s -> vnodes s !! start s p base = Some x -> 0 < act s (start s p base) ->
  first_ok (comps p) -> dirs_create ->
  (creating flag = true -> has_lookup (disk s) (vn_fs x) (vn_vno x) = true) ->
  (forall code r s', open_result s s' x p flag code r -> Q (code, r) s') -> wp (open_namev p flag base) s Q.
Proof.
  intros K Hx Ha Hf Hdc Hlk HQ. unfold open_namev. wp_step. eapply dir_namev_wp; [done..|].
  intros code nl name dir s1 (K1 & T1 & HD). unfold open_result in HQ.
  destruct (walk_dir _ _ _ _) as [e|[j l]] eqn:Hwd.
  { destruct HD as (-> & He & R). rewrite (proj2 (Z.ltb_lt _ _)) by lia. wp_step. apply HQ. split; [done|]. split; [done|]. split; [lia|]. by split. }
  destruct HD as (-> & R1 & Ha1 & (y & Hy & E1 & E2) & Hl). cbn [Z.ltb Z.compare].
  destruct l as [l|].
  2:{ destruct Hl as [-> ->]. change (0 =? 0) with true. cbv iota. wp_step. apply HQ. split; [done|]. split; [done|]. split; [|done].
    split; [done|]. split; [done|]. eauto. }
  pose proof (dir_stays s s1 x _ dir y j l _ K1 Hx Ha R1 Hy E1 E2 Hwd) as Hst.
  destruct Hl as (Hnl & n & -> & Hn).
  rewrite (proj2 (Z.eqb_neq _ _)) by lia. wp_step. eapply lookup_wp; [exact K1|exact Hy|done|done|]. rewrite Hn, E1, E2.
  assert (has_lookup (disk s1) (vn_fs x) j = has_lookup (disk s) (vn_fs x) j) as ->.
  { unfold has_lookup, ino_vops. by destruct T1 as (-> & _). }
  assert (forall fs i nm, dirent (disk s1) fs i nm = dirent (disk s) fs i nm) as Ed by (by destruct T1 as (_ & _ & ?)). rewrite Ed.
  assert (creating flag = true -> has_lookup (disk s) (vn_fs x) j = true) as Hlkj.
  { intros Hcr. unfold walk_dir in Hwd. destruct (last (comps p)); [|done]. destruct (NAME_LEN <? _); [done|].
    destruct (walk _ _ _ _) as [|j'] eqn:Hw; [done|]. destruct (bool_decide _) eqn:Hb; cbn [andb] in Hwd.
    - destruct (has_lookup _ _ j') eqn:Hlj; cbn in Hwd; [|done]. by simplify_eq.
    - apply bool_decide_eq_false in Hb. apply dec_stable in Hb. rewrite Hb in Hw. cbn in Hw. injection Hw as <-. injection Hwd as <-. auto. }
  intros code r s2 K2 T2 HL. cbv iota.
  destruct (if has_lookup (disk s) (vn_fs x) j then dirent (disk s) (vn_fs x) j l else None) as [jr|] eqn:Hd.
  - destruct HL as (-> & R2 & z & Hz & Ez1 & Ez2). cbn [Z.ltb Z.compare].
    destruct (has_lookup (disk s) (vn_fs x) j); [|done]. cbn [negb] in HQ. rewrite Hd in HQ.
    eapply (found_wp s s1 s2 x p r z jr j); [done..|by etrans|done|congruence|done|by eapply dirent_linked|done|eauto|done|].
    intros code r' s' K' T' H'. apply HQ. split; [done|]. destruct (slashed p && _); [|by destruct H'].
    destruct H' as [-> R']. split; [done|]. by split.
  - destruct HL as [-> R2]. pose proof errno_pos as He. rewrite Forall_forall in He.
    assert (0 < ENOENT /\ 0 < ENOTDIR) as [He1 He2] by (split; apply He; set_solver).
    assert (same_tree (disk s) (disk s2)) as T02 by by etrans.
    rewrite (proj2 (Z.ltb_lt _ _)) by (case_match; lia). fold (creating flag).
    assert (0 < act s2 dir) as Ha2 by (rewrite (r_act _ _ _ R2); lia).
    destruct (r_same _ _ _ R2 dir y Hy Ha1 Ha2) as (y2 & Hy2 & F1 & F2 & F3 & _).
    destruct (creating flag) eqn:Hcr.
    + rewrite (Hlkj eq_refl) in *. cbn [negb] in HQ. rewrite Hd in HQ.
      eapply (create_wp s s1 s2 dir y2 n nl); [done..| |].
      { specialize (Hlkj eq_refl). unfold has_op. rewrite F3. destruct (v_inode _ K1 _ _ Hy) as [-> _]. rewrite E1, E2.
        unfold has_lookup, ino_vops in *. destruct T1 as (-> & _). revert Hlkj. set (md := vi_mode _). destruct (S_ISCHR md); [done|]. destruct (S_ISBLK md); [done|]. apply Hdc. }
      intros code r' s' K' (t' & G & H'). apply HQ. split; [done|]. exists t'. rewrite F1, F2, E1, E2, Hn in *. done.
    + wp_step. eapply (put_dir_wp s s1 s2 dir (fun _ => 0)); [done..|intros; cbn beta; lia|]. intros s3 K3 R3 _ T3. wp_step.
      assert (kept s s3) as Hk.
      { split; [done|]. etrans; [exact T02|]. apply T3. destruct Hst as [?|Hq]; [by left|right]. exists y2. split; [done|].
        rewrite F1, F2, E1, E2. by destruct T02 as (_ & -> & _). }
      apply HQ. split; [done|]. destruct (has_lookup (disk s) (vn_fs x) j); cbn [negb]; [by rewrite Hd|done].
Qed.

(** [dir_namev] resolves all but the last component of the path, from the
    root for an absolute path and from [base] or the working directory
    otherwise: following the names from directory to directory, it returns
    the vnode of the directory with one more reference to it and the last
    name, or the error of the walk ([ENAMETOOLONG], [ENOTDIR], [ENOENT]) with
    no reference gained or lost; every reference taken on the way is given
    back.  (The first of several components must not be too long, see
    [dir_namev_long_first].) *)
Theorem dir_namev_correct s p base x :
  vn_ok s -> vnodes s !! start s p base = Some x -> 0 < act s (start s p base) -> first_ok (comps p) ->
  exists code nl name dir s', dir_namev p base s = Ok ((code, (nl, name, dir)), s') /\
    dir_result s s' x (comps p) code nl name dir.
Proof.
  intros K Hx Ha Hf. assert (wp (dir_namev p base) s (fun '(code, (nl, name, dir)) s' => dir_result s s' x (comps p) code nl name dir))
    as ([code [[nl name] dir]] & s' & E & H)%wp_ok; [by eapply dir_namev_wp|]. eauto 8.
Qed.

(** When the first of several components is longer than [NAME_LEN] the
    kernel panics instead of returning [-ENAMETOOLONG]: the loop drops a
    reference to [curVNode], which is still NULL. *)
Lemma dir_namev_long_first s p base : start s p base <> 0 -> long_first (comps p) = true -> dir_namev p base s = Err FAssert.
Proof.
  intros Hb0 Hlf. assert (exists c cs l, comps p = c :: cs /\ last cs = Some l /\ Z.of_nat (length l) <= NAME_LEN /\ NAME_LEN < Z.of_nat (length c))
    as (c & cs & l & Hcs & Hl & Hle & Hlong).
  { unfold long_first in Hlf. destruct (comps p) as [|c [|c' cs]]; [done..|]. exists c, (c' :: cs). change (last (c :: c' :: cs)) with (last (c' :: cs)) in Hlf.
    cbn [removelast] in Hlf. destruct (last (c' :: cs)) as [l|]; [|done]. exists l. apply andb_true_iff in Hlf as [?%Z.ltb_lt ?%Z.leb_le]. done. }
  unfold dir_namev.
  rewrite (mbind_run (mget _) _ s _ s eq_refl), (mbind_run (mget _) _ s _ s eq_refl). cbv zeta. unfold start in Hb0.
  rewrite (proj2 (Z.eqb_neq _ _) Hb0), (mbind_run _ _ s tt s eq_refl). unfold dir_rest. cbv zeta.
  destruct (path_cut p) as (d & b & t & C). pose proof C as [E Eb Ed Hn Ht _ _].
  assert (length p = (length d + length b + length t)%nat) as Lp by (rewrite E, !length_app; lia).
  rewrite Eb, Ed. assert (Z.of_nat (length p) - (Z.of_nat (length p) - Z.of_nat (length d + length b)) - (Z.of_nat (length d) - 1 + 1) = Z.of_nat (length b)) as -> by lia.
  assert (last (c :: cs) = Some l) as Hl' by (destruct cs; [done|exact Hl]).
  destruct (cut_cases p d b t C) as [(_ & _ & E' & _)|(Hbn & Hlast & Hd)]; [congruence|].
  rewrite Hcs, Hl' in Hlast. injection Hlast as ->. rewrite (proj2 (Z.ltb_ge NAME_LEN _)) by lia. rewrite andb_false_r.
  destruct Hd as [[_ Hrm]|(d0 & -> & Hrm)]; rewrite Hcs in Hrm; [by destruct cs|]. rewrite length_app in *. cbn [length] in *.
  assert (Z.of_nat (length d0 + 1) - 1 = Z.of_nat (length d0)) as -> by lia.
  assert (p = d0 ++ slash :: b ++ t) as Ep by (rewrite E, <- app_assoc; done).
  destruct (skip_slash_spec d0 (slash :: b ++ t) (length p) 0) as (k & Ek & Hk & Hck & Hh); [lia..|]. rewrite <- Ep in Ek.
  change 0 with (Z.of_nat 0) at 1. rewrite Ek. apply mbind_err. cbn [resolve_loop]. rewrite drop_0, <- Hrm in Hck.
  assert (k < length d0)%nat as Hlt.
  { destruct (decide (k < length d0)%nat); [done|]. rewrite drop_ge in Hck by lia. destruct cs; [done|]. done. }
  rewrite (proj2 (Z.ltb_lt _ _)) by lia. cbv zeta.
  destruct (find_slash_spec d0 (slash :: b ++ t) (length p) k) as (k' & Ef & Hk' & Hn' & Hr); [lia..|]. rewrite <- Ep in Ef. rewrite Ef.
  destruct (component_found d0 k k') as [Hne Hcc]; [lia|lia|done..|]. rewrite Hcc in Hck.
  assert (take (k' - k) (drop k d0) = c) as Hc by (destruct cs; [done|]; cbn in Hck; congruence).
  assert (length c = (k' - k)%nat) as Lc by (rewrite <- Hc, length_take, length_drop; lia).
  rewrite (proj2 (Z.ltb_lt _ _)) by lia. by apply mbind_err.
Qed.
Lemma open_namev_long s p flag base : start s p base <> 0 -> long_first (comps p) = true -> open_namev p flag base s = Err FAssert.
Proof. intros H0 Hl. by apply mbind_err, dir_namev_long_first. Qed.

(** C26: [open_namev] returns the vnode of the whole path with one more
    reference, or the error of the walk with the references as they were; a
    path that ends in a slash must name a directory; none of this changes what
    is stored.  With [O_CREAT], when the directory of the last component
    exists and does not have it, the file system's create is called there and
    its result is returned: an error, or a reference to the new regular file
    that the directory now has.  The start of the path must be a directory
    for [O_CREAT] (as the root and the working directory are).  When the first
    of several components is longer than a name (and the last is not), the
    kernel panics. *)
Theorem open_namev_correct s p flag base x :
  vn_ok s -> vnodes s !! start s p base = Some x -> 0 < act s (start s p base) -> dirs_create ->
  (creating flag = true -> has_lookup (disk s) (vn_fs x) (vn_vno x) = true) ->
  if long_first (comps p) then open_namev p flag base s = Err FAssert
  else exists code r s', open_namev p flag base s = Ok ((code, r), s') /\ open_result s s' x p flag code r.
Proof.
  intros K Hx Ha Hd Hl. destruct (long_first (comps p)) eqn:Hf.
  - apply open_namev_long; [by eapply act_nonzero|done].
  - assert (wp (open_namev p flag base) s (fun '(code, r) s' => open_result s s' x p flag code r))
      as ([code r] & s' & E & H)%wp_ok; [by eapply open_namev_wp|]. eauto.
Qed.
End Resolve.
