(* ===== verification/VfsSyscall.v ===== *)
(** * fs/open.c and fs/vfs_syscall.c: the file system calls

    The calls work on the file descriptors of the current process, the open
    files they name, and vnodes.  [fget] and [fput] (fs/file.c, not in the
    repository) are the interface [FileOps]. *)
From stdpp Require Import base gmap list fin_maps.
From Stdlib Require Import ZArith Lia Ascii.
From S2P Require Import Prelude KEnv Vnode Namev.
Open Scope Z_scope.
Open Scope c_scope.

Definition with_fref (n : Z) (x : file) : file := mkFile (f_pos x) (f_mode x) n (f_vnode x).

(** Open files are counted: [fget(-1)] makes a new one, or returns NULL when
    there is no memory; [fget(fd)] takes a reference to the file of a
    descriptor, NULL if there is none or [fd] is no descriptor; [fput] drops one, and the last one
    drops the file's reference to its vnode. *)
Class FileOps `{KList} `{FsOps} `{StatModes} `{VfsConsts} := {
  fget : Z -> M vfs Z;
  fput : Z -> M vfs unit;
  (** the test of a name against "." or ".." *)
  name_match : option (list ascii) -> list ascii -> Z -> bool;
  fget_new s : fget (-1) s = Ok (0, s) \/
    exists f, f <> 0 /\ files s !! f = None /\ fget (-1) s = Ok (f, upd_files (<[f := mkFile 0 0 1 0]>) s);
  fget_fd s fd f x : 0 <= fd -> p_files s !! Z.to_nat fd = Some f -> f <> 0 -> files s !! f = Some x ->
    fget fd s = Ok (f, upd_files (<[f := with_fref (f_refcount x + 1) x]>) s);
  fget_none s fd : 0 <= fd -> default 0 (p_files s !! Z.to_nat fd) = 0 -> fget fd s = Ok (0, s);
  fget_neg s fd : fd < -1 -> fget fd s = Ok (0, s);
  fput_more s f x : files s !! f = Some x -> 1 < f_refcount x ->
    fput f s = Ok (tt, upd_files (<[f := with_fref (f_refcount x - 1) x]>) s);
  fput_last s f x : files s !! f = Some x -> f_refcount x = 1 ->
    fput f s = ((if f_vnode x =? 0 then mret_ tt else vput (f_vnode x)) ;;; mput (upd_files (delete f))) s;
}.

Section Syscalls.
Context `{KL : KList} `{SL : Slab} `{FO : FsOps} `{SM : StatModes} `{ER : KErrno} `{VC : VfsConsts} `{!VnOps} `{!FileOps}.

Definition with_pos (n : Z) (x : file) : file := mkFile n (f_mode x) (f_refcount x) (f_vnode x).
Definition with_mode (n : Z) (x : file) : file := mkFile (f_pos x) n (f_refcount x) (f_vnode x).
Definition with_vnode (v : Z) (x : file) : file := mkFile (f_pos x) (f_mode x) (f_refcount x) v.
Definition load_file (f : Z) : M vfs file := fun s => mthe (files s !! f) s.
Definition store_file (f : Z) (g : file -> file) : M vfs unit :=
  let! x := load_file f in mput (upd_files (<[f := g x]>)).
(** [curproc->p_files[fd] = f] *)
Definition set_fd (fd f : Z) : M vfs unit := mput (upd_fds (<[Z.to_nat fd := f]>)).
(** [fd < 0 || fd >= NFILES || NULL == curproc->p_files[fd]] *)
Definition bad_fd (fd : Z) : M vfs bool :=
  let! l := mget p_files in
  mret_ ((fd <? 0) || (NFILES <=? fd) || (default 0 (l !! Z.to_nat fd) =? 0)).

(** ** open.c *)
Fixpoint empty_from (fd : Z) (l : list Z) : option Z :=
  match l with
  | [] => None
  | f :: r => if f =? 0 then Some fd else empty_from (fd + 1) r
  end.
Definition get_empty_fd : M vfs Z :=
  let! l := mget p_files in
  mret_ (default (- EMFILE) (empty_from 0 (take (Z.to_nat NFILES) l))).

Definition open_mode (oflags : Z) : Z :=
  let m := if oflags =? O_RDONLY then Z.lor 0 FMODE_READ else 0 in
  let m := if negb (Z.land oflags O_WRONLY =? 0) then Z.lor m FMODE_WRITE else m in
  let m := if negb (Z.land oflags O_RDWR =? 0) then Z.lor m (Z.lor FMODE_READ FMODE_WRITE) else m in
  if negb (Z.land oflags O_APPEND =? 0) then Z.lor m FMODE_APPEND else m.

Definition do_open (filename : list ascii) (oflags : Z) : M vfs Z :=
  if negb (Z.land oflags O_WRONLY =? 0) && negb (Z.land oflags O_RDWR =? 0) then mret_ (- EINVAL)
  else
    let! newfd := get_empty_fd in
    if newfd <? 0 then mret_ newfd
    else
      let! newFile := fget (-1) in
      set_fd newfd newFile ;;;
      store_file newFile (with_mode (open_mode oflags)) ;;;
      let! (code, resVNode) := open_namev filename oflags 0 in
      if code <? 0 then fput newFile ;;; set_fd newfd 0 ;;; mret_ code
      else
        let! y := load_vn resVNode in
        if S_ISDIR (vn_mode y) && (negb (Z.land oflags O_WRONLY =? 0) || negb (Z.land oflags O_RDWR =? 0)) then
          vput resVNode ;;; fput newFile ;;; set_fd newfd 0 ;;; mret_ (- EISDIR)
        else
          store_file newFile (with_pos 0) ;;;
          store_file newFile (with_vnode resVNode) ;;;
          mret_ newfd.

(** ** Reading and writing *)
(** Calls through [vn_ops]; a NULL entry is an undefined call. *)
Definition call_read (v pos n : Z) : M vfs (Z * list Z) :=
  let! x := load_vn v in
  mguard (has_op x Vread) FUndef ;;;
  match vn_ops x with FsVops k => fs_read k v pos n | _ => special_file_read v pos n end.
Definition call_write (v pos : Z) (buf : list Z) : M vfs Z :=
  let! x := load_vn v in
  mguard (has_op x Vwrite) FUndef ;;;
  match vn_ops x with FsVops k => fs_write k v pos buf | _ => special_file_write v pos buf end.

Definition do_read (fd nbytes : Z) : M vfs (Z * list Z) :=
  let! bad := bad_fd fd in
  if bad then mret_ (- EBADF, [])
  else
    let! file := fget fd in
    let! x := load_file file in
    let! vn := load_vn (f_vnode x) in
    if negb (has_op vn Vread) then fput file ;;; mret_ (- EISDIR, [])
    else if Z.land (f_mode x) FMODE_READ =? 0 then fput file ;;; mret_ (- EBADF, [])
    else
      let! (rbytes, buf) := call_read (f_vnode x) (f_pos x) nbytes in
      if rbytes <? 0 then fput file ;;; mret_ (rbytes, [])
      else
        store_file file (fun x => with_pos (f_pos x + rbytes) x) ;;;
        fput file ;;;
        mret_ (rbytes, buf).

(** The offsets are [int]: the sums must not overflow. *)
Definition in_int (z : Z) : bool := (INT_MIN <=? z) && (z <=? INT_MAX).
Definition do_lseek (fd offset whence : Z) : M vfs Z :=
  if fd <? 0 then mret_ (- EBADF)
  else
    let! file := fget fd in
    if file =? 0 then mret_ (- EBADF)
    else
      let! x := load_file file in
      let! vn := load_vn (f_vnode x) in
      let file_size := vn_len vn in
      let! r :=
        (if whence =? SEEK_SET then
           if offset <? 0 then mret_ false else store_file file (with_pos offset) ;;; mret_ true
         else if whence =? SEEK_CUR then
           mguard (in_int (f_pos x + offset)) FUndef ;;;
           if f_pos x + offset <? 0 then mret_ false else store_file file (with_pos (f_pos x + offset)) ;;; mret_ true
         else if whence =? SEEK_END then
           mguard (in_int (offset + file_size)) FUndef ;;;
           if offset + file_size <? 0 then mret_ false else store_file file (with_pos (file_size + offset)) ;;; mret_ true
         else mret_ false) in
      fput file ;;;
      if (r : bool) then let! x := load_file file in mret_ (f_pos x)
      else mret_ (- EINVAL).

Definition do_write (fd : Z) (buf : list Z) : M vfs Z :=
  let! bad := bad_fd fd in
  if bad then mret_ (- EBADF)
  else
    let! file := fget fd in
    let! x := load_file file in
    if Z.land (f_mode x) (Z.lor FMODE_WRITE FMODE_APPEND) =? 0 then fput file ;;; mret_ (- EBADF)
    else
      (if negb (Z.land (f_mode x) FMODE_APPEND =? 0) then let! _ := do_lseek fd 0 SEEK_END in mret_ tt else mret_ tt) ;;;
      let! x := load_file file in
      let! wbytes := call_write (f_vnode x) (f_pos x) buf in
      store_file file (fun x => with_pos (f_pos x + wbytes) x) ;;;
      let! x := load_file file in
      let! vn := load_vn (f_vnode x) in
      KASSERT (S_ISCHR (vn_mode vn) || S_ISBLK (vn_mode vn) || (S_ISREG (vn_mode vn) && (f_pos x <=? vn_len vn))) ;;;
      fput file ;;;
      mret_ wbytes.

(** ** Descriptors *)
Definition do_close (fd : Z) : M vfs Z :=
  let! bad := bad_fd fd in
  if bad then mret_ (- EBADF)
  else
    let! l := mget p_files in
    fput (default 0 (l !! Z.to_nat fd)) ;;;
    set_fd fd 0 ;;;
    mret_ 0.

Definition do_dup (fd : Z) : M vfs Z :=
  let! bad := bad_fd fd in
  if bad then mret_ (- EBADF)
  else
    let! file := fget fd in
    let! nfd := get_empty_fd in
    if nfd <? 0 then fput file ;;; mret_ (- EMFILE)
    else set_fd nfd file ;;; mret_ nfd.

Definition do_dup2 (ofd nfd : Z) : M vfs Z :=
  let! bad := bad_fd ofd in
  if bad || (nfd <? 0) || (NFILES <=? nfd) then mret_ (- EBADF)
  else
    let! file := fget ofd in
    let! l := mget p_files in
    (if negb (default 0 (l !! Z.to_nat nfd) =? 0) && negb (nfd =? ofd) then let! _ := do_close nfd in mret_ tt else mret_ tt) ;;;
    set_fd nfd file ;;;
    (if nfd =? ofd then fput file else mret_ tt) ;;;
    mret_ nfd.

(** ** Directories *)
Definition call_mk (dir : Z) (name : option (list ascii)) (namelen : Z)
    (call : Z -> list ascii -> M vfs Z) : M vfs Z :=
  let! x := load_vn dir in
  let! n := mthe name in
  match vn_ops x with FsVops k => call k (take (Z.to_nat namelen) n) | _ => mfail FUndef end.

Definition do_mknod (path : list ascii) (mode devid : Z) : M vfs Z :=
  if negb (S_ISCHR mode) && negb (S_ISBLK mode) then mret_ (- EINVAL)
  else
    let! (code, (namelen, name, dir)) := dir_namev path 0 in
    if code <? 0 then mret_ code
    else
      let! (code, resVNode) := lookup dir name namelen in
      if code =? 0 then vput resVNode ;;; vput dir ;;; mret_ (- EEXIST)
      else
        let! x := load_vn dir in
        KASSERT (has_op x Vmknod) ;;;
        let! code := call_mk dir name namelen (fun k n => fs_mknod k dir n mode devid) in
        vput dir ;;;
        mret_ code.

Definition do_mkdir (path : list ascii) : M vfs Z :=
  let! (code, (namelen, name, dir)) := dir_namev path 0 in
  if code <? 0 then mret_ code
  else
    let! root := mget vfs_root_vn in
    if (namelen =? 0) && (dir =? root) then vput dir ;;; mret_ (- EEXIST)
    else
      let! (code, resVNode) := lookup dir name namelen in
      if code =? 0 then vput resVNode ;;; vput dir ;;; mret_ (- EEXIST)
      else
        let! x := load_vn dir in
        KASSERT (has_op x Vmkdir) ;;;
        let! code := call_mk dir name namelen (fun k n => fs_mkdir k dir n) in
        vput dir ;;;
        mret_ code.

Definition dot : list ascii := ["."%char].
Definition dotdot : list ascii := ["."%char; "."%char].
Definition do_rmdir (path : list ascii) : M vfs Z :=
  let! (code, (namelen, name, dir)) := dir_namev path 0 in
  if code <? 0 then mret_ code
  else if name_match name dot namelen then vput dir ;;; mret_ (- EINVAL)
  else if name_match name dotdot namelen then vput dir ;;; mret_ (- ENOTEMPTY)
  else
    let! x := load_vn dir in
    KASSERT (has_op x Vrmdir) ;;;
    let! code := call_mk dir name namelen (fun k n => fs_rmdir k dir n) in
    vput dir ;;;
    mret_ code.

Definition do_unlink (path : list ascii) : M vfs Z :=
  let! (code, (namelen, name, dir)) := dir_namev path 0 in
  if code <? 0 then mret_ code
  else
    let! (code, resVNode) := lookup dir name namelen in
    if code <? 0 then vput dir ;;; mret_ code
    else
      let! y := load_vn resVNode in
      if S_ISDIR (vn_mode y) then vput resVNode ;;; vput dir ;;; mret_ (- EPERM)
      else
        let! x := load_vn dir in
        KASSERT (has_op x Vunlink) ;;;
        let! code := call_mk dir name namelen (fun k n => fs_unlink k dir n) in
        vput resVNode ;;;
        vput dir ;;;
        mret_ code.

Definition do_link (from to : list ascii) : M vfs Z :=
  let! (code, fromVNode) := open_namev from O_RDONLY 0 in
  if code <? 0 then mret_ code
  else
    vput fromVNode ;;;
    let! y := load_vn fromVNode in
    if S_ISDIR (vn_mode y) then mret_ (- EPERM)
    else
      let! (code, (namelen, name, dir)) := dir_namev to 0 in
      if code <? 0 then mret_ code
      else
        let! (code, toVNode) := lookup dir name namelen in
        if code =? 0 then vput toVNode ;;; vput dir ;;; mret_ (- EEXIST)
        else
          let! x := load_vn dir in
          if negb (has_op x Vlink) then vput dir ;;; mret_ (- ENOTDIR)
          else
            let! code := call_mk dir name namelen (fun k n => fs_link k fromVNode dir n) in
            vput dir ;;;
            mret_ code.

Definition do_rename (oldname newname : list ascii) : M vfs Z :=
  let! code := do_link oldname newname in
  if code <? 0 then mret_ code
  else
    let! code := do_unlink oldname in
    if code <? 0 then mret_ code else mret_ code.

Definition do_chdir (path : list ascii) : M vfs Z :=
  let! (code, resVNode) := open_namev path O_RDONLY 0 in
  if code <? 0 then mret_ code
  else
    let! y := load_vn resVNode in
    if negb (has_op y Vlookup) then vput resVNode ;;; mret_ (- ENOTDIR)
    else
      let! cwd := mget p_cwd in
      vput cwd ;;;
      mput (set_cwd resVNode) ;;;
      mret_ 0.

(** The result and what is written to [*dirp]. *)
Definition do_getdent (fd : Z) : M vfs (Z * list Z) :=
  let! bad := bad_fd fd in
  if bad then mret_ (- EBADF, [])
  else
    let! file := fget fd in
    let! x := load_file file in
    let! vn := load_vn (f_vnode x) in
    if negb (has_op vn Vreaddir) then fput file ;;; mret_ (- ENOTDIR, [])
    else
      let! (n, buf) := match vn_ops vn with FsVops k => fs_readdir k (f_vnode x) (f_pos x) | _ => mfail FUndef end in
      store_file file (fun x => with_pos (f_pos x + n) x) ;;;
      fput file ;;;
      if n =? 0 then mret_ (0, buf) else mret_ (SIZEOF_DIRENT, buf).

(** The result and what is written to [*buf]. *)
Definition do_stat (path : list ascii) : M vfs (Z * list Z) :=
  if Z.of_nat (length path) =? 0 then mret_ (- EINVAL, [])
  else
    let! (code, resVNode) := open_namev path O_RDONLY 0 in
    if code <? 0 then mret_ (code, [])
    else
      let! y := load_vn resVNode in
      KASSERT (has_op y Vstat) ;;;
      let! (code, buf) := match vn_ops y with
                   | FsVops k => let! d := mget disk in mret_ (fs_stat k d (vn_fs y) (vn_vno y))
                   | _ => special_file_stat resVNode
                   end in
      vput resVNode ;;;
      mret_ (code, buf).
End Syscalls.

(** ** The reference balance *)
Section Balance.
Context `{KL : KList} `{SL : Slab} `{FO : FsOps} `{SM : StatModes} `{ER : KErrno} `{VC : VfsConsts} `{VO : !VnOps} `{FF : !FileOps}.
Implicit Types s : vfs.

(** Open files of a vnode, descriptors of an open file. *)
Definition nfiles (m : gmap Z file) (v : Z) : Z := Z.of_nat (size (base.filter (fun p => f_vnode p.2 = v) m)).
Definition nfds (l : list Z) (f : Z) : Z := Z.of_nat (length (base.filter (fun g => f = g) l)).

Lemma nfiles_insert m f x v : m !! f = None -> nfiles (<[f := x]> m) v = nfiles m v + ind (f_vnode x) v.
Proof.
  intros Hf. unfold nfiles, ind. case_decide as E.
  - rewrite map_filter_insert_True by done. rewrite map_size_insert_None; [lia|]. by apply map_lookup_filter_None_2; left.
  - rewrite map_filter_insert_False by done. rewrite delete_id by done. lia.
Qed.
Lemma nfiles_delete m f x v : m !! f = Some x -> nfiles (delete f m) v = nfiles m v - ind (f_vnode x) v.
Proof.
  intros Hf. rewrite <- (insert_delete_id m f x Hf) at 2. rewrite nfiles_insert by apply lookup_delete_eq. lia.
Qed.
Lemma nfiles_update m f x y v : m !! f = Some x ->
  nfiles (<[f := y]> m) v = nfiles m v - ind (f_vnode x) v + ind (f_vnode y) v.
Proof.
  intros Hf. rewrite <- insert_delete_eq. rewrite nfiles_insert by apply lookup_delete_eq. by rewrite (nfiles_delete m f x).
Qed.
Lemma nfds_update l i f g h : l !! i = Some f -> nfds (<[i := g]> l) h = nfds l h - ind f h + ind g h.
Proof.
  intros Hi. pose proof (lookup_lt_Some _ _ _ Hi) as Hlt. unfold nfds, ind.
  rewrite insert_take_drop by done.
  assert (length (base.filter (fun g => h = g) l) = length (base.filter (fun g => h = g) (take i l ++ f :: drop (S i) l))) as ->
    by (by rewrite take_drop_middle).
  rewrite !filter_app, !length_app, !filter_cons.
  repeat case_decide; cbn [length]; subst; try congruence; lia.
Qed.
Lemma nfds_pos l i f : l !! i = Some f -> 0 < nfds l f.
Proof.
  intros Hi. unfold nfds. assert (f ∈ base.filter (fun g => f = g) l) as H by (apply list_elem_of_filter; split; [done|by eapply list_elem_of_lookup_2]).
  destruct (base.filter _ l); [by apply not_elem_of_nil in H|cbn; lia].
Qed.

(** A vnode is a directory. *)
Definition is_dir s (v : Z) : Prop := exists x, vnodes s !! v = Some x /\ has_op x Vlookup = true.

(** Between two calls every active reference to a vnode is that of an open
    file, of the working directory, of the root, or one of [ext] (other
    processes, mappings), and every reference to an open file is that of a
    descriptor or one of [extf]. *)
Record sinv (ext extf : Z -> Z) s : Prop := {
  i_vn : vn_ok s;
  i_len : length (p_files s) = Z.to_nat NFILES;
  i_act : forall v, v <> 0 -> act s v = nfiles (files s) v + ind (p_cwd s) v + ind (vfs_root_vn s) v + ext v;
  i_ext : forall v, 0 <= ext v /\ 0 <= extf v;
  i_file : forall f x, files s !! f = Some x -> f <> 0 /\ f_vnode x <> 0 /\ 0 < f_refcount x /\ f_refcount x = nfds (p_files s) f + extf f;
  i_fd : forall f, f ∈ p_files s -> f = 0 \/ is_Some (files s !! f);
  i_cwd : p_cwd s <> 0 /\ is_dir s (p_cwd s);
  i_root : vfs_root_vn s <> 0 /\ is_dir s (vfs_root_vn s);
}.

Lemma nfiles_nonneg m v : 0 <= nfiles m v.
Proof. unfold nfiles. lia. Qed.
Lemma sinv_vnode ext extf s f x : sinv ext extf s -> files s !! f = Some x -> 0 < act s (f_vnode x).
Proof.
  intros I Hf. destruct (i_file _ _ _ I f x Hf) as (_ & Hv & _). rewrite (i_act _ _ _ I) by done.
  rewrite <- (insert_id (files s) f x Hf) at 1. rewrite (nfiles_update _ f x) by done. rewrite <- (insert_delete_id (files s) f x Hf) at 1.
  rewrite (nfiles_insert _ f x) by apply lookup_delete_eq. rewrite ind_same. pose proof (nfiles_nonneg (delete f (files s)) (f_vnode x)).
  pose proof (ind_range (p_cwd s) (f_vnode x)). pose proof (ind_range (vfs_root_vn s) (f_vnode x)). pose proof (i_ext _ _ _ I (f_vnode x)). lia.
Qed.
Lemma sinv_cwd ext extf s : sinv ext extf s -> 0 < act s (p_cwd s) /\ 0 < act s (vfs_root_vn s).
Proof.
  intros I. rewrite !(i_act _ _ _ I) by apply I. rewrite !ind_same.
  pose proof (nfiles_nonneg (files s)). pose proof (i_ext _ _ _ I). pose proof ind_range.
  split; [specialize (H (p_cwd s)); specialize (H0 (p_cwd s)); specialize (H1 (vfs_root_vn s) (p_cwd s)); lia|].
  specialize (H (vfs_root_vn s)). specialize (H0 (vfs_root_vn s)). specialize (H1 (p_cwd s) (vfs_root_vn s)). lia.
Qed.

Lemma vn_ok_frame s s' : vnodes s' = vnodes s -> vnode_inuse_list s' = vnode_inuse_list s -> disk s' = disk s -> vn_ok s -> vn_ok s'.
Proof. intros E1 E2 E3 [[] HL]. split; [split; rewrite ?E1, ?E2, ?E3; done|]. unfold pages_linked. by rewrite E1, E3. Qed.
Lemma is_dir_step s s' v dl : vrel s s' dl -> 0 < act s v -> 0 < act s' v -> is_dir s v -> is_dir s' v.
Proof.
  intros R H1 H2 (x & Hx & Ho). destruct (r_same _ _ _ R v x Hx H1 H2) as (x' & Hx' & _ & _ & E & _).
  exists x'. split; [done|]. unfold has_op in *. by rewrite E.
Qed.

(** The files, descriptors and working directory that go with new references. *)
Lemma sinv_step ext extf s s1 s' dl :
  sinv ext extf s -> vn_ok s1 -> vrel s s1 dl ->
  vnodes s' = vnodes s1 -> vnode_inuse_list s' = vnode_inuse_list s1 -> disk s' = disk s1 ->
  length (p_files s') = length (p_files s) -> p_cwd s' = p_cwd s -> vfs_root_vn s' = vfs_root_vn s ->
  (forall v, v <> 0 -> nfiles (files s') v = nfiles (files s) v + dl v) ->
  (forall f x, files s' !! f = Some x -> f <> 0 /\ f_vnode x <> 0 /\ 0 < f_refcount x /\ f_refcount x = nfds (p_files s') f + extf f) ->
  (forall f, f ∈ p_files s' -> f = 0 \/ is_Some (files s' !! f)) -> sinv ext extf s'.
Proof.
  intros I K R E1 E2 E3 E4 E5 E6 Hn Hf Hd. assert (forall v, act s' v = act s1 v) as Ea by (intros; unfold act; by rewrite E1).
  assert (forall v, v <> 0 -> act s' v = nfiles (files s') v + ind (p_cwd s') v + ind (vfs_root_vn s') v + ext v) as HA.
  { intros v Hv. rewrite Ea, (r_act _ _ _ R), (i_act _ _ _ I), E5, E6, Hn by done. lia. }
  assert (forall v, v = p_cwd s \/ v = vfs_root_vn s -> 0 < act s1 v) as Hpos.
  { intros v Hv. rewrite <- Ea, HA, E5, E6 by (destruct Hv; subst v; apply I).
    pose proof (nfiles_nonneg (files s') v). pose proof (i_ext _ _ _ I v). pose proof (ind_range (p_cwd s) v). pose proof (ind_range (vfs_root_vn s) v).
    destruct Hv as [-> | ->]; rewrite ind_same; lia. }
  assert (forall v, v = p_cwd s \/ v = vfs_root_vn s -> is_dir s v -> is_dir s' v) as Hdir.
  { intros v Hv HD. destruct (is_dir_step s s1 v dl R) as (x & Hx & Ho); [|by apply Hpos|done|exists x; by rewrite E1].
    destruct (sinv_cwd _ _ _ I). by destruct Hv; subst v. }
  split; [by apply (vn_ok_frame s1)|by rewrite E4, (i_len _ _ _ I)|done|apply I|done|done| |].
  - rewrite E5. split; [apply I|]. apply Hdir; [by left|apply I].
  - rewrite E6. split; [apply I|]. apply Hdir; [by right|apply I].
Qed.

(** A call that only moves references temporarily. *)
Lemma sinv_neutral ext extf s s' : sinv ext extf s -> vn_ok s' -> vrel s s' (fun _ => 0) -> sinv ext extf s'.
Proof.
  intros I K R. pose proof R as [_ _ E1 E2 E3 E4]. eapply (sinv_step _ _ s s' s'); [done..|by rewrite E2|done|done| | |].
  - intros v _. rewrite E1. lia.
  - rewrite E1, E2. apply I.
  - rewrite E1, E2. apply I.
Qed.

(** ** Calls on paths *)
(** Tables of directories are complete. *)
Definition dirs_full : Prop := forall k, fs_has k Vlookup = true ->
  Forall (fun o => fs_has k o = true) [Vcreate; Vmknod; Vlink; Vunlink; Vmkdir; Vrmdir].
Lemma dirs_full_create : dirs_full -> dirs_create.
Proof. intros H k Hk. specialize (H k Hk). rewrite Forall_forall in H. apply H. by left. Qed.
Lemma dir_has k o : dirs_full -> fs_has k Vlookup = true -> o ∈ [Vcreate; Vmknod; Vlink; Vunlink; Vmkdir; Vrmdir] -> fs_has k o = true.
Proof. intros H Hk Ho. specialize (H k Hk). rewrite Forall_forall in H. by apply H. Qed.

Lemma start_ok ext extf s p : sinv ext extf s ->
  exists x, vnodes s !! start s p 0 = Some x /\ 0 < act s (start s p 0) /\ has_lookup (disk s) (vn_fs x) (vn_vno x) = true.
Proof.
  intros I. unfold start. cbn [Z.eqb]. destruct (sinv_cwd _ _ _ I) as [H1 H2].
  destruct (i_cwd _ _ _ I) as [_ (x & Hx & Ho)]. destruct (i_root _ _ _ I) as [_ (y & Hy & Hr)].
  case_decide; [exists y|exists x]; (split; [done|]); (split; [done|]); [rewrite <- (vn_ops_lookup s _ y (i_vn _ _ _ I) Hy)|rewrite <- (vn_ops_lookup s _ x (i_vn _ _ _ I) Hx)]; done.
Qed.

(** A directory whose reference the call holds. *)
Record holds_dir s s1 (dir : Z) (y : vnode) (k : Z) : Prop := {
  h_ok : vn_ok s1;
  h_rel : vrel s s1 (ind dir);
  h_act : 0 < act s1 dir;
  h_vn : vnodes s1 !! dir = Some y;
  h_ops : vn_ops y = FsVops k;
  h_look : fs_has k Vlookup = true;
}.
Lemma walk_dir_lookup d fs i cs j l : walk_dir d fs i cs = inr (j, l) -> has_lookup d fs i = true -> has_lookup d fs j = true.
Proof.
  unfold walk_dir. destruct (last cs); [|intros [= -> _]; done]. destruct (NAME_LEN <? _); [done|].
  destruct (walk _ _ _ _) as [|j'] eqn:Hw; [done|]. destruct (bool_decide _) eqn:Hb; cbn [andb].
  - destruct (has_lookup d fs j') eqn:Hlj; cbn; [|done]. by intros [= <- _].
  - apply bool_decide_eq_false in Hb. apply dec_stable in Hb. rewrite Hb in Hw. cbn in Hw. injection Hw as <-. by intros [= <- _].
Qed.
Lemma holds_intro s s1 dir y : vn_ok s1 -> vrel s s1 (ind dir) -> 0 < act s1 dir -> vnodes s1 !! dir = Some y ->
  has_lookup (disk s1) (vn_fs y) (vn_vno y) = true -> exists k, holds_dir s s1 dir y k.
Proof.
  intros K R Ha Hy Hl. rewrite <- (vn_ops_lookup s1 dir y K Hy) in Hl. unfold has_op in Hl.
  destruct (vn_ops y) as [k| |] eqn:E; [|done..]. by exists k.
Qed.

(** What the path leads to before its last component: an error, or the inode
    of the directory and the last name in it. *)
Definition path_dir s (p : list ascii) : Z + Z * Z * option (list ascii) :=
  match vnodes s !! start s p 0 with
  | None => inl 0
  | Some x =>
      match walk_dir (disk s) (vn_fs x) (vn_vno x) (comps p) with
      | inl e => inl e
      | inr (j, l) => inr (vn_fs x, j, l)
      end
  end.

(** [dir_namev] from the root or the working directory. *)
Lemma call_dir_wp ext extf s p Q : sinv ext extf s -> first_ok (comps p) ->
  (forall e s' r, path_dir s p = inl e -> 0 < e -> vn_ok s' -> vrel s s' (fun _ => 0) -> Q (- e, r) s') ->
  (forall l nl name dir s1 y k, path_dir s p = inr (vn_fs y, vn_vno y, l) -> holds_dir s s1 dir y k -> same_tree (disk s) (disk s1) ->
     match l with
     | None => nl = 0 /\ name = None /\ dir = start s p 0
     | Some l => 0 < nl /\ exists n, name = Some n /\ take (Z.to_nat nl) n = l
     end -> Q (0, (nl, name, dir)) s1) ->
  wp (dir_namev p 0) s Q.
Proof.
  intros I Hf HE HQ. destruct (start_ok _ _ s p I) as (x & Hx & Ha & Hl). eapply dir_namev_wp; [apply I|done..|].
  intros code nl name dir s1 (K1 & T1 & HD). unfold path_dir in *. rewrite Hx in *. destruct (walk_dir _ _ _ _) as [e|[j l]] eqn:Hw.
  - destruct HD as (-> & He & R). by apply HE.
  - destruct HD as (-> & R & Ha1 & (y & Hy & E1 & E2) & Hn).
    destruct (holds_intro s s1 dir y) as [k H]; [done..| |].
    { rewrite E1, E2. unfold has_lookup, ino_vops. destruct T1 as (-> & _). by eapply walk_dir_lookup. }
    apply (HQ l nl name dir s1 y k); [by rewrite E1, E2|done|done|]. destruct l as [l|]; [done|]. destruct Hn as [-> ->].
    split; [done|]. split; [done|]. assert (j = vn_vno x) as ->.
    { unfold walk_dir in Hw. repeat case_match; naive_solver. }
    assert (0 < act s1 (start s p 0)) as Ha2 by (rewrite (r_act _ _ _ R); pose proof (ind_range dir (start s p 0)); lia).
    destruct (r_same _ _ _ R _ x Hx Ha Ha2) as (x1 & Hx1 & F1 & F2 & _).
    eapply (v_uniq _ K1 dir _ y x1); congruence.
Qed.

(** Looking the last name up in the directory held. *)
Lemma call_lookup_wp s s1 dir y k n nl Q : vn_ok s -> holds_dir s s1 dir y k ->
  (forall r s2 y2, dirent (disk s1) (vn_fs y) (vn_vno y) (take (Z.to_nat nl) n) = None ->
     holds_dir s s2 dir y2 k -> vrel s1 s2 (fun _ => 0) -> Q (- ENOENT, r) s2) ->
  (forall r s2 z y2, dirent (disk s1) (vn_fs y) (vn_vno y) (take (Z.to_nat nl) n) = Some (vn_vno z) -> vn_fs z = vn_fs y ->
     vn_ok s2 -> vrel s1 s2 (ind r) -> vnodes s2 !! r = Some z ->
     same_tree (disk s1) (disk s2) -> vnodes s2 !! dir = Some y2 -> vn_ops y2 = FsVops k -> Q (0, r) s2) ->
  wp (lookup dir (Some n) nl) s1 Q.
Proof.
  intros K [K1 R1 Ha Hy Ho Hl] HE HQ. eapply lookup_wp; [done|exact Hy|done|done|]. intros code r s2 K2 T2 H.
  assert (has_lookup (disk s1) (vn_fs y) (vn_vno y) = true) as El by (rewrite <- (vn_ops_lookup s1 dir y K1 Hy); unfold has_op; by rewrite Ho).
  rewrite El in H. destruct (dirent _ _ _ _) as [j|].
  - destruct H as (-> & R2 & z & Hz & E1 & E2). assert (0 < act s2 dir) as Ha2 by (rewrite (r_act _ _ _ R2); pose proof (ind_range r dir); lia).
    destruct (r_same _ _ _ R2 dir y Hy Ha Ha2) as (y2 & Hy2 & _ & _ & E & _). eapply HQ; [by rewrite E2|done..|congruence].
  - destruct H as [-> R2]. assert (0 < act s2 dir) as Ha2 by (rewrite (r_act _ _ _ R2); lia).
    destruct (r_same _ _ _ R2 dir y Hy Ha Ha2) as (y2 & Hy2 & _ & _ & E & _).
    apply (HE r s2 y2); [done| |done]. split; [done| |done|done|congruence|done].
    eapply vrel_trans; [exact R1|exact R2|left; intros; apply ind_range|intros; cbn beta; lia].
Qed.

(** Giving the directory back, and the vnode found in it. *)
Lemma give_back_wp s s1 dir y k (code : Z) Q : vn_ok s -> holds_dir s s1 dir y k ->
  (forall s', vn_ok s' -> vrel s s' (fun _ => 0) -> Q code s') -> wp (vput dir ;;; mret_ code) s1 Q.
Proof.
  intros K [K1 R1 Ha Hy Ho Hl] HQ. wp_step. eapply (put_dir_wp s s1 s1 dir (fun _ => 0)); [done|done|done|apply vrel_refl|intros; cbn beta; lia|].
  intros s' K' R' _ _. wp_step. by apply HQ.
Qed.
Lemma give_both_wp s s1 s2 dir r y k (code : Z) Q : vn_ok s -> holds_dir s s1 dir y k -> vn_ok s2 -> vrel s1 s2 (ind r) ->
  (forall s', vn_ok s' -> vrel s s' (fun _ => 0) -> Q code s') -> wp (vput r ;;; vput dir ;;; mret_ code) s2 Q.
Proof.
  intros K [K1 R1 Ha Hy Ho Hl] K2 R2 HQ. wp_step. apply vput_wp; [done|rewrite (r_act _ _ _ R2), ind_same; pose proof (act_nonneg s1 r K1); lia|].
  intros s3 z Hz P. wp_step. eapply (put_dir_wp s s1 s3 dir (fun _ => 0)); [done|done|apply P| |intros; cbn beta; lia|].
  { eapply vrel_trans; [exact R2|apply P|left; intros; apply ind_range|intros w; cbn beta; lia]. }
  intros s4 K4 R4 _ _. wp_step. by apply HQ.
Qed.
(** An operation of the directory that leaves references alone. *)
Lemma dir_op_wp s s1 dir y k name nl call Q : vn_ok s -> holds_dir s s1 dir y k -> is_Some name ->
  (forall n, wp (call k n) s1 (neutral s1)) ->
  (forall code s' y', code <= 0 -> vrel s1 s' (fun _ => 0) -> holds_dir s s' dir y' k -> Q code s') -> wp (call_mk dir name nl call) s1 Q.
Proof.
  intros K [K1 R1 Ha Hy Ho Hl] [n ->] Hc HQ. unfold call_mk. wp_step. eapply load_vn_wp; [done|]. wp_step. apply wp_the with (a := n); [done|].
  rewrite Ho. eapply wp_mono; [apply Hc|]. intros code s' (K' & R' & Hle).
  assert (0 < act s' dir) as Ha2 by (rewrite (r_act _ _ _ R'); lia).
  destruct (r_same _ _ _ R' dir y Hy Ha Ha2) as (y2 & Hy2 & _ & _ & E & _).
  eapply HQ; [done|done|]. split; [done| |done|done|congruence|done].
  eapply vrel_trans; [exact R1|exact R'|left; intros; apply ind_range|intros; cbn beta; lia].
Qed.

Ltac epos e := assert (0 < e) by (pose proof errno_pos as Hepos; rewrite Forall_forall in Hepos; apply Hepos; set_solver).

(** What a call that adds a name returns: the error of the path, [EEXIST], or
    what the file system says. *)
Definition added s (p : list ascii) (code : Z) : Prop :=
  match path_dir s p with
  | inl e => code = - e /\ 0 < e
  | inr (fs, j, None) => code = - EEXIST
  | inr (fs, j, Some l) =>
      match dirent (disk s) fs j l with Some _ => code = - EEXIST | None => code <= 0 end
  end.

Lemma path_dir_none s p fs j : path_dir s p = inr (fs, j, None) -> comps p = [].
Proof.
  unfold path_dir, walk_dir. destruct (vnodes s !! _); [|done]. destruct (last (comps p)) eqn:E; [|by apply last_None in E].
  repeat case_match; naive_solver.
Qed.

(** The common end of [do_mknod] and [do_mkdir]. *)
Lemma add_name_wp s p s1 dir y k l n nl o call Q :
  vn_ok s -> holds_dir s s1 dir y k -> same_tree (disk s) (disk s1) ->
  path_dir s p = inr (vn_fs y, vn_vno y, Some l) -> take (Z.to_nat nl) n = l -> fs_has k o = true ->
  (forall s y m, vn_ok s -> vnodes s !! dir = Some y -> 0 < act s dir -> vn_ops y = FsVops k -> wp (call k m) s (neutral s)) ->
  (forall code s', added s p code -> vn_ok s' -> vrel s s' (fun _ => 0) -> Q code s') ->
  wp (let! (code, resVNode) := lookup dir (Some n) nl in
      if code =? 0 then vput resVNode ;;; vput dir ;;; mret_ (- EEXIST)
      else
        let! x := load_vn dir in
        KASSERT (has_op x o) ;;;
        let! code := call_mk dir (Some n) nl call in
        vput dir ;;;
        mret_ code) s1 Q.
Proof.
  intros K H T Hp Hn Ho Hc HQ. unfold added in HQ. rewrite Hp in HQ. subst l.
  assert (forall m, dirent (disk s) (vn_fs y) (vn_vno y) m = dirent (disk s1) (vn_fs y) (vn_vno y) m) as Ed by (intros m; by destruct T as (_ & _ & ->)).
  rewrite Ed in HQ. wp_step. eapply call_lookup_wp; [done..| |].
  - intros r s2 y2 Hd H2 R2. rewrite Hd in HQ. epos ENOENT. cbv iota beta. rewrite (proj2 (Z.eqb_neq _ _)) by lia.
    pose proof H2 as [K2 R Ha Hy Hk Hl]. wp_step. eapply load_vn_wp; [done|]. wp_step. wp_step; [unfold has_op; by rewrite Hk|]. wp_step.
    eapply (dir_op_wp s s2 dir y2 k); [done|done|eauto|intros m; by eapply Hc|]. intros code s3 y3 Hle R3 H3. eapply (give_back_wp s s3); [done..|]. auto.
  - intros r s2 z y2 Hd _ K2 R2 _ _ _ _. rewrite Hd in HQ. cbn [Z.eqb]. eapply (give_both_wp s s1 s2); [done..|]. auto.
Qed.

(** [do_mkdir] resolves the directory of the path; the errors of the path
    are returned, an existing last component gives [-EEXIST] and the root too,
    otherwise the directory's mkdir is called; in every case each reference
    taken to a vnode is given back. *)
Theorem do_mkdir_correct ext extf s p : sinv ext extf s -> dirs_full -> first_ok (comps p) ->
  (comps p = [] -> start s p 0 = vfs_root_vn s) ->
  exists code s', do_mkdir p s = Ok (code, s') /\ added s p code /\ sinv ext extf s'.
Proof.
  intros I Hd Hf Hr. apply wp_ok. unfold do_mkdir. wp_step. eapply call_dir_wp; [done..| |].
  { intros e s' [[nl name] dir] Hp He K' R'. rewrite (proj2 (Z.ltb_lt _ _)) by lia. wp_step.
    split; [unfold added; by rewrite Hp|by eapply sinv_neutral]. }
  intros l nl name dir s1 y k Hp H T Hl. cbn [Z.ltb Z.compare]. wp_step. wp_step. pose proof (i_vn _ _ _ I) as K.
  destruct l as [l|].
  - destruct Hl as (Hnl & n & -> & Hn). rewrite (proj2 (Z.eqb_neq _ _)) by lia. cbn [andb].
    eapply (add_name_wp s p s1 dir y k l n nl Vmkdir); [done..| | |].
    + eapply dir_has; [done|apply H|set_solver].
    + intros s2 y2 m K2 Hy2 Ha2 Ho2. eapply fs_mkdir_law; [done..|]. eapply dir_has; [done|apply H|set_solver].
    + intros code s' Hadd K' R'. split; [done|by eapply sinv_neutral].
  - destruct Hl as (-> & -> & ->). assert (comps p = []) as Hc.
    { by eapply path_dir_none. }
    rewrite (r_root _ _ _ (h_rel _ _ _ _ _ H)), <- (Hr Hc), !Z.eqb_refl. cbn [andb].
    eapply (give_back_wp s s1); [done..|]. intros s' K' R'. split; [unfold added; by rewrite Hp|by eapply sinv_neutral].
Qed.

(** [do_mknod] makes special files only ([-EINVAL] for another mode); the
    errors of the path are returned, an existing last component gives
    [-EEXIST], otherwise the directory's mknod is called; each reference taken
    is given back. *)
Theorem do_mknod_correct ext extf s p mode dev : sinv ext extf s -> dirs_full -> first_ok (comps p) -> comps p <> [] ->
  exists code s', do_mknod p mode dev s = Ok (code, s') /\ sinv ext extf s' /\
    if S_ISCHR mode || S_ISBLK mode then added s p code else code = - EINVAL /\ s' = s.
Proof.
  intros I Hd Hf Hc. apply wp_ok. unfold do_mknod. rewrite <- negb_orb. destruct (S_ISCHR mode || S_ISBLK mode); cbn [negb]; [|by wp_step].
  wp_step. eapply call_dir_wp; [done..| |].
  { intros e s' [[nl name] dir] Hp He K' R'. rewrite (proj2 (Z.ltb_lt _ _)) by lia. wp_step.
    split; [by eapply sinv_neutral|unfold added; by rewrite Hp]. }
  intros l nl name dir s1 y k Hp H T Hl. cbn [Z.ltb Z.compare]. pose proof (i_vn _ _ _ I) as K.
  destruct l as [l|].
  2:{ by destruct Hc; eapply path_dir_none. }
  destruct Hl as (Hnl & n & -> & Hn).
  eapply (add_name_wp s p s1 dir y k l n nl Vmknod (fun k n => fs_mknod k dir n mode dev)); [done..| | |].
  - eapply dir_has; [done|apply H|set_solver].
  - intros s2 y2 m K2 Hy2 Ha2 Ho2. eapply fs_mknod_law; [done..|]. eapply dir_has; [done|apply H|set_solver].
  - intros code s' Hadd K' R'. split; [by eapply sinv_neutral|done].
Qed.

(** [do_unlink] removes names of files only: the errors of the path are
    returned, [-ENOENT] for a missing last component, [-EPERM] when it is a
    directory, and otherwise what the directory's unlink says; each reference
    taken is given back. *)
Theorem do_unlink_correct ext extf s p : sinv ext extf s -> dirs_full -> first_ok (comps p) -> comps p <> [] ->
  exists code s', do_unlink p s = Ok (code, s') /\ sinv ext extf s' /\
    match path_dir s p with
    | inl e => code = - e /\ 0 < e
    | inr (fs, j, l) =>
        match dirent (disk s) fs j (default [] l) with
        | None => code = - ENOENT
        | Some i => if S_ISDIR (vi_mode (read_vnode (disk s) fs i)) then code = - EPERM else code <= 0
        end
    end.
Proof.
  intros I Hd Hf Hc. apply wp_ok. unfold do_unlink. wp_step. pose proof (i_vn _ _ _ I) as K. eapply call_dir_wp; [done..| |].
  { intros e s' [[nl name] dir] Hp He K' R'. rewrite (proj2 (Z.ltb_lt _ _)) by lia. wp_step. rewrite Hp. split; [by eapply sinv_neutral|done]. }
  intros l nl name dir s1 y k Hp H T Hl. cbn [Z.ltb Z.compare]. rewrite Hp. destruct l as [l|]; [|by destruct Hc; eapply path_dir_none].
  destruct Hl as (Hnl & n & -> & <-). cbn [default from_option id]. cbv beta iota. destruct T as (T1 & _ & T3).
  rewrite <- T3. wp_step. eapply call_lookup_wp; [done..| |].
  - intros r s2 y2 -> H2 R2. epos ENOENT. cbv iota beta. rewrite (proj2 (Z.ltb_lt _ _)) by lia. eapply (give_back_wp s s2); [done..|].
    intros s' K' R'. split; [by eapply sinv_neutral|done].
  - intros r s2 z y2 -> Ez K2 R2 Hz T2 Hy2 Ho2. cbn [Z.ltb Z.compare]. rewrite <- T1. wp_step. eapply load_vn_wp; [done|].
    assert (vn_mode z = vi_mode (read_vnode (disk s1) (vn_fs y) (vn_vno z))) as ->.
    { destruct (v_inode _ K2 _ _ Hz) as [_ ->]. rewrite Ez. by destruct T2 as (-> & _). }
    destruct (S_ISDIR _).
    + eapply (give_both_wp s s1 s2); [done..|]. intros s' K' R'. split; [by eapply sinv_neutral|done].
    + assert (fs_has k Vunlink = true) as Hu by (eapply dir_has; [done|apply H|set_solver]).
      assert (0 < act s2 dir) as Ha2 by (rewrite (r_act _ _ _ R2); pose proof (h_act _ _ _ _ _ H); pose proof (ind_range r dir); lia).
      wp_step. eapply load_vn_wp; [done|]. wp_step. wp_step; [unfold has_op; by rewrite Ho2|]. wp_step. unfold call_mk.
      wp_step. eapply load_vn_wp; [done|]. wp_step. apply wp_the with (a := n); [done|]. rewrite Ho2.
      eapply wp_mono; [by eapply fs_unlink_law|]. intros code s3 (K3 & R3 & Hle).
      eapply (give_both_wp s s1 s3 dir r y k); [done..| |intros s' K' R'; split; [by eapply sinv_neutral|done]].
      eapply vrel_trans; [exact R2|exact R3|left; intros; apply ind_range|intros; cbn beta; lia].
Qed.

(** [do_rmdir] returns the errors of the path, refuses the names the
    code tests for ([.] gives [-EINVAL], [..] gives [-ENOTEMPTY]), otherwise
    returns what the directory's rmdir says; each reference taken is given
    back. *)
Theorem do_rmdir_correct ext extf s p : sinv ext extf s -> dirs_full -> first_ok (comps p) -> comps p <> [] ->
  exists code s', do_rmdir p s = Ok (code, s') /\ sinv ext extf s' /\
    match path_dir s p with
    | inl e => code = - e /\ 0 < e
    | inr (fs, j, l) => exists n nl, l = Some (take (Z.to_nat nl) n) /\
        if name_match (Some n) dot nl then code = - EINVAL
        else if name_match (Some n) dotdot nl then code = - ENOTEMPTY
        else code <= 0
    end.
Proof.
  intros I Hd Hf Hc. apply wp_ok. unfold do_rmdir. wp_step. pose proof (i_vn _ _ _ I) as K. eapply call_dir_wp; [done..| |].
  { intros e s' [[nl name] dir] Hp He K' R'. rewrite (proj2 (Z.ltb_lt _ _)) by lia. wp_step. rewrite Hp. split; [by eapply sinv_neutral|done]. }
  intros l nl name dir s1 y k Hp H T Hl. cbn [Z.ltb Z.compare]. rewrite Hp. destruct l as [l|]; [|by destruct Hc; eapply path_dir_none].
  destruct Hl as (Hnl & n & -> & <-).
  assert (forall code, (if name_match (Some n) dot nl then code = - EINVAL else if name_match (Some n) dotdot nl then code = - ENOTEMPTY else code <= 0) ->
    forall s', vn_ok s' -> vrel s s' (fun _ => 0) -> sinv ext extf s' /\ exists n0 nl0, Some (take (Z.to_nat nl) n) = Some (take (Z.to_nat nl0) n0) /\
      if name_match (Some n0) dot nl0 then code = - EINVAL else if name_match (Some n0) dotdot nl0 then code = - ENOTEMPTY else code <= 0) as HQ.
  { intros code Hcd s' K' R'. split; [by eapply sinv_neutral|eauto]. }
  destruct (name_match (Some n) dot nl); [eapply (give_back_wp s s1); [done..|]; by apply HQ|].
  destruct (name_match (Some n) dotdot nl); [eapply (give_back_wp s s1); [done..|]; by apply HQ|].
  assert (fs_has k Vrmdir = true) as Hu by (eapply dir_has; [done|apply H|set_solver]). pose proof H as [K1 R1 Ha Hy Ho Hlk].
  wp_step. eapply load_vn_wp; [done|]. wp_step. wp_step; [unfold has_op; by rewrite Ho|]. wp_step.
  eapply (dir_op_wp s s1 dir y k); [done|done|eauto|intros m; by eapply fs_rmdir_law|].
  intros code s3 y3 Hle R3 H3. eapply (give_back_wp s s3); [done..|]. by apply HQ.
Qed.

(** What a path leads to. *)
Definition path_of s (p : list ascii) : Z + Z * Z :=
  match vnodes s !! start s p 0 with
  | None => inl 0
  | Some x =>
      match walk_path (disk s) (vn_fs x) (vn_vno x) (comps p) (slashed p) with
      | inl e => inl e
      | inr j => inr (vn_fs x, j)
      end
  end.
(** [open_namev] without O_CREAT, from the root or the working directory. *)
Lemma call_open_wp ext extf s p Q : sinv ext extf s -> dirs_full -> first_ok (comps p) ->
  (forall e s' r, path_of s p = inl e -> 0 < e -> vn_ok s' -> vrel s s' (fun _ => 0) -> Q (- e, r) s') ->
  (forall r s1 y, path_of s p = inr (vn_fs y, vn_vno y) -> vn_ok s1 -> vrel s s1 (ind r) -> 0 < act s1 r -> vnodes s1 !! r = Some y -> Q (0, r) s1) ->
  wp (open_namev p O_RDONLY 0) s Q.
Proof.
  intros I Hd Hf HE HQ. destruct (start_ok _ _ s p I) as (x & Hx & Ha & Hl). eapply open_namev_wp; [apply I|done..|by apply dirs_full_create|done|].
  intros code r s1 HO. pose proof (proj1 HO) as K1. pose proof (open_cases _ _ _ _ _ _ _ HO) as HR. unfold path_of in *. rewrite Hx in *.
  unfold creating in HR. rewrite o_rdonly, Z.land_0_l in HR. cbn [Z.eqb negb] in HR.
  destruct (walk_path _ _ _ _ _) as [e|j].
  - destruct HR as (-> & He & R). by apply HE.
  - destruct HR as (-> & R & Har & y & Hy & E1 & E2). by apply (HQ r s1 y); [rewrite E1, E2|..].
Qed.

(** [do_chdir] makes the directory of the path the working directory: the
    process gives up its reference to the old one and keeps the one to the
    new; a path error or [-ENOTDIR] leaves the working directory. *)
Theorem do_chdir_correct ext extf s p : sinv ext extf s -> dirs_full -> first_ok (comps p) ->
  exists code s', do_chdir p s = Ok (code, s') /\ sinv ext extf s' /\
    match path_of s p with
    | inl e => code = - e /\ 0 < e /\ p_cwd s' = p_cwd s
    | inr (fs, j) => (code = - ENOTDIR /\ p_cwd s' = p_cwd s) \/
        (code = 0 /\ exists y, vnodes s' !! p_cwd s' = Some y /\ vn_fs y = fs /\ vn_vno y = j /\ has_op y Vlookup = true)
    end.
Proof.
  intros I Hd Hf. apply wp_ok. unfold do_chdir. wp_step. pose proof (i_vn _ _ _ I) as K. eapply call_open_wp; [done..| |].
  { intros e s' r Hp He K' R'. rewrite (proj2 (Z.ltb_lt _ _)) by lia. wp_step. rewrite Hp. split; [by eapply sinv_neutral|].
    split; [done|]. split; [done|apply R']. }
  intros r s1 y Hp K1 R1 Ha Hy. rewrite Hp. cbn [Z.ltb Z.compare]. wp_step. eapply load_vn_wp; [done|].
  destruct (has_op y Vlookup) eqn:Ho; cbn [negb].
  2:{ wp_step. apply vput_wp; [done|done|]. intros s2 z Hz P. wp_step.
      assert (vrel s s2 (fun _ => 0)) as R2 by (eapply vrel_trans; [exact R1|apply P|left; intros; apply ind_range|intros; cbn beta; lia]).
      split; [eapply sinv_neutral; [done|apply P|done]|left; split; [done|apply R2]]. }
  wp_step. wp_step. wp_step. rewrite (r_cwd _ _ _ R1). destruct (sinv_cwd _ _ _ I) as [Hcw Hrt].
  apply vput_wp; [done|rewrite (r_act _ _ _ R1); pose proof (ind_range r (p_cwd s)); lia|]. intros s2 z Hz P. wp_step. wp_step. wp_step.
  assert (vrel s s2 (fun w => ind r w - ind (p_cwd s) w)) as R2 by
    (eapply vrel_trans; [exact R1|apply P|left; intros; apply ind_range|intros; cbn beta; lia]).
  assert (forall v, v <> 0 -> act s2 v = nfiles (files s) v + ind r v + ind (vfs_root_vn s) v + ext v) as HA.
  { intros v Hv. rewrite (r_act _ _ _ R2), (i_act _ _ _ I) by done. lia. }
  assert (r <> 0) as Hr0 by (by eapply act_nonzero).
  assert (0 < act s2 r /\ 0 < act s2 (vfs_root_vn s)) as [Hr2 Hrt2].
  { rewrite !HA, !ind_same by (done || apply I). pose proof (nfiles_nonneg (files s)) as Hn. pose proof (i_ext _ _ _ I) as He.
    pose proof (Hn r). pose proof (Hn (vfs_root_vn s)). pose proof (He r). pose proof (He (vfs_root_vn s)).
    pose proof (ind_range (vfs_root_vn s) r). pose proof (ind_range r (vfs_root_vn s)). lia. }
  assert (vrel s1 s2 (fun w => - ind (p_cwd s) w)) as R12 by apply P.
  destruct (r_same _ _ _ R12 r y Hy Ha Hr2) as (y2 & Hy2 & E1 & E2 & E3 & _).
  assert (has_op y2 Vlookup = true) as Ho2 by (unfold has_op in *; by rewrite E3).
  split; [|right; split; [done|]; exists y2; cbn; split_and!; congruence].
  assert (is_dir s2 (vfs_root_vn s)) as Hdr by (eapply is_dir_step; [exact R2|done|done|apply I]).
  split; cbn.
  - eapply vn_ok_frame; [..|apply P]; done.
  - rewrite (r_fds _ _ _ R2). apply I.
  - intros v Hv. rewrite (r_files _ _ _ R2), (r_root _ _ _ R2). apply (HA v Hv).
  - apply I.
  - rewrite (r_files _ _ _ R2), (r_fds _ _ _ R2). apply I.
  - rewrite (r_files _ _ _ R2), (r_fds _ _ _ R2). apply I.
  - split; [done|]. by exists y2.
  - rewrite (r_root _ _ _ R2). split; [apply I|]. exact Hdr.
Qed.

(** [do_stat] of a path stats the inode the path leads to, also when it is
    a special file (then through the root of its file system), and gives the
    vnode back; an empty path is [-EINVAL] and path errors are returned. *)
Theorem do_stat_correct ext extf s p : sinv ext extf s -> dirs_full -> first_ok (comps p) ->
  (forall k, fs_has k Vstat = true) ->
  (forall v x, vnodes s !! v = Some x -> 0 < act s (fs_root (vn_fs x)) /\ is_dir s (fs_root (vn_fs x))) ->
  exists code buf s', do_stat p s = Ok ((code, buf), s') /\ sinv ext extf s' /\
    if bool_decide (p = []) then code = - EINVAL
    else match path_of s p with
         | inl e => code = - e /\ 0 < e
         | inr (fs, j) => exists k d, (code, buf) = fs_stat k d fs j
         end.
Proof.
  intros I Hd Hf Hst Hrt. apply wp_pair. unfold do_stat. pose proof (i_vn _ _ _ I) as K.
  destruct p as [|c p0]; [by apply wp_ret|]. rewrite bool_decide_eq_false_2 by done. set (p := c :: p0) in *.
  rewrite (proj2 (Z.eqb_neq _ _)) by (unfold p; cbn; lia). wp_step. eapply call_open_wp; [done..| |].
  { intros e s' r Hp He K' R'. rewrite (proj2 (Z.ltb_lt _ _)) by lia. wp_step. rewrite Hp. split; [by eapply sinv_neutral|done]. }
  intros r s1 y Hp K1 R1 Ha Hy. rewrite Hp. cbn [Z.ltb Z.compare]. wp_step. eapply load_vn_wp; [done|].
  wp_step. wp_step; [unfold has_op; destruct (vn_ops y); done|]. wp_step.
  assert (wp (match vn_ops y with
     | FsVops k => let! d := mget disk in mret_ (fs_stat k d (vn_fs y) (vn_vno y))
     | _ => special_file_stat r end) s1 (fun code s2 => s2 = s1 /\ exists k d, code = fs_stat k d (vn_fs y) (vn_vno y))) as Hcall.
  { assert (wp (special_file_stat r) s1 (fun code s2 => s2 = s1 /\ exists k d, code = fs_stat k d (vn_fs y) (vn_vno y))) as Hsp.
    { unfold special_file_stat. wp_step. eapply load_vn_wp; [done|].
      unfold path_of in Hp. destruct (vnodes s !! start s p 0) as [x|] eqn:Hx; [|done]. destruct (Hrt _ _ Hx) as [Hra Hrd].
      assert (vn_fs x = vn_fs y) as Ef by (case_match; naive_solver). rewrite Ef in *.
      assert (is_dir s1 (fs_root (vn_fs y))) as (z & Hz & Ho).
      { eapply is_dir_step; [exact R1|done| |done]. rewrite (r_act _ _ _ R1). pose proof (ind_range r (fs_root (vn_fs y))). lia. }
      wp_step. eapply load_vn_wp; [done|]. unfold has_op in *. destruct (vn_ops z) as [k| |]; [|done..].
      wp_step. wp_step; [done|]. wp_step. wp_step. wp_step. eauto. }
    destruct (vn_ops y); [|done..]. wp_step. wp_step. wp_step. eauto. }
  eapply wp_mono; [exact Hcall|]. intros [code buf] s2 [-> Hcode]. wp_step. apply vput_wp; [done|done|]. intros s3 z Hz P. wp_step.
  split; [|done]. eapply sinv_neutral; [done|apply P|].
  eapply vrel_trans; [exact R1|apply P|left; intros; apply ind_range|intros; cbn beta; lia].
Qed.

(** [do_link] drops its reference to the file it links before it uses the
    vnode: when nothing else refers to it, the vnode has been freed and the
    call reads freed memory. *)
Theorem do_link_use_after_free s from to r s1 x : vn_ok s1 ->
  open_namev from O_RDONLY 0 s = Ok ((0, r), s1) -> vnodes s1 !! r = Some x -> vn_refcount x = 1 -> 0 < act s1 r ->
  do_link from to s = Err FUndef.
Proof.
  intros K E Hx Hrc Ha. unfold do_link. rewrite (mbind_run _ _ _ _ _ E). cbn [Z.ltb Z.compare].
  assert (wp (vput r) s1 (fun _ s2 => vnodes s2 !! r = None)) as ([] & s2 & Hv & Hn)%wp_ok.
  { apply vput_wp; [done..|]. intros s2 z Hz P. simplify_eq. apply (pt_freed _ _ _ _ P). by left. }
  rewrite (mbind_run _ _ _ _ _ Hv). apply mbind_err. unfold load_vn, mthe. by rewrite Hn.
Qed.

(** ** Calls on descriptors *)
(** The open file of a descriptor. *)
Definition fd_file s (fd : Z) : option Z :=
  if (fd <? 0) || (NFILES <=? fd) then None
  else match p_files s !! Z.to_nat fd with
       | Some f => if f =? 0 then None else Some f
       | None => None
       end.
Lemma bad_fd_run s fd : bad_fd fd s = Ok (bool_decide (fd_file s fd = None), s).
Proof.
  unfold bad_fd, fd_file. rewrite (mbind_run (mget _) _ s _ s eq_refl). unfold mret_. f_equal. f_equal.
  destruct ((fd <? 0) || (NFILES <=? fd)); cbn [orb]; [by rewrite bool_decide_eq_true_2|].
  destruct (p_files s !! Z.to_nat fd) as [f|] eqn:E; cbn; unfold id; [destruct (f =? 0)|]; cbn; by rewrite ?bool_decide_eq_true_2, ?bool_decide_eq_false_2.
Qed.
Lemma fd_file_some s fd f : fd_file s fd = Some f -> 0 <= fd < NFILES /\ p_files s !! Z.to_nat fd = Some f /\ f <> 0.
Proof.
  unfold fd_file. destruct (Z.ltb_spec fd 0); cbn [orb]; [done|]. destruct (Z.leb_spec NFILES fd); [done|].
  destruct (p_files s !! Z.to_nat fd) as [g|]; [|done]. destruct (Z.eqb_spec g 0); [done|]. by intros [= ->].
Qed.
Lemma fd_file_in s fd f : fd_file s fd = Some f -> f ∈ p_files s.
Proof. intros (_ & H & _)%fd_file_some. by eapply list_elem_of_lookup_2. Qed.
Lemma bad_fd_wp s fd Q : Q (bool_decide (fd_file s fd = None)) s -> wp (bad_fd fd) s Q.
Proof. unfold wp. by rewrite bad_fd_run. Qed.
Lemma load_file_wp s f x Q : files s !! f = Some x -> Q x s -> wp (load_file f) s Q.
Proof. intros H ?. unfold wp, load_file. by rewrite H. Qed.
Lemma store_file_wp s f x g Q : files s !! f = Some x -> Q tt (upd_files (<[f := g x]>) s) -> wp (store_file f g) s Q.
Proof. intros H ?. unfold store_file. wp_step. by eapply load_file_wp. Qed.

(** Another record for an open file of the same vnode. *)
Lemma sinv_file ext extf extf' s f x y : sinv ext extf s -> files s !! f = Some x -> f_vnode y = f_vnode x -> 0 < f_refcount y ->
  (forall g, 0 <= extf' g) -> f_refcount y - f_refcount x = extf' f - extf f -> (forall g, g <> f -> extf' g = extf g) ->
  sinv ext extf' (upd_files (<[f := y]>) s).
Proof.
  intros I Hf Ev Hp H0 Hd Hs. destruct I as [I1 I2 I3 I4 I5 I6 I7 I8]. split; cbn; try done.
  - by apply (vn_ok_frame s).
  - intros v Hv. rewrite (nfiles_update _ f x), Ev by done. specialize (I3 v Hv). unfold act in *. cbn. lia.
  - intros v. split; [apply I4|done].
  - intros g z. destruct (I5 f x Hf) as (A1 & A2 & A3 & A4). intros [[<- <-]|[Hne Hz]]%lookup_insert_Some.
    + rewrite Ev. split_and!; try done. lia.
    + destruct (I5 g z Hz) as (B1 & B2 & B3 & B4). rewrite Hs by done. done.
  - intros g Hg. destruct (decide (g = f)) as [->|]; [right; rewrite lookup_insert_eq; eauto|rewrite lookup_insert_ne by done; auto].
Qed.

(** A reference taken with [fget], and given back while the descriptor is
    still there. *)
Lemma fget_wp ext extf s fd f Q : sinv ext extf s -> fd_file s fd = Some f ->
  (forall x, files s !! f = Some x -> f_vnode x <> 0 -> 0 < act s (f_vnode x) ->
     sinv ext (fun g => extf g + ind f g) (upd_files (<[f := with_fref (f_refcount x + 1) x]>) s) ->
     Q f (upd_files (<[f := with_fref (f_refcount x + 1) x]>) s)) -> wp (fget fd) s Q.
Proof.
  intros I Hfd HQ. destruct (fd_file_some _ _ _ Hfd) as (Hr & Hl & H0).
  destruct (i_fd _ _ _ I f) as [|[x Hx]]; [by eapply list_elem_of_lookup_2|done|]. unfold wp. rewrite (fget_fd s fd f x) by (done || lia).
  apply HQ; [done|by apply (i_file _ _ _ I f x)|by eapply sinv_vnode|].
  destruct (i_file _ _ _ I f x Hx) as (_ & _ & Hp & _).
  eapply sinv_file; [done|done|done|cbn; lia| | |]; cbn beta.
  - intros g. pose proof (ind_range f g). pose proof (i_ext _ _ _ I g). lia.
  - rewrite ind_same. cbn. lia.
  - intros g Hg. rewrite ind_other by done. lia.
Qed.
Lemma fput_fd_wp ext extf s f x Q : sinv ext (fun g => extf g + ind f g) s -> (forall g, 0 <= extf g) -> files s !! f = Some x -> f ∈ p_files s ->
  (sinv ext extf (upd_files (<[f := with_fref (f_refcount x - 1) x]>) s) -> Q tt (upd_files (<[f := with_fref (f_refcount x - 1) x]>) s)) ->
  wp (fput f) s Q.
Proof.
  intros I H0 Hx Hin HQ. destruct (i_file _ _ _ I f x Hx) as (_ & _ & Hp & Hr). rewrite ind_same in Hr.
  apply list_elem_of_lookup in Hin as [i Hi]. pose proof (nfds_pos _ _ _ Hi). pose proof (H0 f).
  unfold wp. rewrite (fput_more s f x) by (done || lia). apply HQ.
  eapply sinv_file; [done|done|done|cbn; lia|done| |]; cbn beta.
  - rewrite ind_same. cbn. lia.
  - intros g Hg. rewrite ind_other by done. lia.
Qed.

(** What [fput] does in general. *)
Lemma fput_wp s f x Q : vn_ok s -> files s !! f = Some x -> 0 < f_refcount x -> f_vnode x = 0 \/ 0 < act s (f_vnode x) ->
  (1 < f_refcount x -> Q tt (upd_files (<[f := with_fref (f_refcount x - 1) x]>) s)) ->
  (forall s1, f_refcount x = 1 -> vn_ok s1 -> vrel s s1 (fun w => if f_vnode x =? 0 then 0 else - ind (f_vnode x) w) ->
     Q tt (upd_files (delete f) s1)) -> wp (fput f) s Q.
Proof.
  intros K Hx Hp Hv HM HL. destruct (decide (1 < f_refcount x)).
  - unfold wp. rewrite (fput_more s f x) by done. auto.
  - unfold wp. rewrite (fput_last s f x) by (done || lia). change (wp ((if f_vnode x =? 0 then mret_ tt else vput (f_vnode x)) ;;; mput (upd_files (delete f))) s Q).
    wp_step. destruct (Z.eqb_spec (f_vnode x) 0) as [E|E].
    + wp_step. wp_step. apply HL; [lia|done|apply vrel_refl].
    + destruct Hv as [|Hv]; [done|]. apply vput_wp; [done..|]. intros s1 y Hy P. wp_step. apply HL; [lia|apply P|apply P].
Qed.

(** ** Reading *)
Lemma call_read_wp s v x pos n Q : vn_ok s -> vnodes s !! v = Some x -> 0 < act s v -> has_op x Vread = true ->
  (match vn_ops x with FsVops _ => True | _ => cd_has (vn_dev x) Vread = true /\ vn_dev x <> 0 /\ bytedev_lookup (vn_devid x) <> 0 end) ->
  (forall r l s', vn_ok s' -> vrel s s' (fun _ => 0) -> Q (r, l) s') -> wp (call_read v pos n) s Q.
Proof.
  intros K Hx Ha Ho Hd HQ. unfold call_read. wp_step. eapply load_vn_wp; [done|]. wp_step. wp_step; [done|].
  assert (v <> 0) by (by eapply act_nonzero). destruct (v_inode _ K _ _ Hx) as [Eo Em]. unfold ino_vops in Eo. rewrite <- Em in Eo.
  unfold has_op in Ho. destruct (vn_ops x) as [k| |] eqn:E; [| |done].
  - eapply wp_mono; [by eapply fs_read_law|]. intros [r l] s' [K' R']. auto.
  - destruct (S_ISCHR (vn_mode x)) eqn:Ec; [|by destruct (S_ISBLK (vn_mode x))]. destruct Hd as (Hd1 & Hd2 & Hd3).
    unfold special_file_read. wp_step. wp_step; [zbool|]. wp_step. eapply load_vn_wp; [done|]. rewrite Ec. wp_step. wp_step; [done|].
    wp_step. wp_step; [rewrite Hd1; zbool|]. cbv zeta. rewrite (proj2 (Z.eqb_neq _ _) Hd3). wp_step. wp_step. wp_step. wp_step.
    pose proof (cd_read_files (bytedev_lookup (vn_devid x)) pos n (disk s)) as Hcd.
    destruct (cd_read _ pos n (disk s)) as [[r l] d']. cbn in Hcd. wp_step. wp_step. wp_step. apply HQ.
    + destruct K as [[H0 H1 H2 H3 H4 H5] HL]. split; [split; cbn; try done|].
      * intros w y Hy. unfold ino_vops. rewrite (proj1 (Hcd _ _)). by apply (H5 w).
      * revert HL. apply pages_linked_step. intros w y Hy. right. exists y. split; [done|]. split; [done|]. apply Hcd.
    + split; try done; cbn; [intros; unfold act; cbn; lia|]. intros w y Hy _ _. by exists y.
Qed.

(** The position of the file of a descriptor moves, nothing else of the open
    files and descriptors changes. *)
Definition moved s s' (f : Z) (x : file) (pos : Z) : Prop :=
  files s' = <[f := with_pos pos x]> (files s) /\ p_files s' = p_files s.
Lemma with_pos_same x : with_pos (f_pos x) x = x.
Proof. by destruct x. Qed.

(** The end of a call that took a reference with [fget]: the new position is
    stored and the reference given back. *)
Lemma finish_wp {A} ext extf s s2 f x pos (r : A) Q :
  sinv ext extf s -> sinv ext (fun g => extf g + ind f g) s2 -> f ∈ p_files s -> p_files s2 = p_files s ->
  files s2 = <[f := with_pos pos (with_fref (f_refcount x + 1) x)]> (files s) ->
  (forall s', sinv ext extf s' -> moved s s' f x pos -> Q r s') -> wp (fput f ;;; mret_ r) s2 Q.
Proof.
  intros I I2 Hin Ep Ef HQ. wp_step. eapply fput_fd_wp; [exact I2|apply I|by rewrite Ef, lookup_insert_eq|by rewrite Ep|].
  intros I3. wp_step. apply HQ; [done|]. split; [|done]. cbn. rewrite Ef, insert_insert_eq. f_equal. unfold with_fref, with_pos. cbn. f_equal. lia.
Qed.

(** The device of a special file exists and has the operation. *)
Definition dev_ready (x : vnode) (o : vop) : Prop :=
  match vn_ops x with
  | FsVops _ => True
  | _ => cd_has (vn_dev x) o = true /\ vn_dev x <> 0 /\ bytedev_lookup (vn_devid x) <> 0
  end.

Definition read_result s s' (fd r : Z) : Prop :=
  match fd_file s fd with
  | None => r = - EBADF /\ s' = s
  | Some f => exists x y, files s !! f = Some x /\ vnodes s !! f_vnode x = Some y /\ moved s s' f x (f_pos x + Z.max 0 r) /\
      (has_op y Vread = false -> r = - EISDIR) /\
      (has_op y Vread = true -> Z.land (f_mode x) FMODE_READ = 0 -> r = - EBADF)
  end.

(** [do_read]: a bad descriptor gives [-EBADF], a vnode without read
    [-EISDIR], a file not open for reading [-EBADF]; otherwise the vnode is
    read at the file's position, which then advances by the number of bytes
    read and stays on an error.  The reference to the open file is given
    back on every path. *)
Theorem do_read_correct ext extf s fd n : sinv ext extf s ->
  (forall f x y, fd_file s fd = Some f -> files s !! f = Some x -> vnodes s !! f_vnode x = Some y -> dev_ready y Vread) ->
  exists res s', do_read fd n s = Ok (res, s') /\ sinv ext extf s' /\ read_result s s' fd (fst res).
Proof.
  intros I Hdev. apply wp_ok. unfold read_result.
  unfold do_read. wp_step. apply bad_fd_wp. destruct (fd_file s fd) as [f|] eqn:Hfd; [rewrite bool_decide_eq_false_2 by done|rewrite bool_decide_eq_true_2 by done; by wp_step].
  wp_step. eapply fget_wp; [done..|]. intros x Hx Hv0 Ha I1. set (s1 := upd_files _ s) in *. destruct (act_pos_some _ _ Ha) as [y Hy].
  pose proof (fd_file_in _ _ _ Hfd) as Hin. epos EISDIR. epos EBADF.
  assert (files s1 = <[f := with_pos (f_pos x) (with_fref (f_refcount x + 1) x)]> (files s)) as Ef1 by done.
  assert (forall r s', r < 0 -> sinv ext extf s' -> moved s s' f x (f_pos x) -> (has_op y Vread = false -> r = - EISDIR) ->
    (has_op y Vread = true -> Z.land (f_mode x) FMODE_READ = 0 -> r = - EBADF) -> sinv ext extf s' /\
    exists x y, files s !! f = Some x /\ vnodes s !! f_vnode x = Some y /\ moved s s' f x (f_pos x + Z.max 0 r) /\
      (has_op y Vread = false -> r = - EISDIR) /\ (has_op y Vread = true -> Z.land (f_mode x) FMODE_READ = 0 -> r = - EBADF)) as HE.
  { intros r s' Hr I' Hm H1 H2. split; [done|]. exists x, y. rewrite Z.max_l, Z.add_0_r by lia. auto. }
  wp_step. eapply load_file_wp; [apply lookup_insert_eq|]. cbn [f_vnode f_mode f_pos with_fref].
  wp_step. eapply load_vn_wp; [exact Hy|]. destruct (has_op y Vread) eqn:Ho; cbn [negb].
  2:{ eapply (finish_wp ext extf s s1 f x); [done..|]. intros. cbn [fst]. apply HE; [lia|done|done|done|done]. }
  destruct (Z.eqb_spec (Z.land (f_mode x) FMODE_READ) 0) as [Em|Em].
  { eapply (finish_wp ext extf s s1 f x); [done..|]. intros. cbn [fst]. apply HE; [lia|done|done|done|done]. }
  wp_step. eapply (call_read_wp s1 (f_vnode x) y); [apply I1|exact Hy|exact Ha|done|by apply (Hdev f x)|].
  intros r buf s2 K2 R2. pose proof (sinv_neutral _ _ _ _ I1 K2 R2) as I2.
  assert (files s2 = files s1) as Ef by apply R2. assert (p_files s2 = p_files s) as Ep by (apply R2).
  destruct (Z.ltb_spec r 0) as [Hr|Hr].
  { eapply (finish_wp ext extf s s2 f x (f_pos x)); [done..|by rewrite Ef|]. intros. cbn [fst]. by apply HE. }
  wp_step. eapply store_file_wp; [rewrite Ef; apply lookup_insert_eq|].
  eapply (finish_wp ext extf s _ f x (f_pos x + r)); [done| |done|done| |].
  - eapply sinv_file; [exact I2|rewrite Ef; apply lookup_insert_eq|done| |intros g; apply I1|cbn; lia|done].
    cbn. pose proof (i_file _ _ _ I f x Hx) as (_ & _ & ? & _). lia.
  - cbn. rewrite Ef. cbn. by rewrite insert_insert_eq.
  - intros s' I' Hm. split; [done|]. exists x, y. cbn [fst]. rewrite Z.max_r by lia. split_and!; [done..|congruence|done].
Qed.

(** [do_getdent] reads one directory entry at the file's position and
    advances it by what readdir returned; at the end of the directory it
    returns 0, otherwise the size of an entry.  A bad descriptor gives
    [-EBADF], a vnode that is no directory [-ENOTDIR]. *)
Theorem do_getdent_correct ext extf s fd : sinv ext extf s ->
  exists r buf s', do_getdent fd s = Ok ((r, buf), s') /\ sinv ext extf s' /\
    match fd_file s fd with
    | None => r = - EBADF /\ s' = s
    | Some f => exists x y, files s !! f = Some x /\ vnodes s !! f_vnode x = Some y /\
        if has_op y Vreaddir then exists n, moved s s' f x (f_pos x + n) /\ r = (if n =? 0 then 0 else SIZEOF_DIRENT)
        else r = - ENOTDIR /\ moved s s' f x (f_pos x)
    end.
Proof.
  intros I. apply wp_pair. unfold do_getdent. wp_step. apply bad_fd_wp.
  destruct (fd_file s fd) as [f|] eqn:Hfd; [rewrite bool_decide_eq_false_2 by done|rewrite bool_decide_eq_true_2 by done; by wp_step].
  wp_step. eapply fget_wp; [done..|]. intros x Hx Hv0 Ha I1. set (s1 := upd_files _ s) in *. destruct (act_pos_some _ _ Ha) as [y Hy].
  pose proof (fd_file_in _ _ _ Hfd) as Hin.
  wp_step. eapply load_file_wp; [apply lookup_insert_eq|]. cbn [f_vnode f_mode f_pos with_fref]. wp_step. eapply load_vn_wp; [exact Hy|].
  destruct (has_op y Vreaddir) eqn:Ho; cbn [negb].
  2:{ eapply (finish_wp ext extf s s1 f x (f_pos x)); [done..|]. intros s' I' Hm. split; [done|]. exists x, y. by rewrite Ho. }
  wp_step. unfold has_op in Ho. destruct (vn_ops y) as [k| |] eqn:Ek; [|done..]. eapply wp_mono; [eapply fs_readdir_law; [apply I1|exact Hy|exact Ha|done|done]|].
  intros [n buf] s2 [K2 R2]. pose proof (sinv_neutral _ _ _ _ I1 K2 R2) as I2.
  assert (files s2 = files s1) as Ef by apply R2. assert (p_files s2 = p_files s) as Ep by (apply R2).
  wp_step. eapply store_file_wp; [rewrite Ef; apply lookup_insert_eq|].
  assert (forall r, r = (if n =? 0 then 0 else SIZEOF_DIRENT) -> forall s', sinv ext extf s' -> moved s s' f x (f_pos x + n) -> sinv ext extf s' /\
    exists x0 y0, files s !! f = Some x0 /\ vnodes s !! f_vnode x0 = Some y0 /\
      if has_op y0 Vreaddir then exists n, moved s s' f x0 (f_pos x0 + n) /\ r = (if n =? 0 then 0 else SIZEOF_DIRENT)
      else r = - ENOTDIR /\ moved s s' f x0 (f_pos x0)) as HQ.
  { intros r Hr s' I' Hm. split; [done|]. exists x, y. unfold has_op. rewrite Ek, Ho. eauto. }
  assert (sinv ext (fun g => extf g + ind f g) (upd_files (<[f := with_pos (f_pos x + n) (with_fref (f_refcount x + 1) x)]>) s2)) as I3.
  { eapply sinv_file; [exact I2|rewrite Ef; apply lookup_insert_eq|done| |intros g; apply I1|cbn; lia|done].
    cbn. pose proof (i_file _ _ _ I f x Hx) as (_ & _ & ? & _). lia. }
  assert (<[f := with_pos (f_pos x + n) (with_fref (f_refcount x + 1) x)]> (files s2) = <[f := with_pos (f_pos x + n) (with_fref (f_refcount x + 1) x)]> (files s)) as E3.
  { rewrite Ef. cbn. by rewrite insert_insert_eq. }
  assert (forall r : Z, r = (if n =? 0 then 0 else SIZEOF_DIRENT) -> (fput f ;;; if n =? 0 then mret_ (0, buf) else mret_ (SIZEOF_DIRENT, buf)) = (fput f ;;; mret_ (r, buf))) as Er.
  { intros r ->. by destruct (n =? 0). }
  rewrite (Er _ eq_refl). eapply (finish_wp ext extf s _ f x (f_pos x + n)); [done|exact I3|done|done|exact E3|]. by apply HQ.
Qed.

(** ** Opening and closing *)
Lemma nfiles_same m f x y v : m !! f = Some x -> f_vnode y = f_vnode x -> nfiles (<[f := y]> m) v = nfiles m v.
Proof. intros Hf E. rewrite (nfiles_update m f x) by done. rewrite E. lia. Qed.
Lemma elem_insert_fd (l : list Z) i g h : h ∈ <[i := g]> l -> h = g \/ h ∈ l.
Proof.
  rewrite list_elem_of_lookup. intros [j Hj]. destruct (decide (i = j)) as [->|].
  - apply list_lookup_insert_Some in Hj as [(_ & <- & _)|[? ?]]; [by left|done].
  - rewrite list_lookup_insert_ne in Hj by done. right. by eapply list_elem_of_lookup_2.
Qed.
(** A file loses a descriptor: clearing the descriptor after [fput]. *)
Lemma drop_fd_wp ext extf s i f Q : sinv ext extf s -> p_files s !! i = Some f -> f <> 0 ->
  (forall s', sinv ext extf s' -> p_files s' = <[i := 0]> (p_files s) ->
     (forall g x, g <> f -> files s' !! g = Some x <-> files s !! g = Some x) ->
     (forall x, files s !! f = Some x -> f_refcount x = 1 \/ files s' !! f = Some (with_fref (f_refcount x - 1) x)) -> Q tt s') ->
  wp (fput f ;;; mput (upd_fds (<[i := 0]>))) s Q.
Proof.
  intros I Hi H0 HQ. destruct (i_fd _ _ _ I f) as [|[x Hx]]; [by eapply list_elem_of_lookup_2|done|].
  destruct (i_file _ _ _ I f x Hx) as (_ & Hv & Hp & Hr). pose proof (sinv_vnode _ _ _ _ _ I Hx) as Ha.
  assert (forall h, h <> 0 -> nfds (<[i := 0]> (p_files s)) h = nfds (p_files s) h - ind f h) as Hn.
  { intros h Hh. rewrite (nfds_update _ i f) by done. rewrite (ind_other 0 h) by done. lia. }
  wp_step. eapply fput_wp; [apply I|done|done|by right| |].
  - intros Hgt. wp_step. apply HQ; [|done| |].
    + eapply (sinv_step _ _ s s _ (fun _ => 0)); [done|apply I|apply vrel_refl|done..|cbn; by rewrite length_insert|done|done| | |]; cbn.
      * intros v _. rewrite (nfiles_same _ f x) by done. lia.
      * intros g z [[<- <-]|[Hne Hz]]%lookup_insert_Some; cbn.
        -- rewrite Hn, ind_same by done. split_and!; try done; lia.
        -- destruct (i_file _ _ _ I g z Hz) as (B1 & B2 & B3 & B4). rewrite Hn, ind_other by done. split_and!; try done; lia.
      * intros g [-> |Hg]%elem_insert_fd; [by left|]. destruct (decide (g = f)) as [->|]; [rewrite lookup_insert_eq; eauto|rewrite lookup_insert_ne by done; by apply I].
    + intros g z Hg. cbn. by rewrite lookup_insert_ne.
    + intros z Hz. simplify_eq. right. cbn. by rewrite lookup_insert_eq.
  - intros s1 H1 K1 R1. rewrite (proj2 (Z.eqb_neq _ _) Hv) in R1. wp_step. pose proof R1 as [_ _ E1 E2 E3 E4].
    assert (nfds (p_files s) f = 1 /\ extf f = 0) as [Hn1 He1] by (pose proof (nfds_pos _ _ _ Hi); pose proof (i_ext _ _ _ I f); lia).
    apply HQ; [|cbn; by rewrite E2| |].
    + eapply (sinv_step _ _ s s1 _ _); [done|done|exact R1|done..|cbn; by rewrite length_insert, E2|done|done| | |]; cbn; rewrite ?E1, ?E2.
      * intros v _. rewrite (nfiles_delete _ f x) by done. lia.
      * intros g z [Hne Hz]%lookup_delete_Some. destruct (i_file _ _ _ I g z Hz) as (B1 & B2 & B3 & B4).
        rewrite Hn, ind_other by done. split_and!; try done; lia.
      * intros g Hg. destruct (decide (g = 0)) as [->|Hg0]; [by left|right]. destruct (elem_insert_fd _ _ _ _ Hg) as [|Hg']; [done|].
        destruct (decide (g = f)) as [->|]; [|rewrite lookup_delete_ne by done; destruct (i_fd _ _ _ I g Hg'); done].
        exfalso. apply list_elem_of_lookup in Hg as [j Hj]. pose proof (nfds_pos _ _ _ Hj) as Hpos. rewrite Hn, ind_same in Hpos by done. lia.
    + intros g z Hg. cbn. by rewrite lookup_delete_ne, E1 by done.
    + intros z Hz. simplify_eq. by left.
Qed.

(** A descriptor is given a file to which a reference is held. *)
Lemma install_fd ext extf s i f : sinv ext (fun g => extf g + ind f g) s -> (forall g, 0 <= extf g) ->
  p_files s !! i = Some 0 -> f <> 0 -> is_Some (files s !! f) -> sinv ext extf (upd_fds (<[i := f]>) s).
Proof.
  intros I H0 Hi Hf Hx. destruct I as [I1 I2 I3 I4 I5 I6 I7 I8]. split; cbn; try done.
  - by apply (vn_ok_frame s).
  - by rewrite length_insert.
  - intros v. split; [apply I4|done].
  - intros g z Hz. destruct (I5 g z Hz) as (A1 & A2 & A3 & A4). rewrite (nfds_update _ i 0), (ind_other 0 g) by done. split_and!; try done. lia.
  - intros g [-> |Hg]%elem_insert_fd; auto.
Qed.

Lemma empty_from_spec l : forall fd,
  match empty_from fd l with
  | Some r => exists i, r = fd + Z.of_nat i /\ l !! i = Some 0 /\ forall j, (j < i)%nat -> l !! j <> Some 0
  | None => 0 ∉ l
  end.
Proof.
  induction l as [|f l IH]; intros fd; cbn; [apply not_elem_of_nil|]. destruct (Z.eqb_spec f 0) as [->|Hf].
  - exists 0%nat. cbn. split_and!; [lia|done|]. intros j Hj. lia.
  - specialize (IH (fd + 1)). destruct (empty_from _ l) as [r|].
    + destruct IH as (i & -> & Hi & Hm). exists (S i). cbn. split_and!; [lia|done|]. intros [|j] Hj; cbn; [congruence|apply Hm; lia].
    + rewrite not_elem_of_cons. done.
Qed.
(** The lowest descriptor that is not in use. *)
Definition lowest_free s (fd : Z) : Prop :=
  0 <= fd < NFILES /\ p_files s !! Z.to_nat fd = Some 0 /\ forall i, (i < Z.to_nat fd)%nat -> p_files s !! i <> Some 0.
Lemma lowest_free_unique s fd fd' : lowest_free s fd -> lowest_free s fd' -> fd = fd'.
Proof.
  intros (H1 & H2 & H3) (H1' & H2' & H3'). destruct (Z.lt_trichotomy fd fd') as [H|[H|H]]; [|done|].
  - by destruct (H3' (Z.to_nat fd)); [lia|].
  - by destruct (H3 (Z.to_nat fd')); [lia|].
Qed.
Lemma get_empty_fd_wp s Q : length (p_files s) = Z.to_nat NFILES ->
  (forall fd, lowest_free s fd -> Q fd s) -> (0 ∉ p_files s -> Q (- EMFILE) s) -> wp get_empty_fd s Q.
Proof.
  intros Hlen HQ HN. unfold get_empty_fd. wp_step. wp_step. wp_step. rewrite take_ge by lia.
  pose proof (empty_from_spec (p_files s) 0) as H. destruct (empty_from 0 (p_files s)) as [r|]; [|by apply HN].
  destruct H as (i & -> & Hi & Hm). cbn [default from_option]. unfold id. apply HQ. split; [|by rewrite Z.add_0_l, Nat2Z.id].
  apply lookup_lt_Some in Hi. lia.
Qed.

Lemma do_close_wp ext extf s fd f Q : sinv ext extf s -> fd_file s fd = Some f ->
  (forall s', sinv ext extf s' -> p_files s' = <[Z.to_nat fd := 0]> (p_files s) ->
     (forall g x, g <> f -> files s' !! g = Some x <-> files s !! g = Some x) -> Q 0 s') -> wp (do_close fd) s Q.
Proof.
  intros I Hfd HQ. unfold do_close. wp_step. apply bad_fd_wp. rewrite Hfd, bool_decide_eq_false_2 by done.
  destruct (fd_file_some _ _ _ Hfd) as (Hr & Hl & H0). wp_step. wp_step. rewrite Hl. cbn [default from_option]. unfold id, set_fd.
  assert (wp (fput f ;;; mput (upd_fds (<[Z.to_nat fd := 0]>))) s (fun _ s' => Q 0 s')) as H by (eapply drop_fd_wp; eauto).
  unfold wp in *. unfold mbind_ in *. by destruct (fput f s) as [[[] s1]|].
Qed.
(** [do_close] of an open descriptor clears it and drops its reference to
    the open file, which is freed with its reference to the vnode when this
    was the last descriptor; a bad descriptor gives [-EBADF] and changes
    nothing. *)
Theorem do_close_correct ext extf s fd : sinv ext extf s ->
  exists r s', do_close fd s = Ok (r, s') /\ sinv ext extf s' /\
    match fd_file s fd with
    | None => r = - EBADF /\ s' = s
    | Some f => r = 0 /\ p_files s' = <[Z.to_nat fd := 0]> (p_files s) /\ fd_file s' fd = None /\
        forall g x, g <> f -> files s' !! g = Some x <-> files s !! g = Some x
    end.
Proof.
  intros I. apply wp_ok. destruct (fd_file s fd) as [f|] eqn:Hfd.
  - eapply do_close_wp; [done..|]. intros s' I' Ep Ho. split; [done|]. split; [done|]. split; [done|]. split; [|done].
    destruct (fd_file_some _ _ _ Hfd) as (Hr & Hl & _). unfold fd_file. rewrite Ep. case_match; [done|].
    by rewrite list_lookup_insert_eq by (by eapply lookup_lt_Some).
  - unfold do_close. wp_step. apply bad_fd_wp. rewrite Hfd, bool_decide_eq_true_2 by done. by wp_step.
Qed.

(** [do_dup] gives the open file of a descriptor a second descriptor, the
    lowest free one; [-EBADF] for a bad descriptor and [-EMFILE] when all are
    in use leave everything as it was. *)
Theorem do_dup_correct ext extf s fd : sinv ext extf s ->
  exists r s', do_dup fd s = Ok (r, s') /\ sinv ext extf s' /\
    match fd_file s fd with
    | None => r = - EBADF /\ s' = s
    | Some f => (lowest_free s r /\ p_files s' = <[Z.to_nat r := f]> (p_files s)) \/
        (0 ∉ p_files s /\ r = - EMFILE /\ p_files s' = p_files s /\ files s' = files s)
    end.
Proof.
  intros I. apply wp_ok. unfold do_dup. wp_step. apply bad_fd_wp.
  destruct (fd_file s fd) as [f|] eqn:Hfd; [rewrite bool_decide_eq_false_2 by done|rewrite bool_decide_eq_true_2 by done; by wp_step].
  destruct (fd_file_some _ _ _ Hfd) as (Hr & Hl & H0). pose proof (fd_file_in _ _ _ Hfd) as Hin.
  wp_step. eapply fget_wp; [done..|]. intros x Hx Hv0 Ha I1. set (s1 := upd_files _ s) in *.
  wp_step. apply get_empty_fd_wp; [apply I|intros r Hlow|intros Hno].
  - rewrite (proj2 (Z.ltb_ge _ _)) by apply Hlow. unfold set_fd. wp_step. wp_step. wp_step. split; [|by left].
    apply install_fd; [done|apply I|apply Hlow|done|]. cbn. rewrite lookup_insert_eq. eauto.
  - epos EMFILE. rewrite (proj2 (Z.ltb_lt _ _)) by lia.
    eapply (finish_wp ext extf s s1 f x (f_pos x)); [done..|]. intros s' I' [E1 E2]. split; [done|right].
    rewrite with_pos_same, insert_id in E1 by done. done.
Qed.

(** [do_dup2] makes the second descriptor one of the first's open file,
    closing what it was before; equal descriptors change nothing; a bad first
    descriptor or a second one out of range gives [-EBADF]. *)
Theorem do_dup2_correct ext extf s ofd nfd : sinv ext extf s ->
  exists r s', do_dup2 ofd nfd s = Ok (r, s') /\ sinv ext extf s' /\
    match fd_file s ofd with
    | Some f =>
        if (nfd <? 0) || (NFILES <=? nfd) then r = - EBADF /\ s' = s
        else r = nfd /\ p_files s' = <[Z.to_nat nfd := f]> (p_files s) /\
          (ofd = nfd -> p_files s' = p_files s /\ files s' = files s)
    | None => r = - EBADF /\ s' = s
    end.
Proof.
  intros I. apply wp_ok. unfold do_dup2. wp_step. apply bad_fd_wp.
  destruct (fd_file s ofd) as [f|] eqn:Hfd; [rewrite bool_decide_eq_false_2 by done|rewrite bool_decide_eq_true_2 by done; cbn [orb]; by wp_step].
  cbn [orb]. destruct ((nfd <? 0) || (NFILES <=? nfd)) eqn:Hrg; [by wp_step|].
  apply orb_false_iff in Hrg as [Hr1%Z.ltb_ge Hr2%Z.leb_gt]. destruct (fd_file_some _ _ _ Hfd) as (Hr & Hl & H0).
  pose proof (fd_file_in _ _ _ Hfd) as Hin. wp_step. eapply fget_wp; [done..|]. intros x Hx Hv0 Ha I1. set (s1 := upd_files _ s) in *.
  wp_step. wp_step. unfold set_fd. destruct (Z.eqb_spec nfd ofd) as [->|Hne].
  - rewrite andb_false_r. wp_step. wp_step. wp_step. wp_step. assert (upd_fds (<[Z.to_nat ofd := f]>) s1 = s1) as -> by (unfold upd_fds, s1; cbn; by rewrite list_insert_id).
    change (wp (fput f ;;; mret_ ofd) s1 (fun a s' => sinv ext extf s' /\ a = ofd /\ p_files s' = <[Z.to_nat ofd := f]> (p_files s) /\ (ofd = ofd -> p_files s' = p_files s /\ files s' = files s))).
    eapply (finish_wp ext extf s s1 f x (f_pos x)); [done..|]. intros s' I' [E1 E2]. split; [done|]. split; [done|].
    rewrite E2, list_insert_id by done. split; [done|]. intros _. split; [done|]. by rewrite with_pos_same, insert_id in E1.
  - rewrite andb_true_r. cbn [s1 upd_files p_files]. change (p_files s1) with (p_files s).
    destruct (p_files s !! Z.to_nat nfd) as [g|] eqn:Hg; [|apply lookup_ge_None in Hg; rewrite (i_len _ _ _ I) in Hg; lia].
    cbn [default from_option]. unfold id. set (P := fun (a : Z) s' => _ /\ _).
    assert (forall s2, sinv ext (fun g => extf g + ind f g) s2 -> p_files s2 = <[Z.to_nat nfd := 0]> (p_files s) -> is_Some (files s2 !! f) ->
      P nfd (upd_fds (<[Z.to_nat nfd := f]>) s2)) as HQ.
    { intros s2 I2 Ep Hs2. split; [|split; [done|]; split; [cbn; by rewrite Ep, list_insert_insert_eq|by intros ->]].
      apply install_fd; [done|apply I| |done|done]. rewrite Ep, list_lookup_insert_eq by (by eapply lookup_lt_Some). done. }
    destruct (Z.eqb_spec g 0) as [->|Hg0]; cbn [negb].
    + wp_step. wp_step. wp_step. wp_step. wp_step. wp_step. wp_step. apply HQ; [done| |cbn; rewrite lookup_insert_eq; eauto]. cbn. by rewrite list_insert_id.
    + assert (fd_file s1 nfd = Some g) as Hfd2.
      { unfold fd_file. change (p_files s1) with (p_files s). rewrite Hg, (proj2 (Z.ltb_ge _ _)), (proj2 (Z.leb_gt _ _)), (proj2 (Z.eqb_neq _ _)) by (done || lia). done. }
      wp_step. wp_step. eapply do_close_wp; [exact I1|done|]. intros s2 I2 Ep _. wp_step. wp_step. wp_step. wp_step. wp_step. wp_step.
      apply HQ; [done|done|]. destruct (i_fd _ _ _ I2 f) as [|]; [|done|done]. rewrite Ep.
      eapply (list_elem_of_lookup_2 _ (Z.to_nat ofd)). rewrite list_lookup_insert_ne by lia. done.
Qed.

(** The new position [lseek] asks for. *)
Definition seek_target (pos len offset whence : Z) : option Z :=
  if whence =? SEEK_SET then Some offset
  else if whence =? SEEK_CUR then Some (pos + offset)
  else if whence =? SEEK_END then Some (offset + len)
  else None.
Definition seek_ok (pos len offset whence : Z) : Prop :=
  match seek_target pos len offset whence with Some n => in_int n = true | None => True end.
Definition seek_pos (pos len offset whence : Z) : option Z :=
  match seek_target pos len offset whence with Some n => if n <? 0 then None else Some n | None => None end.

Lemma do_lseek_wp ext extf s fd f x y offset whence Q : sinv ext extf s -> fd_file s fd = Some f ->
  files s !! f = Some x -> vnodes s !! f_vnode x = Some y -> seek_ok (f_pos x) (vn_len y) offset whence ->
  (forall s', sinv ext extf s' -> moved s s' f x (default (f_pos x) (seek_pos (f_pos x) (vn_len y) offset whence)) ->
     vnodes s' = vnodes s -> disk s' = disk s -> Q (default (- EINVAL) (seek_pos (f_pos x) (vn_len y) offset whence)) s') -> wp (do_lseek fd offset whence) s Q.
Proof.
  intros I Hfd Hx Hy Hok HQ. destruct (fd_file_some _ _ _ Hfd) as (Hr & Hl & H0). pose proof (fd_file_in _ _ _ Hfd) as Hin.
  unfold do_lseek. rewrite (proj2 (Z.ltb_ge _ _)) by lia. wp_step. eapply fget_wp; [done..|]. intros x' Hx' Hv0 Ha I1. simplify_eq.
  rewrite (proj2 (Z.eqb_neq _ _) H0). set (s1 := upd_files _ s) in *. wp_step. eapply load_file_wp; [apply lookup_insert_eq|].
  cbn [f_vnode f_pos with_fref]. wp_step. eapply load_vn_wp; [exact Hy|]. cbv zeta. wp_step.
  assert (forall n, wp (store_file f (with_pos n) ;;; mret_ true) s1 (fun r s2 => r = true /\ s2 = upd_files (<[f := with_pos n (with_fref (f_refcount x + 1) x)]>) s)) as Hst.
  { intros n. wp_step. eapply store_file_wp; [apply lookup_insert_eq|]. wp_step. split; [done|]. unfold upd_files, s1. cbn. by rewrite insert_insert_eq. }
  unfold seek_ok, seek_pos, seek_target in *.
  eapply (wp_mono _ _ (fun r s2 => (r = true /\ exists n, (if whence =? SEEK_SET then Some offset else if whence =? SEEK_CUR then Some (f_pos x + offset)
     else if whence =? SEEK_END then Some (offset + vn_len y) else None) = Some n /\ 0 <= n /\ s2 = upd_files (<[f := with_pos n (with_fref (f_refcount x + 1) x)]>) s) \/
     (r = false /\ (forall n, (if whence =? SEEK_SET then Some offset else if whence =? SEEK_CUR then Some (f_pos x + offset)
     else if whence =? SEEK_END then Some (offset + vn_len y) else None) = Some n -> n < 0) /\ s2 = s1))).
  { destruct (whence =? SEEK_SET); [|destruct (whence =? SEEK_CUR); [|destruct (whence =? SEEK_END)]].
    - destruct (Z.ltb_spec offset 0); [wp_step; right; naive_solver|]. eapply wp_mono; [apply Hst|]. intros r s2 [-> ->]. left. eauto.
    - wp_step. wp_step; [done|]. destruct (Z.ltb_spec (f_pos x + offset) 0); [wp_step; right; naive_solver|]. eapply wp_mono; [apply Hst|]. intros r s2 [-> ->]. left. eauto.
    - wp_step. wp_step; [done|]. destruct (Z.ltb_spec (offset + vn_len y) 0); [wp_step; right; naive_solver|]. rewrite (Z.add_comm (vn_len y)). eapply wp_mono; [apply Hst|]. intros r s2 [-> ->]. left. eauto.
    - wp_step. right. naive_solver. }
  intros r s2 Hcase. set (t := (if whence =? SEEK_SET then _ else _) : option Z) in *.
  assert (exists pos, files s2 = <[f := with_pos pos (with_fref (f_refcount x + 1) x)]> (files s) /\ sinv ext (fun g => extf g + ind f g) s2 /\ p_files s2 = p_files s /\
    vnodes s2 = vnodes s /\ disk s2 = disk s /\ pos = default (f_pos x) (match t with Some n => if n <? 0 then None else Some n | None => None end) /\
    (if r then pos else - EINVAL) = default (- EINVAL) (match t with Some n => if n <? 0 then None else Some n | None => None end)) as (pos & E1 & I2 & E2 & E3 & E4 & E5 & E6).
  { destruct Hcase as [(-> & n & -> & Hn & ->)|(-> & Hn & ->)].
    - exists n. rewrite (proj2 (Z.ltb_ge n 0)) by lia. split_and!; [done| |done..].
      replace (upd_files _ s) with (upd_files (<[f := with_pos n (with_fref (f_refcount x + 1) x)]>) s1) by (unfold upd_files, s1; cbn; by rewrite insert_insert_eq).
      eapply sinv_file; [exact I1|apply lookup_insert_eq|done|cbn; pose proof (i_file _ _ _ I f x Hx) as (_ & _ & ? & _); lia|intros; apply I1|cbn; lia|done].
    - exists (f_pos x). assert ((match t with Some n => if n <? 0 then None else Some n | None => None end) = None) as ->; [|done].
      destruct t as [n|]; [|done]. rewrite (proj2 (Z.ltb_lt n 0)); [done|by apply Hn]. }
  wp_step. eapply fput_fd_wp; [exact I2|apply I|by rewrite E1, lookup_insert_eq|by rewrite E2|]. intros I3.
  assert (moved s (upd_files (<[f := with_fref (f_refcount x + 1 - 1) (with_pos pos (with_fref (f_refcount x + 1) x))]>) s2) f x pos) as Hm.
  { split; [|done]. cbn. rewrite E1, insert_insert_eq. f_equal. unfold with_fref, with_pos. cbn. f_equal. lia. }
  specialize (HQ _ I3). rewrite <- E5, <- E6 in HQ. specialize (HQ Hm E3 E4).
  destruct r; [|by wp_step]. wp_step. eapply load_file_wp; [apply lookup_insert_eq|]. by wp_step.
Qed.

(** [do_lseek] sets the position of the open file to the offset, the
    offset from the current position or from the end of the file, and returns
    it; a negative position or another [whence] gives [-EINVAL] and leaves
    the position, a bad descriptor (also one beyond the table) [-EBADF]. *)
Theorem do_lseek_correct ext extf s fd offset whence : sinv ext extf s ->
  (forall f x y, fd_file s fd = Some f -> files s !! f = Some x -> vnodes s !! f_vnode x = Some y -> seek_ok (f_pos x) (vn_len y) offset whence) ->
  exists r s', do_lseek fd offset whence s = Ok (r, s') /\ sinv ext extf s' /\
    match fd_file s fd with
    | None => r = - EBADF /\ s' = s
    | Some f => exists x y, files s !! f = Some x /\ vnodes s !! f_vnode x = Some y /\
        r = default (- EINVAL) (seek_pos (f_pos x) (vn_len y) offset whence) /\
        moved s s' f x (default (f_pos x) (seek_pos (f_pos x) (vn_len y) offset whence))
    end.
Proof.
  intros I Hok. apply wp_ok. destruct (fd_file s fd) as [f|] eqn:Hfd.
  - pose proof (fd_file_in _ _ _ Hfd) as Hin. destruct (fd_file_some _ _ _ Hfd) as (_ & _ & H0).
    destruct (i_fd _ _ _ I f Hin) as [|[x Hx]]; [done|]. destruct (act_pos_some _ _ (sinv_vnode _ _ _ _ _ I Hx)) as [y Hy].
    eapply do_lseek_wp; [done..|by eapply Hok|]. intros s' I' Hm _ _. split; [done|]. exists x, y. done.
  - unfold do_lseek. destruct (Z.ltb_spec fd 0); [by wp_step|]. wp_step. unfold wp. rewrite fget_none; [|done|].
    + cbn [Z.eqb]. done.
    + unfold fd_file in Hfd. destruct (p_files s !! Z.to_nat fd) as [f|] eqn:E; [|done]. cbn. unfold id.
      rewrite (proj2 (Z.ltb_ge _ _)), (proj2 (Z.leb_gt _ _)) in Hfd by (done || apply lookup_lt_Some in E; rewrite (i_len _ _ _ I) in E; lia).
      cbn [orb] in Hfd. by destruct (Z.eqb_spec f 0).
Qed.

(** Where a write goes: the end of the file in append mode. *)
Definition write_pos (x : file) (y : vnode) : Z :=
  if Z.land (f_mode x) FMODE_APPEND =? 0 then f_pos x else vn_len y.

Definition write_result s s' (fd r : Z) : Prop :=
  match fd_file s fd with
  | None => r = - EBADF /\ s' = s
  | Some f => exists x y, files s !! f = Some x /\ vnodes s !! f_vnode x = Some y /\
      if Z.land (f_mode x) (Z.lor FMODE_WRITE FMODE_APPEND) =? 0 then r = - EBADF /\ moved s s' f x (f_pos x)
      else 0 <= r /\ moved s s' f x (write_pos x y + r) /\
        exists y', vnodes s' !! f_vnode x = Some y' /\ same_vnode y y' /\ write_pos x y + r <= vn_len y'
  end.

(** The seek to the end in append mode. *)
Lemma append_wp ext extf s fd f x y Q : sinv ext extf s -> fd_file s fd = Some f -> files s !! f = Some x ->
  vnodes s !! f_vnode x = Some y -> 0 <= vn_len y <= INT_MAX ->
  (forall s2, sinv ext extf s2 -> moved s s2 f x (write_pos x y) -> vnodes s2 = vnodes s -> Q tt s2) ->
  wp (if negb (Z.land (f_mode x) FMODE_APPEND =? 0) then let! _ := do_lseek fd 0 SEEK_END in mret_ tt else mret_ tt) s Q.
Proof.
  intros I Hfd Hx Hy Hlen HQ. unfold write_pos in HQ. destruct (Z.eqb_spec (Z.land (f_mode x) FMODE_APPEND) 0) as [Ea|Ea]; cbn [negb].
  - wp_step. apply HQ; [done| |done]. split; [|done]. by rewrite with_pos_same, insert_id.
  - destruct seek_distinct as (D1 & D2 & D3). pose proof (Z.eqb_neq SEEK_END SEEK_SET) as B1. pose proof (Z.eqb_neq SEEK_END SEEK_CUR) as B2.
    wp_step. eapply (do_lseek_wp ext _ s fd f x y); [done..| |]; unfold seek_ok, seek_pos, seek_target;
      rewrite (proj2 B1), (proj2 B2), Z.eqb_refl, Z.add_0_l by congruence.
    + unfold in_int. unfold INT_MAX, INT_MIN in *. zbool.
    + intros s2 I2 Hm E1 _. wp_step. rewrite (proj2 (Z.ltb_ge _ _)) in Hm by lia. auto.
Qed.
(** The write of the file system. *)
Lemma call_write_wp s v y pos buf Q : vn_ok s -> vnodes s !! v = Some y -> 0 < act s v -> has_op y Vwrite = true -> S_ISREG (vn_mode y) = true ->
  (forall k s1 w s2, vn_ops y = FsVops k -> fs_write k v pos buf s1 = Ok (w, s2) -> 0 <= w) ->
  (forall w s' y', 0 <= w -> vn_ok s' -> vrel s s' (fun _ => 0) -> vnodes s' !! v = Some y' -> same_vnode y y' -> pos + w <= vn_len y' -> Q w s') ->
  wp (call_write v pos buf) s Q.
Proof.
  intros K Hy Ha Hop Hreg Hfs HQ. unfold call_write. wp_step. eapply load_vn_wp; [done|]. wp_step. wp_step; [done|].
  destruct (v_inode _ K _ _ Hy) as [Eo Emd]. unfold ino_vops in Eo. rewrite <- Emd in Eo.
  destruct (vn_ops y) as [k| |] eqn:Ek.
  2:{ destruct (S_ISCHR (vn_mode y)) eqn:Ec; [destruct (stat_chr _ Ec) as (_ & _ & ?); congruence|by destruct (S_ISBLK (vn_mode y))]. }
  2:{ unfold has_op in Hop. by rewrite Ek in Hop. }
  assert (fs_has k Vwrite = true) as Hk by (unfold has_op in Hop; by rewrite Ek in Hop).
  pose proof (fs_write_law k v y pos buf s K Hy Ha Ek Hk) as (w & s3 & Ew & K3 & R3 & Hl)%wp_ok.
  specialize (Hfs k s w s3 eq_refl Ew). destruct (Hl Hfs) as (y3 & Hy3 & Hle). unfold wp. rewrite Ew.
  assert (0 < act s3 v) as Ha3 by (rewrite (r_act _ _ _ R3); lia).
  destruct (r_same _ _ _ R3 _ y Hy Ha Ha3) as (y3' & Hy3' & Es). rewrite Hy3 in Hy3'. injection Hy3' as <-. by eapply HQ.
Qed.

(** C39: [do_write] to a regular file writes at the file's position, or at the
    end of the file in append mode, and moves the position behind what was
    written, which the length of the file then covers; a bad descriptor or a
    file not open for writing gives [-EBADF].  The reference to the open file
    is given back.  (The write of the file system must not fail, as its error
    code is added to the position.) *)
Theorem do_write_correct ext extf s fd buf : sinv ext extf s ->
  (forall f x y, fd_file s fd = Some f -> files s !! f = Some x -> vnodes s !! f_vnode x = Some y ->
     0 <= vn_len y <= INT_MAX /\ S_ISREG (vn_mode y) = true /\ has_op y Vwrite = true /\
     forall k s1 w s2, vn_ops y = FsVops k -> fs_write k (f_vnode x) (write_pos x y) buf s1 = Ok (w, s2) -> 0 <= w) ->
  exists r s', do_write fd buf s = Ok (r, s') /\ sinv ext extf s' /\ write_result s s' fd r.
Proof.
  intros I Hw. apply wp_ok. unfold do_write, write_result. wp_step. apply bad_fd_wp.
  destruct (fd_file s fd) as [f|] eqn:Hfd; [rewrite bool_decide_eq_false_2 by done|rewrite bool_decide_eq_true_2 by done; by wp_step].
  wp_step. eapply fget_wp; [done..|]. intros x Hx Hv0 Ha I1. destruct (act_pos_some _ _ Ha) as [y Hy].
  destruct (Hw f x y eq_refl Hx Hy) as (Hlen & Hreg & Hop & Hfs). pose proof (fd_file_in _ _ _ Hfd) as Hin.
  set (x1 := with_fref (f_refcount x + 1) x) in *. set (s1 := upd_files _ s) in *.
  wp_step. eapply load_file_wp; [apply lookup_insert_eq|]. change (f_mode x1) with (f_mode x).
  destruct (Z.eqb_spec (Z.land (f_mode x) (Z.lor FMODE_WRITE FMODE_APPEND)) 0) as [Em|Em].
  { eapply (finish_wp ext extf s s1 f x (f_pos x)); [done..|]. intros s' I' Hm. split; [done|]. exists x, y. by rewrite Em. }
  change (f_mode x) with (f_mode x1). wp_step. eapply (append_wp ext _ s1 fd f x1 y); [exact I1|done|apply lookup_insert_eq|exact Hy|done|].
  intros s2 I2 [Ef Ep] Ev. change (write_pos x1 y) with (write_pos x y) in Ef.
  wp_step. eapply load_file_wp; [by rewrite Ef, lookup_insert_eq|]. cbn [f_vnode f_pos with_pos x1 with_fref].
  wp_step. eapply (call_write_wp s2 (f_vnode x) y); [apply I2|by rewrite Ev|unfold act in *; by rewrite Ev|done..|].
  intros w s3 y3 Hw0 K3 R3 Hy3 Es Hle. pose proof (sinv_neutral _ _ _ _ I2 K3 R3) as I3.
  assert (files s3 = files s2) as Ef3 by apply R3. assert (p_files s3 = p_files s) as Ep3 by (etrans; [apply R3|exact Ep]).
  assert (files s3 !! f = Some (with_pos (write_pos x y) x1)) as Hf3 by (by rewrite Ef3, Ef, lookup_insert_eq).
  wp_step. eapply store_file_wp; [done|]. wp_step. eapply load_file_wp; [apply lookup_insert_eq|]. wp_step. eapply load_vn_wp; [exact Hy3|].
  cbn [f_pos with_pos x1 with_fref]. wp_step. wp_step; [destruct Es as (_ & _ & _ & -> & _); rewrite Hreg; zbool; right; zbool|].
  wp_step. eapply fput_fd_wp; [|apply I|apply lookup_insert_eq|change (f ∈ p_files s3); by rewrite Ep3|].
  - eapply sinv_file; [exact I3|done|done| |intros; apply I1|cbn; lia|done]. cbn. pose proof (i_file _ _ _ I f x Hx) as (_ & _ & ? & _). lia.
  - intros I4. wp_step. split; [done|]. exists x, y. rewrite (proj2 (Z.eqb_neq _ _) Em). split_and!; [done..| |exists y3; done].
    split; [|done]. cbn. rewrite Ef3, Ef. cbn. rewrite !insert_insert_eq. f_equal. unfold with_fref, with_pos. cbn. f_equal. lia.
Qed.

(** ** [do_open] *)
(** The state while the path is resolved: the new open file has its
    descriptor and mode but no vnode yet. *)
Definition opening s (i : nat) (f m : Z) : vfs :=
  upd_files (<[f := mkFile 0 m 1 0]>) (upd_fds (<[i := f]>) s).
(** The files and descriptors of [s] with the vnodes of [s1]. *)
Definition restored s s1 : vfs := upd_files (fun _ => files s) (upd_fds (fun _ => p_files s) s1).
Lemma restored_rel s s1 i f m dl : vrel (opening s i f m) s1 dl -> vrel s (restored s s1) dl.
Proof. intros [A B C D E F]. split; [exact A|exact B|done|done|exact E|exact F]. Qed.
Lemma restored_ok s s1 : vn_ok s1 -> vn_ok (restored s s1).
Proof. by apply vn_ok_frame. Qed.

(** Undoing the first steps after an error. *)
Lemma open_abort_wp ext extf s s1 fd f m (code : Z) Q : sinv ext extf s -> lowest_free s fd -> files s !! f = None ->
  vn_ok s1 -> vrel (opening s (Z.to_nat fd) f m) s1 (fun _ => 0) ->
  (forall s', sinv ext extf s' -> files s' = files s -> p_files s' = p_files s -> Q code s') ->
  wp (fput f ;;; set_fd fd 0 ;;; mret_ code) s1 Q.
Proof.
  intros I (Hr & Hl & _) Hf K1 R1 HQ. assert (files s1 !! f = Some (mkFile 0 m 1 0)) as Hf1 by (rewrite (r_files _ _ _ R1); apply lookup_insert_eq).
  wp_step. eapply fput_wp; [done|exact Hf1|done|by left|cbn; lia|]. intros s2 _ K2 R2. cbn [f_vnode Z.eqb] in R2. unfold set_fd. wp_step. wp_step. wp_step.
  assert (vrel (opening s (Z.to_nat fd) f m) s2 (fun _ => 0)) as R by (eapply vrel_trans; [exact R1|exact R2|left; intros; cbn beta; lia|intros; cbn beta; lia]).
  assert (delete f (files s2) = files s) as E1 by (rewrite (r_files _ _ _ R); cbn; by rewrite delete_insert_eq, delete_id).
  assert (<[Z.to_nat fd := 0]> (p_files s2) = p_files s) as E2.
  { rewrite (r_fds _ _ _ R). cbn. rewrite list_insert_insert_eq. by apply list_insert_id. }
  apply HQ; [|exact E1|exact E2].
  eapply (sinv_step _ _ s (restored s s2) _ (fun _ => 0)); [done|by apply restored_ok|by eapply restored_rel|done..| | | | | |]; cbn; rewrite ?E1, ?E2.
  - done.
  - apply R.
  - apply R.
  - intros; lia.
  - apply I.
  - apply I.
Qed.

(** The new file gets the vnode. *)
Lemma open_install ext extf s s1 fd f m v : sinv ext extf s -> lowest_free s fd -> f <> 0 -> files s !! f = None ->
  vn_ok s1 -> vrel (opening s (Z.to_nat fd) f m) s1 (ind v) -> v <> 0 ->
  extf f = 0 -> sinv ext extf (upd_files (<[f := mkFile 0 m 1 v]>) s1).
Proof.
  intros I (Hr & Hl & _) H0 Hf K1 R1 Hv He. assert (<[f := mkFile 0 m 1 v]> (files s1) = <[f := mkFile 0 m 1 v]> (files s)) as E1.
  { rewrite (r_files _ _ _ R1). cbn. by rewrite insert_insert_eq. }
  assert (p_files s1 = <[Z.to_nat fd := f]> (p_files s)) as E2 by apply R1.
  assert (forall h, h <> 0 -> nfds (<[Z.to_nat fd := f]> (p_files s)) h = nfds (p_files s) h + ind f h) as Hn.
  { intros h Hh. rewrite (nfds_update _ _ 0), (ind_other 0 h) by done. lia. }
  assert (nfds (p_files s) f = 0) as Hnf.
  { unfold nfds. destruct (base.filter (fun g => f = g) (p_files s)) as [|g l] eqn:E; [done|]. exfalso.
    assert (g ∈ base.filter (fun g => f = g) (p_files s)) as [<- Hg]%list_elem_of_filter by (rewrite E; by left).
    destruct (i_fd _ _ _ I f Hg) as [|[? ?]]; congruence. }
  eapply (sinv_step _ _ s (restored s s1) _ (ind v)); [done|by apply restored_ok|by eapply restored_rel|done..| | | | | |]; cbn; rewrite ?E1, ?E2.
  - by rewrite length_insert.
  - apply R1.
  - apply R1.
  - intros w _. by rewrite nfiles_insert.
  - intros g z [[<- <-]|[Hne Hz]]%lookup_insert_Some; cbn.
    + rewrite Hn, ind_same by done. split_and!; try done. lia.
    + destruct (i_file _ _ _ I g z Hz) as (B1 & B2 & B3 & B4). rewrite Hn, ind_other by done. split_and!; try done. lia.
  - intros g [-> |Hg]%elem_insert_fd; [right; rewrite lookup_insert_eq; eauto|].
    destruct (i_fd _ _ _ I g Hg) as [->|[z Hz]]; [by left|right]. rewrite lookup_insert_ne by congruence. eauto.
Qed.

Definition writes (oflags : Z) : bool := negb (Z.land oflags O_WRONLY =? 0) || negb (Z.land oflags O_RDWR =? 0).
(** The file that an open with O_CREAT creates: its directory and name. *)
Definition to_create s (p : list ascii) (oflags : Z) : option (Z * Z * list ascii) :=
  match vnodes s !! start s p 0 with
  | None => None
  | Some x =>
      if creating oflags then (fun e => (vn_fs x, e.1, e.2)) <$> missing_in (disk s) (vn_fs x) (vn_vno x) (comps p) else None
  end.

(** How [do_open] ends: no descriptor is left; an error of the path or of the
    file system's create, or a directory to be written, with everything as
    before; or the lowest free descriptor, with a new open file at position 0
    for the vnode of the path or of the file that create made. *)
Definition open_outcome s s' (p : list ascii) (oflags r : Z) : Prop :=
  (0 ∉ p_files s /\ r = - EMFILE /\ s' = s) \/
  (r < 0 /\ files s' = files s /\ p_files s' = p_files s /\
     match to_create s p oflags with
     | Some (fs, j, l) => exists v t', create_gave s fs j l r v t'
     | None => match path_of s p with inl e => r = - e | inr _ => writes oflags = true /\ r = - EISDIR end
     end) \/
  (lowest_free s r /\ exists f v y, files s !! f = None /\ files s' = <[f := mkFile 0 (open_mode oflags) 1 v]> (files s) /\
     p_files s' = <[Z.to_nat r := f]> (p_files s) /\ vnodes s' !! v = Some y /\
     match to_create s p oflags with
     | Some (fs, j, l) => vn_fs y = fs /\ S_ISREG (vn_mode y) = true /\
         exists t', create_gave s fs j l 0 v t' /\ dirent (disk t') fs j l = Some (vn_vno y)
     | None => path_of s p = inr (vn_fs y, vn_vno y)
     end /\
     S_ISDIR (vn_mode y) && writes oflags = false).

(** The state in which the path is resolved stores the same files. *)
Lemma create_gave_opening s i f m fs j l code r t' : create_gave (opening s i f m) fs j l code r t' -> create_gave s fs j l code r t'.
Proof. done. Qed.

Lemma do_open_wp ext extf s p oflags : sinv ext extf s -> dirs_full -> first_ok (comps p) -> fget (-1) s <> Ok (0, s) ->
  (forall f, files s !! f = None -> extf f = 0) -> negb (Z.land oflags O_WRONLY =? 0) && negb (Z.land oflags O_RDWR =? 0) = false ->
  wp (do_open p oflags) s (fun r s' => sinv ext extf s' /\ open_outcome s s' p oflags r).
Proof.
  intros I Hd Hf Hg Hx Eb. unfold do_open. rewrite Eb.
  wp_step. apply get_empty_fd_wp; [apply I|intros fd Hlow|intros Hno].
  2:{ epos EMFILE. rewrite (proj2 (Z.ltb_lt _ _)) by lia. wp_step. split; [done|by left]. }
  rewrite (proj2 (Z.ltb_ge _ _)) by apply Hlow. wp_step. destruct (fget_new s) as [|(f & Hf0 & Hfn & Ef)]; [done|]. unfold wp. rewrite Ef.
  match goal with |- match ?m ?t with _ => _ end => change (wp m t (fun r s' => sinv ext extf s' /\ open_outcome s s' p oflags r)) end.
  unfold set_fd. wp_step. wp_step. wp_step. eapply store_file_wp; [apply lookup_insert_eq|].
  assert (upd_files (<[f := with_mode (open_mode oflags) (mkFile 0 0 1 0)]>) (upd_fds (<[Z.to_nat fd := f]>) (upd_files (<[f := mkFile 0 0 1 0]>) s)) =
    opening s (Z.to_nat fd) f (open_mode oflags)) as -> by (unfold opening, upd_files, upd_fds; cbn; by rewrite insert_insert_eq).
  set (s0 := opening _ _ _ _). destruct (start_ok _ _ s p I) as (x & Hxs & Ha & Hl).
  assert (forall code s1, vn_ok s1 -> vrel s0 s1 (fun _ => 0) -> code < 0 ->
    match to_create s p oflags with
    | Some (fs, j, l) => exists v t', create_gave s fs j l code v t'
    | None => match path_of s p with inl e => code = - e | inr _ => writes oflags = true /\ code = - EISDIR end
    end ->
    wp (fput f ;;; set_fd fd 0 ;;; mret_ code) s1 (fun r s' => sinv ext extf s' /\ open_outcome s s' p oflags r)) as HE.
  { intros code s1 K1 R1 Hneg Hp. eapply open_abort_wp; [done..|]. intros s' I' E1 E2. split; [done|right; left]. auto. }
  wp_step. eapply (open_namev_wp s0 p oflags 0 x); [by apply (vn_ok_frame s), I|exact Hxs|exact Ha|done|by apply dirs_full_create|by intros _|].
  intros code r s1 HO. pose proof (proj1 HO) as K1. pose proof (open_cases _ _ _ _ _ _ _ HO) as HR. change (disk s0) with (disk s) in HR.
  assert ((code < 0 /\ vrel s0 s1 (fun _ => 0) /\ match to_create s p oflags with
      | Some (fs, j, l) => exists v t', create_gave s fs j l code v t'
      | None => match path_of s p with inl e => code = - e | inr _ => False end
      end) \/
    (code = 0 /\ vrel s0 s1 (ind r) /\ 0 < act s1 r /\ exists y, vnodes s1 !! r = Some y /\ match to_create s p oflags with
      | Some (fs, j, l) => vn_fs y = fs /\ S_ISREG (vn_mode y) = true /\
          exists t', create_gave s fs j l 0 r t' /\ dirent (disk t') fs j l = Some (vn_vno y)
      | None => path_of s p = inr (vn_fs y, vn_vno y)
      end)) as HC.
  { unfold to_create, path_of. rewrite Hxs. destruct (creating oflags); cbn iota in HR |- *.
    1: destruct (missing_in _ _ _ _) as [[j l]|]; cbn [fmap option_fmap option_map fst snd] in *.
    1: { destruct HR as (t' & G%create_gave_opening & [[Hneg R1]|(-> & R1 & Ha1 & z & Hz & Ez & Hreg & Hdz)]); [left|right]; split_and!; eauto 10. }
    all: destruct (walk_path _ _ _ _ _) as [e|j]; [destruct HR as (-> & He & R1); left; split_and!; [lia|done..]
      |destruct HR as (-> & R1 & Ha1 & y & Hy & E1 & E2); right; split_and!; [done..|]; exists y; by rewrite E1, E2]. }
  destruct HC as [(Hneg & R1 & Hw)|(-> & R1 & Ha1 & y & Hy & Hw)].
  - rewrite (proj2 (Z.ltb_lt _ _)) by done. apply HE; [done..|]. destruct (to_create s p oflags) as [[[? ?] ?]|]; [done|]. by destruct (path_of s p).
  - cbn [Z.ltb Z.compare]. wp_step. eapply load_vn_wp; [exact Hy|]. fold (writes oflags). assert (r <> 0) as Hr0 by (by eapply act_nonzero).
    destruct (S_ISDIR (vn_mode y) && writes oflags) eqn:Edir.
    + wp_step. apply vput_wp; [done..|]. intros s2 z Hz P. epos EISDIR. apply andb_true_iff in Edir as [Edir Ewr]. apply HE; [apply P| |lia|].
      * eapply vrel_trans; [exact R1|apply P|left; intros; apply ind_range|intros; cbn beta; lia].
      * destruct (to_create s p oflags) as [[[? ?] ?]|]; [|by rewrite Hw]. destruct Hw as (_ & Hreg & _). apply stat_dir in Edir. congruence.
    + assert (files s1 !! f = Some (mkFile 0 (open_mode oflags) 1 0)) as Hf1 by (rewrite (r_files _ _ _ R1); apply lookup_insert_eq).
      wp_step. eapply store_file_wp; [done|]. wp_step. eapply store_file_wp; [apply lookup_insert_eq|]. wp_step. unfold upd_files at 1 3. cbn [vnodes vnode_inuse_list disk files p_files p_cwd vfs_root_vn mapped upd_files].
      rewrite insert_insert_eq. split.
      * by eapply (open_install ext extf s s1 fd f (open_mode oflags) r); eauto.
      * right; right. split; [done|]. exists f, r, y. cbn. rewrite (r_files _ _ _ R1), (r_fds _ _ _ R1). cbn. rewrite insert_insert_eq. by split_and!.
Qed.

(** Up to the path, [do_open] with a free descriptor. *)
Lemma open_to_path ext extf s p oflags fd f : sinv ext extf s -> lowest_free s fd -> fget (-1) s = Ok (f, upd_files (<[f := mkFile 0 0 1 0]>) s) ->
  negb (Z.land oflags O_WRONLY =? 0) && negb (Z.land oflags O_RDWR =? 0) = false ->
  forall e, open_namev p oflags 0 (opening s (Z.to_nat fd) f (open_mode oflags)) = Err e -> do_open p oflags s = Err e.
Proof.
  intros I Hlow Hg Hb e He. unfold do_open. rewrite Hb.
  assert (wp get_empty_fd s (fun r s' => s' = s /\ r = fd)) as (r & s' & E & -> & ->)%wp_ok.
  { apply get_empty_fd_wp; [apply I| |].
    - intros r Hr. split; [done|]. by apply (lowest_free_unique s).
    - intros Hno. destruct Hno. by eapply list_elem_of_lookup_2, Hlow. }
  rewrite (mbind_run _ _ _ _ _ E), (proj2 (Z.ltb_ge _ _)) by apply Hlow. rewrite (mbind_run _ _ _ _ _ Hg). unfold set_fd.
  rewrite (mbind_run (mput _) _ _ tt _ eq_refl). unfold store_file at 1, load_file at 1.
  rewrite (mbind_run _ _ _ tt (opening s (Z.to_nat fd) f (open_mode oflags))).
  - by apply mbind_err.
  - unfold mbind_. cbn. rewrite lookup_insert_eq. unfold mput, opening, upd_files, upd_fds. cbn. by rewrite insert_insert_eq.
Qed.
(** When there is no memory for an open file, [do_open] writes through
    the NULL pointer that [fget] returned. *)
Lemma do_open_no_memory ext extf s p oflags fd : sinv ext extf s -> lowest_free s fd -> fget (-1) s = Ok (0, s) ->
  negb (Z.land oflags O_WRONLY =? 0) && negb (Z.land oflags O_RDWR =? 0) = false -> do_open p oflags s = Err FUndef.
Proof.
  intros I Hlow Hg Hb. unfold do_open. rewrite Hb.
  assert (wp get_empty_fd s (fun r s' => s' = s /\ lowest_free s r)) as (r & s' & E & -> & Hr)%wp_ok.
  { apply get_empty_fd_wp; [apply I|done|]. intros Hno. destruct Hno. by eapply list_elem_of_lookup_2, Hlow. }
  rewrite (mbind_run _ _ _ _ _ E), (proj2 (Z.ltb_ge _ _)) by apply Hr. rewrite (mbind_run _ _ _ _ _ Hg). unfold set_fd.
  rewrite (mbind_run (mput _) _ s tt _ eq_refl). apply mbind_err. unfold store_file. apply mbind_err. unfold load_file. cbn.
  destruct (files s !! 0) as [x|] eqn:Hx; [|done]. by destruct (i_file _ _ _ I 0 x Hx).
Qed.


(** A path without a component (the root, or the empty path) makes
    [do_unlink] and [do_mknod] panic: [dir_namev] leaves the name NULL, which
    [lookup] asserts it is not. *)
Theorem no_name_panics ext extf s p mode dev : sinv ext extf s -> comps p = [] ->
  do_unlink p s = Err FAssert /\ (S_ISCHR mode || S_ISBLK mode = true -> do_mknod p mode dev s = Err FAssert).
Proof.
  intros I Hc. assert (first_ok (comps p)) as Hf by (by rewrite Hc).
  assert (wp (dir_namev p 0) s (fun '(code, (nl, name, dir)) s1 => code = 0 /\ name = None /\ dir <> 0)) as ([code [[nl name] dir]] & s1 & E & -> & -> & Hd)%wp_ok.
  { eapply call_dir_wp; [done..| |].
    - intros e s' r Hp. unfold path_dir, walk_dir in Hp. rewrite Hc in Hp. destruct (start_ok _ _ s p I) as (x & Hx & _). by rewrite Hx in Hp.
    - intros l nl name dir s1 y k Hp H _ Hl. destruct l as [l|]; [|split_and!; [done|apply Hl|eapply act_nonzero; apply H]].
      unfold path_dir, walk_dir in Hp. rewrite Hc in Hp. by case_match. }
  assert (forall B (k : Z * Z -> M vfs B), (let! r := lookup dir None nl in k r) s1 = Err FAssert) as Hlk.
  { intros B k. apply mbind_err. unfold lookup. rewrite (proj2 (Z.eqb_neq _ _) Hd). done. }
  split.
  - unfold do_unlink. rewrite (mbind_run _ _ _ _ _ E). cbn [Z.ltb Z.compare]. apply Hlk.
  - intros Hm. unfold do_mknod. rewrite <- negb_orb, Hm. cbn [negb]. rewrite (mbind_run _ _ _ _ _ E). cbn [Z.ltb Z.compare]. apply Hlk.
Qed.
End Balance.
