(* ===== verification/TinyFs.v ===== *)
(** * A small file system

    Instances of the interfaces of the file system files: one file system with
    a fixed tree (a root directory with a file, a directory and a terminal),
    whose directories look names up and refuse changes and whose files can be
    written, and open files as fs/file.c counts them.  The theorems about
    vnodes, paths and system calls apply to it. *)
From stdpp Require Import base gmap list fin_maps fin_sets.
From Stdlib Require Import ZArith Lia Ascii.
From S2P Require Import Prelude KEnv Vnode Namev VfsSyscall.
Open Scope Z_scope.
Open Scope c_scope.

#[local] Existing Instance seq_klist.
#[local] Existing Instance first_slab.
#[local] Existing Instance weenix_errno.

(** ** File systems and devices *)
(** Inodes: 1 the root, 2 a file, 3 a directory, 4 a terminal. *)
Definition tiny_dirent (fs i : Z) (n : list ascii) : option Z :=
  if (i =? 1) && negb (fs =? 0) then
    if decide (n = ["a"%char]) then Some 2
    else if decide (n = ["d"%char]) then Some 3
    else if decide (n = ["t"%char]) then Some 4
    else None
  else None.
Definition tiny_inode (i : Z) : vinit :=
  if (i =? 1) || (i =? 3) then mkVinit 1 1 0 0
  else if i =? 4 then mkVinit 2 3 0 7 else mkVinit 2 2 5 0.
Definition tiny_has (k : Z) (o : vop) : bool :=
  match o with
  | Vlookup | Vcreate | Vmknod | Vlink | Vunlink | Vmkdir | Vrmdir | Vreaddir => k =? 1
  | Vread | Vwrite => negb (k =? 1)
  | _ => true
  end.

#[refine] Definition tiny_fs : FsOps := {|
  fsst := unit;
  read_vnode _ _ i := tiny_inode i;
  query_vnode _ _ i := (1 <=? i) && (i <=? 4);
  delete_vnode := None;
  dirent _ fs i n := tiny_dirent fs i n;
  fs_root _ := 1;
  fs_has := tiny_has;
  bytedev_lookup d := d;
  blockdev_lookup _ := 0;
  cd_has _ _ := true;
  cd_read _ _ _ d := ((0, []), d);
  cd_write _ _ l d := (Z.of_nat (length l), d);
  fs_stat _ _ _ i := (0, [i]);
  page_keeps := true;
|}.
Proof.
  - intros d fs i n j. unfold tiny_dirent. repeat case_match; naive_solver.
  - done.
  - done.
  - done.
  - done.
Defined.
#[local] Existing Instance tiny_fs.

#[refine] Definition tiny_stat : StatModes := {|
  S_ISDIR m := m =? 1; S_ISREG m := m =? 2; S_ISCHR m := m =? 3; S_ISBLK m := m =? 4;
|}.
Proof. all: intros m ->%Z.eqb_eq; done. Defined.
#[local] Existing Instance tiny_stat.

#[refine] Definition tiny_consts : VfsConsts := {|
  NAME_LEN := 3; NFILES := 3;
  O_RDONLY := 0; O_WRONLY := 1; O_RDWR := 2; O_CREAT := 256; O_APPEND := 1024;
  FMODE_READ := 1; FMODE_WRITE := 2; FMODE_APPEND := 4;
  SEEK_SET := 0; SEEK_CUR := 1; SEEK_END := 2;
  SIZEOF_DIRENT := 40;
|}.
Proof. all: done. Defined.
#[local] Existing Instance tiny_consts.

Definition tiny_lookup (dir : Z) (name : list ascii) : M vfs (Z * Z) :=
  let! x := load_vn dir in
  match tiny_dirent (vn_fs x) (vn_vno x) name with
  | Some j => let! v := vget (vn_fs x) j in mret_ (0, v)
  | None => mret_ (- ENOENT, 0)
  end.
Definition with_len (n : Z) (x : vnode) : vnode :=
  mkVnode (vn_fs x) (vn_vno x) (vn_ops x) (vn_mode x) n (vn_devid x) (vn_dev x) (vn_refcount x) (vn_nrespages x) (vn_respages x) (vn_busy x).
Definition tiny_write (v pos : Z) (buf : list Z) : M vfs Z :=
  store_vn v (fun x => with_len (Z.max (vn_len x) (pos + Z.of_nat (length buf))) x) ;;;
  mret_ (Z.of_nat (length buf)).

Lemma refused s : vn_ok s -> neutral s (- EPERM) s.
Proof. intros K. split; [done|]. split; [apply vrel_refl|done]. Qed.

#[refine] Definition tiny_vnops : VnOps := {|
  fs_lookup _ dir name := tiny_lookup dir name;
  fs_create _ _ _ := mret_ (- EPERM, 0);
  fs_mknod _ _ _ _ _ := mret_ (- EPERM);
  fs_mkdir _ _ _ := mret_ (- EPERM);
  fs_rmdir _ _ _ := mret_ (- EPERM);
  fs_unlink _ _ _ := mret_ (- EPERM);
  fs_link _ _ _ _ := mret_ (- EPERM);
  fs_read _ _ _ n := mret_ (if 2 <=? n then (2, [7; 8]) else (0, []));
  fs_write _ v pos buf := tiny_write v pos buf;
  fs_readdir _ _ _ := mret_ (0, []);
|}.
Proof.
  - intros k dir x name s K Hx Ha Hk Ho. unfold tiny_lookup. wp_step. eapply load_vn_wp; [done|]. cbn [dirent tiny_fs].
    destruct (tiny_dirent (vn_fs x) (vn_vno x) name) as [j|] eqn:E; [|wp_step; split; [done|]; split; [done|]; split; [done|apply vrel_refl]].
    assert (vn_fs x <> 0) as Hf by (intros Hf; unfold tiny_dirent in E; rewrite Hf, andb_false_r in E; done).
    wp_step. apply vget_wp; [done..|]. intros v s' y K' R' Hd Hy E1 E2 _. wp_step. split; [done|]. split; [by rewrite Hd|]. split; [done|]. split; [done|]. by exists y.
  - intros. wp_step. left. split; [done|]. by apply refused.
  - intros. wp_step. by apply refused.
  - intros. wp_step. by apply refused.
  - intros. wp_step. by apply refused.
  - intros. wp_step. by apply refused.
  - intros. wp_step. by apply refused.
  - intros k v x pos n s K Hx Ha Hk Ho. wp_step. destruct (2 <=? n); (split; [done|apply vrel_refl]).
  - intros k v x pos buf s K Hx Ha Hk Ho. unfold tiny_write. wp_step. eapply store_vn_wp; [done|]. wp_step.
    set (x' := with_len _ x). split; [|split].
    + eapply set_vn_ok; [done..| |done]. by destruct (v_cnt _ K _ _ Hx).
    + eapply vrel_ext; [apply (set_vn_rel s v x x' 0); [done|done|cbn; lia]|intros; cbn beta; lia].
    + intros _. exists x'. cbn. rewrite lookup_insert_eq. split; [done|]. lia.
  - intros. wp_step. split; [done|apply vrel_refl].
Defined.
#[local] Existing Instance tiny_vnops.

(** ** Open files, as fs/file.c has them *)
Definition tiny_fget (fd : Z) : M vfs Z :=
  if fd =? -1 then
    let! m := mget files in
    match slab_pick m with
    | Some f => mput (upd_files (<[f := mkFile 0 0 1 0]>)) ;;; mret_ f
    | None => mret_ 0
    end
  else if fd <? 0 then mret_ 0
  else
    let! l := mget p_files in
    let f := default 0 (l !! Z.to_nat fd) in
    if f =? 0 then mret_ 0
    else store_file f (fun x => with_fref (f_refcount x + 1) x) ;;; mret_ f.
Definition tiny_fput (f : Z) : M vfs unit :=
  let! x := load_file f in
  if 1 <? f_refcount x then store_file f (fun x => with_fref (f_refcount x - 1) x)
  else (if f_vnode x =? 0 then mret_ tt else vput (f_vnode x)) ;;; mput (upd_files (delete f)).

#[refine] Definition tiny_files : FileOps := {|
  fget := tiny_fget;
  fput := tiny_fput;
  name_match n w len := bool_decide (n = Some w) && (len =? Z.of_nat (length w));
|}.
Proof.
  - intros s. right. destruct (slab_pick (files s)) as [f|] eqn:E; [|done]. destruct (slab_fresh _ _ E). exists f. split; [done|]. split; [done|].
    unfold tiny_fget. cbn [Z.eqb Pos.eqb]. rewrite (mbind_run (mget _) _ s _ s eq_refl). by rewrite E.
  - intros s fd f x H0 Hf Hn Hx. unfold tiny_fget. rewrite (proj2 (Z.eqb_neq fd (-1))), (proj2 (Z.ltb_ge _ _) H0) by lia. rewrite (mbind_run (mget _) _ s _ s eq_refl), Hf.
    cbn [default from_option]. unfold id. rewrite (proj2 (Z.eqb_neq _ _) Hn). unfold store_file, load_file, mbind_. by rewrite Hx.
  - intros s fd H0 Hf. unfold tiny_fget. rewrite (proj2 (Z.eqb_neq fd (-1))), (proj2 (Z.ltb_ge _ _) H0) by lia. rewrite (mbind_run (mget _) _ s _ s eq_refl), Hf. done.
  - intros s fd H0. unfold tiny_fget. by rewrite (proj2 (Z.eqb_neq fd (-1))), (proj2 (Z.ltb_lt fd 0)) by lia.
  - intros s f x Hx Hr. unfold tiny_fput, load_file. unfold mbind_ at 1. rewrite Hx. cbn [mthe mret_]. rewrite (proj2 (Z.ltb_lt _ _)) by done.
    unfold store_file, load_file, mbind_. by rewrite Hx.
  - intros s f x Hx Hr. unfold tiny_fput, load_file. unfold mbind_ at 1. rewrite Hx. cbn [mthe mret_]. by rewrite Hr.
Defined.
#[local] Existing Instance tiny_files.

(** ** A process with one open file *)
Module Examples.
Definition root_vn : vnode := mkVnode 1 1 (FsVops 1) 1 0 0 0 2 0 [] false.
Definition file_vn : vnode := mkVnode 1 2 (FsVops 2) 2 5 0 0 1 0 [] false.
Definition open_file : file := mkFile 3 3 1 2.
(** The root is the working directory, and descriptor 0 the file [a] open for
    reading and writing at position 3. *)
Definition s0 : vfs :=
  mkVfs _ _ (<[2 := file_vn]> (<[1 := root_vn]> ∅)) [2; 1] tt (<[10 := open_file]> ∅) [10; 0; 0] 1 1 [].

Lemma s0_cases v x : vnodes s0 !! v = Some x -> v = 2 /\ x = file_vn \/ v = 1 /\ x = root_vn.
Proof. cbn. intros [[<- <-]|[_ [[<- <-]|[_ H]]%lookup_insert_Some]]%lookup_insert_Some; auto. by rewrite lookup_empty in H. Qed.
Lemma s0_ok : vn_ok s0.
Proof.
  split; [split|by left].
  - done.
  - cbn. repeat constructor; set_solver.
  - intros v. split.
    + cbn. intros [-> |[-> |H]%elem_of_cons]%elem_of_cons; [by eexists|by eexists|by apply not_elem_of_nil in H].
    + intros [x [[-> _]|[-> _]]%s0_cases]; cbn; set_solver.
  - intros v x [[_ ->]|[_ ->]]%s0_cases; split; cbn; (done || lia || constructor).
  - intros v w x y [[-> ->]|[-> ->]]%s0_cases [[-> ->]|[-> ->]]%s0_cases; done.
  - intros v x [[_ ->]|[_ ->]]%s0_cases; done.
Qed.
Lemma s0_inv : sinv (fun _ => 0) (fun _ => 0) s0.
Proof.
  assert (forall v, nfiles (files s0) v = ind 2 v) as Hn.
  { intros v. change (files s0) with (<[10 := open_file]> (∅ : gmap Z file)). rewrite nfiles_insert by done. done. }
  split.
  - apply s0_ok.
  - done.
  - intros v Hv. rewrite Hn. unfold ind. cbn [p_cwd vfs_root_vn s0]. destruct (decide (2 = v)) as [<-|]; [done|]. destruct (decide (1 = v)) as [<-|]; [done|].
    unfold act. cbn. by rewrite !lookup_insert_ne, lookup_empty by done.
  - done.
  - cbn. intros f x [[<- <-]|[_ H]]%lookup_insert_Some; [done|]. by rewrite lookup_empty in H.
  - cbn. intros f [-> |[-> |[-> |H]%elem_of_cons]%elem_of_cons]%elem_of_cons; [right; by eexists|by left|by left|by apply not_elem_of_nil in H].
  - split; [done|]. by exists root_vn.
  - split; [done|]. by exists root_vn.
Qed.
Lemma tiny_full : dirs_full.
Proof. intros k Hk. cbn in Hk. apply Z.eqb_eq in Hk as ->. repeat constructor. Qed.

(** ** The theorems on this state *)
Lemma vget_correct_witness : exists v s' x, vget 1 3 s0 = Ok (v, s') /\ vn_ok s' /\ vrel s0 s' (ind v) /\ disk s' = disk s0 /\
  vnodes s' !! v = Some x /\ vn_fs x = 1 /\ vn_vno x = 3 /\ (vnodes s0 !! v = None -> x = fresh_vnode (disk s0) 1 3).
Proof. apply (vget_correct s0 1 3); [apply s0_ok|lia|done]. Defined.
(** A vnode of an unlinked inode with two cached pages, one of them mapped, and
    one reference to it. *)
Definition gone_vn : vnode := mkVnode 1 5 (FsVops 2) 2 5 0 0 3 2 [mkPframe 0 false false true; mkPframe 4 false false false] false.
Definition s_gone : vfs :=
  mkVfs _ _ (<[3 := gone_vn]> (vnodes s0)) [3; 2; 1] tt (<[10 := open_file]> ∅) [10; 0; 0] 1 1 [(3, 4); (2, 0)].
Lemma s_gone_table : vn_table s_gone.
Proof.
  assert (forall v x, vnodes s_gone !! v = Some x -> v = 3 /\ x = gone_vn \/ v <> 3 /\ vnodes s0 !! v = Some x) as Hc.
  { intros v x. cbn. intros [[<- <-]|[? H]]%lookup_insert_Some; auto. }
  pose proof (v_table _ s0_ok) as [H0 H1 H2 H3 H4 H5]. split.
  - done.
  - cbn. repeat constructor; set_solver.
  - intros v. change (list_items (vnode_inuse_list s_gone)) with (3 :: list_items (vnode_inuse_list s0)). rewrite elem_of_cons, H2. cbn.
    destruct (decide (v = 3)) as [->|]; [rewrite lookup_insert_eq; naive_solver|]. rewrite (lookup_insert_ne (<[2 := _]> _)) by done. naive_solver.
  - intros v x [[_ ->]|[_ Hx]]%Hc; [|by apply (H3 v)]. split; cbn; try done; [|repeat constructor]. repeat constructor; set_solver.
  - intros v w x y [[-> ->]|[Hv Hx]]%Hc [[-> ->]|[Hw Hy]]%Hc; [done|by destruct (s0_cases w y Hy) as [[_ ->]|[_ ->]]|by destruct (s0_cases v x Hx) as [[_ ->]|[_ ->]]|by apply (H4 v w)].
  - intros v x [[_ ->]|[_ Hx]]%Hc; [done|by apply (H5 v)].
Qed.
Lemma vput_correct_witness : exists s', vput 3 s_gone = Ok (tt, s') /\ put_done s_gone s' 3 gone_vn /\ pages_unmapped s_gone s' 3 gone_vn /\
  vnodes s' !! 3 = None.
Proof.
  destruct (vput_correct s_gone 3 gone_vn) as [(s' & Hr & P & U)|(Hk & _)];
    [apply s_gone_table|vm_compute; reflexivity|done| |discriminate Hk].
  exists s'. split; [exact Hr|]. split; [exact P|]. split; [exact U|]. apply (pd_freed _ _ _ _ P). right. split; reflexivity.
Defined.
(** The run itself: the vnode is gone and its page is not mapped any more. *)
Lemma vput_gone_run : exists s', vput 3 s_gone = Ok (tt, s') /\ vnodes s' !! 3 = None /\ mapped s' = [(2, 0)].
Proof. eexists. split; [vm_compute; reflexivity|]. split; reflexivity. Qed.
Lemma vfs_is_in_use_correct_witness : exists r, vfs_is_in_use 1 s0 = Ok (r, s0) /\ (r = - EBUSY <-> exists v, in_use s0 1 v) /\ (r = 0 <-> forall v, ~ in_use s0 1 v) /\
    exists n, vnode_inuse 1 s0 = Ok (n, s0) /\ n = Z.of_nat (length (base.filter (fun v => vn_fs <$> vnodes s0 !! v = Some 1) (list_items (vnode_inuse_list s0)))).
Proof. apply (vfs_is_in_use_correct s0 1); [apply s0_ok|]. intros x _ _. vm_compute. discriminate. Defined.
Definition path_a : list ascii := ["/"%char; "a"%char].
Lemma dir_namev_correct_witness : exists code nl name dir s', dir_namev path_a 0 s0 = Ok ((code, (nl, name, dir)), s') /\
  dir_result s0 s' root_vn (comps path_a) code nl name dir.
Proof. apply (dir_namev_correct s0 path_a 0 root_vn); [apply s0_ok|done|vm_compute; reflexivity|done]. Defined.
(** Creating a file: the directory refuses, which is what is returned. *)
Definition path_b : list ascii := ["/"%char; "b"%char].
Lemma open_namev_correct_witness : exists code r s', open_namev path_b 256 0 s0 = Ok ((code, r), s') /\
  vn_ok s' /\ created s0 s' root_vn 1 ["b"%char] code r.
Proof.
  destruct (open_namev_correct s0 path_b 256 0 root_vn) as (code & r & s' & E & H);
    [apply s0_ok|done|vm_compute; reflexivity|apply dirs_full_create, tiny_full|done|].
  exists code, r, s'. split; [exact E|exact H].
Defined.
Definition path_long : list ascii := ["a"%char; "a"%char; "a"%char; "a"%char; "/"%char; "a"%char].
Lemma dir_namev_long_first_witness : dir_namev path_long 0 s0 = Err FAssert.
Proof. by apply (dir_namev_long_first s0 path_long 0). Defined.

Notation inv := (sinv (fun _ => 0) (fun _ => 0)).
Lemma do_mkdir_correct_witness : exists code s', do_mkdir path_a s0 = Ok (code, s') /\ added s0 path_a code /\ inv s'.
Proof. apply (do_mkdir_correct (fun _ => 0) (fun _ => 0) s0 path_a); [apply s0_inv|apply tiny_full|done|done]. Defined.
Lemma do_mknod_correct_witness : exists code s', do_mknod path_a 3 7 s0 = Ok (code, s') /\ inv s' /\
  if S_ISCHR 3 || S_ISBLK 3 then added s0 path_a code else code = - EINVAL /\ s' = s0.
Proof. apply (do_mknod_correct (fun _ => 0) (fun _ => 0) s0 path_a 3 7); [apply s0_inv|apply tiny_full|done|done]. Defined.
Lemma do_unlink_correct_witness : exists code s', do_unlink path_a s0 = Ok (code, s') /\ inv s' /\
    match path_dir s0 path_a with
    | inl e => code = - e /\ 0 < e
    | inr (fs, j, l) =>
        match dirent (disk s0) fs j (default [] l) with
        | None => code = - ENOENT
        | Some i => if S_ISDIR (vi_mode (read_vnode (disk s0) fs i)) then code = - EPERM else code <= 0
        end
    end.
Proof. apply (do_unlink_correct (fun _ => 0) (fun _ => 0) s0 path_a); [apply s0_inv|apply tiny_full|done|done]. Defined.
Lemma do_rmdir_correct_witness : exists code s', do_rmdir path_a s0 = Ok (code, s') /\ inv s' /\
    match path_dir s0 path_a with
    | inl e => code = - e /\ 0 < e
    | inr (fs, j, l) => exists n nl, l = Some (take (Z.to_nat nl) n) /\
        if name_match (Some n) dot nl then code = - EINVAL
        else if name_match (Some n) dotdot nl then code = - ENOTEMPTY
        else code <= 0
    end.
Proof. apply (do_rmdir_correct (fun _ => 0) (fun _ => 0) s0 path_a); [apply s0_inv|apply tiny_full|done|done]. Defined.
Lemma do_chdir_correct_witness : exists code s', do_chdir path_a s0 = Ok (code, s') /\ inv s' /\
    match path_of s0 path_a with
    | inl e => code = - e /\ 0 < e /\ p_cwd s' = p_cwd s0
    | inr (fs, j) => (code = - ENOTDIR /\ p_cwd s' = p_cwd s0) \/
        (code = 0 /\ exists y, vnodes s' !! p_cwd s' = Some y /\ vn_fs y = fs /\ vn_vno y = j /\ has_op y Vlookup = true)
    end.
Proof. apply (do_chdir_correct (fun _ => 0) (fun _ => 0) s0 path_a); [apply s0_inv|apply tiny_full|done]. Defined.
Lemma do_stat_correct_witness : exists code buf s', do_stat path_a s0 = Ok ((code, buf), s') /\ inv s' /\
    if bool_decide (path_a = []) then code = - EINVAL
    else match path_of s0 path_a with inl e => code = - e /\ 0 < e | inr (fs, j) => exists k d, (code, buf) = fs_stat k d fs j end.
Proof.
  apply (do_stat_correct (fun _ => 0) (fun _ => 0) s0 path_a); [apply s0_inv|apply tiny_full|done|done|].
  intros v x _. split; [vm_compute; reflexivity|by exists root_vn].
Defined.
(** Resolving the path of a file that nothing else refers to leaves one
    reference to its vnode. *)
Definition s_root : vfs := mkVfs _ _ (<[1 := root_vn]> ∅) [1] tt ∅ [0; 0; 0] 1 1 [].
Definition s_found : vfs := mkVfs _ _ (<[2 := file_vn]> (<[1 := root_vn]> ∅)) [2; 1] tt ∅ [0; 0; 0] 1 1 [].
Lemma do_link_use_after_free_witness : do_link path_a ["b"%char] s_root = Err FUndef.
Proof.
  apply (do_link_use_after_free s_root path_a ["b"%char] 2 s_found file_vn); [|vm_compute; reflexivity|done|done|vm_compute; reflexivity].
  by apply (vn_ok_frame s0); [..|apply s0_ok].
Defined.
Lemma do_read_correct_witness : exists res s', do_read 0 2 s0 = Ok (res, s') /\ inv s' /\ read_result s0 s' 0 (fst res).
Proof.
  apply (do_read_correct (fun _ => 0) (fun _ => 0) s0 0 2); [apply s0_inv|]. intros f x y Hf Hx Hy. injection Hf as <-. injection Hx as <-. by injection Hy as <-.
Defined.
Lemma do_write_correct_witness : exists r s', do_write 0 [1; 2; 3; 4] s0 = Ok (r, s') /\ inv s' /\ write_result s0 s' 0 r.
Proof.
  apply (do_write_correct (fun _ => 0) (fun _ => 0) s0 0); [apply s0_inv|]. intros f x y Hf Hx Hy. injection Hf as <-. injection Hx as <-. injection Hy as <-.
  split; [done|]. split; [done|]. split; [done|]. intros k s1 w s2 _ (? & s3 & _ & [= <- _])%mbind_Ok. lia.
Defined.
Lemma do_getdent_correct_witness : exists r buf s', do_getdent 0 s0 = Ok ((r, buf), s') /\ inv s' /\
    match fd_file s0 0 with
    | None => r = - EBADF /\ s' = s0
    | Some f => exists x y, files s0 !! f = Some x /\ vnodes s0 !! f_vnode x = Some y /\
        if has_op y Vreaddir then exists n, moved s0 s' f x (f_pos x + n) /\ r = (if n =? 0 then 0 else SIZEOF_DIRENT)
        else r = - ENOTDIR /\ moved s0 s' f x (f_pos x)
    end.
Proof. apply (do_getdent_correct (fun _ => 0) (fun _ => 0) s0 0), s0_inv. Defined.
Lemma do_close_correct_witness : exists r s', do_close 0 s0 = Ok (r, s') /\ inv s' /\
    match fd_file s0 0 with
    | None => r = - EBADF /\ s' = s0
    | Some f => r = 0 /\ p_files s' = <[Z.to_nat 0 := 0]> (p_files s0) /\ fd_file s' 0 = None /\
        forall g x, g <> f -> files s' !! g = Some x <-> files s0 !! g = Some x
    end.
Proof. apply (do_close_correct (fun _ => 0) (fun _ => 0) s0 0), s0_inv. Defined.
Lemma do_dup_correct_witness : exists r s', do_dup 0 s0 = Ok (r, s') /\ inv s' /\
    match fd_file s0 0 with
    | None => r = - EBADF /\ s' = s0
    | Some f => (lowest_free s0 r /\ p_files s' = <[Z.to_nat r := f]> (p_files s0)) \/
        (0 ∉ p_files s0 /\ r = - EMFILE /\ p_files s' = p_files s0 /\ files s' = files s0)
    end.
Proof. apply (do_dup_correct (fun _ => 0) (fun _ => 0) s0 0), s0_inv. Defined.
Lemma do_dup2_correct_witness : exists r s', do_dup2 0 2 s0 = Ok (r, s') /\ inv s' /\
    match fd_file s0 0 with
    | Some f =>
        if (2 <? 0) || (NFILES <=? 2) then r = - EBADF /\ s' = s0
        else r = 2 /\ p_files s' = <[Z.to_nat 2 := f]> (p_files s0) /\ (0 = 2 -> p_files s' = p_files s0 /\ files s' = files s0)
    | None => r = - EBADF /\ s' = s0
    end.
Proof. apply (do_dup2_correct (fun _ => 0) (fun _ => 0) s0 0 2), s0_inv. Defined.
Lemma do_lseek_correct_witness : exists r s', do_lseek 0 (-1) 2 s0 = Ok (r, s') /\ inv s' /\
    match fd_file s0 0 with
    | None => r = - EBADF /\ s' = s0
    | Some f => exists x y, files s0 !! f = Some x /\ vnodes s0 !! f_vnode x = Some y /\
        r = default (- EINVAL) (seek_pos (f_pos x) (vn_len y) (-1) 2) /\
        moved s0 s' f x (default (f_pos x) (seek_pos (f_pos x) (vn_len y) (-1) 2))
    end.
Proof.
  apply (do_lseek_correct (fun _ => 0) (fun _ => 0) s0 0 (-1) 2); [apply s0_inv|]. intros f x y Hf Hx Hy. injection Hf as <-. injection Hx as <-. by injection Hy as <-.
Defined.
Lemma no_name_panics_witness : do_unlink [slash] s0 = Err FAssert /\ (S_ISCHR 3 || S_ISBLK 3 = true -> do_mknod [slash] 3 7 s0 = Err FAssert).
Proof. apply (no_name_panics (fun _ => 0) (fun _ => 0) s0 [slash] 3 7); [apply s0_inv|done]. Defined.
End Examples.
