(* ===== verification/Syscall.v ===== *)
(** * api/syscall.c: system calls

    A system call is seen from the thread that makes it.  It copies its
    arguments in from user memory ([VmAccess]), calls the kernel
    ([VfsSyscall], [VmAccess] and, through the interface [ProcCalls], the
    calls about processes) and turns negative results into -1 and [kt_errno].
    The file also models [user_strdup] and [user_vecdup] of api/access.c.  The
    theorems are in [SyscallThm]. *)
From stdpp Require Import base gmap list fin_maps.
From Stdlib Require Import ZArith Lia Ascii.
From S2P Require Import Prelude KEnv Vmmap VmAccess Vnode Namev VfsSyscall.
Open Scope Z_scope.
Open Scope c_scope.

(** ** Interfaces *)

(** kmalloc.h and page.h.  A call sees the blocks and pages it has allocated
    itself; [None] is NULL, and new memory holds arbitrary bytes. *)
Class KMem `{KGeometry} := {
  kmalloc_pick : gmap Z (list Z) -> Z -> option Z;
  page_pick : gmap Z (list Z) -> option Z;
  kmalloc_junk : gmap Z (list Z) -> Z -> list Z;
  page_junk : gmap Z (list Z) -> list Z;
  kmalloc_fresh h n p : kmalloc_pick h n = Some p -> p <> 0 /\ h !! p = None;
  kmalloc_addr h n p : kmalloc_pick h n = Some p -> 0 <= p < 2 ^ 32;
  page_fresh h p : page_pick h = Some p -> p <> 0 /\ h !! p = None;
  kmalloc_size h n : 0 <= n -> Z.of_nat (length (kmalloc_junk h n)) = n;
  page_size h : Z.of_nat (length (page_junk h)) = PAGE_SIZE;
}.

(** Words of memory, little-endian. *)
Definition le32 (bs : list Z) : Z := fold_right (fun b acc => b + 256 * acc) 0 bs.
Definition bytes32 (v : Z) : list Z := [v mod 256; v / 256 mod 256; v / 65536 mod 256; v / 16777216 mod 256].

(** The structures of api/syscall.h, with the fields the code reads. *)
Record argstr := mkArgstr { as_str : Z; as_len : Z }.
Record argvec := mkArgvec { av_vec : Z; av_len : Z }.
Record read_args := mkReadArgs { ra_fd : Z; ra_buf : Z; ra_nbytes : Z }.
Record write_args := mkWriteArgs { wa_fd : Z; wa_buf : Z; wa_nbytes : Z }.
Record getdents_args := mkGetdentsArgs { ga_fd : Z; ga_dirp : Z; ga_count : Z }.
Record dup2_args := mkDup2Args { da_ofd : Z; da_nfd : Z }.
Record mkdir_args := mkMkdirArgs { mk_path : argstr }.
Record link_args := mkLinkArgs { la_to : argstr; la_from : argstr }.
Record rename_args := mkRenameArgs { rn_oldname : argstr; rn_newname : argstr }.
Record lseek_args := mkLseekArgs { ls_fd : Z; ls_offset : Z; ls_whence : Z }.
Record open_args := mkOpenArgs { oa_filename : argstr; oa_flags : Z }.
Record munmap_args := mkMunmapArgs { mu_addr : Z; mu_len : Z }.
Record mmap_args := mkMmapArgs { mma_addr : Z; mma_len : Z; mma_prot : Z; mma_flags : Z; mma_fd : Z; mma_off : Z }.
Record waitpid_args := mkWaitpidArgs { wpa_pid : Z; wpa_status : Z; wpa_options : Z }.
Record stat_args := mkStatArgs { sa_path : argstr; sa_buf : Z }.
Record execve_args := mkExecveArgs { ea_filename : argstr; ea_argv : argvec; ea_envp : argvec }.

(** Where the compiler puts the fields: the size of a structure and its
    value from its bytes.  Some fields are also read in user memory. *)
Record layout (A : Type) := mkLayout { sizeof : Z; decode : list Z -> A }.
Arguments mkLayout {A}.
Arguments sizeof {A}.
Arguments decode {A}.
Class ArgLayouts := {
  argstr_t : layout argstr;
  read_args_t : layout read_args;
  write_args_t : layout write_args;
  getdents_args_t : layout getdents_args;
  dup2_args_t : layout dup2_args;
  mkdir_args_t : layout mkdir_args;
  link_args_t : layout link_args;
  rename_args_t : layout rename_args;
  lseek_args_t : layout lseek_args;
  open_args_t : layout open_args;
  munmap_args_t : layout munmap_args;
  mmap_args_t : layout mmap_args;
  waitpid_args_t : layout waitpid_args;
  stat_args_t : layout stat_args;
  execve_args_t : layout execve_args;
  read_buf_off : Z;
  write_buf_off : Z;
  write_nbytes_off : Z;
  getdents_dirp_off : Z;
  (** the fields of struct utsname *)
  uts_sysname : Z; uts_release : Z; uts_version : Z; uts_nodename : Z; uts_machine : Z;
  sizes_pos : Forall (fun n => 0 < n)
    [sizeof argstr_t; sizeof read_args_t; sizeof write_args_t; sizeof getdents_args_t; sizeof dup2_args_t; sizeof mkdir_args_t; sizeof link_args_t;
     sizeof rename_args_t; sizeof lseek_args_t; sizeof open_args_t; sizeof munmap_args_t; sizeof mmap_args_t; sizeof waitpid_args_t;
     sizeof stat_args_t; sizeof execve_args_t];
  read_buf_at bs : Z.of_nat (length bs) = sizeof read_args_t ->
    0 <= read_buf_off /\ read_buf_off + 4 <= sizeof read_args_t /\ ra_buf (decode read_args_t bs) = le32 (slice read_buf_off 4 bs);
  write_buf_at bs : Z.of_nat (length bs) = sizeof write_args_t ->
    0 <= write_buf_off /\ write_buf_off + 4 <= sizeof write_args_t /\ wa_buf (decode write_args_t bs) = le32 (slice write_buf_off 4 bs);
  write_nbytes_at bs : Z.of_nat (length bs) = sizeof write_args_t ->
    0 <= write_nbytes_off /\ write_nbytes_off + 4 <= sizeof write_args_t /\ wa_nbytes (decode write_args_t bs) = le32 (slice write_nbytes_off 4 bs);
}.

(** The numbers of the calls and other constants. *)
Class SysConsts := {
  SYS_waitpid : Z; SYS_exit : Z; SYS_thr_exit : Z; SYS_thr_yield : Z; SYS_fork : Z; SYS_getpid : Z; SYS_sync : Z;
  SYS_mmap : Z; SYS_munmap : Z; SYS_open : Z; SYS_close : Z; SYS_read : Z; SYS_write : Z; SYS_dup : Z; SYS_dup2 : Z;
  SYS_mkdir : Z; SYS_rmdir : Z; SYS_unlink : Z; SYS_link : Z; SYS_rename : Z; SYS_chdir : Z; SYS_getdents : Z;
  SYS_brk : Z; SYS_lseek : Z; SYS_halt : Z; SYS_set_errno : Z; SYS_errno : Z; SYS_execve : Z; SYS_stat : Z;
  SYS_pipe : Z; SYS_uname : Z; SYS_debug : Z; SYS_kshell : Z;
  MAP_FAILED : Z; ENOSYS : Z;
  (** the offsets of two registers in regs_t *)
  r_eax : Z; r_edx : Z;
  (** the time of compilation *)
  version_string : list Z;
  (** calls whose argument points to a structure, and the others *)
  sys_distinct : NoDup
    ([SYS_waitpid; SYS_mmap; SYS_munmap; SYS_open; SYS_read; SYS_write; SYS_dup2; SYS_mkdir; SYS_rmdir; SYS_unlink; SYS_link; SYS_rename;
      SYS_chdir; SYS_getdents; SYS_lseek; SYS_execve; SYS_stat; SYS_debug] ++
     [SYS_exit; SYS_thr_exit; SYS_thr_yield; SYS_fork; SYS_getpid; SYS_sync; SYS_close; SYS_dup; SYS_brk; SYS_halt; SYS_set_errno; SYS_errno;
      SYS_pipe; SYS_uname; SYS_kshell]);
}.

(** ** The state of a call *)
Section State.
Context `{KL : KList} `{KG : KGeometry} `{MO : Mmobjs} `{MU : !Mmu} `{FO : FsOps}.
Record kern := mkKern {
  k_vm : vms;
  k_fs : vfs;
  (** memory allocated by the call *)
  k_heap : gmap Z (list Z);
  k_pages : gmap Z (list Z);
  (** words of kernel memory: the saved registers *)
  k_regs : Z -> Z
}.
Definition upd_vm (v : vms) (s : kern) : kern := mkKern v (k_fs s) (k_heap s) (k_pages s) (k_regs s).
Definition upd_fs (v : vfs) (s : kern) : kern := mkKern (k_vm s) v (k_heap s) (k_pages s) (k_regs s).
Definition upd_heap (f : gmap Z (list Z) -> gmap Z (list Z)) (s : kern) : kern := mkKern (k_vm s) (k_fs s) (f (k_heap s)) (k_pages s) (k_regs s).
Definition upd_pages (f : gmap Z (list Z) -> gmap Z (list Z)) (s : kern) : kern := mkKern (k_vm s) (k_fs s) (k_heap s) (f (k_pages s)) (k_regs s).
Definition upd_regs (f : (Z -> Z) -> Z -> Z) (s : kern) : kern := mkKern (k_vm s) (k_fs s) (k_heap s) (k_pages s) (f (k_regs s)).
Definition vm {A} (c : M vms A) : M kern A := fun s =>
  match c (k_vm s) with Ok (a, v) => Ok (a, upd_vm v s) | Err e => Err e end.
Definition fs {A} (c : M vfs A) : M kern A := fun s =>
  match c (k_fs s) with Ok (a, v) => Ok (a, upd_fs v s) | Err e => Err e end.
End State.

(** Reading a word of user memory without copying it in: it works where the
    page table has the page, with the bytes of the address space. *)
Class UserAccess `{KList} `{KGeometry} `{Mmobjs} `{!Mmu} `{!MmPages} := {
  user_load : Z -> M vms Z;
  can_load : vms -> Z -> Prop;
  can_load_env s s' va : can_load s va -> same_env s s' -> (forall o n, contents (objs s') o n = contents (objs s) o n) -> can_load s' va;
  user_load_ok s vs R va bs : cur_inv s vs R -> can_load s va -> reads_as (objs s) vs.*2 va 4 bs -> user_load va s = Ok (le32 bs, s);
}.

(** The calls about processes, as the calling thread sees them: what they do
    to the memory it has allocated is nothing, and [do_exit] and
    [kthread_exit] do not come back.  [do_execve], [do_pipe] and the kernel
    shell are not part of the repository. *)
Definition keeps_mem `{KList} `{KGeometry} `{Mmobjs} `{!Mmu} `{FsOps} {A} (c : M kern A) : Prop :=
  forall s a s', c s = Ok (a, s') -> k_heap s' = k_heap s /\ k_pages s' = k_pages s.
Class ProcCalls `{KList} `{KGeometry} `{Mmobjs} `{!Mmu} `{FsOps} := {
  (** the result and the status *)
  do_waitpid : Z -> Z -> M kern (Z * Z);
  do_exit : Z -> M kern unit;
  kthread_exit : Z -> M kern unit;
  (** [sched_make_runnable(curthr); sched_switch();] *)
  thr_yield : M kern unit;
  do_fork : Z -> M kern Z;
  p_pid : kern -> Z;
  kt_cancelled : kern -> bool;
  kt_retval : kern -> Z;
  pframe_clean_all : M kern unit;
  proc_kill_all : M kern unit;
  do_execve : Z -> Z -> Z -> Z -> M kern Z;
  do_pipe : M kern (Z * list Z);
  kshell_create : Z -> M kern Z;
  kshell_execute_next : Z -> M kern Z;
  kshell_destroy : Z -> M kern unit;
  do_exit_gone c s : exists e, do_exit c s = Err e;
  kthread_exit_gone c s : exists e, kthread_exit c s = Err e;
  do_waitpid_mem p o : keeps_mem (do_waitpid p o);
  thr_yield_mem : keeps_mem thr_yield;
  do_fork_mem r : keeps_mem (do_fork r);
  pframe_clean_all_mem : keeps_mem pframe_clean_all;
  proc_kill_all_mem : keeps_mem proc_kill_all;
  do_execve_mem f a e r : keeps_mem (do_execve f a e r);
  do_pipe_mem : keeps_mem do_pipe;
  kshell_create_mem t : keeps_mem (kshell_create t);
  kshell_execute_next_mem t : keeps_mem (kshell_execute_next t);
  kshell_destroy_mem t : keeps_mem (kshell_destroy t);
}.

(** ** Open files as [do_mmap] sees them

    The descriptors of [VfsSyscall] behind the interface [Files]. *)
Section Files.
Context `{KL : KList} `{SL : Slab} `{FO : FsOps} `{SM : StatModes} `{ER : KErrno} `{VC : VfsConsts} `{VO : !VnOps} `{FF : !FileOps}.
Implicit Types s : vfs.

Lemma sinv_open ext extf extf' s : (forall g, is_Some (files s !! g) -> extf' g = extf g) -> (forall g, 0 <= extf' g) ->
  sinv ext extf s -> sinv ext extf' s.
Proof. intros E E0 [H1 H2 H3 H4 H5 H6 H7 H8]. split; try done; [intros v; split; [apply H4|done]|]. intros f x Hx. rewrite E by eauto. by apply H5. Qed.
Lemma sinv_same ext extf extf' s : (forall g, extf' g = extf g) -> sinv ext extf s -> sinv ext extf' s.
Proof. intros E I. eapply sinv_open; [|intros g; rewrite E; apply I|done]. done. Qed.
Lemma nfds_cons f l g : nfds (f :: l) g = nfds l g + ind f g.
Proof. unfold nfds, ind. rewrite filter_cons. repeat case_decide; subst; cbn [length]; try congruence; lia. Qed.

(** The caller holds references to the files [F]. *)
Definition files_held s (F : list Z) : Prop :=
  (exists ext extf, sinv ext (fun g => extf g + nfds F g) s /\ forall g, 0 <= extf g) /\ Forall (fun f => is_Some (files s !! f)) F.

Lemma files_held_get s F fd : fd <> -1 -> files_held s F -> exists f s', fget fd s = Ok (f, s') /\ files_held s' (if f =? 0 then F else f :: F).
Proof.
  intros Hfd [(ext & extf & I & H0) HF]. destruct (fd_file s fd) as [f|] eqn:E.
  - destruct (fd_file_some _ _ _ E) as (_ & _ & Hf0). apply wp_ok. eapply fget_wp; [exact I|done|]. intros x Hx _ _ I'.
    rewrite (proj2 (Z.eqb_neq _ _) Hf0). split.
    + exists ext, extf. split; [|done]. eapply sinv_same; [|exact I']. intros g. cbn beta. rewrite nfds_cons. lia.
    + constructor; [cbn; rewrite lookup_insert_eq; eauto|]. eapply Forall_impl; [exact HF|]. intros g [z Hz]. cbn. destruct (decide (g = f)) as [->|].
      * rewrite lookup_insert_eq. eauto.
      * rewrite lookup_insert_ne by done. eauto.
  - exists 0, s. split; [|by split; [exists ext, extf|]]. destruct (Z.lt_ge_cases fd 0); [apply fget_neg; lia|]. apply fget_none; [done|].
    destruct (p_files s !! Z.to_nat fd) as [f|] eqn:El; [|done]. cbn. pose proof (lookup_lt_Some _ _ _ El) as Hl.
    rewrite (i_len _ _ _ I) in Hl. unfold fd_file in E. rewrite El, (proj2 (Z.ltb_ge fd 0)), (proj2 (Z.leb_gt _ _)) in E by lia. cbn in E.
    destruct (f =? 0) eqn:Ef; [by apply Z.eqb_eq|done].
Qed.
Lemma files_held_put s F f : files_held s (f :: F) -> exists s', fput f s = Ok (tt, s') /\ files_held s' F.
Proof.
  intros [(ext & extf & I & H0) [[x Hx] HF]%Forall_cons]. assert (sinv ext (fun g => (extf g + nfds F g) + ind f g) s) as I'.
  { eapply sinv_same; [|exact I]. intros g. cbn beta. rewrite nfds_cons. lia. }
  assert (forall g, 0 <= extf g + nfds F g) as H1 by (intros g; pose proof (H0 g); unfold nfds; lia).
  destruct (i_file _ _ _ I' f x Hx) as (Hf0 & Hv & Hp & Hr). rewrite ind_same in Hr. pose proof (sinv_vnode _ _ _ _ _ I Hx) as Ha.
  enough (wp (fput f) s (fun _ s' => files_held s' F)) as ([] & s' & ? & ?)%wp_ok by eauto.
  apply (fput_wp s f x); [apply I|done|done|by right| |].
  - intros Hm. split; [exists ext, extf; split; [|done]|].
    + eapply sinv_file; [exact I'|done|done|cbn; lia|exact H1|cbn; rewrite ind_same; lia|]. intros g Hg. cbn. rewrite ind_other by done. lia.
    + eapply Forall_impl; [exact HF|]. intros g [z Hz]. cbn. destruct (decide (g = f)) as [->|].
      * rewrite lookup_insert_eq. eauto.
      * rewrite lookup_insert_ne by done. eauto.
  - intros s1 Hone K R. assert (nfds (p_files s) f = 0 /\ extf f = 0 /\ nfds F f = 0) as (Hn & He & HnF).
    { pose proof (H0 f). unfold nfds in *. lia. }
    pose proof R as [_ _ E1 E2 E3 E4]. split; [exists ext, extf; split; [|done]|].
    + eapply (sinv_open _ (fun g => (extf g + nfds F g) + ind f g)); [|exact H1|].
      { intros g [z Hz]. cbn in Hz. apply lookup_delete_Some in Hz as [Hne _]. rewrite ind_other by congruence. lia. }
      eapply (sinv_step _ _ s s1 _ _ I' K R); try done; cbn; rewrite ?E1, ?E2; try done.
      * intros v Hv0. rewrite (nfiles_delete _ _ _ _ Hx), (proj2 (Z.eqb_neq _ _) Hv). lia.
      * intros g z [Hne Hz]%lookup_delete_Some. by apply I'.
      * intros g Hg. destruct (i_fd _ _ _ I' g Hg) as [|[z Hz]]; [by left|right]. rewrite lookup_delete_ne; [by exists z|].
        intros <-. apply list_elem_of_lookup in Hg as [i Hi]. pose proof (nfds_pos _ _ _ Hi). lia.
    + apply Forall_forall. intros g Hg. rewrite Forall_forall in HF. destruct (HF g Hg) as [z Hz]. cbn. rewrite E1, lookup_delete_ne; [by exists z|].
      intros <-. apply list_elem_of_lookup in Hg as [i Hi]. pose proof (nfds_pos _ _ _ Hi). lia.
Qed.

(** [do_mmap] asks for a file only after it has tested [fd] against -1. *)
#[refine] Definition vfs_files : Files := {|
  fstate := vfs;
  VmAccess.fget fd := if fd =? -1 then mret_ 0 else fget fd;
  VmAccess.fput := fput;
  VmAccess.f_vnode s f := from_option f_vnode 0 (files s !! f);
  VmAccess.f_mode s f := from_option f_mode 0 (files s !! f);
  fowns := files_held;
|}.
Proof.
  - intros s F fd H. destruct (Z.eqb_spec fd (-1)) as [->|Hfd]; [by exists 0, s|]. by apply files_held_get.
  - intros s F f. apply files_held_put.
Defined.
End Files.

(** ** Model *)
Section Model.
Context `{KL : KList} `{SL : Slab} `{KG : KGeometry} `{MO : Mmobjs} `{MU : !Mmu} `{MF : MapFlags} `{MP : !MmPages} `{PF : ProtFlags}.
Context `{FO : FsOps} `{SM : StatModes} `{ER : KErrno} `{VC : VfsConsts} `{VO : !VnOps} `{FF : !FileOps}.
Context `{KM : !KMem} `{UA : !UserAccess} `{PC : !ProcCalls} `{AL : ArgLayouts} `{SC : SysConsts}.
#[local] Existing Instance vfs_files.

(** *** Kernel memory *)
Definition kmalloc (n : Z) : M kern Z :=
  let! h := mget k_heap in
  match kmalloc_pick h n with
  | Some p => mput (upd_heap (<[p := kmalloc_junk h n]>)) ;;; mret_ p
  | None => mret_ 0
  end.
(** [kfree(NULL)] does nothing. *)
Definition kfree (p : Z) : M kern unit :=
  if p =? 0 then mret_ tt
  else
    let! _ := fun s => mthe (k_heap s !! p) s in
    mput (upd_heap (delete p)).
Definition page_alloc : M kern Z :=
  let! h := mget k_pages in
  match page_pick h with
  | Some p => mput (upd_pages (<[p := page_junk h]>)) ;;; mret_ p
  | None => mret_ 0
  end.
Definition page_free (p : Z) : M kern unit :=
  let! _ := fun s => mthe (k_pages s !! p) s in
  mput (upd_pages (delete p)).
(** Writing [bs] to the start of a block or page: past its end, or through
    NULL, is undefined. *)
Definition fill (b bs : list Z) : list Z := bs ++ drop (length bs) b.
Definition fits (b bs : list Z) : bool := (length bs <=? length b)%nat.
Definition heap_write (p : Z) (bs : list Z) : M kern unit :=
  match bs with
  | [] => mret_ tt
  | _ => let! b := fun s => mthe (k_heap s !! p) s in
         mguard (fits b bs) FUndef ;;; mput (upd_heap (<[p := fill b bs]>))
  end.
Definition page_write (p : Z) (bs : list Z) : M kern unit :=
  match bs with
  | [] => mret_ tt
  | _ => let! b := fun s => mthe (k_pages s !! p) s in
         mguard (fits b bs) FUndef ;;; mput (upd_pages (<[p := fill b bs]>))
  end.
(** The first [n] bytes. *)
Definition heap_read (p n : Z) : M kern (list Z) :=
  if n <=? 0 then mret_ []
  else let! b := fun s => mthe (k_heap s !! p) s in
       mguard (n <=? Z.of_nat (length b)) FUndef ;;; mret_ (take (Z.to_nat n) b).
Definition page_read (p n : Z) : M kern (list Z) :=
  if n <=? 0 then mret_ []
  else let! b := fun s => mthe (k_pages s !! p) s in
       mguard (n <=? Z.of_nat (length b)) FUndef ;;; mret_ (take (Z.to_nat n) b).
(** [p[i]] for a vector of pointers *)
Definition vec_get (p i : Z) : M kern Z :=
  let! b := fun s => mthe (k_heap s !! p) s in
  mguard ((0 <=? i) && (4 * i + 4 <=? Z.of_nat (length b))) FUndef ;;;
  mret_ (le32 (slice (4 * i) 4 b)).
Definition vec_set (p i v : Z) : M kern unit :=
  let! b := fun s => mthe (k_heap s !! p) s in
  mguard ((0 <=? i) && (4 * i + 4 <=? Z.of_nat (length b))) FUndef ;;;
  mput (upd_heap (<[p := list_inserts (Z.to_nat (4 * i)) (bytes32 v) b]>)).
(** The string at [p], which has to end inside its block. *)
Fixpoint until_nul (bs : list Z) : option (list ascii) :=
  match bs with
  | [] => None
  | b :: r => if b =? 0 then Some [] else (fun l => ascii_of_N (Z.to_N b) :: l) <$> until_nul r
  end.
Definition cstring (p : Z) : M kern (list ascii) :=
  let! b := fun s => mthe (k_heap s !! p) s in
  mthe (until_nul b).

(** *** errno *)
Definition set_errno (e : Z) : M kern unit := vm (mput (upd_errno e)).
(** [curthr->kt_errno = -err; return -1;] *)
Definition sys_fail (err : Z) : M kern Z := set_errno (- err) ;;; mret_ (-1).
(** [if (err < 0) { curthr->kt_errno = -err; return -1; } else return err;] *)
Definition sys_return (err : Z) : M kern Z := if err <? 0 then sys_fail err else mret_ err.

(** *** Arguments *)
(** [copy_from_user(&kern_args, arg, sizeof(t))] *)
Definition copy_in {A} (t : layout A) (arg : Z) : M kern (Z * A) :=
  let! (err, bs) := vm (copy_from_user arg (sizeof t)) in
  mret_ (err, decode t bs).

Definition user_strdup (ustr : argstr) : M kern Z :=
  let! kstr := kmalloc (u32 (as_len ustr + 1)) in
  if kstr =? 0 then set_errno ENOMEM ;;; mret_ 0
  else
    let! (ret, bs) := vm (copy_from_user (as_str ustr) (u32 (as_len ustr + 1))) in
    heap_write kstr bs ;;;
    if ret <? 0 then set_errno (- ret) ;;; kfree kstr ;;; mret_ 0
    else mret_ kstr.

(** [for (i = 0; kvec[i] != NULL; i++) kfree(kvec[i]);] *)
Fixpoint free_strings (fuel : nat) (kvec i : Z) : M kern unit :=
  match fuel with
  | O => mfail FFuel
  | S fuel =>
      let! p := vec_get kvec i in
      if p =? 0 then mret_ tt
      else kfree p ;;; free_strings fuel kvec (i + 1)
  end.
(** A vector has at most as many entries as bytes. *)
Definition vec_fuel (kvec : Z) : M kern nat := mget (fun s => S (length (default [] (k_heap s !! kvec)))).
(** [fail:] of [user_vecdup] *)
Definition vecdup_fail (kvec temp_kvec ret : Z) : M kern Z :=
  (if negb (kvec =? 0) then
     let! n := vec_fuel kvec in free_strings n kvec 0 ;;; kfree kvec
   else mret_ tt) ;;;
  kfree temp_kvec ;;;
  set_errno (- ret) ;;;
  mret_ 0.
(** [temp_kvec[i]] *)
Definition argstr_get (p i : Z) : M kern argstr :=
  let! b := fun s => mthe (k_heap s !! p) s in
  mguard ((i + 1) * sizeof argstr_t <=? Z.of_nat (length b)) FUndef ;;;
  mret_ (decode argstr_t (slice (i * sizeof argstr_t) (sizeof argstr_t) b)).
(** The loop over the strings, [n] of them left; the result is [ret] when
    one cannot be copied. *)
Fixpoint vecdup_loop (kvec temp_kvec i : Z) (n : nat) : M kern (option Z) :=
  match n with
  | O => mret_ None
  | S n =>
      let! a := argstr_get temp_kvec i in
      let! p := user_strdup a in
      vec_set kvec i p ;;;
      if p =? 0 then let! e := vm (mget kt_errno) in mret_ (Some (- e))
      else vecdup_loop kvec temp_kvec (i + 1) n
  end.
Definition user_vecdup (uvec : argvec) : M kern Z :=
  let! temp_kvec := kmalloc (u32 (u32 (av_len uvec + 1) * sizeof argstr_t)) in
  if temp_kvec =? 0 then vecdup_fail 0 temp_kvec (- ENOMEM)
  else
    let! kvec := kmalloc (u32 (u32 (av_len uvec + 1) * 4)) in
    if kvec =? 0 then vecdup_fail kvec temp_kvec (- ENOMEM)
    else
      let! (ret, bs) := vm (copy_from_user (av_vec uvec) (u32 (u32 (av_len uvec + 1) * sizeof argstr_t))) in
      heap_write temp_kvec bs ;;;
      if ret <? 0 then vecdup_fail kvec temp_kvec ret
      else
        let! r := vecdup_loop kvec temp_kvec 0 (Z.to_nat (av_len uvec)) in
        match r with
        | Some ret => vecdup_fail kvec temp_kvec ret
        | None =>
            vec_set kvec (av_len uvec) 0 ;;;
            kfree temp_kvec ;;;
            mret_ kvec
        end.

(** *** Reading and writing *)
Definition sys_read (arg : Z) : M kern Z :=
  let! (err, kern_args) := copy_in read_args_t arg in
  if err <? 0 then sys_fail err
  else
    let! buf := page_alloc in
    let! (readbytes, bs) := fs (do_read (ra_fd kern_args) (ra_nbytes kern_args)) in
    page_write buf bs ;;;
    if readbytes <? 0 then page_free buf ;;; sys_fail readbytes
    else
      let! ubuf := vm (user_load (u32 (arg + read_buf_off))) in
      let! out := page_read buf readbytes in
      let! err := vm (copy_to_user ubuf out) in
      if err <? 0 then page_free buf ;;; sys_fail err
      else page_free buf ;;; mret_ readbytes.

Definition sys_write (arg : Z) : M kern Z :=
  let! _ := copy_in write_args_t arg in
  let! (err, kern_args) := copy_in write_args_t arg in
  if err <? 0 then sys_fail err
  else
    let! buf := page_alloc in
    let! ubuf := vm (user_load (u32 (arg + write_buf_off))) in
    let! n := vm (user_load (u32 (arg + write_nbytes_off))) in
    let! (_, bs) := vm (copy_from_user ubuf n) in
    page_write buf bs ;;;
    let! ubuf := vm (user_load (u32 (arg + write_buf_off))) in
    let! n := vm (user_load (u32 (arg + write_nbytes_off))) in
    let! (err, bs) := vm (copy_from_user ubuf n) in
    page_write buf bs ;;;
    if err <? 0 then page_free buf ;;; sys_fail err
    else
      let! out := page_read buf (wa_nbytes kern_args) in
      let! writebytes := fs (do_write (wa_fd kern_args) out) in
      if writebytes <? 0 then page_free buf ;;; sys_fail writebytes
      else page_free buf ;;; mret_ writebytes.

(** The loop of [sys_getdents]: the result is the final [bytes], or the
    negative result of a call that failed. *)
Fixpoint getdents_loop (fuel : nat) (fd dirp count tail bytes : Z) : M kern (Z + Z) :=
  match fuel with
  | O => mfail FFuel
  | S fuel =>
      if bytes <? count then
        let! (readByteSize, bs) := fs (do_getdent fd) in
        heap_write dirp bs ;;;
        if readByteSize <? 0 then mret_ (inl readByteSize)
        else if readByteSize =? 0 then mret_ (inr bytes)
        else
          let! out := heap_read dirp SIZEOF_DIRENT in
          let! err := vm (copy_to_user tail out) in
          if err <? 0 then mret_ (inl err)
          else getdents_loop fuel fd dirp count (u32 (tail + SIZEOF_DIRENT)) (u32 (bytes + SIZEOF_DIRENT))
      else mret_ (inr bytes)
  end.
Definition sys_getdents (arg : Z) : M kern Z :=
  let! (err, kern_args) := copy_in getdents_args_t arg in
  if err <? 0 then sys_fail err
  else
    let! dirp := kmalloc SIZEOF_DIRENT in
    let! tail := vm (user_load (u32 (arg + getdents_dirp_off))) in
    let! r := getdents_loop (S (Z.to_nat (ga_count kern_args))) (ga_fd kern_args) dirp (ga_count kern_args) tail 0 in
    match r with
    | inl e => kfree dirp ;;; sys_fail e
    | inr bytes => kfree dirp ;;; mret_ (s32 bytes)
    end.

(** *** Descriptors *)
Definition sys_close (fd : Z) : M kern Z :=
  let! err := fs (do_close fd) in sys_return err.
Definition sys_dup (fd : Z) : M kern Z :=
  let! err := fs (do_dup fd) in sys_return err.
Definition sys_dup2 (arg : Z) : M kern Z :=
  let! (err, kern_args) := copy_in dup2_args_t arg in
  if err <? 0 then sys_fail err
  else let! err := fs (do_dup2 (da_ofd kern_args) (da_nfd kern_args)) in sys_return err.
Definition sys_lseek (args : Z) : M kern Z :=
  let! (err, kargs) := copy_in lseek_args_t args in
  if err <? 0 then sys_fail err
  else let! err := fs (do_lseek (ls_fd kargs) (ls_offset kargs) (ls_whence kargs)) in sys_return err.

(** *** Paths *)
Definition sys_mkdir (arg : Z) : M kern Z :=
  let! (err, kern_args) := copy_in mkdir_args_t arg in
  if err <? 0 then sys_fail err
  else
    let! path := user_strdup (mk_path kern_args) in
    if path =? 0 then set_errno EINVAL ;;; mret_ (-1)
    else
      let! p := cstring path in
      let! err := fs (do_mkdir p) in
      kfree path ;;;
      sys_return err.
Definition sys_rmdir (arg : Z) : M kern Z :=
  let! (err, kern_args) := copy_in argstr_t arg in
  if err <? 0 then sys_fail err
  else
    let! path := user_strdup kern_args in
    if path =? 0 then set_errno EINVAL ;;; mret_ (-1)
    else
      let! p := cstring path in
      let! err := fs (do_rmdir p) in
      kfree path ;;;
      sys_return err.
Definition sys_unlink (arg : Z) : M kern Z :=
  let! (err, kern_args) := copy_in argstr_t arg in
  if err <? 0 then sys_fail err
  else
    let! path := user_strdup kern_args in
    if path =? 0 then set_errno EINVAL ;;; mret_ (-1)
    else
      let! p := cstring path in
      let! err := fs (do_unlink p) in
      kfree path ;;;
      sys_return err.
Definition sys_link (arg : Z) : M kern Z :=
  let! (err, kern_args) := copy_in link_args_t arg in
  if err <? 0 then sys_fail err
  else
    let! to := user_strdup (la_to kern_args) in
    if to =? 0 then set_errno EINVAL ;;; mret_ (-1)
    else
      let! from := user_strdup (la_from kern_args) in
      if from =? 0 then set_errno EINVAL ;;; kfree to ;;; mret_ (-1)
      else
        let! f := cstring from in
        let! t := cstring to in
        let! err := fs (do_link f t) in
        kfree to ;;;
        kfree from ;;;
        sys_return err.
Definition sys_rename (arg : Z) : M kern Z :=
  let! (err, kern_args) := copy_in rename_args_t arg in
  if err <? 0 then sys_fail err
  else
    let! oldname := user_strdup (rn_oldname kern_args) in
    if oldname =? 0 then set_errno EINVAL ;;; mret_ (-1)
    else
      let! newname := user_strdup (rn_newname kern_args) in
      if newname =? 0 then set_errno EINVAL ;;; kfree oldname ;;; mret_ (-1)
      else
        let! o := cstring oldname in
        let! n := cstring newname in
        let! err := fs (do_rename o n) in
        kfree newname ;;;
        kfree oldname ;;;
        sys_return err.
Definition sys_chdir (arg : Z) : M kern Z :=
  let! (err, kern_args) := copy_in argstr_t arg in
  if err <? 0 then sys_fail err
  else
    let! path := user_strdup kern_args in
    if path =? 0 then set_errno EINVAL ;;; mret_ (-1)
    else
      let! p := cstring path in
      let! err := fs (do_chdir p) in
      kfree path ;;;
      sys_return err.
Definition sys_open (arg : Z) : M kern Z :=
  let! (err, kern_args) := copy_in open_args_t arg in
  if err <? 0 then sys_fail err
  else
    let! path := user_strdup (oa_filename kern_args) in
    if path =? 0 then set_errno EINVAL ;;; mret_ (-1)
    else
      let! p := cstring path in
      let! err := fs (do_open p (oa_flags kern_args)) in
      kfree path ;;;
      sys_return err.
Definition sys_stat (arg : Z) : M kern Z :=
  let! (err, kern_args) := copy_in stat_args_t arg in
  if err <? 0 then set_errno EFAULT ;;; mret_ (-1)
  else
    let! path := user_strdup (sa_path kern_args) in
    if path =? 0 then set_errno EINVAL ;;; mret_ (-1)
    else
      let! p := cstring path in
      let! (ret, buf) := fs (do_stat p) in
      let! ret := (if ret =? 0 then vm (copy_to_user (sa_buf kern_args) buf) else mret_ ret) in
      if negb (ret =? 0) then kfree path ;;; sys_fail ret
      else kfree path ;;; mret_ 0.

(** *** Memory *)
Definition sys_munmap (args : Z) : M kern Z :=
  let! (err, kargs) := copy_in munmap_args_t args in
  if negb (err =? 0) then set_errno EFAULT ;;; mret_ (-1)
  else
    let! err := vm (do_munmap (mu_addr kargs) (mu_len kargs)) in
    if err <? 0 then sys_fail err else mret_ 0.
(** [do_mmap] works on the address space and the open files. *)
Definition vm_fs {A} (c : M (vms * vfs) A) : M kern A := fun s =>
  match c (k_vm s, k_fs s) with Ok (a, (v, f)) => Ok (a, upd_fs f (upd_vm v s)) | Err e => Err e end.
Definition sys_mmap (arg : Z) : M kern Z :=
  let! (err, kargs) := copy_in mmap_args_t arg in
  if err <? 0 then set_errno EFAULT ;;; mret_ MAP_FAILED
  else
    let! (err, ret) := vm_fs (do_mmap (mma_addr kargs) (mma_len kargs) (mma_prot kargs) (mma_flags kargs) (mma_fd kargs) (mma_off kargs)) in
    if err <? 0 then set_errno (- err) ;;; mret_ MAP_FAILED
    else mret_ ret.
Definition sys_brk (addr : Z) : M kern Z :=
  let! (err, ret) := vm (do_brk addr) in
  if err =? 0 then mret_ ret else sys_fail err.

(** *** Processes *)
Definition sys_waitpid (args : Z) : M kern Z :=
  let! (err, kargs) := copy_in waitpid_args_t args in
  if err <? 0 then set_errno EFAULT ;;; mret_ (-1)
  else
    let! (p, s) := do_waitpid (wpa_pid kargs) (wpa_options kargs) in
    if p <? 0 then sys_fail p
    else
      let! err := (if negb (wpa_status kargs =? 0) then vm (copy_to_user (wpa_status kargs) (bytes32 s)) else mret_ 0) in
      if err <? 0 then set_errno EFAULT ;;; mret_ (-1)
      else mret_ p.
Definition sys_sync : M kern unit := pframe_clean_all.
Definition sys_halt : M kern unit := proc_kill_all.
Definition sys_fork (regs : Z) : M kern Z :=
  let! ret := do_fork regs in
  if ret <? 0 then sys_fail ret else mret_ ret.
Definition free_vector (vect : Z) : M kern unit :=
  let! n := vec_fuel vect in
  free_strings n vect 0 ;;;
  kfree vect.
(** [cleanup:] of [sys_execve] *)
Definition execve_cleanup (kern_filename kern_argv kern_envp : Z) : M kern Z :=
  (if negb (kern_filename =? 0) then kfree kern_filename else mret_ tt) ;;;
  (if negb (kern_argv =? 0) then free_vector kern_argv else mret_ tt) ;;;
  (if negb (kern_envp =? 0) then free_vector kern_envp else mret_ tt) ;;;
  let! e := vm (mget kt_errno) in
  mret_ (if negb (e =? 0) then -1 else 0).
Definition sys_execve (args regs : Z) : M kern Z :=
  let! (err, kern_args) := copy_in execve_args_t args in
  if err <? 0 then set_errno (- err) ;;; execve_cleanup 0 0 0
  else
    let! kern_filename := user_strdup (ea_filename kern_args) in
    if kern_filename =? 0 then execve_cleanup 0 0 0
    else
      let! kern_argv := (if negb (av_vec (ea_argv kern_args) =? 0) then user_vecdup (ea_argv kern_args) else mret_ 0) in
      if negb (av_vec (ea_argv kern_args) =? 0) && (kern_argv =? 0) then execve_cleanup kern_filename 0 0
      else
        let! kern_envp := (if negb (av_vec (ea_envp kern_args) =? 0) then user_vecdup (ea_envp kern_args) else mret_ 0) in
        if negb (av_vec (ea_envp kern_args) =? 0) && (kern_envp =? 0) then execve_cleanup kern_filename kern_argv 0
        else
          let! err := do_execve kern_filename kern_argv kern_envp regs in
          set_errno (- err) ;;;
          execve_cleanup kern_filename kern_argv kern_envp.

(** *** Other calls *)
Definition sys_pipe (arg : Z) : M kern Z :=
  let! (ret, kern_args) := do_pipe in
  let! ret := (if ret =? 0 then vm (copy_to_user arg kern_args) else mret_ ret) in
  if negb (ret =? 0) then sys_fail ret else mret_ 0.
Definition c_string (l : list ascii) : list Z := map (fun c => Z.of_N (N_of_ascii c)) l ++ [0].
(** The copies of [sys_uname], until one fails. *)
Fixpoint uname_copies (l : list (Z * list Z)) : M kern Z :=
  match l with
  | [] => mret_ 0
  | (a, bs) :: r =>
      let! ret := vm (copy_to_user a bs) in
      if negb (ret =? 0) then mret_ ret else uname_copies r
  end.
Definition sys_uname (arg : Z) : M kern Z :=
  let! ret := uname_copies
    [(u32 (arg + uts_sysname), c_string ["W"; "e"; "e"; "n"; "i"; "x"]%char);
     (u32 (arg + uts_release), c_string ["1"; "."; "2"]%char);
     (u32 (arg + uts_version), version_string);
     (u32 (arg + uts_nodename), c_string []);
     (u32 (arg + uts_machine), c_string [])] in
  if negb (ret =? 0) then sys_fail ret else mret_ 0.
(** The message is printed; without one [kfree(NULL)] does nothing. *)
Definition sys_debug (arg : Z) : M kern Z :=
  let! (err, kern_args) := copy_in argstr_t arg in
  if err <? 0 then sys_fail err
  else
    let! message := user_strdup kern_args in
    kfree message ;;;
    mret_ 0.
(** [while ((err = kshell_execute_next(ksh)) > 0);] *)
Fixpoint kshell_loop (fuel : nat) (ksh : Z) : M kern Z :=
  match fuel with
  | O => mfail FFuel
  | S fuel =>
      let! err := kshell_execute_next ksh in
      if 0 <? err then kshell_loop fuel ksh else mret_ err
  end.
Definition sys_kshell (fuel : nat) (ttyid : Z) : M kern Z :=
  let! ksh := kshell_create ttyid in
  if ksh =? 0 then set_errno ENODEV ;;; mret_ (-1)
  else
    let! err := kshell_loop fuel ksh in
    kshell_destroy ksh ;;;
    if err <? 0 then sys_fail err else mret_ 0.

(** *** Dispatch

    [fuel] bounds the number of commands of a kernel shell. *)
Definition syscall_dispatch (fuel : nat) (sysnum args regs : Z) : M kern Z :=
  if sysnum =? SYS_waitpid then sys_waitpid args
  else if sysnum =? SYS_exit then do_exit (s32 args) ;;; mfail FAssert
  else if sysnum =? SYS_thr_exit then kthread_exit args ;;; mfail FAssert
  else if sysnum =? SYS_thr_yield then thr_yield ;;; mret_ 0
  else if sysnum =? SYS_fork then sys_fork regs
  else if sysnum =? SYS_getpid then mget p_pid
  else if sysnum =? SYS_sync then sys_sync ;;; mret_ 0
  else if sysnum =? SYS_mmap then let! r := sys_mmap args in mret_ (s32 r)
  else if sysnum =? SYS_munmap then sys_munmap args
  else if sysnum =? SYS_open then sys_open args
  else if sysnum =? SYS_close then sys_close (s32 args)
  else if sysnum =? SYS_read then sys_read args
  else if sysnum =? SYS_write then sys_write args
  else if sysnum =? SYS_dup then sys_dup (s32 args)
  else if sysnum =? SYS_dup2 then sys_dup2 args
  else if sysnum =? SYS_mkdir then sys_mkdir args
  else if sysnum =? SYS_rmdir then sys_rmdir args
  else if sysnum =? SYS_unlink then sys_unlink args
  else if sysnum =? SYS_link then sys_link args
  else if sysnum =? SYS_rename then sys_rename args
  else if sysnum =? SYS_chdir then sys_chdir args
  else if sysnum =? SYS_getdents then sys_getdents args
  else if sysnum =? SYS_brk then let! r := sys_brk args in mret_ (s32 r)
  else if sysnum =? SYS_lseek then sys_lseek args
  else if sysnum =? SYS_halt then sys_halt ;;; mret_ (-1)
  else if sysnum =? SYS_set_errno then set_errno (s32 args) ;;; mret_ 0
  else if sysnum =? SYS_errno then vm (mget kt_errno)
  else if sysnum =? SYS_execve then sys_execve args regs
  else if sysnum =? SYS_stat then sys_stat args
  else if sysnum =? SYS_pipe then sys_pipe args
  else if sysnum =? SYS_uname then sys_uname args
  else if sysnum =? SYS_debug then sys_debug args
  else if sysnum =? SYS_kshell then sys_kshell fuel (s32 args)
  else set_errno ENOSYS ;;; mret_ (-1).

(** [regs->r_eax] and [regs->r_edx] are words of memory. *)
Definition load_reg (a : Z) : M kern Z := mget (fun s => k_regs s a).
Definition store_reg (a v : Z) : M kern unit := mput (upd_regs (fun m x => if x =? a then v else m x)).
(** A cancelled thread leaves before and after the call. *)
Definition leave_if_cancelled : M kern unit :=
  let! c := mget kt_cancelled in
  if c then let! r := mget kt_retval in kthread_exit r else mret_ tt.
Definition syscall_handler (fuel : nat) (regs : Z) : M kern unit :=
  let! sysnum := load_reg (regs + r_eax) in
  let! args := load_reg (regs + r_edx) in
  leave_if_cancelled ;;;
  let! ret := syscall_dispatch fuel (u32 sysnum) (u32 args) regs in
  leave_if_cancelled ;;;
  store_reg (regs + r_eax) (u32 ret).
End Model.
