(* ===== verification/SyscallThm.v ===== *)
(** * api/syscall.c: theorems

    Every system call gives back the memory it allocates; reading and
    writing move exactly the user's bytes; calls on paths pass the user's
    string on; and where the code relies on the user's lengths. *)
From stdpp Require Import base gmap list fin_maps.
From Stdlib Require Import ZArith Lia Ascii.
From S2P Require Import Prelude KEnv Vmmap VmAccess Vnode Namev VfsSyscall Syscall.
Open Scope Z_scope.
Open Scope c_scope.

(** ** Blocks held by a call *)
(** [h] is [h0] with the new blocks [A]. *)
Record held (h0 : gmap Z (list Z)) (A : list Z) (h : gmap Z (list Z)) : Prop := {
  held_nodup : NoDup A;
  held_new p : p ∈ A -> p <> 0 /\ h0 !! p = None /\ is_Some (h !! p);
  held_old p : p ∉ A -> h !! p = h0 !! p;
}.
Lemma held_refl h : held h [] h.
Proof. split; [constructor|by intros p ?%elem_of_nil|done]. Qed.
Lemma held_nil h0 h : held h0 [] h -> h = h0.
Proof. intros [_ _ H]. apply map_eq. intros p. apply H, not_elem_of_nil. Qed.
Lemma held_perm h0 A A' h : A ≡ₚ A' -> held h0 A h -> held h0 A' h.
Proof. intros E [H1 H2 H3]. split; [by rewrite <- E|intros p; rewrite <- E; apply H2|intros p; rewrite <- E; apply H3]. Qed.
Lemma held_alloc h0 A h p b : held h0 A h -> p <> 0 -> h !! p = None -> held h0 (p :: A) (<[p := b]> h).
Proof.
  intros [H1 H2 H3] Hp Hn. assert (p ∉ A) as HA by (intros (_ & _ & [? ?])%H2; congruence). split.
  - by apply NoDup_cons.
  - intros q [->|Hq]%elem_of_cons; [split; [done|]; split; [by rewrite <- H3|rewrite lookup_insert_eq; eauto]|].
    destruct (H2 q Hq) as (? & ? & ?). split; [done|]. split; [done|]. destruct (decide (q = p)) as [->|]; [done|]. by rewrite lookup_insert_ne.
  - intros q [Hne Hq]%not_elem_of_cons. rewrite lookup_insert_ne by done. by apply H3.
Qed.
Lemma held_write h0 A h p b : held h0 A h -> p ∈ A -> held h0 A (<[p := b]> h).
Proof.
  intros [H1 H2 H3] Hp. split; [done| |].
  - intros q Hq. destruct (H2 q Hq) as (? & ? & ?). split; [done|]. split; [done|]. destruct (decide (q = p)) as [->|]; [rewrite lookup_insert_eq; eauto|by rewrite lookup_insert_ne].
  - intros q Hq. rewrite lookup_insert_ne by (by intros ->). by apply H3.
Qed.
Lemma held_free h0 A h p : held h0 (p :: A) h -> held h0 A (delete p h).
Proof.
  intros [H1 H2 H3]. apply NoDup_cons in H1 as [Hp H1]. split; [done| |].
  - intros q Hq. destruct (H2 q) as (? & ? & ?); [by right|]. split; [done|]. split; [done|]. by rewrite lookup_delete_ne by (by intros ->).
  - intros q Hq. destruct (decide (q = p)) as [->|Hne]; [rewrite lookup_delete_eq; symmetry; apply H2; by left|].
    rewrite lookup_delete_ne by done. apply H3. by apply not_elem_of_cons.
Qed.

(** ** Partial correctness of a run *)
Definition wlp {S A} (c : M S A) (s : S) (Q : A -> S -> Prop) : Prop := forall a s', c s = Ok (a, s') -> Q a s'.
Lemma wlp_mono {S A} (c : M S A) s (P Q : A -> S -> Prop) : wlp c s P -> (forall a s', P a s' -> Q a s') -> wlp c s Q.
Proof. intros H HQ a s' E. by apply HQ, H. Qed.
Lemma wlp_ret {S A} (a : A) (s : S) Q : Q a s -> wlp (mret_ a) s Q.
Proof. by intros H ? ? [= <- <-]. Qed.
Lemma wlp_bind {S A B} (c : M S A) (k : A -> M S B) s Q : wlp c s (fun a s' => wlp (k a) s' Q) -> wlp (mbind_ c k) s Q.
Proof. intros H b s2 (a & s1 & E1 & E2)%mbind_Ok. by apply (H a s1). Qed.
Lemma wlp_fail {S A} f (s : S) (Q : A -> S -> Prop) : wlp (mfail f) s Q.
Proof. by intros ? ? ?. Qed.

Section Mem.
Context `{KL : KList} `{SL : Slab} `{KG : KGeometry} `{MO : Mmobjs} `{MU : !Mmu} `{MF : MapFlags} `{MP : !MmPages} `{PF : ProtFlags}.
Context `{FO : FsOps} `{SM : StatModes} `{ER : KErrno} `{VC : VfsConsts} `{VO : !VnOps} `{FF : !FileOps}.
Context `{KM : !KMem} `{UA : !UserAccess} `{PC : !ProcCalls} `{AL : ArgLayouts} `{SC : SysConsts}.
Implicit Types s : kern.

(** In [s] the call that started in [s0] holds the blocks [A] and pages [B]. *)
Record holds_mem s0 (A B : list Z) s : Prop := {
  mem_heap : held (k_heap s0) A (k_heap s);
  mem_pages : held (k_pages s0) B (k_pages s);
  mem_null : k_heap s0 !! 0 = None /\ k_pages s0 !! 0 = None;
}.
Lemma mem_perm s0 A A' B s : A ≡ₚ A' -> holds_mem s0 A B s -> holds_mem s0 A' B s.
Proof. intros E [H1 H2 H3]. split; [by eapply held_perm|done|done]. Qed.
(** NULL is no block. *)
Lemma mem_heap_null s0 A B s : holds_mem s0 A B s -> k_heap s !! 0 = None.
Proof. intros [H1 _ [H3 _]]. rewrite (held_old _ _ _ H1); [done|]. by intros [? _]%(held_new _ _ _ H1). Qed.
Lemma mem_pages_null s0 A B s : holds_mem s0 A B s -> k_pages s !! 0 = None.
Proof. intros [_ H2 [_ H3]]. rewrite (held_old _ _ _ H2); [done|]. by intros [? _]%(held_new _ _ _ H2). Qed.

Lemma wlp_keeps {T} (c : M kern T) s s0 A B : keeps_mem c -> holds_mem s0 A B s -> wlp c s (fun _ s' => holds_mem s0 A B s').
Proof. intros K H a s' E. destruct (K _ _ _ E) as [E1 E2]. destruct H. split; [by rewrite E1|by rewrite E2|done]. Qed.
Lemma vm_keeps {T} (c : M vms T) : keeps_mem (vm c).
Proof. intros s a s'. unfold vm. destruct (c (k_vm s)) as [[? ?]|]; [|done]. by intros [= <- <-]. Qed.
Lemma fs_keeps {T} (c : M vfs T) : keeps_mem (fs c).
Proof. intros s a s'. unfold fs. destruct (c (k_fs s)) as [[? ?]|]; [|done]. by intros [= <- <-]. Qed.
Lemma vm_fs_keeps {T} (c : M (vms * vfs) T) : keeps_mem (vm_fs c).
Proof. intros s a s'. unfold vm_fs. destruct (c _) as [[? [? ?]]|]; [|done]. by intros [= <- <-]. Qed.
Lemma mget_keeps {T} (f : kern -> T) : keeps_mem (mget f).
Proof. by intros s a s' [= <- <-]. Qed.
Lemma copy_in_keeps {T} (t : layout T) arg : keeps_mem (copy_in t arg).
Proof. intros s a s' ([e bs] & s1 & E1 & [= <- <-])%mbind_Ok. by apply vm_keeps in E1. Qed.

Lemma wlp_kmalloc n s s0 A B Q : holds_mem s0 A B s -> Q 0 s -> (forall p s', p <> 0 -> holds_mem s0 (p :: A) B s' -> Q p s') -> wlp (kmalloc n) s Q.
Proof.
  intros [H1 H2 H0] Q0 HQ. unfold kmalloc. apply wlp_bind. intros h s1 [= <- <-]. destruct (kmalloc_pick (k_heap s) n) as [p|] eqn:E; [|by apply wlp_ret].
  destruct (kmalloc_fresh _ _ _ E) as [Hp Hn]. intros a s' [= <- <-]. apply HQ; [done|]. split; [by apply held_alloc|done..].
Qed.
Lemma wlp_page_alloc s s0 A B Q : holds_mem s0 A B s -> Q 0 s -> (forall p s', p <> 0 -> holds_mem s0 A (p :: B) s' -> Q p s') -> wlp page_alloc s Q.
Proof.
  intros [H1 H2 H0] Q0 HQ. unfold page_alloc. apply wlp_bind. intros h s1 [= <- <-]. destruct (page_pick (k_pages s)) as [p|] eqn:E; [|by apply wlp_ret].
  destruct (page_fresh _ _ E) as [Hp Hn]. intros a s' [= <- <-]. apply HQ; [done|]. split; [done|by apply held_alloc|done].
Qed.
Lemma wlp_the_heap p s s0 A B (Q : list Z -> kern -> Prop) : holds_mem s0 A B s -> (forall b, k_heap s !! p = Some b -> p <> 0 -> Q b s) ->
  wlp (fun s => mthe (k_heap s !! p) s) s Q.
Proof.
  intros HM HQ a s'. destruct (k_heap s !! p) as [b|] eqn:E; [|done]. intros [= <- <-]. apply HQ; [done|]. intros ->. by rewrite (mem_heap_null _ _ _ _ HM) in E.
Qed.
Lemma wlp_the_page p s s0 A B (Q : list Z -> kern -> Prop) : holds_mem s0 A B s -> (forall b, k_pages s !! p = Some b -> p <> 0 -> Q b s) ->
  wlp (fun s => mthe (k_pages s !! p) s) s Q.
Proof.
  intros HM HQ a s'. destruct (k_pages s !! p) as [b|] eqn:E; [|done]. intros [= <- <-]. apply HQ; [done|]. intros ->. by rewrite (mem_pages_null _ _ _ _ HM) in E.
Qed.
Lemma wlp_guard {T} (b : bool) f (s : T) (Q : unit -> T -> Prop) : (b = true -> Q tt s) -> wlp (mguard b f) s Q.
Proof. intros H. destruct b; [by apply wlp_ret, H|apply wlp_fail]. Qed.

Lemma wlp_kfree p s s0 A A' B Q : holds_mem s0 A B s -> A ≡ₚ p :: A' -> (forall s', holds_mem s0 A' B s' -> Q tt s') -> wlp (kfree p) s Q.
Proof.
  intros HM E HQ. apply (mem_perm _ _ _ _ _ E) in HM. unfold kfree. destruct (held_new _ _ _ (mem_heap _ _ _ _ HM) p) as [Hp _]; [by left|].
  rewrite (proj2 (Z.eqb_neq _ _) Hp). apply wlp_bind. eapply wlp_the_heap; [exact HM|]. intros b Hb _ a s' [= <- <-]. apply HQ.
  destruct HM as [H1 H2 H3]. split; [by apply held_free|done..].
Qed.
Lemma wlp_kfree_null s Q : Q tt s -> wlp (kfree 0) s Q.
Proof. apply wlp_ret. Qed.
Lemma wlp_page_free p s s0 A B Q : holds_mem s0 A B s -> p = 0 \/ (exists B', B ≡ₚ p :: B' /\ forall s', holds_mem s0 A B' s' -> Q tt s') -> wlp (page_free p) s Q.
Proof.
  intros HM Hp. apply wlp_bind. eapply wlp_the_page; [exact HM|]. intros b Hb H0. destruct Hp as [|(B' & E & HQ)]; [done|].
  intros a s' [= <- <-]. apply HQ. destruct HM as [H1 H2 H3]. apply (held_perm _ _ _ _ E) in H2. split; [done|by apply held_free|done].
Qed.
Lemma wlp_heap_write p bs s s0 A B Q : holds_mem s0 A B s -> p = 0 \/ p ∈ A -> (forall s', holds_mem s0 A B s' -> Q tt s') -> wlp (heap_write p bs) s Q.
Proof.
  intros HM Hp HQ. unfold heap_write. destruct bs as [|b0 bs]; [by apply wlp_ret, HQ|]. apply wlp_bind. eapply wlp_the_heap; [exact HM|]. intros b Hb H0.
  apply wlp_bind, wlp_guard. intros _ a s' [= <- <-]. apply HQ. destruct HM as [H1 H2 H3]. destruct Hp as [|Hp]; [done|]. split; [by apply held_write|done..].
Qed.
Lemma wlp_page_write p bs s s0 A B Q : holds_mem s0 A B s -> p = 0 \/ p ∈ B -> (forall s', holds_mem s0 A B s' -> Q tt s') -> wlp (page_write p bs) s Q.
Proof.
  intros HM Hp HQ. unfold page_write. destruct bs as [|b0 bs]; [by apply wlp_ret, HQ|]. apply wlp_bind. eapply wlp_the_page; [exact HM|]. intros b Hb H0.
  apply wlp_bind, wlp_guard. intros _ a s' [= <- <-]. apply HQ. destruct HM as [H1 H2 H3]. destruct Hp as [|Hp]; [done|]. split; [done|by apply held_write|done].
Qed.
Lemma heap_read_keeps p n : keeps_mem (heap_read p n).
Proof.
  intros s a s'. unfold heap_read. destruct (n <=? 0); [by intros [= <- <-]|]. intros (b & s1 & E1 & ([] & s2 & E2 & E3)%mbind_Ok)%mbind_Ok.
  destruct (k_heap s !! p); inversion E1; subst. unfold mguard in E2. case_match; inversion E2; subst. by inversion E3.
Qed.
Lemma page_read_keeps p n : keeps_mem (page_read p n).
Proof.
  intros s a s'. unfold page_read. destruct (n <=? 0); [by intros [= <- <-]|]. intros (b & s1 & E1 & ([] & s2 & E2 & E3)%mbind_Ok)%mbind_Ok.
  destruct (k_pages s !! p); inversion E1; subst. unfold mguard in E2. case_match; inversion E2; subst. by inversion E3.
Qed.
Lemma cstring_keeps p : keeps_mem (cstring p).
Proof.
  intros s a s' (b & s1 & E1 & E2)%mbind_Ok. destruct (k_heap s !! p); inversion E1; subst. destruct (until_nul b); by inversion E2.
Qed.
Lemma set_errno_keeps e : keeps_mem (set_errno e).
Proof. apply vm_keeps. Qed.
Lemma sys_fail_keeps e : keeps_mem (sys_fail e).
Proof. intros s a s' ([] & s1 & E1 & [= <- <-])%mbind_Ok. by apply set_errno_keeps in E1. Qed.
Lemma sys_return_keeps e : keeps_mem (sys_return e).
Proof. unfold sys_return. destruct (e <? 0); [apply sys_fail_keeps|by intros s a s' [= <- <-]]. Qed.

Lemma wlp_strdup u s s0 A B Q : holds_mem s0 A B s -> (forall s', holds_mem s0 A B s' -> Q 0 s') -> (forall p s', p <> 0 -> holds_mem s0 (p :: A) B s' -> Q p s') ->
  wlp (user_strdup u) s Q.
Proof.
  intros HM H0 HQ. unfold user_strdup. apply wlp_bind. eapply wlp_kmalloc; [exact HM| |].
  - cbn. apply wlp_bind. eapply wlp_mono; [eapply wlp_keeps; [apply set_errno_keeps|exact HM]|]. intros ? s1 H1. by apply wlp_ret, H0.
  - intros p s1 Hp H1. rewrite (proj2 (Z.eqb_neq _ _) Hp). apply wlp_bind.
    eapply wlp_mono; [eapply wlp_keeps; [apply vm_keeps|exact H1]|]. intros [ret bs] s2 H2. apply wlp_bind.
    eapply wlp_heap_write; [exact H2|right; by left|]. intros s3 H3. destruct (ret <? 0); [|by apply wlp_ret, HQ].
    apply wlp_bind. eapply wlp_mono; [eapply wlp_keeps; [apply set_errno_keeps|exact H3]|]. intros ? s4 H4.
    apply wlp_bind. eapply wlp_kfree; [exact H4|done|]. intros s5 H5. by apply wlp_ret, H0.
Qed.
End Mem.

(** The tactic follows a call and keeps track of what it holds. *)
Create HintDb sys_mem.
Create HintDb sys_calls.
#[export] Hint Resolve vm_keeps fs_keeps vm_fs_keeps mget_keeps copy_in_keeps heap_read_keeps page_read_keeps cstring_keeps
  set_errno_keeps sys_fail_keeps sys_return_keeps do_waitpid_mem thr_yield_mem do_fork_mem pframe_clean_all_mem proc_kill_all_mem
  do_execve_mem do_pipe_mem kshell_create_mem kshell_execute_next_mem kshell_destroy_mem : sys_mem.
Ltac mem_ok := match goal with H : holds_mem _ _ _ ?s |- holds_mem _ _ _ ?s => exact H end.
Ltac mem_step :=
  match goal with
  | |- wlp (mbind_ _ _) _ _ => apply wlp_bind
  | |- wlp (mret_ _) _ _ => apply wlp_ret
  | |- wlp (mfail _) _ _ => apply wlp_fail
  | |- wlp (if ?b then _ else _) _ _ => let E := fresh "E" in destruct b eqn:E; try (exfalso; lia)
  | |- wlp (match ?p with pair _ _ => _ end) _ _ => destruct p
  | |- wlp (match ?r with inl _ => _ | inr _ => _ end) _ _ => destruct r
  | |- wlp (kmalloc _) _ _ => eapply wlp_kmalloc; [mem_ok| |intros]
  | |- wlp (user_strdup _) _ _ => eapply wlp_strdup; [mem_ok|intros|intros]
  | |- wlp page_alloc _ _ => eapply wlp_page_alloc; [mem_ok| |intros]
  | |- wlp (kfree 0) _ _ => apply wlp_kfree_null
  | |- wlp (kfree _) _ _ => eapply wlp_kfree; [mem_ok|solve [reflexivity|apply perm_swap]|intros]
  | |- wlp (page_free _) _ _ => eapply wlp_page_free; [mem_ok|first [left; reflexivity|right; eexists; split; [reflexivity|intros]]]
  | |- wlp (page_write _ _) _ _ => eapply wlp_page_write; [mem_ok|solve [by left|right; by left]|intros]
  | |- wlp (heap_write _ _) _ _ => eapply wlp_heap_write; [mem_ok|solve [by left|right; by left]|intros]
  | |- wlp _ _ _ => eapply wlp_mono; [eapply wlp_keeps; [solve [eauto with sys_mem]|mem_ok]|intros]
  | |- holds_mem _ _ _ _ => mem_ok
  end.
Ltac mem_run := repeat (mem_step; cbn beta iota in * ).

Section Balance.
Context `{KL : KList} `{SL : Slab} `{KG : KGeometry} `{MO : Mmobjs} `{MU : !Mmu} `{MF : MapFlags} `{MP : !MmPages} `{PF : ProtFlags}.
Context `{FO : FsOps} `{SM : StatModes} `{ER : KErrno} `{VC : VfsConsts} `{VO : !VnOps} `{FF : !FileOps}.
Context `{KM : !KMem} `{UA : !UserAccess} `{PC : !ProcCalls} `{AL : ArgLayouts} `{SC : SysConsts}.
Implicit Types s : kern.

(** A call that gives everything back. *)
Definition balanced (c : M kern Z) : Prop := forall s, holds_mem s [] [] s -> wlp c s (fun _ s' => holds_mem s [] [] s').
Lemma sys_read_mem arg : balanced (sys_read arg).
Proof. intros s H. unfold sys_read. mem_run. Qed.
Lemma sys_write_mem arg : balanced (sys_write arg).
Proof. intros s H. unfold sys_write. mem_run. Qed.
Lemma sys_dup2_mem arg : balanced (sys_dup2 arg).
Proof. intros s H. unfold sys_dup2. mem_run. Qed.
Lemma sys_lseek_mem arg : balanced (sys_lseek arg).
Proof. intros s H. unfold sys_lseek. mem_run. Qed.
Lemma sys_mkdir_mem arg : balanced (sys_mkdir arg).
Proof. intros s H. unfold sys_mkdir. mem_run. Qed.
Lemma sys_rmdir_mem arg : balanced (sys_rmdir arg).
Proof. intros s H. unfold sys_rmdir. mem_run. Qed.
Lemma sys_unlink_mem arg : balanced (sys_unlink arg).
Proof. intros s H. unfold sys_unlink. mem_run. Qed.
Lemma sys_link_mem arg : balanced (sys_link arg).
Proof. intros s H. unfold sys_link. mem_run. Qed.
Lemma sys_rename_mem arg : balanced (sys_rename arg).
Proof. intros s H. unfold sys_rename. mem_run. Qed.
Lemma sys_chdir_mem arg : balanced (sys_chdir arg).
Proof. intros s H. unfold sys_chdir. mem_run. Qed.
Lemma sys_open_mem arg : balanced (sys_open arg).
Proof. intros s H. unfold sys_open. mem_run. Qed.
Lemma sys_stat_mem arg : balanced (sys_stat arg).
Proof. intros s H. unfold sys_stat. mem_run. Qed.
Lemma sys_munmap_mem arg : balanced (sys_munmap arg).
Proof. intros s H. unfold sys_munmap. mem_run. Qed.
Lemma sys_mmap_mem arg : balanced (sys_mmap arg).
Proof. intros s H. unfold sys_mmap. mem_run. Qed.
Lemma sys_waitpid_mem arg : balanced (sys_waitpid arg).
Proof. intros s H. unfold sys_waitpid. mem_run. Qed.
Lemma sys_pipe_mem arg : balanced (sys_pipe arg).
Proof. intros s H. unfold sys_pipe. mem_run. Qed.
Lemma sys_debug_mem arg : balanced (sys_debug arg).
Proof. intros s H. unfold sys_debug. mem_run. Qed.
Lemma sys_close_mem fd : balanced (sys_close fd).
Proof. intros s H. unfold sys_close. mem_run. Qed.
Lemma sys_dup_mem fd : balanced (sys_dup fd).
Proof. intros s H. unfold sys_dup. mem_run. Qed.
Lemma sys_brk_mem addr : balanced (sys_brk addr).
Proof. intros s H. unfold sys_brk. mem_run. Qed.
Lemma sys_fork_mem regs : balanced (sys_fork regs).
Proof. intros s H. unfold sys_fork. mem_run. Qed.

Lemma getdents_loop_mem fuel : forall fd dirp count tail bytes s s0 A B, holds_mem s0 A B s -> dirp = 0 \/ dirp ∈ A ->
  wlp (getdents_loop fuel fd dirp count tail bytes) s (fun _ s' => holds_mem s0 A B s').
Proof.
  induction fuel as [|fuel IH]; intros fd dirp count tail bytes s s0 A B H Hd; [apply wlp_fail|]. cbn [getdents_loop].
  destruct (bytes <? count); [|mem_run]. do 4 (mem_step; cbn beta iota). eapply wlp_heap_write; [mem_ok|done|intros]. mem_run. by eapply IH.
Qed.
Lemma sys_getdents_mem arg : balanced (sys_getdents arg).
Proof.
  intros s H. unfold sys_getdents. mem_run; (eapply wlp_mono; [eapply getdents_loop_mem; [mem_ok|solve [by left|right; by left]]|intros]); mem_run.
Qed.

Lemma kshell_loop_mem fuel : forall ksh s s0 A B, holds_mem s0 A B s -> wlp (kshell_loop fuel ksh) s (fun _ s' => holds_mem s0 A B s').
Proof. induction fuel as [|fuel IH]; intros ksh s s0 A B H; [apply wlp_fail|]. cbn [kshell_loop]. mem_run. by apply IH. Qed.
Lemma sys_kshell_mem fuel ttyid : balanced (sys_kshell fuel ttyid).
Proof. intros s H. unfold sys_kshell. mem_run. eapply wlp_mono; [eapply kshell_loop_mem; mem_ok|intros]. mem_run. Qed.
Lemma uname_copies_mem l : forall s s0 A B, holds_mem s0 A B s -> wlp (uname_copies l) s (fun _ s' => holds_mem s0 A B s').
Proof. induction l as [|[a bs] l IH]; intros s s0 A B H; cbn [uname_copies]; mem_run. by apply IH. Qed.
Lemma sys_uname_mem arg : balanced (sys_uname arg).
Proof. intros s H. unfold sys_uname. apply wlp_bind. eapply wlp_mono; [eapply uname_copies_mem; mem_ok|intros]. mem_run. Qed.

(** *** Vectors of strings *)
(** The words of a block. *)
Definition vec_word (b : list Z) (i : Z) : Z := le32 (slice (4 * i) 4 b).
(** A block of pointers: [ps], then a NULL. *)
Definition vector (b : list Z) (ps : list Z) : Prop :=
  (forall i p, ps !! i = Some p -> vec_word b (Z.of_nat i) = p) /\ vec_word b (Z.of_nat (length ps)) = 0.
Lemma le32_bytes v : 0 <= v < 2 ^ 32 -> le32 (bytes32 v) = v.
Proof.
  intros Hv. unfold le32, bytes32. cbn [fold_right]. pose proof (Z.div_mod v 256 ltac:(lia)). pose proof (Z.div_mod (v / 256) 256 ltac:(lia)).
  pose proof (Z.div_mod (v / 256 / 256) 256 ltac:(lia)). replace 65536 with (256 * 256) by lia. replace 16777216 with (256 * 256 * 256) by lia.
  rewrite <- !Z.div_div by lia. assert (0 <= v / 256 / 256 / 256 < 256) as E; [|rewrite (Z.mod_small (v / 256 / 256 / 256)) by lia; lia].
  split; [repeat apply Z.div_pos; lia|]. repeat apply Z.div_lt_upper_bound; lia.
Qed.
Lemma vec_set_word b i v : 0 <= v < 2 ^ 32 -> 0 <= i -> 4 * i + 4 <= Z.of_nat (length b) ->
  vec_word (list_inserts (Z.to_nat (4 * i)) (bytes32 v) b) i = v.
Proof.
  intros Hv Hi Hl. unfold vec_word. etrans; [|by apply le32_bytes]. f_equal. apply list_eq_same_length with 4%nat; [done| |].
  - unfold slice. rewrite length_take, length_drop, length_inserts. lia.
  - intros j x y Hj Hx Hy. assert (slice (4 * i) 4 (list_inserts (Z.to_nat (4 * i)) (bytes32 v) b) !! j = bytes32 v !! j) as E; [|congruence].
    replace j with (Z.to_nat (Z.of_nat j)) at 1 by lia. rewrite lookup_slice by lia.
    replace (Z.to_nat (4 * i + Z.of_nat j)) with (Z.to_nat (4 * i) + j)%nat by lia.
    rewrite list_lookup_inserts by (cbn; lia). f_equal. lia.
Qed.
Lemma vec_set_other b i j v : i <> j -> 0 <= i -> 0 <= j -> vec_word (list_inserts (Z.to_nat (4 * i)) (bytes32 v) b) j = vec_word b j.
Proof.
  intros Hne Hi Hj. unfold vec_word. f_equal. apply list_eq. intros k. destruct (decide (k < 4)%nat) as [Hk|Hk].
  - replace k with (Z.to_nat (Z.of_nat k)) by lia. rewrite !lookup_slice by lia. destruct (decide (i < j)); [apply list_lookup_inserts_ge|apply list_lookup_inserts_lt]; cbn; lia.
  - unfold slice. rewrite !lookup_take_ge by lia. done.
Qed.
Lemma wlp_vec_get kvec i s b (Q : Z -> kern -> Prop) : k_heap s !! kvec = Some b -> Q (vec_word b i) s -> wlp (vec_get kvec i) s Q.
Proof.
  intros Hb HQ. apply wlp_bind. intros b' s1. rewrite Hb. intros [= <- <-]. apply wlp_bind, wlp_guard. intros _. by apply wlp_ret.
Qed.
Lemma wlp_vec_set kvec i v s b s0 A B (Q : unit -> kern -> Prop) : k_heap s !! kvec = Some b -> holds_mem s0 A B s -> kvec ∈ A ->
  (forall s' b', 0 <= i -> holds_mem s0 A B s' -> k_heap s' !! kvec = Some b' -> (0 <= v < 2 ^ 32 -> vec_word b' i = v) -> (forall j, 0 <= j -> i <> j -> vec_word b' j = vec_word b j) -> Q tt s') ->
  wlp (vec_set kvec i v) s Q.
Proof.
  intros Hb HM Hin HQ. apply wlp_bind. intros b' s1. rewrite Hb. intros [= <- <-]. apply wlp_bind, wlp_guard. intros [Hi Hl]%andb_true_iff.
  apply Z.leb_le in Hi, Hl. intros a s' [= <- <-]. destruct HM as [H1 H2 H3]. eapply HQ; [done|split; [by apply held_write|done..]|cbn; by rewrite lookup_insert_eq| |].
  - intros Hv. by apply vec_set_word.
  - intros j Hj Hne. by apply vec_set_other.
Qed.
Lemma kfree_state p s a s' : kfree p s = Ok (a, s') -> p <> 0 -> k_heap s' = delete p (k_heap s).
Proof.
  intros H Hp. unfold kfree in H. rewrite (proj2 (Z.eqb_neq _ _) Hp) in H. apply mbind_Ok in H as (b & s1 & E1 & E2).
  destruct (k_heap s !! p); inversion E1; subst. by inversion E2.
Qed.
(** Copying a string in leaves the other blocks alone. *)
Lemma strdup_frame u s : wlp (user_strdup u) s (fun p s' => 0 <= p < 2 ^ 32 /\ forall q b, k_heap s !! q = Some b -> k_heap s' !! q = Some b).
Proof.
  unfold user_strdup. apply wlp_bind. intros p s1 E. unfold kmalloc in E. apply mbind_Ok in E as (h & s2 & [= <- <-] & E).
  destruct (kmalloc_pick (k_heap s) _) as [p'|] eqn:Ep; inversion E; subst; clear E.
  - destruct (kmalloc_fresh _ _ _ Ep) as [Hp Hn]. pose proof (kmalloc_addr _ _ _ Ep) as Hr. rewrite (proj2 (Z.eqb_neq _ _) Hp).
    set (J := kmalloc_junk _ _). set (s1 := upd_heap _ s).
    assert (forall q b, k_heap s !! q = Some b -> k_heap s1 !! q = Some b /\ q <> p) as HF.
    { intros q b Hq. assert (q <> p) by congruence. unfold s1. cbn. by rewrite lookup_insert_ne. }
    apply wlp_bind. intros [ret bs] s2 E2. apply vm_keeps in E2 as [E2 _]. apply wlp_bind. intros [] s3 E3.
    assert (forall q b, k_heap s !! q = Some b -> k_heap s3 !! q = Some b) as HF3.
    { intros q b Hq. destruct (HF q b Hq) as [Hq1 Hne]. unfold heap_write in E3. destruct bs as [|b0 bs]; [inversion E3; subst; by rewrite E2|].
      apply mbind_Ok in E3 as (b1 & s4 & E4 & E5). destruct (k_heap s2 !! p) as [b2|] eqn:Eb; inversion E4; subst.
      apply mbind_Ok in E5 as ([] & s5 & E5 & E6). unfold mguard in E5. case_match; inversion E5; subst. inversion E6; subst. cbn.
      rewrite lookup_insert_ne by done. by rewrite E2. }
    destruct (ret <? 0); [|by apply wlp_ret]. apply wlp_bind. intros [] s4 E4. apply set_errno_keeps in E4 as [E4 _].
    apply wlp_bind. intros a s5 E5. pose proof (kfree_state _ _ _ _ E5 Hp) as E6. apply wlp_ret. split; [lia|].
    intros q b Hq. destruct (HF q b Hq) as [_ Hne]. rewrite E6, E4, lookup_delete_ne by done. by apply HF3.
  - cbn. apply wlp_bind. intros [] s2 E2. apply set_errno_keeps in E2 as [E2 _]. apply wlp_ret. split; [lia|]. by rewrite E2.
Qed.
Lemma wlp_and {S T} (c : M S T) (x : S) P Q : wlp c x P -> wlp c x Q -> wlp c x (fun a y => P a y /\ Q a y).
Proof. intros H1 H2 a s' E. split; [by apply H1|by apply H2]. Qed.

(** Freeing the strings of a vector from entry [i] on. *)
Lemma free_strings_mem fuel : forall kvec i ps b s s0 A B, 0 <= i -> holds_mem s0 (ps ++ A) B s -> kvec ∈ A -> k_heap s !! kvec = Some b ->
  (forall j p, ps !! j = Some p -> vec_word b (i + Z.of_nat j) = p) -> vec_word b (i + Z.of_nat (length ps)) = 0 ->
  wlp (free_strings fuel kvec i) s (fun _ s' => holds_mem s0 A B s').
Proof.
  induction fuel as [|fuel IH]; intros kvec i ps b s s0 A B Hi HM Hin Hb Hps Hz; [apply wlp_fail|]. cbn [free_strings].
  apply wlp_bind. eapply wlp_vec_get; [exact Hb|]. destruct ps as [|p ps].
  - cbn in Hz. rewrite Z.add_0_r in Hz. rewrite Hz. cbn. by apply wlp_ret.
  - pose proof (Hps 0%nat p eq_refl) as Hp. cbn in Hp. rewrite Z.add_0_r in Hp. rewrite Hp.
    destruct (held_new _ _ _ (mem_heap _ _ _ _ HM) p) as [Hp0 _]; [by left|]. rewrite (proj2 (Z.eqb_neq _ _) Hp0). apply wlp_bind.
    assert (kvec <> p) as Hne.
    { intros ->. pose proof (held_nodup _ _ _ (mem_heap _ _ _ _ HM)) as [Hn _]%NoDup_cons. apply Hn, elem_of_app. by right. }
    intros a s' E. pose proof (kfree_state _ _ _ _ E Hp0) as Eh. revert a s' E Eh.
    assert (wlp (kfree p) s (fun _ s' => holds_mem s0 (ps ++ A) B s')) as HF by (eapply wlp_kfree; [exact HM|cbn; reflexivity|done]).
    intros a s' E Eh. eapply (IH kvec (i + 1) ps b); [lia|by eapply HF|done|by rewrite Eh, lookup_delete_ne| |].
    + intros j q Hq. rewrite <- (Hps (S j) q Hq). f_equal. lia.
    + rewrite <- Hz. f_equal. cbn. lia.
Qed.

(** The pointers of a block are the strings held. *)
Definition entries (b : list Z) (ps : list Z) : Prop := forall j p, ps !! j = Some p -> vec_word b (Z.of_nat j) = p.
Lemma entries_snoc b b' ps p : entries b ps -> (forall j, 0 <= j -> Z.of_nat (length ps) <> j -> vec_word b' j = vec_word b j) ->
  vec_word b' (Z.of_nat (length ps)) = p -> entries b' (ps ++ [p]).
Proof.
  intros H Ho Hp j q [Hj|[Hl Hj]]%lookup_app_Some.
  - rewrite Ho; [by apply H|lia|]. apply lookup_lt_Some in Hj. lia.
  - destruct (j - length ps)%nat as [|k] eqn:E; [|done]. injection Hj as <-. by replace j with (length ps) by lia.
Qed.
Lemma argstr_get_keeps p i : keeps_mem (argstr_get p i).
Proof.
  intros s a s' (b & s1 & E1 & ([] & s2 & E2 & [= <- <-])%mbind_Ok)%mbind_Ok. destruct (k_heap s !! p); inversion E1; subst.
  unfold mguard in E2. case_match; by inversion E2.
Qed.

Lemma vecdup_loop_mem kvec tmp s0 A B n : forall ps b s, holds_mem s0 (ps ++ kvec :: tmp :: A) B s -> k_heap s !! kvec = Some b -> entries b ps ->
  wlp (vecdup_loop kvec tmp (Z.of_nat (length ps)) n) s (fun r s' => exists ps' b', holds_mem s0 (ps' ++ kvec :: tmp :: A) B s' /\
    k_heap s' !! kvec = Some b' /\ entries b' ps' /\
    match r with None => length ps' = (length ps + n)%nat | Some _ => vec_word b' (Z.of_nat (length ps')) = 0 end).
Proof.
  induction n as [|n IH]; intros ps b s HM Hb He; cbn [vecdup_loop].
  { apply wlp_ret. exists ps, b. split; [done|]. split; [done|]. split; [done|lia]. }
  apply wlp_bind. intros u s1 E1. apply argstr_get_keeps in E1 as [E1 E1']. rewrite <- E1 in Hb.
  assert (holds_mem s0 (ps ++ kvec :: tmp :: A) B s1) as HM1 by (destruct HM; split; [by rewrite E1|by rewrite E1'|done]).
  apply wlp_bind. eapply wlp_mono; [apply wlp_and; [apply strdup_frame|eapply (wlp_strdup _ _ s0 _ B (fun p s' => holds_mem s0 ((if p =? 0 then [] else [p]) ++ ps ++ kvec :: tmp :: A) B s')); [exact HM1|done|]]|].
  { intros p s' Hp H'. by rewrite (proj2 (Z.eqb_neq _ _) Hp). }
  cbn beta. intros p s2 [[Hr Hk] HM2]. apply Hk in Hb. apply wlp_bind.
  eapply wlp_vec_set; [exact Hb|exact HM2|repeat (apply elem_of_app; right); by left|]. intros s3 b' _ HM3 Hb' Hv Ho. specialize (Hv Hr).
  destruct (Z.eqb_spec p 0) as [->|Hp].
  - apply wlp_bind. intros e s4 E4. apply vm_keeps in E4 as [E4 E4']. apply wlp_ret. exists ps, b'. split; [destruct HM3; split; [by rewrite E4|by rewrite E4'|done]|].
    split; [by rewrite E4|]. split; [|done]. intros j q Hj. rewrite Ho; [by apply He|lia|]. apply lookup_lt_Some in Hj. lia.
  - replace (Z.of_nat (length ps) + 1) with (Z.of_nat (length (ps ++ [p]))) by (rewrite length_app; cbn; lia).
    eapply wlp_mono; [eapply (IH (ps ++ [p]) b')|].
    + eapply mem_perm; [|exact HM3]. solve_Permutation.
    + done.
    + by eapply entries_snoc.
    + intros r s' (ps' & b2 & ? & ? & ? & Hm). exists ps', b2. split; [done|]. split; [done|]. split; [done|]. destruct r; [done|]. rewrite Hm, length_app. cbn. lia.
Qed.

(** A vector that the call holds with its strings. *)
Definition held_vector s0 A B (kvec : Z) s : Prop := exists ps b, holds_mem s0 (ps ++ kvec :: A) B s /\ k_heap s !! kvec = Some b /\ vector b ps.
Lemma vector_free fuel kvec s0 A B s : held_vector s0 A B kvec s -> wlp (free_strings fuel kvec 0) s (fun _ s' => holds_mem s0 (kvec :: A) B s').
Proof. intros (ps & b & HM & Hb & H1 & H2). eapply (free_strings_mem fuel kvec 0 ps b); [lia|done|by left|done|exact H1|exact H2]. Qed.
Lemma free_vector_mem kvec s0 A B s : held_vector s0 A B kvec s -> wlp (free_vector kvec) s (fun _ s' => holds_mem s0 A B s').
Proof.
  intros HV. unfold free_vector. apply wlp_bind. intros n s1 [= _ <-]. apply wlp_bind. eapply wlp_mono; [by apply vector_free|]. intros ? s2 H2.
  eapply wlp_kfree; [exact H2|reflexivity|done].
Qed.
Lemma vecdup_fail_mem kvec tmp ret s0 A B s : held_vector s0 (tmp :: A) B kvec s -> wlp (vecdup_fail kvec tmp ret) s (fun p s' => p = 0 /\ holds_mem s0 A B s').
Proof.
  intros HV. unfold vecdup_fail. assert (kvec <> 0) as Hk.
  { destruct HV as (ps & b & HM & _). apply (held_new _ _ _ (mem_heap _ _ _ _ HM)), elem_of_app. right. by left. }
  rewrite (proj2 (Z.eqb_neq _ _) Hk). cbn [negb]. apply wlp_bind, wlp_bind. intros n s1 [= _ <-]. apply wlp_bind.
  eapply wlp_mono; [by apply vector_free|]. intros ? s2 H2. eapply wlp_kfree; [exact H2|reflexivity|]. intros s3 H3. apply wlp_bind.
  eapply wlp_kfree; [exact H3|reflexivity|]. intros s4 H4. mem_run. done.
Qed.

(** New memory that reads as zero. *)
Definition zeroed : Prop := forall h n, Forall (fun b => b = 0) (kmalloc_junk h n).
Lemma word_zero b i : Forall (fun x => x = 0) b -> vec_word b i = 0.
Proof.
  intros H. unfold vec_word, slice. assert (Forall (fun x => x = 0) (take 4 (drop (Z.to_nat (4 * i)) b))) as H' by (by apply Forall_take, Forall_drop).
  unfold le32. change (Z.to_nat 4) with 4%nat. induction H' as [|x l -> _ IH]; [done|]. cbn [fold_right]. lia.
Qed.
Lemma wlp_kmalloc_at n s s0 A B Q : holds_mem s0 A B s -> Q 0 s ->
  (forall p s', p <> 0 -> holds_mem s0 (p :: A) B s' -> k_heap s' !! p = Some (kmalloc_junk (k_heap s) n) -> Q p s') -> wlp (kmalloc n) s Q.
Proof.
  intros [H1 H2 H0] Q0 HQ. unfold kmalloc. apply wlp_bind. intros h s1 [= <- <-]. destruct (kmalloc_pick (k_heap s) n) as [p|] eqn:E; [|by apply wlp_ret].
  destruct (kmalloc_fresh _ _ _ E) as [Hp Hn]. intros a s' [= <- <-]. apply HQ; [done| |cbn; by rewrite lookup_insert_eq]. split; [by apply held_alloc|done..].
Qed.
Lemma heap_write_frame p bs s : wlp (heap_write p bs) s (fun _ s' => forall q, q <> p -> k_heap s' !! q = k_heap s !! q).
Proof.
  unfold heap_write. destruct bs as [|b0 bs]; [by apply wlp_ret|]. apply wlp_bind. intros b s1 E1. destruct (k_heap s !! p); inversion E1; subst.
  apply wlp_bind, wlp_guard. intros _ a s' [= <- <-] q Hq. cbn. by rewrite lookup_insert_ne.
Qed.

Lemma user_vecdup_mem u s0 A B s : zeroed -> holds_mem s0 A B s ->
  wlp (user_vecdup u) s (fun k s' => if k =? 0 then holds_mem s0 A B s' else held_vector s0 A B k s').
Proof.
  intros HZ HM. unfold user_vecdup. apply wlp_bind. eapply wlp_kmalloc; [exact HM|cbn [Z.eqb]; unfold vecdup_fail; cbn [negb Z.eqb]; mem_run; done|]. intros tmp s1 Ht H1.
  rewrite (proj2 (Z.eqb_neq _ _) Ht). apply wlp_bind. eapply wlp_kmalloc_at; [exact H1| |].
  { cbn [Z.eqb]. unfold vecdup_fail. cbn [negb Z.eqb]. mem_run; done. }
  intros kvec s2 Hk H2 Hb. rewrite (proj2 (Z.eqb_neq _ _) Hk). set (J := kmalloc_junk _ _) in Hb.
  assert (forall i, vec_word J i = 0) as HJ by (intros i; apply word_zero, HZ).
  assert (kvec <> tmp) as Hne by (pose proof (held_nodup _ _ _ (mem_heap _ _ _ _ H2)) as [Hn _]%NoDup_cons; intros ->; apply Hn; by left).
  apply wlp_bind. intros [ret bs] s3 E3. apply vm_keeps in E3 as [E3 E3'].
  assert (holds_mem s0 ([] ++ kvec :: tmp :: A) B s3) as H3 by (destruct H2; split; [by rewrite E3|by rewrite E3'|done]).
  apply wlp_bind. eapply wlp_mono; [apply wlp_and; [apply heap_write_frame|eapply (wlp_heap_write _ _ _ s0 _ B (fun _ s' => holds_mem s0 _ B s'));
    [exact H3|right; right; by left|done]]|]. intros ? s4 [HF H4]. cbn beta in *.
  assert (k_heap s4 !! kvec = Some J) as Hb4 by (by rewrite HF, E3).
  destruct (ret <? 0).
  { eapply wlp_mono; [eapply vecdup_fail_mem; exists [], J; split; [exact H4|]; split; [done|]; split; [by intros ? ? ?|apply HJ]|]. by intros k s' [-> ?]. }
  apply wlp_bind. eapply wlp_mono; [eapply (vecdup_loop_mem kvec tmp s0 A B _ [] J); [exact H4|done|by intros ? ? ?]|].
  intros r s5 (ps & b & H5 & Hb5 & He & Hr). cbn beta. destruct r as [e|].
  { eapply wlp_mono; [eapply vecdup_fail_mem; by exists ps, b|]. by intros k s' [-> ?]. }
  apply wlp_bind. eapply wlp_vec_set; [exact Hb5|exact H5|apply elem_of_app; right; by left|]. intros s6 b' Hi H6 Hb6 Hv Ho.
  apply wlp_bind. intros [] s7 E7. pose proof (kfree_state _ _ _ _ E7 Ht) as Eh.
  assert (wlp (kfree tmp) s6 (fun _ s' => holds_mem s0 (ps ++ kvec :: A) B s')) as HK.
  { eapply wlp_kfree; [exact H6| |done]. solve_Permutation. }
  apply wlp_ret. rewrite (proj2 (Z.eqb_neq _ _) Hk). exists ps, b'. split; [by eapply HK|]. split; [by rewrite Eh, lookup_delete_ne|].
  cbn in Hr. assert (Z.of_nat (length ps) = av_len u) as El by lia. split; [|rewrite El; apply Hv; lia].
  intros j q Hj. rewrite Ho; [by apply He|lia|]. apply lookup_lt_Some in Hj. lia.
Qed.

(** *** Several vectors *)
Lemma held_trans h0 A h A' h' : held h0 A h -> held h A' h' -> held h0 (A' ++ A) h'.
Proof.
  intros [N1 W1 O1] [N2 W2 O2].
  assert (forall p, p ∈ A' -> p ∉ A) as Hd by (intros p (_ & H & _)%W2 (_ & _ & [? ?])%W1; congruence). split.
  - apply NoDup_app. auto.
  - intros p [Hp|Hp]%elem_of_app.
    + destruct (W2 p Hp) as (? & Hn & ?). split; [done|]. split; [|done]. rewrite <- O1; [done|by apply Hd].
    + destruct (W1 p Hp) as (? & ? & Hs). split; [done|]. split; [done|]. rewrite O2; [done|]. intros Hp'. by apply (Hd p).
  - intros p [H1 H2]%not_elem_of_app. by rewrite O2, O1.
Qed.
Lemma held_sub h0 X : forall A h, held h0 (X ++ A) h -> exists h1, held h0 A h1 /\ held h1 X h.
Proof.
  induction X as [|x X IH]; intros A h H; [exists h; split; [done|apply held_refl]|].
  destruct (IH (x :: A) h) as (h1 & H1 & H2); [eapply held_perm; [|exact H]; solve_Permutation|].
  exists (delete x h1). split; [by apply held_free|]. destruct H2 as [N2 W2 O2].
  assert (x ∉ X) as Hx by (pose proof (held_nodup _ _ _ H) as [Hn _]%NoDup_cons; intros ?; apply Hn, elem_of_app; by left).
  split; [by apply NoDup_cons| |].
  - intros p [->|Hp]%elem_of_cons; [|destruct (W2 p Hp) as (? & ? & ?); split; [done|]; split; [|done]; by rewrite lookup_delete_ne by (by intros ->)].
    split; [apply (held_new _ _ _ H1); by left|]. split; [apply lookup_delete_eq|]. apply (held_new _ _ _ H). by left.
  - intros p [Hne Hp]%not_elem_of_cons. rewrite lookup_delete_ne by done. by apply O2.
Qed.
Lemma held_keeps h0 A h q b : held h0 A h -> h0 !! q = Some b -> h !! q = Some b.
Proof. intros [_ W O] Hq. rewrite O; [done|]. intros (_ & ? & _)%W. congruence. Qed.
Lemma mem_self s0 A B s : holds_mem s0 A B s -> holds_mem s [] [] s.
Proof. intros H. split; [apply held_refl..|]. split; [by eapply mem_heap_null|by eapply mem_pages_null]. Qed.
Lemma mem_trans s0 A B s A' B' s' : holds_mem s0 A B s -> holds_mem s A' B' s' -> holds_mem s0 (A' ++ A) (B' ++ B) s'.
Proof. intros [H1 H2 H3] [H1' H2' _]. split; [by eapply held_trans|by eapply held_trans|done]. Qed.

(** The vectors [vs], each with its strings, besides the blocks [A]. *)
Definition vec_items (vs : list (Z * list Z)) : list Z := vs ≫= (fun '(k, ps) => ps ++ [k]).
Definition held_vectors s0 A (vs : list (Z * list Z)) s : Prop :=
  holds_mem s0 (vec_items vs ++ A) [] s /\ Forall (fun '(k, ps) => exists b, k_heap s !! k = Some b /\ vector b ps) vs.
Lemma vectors_free s0 A k ps vs s : held_vectors s0 A ((k, ps) :: vs) s -> wlp (free_vector k) s (fun _ s' => held_vectors s0 A vs s').
Proof.
  intros [[Hh Hp Hn] [(b & Hb & Hv) HF]%Forall_cons]. cbn in Hh. rewrite <- (app_assoc (ps ++ [k])) in Hh.
  apply held_sub in Hh as (h1 & H1 & H2). pose (s1 := upd_heap (fun _ => h1) s).
  assert (h1 !! 0 = None /\ k_pages s !! 0 = None) as Hz.
  { split; [rewrite (held_old _ _ _ H1); [apply Hn|by intros [? _]%(held_new _ _ _ H1)]|]. rewrite (held_nil _ _ Hp). apply Hn. }
  eapply wlp_mono; [apply (free_vector_mem k s1 [] [])|].
  { exists ps, b. split; [|done]. split; [exact H2|apply held_refl|exact Hz]. }
  intros ? s' [G1%held_nil G2%held_nil _]. cbn in G1, G2. split; [split; [by rewrite G1|by rewrite G2|done]|].
  rewrite G1. apply Forall_forall. intros [k' ps'] Hin. rewrite Forall_forall in HF. destruct (HF _ Hin) as (b' & Hb' & Hv'). exists b'. split; [|done].
  rewrite <- (held_old _ _ _ H2); [done|]. intros (_ & Hk & _)%(held_new _ _ _ H2).
  destruct (held_new _ _ _ H1 k') as (_ & _ & [? ?]); [|congruence]. apply elem_of_app. left. apply list_elem_of_bind. exists (k', ps'). split; [|done].
  apply elem_of_app. right. by left.
Qed.
(** Copying a vector in, or not. *)
Lemma vectors_dup (b : bool) u s0 A vs s : zeroed -> held_vectors s0 A vs s ->
  wlp (if b then user_vecdup u else mret_ 0) s (fun k s' => if k =? 0 then held_vectors s0 A vs s' else exists ps, held_vectors s0 A ((k, ps) :: vs) s').
Proof.
  intros HZ [HM HF]. destruct b; [|by apply wlp_ret]. eapply wlp_mono; [apply (user_vecdup_mem u s [] [] s HZ (mem_self _ _ _ _ HM))|].
  assert (forall s' X, holds_mem s X [] s' -> Forall (fun '(k, ps) => exists b, k_heap s' !! k = Some b /\ vector b ps) vs) as HK.
  { intros s' X H. eapply Forall_impl; [exact HF|]. intros [k ps] (b & Hb & Hv). exists b. split; [|done]. eapply held_keeps; [apply H|done]. }
  intros k s'. cbn beta. destruct (k =? 0).
  - intros H. split; [apply (mem_trans _ _ _ _ _ _ _ HM H)|by eapply HK].
  - intros (ps & b & H & Hb & Hv). exists ps. split; [|constructor; [by exists b|by eapply HK]].
    pose proof (mem_trans _ _ _ _ _ _ _ HM H) as H'. cbn. by rewrite <- (app_assoc (ps ++ [k])).
Qed.
Lemma vectors_keeps {T} (c : M kern T) s0 A vs s : keeps_mem c -> held_vectors s0 A vs s -> wlp c s (fun _ s' => held_vectors s0 A vs s').
Proof. intros K [[H1 H2 H3] HF] a s' E. destruct (K _ _ _ E) as [E1 E2]. split; [split; [by rewrite E1|by rewrite E2|done]|by rewrite E1]. Qed.
Definition opt_vector (k : Z) (ps : list Z) : list (Z * list Z) := if k =? 0 then [] else [(k, ps)].
Definition opt_block (p : Z) : list Z := if p =? 0 then [] else [p].
Lemma vectors_free_opt s0 A k ps vs s : held_vectors s0 A (opt_vector k ps ++ vs) s ->
  wlp (if negb (k =? 0) then free_vector k else mret_ tt) s (fun _ s' => held_vectors s0 A vs s').
Proof. unfold opt_vector. intros H. destruct (k =? 0); cbn [negb app] in *; [by apply wlp_ret|]. by eapply vectors_free. Qed.
Lemma vectors_swap s0 A vs vs' s : held_vectors s0 A (vs ++ vs') s -> held_vectors s0 A (vs' ++ vs) s.
Proof.
  intros [H1 H2]. split; [|by rewrite Permutation_app_comm]. eapply mem_perm; [|exact H1]. unfold vec_items. rewrite !bind_app. by rewrite (Permutation_app_comm (vs ≫= _)).
Qed.
Lemma execve_cleanup_mem f a pa e pe s0 s : held_vectors s0 (opt_block f) (opt_vector e pe ++ opt_vector a pa) s ->
  wlp (execve_cleanup f a e) s (fun _ s' => holds_mem s0 [] [] s').
Proof.
  intros H. unfold execve_cleanup. apply wlp_bind.
  assert (wlp (if negb (f =? 0) then kfree f else mret_ tt) s (fun _ s' => held_vectors s0 [] (opt_vector e pe ++ opt_vector a pa) s')) as H1.
  { unfold opt_block in H. destruct (f =? 0) eqn:Ef; cbn [negb]; [by apply wlp_ret|]. destruct H as [HM HF]. intros u s1 E.
    assert (holds_mem s0 (vec_items (opt_vector e pe ++ opt_vector a pa)) [] s1) as HM1.
    { revert u s1 E. change (wlp (kfree f) s (fun _ s1 => holds_mem s0 (vec_items (opt_vector e pe ++ opt_vector a pa)) [] s1)).
      eapply wlp_kfree; [exact HM|symmetry; apply Permutation_cons_append|done]. }
    split; [by rewrite app_nil_r|]. rewrite (kfree_state _ _ _ _ E) by (by apply Z.eqb_neq). apply Forall_forall. intros [k ps] Hin.
    rewrite Forall_forall in HF. destruct (HF _ Hin) as (b & Hb & Hv). exists b. split; [|done]. rewrite lookup_delete_ne; [done|]. intros <-.
    pose proof (held_nodup _ _ _ (mem_heap _ _ _ _ HM)) as (_ & Hn & _)%NoDup_app. apply (Hn f); [|by left].
    apply list_elem_of_bind. exists (f, ps). split; [|done]. apply elem_of_app. right. by left. }
  eapply wlp_mono; [exact H1|]. intros ? s1 H2%vectors_swap. apply wlp_bind. eapply wlp_mono; [by eapply vectors_free_opt|]. intros ? s2 H3.
  rewrite <- (app_nil_r (opt_vector e pe)) in H3. apply wlp_bind. eapply wlp_mono; [by eapply vectors_free_opt|]. intros ? s3 [H4 _]. cbn in H4. mem_run.
Qed.
Lemma sys_execve_mem args regs : zeroed -> balanced (sys_execve args regs).
Proof.
  intros HZ s HM. unfold sys_execve. mem_step. mem_step. destruct a as [err ka]. destruct (err <? 0).
  { mem_run. eapply (execve_cleanup_mem 0 0 [] 0 []). by split; [|constructor]. }
  mem_step. mem_step.
  { cbn. eapply (execve_cleanup_mem 0 0 [] 0 []). by split; [|constructor]. }
  rename p into f. rewrite (proj2 (Z.eqb_neq f 0)) by done.
  assert (held_vectors s (opt_block f) [] s'0) as HV by (split; [unfold opt_block; by rewrite (proj2 (Z.eqb_neq f 0))|constructor]).
  apply wlp_bind. eapply wlp_mono; [by eapply vectors_dup|]. intros a s2 Ha. cbn beta in Ha.
  assert (exists pa, held_vectors s (opt_block f) (opt_vector a pa) s2) as [pa Ha'].
  { unfold opt_vector. destruct (a =? 0); [by exists []|done]. }
  clear Ha. rename a into argv. match goal with |- wlp (if ?b then _ else _) _ _ => destruct b eqn:E1 end.
  { apply andb_true_iff in E1 as [_ ->%Z.eqb_eq]. by eapply (execve_cleanup_mem f 0 pa 0 []). }
  apply wlp_bind. eapply wlp_mono; [by eapply vectors_dup|]. intros e s3 He. cbn beta in He.
  assert (exists pe, held_vectors s (opt_block f) (opt_vector e pe ++ opt_vector argv pa) s3) as [pe He'].
  { unfold opt_vector. destruct (e =? 0); [by exists []|]. destruct He as [pe He]. exists pe. exact He. }
  clear He. match goal with |- wlp (if ?b then _ else _) _ _ => destruct b eqn:E2 end.
  { apply andb_true_iff in E2 as [_ ->%Z.eqb_eq]. by eapply (execve_cleanup_mem f argv pa 0 pe). }
  apply wlp_bind. eapply wlp_mono; [eapply vectors_keeps; [apply do_execve_mem|exact He']|]. intros r s4 H4.
  apply wlp_bind. eapply wlp_mono; [eapply vectors_keeps; [apply set_errno_keeps|exact H4]|]. intros ? s5 H5. exact (execve_cleanup_mem f argv pa e pe _ _ H5).
Qed.

Lemma do_exit_mem c : keeps_mem (do_exit c).
Proof. intros s a s' E. destruct (do_exit_gone c s) as [e E']. congruence. Qed.
Lemma kthread_exit_mem c : keeps_mem (kthread_exit c).
Proof. intros s a s' E. destruct (kthread_exit_gone c s) as [e E']. congruence. Qed.
Lemma balanced_wlp (c : M kern Z) s : balanced c -> holds_mem s [] [] s -> wlp c s (fun _ s' => holds_mem s [] [] s').
Proof. auto. Qed.
#[local] Hint Resolve sys_read_mem sys_write_mem sys_dup2_mem sys_lseek_mem sys_mkdir_mem sys_rmdir_mem sys_unlink_mem sys_link_mem sys_rename_mem sys_chdir_mem sys_open_mem sys_stat_mem sys_munmap_mem sys_mmap_mem sys_waitpid_mem sys_pipe_mem sys_debug_mem sys_close_mem sys_dup_mem sys_brk_mem sys_fork_mem sys_getdents_mem sys_kshell_mem sys_uname_mem : sys_calls.
#[local] Hint Resolve do_exit_mem kthread_exit_mem : sys_mem.

(** C19: Every system call gives back the memory it takes: when the call returns,
    on whatever path, the blocks of kmalloc and the pages held are those held
    before it, all of them and with their contents.  For [execve] this needs
    new memory to be zero (see [user_vecdup_junk]). *)
Theorem syscall_balanced fuel sysnum args regs s r s' : k_heap s !! 0 = None -> k_pages s !! 0 = None -> sysnum <> SYS_execve \/ zeroed ->
  syscall_dispatch fuel sysnum args regs s = Ok (r, s') -> k_heap s' = k_heap s /\ k_pages s' = k_pages s.
Proof.
  intros H1 H2 HZ E. assert (holds_mem s [] [] s) as HM by (split; [apply held_refl..|done]).
  enough (holds_mem s [] [] s') as [G1 G2 _] by (split; by apply held_nil). revert r s' E.
  change (wlp (syscall_dispatch fuel sysnum args regs) s (fun _ s' => holds_mem s [] [] s')). unfold syscall_dispatch.
  repeat match goal with |- wlp (if sysnum =? ?n then _ else _) _ _ => destruct (Z.eqb_spec sysnum n) as [->|?] end.
  all: try solve [apply balanced_wlp; [auto with sys_calls|done]|unfold sys_sync, sys_halt; mem_run].
  1-2: apply wlp_bind; eapply wlp_mono; [apply balanced_wlp; [auto with sys_calls|done]|intros; mem_run].
  apply balanced_wlp; [|done]. apply sys_execve_mem. by destruct HZ.
Qed.
End Balance.
