(* ===== verification/SyscallIo.v ===== *)
(** * api/syscall.c: what the calls do

    Calls with good arguments, from user memory to the kernel and back:
    [sys_write] hands exactly the user's bytes to [do_write], [sys_read]
    stores exactly what [do_read] gave, the calls on paths pass the user's
    string on, and results become -1 and [kt_errno] or are returned; lengths
    that break the kernel are cases of the same theorems.  Then the handler. *)
From stdpp Require Import base gmap list fin_maps.
From Stdlib Require Import ZArith Lia Ascii.
From S2P Require Import Prelude KEnv Vmmap VmAccess Vnode Namev VfsSyscall Syscall SyscallThm.
Open Scope Z_scope.
Open Scope c_scope.

Section Io.
Context `{KL : KList} `{SL : Slab} `{KG : KGeometry} `{MO : Mmobjs} `{MU : !Mmu} `{MF : MapFlags} `{MP : !MmPages} `{PF : ProtFlags}.
Context `{FO : FsOps} `{SM : StatModes} `{ER : KErrno} `{VC : VfsConsts} `{VO : !VnOps} `{FF : !FileOps}.
Context `{KM : !KMem} `{UA : !UserAccess} `{PC : !ProcCalls} `{AL : ArgLayouts} `{SC : SysConsts}.
Implicit Types (v : vms) (vs : list (Z * vmarea)) (s : kern).

(** ** Reading user memory *)
(** [v] is [v0] after reading: the same address space with the same bytes. *)
Record vsame vs (R : list Z) v0 v : Prop := {
  vs_inv : cur_inv v vs R;
  vs_env : same_env v0 v;
  vs_contents o n : contents (objs v) o n = contents (objs v0) o n;
  vs_depends p q : depends (objs v) p q <-> depends (objs v0) p q;
  vs_steps : rtc (page_step false) (objs v0) (objs v);
}.
(** While user memory is copied, the lookup of a mapped page at an address of
    [D] fails: the result is ignored and a frame that was not set is used. *)
Definition page_fails vs (R : list Z) (w : bool) v (D : Z -> Prop) : Prop :=
  lookup_fails w (objs v) vs.*2 (map vma_obj vs.*2 ++ R) D.
Lemma page_fails_mono vs R (w w' : bool) v (D D' : Z -> Prop) : (w = true -> w' = true) -> (forall x, D x -> D' x) ->
  page_fails vs R w v D -> page_fails vs R w' v D'.
Proof. intros Hw HD. by apply lookup_fails_mono. Qed.
Lemma page_fails_after vs R w v0 v D : vsame vs R v0 v -> page_fails vs R w v D -> page_fails vs R w v0 D.
Proof. intros V. apply lookup_fails_mono; [done| |done]. by apply (page_step_mono false), V. Qed.
Lemma vsame_refl vs R v : cur_inv v vs R -> vsame vs R v v.
Proof. by split. Qed.
Lemma vsame_reads vs R v0 v va n bs : vsame vs R v0 v -> reads_as (objs v0) vs.*2 va n bs -> reads_as (objs v) vs.*2 va n bs.
Proof. intros V [H1 H2]. split; [done|]. intros i Hi. rewrite H2 by done. symmetry. apply aspace_byte_ext, V. Qed.
Lemma reads_as_unique st us va n b1 b2 : reads_as st us va n b1 -> reads_as st us va n b2 -> b1 = b2.
Proof.
  intros [L1 H1] [L2 H2]. apply list_eq_same_length with (Z.to_nat n); [lia|lia|]. intros i x y Hi Hx Hy.
  specialize (H1 (Z.of_nat i)). specialize (H2 (Z.of_nat i)). rewrite Nat2Z.id in H1, H2. rewrite H1 in Hx by lia. rewrite H2 in Hy by lia. congruence.
Qed.
Lemma reads_as_mapped st us va n bs : reads_as st us va n bs -> range_mapped us va n.
Proof.
  intros [L H] x Hx. specialize (H (x - va) ltac:(lia)). replace (va + (x - va)) with x in H by lia. unfold aspace_byte in H.
  destruct (amap us (ADDR_TO_PN x)); [eauto|]. cbn in H. apply lookup_ge_None in H. lia.
Qed.
Lemma reads_as_slice st us va n bs off k : reads_as st us va n bs -> 0 <= off -> 0 <= k -> off + k <= n -> reads_as st us (va + off) k (slice off k bs).
Proof.
  intros [L H] Ho Hk Hn. split; [apply slice_length; lia|]. intros i Hi. rewrite lookup_slice, H by lia. f_equal. lia.
Qed.
(** User memory leaves room for the counters of [range_perm]. *)
Lemma mapped_bounds v vs R va n : cur_inv v vs R -> range_mapped vs.*2 va n -> 0 < n -> 0 <= va /\ va + n < 2 ^ 32 /\ n + PAGE_SIZE < 2 ^ 32.
Proof.
  intros (_ & _ & Hok & _) Hm Hn. pose proof low_high_pn as (L1 & L2 & L3). pose proof page_size_pos.
  assert (forall x, va <= x < va + n -> LOW_PN * PAGE_SIZE <= x < HIGH_PN * PAGE_SIZE) as Hx.
  { intros x [pg Hpg]%Hm. pose proof (addr_pn_offset x). pose proof (page_offset_bound x).
    assert (LOW_PN <= ADDR_TO_PN x < HIGH_PN); [|nia]. destruct (decide (ADDR_TO_PN x < LOW_PN \/ HIGH_PN <= ADDR_TO_PN x)) as [Ho|]; [|lia].
    by rewrite (amap_outside _ _ _ _ Hok Ho) in Hpg. }
  pose proof (Hx va ltac:(lia)). pose proof (Hx (va + n - 1) ltac:(lia)). nia.
Qed.

Lemma range_perm_mapped v vs R va n perm : cur_inv v vs R -> range_mapped vs.*2 va n -> 0 <= va -> 0 <= n -> va + n < 2 ^ 32 ->
  range_perm va n perm v = Ok (true, v).
Proof.
  intros I Hm Hva Hn He. assert (n + PAGE_SIZE < 2 ^ 32) as Hp.
  { destruct (decide (0 < n)); [by eapply mapped_bounds|]. pose proof low_high_pn. pose proof page_size_pos. nia. }
  destruct (range_perm_run v vs R va n perm I Hva Hn He Hp) as (b & Hr & Hb). rewrite Hr. replace b with true; [done|]. symmetry. apply Hb.
  intros x (i & Hi & -> & Hx). apply Hm. pose proof page_size_pos. nia.
Qed.
Lemma copy_from_user_run vs R v0 v va n bs : vsame vs R v0 v -> reads_as (objs v0) vs.*2 va n bs -> 0 <= va -> va + n < 2 ^ 32 ->
  (exists v', copy_from_user va n v = Ok ((0, bs), v') /\ vsame vs R v0 v') \/
  (copy_from_user va n v = Err FUndef /\ page_fails vs R false v0 (in_range va n)).
Proof.
  intros V Hr Hva He. pose proof (vsame_reads _ _ _ _ _ _ _ V Hr) as Hr'. pose proof (reads_as_mapped _ _ _ _ _ Hr) as Hm. pose proof (vs_inv _ _ _ _ V) as I.
  assert (0 <= n) as Hn by (destruct Hr; lia). unfold copy_from_user. rewrite (mbind_run _ _ _ _ _ (range_perm_mapped v vs R va n _ I Hm Hva Hn He)). cbn [negb].
  unfold mget. unfold mbind_ at 1. unfold vmmap_read. rewrite u32_small by lia.
  pose proof (read_loop_run (S (Z.to_nat n)) v _ vs R va n 0 [] I Hva He ltac:(lia) Hm ltac:(split; [done|lia]) ltac:(lia)) as H. rewrite Z.add_0_r in H.
  destruct H as [(v' & bs' & E & I' & Hb & En & Hc & Hd & Hst)|[E Hf]]; [left|right; split; [done|by apply (page_fails_after _ _ _ _ v)]].
  rewrite (reads_as_unique _ _ _ _ _ _ Hr' Hb). exists v'. split; [done|]. destruct V as [_ E0 C0 D0 S0]. split.
  - unfold cur_inv. by rewrite (proj1 (proj2 En)).
  - by eapply same_env_trans.
  - intros. by rewrite Hc.
  - intros. by rewrite Hd.
  - by etransitivity.
Qed.
Lemma user_load_run vs R v0 v va bs : vsame vs R v0 v -> can_load v0 va -> reads_as (objs v0) vs.*2 va 4 bs -> user_load va v = Ok (le32 bs, v).
Proof.
  intros V Hl Hr. eapply user_load_ok; [apply V| |by eapply vsame_reads]. eapply can_load_env; [done|apply V|apply V].
Qed.

(** ** Running the parts of a call *)
Lemma vm_run {A} (c : M vms A) v f h g r a v' : c v = Ok (a, v') -> vm c (mkKern v f h g r) = Ok (a, mkKern v' f h g r).
Proof. unfold vm. cbn [k_vm]. by intros ->. Qed.
Lemma vm_err {A} (c : M vms A) s e : c (k_vm s) = Err e -> vm c s = Err e.
Proof. unfold vm. by intros ->. Qed.
Lemma fs_err {A} (c : M vfs A) s e : c (k_fs s) = Err e -> fs c s = Err e.
Proof. unfold fs. by intros ->. Qed.
Lemma fs_run {A} (c : M vfs A) v f h g r a f' : c f = Ok (a, f') -> fs c (mkKern v f h g r) = Ok (a, mkKern v f' h g r).
Proof. unfold fs. cbn [k_fs]. by intros ->. Qed.
Lemma copy_in_run {A} (t : layout A) vs R v0 v f h g r arg bs : vsame vs R v0 v -> reads_as (objs v0) vs.*2 arg (sizeof t) bs ->
  0 <= arg -> arg + sizeof t < 2 ^ 32 ->
  (exists v', copy_in t arg (mkKern v f h g r) = Ok ((0, decode t bs), mkKern v' f h g r) /\ vsame vs R v0 v') \/
  (copy_in t arg (mkKern v f h g r) = Err FUndef /\ page_fails vs R false v0 (in_range arg (sizeof t))).
Proof.
  intros V Hr H0 He. unfold copy_in. destruct (copy_from_user_run _ _ _ _ _ _ _ V Hr H0 He) as [(v' & E & V')|[E Hf]].
  - left. exists v'. split; [|done]. by rewrite (mbind_run _ _ _ _ _ (vm_run _ _ f h g r _ _ E)).
  - right. split; [|done]. by rewrite (mbind_err _ _ _ _ (vm_err _ (mkKern v f h g r) _ E)).
Qed.
Lemma sys_fail_run e v f h g r : sys_fail e (mkKern v f h g r) = Ok (-1, mkKern (upd_errno (- e) v) f h g r).
Proof. done. Qed.
(** The result of a call that ends with [err], and its [kt_errno]. *)
Definition result (err : Z) : Z := if err <? 0 then -1 else err.
Definition with_result (err : Z) v : vms := if err <? 0 then upd_errno (- err) v else v.
Lemma sys_return_run e v f h g r : sys_return e (mkKern v f h g r) = Ok (result e, mkKern (with_result e v) f h g r).
Proof. unfold sys_return, result, with_result. by destruct (e <? 0). Qed.

(** A page [p] of [PAGE_SIZE] bytes. *)
Lemma page_alloc_run v f h g r p : page_pick g = Some p -> page_alloc (mkKern v f h g r) = Ok (p, mkKern v f h (<[p := page_junk g]> g) r).
Proof. intros E. unfold page_alloc, mget. unfold mbind_ at 1. cbn. by rewrite E. Qed.
Lemma page_free_run v f h g r p b : g !! p = None -> page_free p (mkKern v f h (<[p := b]> g) r) = Ok (tt, mkKern v f h g r).
Proof.
  intros E. unfold page_free. unfold mbind_ at 1. cbn. rewrite lookup_insert_eq. cbn. unfold mput, upd_pages. cbn. by rewrite delete_insert_eq, delete_id.
Qed.
Lemma fill_take b bs : take (length bs) (fill b bs) = bs.
Proof. unfold fill. by rewrite take_app_length. Qed.
Lemma fill_length b bs : (length bs <= length b)%nat -> length (fill b bs) = length b.
Proof. intros H. unfold fill. rewrite length_app, length_drop. lia. Qed.
Lemma page_write_run v f h g r p b bs : (length bs <= length b)%nat ->
  page_write p bs (mkKern v f h (<[p := b]> g) r) = Ok (tt, mkKern v f h (<[p := fill b bs]> g) r).
Proof.
  intros H. unfold page_write. destruct bs as [|x bs]; [done|]. unfold mbind_ at 1. cbn [k_pages]. rewrite lookup_insert_eq. cbn [mthe mret_].
  unfold fits. rewrite (proj2 (Nat.leb_le _ _) H). unfold mguard, mret_, mbind_, mput, upd_pages. cbn [k_vm k_fs k_heap k_pages k_regs]. by rewrite insert_insert_eq.
Qed.
Lemma page_write_over v f h g r p b bs : (length b < length bs)%nat -> page_write p bs (mkKern v f h (<[p := b]> g) r) = Err FUndef.
Proof.
  intros H. unfold page_write. destruct bs as [|x bs]; [cbn in H; lia|]. unfold mbind_ at 1. cbn [k_pages]. rewrite lookup_insert_eq. cbn [mthe mret_].
  unfold fits. by rewrite (proj2 (Nat.leb_gt _ _)).
Qed.
Lemma page_read_run v f h g r p b n : n <= Z.of_nat (length b) ->
  page_read p n (mkKern v f h (<[p := b]> g) r) = Ok (take (Z.to_nat n) b, mkKern v f h (<[p := b]> g) r).
Proof.
  intros H. unfold page_read. destruct (Z.leb_spec n 0); [by replace (Z.to_nat n) with 0%nat by lia|]. unfold mbind_ at 1. cbn [k_pages]. rewrite lookup_insert_eq.
  cbn [mthe mret_]. by rewrite (proj2 (Z.leb_le _ _) H).
Qed.

(** ** [sys_write] *)
(** C20: [sys_write] with its arguments and its data mapped and a page for the
    buffer: with at most a page of data the bytes that [do_write] gets are
    exactly the user's, its result is returned (or -1, with [kt_errno] set;
    a panic in it is one of the call), nothing in user memory changes and the
    buffer is given back; more data runs over the end of the buffer, which is
    undefined.  The one exception is a lookup of a page of the arguments or the
    data that fails, which [vmmap_read] ignores: undefined too. *)
Theorem sys_write_correct s vs R arg abs data p : let a := decode write_args_t abs in
  cur_inv (k_vm s) vs R -> reads_as (objs (k_vm s)) vs.*2 arg (sizeof write_args_t) abs -> 0 <= arg -> arg + sizeof write_args_t < 2 ^ 32 ->
  can_load (k_vm s) (arg + write_buf_off) -> can_load (k_vm s) (arg + write_nbytes_off) ->
  reads_as (objs (k_vm s)) vs.*2 (wa_buf a) (wa_nbytes a) data -> 0 <= wa_buf a -> wa_buf a + wa_nbytes a < 2 ^ 32 ->
  page_pick (k_pages s) = Some p ->
  (if wa_nbytes a <=? PAGE_SIZE then
     match do_write (wa_fd a) data (k_fs s) with
     | Ok (err, f') => exists v', sys_write arg s = Ok (result err, mkKern (with_result err v') f' (k_heap s) (k_pages s) (k_regs s)) /\ vsame vs R (k_vm s) v'
     | Err e => sys_write arg s = Err e
     end
   else sys_write arg s = Err FUndef) \/
  (sys_write arg s = Err FUndef /\
   page_fails vs R false (k_vm s) (fun x => in_range arg (sizeof write_args_t) x \/ in_range (wa_buf a) (wa_nbytes a) x)).
Proof.
  intros a I Hargs H0 He Hl1 Hl2 Hdata Hb0 Hbe Hp. destruct s as [v0 f h g r]. cbn [k_vm k_fs k_heap k_pages k_regs] in *.
  destruct (write_buf_at abs) as (B1 & B2 & B3); [apply Hargs|]. destruct (write_nbytes_at abs) as (N1 & N2 & N3); [apply Hargs|]. fold a in B3, N3.
  destruct (page_fresh _ _ Hp) as [_ Hg]. pose proof (page_size g) as Hj.
  assert (Z.of_nat (length data) = wa_nbytes a) as Hd by apply Hdata. pose proof (vsame_refl vs R v0 I) as V0.
  assert (forall v h g r f, vsame vs R v0 v -> vm (user_load (u32 (arg + write_buf_off))) (mkKern v f h g r) = Ok (wa_buf a, mkKern v f h g r)) as L1.
  { intros. rewrite u32_small, B3 by lia. apply vm_run. eapply user_load_run; [done|done|]. apply (reads_as_slice _ _ _ _ _ _ 4 Hargs); lia. }
  assert (forall v h g r f, vsame vs R v0 v -> vm (user_load (u32 (arg + write_nbytes_off))) (mkKern v f h g r) = Ok (wa_nbytes a, mkKern v f h g r)) as L2.
  { intros. rewrite u32_small, N3 by lia. apply vm_run. eapply user_load_run; [done|done|]. apply (reads_as_slice _ _ _ _ _ _ 4 Hargs); lia. }
  unfold sys_write.
  destruct (copy_in_run _ vs R v0 v0 f h g r arg abs V0 Hargs H0 He) as [(v1 & E1 & V1)|[E Hf]].
  2:{ right. rewrite (mbind_err _ _ _ _ E). split; [done|]. eapply page_fails_mono; [| |exact Hf]; auto. }
  rewrite (mbind_run _ _ _ _ _ E1).
  destruct (copy_in_run _ vs R v0 v1 f h g r arg abs V1 Hargs H0 He) as [(v2 & E2 & V2)|[E Hf]].
  2:{ right. rewrite (mbind_err _ _ _ _ E). split; [done|]. eapply page_fails_mono; [| |exact Hf]; auto. }
  rewrite (mbind_run _ _ _ _ _ E2). cbn [Z.ltb Z.compare].
  fold a. rewrite (mbind_run _ _ _ _ _ (page_alloc_run _ _ _ _ _ _ Hp)), (mbind_run _ _ _ _ _ (L1 _ _ _ _ _ V2)), (mbind_run _ _ _ _ _ (L2 _ _ _ _ _ V2)).
  destruct (copy_from_user_run _ _ _ _ _ _ _ V2 Hdata Hb0 Hbe) as [(v3 & E3 & V3)|[E Hf]].
  2:{ right. rewrite (mbind_err _ _ _ _ (vm_err _ (mkKern v2 f h _ r) _ E)). split; [done|]. eapply page_fails_mono; [| |exact Hf]; auto. }
  rewrite (mbind_run _ _ _ _ _ (vm_run _ _ _ _ _ _ _ _ E3)).
  destruct (Z.leb_spec (wa_nbytes a) PAGE_SIZE) as [Hps|Hps].
  2:{ left. rewrite (mbind_err (page_write _ _) _ _ _ (page_write_over v3 f h g r p (page_junk g) data ltac:(lia))). done. }
  rewrite (mbind_run _ _ _ _ _ (page_write_run v3 f h g r p (page_junk g) data ltac:(lia))), (mbind_run _ _ _ _ _ (L1 _ _ _ _ _ V3)), (mbind_run _ _ _ _ _ (L2 _ _ _ _ _ V3)).
  destruct (copy_from_user_run _ _ _ _ _ _ _ V3 Hdata Hb0 Hbe) as [(v4 & E4 & V4)|[E Hf]].
  2:{ right. rewrite (mbind_err _ _ _ _ (vm_err _ (mkKern v3 f h _ r) _ E)). split; [done|]. eapply page_fails_mono; [| |exact Hf]; auto. }
  rewrite (mbind_run _ _ _ _ _ (vm_run _ _ _ _ _ _ _ _ E4)).
  rewrite (mbind_run _ _ _ _ _ (page_write_run v4 f h g r p (fill (page_junk g) data) data ltac:(rewrite fill_length; lia))). cbn [Z.ltb Z.compare].
  assert (wa_nbytes a <= Z.of_nat (length (fill (fill (page_junk g) data) data))) as HL by (rewrite !fill_length; rewrite ?fill_length; lia).
  rewrite (mbind_run _ _ _ _ _ (page_read_run v4 f h g r p _ (wa_nbytes a) HL)).
  replace (Z.to_nat (wa_nbytes a)) with (length data) by lia. rewrite fill_take. left.
  destruct (do_write (wa_fd a) data f) as [[err f']|e] eqn:Hdo.
  2:{ by rewrite (mbind_err _ _ _ _ (fs_err _ (mkKern v4 f h _ r) _ Hdo)). }
  rewrite (mbind_run _ _ _ _ _ (fs_run _ _ _ _ _ _ _ _ Hdo)).
  exists v4. split; [|done]. unfold result, with_result. destruct (err <? 0); by rewrite (mbind_run _ _ _ _ _ (page_free_run _ _ _ _ _ _ _ Hg)).
Qed.

(** ** [sys_read] *)
(** [v'] is [v] with the bytes [bs] at [va]. *)
Record written vs (R : list Z) v va (bs : list Z) v' : Prop := {
  wr_inv : cur_inv v' vs R;
  wr_env : same_env v v';
  wr_bytes x : isolated (objs v) vs.*2 va (Z.of_nat (length bs)) x -> is_Some (amap vs.*2 (ADDR_TO_PN x)) ->
    aspace_byte (objs v') vs.*2 x = if decide (va <= x < va + Z.of_nat (length bs)) then bs !! Z.to_nat (x - va) else aspace_byte (objs v) vs.*2 x;
}.
Lemma copy_to_user_run vs R v0 v va bs : vsame vs R v0 v -> range_mapped vs.*2 va (Z.of_nat (length bs)) -> 0 <= va -> va + Z.of_nat (length bs) < 2 ^ 32 ->
  (exists v', copy_to_user va bs v = Ok (0, v') /\ written vs R v0 va bs v') \/
  (copy_to_user va bs v = Err FUndef /\ page_fails vs R true v0 (in_range va (Z.of_nat (length bs)))).
Proof.
  intros V Hm Hva He. pose proof (vs_inv _ _ _ _ V) as I. unfold copy_to_user.
  rewrite (mbind_run _ _ _ _ _ (range_perm_mapped v vs R va _ _ I Hm Hva ltac:(lia) He)). cbn [negb]. unfold mget. unfold mbind_ at 1.
  unfold vmmap_write. rewrite u32_small by lia.
  pose proof (write_loop_run (S (length bs)) v _ vs R va 0 bs I Hva He ltac:(lia) Hm ltac:(lia)) as H. rewrite Z.add_0_r in H.
  destruct H as [(v' & E & I' & En & _ & Hx)|[E Hf]]; [left|right; split; [done|by apply (page_fails_after _ _ _ _ v)]].
  exists v'. split; [done|]. destruct V as [_ E0 C0 D0 S0]. split.
  - unfold cur_inv. by rewrite (proj1 (proj2 En)).
  - by eapply same_env_trans.
  - intros x Hi Ha. rewrite Hx; [|intros y p q Hy Hp Hq Hd; rewrite D0; by eapply Hi|done]. case_decide; [done|]. by apply aspace_byte_ext.
Qed.
(** What [do_read] returns: an error with no bytes, or the number of bytes. *)
Definition read_some (err : Z) (bs : list Z) : Prop := if err <? 0 then bs = [] else Z.of_nat (length bs) = err.

(** C21: [sys_read] with its arguments mapped, a page for the buffer and what
    [do_read] gives ([read_some]: an error, or as many bytes as it says).  Up
    to a page into mapped user memory is stored at the user's buffer, byte for
    byte; no other byte of the address space changes, unless its page shows
    one of the pages written ([isolated]); the result is returned (or -1, with
    [kt_errno] set and user memory as before) and the buffer is given back.
    More than a page runs over the end of the buffer: undefined, and so is
    going on after a lookup of a page of the arguments or of the user's buffer
    that fails, which [vmmap_read] and [vmmap_write] do. *)
Theorem sys_read_correct s vs R arg abs p : let a := decode read_args_t abs in
  cur_inv (k_vm s) vs R -> reads_as (objs (k_vm s)) vs.*2 arg (sizeof read_args_t) abs -> 0 <= arg -> arg + sizeof read_args_t < 2 ^ 32 ->
  can_load (k_vm s) (arg + read_buf_off) -> page_pick (k_pages s) = Some p ->
  match do_read (ra_fd a) (ra_nbytes a) (k_fs s) with
  | Ok ((err, data), f') => read_some err data ->
      (err <= PAGE_SIZE -> range_mapped vs.*2 (ra_buf a) err /\ 0 <= ra_buf a /\ ra_buf a + err < 2 ^ 32) ->
      (if err <=? PAGE_SIZE then
         exists v', sys_read arg s = Ok (result err, mkKern (with_result err v') f' (k_heap s) (k_pages s) (k_regs s)) /\
           written vs R (k_vm s) (ra_buf a) data v'
       else sys_read arg s = Err FUndef) \/
      (sys_read arg s = Err FUndef /\
       page_fails vs R true (k_vm s) (fun x => in_range arg (sizeof read_args_t) x \/ in_range (ra_buf a) err x))
  | Err e => sys_read arg s = Err e \/ (sys_read arg s = Err FUndef /\ page_fails vs R false (k_vm s) (in_range arg (sizeof read_args_t)))
  end.
Proof.
  intros a I Hargs H0 He Hl Hp. destruct s as [v0 f h g r]. cbn [k_vm k_fs k_heap k_pages k_regs] in *.
  destruct (read_buf_at abs) as (B1 & B2 & B3); [apply Hargs|]. fold a in B3. destruct (page_fresh _ _ Hp) as [_ Hg]. pose proof (page_size g) as Hj.
  pose proof (vsame_refl vs R v0 I) as V0. pose proof page_size_pos. unfold sys_read.
  destruct (copy_in_run _ vs R v0 v0 f h g r arg abs V0 Hargs H0 He) as [(v1 & E1 & V1)|[E Hf]].
  2:{ destruct (do_read _ _ f) as [[[err data] f']|e]; [intros _ _|]; right; rewrite (mbind_err _ _ _ _ E); (split; [done|]); [|done].
      eapply page_fails_mono; [| |exact Hf]; auto. }
  rewrite (mbind_run _ _ _ _ _ E1). cbn [Z.ltb Z.compare]. fold a. rewrite (mbind_run _ _ _ _ _ (page_alloc_run _ _ _ _ _ _ Hp)).
  destruct (do_read _ _ f) as [[[err data] f']|e] eqn:Hdo.
  2:{ left. by rewrite (mbind_err _ _ _ _ (fs_err _ (mkKern v1 f h _ r) _ Hdo)). }
  intros Hsome Hbuf. rewrite (mbind_run _ _ _ _ _ (fs_run _ _ _ _ _ _ _ _ Hdo)).
  unfold read_some in Hsome. destruct (Z.leb_spec err PAGE_SIZE) as [Hps|Hps].
  2:{ left. rewrite (proj2 (Z.ltb_ge _ _)) in Hsome by lia.
      rewrite (mbind_err (page_write _ _) _ _ _ (page_write_over v1 f' h g r p (page_junk g) data ltac:(lia))). done. }
  unfold result, with_result. destruct (Z.ltb_spec err 0).
  { left. subst data. exists v1. split.
    - rewrite (mbind_run _ _ _ _ _ (page_write_run v1 f' h g r p (page_junk g) [] ltac:(cbn; lia))).
      by rewrite (mbind_run _ _ _ _ _ (page_free_run _ _ _ _ _ _ _ Hg)).
    - destruct V1 as [I1 E0 C0 D0]. split; [done|done|]. intros x _ _. rewrite decide_False by (cbn; lia). by apply aspace_byte_ext. }
  destruct (Hbuf Hps) as (Hm & Hb0 & Hbe).
  rewrite (mbind_run _ _ _ _ _ (page_write_run v1 f' h g r p (page_junk g) data ltac:(lia))).
  assert (user_load (u32 (arg + read_buf_off)) v1 = Ok (ra_buf a, v1)) as L1.
  { rewrite u32_small, B3 by lia. eapply user_load_run; [done|done|]. apply (reads_as_slice _ _ _ _ _ _ 4 Hargs); lia. }
  rewrite (mbind_run _ _ _ _ _ (vm_run _ _ _ _ _ _ _ _ L1)).
  assert (err <= Z.of_nat (length (fill (page_junk g) data))) as HL by (rewrite fill_length; lia).
  rewrite (mbind_run _ _ _ _ _ (page_read_run v1 f' h g r p _ err HL)). replace (Z.to_nat err) with (length data) by lia. rewrite fill_take.
  destruct (copy_to_user_run vs R v0 v1 (ra_buf a) data V1) as [(v2 & E2 & W2)|[E Hf]]; [by rewrite Hsome|done|lia| |].
  - left. rewrite (mbind_run _ _ _ _ _ (vm_run _ _ _ _ _ _ _ _ E2)). cbn [Z.ltb Z.compare]. exists v2. split; [|done].
    by rewrite (mbind_run _ _ _ _ _ (page_free_run _ _ _ _ _ _ _ Hg)).
  - right. rewrite (mbind_err _ _ _ _ (vm_err _ (mkKern v1 f' h _ r) _ E)). split; [done|].
    rewrite Hsome in Hf. eapply page_fails_mono; [| |exact Hf]; auto.
Qed.

(** ** Calls on paths *)
Lemma user_strdup_run vs R v0 v f h g r u bs p : vsame vs R v0 v -> reads_as (objs v0) vs.*2 (as_str u) (as_len u + 1) bs ->
  0 <= as_str u -> as_str u + (as_len u + 1) < 2 ^ 32 -> kmalloc_pick h (as_len u + 1) = Some p ->
  (exists v', user_strdup u (mkKern v f h g r) = Ok (p, mkKern v' f (<[p := bs]> h) g r) /\ vsame vs R v0 v') \/
  (user_strdup u (mkKern v f h g r) = Err FUndef /\ page_fails vs R false v0 (in_range (as_str u) (as_len u + 1))).
Proof.
  intros V Hr H0 He Hp. assert (Z.of_nat (length bs) = as_len u + 1) as Hl by apply Hr. destruct (kmalloc_fresh _ _ _ Hp) as [Hp0 Hn].
  pose proof (kmalloc_size h (as_len u + 1) ltac:(lia)) as Hj.
  unfold user_strdup. rewrite u32_small by lia.
  assert (kmalloc (as_len u + 1) (mkKern v f h g r) = Ok (p, mkKern v f (<[p := kmalloc_junk h (as_len u + 1)]> h) g r)) as E1.
  { unfold kmalloc, mget. unfold mbind_ at 1. cbn [k_heap]. by rewrite Hp. }
  rewrite (mbind_run _ _ _ _ _ E1), (proj2 (Z.eqb_neq _ _) Hp0).
  destruct (copy_from_user_run _ _ _ _ _ _ _ V Hr H0 He) as [(v' & E2 & V')|[E2 Hf]].
  2:{ right. split; [|done]. by rewrite (mbind_err _ _ _ _ (vm_err _ (mkKern v f _ g r) _ E2)). }
  left. rewrite (mbind_run _ _ _ _ _ (vm_run _ _ _ _ _ _ _ _ E2)).
  exists v'. split; [|done]. set (J := kmalloc_junk _ _) in *.
  assert (heap_write p bs (mkKern v' f (<[p := J]> h) g r) = Ok (tt, mkKern v' f (<[p := bs]> h) g r)) as E3; [|by rewrite (mbind_run _ _ _ _ _ E3)].
  assert (fill J bs = bs) as EF by (unfold fill; rewrite drop_ge, app_nil_r by lia; done).
  unfold heap_write. destruct bs as [|x bs].
  { unfold J in *. destruct (kmalloc_junk h (as_len u + 1)); [done|cbn in Hj, Hl; lia]. }
  unfold mbind_ at 1. cbn [k_heap]. rewrite lookup_insert_eq. cbn [mthe mret_]. unfold fits. rewrite (proj2 (Nat.leb_le _ _)) by lia.
  rewrite EF. unfold mguard, mret_, mbind_, mput, upd_heap. cbn [k_vm k_fs k_heap k_pages k_regs]. by rewrite insert_insert_eq.
Qed.
Lemma cstring_run v f h g r p bs l : until_nul bs = Some l -> cstring p (mkKern v f (<[p := bs]> h) g r) = Ok (l, mkKern v f (<[p := bs]> h) g r).
Proof. intros E. unfold cstring. unfold mbind_ at 1. cbn [k_heap]. rewrite lookup_insert_eq. cbn [mthe mret_]. by rewrite E. Qed.
Lemma kfree_run v f h g r p b : p <> 0 -> h !! p = None -> kfree p (mkKern v f (<[p := b]> h) g r) = Ok (tt, mkKern v f h g r).
Proof.
  intros Hp E. unfold kfree. rewrite (proj2 (Z.eqb_neq _ _) Hp). unfold mbind_ at 1. cbn [k_heap]. rewrite lookup_insert_eq. cbn.
  unfold mput, upd_heap. cbn. by rewrite delete_insert_eq, delete_id.
Qed.
(** A string and its bytes. *)
Lemma until_nul_str l : Forall (fun c => c <> "000"%char) l -> until_nul (c_string l) = Some l.
Proof.
  unfold c_string. induction 1 as [|c l Hc _ IH]; [done|]. cbn [map app until_nul]. destruct (Z.eqb_spec (Z.of_N (N_of_ascii c)) 0) as [E|E].
  - exfalso. apply Hc. rewrite <- (ascii_N_embedding c). by replace (N_of_ascii c) with 0%N by lia.
  - rewrite IH. cbn. by rewrite N2Z.id, ascii_N_embedding.
Qed.

(** The calls that take one path: the structure they copy in, the path in
    it, and what they then call. *)
Inductive path_sys : (Z -> M kern Z) -> forall A, layout A -> (A -> argstr) -> (A -> list ascii -> M vfs Z) -> Prop :=
| ps_mkdir : path_sys sys_mkdir _ mkdir_args_t mk_path (fun _ => do_mkdir)
| ps_rmdir : path_sys sys_rmdir _ argstr_t (fun u => u) (fun _ => do_rmdir)
| ps_unlink : path_sys sys_unlink _ argstr_t (fun u => u) (fun _ => do_unlink)
| ps_chdir : path_sys sys_chdir _ argstr_t (fun u => u) (fun _ => do_chdir)
| ps_open : path_sys sys_open _ open_args_t oa_filename (fun a l => do_open l (oa_flags a)).
(** They share one shape. *)
Definition path_call {A} (t : layout A) (path : A -> argstr) (op : A -> list ascii -> M vfs Z) (arg : Z) : M kern Z :=
  let! (err, ka) := copy_in t arg in
  if err <? 0 then sys_fail err
  else
    let! q := user_strdup (path ka) in
    if q =? 0 then set_errno EINVAL ;;; mret_ (-1)
    else
      let! l := cstring q in
      let! err := fs (op ka l) in
      kfree q ;;;
      sys_return err.
Lemma path_sys_call c A t path op : path_sys c A t path op -> c = path_call t path op.
Proof. by destruct 1. Qed.

(** C22: The calls on a path ([mkdir], [rmdir], [unlink], [chdir], [open]) with
    arguments and path mapped ([pbs]: the bytes at the path, as many as the user
    says and one more): they copy both in, call the file system with exactly
    the user's string, up to its NUL, and return its result, or -1 with
    [kt_errno] set (a panic in it is one of the call); user memory is as before
    and the copy of the path is given back.  Without kernel memory for the copy
    the result is -1 and [kt_errno] EINVAL; bytes without a NUL are read past
    their end, which is undefined, and so is going on after a lookup of a page
    of the arguments or the path that fails, which [vmmap_read] does. *)
Theorem sys_path_correct c A (t : layout A) path op s vs R arg abs pbs : path_sys c A t path op -> let a := decode t abs in let u := path a in
  cur_inv (k_vm s) vs R -> reads_as (objs (k_vm s)) vs.*2 arg (sizeof t) abs -> 0 <= arg -> arg + sizeof t < 2 ^ 32 ->
  0 <= as_len u -> reads_as (objs (k_vm s)) vs.*2 (as_str u) (as_len u + 1) pbs -> 0 <= as_str u -> as_str u + (as_len u + 1) < 2 ^ 32 ->
  match kmalloc_pick (k_heap s) (as_len u + 1), until_nul pbs with
  | None, _ => exists v', c arg s = Ok (-1, mkKern (upd_errno EINVAL v') (k_fs s) (k_heap s) (k_pages s) (k_regs s)) /\ vsame vs R (k_vm s) v'
  | Some _, None => c arg s = Err FUndef
  | Some _, Some l =>
      match op a l (k_fs s) with
      | Ok (err, f') => exists v', c arg s = Ok (result err, mkKern (with_result err v') f' (k_heap s) (k_pages s) (k_regs s)) /\ vsame vs R (k_vm s) v'
      | Err e => c arg s = Err e
      end
  end \/
  (c arg s = Err FUndef /\
   page_fails vs R false (k_vm s) (fun x => in_range arg (sizeof t) x \/ in_range (as_str u) (as_len u + 1) x)).
Proof.
  intros ->%path_sys_call a u I Hargs H0 He Hlen Hu Hu0 Hue. destruct s as [v0 f h g r]. cbn [k_vm k_fs k_heap k_pages k_regs] in *.
  pose proof (vsame_refl vs R v0 I) as V0. unfold path_call.
  destruct (copy_in_run _ vs R v0 v0 f h g r arg abs V0 Hargs H0 He) as [(v1 & E1 & V1)|[E Hf]].
  2:{ right. rewrite (mbind_err _ _ _ _ E). split; [done|]. eapply page_fails_mono; [| |exact Hf]; auto. }
  rewrite (mbind_run _ _ _ _ _ E1). cbn [Z.ltb Z.compare]. destruct (kmalloc_pick h (as_len u + 1)) as [p|] eqn:Hp.
  2:{ left. exists v1. split; [|done]. unfold user_strdup. fold a u. rewrite u32_small by lia. unfold kmalloc, mget, mbind_. cbn [k_heap]. by rewrite Hp. }
  destruct (kmalloc_fresh _ _ _ Hp) as [Hp0 Hn].
  destruct (user_strdup_run vs R v0 v1 f h g r u pbs p V1 Hu Hu0 Hue Hp) as [(v2 & E2 & V2)|[E Hf]].
  2:{ right. rewrite (mbind_err _ _ _ _ E). split; [done|]. eapply page_fails_mono; [| |exact Hf]; auto. }
  left. rewrite (mbind_run _ _ _ _ _ E2), (proj2 (Z.eqb_neq _ _) Hp0). destruct (until_nul pbs) as [l|] eqn:Hl.
  2:{ apply mbind_err. unfold cstring. unfold mbind_. cbn [k_heap]. rewrite lookup_insert_eq. cbn [mthe mret_]. by rewrite Hl. }
  rewrite (mbind_run _ _ _ _ _ (cstring_run _ _ _ _ _ _ _ _ Hl)). fold a. destruct (op a l f) as [[err f']|e] eqn:Hop.
  2:{ by rewrite (mbind_err _ _ _ _ (fs_err _ (mkKern v2 f _ g r) _ Hop)). }
  rewrite (mbind_run _ _ _ _ _ (fs_run _ _ _ _ _ _ _ _ Hop)).
  rewrite (mbind_run _ _ _ _ _ (kfree_run _ _ _ _ _ _ _ Hp0 Hn)), sys_return_run. by exists v2.
Qed.

(** ** Bad arguments *)
Lemma copy_from_user_bad v vs R va n : cur_inv v vs R -> amap vs.*2 (ADDR_TO_PN va) = None -> 0 <= va < 2 ^ 32 -> 0 < n ->
  copy_from_user va n v = Ok ((- EFAULT, []), v).
Proof.
  intros I Hm Hva Hn. unfold copy_from_user, range_perm. cbn [range_perm_loop]. rewrite (proj2 (Z.ltb_lt _ _) Hn), Z.add_0_r, u32_small by lia.
  unfold mbind_ at 1 2. rewrite (addr_perm_run v vs R va PROT_READ I), Hm. by rewrite bool_decide_eq_false_2 by (by intros []).
Qed.
Lemma copy_in_bad {A} (t : layout A) s vs R arg : cur_inv (k_vm s) vs R -> amap vs.*2 (ADDR_TO_PN arg) = None -> 0 <= arg < 2 ^ 32 -> 0 < sizeof t ->
  copy_in t arg s = Ok ((- EFAULT, decode t []), s).
Proof.
  intros I Hm Ha Ht. destruct s as [v f h g r]. unfold copy_in. by rewrite (mbind_run _ _ _ _ _ (vm_run _ _ f h g r _ _ (copy_from_user_bad v vs R arg _ I Hm Ha Ht))).
Qed.
Ltac bad_args HC := match goal with
  | |- context [copy_in ?t ?args] => rewrite (mbind_run (copy_in t args) _ _ _ _ (HC _ t ltac:(assumption)))
  end.
(** The calls whose argument points to a structure in user memory. *)
Definition pointer_calls : list Z :=
  [SYS_waitpid; SYS_mmap; SYS_munmap; SYS_open; SYS_read; SYS_write; SYS_dup2; SYS_mkdir; SYS_rmdir; SYS_unlink; SYS_link; SYS_rename;
   SYS_chdir; SYS_getdents; SYS_lseek; SYS_execve; SYS_stat; SYS_debug].

(** C23: A call whose argument pointer is not mapped fails with [EFAULT] and
    does nothing else: it returns -1 ([mmap]: [MAP_FAILED]) and sets
    [kt_errno]; memory, files and processes are as before. *)
Theorem syscall_efault fuel sysnum args regs s vs R : sysnum ∈ pointer_calls -> cur_inv (k_vm s) vs R ->
  amap vs.*2 (ADDR_TO_PN args) = None -> 0 <= args < 2 ^ 32 ->
  syscall_dispatch fuel sysnum args regs s =
    Ok (if sysnum =? SYS_mmap then s32 MAP_FAILED else -1, upd_vm (upd_errno EFAULT (k_vm s)) s).
Proof.
  intros Hin I Hm Ha. assert (0 < EFAULT) as Hpos by (pose proof errno_pos as He; rewrite Forall_forall in He; apply He; do 8 right; by left).
  assert (- EFAULT <? 0 = true) as E1 by (apply Z.ltb_lt; lia). assert (- EFAULT =? 0 = false) as E2 by (apply Z.eqb_neq; lia).
  assert (EFAULT =? 0 = false) as E3 by (apply Z.eqb_neq; lia).
  clear Hpos. pose proof (proj1 (proj2 (proj1 (NoDup_app _ _) sys_distinct)) sysnum Hin) as Hn. fold pointer_calls in Hn.
  rewrite !not_elem_of_cons in Hn. destruct Hn as (? & ? & ? & ? & ? & ? & ? & ? & ? & ? & ? & ? & ? & ? & ? & _).
  assert (forall A (t : layout A), 0 < sizeof t -> copy_in t args s = Ok ((- EFAULT, decode t []), s)) as HC by (intros; by eapply copy_in_bad).
  pose proof sizes_pos as HP. rewrite !Forall_cons in HP. destruct HP as (? & ? & ? & ? & ? & ? & ? & ? & ? & ? & ? & ? & ? & ? & ? & _).
  assert (sys_fail (- EFAULT) s = Ok (-1, upd_vm (upd_errno EFAULT (k_vm s)) s)) as E4 by (unfold sys_fail, set_errno, vm, mput, mbind_; by rewrite Z.opp_involutive).
  assert (SYS_waitpid <> SYS_mmap) as Hw.
  { pose proof (proj1 (proj1 (NoDup_app _ _) sys_distinct)) as [Hw _]%NoDup_cons. intros E. apply Hw. rewrite E. by left. }
  assert (forall r : Z, (set_errno EFAULT ;;; mret_ r) s = Ok (r, upd_vm (upd_errno EFAULT (k_vm s)) s)) as E5 by done.
  unfold syscall_dispatch.
  repeat match goal with |- (if sysnum =? ?n then _ else _) _ = _ => destruct (Z.eqb_spec sysnum n) as [->|?]; [try done|] end.
  all: rewrite ?(proj2 (Z.eqb_neq SYS_waitpid SYS_mmap)) by done.
  all: try (unfold sys_waitpid, sys_munmap, sys_open, sys_read, sys_write, sys_dup2, sys_mkdir, sys_rmdir, sys_unlink, sys_link, sys_rename, sys_chdir,
    sys_getdents, sys_lseek, sys_stat, sys_debug; repeat bad_args HC; rewrite ?E1, ?E2; solve [exact E4|exact (E5 (-1))]).
  - assert (sys_mmap args s = Ok (MAP_FAILED, upd_vm (upd_errno EFAULT (k_vm s)) s)) as E6; [|by rewrite (mbind_run _ _ _ _ _ E6)].
    unfold sys_mmap. bad_args HC. by rewrite E1.
  - unfold sys_execve. bad_args HC. rewrite E1, Z.opp_involutive. unfold execve_cleanup, set_errno, vm, mput, mget, mbind_.
    change (0 =? 0) with true. cbn -[Z.eqb]. by rewrite E3.
  - exfalso. unfold pointer_calls in Hin. rewrite !elem_of_cons, elem_of_nil in Hin. repeat (destruct Hin as [Hin|Hin]; [done|]). done.
Qed.

(** ** The handler *)
(** C24: [syscall_handler] of a thread that is not cancelled: the call given by
    eax with the argument in edx runs and its result is in eax afterwards, all
    other registers as the call left them; a thread that is cancelled before or
    during the call never returns to user code. *)
Theorem syscall_handler_correct fuel regs s :
  (kt_cancelled s = true -> exists e, syscall_handler fuel regs s = Err e) /\
  (kt_cancelled s = false -> forall ret s1,
    syscall_dispatch fuel (u32 (k_regs s (regs + r_eax))) (u32 (k_regs s (regs + r_edx))) regs s = Ok (ret, s1) ->
    if kt_cancelled s1 then exists e, syscall_handler fuel regs s = Err e
    else exists s', syscall_handler fuel regs s = Ok (tt, s') /\ k_regs s' (regs + r_eax) = u32 ret /\
      (forall x, x <> regs + r_eax -> k_regs s' x = k_regs s1 x) /\
      k_vm s' = k_vm s1 /\ k_fs s' = k_fs s1 /\ k_heap s' = k_heap s1 /\ k_pages s' = k_pages s1).
Proof.
  assert (forall s0 T (k : M kern T), kt_cancelled s0 = true -> exists e, (leave_if_cancelled ;;; k) s0 = Err e) as HL.
  { intros s0 T k Hc. unfold leave_if_cancelled, mget, mbind_. rewrite Hc. destruct (kthread_exit_gone (kt_retval s0) s0) as [e E]. exists e. by rewrite E. }
  assert (forall s0 T (k : M kern T), kt_cancelled s0 = false -> (leave_if_cancelled ;;; k) s0 = k s0) as HS.
  { intros s0 T k Hc. unfold leave_if_cancelled, mget, mbind_. by rewrite Hc. }
  unfold syscall_handler. rewrite (mbind_run _ _ s (k_regs s (regs + r_eax)) s eq_refl), (mbind_run _ _ s (k_regs s (regs + r_edx)) s eq_refl). split.
  - apply HL.
  - intros Hc ret s1 E. rewrite HS by done. rewrite (mbind_run _ _ _ _ _ E). destruct (kt_cancelled s1) eqn:Hc1; [by apply HL|].
    rewrite HS by done. eexists. split; [done|]. cbn. rewrite Z.eqb_refl. split; [done|]. split; [|done]. intros x Hx. by rewrite (proj2 (Z.eqb_neq _ _) Hx).
Qed.

(** ** A vector the kernel does not check *)
(** [user_vecdup] of a vector that cannot be copied: [kvec] has never been
    written, and what it happens to hold is freed. *)
Theorem user_vecdup_junk s vs R u tmp kvec : let n := av_len u + 1 in
  cur_inv (k_vm s) vs R -> amap vs.*2 (ADDR_TO_PN (av_vec u)) = None -> 0 <= av_vec u < 2 ^ 32 -> 0 <= av_len u -> n * 4 < 2 ^ 32 -> 0 < n * sizeof argstr_t < 2 ^ 32 ->
  let h1 := <[tmp := kmalloc_junk (k_heap s) (n * sizeof argstr_t)]> (k_heap s) in let J := kmalloc_junk h1 (n * 4) in
  kmalloc_pick (k_heap s) (n * sizeof argstr_t) = Some tmp -> kmalloc_pick h1 (n * 4) = Some kvec ->
  vec_word J 0 <> 0 -> <[kvec := J]> h1 !! vec_word J 0 = None -> user_vecdup u s = Err FUndef.
Proof.
  intros n I Hm Ha Hl Hn1 Hn2 h1 J Ht Hk Hw Hf. destruct s as [v f h g r]. cbn [k_vm k_heap] in *.
  destruct (kmalloc_fresh _ _ _ Ht) as [Ht0 _]. destruct (kmalloc_fresh _ _ _ Hk) as [Hk0 Hk1]. pose proof (kmalloc_size h1 (n * 4) ltac:(lia)) as HJ. fold J in HJ.
  assert (0 < EFAULT) as Hpos by (pose proof errno_pos as He; rewrite Forall_forall in He; apply He; do 8 right; by left).
  unfold user_vecdup. fold n. rewrite (u32_small n) by lia. rewrite !(u32_small (n * _)) by lia.
  assert (kmalloc (n * sizeof argstr_t) (mkKern v f h g r) = Ok (tmp, mkKern v f h1 g r)) as E1 by (unfold kmalloc, mget; unfold mbind_ at 1; cbn [k_heap]; by rewrite Ht).
  rewrite (mbind_run _ _ _ _ _ E1), (proj2 (Z.eqb_neq _ _) Ht0).
  assert (kmalloc (n * 4) (mkKern v f h1 g r) = Ok (kvec, mkKern v f (<[kvec := J]> h1) g r)) as E2 by (unfold kmalloc, mget; unfold mbind_ at 1; cbn [k_heap]; by rewrite Hk).
  rewrite (mbind_run _ _ _ _ _ E2), (proj2 (Z.eqb_neq _ _) Hk0).
  rewrite (mbind_run _ _ _ _ _ (vm_run _ _ _ _ _ _ _ _ (copy_from_user_bad v vs R (av_vec u) (n * sizeof argstr_t) I Hm Ha (proj1 Hn2)))).
  rewrite (mbind_run (heap_write tmp []) _ _ tt _ eq_refl), (proj2 (Z.ltb_lt _ _)) by lia. unfold vecdup_fail.
  set (s2 := mkKern v f (<[kvec := J]> h1) g r).
  assert (vec_get kvec 0 s2 = Ok (vec_word J 0, s2)) as E3.
  { unfold vec_get. unfold mbind_ at 1. cbn [k_heap s2]. rewrite lookup_insert_eq. cbn [mthe mret_].
    rewrite (proj2 (Z.leb_le (4 * 0 + 4) _)) by lia. done. }
  assert (kfree (vec_word J 0) s2 = Err FUndef) as E4.
  { unfold kfree. rewrite (proj2 (Z.eqb_neq _ _) Hw). unfold mbind_ at 1. cbn [k_heap s2]. by rewrite Hf. }
  rewrite (proj2 (Z.eqb_neq _ _) Hk0). cbn [negb]. unfold mbind_ at 1 2. unfold vec_fuel, mget. unfold mbind_ at 1. cbn [free_strings].
  rewrite (mbind_run _ _ _ _ _ E3), (proj2 (Z.eqb_neq _ _) Hw). unfold mbind_ at 1. by rewrite E4.
Qed.
End Io.
