(* ===== verification/SyscallEx.v ===== *)
(** * System calls: an example

    A process with one page of user memory, the small file system of [TinyFs]
    and kernel memory that reads as zero; the theorems of [SyscallThm] and
    [SyscallIo] applied to it. *)
From stdpp Require Import base gmap list fin_maps.
From Stdlib Require Import ZArith Lia Ascii.
From S2P Require Import Prelude KEnv Vmmap VmAccess Vnode Namev VfsSyscall Syscall SyscallThm SyscallIo TinyFs.
Open Scope Z_scope.
Open Scope c_scope.

Module SyscallExamples.
#[local] Existing Instance seq_klist.
#[local] Existing Instance first_slab.
#[local] Existing Instance i386_geometry.
#[local] Existing Instance count_mmobjs.
#[local] Existing Instance fun_mmu.
#[local] Existing Instance weenix_map_flags.
#[local] Existing Instance count_pages.
#[local] Existing Instance weenix_prot.
#[local] Existing Instance weenix_errno.
#[local] Existing Instance tiny_fs.
#[local] Existing Instance tiny_stat.
#[local] Existing Instance tiny_consts.
#[local] Existing Instance tiny_vnops.
#[local] Existing Instance tiny_files.

(** ** Instances *)
(** An unused address, if there is a 32-bit one. *)
Definition free_addr (h : gmap Z (list Z)) : option Z :=
  let p := fresh (dom h ∪ {[0]} : gset Z) in if (0 <=? p) && (p <? 2 ^ 32) then Some p else None.
Lemma free_addr_fresh h p : free_addr h = Some p -> (p <> 0 /\ h !! p = None) /\ 0 <= p < 2 ^ 32.
Proof.
  unfold free_addr. pose proof (is_fresh (dom h ∪ {[0]} : gset Z)) as H. set (q := fresh _) in *.
  destruct (Z.leb_spec 0 q), (Z.ltb_spec q (2 ^ 32)); cbn; intros [= <-]. split; [|lia]. split; [set_solver|]. apply not_elem_of_dom. set_solver.
Qed.
#[refine, local] Instance zero_mem : KMem := {|
  kmalloc_pick h n := free_addr h;
  page_pick := free_addr;
  kmalloc_junk h n := replicate (Z.to_nat n) 0;
  page_junk h := replicate (Z.to_nat 4096) 0;
|}.
Proof.
  - intros h n p H. exact (proj1 (free_addr_fresh h p H)).
  - intros h n p H. exact (proj2 (free_addr_fresh h p H)).
  - intros h p H. exact (proj1 (free_addr_fresh h p H)).
  - intros h n Hn. rewrite length_replicate. lia.
  - intros h. by rewrite length_replicate.
Defined.
Lemma mem_zeroed : zeroed.
Proof. intros h n. cbn. by apply Forall_replicate. Qed.

(** The word at a user address, when its bytes can be read. *)
#[refine, local] Instance direct : UserAccess := {|
  user_load va := fun v => match vmmap_read (p_vmmap (curproc v)) va 4 v with Ok ((0, bs), _) => Ok (le32 bs, v) | _ => Err FAssert end;
  can_load _ _ := True;
|}.
Proof.
  - done.
  - intros v vs R va bs I _ Hr. pose proof (reads_as_mapped _ _ _ _ _ Hr) as Hm. destruct (mapped_bounds _ _ _ _ _ I Hm) as (B1 & B2 & _); [lia|].
    pose proof (read_loop_run 5 v _ vs R va 4 0 [] I B1 B2 ltac:(lia) Hm ltac:(split; [done|lia]) ltac:(lia)) as H. rewrite Z.add_0_r in H.
    destruct H as [(v' & bs' & E & _ & Hb & _)|[_ F]]; [|by destruct (no_lookup_fails _ _ _ _ _ F)].
    unfold vmmap_read. rewrite u32_small by lia. change (S (Z.to_nat 4)) with 5%nat. rewrite E. by rewrite (reads_as_unique _ _ _ _ _ _ Hb Hr).
Defined.

(** A process without children that nothing cancels. *)
#[refine, local] Instance alone : ProcCalls := {|
  do_waitpid _ _ := mret_ (- ECHILD, 0);
  do_exit c := mfail (FExit c);
  kthread_exit c := mfail (FExit c);
  thr_yield := mret_ tt;
  do_fork _ := mret_ 2;
  p_pid _ := 1;
  kt_cancelled _ := false;
  kt_retval _ := 0;
  pframe_clean_all := mret_ tt;
  proc_kill_all := mret_ tt;
  do_execve _ _ _ _ := mret_ 0;
  do_pipe := mret_ (- EINVAL, []);
  kshell_create _ := mret_ 0;
  kshell_execute_next _ := mret_ 0;
  kshell_destroy _ := mret_ tt;
|}.
Proof. all: try (intros; by eexists). all: intros; by intros s0 x0 s1 [= <- <-]. Defined.

(** Structures of 32-bit words. *)
Definition field (bs : list Z) (i : Z) : Z := le32 (slice (4 * i) 4 bs).
Definition str_field (bs : list Z) (i : Z) : argstr := mkArgstr (field bs i) (field bs (i + 1)).
Definition vec_field (bs : list Z) (i : Z) : argvec := mkArgvec (field bs i) (field bs (i + 1)).
#[refine, local] Instance words : ArgLayouts := {|
  argstr_t := mkLayout 8 (fun bs => str_field bs 0);
  read_args_t := mkLayout 12 (fun bs => mkReadArgs (field bs 0) (field bs 1) (field bs 2));
  write_args_t := mkLayout 12 (fun bs => mkWriteArgs (field bs 0) (field bs 1) (field bs 2));
  getdents_args_t := mkLayout 12 (fun bs => mkGetdentsArgs (field bs 0) (field bs 1) (field bs 2));
  dup2_args_t := mkLayout 8 (fun bs => mkDup2Args (field bs 0) (field bs 1));
  mkdir_args_t := mkLayout 12 (fun bs => mkMkdirArgs (str_field bs 0));
  link_args_t := mkLayout 16 (fun bs => mkLinkArgs (str_field bs 0) (str_field bs 2));
  rename_args_t := mkLayout 16 (fun bs => mkRenameArgs (str_field bs 0) (str_field bs 2));
  lseek_args_t := mkLayout 12 (fun bs => mkLseekArgs (field bs 0) (s32 (field bs 1)) (field bs 2));
  open_args_t := mkLayout 16 (fun bs => mkOpenArgs (str_field bs 0) (field bs 2));
  munmap_args_t := mkLayout 8 (fun bs => mkMunmapArgs (field bs 0) (field bs 1));
  mmap_args_t := mkLayout 24 (fun bs => mkMmapArgs (field bs 0) (field bs 1) (field bs 2) (field bs 3) (field bs 4) (field bs 5));
  waitpid_args_t := mkLayout 12 (fun bs => mkWaitpidArgs (s32 (field bs 0)) (field bs 1) (field bs 2));
  stat_args_t := mkLayout 12 (fun bs => mkStatArgs (str_field bs 0) (field bs 2));
  execve_args_t := mkLayout 24 (fun bs => mkExecveArgs (str_field bs 0) (vec_field bs 2) (vec_field bs 4));
  read_buf_off := 4; write_buf_off := 4; write_nbytes_off := 8; getdents_dirp_off := 4;
  uts_sysname := 0; uts_release := 65; uts_version := 130; uts_nodename := 195; uts_machine := 260;
|}.
Proof. all: try (intros; cbn; split; [lia|split; [lia|done]]). by repeat constructor. Defined.
#[refine, local] Instance numbers : SysConsts := {|
  SYS_exit := 1; SYS_fork := 2; SYS_read := 3; SYS_write := 4; SYS_open := 5; SYS_close := 6; SYS_waitpid := 7; SYS_link := 8; SYS_unlink := 9;
  SYS_execve := 10; SYS_chdir := 11; SYS_lseek := 12; SYS_sync := 13; SYS_dup := 14; SYS_pipe := 15; SYS_dup2 := 16; SYS_rename := 17; SYS_mkdir := 18;
  SYS_rmdir := 19; SYS_brk := 20; SYS_mmap := 21; SYS_munmap := 22; SYS_getdents := 23; SYS_stat := 24; SYS_uname := 25; SYS_thr_exit := 26;
  SYS_thr_yield := 27; SYS_getpid := 28; SYS_errno := 29; SYS_set_errno := 30; SYS_halt := 31; SYS_debug := 32; SYS_kshell := 33;
  MAP_FAILED := 4294967295; ENOSYS := 38; r_eax := 36; r_edx := 28; version_string := [49; 0];
|}.
Proof. apply (bool_decide_unpack _). by vm_compute. Defined.

(** ** The process *)
(** The page of user memory at 4505600 (page 1100): the arguments of the calls
    at 0, 16 and 32, a path at 64, a message at 80. *)
Definition at_page (off : Z) (bs l : list Z) : list Z := list_inserts (Z.to_nat off) bs l.
Definition base : Z := 1100 * 4096.
Definition write_bytes : list Z := bytes32 0 ++ bytes32 (base + 80) ++ bytes32 4.
Definition read_bytes : list Z := bytes32 0 ++ bytes32 (base + 80) ++ bytes32 2.
Definition open_bytes : list Z := bytes32 (base + 64) ++ bytes32 2 ++ bytes32 0 ++ bytes32 0.
Definition message : list Z := [104; 105; 33; 10].
Definition user_page : list Z :=
  at_page 80 message (at_page 64 (c_string Examples.path_a) (at_page 32 open_bytes (at_page 16 read_bytes (at_page 0 write_bytes zero_page)))).
Definition user : vms := upd_objs (mkCobjs [5; 5; 6] None 100 (fun o n => if (o =? 5) && (n =? 0) then user_page else [])) st1.
(** eax and edx of a [write]. *)
Definition kern0 : kern := mkKern user Examples.s0 ∅ ∅ (fun a => if a =? 36 then 4 else if a =? 28 then base else 0).

Lemma user_inv : cur_inv user vs0 [6].
Proof. exact st1_inv. Qed.
(** Reading a few bytes of the page. *)
Definition reads_check (va n : Z) (bs : list Z) : bool :=
  (Z.of_nat (length bs) =? n) && forallb (fun i => bool_decide (bs !! i = aspace_byte (objs user) vs0.*2 (va + Z.of_nat i))) (seq 0 (Z.to_nat n)).
Lemma reads_by va n bs : reads_check va n bs = true -> reads_as (objs user) vs0.*2 va n bs.
Proof.
  intros [H1%Z.eqb_eq H2]%andb_true_iff. split; [done|]. intros i Hi. rewrite forallb_forall in H2. specialize (H2 (Z.to_nat i)).
  apply bool_decide_eq_true in H2; [by rewrite Z2Nat.id in H2 by lia|]. apply in_seq. lia.
Qed.
Lemma user_range va n : base <= va -> va + n <= base + 40960 -> range_mapped vs0.*2 va n.
Proof. intros. apply vs0_range; unfold base in *; lia. Qed.
Definition first_free : Z := fresh ({[0]} : gset Z).

(** ** The theorems on this state *)
Lemma sys_write_correct_witness : exists err f' v', do_write 0 message Examples.s0 = Ok (err, f') /\
  sys_write base kern0 = Ok (result err, mkKern (with_result err v') f' ∅ ∅ (k_regs kern0)) /\ vsame vs0 [6] user v'.
Proof.
  destruct (sys_write_correct kern0 vs0 [6] base write_bytes message first_free) as [H|[_ F]]; cbn [k_vm k_fs kern0];
    [apply user_inv|apply reads_by; vm_compute; reflexivity|done|done|done|done|apply reads_by; vm_compute; reflexivity|done|done|vm_compute; reflexivity| |
     by destruct (no_lookup_fails _ _ _ _ _ F)].
  change (wa_nbytes (decode write_args_t write_bytes) <=? PAGE_SIZE) with true in H.
  change (wa_fd (decode write_args_t write_bytes)) with 0 in H. cbv iota in H. cbn [k_fs kern0] in H.
  destruct (do_write 0 message Examples.s0) as [[err f']|e] eqn:E; [|clear H; by apply (f_equal (fun o => match o with Ok _ => true | Err _ => false end)) in E; vm_compute in E].
  destruct H as (v' & H1 & H2). exists err, f', v'. split; [done|]. split; [exact H1|exact H2].
Defined.
Lemma sys_read_correct_witness : exists err data f' v', do_read 0 2 Examples.s0 = Ok ((err, data), f') /\
  sys_read (base + 16) kern0 = Ok (result err, mkKern (with_result err v') f' ∅ ∅ (k_regs kern0)) /\ written vs0 [6] user (base + 80) data v'.
Proof.
  pose proof (sys_read_correct kern0 vs0 [6] (base + 16) read_bytes first_free) as H. cbn [k_vm k_fs kern0] in H.
  specialize (H user_inv ltac:(apply reads_by; vm_compute; reflexivity) ltac:(done) ltac:(done) ltac:(done) ltac:(vm_compute; reflexivity)).
  change (ra_fd (decode read_args_t read_bytes)) with 0 in H. change (ra_nbytes (decode read_args_t read_bytes)) with 2 in H.
  destruct (do_read 0 2 Examples.s0) as [[[err data] f']|e] eqn:E; [|clear H; by apply (f_equal (fun o => match o with Ok _ => true | Err _ => false end)) in E; vm_compute in E]. exists err, data, f'.
  assert (err = 2 /\ data = [7; 8]) as [-> ->] by (apply (f_equal (fun o => match o with Ok (p, _) => p | Err _ => (0, []) end)) in E; vm_compute in E; by inversion E).
  specialize (H eq_refl ltac:(intros _; split; [apply user_range; vm_compute; done|split; vm_compute; done])).
  destruct H as [H'|[_ F]]; [|by destruct (no_lookup_fails _ _ _ _ _ F)].
  change (2 <=? PAGE_SIZE) with true in H'. cbv iota in H'.
  destruct H' as (v' & H1 & H2). exists v'. split; [done|]. split; [exact H1|exact H2].
Defined.
Lemma sys_path_correct_witness : exists err f' v', do_open Examples.path_a 0 Examples.s0 = Ok (err, f') /\
  sys_open (base + 32) kern0 = Ok (result err, mkKern (with_result err v') f' ∅ ∅ (k_regs kern0)) /\ vsame vs0 [6] user v'.
Proof.
  pose proof (sys_path_correct sys_open _ open_args_t oa_filename _ kern0 vs0 [6] (base + 32) open_bytes (c_string Examples.path_a) ps_open) as H.
  cbn [k_vm k_fs kern0] in H.
  specialize (H user_inv ltac:(apply reads_by; vm_compute; reflexivity) ltac:(done) ltac:(done) ltac:(done) ltac:(apply reads_by; vm_compute; reflexivity) ltac:(done) ltac:(done)).
  destruct H as [H|[_ F]]; [|by destruct (no_lookup_fails _ _ _ _ _ F)].
  change (oa_flags (decode open_args_t open_bytes)) with 0 in H.
  replace (kmalloc_pick _ _) with (Some first_free) in H by (vm_compute; reflexivity).
  replace (until_nul _) with (Some Examples.path_a) in H by (vm_compute; reflexivity).
  destruct (do_open Examples.path_a 0 Examples.s0) as [[err f']|e] eqn:E; [|clear H; by apply (f_equal (fun o => match o with Ok _ => true | Err _ => false end)) in E; vm_compute in E].
  destruct H as (v' & H1 & H2). exists err, f', v'. split; [done|]. split; [exact H1|exact H2].
Defined.
Lemma syscall_efault_witness : syscall_dispatch 0 SYS_open 4096 0 kern0 =
  Ok (if SYS_open =? SYS_mmap then s32 MAP_FAILED else -1, upd_vm (upd_errno EFAULT (k_vm kern0)) kern0).
Proof.
  apply (syscall_efault 0 SYS_open 4096 0 kern0 vs0 [6]); [do 3 right; by left|apply user_inv|vm_compute; reflexivity|done].
Defined.
Lemma syscall_balanced_witness :
  match syscall_dispatch 0 SYS_write base 0 kern0 with
  | Ok (_, s') => k_heap s' = k_heap kern0 /\ k_pages s' = k_pages kern0
  | Err _ => False
  end.
Proof.
  destruct (syscall_dispatch 0 SYS_write base 0 kern0) as [[r s']|e] eqn:E.
  - by apply (syscall_balanced 0 SYS_write base 0 kern0 r s'); [..|right; apply mem_zeroed|].
  - apply (f_equal (fun o => match o with Ok _ => true | Err _ => false end)) in E. by vm_compute in E.
Defined.
Lemma syscall_handler_correct_witness : exists s', syscall_handler 0 0 kern0 = Ok (tt, s') /\ k_regs s' 36 = 4.
Proof.
  destruct (syscall_dispatch 0 (u32 (k_regs kern0 (0 + r_eax))) (u32 (k_regs kern0 (0 + r_edx))) 0 kern0) as [[ret s1]|e] eqn:E.
  - assert (kt_cancelled kern0 = false) as Hc by done. destruct (proj2 (syscall_handler_correct 0 0 kern0) Hc ret s1 E) as (s' & H1 & H2 & _). exists s'. split; [done|].
    assert (ret = 4) as ->; [|done].
    apply (f_equal (fun o => match o with Ok (r, _) => r | Err _ => 0 end)) in E. by vm_compute in E.
  - apply (f_equal (fun o => match o with Ok _ => true | Err _ => false end)) in E. by vm_compute in E.
Defined.
End SyscallExamples.
